(* ===== verification/_CoqProject ===== *)
-Q . S2P
Prelude.v
Config.v
Dsp.v
Ring.v
ISort.v
Peak.v
Fft.v
Corr.v
Adapt.v
Fuse.v
Change.v
Decimal.v
Telemetry.v
Vitals.v
VitalsInv.v
VitalsLive.v
VitalsSpec.v
VitalsTelem.v
VitalsTime.v
Board.v
Platform.v
World.v
Timers.v
I2c.v
Stream.v
Display.v
Adc.v
Sensors.v
Text.v
Wisun.v
Report.v
ReportSpec.v
Uart.v
Helmet.v
System.v
LinkInv.v
Schedule.v
Invariants.v
LinkSpec.v
SensorsSpec.v
BusInv.v
HeadsetSm.v
HeadsetLogic.v
HeadsetDiagram.v
HeadsetCalls.v
HeadsetSpec.v
Filter.v
Battery.v
Charge.v
Thermo.v
Region.v
Charger.v
Power.v
SystemState.v
PowerManager.v
