(* ===== verification/Prelude.v ===== *)
(** * Smart_Helmet: the firmware module, modelled and verified

    The repository is a headset application on Qualcomm's ADK with a module
    of its own, src/headset/src/smart_helmet: a safety helmet that samples a
    pulse sensor, an accelerometer, gas and climate sensors, draws a small
    display and reports over a Wi-SUN modem to a border router.  This library
    models that module whole, as it is written, in every build configuration;
    the state machine of the headset that powers it; and the power domain of
    the ADK, which the project changes and on which the battery, the charging
    and the shutdown of the helmet rest; and proves what makes them correct.

    ** The parts and where they are

    The vitals engine, smart_helmet_vitals.c and .h:
    - Config: the macros of smart_helmet_config.h it uses; the macros that
      switch code in or out are the class HelmetConfig, [shipped] the default.
    - Dsp (square root, saturating sums, filters), Ring (the sample buffers
      and their chronological copy), ISort (the insertion sort), Peak
      (shPeakBpm), Fft (shFftRadix2, shFftBpm), Corr (shAutoCorrBpm,
      shRespPush, shRespBpm), Adapt (shMotionCancel), Fuse (the gates and
      shFuseHr), Change (shUpdateHrChange), Decimal and Telemetry
      (shTelem...).
    - Vitals: the record [vitals] of the statics, one definition per entry
      point (SmartHelmet_VitalsInit, PushAccel, OnSensSample, Process,
      TakeFall ...), and the step [vitals_step] over its calls.
    - VitalsInv, VitalsSpec, VitalsTime, VitalsTelem, VitalsLive: its theorems.

    The drivers and the firmware:
    - Board: the switches (class BoardConfig, [shipped_board]) and constants.
    - Platform: the state monad [M], its frames ([keeps], [inv], [leads]) and
      the platform: one request per SDK function the module calls, and
      the class Platform whose [serve] answers it.
    - World: the statics of all files, the platform's state and the trace of
      calls with their answers; [IO] is the monad over it.  Timers: the laws
      of the message timers.
    - I2c (smart_helmet_i2c.c), Adc (smart_helmet_adc.c), Display and Sensors
      (smart_helmet_sensors.c), Text, Wisun and Uart (smart_helmet_uart.c),
      Stream (SmartHelmet_UartSend and the telemetry sink), Report and Helmet
      (smart_helmet.c): a definition per function under the function's name,
      with names of their own for loops and branches.
    - System: what the headset calls ([Entry]), the timers that fire, the step
      relation [sys_step] and [reachable], with its rule induction.
    - ReportSpec, LinkInv, LinkSpec, SensorsSpec, BusInv, Schedule,
      Invariants: the theorems about them.

    The headset:
    - HeadsetSm: headset_sm.c and headset_wired_audio_controller.c, over the
      class Surroundings, which serves the calls to the rest of the headset
      and the ADK.
    - HeadsetLogic: triples over its handlers and the walk through all of
      them; HeadsetDiagram: the next state; HeadsetCalls: what it asks of the others, and when; HeadsetSpec:
      the headset and the module together, where the calls to the module are
      served by the definitions of Helmet.

    The power domain, src/adk/src/domains/power and sensor/temperature, with
    the tables of headset_..._config.c:
    - Filter: the median filter and the average that two files have.
      Battery (battery_monitor.c), Charge (state_of_charge.c), Thermo
      (temperature.c, thermistor.c), Region (battery_region.c), Charger
      (charger_monitor.c): a record of the statics of each file, a definition
      per function that gives the new state and what was sent, in order.
    - Power: the five together, with a queue of the messages between them.
    - SystemState (system_state.c with the tables of headset_init.c) and
      PowerManager (power_manager.c and its neighbours), with both together
      in [system_run].

    A handler ends where the code returns; what it changes is in the record
    of its file; a C static inside a function is a field as well.  An unsigned
    or signed width is written out ([u8], [u16], [u32], [i16], [i32] of this
    file) wherever the code stores or computes with it.  Logging is left out,
    and so are the strings kept for the log only.

    ** How the parts interact

    The headset calls the entries; timers and SDK messages come to
    smartHelmetTaskHandler, which passes them to the motion poll, the sensor
    retry, the converter and the link.  Sensors and converter feed
    the vitals engine; its telemetry and the report go out through the stream;
    received bytes come in through shUartDrain, drive the link machine, and
    can restart the engine; every change of state redraws the display.  All of
    them share one task, so a step of [sys_step] is one call or one message.

    The headset refreshes the module with every change of its state, which
    powers it on or off, asks it for the link before an idle power-off, and is
    called back when the border router comes or goes
    (headsetSmOnWisunBrOnlineChanged), a step of its own.

    The battery monitor posts its voltage to the state of charge.  Once a
    second the regions ask the monitor, the thermometer and the charger for
    voltage, temperature and connection, and have the charger update its
    current, which asks the regions for it in turn; their timer disables the
    charger.  The charger posts its connection to the regions and to the
    state of charge.  The power manager asks charger, regions and thermometer
    whether the device may or must go off ([power_env]), asks its clients to
    prepare, and has the system state run its table.

    ** What is shown

    - Over every run of the module, from the zeroed statics, with any calls,
      messages, received bytes and answers of the platform: no timer is
      pending twice and the ones that keep the module alive are pending
      (Schedule.timers_reachable); power-off leaves no timer and no stream
      (power_off_silent); the link stays in its buffers and its flags mean
      what they say (LinkInv.link_reachable); every value keeps its type and
      range (Invariants.values_reachable); every cycle on the I2C buses is
      one that a device understands, on a handle programmed with the address
      of that device (BusInv.buses_reachable).
    - The link: the check ends, whatever the module sends in between
      (LinkSpec.link_settles); provisioning sends the commands of the settings
      that a reply does not show, by a table of its own (provision_sends); a
      restart command is seen however the stream cuts it
      (restart_across_chunks); and the drain hands every piece of the stream
      over once, in order, and ends (drain_delivers).
    - The report: eleven lines, never cut, one frame each
      (ReportSpec.report_sends_its_lines), and held when it must be
      (report_held).
    - The drivers: the sensor bring-up ends (SensorsSpec.verify_settles),
      conversions are exact, panel data goes out in order; transfers are
      addressed and retried once (I2c); scans and SENS samples interleave
      without mixing (Adc); the recognition of replies is the search it
      means to be (Text).
    - The estimators: each of Dsp, Ring, Peak, Fft, Corr, Adapt, Fuse and
      Change has its functional meaning, its bounds or its absence of
      overflow, with the general lemmas behind it.
    - The engine: its invariant over every sequence of calls (VitalsInv),
      what a reported rate is backed by, the hold-off and the motion gate,
      the fall latch (VitalsSpec), the measured time base (VitalsTime), and,
      in a build with ENABLE_VITALS_CSV, the telemetry record with the columns
      the README lists (VitalsTelem).  VitalsLive evaluates the whole engine
      on eleven pulses, from power-on to the rate that is reported.
    - The headset: in every state that it and the module can reach together
      the module is powered exactly when it should be
      (HeadsetSpec.power_follows_state); the next state is the one of the
      diagram of headset_sm.h and of the edges it does not show, for every
      message in every state (HeadsetDiagram.sm_next_state), with a panic in
      two cases only (HeadsetLogic.panics_only); power-off is asked for when due, and limbo ends in it
      (HeadsetCalls.power_off_only_when_due, limbo_powers_off).
    - Charging: the charger draws what the regions allow for the voltage and
      the temperature reported (Power.charging_current_safe), stays off after
      the charging timer until it is detached (charging_timeout_holds; the
      debug build has an entry of its own that restarts the timer), and is enabled exactly when
      no reason disables it (Charger.charger_enabled_iff); every update finds
      a region (Region.update_finds_region).
    - The readings: the charge follows the voltage while charging, unless an
      upgrade that checks its hash holds the message back
      (Power.charge_follows_voltage), and never rises without a charger
      (Charge.soc_discharge_monotone); both conversions of a voltage to a
      temperature agree and are exact (Thermo.temperature_exact), filtered
      readings stay within the bounds of the measurements
      (Battery.battery_average_within, Thermo.temperature_reported, which also
      shows that every client was last told the current state), and
      measuring goes on (Battery.battery_goes_on).
    - Going off: a transition runs its steps once and in order
      (SystemState.transition_runs_once); the system is always in a state of
      its tables (system_states_reachable); the manager shuts down only when
      every client is ready (PowerManager.shutdown_only_ready), does not wait
      for ever (answers_end_wait), and a request in limbo ends with the device
      off (power_off_request).

    Some lemmas record where the code does not do what it means to:
    Fft.shFftRadix2_gain, LinkSpec.late_ok_stops_reports and
    rejoin_clock_wraps, Text.shNoteStatus_offset,
    ReportSpec.gas_ratio_truncates, SensorsSpec.mlx_wraps,
    HeadsetCalls.never_display and limbo_stranded, Charge.helmet_level_below,
    Thermo.zero_reading_stops, reached_from_below and average_stays_below,
    Region.replug_loses_timer and critical_fast_at_80,
    SystemState.late_confirmation_beyond_table,
    PowerManager.asleep_for_good and init_shutdown_rejected.

    ** The platform, the builds and the laws

    What a build defines is a class as well: HelmetConfig and BoardConfig for
    the module, HeadsetBuild, SocBuild, ThermoBuild, RegionBuild and
    ChargerBuild, with the values of the project's release and debug builds as
    instances to pass.  HelmetInside, in HeadsetSpec, states of the surroundings of the
    headset that they serve a call to the module with the module; Frame, in
    HeadsetLogic, what a call to the others leaves alone.  A call that the
    power manager makes to the system state returns or not ([pm_env]).

    The SDK is not in the repository, so it is a parameter.  What a theorem
    needs of it is a class: TimerLaws (a message sent later is pending until
    it fires or is cancelled), BitserialLaws (a handle belongs to the block
    it was opened for), SinkAccepts (a sink with room takes a frame),
    SourceLaws (the source is a queue of bytes), ClockLaws (the clock
    advances) and GettersPure (a question about audio or pairing changes no
    answer, in HeadsetDiagram).  The witnesses run on
    [bench], a concrete platform, with timers ([timed]) or a byte queue
    ([piped]) added to it, for which the laws are proved.

    ** Fuel and bounds

    Loops over buffers recurse on a counter that bounds them by the buffer's
    size, with the bound proved enough where a theorem depends on it
    (SensorsSpec.chunks_from, ReportSpec.send_frames_text, Peak, Fft).  The
    drain takes 65536 turns, one more than a stream that a uint16 measures
    can fill (drain_delivers).  The wait of the HDC1080 takes 20001 readings
    of the clock, enough for one that advances by a microsecond
    (SensorsSpec.hdc_wait_ends).  The link
    rests within [link_bound] timeouts, 41 in the shipped build.  The sensors
    are tried I2C_PROBE_RETRY_MAX times.

    The power components need no fuel but for the searches of their tables,
    which count the entries to go.  The theorems over time count
    measurements: 27 equal ones bring the average within 7 mV.

    ** Not modelled

    The rest of the ADK: libraries, profiles, audio, Bluetooth topologies and
    user interface, which the helmet uses as they are.  Of the power domain,
    charger_detect.c and charger_vchg_monitor.c, which neither build of the
    project compiles in; power_manager_action.c and system_reboot.c, which
    only call the firmware; the registration of message groups apart from the
    manager's; and the flags for tests.  Of the headset application, the
    initialisation steps of headset_init.c, which register and configure, the
    tables of user interface and LEDs, the audio chains, USB, and the debug
    entries of headset_test.c; the host harness under src/headset/test.
    Within the module: log output with the text kept for it (shLogAscii,
    shLogRxShape, shLogBrReport, shHrLogWhy) and the pin macros of the
    debugger.  Addresses of buffers and NULL pointers: a buffer is a list.

    The power domain is not joined with the headset in one step relation: the
    messages that the charger, the state of charge and the system state send
    to headset_sm.c are inputs of HeadsetSm, any of which may come at any
    time, so that its theorems hold of every order the power domain can
    produce.

    This file holds the shared notation, machine integers, arrays, loops and
    automation. *)
From stdpp Require Export base numbers list.
#[global] Open Scope Z_scope.

(** * Machine integers

    A [w]-bit integer is a [Z]; the casts of the C code are the functions
    below.  Two's complement is what the target compiler implements for a
    conversion to a narrower signed type, and what it emits when a signed
    operation overflows; the theorems about ranges show where that never
    happens. *)
Definition u8 (x : Z) : Z := x mod 256.
Definition u16 (x : Z) : Z := x mod 65536.
Definition u32 (x : Z) : Z := x mod 4294967296.
Definition i16 (x : Z) : Z := (x + 32768) mod 65536 - 32768.
Definition i32 (x : Z) : Z := (x + 2147483648) mod 4294967296 - 2147483648.

Definition is_u8 (x : Z) : Prop := 0 <= x < 256.
Definition is_u16 (x : Z) : Prop := 0 <= x < 65536.
Definition is_u32 (x : Z) : Prop := 0 <= x < 4294967296.
Definition is_i16 (x : Z) : Prop := -32768 <= x < 32768.
Definition is_i32 (x : Z) : Prop := -2147483648 <= x < 2147483648.

#[export] Instance is_u8_dec x : Decision (is_u8 x).
Proof. unfold is_u8. apply _. Defined.
#[export] Instance is_u16_dec x : Decision (is_u16 x).
Proof. unfold is_u16. apply _. Defined.
#[export] Instance is_u32_dec x : Decision (is_u32 x).
Proof. unfold is_u32. apply _. Defined.
#[export] Instance is_i16_dec x : Decision (is_i16 x).
Proof. unfold is_i16. apply _. Defined.
#[export] Instance is_i32_dec x : Decision (is_i32 x).
Proof. unfold is_i32. apply _. Defined.

(** [zlia]: linear arithmetic after division and remainder (of both kinds)
    are replaced by their defining equations. *)
Ltac zlia := Z.to_euclidean_division_equations; lia.

Ltac unfold_ranges :=
  unfold is_u8, is_u16, is_u32, is_i16, is_i32 in *.

(** [rlia]: as [lia], seeing through the range predicates. *)
Ltac rlia := unfold_ranges; lia.

(** [vdec]: prove a closed decidable proposition by evaluating its decision. *)
Ltac vdec := refine (bool_decide_unpack _ _); vm_compute; exact I.

Lemma u8_small x : is_u8 x -> u8 x = x.
Proof. apply Z.mod_small. Qed.
Lemma u16_small x : is_u16 x -> u16 x = x.
Proof. apply Z.mod_small. Qed.
Lemma u32_small x : is_u32 x -> u32 x = x.
Proof. apply Z.mod_small. Qed.
Lemma i16_small x : is_i16 x -> i16 x = x.
Proof. unfold is_i16, i16. intros. rewrite Z.mod_small by lia. lia. Qed.
Lemma i32_small x : is_i32 x -> i32 x = x.
Proof. unfold is_i32, i32. intros. rewrite Z.mod_small by lia. lia. Qed.

Lemma u8_range x : is_u8 (u8 x).
Proof. by apply Z.mod_pos_bound. Qed.
Lemma u16_range x : is_u16 (u16 x).
Proof. by apply Z.mod_pos_bound. Qed.
Lemma u32_range x : is_u32 (u32 x).
Proof. by apply Z.mod_pos_bound. Qed.
Lemma i16_range x : is_i16 (i16 x).
Proof.
  unfold is_i16, i16. pose proof (Z.mod_pos_bound (x + 32768) 65536). lia.
Qed.
Lemma i32_range x : is_i32 (i32 x).
Proof.
  unfold is_i32, i32.
  pose proof (Z.mod_pos_bound (x + 2147483648) 4294967296). lia.
Qed.

Create Rewrite HintDb wrap.
#[export] Hint Rewrite u8_small u16_small u32_small i16_small i32_small
  using (unfold_ranges; lia) : wrap.
Create HintDb ranges.
#[export] Hint Resolve u8_range u16_range u32_range i16_range i32_range : ranges.

(** [unwrap]: remove every cast whose argument is provably in range. *)
Tactic Notation "unwrap" := autorewrite with wrap.
Tactic Notation "unwrap" "in" hyp(H) := autorewrite with wrap in H.

(** [zcase]: decide an innermost integer comparison of the goal. *)
Ltac no_if t := lazymatch t with context [if _ then _ else _] => fail | _ => idtac end.
Ltac zcase :=
  match goal with
  | |- context [?a <? ?b] => no_if a; no_if b; destruct (Z.ltb_spec a b)
  | |- context [?a <=? ?b] => no_if a; no_if b; destruct (Z.leb_spec a b)
  | |- context [?a =? ?b] => no_if a; no_if b; destruct (Z.eqb_spec a b)
  end.

(** * C division

    [/] on signed operands truncates towards zero ([Z.quot], written [÷]);
    on unsigned operands it is [Z.div], written [/]. *)
Lemma quot_bound x d b : 0 < d -> - b * d <= x <= b * d -> - b <= x ÷ d <= b.
Proof. intros. Z.to_euclidean_division_equations. nia. Qed.

Lemma quot_0_r x : x ÷ 0 = 0.
Proof. by destruct x. Qed.

Lemma quot_abs x d : 0 < d -> Z.abs (x ÷ d) = Z.abs x / d.
Proof.
  intros Hd. rewrite <- Z.quot_div_nonneg by lia.
  rewrite <- Z.quot_abs by lia. by rewrite (Z.abs_eq d) by lia.
Qed.

Lemma quot_sq x d : 0 < d -> (x ÷ d) * (x ÷ d) * (d * d) <= x * x.
Proof.
  intros Hd. pose proof (quot_abs x d Hd). pose proof (Z.mul_div_le (Z.abs x) d Hd).
  rewrite <- (Z.abs_square x), <- (Z.abs_square (x ÷ d)).
  pose proof (Z.abs_nonneg (x ÷ d)). rewrite <- (Z.mul_shuffle1 _ d).
  apply Z.mul_le_mono_nonneg; nia.
Qed.

Lemma mul_abs_le a b A B :
  - A <= a <= A -> - B <= b <= B -> - (A * B) <= a * b <= A * B.
Proof. nia. Qed.

Lemma quot_abs_le x d : 0 < d -> Z.abs (x ÷ d) <= Z.abs x.
Proof. intros Hd. rewrite quot_abs by done. apply Z.div_le_upper_bound; nia. Qed.

(** * Arrays

    A C array is the list of its elements, read and written by index.  C
    leaves an access out of range undefined; here a read gives [0] and a
    write does nothing, and the invariants show that no index is out of
    range. *)
Definition aget (a : list Z) (i : Z) : Z := nth (Z.to_nat i) a 0.
Definition aset (a : list Z) (i v : Z) : list Z := <[Z.to_nat i := v]> a.
Definition alen (a : list Z) : Z := Z.of_nat (length a).

Lemma alen_nonneg a : 0 <= alen a.
Proof. unfold alen. lia. Qed.

Lemma alen_aset a i v : alen (aset a i v) = alen a.
Proof. unfold alen, aset. by rewrite length_insert. Qed.

Lemma aget_lookup a i x : a !! Z.to_nat i = Some x -> aget a i = x.
Proof. unfold aget. intros H. by rewrite nth_lookup, H. Qed.

Lemma aget_aset_eq a i v : 0 <= i < alen a -> aget (aset a i v) i = v.
Proof.
  unfold alen, aset. intros H. apply aget_lookup, list_lookup_insert_eq. lia.
Qed.

Lemma aget_aset_ne a i j v :
  0 <= i -> 0 <= j -> i <> j -> aget (aset a i v) j = aget a j.
Proof.
  unfold aget, aset. intros. rewrite !nth_lookup, list_lookup_insert_ne; [done | lia].
Qed.

Lemma aget_Forall (P : Z -> Prop) a i :
  Forall P a -> P 0 -> P (aget a i).
Proof.
  intros Ha H0. unfold aget. rewrite nth_lookup.
  destruct (a !! _) eqn:E; simpl; [| done].
  rewrite Forall_lookup in Ha. eauto.
Qed.

Lemma aset_Forall (P : Z -> Prop) a i v : Forall P a -> P v -> Forall P (aset a i v).
Proof. intros. unfold aset. by apply Forall_insert. Qed.

(** * Loops

    [for (i = lo; i < hi; i++) s = f i s], with the rules for invariants;
    [while (c s) s = b s] is run with fuel, and [while_spec] is used with a
    measure that shows the fuel is never exhausted. *)
Definition for_ {S : Type} (lo hi : Z) (f : Z -> S -> S) (s : S) : S :=
  fold_left (fun s i => f i s) (seqZ lo (hi - lo)) s.

Lemma for_nil {S} lo hi (f : Z -> S -> S) s : hi <= lo -> for_ lo hi f s = s.
Proof. intros. unfold for_. by rewrite seqZ_nil by lia. Qed.

Lemma for_cons {S} lo hi (f : Z -> S -> S) s :
  lo < hi -> for_ lo hi f s = for_ (lo + 1) hi f (f lo s).
Proof.
  intros. unfold for_. rewrite seqZ_cons by lia. simpl.
  by replace (Z.pred (hi - lo)) with (hi - (lo + 1)) by lia.
Qed.

Lemma for_snoc {S} lo hi (f : Z -> S -> S) s :
  lo <= hi -> for_ lo (hi + 1) f s = f hi (for_ lo hi f s).
Proof.
  intros. unfold for_. replace (hi + 1 - lo) with ((hi - lo) + 1) by lia.
  rewrite seqZ_app, fold_left_app by lia. simpl.
  by replace (lo + (hi - lo)) with hi by lia.
Qed.

(** The invariant rule: [P i s] holds before the iteration of index [i]. *)
Lemma for_ind {S} (P : Z -> S -> Prop) lo hi (f : Z -> S -> S) s :
  lo <= hi -> P lo s ->
  (forall i s, lo <= i < hi -> P i s -> P (i + 1) (f i s)) ->
  P hi (for_ lo hi f s).
Proof.
  intros Hle H0 Hstep. remember (Z.to_nat (hi - lo)) as n eqn:Hn.
  revert hi Hle Hn Hstep. induction n as [| n IH]; intros hi Hle Hn Hstep.
  - assert (hi = lo) as -> by lia. by rewrite for_nil by lia.
  - replace hi with ((hi - 1) + 1) by lia. rewrite for_snoc by lia.
    apply Hstep; [lia |]. apply IH; [lia | lia |]. intros. apply Hstep; [lia | done].
Qed.

(** An invariant that does not mention the index. *)
Lemma for_inv {S} (P : S -> Prop) lo hi (f : Z -> S -> S) s :
  P s -> (forall i s, lo <= i < hi -> P s -> P (f i s)) -> P (for_ lo hi f s).
Proof.
  intros H0 Hstep. destruct (Z.le_gt_cases lo hi).
  - by apply (for_ind (fun _ => P)).
  - by rewrite for_nil by lia.
Qed.

Lemma for_ext {S} lo hi (f g : Z -> S -> S) s :
  (forall i s, lo <= i < hi -> f i s = g i s) -> for_ lo hi f s = for_ lo hi g s.
Proof.
  intros H. destruct (Z.le_gt_cases lo hi).
  - apply (for_ind (fun i x => x = for_ lo i g s)); [done | by rewrite for_nil by lia |].
    intros i x Hi ->. rewrite for_snoc by lia. by apply H.
  - by rewrite !for_nil by lia.
Qed.

(** Two loops in step, related by [R]. *)
Lemma for_rel {S T} (R : S -> T -> Prop) lo hi (f : Z -> S -> S) (g : Z -> T -> T) s t :
  R s t -> (forall i s t, lo <= i < hi -> R s t -> R (f i s) (g i t)) ->
  R (for_ lo hi f s) (for_ lo hi g t).
Proof.
  intros H0 Hstep. destruct (Z.le_gt_cases lo hi).
  - apply (for_ind (fun i x => R x (for_ lo i g t)) lo hi f s); [done | by rewrite for_nil by lia |].
    intros i x Hi HR. rewrite for_snoc by lia. by apply Hstep.
  - by rewrite !for_nil by lia.
Qed.

(** [for (i = lo; i < hi; i += step)] *)
Definition for_step {S : Type} (lo hi step : Z) (f : Z -> S -> S) (s : S) : S :=
  for_ 0 ((hi - lo + step - 1) / step) (fun k => f (lo + k * step)) s.

(** Two loops that agree while an invariant holds. *)
Lemma for_ext_ind {S} (P : Z -> S -> Prop) lo hi (f g : Z -> S -> S) s :
  lo <= hi -> P lo s ->
  (forall i s, lo <= i < hi -> P i s -> f i s = g i s /\ P (i + 1) (g i s)) ->
  for_ lo hi f s = for_ lo hi g s /\ P hi (for_ lo hi g s).
Proof.
  intros Hle H0 Hstep.
  apply (for_ind (fun i x => x = for_ lo i g s /\ P i (for_ lo i g s)) lo hi f s);
    [done | by rewrite for_nil by lia |].
  intros i x Hi [-> HP]. destruct (Hstep i _ Hi HP) as [-> HP'].
  rewrite for_snoc by lia. done.
Qed.

Fixpoint while_ {S : Type} (fuel : nat) (c : S -> bool) (b : S -> S) (s : S) : S :=
  match fuel with
  | O => s
  | S fuel => if c s then while_ fuel c b (b s) else s
  end.

(** Partial and total correctness together: when the measure [m] decreases
    and starts within the fuel, the loop ends because its condition fails. *)
Lemma while_spec {S} (P : S -> Prop) (m : S -> nat) fuel c b s :
  P s -> (m s < fuel)%nat ->
  (forall s, P s -> c s = true -> P (b s) /\ (m (b s) < m s)%nat) ->
  P (while_ fuel c b s) /\ c (while_ fuel c b s) = false.
Proof.
  revert s. induction fuel as [| fuel IH]; intros s HP Hm Hstep; simpl; [lia |].
  destruct (c s) eqn:Hc; [| done].
  destruct (Hstep s HP Hc). apply IH; [done | lia | done].
Qed.

Lemma while_inv {S} (P : S -> Prop) fuel c b s :
  P s -> (forall s, P s -> c s = true -> P (b s)) -> P (while_ fuel c b s).
Proof.
  revert s. induction fuel as [| fuel IH]; intros s HP Hstep; simpl; [done |].
  destruct (c s) eqn:Hc; eauto.
Qed.

(** * Record update

    [s <| f := v |>] is [s] with its field [f] set to [v].  A record type
    says how it is rebuilt from its fields ([RecordEta]); the setter of a
    field is found from it by computation. *)
Class RecordEta (R : Type) := record_eta : R -> R.
Class FieldSet {R E : Type} (proj : R -> E) := field_set : (E -> E) -> R -> R.
Arguments field_set {R E} proj {_} _ _ /.

Ltac solve_field_set :=
  lazymatch goal with
  | |- @FieldSet ?R ?E ?proj =>
    let inst := constr:(_ : RecordEta R) in
    let eta := eval hnf in (inst : R -> R) in
    exact (fun (g : E -> E) (r : R) =>
      ltac:(let body := eval cbv beta in (eta r) in
            lazymatch eval pattern (proj r) in body with
            | ?F _ => let res := eval cbv beta in (F (g (proj r))) in exact res
            end))
  end.
#[export] Hint Extern 1 (FieldSet _) => solve_field_set : typeclass_instances.

Declare Scope record_scope.
Open Scope record_scope.
Notation "s <| f := v |>" := (field_set f (fun _ => v) s)
  (at level 1, left associativity, v at level 200, format "s  <| f  :=  v |>") : record_scope.
Notation "s <| f ::= g |>" := (field_set f g s)
  (at level 1, left associativity, g at level 200, format "s  <| f  ::=  g |>") : record_scope.

(** * Sums over lists, and loops over the cells of an array *)
Definition sumZ (l : list Z) : Z := fold_right Z.add 0 l.

Lemma sumZ_app l k : sumZ (l ++ k) = sumZ l + sumZ k.
Proof. unfold sumZ. induction l; simpl; lia. Qed.

Lemma sumZ_fmap_cons {A} (g : A -> Z) x l : sumZ (g <$> x :: l) = g x + sumZ (g <$> l).
Proof. done. Qed.

Lemma sumZ_nonneg l : Forall (fun x => 0 <= x) l -> 0 <= sumZ l.
Proof. unfold sumZ. induction 1; simpl; lia. Qed.

Lemma sumZ_bound b l : Forall (fun x => x <= b) l -> sumZ l <= b * alen l.
Proof. unfold sumZ, alen. induction 1; simpl; lia. Qed.

Lemma take_snoc (a : list Z) i :
  0 <= i < alen a -> take (Z.to_nat (i + 1)) a = take (Z.to_nat i) a ++ [aget a i].
Proof.
  unfold alen. intros Hi. rewrite Z2Nat.inj_add by lia. change (Z.to_nat 1) with 1%nat.
  rewrite Nat.add_1_r. destruct (lookup_lt_is_Some_2 a (Z.to_nat i)) as [x Hx]; [lia |].
  rewrite (take_S_r _ _ _ Hx). by rewrite (aget_lookup _ _ _ Hx).
Qed.

Lemma for_array {S} (f : S -> Z -> S) (a : list Z) n s :
  0 <= n <= alen a ->
  for_ 0 n (fun i s => f s (aget a i)) s = fold_left f (take (Z.to_nat n) a) s.
Proof.
  intros Hn.
  apply (for_ind (fun i x => x = fold_left f (take (Z.to_nat i) a) s)); [lia | done |].
  intros i x Hi ->. by rewrite take_snoc, fold_left_app by lia.
Qed.

Lemma alen_take a n : 0 <= n <= alen a -> alen (take (Z.to_nat n) a) = n.
Proof. unfold alen. intros. rewrite length_take. lia. Qed.
