(* ===== verification/Config.v ===== *)
(** The board configuration of smart_helmet_config.h.

    A macro that a build may redefine to switch code in or out ([#ifndef]
    around it, [#if] on it) is a field of [HelmetConfig], so the components
    are modelled in every configuration and [if] stands where the code has
    [#if]; [shipped] is the default build.  The other macros are constants.
    Names are the macros' without the [SMART_HELMET_] prefix. *)
From S2P Require Import Prelude.

Class HelmetConfig := {
  ENABLE_LIS3DH : bool;
  ENABLE_HR_PEAK : bool;
  ENABLE_HR_FFT : bool;
  ENABLE_HR_BANDPASS : bool;
  HR_FFT_WINDOW_HANN : bool;
  HR_FFT_PRESCALE : bool;
  HR_FFT_INTERP : bool;
  ENABLE_HR_AUTOCORR : bool;
  HR_PEAK_IBI_MEDIAN : bool;
  HR_IBI_SPREAD_PCT : Z;
  HR_FUSE_MODE : bool;
  HR_VALID_REQUIRE_AGREE : bool;
  HR_FUSE_MIN_AGREE : Z;
  HR_DELTA_RESYNC_WIN : Z;
  ADC_SENS_PRIORITY : bool;
  ENABLE_VITALS_TIMESTAMP : bool;
  ENABLE_RESP : bool;
  HR_REQUIRE_RESP : bool;
  ENABLE_SENS_OVERSAMPLE : bool;
  HR_FFT_HPS : bool;
  ENABLE_HR_CUSUM : bool;
  HR_BASELINE_STALE_WIN : Z;
  HR_CUSUM_SLACK_PCT : Z;
  ENABLE_HR_MOTION_ADAPT : bool;
  HR_ADAPT_REF_AXES : Z;
  ENABLE_VITALS_CSV : bool;
  ENABLE_SENS_DUMP : bool;
}.

(** The default values. *)
Definition shipped : HelmetConfig := {|
  ENABLE_LIS3DH := true;
  ENABLE_HR_PEAK := true;
  ENABLE_HR_FFT := true;
  ENABLE_HR_BANDPASS := true;
  HR_FFT_WINDOW_HANN := true;
  HR_FFT_PRESCALE := true;
  HR_FFT_INTERP := true;
  ENABLE_HR_AUTOCORR := false;
  HR_PEAK_IBI_MEDIAN := true;
  HR_IBI_SPREAD_PCT := 35;
  HR_FUSE_MODE := false;
  HR_VALID_REQUIRE_AGREE := true;
  HR_FUSE_MIN_AGREE := 2;
  HR_DELTA_RESYNC_WIN := 3;
  ADC_SENS_PRIORITY := true;
  ENABLE_VITALS_TIMESTAMP := true;
  ENABLE_RESP := true;
  HR_REQUIRE_RESP := false;
  ENABLE_SENS_OVERSAMPLE := false;
  HR_FFT_HPS := false;
  ENABLE_HR_CUSUM := true;
  HR_BASELINE_STALE_WIN := 15;
  HR_CUSUM_SLACK_PCT := 5;
  ENABLE_HR_MOTION_ADAPT := false;
  HR_ADAPT_REF_AXES := 3;
  ENABLE_VITALS_CSV := false;
  ENABLE_SENS_DUMP := false;
|}.

(** The default build with the consensus mode switched on. *)
Definition consensus : HelmetConfig :=
  let c := shipped in {|
  ENABLE_LIS3DH := @ENABLE_LIS3DH c;
  ENABLE_HR_PEAK := @ENABLE_HR_PEAK c;
  ENABLE_HR_FFT := @ENABLE_HR_FFT c;
  ENABLE_HR_BANDPASS := @ENABLE_HR_BANDPASS c;
  HR_FFT_WINDOW_HANN := @HR_FFT_WINDOW_HANN c;
  HR_FFT_PRESCALE := @HR_FFT_PRESCALE c;
  HR_FFT_INTERP := @HR_FFT_INTERP c;
  ENABLE_HR_AUTOCORR := true;
  HR_PEAK_IBI_MEDIAN := @HR_PEAK_IBI_MEDIAN c;
  HR_IBI_SPREAD_PCT := @HR_IBI_SPREAD_PCT c;
  HR_FUSE_MODE := true;
  HR_VALID_REQUIRE_AGREE := @HR_VALID_REQUIRE_AGREE c;
  HR_FUSE_MIN_AGREE := @HR_FUSE_MIN_AGREE c;
  HR_DELTA_RESYNC_WIN := @HR_DELTA_RESYNC_WIN c;
  ADC_SENS_PRIORITY := @ADC_SENS_PRIORITY c;
  ENABLE_VITALS_TIMESTAMP := @ENABLE_VITALS_TIMESTAMP c;
  ENABLE_RESP := @ENABLE_RESP c;
  HR_REQUIRE_RESP := @HR_REQUIRE_RESP c;
  ENABLE_SENS_OVERSAMPLE := @ENABLE_SENS_OVERSAMPLE c;
  HR_FFT_HPS := @HR_FFT_HPS c;
  ENABLE_HR_CUSUM := @ENABLE_HR_CUSUM c;
  HR_BASELINE_STALE_WIN := @HR_BASELINE_STALE_WIN c;
  HR_CUSUM_SLACK_PCT := @HR_CUSUM_SLACK_PCT c;
  ENABLE_HR_MOTION_ADAPT := @ENABLE_HR_MOTION_ADAPT c;
  HR_ADAPT_REF_AXES := @HR_ADAPT_REF_AXES c;
  ENABLE_VITALS_CSV := @ENABLE_VITALS_CSV c;
  ENABLE_SENS_DUMP := @ENABLE_SENS_DUMP c |}.

(** The bench build: the shipped values with the telemetry on. *)
Definition bench_build : HelmetConfig :=
  let c := shipped in {|
  ENABLE_LIS3DH := @ENABLE_LIS3DH c;
  ENABLE_HR_PEAK := @ENABLE_HR_PEAK c;
  ENABLE_HR_FFT := @ENABLE_HR_FFT c;
  ENABLE_HR_BANDPASS := @ENABLE_HR_BANDPASS c;
  HR_FFT_WINDOW_HANN := @HR_FFT_WINDOW_HANN c;
  HR_FFT_PRESCALE := @HR_FFT_PRESCALE c;
  HR_FFT_INTERP := @HR_FFT_INTERP c;
  ENABLE_HR_AUTOCORR := @ENABLE_HR_AUTOCORR c;
  HR_PEAK_IBI_MEDIAN := @HR_PEAK_IBI_MEDIAN c;
  HR_IBI_SPREAD_PCT := @HR_IBI_SPREAD_PCT c;
  HR_FUSE_MODE := @HR_FUSE_MODE c;
  HR_VALID_REQUIRE_AGREE := @HR_VALID_REQUIRE_AGREE c;
  HR_FUSE_MIN_AGREE := @HR_FUSE_MIN_AGREE c;
  HR_DELTA_RESYNC_WIN := @HR_DELTA_RESYNC_WIN c;
  ADC_SENS_PRIORITY := @ADC_SENS_PRIORITY c;
  ENABLE_VITALS_TIMESTAMP := @ENABLE_VITALS_TIMESTAMP c;
  ENABLE_RESP := @ENABLE_RESP c;
  HR_REQUIRE_RESP := @HR_REQUIRE_RESP c;
  ENABLE_SENS_OVERSAMPLE := @ENABLE_SENS_OVERSAMPLE c;
  HR_FFT_HPS := @HR_FFT_HPS c;
  ENABLE_HR_CUSUM := @ENABLE_HR_CUSUM c;
  HR_BASELINE_STALE_WIN := @HR_BASELINE_STALE_WIN c;
  HR_CUSUM_SLACK_PCT := @HR_CUSUM_SLACK_PCT c;
  ENABLE_HR_MOTION_ADAPT := @ENABLE_HR_MOTION_ADAPT c;
  HR_ADAPT_REF_AXES := @HR_ADAPT_REF_AXES c;
  ENABLE_VITALS_CSV := true;
  ENABLE_SENS_DUMP := true |}.


(** * Vitals windows and sample rate *)
Definition VITALS_FS_HZ : Z := 25.
Definition MOTION_WIN : Z := 25.
Definition BAND_WIN : Z := 100.
Definition MOTION_RMS_MG : Z := 40.
Definition MOTION_STILL_SAMPLES : Z := 3.
Definition MOTION_STILL_REPORTS : Z := 2.
Definition SENS_MOTION_ABS_MV : Z := 80.
Definition BASELINE_ALPHA_Q8 : Z := 16.
Definition TREND_UP_PCT : Z := 25.
Definition TREND_DOWN_PCT : Z := 20.
Definition BIO_PULSE_ABS_MIN : Z := 8.
Definition BIO_RESP_ABS_MIN : Z := 10.
Definition BIO_ARTIFACT_RATIO : Z := 6.
Definition CALM_WINDOWS_MIN : Z := 3.
Definition SENS_EDGE_ABS_MV : Z := 40.

(** * Falls *)
Definition FALL_RMS_MG : Z := 220.
Definition FALL_FREEFALL_MG : Z := 700.
Definition FALL_IMPACT_MG : Z := 1300.
Definition FALL_SWING_MG : Z := 400.

(** * Pulse proxy *)
Definition HR_BPM_MIN : Z := 40.
Definition HR_BPM_MAX : Z := 180.
Definition HR_MIN_PEAK_DIST : Z := 8.
Definition HR_PEAK_THR_Q8 : Z := 384.
Definition HR_FFT_N : Z := 64.
Definition HR_FFT_SNR_Q8 : Z := 320.
Definition HR_AGREE_PCT : Z := 20.
Definition HR_MIN_ENERGY : Z := 400.
Definition HR_MIN_SENS_ABS : Z := 12.
Definition HR_FFT_SMOOTH_ALPHA_Q8 : Z := 48.
Definition HR_FFT_MAX_BIN_JUMP : Z := 2.
Definition HR_FUSE_PEAK_W_Q8 : Z := 192.
Definition HR_MIN_PEAKS_VALID : Z := 3.
Definition HR_MAX_ENERGY : Z := 3500.
Definition HR_MAX_SENS_ABS : Z := 45.
Definition HR_SENS_DC_SPIKE_MV : Z := 120.
Definition HR_DISTURB_HOLDOFF_WIN : Z := 5.
Definition HR_MAX_DELTA_BPM : Z := 25.
Definition HR_LP_ALPHA_Q8 : Z := 96.
Definition HR_AC_MIN_Q8 : Z := 77.

(** * Time base, respiration, change detection, motion cancellation *)
Definition VITALS_FS_TOL_PCT : Z := 25.
Definition VITALS_JITTER_PCT : Z := 20.
Definition RESP_BPM_MIN : Z := 8.
Definition RESP_BPM_MAX : Z := 30.
Definition RESP_DECIM : Z := 8.
Definition RESP_WIN : Z := 64.
Definition RESP_MIN_Q8 : Z := 64.
Definition SENS_OVERSAMPLE_N : Z := 4.
Definition HR_BASELINE_ALPHA_Q8 : Z := 12.
Definition HR_BASELINE_MIN_WIN : Z := 8.
Definition HR_CUSUM_SLACK_BPM : Z := 3.
Definition HR_CUSUM_LIMIT : Z := 24.
Definition HR_ADAPT_TAPS : Z := 8.
Definition HR_ADAPT_MU_Q8 : Z := 32.
Definition MOTION_RMS_MG_ADAPT : Z := 200.
Definition TELEMETRY_LINE_MAX : Z := 160.

(** * ADC and report periods, gas sensor supply *)
Definition ADC_PERIOD_MS : Z := 1000.
Definition ADC_SENS_PERIOD_MS : Z := 40.
Definition WISUN_REPORT_MS : Z := 2000.
Definition MOTION_POLL_MS : Z := 200.
Definition MICS_VCC_MV : Z := 3300.
Definition AMB_OFFSET_X100 : Z := 0.
