(* ===== verification/Dsp.v ===== *)
(** Fixed-point primitives of smart_helmet_vitals.c: integer square root,
    saturating sums, windowed energy, the high-pass filter, parabolic peak
    interpolation and the conversions to beats per minute. *)

From S2P Require Import Prelude Config.

(** * Integer square root *)
Definition sqrt_step (st : Z * Z * Z) : Z * Z * Z :=
  let '(op, res, one) := st in
  if u32 (res + one) <=? op
  then (u32 (op - u32 (res + one)), u32 (Z.shiftr res 1 + one), Z.shiftr one 2)
  else (op, Z.shiftr res 1, Z.shiftr one 2).

Definition shSqrtU32 (v : Z) : Z :=
  let one := while_ 17 (fun one => v <? one) (fun one => Z.shiftr one 2) (Z.shiftl 1 30) in
  let '(_, res, _) :=
    while_ 17 (fun '(_, _, one) => negb (one =? 0)) sqrt_step (v, 0, one) in
  u16 res.

(** * Sums over a buffer *)

(** Saturating accumulation: [s < *sum] after the addition means a wrap. *)
Definition shAccSat (sum term : Z) : Z :=
  let s := u32 (sum + term) in
  if s <? sum then 4294967295 else s.

Definition shRmsDevU16 (buf : list Z) (n : Z) : Z :=
  if n =? 0 then 0 else
  let sum := for_ 0 n (fun i sum => u32 (sum + aget buf i)) 0 in
  let mean := sum / n in
  let sum := for_ 0 n (fun i sum =>
    let d := i32 (aget buf i - i32 mean) in
    shAccSat sum (u32 (d * d))) 0 in
  shSqrtU32 (sum / n).

Definition shEnergyI16 (buf : list Z) (n : Z) : Z :=
  if n =? 0 then 0 else
  let sum := for_ 0 n (fun i sum =>
    let v := aget buf i in shAccSat sum (u32 (v * v))) 0 in
  let mean := sum / n in
  if 65535 <? mean then 65535 else u16 mean.

Definition shMeanAbsI16 (buf : list Z) (n : Z) : Z :=
  if n =? 0 then 0 else
  let sum := for_ 0 n (fun i sum =>
    let v := aget buf i in
    let v := if v <? 0 then - v else v in
    u32 (sum + u32 v)) 0 in
  u16 (sum / n).

Definition shMaxAbsI16 (x : list Z) (n : Z) : Z :=
  for_ 0 n (fun i m =>
    let v := aget x i in
    let v := if v <? 0 then - v else v in
    if m <? u32 v then u16 v else m) 0.

(** * High-pass filter

    The stored output is not clamped; the returned sample is. *)
Definition clamp16 (y : Z) : Z :=
  let y := if 32767 <? y then 32767 else y in
  if y <? -32768 then -32768 else y.

(** Returns the sample and the new [prev_x], [prev_y]. *)
Definition shHighPass (x prev_x prev_y : Z) : Z * (Z * Z) :=
  let y := i32 (x - prev_x + i32 (prev_y * 243) ÷ 256) in
  (i16 (clamp16 y), (x, y)).

(** * Parabolic interpolation *)
Definition shParabolicDeltaQ8 (a b c : Z) : Z :=
  let denom := i32 (a - 2 * b + c) in
  if 0 <=? denom then 0 else
  let num := i32 ((a - c) * 128) in
  let d := i32 (num ÷ denom) in
  let d := if 128 <? d then 128 else d in
  let d := if d <? -128 then -128 else d in
  i16 d.

Definition fit_step (st : Z * Z * Z * Z) : Z * Z * Z * Z :=
  let '(m, a, b, c) := st in
  (Z.shiftr m 1, Z.shiftr a 1, Z.shiftr b 1, Z.shiftr c 1).

(** Scale three powers down together; 12 halvings are enough for 32 bits. *)
Definition shFitScale3 (a b c : Z) : Z * Z * Z :=
  let m := a in
  let m := if m <? b then b else m in
  let m := if m <? c then c else m in
  let '(_, a, b, c) :=
    while_ 33 (fun '(m, _, _, _) => 1048575 <? m) fit_step (m, a, b, c) in
  (a, b, c).

(** * Beats per minute *)

(** [fs_q8] is the effective sample rate (Q8 Hz), a static of the file. *)
Definition shIntervalQ8ToBpm (fs_q8 interval_q8 : Z) : Z :=
  if interval_q8 =? 0 then 0 else u16 (u32 (60 * fs_q8) / interval_q8).

Definition shBinQ8ToBpm (fs_q8 k_q8 : Z) : Z :=
  u16 (u32 (k_q8 * 60 * Z.shiftr fs_q8 4) / (HR_FFT_N * 4096)).

(** * Vocabulary of the specifications *)

(** The squared deviation of a sample. *)
Definition sq_dev (mean x : Z) : Z := (x - mean) * (x - mean).

(** [sqrt_inv v p (op, res, one)]: [p] is the weight of the bit under test
    and [s] the root found so far; [op], [res] and [one] hold the remainder
    [v - s^2], the scaled root [2ps] and [p^2]. *)
Definition sqrt_inv (v p : Z) (st : Z * Z * Z) : Prop :=
  let '(op, res, one) := st in
  exists s, one = p * p /\ res = 2 * p * s /\ op = v - s * s /\
    0 <= s /\ s + 2 * p <= 65536 /\ s * s <= v < (s + 2 * p) * (s + 2 * p).

(** [n] further samples equal to [x], from the filter state [prev_x, prev_y];
    the last returned sample and the state. *)
Fixpoint hp_hold (n : nat) (x : Z) (st : Z * (Z * Z)) : Z * (Z * Z) :=
  match n with
  | O => st
  | S n => hp_hold n x (shHighPass x (fst (snd st)) (snd (snd st)))
  end.

(** The largest stored output for 16-bit inputs: the fixed point of
    [65535 + b * 243 / 256]. *)
Definition HP_Y_MAX : Z := 1290536.

(** The decay of the stored output while the input does not move. *)
Definition hp_decay (y : Z) : Z := (y * 243) / 256.

(** * Saturating sums *)
Lemma shAccSat_spec sum term :
  is_u32 sum -> is_u32 term -> shAccSat sum term = Z.min (sum + term) 4294967295.
Proof.
  unfold shAccSat. intros Hs Ht. destruct (Z.le_gt_cases (sum + term) 4294967295).
  - rewrite u32_small by rlia. unfold_ranges. zcase; lia.
  - replace (u32 (sum + term)) with (sum + term - 4294967296).
    + unfold_ranges. zcase; lia.
    + unfold u32. unfold_ranges. zlia.
Qed.

Lemma acc_sat_fold (g : Z -> Z) l s :
  Forall (fun x => is_u32 (g x)) l -> is_u32 s ->
  fold_left (fun s x => shAccSat s (g x)) l s = Z.min (s + sumZ (g <$> l)) 4294967295.
Proof.
  intros Hl. revert s. induction Hl as [| x l Hx Hl IH]; intros s Hs; cbn [fold_left].
  - change (sumZ (g <$> [])) with 0. rlia.
  - rewrite sumZ_fmap_cons, shAccSat_spec by done. rewrite IH by rlia.
    assert (0 <= sumZ (g <$> l)); [| rlia].
    apply sumZ_nonneg, Forall_fmap. eapply Forall_impl; [exact Hl |].
    unfold is_u32. simpl. lia.
Qed.

(** The accumulation loop of both mean-square computations: the terms [g x]
    of the code are [h x], within 32 bits, for the samples [P] allows. *)
Lemma acc_sat_loop (P : Z -> Prop) (g h : Z -> Z) buf n :
  0 <= n <= alen buf -> Forall P buf -> (forall x, P x -> is_u32 (h x) /\ g x = h x) ->
  for_ 0 n (fun i sum => shAccSat sum (g (aget buf i))) 0 =
    Z.min (sumZ (h <$> take (Z.to_nat n) buf)) 4294967295 /\
  0 <= sumZ (h <$> take (Z.to_nat n) buf).
Proof.
  intros Hn Hb Hg. rewrite (for_array (fun s x => shAccSat s (g x))) by lia.
  assert (Forall P (take (Z.to_nat n) buf)) as Hl by by apply Forall_take.
  revert Hl. generalize (take (Z.to_nat n) buf). clear buf n Hn Hb. intros l Hl. split.
  - rewrite acc_sat_fold, Z.add_0_l; [| | vdec].
    + do 2 f_equal. apply list_fmap_ext. intros i x Hx. rewrite Forall_lookup in Hl.
      apply Hg. eauto.
    + eapply Forall_impl; [exact Hl |]. intros x Hx. destruct (Hg x Hx) as [? ->]. done.
  - apply sumZ_nonneg, Forall_fmap. eapply Forall_impl; [exact Hl |].
    intros x Hx. destruct (Hg x Hx). simpl. rlia.
Qed.

Lemma square_i16 v : is_i16 v -> is_u32 (v * v) /\ v * v <= 1073741824.
Proof. unfold_ranges. nia. Qed.

(** shEnergyI16 is the mean square of the first [n] samples, saturated
    at the 16-bit result: a burst that would wrap the 32-bit sum pins it at
    its maximum instead. *)
Theorem shEnergyI16_spec buf n :
  Forall is_i16 buf -> 1 <= n <= alen buf ->
  shEnergyI16 buf n =
    Z.min 65535 (Z.min (sumZ ((fun v => v * v) <$> take (Z.to_nat n) buf)) 4294967295 / n).
Proof.
  intros Hb Hn. unfold shEnergyI16. rewrite (proj2 (Z.eqb_neq n 0)) by lia.
  destruct (acc_sat_loop is_i16 (fun v => u32 (v * v)) (fun v => v * v) buf n)
    as [-> Hs]; [lia | done | |].
  { intros x Hx. destruct (square_i16 x Hx). by rewrite u32_small. }
  set (s := sumZ _) in *.
  pose proof (Z.div_pos (Z.min s 4294967295) n). zcase; [lia |]. rewrite u16_small by rlia. lia.
Qed.

Lemma shEnergyI16_spec_witness :
  shEnergyI16 [3; -4; 5] 2 =
    Z.min 65535 (Z.min (sumZ ((fun v => v * v) <$> take (Z.to_nat 2) [3; -4; 5])) 4294967295 / 2)
  /\ shEnergyI16 [3; -4; 5] 2 = 12.
Proof.
  split; [| reflexivity]. apply shEnergyI16_spec; vdec.
Defined.

(** Mean absolute value: exact, the sum of at most 255 terms cannot wrap. *)
Lemma shMeanAbsI16_spec buf n :
  Forall is_i16 buf -> 1 <= n <= alen buf -> n <= 255 ->
  shMeanAbsI16 buf n = sumZ (Z.abs <$> take (Z.to_nat n) buf) / n.
Proof.
  intros Hb Hn H255. unfold shMeanAbsI16. rewrite (proj2 (Z.eqb_neq n 0)) by lia.
  assert (for_ 0 n (fun i sum =>
      u32 (sum + u32 (if aget buf i <? 0 then - aget buf i else aget buf i))) 0
    = sumZ (Z.abs <$> take (Z.to_nat n) buf) /\
    0 <= sumZ (Z.abs <$> take (Z.to_nat n) buf) <= 32768 * n) as [-> Hs].
  { apply (for_ind (fun i x => x = sumZ (Z.abs <$> take (Z.to_nat i) buf) /\
      0 <= sumZ (Z.abs <$> take (Z.to_nat i) buf) <= 32768 * i)); [lia | done |].
    intros i x Hi [-> Hx]. rewrite take_snoc, fmap_app, sumZ_app by lia.
    assert (is_i16 (aget buf i)) by (apply aget_Forall; [done | vdec]).
    set (s := sumZ (Z.abs <$> _)) in *. cbv beta zeta.
    replace (if aget buf i <? 0 then - aget buf i else aget buf i) with (Z.abs (aget buf i))
      by (zcase; lia).
    change (sumZ (Z.abs <$> [aget buf i])) with (Z.abs (aget buf i) + 0).
    unfold_ranges. rewrite (u32_small (Z.abs _)) by rlia. rewrite u32_small by rlia. lia. }
  apply u16_small. unfold is_u16. split; [apply Z.div_pos; lia |].
  apply Z.div_lt_upper_bound; lia.
Qed.

(** * One-pole averages

    [y + ((x - y) * k) / 256] moves towards [x] without passing it. *)
Lemma ema_between y x k :
  0 <= k <= 256 ->
  Z.min y x <= y + ((x - y) * k) ÷ 256 <= Z.max y x.
Proof.
  intros Hk. destruct (Z.le_gt_cases y x).
  - rewrite Z.quot_div_nonneg by nia.
    assert (0 <= (x - y) * k / 256 <= x - y); [| lia].
    split; [apply Z.div_pos; nia | apply Z.div_le_upper_bound; nia].
  - replace ((x - y) * k) with (- ((y - x) * k)) by lia.
    rewrite Z.quot_opp_l, Z.quot_div_nonneg by nia.
    assert (0 <= (y - x) * k / 256 <= y - x); [| lia].
    split; [apply Z.div_pos; nia | apply Z.div_le_upper_bound; nia].
Qed.

(** * Integer square root: correctness *)

(** One iteration, from the bit of weight [p]: the root so far grows by [p]
    exactly when the square still fits. *)
Lemma sqrt_step_eq v p s :
  is_u32 v -> 1 <= p -> 0 <= s -> s + 2 * p <= 65536 -> s * s <= v ->
  sqrt_step (v - s * s, 2 * p * s, p * p) =
    let s' := if (s + p) * (s + p) <=? v then s + p else s in
    (v - s' * s', p * s', Z.shiftr (p * p) 2).
Proof.
  unfold is_u32. intros Hv Hp Hs Hsp Hle. unfold sqrt_step.
  rewrite (u32_small (2 * p * s + p * p)) by (unfold is_u32; nia).
  rewrite Z.shiftr_div_pow2 by lia. replace (2 * p * s / 2 ^ 1) with (p * s)
    by (change (2 ^ 1) with 2; rewrite <- Z.mul_assoc, (Z.mul_comm 2), Z.div_mul; lia).
  destruct (Z.leb_spec ((s + p) * (s + p)) v), (Z.leb_spec (2 * p * s + p * p) (v - s * s));
    cbn zeta; try nia.
  - rewrite !u32_small by (unfold is_u32; nia). do 2 f_equal; lia.
  - done.
Qed.

Lemma sqrt_loop v k fuel st :
  is_u32 v -> (k <= 15)%nat -> (k + 2 <= fuel)%nat ->
  sqrt_inv v (2 ^ Z.of_nat k) st ->
  exists op, while_ fuel (fun '(_, _, one) => negb (one =? 0)) sqrt_step st
    = (op, Z.sqrt v, 0).
Proof.
  intros Hv. revert fuel st. induction k as [| k IH]; intros fuel st Hk Hfuel Hinv;
    destruct st as [[op res] one]; destruct Hinv as (s & -> & -> & -> & Hs & Hsp & Hlt);
    destruct fuel as [| fuel]; [lia | | lia |].
  - change (2 ^ Z.of_nat 0) with 1 in *. cbn [while_]. change (1 * 1 =? 0) with false. cbn [negb].
    rewrite (sqrt_step_eq v 1 s) by rlia. cbn zeta.
    destruct fuel as [| fuel]; [lia |]. cbn. eexists. do 2 f_equal.
    destruct (Z.leb_spec ((s + 1) * (s + 1)) v); symmetry; apply Z.sqrt_unique; nia.
  - set (p := 2 ^ Z.of_nat k) in *. assert (0 < p) by (unfold p; lia).
    replace (2 ^ Z.of_nat (S k)) with (2 * p) in * by (unfold p; rewrite Nat2Z.inj_succ, Z.pow_succ_r; lia).
    cbn [while_]. rewrite sqrt_step_eq by rlia. cbn zeta.
    replace (negb (2 * p * (2 * p) =? 0)) with true
      by (symmetry; apply negb_true_iff, Z.eqb_neq; nia).
    apply IH; [lia | lia |]. unfold sqrt_inv.
    exists (if (s + 2 * p) * (s + 2 * p) <=? v then s + 2 * p else s).
    rewrite Z.shiftr_div_pow2 by lia. change (2 ^ 2) with 4.
    replace (2 * p * (2 * p)) with (p * p * 4) by lia. rewrite Z.div_mul by lia.
    zcase; repeat split; nia.
Qed.

(** The first loop stops at the largest power of four below [v]. *)
Lemma sqrt_start v k fuel :
  is_u32 v -> (k <= 15)%nat -> (k + 2 <= fuel)%nat -> v < 4 * 4 ^ Z.of_nat k ->
  (exists j, (j <= k)%nat /\ 4 ^ Z.of_nat j <= v < 4 * 4 ^ Z.of_nat j /\
    while_ fuel (fun one => v <? one) (fun one => Z.shiftr one 2) (4 ^ Z.of_nat k)
      = 4 ^ Z.of_nat j) \/
  (v = 0 /\ while_ fuel (fun one => v <? one) (fun one => Z.shiftr one 2) (4 ^ Z.of_nat k) = 0).
Proof.
  unfold is_u32. intros Hv. revert fuel. induction k as [| k IH]; intros fuel Hk Hfuel Hlt;
    (destruct fuel as [| fuel]; [lia |]); cbn [while_].
  - change (4 ^ Z.of_nat 0) with 1 in *. destruct (Z.ltb_spec v 1).
    + right. split; [lia |]. destruct fuel as [| fuel]; [lia |]. cbn [while_]. change (Z.shiftr 1 2) with 0.
      by rewrite (proj2 (Z.ltb_ge v 0)) by lia.
    + left. exists 0%nat. change (4 ^ Z.of_nat 0) with 1. lia.
  - rewrite Nat2Z.inj_succ, Z.pow_succ_r in * by lia.
    destruct (Z.ltb_spec v (4 * 4 ^ Z.of_nat k)).
    + rewrite Z.shiftr_div_pow2 by lia. change (2 ^ 2) with 4.
      rewrite Z.mul_comm, Z.div_mul by lia.
      destruct (IH fuel) as [(j & ? & ? & ->) | (? & ->)]; [lia | lia | lia | left | right; done].
      exists j. repeat split; lia || done.
    + left. exists (S k). rewrite Nat2Z.inj_succ, Z.pow_succ_r by lia. lia.
Qed.

Lemma sqrt_u32_eq v : is_u32 v -> shSqrtU32 v = Z.sqrt v.
Proof.
  intros Hv. unfold shSqrtU32. change (Z.shiftl 1 30) with (4 ^ Z.of_nat 15).
  destruct (sqrt_start v 15 17) as [(j & Hj & Hlt & ->) | (-> & ->)];
    [done | lia | lia | unfold is_u32 in Hv; lia | |].
  - assert (4 ^ Z.of_nat j = 2 ^ Z.of_nat j * 2 ^ Z.of_nat j) as Hp
      by (change 4 with (2 * 2); apply Z.pow_mul_l).
    assert (2 ^ Z.of_nat j <= 2 ^ 15) by (apply Z.pow_le_mono_r; lia).
    destruct (sqrt_loop v j 17 (v, 0, 4 ^ Z.of_nat j)) as [op ->]; [done | lia | lia | |].
    + exists 0. repeat split; try lia.
    + apply u16_small. unfold is_u16, is_u32 in *. split; [apply Z.sqrt_nonneg |].
      apply Z.sqrt_lt_square; lia.
  - vm_compute. done.
Qed.

(** shSqrtU32 computes the integer square root of every 32-bit
    unsigned value: the bit-by-bit loop never overflows and its result fits
    the 16 bits it is returned in. *)
Theorem shSqrtU32_correct v :
  is_u32 v ->
  let r := shSqrtU32 v in is_u16 r /\ r * r <= v < (r + 1) * (r + 1).
Proof.
  intros Hv. cbv zeta. rewrite sqrt_u32_eq by done. unfold is_u16, is_u32 in *.
  pose proof (Z.sqrt_spec v ltac:(lia)) as Hr. pose proof (Z.sqrt_nonneg v).
  cbv zeta in Hr. nia.
Qed.

Lemma shSqrtU32_correct_witness :
  let r := shSqrtU32 4294836224 in is_u16 r /\ r * r <= 4294836224 < (r + 1) * (r + 1).
Proof. apply (shSqrtU32_correct 4294836224). vdec. Defined.

(** * RMS of the deviation from the mean *)

(** The exact sum of at most 255 sixteen-bit samples. *)
Lemma sum_u16_loop buf n :
  Forall is_u16 buf -> 0 <= n <= alen buf -> n <= 255 ->
  for_ 0 n (fun i sum => u32 (sum + aget buf i)) 0 = sumZ (take (Z.to_nat n) buf) /\
  0 <= sumZ (take (Z.to_nat n) buf) <= 65535 * n.
Proof.
  intros Hb Hn H255.
  apply (for_ind (fun i x => x = sumZ (take (Z.to_nat i) buf) /\
      0 <= sumZ (take (Z.to_nat i) buf) <= 65535 * i)); [lia | done |].
  intros i x Hi [-> Hx]. rewrite take_snoc, sumZ_app by lia.
  assert (is_u16 (aget buf i)) by (apply aget_Forall; [done | vdec]).
  change (sumZ [aget buf i]) with (aget buf i + 0).
  unfold_ranges. rewrite u32_small by rlia. lia.
Qed.

Lemma sq_dev_range mean x : is_u16 mean -> is_u16 x -> is_u32 (sq_dev mean x).
Proof.
  unfold sq_dev. intros. assert (-65536 < x - mean < 65536) by rlia.
  generalize dependent (x - mean). unfold is_u32. intros. nia.
Qed.

Lemma shRmsDevU16_eq buf n :
  Forall is_u16 buf -> 1 <= n <= alen buf -> n <= 255 ->
  let l := take (Z.to_nat n) buf in
  shRmsDevU16 buf n = Z.sqrt (Z.min (sumZ (sq_dev (sumZ l / n) <$> l)) 4294967295 / n).
Proof.
  intros Hb Hn H255 l. unfold shRmsDevU16. rewrite (proj2 (Z.eqb_neq n 0)) by lia.
  destruct (sum_u16_loop buf n) as [-> Hs]; [done | lia | done |]. fold l in Hs |- *.
  set (mean := sumZ l / n).
  assert (is_u16 mean) as Hm.
  { unfold is_u16, mean. split; [apply Z.div_pos; lia | apply Z.div_lt_upper_bound; lia]. }
  rewrite (i32_small mean) by rlia.
  destruct (acc_sat_loop is_u16 (fun v => u32 (i32 (v - mean) * i32 (v - mean)))
    (sq_dev mean) buf n) as [-> Hq]; [lia | done | |].
  { intros x Hx. assert (is_u32 (sq_dev mean x)) by by apply sq_dev_range.
    rewrite i32_small by rlia. by rewrite u32_small. }
  fold l in Hq |- *.
  apply sqrt_u32_eq. unfold is_u32.
  split; [apply Z.div_pos; lia | apply Z.div_lt_upper_bound; lia].
Qed.

(** The step RMS does not see gravity: an offset common to every sample
    of the buffer (that keeps the samples in range) leaves it unchanged. *)
Theorem shRmsDevU16_shift buf n c :
  Forall is_u16 buf -> Forall is_u16 ((fun x => x + c) <$> buf) ->
  1 <= n <= alen buf -> n <= 255 ->
  shRmsDevU16 ((fun x => x + c) <$> buf) n = shRmsDevU16 buf n.
Proof.
  intros Hb Hc Hn H255. assert (alen ((fun x => x + c) <$> buf) = alen buf) as Hlen
    by (unfold alen; by rewrite length_fmap).
  rewrite (shRmsDevU16_eq buf) by done.
  rewrite shRmsDevU16_eq; [| done | rewrite Hlen; lia | done]. rewrite <- fmap_take.
  set (l := take (Z.to_nat n) buf).
  assert (sumZ ((fun x => x + c) <$> l) = sumZ l + c * n) as ->.
  { replace n with (alen l) by (unfold l; apply alen_take; lia). unfold alen.
    generalize l. clear. induction l as [| x l IH]; [cbn; lia |].
    rewrite sumZ_fmap_cons, IH. cbn [length]. change (sumZ (x :: l)) with (x + sumZ l). lia. }
  rewrite Z.div_add by lia. do 4 f_equal. rewrite <- list_fmap_compose.
  apply list_fmap_ext. intros i x _. unfold sq_dev, compose. lia.
Qed.

Lemma shRmsDevU16_shift_witness :
  shRmsDevU16 ((fun x => x + 1000) <$> [3; 4; 50; 7]) 4 = shRmsDevU16 [3; 4; 50; 7] 4
  /\ shRmsDevU16 [3; 4; 50; 7] 4 = 19.
Proof. split; [apply (shRmsDevU16_shift [3; 4; 50; 7] 4 1000); vdec | reflexivity]. Defined.

(** * High-pass filter *)
Lemma clamp16_range y : is_i16 (clamp16 y).
Proof. unfold is_i16, clamp16. repeat zcase; lia. Qed.

Lemma clamp16_small y : is_i16 y -> clamp16 y = y.
Proof. unfold is_i16, clamp16. repeat zcase; lia. Qed.

(** Within the bound on the stored output no step of the filter overflows. *)
Lemma shHighPass_step x prev_x prev_y :
  Z.abs (x - prev_x) <= 65535 -> Z.abs prev_y <= HP_Y_MAX ->
  let y := x - prev_x + (prev_y * 243) ÷ 256 in
  shHighPass x prev_x prev_y = (clamp16 y, (x, y)) /\ Z.abs y <= HP_Y_MAX.
Proof.
  intros Hx Hy y. unfold HP_Y_MAX in *.
  assert (-1225001 <= (prev_y * 243) ÷ 256 <= 1225001) by (apply (quot_bound _ 256 1225001); lia).
  unfold shHighPass. rewrite (i32_small (prev_y * 243)) by rlia.
  fold y. rewrite (i32_small y) by (unfold y; rlia).
  rewrite (i16_small (clamp16 y)) by apply clamp16_range.
  split; [done | unfold y; rlia].
Qed.

Lemma shHighPass_eq x prev_x prev_y :
  is_u16 x -> is_u16 prev_x -> Z.abs prev_y <= HP_Y_MAX ->
  let y := x - prev_x + (prev_y * 243) ÷ 256 in
  shHighPass x prev_x prev_y = (clamp16 y, (x, y)) /\ Z.abs y <= HP_Y_MAX.
Proof. intros Hx Hp Hy. apply shHighPass_step; rlia. Qed.

Lemma shHighPass_eq_i16 x prev_x prev_y :
  is_i16 x -> is_i16 prev_x -> Z.abs prev_y <= HP_Y_MAX ->
  let y := x - prev_x + (prev_y * 243) ÷ 256 in
  shHighPass x prev_x prev_y = (clamp16 y, (x, y)) /\ Z.abs y <= HP_Y_MAX.
Proof. intros Hx Hp Hy. apply shHighPass_step; rlia. Qed.

(** The high-pass filter of the bio channel never overflows its 32-bit
    arithmetic: for 16-bit inputs the stored output stays within
    [HP_Y_MAX], the step is the exact difference equation, and the returned
    sample is that output clamped to 16 bits. *)
Theorem shHighPass_bounded x prev_x prev_y :
  is_u16 x -> is_u16 prev_x -> Z.abs prev_y <= HP_Y_MAX ->
  let '(s, (px, y)) := shHighPass x prev_x prev_y in
  y = x - prev_x + (prev_y * 243) ÷ 256 /\ Z.abs y <= HP_Y_MAX /\
  px = x /\ is_i16 s /\ (is_i16 y -> s = y).
Proof.
  intros Hx Hp Hy. destruct (shHighPass_eq x prev_x prev_y Hx Hp Hy) as [-> Hb].
  eauto 6 using clamp16_range, clamp16_small.
Qed.

Lemma shHighPass_bounded_witness :
  let '(s, (px, y)) := shHighPass 65535 0 1290000 in
  y = 65535 - 0 + (1290000 * 243) ÷ 256 /\ Z.abs y <= HP_Y_MAX /\
  px = 65535 /\ is_i16 s /\ (is_i16 y -> s = y).
Proof. apply (shHighPass_bounded 65535 0 1290000); vdec. Defined.

Lemma hp_decay_mono a b : 0 <= a <= b -> 0 <= hp_decay a <= hp_decay b.
Proof. unfold hp_decay. intros. split; [apply Z.div_pos; lia | apply Z.div_le_mono; lia]. Qed.

Lemma hp_decay_iter_mono n a b :
  0 <= a <= b -> 0 <= Nat.iter n hp_decay a <= Nat.iter n hp_decay b.
Proof. intros. induction n; simpl; [done |]. by apply hp_decay_mono. Qed.

(** While the input does not move the magnitude of the output only decays. *)
Lemma hp_hold_decay n x s y :
  is_u16 x -> Z.abs y <= HP_Y_MAX ->
  exists s' y', hp_hold n x (s, (x, y)) = (s', (x, y')) /\
    Z.abs y' = Nat.iter n hp_decay (Z.abs y) /\ (n <> 0%nat -> s' = clamp16 y').
Proof.
  revert s y. induction n as [| n IH]; intros s y Hx Hy; [exists s, y; split_and!; done |].
  cbn [hp_hold fst snd]. destruct (shHighPass_eq x x y Hx Hx Hy) as [-> Hb].
  rewrite Z.sub_diag, Z.add_0_l in *.
  destruct (IH (clamp16 ((y * 243) ÷ 256)) _ Hx Hb) as (s' & y' & E & Ha & Hs).
  exists s', y'. split; [exact E |].
  assert (Z.abs ((y * 243) ÷ 256) = hp_decay (Z.abs y)) as Hd
    by (unfold hp_decay; rewrite quot_abs by lia; f_equal; lia).
  rewrite Hd in Ha. rewrite Nat.iter_succ_r. split; [done |]. intros _.
  destruct n; [| by apply Hs]. cbn in E. congruence.
Qed.

(** The filter removes the level of its input: whatever its (bounded)
    state, once the input has stayed at one value for 300 further samples
    (12 s) the output is exactly 0, not merely small. *)
Theorem shHighPass_settles x s y n :
  is_u16 x -> Z.abs y <= HP_Y_MAX -> (300 <= n)%nat ->
  hp_hold n x (s, (x, y)) = (0, (x, 0)).
Proof.
  intros Hx Hy Hn. destruct (hp_hold_decay n x s y Hx Hy) as (s' & y' & -> & Ha & Hs).
  assert (y' = 0) as ->; [| rewrite Hs by lia; reflexivity].
  replace n with (300 + (n - 300))%nat in Ha by lia. rewrite Nat.iter_add in Ha.
  assert (0 <= Nat.iter (n - 300) hp_decay (Z.abs y) <= HP_Y_MAX) as Hm.
  { generalize (n - 300)%nat. intros k. induction k as [| k IH]; simpl; [lia |].
    unfold HP_Y_MAX in *. change (0 <= (Nat.iter k hp_decay (Z.abs y) * 243) / 256 <= 1290536).
    split; [apply Z.div_pos; lia |].
    apply Z.div_le_upper_bound; lia. }
  apply (hp_decay_iter_mono 300) in Hm.
  assert (Nat.iter 300 hp_decay HP_Y_MAX = 0) as E by (vm_compute; reflexivity).
  rewrite E in Hm. lia.
Qed.

Lemma shHighPass_settles_witness : hp_hold 310 1000 (5, (1000, -400000)) = (0, (1000, 0)).
Proof. apply shHighPass_settles; [vdec | vdec | lia]. Defined.

(** * Peak interpolation *)

(** Around a local maximum, with the powers scaled to 20 bits, the
    parabolic offset is the exact quotient (its 32-bit steps do not
    overflow and its clamps never act), within half a bin, and on the side of the higher
    neighbour. *)
Theorem shParabolicDeltaQ8_peak a b c :
  0 <= a <= b -> 0 <= c <= b -> b < 1048576 ->
  let d := shParabolicDeltaQ8 a b c in
  d = ((a - c) * 128) ÷ (a - 2 * b + c) /\ -128 <= d <= 128 /\
  (a <= c -> 0 <= d) /\ (c <= a -> d <= 0).
Proof.
  intros Ha Hc Hb. unfold shParabolicDeltaQ8.
  rewrite !(i32_small (a - 2 * b + c)), !(i32_small ((a - c) * 128)) by rlia.
  set (q := ((a - c) * 128) ÷ (a - 2 * b + c)).
  assert (-128 <= q <= 128 /\ (a <= c -> 0 <= q) /\ (c <= a -> q <= 0)) as (Hq & Hp & Hn).
  { unfold q. destruct (Z.eq_dec (a - 2 * b + c) 0) as [E | ?].
    - rewrite E, quot_0_r. lia.
    - replace (a - 2 * b + c) with (- (2 * b - a - c)) by lia.
      rewrite Z.quot_opp_r by lia.
      pose proof (quot_bound ((a - c) * 128) (2 * b - a - c) 128 ltac:(lia) ltac:(lia)).
      Z.to_euclidean_division_equations. nia. }
  rewrite (i32_small q) by rlia.
  cbv zeta. destruct (Z.leb_spec 0 (a - 2 * b + c)) as [Hd | Hd].
  - assert (a - 2 * b + c = 0) as E by lia.
    assert (q = 0) as -> by (unfold q; rewrite E; apply quot_0_r). lia.
  - rewrite (proj2 (Z.ltb_ge 128 q)) by lia. rewrite (proj2 (Z.ltb_ge q (-128))) by lia.
    rewrite i16_small by rlia. tauto.
Qed.

Lemma shParabolicDeltaQ8_peak_witness :
  let d := shParabolicDeltaQ8 100 900 500 in
  d = ((100 - 500) * 128) ÷ (100 - 2 * 900 + 500) /\ -128 <= d <= 128 /\
  (100 <= 500 -> 0 <= d) /\ (500 <= 100 -> d <= 0).
Proof. apply (shParabolicDeltaQ8_peak 100 900 500); vdec. Defined.

Lemma shiftr_shiftr1 a s : 0 <= s -> Z.shiftr (Z.shiftr a s) 1 = Z.shiftr a (s + 1).
Proof. intros. by rewrite Z.shiftr_shiftr by lia. Qed.

(** shFitScale3 ends, and scales the three powers by one common shift,
    the smallest that brings the largest of them below [2^20]. *)
Theorem shFitScale3_common a b c :
  is_u32 a -> is_u32 b -> is_u32 c ->
  exists s, 0 <= s <= 12 /\
    shFitScale3 a b c = (Z.shiftr a s, Z.shiftr b s, Z.shiftr c s) /\
    Z.shiftr (Z.max a (Z.max b c)) s < 1048576 /\
    (s = 0 \/ 1048576 <= Z.shiftr (Z.max a (Z.max b c)) (s - 1)).
Proof.
  intros Ha Hb Hc. unfold shFitScale3.
  set (M := Z.max a (Z.max b c)). assert (is_u32 M) by (unfold M; rlia).
  assert ((let m := if a <? b then b else a in if m <? c then c else m) = M) as E
    by (unfold M; cbv zeta; repeat zcase; lia).
  cbv zeta in E |- *. rewrite E. clear E.
  destruct (while_spec (fun '(m, a', b', c') => exists s, 0 <= s /\
      m = Z.shiftr M s /\ a' = Z.shiftr a s /\ b' = Z.shiftr b s /\ c' = Z.shiftr c s /\
      (s = 0 \/ 1048576 <= Z.shiftr M (s - 1)))
    (fun '(m, _, _, _) => Z.to_nat (Z.log2 m)) 33
    (fun '(m, _, _, _) => 1048575 <? m) fit_step (M, a, b, c)) as [HP HC].
  - exists 0. rewrite !Z.shiftr_0_r. eauto with lia.
  - assert (Z.log2 M <= 31); [| lia].
    assert (M < 2 ^ 32) by rlia. destruct (Z.le_gt_cases M 0); [rewrite Z.log2_nonpos; lia |].
    apply Z.lt_succ_r, Z.log2_lt_pow2; lia.
  - intros [[[m a'] b'] c'] (s & Hs & -> & -> & -> & -> & Hmin) Hm. apply Z.ltb_lt in Hm.
    split.
    + exists (s + 1). rewrite !shiftr_shiftr1 by lia. repeat split; try done; [lia |].
      right. replace (s + 1 - 1) with s by lia. lia.
    + simpl. rewrite Z.log2_shiftr by lia.
      assert (Z.log2 1048576 <= Z.log2 (Z.shiftr M s)) by (apply Z.log2_le_mono; lia).
      change (Z.log2 1048576) with 20 in *. lia.
  - destruct (while_ _ _ _ _) as [[[m a'] b'] c'].
    destruct HP as (s & Hs & -> & -> & -> & -> & Hmin). apply Z.ltb_ge in HC.
    exists s. split; [| by auto with lia]. split; [done |].
    destruct Hmin as [-> | Hmin]; [lia |]. destruct (Z.le_gt_cases s 12); [done |].
    rewrite Z.shiftr_div_pow2 in Hmin by lia.
    assert (2 ^ 12 <= 2 ^ (s - 1)) by (apply Z.pow_le_mono_r; lia).
    assert (M / 2 ^ (s - 1) < 1048576); [| lia].
    apply Z.div_lt_upper_bound; [lia |]. unfold is_u32 in *. change (2 ^ 12) with 4096 in *. nia.
Qed.

Lemma shFitScale3_common_witness : exists s, 0 <= s <= 12 /\
    shFitScale3 5 4294967295 7 = (Z.shiftr 5 s, Z.shiftr 4294967295 s, Z.shiftr 7 s) /\
    Z.shiftr (Z.max 5 (Z.max 4294967295 7)) s < 1048576 /\
    (s = 0 \/ 1048576 <= Z.shiftr (Z.max 5 (Z.max 4294967295 7)) (s - 1)).
Proof. apply shFitScale3_common; vdec. Defined.
