(* ===== verification/Ring.v ===== *)
(** The ring buffers of smart_helmet_vitals.c (accelerometer, SENS and
    respiration), their chronological copy, and their abstraction: a ring of
    [size] cells holds the last [size] elements of the history pushed. *)
From S2P Require Import Prelude Config Dsp.

(** * Operations *)

(** [buf[idx] = v; idx = (uint8)((idx + 1) % size); if (count < size) count++;] *)
Definition ring_next (size idx : Z) : Z := u8 ((idx + 1) mod size).
Definition ring_inc (size count : Z) : Z := if count <? size then u8 (count + 1) else count.

Record ring := mkring { r_buf : list Z; r_idx : Z; r_count : Z }.

#[export] Instance ring_eta : RecordEta ring :=
  fun r => mkring (r_buf r) (r_idx r) (r_count r).

Definition ring_push (size v : Z) (r : ring) : ring :=
  mkring (aset (r_buf r) (r_idx r) v) (ring_next size (r_idx r)) (ring_inc size (r_count r)).

Definition ring_empty (size : Z) : ring := mkring (replicate (Z.to_nat size) 0) 0 0.

(** The copy of the last [n] cells, oldest first. *)
Definition ring_copy (size n : Z) (r : ring) : list Z :=
  let start := u8 ((r_idx r + size - n) mod size) in
  for_ 0 n (fun i o => aset o i (aget (r_buf r) ((start + i) mod size)))
    (replicate (Z.to_nat n) 0).

(** The low-pass over the analysis chunk ([SMART_HELMET_ENABLE_HR_BANDPASS]). *)
Definition lp_alpha : Z := if 256 <? HR_LP_ALPHA_Q8 then 256 else HR_LP_ALPHA_Q8.

Definition lp_step (y x : Z) : Z := i32 (y + i32 ((x - y) * lp_alpha) ÷ 256).

Definition lp_loop (n : Z) (o : list Z) : list Z :=
  snd (for_ 1 n (fun i '(y, o) =>
    let y := lp_step y (aget o i) in (y, aset o i (i16 y))) (aget o 0, o)).

(** [shCopySensOrdered]: the samples copied to [sh_ordered] and their count. *)
Definition shCopySensOrdered `{HelmetConfig} (n : Z) (sens : ring) : list Z * Z :=
  let n := if r_count sens <? n then r_count sens else n in
  let n := if BAND_WIN <? n then BAND_WIN else n in
  if n =? 0 then ([], 0) else
  let o := ring_copy BAND_WIN n sens in
  (if ENABLE_HR_BANDPASS then lp_loop n o else o, n).

(** * Vocabulary of the specifications *)

(** [ring_ok size h r]: [r] holds the end of the history [h], whose last
    element is the newest. *)
Definition ring_ok (size : Z) (h : list Z) (r : ring) : Prop :=
  1 <= size <= 128 /\ alen (r_buf r) = size /\ 0 <= r_idx r < size /\
  r_count r = Z.min (alen h) size /\
  (forall j, 0 <= j < r_count r ->
    aget (r_buf r) ((r_idx r - 1 - j) mod size) = aget h (alen h - 1 - j)).

(** The last [n] elements of a history. *)
Definition last_n (n : Z) (h : list Z) : list Z := drop (Z.to_nat (alen h - n)) h.

(** The one-pole low-pass as a function on lists. *)
Fixpoint lp_list (y : Z) (l : list Z) : list Z :=
  match l with
  | [] => []
  | x :: l => let y := y + ((x - y) * lp_alpha) ÷ 256 in y :: lp_list y l
  end.

Definition lp_ref (l : list Z) : list Z :=
  match l with [] => [] | x :: l => x :: lp_list x l end.

(** * Facts on arrays *)
Lemma alist_eq a b :
  alen a = alen b -> (forall i, 0 <= i < alen a -> aget a i = aget b i) -> a = b.
Proof.
  unfold alen, aget. intros Hl Hi. apply (nth_ext _ _ 0 0); [lia |].
  intros k Hk. specialize (Hi (Z.of_nat k) ltac:(lia)). by rewrite !Nat2Z.id in Hi.
Qed.

Lemma aget_app a b i :
  0 <= i -> aget (a ++ b) i = if i <? alen a then aget a i else aget b (i - alen a).
Proof.
  unfold alen, aget. intros. rewrite !nth_lookup. zcase.
  - by rewrite lookup_app_l by lia.
  - rewrite lookup_app_r by lia. do 2 f_equal. lia.
Qed.

Lemma alen_app a b : alen (a ++ b) = alen a + alen b.
Proof. unfold alen. rewrite length_app. lia. Qed.

Lemma aget_last_n n h i : 0 <= n <= alen h -> 0 <= i -> aget (last_n n h) i = aget h (alen h - n + i).
Proof.
  unfold last_n, aget, alen. intros. rewrite !nth_lookup, lookup_drop. do 2 f_equal. lia.
Qed.

Lemma alen_last_n n h : 0 <= n <= alen h -> alen (last_n n h) = n.
Proof. unfold last_n, alen. intros. rewrite length_drop. lia. Qed.

Lemma last_n_Forall (P : Z -> Prop) n h : Forall P h -> Forall P (last_n n h).
Proof. apply Forall_drop. Qed.

(** Filling an array cell by cell. *)
Lemma for_fill (f : Z -> Z) n o :
  0 <= n <= alen o ->
  let o' := for_ 0 n (fun i o => aset o i (f i)) o in
  alen o' = alen o /\ (forall i, 0 <= i < n -> aget o' i = f i).
Proof.
  intros Hn. cbv zeta.
  apply (for_ind (fun k o' => alen o' = alen o /\ (forall i, 0 <= i < k -> aget o' i = f i)));
    [lia | split; [done | lia] |].
  intros k o' Hk [Hl Hf]. split; [by rewrite alen_aset |]. intros i Hi.
  destruct (Z.eq_dec i k) as [-> |].
  - rewrite aget_aset_eq by lia. done.
  - rewrite aget_aset_ne by lia. apply Hf. lia.
Qed.

(** * The ring is the end of the history *)
Lemma ring_empty_ok size : 1 <= size <= 128 -> ring_ok size [] (ring_empty size).
Proof.
  intros Hs. unfold ring_ok, ring_empty, alen. cbn [r_buf r_idx r_count length].
  rewrite length_replicate. repeat split; try lia.
Qed.

Lemma mod_back s i j :
  0 <= i < s -> 0 <= j < s -> (i - j) mod s = if j <=? i then i - j else i - j + s.
Proof.
  intros. zcase; [apply Z.mod_small; lia |].
  replace (i - j) with (i - j + s + (-1) * s) by lia.
  rewrite Z.mod_add by lia. rewrite Z.mod_small; lia.
Qed.

Lemma ring_push_ok size h r v :
  ring_ok size h r -> ring_ok size (h ++ [v]) (ring_push size v r).
Proof.
  intros (Hs & Hl & Hi & Hc & Hg). unfold ring_ok, ring_push, ring_next, ring_inc.
  cbn [r_buf r_idx r_count]. pose proof (Z.mod_pos_bound (r_idx r + 1) size).
  pose proof (alen_nonneg h).
  rewrite alen_aset, alen_app, u8_small by rlia. change (alen [v]) with 1.
  split; [done |]. split; [done |]. split; [lia |].
  assert ((if r_count r <? size then u8 (r_count r + 1) else r_count r)
    = Z.min (alen h + 1) size) as ->
    by (zcase; [rewrite u8_small by rlia |]; lia).
  split; [done |]. intros j Hj.
  replace ((r_idx r + 1) mod size - 1 - j) with ((r_idx r + 1) mod size + (- 1 - j)) by lia.
  rewrite Z.add_mod_idemp_l by lia. replace (r_idx r + 1 + (-1 - j)) with (r_idx r - j) by lia.
  rewrite aget_app by lia. destruct (Z.eq_dec j 0) as [-> |].
  - rewrite Z.sub_0_r, Z.mod_small, aget_aset_eq by lia.
    by replace (_ <? _) with false by (symmetry; apply Z.ltb_ge; lia);
      replace (alen h + 1 - 1 - 0 - alen h) with 0 by lia.
  - rewrite (proj2 (Z.ltb_lt _ (alen h))) by lia.
    rewrite aget_aset_ne.
    + replace (r_idx r - j) with (r_idx r - 1 - (j - 1)) by lia. rewrite Hg by lia.
      f_equal. lia.
    + lia.
    + apply Z.mod_pos_bound. lia.
    + rewrite mod_back by lia. zcase; lia.
Qed.

Lemma ring_history_ok size h :
  1 <= size <= 128 ->
  ring_ok size h (fold_left (fun r v => ring_push size v r) h (ring_empty size)).
Proof.
  intros Hs. rewrite <- (app_nil_l h) at 1. generalize (ring_empty_ok size Hs).
  generalize (@nil Z) (ring_empty size). induction h as [| v h IH]; intros h0 r Hr; cbn [fold_left].
  - by rewrite app_nil_r.
  - replace (h0 ++ v :: h) with ((h0 ++ [v]) ++ h) by (by rewrite <- app_assoc).
    apply IH. by apply ring_push_ok.
Qed.

Lemma ring_copy_ok size h r n :
  ring_ok size h r -> 0 <= n <= r_count r -> ring_copy size n r = last_n n h.
Proof.
  intros (Hs & Hl & Hi & Hc & Hg) Hn. pose proof (alen_nonneg h). unfold ring_copy.
  pose proof (Z.mod_pos_bound (r_idx r + size - n) size).
  rewrite u8_small by rlia.
  destruct (for_fill (fun i => aget (r_buf r) (((r_idx r + size - n) mod size + i) mod size))
    n (replicate (Z.to_nat n) 0)) as [Hlen Hf].
  { unfold alen. rewrite length_replicate. lia. }
  assert (alen (replicate (Z.to_nat n) 0) = n) as Hr by (unfold alen; rewrite length_replicate; lia).
  apply alist_eq.
  - rewrite Hlen, Hr, alen_last_n by lia. done.
  - rewrite Hlen, Hr. intros i Hin. rewrite Hf by lia. rewrite Z.add_mod_idemp_l by lia.
    replace (r_idx r + size - n + i) with (r_idx r - 1 - (n - 1 - i) + 1 * size) by lia.
    rewrite Z.mod_add, Hg, aget_last_n by lia. f_equal. lia.
Qed.

(** * The band-pass chunk *)
Lemma lp_alpha_range : 0 <= lp_alpha <= 256.
Proof. vdec. Qed.

(** A step of the filter moves towards its input and stays on its side. *)
Lemma lp_between y x : Z.min y x <= y + ((x - y) * lp_alpha) ÷ 256 <= Z.max y x.
Proof.
  apply ema_between, lp_alpha_range.
Qed.

Lemma lp_step_eq y x :
  is_i16 y -> is_i16 x -> lp_step y x = y + ((x - y) * lp_alpha) ÷ 256 /\ is_i16 (lp_step y x).
Proof.
  intros Hy Hx. unfold lp_step. pose proof (lp_between y x). pose proof lp_alpha_range.
  rewrite (i32_small ((x - y) * lp_alpha)) by (unfold_ranges; nia).
  rewrite i32_small by rlia. split; [done | rlia].
Qed.

Lemma lp_list_range y l : is_i16 y -> Forall is_i16 l -> Forall is_i16 (lp_list y l).
Proof.
  intros Hy Hl. revert y Hy. induction Hl as [| x l Hx Hl IH]; intros y Hy; cbn [lp_list]; [done |].
  pose proof (lp_step_eq y x Hy Hx) as [E R]. rewrite E in R. constructor; auto.
Qed.

Lemma lp_ref_range l : Forall is_i16 l -> Forall is_i16 (lp_ref l).
Proof. destruct 1; cbn; [done |]. constructor; [done |]. by apply lp_list_range. Qed.

Lemma alen_lp_ref l : alen (lp_ref l) = alen l.
Proof.
  unfold alen. destruct l as [| x l]; [done |]. cbn [lp_ref length]. do 2 f_equal. 
  generalize x. induction l; intros y; cbn [lp_list length]; [done |]. f_equal. auto.
Qed.

Lemma aget_mid pre x suf : aget (pre ++ x :: suf) (alen pre) = x.
Proof. unfold aget, alen. rewrite Nat2Z.id, nth_lookup, list_lookup_middle; done. Qed.

Lemma aset_mid pre x suf v : aset (pre ++ x :: suf) (alen pre) v = pre ++ v :: suf.
Proof.
  unfold aset, alen. rewrite Nat2Z.id. rewrite <- (Nat.add_0_r (length pre)) at 1.
  by rewrite insert_app_r.
Qed.

Lemma lp_loop_aux pre suf y :
  Forall is_i16 suf -> is_i16 y ->
  snd (for_ (alen pre) (alen (pre ++ suf)) (fun i '(y, o) =>
    let y := lp_step y (aget o i) in (y, aset o i (i16 y))) (y, pre ++ suf))
  = pre ++ lp_list y suf.
Proof.
  intros Hs. revert pre y. induction Hs as [| x suf Hx Hs IH]; intros pre y Hy.
  - cbn [lp_list]. rewrite app_nil_r. by rewrite for_nil by lia.
  - rewrite for_cons by (rewrite alen_app; unfold alen; cbn [length]; lia).
    cbv zeta. rewrite aget_mid, aset_mid.
    destruct (lp_step_eq y x Hy Hx) as [E R]. rewrite (i16_small _ R). rewrite E in R |- *.
    cbn [lp_list]. set (y' := y + _) in *. cbv zeta.
    replace (pre ++ y' :: suf) with ((pre ++ [y']) ++ suf) by (by rewrite <- app_assoc).
    replace (pre ++ y' :: lp_list y' suf) with ((pre ++ [y']) ++ lp_list y' suf)
      by (by rewrite <- app_assoc).
    rewrite <- IH by done. f_equal. f_equal; unfold alen; rewrite !length_app; cbn [length]; lia.
Qed.

Lemma lp_loop_eq n o : Forall is_i16 o -> alen o = n -> 1 <= n -> lp_loop n o = lp_ref o.
Proof.
  intros Ho <- Hn. destruct Ho as [| x o Hx Ho]; [by vm_compute in Hn |].
  unfold lp_loop.
  exact (lp_loop_aux [x] o x Ho Hx).
Qed.

Lemma shCopySensOrdered_eq `{HelmetConfig} h r n :
  ring_ok BAND_WIN h r -> Forall is_i16 h -> 0 <= n ->
  let k := Z.min n (r_count r) in
  shCopySensOrdered n r = (if ENABLE_HR_BANDPASS then lp_ref (last_n k h) else last_n k h, k) /\
  0 <= k <= BAND_WIN /\ k <= alen h.
Proof.
  intros Hr Hh Hn k. pose proof Hr as (Hs & Hl & Hi & Hc & Hg). pose proof (alen_nonneg h).
  assert (0 <= k <= BAND_WIN /\ k <= alen h) as Hk by (unfold k; lia). split; [| done].
  unfold shCopySensOrdered.
  assert ((let n' := if r_count r <? n then r_count r else n in
    if BAND_WIN <? n' then BAND_WIN else n') = k) as E by (unfold k; cbv zeta; repeat zcase; lia).
  cbv zeta in E |- *. rewrite E. clear E. clearbody k. destruct (Z.eqb_spec k 0) as [-> | Hk0].
  - unfold last_n. rewrite drop_ge by (unfold alen; lia). by destruct ENABLE_HR_BANDPASS.
  - rewrite (ring_copy_ok BAND_WIN h) by (done || lia).
    destruct ENABLE_HR_BANDPASS; [| done]. rewrite lp_loop_eq; [done | | |].
    + by apply last_n_Forall.
    + apply alen_last_n. lia.
    + lia.
Qed.

(** Whatever sequence of samples was pushed into the empty SENS ring,
    the ordered copy holds exactly the latest [min n 100] of them, oldest
    first, passed through the low-pass; each value fits 16 bits, so no cast
    changes it. *)
Theorem shCopySensOrdered_history `{HelmetConfig} h n :
  Forall is_i16 h -> 0 <= n ->
  let r := fold_left (fun r v => ring_push BAND_WIN v r) h (ring_empty BAND_WIN) in
  let k := Z.min n (Z.min (alen h) BAND_WIN) in
  let '(o, m) := shCopySensOrdered n r in
  m = k /\ alen o = k /\ Forall is_i16 o /\
  o = if ENABLE_HR_BANDPASS then lp_ref (last_n k h) else last_n k h.
Proof.
  intros Hh Hn r k.
  assert (ring_ok BAND_WIN h r) as Hr by (apply ring_history_ok; vdec).
  destruct (shCopySensOrdered_eq h r n Hr Hh Hn) as [-> Hk].
  assert (Z.min n (r_count r) = k) as -> by (destruct Hr as (_ & _ & _ & -> & _); done).
  assert (alen (last_n k h) = k) by (apply alen_last_n; pose proof (alen_nonneg h); lia).
  split; [done |]. destruct ENABLE_HR_BANDPASS; split_and!; try done.
  - by rewrite alen_lp_ref.
  - by apply lp_ref_range, last_n_Forall.
  - by apply last_n_Forall.
Qed.

Lemma shCopySensOrdered_history_witness :
  let r := fold_left (fun r v => ring_push BAND_WIN v r) [5; -300; 77; 1000] (ring_empty BAND_WIN) in
  let '(o, m) := shCopySensOrdered (H := shipped) 3 r in
  m = 3 /\ alen o = 3 /\ Forall is_i16 o /\ o = lp_ref (last_n 3 [5; -300; 77; 1000]).
Proof. apply (@shCopySensOrdered_history shipped [5; -300; 77; 1000] 3); vdec. Defined.
