(* ===== verification/ISort.v ===== *)
(** The in-place insertion sort that shPeakBpm runs on the inter-beat
    intervals and shFuseHr on the candidate rates, and the selection of the
    median from the sorted prefix. *)
From Stdlib Require Export Sorted.
From S2P Require Import Prelude Config Dsp Ring.

(** * The loops *)

(** [while (b > 0 && l[b - 1] > key) { l[b] = l[b - 1]; b--; }] *)
Definition shift_cond (key : Z) (st : Z * list Z) : bool :=
  let '(b, l) := st in (0 <? b) && (key <? aget l (b - 1)).
Definition shift_body (st : Z * list Z) : Z * list Z :=
  let '(b, l) := st in (b - 1, aset l b (aget l (b - 1))).

(** The iteration of index [a]. *)
Definition insert_at (a : Z) (l : list Z) : list Z :=
  let key := aget l a in
  let '(b, l) := while_ (S (Z.to_nat a)) (shift_cond key) shift_body (a, l) in
  aset l b key.

Definition isort (n : Z) (l : list Z) : list Z := for_ 1 n insert_at l.

(** * Correctness *)

(** The hole left by the shifted elements stops right behind the last
    element that is not greater than the key. *)
Lemma shift_loop key fuel p h p2 :
  (length p < fuel)%nat ->
  exists q1 q2, p = q1 ++ q2 /\
    (let '(b, l) := while_ fuel (shift_cond key) shift_body (alen p, p ++ h :: p2) in aset l b key)
      = q1 ++ key :: q2 ++ p2 /\
    Forall (fun x => key < x) q2 /\
    (q1 = [] \/ exists q x, q1 = q ++ [x] /\ x <= key).
Proof.
  revert fuel h p2. induction p as [| x p IH] using rev_ind; intros fuel h p2 Hf;
    (destruct fuel as [| fuel]; [lia |]); cbn [while_].
  - exists [], []. split; [done |]. split; [| by auto].
    change (shift_cond key (alen [], [] ++ h :: p2)) with false. exact (aset_mid [] h p2 key).
  - assert (alen (p ++ [x]) - 1 = alen p) as E by (unfold alen; rewrite length_app; cbn; lia).
    assert (aget ((p ++ [x]) ++ h :: p2) (alen p) = x) as Hg
      by (rewrite <- app_assoc; apply aget_mid).
    assert (shift_cond key (alen (p ++ [x]), (p ++ [x]) ++ h :: p2) = (key <? x)) as ->.
    { unfold shift_cond. rewrite E, Hg.
      by rewrite (proj2 (Z.ltb_lt 0 _)) by (unfold alen; rewrite length_app; cbn; lia). }
    destruct (Z.ltb_spec key x) as [Hx | Hx].
    + unfold shift_body at 2. rewrite aset_mid, E, Hg, <- app_assoc.
      destruct (IH fuel x (x :: p2)) as (q1 & q2 & -> & R & Hq2 & Hq1).
      { rewrite length_app in Hf. cbn in Hf. lia. }
      exists q1, (q2 ++ [x]). split; [by rewrite app_assoc |].
      split; [rewrite <- (app_assoc q2); exact R |].
      split; [by apply Forall_app_2; auto | done].
    + exists (p ++ [x]), []. split; [by rewrite app_nil_r |].
      split; [by rewrite aset_mid |]. split; [done |]. right. eauto.
Qed.

Lemma sorted_insert key q1 q2 :
  StronglySorted Z.le (q1 ++ q2) -> Forall (fun x => key < x) q2 ->
  (q1 = [] \/ exists q x, q1 = q ++ [x] /\ x <= key) ->
  StronglySorted Z.le (q1 ++ key :: q2).
Proof.
  intros Hs Hq2 Hq1. induction q1 as [| y q1 IH]; cbn [app] in *.
  - constructor; [done |]. eapply Forall_impl; [exact Hq2 |]. simpl. lia.
  - inversion Hs as [| ? ? Hs' Hy]; subst. rewrite Forall_app in Hy. destruct Hy as [Hy1 Hy2].
    destruct Hq1 as [? | (q & x & Hq & Hx)]; [done |]. destruct q as [| y' q]; simplify_eq/=.
    + constructor; [by apply IH; auto |]. constructor; [done |]. done.
    + constructor; [apply IH; eauto |]. apply Forall_app_2; [done |]. constructor; [| done].
      rewrite Forall_app in Hy1. destruct Hy1 as [_ Hy1]. inversion Hy1; subst. lia.
Qed.

Lemma insert_at_ok s key rest :
  StronglySorted Z.le s ->
  exists s', insert_at (alen s) (s ++ key :: rest) = s' ++ rest /\
    s' ≡ₚ s ++ [key] /\ StronglySorted Z.le s'.
Proof.
  intros Hs. unfold insert_at. rewrite aget_mid.
  destruct (shift_loop key (S (Z.to_nat (alen s))) s key rest) as (q1 & q2 & -> & R & Hq2 & Hq1).
  { unfold alen. lia. }
  rewrite R. exists (q1 ++ key :: q2). split; [by rewrite <- app_assoc |].
  split; [| by apply sorted_insert].
  rewrite <- app_assoc. f_equiv. by rewrite Permutation_cons_append.
Qed.

(** The first [n] cells become a sorted permutation of themselves and the
    others are not touched. *)
Lemma isort_ok n l :
  0 <= n <= alen l ->
  exists s, isort n l = s ++ drop (Z.to_nat n) l /\
    s ≡ₚ take (Z.to_nat n) l /\ StronglySorted Z.le s.
Proof.
  intros Hn. unfold isort. destruct (Z.le_gt_cases n 1).
  - rewrite for_nil by lia. exists (take (Z.to_nat n) l). split; [by rewrite take_drop |].
    split; [done |]. destruct l as [| x l]; [rewrite take_nil; constructor |].
    assert (n = 0 \/ n = 1) as [-> | ->] by lia; cbn; repeat constructor.
  - apply (for_ind (fun a l' => exists s, l' = s ++ drop (Z.to_nat a) l /\
      s ≡ₚ take (Z.to_nat a) l /\ StronglySorted Z.le s) 1 n insert_at l); [lia | |].
    + destruct l as [| x l]; [unfold alen in Hn; cbn in Hn; lia |].
      exists [x]. cbn. repeat constructor.
    + intros a l' Ha (s & -> & Hp & Hs).
      assert (alen s = a) as Hl
        by (unfold alen; rewrite Hp, length_take; unfold alen in Hn; lia).
      destruct (lookup_lt_is_Some_2 l (Z.to_nat a)) as [x Hx]; [unfold alen in Hn; lia |].
      rewrite (drop_S _ _ _ Hx). destruct (insert_at_ok s x (drop (S (Z.to_nat a)) l) Hs)
        as (s' & R & Hp' & Hs'). rewrite Hl in R. rewrite R. exists s'.
      replace (Z.to_nat (a + 1)) with (S (Z.to_nat a)) by lia. split; [done |]. split; [| done].
      rewrite (take_S_r _ _ _ Hx), Hp', Hp. done.
Qed.
