(* ===== verification/Peak.v ===== *)
(** The time-domain estimator shPeakBpm: local maxima above a threshold, the
    intervals between them, their median and spread, and the rate. *)
From S2P Require Import Prelude Config Dsp Ring ISort.

(** * The detector *)
Definition SH_IBI_MAX : Z := 16.

Record peak_st := mkpeak {
  pk_peaks : Z; pk_last : Z; pk_ibi : list Z; pk_sum : Z; pk_n : Z }.

#[export] Instance peak_st_eta : RecordEta peak_st := fun r =>
  mkpeak (pk_peaks r) (pk_last r) (pk_ibi r) (pk_sum r) (pk_n r).

Definition peak_init : peak_st := mkpeak 0 255 (replicate 16 0) 0 0.

Definition max_ibi : Z := u16 (VITALS_FS_HZ * 60 / HR_BPM_MIN).
Definition min_ibi : Z := u16 (VITALS_FS_HZ * 60 / HR_BPM_MAX).

Definition peak_thr (x : list Z) (n : Z) : Z :=
  let thr := (shMeanAbsI16 x n * HR_PEAK_THR_Q8) ÷ 256 in
  if thr <? 5 then 5 else thr.

(** The new maximum at [i]: [last_peak = i; peaks++]. *)
Definition peak_new (i : Z) (s : peak_st) : peak_st :=
  s <| pk_last := i |> <| pk_peaks ::= (fun p => u8 (p + 1)) |>.

(** The body of the scan at sample [i]. *)
Definition peak_step (x : list Z) (thr i : Z) (s : peak_st) : peak_st :=
  let yi := aget x i in
  if (yi <=? aget x (i - 1)) || (yi <? aget x (i + 1)) then s else
  if yi <? thr then s else
  if negb (pk_last s =? 255) then
    let ibi := u16 (i - pk_last s) in
    if ibi <? HR_MIN_PEAK_DIST then
      (if aget x (pk_last s) <? yi then s <| pk_last := i |> else s)
    else if (min_ibi <=? ibi) && (ibi <=? max_ibi) && (pk_n s <? SH_IBI_MAX) then
      peak_new i
        (s <| pk_ibi ::= (fun l => aset l (pk_n s) (u8 ibi)) |>
           <| pk_sum ::= (fun t => u32 (t + ibi)) |>
           <| pk_n ::= (fun k => u8 (k + 1)) |>)
    else peak_new i s
  else peak_new i s.

Definition peak_scan (x : list Z) (n : Z) : peak_st :=
  for_ 1 (n - 1) (peak_step x (peak_thr x n)) peak_init.

(** The median of the first [n] cells of a sorted array, in Q8. *)
Definition median_q8 (l : list Z) (n : Z) : Z :=
  if Z.odd n then u16 (Z.shiftl (aget l (n / 2)) 8)
  else u16 (Z.shiftl (aget l (n / 2 - 1) + aget l (n / 2)) 8 / 2).

(** The interval estimate and the interval list as it is left. *)
Definition peak_ibi_q8 `{HelmetConfig} (s : peak_st) : Z * list Z :=
  if HR_PEAK_IBI_MEDIAN
  then let l := isort (pk_n s) (pk_ibi s) in (median_q8 l (pk_n s), l)
  else (u16 (u32 (Z.shiftl (pk_sum s) 8) / pk_n s), pk_ibi s).

(** The largest deviation of an interval from the estimate. *)
Definition ibi_dev_max (l : list Z) (n ibi_q8 : Z) : Z :=
  for_ 0 n (fun i dev_max =>
    let d := Z.shiftl (aget l i) 8 - ibi_q8 in
    let d := if d <? 0 then - d else d in
    if dev_max <? u32 d then u32 d else dev_max) 0.

Definition ibi_irregular `{HelmetConfig} (l : list Z) (n ibi_q8 : Z) : bool :=
  (0 <? HR_IBI_SPREAD_PCT) && (3 <=? n) &&
  (u32 (ibi_q8 * HR_IBI_SPREAD_PCT) <? u32 (ibi_dev_max l n ibi_q8 * 100)).

(** [0] unless the rate is in the band. *)
Definition in_hr_band (bpm : Z) : Z :=
  if (bpm <? HR_BPM_MIN) || (HR_BPM_MAX <? bpm) then 0 else bpm.

(** Returns the rate and the peak count. *)
Definition shPeakBpm `{HelmetConfig} (fs_q8 : Z) (x : list Z) (n : Z) : Z * Z :=
  if n <? HR_MIN_PEAK_DIST * 2 + 3 then (0, 0) else
  let s := peak_scan x n in
  if pk_n s =? 0 then (0, pk_peaks s) else
  let '(ibi_q8, l) := peak_ibi_q8 s in
  if ibi_q8 =? 0 then (0, pk_peaks s) else
  if ibi_irregular l (pk_n s) ibi_q8 then (0, pk_peaks s) else
  (in_hr_band (shIntervalQ8ToBpm fs_q8 ibi_q8), pk_peaks s).

(** * Vocabulary of the specifications *)

(** What the scan knows before sample [i]. *)
Definition peak_inv (x : list Z) (thr i : Z) (s : peak_st) : Prop :=
  (s = peak_init \/
   1 <= pk_last s < i /\ 1 <= pk_peaks s /\ pk_peaks s * 8 <= pk_last s + 8 /\
   thr <= aget x (pk_last s) /\
   0 <= pk_n s < pk_peaks s /\ alen (pk_ibi s) = SH_IBI_MAX /\
   Forall (fun d => 8 <= d <= 37) (take (Z.to_nat (pk_n s)) (pk_ibi s)) /\
   pk_sum s = sumZ (take (Z.to_nat (pk_n s)) (pk_ibi s))).

(** The median of a sorted list, in Q8. *)
Definition list_median_q8 (l : list Z) : Z :=
  let n := alen l in
  if Z.odd n then aget l (n / 2) * 256 else (aget l (n / 2 - 1) + aget l (n / 2)) * 128.

(** A pulse train of period [t] and phase [r] over [n] samples. *)
Definition pulse_train (a t r n : Z) : list Z :=
  (fun i => if (i - r) mod t =? 0 then a else 0) <$> seqZ 0 n.

(** * The scan *)
Lemma peak_step_inv x thr i s :
  1 <= i -> i <= 120 -> peak_inv x thr i s -> peak_inv x thr (i + 1) (peak_step x thr i s).
Proof.
  intros Hi Hi2 Hs. unfold peak_step.
  assert (peak_inv x thr (i + 1) s) as Hs'.
  { destruct Hs as [? | Hs]; [by left | right; intuition lia]. }
  destruct (_ || _); [done |]. destruct (Z.ltb_spec (aget x i) thr) as [| Hthr]; [done |].
  destruct Hs as [-> | (Hl & Hp & Hd & Ht & Hn & Ha & Hf & Hsum)].
  - right. cbn. rewrite u8_small by rlia. unfold SH_IBI_MAX, alen. cbn.
    split_and!; try (done || lia).
  - rewrite (proj2 (Z.eqb_neq (pk_last s) 255)) by lia. cbn [negb].
    rewrite u16_small by rlia. unfold HR_MIN_PEAK_DIST.
    destruct (Z.ltb_spec (i - pk_last s) 8).
    + destruct (_ <? _); [| done]. right. cbn. repeat split; done || lia.
    + destruct (_ && _) eqn:E.
      * rewrite !andb_true_iff, !Z.leb_le, Z.ltb_lt in E.
        change min_ibi with 8 in E. change max_ibi with 37 in E. change SH_IBI_MAX with 16 in *.
        right. cbn. rewrite !(u8_small (_ - _)), !u8_small by rlia.
        rewrite alen_aset. repeat (split; [done || lia |]).
        rewrite take_snoc by (rewrite alen_aset; lia). rewrite aget_aset_eq by lia.
        unfold aset. rewrite take_insert_ge by lia. rewrite sumZ_app, <- Hsum.
        change (sumZ [i - pk_last s]) with (i - pk_last s + 0).
        split; [apply Forall_app_2; [done | repeat constructor; lia] |].
        assert (pk_sum s <= 37 * alen (take (Z.to_nat (pk_n s)) (pk_ibi s)) /\ 0 <= pk_sum s).
        { rewrite Hsum. split; [apply sumZ_bound | apply sumZ_nonneg];
            (eapply Forall_impl; [exact Hf |]); simpl; lia. }
        rewrite alen_take in * by lia. rewrite u32_small by rlia. lia.
      * right. cbn. rewrite u8_small by rlia. repeat split; done || lia.
Qed.

Lemma peak_scan_inv x n :
  n <= 100 -> peak_inv x (peak_thr x n) (Z.max 1 (n - 1)) (peak_scan x n).
Proof.
  intros Hn. unfold peak_scan. destruct (Z.le_gt_cases (n - 1) 1).
  - rewrite for_nil by lia. by left.
  - rewrite Z.max_r by lia. apply (for_ind (peak_inv x (peak_thr x n))); [lia | by left |].
    intros i s Hi. apply peak_step_inv; lia.
Qed.

(** * The estimate *)
Lemma ibi_dev_max_spec l n q :
  0 <= n <= alen l -> Forall (fun d => 8 <= d <= 37) (take (Z.to_nat n) l) -> 2048 <= q <= 9472 ->
  0 <= ibi_dev_max l n q <= 9472 /\
  Forall (fun d => Z.abs (256 * d - q) <= ibi_dev_max l n q) (take (Z.to_nat n) l).
Proof.
  intros Hn Hl Hq. unfold ibi_dev_max.
  apply (for_ind (fun i m => 0 <= m <= 9472 /\
    Forall (fun d => Z.abs (256 * d - q) <= m) (take (Z.to_nat i) l))); [lia | |].
  { split; [lia | constructor]. }
  intros i m Hi [Hm Hf]. cbv zeta.
  assert (8 <= aget l i <= 37) as Hd.
  { rewrite Forall_lookup in Hl. apply (Hl (Z.to_nat i)).
    rewrite lookup_take_lt by lia. destruct (lookup_lt_is_Some_2 l (Z.to_nat i)) as [d Hd];
      [unfold alen in Hn; lia |]. by rewrite Hd, (aget_lookup _ _ _ Hd). }
  rewrite Z.shiftl_mul_pow2 by lia. change (2 ^ 8) with 256.
  replace (if aget l i * 256 - q <? 0 then _ else _) with (Z.abs (256 * aget l i - q))
    by (zcase; lia).
  rewrite u32_small by rlia. rewrite take_snoc by lia.
  set (m' := if _ <? _ then _ else _).
  assert (m <= m' /\ Z.abs (256 * aget l i - q) <= m' <= 9472) as Hm'
    by (unfold m'; zcase; lia).
  split; [lia |]. apply Forall_app_2; [| by repeat constructor; lia].
  eapply Forall_impl; [exact Hf |]. simpl. lia.
Qed.

Lemma median_q8_sorted s rest n :
  alen s = n -> 1 <= n -> Forall (fun d => 8 <= d <= 37) s ->
  median_q8 (s ++ rest) n = list_median_q8 s /\ 2048 <= list_median_q8 s <= 9472.
Proof.
  intros Hs Hn Hf. unfold median_q8, list_median_q8. rewrite Hs.
  assert (forall i, 0 <= i < n -> aget (s ++ rest) i = aget s i /\ 8 <= aget s i <= 37) as Hg.
  { intros i Hi. rewrite aget_app, (proj2 (Z.ltb_lt i (alen s))) by lia. split; [done |].
    rewrite Forall_lookup in Hf. apply (Hf (Z.to_nat i)).
    destruct (lookup_lt_is_Some_2 s (Z.to_nat i)) as [d Hd]; [unfold alen in Hs; lia |].
    by rewrite Hd, (aget_lookup _ _ _ Hd). }
  rewrite !Z.shiftl_mul_pow2 by lia. change (2 ^ 8) with 256.
  destruct (Hg (n / 2)) as [-> H1]; [zlia |].
  destruct (Z.odd n) eqn:Ho; [rewrite u16_small by rlia; lia |].
  assert (2 <= n) by (destruct (Z.eq_dec n 1) as [-> |]; [done | lia]).
  destruct (Hg (n / 2 - 1)) as [-> H2]; [zlia |].
  replace (_ * 256 / 2) with ((aget s (n / 2 - 1) + aget s (n / 2)) * 128) by zlia.
  rewrite u16_small by rlia. lia.
Qed.

(** What a peak estimate means.  The peak count is at most one per
    eight samples, so neither it nor the interval table can overflow; and a
    non-zero rate is in the band and is [60 fs / median] of the sorted list
    of the intervals found, each between 8 and 37 samples, none of which, when there are three or more, is further from the
    median than the allowed spread. *)
Theorem shPeakBpm_sound `{HelmetConfig} fs x n :
  HR_PEAK_IBI_MEDIAN = true -> 0 < HR_IBI_SPREAD_PCT <= 100 -> is_u16 fs -> 0 <= n <= 100 ->
  let '(bpm, cnt) := shPeakBpm fs x n in
  0 <= cnt <= n / 8 + 1 /\
  (bpm <> 0 -> HR_BPM_MIN <= bpm <= HR_BPM_MAX /\
    exists ibis, 1 <= alen ibis < cnt /\ StronglySorted Z.le ibis /\
      Forall (fun d => 8 <= d <= 37) ibis /\
      bpm = 60 * fs / list_median_q8 ibis /\
      (3 <= alen ibis -> Forall (fun d =>
        Z.abs (256 * d - list_median_q8 ibis) * 100 <= list_median_q8 ibis * HR_IBI_SPREAD_PCT) ibis)).
Proof.
  intros Hmed Hpct Hfs Hn. unfold shPeakBpm.
  destruct (Z.ltb_spec n (HR_MIN_PEAK_DIST * 2 + 3)) as [| Hbig]; [split; [zlia | done] |].
  change (HR_MIN_PEAK_DIST * 2 + 3) with 19 in Hbig. cbv zeta.
  pose proof (peak_scan_inv x n ltac:(lia)) as Hinv. set (s := peak_scan x n) in *.
  destruct Hinv as [-> | (Hl & Hp & Hd & _ & Hk & Ha & Hf & _)]; [cbn; split; [zlia | done] |].
  assert (0 <= pk_peaks s <= n / 8 + 1) as Hc by zlia.
  destruct (Z.eqb_spec (pk_n s) 0) as [| Hk0]; [done |].
  unfold peak_ibi_q8. rewrite Hmed.
  destruct (isort_ok (pk_n s) (pk_ibi s)) as (t & Et & Hperm & Hsort); [change SH_IBI_MAX with 16 in Ha; zlia |].
  rewrite Et. assert (alen t = pk_n s) as Ht.
  { unfold alen. rewrite Hperm. change SH_IBI_MAX with 16 in Ha. apply alen_take. zlia. }
  assert (Forall (fun d => 8 <= d <= 37) t) as Hft by (by rewrite Hperm).
  assert (forall rest, take (Z.to_nat (pk_n s)) (t ++ rest) = t) as Htake.
  { intros. replace (Z.to_nat (pk_n s)) with (length t) by (unfold alen in Ht; lia).
    apply take_app_length. }
  destruct (median_q8_sorted t (drop (Z.to_nat (pk_n s)) (pk_ibi s)) (pk_n s))
    as [Em Hm]; [done | lia | done |]. rewrite Em. set (q := list_median_q8 t) in *.
  rewrite (proj2 (Z.eqb_neq q 0)) by lia.
  destruct (ibi_irregular _ _ _) eqn:Hirr; [done |]. split; [done |].
  unfold in_hr_band, shIntervalQ8ToBpm. rewrite (proj2 (Z.eqb_neq q 0)) by lia.
  rewrite u32_small by rlia.
  assert (is_u16 (60 * fs / q)).
  { unfold is_u16 in *. split; [apply Z.div_pos; lia | apply Z.div_lt_upper_bound; lia]. }
  rewrite u16_small by done. destruct (_ || _) eqn:Hband; [done |].
  rewrite orb_false_iff, !Z.ltb_ge in Hband. intros _. split; [lia |].
  exists t. fold q. split; [lia |]. split_and!; try done. intros H3. revert Hirr.
  unfold ibi_irregular.
  rewrite (proj2 (Z.ltb_lt 0 _)) by lia. rewrite (proj2 (Z.leb_le 3 _)) by lia. cbn [andb].
  destruct (ibi_dev_max_spec (t ++ drop (Z.to_nat (pk_n s)) (pk_ibi s)) (pk_n s) q)
    as [Hdev Hall]; [rewrite alen_app; pose proof (alen_nonneg (drop (Z.to_nat (pk_n s)) (pk_ibi s))); lia | | lia |].
  { by rewrite Htake. }
  rewrite !u32_small by (unfold is_u32; nia). rewrite Z.ltb_ge. intros Hle.
  rewrite Htake in Hall.
  eapply Forall_impl; [exact Hall |]. simpl. lia.
Qed.

(** ** Pulse trains *)
Lemma pulse_train_scale a t r n : pulse_train a t r n = Z.mul a <$> pulse_train 1 t r n.
Proof.
  unfold pulse_train. rewrite <- list_fmap_compose. apply list_fmap_ext. intros i x _. cbn. zcase; lia.
Qed.

Lemma aget_scale a l i : aget (Z.mul a <$> l) i = a * aget l i.
Proof. unfold aget. rewrite <- (Z.mul_0_r a) at 1. apply map_nth. Qed.

Lemma pulse_train_bit t r n i : aget (pulse_train 1 t r n) i = 0 \/ aget (pulse_train 1 t r n) i = 1.
Proof.
  apply (aget_Forall (fun p => p = 0 \/ p = 1)); [| by left]. unfold pulse_train. apply Forall_fmap, Forall_forall.
  intros k _. cbn. zcase; auto.
Qed.

(** A step sees of a pulse train only where the pulses are. *)
Lemma peak_step_pulses a t r n thr i s : 0 < thr <= a ->
  peak_step (pulse_train a t r n) thr i s = peak_step (pulse_train 1 t r n) 1 i s.
Proof.
  intros Ha. unfold peak_step. rewrite pulse_train_scale, !aget_scale.
  pose proof (pulse_train_bit t r n). set (p := aget (pulse_train 1 t r n)) in *.
  assert (forall j k, (a * p j <=? a * p k) = (p j <=? p k)) as Hle
    by (intros j k; destruct (H j) as [-> | ->], (H k) as [-> | ->]; repeat zcase; lia).
  assert (forall j k, (a * p j <? a * p k) = (p j <? p k)) as Hlt
    by (intros j k; destruct (H j) as [-> | ->], (H k) as [-> | ->]; repeat zcase; lia).
  assert ((a * p i <? thr) = (p i <? 1)) as Ht by (destruct (H i) as [-> | ->]; repeat zcase; lia).
  by rewrite !Hle, !Hlt, Ht.
Qed.

(** At most 13 of 100 samples are pulses. *)
Lemma pulse_train_mean a t r : 8 <= t <= 37 -> 1 <= r < t -> 0 <= a <= 32767 ->
  0 <= shMeanAbsI16 (pulse_train a t r 100) 100 <= a * 13 / 100.
Proof.
  intros Ht Hr Ha.
  assert (forallb (fun t => forallb (fun r => let k := sumZ (pulse_train 1 t r 100) in (0 <=? k) && (k <=? 13)) (seqZ 1 (t - 1))) (seqZ 8 30) = true) as Hk
    by (vm_compute; reflexivity).
  rewrite forallb_forall in Hk. specialize (Hk t). rewrite <- list_elem_of_In, elem_of_seqZ in Hk. specialize (Hk ltac:(lia)).
  rewrite forallb_forall in Hk. specialize (Hk r). rewrite <- list_elem_of_In, elem_of_seqZ in Hk. specialize (Hk ltac:(lia)).
  cbv zeta in Hk. rewrite andb_true_iff, !Z.leb_le in Hk.
  assert (alen (pulse_train a t r 100) = 100) as Hl by (unfold pulse_train, alen; rewrite length_fmap, length_seqZ; done).
  rewrite shMeanAbsI16_spec; [| | lia | lia].
  - rewrite take_ge by (unfold alen in Hl; lia).
    assert (sumZ (Z.abs <$> pulse_train a t r 100) = a * sumZ (pulse_train 1 t r 100)) as ->.
    { rewrite pulse_train_scale. generalize (pulse_train_bit t r 100).
      assert (Forall (fun p => p = 0 \/ p = 1) (pulse_train 1 t r 100)) as Hf
        by (unfold pulse_train; apply Forall_fmap, Forall_forall; intros k _; cbn; zcase; auto).
      intros _. clear Hk Hl. induction Hf as [| p l Hp _ IH]; [cbn; lia |]. rewrite !fmap_cons.
      change (sumZ (?x :: ?l)) with (x + sumZ l). rewrite IH. clear IH. destruct Hp as [-> | ->]; lia. }
    split; [apply Z.div_pos; nia | apply Z.div_le_mono; nia].
  - unfold pulse_train. apply Forall_fmap, Forall_forall. intros k _. cbn. zcase; rlia.
Qed.

Lemma shPeakBpm_height a t r : 8 <= t <= 37 -> 1 <= r < t -> 5 <= a <= 32767 ->
  shPeakBpm (H := shipped) 6400 (pulse_train a t r 100) 100 = shPeakBpm (H := shipped) 6400 (pulse_train 60 t r 100) 100.
Proof.
  intros Ht Hr Ha.
  assert (forall a, 5 <= a <= 32767 -> peak_scan (pulse_train a t r 100) 100 = for_ 1 99 (peak_step (pulse_train 1 t r 100) 1) peak_init) as Hs.
  { intros b Hb. apply for_ext. intros i s _. apply peak_step_pulses. unfold peak_thr, HR_PEAK_THR_Q8.
    pose proof (pulse_train_mean b t r Ht Hr ltac:(lia)). rewrite Z.quot_div_nonneg by lia. zcase; zlia. }
  unfold shPeakBpm. by rewrite !Hs by lia.
Qed.

(** [C38] A clean rhythm is measured exactly: in the shipped build at 25 Hz,
    100 samples of a pulse train of any height from 5 to 32767, any period
    from 9 to 37 samples and any phase give the rate of that period, and as
    many peaks as it has pulses, whenever two pulses fall inside the window;
    a period of 8 samples (187 beats per minute) lies above the band and
    gives 0. *)
Theorem shPeakBpm_pulse_train a t r :
  5 <= a <= 32767 -> 8 <= t <= 37 -> 1 <= r < t -> r + t < 99 ->
  let '(bpm, cnt) := shPeakBpm (H := shipped) 6400 (pulse_train a t r 100) 100 in
  bpm = (if t =? 8 then 0 else 60 * VITALS_FS_HZ / t) /\
  cnt = (98 - r) / t + 1.
Proof.
  intros Ha Ht Hr Hrt. rewrite shPeakBpm_height by done.
  assert (forallb (fun t => forallb (fun r =>
    let '(bpm, cnt) := shPeakBpm (H := shipped) 6400 (pulse_train 60 t r 100) 100 in
    (bpm =? (if t =? 8 then 0 else 60 * VITALS_FS_HZ / t)) &&
    (cnt =? (98 - r) / t + 1)) (seqZ 1 (t - 1))) (seqZ 8 30) = true) as Hall
    by (vm_compute; reflexivity).
  rewrite forallb_forall in Hall. specialize (Hall t). rewrite <- list_elem_of_In, elem_of_seqZ in Hall.
  specialize (Hall ltac:(lia)). rewrite forallb_forall in Hall. specialize (Hall r).
  rewrite <- list_elem_of_In, elem_of_seqZ in Hall. specialize (Hall ltac:(lia)).
  destruct (shPeakBpm _ _ _) as [bpm cnt].
  rewrite andb_true_iff, !Z.eqb_eq in Hall. done.
Qed.

Lemma shPeakBpm_sound_witness :
  let '(bpm, cnt) := shPeakBpm (H := shipped) 6400 (pulse_train 60 20 3 100) 100 in
  (0 <= cnt <= 100 / 8 + 1 /\
  (bpm <> 0 -> HR_BPM_MIN <= bpm <= HR_BPM_MAX /\
    exists ibis, 1 <= alen ibis < cnt /\ StronglySorted Z.le ibis /\
      Forall (fun d => 8 <= d <= 37) ibis /\
      bpm = 60 * 6400 / list_median_q8 ibis /\
      (3 <= alen ibis -> Forall (fun d =>
        Z.abs (256 * d - list_median_q8 ibis) * 100 <= list_median_q8 ibis * 35) ibis))).
Proof. apply (@shPeakBpm_sound shipped 6400 (pulse_train 60 20 3 100) 100); vdec. Defined.

Lemma shPeakBpm_pulse_train_witness :
  let '(bpm, cnt) := shPeakBpm (H := shipped) 6400 (pulse_train 700 20 3 100) 100 in
  bpm = (if 20 =? 8 then 0 else 60 * VITALS_FS_HZ / 20) /\
  cnt = (98 - 3) / 20 + 1.
Proof. apply (shPeakBpm_pulse_train 700 20 3); vdec. Defined.
