(* ===== verification/Fft.v ===== *)
(** The frequency-domain estimator: the twiddle tables, the radix-2 FFT, the
    analysis frame, the search for the dominant bin of the pulse band and its
    smoothing over windows (shFftBpm). *)
From S2P Require Import Prelude Config Dsp Ring.

(** * Tables: cos and sin of [2 pi k / 64] in Q15, [k = 0 .. 32] *)
Definition sh_fft_cos64_q15 : list Z :=
  [32767; 32609; 32137; 31356; 30273; 28898; 27245; 25329;
   23170; 20787; 18204; 15446; 12539; 9512; 6393; 3212;
   0; -3212; -6393; -9512; -12539; -15446; -18204; -20787;
   -23170; -25329; -27245; -28898; -30273; -31356; -32137; -32609;
   -32767].

Definition sh_fft_sin64_q15 : list Z :=
  [0; 3212; 6393; 9512; 12539; 15446; 18204; 20787;
   23170; 25329; 27245; 28898; 30273; 31356; 32137; 32609;
   32767; 32609; 32137; 31356; 30273; 28898; 27245; 25329;
   23170; 20787; 18204; 15446; 12539; 9512; 6393; 3212;
   0].

(** [(cos, - sin)] of the angle of index [k]. *)
Definition shFftTwiddle (k : Z) : Z * Z :=
  let kk := u16 (k mod HR_FFT_N) in
  let '(cosv, sinv) :=
    if kk <=? 32 then (aget sh_fft_cos64_q15 kk, aget sh_fft_sin64_q15 kk)
    else let t := u16 (HR_FFT_N - kk) in
         (aget sh_fft_cos64_q15 t, i16 (- aget sh_fft_sin64_q15 t)) in
  (cosv, i16 (- sinv)).

(** * The transform

    [w] is the effect of a 32-bit signed operation: [i32] for the code,
    the identity for the same computation on unbounded integers. *)
Definition swap (i j : Z) (a : list Z) : list Z :=
  aset (aset a i (aget a j)) j (aget a i).

(** The next value of the bit-reversed counter. *)
Definition brev_next (n j : Z) : Z :=
  let '(k, j) := while_ 16 (fun '(k, j) => k <=? j)
    (fun '(k, j) => (Z.shiftr k 1, u16 (j - k))) (Z.shiftr n 1, j) in
  u16 (j + k).

Definition bit_reverse (re im : list Z) : list Z * list Z :=
  let '(_, re, im) :=
    for_ 0 (HR_FFT_N - 1) (fun i '(j, re, im) =>
      let '(re, im) := if i <? j then (swap i j re, swap i j im) else (re, im) in
      (brev_next HR_FFT_N j, re, im)) (0, re, im) in
  (re, im).

Definition butterfly (w : Z -> Z) (p q tw : Z) (st : list Z * list Z) : list Z * list Z :=
  let '(re, im) := st in
  let '(cw, sw) := shFftTwiddle tw in
  let tr := w (w ((aget re q ÷ 2) * cw) - w ((aget im q ÷ 2) * sw)) ÷ 16384 in
  let ti := w (w ((aget re q ÷ 2) * sw) + w ((aget im q ÷ 2) * cw)) ÷ 16384 in
  let ur := aget re p ÷ 2 in
  let ui := aget im p ÷ 2 in
  (aset (aset re p (w (ur + tr))) q (w (ur - tr)),
   aset (aset im p (w (ui + ti))) q (w (ui - ti))).

(** One stage of butterflies over blocks of [len]. *)
Definition fft_stage (w : Z -> Z) (len : Z) (st : list Z * list Z) : list Z * list Z :=
  let half := Z.shiftr len 1 in
  for_step 0 HR_FFT_N len (fun i st =>
    for_ 0 half (fun m st =>
      let p := u16 (i + m) in
      let q := u16 (p + half) in
      butterfly w p q (u16 (m * HR_FFT_N / len)) st) st) st.

Definition fft_stages (w : Z -> Z) (st : list Z * list Z) : list Z * list Z :=
  snd (while_ 7 (fun '(len, _) => len <=? HR_FFT_N)
    (fun '(len, st) => (u16 (Z.shiftl len 1), fft_stage w len st)) (2, st)).

Definition shFftRadix2 (re im : list Z) : list Z * list Z :=
  fft_stages i32 (bit_reverse re im).

(** * The analysis frame *)
Definition shCos64Q15 (i : Z) : Z :=
  let kk := u16 (i mod HR_FFT_N) in
  if kk <=? 32 then aget sh_fft_cos64_q15 kk else aget sh_fft_cos64_q15 (HR_FFT_N - kk).

Definition shFftFrameSample (x : list Z) (n i : Z) : Z :=
  if HR_FFT_N <=? n then aget x (n - HR_FFT_N + i)
  else if i <? n then aget x i else 0.

Definition fft_mean (x : list Z) (n : Z) : Z :=
  for_ 0 HR_FFT_N (fun i mean => i32 (mean + shFftFrameSample x n i)) 0 ÷ HR_FFT_N.

Definition fft_peak (x : list Z) (n mean : Z) : Z :=
  for_ 0 HR_FFT_N (fun i peak =>
    let v := shFftFrameSample x n i - mean in
    let v := if v <? 0 then - v else v in
    if peak <? u32 v then u16 v else peak) 0.

Definition fft_prescale (peak : Z) : Z :=
  while_ 13 (fun p => (p <? 12) && (u32 (Z.shiftl peak (p + 1)) <=? 16384)) (fun p => p + 1) 0.

(** The windowed and scaled sample [i]. *)
Definition fft_input `{HelmetConfig} (x : list Z) (n mean prescale i : Z) : Z :=
  let v := shFftFrameSample x n i - mean in
  let v := if HR_FFT_WINDOW_HANN
           then i32 (v * ((32768 - shCos64Q15 i) ÷ 2)) ÷ 32768 else v in
  i32 (Z.shiftl v prescale).

Definition fft_load `{HelmetConfig} (x : list Z) (n mean prescale : Z) : list Z * list Z :=
  (for_ 0 HR_FFT_N (fun i re => aset re i (fft_input x n mean prescale i)) (replicate 64 0),
   replicate 64 0).

(** * The search of the band *)
Definition fft_k_lo : Z :=
  let k := u16 (u32 (HR_BPM_MIN * HR_FFT_N + 60 * VITALS_FS_HZ / 2) / (60 * VITALS_FS_HZ)) in
  if k <? 1 then 1 else k.
Definition fft_k_hi : Z :=
  let k := u16 (u32 (HR_BPM_MAX * HR_FFT_N) / (60 * VITALS_FS_HZ)) in
  if HR_FFT_N / 2 <=? k then u16 (HR_FFT_N / 2 - 1) else k.

(** [(re[k] / 8)^2 + (im[k] / 8)^2] as a [uint32]. *)
Definition bin_power (re im : list Z) (k : Z) : Z :=
  let pr := aget re k ÷ 8 in
  let pi := aget im k ÷ 8 in
  u32 (i32 (i32 (pr * pr) + i32 (pi * pi))).

Definition bin_score `{HelmetConfig} (re im : list Z) (k : Z) : Z :=
  let p := bin_power re im k in
  if HR_FFT_HPS then
    if 2 * k <? HR_FFT_N / 2 then
      shSqrtU32 (u32 (u32 (Z.shiftr p 8 + 1) * u32 (Z.shiftr (bin_power re im (2 * k)) 8 + 1)))
    else u32 (Z.shiftr p 8 + 1)
  else p.

Record bin_search := mkbin {
  bn_score : Z; bn_p : Z; bn_k : Z; bn_sum : Z; bn_bins : Z }.

Definition bin_step `{HelmetConfig} (re im : list Z) (k : Z) (s : bin_search) : bin_search :=
  let p := bin_power re im k in
  let score := bin_score re im k in
  let sum := u32 (bn_sum s + score) in
  let bins := u16 (bn_bins s + 1) in
  if bn_score s <? score then mkbin score p k sum bins
  else mkbin (bn_score s) (bn_p s) (bn_k s) sum bins.

Definition bin_scan `{HelmetConfig} (re im : list Z) : bin_search :=
  for_ fft_k_lo (fft_k_hi + 1) (bin_step re im) (mkbin 0 0 0 0 0).

(** The signal-to-noise gate, with the products of the code. *)
Definition snr_reject `{HelmetConfig} (s : bin_search) : bool :=
  let mean_p := bn_sum s / bn_bins s in
  (if HR_FFT_HPS then bn_score s else bn_p s) <? u32 (mean_p * HR_FFT_SNR_Q8) / 256.

(** The fractional bin, in Q8. *)
Definition best_k_q8 `{HelmetConfig} (re im : list Z) (s : bin_search) : Z :=
  let k := bn_k s in
  let kq := u16 (Z.shiftl k 8) in
  if HR_FFT_INTERP && (fft_k_lo <? k) && (k <? fft_k_hi) && (k + 1 <? HR_FFT_N / 2) then
    let '(pa, pb, pc) := shFitScale3 (bin_power re im (k - 1)) (bn_p s) (bin_power re im (k + 1)) in
    u16 (kq + shParabolicDeltaQ8 (i32 pa) (i32 pb) (i32 pc))
  else kq.

(** * Smoothing over windows *)
Record fft_smooth := mksmooth { fft_k_smooth_q8 : Z; fft_k_smooth_valid : bool }.

#[export] Instance fft_smooth_eta : RecordEta fft_smooth := fun r =>
  mksmooth (fft_k_smooth_q8 r) (fft_k_smooth_valid r).

Definition shFftSmoothReset : fft_smooth := mksmooth 0 false.

Definition fft_alpha (best smooth : Z) : Z :=
  let alpha := if 256 <? HR_FFT_SMOOTH_ALPHA_Q8 then 256 else HR_FFT_SMOOTH_ALPHA_Q8 in
  let jump := if smooth <? best then u16 (best - smooth) else u16 (smooth - best) in
  if u16 (Z.shiftl HR_FFT_MAX_BIN_JUMP 8) <? jump then
    let alpha := u16 (alpha / 2) in if alpha <? 16 then 16 else alpha
  else alpha.

Definition fft_smooth_step (best : Z) (s : fft_smooth) : fft_smooth :=
  if fft_k_smooth_valid s then
    let k := fft_k_smooth_q8 s in
    let alpha := fft_alpha best k in
    s <| fft_k_smooth_q8 := u16 (u32 (u32 (k * (256 - alpha)) + u32 (best * alpha)) / 256) |>
  else mksmooth best true.

(** * The estimator: rate, magnitude and the smoothing state *)
Definition shFftBpm `{HelmetConfig} (fs_q8 : Z) (x : list Z) (n : Z) (sm : fft_smooth)
  : Z * Z * fft_smooth :=
  if n <? HR_FFT_N / 2 then (0, 0, sm) else
  let mean := fft_mean x n in
  let peak := fft_peak x n mean in
  if HR_FFT_PRESCALE && (peak =? 0) then (0, 0, sm) else
  let prescale := if HR_FFT_PRESCALE then fft_prescale peak else 0 in
  let '(re, im) := fft_load x n mean prescale in
  let '(re, im) := shFftRadix2 re im in
  if fft_k_hi <? fft_k_lo then (0, 0, sm) else
  let s := bin_scan re im in
  if (bn_bins s =? 0) || (bn_k s =? 0) then (0, 0, sm) else
  if snr_reject s then (0, 0, sm) else
  let mag := if 65535 <? bn_p s then 65535 else u16 (bn_p s) in
  let sm := fft_smooth_step (best_k_q8 re im s) sm in
  let k_use := fft_k_smooth_q8 sm in
  let k_use := if k_use <? 256 then 256 else k_use in
  let bpm := shBinQ8ToBpm fs_q8 k_use in
  ((if (bpm <? HR_BPM_MIN) || (HR_BPM_MAX <? bpm) then 0 else bpm), mag, sm).

(** * Vocabulary of the specifications *)

(** The reversal of the six bits of an index. *)
Definition brev6 (i : Z) : Z :=
  32 * Z.b2z (Z.testbit i 0) + 16 * Z.b2z (Z.testbit i 1) + 8 * Z.b2z (Z.testbit i 2) +
  4 * Z.b2z (Z.testbit i 3) + 2 * Z.b2z (Z.testbit i 4) + Z.b2z (Z.testbit i 5).

(** The squared magnitude of cell [i]. *)
Definition nrm (st : list Z * list Z) (i : Z) : Z :=
  aget (fst st) i * aget (fst st) i + aget (snd st) i * aget (snd st) i.

Definition fft_shape (st : list Z * list Z) : Prop := alen (fst st) = 64 /\ alen (snd st) = 64.

(** The smoothed bin, when there is one, lies in the pulse band (bins 2 to 7). *)
Definition smooth_ok (sm : fft_smooth) : Prop :=
  fft_k_smooth_valid sm = true -> 512 <= fft_k_smooth_q8 sm <= 1792.

(** The bounds within a stage: cells not yet processed keep the smaller one. *)
Definition stage_inv (K lo1 hi1 lo2 : Z) (st : list Z * list Z) : Prop :=
  fft_shape st /\ forall j, 0 <= j < 64 ->
    nrm st j <= (3 * K) * (3 * K) /\
    (lo1 <= j < hi1 \/ lo2 <= j -> nrm st j <= (2 * K) * (2 * K)).

(** The search of the band before bin [k]. *)
Definition bin_inv `{HelmetConfig} (re im : list Z) (k : Z) (s : bin_search) : Prop :=
  bn_bins s = k - 2 /\
  (bn_k s = 0 /\ bn_score s = 0 \/
   2 <= bn_k s < k /\ bn_p s = bin_power re im (bn_k s) /\ bn_score s = bin_score re im (bn_k s)) /\
  (forall j, 2 <= j < k -> bin_score re im j <= bn_score s).

(** A frame with one full-scale sample at [n]. *)
Definition impulse (n : Z) : list Z := aset (replicate 64 0) n 16384.

(** * Bit reversal *)
Lemma brev_next_range j : 0 <= j < 64 -> 0 <= brev_next HR_FFT_N j < 64.
Proof.
  intros Hj. assert (forallb (fun j => bool_decide (0 <= brev_next HR_FFT_N j < 64)) (seqZ 0 64) = true)
    as Hall by (vm_compute; reflexivity).
  rewrite forallb_forall in Hall.
  apply (bool_decide_eq_true_1 (0 <= brev_next HR_FFT_N j < 64)), Hall.
  apply list_elem_of_In, elem_of_seqZ. lia.
Qed.

Lemma aget_fmap (f : Z -> Z) l i : 0 <= i < alen l -> aget (f <$> l) i = f (aget l i).
Proof.
  unfold alen. intros Hi. destruct (lookup_lt_is_Some_2 l (Z.to_nat i)) as [x Hx]; [lia |].
  rewrite (aget_lookup _ _ _ Hx). apply aget_lookup. by rewrite list_lookup_fmap, Hx.
Qed.

Lemma aset_fmap (f : Z -> Z) l i v : aset (f <$> l) i (f v) = f <$> aset l i v.
Proof. unfold aset. by rewrite list_fmap_insert. Qed.

Lemma swap_fmap (f : Z -> Z) l i j :
  0 <= i < alen l -> 0 <= j < alen l -> swap i j (f <$> l) = f <$> swap i j l.
Proof. intros. unfold swap. by rewrite !aget_fmap, !aset_fmap by lia. Qed.

Lemma alen_swap i j l : alen (swap i j l) = alen l.
Proof. unfold swap. by rewrite !alen_aset. Qed.

Lemma array_eta a n : alen a = n -> a = aget a <$> seqZ 0 n.
Proof.
  intros Ha. pose proof (alen_nonneg a).
  assert (alen (seqZ 0 n) = n) as Hn by (unfold alen; rewrite length_seqZ; lia).
  apply alist_eq; [unfold alen in *; rewrite length_fmap; lia |].
  intros i Hi. rewrite aget_fmap by lia. f_equal. symmetry. apply aget_lookup.
  apply lookup_seqZ. lia.
Qed.

Lemma bit_reverse_eq re im :
  alen re = 64 -> alen im = 64 ->
  bit_reverse re im = ((fun i => aget re (brev6 i)) <$> seqZ 0 64,
                       (fun i => aget im (brev6 i)) <$> seqZ 0 64).
Proof.
  intros Hre Him. set (ix := seqZ 0 64).
  assert (bit_reverse ix ix = (brev6 <$> ix, brev6 <$> ix)) as Hix by (vm_compute; reflexivity).
  unfold bit_reverse in *.
  pose proof (for_rel (fun '(j, a, b) '(j', x, y) => j = j' /\ 0 <= j < 64 /\
      alen x = 64 /\ alen y = 64 /\ a = aget re <$> x /\ b = aget im <$> y)
    0 (HR_FFT_N - 1)
    (fun i '(j, re, im) =>
      let '(re, im) := if i <? j then (swap i j re, swap i j im) else (re, im) in
      (brev_next HR_FFT_N j, re, im))
    (fun i '(j, re, im) =>
      let '(re, im) := if i <? j then (swap i j re, swap i j im) else (re, im) in
      (brev_next HR_FFT_N j, re, im))
    (0, re, im) (0, ix, ix)) as HR.
  destruct (for_ 0 _ _ (0, re, im)) as [[j a] b], (for_ 0 _ _ (0, ix, ix)) as [[j' x] y].
  injection Hix as -> ->.
  destruct HR as (_ & _ & _ & _ & -> & ->).
  - split_and!; [done | lia | lia | done | done | by apply array_eta | by apply array_eta].
  - intros i [[j1 a1] b1] [[j2 x2] y2] Hi (<- & Hj & Hx & Hy & -> & ->).
    change (HR_FFT_N - 1) with 63 in Hi.
    destruct (i <? j1); cbn beta iota; rewrite ?swap_fmap, ?alen_swap by lia;
      split_and!; (done || by apply brev_next_range).
  - f_equal; symmetry; apply (list_fmap_compose brev6).
Qed.

(** * The butterflies *)
Lemma twiddle_unit k :
  let '(c, s) := shFftTwiddle k in c * c + s * s <= 32768 * 32768.
Proof.
  assert (forallb (fun k => let '(c, s) := shFftTwiddle k in c * c + s * s <=? 32768 * 32768)
    (seqZ 0 64) = true) as Hall by (vm_compute; reflexivity).
  assert (shFftTwiddle k = shFftTwiddle (k mod 64)) as ->
    by (unfold shFftTwiddle; change HR_FFT_N with 64; by rewrite Z.mod_mod by lia).
  rewrite forallb_forall in Hall. specialize (Hall (k mod 64)).
  rewrite <- list_elem_of_In, elem_of_seqZ in Hall.
  specialize (Hall ltac:(pose proof (Z.mod_pos_bound k 64); lia)).
  destruct (shFftTwiddle _). by apply Z.leb_le.
Qed.

Lemma sq_le_abs a b : 0 <= b -> a * a <= b * b -> - b <= a <= b.
Proof. nia. Qed.

(** The complex product with the halved input. *)
Lemma twiddle_product x y c s K :
  0 <= K <= 62208 -> c * c + s * s <= 32768 * 32768 -> x * x + y * y <= K * K ->
  is_i32 (x * c) /\ is_i32 (y * s) /\ is_i32 (x * c - y * s) /\
  is_i32 (x * s) /\ is_i32 (y * c) /\ is_i32 (x * s + y * c) /\
  (let tr := (x * c - y * s) ÷ 16384 in let ti := (x * s + y * c) ÷ 16384 in
   tr * tr + ti * ti <= (2 * K) * (2 * K)).
Proof.
  intros HK Hcs Hxy.
  assert (- K <= x <= K) by (apply sq_le_abs; nia).
  assert (- K <= y <= K) by (apply sq_le_abs; nia).
  assert (- (32768) <= c <= 32768) by (apply (sq_le_abs c 32768); nia).
  assert (- (32768) <= s <= 32768) by (apply (sq_le_abs s 32768); nia).
  pose proof (mul_abs_le x c K 32768 ltac:(done) ltac:(done)).
  pose proof (mul_abs_le y s K 32768 ltac:(done) ltac:(done)).
  assert ((x * c - y * s) * (x * c - y * s) + (x * s + y * c) * (x * s + y * c)
    = (x * x + y * y) * (c * c + s * s)) as Hn by ring.
  assert ((x * x + y * y) * (c * c + s * s) <= (K * K) * (32768 * 32768))
    by (apply Z.mul_le_mono_nonneg; nia).
  pose proof (mul_abs_le x s K 32768 ltac:(done) ltac:(done)).
  pose proof (mul_abs_le y c K 32768 ltac:(done) ltac:(done)).
  pose proof (Z.square_nonneg (x * s + y * c)). pose proof (Z.square_nonneg (x * c - y * s)).
  assert (- (K * 32768) <= x * s + y * c <= K * 32768) by (apply sq_le_abs; lia).
  assert (- (K * 32768) <= x * c - y * s <= K * 32768) by (apply sq_le_abs; lia).
  split_and!; try (unfold is_i32; lia).
  cbv zeta. pose proof (quot_sq (x * c - y * s) 16384 ltac:(lia)).
  pose proof (quot_sq (x * s + y * c) 16384 ltac:(lia)). nia.
Qed.

(** Adding the halved partner: the magnitude grows by at most one half. *)
Lemma butterfly_sum ur ui tr ti K :
  ur * ur + ui * ui <= K * K -> tr * tr + ti * ti <= (2 * K) * (2 * K) ->
  (ur + tr) * (ur + tr) + (ui + ti) * (ui + ti) <= (3 * K) * (3 * K).
Proof.
  intros. pose proof (Z.square_nonneg (2 * ur - tr)). pose proof (Z.square_nonneg (2 * ui - ti)). nia.
Qed.

Lemma half_norm x y K :
  0 <= K -> x * x + y * y <= (2 * K) * (2 * K) ->
  (x ÷ 2) * (x ÷ 2) + (y ÷ 2) * (y ÷ 2) <= K * K.
Proof. intros HK H. pose proof (quot_sq x 2). pose proof (quot_sq y 2). nia. Qed.

Lemma nrm_aset re im i j v u :
  0 <= j -> 0 <= i < alen re -> alen im = alen re ->
  nrm (aset re i v, aset im i u) j = if i =? j then v * v + u * u else nrm (re, im) j.
Proof.
  intros. unfold nrm. cbn [fst snd]. zcase.
  - subst. by rewrite !aget_aset_eq by lia.
  - by rewrite !aget_aset_ne by lia.
Qed.

(** One butterfly: no 32-bit operation overflows, and only its two cells
    change, to at most three halves of the bound. *)
Lemma butterfly_ok K p q tw st :
  0 <= K <= 62208 -> fft_shape st -> 0 <= p < 64 -> 0 <= q < 64 -> p <> q ->
  nrm st p <= (2 * K) * (2 * K) -> nrm st q <= (2 * K) * (2 * K) ->
  butterfly i32 p q tw st = butterfly id p q tw st /\
  fft_shape (butterfly id p q tw st) /\
  (forall j, 0 <= j -> nrm (butterfly id p q tw st) j <=
    if (j =? p) || (j =? q) then (3 * K) * (3 * K) else nrm st j).
Proof.
  destruct st as [re im]. intros HK [Hre Him] Hp Hq Hpq Np Nq. cbn [fst snd] in *.
  unfold nrm in Np, Nq. cbn [fst snd] in Np, Nq. unfold butterfly, id.
  pose proof (twiddle_unit tw) as Hcs. destruct (shFftTwiddle tw) as [c s].
  pose proof (half_norm _ _ K ltac:(lia) Np) as Hu. pose proof (half_norm _ _ K ltac:(lia) Nq) as Hx.
  set (ur := aget re p ÷ 2) in *. set (ui := aget im p ÷ 2) in *.
  set (x := aget re q ÷ 2) in *. set (y := aget im q ÷ 2) in *.
  destruct (twiddle_product x y c s K HK Hcs Hx) as (R1 & R2 & R3 & R4 & R5 & R6 & Ht).
  rewrite (i32_small _ R1), (i32_small _ R2), (i32_small _ R3), (i32_small _ R4),
    (i32_small _ R5), (i32_small _ R6).
  set (tr := (x * c - y * s) ÷ 16384) in *. set (ti := (x * s + y * c) ÷ 16384) in *.
  cbv zeta in Ht. pose proof (butterfly_sum ur ui tr ti K Hu Ht) as Hs.
  pose proof (butterfly_sum ur ui (- tr) (- ti) K Hu ltac:(lia)) as Hd.
  replace (ur + - tr) with (ur - tr) in Hd by lia. replace (ui + - ti) with (ui - ti) in Hd by lia.
  assert (forall a b, a * a + b * b <= (3 * K) * (3 * K) -> is_i32 a /\ is_i32 b) as Hr.
  { intros a b Hab. assert (- (3 * K) <= a <= 3 * K) by (apply sq_le_abs; nia).
    assert (- (3 * K) <= b <= 3 * K) by (apply sq_le_abs; nia). unfold is_i32. lia. }
  destruct (Hr _ _ Hs) as [S1 S2]. destruct (Hr _ _ Hd) as [D1 D2].
  rewrite (i32_small _ S1), (i32_small _ S2), (i32_small _ D1), (i32_small _ D2).
  split; [done |]. split; [split; cbn [fst snd]; by rewrite !alen_aset |].
  intros j Hj. rewrite nrm_aset by (rewrite ?alen_aset; lia).
  rewrite nrm_aset by lia. rewrite (Z.eqb_sym j p), (Z.eqb_sym j q).
  repeat zcase; cbn [orb]; lia || done.
Qed.

(** * The stages *)
Lemma stage_step K half i m st :
  0 <= K <= 62208 -> 0 <= i -> 0 <= m < half -> i + 2 * half <= 64 ->
  stage_inv K (i + m) (i + half) (i + half + m) st ->
  let p := u16 (i + m) in
  let q := u16 (p + half) in
  let tw := u16 (m * HR_FFT_N / (2 * half)) in
  butterfly i32 p q tw st = butterfly id p q tw st /\
  stage_inv K (i + (m + 1)) (i + half) (i + half + (m + 1)) (butterfly id p q tw st).
Proof.
  intros HK Hi Hm Hl [Hsh Hn]. cbv zeta. rewrite (u16_small (i + m)) by rlia.
  rewrite (u16_small (i + m + half)) by rlia. set (tw := u16 _).
  destruct (butterfly_ok K (i + m) (i + m + half) tw st) as (E & Hs & Hb);
    [done | done | lia | lia | lia | apply Hn; lia | apply Hn; lia |].
  split; [done |]. split; [done |]. intros j Hj. specialize (Hb j ltac:(lia)).
  destruct (Hn j Hj) as [N9 N4].
  destruct (Z.eqb_spec j (i + m)) as [? |], (Z.eqb_spec j (i + m + half)) as [? |];
    cbn [orb] in Hb; (split; [lia |]); intros; try lia; specialize (N4 ltac:(lia)); lia.
Qed.

Lemma fft_stage_ok K half nb st :
  0 <= K <= 62208 -> 1 <= half -> 0 <= nb -> 2 * half * nb = 64 -> fft_shape st ->
  (forall j, 0 <= j < 64 -> nrm st j <= (2 * K) * (2 * K)) ->
  fft_stage i32 (2 * half) st = fft_stage id (2 * half) st /\
  fft_shape (fft_stage id (2 * half) st) /\
  (forall j, 0 <= j < 64 -> nrm (fft_stage id (2 * half) st) j <= (3 * K) * (3 * K)).
Proof.
  intros HK Hh Hnb Hlen Hsh Hn. unfold fft_stage, for_step.
  change HR_FFT_N with 64. rewrite Z.shiftr_div_pow2, (Z.mul_comm 2), Z.div_mul by lia.
  replace ((64 - 0 + half * 2 - 1) / (half * 2)) with nb
    by (apply Z.div_unique with (2 * half - 1); lia).
  destruct (for_ext_ind (fun k st => fft_shape st /\ forall j, 0 <= j < 64 ->
      nrm st j <= (3 * K) * (3 * K) /\ (k * (2 * half) <= j -> nrm st j <= (2 * K) * (2 * K)))
    0 nb
    (fun k => (fun i st => for_ 0 half (fun m st =>
      let p := u16 (i + m) in let q := u16 (p + half) in
      butterfly i32 p q (u16 (m * 64 / (half * 2))) st) st) (0 + k * (half * 2)))
    (fun k => (fun i st => for_ 0 half (fun m st =>
      let p := u16 (i + m) in let q := u16 (p + half) in
      butterfly id p q (u16 (m * 64 / (half * 2))) st) st) (0 + k * (half * 2))) st)
    as [E [Hs Hb]]; [lia | | | ].
  - split; [done |]. intros j Hj. specialize (Hn j Hj). split; [nia | done].
  - intros k s Hk [Hs Hb]. cbv beta. set (i := 0 + k * (half * 2)).
    assert (i + 2 * half <= 64) by (unfold i; nia).
    destruct (for_ext_ind (fun m => stage_inv K (i + m) (i + half) (i + half + m)) 0 half
      (fun m st => let p := u16 (i + m) in let q := u16 (p + half) in
        butterfly i32 p q (u16 (m * 64 / (half * 2))) st)
      (fun m st => let p := u16 (i + m) in let q := u16 (p + half) in
        butterfly id p q (u16 (m * 64 / (half * 2))) st) s) as [E [Hs' Hb']]; [lia | | |].
    + split; [done |]. intros j Hj. destruct (Hb j Hj) as [B9 B4]. split; [done |].
      intros. apply B4. unfold i in *. lia.
    + intros m s' Hm Hinv. rewrite (Z.mul_comm half 2). apply stage_step; (done || (unfold i; lia)).
    + split; [exact E |]. split; [done |]. intros j Hj. destruct (Hb' j Hj) as [B9 B4].
      split; [done |]. intros. apply B4. unfold i in *. lia.
  - split; [exact E |]. split; [exact Hs |]. intros j Hj. apply Hb, Hj.
Qed.

Lemma fft_stages_eq w st :
  fft_stages w st = fft_stage w 64 (fft_stage w 32 (fft_stage w 16 (fft_stage w 8
    (fft_stage w 4 (fft_stage w 2 st))))).
Proof. reflexivity. Qed.

Lemma fft_stages_ok st :
  fft_shape st -> (forall j, 0 <= j < 64 -> nrm st j <= 16384 * 16384) ->
  fft_stages i32 st = fft_stages id st /\ fft_shape (fft_stages id st) /\
  (forall j, 0 <= j < 64 -> nrm (fft_stages id st) j <= 186624 * 186624).
Proof.
  intros Hs Hn. rewrite !fft_stages_eq.
  destruct (fft_stage_ok 8192 1 32 st) as (E1 & S1 & N1); try (done || lia).
  change (2 * 1) with 2 in *. rewrite E1.
  destruct (fft_stage_ok 12288 2 16 _ ltac:(lia) ltac:(lia) ltac:(lia) ltac:(lia) S1 N1)
    as (E2 & S2 & N2).
  change (2 * 2) with 4 in *. rewrite E2.
  destruct (fft_stage_ok 18432 4 8 _ ltac:(lia) ltac:(lia) ltac:(lia) ltac:(lia) S2 N2)
    as (E3 & S3 & N3).
  change (2 * 4) with 8 in *. rewrite E3.
  destruct (fft_stage_ok 27648 8 4 _ ltac:(lia) ltac:(lia) ltac:(lia) ltac:(lia) S3 N3)
    as (E4 & S4 & N4).
  change (2 * 8) with 16 in *. rewrite E4.
  destruct (fft_stage_ok 41472 16 2 _ ltac:(lia) ltac:(lia) ltac:(lia) ltac:(lia) S4 N4)
    as (E5 & S5 & N5).
  change (2 * 16) with 32 in *. rewrite E5.
  exact (fft_stage_ok 62208 32 1 _ ltac:(lia) ltac:(lia) ltac:(lia) ltac:(lia) S5 N5).
Qed.

Lemma brev6_range i : 0 <= brev6 i < 64.
Proof. unfold brev6. repeat (destruct (Z.testbit i _); cbn [Z.b2z]); lia. Qed.

(** The bit reversal of the code (a counter incremented from its top
    bit) ends for every index and is the permutation that moves cell [i] to
    the reversal of its six bits. *)
Theorem bit_reverse_spec re im i :
  alen re = 64 -> alen im = 64 -> 0 <= i < 64 ->
  aget (fst (bit_reverse re im)) i = aget re (brev6 i) /\
  aget (snd (bit_reverse re im)) i = aget im (brev6 i) /\
  brev6 (brev6 i) = i.
Proof.
  intros Hre Him Hi. rewrite bit_reverse_eq by done. cbn [fst snd].
  assert (alen (seqZ 0 64) = 64) as Hl by reflexivity.
  assert (aget (seqZ 0 64) i = i) as Hx by (apply aget_lookup, lookup_seqZ; lia).
  rewrite (aget_fmap (fun i => aget re (brev6 i))), (aget_fmap (fun i => aget im (brev6 i))), Hx by lia.
  split_and!; [done | done |].
  assert (forallb (fun i => brev6 (brev6 i) =? i) (seqZ 0 64) = true) as Hall by (vm_compute; reflexivity).
  rewrite forallb_forall in Hall. apply Z.eqb_eq, Hall, list_elem_of_In, elem_of_seqZ. lia.
Qed.

Lemma bit_reverse_nrm re im b :
  alen re = 64 -> alen im = 64 -> (forall j, 0 <= j < 64 -> nrm (re, im) j <= b) ->
  fft_shape (bit_reverse re im) /\
  (forall j, 0 <= j < 64 -> nrm (bit_reverse re im) j <= b).
Proof.
  intros Hre Him Hn. rewrite bit_reverse_eq by done. split; [done |]. intros j Hj.
  assert (aget (seqZ 0 64) j = j) as Hx by (apply aget_lookup, lookup_seqZ; lia).
  unfold nrm. cbn [fst snd].
  rewrite (aget_fmap (fun i => aget re (brev6 i))), (aget_fmap (fun i => aget im (brev6 i))), Hx
    by (change (alen (seqZ 0 64)) with 64; lia).
  apply (Hn (brev6 j)), brev6_range.
Qed.

(** [C39] The FFT never overflows: for a frame whose cells have magnitude at
    most [2^14], every 32-bit operation of the six stages gives the result it
    has on unbounded integers, and no output exceeds 186624 = [2^14 * 1.5^6],
    so that the power of a bin fits 32 bits too. *)
Theorem shFftRadix2_no_overflow re im :
  alen re = 64 -> alen im = 64 ->
  (forall j, 0 <= j < 64 -> nrm (re, im) j <= 16384 * 16384) ->
  shFftRadix2 re im = fft_stages id (bit_reverse re im) /\
  (forall j, 0 <= j < 64 ->
    nrm (shFftRadix2 re im) j <= 186624 * 186624 /\
    bin_power (fst (shFftRadix2 re im)) (snd (shFftRadix2 re im)) j =
      (aget (fst (shFftRadix2 re im)) j ÷ 8) * (aget (fst (shFftRadix2 re im)) j ÷ 8) +
      (aget (snd (shFftRadix2 re im)) j ÷ 8) * (aget (snd (shFftRadix2 re im)) j ÷ 8)).
Proof.
  intros Hre Him Hn. destruct (bit_reverse_nrm re im _ Hre Him Hn) as [Hs Hb].
  destruct (fft_stages_ok _ Hs Hb) as (E & Hs' & Hn'). unfold shFftRadix2. rewrite E.
  split; [done |]. intros j Hj. specialize (Hn' j Hj). split; [done |].
  revert Hn'. generalize (fft_stages id (bit_reverse re im)). intros [a b]. unfold nrm, bin_power.
  cbn [fst snd]. generalize (aget a j) (aget b j). clear. intros x y Hn.
  pose proof (quot_sq x 8 ltac:(lia)). pose proof (quot_sq y 8 ltac:(lia)).
  pose proof (Z.square_nonneg (x ÷ 8)). pose proof (Z.square_nonneg (y ÷ 8)).
  rewrite (i32_small (x ÷ 8 * _)), (i32_small (y ÷ 8 * _)) by rlia.
  rewrite i32_small by rlia. rewrite u32_small by rlia. done.
Qed.

(** * The frame *)
Lemma while_prescale peak fuel p :
  1 <= peak <= 65535 -> 0 <= p <= 12 -> 13 - p <= Z.of_nat fuel -> peak * 2 ^ p <= Z.max peak 16384 ->
  let r := while_ fuel (fun p => (p <? 12) && (u32 (Z.shiftl peak (p + 1)) <=? 16384)) (fun p => p + 1) p in
  0 <= r <= 12 /\ peak * 2 ^ r <= Z.max peak 16384 /\ (r = 12 \/ 16384 < peak * 2 ^ (r + 1)).
Proof.
  intros Hpk. revert p. induction fuel as [| fuel IH]; intros p Hp Hf Hm; [lia |]. cbn [while_].
  assert (peak * 2 ^ (p + 1) < 4294967296).
  { assert (2 ^ (p + 1) <= 2 ^ 13) by (apply Z.pow_le_mono_r; lia). nia. }
  assert (0 < 2 ^ (p + 1)) by lia.
  rewrite Z.shiftl_mul_pow2, u32_small by (unfold is_u32; nia).
  destruct (Z.ltb_spec p 12), (Z.leb_spec (peak * 2 ^ (p + 1)) 16384); cbn [andb]; cbv zeta;
    try (split_and!; lia).
  apply IH; lia.
Qed.

Lemma fft_prescale_spec peak :
  1 <= peak <= 16384 ->
  0 <= fft_prescale peak <= 12 /\ peak * 2 ^ fft_prescale peak <= 16384 /\
  (fft_prescale peak = 12 \/ 16384 < peak * 2 ^ (fft_prescale peak + 1)).
Proof.
  intros. pose proof (while_prescale peak 13 0 ltac:(lia) ltac:(lia) ltac:(lia) ltac:(lia)) as Hw.
  rewrite Z.max_r in Hw by lia. exact Hw.
Qed.

Section Frame.
Context `{HelmetConfig} (x : list Z) (n : Z).
Hypothesis Hx : Forall (fun v => -8191 <= v <= 8191) x.

Lemma frame_bound i : -8191 <= shFftFrameSample x n i <= 8191.
Proof.
  unfold shFftFrameSample. repeat zcase; try lia; (apply (aget_Forall (fun v => -8191 <= v <= 8191)); [done | lia]).
Qed.

Lemma fft_mean_bound : -8191 <= fft_mean x n <= 8191.
Proof.
  unfold fft_mean.
  enough (- (8191 * 64) <= for_ 0 HR_FFT_N (fun i mean => i32 (mean + shFftFrameSample x n i)) 0 <= 8191 * 64)
    by (change HR_FFT_N with 64 in *; apply (quot_bound _ 64 8191); lia).
  change HR_FFT_N with 64.
  apply (for_ind (fun i m => - (8191 * i) <= m <= 8191 * i) 0 64); [lia | lia |].
  intros i m Hi Hm. pose proof (frame_bound i). rewrite i32_small by rlia. lia.
Qed.

Lemma fft_peak_spec :
  0 <= fft_peak x n (fft_mean x n) <= 16382 /\
  (forall i, 0 <= i < 64 ->
    Z.abs (shFftFrameSample x n i - fft_mean x n) <= fft_peak x n (fft_mean x n)).
Proof.
  pose proof fft_mean_bound. unfold fft_peak. change HR_FFT_N with 64.
  apply (for_ind (fun k p => 0 <= p <= 16382 /\ (forall i, 0 <= i < k ->
    Z.abs (shFftFrameSample x n i - fft_mean x n) <= p)) 0 64); [lia | split; [lia | intros; lia] |].
  intros k p Hk [Hp Hall]. pose proof (frame_bound k). cbv zeta.
  replace (if _ <? 0 then _ else _) with (Z.abs (shFftFrameSample x n k - fft_mean x n))
    by (zcase; lia).
  rewrite u32_small, u16_small by rlia.
  split; [zcase; lia |]. intros i Hi. destruct (Z.eq_dec i k) as [-> | Hne]; [zcase; lia |].
  specialize (Hall i ltac:(lia)). zcase; lia.
Qed.

Lemma cos64_range i : -32767 <= shCos64Q15 i <= 32767.
Proof.
  assert (Forall (fun c => -32767 <= c <= 32767) sh_fft_cos64_q15) by vdec.
  unfold shCos64Q15. cbv zeta. zcase; (apply (aget_Forall (fun c => -32767 <= c <= 32767)); [done | lia]).
Qed.

(** The window does not amplify, and the scaling stops at [2^14]. *)
Lemma fft_input_bound i :
  let mean := fft_mean x n in
  let peak := fft_peak x n mean in
  1 <= peak -> 0 <= i < 64 ->
  -16384 <= fft_input x n mean (fft_prescale peak) i <= 16384.
Proof.
  intros mean peak Hpk Hi. destruct fft_peak_spec as [Hr Hall]. specialize (Hall i Hi).
  fold mean in Hr, Hall. fold peak in Hr, Hall.
  destruct (fft_prescale_spec peak ltac:(lia)) as (Hp & Hmul & _). unfold fft_input. cbv zeta.
  set (v := shFftFrameSample x n i - mean) in *.
  set (v' := if HR_FFT_WINDOW_HANN then _ else v).
  assert (- peak <= v' <= peak) as Hv'.
  { unfold v'. destruct HR_FFT_WINDOW_HANN; [| lia]. pose proof (cos64_range i).
    assert (0 <= (32768 - shCos64Q15 i) ÷ 2 <= 32767) as Hw
      by (rewrite Z.quot_div_nonneg by lia; split; [apply Z.div_pos; lia | apply Z.lt_succ_r, Z.div_lt_upper_bound; lia]).
    rewrite i32_small by (unfold is_i32; nia).
    apply quot_bound; [lia | nia]. }
  rewrite Z.shiftl_mul_pow2 by lia. assert (0 < 2 ^ fft_prescale peak) by lia.
  rewrite i32_small by (unfold is_i32; nia). nia.
Qed.

Lemma fft_load_ok :
  let mean := fft_mean x n in
  let peak := fft_peak x n mean in
  let '(re, im) := fft_load x n mean (fft_prescale peak) in
  alen re = 64 /\ alen im = 64 /\
  (forall i, 0 <= i < 64 -> aget re i = fft_input x n mean (fft_prescale peak) i /\ aget im i = 0).
Proof.
  intros mean peak. unfold fft_load.
  destruct (for_fill (fun i => fft_input x n mean (fft_prescale peak) i) 64 (replicate 64 0))
    as [Hl Hf]; [vdec |].
  split; [exact Hl |]. split; [done |]. intros i Hi. split; [by apply Hf |].
  unfold aget. rewrite nth_lookup. by rewrite lookup_replicate_2 by lia.
Qed.
End Frame.

(** For any residual within +-8191 the frame that shFftBpm builds
    (mean removed, windowed, scaled up) is within the +-[2^14] that the
    transform needs, and a residual is not left weaker than the scaling
    allows: the largest sample is over [2^13] before the window unless the scale
    is at its limit. *)
Theorem fft_frame_in_range `{HelmetConfig} x n :
  Forall (fun v => -8191 <= v <= 8191) x ->
  let mean := fft_mean x n in
  let peak := fft_peak x n mean in
  1 <= peak ->
  let '(re, im) := fft_load x n mean (fft_prescale peak) in
  alen re = 64 /\ alen im = 64 /\
  (forall j, 0 <= j < 64 -> nrm (re, im) j <= 16384 * 16384) /\
  (fft_prescale peak = 12 \/ 8192 < peak * 2 ^ fft_prescale peak).
Proof.
  intros Hx mean peak Hpk. pose proof (fft_load_ok x n) as Hl. cbv zeta in Hl. fold mean in Hl.
  fold peak in Hl. pose proof (fft_input_bound x n Hx) as Hb. cbv zeta in Hb. fold mean in Hb. fold peak in Hb.
  destruct (fft_load x n mean (fft_prescale peak)) as [re im]. destruct Hl as (Hre & Him & Hg).
  split_and!; [done | done | |].
  - intros j Hj. destruct (Hg j Hj) as [E0 E1]. unfold nrm. cbn [fst snd]. rewrite E0, E1.
    specialize (Hb j Hpk Hj). nia.
  - destruct (fft_peak_spec x n Hx) as [Hr _]. fold mean in Hr. fold peak in Hr.
    destruct (fft_prescale_spec peak ltac:(lia)) as (Hp & _ & [? | Hm]); [by left |].
    right. rewrite Z.pow_add_r in Hm by lia. lia.
Qed.

(** * The band search *)
Lemma bin_score_nonneg `{HelmetConfig} re im k : 0 <= bin_score re im k.
Proof.
  unfold bin_score. cbv zeta. destruct HR_FFT_HPS; [zcase |]; try apply u32_range.
  unfold shSqrtU32. destruct (while_ _ _ _ _) as [[? ?] ?]. apply u16_range.
Qed.

Lemma bin_scan_inv `{HelmetConfig} re im : bin_inv re im 8 (bin_scan re im).
Proof.
  unfold bin_scan. change fft_k_lo with 2. change (fft_k_hi + 1) with 8.
  apply (for_ind (bin_inv re im)); [lia | split; cbn; [done |]; split; [by left | lia] |].
  intros k s Hk (Hbins & Hbest & Hmax). unfold bin_step. cbv zeta.
  rewrite u16_small by (rewrite Hbins; rlia).
  destruct (Z.ltb_spec (bn_score s) (bin_score re im k)); unfold bin_inv; cbn.
  - split; [lia |]. split; [right; split_and!; done || lia |].
    intros j Hj. destruct (Z.eq_dec j k) as [-> |]; [done |]. specialize (Hmax j ltac:(lia)). lia.
  - split; [lia |]. split; [destruct Hbest as [? | (? & ? & ?)]; [by left | right; split_and!; done || lia] |].
    intros j Hj. destruct (Z.eq_dec j k) as [-> |]; [done |]. apply Hmax. lia.
Qed.

Lemma delta_range a b c : -128 <= shParabolicDeltaQ8 a b c <= 128.
Proof.
  unfold shParabolicDeltaQ8. cbv zeta. destruct (0 <=? _); [lia |].
  set (d := i32 (i32 ((a - c) * 128) ÷ i32 (a - 2 * b + c))).
  set (e := if _ <? -128 then _ else _).
  assert (-128 <= e <= 128) by (unfold e; repeat zcase; lia). rewrite i16_small by rlia. done.
Qed.

Lemma best_k_q8_range `{HelmetConfig} re im s :
  2 <= bn_k s <= 7 -> 512 <= best_k_q8 re im s <= 1792.
Proof.
  intros Hk. unfold best_k_q8. rewrite Z.shiftl_mul_pow2 by lia. change (2 ^ 8) with 256.
  cbv zeta. rewrite (u16_small (bn_k s * 256)) by rlia.
  change fft_k_lo with 2. change fft_k_hi with 7.
  destruct (_ && _) eqn:E; [| lia].
  rewrite !andb_true_iff, !Z.ltb_lt in E. destruct (shFitScale3 _ _ _) as [[pa pb] pc].
  pose proof (delta_range (i32 pa) (i32 pb) (i32 pc)). rewrite u16_small by rlia. lia.
Qed.

(** * Smoothing *)
Lemma fft_smooth_step_eq best k :
  512 <= best <= 1792 -> 512 <= k <= 1792 ->
  let alpha := if 512 <? Z.abs (best - k) then 24 else 48 in
  fft_smooth_step best (mksmooth k true) = mksmooth (k + (best - k) * alpha / 256) true.
Proof.
  intros Hb Hk alpha. unfold fft_smooth_step. cbn [fft_k_smooth_valid fft_k_smooth_q8].
  assert (fft_alpha best k = alpha) as ->.
  { unfold fft_alpha. change (if 256 <? HR_FFT_SMOOTH_ALPHA_Q8 then 256 else HR_FFT_SMOOTH_ALPHA_Q8) with 48.
    change (u16 (Z.shiftl HR_FFT_MAX_BIN_JUMP 8)) with 512. cbv zeta.
    change (if u16 (48 / 2) <? 16 then 16 else u16 (48 / 2)) with 24.
    unfold alpha. zcase; rewrite u16_small by rlia; repeat zcase; lia. }
  cbv zeta. cbn [field_set]. f_equal.
  assert (24 <= alpha <= 48) by (unfold alpha; zcase; lia).
  rewrite (u32_small (k * _)), (u32_small (best * _)) by (unfold is_u32; nia).
  rewrite u32_small by (unfold is_u32; nia).
  replace (k * (256 - alpha) + best * alpha) with ((best - k) * alpha + k * 256) by ring.
  rewrite Z.div_add by lia. rewrite Z.add_comm. apply u16_small.
  assert (-1280 <= (best - k) * alpha / 256 <= 1280); [| unfold is_u16].
  { split; [apply Z.div_le_lower_bound | apply Z.div_le_upper_bound]; nia. }
  destruct (Z.le_gt_cases k best).
  - assert (0 <= (best - k) * alpha / 256) by (apply Z.div_pos; nia). lia.
  - assert (best - k <= (best - k) * alpha / 256) by (apply Z.div_le_lower_bound; nia). lia.
Qed.

(** The smoothed bin moves towards the new one without passing it. *)
Lemma smooth_between k best alpha :
  0 <= alpha <= 256 ->
  Z.min k best <= k + (best - k) * alpha / 256 <= Z.max k best.
Proof.
  intros Ha. destruct (Z.le_gt_cases k best).
  - assert (0 <= (best - k) * alpha / 256 <= best - k); [| lia].
    split; [apply Z.div_pos; nia | apply Z.div_le_upper_bound; nia].
  - assert (best - k <= (best - k) * alpha / 256 <= 0); [| lia].
    split; [apply Z.div_le_lower_bound; nia | apply Z.div_le_upper_bound; nia].
Qed.

Lemma fft_smooth_step_ok best sm :
  512 <= best <= 1792 -> smooth_ok sm ->
  fft_k_smooth_valid (fft_smooth_step best sm) = true /\
  512 <= fft_k_smooth_q8 (fft_smooth_step best sm) <= 1792.
Proof.
  intros Hb Hs. destruct sm as [k []].
  - specialize (Hs eq_refl). cbn in Hs. rewrite fft_smooth_step_eq by done. cbn.
    split; [done |]. set (alpha := if _ <? _ then _ else _).
    pose proof (smooth_between k best alpha ltac:(unfold alpha; zcase; lia)). lia.
  - by split.
Qed.

(** One window cannot throw the smoothed frequency: it stays between
    its old value and the new bin, and covers at most 48/256 of the distance
    (24/256 when the new bin is more than two bins away), plus one unit of
    rounding. *)
Theorem fft_smooth_step_damped best k :
  512 <= best <= 1792 -> 512 <= k <= 1792 ->
  let k' := fft_k_smooth_q8 (fft_smooth_step best (mksmooth k true)) in
  Z.min k best <= k' <= Z.max k best /\
  Z.abs (k' - k) <= Z.abs (best - k) * 48 / 256 + 1 /\
  (512 < Z.abs (best - k) -> Z.abs (k' - k) <= Z.abs (best - k) * 24 / 256 + 1).
Proof.
  intros Hb Hk. cbv zeta. rewrite fft_smooth_step_eq by done. cbn [fft_k_smooth_q8].
  destruct (Z.ltb_spec 512 (Z.abs (best - k))) as [Hj | Hj];
    (split; [apply smooth_between; lia |]); zlia.
Qed.

Lemma fft_smooth_step_damped_witness :
  let k' := fft_k_smooth_q8 (fft_smooth_step 1700 (mksmooth 600 true)) in
  Z.min 600 1700 <= k' <= Z.max 600 1700 /\
  Z.abs (k' - 600) <= Z.abs (1700 - 600) * 48 / 256 + 1 /\
  (512 < Z.abs (1700 - 600) -> Z.abs (k' - 600) <= Z.abs (1700 - 600) * 24 / 256 + 1).
Proof. apply fft_smooth_step_damped; vdec. Defined.

(** * The estimator *)
Lemma shBinQ8ToBpm_eq fs k :
  is_u16 fs -> 256 <= k <= 1792 -> shBinQ8ToBpm fs k = k * 60 * (fs / 16) / 262144.
Proof.
  intros Hfs Hk. unfold shBinQ8ToBpm. rewrite Z.shiftr_div_pow2 by lia. change (2 ^ 4) with 16.
  change (HR_FFT_N * 4096) with 262144.
  assert (0 <= fs / 16 <= 4095) by (unfold is_u16 in *; zlia).
  rewrite u32_small by (unfold is_u32; nia). apply u16_small. unfold is_u16.
  split; [apply Z.div_pos; nia | apply Z.div_lt_upper_bound; nia].
Qed.

Lemma shFftBpm_range `{HelmetConfig} fs x n sm :
  is_u16 fs -> smooth_ok sm ->
  let '(bpm, mag, sm') := shFftBpm fs x n sm in
  smooth_ok sm' /\ is_u16 mag /\
  (bpm = 0 \/ HR_BPM_MIN <= bpm <= HR_BPM_MAX /\ fft_k_smooth_valid sm' = true /\
    bpm = fft_k_smooth_q8 sm' * 60 * (fs / 16) / 262144) /\
  (fs = 6400 -> sm' <> sm -> 46 <= bpm <= 164).
Proof.
  intros Hfs Hsm. unfold shFftBpm.
  assert (smooth_ok sm /\ is_u16 0 /\ (0 = 0 \/ HR_BPM_MIN <= 0 <= HR_BPM_MAX /\
    fft_k_smooth_valid sm = true /\ 0 = fft_k_smooth_q8 sm * 60 * (fs / 16) / 262144) /\
    (fs = 6400 -> sm <> sm -> 46 <= 0 <= 164)) as Hnone
    by (split_and!; [done | vdec | by left | done]).
  destruct (_ <? _); [exact Hnone |]. cbv zeta. destruct (_ && _); [exact Hnone |].
  destruct (fft_load _ _ _ _) as [re0 im0]. destruct (shFftRadix2 re0 im0) as [re im].
  change (fft_k_hi <? fft_k_lo) with false.
  pose proof (bin_scan_inv re im) as (Hbins & Hbest & _). set (s := bin_scan re im) in *.
  destruct (_ || _) eqn:Hz; [exact Hnone |]. apply orb_false_iff in Hz. rewrite !Z.eqb_neq in Hz.
  destruct (snr_reject s); [exact Hnone |].
  destruct Hbest as [? | (Hk & Hp & _)]; [lia |].
  destruct (fft_smooth_step_ok (best_k_q8 re im s) sm (best_k_q8_range re im s ltac:(lia)) Hsm)
    as [Hv Hr].
  set (sm' := fft_smooth_step _ sm) in *. rewrite (proj2 (Z.ltb_ge _ 256)) by lia.
  rewrite shBinQ8ToBpm_eq by (done || lia). set (b := _ / 262144).
  split_and!.
  - by intros _.
  - zcase; [vdec | apply u16_range].
  - destruct (_ || _) eqn:E; [by left |]. right. rewrite orb_false_iff, !Z.ltb_ge in E. done.
  - intros -> _. assert (46 <= b <= 164) as Hb
      by (unfold b; split; [apply Z.div_le_lower_bound | apply Z.lt_succ_r, Z.div_lt_upper_bound];
          change (6400 / 16) with 400; lia).
    rewrite (proj2 (Z.ltb_ge b HR_BPM_MIN)), (proj2 (Z.ltb_ge HR_BPM_MAX b))
      by (unfold HR_BPM_MIN, HR_BPM_MAX; lia).
    done.
Qed.

(** What an FFT estimate means, for any input: the rate is 0 or in the
    band; a non-zero rate is the smoothed bin converted with the measured
    sample rate; the smoothed bin never leaves the pulse band; and at the
    nominal rate the conversion cannot fall outside the band, so a
    window that updates the smoothing always reports a rate. *)
Theorem shFftBpm_sound `{HelmetConfig} fs x n sm :
  is_u16 fs -> smooth_ok sm ->
  let '(bpm, mag, sm') := shFftBpm fs x n sm in
  smooth_ok sm' /\ is_u16 mag /\
  (bpm = 0 \/ HR_BPM_MIN <= bpm <= HR_BPM_MAX /\ fft_k_smooth_valid sm' = true /\
    bpm = fft_k_smooth_q8 sm' * 60 * (fs / 16) / 262144) /\
  (fs = 6400 -> sm' <> sm -> 46 <= bpm <= 164).
Proof. apply shFftBpm_range. Qed.

Lemma shFftBpm_sound_witness :
  let x := (fun i => if i mod 16 <? 8 then 60 else -60) <$> seqZ 0 100 in
  let '(bpm, mag, sm') := shFftBpm (H := shipped) 6400 x 100 shFftSmoothReset in
  smooth_ok sm' /\ is_u16 mag /\
  (bpm = 0 \/ HR_BPM_MIN <= bpm <= HR_BPM_MAX /\ fft_k_smooth_valid sm' = true /\
    bpm = fft_k_smooth_q8 sm' * 60 * (6400 / 16) / 262144) /\
  (6400 = 6400 -> sm' <> shFftSmoothReset -> 46 <= bpm <= 164).
Proof.
  apply (@shFftBpm_sound shipped 6400 ((fun i => if i mod 16 <? 8 then 60 else -60) <$> seqZ 0 100)).
  - vdec.
  - by intros ?.
Defined.

Lemma bit_reverse_spec_witness :
  let a := (fun i => i * i) <$> seqZ 0 64 in
  aget (fst (bit_reverse a a)) 13 = aget a (brev6 13) /\
  aget (snd (bit_reverse a a)) 13 = aget a (brev6 13) /\ brev6 (brev6 13) = 13.
Proof.
  apply (bit_reverse_spec ((fun i => i * i) <$> seqZ 0 64) ((fun i => i * i) <$> seqZ 0 64) 13); vdec.
Defined.

Lemma nrm_all (st : list Z * list Z) b :
  forallb (fun j => nrm st j <=? b) (seqZ 0 64) = true -> forall j, 0 <= j < 64 -> nrm st j <= b.
Proof.
  rewrite forallb_forall. intros Hall j Hj. apply Z.leb_le, Hall, list_elem_of_In, elem_of_seqZ. lia.
Qed.

Lemma shFftRadix2_no_overflow_witness :
  shFftRadix2 (impulse 63) (replicate 64 0)
    = fft_stages id (bit_reverse (impulse 63) (replicate 64 0)) /\
  (forall j, 0 <= j < 64 ->
    nrm (shFftRadix2 (impulse 63) (replicate 64 0)) j <= 186624 * 186624 /\
    bin_power (fst (shFftRadix2 (impulse 63) (replicate 64 0)))
      (snd (shFftRadix2 (impulse 63) (replicate 64 0))) j =
    (aget (fst (shFftRadix2 (impulse 63) (replicate 64 0))) j ÷ 8) *
      (aget (fst (shFftRadix2 (impulse 63) (replicate 64 0))) j ÷ 8) +
    (aget (snd (shFftRadix2 (impulse 63) (replicate 64 0))) j ÷ 8) *
      (aget (snd (shFftRadix2 (impulse 63) (replicate 64 0))) j ÷ 8)).
Proof.
  apply (shFftRadix2_no_overflow (impulse 63) (replicate 64 0)); [vdec | vdec |].
  apply nrm_all. vm_compute. reflexivity.
Defined.

Lemma fft_frame_in_range_witness :
  let x := (fun i => if i mod 16 <? 8 then 60 else -60) <$> seqZ 0 100 in
  let mean := fft_mean x 100 in
  let peak := fft_peak x 100 mean in
  1 <= peak /\
  (let '(re, im) := fft_load (H := shipped) x 100 mean (fft_prescale peak) in
   alen re = 64 /\ alen im = 64 /\
   (forall j, 0 <= j < 64 -> nrm (re, im) j <= 16384 * 16384) /\
   (fft_prescale peak = 12 \/ 8192 < peak * 2 ^ fft_prescale peak)).
Proof.
  split; [vdec |].
  apply (@fft_frame_in_range shipped ((fun i => if i mod 16 <? 8 then 60 else -60) <$> seqZ 0 100) 100);
    vdec.
Defined.

(** The gain of the transform is not the same for all samples: an
    impulse of [2^14] at position [n] reaches bin 0 with [2^14 / 2^(6 - b)],
    [b] the number of ones in [n] (within 11 units of rounding), from 256 at
    position 0 to the full amplitude at 63.  Each stage halves the
    upper input of a butterfly but not the twiddled one, so the transform is the
    DFT of the frame weighted by [2^(b - 6)], not of the frame. *)
Theorem shFftRadix2_gain n :
  0 <= n < 64 ->
  let b := Z.b2z (Z.testbit n 0) + Z.b2z (Z.testbit n 1) + Z.b2z (Z.testbit n 2) +
           Z.b2z (Z.testbit n 3) + Z.b2z (Z.testbit n 4) + Z.b2z (Z.testbit n 5) in
  let re := fst (shFftRadix2 (impulse n) (replicate 64 0)) in
  Z.abs (aget re 0 - 16384 / 2 ^ (6 - b)) <= 11.
Proof.
  intros Hn.
  assert (forallb (fun n =>
    let b := Z.b2z (Z.testbit n 0) + Z.b2z (Z.testbit n 1) + Z.b2z (Z.testbit n 2) +
           Z.b2z (Z.testbit n 3) + Z.b2z (Z.testbit n 4) + Z.b2z (Z.testbit n 5) in
    let re := fst (shFftRadix2 (impulse n) (replicate 64 0)) in
    Z.abs (aget re 0 - 16384 / 2 ^ (6 - b)) <=? 11) (seqZ 0 64) = true) as Hall
    by (vm_compute; reflexivity).
  rewrite forallb_forall in Hall. apply Z.leb_le, (Hall n), list_elem_of_In, elem_of_seqZ. lia.
Qed.

Lemma shFftRadix2_gain_witness :
  let b := Z.b2z (Z.testbit 63 0) + Z.b2z (Z.testbit 63 1) + Z.b2z (Z.testbit 63 2) +
           Z.b2z (Z.testbit 63 3) + Z.b2z (Z.testbit 63 4) + Z.b2z (Z.testbit 63 5) in
  let re := fst (shFftRadix2 (impulse 63) (replicate 64 0)) in
  Z.abs (aget re 0 - 16384 / 2 ^ (6 - b)) <= 11.
Proof. apply (shFftRadix2_gain 63). vdec. Defined.
