(* ===== verification/Corr.v ===== *)
(** The autocorrelation estimators: shAutoCorrBpm on the SENS residual and
    shRespBpm on the decimated respiration envelope, with shRespPush that
    feeds the latter. *)
From S2P Require Import Prelude Config Dsp Ring Peak.

(** * The parts both estimators share *)

(** [while (shift < 15 && (peak >> shift)^2 * n > 0x3fffffff) shift++;] *)
Definition corr_shift (peak n : Z) : Z :=
  while_ 16 (fun s => (s <? 15) &&
      (1073741823 <? u32 (u32 (Z.shiftr peak s * Z.shiftr peak s) * n)))
    (fun s => s + 1) 0.

Definition corr_r0 (x : list Z) (n shift : Z) : Z :=
  for_ 0 n (fun i r0 => let v := Z.shiftr (aget x i) shift in i32 (r0 + i32 (v * v))) 0.

Definition corr_acc (x : list Z) (n shift lag : Z) : Z :=
  let cnt := u8 (n - lag) in
  for_ 0 cnt (fun i acc =>
    i32 (acc + i32 (Z.shiftr (aget x i) shift * Z.shiftr (aget x (i + lag)) shift))) 0.

(** [if (!best_lag || r > best_r)] on [(best_lag, best_r)]. *)
Definition lag_pick (lag r : Z) (best : Z * Z) : Z * Z :=
  let '(best_lag, best_r) := best in
  if (best_lag =? 0) || (best_r <? r) then (lag, r) else best.

(** [r(lag) / r(0)] in Q8. *)
Definition corr_quality (r0 best_r : Z) : Z :=
  let den := Z.shiftr (u32 r0) 8 in
  let den := if den =? 0 then 1 else den in
  u32 best_r / den.

Definition sat16 (q : Z) : Z := if 65535 <? q then 65535 else u16 q.

(** * The pulse estimator *)
Definition SH_AC_MAX_LAG : Z := VITALS_FS_HZ * 60 / HR_BPM_MIN.
Definition SH_AC_MIN_LAG : Z := VITALS_FS_HZ * 60 / HR_BPM_MAX.

Definition ac_min_lag : Z := let m := u16 SH_AC_MIN_LAG in if m =? 0 then 1 else m.

(** The scan also stores the correlation of each lag in [sh_ac_r]. *)
Definition ac_scan (x : list Z) (n shift max_lag : Z) : Z * Z * list Z :=
  for_ ac_min_lag (max_lag + 1) (fun lag '(best, ac_r) =>
    let r := corr_acc x n shift lag in
    (lag_pick lag r best, aset ac_r (lag - ac_min_lag) r))
    ((0, 0), replicate (Z.to_nat (SH_AC_MAX_LAG - SH_AC_MIN_LAG + 1)) 0).

(** Parabolic refinement of the winning lag. *)
Definition ac_lag_q8 (best_lag best_r max_lag : Z) (ac_r : list Z) : Z :=
  let lag_q8 := u16 (Z.shiftl best_lag 8) in
  if (ac_min_lag <? best_lag) && (best_lag <? max_lag) then
    let rp := aget ac_r (best_lag - ac_min_lag - 1) in
    let rn := aget ac_r (best_lag - ac_min_lag + 1) in
    if (0 <? rp) && (0 <? rn) then
      let '(a, b, c) := shFitScale3 (u32 rp) (u32 best_r) (u32 rn) in
      u16 (lag_q8 + shParabolicDeltaQ8 (i32 a) (i32 b) (i32 c))
    else lag_q8
  else lag_q8.

(** Returns the rate and the quality. *)
Definition shAutoCorrBpm (fs_q8 : Z) (x : list Z) (n : Z) : Z * Z :=
  let max_lag := u16 SH_AC_MAX_LAG in
  if n <=? u8 (ac_min_lag + 1) then (0, 0) else
  let max_lag := if n <=? max_lag + ac_min_lag then u16 (n - ac_min_lag) else max_lag in
  if max_lag <? ac_min_lag then (0, 0) else
  let peak := shMaxAbsI16 x n in
  if peak =? 0 then (0, 0) else
  let shift := corr_shift peak n in
  let r0 := corr_r0 x n shift in
  if r0 <=? 0 then (0, 0) else
  let '((best_lag, best_r), ac_r) := ac_scan x n shift max_lag in
  if (best_lag =? 0) || (best_r <=? 0) then (0, 0) else
  let q := corr_quality r0 best_r in
  if q <? HR_AC_MIN_Q8 then (0, sat16 q) else
  let lag_q8 := ac_lag_q8 best_lag best_r max_lag ac_r in
  if lag_q8 =? 0 then (0, sat16 q) else
  (in_hr_band (shIntervalQ8ToBpm fs_q8 lag_q8), sat16 q).

(** * Respiration: decimation and removal of the slow level *)
Record resp_st := mkresp {
  resp_ring : ring;
  resp_decim_n : Z;
  resp_decim_acc : Z;
  resp_dc : Z;
  resp_dc_valid : bool }.

#[export] Instance resp_st_eta : RecordEta resp_st := fun r =>
  mkresp (resp_ring r) (resp_decim_n r) (resp_decim_acc r) (resp_dc r) (resp_dc_valid r).

Definition resp_init : resp_st := mkresp (ring_empty RESP_WIN) 0 0 0 false.

(** The slow average after a decimated value. *)
Definition resp_dc_next (v : Z) (s : resp_st) : Z :=
  if resp_dc_valid s
  then i32 (resp_dc s + i32 (i32 (Z.shiftl v 8 - resp_dc s) * 12) ÷ 256)
  else i32 (Z.shiftl v 8).

Definition shRespPush (mv : Z) (s : resp_st) : resp_st :=
  let s := s <| resp_decim_acc ::= (fun a => i32 (a + mv)) |>
             <| resp_decim_n ::= (fun k => u8 (k + 1)) |> in
  if resp_decim_n s <? RESP_DECIM then s else
  let v := resp_decim_acc s ÷ RESP_DECIM in
  let s := s <| resp_decim_acc := 0 |> <| resp_decim_n := 0 |> in
  let s := s <| resp_dc := resp_dc_next v s |> <| resp_dc_valid := true |> in
  let v := clamp16 (i32 (v - Z.shiftr (resp_dc s) 8)) in
  s <| resp_ring ::= ring_push RESP_WIN (i16 v) |>.

Definition resp_min_lag (fs_resp_q8 : Z) : Z :=
  let m := u16 (u32 (fs_resp_q8 * 60) / (RESP_BPM_MAX * 256)) in
  if m <? 2 then 2 else m.
Definition resp_max_lag (fs_resp_q8 : Z) : Z :=
  u16 (u32 (fs_resp_q8 * 60) / (RESP_BPM_MIN * 256)).

Definition resp_scan (x : list Z) (n shift min_lag max_lag : Z) : Z * Z :=
  for_ min_lag (max_lag + 1) (fun lag best => lag_pick lag (corr_acc x n shift lag) best) (0, 0).

(** Returns the rate and the quality. *)
Definition shRespBpm (fs_q8 : Z) (s : resp_st) : Z * Z :=
  let fs_resp_q8 := u16 (fs_q8 / RESP_DECIM) in
  if fs_resp_q8 =? 0 then (0, 0) else
  let min_lag := resp_min_lag fs_resp_q8 in
  let max_lag := resp_max_lag fs_resp_q8 in
  let n := r_count (resp_ring s) in
  if n <? u8 (max_lag * 2) then (0, 0) else
  let max_lag := if n <=? max_lag then u16 (n - 1) else max_lag in
  if max_lag <? min_lag then (0, 0) else
  let x := ring_copy RESP_WIN n (resp_ring s) in
  let peak := shMaxAbsI16 x n in
  if peak =? 0 then (0, 0) else
  let shift := corr_shift peak n in
  let r0 := corr_r0 x n shift in
  if r0 <=? 0 then (0, 0) else
  let '(best_lag, best_r) := resp_scan x n shift min_lag max_lag in
  if (best_lag =? 0) || (best_r <=? 0) then (0, 0) else
  let q := corr_quality r0 best_r in
  if q <? RESP_MIN_Q8 then (0, sat16 q) else
  let bpm := u16 (u32 (fs_resp_q8 * 60) / (best_lag * 256)) in
  ((if (bpm <? RESP_BPM_MIN) || (RESP_BPM_MAX <? bpm) then 0 else bpm), sat16 q).

(** * Vocabulary of the specifications *)

(** The autocorrelation sum on unbounded integers. *)
Definition acf (x : list Z) (n shift lag : Z) : Z :=
  sumZ ((fun i => Z.shiftr (aget x i) shift * Z.shiftr (aget x (i + lag)) shift) <$> seqZ 0 (n - lag)).

(** The invariant of the respiration path: the average is a level in Q8, the
    decimator holds less than a block, the ring holds [h]. *)
Definition resp_ok (h : list Z) (s : resp_st) : Prop :=
  ring_ok RESP_WIN h (resp_ring s) /\ Forall is_i16 h /\
  0 <= resp_decim_n s < RESP_DECIM /\ 0 <= resp_decim_acc s <= 65535 * resp_decim_n s /\
  0 <= resp_dc s <= 65535 * 256.

(** An envelope of period 12 (15 breaths per minute at 3.125 Hz), and the
    state of the path that holds it. *)
Definition breath : list Z := (fun k => if k mod 12 <? 6 then 30 else -30) <$> seqZ 0 64.
Definition breath_st : resp_st :=
  mkresp (fold_left (fun r v => ring_push RESP_WIN v r) breath (ring_empty RESP_WIN)) 0 0 0 true.

(** [best] is the first largest value of [r] over the lags from [lo] to below [k]. *)
Definition lag_inv (r : Z -> Z) (lo k : Z) (best : Z * Z) : Prop :=
  (best = (0, 0) /\ k = lo) \/
  (lo <= fst best < k /\ snd best = r (fst best) /\ forall l, lo <= l < k -> r l <= snd best).

(** * Exactness of the sums *)
Lemma sumZ_seq_snoc g n :
  0 <= n -> sumZ (g <$> seqZ 0 (n + 1)) = sumZ (g <$> seqZ 0 n) + g n.
Proof.
  intros. rewrite seqZ_app by lia. rewrite fmap_app, sumZ_app.
  change (seqZ (0 + n) 1) with [0 + n]. change (sumZ (g <$> [0 + n])) with (g (0 + n) + 0).
  by rewrite Z.add_0_l, Z.add_0_r.
Qed.

Lemma sum_loop (g : Z -> Z) b n :
  0 <= n -> 0 <= b -> b * n < 2147483648 -> (forall i, 0 <= i < n -> - b <= g i <= b) ->
  for_ 0 n (fun i a => i32 (a + i32 (g i))) 0 = sumZ (g <$> seqZ 0 n) /\
  - (b * n) <= sumZ (g <$> seqZ 0 n) <= b * n.
Proof.
  intros Hn Hb Hbn Hg.
  apply (for_ind (fun k a => a = sumZ (g <$> seqZ 0 k) /\
    - (b * k) <= sumZ (g <$> seqZ 0 k) <= b * k) 0 n); [lia | change (seqZ 0 0) with (@nil Z); change (sumZ (g <$> [])) with 0; lia |].
  intros k a Hk [-> Ha]. rewrite sumZ_seq_snoc by lia. specialize (Hg k Hk).
  set (s := sumZ _) in *. rewrite (i32_small (g k)) by (unfold is_i32; nia).
  rewrite i32_small by (unfold is_i32; nia). lia.
Qed.

Lemma shMaxAbsI16_spec x n :
  Forall is_i16 x -> 0 <= n ->
  0 <= shMaxAbsI16 x n <= 32768 /\ (forall i, 0 <= i < n -> Z.abs (aget x i) <= shMaxAbsI16 x n) /\
  (forall b, 0 <= b -> Forall (fun v => Z.abs v <= b) x -> shMaxAbsI16 x n <= b).
Proof.
  intros Hx Hn. unfold shMaxAbsI16.
  apply (for_ind (fun k m => 0 <= m <= 32768 /\ (forall i, 0 <= i < k -> Z.abs (aget x i) <= m) /\
    (forall b, 0 <= b -> Forall (fun v => Z.abs v <= b) x -> m <= b)) 0 n); [lia | |].
  { split_and!; intros; lia. }
  intros k m Hk (Hm & Hall & Hb). assert (is_i16 (aget x k)) by (apply aget_Forall; [done | vdec]).
  cbv zeta. replace (if aget x k <? 0 then - aget x k else aget x k) with (Z.abs (aget x k))
    by (zcase; lia).
  rewrite u32_small, u16_small by rlia. split; [| split].
  - zcase; rlia.
  - intros i Hi. destruct (Z.eq_dec i k) as [-> | Hne]; [zcase; lia |].
    specialize (Hall i ltac:(lia)). zcase; lia.
  - intros b Hb0 Hf. specialize (Hb b Hb0 Hf). zcase; [| done].
    apply (aget_Forall (fun v => Z.abs v <= b)); [done | lia].
Qed.

(** The scale the code chooses keeps the sums in 32 bits, provided the test
    itself does not wrap. *)
Lemma corr_shift_spec peak n :
  0 <= peak <= 32768 -> 1 <= n <= 128 -> peak * peak * n < 4294967296 ->
  0 <= corr_shift peak n <= 15 /\
  Z.shiftr peak (corr_shift peak n) * Z.shiftr peak (corr_shift peak n) * n <= 1073741823.
Proof.
  intros Hp Hn Hpn. unfold corr_shift.
  set (c := fun s => _ && _).
  assert (forall s, 0 <= s <= 15 -> c s = (s <? 15) &&
    (1073741823 <? Z.shiftr peak s * Z.shiftr peak s * n) /\ 0 <= Z.shiftr peak s) as Hc.
  { intros s Hs. rewrite Z.shiftr_div_pow2 by lia. assert (0 < 2 ^ s) by lia.
    assert (0 <= peak / 2 ^ s <= peak)
      by (split; [apply Z.div_pos; lia | apply Z.div_le_upper_bound; [lia |];
        rewrite <- (Z.mul_1_l peak) at 1; apply Z.mul_le_mono_nonneg_r; lia]).
    assert (0 <= peak / 2 ^ s * (peak / 2 ^ s) <= peak * peak) by nia.
    unfold c. rewrite Z.shiftr_div_pow2 by lia.
    set (q2 := peak / 2 ^ s * (peak / 2 ^ s)) in *.
    assert (0 <= q2 * n <= peak * peak * n)
      by (split; [lia | apply Z.mul_le_mono_nonneg_r; lia]).
    assert (peak * peak <= 32768 * 32768) by nia.
    rewrite (u32_small q2), (u32_small (q2 * n)) by (unfold is_u32; lia). split; [done | lia]. }
  destruct (while_spec (fun s => 0 <= s <= 15) (fun s => Z.to_nat (15 - s)) 16 c (fun s => s + 1) 0)
    as [Hs Hf]; [lia | lia | |].
  - intros s Hs Hcs. destruct (Hc s Hs) as [E _]. rewrite E, andb_true_iff, Z.ltb_lt in Hcs. lia.
  - set (s := while_ _ _ _ _) in *. destruct (Hc s Hs) as [E H0].
    rewrite E, andb_false_iff, !Z.ltb_ge in Hf. split; [done |]. destruct Hf as [Hf | Hf]; [| lia].
    assert (s = 15) as Es by lia. rewrite Es in H0 |- *. rewrite Z.shiftr_div_pow2 in H0 |- * by lia.
    change (2 ^ 15) with 32768 in *. assert (peak / 32768 <= 1) by (apply Z.div_le_upper_bound; lia).
    nia.
Qed.

Section Corr.
Context (x : list Z) (n : Z).
Hypothesis Hx : Forall is_i16 x.
Hypothesis Hn : 1 <= n <= 128.
Let peak := shMaxAbsI16 x n.
Let shift := corr_shift peak n.
Hypothesis Hpeak : peak * peak * n < 4294967296.

Lemma corr_scaled :
  exists P, 0 <= P /\ (P + 1) * (P + 1) * n < 2147483648 /\
    forall i, 0 <= i < n -> - (P + 1) <= Z.shiftr (aget x i) shift <= P + 1.
Proof.
  destruct (shMaxAbsI16_spec x n Hx ltac:(lia)) as (Hp & Hall & _). fold peak in Hp, Hall.
  destruct (corr_shift_spec peak n) as [Hs Hb]; [done | done | done |]. fold shift in Hs, Hb.
  exists (Z.shiftr peak shift). rewrite Z.shiftr_div_pow2 in Hb |- * by lia.
  assert (0 < 2 ^ shift) by lia. assert (0 <= peak / 2 ^ shift) by (apply Z.div_pos; lia).
  split; [done |]. split; [nia |]. intros i Hi. specialize (Hall i Hi).
  rewrite Z.shiftr_div_pow2 by lia.
  pose proof (Z.mul_succ_div_gt peak (2 ^ shift) ltac:(lia)).
  split; [apply Z.div_le_lower_bound | apply Z.div_le_upper_bound]; nia.
Qed.

Lemma corr_r0_eq : corr_r0 x n shift = acf x n shift 0 /\ is_i32 (acf x n shift 0).
Proof.
  destruct corr_scaled as (P & HP & Hb & Hi). unfold corr_r0, acf. cbv zeta. rewrite Z.sub_0_r.
  destruct (sum_loop (fun i => Z.shiftr (aget x i) shift * Z.shiftr (aget x i) shift)
    ((P + 1) * (P + 1)) n) as [-> Hs]; [lia | nia | done | |].
  { intros i Hin. specialize (Hi i Hin). nia. }
  assert ((fun i => Z.shiftr (aget x i) shift * Z.shiftr (aget x (i + 0)) shift) <$> seqZ 0 n
    = (fun i => Z.shiftr (aget x i) shift * Z.shiftr (aget x i) shift) <$> seqZ 0 n) as ->
    by (apply list_fmap_ext; intros; by rewrite Z.add_0_r).
  split; [done | unfold is_i32; lia].
Qed.

Lemma corr_acc_eq lag :
  0 <= lag <= n -> corr_acc x n shift lag = acf x n shift lag /\ is_i32 (acf x n shift lag).
Proof.
  intros Hlag. destruct corr_scaled as (P & HP & Hb & Hi). unfold corr_acc, acf. cbv zeta.
  rewrite u8_small by rlia.
  destruct (sum_loop (fun i => Z.shiftr (aget x i) shift * Z.shiftr (aget x (i + lag)) shift)
    ((P + 1) * (P + 1)) (n - lag)) as [-> Hs]; [lia | nia | nia | |].
  { intros i Hin. pose proof (Hi i ltac:(lia)). pose proof (Hi (i + lag) ltac:(lia)).
    apply mul_abs_le; done. }
  split; [done | unfold is_i32; nia].
Qed.
End Corr.

(** * The search over lags *)
Lemma lag_pick_inv r lo k best :
  1 <= lo <= k -> lag_inv r lo k best -> lag_inv r lo (k + 1) (lag_pick k (r k) best).
Proof.
  intros Hk [[-> ->] | (Hb & Hr & Hall)].
  - right. cbn. split; [lia |]. split; [done |]. intros l Hl. by replace l with lo by lia.
  - destruct best as [bl br]. cbn [fst snd] in *. subst br. right. unfold lag_pick.
    rewrite (proj2 (Z.eqb_neq bl 0)) by lia. cbn [orb]. destruct (Z.ltb_spec (r bl) (r k)); cbn [fst snd].
    + split; [lia |]. split; [done |]. intros l Hl. destruct (Z.eq_dec l k) as [-> |]; [done |].
      specialize (Hall l ltac:(lia)). lia.
    + split; [lia |]. split; [done |]. intros l Hl. destruct (Z.eq_dec l k) as [-> |]; [done |].
      apply Hall. lia.
Qed.

Lemma corr_quality_ge r0 best_r m :
  is_i32 r0 -> 0 < r0 -> 0 < best_r -> is_i32 best_r -> m <= corr_quality r0 best_r -> 0 <= m ->
  m * Z.max 1 (r0 / 256) <= best_r.
Proof.
  intros Hr0 Hpos Hb Hbr. unfold corr_quality. rewrite (u32_small r0), (u32_small best_r) by rlia.
  rewrite Z.shiftr_div_pow2 by lia. change (2 ^ 8) with 256. cbv zeta.
  set (den := if _ =? 0 then _ else _). assert (0 <= r0 / 256) by (apply Z.div_pos; lia).
  assert (den = Z.max 1 (r0 / 256)) as -> by (unfold den; zcase; lia).
  intros Hm H0. pose proof (Z.mul_div_le best_r (Z.max 1 (r0 / 256)) ltac:(lia)). nia.
Qed.

(** * Respiration *)
Lemma resp_dc_range v s :
  is_u16 v -> 0 <= resp_dc s <= 65535 * 256 -> 0 <= resp_dc_next v s <= 65535 * 256.
Proof.
  unfold is_u16. intros Hv Hd. unfold resp_dc_next. rewrite Z.shiftl_mul_pow2 by lia.
  change (2 ^ 8) with 256. destruct (resp_dc_valid s); [| rewrite i32_small by rlia; lia].
  rewrite (i32_small (v * 256 - resp_dc s)) by rlia.
  rewrite (i32_small (_ * 12)) by rlia.
  assert (Z.min 0 (v * 256 - resp_dc s) <= ((v * 256 - resp_dc s) * 12) ÷ 256
    <= Z.max 0 (v * 256 - resp_dc s)) by zlia.
  rewrite i32_small by rlia. lia.
Qed.

Lemma shRespPush_ok h s mv :
  resp_ok h s -> is_u16 mv -> exists h', resp_ok h' (shRespPush mv s).
Proof.
  intros (Hr & Hh & Hn & Ha & Hd) Hmv. unfold RESP_DECIM in *. unfold shRespPush.
  cbn [field_set resp_decim_n resp_decim_acc resp_dc resp_dc_valid resp_ring].
  rewrite u8_small by rlia. rewrite i32_small by rlia. unfold RESP_DECIM.
  destruct (Z.ltb_spec (resp_decim_n s + 1) 8).
  - exists h. unfold resp_ok, RESP_DECIM. cbn. split_and!; (done || rlia).
  - assert (is_u16 ((resp_decim_acc s + mv) ÷ 8)) as Hv by (unfold_ranges; zlia).
    set (v := _ ÷ 8) in *.
    set (dc := resp_dc_next v _). assert (0 <= dc <= 65535 * 256) by (by apply resp_dc_range).
    exists (h ++ [i16 (clamp16 (i32 (v - Z.shiftr dc 8)))]). unfold resp_ok, RESP_DECIM. cbn.
    split; [by apply ring_push_ok |]. split; [| lia].
    apply Forall_app_2; [done |]. repeat constructor; apply i16_range.
Qed.

(** Pushes within a block only accumulate. *)
Lemma resp_push_partial l rg acc d dv :
  Forall is_u16 l -> (length l <= 7)%nat -> acc = 0 ->
  fold_left (fun s mv => shRespPush mv s) l (mkresp rg 0 acc d dv)
    = mkresp rg (alen l) (acc + sumZ l) d dv.
Proof.
  intros Hl Hlen ->. induction l as [| m l IH] using rev_ind; [done |].
  rewrite length_app in Hlen. cbn in Hlen. rewrite Forall_app in Hl. destruct Hl as [Hl Hm].
  inversion Hm; subst. rewrite fold_left_app, IH by (done || lia). cbn [fold_left].
  assert (0 <= sumZ l <= 65535 * alen l) as Hs.
  { split; [apply sumZ_nonneg | apply sumZ_bound]; (eapply Forall_impl; [exact Hl |]);
      unfold is_u16; simpl; lia. }
  assert (0 <= alen l <= 6) by (unfold alen; lia).
  unfold shRespPush, RESP_DECIM. cbn [field_set resp_decim_n resp_decim_acc].
  rewrite u8_small by rlia. rewrite (proj2 (Z.ltb_lt _ 8)) by lia.
  rewrite i32_small by rlia. rewrite sumZ_app, alen_app. f_equal.
  change (sumZ [m]) with (m + 0). lia.
Qed.

(** The eighth completes it. *)
Lemma resp_push_full rg acc d dv m :
  0 <= acc + m <= 65535 * 8 -> 0 <= d <= 65535 * 256 ->
  let avg := (acc + m) / 8 in
  let dc := resp_dc_next avg (mkresp rg 0 0 d dv) in
  shRespPush m (mkresp rg 7 acc d dv)
    = mkresp (ring_push RESP_WIN (clamp16 (avg - dc / 256)) rg) 0 0 dc true.
Proof.
  intros Ha Hd avg dc. unfold shRespPush, RESP_DECIM. cbn [field_set resp_decim_n resp_decim_acc].
  change (u8 (7 + 1) <? 8) with false. cbn [resp_dc_valid resp_dc resp_ring].
  rewrite (i32_small (acc + m)), Z.quot_div_nonneg by rlia. fold avg. fold dc.
  assert (is_u16 avg) by (unfold avg, is_u16; zlia).
  assert (0 <= dc <= 65535 * 256) by (by apply resp_dc_range).
  rewrite Z.shiftr_div_pow2 by lia. change (2 ^ 8) with 256.
  assert (-65535 <= avg - dc / 256 <= 65535) by (unfold is_u16 in *; zlia).
  rewrite (i32_small (avg - _)) by rlia. rewrite i16_small by apply clamp16_range. done.
Qed.

(** Decimation: eight samples pushed at the start of a block add
    exactly one value to the respiration ring (their average, less the
    slow level, clamped), and leave the decimator at the start of the next
    block; nothing overflows. *)
Theorem shRespPush_block h s mvs :
  resp_ok h s -> resp_decim_n s = 0 -> Forall is_u16 mvs -> length mvs = 8%nat ->
  let avg := sumZ mvs / 8 in
  let dc := resp_dc_next avg s in
  let s' := fold_left (fun s mv => shRespPush mv s) mvs s in
  resp_ok (h ++ [clamp16 (avg - dc / 256)]) s' /\
  s' = mkresp (ring_push RESP_WIN (clamp16 (avg - dc / 256)) (resp_ring s)) 0 0 dc true.
Proof.
  intros Hok Hz Hm Hl avg dc s'. pose proof Hok as (Hr & Hh & Hn & Ha & Hd).
  destruct s as [rg k acc d dv]. cbn [resp_ring resp_decim_n resp_decim_acc resp_dc] in *. subst k.
  assert (acc = 0) as -> by lia.
  assert (Forall (fun v => v <= 65535) mvs /\ Forall (fun v => 0 <= v) mvs) as [Hle Hge]
    by (split; (eapply Forall_impl; [exact Hm |]); unfold is_u16; simpl; lia).
  assert (0 <= sumZ mvs <= 65535 * 8) as Hsum.
  { split; [by apply sumZ_nonneg |]. pose proof (sumZ_bound _ _ Hle). unfold alen in *. lia. }
  assert (is_u16 avg) by (unfold avg, is_u16; split; [apply Z.div_pos; lia | apply Z.div_lt_upper_bound; lia]).
  assert (0 <= dc <= 65535 * 256) by (by apply resp_dc_range).
  assert (s' = mkresp (ring_push RESP_WIN (clamp16 (avg - dc / 256)) rg) 0 0 dc true) as E.
  { unfold s'. clear s'. destruct (exists_last (l := mvs)) as (l & m & ->); [by destruct mvs |].
    rewrite length_app in Hl. cbn in Hl. rewrite Forall_app in Hm. destruct Hm as [Hm1 Hm2].
    inversion Hm2; subst. rewrite sumZ_app in Hsum. cbn [sumZ fold_right] in Hsum.
    rewrite fold_left_app, resp_push_partial by (done || lia). cbn [fold_left].
    rewrite Z.add_0_l. replace (alen l) with 7 by (unfold alen; lia).
    assert (avg = (sumZ l + m) / 8) as Ha' by (unfold avg; rewrite sumZ_app; cbn; f_equal; lia).
    rewrite resp_push_full by (done || (change (sumZ [m]) with (m + 0) in Hsum; lia)).
    rewrite <- Ha'. done. }
  split; [| exact E]. rewrite E. unfold resp_ok, RESP_DECIM. cbn.
  split; [by apply ring_push_ok |]. split; [| lia].
  apply Forall_app_2; [done |]. repeat constructor; apply clamp16_range.
Qed.

Lemma shRespPush_block_witness :
  let mvs := [800; 810; 820; 830; 820; 810; 800; 790] in
  let avg := sumZ mvs / 8 in
  let dc := resp_dc_next avg resp_init in
  let s' := fold_left (fun s mv => shRespPush mv s) mvs resp_init in
  resp_ok ([] ++ [clamp16 (avg - dc / 256)]) s' /\
  s' = mkresp (ring_push RESP_WIN (clamp16 (avg - dc / 256)) (resp_ring resp_init)) 0 0 dc true.
Proof.
  apply (shRespPush_block [] resp_init [800; 810; 820; 830; 820; 810; 800; 790]); [| vdec | vdec | vdec].
  split; [apply ring_empty_ok; vdec | split_and!; vdec].
Defined.

(** The scan finds the largest exact autocorrelation. *)
Lemma resp_scan_ok x n :
  Forall is_i16 x -> 1 <= n <= 128 -> shMaxAbsI16 x n * shMaxAbsI16 x n * n < 4294967296 ->
  forall lo hi, 1 <= lo <= hi -> hi < n ->
  let shift := corr_shift (shMaxAbsI16 x n) n in
  lag_inv (acf x n shift) lo (hi + 1) (resp_scan x n shift lo hi).
Proof.
  intros Hx Hn Hpn lo hi Hlo Hhi shift. unfold resp_scan.
  apply (for_ind (lag_inv (acf x n shift) lo)); [lia | by left |]. intros l best Hl Hinv.
  destruct (corr_acc_eq x n Hx Hn Hpn l ltac:(lia)) as [El _]. fold shift in El. rewrite El.
  apply lag_pick_inv; [lia | done].
Qed.

Lemma resp_lags fs :
  0 <= fs <= 25600 ->
  let fr := fs / 8 in
  u16 fr = fr /\ u32 (fr * 60) = fr * 60 /\
  resp_max_lag fr = fr * 60 / 2048 /\ 0 <= resp_max_lag fr <= 93 /\
  resp_min_lag fr = Z.max 2 (fr * 60 / 7680).
Proof.
  intros Hfs fr. assert (0 <= fr <= 3200) by (unfold fr; zlia).
  assert (u32 (fr * 60) = fr * 60) as E by (apply u32_small; rlia).
  unfold resp_max_lag, resp_min_lag. change (RESP_BPM_MIN * 256) with 2048.
  change (RESP_BPM_MAX * 256) with 7680. rewrite E.
  assert (0 <= fr * 60 / 2048 <= 93) by zlia. assert (0 <= fr * 60 / 7680 <= 25) by zlia.
  rewrite !u16_small by rlia. split_and!; try done; try lia. cbv zeta. zcase; lia.
Qed.

(** What a respiration rate means, for envelopes within +-8191 and any
    measured rate up to 100 Hz: the buffer holds two periods of the slowest
    rate searched; the lag found is in the search range and its
    autocorrelation, computed without overflow, is the largest in
    that range and at least a quarter of the energy; and the rate is that lag
    converted, within the band. *)
Theorem shRespBpm_sound fs h s :
  resp_ok h s -> Forall (fun v => Z.abs v <= 8191) h -> 0 <= fs <= 25600 ->
  let '(bpm, q) := shRespBpm fs s in
  bpm <> 0 ->
  let fr := fs / 8 in
  let n := Z.min (alen h) RESP_WIN in
  let x := last_n n h in
  RESP_BPM_MIN <= bpm <= RESP_BPM_MAX /\ 2 * resp_max_lag fr <= n /\ RESP_MIN_Q8 <= q /\
  exists lag shift, resp_min_lag fr <= lag <= resp_max_lag fr /\
    bpm = fr * 60 / (lag * 256) /\
    (forall l, resp_min_lag fr <= l <= resp_max_lag fr -> acf x n shift l <= acf x n shift lag) /\
    RESP_MIN_Q8 * Z.max 1 (acf x n shift 0 / 256) <= acf x n shift lag.
Proof.
  intros (Hr & Hh & _) Hb Hfs. destruct (resp_lags fs Hfs) as (E16 & E32 & Emax & Hmax & Emin).
  unfold shRespBpm. change RESP_DECIM with 8. rewrite E16. set (fr := fs / 8) in *.
  destruct (Z.eqb_spec fr 0) as [| Hfr]; [done |]. rewrite E32.
  pose proof Hr as (Hs & _ & _ & Hc & _). rewrite Hc. set (n := Z.min (alen h) RESP_WIN) in *.
  pose proof (alen_nonneg h). assert (0 <= n <= 64) by (unfold n, RESP_WIN; lia).
  rewrite (u8_small (resp_max_lag fr * 2)) by rlia.
  destruct (Z.ltb_spec n (resp_max_lag fr * 2)); [done |]. cbv zeta.
  rewrite (ring_copy_ok RESP_WIN h) by (done || (rewrite Hc; fold n; lia)).
  set (x := last_n n h). destruct (Z.leb_spec n (resp_max_lag fr)) as [Hn0 | Hn0].
  { assert (n = 0) as -> by lia. destruct (_ <? _); [done |].
    change (shMaxAbsI16 x 0 =? 0) with true. done. }
  destruct (Z.ltb_spec (resp_max_lag fr) (resp_min_lag fr)) as [| Hlags]; [done |].
  destruct (Z.eqb_spec (shMaxAbsI16 x n) 0) as [| Hpk]; [done |].
  assert (Forall is_i16 x) as Hx by by apply last_n_Forall.
  destruct (shMaxAbsI16_spec x n Hx ltac:(lia)) as (Hp0 & _ & Hpb).
  specialize (Hpb 8191 ltac:(lia) (last_n_Forall _ _ _ Hb)).
  assert (shMaxAbsI16 x n * shMaxAbsI16 x n * n < 4294967296) as Hpn.
  { assert (shMaxAbsI16 x n * shMaxAbsI16 x n <= 8191 * 8191) by nia. nia. }
  set (shift := corr_shift (shMaxAbsI16 x n) n).
  destruct (corr_r0_eq x n Hx ltac:(lia) Hpn) as [Er0 Hr0]. fold shift in Er0, Hr0. rewrite Er0.
  destruct (Z.leb_spec (acf x n shift 0) 0); [done |].
  pose proof (resp_scan_ok x n Hx ltac:(lia) Hpn (resp_min_lag fr) (resp_max_lag fr)
    ltac:(lia) ltac:(lia)) as Hscan. cbv zeta in Hscan. fold shift in Hscan.
  destruct (resp_scan _ _ _ _ _) as [lag r].
  destruct (Z.eqb_spec lag 0) as [| Hl0]; [done |]. cbn [orb].
  destruct (Z.leb_spec r 0); [done |].
  destruct Hscan as [[Heq ?] | (Hl & Hrl & Hall)]; [exfalso; lia |]. cbn [fst snd] in *.
  destruct (corr_acc_eq x n Hx ltac:(lia) Hpn lag ltac:(lia)) as [_ Hi32]. fold shift in Hi32.
  destruct (Z.ltb_spec (corr_quality (acf x n shift 0) r) RESP_MIN_Q8) as [| Hq]; [done |].
  destruct (_ || _) eqn:Hband; [done |]. rewrite orb_false_iff, !Z.ltb_ge in Hband. intros _.
  split; [lia |]. split; [lia |]. split.
  { unfold sat16, RESP_MIN_Q8 in *. zcase; [lia |]. rewrite u16_small by rlia. lia. }
  exists lag, shift. split; [lia |]. split.
  - assert (0 <= fr <= 3200) by (unfold fr; zlia). apply u16_small. unfold is_u16.
    split; [apply Z.div_pos; lia | apply Z.div_lt_upper_bound; lia].
  - rewrite <- Hrl. split; [intros l Hl'; apply Hall; lia |].
    apply corr_quality_ge; (done || (rewrite ?Hrl; done) || (unfold RESP_MIN_Q8; lia)).
Qed.


Lemma shRespBpm_sound_witness :
  let '(bpm, q) := shRespBpm 6400 breath_st in
  (bpm <> 0 ->
  let fr := 6400 / 8 in
  let n := Z.min (alen breath) RESP_WIN in
  let x := last_n n breath in
  RESP_BPM_MIN <= bpm <= RESP_BPM_MAX /\ 2 * resp_max_lag fr <= n /\ RESP_MIN_Q8 <= q /\
  exists lag shift, resp_min_lag fr <= lag <= resp_max_lag fr /\
    bpm = fr * 60 / (lag * 256) /\
    (forall l, resp_min_lag fr <= l <= resp_max_lag fr -> acf x n shift l <= acf x n shift lag) /\
    RESP_MIN_Q8 * Z.max 1 (acf x n shift 0 / 256) <= acf x n shift lag).
Proof.
  apply (shRespBpm_sound 6400 breath breath_st); [| vdec | vdec].
  split; [apply ring_history_ok; vdec | split_and!; vdec].
Defined.

(** The rate of that envelope is measured exactly. *)
Lemma shRespBpm_breath : shRespBpm 6400 breath_st = (15, 208).
Proof. vm_compute. reflexivity. Qed.

(** The test that bounds the sums wraps for a full-scale residual: no scaling
    is chosen, although one sample alone fills the accumulator. *)
Lemma corr_shift_wraps : corr_shift 32768 RESP_WIN = 0 /\ corr_shift 32768 BAND_WIN = 0.
Proof. vm_compute. done. Qed.
