(* ===== verification/Adapt.v ===== *)
(** The NLMS motion canceller of smart_helmet_vitals.c
    ([SMART_HELMET_ENABLE_HR_MOTION_ADAPT]): shMotionCancel subtracts from the
    SENS residual an adaptive filter of the accelerometer residual. *)
From S2P Require Import Prelude Config Dsp Ring.

(** * State *)
Record adapt_st := mkadapt {
  adapt_ref : list (list Z);          (* one delay line per axis, newest first *)
  adapt_w : list (list Z);            (* weights, Q12 *)
  adapt_ref_n : Z;
  adapt_last_accel_hp : list Z;
  adapt_axis_px : list Z;
  adapt_axis_py : list Z;
  adapt_have_accel : bool;
  adapt_e_in : Z;
  adapt_e_out : Z }.

#[export] Instance adapt_st_eta : RecordEta adapt_st := fun r =>
  mkadapt (adapt_ref r) (adapt_w r) (adapt_ref_n r) (adapt_last_accel_hp r) (adapt_axis_px r)
    (adapt_axis_py r) (adapt_have_accel r) (adapt_e_in r) (adapt_e_out r).

Definition ADAPT_TAPS_N : nat := Z.to_nat HR_ADAPT_TAPS.

Definition shMotionAdaptReset `{HelmetConfig} : adapt_st :=
  let axes := Z.to_nat HR_ADAPT_REF_AXES in
  mkadapt (replicate axes (replicate ADAPT_TAPS_N 0)) (replicate axes (replicate ADAPT_TAPS_N 0))
    0 (replicate axes 0) (replicate axes 0) (replicate axes 0) false 0 0.

(** * Operations *)
Definition row (m : list (list Z)) (ax : Z) : list Z := nth (Z.to_nat ax) m [].

(** One step of a delay line: [ref[i] = ref[i - 1]] from the far end, then
    the newest sample. *)
Definition delay_shift (v : Z) (l : list Z) : list Z :=
  let l := for_ 0 (HR_ADAPT_TAPS - 1) (fun k l =>
    let i := HR_ADAPT_TAPS - 1 - k in aset l i (aget l (i - 1))) l in
  aset l 0 v.

Definition delay_shift_all `{HelmetConfig} (a : adapt_st) : adapt_st :=
  a <| adapt_ref := for_ 0 HR_ADAPT_REF_AXES (fun ax m =>
         <[Z.to_nat ax := delay_shift (aget (adapt_last_accel_hp a) ax) (row m ax)]> m)
       (adapt_ref a) |>.

(** The filter output [y] and the reference energy [norm]. *)
Definition nlms_output `{HelmetConfig} (a : adapt_st) : Z * Z :=
  for_ 0 HR_ADAPT_REF_AXES (fun ax st =>
    for_ 0 HR_ADAPT_TAPS (fun i '(y, norm) =>
      let r := aget (row (adapt_ref a) ax) i in
      (i32 (y + i32 (aget (row (adapt_w a) ax) i * r) ÷ 4096), i32 (norm + i32 (r * r)))) st)
    (0, 0).

(** [while (step > 524287 || step < -524288) { step >>= 1; d = (d > 1) ? (d >> 1) : 1; }] *)
Definition scale_cond (st : Z * Z) : bool :=
  let '(step, _) := st in (524287 <? step) || (step <? -524288).
Definition scale_body (st : Z * Z) : Z * Z :=
  let '(step, d) := st in (Z.shiftr step 1, if 1 <? d then Z.shiftr d 1 else 1).

Definition weight_clamp (w : Z) : Z :=
  let w := if 32768 <? w then 32768 else w in
  if w <? -32768 then -32768 else w.

Definition weight_step (mu_e den r w : Z) : Z :=
  let '(step, d) := while_ 33 scale_cond scale_body (i32 (mu_e * r), den) in
  weight_clamp (i32 (w + i32 (step * 4096) ÷ d)).

(** The new weights of one axis. *)
Definition weights_row (mu_e den : Z) (refs ws : list Z) : list Z :=
  for_ 0 HR_ADAPT_TAPS (fun i ws => aset ws i (weight_step mu_e den (aget refs i) (aget ws i))) ws.

Definition weights_all `{HelmetConfig} (mu_e den : Z) (refs ws : list (list Z)) : list (list Z) :=
  for_ 0 HR_ADAPT_REF_AXES (fun ax m =>
    <[Z.to_nat ax := weights_row mu_e den (row refs ax) (row m ax)]> m) ws.

Definition energy_leak (e v : Z) : Z :=
  u32 (u32 (e - Z.shiftr e 5) + Z.shiftr (u32 (v * v)) 5).

(** Returns the corrected residual and the new state. *)
Definition shMotionCancel `{HelmetConfig} (hp : Z) (a : adapt_st) : Z * adapt_st :=
  if negb (adapt_have_accel a) then (hp, a) else
  let a := delay_shift_all a in
  if adapt_ref_n a <? HR_ADAPT_TAPS
  then (hp, a <| adapt_ref_n ::= (fun k => u8 (k + 1)) |>) else
  let '(y, norm) := nlms_output a in
  let e := clamp16 (hp - clamp16 y) in
  let a := a <| adapt_e_in ::= (fun x => energy_leak x hp) |>
             <| adapt_e_out ::= (fun x => energy_leak x e) |> in
  let a :=
    if 0 <? norm then
      let den := i32 (norm + 64) in
      let mu_e := (HR_ADAPT_MU_Q8 * e) ÷ 256 in
      a <| adapt_w := weights_all mu_e den (adapt_ref a) (adapt_w a) |>
    else a in
  (i16 e, a).

(** The reference sample of an accelerometer reading ([PushAccel]): the three
    high-passed axes, or the high-passed magnitude. *)
Definition adapt_push_accel `{HelmetConfig} (ax ay az hp : Z) (a : adapt_st) : adapt_st :=
  let a :=
    if HR_ADAPT_REF_AXES =? 3 then
      let chan (k v : Z) (a : adapt_st) :=
        let '(s, (px, py)) := shHighPass v (aget (adapt_axis_px a) k) (aget (adapt_axis_py a) k) in
        a <| adapt_last_accel_hp ::= (fun l => aset l k s) |>
          <| adapt_axis_px ::= (fun l => aset l k px) |>
          <| adapt_axis_py ::= (fun l => aset l k py) |> in
      chan 2 az (chan 1 ay (chan 0 ax a))
    else a <| adapt_last_accel_hp ::= (fun l => aset l 0 hp) |> in
  a <| adapt_have_accel := true |>.

(** The share of the residual energy the filter removed, in percent
    ([shUpdateHrChange]); [None] leaves the reported value as it was. *)
Definition adapt_removed `{HelmetConfig} (a : adapt_st) : option Z :=
  if adapt_e_in a =? 0 then None else
  let pct := if adapt_e_in a <=? adapt_e_out a then 0
             else u32 (u32 (adapt_e_in a - adapt_e_out a) * 100) / adapt_e_in a in
  Some (if 100 <? pct then 100 else u8 pct).

(** * Vocabulary of the specifications *)
Definition weight_ok (w : Z) : Prop := -32768 <= w <= 32768.

(** A table with a row of taps for each axis, and a value for each axis. *)
Definition taps_ok (P : Z -> Prop) (r : list Z) : Prop := length r = ADAPT_TAPS_N /\ Forall P r.
Definition rows_ok `{HelmetConfig} (P : Z -> Prop) (m : list (list Z)) : Prop :=
  length m = Z.to_nat HR_ADAPT_REF_AXES /\ Forall (taps_ok P) m.
Definition axes_ok `{HelmetConfig} (P : Z -> Prop) (l : list Z) : Prop :=
  length l = Z.to_nat HR_ADAPT_REF_AXES /\ Forall P l.

Definition adapt_ok `{HelmetConfig} (a : adapt_st) : Prop :=
  rows_ok weight_ok (adapt_w a) /\ rows_ok is_i16 (adapt_ref a) /\
  axes_ok is_i16 (adapt_last_accel_hp a) /\
  axes_ok is_i16 (adapt_axis_px a) /\ axes_ok (fun y => Z.abs y <= HP_Y_MAX) (adapt_axis_py a) /\
  0 <= adapt_e_in a <= 1073741855 /\ 0 <= adapt_e_out a <= 1073741855 /\
  0 <= adapt_ref_n a <= HR_ADAPT_TAPS.

(** The magnitude the halving of a two's complement number divides by two. *)
Definition mag2 (s : Z) : Z := if s <? 0 then - s - 1 else s.

(** * The scaling loop *)
Lemma mag2_half s : mag2 (s / 2) = mag2 s / 2.
Proof. unfold mag2. repeat zcase; zlia. Qed.

Lemma scale_loop step d :
  is_i32 step -> d <> 0 ->
  let '(s, d') := while_ 33 scale_cond scale_body (step, d) in
  -524288 <= s <= 524287 /\ d' <> 0 /\ (0 < d -> 1 <= d' <= d).
Proof.
  intros Hs Hd. unfold is_i32 in Hs.
  destruct (while_spec (fun '(s, d') => d' <> 0 /\ (0 < d -> 1 <= d' <= d))
    (fun '(s, _) => Z.to_nat (Z.log2 (mag2 s))) 33 scale_cond scale_body (step, d)) as [HP HC].
  - split; [done | lia].
  - assert (Z.log2 (mag2 step) <= Z.log2 2147483647)
      by (apply Z.log2_le_mono; unfold mag2; zcase; lia).
    change (Z.log2 2147483647) with 30 in *. lia.
  - intros [s d'] [Hne Hle] Hc. unfold scale_cond in Hc. rewrite orb_true_iff, !Z.ltb_lt in Hc.
    unfold scale_body. rewrite !Z.shiftr_div_pow2 by lia. change (2 ^ 1) with 2. split.
    + split; [zcase; zlia | intros H0; specialize (Hle H0); zcase; zlia].
    + rewrite mag2_half. replace (mag2 s / 2) with (Z.shiftr (mag2 s) 1)
        by (by rewrite Z.shiftr_div_pow2 by lia).
      rewrite Z.log2_shiftr by (unfold mag2; zcase; lia).
      assert (Z.log2 524288 <= Z.log2 (mag2 s)) by (apply Z.log2_le_mono; unfold mag2; zcase; lia).
      change (Z.log2 524288) with 19 in *. lia.
  - destruct (while_ _ _ _ _) as [s d']. unfold scale_cond in HC.
    rewrite orb_false_iff, !Z.ltb_ge in HC. split; [lia | done].
Qed.

(** * Weights *)
Lemma weight_clamp_ok w : weight_ok (weight_clamp w).
Proof. unfold weight_ok, weight_clamp. repeat zcase; lia. Qed.

Lemma aset_taps P r i v : taps_ok P r -> P v -> taps_ok P (aset r i v).
Proof. intros [Hl Hr] Hv. split; [by unfold aset; rewrite length_insert | by apply aset_Forall]. Qed.

Lemma aset_axes `{HelmetConfig} P l i v : axes_ok P l -> P v -> axes_ok P (aset l i v).
Proof. intros [Hl Hr] Hv. split; [by unfold aset; rewrite length_insert | by apply aset_Forall]. Qed.

Lemma weights_row_ok mu_e den refs ws :
  taps_ok weight_ok ws -> taps_ok weight_ok (weights_row mu_e den refs ws).
Proof.
  intros Hw. unfold weights_row. apply (for_inv (taps_ok weight_ok)); [done |].
  intros i l Hi Hl. apply aset_taps; [done |]. unfold weight_step.
  destruct (while_ _ _ _ _). apply weight_clamp_ok.
Qed.

Lemma row_taps `{HelmetConfig} P m ax : rows_ok P m -> 0 <= ax < HR_ADAPT_REF_AXES -> taps_ok P (row m ax).
Proof.
  intros [Hl Hm] Hax. unfold row. rewrite Forall_forall in Hm. apply Hm. rewrite list_elem_of_In. apply nth_In. lia.
Qed.

Lemma insert_rows `{HelmetConfig} P m ax r : rows_ok P m -> taps_ok P r -> rows_ok P (<[ax := r]> m).
Proof. intros [Hl Hm] Hr. split; [by rewrite length_insert | by apply Forall_insert]. Qed.

Lemma row_insert m ax bx r : 0 <= ax < Z.of_nat (length m) -> 0 <= bx ->
  row (<[Z.to_nat ax := r]> m) bx = if bx =? ax then r else row m bx.
Proof.
  intros Ha Hb. unfold row. rewrite !nth_lookup. destruct (Z.eqb_spec bx ax) as [-> | Hne].
  - by rewrite list_lookup_insert_eq by lia.
  - by rewrite list_lookup_insert_ne by lia.
Qed.

Lemma weights_all_ok `{HelmetConfig} mu_e den refs ws :
  rows_ok weight_ok ws -> rows_ok weight_ok (weights_all mu_e den refs ws).
Proof.
  intros Hw. unfold weights_all. apply (for_inv (rows_ok weight_ok)); [done |].
  intros ax m Hax Hm. apply insert_rows; [done |]. by apply weights_row_ok, row_taps.
Qed.

(** Every weight is stepped once. *)
Lemma weights_row_at mu_e den refs ws i : length ws = ADAPT_TAPS_N -> 0 <= i < HR_ADAPT_TAPS ->
  aget (weights_row mu_e den refs ws) i = weight_step mu_e den (aget refs i) (aget ws i).
Proof.
  intros Hl Hi. unfold weights_row.
  destruct (for_ind (fun k l => alen l = HR_ADAPT_TAPS /\ forall j, 0 <= j -> aget l j =
    if j <? k then weight_step mu_e den (aget refs j) (aget ws j) else aget ws j) 0 HR_ADAPT_TAPS
    (fun i ws => aset ws i (weight_step mu_e den (aget refs i) (aget ws i))) ws) as [_ Hk]; [vdec | | |].
  - split; [unfold alen; by rewrite Hl |]. intros j Hj. by rewrite (proj2 (Z.ltb_ge j 0)) by lia.
  - intros x l Hx [Hll Hj]. split; [by rewrite alen_aset |]. intros j Hj0. destruct (Z.eq_dec j x) as [-> | Hne].
    + rewrite aget_aset_eq, Hj by lia. by rewrite (proj2 (Z.ltb_ge x x)), (proj2 (Z.ltb_lt x (x + 1))) by lia.
    + rewrite aget_aset_ne, Hj by lia. destruct (Z.ltb_spec j x), (Z.ltb_spec j (x + 1)); done || lia.
  - rewrite Hk by lia. by rewrite (proj2 (Z.ltb_lt i HR_ADAPT_TAPS)) by lia.
Qed.

Lemma weights_all_at `{HelmetConfig} mu_e den refs ws ax : length ws = Z.to_nat HR_ADAPT_REF_AXES -> 0 <= ax < HR_ADAPT_REF_AXES ->
  row (weights_all mu_e den refs ws) ax = weights_row mu_e den (row refs ax) (row ws ax).
Proof.
  intros Hl Hax. unfold weights_all.
  destruct (for_ind (fun k m => length m = Z.to_nat HR_ADAPT_REF_AXES /\ forall bx, 0 <= bx ->
    row m bx = if bx <? k then weights_row mu_e den (row refs bx) (row ws bx) else row ws bx) 0 HR_ADAPT_REF_AXES
    (fun ax m => <[Z.to_nat ax := weights_row mu_e den (row refs ax) (row m ax)]> m) ws) as [_ Hk]; [lia | | |].
  - split; [done |]. intros bx Hb. by rewrite (proj2 (Z.ltb_ge bx 0)) by lia.
  - intros x m Hx [Hm Hr]. split; [by rewrite length_insert |]. intros bx Hb. rewrite row_insert by lia.
    rewrite !Hr by lia. rewrite (proj2 (Z.ltb_ge x x)) by lia.
    destruct (Z.eqb_spec bx x) as [-> | Hne]; [by rewrite (proj2 (Z.ltb_lt x (x + 1))) by lia |].
    destruct (Z.ltb_spec bx x), (Z.ltb_spec bx (x + 1)); done || lia.
  - rewrite Hk by lia. by rewrite (proj2 (Z.ltb_lt ax HR_ADAPT_REF_AXES)) by lia.
Qed.

Lemma delay_shift_all_ok `{HelmetConfig} a :
  rows_ok is_i16 (adapt_ref a) -> axes_ok is_i16 (adapt_last_accel_hp a) ->
  rows_ok is_i16 (adapt_ref (delay_shift_all a)).
Proof.
  intros Hr [_ Hl]. unfold delay_shift_all. cbn.
  apply (for_inv (rows_ok is_i16)); [done |]. intros ax m Hax Hm.
  apply insert_rows; [done |]. unfold delay_shift. apply aset_taps; [| by apply aget_Forall; [| vdec]].
  apply (for_inv (taps_ok is_i16)); [by apply row_taps |]. intros k l Hk Hf.
  apply aset_taps; [done |]. apply aget_Forall; [apply Hf | vdec].
Qed.

Lemma energy_leak_ok e v :
  0 <= e <= 1073741855 -> is_i16 v ->
  0 <= energy_leak e v <= 1073741855 /\ energy_leak e v = e - e / 32 + v * v / 32.
Proof.
  intros He Hv. destruct (square_i16 v Hv) as [Hu Hb]. unfold energy_leak.
  rewrite !Z.shiftr_div_pow2 by lia. change (2 ^ 5) with 32.
  rewrite (u32_small (v * v)) by done. assert (0 <= v * v) by nia.
  rewrite (u32_small (e - _)) by (unfold is_u32; zlia).
  rewrite u32_small by (unfold is_u32; zlia). split; [zlia | done].
Qed.

(** The result and the state stay in range. *)
Lemma shMotionCancel_range `{HelmetConfig} hp a :
  is_i16 hp -> adapt_ok a ->
  let '(e, a') := shMotionCancel hp a in is_i16 e /\ adapt_ok a'.
Proof.
  intros Hhp Hok. unfold shMotionCancel. destruct (adapt_have_accel a); cbn [negb]; [| done].
  pose proof Hok as (Hw & Hr & Hl & Hpx & Hpy & Hi & Ho & Hn).
  pose proof (delay_shift_all_ok a Hr Hl) as Hr'.
  change (adapt_ref_n (delay_shift_all a)) with (adapt_ref_n a).
  destruct (Z.ltb_spec (adapt_ref_n a) HR_ADAPT_TAPS).
  - split; [done |]. unfold adapt_ok. cbn. rewrite u8_small by (unfold HR_ADAPT_TAPS in *; rlia).
    split_and!; (done || lia).
  - destruct (nlms_output (delay_shift_all a)) as [y norm].
    set (e := clamp16 (hp - clamp16 y)). assert (is_i16 e) as He by apply clamp16_range.
    cbv zeta. rewrite (i16_small e He). split; [done |].
    destruct (energy_leak_ok (adapt_e_in a) hp Hi Hhp) as [Hei _].
    destruct (energy_leak_ok (adapt_e_out a) e Ho He) as [Heo _].
    destruct (0 <? norm); unfold adapt_ok; cbn; split_and!; try (done || lia).
    by apply weights_all_ok.
Qed.

Lemma adapt_push_accel_ok `{HelmetConfig} x y z hp a :
  is_i16 x -> is_i16 y -> is_i16 z -> is_i16 hp -> adapt_ok a -> adapt_ok (adapt_push_accel x y z hp a).
Proof.
  intros Hx Hy Hz Hhp Hok. unfold adapt_push_accel. destruct (_ =? 3).
  - assert (forall k v a, is_i16 v -> adapt_ok a ->
      adapt_ok (let '(s, (px, py)) := shHighPass v (aget (adapt_axis_px a) k) (aget (adapt_axis_py a) k) in
        a <| adapt_last_accel_hp ::= (fun l => aset l k s) |> <| adapt_axis_px ::= (fun l => aset l k px) |>
          <| adapt_axis_py ::= (fun l => aset l k py) |>)) as Hchan.
    { intros k v b Hv (Hw & Hr & Hl & Hpx & Hpy & He).
      destruct (shHighPass_eq_i16 v (aget (adapt_axis_px b) k) (aget (adapt_axis_py b) k)) as [-> Hb];
        [done | apply aget_Forall; [apply Hpx | vdec] | apply (aget_Forall (fun y => Z.abs y <= HP_Y_MAX)); [apply Hpy | vdec] |].
      split; [exact Hw |]. split; [exact Hr |]. split; [apply aset_axes; [exact Hl | apply clamp16_range] |].
      split; [by apply aset_axes |]. split; [by apply aset_axes | exact He]. }
    exact (Hchan 2 z _ Hz (Hchan 1 y _ Hy (Hchan 0 x _ Hx Hok))).
  - destruct Hok as (Hw & Hr & Hl & Hrest). split; [exact Hw |]. split; [exact Hr |]. split; [by apply aset_axes | exact Hrest].
Qed.

Lemma adapt_removed_ok `{HelmetConfig} a p : adapt_removed a = Some p -> is_u8 p.
Proof.
  unfold adapt_removed. destruct (_ =? 0); [done |]. cbv zeta. intros [= <-].
  destruct (100 <? _); [vdec | apply u8_range].
Qed.

(** A positive energy plus 64 is not zero modulo 2^32. *)
Lemma den_nonzero norm : is_i32 norm -> 0 < norm -> i32 (norm + 64) <> 0.
Proof. unfold is_i32, i32. intros. zlia. Qed.

(** The energy of the references is a 32-bit value. *)
Lemma nlms_norm_i32 `{HelmetConfig} a : is_i32 (snd (nlms_output a)).
Proof.
  unfold nlms_output. apply (for_inv (fun st => is_i32 (snd st))); [vdec |]. intros ax st _ Hst.
  apply (for_inv (fun st => is_i32 (snd st))); [done |]. intros i [y norm] _ _. apply i32_range.
Qed.

(** [C40] One step of the canceller keeps its state sound whatever the
    signals: every weight stays within +-8.0 (Q12), the delay lines and the
    high-pass states in their ranges and of their lengths, and the energy
    trackers cannot wrap.  Without an accelerometer the residual and the
    state are returned unchanged.  With the delay line full the result is the
    exact difference clamped to 16 bits; without reference energy the weights
    are left as they are; with it, every weight is moved by the scaled step
    over a divisor that is not zero, the scaled step times 4096 fits 32 bits,
    and the weight is clamped. *)
Theorem shMotionCancel_ok `{HelmetConfig} hp a :
  is_i16 hp -> adapt_ok a ->
  let '(e, a') := shMotionCancel hp a in
  is_i16 e /\ adapt_ok a' /\
  (adapt_have_accel a = false -> e = hp /\ a' = a) /\
  (adapt_have_accel a = true -> adapt_ref_n a = HR_ADAPT_TAPS ->
    let '(y, norm) := nlms_output (delay_shift_all a) in
    e = clamp16 (hp - clamp16 y) /\
    (norm <= 0 -> adapt_w a' = adapt_w a) /\
    (0 < norm -> forall ax i, 0 <= ax < HR_ADAPT_REF_AXES -> 0 <= i < HR_ADAPT_TAPS ->
      exists step d, d <> 0 /\ is_i32 (step * 4096) /\
        while_ 33 scale_cond scale_body (i32 ((HR_ADAPT_MU_Q8 * e) ÷ 256 * aget (row (adapt_ref a') ax) i), i32 (norm + 64)) = (step, d) /\
        aget (row (adapt_w a') ax) i = weight_clamp (i32 (aget (row (adapt_w a) ax) i + (step * 4096) ÷ d)))).
Proof.
  intros Hhp Hok. pose proof (shMotionCancel_range hp a Hhp Hok) as Hrange. revert Hrange.
  unfold shMotionCancel. destruct (adapt_have_accel a) eqn:Ea; cbn [negb]; [| done].
  change (adapt_ref_n (delay_shift_all a)) with (adapt_ref_n a).
  destruct (Z.ltb_spec (adapt_ref_n a) HR_ADAPT_TAPS).
  { intros [? ?]. split; [done |]. split; [done |]. split; [done | lia]. }
  pose proof (nlms_norm_i32 (delay_shift_all a)) as Hn.
  destruct (nlms_output (delay_shift_all a)) as [y norm] eqn:Ey. cbn [snd] in Hn. cbv zeta.
  rewrite (i16_small (clamp16 _)) by apply clamp16_range. intros [He Ha]. set (e := clamp16 (hp - clamp16 y)) in *.
  split; [exact He |]. split; [exact Ha |]. split; [done |]. intros _ _. split; [done |].
  destruct (Z.ltb_spec 0 norm) as [Hpos | Hneg]; (split; [by intros; try lia |]); intros Hpos'; [| lia].
  intros ax i Hax Hi. destruct Hok as ((Hlw & Hw) & _). cbn [adapt_w adapt_ref field_set].
  change (adapt_w (delay_shift_all a)) with (adapt_w a). rewrite weights_all_at by done.
  rewrite weights_row_at by (done || by apply (row_taps weight_ok)).
  assert (i32 (norm + 64) <> 0) as Hden by (by apply den_nonzero).
  set (mr := i32 (HR_ADAPT_MU_Q8 * e ÷ 256 * _)).
  pose proof (scale_loop mr (i32 (norm + 64)) (i32_range _) Hden) as Hs. unfold weight_step. fold mr.
  destruct (while_ 33 scale_cond scale_body (mr, i32 (norm + 64))) as [step d]. destruct Hs as (Hs & Hd & _).
  exists step, d. assert (is_i32 (step * 4096)) as Hs4 by rlia. split; [exact Hd |]. split; [exact Hs4 |]. split; [done |].
  by rewrite (i32_small (step * 4096)).
Qed.

Notation adapt_run_a := ((shMotionAdaptReset (H := shipped)) <| adapt_have_accel := true |>
  <| adapt_ref_n := 8 |> <| adapt_last_accel_hp := [300; -32768; 7] |>).

Lemma shMotionCancel_ok_witness :
  let '(e, a') := shMotionCancel (H := shipped) 500 adapt_run_a in
  is_i16 e /\ adapt_ok (H := shipped) a' /\
  (adapt_have_accel adapt_run_a = false -> e = 500 /\ a' = adapt_run_a) /\
  (adapt_have_accel adapt_run_a = true -> adapt_ref_n adapt_run_a = HR_ADAPT_TAPS ->
    let '(y, norm) := nlms_output (H := shipped) (delay_shift_all (H := shipped) adapt_run_a) in
    e = clamp16 (500 - clamp16 y) /\
    (norm <= 0 -> adapt_w a' = adapt_w adapt_run_a) /\
    (0 < norm -> forall ax i, 0 <= ax < HR_ADAPT_REF_AXES (HelmetConfig := shipped) -> 0 <= i < HR_ADAPT_TAPS ->
      exists step d, d <> 0 /\ is_i32 (step * 4096) /\
        while_ 33 scale_cond scale_body (i32 ((HR_ADAPT_MU_Q8 * e) ÷ 256 * aget (row (adapt_ref a') ax) i), i32 (norm + 64)) = (step, d) /\
        aget (row (adapt_w a') ax) i = weight_clamp (i32 (aget (row (adapt_w adapt_run_a) ax) i + (step * 4096) ÷ d)))).
Proof.
  apply (@shMotionCancel_ok shipped 500 adapt_run_a); [vdec |].
  unfold adapt_ok, rows_ok, axes_ok, taps_ok, weight_ok. vdec.
Defined.
