(* ===== verification/Fuse.v ===== *)
(** The quality gates of the pulse proxy (shHrSignalReason,
    shHrDisturbReason, shHrDisturb) and the fusion of the estimators
    (shFuseHr). *)
From S2P Require Import Prelude Config Dsp Ring ISort Fft.

(** * Data *)
Inductive smart_helmet_hr_reason_t :=
  | hr_ok | hr_warm | hr_e_low | hr_e_high | hr_sa_low | hr_sa_high | hr_dc_spike
  | hr_holdoff | hr_no_peak | hr_no_fft | hr_disagree | hr_peak_only | hr_fft_only
  | hr_delta | hr_none | hr_disabled | hr_motion | hr_timebase | hr_no_resp.

#[export] Instance hr_reason_eq_dec : EqDecision smart_helmet_hr_reason_t.
Proof. solve_decision. Defined.

(** The value of the enumerator, as logged. *)
Definition hr_reason_code (r : smart_helmet_hr_reason_t) : Z :=
  match r with
  | hr_ok => 0 | hr_warm => 1 | hr_e_low => 2 | hr_e_high => 3 | hr_sa_low => 4
  | hr_sa_high => 5 | hr_dc_spike => 6 | hr_holdoff => 7 | hr_no_peak => 8 | hr_no_fft => 9
  | hr_disagree => 10 | hr_peak_only => 11 | hr_fft_only => 12 | hr_delta => 13
  | hr_none => 14 | hr_disabled => 15 | hr_motion => 16 | hr_timebase => 17 | hr_no_resp => 18
  end.

(** The statics that guard [hr_valid]. *)
Record hr_guard := mkguard {
  hr_win_left : Z;
  last_hr_valid_bpm : Z;
  last_hr_valid_have : bool;
  hr_delta_rej : Z }.

#[export] Instance hr_guard_eta : RecordEta hr_guard := fun r =>
  mkguard (hr_win_left r) (last_hr_valid_bpm r) (last_hr_valid_have r) (hr_delta_rej r).

(** The members of the status that shFuseHr writes. *)
Record hr_out := mkhr {
  hr_bpm_peak : Z;
  hr_bpm_fft : Z;
  hr_bpm_ac : Z;
  hr_peak_count : Z;
  hr_fft_mag : Z;
  hr_bpm : Z;
  hr_valid : bool;
  hr_reason : smart_helmet_hr_reason_t }.

#[export] Instance hr_out_eta : RecordEta hr_out := fun r =>
  mkhr (hr_bpm_peak r) (hr_bpm_fft r) (hr_bpm_ac r) (hr_peak_count r) (hr_fft_mag r)
    (hr_bpm r) (hr_valid r) (hr_reason r).

(** * Gates *)

(** Arming the hold-off; the smoothing of the FFT is reset with it. *)
Definition shHrDisturb `{HelmetConfig} (holdoff_win : Z) (g : hr_guard) (sm : fft_smooth)
  : hr_guard * fft_smooth :=
  (mkguard (if hr_win_left g <? holdoff_win then holdoff_win else hr_win_left g) 0 false 0,
   if ENABLE_HR_FFT then shFftSmoothReset else sm).

Definition shHrSignalReason (energy sens_abs : Z) : smart_helmet_hr_reason_t :=
  if energy <? HR_MIN_ENERGY then hr_e_low else
  if HR_MAX_ENERGY <? energy then hr_e_high else
  if (0 <? HR_MIN_SENS_ABS) && (sens_abs <? HR_MIN_SENS_ABS) then hr_sa_low else
  if (0 <? HR_MAX_SENS_ABS) && (HR_MAX_SENS_ABS <? sens_abs) then hr_sa_high else
  hr_ok.

Definition shHrDisturbReason (prev_sens_mv : Z) (prev_sens_mv_valid : bool)
    (energy sens_abs sens_mv : Z) : smart_helmet_hr_reason_t :=
  if HR_MAX_ENERGY <? energy then hr_e_high else
  if (0 <? HR_MAX_SENS_ABS) && (HR_MAX_SENS_ABS <? sens_abs) then hr_sa_high else
  if prev_sens_mv_valid && (0 <? HR_SENS_DC_SPIKE_MV) then
    let ddc := sens_mv - prev_sens_mv in
    let ddc := if ddc <? 0 then - ddc else ddc in
    if HR_SENS_DC_SPIKE_MV <=? ddc then hr_dc_spike else hr_ok
  else hr_ok.

(** * Fusion *)
Definition is_ok (r : smart_helmet_hr_reason_t) : bool := bool_decide (r = hr_ok).

(** [if (why == hr_ok) why = r;] *)
Definition refine_why (why r : smart_helmet_hr_reason_t) : smart_helmet_hr_reason_t :=
  if is_ok why then r else why.

Definition w_peak : Z := if 256 <? HR_FUSE_PEAK_W_Q8 then 256 else HR_FUSE_PEAK_W_Q8.

(** The candidates of the consensus mode, in the order they are stored. *)
Definition fuse_cands (bpm_peak bpm_fft bpm_ac peaks : Z) : list Z :=
  (if negb (bpm_peak =? 0) && (HR_MIN_PEAKS_VALID <=? peaks) then [bpm_peak] else []) ++
  (if negb (bpm_fft =? 0) then [bpm_fft] else []) ++
  (if negb (bpm_ac =? 0) then [bpm_ac] else []).

Definition near_median (med c : Z) : bool :=
  let d := c - med in
  let d := if d <? 0 then - d else d in
  d * 100 <=? med * HR_AGREE_PCT.

(** Sum and number of the candidates near the median. *)
Definition fuse_agreeing (cand : list Z) (ncand med : Z) : Z * Z :=
  for_ 0 ncand (fun a '(sum, agree) =>
    if near_median med (aget cand a) then (u32 (sum + aget cand a), u8 (agree + 1))
    else (sum, agree)) (0, 0).

(** [(fused, ok, why)] of the consensus mode. *)
Definition fuse_consensus `{HelmetConfig} (bpm_peak bpm_fft bpm_ac peaks : Z)
    (why : smart_helmet_hr_reason_t) : Z * bool * smart_helmet_hr_reason_t :=
  let cand := fuse_cands bpm_peak bpm_fft bpm_ac peaks in
  let ncand := alen cand in
  let cand := isort ncand cand in
  if ncand =? 0 then
    (0, false, refine_why why
      (if negb (bpm_peak =? 0) || negb (bpm_fft =? 0) || negb (bpm_ac =? 0)
       then hr_no_peak else hr_none))
  else
    let med := aget cand (ncand / 2) in
    let '(sum, agree) := fuse_agreeing cand ncand med in
    let fused := if negb (agree =? 0) then u16 (sum / agree) else med in
    if HR_FUSE_MIN_AGREE <=? agree then (fused, true, why)
    else (fused, false, refine_why why
      (if 1 <? ncand then hr_disagree
       else if negb (bpm_fft =? 0) then hr_fft_only else hr_peak_only)).

(** [(fused, ok, why)] of the default mode. *)
Definition fuse_pair `{HelmetConfig} (bpm_peak bpm_fft peaks : Z)
    (why : smart_helmet_hr_reason_t) : Z * bool * smart_helmet_hr_reason_t :=
  if negb (bpm_peak =? 0) && negb (bpm_fft =? 0) then
    let a := bpm_peak in
    let b := bpm_fft in
    let diff := if b <? a then a - b else b - a in
    let avg := (a + b) ÷ 2 in
    let fused := u16 (u32 (u32 (bpm_peak * w_peak) + u32 (bpm_fft * (256 - w_peak))) / 256) in
    if (0 <? avg) && (diff * 100 <=? avg * HR_AGREE_PCT) then (u16 avg, true, why)
    else if negb HR_VALID_REQUIRE_AGREE then
      if HR_MIN_PEAKS_VALID <=? peaks then (bpm_peak, true, why)
      else (fused, false, refine_why why hr_disagree)
    else (fused, false, refine_why why hr_disagree)
  else if negb (bpm_peak =? 0) && (HR_MIN_PEAKS_VALID <=? peaks) then
    if HR_VALID_REQUIRE_AGREE then (bpm_peak, false, refine_why why hr_peak_only)
    else (bpm_peak, true, why)
  else if negb (bpm_fft =? 0) then (bpm_fft, false, refine_why why hr_fft_only)
  else if negb (bpm_peak =? 0) then (bpm_peak, false, refine_why why hr_no_fft)
  else (0, false, refine_why why hr_none).

(** The hold-off gate. *)
Definition fuse_allow (allow_valid : bool) (pre_reason : smart_helmet_hr_reason_t) (win_left : Z)
    (ok : bool) (why : smart_helmet_hr_reason_t) : bool * smart_helmet_hr_reason_t :=
  if allow_valid then (ok, why) else
  (false,
   if negb (is_ok pre_reason) then pre_reason
   else if (0 <? win_left) || bool_decide (pre_reason = hr_holdoff) then hr_holdoff else why).

(** The guard against jumps, with its resynchronisation. *)
Definition fuse_delta `{HelmetConfig} (fused : Z) (ok : bool) (why : smart_helmet_hr_reason_t)
    (g : hr_guard) : bool * smart_helmet_hr_reason_t * hr_guard :=
  if ok && last_hr_valid_have g && (0 <? HR_MAX_DELTA_BPM) then
    let d := fused - last_hr_valid_bpm g in
    let d := if d <? 0 then - d else d in
    if HR_MAX_DELTA_BPM <? d then
      (false, hr_delta,
       if 0 <? HR_DELTA_RESYNC_WIN then
         let g := g <| hr_delta_rej ::= (fun r => if r <? 255 then u8 (r + 1) else r) |> in
         if HR_DELTA_RESYNC_WIN <=? hr_delta_rej g
         then g <| last_hr_valid_have := false |> <| last_hr_valid_bpm := 0 |> <| hr_delta_rej := 0 |>
         else g
       else g)
    else (ok, why, g)
  else (ok, why, g).

Definition shFuseHr `{HelmetConfig} (bpm_peak bpm_fft bpm_ac peaks fft_mag : Z) (allow_valid : bool)
    (pre_reason : smart_helmet_hr_reason_t) (g : hr_guard) : hr_out * hr_guard :=
  let '(fused, ok, why) :=
    if HR_FUSE_MODE then fuse_consensus bpm_peak bpm_fft bpm_ac peaks pre_reason
    else fuse_pair bpm_peak bpm_fft peaks pre_reason in
  let '(ok, why) := fuse_allow allow_valid pre_reason (hr_win_left g) ok why in
  let '(ok, why, g) := fuse_delta fused ok why g in
  let '(why, g) :=
    if ok then
      (hr_ok, g <| last_hr_valid_bpm := fused |> <| last_hr_valid_have := true |> <| hr_delta_rej := 0 |>)
    else (why, g) in
  (mkhr bpm_peak bpm_fft bpm_ac peaks fft_mag fused ok why, g).

(** * Vocabulary of the specifications *)

(** The estimates agree: both present, within the allowed share of their mean. *)
Definition agree (a b : Z) : Prop :=
  a <> 0 /\ b <> 0 /\ Z.abs (a - b) * 100 <= (a + b) / 2 * HR_AGREE_PCT.

#[export] Instance agree_dec a b : Decision (agree a b).
Proof. unfold agree. apply _. Defined.

(** The jump guard lets [bpm] pass. *)
Definition no_jump (bpm : Z) (g : hr_guard) : Prop :=
  last_hr_valid_have g = true -> Z.abs (bpm - last_hr_valid_bpm g) <= HR_MAX_DELTA_BPM.

#[export] Instance no_jump_dec bpm g : Decision (no_jump bpm g).
Proof. unfold no_jump. apply _. Defined.

(** A window whose estimates agree on a rate that jumps from the reference. *)
Definition jump_window (g : hr_guard) (w : Z * Z) : Prop :=
  is_u16 (fst w) /\ is_u16 (snd w) /\ agree (fst w) (snd w) /\
  ~ no_jump ((fst w + snd w) / 2) g.

(** Feeding windows of agreeing estimates, with validity allowed. *)
Definition fuse_run `{HelmetConfig} (ws : list (Z * Z)) (g : hr_guard) : list hr_out * hr_guard :=
  fold_left (fun '(outs, g) '(pk, ff) =>
    let '(o, g) := shFuseHr pk ff 0 3 0 true hr_ok g in (outs ++ [o], g)) ws ([], g).

(** * The default mode *)
Lemma fuse_pair_eq `{HelmetConfig} a b peaks why :
  HR_VALID_REQUIRE_AGREE = true -> is_u16 a -> is_u16 b ->
  let '(fused, ok, why') := fuse_pair a b peaks why in
  ok = bool_decide (agree a b) /\ is_u16 fused /\
  (agree a b -> fused = (a + b) / 2 /\ why' = why) /\
  (~ agree a b -> why' = hr_ok -> False).
Proof.
  unfold is_u16. intros Hreq Ha Hb. unfold fuse_pair. rewrite Hreq. cbn [negb].
  assert (0 <= (a + b) / 2 <= 65535) as Havg by zlia.
  assert (forall r, r <> hr_ok -> refine_why why r = hr_ok -> False) as Href.
  { intros r Hr. unfold refine_why, is_ok. case_bool_decide; congruence. }
  destruct (Z.eqb_spec a 0) as [-> | Ha0]; cbn [negb andb].
  - assert (~ agree 0 b) as Hna by (intros (? & _); done).
    rewrite bool_decide_eq_false_2 by done. destruct (b =? 0); cbn [negb]; (split; [done |]);
      (split; [lia |]); (split; [done |]); intros _; by apply Href.
  - destruct (Z.eqb_spec b 0) as [-> | Hb0]; cbn [negb andb].
    + assert (~ agree a 0) as Hna by (intros (_ & ? & _); done).
      rewrite bool_decide_eq_false_2 by done. destruct (_ <=? peaks); (split; [done |]);
        (split; [lia |]); (split; [done |]); intros _; by apply Href.
    + rewrite Z.quot_div_nonneg by lia.
      replace (if b <? a then a - b else b - a) with (Z.abs (a - b)) by (zcase; lia).
      rewrite (proj2 (Z.ltb_lt 0 ((a + b) / 2))) by zlia. cbn [andb].
      destruct (Z.leb_spec (Z.abs (a - b) * 100) ((a + b) / 2 * HR_AGREE_PCT)).
      * rewrite bool_decide_eq_true_2 by (unfold agree; by split_and!). rewrite u16_small by (unfold is_u16; lia).
        split; [done |]. split; [lia |]. split; [done |]. intros Hn. by destruct Hn.
      * assert (~ agree a b) by (intros (_ & _ & ?); lia).
        rewrite bool_decide_eq_false_2 by done. split; [done |]. split; [apply u16_range |].
        split; [done |]. intros _. by apply Href.
Qed.

Lemma fuse_delta_eq `{HelmetConfig} fused ok why g :
  let '(ok', why', g') := fuse_delta fused ok why g in
  (ok' = true <-> ok = true /\ no_jump fused g) /\
  (ok' = true -> why' = why /\ g' = g) /\ (ok = false -> why' = why /\ g' = g) /\
  (ok = true -> ok' = false -> why' = hr_delta).
Proof.
  unfold fuse_delta, no_jump. destruct ok; cbn [andb]; [| naive_solver].
  destruct (last_hr_valid_have g); cbn [andb]; [| naive_solver].
  change (0 <? HR_MAX_DELTA_BPM) with true. cbv iota zeta.
  replace (if fused - last_hr_valid_bpm g <? 0 then _ else _)
    with (Z.abs (fused - last_hr_valid_bpm g)) by (zcase; lia).
  destruct (Z.ltb_spec HR_MAX_DELTA_BPM (Z.abs (fused - last_hr_valid_bpm g))).
  - split; [split; [done | intros [_ Hj]; specialize (Hj eq_refl); lia] |]. done.
  - naive_solver.
Qed.

Lemma shFuseHr_pair `{HelmetConfig} a b ac peaks mag allow pre g :
  HR_FUSE_MODE = false -> HR_VALID_REQUIRE_AGREE = true -> is_u16 a -> is_u16 b ->
  let '(o, g') := shFuseHr a b ac peaks mag allow pre g in
  (hr_valid o = true <-> allow = true /\ agree a b /\ no_jump ((a + b) / 2) g) /\
  (hr_valid o = true -> hr_reason o = hr_ok /\ hr_bpm o = (a + b) / 2 /\
    last_hr_valid_have g' = true /\ last_hr_valid_bpm g' = hr_bpm o /\ hr_delta_rej g' = 0) /\
  (allow = true \/ pre <> hr_ok -> hr_reason o = hr_ok -> hr_valid o = true) /\
  hr_win_left g' = hr_win_left g.
Proof.
  intros Hmode Hreq Ha Hb. unfold shFuseHr. rewrite Hmode.
  pose proof (fuse_pair_eq a b peaks pre Hreq Ha Hb) as Hp.
  destruct (fuse_pair a b peaks pre) as [[fused ok] why]. destruct Hp as (-> & _ & Hy & Hn).
  destruct (fuse_allow allow pre (hr_win_left g) (bool_decide (agree a b)) why) as [ok1 why1] eqn:E1.
  pose proof (fuse_delta_eq fused ok1 why1 g) as Hd.
  assert (hr_win_left (snd (fuse_delta fused ok1 why1 g)) = hr_win_left g) as Hw.
  { unfold fuse_delta. destruct (_ && _); [| done]. cbv zeta. destruct (_ <? _); [| done].
    destruct (0 <? _); [| done]. cbn. by destruct (_ <=? _). }
  destruct (fuse_delta fused ok1 why1 g) as [[ok2 why2] g2]. cbn [snd] in Hw.
  destruct Hd as (Hiff & Ht & Hf & Hj). unfold fuse_allow in E1.
  destruct allow; simplify_eq/=.
  - case_bool_decide as Hag.
    + destruct (Hy Hag) as [-> ->]. destruct ok2; cbn; (split; [| split; [| split]]); try done.
      * split; [intros _ | done]. by split_and!; [| | apply Hiff].
      * split; [done |]. intros (_ & _ & Hnj). by apply Hiff.
      * intros _ ->. by discriminate (Hj eq_refl eq_refl).
    + destruct ok2; [by destruct Hiff as [[? _] _] |]. destruct (Hf eq_refl) as [-> ->].
      cbn. split; [split; [done | by intros (_ & ? & _)] |]. split; [done |].
      split; [| done]. intros _ Hok. exfalso. by apply Hn.
  - destruct ok2; [by destruct Hiff as [[? _] _] |]. destruct (Hf eq_refl) as [-> ->].
    cbn. split; [by split; [| intros [? _]] |]. split; [done |]. split; [| done].
    intros [? | Hpre] Hok; [done |]. unfold is_ok in Hok. rewrite bool_decide_eq_false_2 in Hok by done.
    done.
Qed.

(** [C36] When the pulse rate is declared valid (default fusion mode):
    exactly when validity is allowed, the two estimates agree
    within the allowed share of their mean, and that mean does not jump
    from the last valid rate; the reported rate is that mean and becomes the
    reference.  The reason is [hr_ok] for valid windows only, for every
    way the code calls the fusion. *)
Theorem shFuseHr_valid_iff `{HelmetConfig} a b ac peaks mag allow pre g :
  HR_FUSE_MODE = false -> HR_VALID_REQUIRE_AGREE = true -> is_u16 a -> is_u16 b ->
  let '(o, g') := shFuseHr a b ac peaks mag allow pre g in
  (hr_valid o = true <-> allow = true /\ agree a b /\ no_jump ((a + b) / 2) g) /\
  (hr_valid o = true -> hr_bpm o = (a + b) / 2 /\
    last_hr_valid_have g' = true /\ last_hr_valid_bpm g' = hr_bpm o /\ hr_delta_rej g' = 0) /\
  (allow = true \/ pre <> hr_ok -> (hr_reason o = hr_ok <-> hr_valid o = true)).
Proof.
  intros Hm Hr Ha Hb. pose proof (shFuseHr_pair a b ac peaks mag allow pre g Hm Hr Ha Hb) as Hp.
  destruct (shFuseHr _ _ _ _ _ _ _ _) as [o g']. destruct Hp as (H1 & H2 & H3 & _).
  split; [exact H1 |]. split; [intros Hv; by destruct (H2 Hv) as (_ & ?) |].
  intros Hc. split; [by apply H3 | intros Hv; by destruct (H2 Hv)].
Qed.

Lemma shFuseHr_valid_iff_witness :
  let g := mkguard 0 70 true 0 in
  let '(o, g') := shFuseHr (H := shipped) 72 78 0 4 900 true hr_ok g in
  (hr_valid o = true <-> true = true /\ agree 72 78 /\ no_jump ((72 + 78) / 2) g) /\
  (hr_valid o = true -> hr_bpm o = (72 + 78) / 2 /\
    last_hr_valid_have g' = true /\ last_hr_valid_bpm g' = hr_bpm o /\ hr_delta_rej g' = 0) /\
  (true = true \/ hr_ok <> hr_ok -> (hr_reason o = hr_ok <-> hr_valid o = true)).
Proof. apply (@shFuseHr_valid_iff shipped 72 78 0 4 900 true hr_ok (mkguard 0 70 true 0)); vdec. Defined.

(** * Resynchronisation *)

Lemma fuse_jump_step `{HelmetConfig} a b g :
  HR_FUSE_MODE = false -> HR_VALID_REQUIRE_AGREE = true -> 1 <= HR_DELTA_RESYNC_WIN <= 255 ->
  jump_window g (a, b) -> 0 <= hr_delta_rej g < HR_DELTA_RESYNC_WIN ->
  let '(o, g') := shFuseHr a b 0 3 0 true hr_ok g in
  hr_valid o = false /\ hr_reason o = hr_delta /\
  g' = if hr_delta_rej g + 1 =? HR_DELTA_RESYNC_WIN
       then mkguard (hr_win_left g) 0 false 0
       else g <| hr_delta_rej := hr_delta_rej g + 1 |>.
Proof.
  intros Hm Hreq HR (Ha & Hb & Hag & Hj) Hrej. cbn [fst snd] in *. unfold shFuseHr. rewrite Hm.
  pose proof (fuse_pair_eq a b 3 hr_ok Hreq Ha Hb) as Hp.
  destruct (fuse_pair a b 3 hr_ok) as [[fused ok] why]. destruct Hp as (-> & _ & Hy & _).
  destruct (Hy Hag) as [-> ->]. rewrite bool_decide_eq_true_2 by done. cbn [fuse_allow].
  unfold fuse_delta. unfold no_jump in Hj. destruct (last_hr_valid_have g) eqn:Eh;
    [| exfalso; by apply Hj]. cbn [andb]. change (0 <? HR_MAX_DELTA_BPM) with true. cbv iota zeta.
  replace (if (a + b) / 2 - last_hr_valid_bpm g <? 0 then _ else _)
    with (Z.abs ((a + b) / 2 - last_hr_valid_bpm g)) by (zcase; lia).
  rewrite (proj2 (Z.ltb_lt HR_MAX_DELTA_BPM _))
    by (apply Z.nle_gt; intros ?; by apply Hj).
  rewrite (proj2 (Z.ltb_lt 0 HR_DELTA_RESYNC_WIN)) by lia. cbn.
  rewrite (proj2 (Z.ltb_lt (hr_delta_rej g) 255)) by lia. rewrite u8_small by rlia.
  split; [done |]. split; [done |].
  destruct (Z.leb_spec HR_DELTA_RESYNC_WIN (hr_delta_rej g + 1)),
    (Z.eqb_spec (hr_delta_rej g + 1) HR_DELTA_RESYNC_WIN); (done || lia).
Qed.

(** Windows of jumps, until the reference is dropped. *)
Lemma fuse_jump_run `{HelmetConfig} ws g outs :
  HR_FUSE_MODE = false -> HR_VALID_REQUIRE_AGREE = true -> 1 <= HR_DELTA_RESYNC_WIN <= 255 ->
  Forall (jump_window g) ws -> 0 <= hr_delta_rej g ->
  hr_delta_rej g + alen ((fun _ => 0) <$> ws) = HR_DELTA_RESYNC_WIN -> ws <> [] ->
  exists outs', fold_left (fun '(outs, g) '(pk, ff) =>
    let '(o, g) := shFuseHr pk ff 0 3 0 true hr_ok g in (outs ++ [o], g)) ws (outs, g)
    = (outs ++ outs', mkguard (hr_win_left g) 0 false 0) /\
    Forall (fun o => hr_valid o = false /\ hr_reason o = hr_delta) outs'.
Proof.
  intros Hm Hreq HR. revert g outs. induction ws as [| [a b] ws IH]; intros g outs Hws Hrej Hlen Hne; [done |].
  inversion Hws as [| ? ? Hw Hws']; subst. cbn [fold_left].
  assert (0 <= alen ((fun _ => 0) <$> ws)) by apply alen_nonneg.
  assert (alen ((fun _ => 0) <$> (a, b) :: ws) = 1 + alen ((fun _ => 0) <$> ws)) as E1
    by (unfold alen; cbn [length fmap list_fmap]; lia).
  rewrite E1 in Hlen.
  pose proof (fuse_jump_step a b g Hm Hreq HR Hw ltac:(lia)) as Hs.
  destruct (shFuseHr a b 0 3 0 true hr_ok g) as [o g']. destruct Hs as (Hv & Hy & ->).
  destruct ws as [| w ws].
  - rewrite (proj2 (Z.eqb_eq _ HR_DELTA_RESYNC_WIN)) by (unfold alen in Hlen; cbn in Hlen; lia).
    exists [o]. split; [done | by repeat constructor].
  - assert (1 <= alen ((fun _ => 0) <$> w :: ws)) by (unfold alen; cbn [length fmap list_fmap]; lia).
    rewrite (proj2 (Z.eqb_neq _ HR_DELTA_RESYNC_WIN)) by lia.
    destruct (IH (g <| hr_delta_rej := hr_delta_rej g + 1 |>) (outs ++ [o])) as (outs' & E & Ho).
    + eapply Forall_impl; [exact Hws' |]. intros [c d]. done.
    + cbn. lia.
    + cbn [field_set hr_delta_rej]. lia.
    + done.
    + exists (o :: outs'). rewrite E. split; [by rewrite <- app_assoc | by constructor].
Qed.

(** The jump guard cannot lock a real change out: after exactly
    [HR_DELTA_RESYNC_WIN] consecutive windows that agree on rates far from the
    reference, each of them rejected with [hr_delta], the reference is
    dropped, and the next window whose estimates agree is valid at its
    own rate, whatever it is. *)
Theorem shFuseHr_resync `{HelmetConfig} ws a b g :
  HR_FUSE_MODE = false -> HR_VALID_REQUIRE_AGREE = true -> 1 <= HR_DELTA_RESYNC_WIN <= 255 ->
  hr_delta_rej g = 0 -> length ws = Z.to_nat HR_DELTA_RESYNC_WIN -> Forall (jump_window g) ws ->
  is_u16 a -> is_u16 b -> agree a b ->
  let '(outs, g') := fuse_run ws g in
  Forall (fun o => hr_valid o = false /\ hr_reason o = hr_delta) outs /\
  (let '(o, _) := shFuseHr a b 0 3 0 true hr_ok g' in
   hr_valid o = true /\ hr_bpm o = (a + b) / 2).
Proof.
  intros Hm Hreq HR Hrej Hlen Hws Ha Hb Hag. unfold fuse_run.
  destruct (fuse_jump_run ws g [] Hm Hreq HR Hws) as (outs & E & Ho).
  - lia.
  - unfold alen. rewrite length_fmap. lia.
  - intros ->. cbn in Hlen. lia.
  - rewrite E. cbn [app]. split; [done |].
    pose proof (shFuseHr_pair a b 0 3 0 true hr_ok (mkguard (hr_win_left g) 0 false 0) Hm Hreq Ha Hb) as Hp.
    destruct (shFuseHr _ _ _ _ _ _ _ _) as [o g']. destruct Hp as (Hv & Hb' & _).
    assert (hr_valid o = true) as Hvo by (apply Hv; by split_and!).
    split; [done |]. by destruct (Hb' Hvo) as (_ & ? & _).
Qed.

Lemma shFuseHr_resync_witness :
  let g := mkguard 0 60 true 0 in
  let '(outs, g') := fuse_run (H := shipped) [(120, 118); (121, 119); (122, 120)] g in
  Forall (fun o => hr_valid o = false /\ hr_reason o = hr_delta) outs /\
  (let '(o, _) := shFuseHr (H := shipped) 120 122 0 3 0 true hr_ok g' in
   hr_valid o = true /\ hr_bpm o = (120 + 122) / 2).
Proof.
  apply (@shFuseHr_resync shipped [(120, 118); (121, 119); (122, 120)] 120 122 (mkguard 0 60 true 0));
    try vdec; unfold jump_window; vdec.
Defined.

(** * The consensus mode *)
Lemma fuse_agreeing_eq cand med :
  Forall is_u16 cand -> alen cand <= 3 ->
  fuse_agreeing cand (alen cand) med =
    (sumZ (filter (fun c => near_median med c = true) cand),
     alen (filter (fun c => near_median med c = true) cand)).
Proof.
  intros Hc Hn. unfold fuse_agreeing.
  set (f := fun '(sum, agree) c =>
    if near_median med c then (u32 (sum + c), u8 (agree + 1)) else (sum, agree)).
  rewrite (for_ext _ _ _ (fun i s => f s (aget cand i))) by (by intros i [sum agr]).
  rewrite for_array by (pose proof (alen_nonneg cand); lia).
  rewrite take_ge by (unfold alen; lia).
  assert (forall l s k, Forall is_u16 l -> 0 <= s <= 65535 * k -> 0 <= k -> k + alen l <= 3 ->
    fold_left f l (s, k)
    = (s + sumZ (filter (fun c => near_median med c = true) l),
       k + alen (filter (fun c => near_median med c = true) l))) as Hf.
  { clear Hc Hn cand. induction l as [| c l IH]; intros s k Hl Hs Hk Hlen; cbn [fold_left].
    - cbn. by rewrite !Z.add_0_r.
    - inversion Hl; subst. assert (alen (c :: l) = 1 + alen l) as E by (unfold alen; cbn [length]; lia).
      rewrite E in Hlen. pose proof (alen_nonneg l). cbn [f]. destruct (near_median med c) eqn:En.
      + rewrite u32_small, u8_small by rlia. rewrite IH by (done || rlia).
        rewrite filter_cons_True by done.
        set (nl := filter _ l).
        assert (alen (c :: nl) = 1 + alen nl) as -> by (unfold alen; cbn [length]; lia).
        change (sumZ (c :: nl)) with (c + sumZ nl). f_equal; lia.
      + rewrite IH by (done || lia). rewrite filter_cons_False by (by rewrite En). done. }
  rewrite Hf by (done || lia). by rewrite !Z.add_0_l.
Qed.

(** When the pulse rate is declared valid in consensus mode: validity
    is allowed, and at least [HR_FUSE_MIN_AGREE] of the available estimators
    are within the allowed share of their median; the rate is the mean of
    those estimators. *)
Theorem shFuseHr_consensus `{HelmetConfig} pk ff ac peaks mag allow pre g :
  HR_FUSE_MODE = true -> 1 <= HR_FUSE_MIN_AGREE <= 3 -> is_u16 pk -> is_u16 ff -> is_u16 ac ->
  let '(o, g') := shFuseHr pk ff ac peaks mag allow pre g in
  hr_valid o = true ->
  allow = true /\ hr_reason o = hr_ok /\ no_jump (hr_bpm o) g /\
  exists cand, cand ≡ₚ fuse_cands pk ff ac peaks /\ StronglySorted Z.le cand /\
    let near := filter (fun c => near_median (aget cand (alen cand / 2)) c = true) cand in
    HR_FUSE_MIN_AGREE <= alen near <= 3 /\ hr_bpm o = sumZ near / alen near.
Proof.
  intros Hm Hmin Hp Hf Ha. unfold shFuseHr. rewrite Hm. unfold fuse_consensus.
  set (c0 := fuse_cands pk ff ac peaks). pose proof (alen_nonneg c0) as Hc0.
  assert (Forall is_u16 c0 /\ alen c0 <= 3) as [Hu Hl].
  { unfold c0, fuse_cands.
    destruct (_ && _), (negb (ff =? 0)), (negb (ac =? 0));
      (split; [cbn [app]; repeat first [apply Forall_nil_2 | apply Forall_cons_2; [done |]]
              | unfold alen; cbn; lia]). }
  destruct (isort_ok (alen c0) c0) as (s & Es & Hperm & Hsort); [lia |].
  rewrite drop_ge, app_nil_r in Es by (unfold alen; lia).
  rewrite take_ge in Hperm by (unfold alen; lia). rewrite Es. clear Es.
  assert (alen s = alen c0) as El by (unfold alen; by rewrite Hperm).
  destruct (Z.eqb_spec (alen c0) 0) as [| Hn0]; [by destruct allow |].
  rewrite <- El in Hn0, Hl |- *.
  rewrite fuse_agreeing_eq by (done || by rewrite Hperm).
  set (near := filter _ s). cbv zeta.
  assert (0 <= alen near <= alen s) as Hnear.
  { split; [apply alen_nonneg |]. unfold near, alen. apply inj_le, length_filter. }
  destruct (Z.leb_spec HR_FUSE_MIN_AGREE (alen near)) as [Hag | Hag]; [| by destruct allow].
  rewrite (proj2 (Z.eqb_neq (alen near) 0)) by lia. cbn [negb].
  unfold fuse_allow. destruct allow; [| done].
  pose proof (fuse_delta_eq (u16 (sumZ near / alen near)) true pre g) as Hd.
  destruct (fuse_delta _ true pre g) as [[ok why] g2]. destruct Hd as (Hiff & _).
  destruct ok; [| done]. cbn. intros _. split; [done |]. split; [done |].
  split; [by apply Hiff |]. exists s. split; [done |]. split; [done |]. fold near.
  split; [lia |]. apply u16_small.
  assert (Forall is_u16 near) as Hnu 
    by (apply Forall_forall; intros x Hx; apply list_elem_of_filter in Hx as [_ Hx];
        rewrite Hperm in Hx; rewrite Forall_forall in Hu; auto).
  assert (0 <= sumZ near <= 65535 * alen near).
  { split; [apply sumZ_nonneg | apply sumZ_bound]; (eapply Forall_impl; [exact Hnu |]);
      unfold is_u16; simpl; lia. }
  unfold is_u16. split; [apply Z.div_pos; lia | apply Z.div_lt_upper_bound; lia].
Qed.

Lemma shFuseHr_consensus_witness :
  let g := mkguard 0 70 true 0 in
  let '(o, g') := shFuseHr (H := consensus) 72 100 74 4 900 true hr_ok g in
  hr_valid o = true ->
  true = true /\ hr_reason o = hr_ok /\ no_jump (hr_bpm o) g /\
  exists cand, cand ≡ₚ fuse_cands 72 100 74 4 /\ StronglySorted Z.le cand /\
    let near := filter (fun c => near_median (aget cand (alen cand / 2)) c = true) cand in
    2 <= alen near <= 3 /\ hr_bpm o = sumZ near / alen near.
Proof. apply (@shFuseHr_consensus consensus 72 100 74 4 900 true hr_ok (mkguard 0 70 true 0)); vdec. Defined.
