(* ===== verification/Change.v ===== *)
(** Change detection: the slow personal baseline of the pulse rate and the
    two-sided CUSUM on the deviation from it (shUpdateHrChange). *)
From S2P Require Import Prelude Config Dsp.

(** * Data *)
Inductive smart_helmet_trend_flag_t :=
  | smart_helmet_trend_unknown | smart_helmet_trend_stable | smart_helmet_trend_rising
  | smart_helmet_trend_falling | smart_helmet_trend_absent.

#[export] Instance trend_eq_dec : EqDecision smart_helmet_trend_flag_t.
Proof. solve_decision. Defined.

Definition trend_code (t : smart_helmet_trend_flag_t) : Z :=
  match t with
  | smart_helmet_trend_unknown => 0 | smart_helmet_trend_stable => 1
  | smart_helmet_trend_rising => 2 | smart_helmet_trend_falling => 3
  | smart_helmet_trend_absent => 4
  end.

(** The statics. *)
Record change_st := mkchange {
  hr_base_bpm : Z;
  hr_base_n : Z;
  hr_invalid_run : Z;
  cusum_up : Z;
  cusum_dn : Z }.

#[export] Instance change_st_eta : RecordEta change_st := fun r =>
  mkchange (hr_base_bpm r) (hr_base_n r) (hr_invalid_run r) (cusum_up r) (cusum_dn r).

Definition change_init : change_st := mkchange 0 0 0 0 0.

(** The members of the status it writes. *)
Record change_out := mkchgout {
  hr_baseline_bpm : Z;
  hr_delta_bpm : Z;
  hr_cusum_up : Z;
  hr_cusum_dn : Z;
  hr_change : smart_helmet_trend_flag_t }.

#[export] Instance change_out_eta : RecordEta change_out := fun r =>
  mkchgout (hr_baseline_bpm r) (hr_delta_bpm r) (hr_cusum_up r) (hr_cusum_dn r) (hr_change r).

Definition change_out_init : change_out := mkchgout 0 0 0 0 smart_helmet_trend_unknown.

(** * The update *)

(** A window without a valid rate. *)
Definition change_invalid `{HelmetConfig} (c : change_st) (o : change_out) : change_st * change_out :=
  let '(c, chg) :=
    if 0 <? HR_BASELINE_STALE_WIN then
      let c := c <| hr_invalid_run ::= (fun r => if r <? 65535 then u16 (r + 1) else r) |> in
      if HR_BASELINE_STALE_WIN <=? hr_invalid_run c
      then (mkchange 0 0 (hr_invalid_run c) 0 0, smart_helmet_trend_unknown)
      else (c, hr_change o)
    else (c, hr_change o) in
  (c, mkchgout (hr_base_bpm c) 0 (u16 (cusum_up c)) (u16 (cusum_dn c)) chg).

Definition cusum_slack `{HelmetConfig} (base : Z) : Z :=
  if 0 <? HR_CUSUM_SLACK_PCT then
    let prop := (base * HR_CUSUM_SLACK_PCT) ÷ 100 in
    if HR_CUSUM_SLACK_BPM <? prop then prop else HR_CUSUM_SLACK_BPM
  else HR_CUSUM_SLACK_BPM.

(** [sum += term; if (sum < 0) sum = 0; ... if (sum > 0xffff) sum = 0xffff;] *)
Definition cusum_add (sum term : Z) : Z :=
  let s := i32 (sum + term) in
  let s := if s <? 0 then 0 else s in
  if 65535 <? s then 65535 else s.

(** A valid window once the baseline is learned. *)
Definition change_detect (slack dev bpm : Z) (c : change_st) : change_st * smart_helmet_trend_flag_t :=
  let up := cusum_add (cusum_up c) (dev - slack) in
  let dn := cusum_add (cusum_dn c) (- dev - slack) in
  if HR_CUSUM_LIMIT <=? up then
    (c <| hr_base_bpm := bpm |> <| cusum_up := 0 |> <| cusum_dn := 0 |>, smart_helmet_trend_rising)
  else if HR_CUSUM_LIMIT <=? dn then
    (c <| hr_base_bpm := bpm |> <| cusum_up := 0 |> <| cusum_dn := 0 |>, smart_helmet_trend_falling)
  else
    (c <| hr_base_bpm ::= (fun b => u16 (b + (dev * HR_BASELINE_ALPHA_Q8) ÷ 256)) |>
       <| cusum_up := up |> <| cusum_dn := dn |>, smart_helmet_trend_stable).

Definition change_valid `{HelmetConfig} (bpm : Z) (c : change_st) (o : change_out)
  : change_st * change_out :=
  let c := if 0 <? HR_BASELINE_STALE_WIN then c <| hr_invalid_run := 0 |> else c in
  let c := if hr_base_bpm c =? 0 then c <| hr_base_bpm := bpm |> else c in
  let slack := cusum_slack (hr_base_bpm c) in
  let dev := bpm - hr_base_bpm c in
  let '(c, chg) :=
    if hr_base_n c <? HR_BASELINE_MIN_WIN then
      (c <| hr_base_n ::= (fun n => u8 (n + 1)) |>
         <| hr_base_bpm ::= (fun b => u16 (b + (dev * 64) ÷ 256)) |>
         <| cusum_up := 0 |> <| cusum_dn := 0 |>, hr_change o)
    else change_detect slack dev bpm c in
  (c, mkchgout (hr_base_bpm c) (i16 dev) (u16 (cusum_up c)) (u16 (cusum_dn c)) chg).

(** [shUpdateHrChange], on the window's [hr_valid] and [hr_bpm]. *)
Definition shUpdateHrChange `{HelmetConfig} (hr_valid : bool) (hr_bpm : Z) (c : change_st) (o : change_out)
  : change_st * change_out :=
  if ENABLE_HR_CUSUM then
    if negb hr_valid || (hr_bpm =? 0) then change_invalid c o else change_valid hr_bpm c o
  else (c, o <| hr_change := smart_helmet_trend_unknown |>).

(** * Vocabulary of the specifications *)

(** A run over windows [(hr_valid, hr_bpm)]; the flags reported. *)
Fixpoint change_run `{HelmetConfig} (ws : list (bool * Z)) (c : change_st) (o : change_out)
  : list smart_helmet_trend_flag_t * (change_st * change_out) :=
  match ws with
  | [] => ([], (c, o))
  | (v, b) :: ws =>
    let '(c, o) := shUpdateHrChange v b c o in
    let '(fs, r) := change_run ws c o in (hr_change o :: fs, r)
  end.

Definition change_ok (c : change_st) : Prop :=
  is_u16 (hr_base_bpm c) /\ 0 <= hr_base_n c <= HR_BASELINE_MIN_WIN /\
  is_u16 (hr_invalid_run c) /\
  0 <= cusum_up c < HR_CUSUM_LIMIT /\ 0 <= cusum_dn c < HR_CUSUM_LIMIT.

#[export] Instance change_ok_dec c : Decision (change_ok c).
Proof. unfold change_ok. apply _. Defined.

(** Learned, with the accumulators at rest. *)
Definition armed (base : Z) : change_st := mkchange base HR_BASELINE_MIN_WIN 0 0 0.

Definition is_event (t : smart_helmet_trend_flag_t) : bool :=
  bool_decide (t = smart_helmet_trend_rising \/ t = smart_helmet_trend_falling).

(** * Invariant *)
Lemma cusum_add_eq s t :
  0 <= s < HR_CUSUM_LIMIT -> -200000 <= t <= 200000 ->
  cusum_add s t = Z.min 65535 (Z.max 0 (s + t)).
Proof.
  unfold HR_CUSUM_LIMIT, cusum_add. intros. rewrite i32_small by rlia. cbv zeta. repeat zcase; lia.
Qed.

Lemma cusum_slack_range `{HelmetConfig} base :
  is_u16 base -> HR_CUSUM_SLACK_PCT <= 100 ->
  HR_CUSUM_SLACK_BPM <= cusum_slack base <= 65535.
Proof.
  unfold is_u16, cusum_slack, HR_CUSUM_SLACK_BPM. intros Hb Hp. destruct (Z.ltb_spec 0 HR_CUSUM_SLACK_PCT); [| lia].
  cbv zeta. rewrite Z.quot_div_nonneg by nia.
  assert (base * HR_CUSUM_SLACK_PCT / 100 <= 65535) 
    by (apply Z.div_le_upper_bound; [lia |]; rewrite (Z.mul_comm 100); apply Z.mul_le_mono_nonneg; lia).
  unfold HR_CUSUM_SLACK_BPM. zcase; lia.
Qed.

Lemma change_detect_ok slack dev bpm c :
  change_ok c -> is_u16 bpm -> 0 <= slack <= 65535 -> dev = bpm - hr_base_bpm c ->
  let '(c', _) := change_detect slack dev bpm c in
  change_ok c' /\ hr_base_n c' = hr_base_n c /\ hr_invalid_run c' = hr_invalid_run c.
Proof.
  intros (Hb & Hn & Hr & Hu & Hd) Hbpm Hs ->. unfold change_detect.
  rewrite (cusum_add_eq (cusum_up c)), (cusum_add_eq (cusum_dn c)) by (done || rlia).
  unfold HR_CUSUM_LIMIT in *.
  repeat zcase; unfold change_ok, HR_CUSUM_LIMIT; cbn; (split; [| done]).
  1, 2: split_and!; (done || lia).
  pose proof (ema_between (hr_base_bpm c) bpm HR_BASELINE_ALPHA_Q8 ltac:(vdec)).
  rewrite u16_small by rlia. split_and!; (done || rlia).
Qed.

Lemma shUpdateHrChange_ok `{HelmetConfig} v b c o :
  HR_CUSUM_SLACK_PCT <= 100 -> change_ok c -> is_u16 b -> change_ok (fst (shUpdateHrChange v b c o)).
Proof.
  intros Hpct Hc Hb. pose proof Hc as (Hbase & Hn & Hr & Hu & Hd). unfold shUpdateHrChange.
  destruct ENABLE_HR_CUSUM; [| done]. destruct (negb v || (b =? 0)).
  - unfold change_invalid. destruct (0 <? HR_BASELINE_STALE_WIN); [| done]. cbn.
    assert (is_u16 (if hr_invalid_run c <? 65535 then u16 (hr_invalid_run c + 1) else hr_invalid_run c))
      by (zcase; [apply u16_range | done]).
    destruct (_ <=? _); cbn; unfold change_ok; cbn; split_and!; (done || vdec || lia).
  - unfold change_valid. set (c1 := if 0 <? HR_BASELINE_STALE_WIN then _ else c).
    assert (change_ok c1) as Hc1
      by (unfold c1; destruct (0 <? _); [unfold change_ok; cbn; split_and!; (done || vdec || lia) | done]).
    set (c2 := if hr_base_bpm c1 =? 0 then _ else c1).
    assert (change_ok c2) as Hc2
      by (unfold c2; destruct (_ =? _); [destruct Hc1 as (? & ? & ? & ? & ?); unfold change_ok; cbn; split_and!; (done || lia) | done]).
    clearbody c2. clear c1 Hc1. pose proof Hc2 as (Hbase2 & Hn2 & Hr2 & Hu2 & Hd2).
    pose proof (cusum_slack_range (hr_base_bpm c2) Hbase2 Hpct) as Hs.
    change HR_CUSUM_SLACK_BPM with 3 in Hs.
    destruct (Z.ltb_spec (hr_base_n c2) HR_BASELINE_MIN_WIN); cbn.
    + pose proof (ema_between (hr_base_bpm c2) b 64 ltac:(lia)). unfold change_ok, HR_BASELINE_MIN_WIN, HR_CUSUM_LIMIT in *. cbn.
      rewrite u8_small, u16_small by rlia. split_and!; (done || rlia).
    + assert (0 <= cusum_slack (hr_base_bpm c2) <= 65535) as Hs' by lia.
      pose proof (change_detect_ok _ (b - hr_base_bpm c2) b c2 Hc2 Hb Hs' eq_refl) as Hdet.
      destruct (change_detect _ _ _ _) as [c3 chg]. cbn. by destruct Hdet.
Qed.

(** * Runs *)
Lemma change_run_inv `{HelmetConfig} (P : change_st -> change_out -> Prop) (Q : bool * Z -> Prop) ws c o :
  P c o -> Forall Q ws ->
  (forall v b c o, Q (v, b) -> P c o -> let '(c', o') := shUpdateHrChange v b c o in P c' o') ->
  let '(fs, (c', o')) := change_run ws c o in
  P c' o' /\ Forall (fun f => exists c o, P c o /\ hr_change o = f) fs.
Proof.
  intros HP HQ Hstep. revert c o HP. induction HQ as [| [v b] ws Hvb HQ IH]; intros c o HP; cbn [change_run];
    [by split |].
  specialize (Hstep v b c o Hvb HP) as Hs. destruct (shUpdateHrChange v b c o) as [c1 o1].
  specialize (IH c1 o1 Hs). destruct (change_run ws c1 o1) as [fs [c' o']].
  destruct IH as [HP' Hfs]. split; [done |]. constructor; eauto.
Qed.

(** The detector cannot overflow or stick: whatever windows it
    is given, both accumulators stay below the alarm limit between windows
    (so the saturation at 65535 and the narrowing casts never act), the
    learning counter stays within its bound, and the reported accumulators are the real ones. *)
Theorem change_bounded `{HelmetConfig} ws c o :
  HR_CUSUM_SLACK_PCT <= 100 -> change_ok c -> Forall (fun w => is_u16 (snd w)) ws ->
  let '(_, (c', o')) := change_run ws c o in
  change_ok c' /\
  (ENABLE_HR_CUSUM = true -> ws <> [] ->
    hr_cusum_up o' = cusum_up c' /\ hr_cusum_dn o' = cusum_dn c' /\ hr_baseline_bpm o' = hr_base_bpm c').
Proof.
  intros Hpct Hc Hws.
  assert (forall ws c o, change_ok c -> Forall (fun w => is_u16 (snd w)) ws ->
    (ENABLE_HR_CUSUM = true -> ws = [] -> hr_cusum_up o = cusum_up c /\
      hr_cusum_dn o = cusum_dn c /\ hr_baseline_bpm o = hr_base_bpm c) ->
    let '(_, (c', o')) := change_run ws c o in
    change_ok c' /\ (ENABLE_HR_CUSUM = true -> hr_cusum_up o' = cusum_up c' /\
      hr_cusum_dn o' = cusum_dn c' /\ hr_baseline_bpm o' = hr_base_bpm c')) as Hrun.
  { clear c o Hc ws Hws. induction ws as [| [v b] ws IH]; intros c o Hc Hws He; cbn [change_run]; [auto |].
    inversion Hws as [| ? ? Hb Hws']; subst. cbn in Hb.
    pose proof (shUpdateHrChange_ok v b c o Hpct Hc Hb) as Hc1.
    destruct (shUpdateHrChange v b c o) as [c1 o1] eqn:E. cbn [fst] in Hc1.
    specialize (IH c1 o1 Hc1 Hws'). destruct (change_run ws c1 o1) as [fs [c' o']]. apply IH.
    intros Hen _. destruct Hc1 as (_ & _ & _ & Hu & Hd). unfold HR_CUSUM_LIMIT in *.
    unfold shUpdateHrChange, change_invalid, change_valid in E. rewrite Hen in E.
    repeat match type of E with context [let '(_, _) := ?t in _] => destruct t end.
    destruct (_ || _); injection E as <- <-; cbn; rewrite !u16_small by rlia; done. }
  destruct ws as [| w ws].
  - cbn. by split.
  - specialize (Hrun (w :: ws) c o Hc Hws ltac:(done)). destruct (change_run _ _ _) as [fs [c' o']].
    destruct Hrun as [? He]. split; [done |]. intros Hen _. by apply He.
Qed.

Lemma change_bounded_witness :
  let '(_, (c', o')) := change_run (H := shipped) [(true, 70); (false, 0); (true, 90)] change_init change_out_init in
  change_ok c' /\
  (true = true -> [(true, 70); (false, 0); (true, 90)] <> [] ->
    hr_cusum_up o' = cusum_up c' /\ hr_cusum_dn o' = cusum_dn c' /\ hr_baseline_bpm o' = hr_base_bpm c').
Proof.
  apply (@change_bounded shipped [(true, 70); (false, 0); (true, 90)] change_init change_out_init); vdec.
Defined.

(** * No false alarm *)
Lemma change_quiet_step `{HelmetConfig} m v b c o :
  HR_CUSUM_SLACK_PCT <= 100 -> 1 <= m <= 60000 ->
  (v = false \/ m <= b <= m + HR_CUSUM_SLACK_BPM) ->
  change_ok c /\ (hr_base_bpm c = 0 \/ m <= hr_base_bpm c <= m + HR_CUSUM_SLACK_BPM) /\
    cusum_up c = 0 /\ cusum_dn c = 0 /\ is_event (hr_change o) = false ->
  let '(c', o') := shUpdateHrChange v b c o in
  change_ok c' /\ (hr_base_bpm c' = 0 \/ m <= hr_base_bpm c' <= m + HR_CUSUM_SLACK_BPM) /\
    cusum_up c' = 0 /\ cusum_dn c' = 0 /\ is_event (hr_change o') = false.
Proof.
  intros Hpct Hm Hvb (Hc & Hbase & Hu & Hd & He).
  assert (v = false \/ is_u16 b) as Hb by (destruct Hvb; [by left | right; unfold HR_CUSUM_SLACK_BPM in *; rlia]).
  pose proof (shUpdateHrChange_ok v b c o Hpct Hc) as Hok.
  unfold shUpdateHrChange in *. destruct ENABLE_HR_CUSUM; [| by split_and!].
  destruct (negb v || (b =? 0)) eqn:Hinv.
  - unfold change_invalid in *. destruct (0 <? HR_BASELINE_STALE_WIN); [| by split_and!].
    assert (is_u16 (if hr_invalid_run c <? 65535 then u16 (hr_invalid_run c + 1) else hr_invalid_run c))
      by (destruct Hc as (_ & _ & ? & _); zcase; [apply u16_range | done]).
    destruct Hc as (? & ? & _ & ? & ?). cbn. unfold change_ok.
    destruct (_ <=? _); cbn; split_and!; (done || lia || vdec || (by left)).
  - rewrite orb_false_iff, negb_false_iff in Hinv. destruct Hinv as [-> Hb0].
    destruct Hvb as [? | Hvb]; [done |]. destruct Hb as [? | Hb]; [done |]. specialize (Hok Hb).
    unfold change_valid in *. set (c1 := if 0 <? HR_BASELINE_STALE_WIN then _ else c) in *.
    assert (hr_base_bpm c1 = hr_base_bpm c /\ hr_base_n c1 = hr_base_n c /\ cusum_up c1 = 0 /\ cusum_dn c1 = 0)
      as (Eb & En & Eu & Ed) by (unfold c1; by destruct (0 <? _)).
    set (c2 := if hr_base_bpm c1 =? 0 then _ else c1) in *.
    assert (m <= hr_base_bpm c2 <= m + HR_CUSUM_SLACK_BPM /\ hr_base_n c2 = hr_base_n c /\
      cusum_up c2 = 0 /\ cusum_dn c2 = 0) as (Eb2 & En2 & Eu2 & Ed2).
    { unfold c2. destruct (Z.eqb_spec (hr_base_bpm c1) 0); cbn; [done |]. split; [lia | done]. }
    assert (is_u16 (hr_base_bpm c2)) as Hb2 by (unfold HR_CUSUM_SLACK_BPM in *; rlia).
    pose proof (cusum_slack_range (hr_base_bpm c2) Hb2 Hpct) as Hs.
    destruct (hr_base_n c2 <? HR_BASELINE_MIN_WIN); cbn in *.
    + split; [done |]. split; [| done]. right.
      pose proof (ema_between (hr_base_bpm c2) b 64 ltac:(lia)).
      unfold HR_CUSUM_SLACK_BPM in *. rewrite u16_small by rlia. lia.
    + unfold change_detect in *. rewrite Eu2, Ed2 in *.
      rewrite !cusum_add_eq in * by (unfold HR_CUSUM_LIMIT, HR_CUSUM_SLACK_BPM in *; rlia).
      assert (Z.min 65535 (Z.max 0 (0 + (b - hr_base_bpm c2 - cusum_slack (hr_base_bpm c2)))) = 0) as E1
        by (unfold HR_CUSUM_SLACK_BPM in *; lia).
      assert (Z.min 65535 (Z.max 0 (0 + (- (b - hr_base_bpm c2) - cusum_slack (hr_base_bpm c2)))) = 0) as E2
        by (unfold HR_CUSUM_SLACK_BPM in *; lia).
      rewrite E1, E2 in *. cbn in *. split; [done |]. split; [right | done].
      pose proof (ema_between (hr_base_bpm c2) b HR_BASELINE_ALPHA_Q8 ltac:(vdec)).
      unfold HR_CUSUM_SLACK_BPM in *. rewrite u16_small by rlia. lia.
Qed.

(** No false alarm: as long as every valid rate stays inside one band as wide
    as the slack, no rise or fall is ever reported, from the start or
    from a baseline in that band, for any number of windows and
    whatever gaps of invalid windows lie between. *)
Theorem change_no_false_alarm `{HelmetConfig} ws m c o :
  HR_CUSUM_SLACK_PCT <= 100 -> 1 <= m <= 60000 -> change_ok c ->
  hr_base_bpm c = 0 \/ m <= hr_base_bpm c <= m + HR_CUSUM_SLACK_BPM ->
  cusum_up c = 0 -> cusum_dn c = 0 -> is_event (hr_change o) = false ->
  Forall (fun w => fst w = false \/ m <= snd w <= m + HR_CUSUM_SLACK_BPM) ws ->
  Forall (fun f => is_event f = false) (fst (change_run ws c o)).
Proof.
  intros Hpct Hm Hc Hb Hu Hd He Hws.
  pose proof (change_run_inv (fun c o => change_ok c /\
    (hr_base_bpm c = 0 \/ m <= hr_base_bpm c <= m + HR_CUSUM_SLACK_BPM) /\
    cusum_up c = 0 /\ cusum_dn c = 0 /\ is_event (hr_change o) = false)
    (fun w => fst w = false \/ m <= snd w <= m + HR_CUSUM_SLACK_BPM) ws c o) as Hr.
  destruct (change_run ws c o) as [fs [c' o']]. cbn [fst].
  destruct Hr as [_ Hf]; [by split_and! | done | |].
  - intros v b c1 o1 Hq Hp. exact (change_quiet_step m v b c1 o1 Hpct Hm Hq Hp).
  - eapply Forall_impl; [exact Hf |]. by intros f (c1 & o1 & (_ & _ & _ & _ & ?) & <-).
Qed.

Lemma change_no_false_alarm_witness :
  Forall (fun f => is_event f = false)
    (fst (change_run (H := shipped) [(true, 70); (true, 73); (false, 0); (true, 71)] change_init change_out_init)).
Proof.
  apply (@change_no_false_alarm shipped [(true, 70); (true, 73); (false, 0); (true, 71)] 70 change_init change_out_init); vdec.
Defined.

(** * Detection *)

(** A sustained change is found, in time and with the right sign: from
    any baseline in the pulse band, a rate in the band that differs by
    the slack and 4 BPM more raises the event of its direction, and no
    other, within 6 valid windows; the new rate is then the baseline. *)
Theorem change_detects base bpm o :
  HR_BPM_MIN <= base <= HR_BPM_MAX -> HR_BPM_MIN <= bpm <= HR_BPM_MAX ->
  cusum_slack (H := shipped) base + 4 <= Z.abs (bpm - base) ->
  let ev := if base <? bpm then smart_helmet_trend_rising else smart_helmet_trend_falling in
  let '(fs, (c', _)) := change_run (H := shipped) (replicate 6 (true, bpm)) (armed base) o in
  ev ∈ fs /\ Forall (fun f => is_event f = true -> f = ev) fs /\ hr_base_bpm c' = bpm.
Proof.
  intros Hbase Hbpm Hdev ev.
  assert (forallb (fun base => forallb (fun bpm =>
    (Z.abs (bpm - base) <? cusum_slack (H := shipped) base + 4) ||
    let ev := if base <? bpm then smart_helmet_trend_rising else smart_helmet_trend_falling in
    let '(fs, (c', _)) := change_run (H := shipped) (replicate 6 (true, bpm)) (armed base) change_out_init in
    existsb (fun f => bool_decide (f = ev)) fs &&
    forallb (fun f => negb (is_event f) || bool_decide (f = ev)) fs && (hr_base_bpm c' =? bpm))
    (seqZ 40 141)) (seqZ 40 141) = true) as Hall by (vm_compute; reflexivity).
  rewrite forallb_forall in Hall. specialize (Hall base).
  rewrite <- list_elem_of_In, elem_of_seqZ in Hall. unfold HR_BPM_MIN, HR_BPM_MAX in *.
  specialize (Hall ltac:(lia)). rewrite forallb_forall in Hall. specialize (Hall bpm).
  rewrite <- list_elem_of_In, elem_of_seqZ in Hall. specialize (Hall ltac:(lia)).
  rewrite (proj2 (Z.ltb_ge _ _)) in Hall by lia. cbn [orb] in Hall. fold ev in Hall.
  assert (change_run (H := shipped) (replicate 6 (true, bpm)) (armed base) o
    = change_run (H := shipped) (replicate 6 (true, bpm)) (armed base) change_out_init) as ->.
  { assert ((bpm =? 0) = false) as Hz by (apply Z.eqb_neq; lia).
    change (replicate 6 (true, bpm)) with ((true, bpm) :: replicate 5 (true, bpm)). cbn [change_run].
    assert (shUpdateHrChange (H := shipped) true bpm (armed base) o
      = shUpdateHrChange (H := shipped) true bpm (armed base) change_out_init) as ->
      by (unfold shUpdateHrChange, change_valid; rewrite Hz; cbn;
          rewrite (proj2 (Z.eqb_neq base 0)) by lia; done).
    done. }
  destruct (change_run _ _ _) as [fs [c' o']]. rewrite !andb_true_iff, Z.eqb_eq in Hall.
  destruct Hall as [[Hex Hfor] ->]. split; [| split; [| done]].
  - apply existsb_exists in Hex as (f & Hf & Hd). apply bool_decide_eq_true_1 in Hd as ->.
    by apply list_elem_of_In.
  - rewrite Forall_forall. intros f Hf Hev. rewrite forallb_forall in Hfor.
    specialize (Hfor f). rewrite <- list_elem_of_In in Hfor. specialize (Hfor Hf).
    rewrite Hev in Hfor. by apply bool_decide_eq_true_1 in Hfor.
Qed.

Lemma change_detects_witness :
  let '(fs, (c', _)) := change_run (H := shipped) (replicate 6 (true, 80)) (armed 70) change_out_init in
  smart_helmet_trend_rising ∈ fs /\
  Forall (fun f => is_event f = true -> f = smart_helmet_trend_rising) fs /\ hr_base_bpm c' = 80.
Proof. apply (change_detects 70 80 change_out_init); vdec. Defined.

(** * Loss of the baseline, and learning *)
Lemma change_invalid_run `{HelmetConfig} n c o b :
  ENABLE_HR_CUSUM = true -> 0 < HR_BASELINE_STALE_WIN <= 65535 -> 0 <= hr_invalid_run c ->
  hr_invalid_run c + Z.of_nat n < HR_BASELINE_STALE_WIN ->
  let '(_, (c', o')) := change_run (replicate n (false, b)) c o in
  c' = c <| hr_invalid_run := hr_invalid_run c + Z.of_nat n |> /\ hr_change o' = hr_change o.
Proof.
  intros Hen Hst. revert c o. induction n as [| n IH]; intros c o H0 Hn.
  - cbn [replicate change_run]. rewrite Z.add_0_r. by destruct c.
  - cbn [replicate change_run]. unfold shUpdateHrChange. rewrite Hen. cbn [negb orb].
    unfold change_invalid. rewrite (proj2 (Z.ltb_lt 0 _)) by lia. cbn.
    rewrite (proj2 (Z.ltb_lt (hr_invalid_run c) 65535)), u16_small by rlia.
    rewrite (proj2 (Z.leb_gt HR_BASELINE_STALE_WIN _)) by lia.
    match goal with |- context [change_run _ ?c1 ?o1] =>
      specialize (IH c1 o1); destruct (change_run (replicate n (false, b)) c1 o1) as [fs [c' o']] end.
    cbn in IH. destruct (IH ltac:(lia) ltac:(lia)) as [-> ->]. split; [| done]. f_equal. lia.
Qed.

(** A gap shorter than [HR_BASELINE_STALE_WIN] invalid windows keeps
    the baseline, the accumulators and the reported flag as they were;
    the window that completes it drops them all, so the next valid
    rate starts a new baseline instead of being reported as a change. *)
Theorem change_stale `{HelmetConfig} n b c o :
  ENABLE_HR_CUSUM = true -> 0 < HR_BASELINE_STALE_WIN <= 65535 ->
  hr_invalid_run c = 0 -> (1 <= n)%nat ->
  let '(_, (c', o')) := change_run (replicate n (false, b)) c o in
  (Z.of_nat n < HR_BASELINE_STALE_WIN ->
    c' = c <| hr_invalid_run := Z.of_nat n |> /\ hr_change o' = hr_change o) /\
  (Z.of_nat n = HR_BASELINE_STALE_WIN ->
    c' = mkchange 0 0 HR_BASELINE_STALE_WIN 0 0 /\ hr_change o' = smart_helmet_trend_unknown /\
    hr_base_bpm (fst (shUpdateHrChange true 70 c' o')) = 70).
Proof.
  intros Hen Hst Hr Hn. destruct (decide (Z.of_nat n < HR_BASELINE_STALE_WIN)) as [Hlt | Hge].
  - pose proof (change_invalid_run n c o b Hen Hst ltac:(lia) ltac:(lia)) as Hi.
    destruct (change_run _ _ _) as [fs [c' o']]. destruct Hi as [-> ->]. rewrite Hr. split; [done | lia].
  - destruct (decide (Z.of_nat n = HR_BASELINE_STALE_WIN)) as [Heq | Hne].
    2:{ destruct (change_run _ _ _) as [fs [c' o']]. split; intros; lia. }
    assert (exists m, n = (m + 1)%nat) as [m ->] by (exists (n - 1)%nat; lia).
    rewrite replicate_add. change (replicate 1 (false, b)) with [(false, b)].
    assert (forall ws w c o, change_run (ws ++ [w]) c o =
      let '(fs, (c1, o1)) := change_run ws c o in
      let '(c2, o2) := shUpdateHrChange (fst w) (snd w) c1 o1 in
      (fs ++ [hr_change o2], (c2, o2))) as Happ.
    { clear. induction ws as [| [v b] ws IH]; intros [v' b'] c o; cbn [change_run app fst snd].
      - by destruct (shUpdateHrChange v' b' c o).
      - destruct (shUpdateHrChange v b c o) as [c1 o1]. rewrite IH.
        destruct (change_run ws c1 o1) as [fs [c2 o2]]. cbn [fst snd].
        by destruct (shUpdateHrChange v' b' c2 o2). }
    rewrite Happ. pose proof (change_invalid_run m c o b Hen Hst ltac:(lia) ltac:(lia)) as Hi.
    destruct (change_run (replicate m (false, b)) c o) as [fs [c1 o1]]. destruct Hi as [-> _].
    rewrite Hr, Z.add_0_l. cbn [fst snd].
    unfold shUpdateHrChange at 1. rewrite Hen. cbn [negb orb].
    unfold change_invalid. rewrite (proj2 (Z.ltb_lt 0 _)) by lia. cbn.
    rewrite (proj2 (Z.ltb_lt (Z.of_nat m) 65535)), u16_small by rlia.
    rewrite (proj2 (Z.leb_le HR_BASELINE_STALE_WIN _)) by lia. cbn. split; [lia |]. intros _.
    replace (Z.of_nat m + 1) with HR_BASELINE_STALE_WIN by lia. split; [done |]. split; [done |].
    unfold shUpdateHrChange. rewrite Hen. cbn [negb orb]. change (70 =? 0) with false.
    unfold change_valid. rewrite (proj2 (Z.ltb_lt 0 _)) by lia. reflexivity.
Qed.

Lemma change_stale_witness :
  let '(_, (c', o')) := change_run (H := shipped) (replicate 15 (false, 0)) (armed 70) change_out_init in
  (Z.of_nat 15 < 15 ->
    c' = (armed 70) <| hr_invalid_run := Z.of_nat 15 |> /\ hr_change o' = hr_change change_out_init) /\
  (Z.of_nat 15 = 15 ->
    c' = mkchange 0 0 15 0 0 /\ hr_change o' = smart_helmet_trend_unknown /\
    hr_base_bpm (fst (shUpdateHrChange (H := shipped) true 70 c' o')) = 70).
Proof. apply (@change_stale shipped 15 0 (armed 70) change_out_init); (reflexivity || vdec || lia). Defined.
