(* ===== verification/Decimal.v ===== *)
(** Decimal text: the digit loops of shTelemU32 (vitals) and shAppendU
    (report), and reading the text back. *)
From stdpp Require Export strings.
From S2P Require Import Prelude Config Dsp Ring.
#[global] Open Scope Z_scope.

(** * Characters

    A [char] is its code. *)
Definition chars (s : string) : list Z :=
  (fun a => Z.of_N (Ascii.N_of_ascii a)) <$> String.list_ascii_of_string s.

(** * Digits

    [while (v && i < sizeof(tmp)) { tmp[i++] = '0' + v % 10; v /= 10; }]:
    the digits come out last first. *)
Definition digits_loop (size v : Z) : list Z :=
  snd (while_ (S (Z.to_nat size))
    (fun '(v, tmp) => negb (v =? 0) && (alen tmp <? size))
    (fun '(v, tmp) => (v / 10, tmp ++ [48 + v mod 10]))
    (v, [])).

(** * Vocabulary of the specifications *)

(** The text of a natural number. *)
Definition dec (v : Z) : list Z := if v =? 0 then [48] else rev (digits_loop 10 v).

(** The text of an integer. *)
Definition dec_int (v : Z) : list Z := if v <? 0 then 45 :: dec (- v) else dec v.

(** Reading digits. *)
Definition parse_nat (l : list Z) : Z := fold_left (fun a c => a * 10 + (c - 48)) l 0.
Definition parse_int (l : list Z) : Z :=
  match l with
  | c :: l' => if c =? 45 then - parse_nat l' else parse_nat l
  | [] => 0
  end.

Definition is_digit (c : Z) : Prop := 48 <= c <= 57.

(** Splitting at a separator, and joining. *)
Fixpoint split_on (sep : Z) (l : list Z) : list (list Z) :=
  match l with
  | [] => [[]]
  | c :: l =>
    let r := split_on sep l in
    if c =? sep then [] :: r
    else match r with p :: r => (c :: p) :: r | [] => [[c]] end
  end.

Fixpoint join (sep : Z) (ls : list (list Z)) : list Z :=
  match ls with
  | [] => []
  | [l] => l
  | l :: ls => l ++ sep :: join sep ls
  end.

(** * Digits are read back *)
Lemma parse_nat_snoc l c : parse_nat (l ++ [c]) = parse_nat l * 10 + (c - 48).
Proof. unfold parse_nat. by rewrite fold_left_app. Qed.

(** The value of digits given last first. *)
Fixpoint value_rev (l : list Z) : Z :=
  match l with [] => 0 | c :: l => (c - 48) + 10 * value_rev l end.

Lemma parse_rev l : parse_nat (rev l) = value_rev l.
Proof.
  induction l as [| c l IH]; [done |]. cbn [rev value_rev]. rewrite parse_nat_snoc, IH. lia.
Qed.

Lemma value_rev_app l k : value_rev (l ++ k) = value_rev l + 10 ^ alen l * value_rev k.
Proof.
  induction l as [| c l IH]; cbn [app value_rev]; [change (alen []) with 0; lia |].
  rewrite IH. replace (alen (c :: l)) with (Z.succ (alen l)) by (unfold alen; cbn [length]; lia).
  rewrite Z.pow_succ_r by apply alen_nonneg. lia.
Qed.

Lemma digits_loop_spec size v :
  0 <= size -> 0 <= v < 10 ^ size ->
  value_rev (digits_loop size v) = v /\ Forall is_digit (digits_loop size v) /\
  alen (digits_loop size v) <= size /\ (v <> 0 -> digits_loop size v <> []) /\
  (forall k, 0 <= k -> v < 10 ^ k -> alen (digits_loop size v) <= k).
Proof.
  intros Hs Hv. unfold digits_loop.
  destruct (while_spec (fun '(u, tmp) => 0 <= u /\ value_rev tmp + 10 ^ alen tmp * u = v /\
      Forall is_digit tmp /\ alen tmp <= size /\ (v <> 0 -> tmp = [] -> u = v) /\
      (tmp <> [] -> 10 ^ (alen tmp - 1) <= v))
    (fun '(_, tmp) => Z.to_nat (size - alen tmp)) (S (Z.to_nat size))
    (fun '(v, tmp) => negb (v =? 0) && (alen tmp <? size))
    (fun '(v, tmp) => (v / 10, tmp ++ [48 + v mod 10])) (v, [])) as [HP HC].
  - change (alen []) with 0. split_and!; try done; try lia. cbn. lia.
  - change (alen []) with 0. lia.
  - intros [u tmp] (Hu & Hval & Hd & Hl & He & Hge) Hc.
    rewrite andb_true_iff, negb_true_iff, Z.eqb_neq, Z.ltb_lt in Hc. destruct Hc as [Hu0 Hlt].
    rewrite alen_app. change (alen [48 + u mod 10]) with 1. pose proof (alen_nonneg tmp).
    pose proof (Z.mod_pos_bound u 10 ltac:(lia)).
    assert (0 < 10 ^ alen tmp) by (apply Z.pow_pos_nonneg; lia).
    assert (0 <= value_rev tmp) as Hv0.
    { clear -Hd. induction Hd as [| c l Hc Hl IH]; cbn [value_rev]; [lia |]. unfold is_digit in Hc. lia. }
    split; [| lia]. split; [apply Z.div_pos; lia |]. split.
    { rewrite value_rev_app, Z.pow_add_r by lia. cbn [value_rev].
      rewrite <- Hval. pose proof (Z.div_mod u 10 ltac:(lia)). change (10 ^ 1) with 10.
      replace (48 + u mod 10 - 48 + 10 * 0) with (u mod 10) by lia. nia. }
    split; [apply Forall_app_2; [done | repeat constructor; unfold is_digit; lia] |].
    split; [lia |]. split; [intros _ Hnil; by destruct tmp |].
    intros _. replace (alen tmp + 1 - 1) with (alen tmp) by lia. nia.
  - destruct (while_ _ _ _ _) as [u tmp]. cbn [snd]. destruct HP as (Hu & Hval & Hd & Hl & He & Hge).
    pose proof (alen_nonneg tmp).
    assert (0 <= value_rev tmp) as Hv0.
    { clear -Hd. induction Hd as [| c l Hc Hl IH]; cbn [value_rev]; [lia |]. unfold is_digit in Hc. lia. }
    assert (u = 0) as ->.
    { rewrite andb_false_iff, negb_false_iff, Z.eqb_eq, Z.ltb_ge in HC. destruct HC as [? | HC]; [done |].
      assert (alen tmp = size) as E by lia. rewrite E in Hval. assert (0 < 10 ^ size) by lia. nia. }
    split; [lia |]. split; [done |]. split; [done |]. split.
    + intros Hv0' Hnil. specialize (He Hv0' Hnil). lia.
    + intros k Hk Hlt. destruct tmp as [| c tmp]; [change (alen []) with 0; lia |].
      specialize (Hge ltac:(done)). destruct (Z.le_gt_cases (alen (c :: tmp)) k); [done |].
      assert (10 ^ k <= 10 ^ (alen (c :: tmp) - 1)) by (apply Z.pow_le_mono_r; lia). lia.
Qed.

Lemma alen_rev l : alen (rev l) = alen l.
Proof. unfold alen. by rewrite length_rev. Qed.

Lemma dec_spec v :
  0 <= v < 10 ^ 10 ->
  parse_nat (dec v) = v /\ Forall is_digit (dec v) /\ dec v <> [] /\
  (forall k, 1 <= k -> v < 10 ^ k -> alen (dec v) <= k).
Proof.
  intros Hv. unfold dec. destruct (Z.eqb_spec v 0) as [-> | Hv0].
  - split_and!; [done | repeat constructor; unfold is_digit; lia | done |].
    intros k Hk _. change (alen [48]) with 1. lia.
  - destruct (digits_loop_spec 10 v) as (E & Hd & _ & Hne & Hk); [lia | lia |].
    rewrite parse_rev, E. split; [done |]. split; [by apply Forall_rev |]. split.
    + intros Hr. apply (f_equal alen) in Hr. rewrite alen_rev in Hr.
      apply Hne; [done |]. unfold alen in Hr. destruct (digits_loop 10 v); [done | cbn in Hr; lia].
    + intros k ? ?. rewrite alen_rev. apply Hk; lia.
Qed.

Lemma parse_int_dec_int v : - 10 ^ 10 < v < 10 ^ 10 -> parse_int (dec_int v) = v.
Proof.
  intros Hv. unfold dec_int, parse_int. destruct (Z.ltb_spec v 0).
  - rewrite Z.eqb_refl. destruct (dec_spec (- v)) as [-> _]; lia.
  - destruct (dec_spec v ltac:(lia)) as (E & Hd & Hne & _). destruct (dec v) as [| c l]; [done |].
    inversion Hd; subst. unfold is_digit in *. rewrite (proj2 (Z.eqb_neq c 45)) by lia. done.
Qed.

(** The characters of a number are never a separator. *)
Lemma dec_int_chars v sep :
  - 10 ^ 10 < v < 10 ^ 10 -> ~ is_digit sep -> sep <> 45 -> Forall (fun c => c <> sep) (dec_int v).
Proof.
  intros Hv Hd Hs. assert (forall u, 0 <= u < 10 ^ 10 -> Forall (fun c => c <> sep) (dec u)) as Hu.
  { intros u Hu. destruct (dec_spec u Hu) as (_ & H & _). eapply Forall_impl; [exact H |].
    intros c Hc ->. done. }
  unfold dec_int. destruct (Z.ltb_spec v 0).
  - constructor; [congruence | apply Hu; lia].
  - apply Hu. lia.
Qed.

Lemma alen_dec_int v k : 1 <= k <= 10 -> - 10 ^ k < v < 10 ^ k ->
  alen (dec_int v) <= k + (if v <? 0 then 1 else 0).
Proof.
  intros Hk Hv. assert (10 ^ k <= 10 ^ 10) by (apply Z.pow_le_mono_r; lia).
  unfold dec_int. zcase.
  - destruct (dec_spec (- v)) as (_ & _ & _ & Hl); [lia |]. specialize (Hl k ltac:(lia) ltac:(lia)).
    unfold alen in *. cbn [length]. lia.
  - destruct (dec_spec v) as (_ & _ & _ & Hl); [lia |]. specialize (Hl k ltac:(lia) ltac:(lia)). lia.
Qed.

(** * Separators *)
Lemma split_on_app sep l k :
  Forall (fun c => c <> sep) l ->
  split_on sep (l ++ sep :: k) = l :: split_on sep k.
Proof.
  induction 1 as [| c l Hc Hl IH]; cbn [app split_on]; [by rewrite Z.eqb_refl |].
  rewrite IH. by rewrite (proj2 (Z.eqb_neq c sep)).
Qed.

Lemma split_on_none sep l : Forall (fun c => c <> sep) l -> split_on sep l = [l].
Proof.
  induction 1 as [| c l Hc Hl IH]; cbn [split_on]; [done |].
  rewrite IH. by rewrite (proj2 (Z.eqb_neq c sep)).
Qed.

Lemma split_join sep ls :
  ls <> [] -> Forall (Forall (fun c => c <> sep)) ls -> split_on sep (join sep ls) = ls.
Proof.
  intros Hne Hls. induction Hls as [| l ls Hl Hls IH]; [done |]. destruct ls as [| l' ls].
  - by apply split_on_none.
  - change (join sep (l :: l' :: ls)) with (l ++ sep :: join sep (l' :: ls)).
    rewrite split_on_app by done. by rewrite IH.
Qed.

(** * The digits do not depend on the size of the buffer *)
Fixpoint digs (n : nat) (v : Z) : list Z :=
  match n with
  | O => []
  | S n => if v =? 0 then [] else (48 + v mod 10) :: digs n (v / 10)
  end.

Lemma digs_fuel n : forall m v, 0 <= v < 10 ^ Z.of_nat n -> v < 10 ^ Z.of_nat m -> digs n v = digs m v.
Proof.
  induction n as [| n IH]; intros m v Hv Hm.
  - assert (v = 0) as -> by (change (10 ^ Z.of_nat 0) with 1 in Hv; lia). by destruct m.
  - destruct m as [| m]; [assert (v = 0) as -> by (change (10 ^ Z.of_nat 0) with 1 in Hm; lia); done |].
    cbn [digs]. destruct (v =? 0); [done |]. f_equal.
    rewrite Nat2Z.inj_succ, Z.pow_succ_r in Hv, Hm by lia.
    apply IH; (split || idtac); try (apply Z.div_pos; lia); apply Z.div_lt_upper_bound; lia.
Qed.

Lemma digits_loop_digs size v : 0 <= size -> 0 <= v < 10 ^ size -> digits_loop size v = digs (S (Z.to_nat size)) v.
Proof.
  intros Hs Hv. unfold digits_loop.
  assert (forall n u tmp, (Z.to_nat (size - alen tmp) < n)%nat -> alen tmp <= size -> 0 <= u < 10 ^ (size - alen tmp) ->
    snd (while_ n (fun '(v, tmp) => negb (v =? 0) && (alen tmp <? size))
      (fun '(v, tmp) => (v / 10, tmp ++ [48 + v mod 10])) (u, tmp)) = tmp ++ digs n u) as Hg.
  { induction n as [| n IH]; intros u tmp Hn Hl Hu; [lia |]. cbn [while_ digs].
    destruct (Z.eqb_spec u 0) as [-> | Hu0]; cbn [negb andb]; [by rewrite app_nil_r |].
    destruct (Z.ltb_spec (alen tmp) size) as [Hlt | Hge].
    - rewrite IH; rewrite ?alen_app; change (alen [48 + u mod 10]) with 1; [by rewrite <- app_assoc | lia | lia |].
      split; [apply Z.div_pos; lia |]. apply Z.div_lt_upper_bound; [lia |].
      rewrite <- Z.pow_succ_r by lia. replace (Z.succ (size - (alen tmp + 1))) with (size - alen tmp) by lia. lia.
    - exfalso. replace (size - alen tmp) with 0 in Hu by lia. lia. }
  rewrite Hg; [done | change (alen []) with 0; lia | change (alen []) with 0; lia |].
  change (alen []) with 0. by rewrite Z.sub_0_r.
Qed.

Lemma digits_loop_dec size v : 0 <= size <= 10 -> 0 < v < 10 ^ size -> rev (digits_loop size v) = dec v.
Proof.
  intros Hs Hv. assert (10 ^ size <= 10 ^ 10) by (apply Z.pow_le_mono_r; lia).
  unfold dec. rewrite (proj2 (Z.eqb_neq v 0)) by lia. f_equal. rewrite !digits_loop_digs by lia.
  assert (forall s, 0 <= s -> v < 10 ^ s -> v < 10 ^ Z.of_nat (S (Z.to_nat s))) as Hp.
  { intros s Hs0 Hlt. rewrite Nat2Z.inj_succ, Z2Nat.id, Z.pow_succ_r by lia. lia. }
  apply digs_fuel; [split; [lia |]; apply Hp; lia | apply Hp; lia].
Qed.
