(* ===== verification/Telemetry.v ===== *)
(** The CSV builder of the vitals telemetry (shTelem...): records of signed
    integers assembled in a bounded buffer and handed to the registered sink. *)
From S2P Require Import Prelude Config Dsp Ring Decimal.

(** * State

    [sh_telem] is the text before the terminator; [sh_sink] tells whether a
    sink is registered, [telem_out] the records it has received. *)
Record telem_st := mktelem {
  sh_telem : list Z;
  sh_sink : bool;
  sh_win_seq : Z;
  sh_dump_seq : Z;
  telem_out : list (list Z) }.

#[export] Instance telem_st_eta : RecordEta telem_st := fun r =>
  mktelem (sh_telem r) (sh_sink r) (sh_win_seq r) (sh_dump_seq r) (telem_out r).

Definition telem_init : telem_st := mktelem [] false 0 0 [].

(** * Operations *)
Definition shTelemReset (t : telem_st) : telem_st := t <| sh_telem := [] |>.

(** Room is left for the terminator. *)
Definition shTelemChar (c : Z) (t : telem_st) : telem_st :=
  if alen (sh_telem t) + 1 <? TELEMETRY_LINE_MAX
  then t <| sh_telem ::= (fun l => l ++ [c]) |> else t.

Definition telem_chars (l : list Z) (t : telem_st) : telem_st :=
  fold_left (fun t c => shTelemChar c t) l t.

Definition shTelemU32 (v : Z) (t : telem_st) : telem_st :=
  if v =? 0 then shTelemChar 48 t else telem_chars (rev (digits_loop 10 v)) t.

Definition shTelemFieldI32 (v : Z) (t : telem_st) : telem_st :=
  let t := if negb (alen (sh_telem t) =? 0) then shTelemChar 44 t else t in
  if v <? 0 then shTelemU32 (u32 (0 - u32 v)) (shTelemChar 45 t)
  else shTelemU32 (u32 v) t.

Definition shTelemFlush (t : telem_st) : telem_st :=
  shTelemReset
    (if sh_sink t && negb (alen (sh_telem t) =? 0)
     then t <| telem_out ::= (fun o => o ++ [sh_telem t]) |> else t).

(** A record: reset, the fields in order, flush. *)
Definition telem_record (vs : list Z) (t : telem_st) : telem_st :=
  shTelemFlush (fold_left (fun t v => shTelemFieldI32 v t) vs (shTelemReset t)).

(** [SmartHelmet_VitalsSetSink] with a sink ([true]) or NULL. *)
Definition SmartHelmet_VitalsSetSink `{HelmetConfig} (sink : bool) (t : telem_st) : telem_st :=
  if ENABLE_VITALS_CSV || ENABLE_SENS_DUMP then shTelemReset (t <| sh_sink := sink |>) else t.

(** The raw-sample record of [PushSensInMvAt]. *)
Definition telem_dump `{HelmetConfig} (mv time_us : Z) (t : telem_st) : telem_st :=
  if ENABLE_SENS_DUMP && sh_sink t then
    (telem_record [i32 (sh_dump_seq t); mv; i32 time_us] t) <| sh_dump_seq ::= (fun n => u32 (n + 1)) |>
  else t.

(** The window record, from the values of its columns after the first. *)
Definition telem_window (cols : list Z) (t : telem_st) : telem_st :=
  if sh_sink t then
    (telem_record (i32 (sh_win_seq t) :: cols) t) <| sh_win_seq ::= (fun n => u32 (n + 1)) |>
  else t.

(** * Vocabulary of the specifications *)

(** The text of a record of unlimited length. *)
Definition csv_text (vs : list Z) : list Z := join 44 (dec_int <$> vs).

(** What a reader of the record gets. *)
Definition csv_read (l : list Z) : list Z := parse_int <$> split_on 44 l.

(** What fits the buffer. *)
Definition fit (l : list Z) : list Z := take 159 l.

(** * The builder truncates the unlimited text *)
Lemma fit_char l c t :
  sh_telem t = fit l -> shTelemChar c t = t <| sh_telem := fit (l ++ [c]) |>.
Proof.
  unfold shTelemChar, fit, TELEMETRY_LINE_MAX. intros Ht. rewrite Ht.
  destruct (Z.ltb_spec (alen (take 159 l) + 1) 160) as [Hl | Hl]; unfold alen in Hl;
    rewrite length_take in Hl; destruct t as [tt s w d o]; cbn [sh_telem] in Ht; subst tt;
    unfold field_set; f_equal.
  - rewrite (take_ge l) by lia.
    rewrite (take_ge (l ++ [c])) by (rewrite length_app; cbn [length]; lia). done.
  - rewrite take_app_le by lia. done.
Qed.

Lemma fit_chars l k t :
  sh_telem t = fit l -> telem_chars k t = t <| sh_telem := fit (l ++ k) |>.
Proof.
  revert l t. induction k as [| c k IH]; intros l t Ht; cbn [telem_chars fold_left].
  - rewrite app_nil_r, <- Ht. by destruct t.
  - rewrite (fit_char l c t Ht). change (fold_left _ k ?x) with (telem_chars k x).
    rewrite (IH (l ++ [c])) by done. by rewrite <- app_assoc.
Qed.

Lemma fit_u32 l v t :
  is_u32 v -> sh_telem t = fit l -> shTelemU32 v t = t <| sh_telem := fit (l ++ dec v) |>.
Proof.
  intros Hv Ht. unfold shTelemU32, dec. destruct (v =? 0).
  - by apply fit_char.
  - by apply fit_chars.
Qed.

Lemma fit_field l v t :
  is_i32 v -> sh_telem t = fit l ->
  shTelemFieldI32 v t = t <| sh_telem := fit ((if alen l =? 0 then l else l ++ [44]) ++ dec_int v) |>.
Proof.
  intros Hv Ht. unfold shTelemFieldI32.
  assert ((alen (sh_telem t) =? 0) = (alen l =? 0)) as ->.
  { rewrite Ht. unfold fit, alen. rewrite length_take. repeat zcase; lia. }
  set (t1 := if negb (alen l =? 0) then shTelemChar 44 t else t).
  set (l1 := if alen l =? 0 then l else l ++ [44]).
  assert (t1 = t <| sh_telem := fit l1 |>) as ->.
  { unfold t1, l1. destruct (alen l =? 0); cbn [negb].
    - rewrite <- Ht. by destruct t.
    - by apply fit_char. }
  unfold dec_int. destruct (Z.ltb_spec v 0).
  - rewrite (fit_char l1) by done.
    replace (u32 (0 - u32 v)) with (- v) by (unfold u32; unfold_ranges; zlia).
    rewrite (fit_u32 (l1 ++ [45])) by (done || rlia). rewrite <- app_assoc. done.
  - rewrite u32_small by rlia. rewrite (fit_u32 l1) by (done || rlia). done.
Qed.

Lemma dec_int_ne v : is_i32 v -> dec_int v <> [].
Proof.
  intros Hv. unfold dec_int. destruct (Z.ltb_spec v 0); [done |].
  destruct (dec_spec v ltac:(rlia)) as (_ & _ & ? & _). done.
Qed.

Lemma fit_fields vs l t :
  Forall is_i32 vs -> sh_telem t = fit l ->
  fold_left (fun t v => shTelemFieldI32 v t) vs t =
    t <| sh_telem := fit (if alen l =? 0 then csv_text vs
                          else match vs with [] => l | _ => l ++ 44 :: csv_text vs end) |>.
Proof.
  intros Hvs. revert l t. induction Hvs as [| v vs Hv Hvs IH]; intros l t Ht; cbn [fold_left].
  - destruct (Z.eqb_spec (alen l) 0) as [E |].
    + destruct l; [| unfold alen in E; cbn in E; lia]. destruct t. cbn [sh_telem] in Ht. by subst.
    + rewrite <- Ht. by destruct t.
  - rewrite (fit_field l v t Hv Ht). set (l1 := (if alen l =? 0 then l else l ++ [44]) ++ dec_int v).
    rewrite (IH l1) by done. cbn [field_set]. f_equal. f_equal.
    assert (alen l1 <> 0) as Hl1.
    { unfold l1. rewrite alen_app. pose proof (dec_int_ne v Hv). destruct (dec_int v); [done |].
      unfold alen. cbn [length]. lia. }
    rewrite (proj2 (Z.eqb_neq _ 0) Hl1). unfold l1.
    assert (csv_text (v :: vs) = dec_int v ++ match vs with [] => [] | _ => 44 :: csv_text vs end) as ->.
    { unfold csv_text. destruct vs; cbn; [by rewrite app_nil_r | done]. }
    destruct (Z.eqb_spec (alen l) 0) as [E |].
    + destruct l; [| unfold alen in E; cbn in E; lia]. destruct vs; [by rewrite app_nil_r | done].
    + rewrite <- !app_assoc. destruct vs; cbn; [by rewrite app_nil_r | done].
Qed.

Lemma telem_record_eq vs t :
  Forall is_i32 vs -> vs <> [] ->
  telem_record vs t = mktelem [] (sh_sink t) (sh_win_seq t) (sh_dump_seq t)
    (if sh_sink t then telem_out t ++ [fit (csv_text vs)] else telem_out t).
Proof.
  intros Hvs Hne. unfold telem_record. rewrite (fit_fields vs []) by done.
  change (alen [] =? 0) with true. unfold shTelemFlush, shTelemReset. cbn.
  assert ((alen (fit (csv_text vs)) =? 0) = false) as ->.
  { apply Z.eqb_neq. destruct vs as [| v vs]; [done |]. inversion Hvs; subst.
    pose proof (dec_int_ne v ltac:(done)) as Hd. unfold csv_text. cbn [fmap list_fmap join].
    destruct (dec_int v) as [| c d]; [done |].
    unfold fit, alen. rewrite length_take. destruct (dec_int <$> vs); simpl; lia. }
  rewrite andb_true_r. by destruct (sh_sink t).
Qed.

Lemma csv_round_trip vs :
  Forall is_i32 vs -> vs <> [] -> csv_read (csv_text vs) = vs.
Proof.
  intros Hvs Hne. unfold csv_read, csv_text. rewrite split_join.
  - rewrite <- list_fmap_compose. rewrite <- (list_fmap_id vs) at 2.
    apply list_fmap_ext. intros i v Hv. rewrite Forall_lookup in Hvs. specialize (Hvs i v Hv).
    unfold is_i32 in Hvs. change (parse_int (dec_int v) = v).
    apply parse_int_dec_int. lia.
  - by destruct vs.
  - apply Forall_fmap. eapply Forall_impl; [exact Hvs |]. intros v Hv. unfold is_i32 in Hv.
    apply dec_int_chars; [lia | unfold is_digit; lia | lia].
Qed.

(** Telemetry round trip: with a sink registered, a record of signed
    32-bit values that fits the line buffer is delivered once, whole, and a
    reader that splits it at the commas gets exactly those values back
    (the most negative value included); without a sink nothing is
    delivered.  A record that does not fit is cut at the buffer, never written past it. *)
Theorem telem_record_round_trip vs t :
  Forall is_i32 vs -> vs <> [] ->
  let t' := telem_record vs t in
  sh_telem t' = [] /\
  (sh_sink t = false -> telem_out t' = telem_out t) /\
  (sh_sink t = true -> exists line, telem_out t' = telem_out t ++ [line] /\
    alen line < TELEMETRY_LINE_MAX /\ line = fit (csv_text vs) /\
    (alen (csv_text vs) < TELEMETRY_LINE_MAX -> csv_read line = vs)).
Proof.
  intros Hvs Hne. cbv zeta. rewrite telem_record_eq by done. cbn.
  split; [done |]. split; [by intros -> |]. intros ->. exists (fit (csv_text vs)).
  split; [done |]. unfold TELEMETRY_LINE_MAX. split; [unfold fit, alen; rewrite length_take; lia |].
  split; [done |]. intros Hl. unfold fit. rewrite take_ge by (unfold alen in Hl; lia).
  by apply csv_round_trip.
Qed.

Lemma telem_record_round_trip_witness :
  let t := telem_init <| sh_sink := true |> in
  let t' := telem_record [-2147483648; 0; 907] t in
  sh_telem t' = [] /\
  (sh_sink t = false -> telem_out t' = telem_out t) /\
  (sh_sink t = true -> exists line, telem_out t' = telem_out t ++ [line] /\
    alen line < TELEMETRY_LINE_MAX /\ line = fit (csv_text [-2147483648; 0; 907]) /\
    (alen (csv_text [-2147483648; 0; 907]) < TELEMETRY_LINE_MAX -> csv_read line = [-2147483648; 0; 907])).
Proof.
  apply (telem_record_round_trip [-2147483648; 0; 907] (telem_init <| sh_sink := true |>)); [vdec | done].
Defined.
