(* ===== verification/Vitals.v ===== *)
(** The vitals engine: the module state of smart_helmet_vitals.c, the
    sample inputs, and SmartHelmet_VitalsProcess composed from the
    components as the code composes them. *)
From S2P Require Import Prelude Config Dsp Ring ISort Peak Fft Corr Adapt Fuse Change Decimal Telemetry.

(** * State *)
Inductive smart_helmet_motion_gate_t := smart_helmet_motion_calm | smart_helmet_motion_active.

#[export] Instance motion_eq_dec : EqDecision smart_helmet_motion_gate_t.
Proof. solve_decision. Defined.

(** [smart_helmet_vitals_status_t]; the members that shFuseHr and
    shUpdateHrChange write are grouped in [st_hr] and [st_chg]. *)
Record vitals_status := mkstatus {
  st_motion : smart_helmet_motion_gate_t;
  st_trend : smart_helmet_trend_flag_t;
  st_motion_rms_mg : Z;
  st_motion_min_mg : Z;
  st_motion_peak_mg : Z;
  st_fall_pending : bool;
  st_band_energy : Z;
  st_baseline_energy : Z;
  st_pir_events_win : Z;
  st_sens_mv : Z;
  st_valid : bool;
  st_hr_ac_q8 : Z;
  st_fs_x100 : Z;
  st_fs_jitter_pct : Z;
  st_sens_dropped : Z;
  st_resp_bpm : Z;
  st_resp_q8 : Z;
  st_resp_valid : bool;
  st_adapt_removed_pct : Z;
  st_hr_win_left : Z;
  st_hr : hr_out;
  st_chg : change_out }.

#[export] Instance vitals_status_eta : RecordEta vitals_status := fun r =>
  mkstatus (st_motion r) (st_trend r) (st_motion_rms_mg r) (st_motion_min_mg r) (st_motion_peak_mg r)
    (st_fall_pending r) (st_band_energy r) (st_baseline_energy r) (st_pir_events_win r)
    (st_sens_mv r) (st_valid r) (st_hr_ac_q8 r) (st_fs_x100 r) (st_fs_jitter_pct r)
    (st_sens_dropped r) (st_resp_bpm r) (st_resp_q8 r) (st_resp_valid r) (st_adapt_removed_pct r)
    (st_hr_win_left r) (st_hr r) (st_chg r).

Definition hr_out_zero : hr_out := mkhr 0 0 0 0 0 0 false hr_ok.

(** [memset] to zero. *)
Definition status_zero : vitals_status :=
  mkstatus smart_helmet_motion_calm smart_helmet_trend_unknown 0 0 0 false 0 0 0 0 false
    0 0 0 0 0 0 false 0 0 hr_out_zero change_out_init.

(** The accelerometer ring: four buffers with one index. *)
Record motion_ring := mkmotion {
  motion_mag : list Z;
  motion_ax : list Z;
  motion_ay : list Z;
  motion_az : list Z;
  motion_idx : Z;
  motion_count : Z }.

#[export] Instance motion_ring_eta : RecordEta motion_ring := fun r =>
  mkmotion (motion_mag r) (motion_ax r) (motion_ay r) (motion_az r) (motion_idx r) (motion_count r).

Definition motion_empty : motion_ring :=
  let z := replicate 25 0 in mkmotion z z z z 0 0.

(** The skin-motion bands. *)
Record bio_st := mkbio {
  bio_lp_fast : Z;
  bio_lp_slow : Z;
  bio_resp_fast : Z;
  bio_resp_slow : Z;
  bio_pulse_abs : Z;
  bio_resp_abs : Z }.

#[export] Instance bio_st_eta : RecordEta bio_st := fun r =>
  mkbio (bio_lp_fast r) (bio_lp_slow r) (bio_resp_fast r) (bio_resp_slow r)
    (bio_pulse_abs r) (bio_resp_abs r).

(** The measured time base. *)
Record ts_st := mkts {
  ts_prev_us : Z;
  ts_prev_valid : bool;
  ts_sum_us : Z;
  ts_jit_sum_us : Z;
  ts_n : Z;
  timebase_ok : bool;
  fs_q8 : Z }.

#[export] Instance ts_st_eta : RecordEta ts_st := fun r =>
  mkts (ts_prev_us r) (ts_prev_valid r) (ts_sum_us r) (ts_jit_sum_us r) (ts_n r)
    (timebase_ok r) (fs_q8 r).

Definition ts_init : ts_st := mkts 0 false 0 0 0 true (VITALS_FS_HZ * 256).

(** All the statics of the module; [still_run] is the static of the motion
    gate. *)
Record vitals := mkvitals {
  v_st : vitals_status;
  v_mot : motion_ring;
  v_fall : bool;
  v_band : ring;
  v_hp : Z * Z;
  v_sens : ring;
  v_sens_prev : Z * Z;
  v_bio : bio_st;
  pir_events : Z;
  sens_edge_armed : bool;
  sens_since_process : Z;
  calm_windows : Z;
  v_guard : hr_guard;
  prev_sens_mv : Z;
  prev_sens_mv_valid : bool;
  sens_dropped : Z;
  v_ts : ts_st;
  v_resp : resp_st;
  v_chg : change_st;
  v_adapt : adapt_st;
  v_smooth : fft_smooth;
  v_telem : telem_st;
  still_run : Z }.

#[export] Instance vitals_eta : RecordEta vitals := fun r =>
  mkvitals (v_st r) (v_mot r) (v_fall r) (v_band r) (v_hp r) (v_sens r) (v_sens_prev r) (v_bio r)
    (pir_events r) (sens_edge_armed r) (sens_since_process r) (calm_windows r) (v_guard r)
    (prev_sens_mv r) (prev_sens_mv_valid r) (sens_dropped r) (v_ts r) (v_resp r) (v_chg r)
    (v_adapt r) (v_smooth r) (v_telem r) (still_run r).

(** The statics before the first call: zero, or their initialisers. *)
Definition vitals_start `{HelmetConfig} : vitals :=
  mkvitals status_zero motion_empty false (ring_empty BAND_WIN) (0, 0) (ring_empty BAND_WIN) (0, 0)
    (mkbio 0 0 0 0 0 0) 0 false 0 0 (mkguard 0 0 false 0) 0 false 0 ts_init resp_init change_init
    shMotionAdaptReset shFftSmoothReset telem_init 0.

(** [SmartHelmet_VitalsInit] keeps the sink and [still_run]. *)
Definition SmartHelmet_VitalsInit `{HelmetConfig} (v : vitals) : vitals :=
  mkvitals status_zero motion_empty false (ring_empty BAND_WIN) (0, 0) (ring_empty BAND_WIN) (0, 0)
    (mkbio 0 0 0 0 0 0) 0 true 0 0 (mkguard HR_DISTURB_HOLDOFF_WIN 0 false 0) 0 false 0
    (if ENABLE_VITALS_TIMESTAMP then ts_init else (v_ts v) <| fs_q8 := VITALS_FS_HZ * 256 |>)
    (if ENABLE_RESP then resp_init else v_resp v)
    (if ENABLE_HR_CUSUM then change_init else v_chg v)
    (if ENABLE_HR_MOTION_ADAPT then shMotionAdaptReset else v_adapt v)
    (if ENABLE_HR_FFT then shFftSmoothReset else v_smooth v)
    (let t := if ENABLE_VITALS_CSV || ENABLE_SENS_DUMP then shTelemReset (v_telem v) else v_telem v in
     let t := if ENABLE_VITALS_CSV then t <| sh_win_seq := 0 |> else t in
     if ENABLE_SENS_DUMP then t <| sh_dump_seq := 0 |> else t)
    (still_run v).

(** * Falls *)
Definition shNoteFallMag (mag : Z) (v : vitals) : vitals :=
  if mag =? 0 then v else
  if (FALL_IMPACT_MG <=? mag) || (mag <=? FALL_FREEFALL_MG) then v <| v_fall := true |> else v.

Definition shNoteFallWindow (rms mn pk : Z) (v : vitals) : vitals :=
  let swing := if mn <? pk then u16 (pk - mn) else 0 in
  if (FALL_RMS_MG <=? rms) || (FALL_IMPACT_MG <=? pk) ||
     ((0 <? mn) && (mn <=? FALL_FREEFALL_MG)) || (FALL_SWING_MG <=? swing)
  then v <| v_fall := true |> else v.

Definition SmartHelmet_VitalsTakeFall (v : vitals) : bool * vitals :=
  (v_fall v, v <| v_fall := false |> <| v_st ::= (fun s => s <| st_fall_pending := false |>) |>).

(** * Samples *)
Definition motion_push (mag x y z : Z) (m : motion_ring) : motion_ring :=
  mkmotion (aset (motion_mag m) (motion_idx m) mag) (aset (motion_ax m) (motion_idx m) x)
    (aset (motion_ay m) (motion_idx m) y) (aset (motion_az m) (motion_idx m) z)
    (ring_next MOTION_WIN (motion_idx m)) (ring_inc MOTION_WIN (motion_count m)).

Definition accel_mag (x y z : Z) : Z :=
  shSqrtU32 (u32 (i32 (i32 (i32 (x * x) + i32 (y * y)) + i32 (z * z)))).

Definition SmartHelmet_VitalsPushAccel `{HelmetConfig} (x_mg y_mg z_mg : Z) (v : vitals) : vitals :=
  let mag := accel_mag x_mg y_mg z_mg in
  let v := v <| v_mot ::= motion_push mag x_mg y_mg z_mg |> in
  let v := shNoteFallMag mag v in
  let '(hp, prev) := shHighPass mag (fst (v_hp v)) (snd (v_hp v)) in
  let v := v <| v_hp := prev |> in
  let v := if ENABLE_HR_MOTION_ADAPT
           then v <| v_adapt ::= adapt_push_accel x_mg y_mg z_mg hp |> else v in
  v <| v_band ::= ring_push BAND_WIN hp |>.

(** One pole of a band: [lp += ((x - lp) * alpha) / 256]. *)
Definition bio_pole (alpha x lp : Z) : Z := i32 (lp + i32 ((x - lp) * alpha) ÷ 256).

Definition bio_sat (d : Z) : Z :=
  let a := if d <? 0 then - d else d in
  if 32767 <? a then 32767 else a.

Definition shBioPush (hp : Z) (b : bio_st) : bio_st :=
  let lf := bio_pole 136 hp (bio_lp_fast b) in
  let ls := bio_pole 47 hp (bio_lp_slow b) in
  let rf := bio_pole 27 hp (bio_resp_fast b) in
  let rs := bio_pole 8 hp (bio_resp_slow b) in
  let ap := bio_sat (lf - ls) in
  let ar := bio_sat (rf - rs) in
  mkbio lf ls rf rs
    (u16 (bio_pulse_abs b + ((ap - bio_pulse_abs b) * 32) ÷ 256))
    (u16 (bio_resp_abs b + ((ar - bio_resp_abs b) * 16) ÷ 256)).

Definition SmartHelmet_VitalsNoteSensDropped `{HelmetConfig} (v : vitals) : vitals :=
  let v := v <| sens_dropped ::= (fun n => if n <? 255 then u8 (n + 1) else n) |> in
  if ENABLE_VITALS_TIMESTAMP then v <| v_ts ::= (fun t => t <| ts_prev_valid := false |>) |> else v.

Definition SmartHelmet_VitalsPirEvent (v : vitals) : vitals :=
  v <| pir_events ::= (fun n => if n <? 65535 then u16 (n + 1) else n) |>.

Definition nominal_us : Z := 1000000 / VITALS_FS_HZ.

(** The interval since the previous time stamp. *)
Definition ts_note (time_us : Z) (t : ts_st) : ts_st :=
  if time_us =? 0 then t else
  let t :=
    if ts_prev_valid t then
      let dt := u32 (time_us - ts_prev_us t) in
      if (nominal_us / 4 <=? dt) && (dt <=? nominal_us * 4) then
        let jit := if nominal_us <? dt then u32 (dt - nominal_us) else u32 (nominal_us - dt) in
        t <| ts_sum_us ::= (fun s => u32 (s + dt)) |>
          <| ts_jit_sum_us ::= (fun s => u32 (s + jit)) |>
          <| ts_n ::= (fun n => if n <? 65535 then u16 (n + 1) else n) |>
      else t
    else t in
  t <| ts_prev_us := time_us |> <| ts_prev_valid := true |>.

(** The edge counter, with its re-arming level at half the threshold. *)
Definition sens_edge (hp : Z) (v : vitals) : vitals :=
  if 0 <? SENS_EDGE_ABS_MV then
    let a := if hp <? 0 then - hp else hp in
    if sens_edge_armed v && (SENS_EDGE_ABS_MV <=? a)
    then (SmartHelmet_VitalsPirEvent v) <| sens_edge_armed := false |>
    else if negb (sens_edge_armed v) && (a <? SENS_EDGE_ABS_MV / 2)
    then v <| sens_edge_armed := true |> else v
  else v.

Definition SmartHelmet_VitalsPushSensInMvAt `{HelmetConfig} (mv time_us : Z) (v : vitals) : vitals :=
  let v := if ENABLE_VITALS_TIMESTAMP then v <| v_ts ::= ts_note time_us |> else v in
  let v := v <| v_st ::= (fun s => s <| st_sens_mv := mv |>) |> in
  let v := v <| v_telem ::= telem_dump mv time_us |> in
  let '(hp, prev) := shHighPass mv (fst (v_sens_prev v)) (snd (v_sens_prev v)) in
  let v := v <| v_sens_prev := prev |> in
  let '(hp, v) :=
    if ENABLE_HR_MOTION_ADAPT then
      let '(hp, a) := shMotionCancel hp (v_adapt v) in (hp, v <| v_adapt := a |>)
    else (hp, v) in
  let v := if ENABLE_RESP then v <| v_resp ::= shRespPush mv |> else v in
  let v := v <| v_sens ::= ring_push BAND_WIN hp |> in
  let v := v <| v_bio ::= shBioPush hp |> in
  sens_edge hp v.

Definition SmartHelmet_VitalsPushSensInMv `{HelmetConfig} (mv : Z) (v : vitals) : vitals :=
  SmartHelmet_VitalsPushSensInMvAt mv 0 v.

(** * The window: time base and respiration *)
Definition shUpdateTimebase `{HelmetConfig} (v : vitals) : vitals :=
  if ENABLE_VITALS_TIMESTAMP then
    let t := v_ts v in
    let v :=
      if MOTION_WIN / 2 <=? ts_n t then
        let mean := ts_sum_us t / ts_n t in
        let jit := ts_jit_sum_us t / ts_n t in
        if mean =? 0 then v else
        let hz_x100 := 100 * 1000000 / mean in
        let q8 := 1000000 * 256 / mean in
        let pct := u32 (jit * 100) / mean in
        let jitter := u8 (if 255 <? pct then 255 else pct) in
        let err_pct := if nominal_us <? mean then u32 ((mean - nominal_us) * 100) / nominal_us
                       else u32 ((nominal_us - mean) * 100) / nominal_us in
        v <| v_st ::= (fun s => s <| st_fs_x100 := sat16 hz_x100 |> <| st_fs_jitter_pct := jitter |>) |>
          <| v_ts ::= (fun t => t <| fs_q8 := sat16 q8 |>
               <| timebase_ok := (err_pct <=? VITALS_FS_TOL_PCT) && (jitter <=? VITALS_JITTER_PCT) |>) |>
      else
        v <| v_st ::= (fun s => s <| st_fs_x100 := 0 |> <| st_fs_jitter_pct := 0 |>) |>
          <| v_ts ::= (fun t => t <| fs_q8 := VITALS_FS_HZ * 256 |> <| timebase_ok := true |>) |> in
    v <| v_ts ::= (fun t => t <| ts_sum_us := 0 |> <| ts_jit_sum_us := 0 |> <| ts_n := 0 |>) |>
  else
    v <| v_st ::= (fun s => s <| st_fs_x100 := 0 |> <| st_fs_jitter_pct := 0 |>) |>
      <| v_ts ::= (fun t => t <| fs_q8 := VITALS_FS_HZ * 256 |>) |>.

Definition shUpdateResp `{HelmetConfig} (v : vitals) : vitals :=
  let '(bpm, q8) := if ENABLE_RESP then shRespBpm (fs_q8 (v_ts v)) (v_resp v) else (0, 0) in
  v <| v_st ::= (fun s => s <| st_resp_bpm := bpm |> <| st_resp_q8 := q8 |>
                            <| st_resp_valid := negb (bpm =? 0) |>) |>.

(** * The window: motion *)
Definition adapt_running `{HelmetConfig} (v : vitals) : bool :=
  ENABLE_HR_MOTION_ADAPT && adapt_have_accel (v_adapt v) &&
  (HR_ADAPT_TAPS <=? adapt_ref_n (v_adapt v)).

Definition motion_thresh `{HelmetConfig} (v : vitals) : Z :=
  if adapt_running v then MOTION_RMS_MG_ADAPT else MOTION_RMS_MG.

Definition have_accel (v : vitals) : bool := 2 <=? motion_count (v_mot v).

Definition mag_min (m : motion_ring) : Z :=
  for_ 1 (motion_count m) (fun i mn =>
    if aget (motion_mag m) i <? mn then aget (motion_mag m) i else mn) (aget (motion_mag m) 0).
Definition mag_max (m : motion_ring) : Z :=
  for_ 1 (motion_count m) (fun i pk =>
    if pk <? aget (motion_mag m) i then aget (motion_mag m) i else pk) (aget (motion_mag m) 0).

(** The absolute step of one axis between the two latest samples. *)
Definition axis_step (l : list Z) (last prev : Z) : Z :=
  let a := aget l last in
  let b := aget l prev in
  u16 (if b <? a then a - b else b - a).

Definition motion_step (m : motion_ring) : Z :=
  let last := u8 ((motion_idx m + MOTION_WIN - 1) mod MOTION_WIN) in
  let prev := u8 ((motion_idx m + MOTION_WIN - 2) mod MOTION_WIN) in
  let dx := axis_step (motion_ax m) last prev in
  let dy := axis_step (motion_ay m) last prev in
  let dz := axis_step (motion_az m) last prev in
  let rms := dx in
  let rms := if rms <? dy then dy else rms in
  if rms <? dz then dz else rms.

(** The motion figures of the window; returns the activity measure. *)
Definition motion_eval (v : vitals) : Z * vitals :=
  let m := v_mot v in
  let '(rms, v) :=
    if have_accel v then
      let rms := shRmsDevU16 (motion_mag m) (motion_count m) in
      let mn := mag_min m in
      let pk := mag_max m in
      let v := v <| v_st ::= (fun s => s <| st_motion_min_mg := mn |> <| st_motion_peak_mg := pk |>) |> in
      let v := shNoteFallWindow rms mn pk v in
      (motion_step m, v)
    else
      (0, v <| v_st ::= (fun s => s <| st_motion_min_mg := 0 |> <| st_motion_peak_mg := 0 |>) |>) in
  let v := v <| v_st ::= (fun s => s <| st_motion_rms_mg := rms |> <| st_fall_pending := v_fall v |>
                   <| st_pir_events_win := pir_events v |> <| st_sens_dropped := sens_dropped v |>) |> in
  (rms, v <| sens_dropped := 0 |>).

(** The motion gate; returns whether the window is active. *)
Definition motion_gate `{HelmetConfig} (rms sens_abs : Z) (v : vitals) : bool * vitals :=
  if ENABLE_LIS3DH then
    if have_accel v && (motion_thresh v <=? rms) then (true, v <| still_run := 0 |>)
    else if bool_decide (st_motion (v_st v) = smart_helmet_motion_active) then
      let v := v <| still_run ::= (fun n => if n <? 255 then u8 (n + 1) else n) |> in
      (still_run v <? MOTION_STILL_SAMPLES, v)
    else (false, v <| still_run := 0 |>)
  else
    ((BAND_WIN / 4 <? r_count (v_sens v)) && (SENS_MOTION_ABS_MV <=? sens_abs), v).

(** * The window: telemetry columns *)
Definition csv_columns (energy baseline sens_abs rms : Z) (active : bool) (s : vitals_status) : list Z :=
  [ Z.b2z active; Z.b2z (hr_valid (st_hr s)); hr_reason_code (hr_reason (st_hr s));
    hr_bpm (st_hr s); hr_bpm_peak (st_hr s); hr_bpm_fft (st_hr s); hr_bpm_ac (st_hr s);
    hr_baseline_bpm (st_chg s); hr_delta_bpm (st_chg s); hr_cusum_up (st_chg s);
    hr_cusum_dn (st_chg s); trend_code (hr_change (st_chg s)); st_resp_bpm s; st_resp_q8 s;
    st_fs_x100 s; st_fs_jitter_pct s; st_sens_dropped s; energy; baseline; sens_abs; rms;
    st_adapt_removed_pct s; st_sens_mv s ].

Definition shVitalsReport `{HelmetConfig} (energy baseline sens_abs rms : Z) (active : bool)
    (v : vitals) : vitals :=
  if ENABLE_VITALS_CSV
  then v <| v_telem ::= telem_window (csv_columns energy baseline sens_abs rms active (v_st v)) |>
  else v.

(** * The window: disturbances and the pulse estimators *)
Definition disturb `{HelmetConfig} (v : vitals) : vitals :=
  let '(g, sm) := shHrDisturb HR_DISTURB_HOLDOFF_WIN (v_guard v) (v_smooth v) in
  v <| v_guard := g |> <| v_smooth := sm |>.

Definition fuse_hr `{HelmetConfig} (bpm_peak bpm_fft bpm_ac peaks fft_mag : Z) (allow : bool)
    (pre : smart_helmet_hr_reason_t) (v : vitals) : vitals :=
  let '(o, g) := shFuseHr bpm_peak bpm_fft bpm_ac peaks fft_mag allow pre (v_guard v) in
  v <| v_guard := g |> <| v_st ::= (fun s => s <| st_hr := o |>) |>.

(** The active window. *)
Definition process_active `{HelmetConfig} (rms sens_abs : Z) (v : vitals) : vitals :=
  let v := v <| v_st ::= (fun s =>
    s <| st_motion := smart_helmet_motion_active |> <| st_trend := smart_helmet_trend_unknown |>
      <| st_valid := false |> <| st_hr_ac_q8 := 0 |>
      <| st_hr ::= (fun h => h <| hr_valid := false |> <| hr_bpm := 0 |> <| hr_bpm_peak := 0 |>
           <| hr_bpm_fft := 0 |> <| hr_bpm_ac := 0 |> <| hr_reason := hr_motion |>) |>) |> in
  let v := v <| calm_windows := 0 |> <| pir_events := 0 |> in
  let v := disturb v in
  let v := v <| v_st ::= (fun s => s <| st_hr_win_left := hr_win_left (v_guard v) |>) |>
             <| prev_sens_mv_valid := false |> in
  shVitalsReport (st_band_energy (v_st v)) (st_baseline_energy (v_st v)) sens_abs rms true v.

(** The band energy of a calm window. *)
Definition calm_energy `{HelmetConfig} (e_sens e_accel : Z) (v : vitals) : Z :=
  let energy :=
    if BAND_WIN / 4 <? r_count (v_sens v) then
      if have_accel v && (BAND_WIN / 4 <? r_count (v_band v)) then
        if negb (adapt_running v) then u16 (e_sens + e_accel / 4) else e_sens
      else e_sens
    else if have_accel v then e_accel else 0 in
  u16 (energy + pir_events v * 8).

(** The micro-motion trend of a warm window: the trend, its validity
    and, when it was updated, the baseline. *)
Definition calm_trend (sens_abs : Z) (v : vitals) : smart_helmet_trend_flag_t * bool * option Z :=
  let pulse := bio_pulse_abs (v_bio v) in
  if (pulse <? BIO_PULSE_ABS_MIN) && (bio_resp_abs (v_bio v) <? BIO_RESP_ABS_MIN)
  then (smart_helmet_trend_absent, true, None)
  else if u16 (pulse * BIO_ARTIFACT_RATIO + 40) <? sens_abs
  then (smart_helmet_trend_unknown, false, None)
  else
    let base := st_baseline_energy (v_st v) in
    let baseline :=
      if base =? 0 then (if pulse =? 0 then 1 else pulse)
      else u16 (base + ((pulse - base) * BASELINE_ALPHA_Q8) ÷ 256) in
    let delta_pct := ((pulse - baseline) * 100) ÷ baseline in
    let trend :=
      if TREND_UP_PCT <=? delta_pct then smart_helmet_trend_rising
      else if delta_pct <=? - TREND_DOWN_PCT then smart_helmet_trend_falling
      else smart_helmet_trend_stable in
    (trend, true, Some baseline).

(** The signal gate with the time base and respiration conditions. *)
Definition signal_reason `{HelmetConfig} (energy sens_abs : Z) (v : vitals) : smart_helmet_hr_reason_t :=
  let sig := shHrSignalReason energy sens_abs in
  let sig := if ENABLE_VITALS_TIMESTAMP && is_ok sig && negb (timebase_ok (v_ts v))
             then hr_timebase else sig in
  if ENABLE_RESP && HR_REQUIRE_RESP && is_ok sig && negb (st_resp_valid (v_st v))
  then hr_no_resp else sig.

(** The estimators of a window that passed the gates, and their fusion. *)
Definition estimate_hr `{HelmetConfig} (allow : bool) (pre : smart_helmet_hr_reason_t) (v : vitals) : vitals :=
  let fs := fs_q8 (v_ts v) in
  let '(x, n_ord) := shCopySensOrdered (r_count (v_sens v)) (v_sens v) in
  let '(bpm_peak, peak_n) := if ENABLE_HR_PEAK then shPeakBpm fs x n_ord else (0, 0) in
  let '(bpm_fft, fft_mag, sm) :=
    if ENABLE_HR_FFT then shFftBpm fs x n_ord (v_smooth v) else (0, 0, v_smooth v) in
  let v := v <| v_smooth := sm |> in
  let '(bpm_ac, v) :=
    if ENABLE_HR_AUTOCORR then
      let '(bpm_ac, ac_q8) := shAutoCorrBpm fs x n_ord in
      (bpm_ac, v <| v_st ::= (fun s => s <| st_hr_ac_q8 := ac_q8 |>) |>)
    else (0, v) in
  let pre := if (bpm_peak =? 0) && (bpm_fft =? 0) && (bpm_ac =? 0)
             then (if bool_decide (pre = hr_holdoff) then pre else hr_none) else pre in
  fuse_hr bpm_peak bpm_fft bpm_ac peak_n fft_mag allow pre v.

(** The hold-off countdown and the pulse rate of a warm window. *)
Definition calm_hr `{HelmetConfig} (energy sens_abs : Z) (v : vitals) : vitals :=
  let allow := hr_win_left (v_guard v) =? 0 in
  let '(pre, v) :=
    if 0 <? hr_win_left (v_guard v)
    then (hr_holdoff, v <| v_guard ::= (fun g => g <| hr_win_left ::= (fun n => n - 1) |>) |>)
    else (hr_ok, v) in
  if ENABLE_HR_PEAK || ENABLE_HR_FFT || ENABLE_HR_AUTOCORR then
    let sig := signal_reason energy sens_abs v in
    if negb (is_ok sig) then fuse_hr 0 0 0 0 0 false sig v
    else estimate_hr allow pre v
  else fuse_hr 0 0 0 0 0 false hr_disabled v.

Definition update_change `{HelmetConfig} (v : vitals) : vitals :=
  let v :=
    if ENABLE_HR_CUSUM && ENABLE_HR_MOTION_ADAPT then
      match adapt_removed (v_adapt v) with
      | Some p => v <| v_st ::= (fun s => s <| st_adapt_removed_pct := p |>) |>
      | None => v
      end
    else v in
  let h := st_hr (v_st v) in
  let '(c, o) := shUpdateHrChange (hr_valid h) (hr_bpm h) (v_chg v) (st_chg (v_st v)) in
  v <| v_chg := c |> <| v_st ::= (fun s => s <| st_chg := o |>) |>.

(** The calm window: energy, baseline and counter, and the disturbance gates. *)
Definition calm_begin `{HelmetConfig} (e_sens sens_abs e_accel : Z) (v : vitals) : Z * Z * vitals :=
  let v := v <| v_st ::= (fun s => s <| st_motion := smart_helmet_motion_calm |>) |> in
  let energy := calm_energy e_sens e_accel v in
  let v := v <| v_st ::= (fun s => s <| st_band_energy := energy |>) |> in
  let baseline := if st_baseline_energy (v_st v) =? 0 then 1 else st_baseline_energy (v_st v) in
  let v := v <| calm_windows ::= (fun n => if n <? 255 then u8 (n + 1) else n) |> in
  let dwhy := shHrDisturbReason (prev_sens_mv v) (prev_sens_mv_valid v) energy sens_abs
                (st_sens_mv (v_st v)) in
  (energy, baseline, if negb (is_ok dwhy) then disturb v else v).

(** Not enough calm windows, or nothing measured yet. *)
Definition calm_warm (v : vitals) : bool :=
  (calm_windows v <? CALM_WINDOWS_MIN) ||
  ((r_count (v_sens v) <? BAND_WIN / 4) && negb (have_accel v)).

(** The trend and the pulse rate; returns also the reported baseline. *)
Definition calm_window `{HelmetConfig} (energy sens_abs baseline : Z) (v : vitals)
  : smart_helmet_trend_flag_t * Z * vitals :=
  if calm_warm v then
    let v := v <| v_st ::= (fun s => s <| st_valid := false |>) |> in
    let v := disturb v in
    (smart_helmet_trend_unknown, baseline, fuse_hr 0 0 0 0 0 false hr_warm v)
  else
    let '(trend, ok, nb) := calm_trend sens_abs v in
    let v := v <| v_st ::= (fun s => s <| st_valid := ok |>) |> in
    let v := match nb with
             | Some b => v <| v_st ::= (fun s => s <| st_baseline_energy := b |>) |>
             | None => v
             end in
    (trend, match nb with Some b => b | None => baseline end, calm_hr energy sens_abs v).

Definition calm_finish (trend : smart_helmet_trend_flag_t) (v : vitals) : vitals :=
  let v := v <| prev_sens_mv := st_sens_mv (v_st v) |> <| prev_sens_mv_valid := true |> in
  v <| v_st ::= (fun s => s <| st_trend := trend |> <| st_hr_win_left := hr_win_left (v_guard v) |>) |>
    <| pir_events := 0 |>.

Definition process_calm `{HelmetConfig} (rms e_sens sens_abs e_accel : Z) (v : vitals) : vitals :=
  let '(energy, baseline, v) := calm_begin e_sens sens_abs e_accel v in
  let '(trend, baseline, v) := calm_window energy sens_abs baseline v in
  let v := update_change v in
  let v := calm_finish trend v in
  shVitalsReport energy baseline sens_abs rms false v.

Definition SmartHelmet_VitalsProcess `{HelmetConfig} (v : vitals) : vitals :=
  let v := shUpdateTimebase v in
  let v := shUpdateResp v in
  let '(rms, v) := motion_eval v in
  let e_sens := shEnergyI16 (r_buf (v_sens v)) (r_count (v_sens v)) in
  let sens_abs := shMeanAbsI16 (r_buf (v_sens v)) (r_count (v_sens v)) in
  let e_accel := if have_accel v then shEnergyI16 (r_buf (v_band v)) (r_count (v_band v)) else 0 in
  let '(active, v) := motion_gate rms sens_abs v in
  if active then process_active rms sens_abs v
  else process_calm rms e_sens sens_abs e_accel v.

Definition SmartHelmet_VitalsOnSensSample `{HelmetConfig} (v : vitals) : vitals :=
  let v := v <| sens_since_process ::= (fun n => if n <? 255 then u8 (n + 1) else n) |> in
  if MOTION_WIN <=? sens_since_process v
  then SmartHelmet_VitalsProcess (v <| sens_since_process := 0 |>)
  else v.

Definition SmartHelmet_VitalsGetStatus (v : vitals) : vitals_status := v_st v.
