(* ===== verification/VitalsInv.v ===== *)
(** The invariant of the vitals engine over every sequence of calls: buffers
    and indices, the ranges of every filter, counter and reported value. *)
From S2P Require Import Prelude Config Dsp Ring ISort Peak Fft Corr Adapt Fuse Change Decimal Telemetry Vitals.

(** * Events: the calls other modules make *)
Inductive vitals_event :=
  | EvInit
  | EvAccel (x y z : Z)
  | EvSample (mv time_us : Z)      (* PushSensInMvAt, then OnSensSample *)
  | EvDropped
  | EvPir
  | EvProcess                      (* the extra window of the 2 s report *)
  | EvTakeFall
  | EvSink (sink : bool).

Definition vitals_step `{HelmetConfig} (e : vitals_event) (v : vitals) : vitals :=
  match e with
  | EvInit => SmartHelmet_VitalsInit v
  | EvAccel x y z => SmartHelmet_VitalsPushAccel x y z v
  | EvSample mv t => SmartHelmet_VitalsOnSensSample (SmartHelmet_VitalsPushSensInMvAt mv t v)
  | EvDropped => SmartHelmet_VitalsNoteSensDropped v
  | EvPir => SmartHelmet_VitalsPirEvent v
  | EvProcess => SmartHelmet_VitalsProcess v
  | EvTakeFall => snd (SmartHelmet_VitalsTakeFall v)
  | EvSink sink => v <| v_telem ::= SmartHelmet_VitalsSetSink sink |>
  end.

Definition vitals_run `{HelmetConfig} (es : list vitals_event) (v : vitals) : vitals :=
  fold_left (fun v e => vitals_step e v) es v.

(** The arguments have the types of the C prototypes. *)
Definition event_ok (e : vitals_event) : Prop :=
  match e with
  | EvAccel x y z => is_i16 x /\ is_i16 y /\ is_i16 z
  | EvSample mv t => is_u16 mv /\ is_u32 t
  | _ => True
  end.

#[export] Instance event_ok_dec e : Decision (event_ok e).
Proof. destruct e; cbn; apply _. Defined.

(** * The invariant *)
Definition ring_wf (r : ring) : Prop :=
  (exists h, ring_ok BAND_WIN h r /\ Forall is_i16 h) /\ Forall is_i16 (r_buf r).

Definition hp_ok (p : Z * Z) : Prop := is_u16 (fst p) /\ Z.abs (snd p) <= HP_Y_MAX.

Definition bio_ok (b : bio_st) : Prop :=
  is_i16 (bio_lp_fast b) /\ is_i16 (bio_lp_slow b) /\ is_i16 (bio_resp_fast b) /\
  is_i16 (bio_resp_slow b) /\ 0 <= bio_pulse_abs b <= 32767 /\ 0 <= bio_resp_abs b <= 32767.

Definition mot_ok (m : motion_ring) : Prop :=
  alen (motion_mag m) = MOTION_WIN /\ alen (motion_ax m) = MOTION_WIN /\
  alen (motion_ay m) = MOTION_WIN /\ alen (motion_az m) = MOTION_WIN /\
  0 <= motion_idx m < MOTION_WIN /\ 0 <= motion_count m <= MOTION_WIN /\
  Forall is_u16 (motion_mag m) /\ Forall is_i16 (motion_ax m) /\ Forall is_i16 (motion_ay m) /\ Forall is_i16 (motion_az m).

(** [k] bounds the intervals accumulated since the last window. *)
Definition ts_ok `{HelmetConfig} (k : Z) (t : ts_st) : Prop :=
  0 <= ts_n t <= (if ENABLE_VITALS_TIMESTAMP then k else 0) /\ 10000 * ts_n t <= ts_sum_us t <= 160000 * ts_n t /\
  0 <= ts_jit_sum_us t <= 120000 * ts_n t /\ 1600 <= fs_q8 t <= 25600 /\
  0 <= ts_prev_us t <= 4294967295.

Definition guard_ok (g : hr_guard) : Prop :=
  0 <= hr_win_left g <= HR_DISTURB_HOLDOFF_WIN /\ is_u16 (last_hr_valid_bpm g) /\
  is_u8 (hr_delta_rej g).

Definition hr_ok_out (h : hr_out) : Prop :=
  is_u16 (hr_bpm_peak h) /\ is_u16 (hr_bpm_fft h) /\ is_u16 (hr_bpm_ac h) /\ is_u16 (hr_bpm h) /\
  is_u8 (hr_peak_count h) /\ is_u16 (hr_fft_mag h).

Definition chg_ok_out (o : change_out) : Prop :=
  is_u16 (hr_baseline_bpm o) /\ is_i16 (hr_delta_bpm o) /\ is_u16 (hr_cusum_up o) /\
  is_u16 (hr_cusum_dn o).

Definition status_ok (s : vitals_status) : Prop :=
  is_u16 (st_motion_rms_mg s) /\ is_u16 (st_motion_min_mg s) /\ is_u16 (st_motion_peak_mg s) /\
  is_u16 (st_band_energy s) /\ is_u16 (st_baseline_energy s) /\ is_u16 (st_pir_events_win s) /\
  is_u16 (st_sens_mv s) /\ is_u16 (st_hr_ac_q8 s) /\ is_u16 (st_fs_x100 s) /\
  is_u8 (st_fs_jitter_pct s) /\ is_u8 (st_sens_dropped s) /\ is_u16 (st_resp_bpm s) /\
  is_u16 (st_resp_q8 s) /\ is_u8 (st_adapt_removed_pct s) /\ 0 <= st_hr_win_left s <= HR_DISTURB_HOLDOFF_WIN /\
  hr_ok_out (st_hr s) /\ chg_ok_out (st_chg s).

(** The line being built and every line delivered leave room for the
    terminator. *)
Definition telem_ok (t : telem_st) : Prop :=
  alen (sh_telem t) < TELEMETRY_LINE_MAX /\ is_u32 (sh_win_seq t) /\ is_u32 (sh_dump_seq t) /\
  Forall (fun l => alen l < TELEMETRY_LINE_MAX) (telem_out t).

Definition vitals_inv `{HelmetConfig} (n k : Z) (v : vitals) : Prop :=
  sens_since_process v = n /\ status_ok (v_st v) /\ mot_ok (v_mot v) /\ ring_wf (v_band v) /\ hp_ok (v_hp v) /\
  ring_wf (v_sens v) /\ hp_ok (v_sens_prev v) /\ bio_ok (v_bio v) /\ is_u16 (pir_events v) /\
  is_u8 (calm_windows v) /\ guard_ok (v_guard v) /\ is_u16 (prev_sens_mv v) /\
  is_u8 (sens_dropped v) /\ ts_ok k (v_ts v) /\ (exists h, resp_ok h (v_resp v)) /\
  change_ok (v_chg v) /\ adapt_ok (v_adapt v) /\ smooth_ok (v_smooth v) /\ telem_ok (v_telem v) /\ is_u8 (still_run v).

(** Between calls a window is never complete. *)
Definition vitals_ok `{HelmetConfig} (v : vitals) : Prop :=
  0 <= sens_since_process v < MOTION_WIN /\
  vitals_inv (sens_since_process v) (sens_since_process v) v.

(** * Components *)
Lemma ring_wf_empty : ring_wf (ring_empty BAND_WIN).
Proof.
  split; [exists []; split; [apply ring_empty_ok; vdec | constructor] |]. vdec.
Qed.

Lemma ring_wf_push r v : ring_wf r -> is_i16 v -> ring_wf (ring_push BAND_WIN v r).
Proof.
  intros [(h & Hr & Hh) Hb] Hv. split.
  - exists (h ++ [v]). split; [by apply ring_push_ok |]. apply Forall_app_2; [done | by constructor].
  - unfold ring_push. cbn [r_buf]. by apply aset_Forall.
Qed.

Lemma ring_wf_count r : ring_wf r -> 0 <= r_count r <= BAND_WIN.
Proof. intros [(h & (_ & _ & _ & -> & _) & _) _]. pose proof (alen_nonneg h). unfold BAND_WIN. lia. Qed.

Lemma hp_ok_step x p :
  is_u16 x -> hp_ok p ->
  is_i16 (fst (shHighPass x (fst p) (snd p))) /\ hp_ok (snd (shHighPass x (fst p) (snd p))).
Proof.
  intros Hx [Hp Hy]. destruct (shHighPass_eq x (fst p) (snd p) Hx Hp Hy) as [-> Hb].
  split; [apply clamp16_range | by split].
Qed.

Lemma bio_pole_ok alpha x lp :
  0 <= alpha <= 256 -> is_i16 x -> is_i16 lp -> is_i16 (bio_pole alpha x lp).
Proof.
  intros Ha Hx Hl. unfold bio_pole. pose proof (ema_between lp x alpha Ha).
  rewrite (i32_small (_ * _)) by (unfold_ranges; nia). rewrite i32_small by rlia. rlia.
Qed.

Lemma bio_sat_ok d : 0 <= bio_sat d <= 32767.
Proof. unfold bio_sat. cbv zeta. repeat zcase; lia. Qed.

Lemma shBioPush_ok hp b : is_i16 hp -> bio_ok b -> bio_ok (shBioPush hp b).
Proof.
  intros Hh (H1 & H2 & H3 & H4 & H5 & H6). unfold shBioPush. cbv zeta.
  set (ap := bio_sat _). set (ar := bio_sat (_ - bio_pole 8 _ _)).
  assert (0 <= ap <= 32767) by apply bio_sat_ok. assert (0 <= ar <= 32767) by apply bio_sat_ok.
  pose proof (ema_between (bio_pulse_abs b) ap 32 ltac:(lia)).
  pose proof (ema_between (bio_resp_abs b) ar 16 ltac:(lia)).
  unfold bio_ok. cbn. rewrite !u16_small by rlia.
  repeat (split; [by apply bio_pole_ok; [lia | |] |]). lia.
Qed.

Lemma sqrt_u16 x : is_u16 (shSqrtU32 x).
Proof. unfold shSqrtU32. destruct (while_ _ _ _ _) as [[? ?] ?]. apply u16_range. Qed.

Lemma motion_push_ok mag x y z m : is_u16 mag -> is_i16 x -> is_i16 y -> is_i16 z -> mot_ok m -> mot_ok (motion_push mag x y z m).
Proof.
  intros Hm Hx Hy Hz (H1 & H2 & H3 & H4 & Hi & Hc & Hf & Hfx & Hfy & Hfz). unfold mot_ok, motion_push, ring_next, ring_inc, MOTION_WIN in *.
  cbn. rewrite !alen_aset. pose proof (Z.mod_pos_bound (motion_idx m + 1) 25 ltac:(lia)).
  rewrite u8_small by rlia. split_and!; try done; try lia.
  - zcase; [rewrite u8_small by rlia |]; lia.
  - zcase; [rewrite u8_small by rlia |]; lia.
  - by apply aset_Forall.
  - by apply aset_Forall.
  - by apply aset_Forall.
  - by apply aset_Forall.
Qed.

Lemma ts_note_ok `{HelmetConfig} k time_us t : ENABLE_VITALS_TIMESTAMP = true ->
  is_u32 time_us -> ts_ok k t -> k < 255 -> ts_ok (k + 1) (ts_note time_us t).
Proof.
  intros Hen Ht (Hn & Hs & Hj & Hf & Hp) Hk. unfold is_u32 in Ht. unfold ts_note, ts_ok in *. rewrite Hen in *.
  destruct (time_us =? 0); [unfold ts_ok; split_and!; done || lia |].
  destruct (ts_prev_valid t); [| unfold ts_ok; cbn; split_and!; done || lia].
  cbv zeta. change nominal_us with 40000. set (dt := u32 (time_us - ts_prev_us t)).
  destruct (Z.leb_spec (40000 / 4) dt), (Z.leb_spec dt (40000 * 4)); cbn [andb]; try (unfold ts_ok; cbn; split_and!; done || lia).
  change (40000 / 4) with 10000 in *.
  set (jit := if 40000 <? dt then u32 (dt - 40000) else u32 (40000 - dt)).
  assert (0 <= jit <= 120000) by (unfold jit; zcase; rewrite u32_small by rlia; lia).
  unfold ts_ok. cbn. rewrite (u32_small (_ + dt)), (u32_small (_ + jit)) by rlia.
  rewrite (proj2 (Z.ltb_lt (ts_n t) 65535)), u16_small by rlia. split_and!; done || lia.
Qed.

Lemma disturb_guard_ok `{HelmetConfig} g sm :
  guard_ok g -> guard_ok (fst (shHrDisturb HR_DISTURB_HOLDOFF_WIN g sm)).
Proof.
  intros (Hw & _ & _). unfold shHrDisturb, guard_ok, HR_DISTURB_HOLDOFF_WIN in *. cbn.
  split; [zcase; lia | split; vdec].
Qed.

Lemma disturb_smooth_ok `{HelmetConfig} n g sm : smooth_ok sm -> smooth_ok (snd (shHrDisturb n g sm)).
Proof. unfold shHrDisturb. cbn. by destruct ENABLE_HR_FFT. Qed.

(** * Ranges of the estimators' results *)
Lemma sat16_range q : is_u16 (sat16 q).
Proof. unfold sat16. zcase; [vdec | apply u16_range]. Qed.

Lemma in_hr_band_range b : is_u16 b -> is_u16 (in_hr_band b).
Proof. intros. unfold in_hr_band. by destruct (_ || _). Qed.

Lemma interval_range fs q : is_u16 (shIntervalQ8ToBpm fs q).
Proof. unfold shIntervalQ8ToBpm. zcase; [vdec | apply u16_range]. Qed.

Lemma u16_0 : is_u16 0.
Proof. vdec. Qed.
Lemma u8_0 : is_u8 0.
Proof. vdec. Qed.
Lemma u8_sat_inc n : is_u8 n -> is_u8 (if n <? 255 then u8 (n + 1) else n).
Proof. intros. zcase; [apply u8_range | done]. Qed.
Lemma u16_sat_inc n : is_u16 n -> is_u16 (if n <? 65535 then u16 (n + 1) else n).
Proof. intros. zcase; [apply u16_range | done]. Qed.

Lemma u32_0 : is_u32 0.
Proof. vdec. Qed.

#[local] Hint Resolve u32_0 u16_0 u8_0 u8_sat_inc u16_sat_inc sat16_range interval_range u16_range u8_range : ranges.

Lemma shRespBpm_range fs s : is_u16 (fst (shRespBpm fs s)) /\ is_u16 (snd (shRespBpm fs s)).
Proof.
  unfold shRespBpm. assert (is_u16 0) by vdec.
  repeat match goal with
  | |- context [let '(_, _) := ?t in _] => destruct t
  | |- context [if ?b then (_, _) else _] => destruct b; [cbn; auto with ranges |]
  | _ => progress cbv zeta
  end.
  cbn. split; [| auto with ranges]. destruct (_ || _); auto with ranges.
Qed.

Lemma shAutoCorrBpm_range fs x n :
  is_u16 (fst (shAutoCorrBpm fs x n)) /\ is_u16 (snd (shAutoCorrBpm fs x n)).
Proof.
  unfold shAutoCorrBpm. assert (is_u16 0) by vdec.
  repeat match goal with
  | |- context [let '(_, _) := ?t in _] => destruct t
  | |- context [if ?b then (0, _) else _] => destruct b; [cbn; auto with ranges |]
  | _ => progress cbv zeta
  end.
  cbn. split; [| auto with ranges]. apply in_hr_band_range. auto with ranges.
Qed.

Lemma shPeakBpm_range `{HelmetConfig} fs x n : is_u16 (fst (shPeakBpm fs x n)).
Proof.
  unfold shPeakBpm. assert (is_u16 0) by vdec.
  repeat match goal with
  | |- context [let '(_, _) := ?t in _] => destruct t
  | |- context [if ?b then (0, _) else _] => destruct b; [cbn; auto with ranges |]
  | _ => progress cbv zeta
  end.
  cbn. apply in_hr_band_range. auto with ranges.
Qed.

Lemma peak_scan_count x n : is_u8 (pk_peaks (peak_scan x n)).
Proof.
  unfold peak_scan. apply (for_inv (fun s => is_u8 (pk_peaks s))); [vdec |]. intros i s _ Hs.
  unfold peak_step, peak_new. repeat (case_match; try done); cbn; auto with ranges.
Qed.

Lemma shPeakBpm_count `{HelmetConfig} fs x n : is_u8 (snd (shPeakBpm fs x n)).
Proof.
  unfold shPeakBpm. destruct (_ <? _); [vdec |]. cbv zeta. pose proof (peak_scan_count x n).
  destruct (_ =? 0); [done |]. destruct (peak_ibi_q8 _) as [q l]. destruct (_ =? 0); [done |]. by destruct (ibi_irregular _ _ _).
Qed.

(** ** The telemetry *)
Lemma telem_char_ok c t : telem_ok t -> telem_ok (shTelemChar c t).
Proof.
  intros (Hl & Hw & Hd & Ho). unfold shTelemChar. destruct (Z.ltb_spec (alen (sh_telem t) + 1) TELEMETRY_LINE_MAX); [| done].
  split; [| done]. cbn. rewrite alen_app. exact H.
Qed.

Lemma telem_chars_ok l t : telem_ok t -> telem_ok (telem_chars l t).
Proof. unfold telem_chars. revert t. induction l as [| c l IH]; intros t Ht; cbn [fold_left]; [done |]. by apply IH, telem_char_ok. Qed.

Lemma telem_u32_ok x t : telem_ok t -> telem_ok (shTelemU32 x t).
Proof. intros Ht. unfold shTelemU32. destruct (x =? 0); [by apply telem_char_ok | by apply telem_chars_ok]. Qed.

Lemma telem_reset_ok t : telem_ok t -> telem_ok (shTelemReset t).
Proof. intros (_ & Hr). split; [vdec | exact Hr]. Qed.

Lemma telem_field_ok x t : telem_ok t -> telem_ok (shTelemFieldI32 x t).
Proof.
  intros Ht. unfold shTelemFieldI32. cbv zeta.
  assert (telem_ok (if negb (alen (sh_telem t) =? 0) then shTelemChar 44 t else t)) by (destruct (negb _); [by apply telem_char_ok | done]).
  destruct (x <? 0); apply telem_u32_ok; [by apply telem_char_ok | done].
Qed.

Lemma telem_record_ok l t : telem_ok t -> telem_ok (telem_record l t).
Proof.
  intros Ht. unfold telem_record, shTelemFlush. apply telem_reset_ok.
  assert (telem_ok (fold_left (fun t v => shTelemFieldI32 v t) l (shTelemReset t))) as Hf.
  { apply telem_reset_ok in Ht. revert Ht. generalize (shTelemReset t). induction l as [| x l IH]; intros u Hu; cbn [fold_left]; [done |].
    by apply IH, telem_field_ok. }
  destruct (_ && _); [| done]. destruct Hf as (Hl & Hw & Hd & Ho). split; [exact Hl |]. split; [exact Hw |]. split; [exact Hd |].
  cbn. apply Forall_app_2; [exact Ho | by repeat constructor].
Qed.

Lemma telem_dump_ok `{HelmetConfig} mv t_us t : telem_ok t -> telem_ok (telem_dump mv t_us t).
Proof.
  intros Ht. unfold telem_dump. destruct (_ && _); [| done].
  destruct (telem_record_ok [i32 (sh_dump_seq t); mv; i32 t_us] t Ht) as (Hl & Hw & Hd & Ho).
  split; [exact Hl |]. split; [exact Hw |]. split; [apply u32_range | exact Ho].
Qed.

Lemma set_sink_ok `{HelmetConfig} sink t : telem_ok t -> telem_ok (SmartHelmet_VitalsSetSink sink t).
Proof. intros Ht. unfold SmartHelmet_VitalsSetSink. destruct (_ || _); [| done]. by apply telem_reset_ok. Qed.

Lemma telem_window_ok cols t : telem_ok t -> telem_ok (telem_window cols t).
Proof.
  intros Ht. unfold telem_window. destruct (sh_sink t); [| done].
  destruct (telem_record_ok (i32 (sh_win_seq t) :: cols) t Ht) as (Hl & Hw & Hd & Ho).
  split; [exact Hl |]. split; [apply u32_range | done].
Qed.

Lemma fuse_pair_range `{HelmetConfig} a b peaks why :
  is_u16 a -> is_u16 b -> is_u16 (fst (fst (fuse_pair a b peaks why))).
Proof.
  intros Ha Hb. unfold fuse_pair. assert (is_u16 0) by vdec. cbv zeta.
  repeat match goal with |- context [if ?b then _ else _] =>
    no_if b; destruct b; cbn [fst snd]; try done; auto with ranges end.
Qed.

Lemma fuse_cands_range a b c peaks :
  is_u16 a -> is_u16 b -> is_u16 c -> Forall is_u16 (fuse_cands a b c peaks).
Proof.
  intros. unfold fuse_cands. destruct (_ && _), (negb (b =? 0)), (negb (c =? 0)); cbn; eauto.
Qed.

Lemma fuse_consensus_range `{HelmetConfig} a b c peaks why :
  is_u16 a -> is_u16 b -> is_u16 c -> is_u16 (fst (fst (fuse_consensus a b c peaks why))).
Proof.
  intros Ha Hb Hc. unfold fuse_consensus. assert (is_u16 0) by vdec. cbv zeta.
  destruct (_ =? 0); [done |]. set (cands := fuse_cands a b c peaks).
  assert (is_u16 (aget (isort (alen cands) cands) (alen cands / 2))) as Hm.
  { apply aget_Forall; [| done]. pose proof (fuse_cands_range a b c peaks Ha Hb Hc) as Hf.
    destruct (isort_ok (alen cands) cands) as (l & -> & Hp & _); [pose proof (alen_nonneg cands); lia |].
    unfold alen. rewrite Nat2Z.id, drop_all, app_nil_r.
    rewrite Forall_forall. intros y Hy. rewrite Hp in Hy. revert y Hy. rewrite <- Forall_forall. by apply Forall_take. }
  destruct (fuse_agreeing _ _ _) as [sum agree].
  destruct (negb (agree =? 0)); destruct (_ <=? agree); cbn [fst]; auto with ranges.
Qed.

Lemma fuse_delta_guard `{HelmetConfig} fused ok why g :
  guard_ok g -> guard_ok (snd (fuse_delta fused ok why g)).
Proof.
  intros (Hw & Hl & Hd). unfold fuse_delta. destruct (_ && _); [| done]. cbv zeta.
  destruct (_ <? _); [| done]. destruct (0 <? _); [| done].
  assert (is_u8 (if hr_delta_rej g <? 255 then u8 (hr_delta_rej g + 1) else hr_delta_rej g))
    by (zcase; auto with ranges).
  cbn. destruct (_ <=? _); unfold guard_ok; cbn; (split; [done |]); split; done || vdec.
Qed.

Lemma shFuseHr_range `{HelmetConfig} a b c peaks mag allow pre g :
  is_u16 a -> is_u16 b -> is_u16 c -> is_u8 peaks -> is_u16 mag -> guard_ok g ->
  let '(o, g') := shFuseHr a b c peaks mag allow pre g in hr_ok_out o /\ guard_ok g'.
Proof.
  intros Ha Hb Hc Hpk Hmg Hg. unfold shFuseHr.
  assert (is_u16 (fst (fst (if HR_FUSE_MODE then fuse_consensus a b c peaks pre else fuse_pair a b peaks pre)))) as Hf
    by (destruct HR_FUSE_MODE; [by apply fuse_consensus_range | by apply fuse_pair_range]).
  destruct (if HR_FUSE_MODE then _ else _) as [[fused ok] why]. cbn [fst] in Hf.
  destruct (fuse_allow _ _ _ _ _) as [ok1 why1].
  pose proof (fuse_delta_guard fused ok1 why1 g Hg) as Hg2.
  destruct (fuse_delta fused ok1 why1 g) as [[ok2 why2] g2]. cbn [snd] in Hg2.
  destruct ok2; (split; [by unfold hr_ok_out |]); [| done].
  destruct Hg2 as (? & ? & ?). unfold guard_ok. cbn. split; [done |]. split; [done | vdec].
Qed.

Lemma shUpdateHrChange_out `{HelmetConfig} v b c o :
  HR_CUSUM_SLACK_PCT <= 100 -> change_ok c -> is_u16 b -> chg_ok_out o ->
  chg_ok_out (snd (shUpdateHrChange v b c o)).
Proof.
  intros Hp Hc Hb Ho. pose proof (shUpdateHrChange_ok v b c o Hp Hc Hb) as Hc1.
  revert Hc1. unfold shUpdateHrChange. destruct ENABLE_HR_CUSUM; [| done].
  destruct (_ || _).
  - unfold change_invalid. destruct (if 0 <? HR_BASELINE_STALE_WIN then _ else _) as [c1 chg].
    cbn. intros (? & _). unfold chg_ok_out. cbn. split; [done |]. split; [vdec |]. split; apply u16_range.
  - unfold change_valid. cbv zeta. destruct (if _ <? HR_BASELINE_MIN_WIN then _ else _) as [c1 chg].
    cbn. intros (? & _). unfold chg_ok_out. cbn. split; [done |]. split; [apply i16_range |].
    split; apply u16_range.
Qed.

(** * Operations *)
Ltac dinv H := unfold vitals_inv, status_ok in H; destruct_and! H.
Ltac vinv := unfold vitals_inv, status_ok; cbn; split_and!; try done; auto with ranges.

(** One assignment of a body: prove the invariant of the assigned state, then
    forget how it was computed. *)
Tactic Notation "vlet" constr(P) "as" ident(w) ident(Hw) :=
  lazymatch goal with |- vitals_inv ?n ?k (let v := ?a in @?b v) =>
    assert (P a) as Hw;
      [| change (vitals_inv n k (b a)); revert Hw; generalize a; intros w Hw; cbv beta]
  end.
Tactic Notation "vlet" "as" ident(w) ident(Hw) :=
  lazymatch goal with |- vitals_inv ?n ?k _ => vlet (vitals_inv n k) as w Hw end.

Lemma resp_init_ok : resp_ok [] resp_init.
Proof. split; [apply ring_empty_ok; vdec |]. vdec. Qed.

Lemma adapt_reset_ok `{HelmetConfig} : adapt_ok shMotionAdaptReset.
Proof.
  assert (forall (P : Z -> Prop) k, P 0 -> Forall P (replicate k 0)) as Hr
    by (intros P k H0; apply Forall_replicate; exact H0).
  assert (forall P : Z -> Prop, P 0 -> taps_ok P (replicate ADAPT_TAPS_N 0)) as Ht
    by (intros P H0; split; [by rewrite length_replicate | by apply Hr]).
  assert (forall P : Z -> Prop, P 0 -> rows_ok P (replicate (Z.to_nat HR_ADAPT_REF_AXES) (replicate ADAPT_TAPS_N 0))) as Hrows
    by (intros P H0; split; [by rewrite length_replicate | by apply Forall_replicate, Ht]).
  assert (forall P : Z -> Prop, P 0 -> axes_ok P (replicate (Z.to_nat HR_ADAPT_REF_AXES) 0)) as Haxes
    by (intros P H0; split; [by rewrite length_replicate | by apply Hr]).
  unfold adapt_ok, shMotionAdaptReset. cbn [adapt_w adapt_ref adapt_last_accel_hp adapt_axis_px adapt_axis_py adapt_e_in adapt_e_out adapt_ref_n].
  split; [apply Hrows; unfold weight_ok; lia |]. split; [apply Hrows; vdec |]. split; [apply Haxes; vdec |].
  split; [apply Haxes; vdec |]. split; [apply Haxes; unfold HP_Y_MAX; lia |]. unfold HR_ADAPT_TAPS. lia.
Qed.

Section preservation.
Context `{HelmetConfig}.
Hypothesis Hpct : HR_CUSUM_SLACK_PCT <= 100.

Lemma timebase_inv n k v : 0 <= k <= 25 -> vitals_inv n k v -> vitals_inv n 0 (shUpdateTimebase v).
Proof.
  intros Hk Hv. dinv Hv.
  match goal with Ht : ts_ok k _ |- _ => destruct Ht as (Hn & Hs & Hj & Hf & Hpu) end.
  unfold shUpdateTimebase. destruct ENABLE_VITALS_TIMESTAMP eqn:Een; try rewrite Een in Hn.
  - destruct (Z.leb_spec (MOTION_WIN / 2) (ts_n (v_ts v))) as [Hw |].
    + change (MOTION_WIN / 2) with 12 in Hw. cbv zeta.
      set (mean := ts_sum_us (v_ts v) / ts_n (v_ts v)).
      assert (10000 <= mean <= 160000) as Hm
        by (unfold mean; split; [apply Z.div_le_lower_bound | apply Z.div_le_upper_bound]; lia).
      rewrite (proj2 (Z.eqb_neq mean 0)) by lia. vinv.
      unfold ts_ok. cbn. split; [destruct ENABLE_VITALS_TIMESTAMP; lia |]. split; [lia |]. split; [lia |].
      assert (1600 <= 1000000 * 256 / mean <= 25600)
        by (split; [apply Z.div_le_lower_bound | apply Z.div_le_upper_bound]; lia).
      unfold sat16. rewrite (proj2 (Z.ltb_ge _ _)), u16_small by rlia. lia.
    + vinv. unfold ts_ok. cbn. unfold VITALS_FS_HZ. destruct ENABLE_VITALS_TIMESTAMP; lia.
  - vinv. unfold ts_ok. cbn. rewrite Een. unfold VITALS_FS_HZ. lia.
Qed.
Lemma resp_inv n k v : vitals_inv n k v -> vitals_inv n k (shUpdateResp v).
Proof.
  intros Hv. unfold shUpdateResp.
  assert (is_u16 (fst (if ENABLE_RESP then shRespBpm (fs_q8 (v_ts v)) (v_resp v) else (0, 0))) /\
          is_u16 (snd (if ENABLE_RESP then shRespBpm (fs_q8 (v_ts v)) (v_resp v) else (0, 0))))
    as [Hb Hq] by (destruct ENABLE_RESP; [apply shRespBpm_range | split; vdec]).
  destruct (if ENABLE_RESP then _ else _) as [bpm q8]. dinv Hv. vinv.
Qed.

Lemma mot_mag_range m : mot_ok m -> is_u16 (mag_min m) /\ is_u16 (mag_max m).
Proof.
  intros (_ & _ & _ & _ & _ & _ & Hf & _).
  assert (forall i, is_u16 (aget (motion_mag m) i)) as Hg by (intros; apply aget_Forall; [done | vdec]).
  split; apply (for_inv is_u16); auto; intros; by case_match.
Qed.

Lemma motion_step_range m : is_u16 (motion_step m).
Proof. unfold motion_step. cbv zeta. repeat case_match; apply u16_range. Qed.

Lemma note_fall_inv n k rms mn pk v : vitals_inv n k v -> vitals_inv n k (shNoteFallWindow rms mn pk v).
Proof. intros Hv. unfold shNoteFallWindow. cbv zeta. destruct (_ || _); [| done]. dinv Hv. vinv. Qed.

Lemma motion_eval_inv n k v :
  vitals_inv n k v -> is_u16 (fst (motion_eval v)) /\ vitals_inv n k (snd (motion_eval v)).
Proof.
  intros Hv. unfold motion_eval. cbv zeta.
  set (t := if have_accel v then _ else _).
  assert (is_u16 (fst t) /\ vitals_inv n k (snd t)) as [Hr Hv'].
  { unfold t. destruct (have_accel v); cbn [fst snd].
    - split; [apply motion_step_range |]. apply note_fall_inv.
      assert (mot_ok (v_mot v)) as Hm by apply Hv.
      destruct (mot_mag_range _ Hm). dinv Hv. vinv.
    - split; [vdec |]. dinv Hv. vinv. }
  destruct t as [rms v']. cbn [fst snd] in *. split; [done |]. dinv Hv'. vinv.
Qed.

Lemma motion_gate_inv n k rms sa v : vitals_inv n k v -> vitals_inv n k (snd (motion_gate rms sa v)).
Proof.
  intros Hv. unfold motion_gate. destruct ENABLE_LIS3DH; [| done].
  destruct (_ && _); [| case_bool_decide]; cbv zeta; cbn [snd]; dinv Hv; vinv.
Qed.

Lemma report_inv n k e b sa rms act v : vitals_inv n k v -> vitals_inv n k (shVitalsReport e b sa rms act v).
Proof.
  intros Hv. unfold shVitalsReport. destruct ENABLE_VITALS_CSV; [| done].
  pose proof (telem_window_ok (csv_columns e b sa rms act (v_st v)) (v_telem v)). dinv Hv. vinv.
Qed.

Lemma disturb_inv n k v : vitals_inv n k v -> vitals_inv n k (disturb v).
Proof.
  intros Hv. unfold disturb. pose proof (disturb_guard_ok (v_guard v) (v_smooth v)) as Hg.
  pose proof (disturb_smooth_ok HR_DISTURB_HOLDOFF_WIN (v_guard v) (v_smooth v)) as Hs.
  destruct (shHrDisturb _ _ _) as [g sm]. cbn [fst snd] in *. dinv Hv. vinv.
Qed.

Lemma fuse_inv n k a b c peaks mag allow pre v :
  is_u16 a -> is_u16 b -> is_u16 c -> is_u8 peaks -> is_u16 mag -> vitals_inv n k v ->
  vitals_inv n k (fuse_hr a b c peaks mag allow pre v).
Proof.
  intros Ha Hb Hc Hpk Hmg Hv. unfold fuse_hr. assert (guard_ok (v_guard v)) as Hg by apply Hv.
  pose proof (shFuseHr_range a b c peaks mag allow pre (v_guard v) Ha Hb Hc Hpk Hmg Hg) as Hr.
  destruct (shFuseHr _ _ _ _ _ _ _ _) as [o g]. destruct Hr. dinv Hv. vinv.
Qed.

Lemma active_inv n k rms sa v : vitals_inv n k v -> vitals_inv n k (process_active rms sa v).
Proof.
  intros Hv. cbv delta [process_active] beta. vlet as w Hw.
  { assert (hr_ok_out (st_hr (v_st v))) as (_ & _ & _ & _ & ? & ?) by apply Hv. dinv Hv. vinv; unfold hr_ok_out; cbn; auto 10 with ranges. }
  vlet as w1 Hw1; [by dinv Hw; vinv |]. vlet as w2 Hw2; [by apply disturb_inv |].
  vlet as w9 Hw9; [| by apply report_inv].
  assert (guard_ok (v_guard w2)) as [? _] by apply Hw2. dinv Hw2. vinv; lia.
Qed.

Lemma estimate_inv n k allow pre v : vitals_inv n k v -> vitals_inv n k (estimate_hr allow pre v).
Proof.
  intros Hv. unfold estimate_hr. cbv zeta. destruct (shCopySensOrdered _ _) as [x m].
  assert (smooth_ok (v_smooth v) /\ ts_ok k (v_ts v)) as [Hsm Hts] by (dinv Hv; done).
  assert (is_u16 (fs_q8 (v_ts v))) as Hfs by (destruct Hts as (_ & _ & _ & ? & _); rlia).
  assert (is_u16 (fst (if ENABLE_HR_PEAK then shPeakBpm (fs_q8 (v_ts v)) x m else (0, 0)))) as Hp
    by (destruct ENABLE_HR_PEAK; [apply shPeakBpm_range | vdec]).
  assert (is_u8 (snd (if ENABLE_HR_PEAK then shPeakBpm (fs_q8 (v_ts v)) x m else (0, 0)))) as Hpk
    by (destruct ENABLE_HR_PEAK; [apply shPeakBpm_count | vdec]).
  destruct (if ENABLE_HR_PEAK then _ else _) as [bpm_peak peak_n]. cbn [fst snd] in Hp, Hpk.
  assert (let '(b, mg, sm) := if ENABLE_HR_FFT then shFftBpm (fs_q8 (v_ts v)) x m (v_smooth v)
    else (0, 0, v_smooth v) in is_u16 b /\ is_u16 mg /\ smooth_ok sm) as Hf.
  { destruct ENABLE_HR_FFT; [| split; [vdec |]; by split; [vdec |]].
    pose proof (shFftBpm_range (fs_q8 (v_ts v)) x m (v_smooth v) Hfs Hsm) as Hf.
    destruct (shFftBpm _ _ _ _) as [[b mg] sm]. destruct Hf as (? & ? & Hb & _). split; [| done].
    unfold HR_BPM_MIN, HR_BPM_MAX in Hb. rlia. }
  destruct (if ENABLE_HR_FFT then _ else _) as [[bpm_fft mag] sm]. destruct Hf as (Hf & Hmg & Hsm').
  destruct (shAutoCorrBpm_range (fs_q8 (v_ts v)) x m) as [Ha Hq].
  destruct ENABLE_HR_AUTOCORR.
  - cbn. destruct (shAutoCorrBpm _ _ _) as [bpm_ac q]. apply fuse_inv; [done.. |].
    dinv Hv. vinv.
  - apply fuse_inv; [done | done | vdec | done | done |]. dinv Hv. vinv.
Qed.

Lemma calm_hr_inv n k e sa v : vitals_inv n k v -> vitals_inv n k (calm_hr e sa v).
Proof.
  intros Hv. unfold calm_hr. cbv zeta.
  set (t := if 0 <? hr_win_left (v_guard v) then _ else _).
  assert (vitals_inv n k (snd t)) as Hv'.
  { unfold t. destruct (Z.ltb_spec 0 (hr_win_left (v_guard v))); [| done]. cbn [snd].
    assert (guard_ok (v_guard v)) as (Hw & ? & ?) by apply Hv. dinv Hv. vinv.
    unfold guard_ok. cbn. split; [lia | done]. }
  destruct t as [pre v']. cbn [snd] in Hv'. pose proof u16_0.
  destruct (_ || _); [destruct (negb _) |]; try by apply fuse_inv. by apply estimate_inv.
Qed.

Lemma update_change_inv n k v : vitals_inv n k v -> vitals_inv n k (update_change v).
Proof.
  intros Hv. unfold update_change. cbv zeta.
  set (w := if ENABLE_HR_CUSUM && ENABLE_HR_MOTION_ADAPT then _ else v).
  assert (vitals_inv n k w) as Hw.
  { unfold w. destruct (_ && _); [| done]. destruct (adapt_removed _) eqn:E; [| done].
    apply adapt_removed_ok in E. dinv Hv. vinv. }
  clearbody w. assert (hr_ok_out (st_hr (v_st w))) as (_ & _ & _ & Hb & _) by apply Hw.
  assert (change_ok (v_chg w)) as Hc by (dinv Hw; done).
  assert (chg_ok_out (st_chg (v_st w))) as Ho by apply Hw.
  pose proof (shUpdateHrChange_ok (hr_valid (st_hr (v_st w))) _ _ (st_chg (v_st w)) Hpct Hc Hb) as Hc'.
  pose proof (shUpdateHrChange_out (hr_valid (st_hr (v_st w))) _ _ (st_chg (v_st w)) Hpct Hc Hb Ho) as Ho'.
  destruct (shUpdateHrChange _ _ _ _) as [c o]. cbn [fst snd] in *. dinv Hw. vinv.
Qed.

(** The new baseline is not zero, so the division by it is defined. *)
Lemma calm_trend_range v sa :
  0 <= bio_pulse_abs (v_bio v) <= 32767 -> is_u16 (st_baseline_energy (v_st v)) ->
  match snd (calm_trend sa v) with Some b => is_u16 b | None => True end.
Proof.
  intros Hp Hb. unfold calm_trend. cbv zeta. destruct (_ && _); [done |].
  destruct (_ <? sa); [done |]. cbn [snd].
  destruct (_ =? 0); [| apply u16_range]. zcase; rlia.
Qed.

Lemma calm_begin_inv n k es sa ea v :
  vitals_inv n k v ->
  is_u16 (fst (fst (calm_begin es sa ea v))) /\ vitals_inv n k (snd (calm_begin es sa ea v)).
Proof.
  intros Hv. unfold calm_begin. cbv zeta. cbn [fst snd]. split; [apply u16_range |].
  set (energy := calm_energy _ _ _). assert (is_u16 energy) as He by apply u16_range. clearbody energy.
  set (w := _ <| calm_windows ::= _ |>). assert (vitals_inv n k w) as Hw by (dinv Hv; vinv).
  clearbody w. by destruct (negb _); [apply disturb_inv |].
Qed.

Lemma calm_window_inv n k energy sa baseline v :
  vitals_inv n k v -> vitals_inv n k (snd (calm_window energy sa baseline v)).
Proof.
  intros Hw. unfold calm_window. destruct (calm_warm v); cbv zeta.
  - cbn [snd]. apply fuse_inv; [vdec.. |]. apply disturb_inv. dinv Hw. vinv.
  - pose proof (calm_trend_range v sa) as Hr. destruct (calm_trend sa v) as [[tr ok] nb].
    cbn [snd] in *. apply calm_hr_inv. destruct nb; dinv Hw; vinv.
    apply Hr; [| done]. match goal with Hb : bio_ok _ |- _ => apply Hb end.
Qed.

Lemma calm_finish_inv n k trend v : vitals_inv n k v -> vitals_inv n k (calm_finish trend v).
Proof.
  intros Hv. assert (guard_ok (v_guard v)) as [? _] by apply Hv. unfold calm_finish.
  dinv Hv. vinv; lia.
Qed.

Lemma calm_inv n k rms es sa ea v : vitals_inv n k v -> vitals_inv n k (process_calm rms es sa ea v).
Proof.
  intros Hv. unfold process_calm. destruct (calm_begin_inv n k es sa ea v Hv) as [He Hw].
  destruct (calm_begin es sa ea v) as [[energy base] w]. cbn [fst snd] in He, Hw.
  pose proof (calm_window_inv n k energy sa base w Hw) as Hw1.
  destruct (calm_window energy sa base w) as [[trend base'] w1]. cbn [snd] in Hw1.
  by apply report_inv, calm_finish_inv, update_change_inv.
Qed.

Lemma process_inv n k v :
  0 <= k <= 25 -> vitals_inv n k v -> vitals_inv n 0 (SmartHelmet_VitalsProcess v).
Proof.
  intros Hk Hv. unfold SmartHelmet_VitalsProcess. cbv zeta.
  pose proof (motion_eval_inv n 0 _ (resp_inv n 0 _ (timebase_inv n k v Hk Hv))) as [Hr Hw].
  destruct (motion_eval _) as [rms w]. cbn [fst snd] in *.
  match goal with |- context [motion_gate ?r ?s w] =>
    pose proof (motion_gate_inv n 0 r s w Hw); destruct (motion_gate r s w) as [act w'] end.
  destruct act; [by apply active_inv | by apply calm_inv].
Qed.

(** ** The calls *)
Lemma push_accel_inv n k x y z v :
  is_i16 x -> is_i16 y -> is_i16 z -> vitals_inv n k v -> vitals_inv n k (SmartHelmet_VitalsPushAccel x y z v).
Proof.
  intros Hx Hy Hz Hv. cbv delta [SmartHelmet_VitalsPushAccel] beta.
  vlet is_u16 as mag Hmag; [apply sqrt_u16 |].
  vlet as w Hw; [assert (mot_ok (v_mot v)) by (dinv Hv; done); dinv Hv; vinv; by apply motion_push_ok |].
  vlet as w1 Hw1; [unfold shNoteFallMag; destruct (_ =? 0); [done |]; destruct (_ || _); [| done]; dinv Hw; vinv |].
  assert (hp_ok (v_hp w1)) as Hhp by (dinv Hw1; done).
  pose proof (hp_ok_step mag _ Hmag Hhp) as [Hs Hp].
  destruct (shHighPass _ _ _) as [hp prev]. cbn [fst snd] in Hs, Hp.
  vlet as w2 Hw2; [by dinv Hw1; vinv |].
  vlet as w3 Hw3.
  { destruct ENABLE_HR_MOTION_ADAPT; [| done].
    assert (adapt_ok (v_adapt w2)) as Ha by (dinv Hw2; done).
    pose proof (adapt_push_accel_ok x y z hp _ Hx Hy Hz Hs Ha). dinv Hw2. vinv. }
  assert (ring_wf (v_band w3)) as Hr by (dinv Hw3; done).
  pose proof (ring_wf_push _ hp Hr Hs). dinv Hw3. vinv.
Qed.

Lemma pir_inv n k v : vitals_inv n k v -> vitals_inv n k (SmartHelmet_VitalsPirEvent v).
Proof. intros Hv. dinv Hv. vinv. Qed.

Lemma sens_edge_inv n k hp v : vitals_inv n k v -> vitals_inv n k (sens_edge hp v).
Proof.
  intros Hv. unfold sens_edge. destruct (0 <? _); [| done]. cbv zeta.
  pose proof (pir_inv n k v Hv) as Hp. destruct (_ && _); [| destruct (_ && _); [| done]].
  - revert Hp. generalize (SmartHelmet_VitalsPirEvent v). intros w Hw. dinv Hw. vinv.
  - dinv Hv. vinv.
Qed.

Lemma ts_ok_mono k k' t : k <= k' -> ts_ok k t -> ts_ok k' t.
Proof. intros Hk (? & ? & ? & ? & ?). unfold ts_ok. destruct ENABLE_VITALS_TIMESTAMP; split_and!; done || lia. Qed.

Lemma push_sens_inv n k mv t v :
  is_u16 mv -> is_u32 t -> 0 <= k < 255 -> vitals_inv n k v ->
  vitals_inv n (k + 1) (SmartHelmet_VitalsPushSensInMvAt mv t v).
Proof.
  intros Hmv Ht Hk Hv. cbv delta [SmartHelmet_VitalsPushSensInMvAt] beta.
  vlet as w Hw.
  { assert (ts_ok k (v_ts v)) as Hts by (dinv Hv; done).
    pose proof (ts_ok_mono k (k + 1) (v_ts v) ltac:(lia) Hts).
    destruct ENABLE_VITALS_TIMESTAMP eqn:Een; [| dinv Hv; vinv].
    pose proof (ts_note_ok k t (v_ts v) Een Ht Hts ltac:(lia)). dinv Hv. vinv. }
  vlet as w1 Hw1; [by dinv Hw; vinv |].
  vlet as w2 Hw2; [pose proof (telem_dump_ok mv t (v_telem w1)); dinv Hw1; vinv |].
  assert (hp_ok (v_sens_prev w2)) as Hhp by (dinv Hw2; done).
  pose proof (hp_ok_step mv _ Hmv Hhp) as [Hs Hp].
  destruct (shHighPass _ _ _) as [hp0 prev]. cbn [fst snd] in Hs, Hp.
  vlet as w3 Hw3; [by dinv Hw2; vinv |].
  set (p := if ENABLE_HR_MOTION_ADAPT then _ else _).
  assert (is_i16 (fst p) /\ vitals_inv n (k + 1) (snd p)) as [Hh Hw4].
  { unfold p. destruct ENABLE_HR_MOTION_ADAPT; [| done].
    assert (adapt_ok (v_adapt w3)) as Ha by (dinv Hw3; done).
    pose proof (shMotionCancel_range hp0 _ Hs Ha) as Hc. destruct (shMotionCancel _ _) as [e a].
    destruct Hc. split; [done |]. cbn [snd]. dinv Hw3. vinv. }
  destruct p as [hp w4]. cbn [fst snd] in Hh, Hw4.
  vlet as w5 Hw5.
  { destruct ENABLE_RESP; [| done]. assert (exists h, resp_ok h (v_resp w4)) as [h Hr] by (dinv Hw4; done).
    pose proof (shRespPush_ok h _ mv Hr Hmv). dinv Hw4. vinv. }
  vlet as w6 Hw6; [pose proof (ring_wf_push (v_sens w5) hp); dinv Hw5; vinv; eauto |].
  vlet as w7 Hw7; [pose proof (shBioPush_ok hp (v_bio w6)); dinv Hw6; vinv; eauto |].
  by apply sens_edge_inv.
Qed.

Lemma inv_mono n k k' v : k <= k' -> vitals_inv n k v -> vitals_inv n k' v.
Proof.
  intros Hk Hv. assert (ts_ok k (v_ts v)) as Hts by (dinv Hv; done).
  pose proof (ts_ok_mono k k' _ Hk Hts). dinv Hv. vinv.
Qed.

Lemma init_inv n k v : vitals_inv n k v -> vitals_inv 0 0 (SmartHelmet_VitalsInit v).
Proof.
  intros Hv. unfold SmartHelmet_VitalsInit.
  pose proof ring_wf_empty as Hr. assert (hp_ok (0, 0)) as Hp by vdec.
  assert (bio_ok (mkbio 0 0 0 0 0 0)) as Hb by (unfold bio_ok; vdec).
  assert (mot_ok motion_empty) as Hm by (unfold mot_ok; vdec).
  assert (guard_ok (mkguard HR_DISTURB_HOLDOFF_WIN 0 false 0)) as Hg by (unfold guard_ok; vdec).
  assert (hr_ok_out hr_out_zero) as Ho by (unfold hr_ok_out; vdec).
  assert (chg_ok_out change_out_init) as Hc by (unfold chg_ok_out; vdec).
  assert (forall b, ts_ok 0 (if b : bool then ts_init else ts_init)) as Ht0
    by (intros []; unfold ts_ok, ts_init, VITALS_FS_HZ; cbn; destruct ENABLE_VITALS_TIMESTAMP; lia).
  assert (exists h, resp_ok h resp_init) as Hri by (exists []; apply resp_init_ok).
  assert (change_ok change_init) as Hci by vdec.
  assert (adapt_ok shMotionAdaptReset) as Hai by apply adapt_reset_ok.
  assert (smooth_ok shFftSmoothReset) as Hsi by done.
  assert (ts_ok 0 (if ENABLE_VITALS_TIMESTAMP then ts_init
                   else (v_ts v) <| fs_q8 := VITALS_FS_HZ * 256 |>)) as Ht.
  { destruct ENABLE_VITALS_TIMESTAMP eqn:Een; [exact (Ht0 true) |].
    assert (ts_ok k (v_ts v)) as Hts by (dinv Hv; done). unfold ts_ok in *. rewrite Een in *.
    cbn. unfold VITALS_FS_HZ. lia. }
  assert (forall a b c, telem_ok (let t := if a : bool then shTelemReset (v_telem v) else v_telem v in
    let t := if b : bool then t <| sh_win_seq := 0 |> else t in if c : bool then t <| sh_dump_seq := 0 |> else t)) as Hti.
  { assert (telem_ok (v_telem v)) as (Hl & Hw & Hd & Hot) by (dinv Hv; done). assert (alen [] < TELEMETRY_LINE_MAX) by vdec.
    intros [] [] []; unfold telem_ok; cbn; auto with ranges. }
  dinv Hv. vinv; try exact (Hti _ _ _); match goal with |- context [if ?b then _ else _] => by destruct b end.
Qed.

Lemma vitals_step_ok e v : event_ok e -> vitals_ok v -> vitals_ok (vitals_step e v).
Proof.
  intros He [Hn Hv]. unfold MOTION_WIN in Hn. set (n := sens_since_process v) in *.
  assert (forall k w, 0 <= k < 25 -> vitals_inv k k w -> vitals_ok w) as Hok.
  { intros k w Hk Hw. assert (sens_since_process w = k) as E by apply Hw. unfold vitals_ok. by rewrite E. }
  assert (forall w, vitals_inv n n w -> vitals_ok w) as Hkeep by (intros w; by apply Hok).
  destruct e as [| x y z | mv t | | | | | sink]; cbn [vitals_step] in *.
  - apply (Hok 0); [lia |]. by apply (init_inv n n).
  - apply Hkeep. destruct He as (Hx & Hy & Hz). by apply push_accel_inv.
  - destruct He as [Hmv Ht]. pose proof (push_sens_inv n n mv t v Hmv Ht ltac:(lia) Hv) as Hw.
    revert Hw. generalize (SmartHelmet_VitalsPushSensInMvAt mv t v). intros w Hw.
    unfold SmartHelmet_VitalsOnSensSample. cbn [field_set sens_since_process].
    assert (sens_since_process w = n) as E by apply Hw.
    rewrite E, (proj2 (Z.ltb_lt n 255)), u8_small by rlia.
    destruct (Z.leb_spec MOTION_WIN (n + 1)) as [Hle | Hlt]; unfold MOTION_WIN in *.
    + apply (Hok 0); [lia |]. apply (process_inv 0 (n + 1)); [lia |]. dinv Hw. vinv.
    + apply (Hok (n + 1)); [lia |]. dinv Hw. vinv.
  - apply Hkeep. unfold SmartHelmet_VitalsNoteSensDropped.
    assert (ts_ok n ((v_ts v) <| ts_prev_valid := false |>)) as Hts.
    { assert (ts_ok n (v_ts v)) as Ht by (dinv Hv; done). exact Ht. }
    destruct ENABLE_VITALS_TIMESTAMP; dinv Hv; vinv.
  - apply Hkeep. by apply pir_inv.
  - apply Hkeep. apply (inv_mono n 0 n); [lia |]. apply (process_inv n n); [lia | done].
  - apply Hkeep. dinv Hv. vinv.
  - apply Hkeep. pose proof (set_sink_ok sink (v_telem v)). dinv Hv. vinv.
Qed.
End preservation.

Lemma vitals_start_ok `{HelmetConfig} : vitals_ok vitals_start.
Proof.
  pose proof ring_wf_empty. pose proof resp_init_ok. pose proof adapt_reset_ok.
  assert (mot_ok motion_empty) by (unfold mot_ok; vdec).
  assert (guard_ok (mkguard 0 0 false 0)) by (unfold guard_ok; vdec).
  assert (bio_ok (mkbio 0 0 0 0 0 0)) by (unfold bio_ok; vdec).
  assert (ts_ok 0 ts_init)
    by (unfold ts_ok, ts_init, VITALS_FS_HZ; cbn; destruct ENABLE_VITALS_TIMESTAMP; lia).
  split; [vdec |]. unfold vitals_start. vinv; try vdec. by eexists.
Qed.

Lemma vitals_run_ok `{HelmetConfig} es v :
  HR_CUSUM_SLACK_PCT <= 100 -> Forall event_ok es -> vitals_ok v -> vitals_ok (vitals_run es v).
Proof.
  intros Hpct Hes. revert v. induction Hes as [| e es He Hes IH]; intros v Hv; [done |].
  cbn. apply IH. by apply vitals_step_ok.
Qed.

(** [C28] The engine never leaves its invariant: from the initial statics,
    whatever calls the rest of the firmware makes, in any order and with any
    arguments of their C types, every ring and delay line has its length and
    every index is inside it; every sample in them, every filter state,
    weight and energy is inside the range in which the arithmetic does not
    overflow; the measured sampling rate is between 6.25 and 100 Hz; every
    counter and every reported value, the telemetry's sequence numbers
    included, has its type, and every telemetry line fits its buffer; a
    window is run after every 25 samples. *)
Theorem vitals_reachable_ok `{HelmetConfig} es :
  HR_CUSUM_SLACK_PCT <= 100 -> Forall event_ok es -> vitals_ok (vitals_run es vitals_start).
Proof. intros. apply vitals_run_ok; [done | done | apply vitals_start_ok]. Qed.

Lemma vitals_reachable_ok_witness :
  vitals_ok (H := shipped)
    (vitals_run (H := shipped) (EvInit :: replicate 26 (EvSample 65535 4294967295) ++ [EvAccel (-32768) 32767 0; EvProcess])
      (@vitals_start shipped)).
Proof. apply (@vitals_reachable_ok shipped); vdec. Defined.
