(* ===== verification/VitalsLive.v ===== *)
(** The whole engine on a pulse: from power-on to a reported rate. *)
From S2P Require Import Prelude Config Dsp Ring ISort Peak Fft Corr Adapt Fuse Change Decimal Telemetry Vitals VitalsInv.

(** * Vocabulary of the specifications *)

(** A pulse of period [t] samples and amplitude 42 mV on the sensor level of
    800 mV, sampled at 25 Hz with exact time stamps. *)
Definition pulse_mv (t i : Z) : Z := 800 + (42 * shCos64Q15 (64 * i / t)) ÷ 32768.

Definition pulse_events (t n : Z) : list vitals_event :=
  (fun i => EvSample (pulse_mv t i) (40000 * (i + 1))) <$> seqZ 0 n.

(** The engine after [n] samples from power-on, in the default build. *)
Definition pulse_state (t n : Z) : vitals :=
  vitals_run (H := shipped) (EvInit :: pulse_events t n) (@vitals_start shipped).

Definition pulse_status (t n : Z) : vitals_status := v_st (pulse_state t n).

(** The helmet has just moved. *)
Definition moved_state : vitals :=
  vitals_run (H := shipped) [EvInit; EvAccel 0 0 1000; EvAccel 500 0 1000] (@vitals_start shipped).

(** A steady pulse is found.  From power-on, any pulse with a period of
    10 to 20 samples (75 to 150 BPM) at rest gives a valid rate after ten
    one-second windows, within 3 BPM of the true one, with the
    reason [hr_ok]. *)
Theorem vitals_finds_pulse t :
  10 <= t <= 20 ->
  let h := st_hr (pulse_status t 250) in
  hr_valid h = true /\ hr_reason h = hr_ok /\ Z.abs (hr_bpm h - 60 * VITALS_FS_HZ / t) <= 3.
Proof.
  intros Ht.
  assert (forallb (fun t => let h := st_hr (pulse_status t 250) in
    hr_valid h && bool_decide (hr_reason h = hr_ok) &&
    (Z.abs (hr_bpm h - 60 * VITALS_FS_HZ / t) <=? 3)) (seqZ 10 11) = true) as Hall
    by (vm_compute; reflexivity).
  rewrite forallb_forall in Hall. specialize (Hall t). rewrite <- list_elem_of_In, elem_of_seqZ in Hall.
  specialize (Hall ltac:(lia)). revert Hall. cbv zeta. generalize (st_hr (pulse_status t 250)).
  intros h Hall. rewrite !andb_true_iff, Z.leb_le in Hall.
  destruct Hall as [[Hv Hr] Hb]. apply bool_decide_eq_true_1 in Hr. auto.
Qed.

Lemma vitals_finds_pulse_witness :
  let h := st_hr (pulse_status 20 250) in
  hr_valid h = true /\ hr_reason h = hr_ok /\ Z.abs (hr_bpm h - 60 * VITALS_FS_HZ / 20) <= 3.
Proof. apply (vitals_finds_pulse 20). vdec. Defined.
