(* ===== verification/VitalsSpec.v ===== *)
(** What a window of the vitals engine promises: when a pulse rate is
    reported, the hold-off after a disturbance, the motion gate, the fall
    latch and the telemetry record. *)
From stdpp Require Import sets.
From S2P Require Import Prelude Config Dsp Ring ISort Peak Fft Corr Adapt Fuse Change Decimal Telemetry Vitals VitalsInv VitalsLive.

(** * Vocabulary of the specifications *)

(** The state at the motion gate, with the activity measure of the window. *)
Definition window_begin `{HelmetConfig} (v : vitals) : Z * vitals :=
  motion_eval (shUpdateResp (shUpdateTimebase v)).

Definition window_sens_abs (v : vitals) : Z := shMeanAbsI16 (r_buf (v_sens v)) (r_count (v_sens v)).

(** The activity measure reaches the motion threshold. *)
Definition window_moves `{HelmetConfig} (v : vitals) : bool :=
  have_accel v && (motion_thresh v <=? motion_step (v_mot v)).

(** The estimates of a window on its 4 s of residuals. *)
Definition window_samples `{HelmetConfig} (v : vitals) : list Z * Z :=
  shCopySensOrdered (r_count (v_sens v)) (v_sens v).
Definition window_peak `{HelmetConfig} (fs : Z) (v : vitals) : Z :=
  let '(x, n) := window_samples v in if ENABLE_HR_PEAK then fst (shPeakBpm fs x n) else 0.
Definition window_fft `{HelmetConfig} (fs : Z) (sm : fft_smooth) (v : vitals) : Z :=
  let '(x, n) := window_samples v in if ENABLE_HR_FFT then fst (fst (shFftBpm fs x n sm)) else 0.

(** The state at which the call [e] evaluates a window, if it does. *)
Definition window_state `{HelmetConfig} (e : vitals_event) (v : vitals) : option vitals :=
  match e with
  | EvProcess => Some v
  | EvSample mv t =>
    let w := SmartHelmet_VitalsPushSensInMvAt mv t v in
    let w := w <| sens_since_process ::= (fun n => if n <? 255 then u8 (n + 1) else n) |> in
    if MOTION_WIN <=? sens_since_process w then Some (w <| sens_since_process := 0 |>) else None
  | _ => None
  end.

(** The windows of a run, in order. *)
Fixpoint vitals_windows `{HelmetConfig} (es : list vitals_event) (v : vitals) : list vitals :=
  match es with
  | [] => []
  | e :: es => match window_state e v with Some w => [w] | None => [] end ++
               vitals_windows es (vitals_step e v)
  end.

Definition not_init (e : vitals_event) : bool := match e with EvInit => false | _ => true end.
Definition keeps_fall (e : vitals_event) : bool :=
  match e with EvInit | EvTakeFall => false | _ => true end.

(** The last [k] elements, newest first. *)
Definition latest {A} (k : nat) (l : list A) : list A := take k (rev l).

(** * Frames: what the stages of a window leave alone *)
Section frames.
Context `{HelmetConfig}.

(** [w] differs from [v] only in what precedes the gate. *)
Definition begin_frame (v w : vitals) : Prop :=
  v_guard w = v_guard v /\ v_sens w = v_sens v /\ v_smooth w = v_smooth v /\ v_mot w = v_mot v /\
  v_band w = v_band v /\ v_bio w = v_bio v /\ v_adapt w = v_adapt v /\ v_telem w = v_telem v /\
  calm_windows w = calm_windows v /\ pir_events w = pir_events v /\ still_run w = still_run v /\
  prev_sens_mv w = prev_sens_mv v /\ prev_sens_mv_valid w = prev_sens_mv_valid v /\
  v_ts w = v_ts (shUpdateTimebase v) /\ (v_fall v = true -> v_fall w = true) /\
  st_motion (v_st w) = st_motion (v_st v) /\ st_hr (v_st w) = st_hr (v_st v) /\
  st_sens_mv (v_st w) = st_sens_mv (v_st v) /\
  st_baseline_energy (v_st w) = st_baseline_energy (v_st v).

(** The gate also moves its counter. *)
Definition gate_frame (v w : vitals) : Prop := begin_frame v (w <| still_run := still_run v |>).

Lemma timebase_frame v : begin_frame v (shUpdateTimebase v).
Proof.
  unfold begin_frame. split_and!; try done; unfold shUpdateTimebase; cbv zeta;
    destruct ENABLE_VITALS_TIMESTAMP, (MOTION_WIN / 2 <=? ts_n (v_ts v)); cbn; try done;
    by destruct (_ =? 0).
Qed.

Lemma resp_frame v w : begin_frame v w -> begin_frame v (shUpdateResp w).
Proof. unfold shUpdateResp. by destruct (if ENABLE_RESP then _ else _). Qed.

Lemma fall_window_frame v rms mn pk w : begin_frame v w -> begin_frame v (shNoteFallWindow rms mn pk w).
Proof. intros Hw. unfold shNoteFallWindow. cbv zeta. destruct (_ || _); [| done]. unfold begin_frame in *. destruct_and! Hw. cbn. split_and!; done. Qed.

Lemma motion_eval_eq w :
  fst (motion_eval w) = (if have_accel w then motion_step (v_mot w) else 0) /\
  v_fall (snd (motion_eval w)) =
    v_fall (if have_accel w then shNoteFallWindow (shRmsDevU16 (motion_mag (v_mot w)) (motion_count (v_mot w)))
             (mag_min (v_mot w)) (mag_max (v_mot w)) w else w).
Proof.
  unfold motion_eval. destruct (have_accel w); [| done]. cbv zeta. cbn [fst snd]. split; [done |].
  unfold shNoteFallWindow. cbv zeta. by destruct (_ || _).
Qed.

Lemma motion_eval_frame v w : begin_frame v w -> begin_frame v (snd (motion_eval w)).
Proof.
  intros Hw. unfold motion_eval. cbv zeta. set (t := if have_accel w then _ else _).
  assert (begin_frame v (snd t)) as Ht.
  { unfold t. destruct (have_accel w); cbn [snd]; [by apply fall_window_frame | done]. }
  by destruct t.
Qed.

Lemma window_begin_frame v : begin_frame v (snd (window_begin v)).
Proof. apply motion_eval_frame, resp_frame, timebase_frame. Qed.

(** The decision of the motion gate, and the counter of quiet windows. *)
Definition gate_active (moves was_active : bool) (run : Z) : bool :=
  moves || (was_active && (run <? MOTION_STILL_SAMPLES)).
Definition gate_run (moves was_active : bool) (run : Z) : Z :=
  if moves then 0 else if was_active then (if run <? 255 then u8 (run + 1) else run) else 0.

Lemma motion_gate_eq rms sa w :
  ENABLE_LIS3DH = true ->
  let moves := have_accel w && (motion_thresh w <=? rms) in
  let was := bool_decide (st_motion (v_st w) = smart_helmet_motion_active) in
  let run := gate_run moves was (still_run w) in
  motion_gate rms sa w = (gate_active moves was run, w <| still_run := run |>).
Proof.
  intros Hen. unfold motion_gate. rewrite Hen. cbv zeta. unfold gate_active, gate_run.
  destruct (have_accel w && _); [done |]. by case_bool_decide.
Qed.

Lemma motion_gate_frame v rms sa w :
  begin_frame v w -> gate_frame v (snd (motion_gate rms sa w)) /\
    v_fall (snd (motion_gate rms sa w)) = v_fall w.
Proof.
  intros Hw. unfold motion_gate.
  assert (forall w', w = w' <| still_run := still_run w |> -> gate_frame v w') as Hg.
  { intros w' E. assert (still_run w = still_run v) as Er by apply Hw.
    unfold gate_frame. rewrite <- Er. by rewrite <- E. }
  destruct ENABLE_LIS3DH; [destruct (have_accel w && _); [| case_bool_decide] |];
    (split; [apply Hg; by destruct w | done]).
Qed.

(** A window is the gate followed by one of the two branches. *)
Lemma process_split v :
  exists act rms es ea w,
    SmartHelmet_VitalsProcess v =
      (if act : bool then process_active rms (window_sens_abs v) w
       else process_calm rms es (window_sens_abs v) ea w) /\
    gate_frame v w /\ v_fall w = v_fall (snd (window_begin v)) /\
    (ENABLE_LIS3DH = true ->
      let was := bool_decide (st_motion (v_st v) = smart_helmet_motion_active) in
      still_run w = gate_run (window_moves v) was (still_run v) /\
      act = gate_active (window_moves v) was (still_run w)) /\
    rms = fst (window_begin v) /\
    w = snd (motion_gate rms (window_sens_abs v) (snd (window_begin v))).
Proof.
  unfold SmartHelmet_VitalsProcess. cbv zeta. fold (window_begin v).
  pose proof (window_begin_frame v) as Hf.
  assert (fst (window_begin v) = if have_accel v then motion_step (v_mot v) else 0) as Hrms.
  { unfold window_begin. rewrite (proj1 (motion_eval_eq _)).
    pose proof (resp_frame v _ (timebase_frame v)) as (_ & _ & _ & E & _). unfold have_accel. by rewrite E. }
  destruct (window_begin v) as [rms w0] eqn:E0. cbn [fst snd] in *.
  pose proof Hf as (_ & Es & _ & Em & _ & _ & Ea & _ & _ & _ & Er & _ & _ & _ & _ & Est & _).
  fold (window_sens_abs w0). assert (window_sens_abs w0 = window_sens_abs v) as -> by (unfold window_sens_abs; by rewrite Es).
  destruct (motion_gate_frame v rms (window_sens_abs v) w0 Hf) as [Hg Hfall].
  pose proof (motion_gate_eq rms (window_sens_abs v) w0) as Hgate. cbv zeta in Hgate.
  rewrite Est, Er in Hgate.
  assert (have_accel w0 && (motion_thresh w0 <=? rms) = window_moves v) as Hmv.
  { unfold window_moves, have_accel, motion_thresh, adapt_running in *. rewrite Em, Ea, Hrms.
    by destruct (2 <=? _). }
  rewrite Hmv in Hgate.
  destruct (motion_gate rms (window_sens_abs v) w0) as [act w] eqn:Eg. cbn [fst snd] in *.
  eexists act, rms, _, _, w. split; [reflexivity |]. split; [done |]. split; [done |].
  split; [| by rewrite Eg]. intros Hen. specialize (Hgate Hen). injection Hgate as -> ->. done.
Qed.

(** *** The pulse rate *)
Definition hr_frame (w r : vitals) : Prop :=
  r = w <| v_guard := v_guard r |> <| v_smooth := v_smooth r |>
        <| v_st := (v_st w) <| st_hr := st_hr (v_st r) |> <| st_hr_ac_q8 := st_hr_ac_q8 (v_st r) |> |>.

Lemma hr_frame_trans a b c : hr_frame a b -> hr_frame b c -> hr_frame a c.
Proof. unfold hr_frame. intros E1 E2. rewrite E2. rewrite E1. reflexivity. Qed.

Lemma shFuseHr_gate a b c peaks mag allow pre g :
  let '(o, g') := shFuseHr a b c peaks mag allow pre g in
  hr_win_left g' = hr_win_left g /\ (allow = false -> hr_valid o = false).
Proof.
  unfold shFuseHr. destruct (if HR_FUSE_MODE then _ else _) as [[fused ok] why].
  destruct (fuse_allow allow pre (hr_win_left g) ok why) as [ok1 why1] eqn:E1.
  assert (allow = false -> ok1 = false) as Ha.
  { intros ->. unfold fuse_allow in E1. by injection E1. }
  assert (hr_win_left (snd (fuse_delta fused ok1 why1 g)) = hr_win_left g) as Hw.
  { unfold fuse_delta. destruct (_ && _); [| done]. cbv zeta. destruct (_ <? _); [| done].
    destruct (0 <? _); [| done]. cbn. by destruct (_ <=? _). }
  pose proof (fuse_delta_eq fused ok1 why1 g) as Hd.
  destruct (fuse_delta fused ok1 why1 g) as [[ok2 why2] g2]. cbn [snd] in Hw.
  destruct Hd as [Hiff _]. destruct ok2; (split; [done |]); [| done].
  intros Hf. destruct (proj1 Hiff eq_refl) as [Ht _]. rewrite (Ha Hf) in Ht. done.
Qed.

Lemma fuse_hr_frame a b c peaks mag allow pre v :
  let r := fuse_hr a b c peaks mag allow pre v in
  hr_frame v r /\ hr_win_left (v_guard r) = hr_win_left (v_guard v) /\
  (allow = false -> hr_valid (st_hr (v_st r)) = false).
Proof.
  unfold fuse_hr. pose proof (shFuseHr_gate a b c peaks mag allow pre (v_guard v)) as Hg.
  destruct (shFuseHr _ _ _ _ _ _ _ _) as [o g]. destruct Hg. split; [| done].
  unfold hr_frame. by destruct v as [[] ].
Qed.

Lemma estimate_frame allow pre v :
  let r := estimate_hr allow pre v in
  hr_frame v r /\ hr_win_left (v_guard r) = hr_win_left (v_guard v) /\
  (allow = false -> hr_valid (st_hr (v_st r)) = false).
Proof.
  unfold estimate_hr. cbv zeta. destruct (shCopySensOrdered _ _) as [x n].
  destruct (if ENABLE_HR_PEAK then _ else _) as [pk pn].
  destruct (if ENABLE_HR_FFT then _ else _) as [[ff mg] sm].
  set (t := if ENABLE_HR_AUTOCORR then _ else _).
  assert (hr_frame v (snd t) /\ v_guard (snd t) = v_guard v) as [Ht Hg].
  { unfold t. destruct ENABLE_HR_AUTOCORR; [destruct (shAutoCorrBpm _ _ _) |]; (split; [| done]);
      unfold hr_frame; by destruct v as [[] ]. }
  destruct t as [ac w]. cbn [snd] in *.
  destruct (fuse_hr_frame pk ff ac pn mg allow
    (if (pk =? 0) && (ff =? 0) && (ac =? 0) then if bool_decide (pre = hr_holdoff) then pre else hr_none else pre) w)
    as (Hf & Hw & Hv).
  split; [by eapply hr_frame_trans |]. split; [by rewrite Hw, Hg | done].
Qed.

Lemma calm_hr_frame e sa v :
  guard_ok (v_guard v) ->
  let r := calm_hr e sa v in
  hr_frame v r /\ hr_win_left (v_guard r) = Z.max 0 (hr_win_left (v_guard v) - 1) /\
  (hr_valid (st_hr (v_st r)) = true ->
    hr_win_left (v_guard v) = 0 /\ signal_reason e sa v = hr_ok /\ r = estimate_hr true hr_ok v).
Proof.
  intros ((Hw & _) & _). unfold calm_hr. cbv zeta.
  destruct (Z.ltb_spec 0 (hr_win_left (v_guard v))) as [Hl | Hl].
  - rewrite (proj2 (Z.eqb_neq _ 0)) by lia. set (w := v <| v_guard ::= _ |>).
    assert (hr_frame v w) as Hvw by (unfold hr_frame; by destruct v as [[] ]).
    assert (hr_win_left (v_guard w) = hr_win_left (v_guard v) - 1) as Ew by done.
    assert (forall r, hr_frame w r /\ hr_win_left (v_guard r) = hr_win_left (v_guard w) /\
      (false = false -> hr_valid (st_hr (v_st r)) = false) ->
      hr_frame v r /\ hr_win_left (v_guard r) = Z.max 0 (hr_win_left (v_guard v) - 1) /\
      (hr_valid (st_hr (v_st r)) = true -> hr_win_left (v_guard v) = 0 /\ signal_reason e sa v = hr_ok /\
         r = estimate_hr true hr_ok v)) as Hr.
    { intros r (Hf & Hg & Hn). split; [by eapply hr_frame_trans |]. split; [lia |].
      rewrite Hn by done. done. }
    destruct (_ || _); [destruct (negb _) |]; apply Hr; (apply estimate_frame || apply fuse_hr_frame).
  - rewrite (proj2 (Z.eqb_eq _ 0)) by lia. replace (Z.max 0 _) with (hr_win_left (v_guard v)) by lia.
    destruct (_ || _); [destruct (is_ok (signal_reason e sa v)) eqn:E; cbn [negb] |].
    + destruct (estimate_frame true hr_ok v) as (Hf & Hg & _). split; [done |]. split; [done |].
      intros _. split; [lia |]. split; [| done]. by apply bool_decide_eq_true_1 in E.
    + destruct (fuse_hr_frame 0 0 0 0 0 false (signal_reason e sa v) v) as (Hf & Hg & Hn).
      split; [done |]. split; [done |]. rewrite Hn by done. done.
    + destruct (fuse_hr_frame 0 0 0 0 0 false hr_disabled v) as (Hf & Hg & Hn).
      split; [done |]. split; [done |]. rewrite Hn by done. done.
Qed.

(** *** The calm window *)
Lemma change_frame v :
  let r := update_change v in
  r = v <| v_chg := v_chg r |>
        <| v_st := (v_st v) <| st_adapt_removed_pct := st_adapt_removed_pct (v_st r) |>
                            <| st_chg := st_chg (v_st r) |> |>.
Proof.
  unfold update_change. cbv zeta. set (w := if ENABLE_HR_CUSUM && ENABLE_HR_MOTION_ADAPT then _ else v).
  assert (w = v <| v_st := (v_st v) <| st_adapt_removed_pct := st_adapt_removed_pct (v_st w) |> |>) as Ew.
  { unfold w. destruct (_ && _); [destruct (adapt_removed _) |]; by destruct v as [[] ]. }
  destruct (shUpdateHrChange _ _ _ _) as [c o]. rewrite Ew. by destruct v as [[] ].
Qed.

(** The window was disturbed by a burst, a large residual or a level step. *)
Definition window_disturbed (energy sa : Z) (v : vitals) : bool :=
  negb (is_ok (shHrDisturbReason (prev_sens_mv v) (prev_sens_mv_valid v) energy sa (st_sens_mv (v_st v)))).

Definition calm_inc (v : vitals) : Z :=
  if calm_windows v <? 255 then u8 (calm_windows v + 1) else calm_windows v.

(** [r] is the result of a calm window from [w], up to the pulse stage. *)
Definition calm_frame (w r : vitals) : Prop :=
  st_motion (v_st r) = smart_helmet_motion_calm /\ v_fall r = v_fall w /\ still_run r = still_run w /\
  calm_windows r = calm_inc w /\ v_ts r = v_ts w /\ v_sens r = v_sens w /\ v_mot r = v_mot w /\
  prev_sens_mv_valid r = prev_sens_mv_valid w /\ v_telem r = v_telem w.

Lemma calm_begin_frame es sa ea w :
  let '(energy, baseline, r) := calm_begin es sa ea w in
  calm_frame w r /\ st_band_energy (v_st r) = energy /\
  v_guard r = v_guard (if window_disturbed energy sa w then disturb w else w) /\
  v_smooth r = v_smooth (if window_disturbed energy sa w then disturb w else w).
Proof.
  unfold calm_begin. cbv zeta. set (energy := calm_energy es ea _). clearbody energy.
  unfold window_disturbed. set (w1 := field_set calm_windows _ _).
  assert (prev_sens_mv w1 = prev_sens_mv w /\ prev_sens_mv_valid w1 = prev_sens_mv_valid w /\
    st_sens_mv (v_st w1) = st_sens_mv (v_st w) /\ calm_frame w w1 /\
    st_band_energy (v_st w1) = energy /\ v_guard w1 = v_guard w /\ v_smooth w1 = v_smooth w)
    as (-> & -> & -> & Hf & He & Hg & Hs) by (unfold calm_frame; by split_and!).
  clearbody w1. destruct (negb _); [| done]. split; [done |]. split; [done |].
  unfold disturb. by rewrite Hg, Hs.
Qed.

Lemma disturb_guard v : hr_win_left (v_guard v) <= HR_DISTURB_HOLDOFF_WIN ->
  v_guard (disturb v) = mkguard HR_DISTURB_HOLDOFF_WIN 0 false 0.
Proof.
  intros Hl. unfold disturb, shHrDisturb. cbn. f_equal. zcase; lia.
Qed.

(** What the pulse stage of a calm window guarantees. *)
Definition window_valid_facts (energy sa : Z) (w r : vitals) : Prop :=
  hr_win_left (v_guard w) = 0 /\ CALM_WINDOWS_MIN <= calm_windows w /\
  signal_reason energy sa w = hr_ok /\
  exists w1, v_sens w1 = v_sens w /\ v_smooth w1 = v_smooth w /\ v_ts w1 = v_ts w /\
    v_guard w1 = v_guard w /\ st_hr (v_st r) = st_hr (v_st (estimate_hr true hr_ok w1)).

Lemma calm_window_frame energy sa baseline w :
  guard_ok (v_guard w) ->
  let r := snd (calm_window energy sa baseline w) in
  st_motion (v_st r) = st_motion (v_st w) /\ st_band_energy (v_st r) = st_band_energy (v_st w) /\
  st_resp_valid (v_st r) = st_resp_valid (v_st w) /\
  v_fall r = v_fall w /\ still_run r = still_run w /\ calm_windows r = calm_windows w /\
  v_ts r = v_ts w /\ v_sens r = v_sens w /\ v_mot r = v_mot w /\
  prev_sens_mv_valid r = prev_sens_mv_valid w /\ v_telem r = v_telem w /\
  hr_win_left (v_guard r) = (if calm_warm w then HR_DISTURB_HOLDOFF_WIN
                             else Z.max 0 (hr_win_left (v_guard w) - 1)) /\
  (hr_valid (st_hr (v_st r)) = true -> window_valid_facts energy sa w r).
Proof.
  intros Hg. unfold calm_window. cbv zeta. destruct (calm_warm w) eqn:Ewarm.
  - cbn [snd]. set (w1 := disturb _).
    destruct (fuse_hr_frame 0 0 0 0 0 false hr_warm w1) as (Hf & Hw & Hn). rewrite Hn by done.
    assert (hr_win_left (v_guard w1) = HR_DISTURB_HOLDOFF_WIN) as E1
      by (unfold w1; rewrite disturb_guard by apply Hg; done).
    rewrite Hw.
    set (r := fuse_hr _ _ _ _ _ _ _ w1) in *.
    clearbody r. split_and!; try done; by rewrite Hf.
  - destruct (calm_trend sa w) as [[tr ok] nb]. cbn [snd].
    set (w1 := match nb with Some _ => _ | None => _ end).
    assert (w1 = w <| v_st := (v_st w) <| st_valid := st_valid (v_st w1) |>
              <| st_baseline_energy := st_baseline_energy (v_st w1) |> |>) as Ew
      by (unfold w1; destruct nb; by destruct w as [[] ]).
    assert (v_guard w1 = v_guard w) as Eg by (by rewrite Ew).
    assert (guard_ok (v_guard w1)) as Hg1 by (by rewrite Eg).
    destruct (calm_hr_frame energy sa w1 Hg1) as (Hf & Hw & Hv). rewrite Eg in Hw.
    assert (hr_valid (st_hr (v_st (calm_hr energy sa w1))) = true ->
      window_valid_facts energy sa w (calm_hr energy sa w1)) as Hfacts.
    { intros Hval. destruct (Hv Hval) as (Hl & Hs & He). rewrite Eg in Hl.
      unfold calm_warm in Ewarm. apply orb_false_iff in Ewarm as [Hc _]. apply Z.ltb_ge in Hc.
      unfold window_valid_facts. split; [done |]. split; [done |]. split; [by rewrite Ew in Hs |].
      exists w1. rewrite He. rewrite Ew. by split_and!. }
    rewrite Hw. set (r := calm_hr energy sa w1) in *. clearbody r w1.
    split_and!; try done; rewrite Hf, Ew; done.
Qed.

(** *** The whole window *)
Lemma report_frame e b sa rms act v :
  shVitalsReport e b sa rms act v = v <| v_telem := v_telem (shVitalsReport e b sa rms act v) |>.
Proof. unfold shVitalsReport. destruct ENABLE_VITALS_CSV; [done | by destruct v]. Qed.

Lemma active_result rms sa w :
  hr_win_left (v_guard w) <= HR_DISTURB_HOLDOFF_WIN ->
  let r := process_active rms sa w in
  st_motion (v_st r) = smart_helmet_motion_active /\ v_fall r = v_fall w /\ still_run r = still_run w /\
  calm_windows r = 0 /\ v_ts r = v_ts w /\ hr_win_left (v_guard r) = HR_DISTURB_HOLDOFF_WIN /\
  hr_valid (st_hr (v_st r)) = false /\ prev_sens_mv_valid r = false.
Proof.
  intros Hl. unfold process_active. rewrite report_frame.
  unfold disturb, shHrDisturb. cbn. split_and!; try done. zcase; lia.
Qed.

Lemma calm_result rms es sa ea w :
  guard_ok (v_guard w) ->
  let r := process_calm rms es sa ea w in
  let energy := st_band_energy (v_st r) in
  st_motion (v_st r) = smart_helmet_motion_calm /\ v_fall r = v_fall w /\ still_run r = still_run w /\
  v_ts r = v_ts w /\ Z.max 0 (hr_win_left (v_guard w) - 1) <= hr_win_left (v_guard r) /\
  (hr_valid (st_hr (v_st r)) = true ->
    window_disturbed energy sa w = false /\ CALM_WINDOWS_MIN <= calm_windows r /\
    hr_win_left (v_guard w) = 0 /\ shHrSignalReason energy sa = hr_ok /\
    (ENABLE_VITALS_TIMESTAMP = true -> timebase_ok (v_ts r) = true) /\
    exists w1, v_sens w1 = v_sens w /\ v_smooth w1 = v_smooth w /\ v_ts w1 = v_ts w /\
      v_guard w1 = v_guard w /\ st_hr (v_st r) = st_hr (v_st (estimate_hr true hr_ok w1))).
Proof.
  intros Hg. unfold process_calm.
  pose proof (calm_begin_frame es sa ea w) as Hb.
  destruct (calm_begin es sa ea w) as [[energy base] w1]. destruct Hb as (Hf & He & Hgd & Hsm).
  assert (guard_ok (v_guard w1)) as Hg1.
  { rewrite Hgd. destruct (window_disturbed energy sa w); [| done].
    rewrite disturb_guard by apply Hg. unfold guard_ok; vdec. }
  assert (Z.max 0 (hr_win_left (v_guard w) - 1) <= Z.max 0 (hr_win_left (v_guard w1) - 1)) as Hle.
  { rewrite Hgd. destruct (window_disturbed energy sa w); [| done].
    destruct Hg as (Hg & _). rewrite disturb_guard by apply Hg. cbn. lia. }
  destruct (calm_window_frame energy sa base w1 Hg1)
    as (C1 & C2 & C3 & C4 & C5 & C6 & C7 & C8 & C9 & C10 & C11 & C12 & C13).
  destruct Hf as (F1 & F2 & F3 & F4 & F5 & F6 & F7 & F8 & F9).
  destruct (calm_window energy sa base w1) as [[trend base'] w2]. cbn [snd] in *.
  rewrite report_frame. unfold calm_finish. pose proof (change_frame w2) as Hc.
  set (w3 := update_change w2) in *. clearbody w3.
  assert (v_guard w3 = v_guard w2 /\ st_motion (v_st w3) = st_motion (v_st w2) /\
    v_fall w3 = v_fall w2 /\ still_run w3 = still_run w2 /\ v_ts w3 = v_ts w2 /\
    calm_windows w3 = calm_windows w2 /\ st_hr (v_st w3) = st_hr (v_st w2) /\
    st_band_energy (v_st w3) = st_band_energy (v_st w2))
    as (D1 & D2 & D3 & D4 & D5 & D6 & D7 & D8) by (rewrite Hc; done).
  cbn. rewrite D1, D2, D3, D4, D5, D6, D7, D8, C1, C2, C4, C5, C6, C7, C12, F1, F2, F3, F5, He.
  split; [done |]. split; [done |]. split; [done |]. split; [done |].
  split; [destruct Hg as ((_ & ?) & _); unfold HR_DISTURB_HOLDOFF_WIN in *; destruct (calm_warm w1); lia |].
  intros Hval. destruct (C13 Hval) as (V1 & V2 & V3 & w4 & V4 & V5 & V6 & V7 & V8).
  destruct (window_disturbed energy sa w) eqn:Ed.
  { rewrite Hgd, disturb_guard in V1 by apply Hg. done. }
  rewrite Hgd in V1, V7. rewrite Hsm in V5. rewrite F6 in V4. rewrite F5 in V6.
  assert (shHrSignalReason energy sa = hr_ok /\ (ENABLE_VITALS_TIMESTAMP = true -> timebase_ok (v_ts w1) = true)) as [S1 S2].
  { unfold signal_reason in V3. cbv zeta in V3. revert V3.
    destruct (shHrSignalReason energy sa) eqn:Es; unfold is_ok; cbn;
      try (rewrite !andb_false_r; cbn; rewrite ?andb_false_r; done).
    destruct ENABLE_VITALS_TIMESTAMP; [| done]. destruct (timebase_ok (v_ts w1)); [done |].
    cbn. rewrite andb_false_r. done. }
  rewrite F5 in S2. split; [done |]. split; [done |]. split; [done |]. split; [done |]. split; [done |].
  by exists w4.
Qed.
End frames.

(** * Events *)
Section events.
Context `{HelmetConfig}.

(** A call that evaluates no window leaves the results alone. *)
Definition idle_frame (v w : vitals) : Prop :=
  v_guard w = v_guard v /\ st_hr (v_st w) = st_hr (v_st v) /\
  st_motion (v_st w) = st_motion (v_st v) /\ still_run w = still_run v.

Lemma push_accel_frame x y z v :
  idle_frame v (SmartHelmet_VitalsPushAccel x y z v) /\
  v_fall (SmartHelmet_VitalsPushAccel x y z v) = v_fall (shNoteFallMag (accel_mag x y z) v).
Proof.
  unfold SmartHelmet_VitalsPushAccel, shNoteFallMag, idle_frame. cbv zeta.
  destruct (accel_mag x y z =? 0); [| destruct ((FALL_IMPACT_MG <=? _) || _)];
    destruct (shHighPass _ _ _), ENABLE_HR_MOTION_ADAPT; by split_and!.
Qed.

Lemma sens_edge_frame hp v : idle_frame v (sens_edge hp v) /\ v_fall (sens_edge hp v) = v_fall v /\
  sens_since_process (sens_edge hp v) = sens_since_process v.
Proof.
  unfold sens_edge, idle_frame. destruct (0 <? _); [| done]. cbv zeta.
  destruct (_ && _); [done |]. by destruct (_ && _).
Qed.

Lemma push_sens_frame mv t v :
  let w := SmartHelmet_VitalsPushSensInMvAt mv t v in idle_frame v w /\ v_fall w = v_fall v.
Proof.
  unfold SmartHelmet_VitalsPushSensInMvAt. cbv zeta. destruct (shHighPass _ _ _) as [hp0 prev].
  set (p := if ENABLE_HR_MOTION_ADAPT then _ else _).
  assert (idle_frame v (snd p) /\ v_fall (snd p) = v_fall v) as [Hf Hv].
  { unfold p. destruct ENABLE_HR_MOTION_ADAPT; [destruct (shMotionCancel _ _) |];
      destruct ENABLE_VITALS_TIMESTAMP; done. }
  destruct p as [hp w]. cbn [snd] in Hf, Hv.
  set (w1 := field_set v_bio _ _). assert (idle_frame v w1 /\ v_fall w1 = v_fall v) as [Hf1 Hv1]
    by (unfold w1; destruct ENABLE_RESP; done).
  clearbody w1. destruct (sens_edge_frame hp w1) as ((E1 & E2 & E3 & E4) & E5 & _).
  unfold idle_frame in *. by rewrite E1, E2, E3, E4, E5.
Qed.

Lemma step_window e v w :
  window_state e v = Some w ->
  vitals_step e v = SmartHelmet_VitalsProcess w /\ idle_frame v w /\ v_fall w = v_fall v.
Proof.
  destruct e as [| | mv t | | | | |]; cbn [window_state vitals_step]; try done.
  - unfold SmartHelmet_VitalsOnSensSample. pose proof (push_sens_frame mv t v) as Hf.
    cbv zeta in Hf. revert Hf. generalize (SmartHelmet_VitalsPushSensInMvAt mv t v). intros w0 Hf.
    cbv zeta. destruct (_ <=? _); [| done]. by intros [= <-].
  - by intros [= <-].
Qed.

Lemma step_idle e v :
  window_state e v = None -> not_init e = true ->
  idle_frame v (vitals_step e v) /\
  (keeps_fall e = true -> v_fall v = true -> v_fall (vitals_step e v) = true).
Proof.
  destruct e as [| x y z | mv t | | | | |]; cbn [window_state vitals_step not_init]; try done.
  - intros _ _. destruct (push_accel_frame x y z v) as [Hf ->]. split; [done |]. intros _ Hv.
    unfold shNoteFallMag. destruct (_ =? 0); [done |]. by destruct (_ || _).
  - unfold SmartHelmet_VitalsOnSensSample. pose proof (push_sens_frame mv t v) as Hf.
    cbv zeta in Hf. revert Hf. generalize (SmartHelmet_VitalsPushSensInMvAt mv t v).
    intros w0 [Hf Hv] Hw _. revert Hw. cbv zeta. destruct (_ <=? _); [done |]. intros _.
    split; [done |]. intros _ Ht. cbn. by rewrite Hv.
  - intros _ _. unfold SmartHelmet_VitalsNoteSensDropped. by destruct ENABLE_VITALS_TIMESTAMP.
Qed.

(** ** What a window does to the guard, the gate and the latch *)
Lemma window_step n k v :
  vitals_inv n k v ->
  let r := SmartHelmet_VitalsProcess v in
  Z.max 0 (hr_win_left (v_guard v) - 1) <= hr_win_left (v_guard r) /\
  (hr_valid (st_hr (v_st r)) = true -> hr_win_left (v_guard v) = 0) /\
  (v_fall v = true -> v_fall r = true) /\
  (ENABLE_LIS3DH = true ->
    let was := bool_decide (st_motion (v_st v) = smart_helmet_motion_active) in
    let run := gate_run (window_moves v) was (still_run v) in
    let act := gate_active (window_moves v) was run in
    still_run r = run /\
    st_motion (v_st r) = (if act then smart_helmet_motion_active else smart_helmet_motion_calm) /\
    (act = true -> hr_win_left (v_guard r) = HR_DISTURB_HOLDOFF_WIN /\ hr_valid (st_hr (v_st r)) = false)).
Proof.
  intros Hv. assert (guard_ok (v_guard v)) as Hg by (dinv Hv; done).
  destruct (process_split v) as (act & rms & es & ea & w & Er & Hf & _ & Hgate & _).
  assert (v_guard w = v_guard v) as Egd by apply Hf. assert (v_fall v = true -> v_fall w = true) as Hfall
    by (destruct Hf as (_ & _ & _ & _ & _ & _ & _ & _ & _ & _ & _ & _ & _ & _ & Hfall & _); done).
  cbv zeta in *. rewrite Er. assert (guard_ok (v_guard w)) as Hgw by (by rewrite Egd).
  assert (0 <= hr_win_left (v_guard w) <= HR_DISTURB_HOLDOFF_WIN) as Hl by apply Hgw.
  unfold HR_DISTURB_HOLDOFF_WIN in *.
  destruct act.
  - destruct (active_result rms (window_sens_abs v) w ltac:(unfold HR_DISTURB_HOLDOFF_WIN; lia))
      as (A1 & A2 & A3 & A4 & A5 & A6 & A7 & A8).
    unfold HR_DISTURB_HOLDOFF_WIN in *. rewrite A6, A7, A2, A3, A1, <- Egd.
    split; [lia |]. split; [done |]. split; [done |]. intros Hen. destruct (Hgate Hen) as [<- <-]. done.
  - destruct (calm_result rms es (window_sens_abs v) ea w Hgw) as (A1 & A2 & A3 & A4 & A5 & A6).
    rewrite A2, A3, A1, <- Egd. split; [done |]. split; [intros Hval; apply (A6 Hval) |].
    split; [done |]. intros Hen. destruct (Hgate Hen) as [<- <-]. done.
Qed.
End events.

(** * When a pulse rate is reported *)
Lemma hr_in_band a b :
  agree a b -> (a = 0 \/ HR_BPM_MIN <= a <= HR_BPM_MAX) -> (b = 0 \/ HR_BPM_MIN <= b <= HR_BPM_MAX) ->
  HR_BPM_MIN <= (a + b) / 2 <= HR_BPM_MAX.
Proof. unfold HR_BPM_MIN, HR_BPM_MAX. intros (Ha & Hb & _) Ha' Hb'. zlia. Qed.

Lemma in_hr_band_zero b : in_hr_band b = 0 \/ HR_BPM_MIN <= in_hr_band b <= HR_BPM_MAX.
Proof.
  unfold in_hr_band. destruct (_ || _) eqn:E; [by left | right].
  apply orb_false_iff in E as [?%Z.ltb_ge ?%Z.ltb_ge]. done.
Qed.

Lemma window_peak_band `{HelmetConfig} fs v :
  window_peak fs v = 0 \/ HR_BPM_MIN <= window_peak fs v <= HR_BPM_MAX.
Proof.
  unfold window_peak. destruct (window_samples v) as [x n]. destruct ENABLE_HR_PEAK; [| by left].
  unfold shPeakBpm. destruct (_ <? _); [by left |]. cbv zeta. destruct (_ =? 0); [by left |].
  destruct (peak_ibi_q8 _) as [q l]. destruct (_ =? 0); [by left |]. destruct (ibi_irregular _ _ _); [by left |].
  apply in_hr_band_zero.
Qed.

Lemma window_fft_band `{HelmetConfig} fs sm v :
  is_u16 fs -> smooth_ok sm ->
  window_fft fs sm v = 0 \/ HR_BPM_MIN <= window_fft fs sm v <= HR_BPM_MAX.
Proof.
  intros Hfs Hsm. unfold window_fft. destruct (window_samples v) as [x n]. destruct ENABLE_HR_FFT; [| by left].
  pose proof (shFftBpm_range fs x n sm Hfs Hsm) as Hr. destruct (shFftBpm _ _ _ _) as [[b m] sm'].
  cbn. destruct Hr as (_ & _ & [Hb | (Hb & _)] & _); auto.
Qed.

(** The estimates fused by a window are those of its 4 s of residuals. *)
Lemma estimate_hr_eq `{HelmetConfig} v :
  let fs := fs_q8 (v_ts v) in
  exists ac pn mg pre, st_hr (v_st (estimate_hr true hr_ok v)) =
    fst (shFuseHr (window_peak fs v) (window_fft fs (v_smooth v) v) ac pn mg true pre (v_guard v)).
Proof.
  cbv zeta. unfold estimate_hr, window_peak, window_fft, window_samples. cbv zeta.
  destruct (shCopySensOrdered _ _) as [x n].
  set (tp := if ENABLE_HR_PEAK then shPeakBpm _ _ _ else (0, 0)).
  assert ((if ENABLE_HR_PEAK then fst (shPeakBpm (fs_q8 (v_ts v)) x n) else 0) = fst tp) as ->
    by (unfold tp; destruct ENABLE_HR_PEAK; reflexivity).
  set (tf := if ENABLE_HR_FFT then shFftBpm _ _ _ _ else _).
  assert ((if ENABLE_HR_FFT then fst (fst (shFftBpm (fs_q8 (v_ts v)) x n (v_smooth v))) else 0)
    = fst (fst tf)) as -> by (unfold tf; destruct ENABLE_HR_FFT; reflexivity).
  clearbody tp tf. destruct tp as [pk pn], tf as [[ff mg] sm]. cbn [fst].
  set (t := if ENABLE_HR_AUTOCORR then _ else _). assert (v_guard (snd t) = v_guard v) as Eg
    by (unfold t; destruct ENABLE_HR_AUTOCORR; [destruct (shAutoCorrBpm _ _ _) |]; reflexivity).
  clearbody t. destruct t as [ac w]. cbn [snd] in Eg. unfold fuse_hr. rewrite Eg.
  do 4 eexists. lazymatch goal with |- context [let '(_, _) := ?t in _] =>
    transitivity (fst t); [by destruct t | reflexivity] end.
Qed.

(** [C7] A reported pulse rate is backed by evidence.  Whenever a window ends
    with [hr_valid]: the helmet was not moving; at least three calm windows
    preceded; the hold-off had run out; the band energy and the mean
    residual lie inside the gates; the sensor level did not step; the time base
    was sound; and the rate is the mean of a peak-interval estimate and a
    spectral estimate of this window's samples that agree within the allowed
    share, lies in 40..180 BPM and does not jump from the last
    valid rate. *)
Theorem window_valid_sound `{HelmetConfig} v :
  HR_FUSE_MODE = false -> HR_VALID_REQUIRE_AGREE = true -> HR_CUSUM_SLACK_PCT <= 100 -> vitals_ok v ->
  let v' := SmartHelmet_VitalsProcess v in
  let s := v_st v' in
  hr_valid (st_hr s) = true ->
  st_motion s = smart_helmet_motion_calm /\ CALM_WINDOWS_MIN <= calm_windows v' /\
  hr_win_left (v_guard v) = 0 /\
  HR_MIN_ENERGY <= st_band_energy s <= HR_MAX_ENERGY /\
  HR_MIN_SENS_ABS <= window_sens_abs v <= HR_MAX_SENS_ABS /\
  (prev_sens_mv_valid v = true -> Z.abs (st_sens_mv (v_st v) - prev_sens_mv v) < HR_SENS_DC_SPIKE_MV) /\
  (ENABLE_VITALS_TIMESTAMP = true -> timebase_ok (v_ts v') = true) /\
  let fs := fs_q8 (v_ts v') in
  let pk := window_peak fs v in
  let ff := window_fft fs (v_smooth v) v in
  agree pk ff /\ hr_bpm (st_hr s) = (pk + ff) / 2 /\ HR_BPM_MIN <= hr_bpm (st_hr s) <= HR_BPM_MAX /\
  no_jump (hr_bpm (st_hr s)) (v_guard v).
Proof.
  intros Hmode Hreq Hpct [Hn Hv]. cbv zeta. unfold MOTION_WIN in Hn.
  assert (guard_ok (v_guard v)) as Hg by (dinv Hv; done).
  assert (smooth_ok (v_smooth v)) as Hsm by (dinv Hv; done).
  assert (is_u16 (fs_q8 (v_ts (SmartHelmet_VitalsProcess v)))) as Hfs.
  { pose proof (process_inv Hpct _ _ v ltac:(split; [apply Hn | lia]) Hv) as Hp.
    assert (ts_ok 0 (v_ts (SmartHelmet_VitalsProcess v))) as (_ & _ & _ & ?) by (dinv Hp; done). rlia. }
  revert Hfs. destruct (process_split v) as (act & rms & es & ea & w & -> & Hf & _).
  assert (v_guard w = v_guard v) as Egd by apply Hf. assert (guard_ok (v_guard w)) as Hgw by (by rewrite Egd).
  destruct act; intros Hfs Hval.
  { destruct (active_result rms (window_sens_abs v) w) as (_ & _ & _ & _ & _ & _ & A7 & _); [apply Hgw |].
    by rewrite A7 in Hval. }
  destruct (calm_result rms es (window_sens_abs v) ea w Hgw) as (A1 & _ & _ & A4 & _ & A6).
  set (r := process_calm rms es (window_sens_abs v) ea w) in *. clearbody r.
  destruct (A6 Hval) as (Hdist & Hcalm & Hleft & Hsig & Htb & w1 & B1 & B2 & B3 & B4 & B5).
  destruct Hf as (F1 & F2 & F3 & _ & _ & _ & _ & _ & _ & _ & _ & F4 & F5 & _ & _ & _ & _ & F6 & _).
  cbn in F1, F2, F3, F4, F5, F6. rewrite F1 in Hleft, B4. rewrite F2 in B1. rewrite F3 in B2.
  split; [done |]. split; [done |]. split; [done |].
  revert Hsig. unfold shHrSignalReason. change (0 <? HR_MIN_SENS_ABS) with true.
  change (0 <? HR_MAX_SENS_ABS) with true. cbn [andb].
  repeat (zcase; [done |]). intros _. split; [lia |]. split; [lia |].
  split; [| split; [done |]].
  - intros Hpv. revert Hdist. unfold window_disturbed, shHrDisturbReason. rewrite F4, F5, F6, Hpv.
    change (0 <? HR_MAX_SENS_ABS) with true. change (0 <? HR_SENS_DC_SPIKE_MV) with true. cbn [andb].
    repeat (rewrite (proj2 (Z.ltb_ge _ _)) by lia). cbv zeta.
    set (d := if _ <? 0 then _ else _). assert (d = Z.abs (st_sens_mv (v_st v) - prev_sens_mv v)) as ->
      by (unfold d; zcase; lia).
    by zcase.
  - pose proof (estimate_hr_eq w1) as (ac & pn & mg & pre & E). rewrite <- B5 in E.
    assert (window_samples w1 = window_samples v) as Ews by (unfold window_samples; by rewrite B1).
    assert (forall fs, window_peak fs w1 = window_peak fs v) as Epk by (intros; unfold window_peak; by rewrite Ews).
    assert (forall fs sm, window_fft fs sm w1 = window_fft fs sm v) as Eff by (intros; unfold window_fft; by rewrite Ews).
    rewrite Epk, Eff, B2, B3, <- A4, B4 in E.
    pose proof (window_peak_band (fs_q8 (v_ts r)) v) as Hpk.
    pose proof (window_fft_band (fs_q8 (v_ts r)) (v_smooth v) v Hfs Hsm) as Hff.
    set (pk := window_peak _ v) in *. set (ff := window_fft _ _ v) in *.
    assert (is_u16 pk /\ is_u16 ff) as [Hpu Hfu] by (unfold HR_BPM_MIN, HR_BPM_MAX in *; rlia).
    pose proof (shFuseHr_pair pk ff ac pn mg true pre (v_guard v) Hmode Hreq Hpu Hfu) as Hfuse.
    destruct (shFuseHr pk ff ac pn mg true pre (v_guard v)) as [o g']. cbn [fst] in E. rewrite E in *.
    destruct Hfuse as (Hiff & Hout & _). destruct (proj1 Hiff Hval) as (_ & Hag & Hnj).
    destruct (Hout Hval) as (_ & Hbpm & _). rewrite Hbpm.
    split; [done |]. split; [done |]. split; [by apply hr_in_band | done].
Qed.

Lemma window_valid_sound_witness :
  let v := pulse_state 20 250 in
  let v' := SmartHelmet_VitalsProcess (H := shipped) v in
  let s := v_st v' in
  hr_valid (st_hr s) = true /\
  (st_motion s = smart_helmet_motion_calm /\ CALM_WINDOWS_MIN <= calm_windows v' /\
  hr_win_left (v_guard v) = 0 /\
  HR_MIN_ENERGY <= st_band_energy s <= HR_MAX_ENERGY /\
  HR_MIN_SENS_ABS <= window_sens_abs v <= HR_MAX_SENS_ABS /\
  (prev_sens_mv_valid v = true -> Z.abs (st_sens_mv (v_st v) - prev_sens_mv v) < HR_SENS_DC_SPIKE_MV) /\
  (@ENABLE_VITALS_TIMESTAMP shipped = true -> timebase_ok (v_ts v') = true) /\
  let fs := fs_q8 (v_ts v') in
  let pk := window_peak (H := shipped) fs v in
  let ff := window_fft (H := shipped) fs (v_smooth v) v in
  agree pk ff /\ hr_bpm (st_hr s) = (pk + ff) / 2 /\ HR_BPM_MIN <= hr_bpm (st_hr s) <= HR_BPM_MAX /\
  no_jump (hr_bpm (st_hr s)) (v_guard v)).
Proof.
  assert (hr_valid (st_hr (v_st (SmartHelmet_VitalsProcess (H := shipped) (pulse_state 20 250)))) = true) as Hval
    by (vm_compute; reflexivity).
  assert (vitals_ok (H := shipped) (pulse_state 20 250)) as Hok
    by (apply (@vitals_run_ok shipped); [vdec | vdec | apply vitals_start_ok]).
  split; [exact Hval |].
  exact (@window_valid_sound shipped (pulse_state 20 250) eq_refl eq_refl ltac:(vdec) Hok Hval).
Defined.

(** * The hold-off *)

(** The invariant holds where a window is evaluated. *)
Lemma window_state_inv `{HelmetConfig} e v w :
  HR_CUSUM_SLACK_PCT <= 100 -> event_ok e -> vitals_ok v -> window_state e v = Some w ->
  exists n k, 0 <= k <= 25 /\ vitals_inv n k w.
Proof.
  intros Hpct He [Hn Hv]. unfold MOTION_WIN in Hn.
  destruct e as [| | mv t | | | | |]; cbn [window_state]; try done.
  - destruct He as [Hmv Ht]. pose proof (push_sens_inv _ _ mv t v Hmv Ht ltac:(split; [apply Hn | lia]) Hv) as Hw.
    revert Hw. generalize (SmartHelmet_VitalsPushSensInMvAt mv t v). intros w0 Hw. cbv zeta.
    destruct (_ <=? _); [| done]. intros [= <-]. exists 0, (sens_since_process v + 1).
    split; [lia |]. dinv Hw. vinv.
  - intros [= <-]. exists (sens_since_process v), (sens_since_process v). split; [lia | done].
Qed.

Lemma holdoff_run `{HelmetConfig} es v :
  HR_CUSUM_SLACK_PCT <= 100 -> Forall event_ok es -> vitals_ok v ->
  hr_valid (st_hr (v_st v)) = false ->
  Z.of_nat (length (vitals_windows es v)) <= hr_win_left (v_guard v) ->
  hr_valid (st_hr (v_st (vitals_run es v))) = false.
Proof.
  intros Hpct Hes. revert v. induction Hes as [| e es He Hes IH]; intros v Hv Hval Hw; [done |].
  cbn [vitals_windows] in Hw. change (vitals_run (e :: es) v) with (vitals_run es (vitals_step e v)).
  assert (vitals_ok (vitals_step e v)) as Hv' by (by apply vitals_step_ok).
  destruct (window_state e v) as [w |] eqn:Ew.
  - destruct (step_window e v w Ew) as (Es & (Eg & Eh & _) & _).
    destruct (window_state_inv e v w Hpct He Hv Ew) as (n & k & Hk & Hwi).
    destruct (window_step n k w Hwi) as (Hleft & Hsound & _).
    rewrite <- Es, Eg in Hleft, Hsound. cbn [app length] in Hw.
    apply IH; [done | | lia]. apply not_true_is_false. intros Ht. specialize (Hsound Ht). lia.
  - cbn [app] in Hw. destruct (not_init e) eqn:Ei.
    + destruct (step_idle e v Ew Ei) as ((Eg & Eh & _) & _). apply IH; [done | by rewrite Eh | by rewrite Eg].
    + destruct e; try done. apply IH; [done | done |].
      assert (hr_win_left (v_guard v) <= HR_DISTURB_HOLDOFF_WIN) 
        by (destruct Hv as [_ Hv]; assert (guard_ok (v_guard v)) as ((_ & Hg) & _) by (dinv Hv; done); exact Hg).
      change (hr_win_left (v_guard (vitals_step EvInit v))) with HR_DISTURB_HOLDOFF_WIN. lia.
Qed.

(** [C33] After the helmet has moved no pulse rate is reported for five
    windows, whatever calls follow: a moving window withdraws the rate
    and arms the hold-off, and only evaluated windows count it down. *)
Theorem motion_holdoff `{HelmetConfig} v es :
  ENABLE_LIS3DH = true -> HR_CUSUM_SLACK_PCT <= 100 -> vitals_ok v -> Forall event_ok es ->
  window_moves v = true ->
  let v' := SmartHelmet_VitalsProcess v in
  Z.of_nat (length (vitals_windows es v')) <= HR_DISTURB_HOLDOFF_WIN ->
  hr_valid (st_hr (v_st (vitals_run es v'))) = false.
Proof.
  intros Hen Hpct Hv Hes Hm v' Hw. pose proof (vitals_step_ok Hpct EvProcess v I Hv) as Hv'.
  destruct Hv as [_ Hv]. destruct (window_step _ _ v Hv) as (_ & _ & _ & Hgate).
  specialize (Hgate Hen). rewrite Hm in Hgate. destruct Hgate as (_ & _ & Hact).
  destruct (Hact eq_refl) as [Hl Hval]. apply holdoff_run; [done | done | done | done |].
  unfold v'. by rewrite Hl.
Qed.

Lemma motion_holdoff_witness :
  let es := [EvSample 800 40000; EvProcess; EvAccel 0 0 1000; EvProcess] in
  let v' := SmartHelmet_VitalsProcess (H := shipped) moved_state in
  Z.of_nat (length (vitals_windows (H := shipped) es v')) = 2 /\
  hr_valid (st_hr (v_st (vitals_run (H := shipped) es v'))) = false.
Proof.
  split; [vm_compute; reflexivity |].
  apply (@motion_holdoff shipped moved_state); [reflexivity | vdec | | vdec | vdec | vdec].
  apply (@vitals_run_ok shipped); [vdec | vdec | apply vitals_start_ok].
Defined.

(** * The motion gate *)

(** What the gate remembers of the flags [tr] of the past windows, newest
    first. *)
Definition gate_memory (m : smart_helmet_motion_gate_t) (run : Z) (tr : list bool) : Prop :=
  match m with
  | smart_helmet_motion_active =>
    exists k, (k < 3)%nat /\ run = Z.of_nat k /\ exists tr', tr = replicate k false ++ true :: tr'
  | smart_helmet_motion_calm => true ∉ take 3 tr
  end.

Lemma gate_memory_step m run tr b :
  gate_memory m run tr ->
  let was := bool_decide (m = smart_helmet_motion_active) in
  let run' := gate_run b was run in
  gate_memory (if gate_active b was run' then smart_helmet_motion_active else smart_helmet_motion_calm)
    run' (b :: tr).
Proof.
  intros Hm. cbv zeta. unfold gate_active, gate_run, MOTION_STILL_SAMPLES. destruct b; cbn [orb].
  - exists 0%nat. split; [lia |]. split; [done |]. by exists tr.
  - destruct m; cbn [gate_memory] in Hm.
    + cbn. intros Hin. apply Hm. destruct tr as [| b1 [| b2 [| b3 tr]]]; set_solver.
    + destruct Hm as (k & Hk & -> & tr' & ->). rewrite bool_decide_eq_true_2 by done.
      rewrite (proj2 (Z.ltb_lt _ 255)), u8_small by rlia. cbn [andb].
      destruct (Z.ltb_spec (Z.of_nat k + 1) 3); cbn [gate_memory].
      * exists (S k). split; [lia |]. split; [lia |]. by exists tr'.
      * assert (k = 2)%nat as -> by lia. cbn. set_solver.
Qed.

Lemma gate_memory_run `{HelmetConfig} es v tr :
  ENABLE_LIS3DH = true -> HR_CUSUM_SLACK_PCT <= 100 -> Forall event_ok es -> Forall (fun e => not_init e = true) es ->
  vitals_ok v -> gate_memory (st_motion (v_st v)) (still_run v) tr ->
  gate_memory (st_motion (v_st (vitals_run es v))) (still_run (vitals_run es v))
    (rev (window_moves <$> vitals_windows es v) ++ tr).
Proof.
  intros Hen Hpct Hes. revert v tr. induction Hes as [| e es He Hes IH]; intros v tr Hni Hv Hm; [done |].
  inversion Hni as [| ? ? Hi Hni']; subst. cbn [vitals_windows].
  change (vitals_run (e :: es) v) with (vitals_run es (vitals_step e v)).
  assert (vitals_ok (vitals_step e v)) as Hv' by (by apply vitals_step_ok).
  destruct (window_state e v) as [w |] eqn:Ew; cbn [app].
  - destruct (step_window e v w Ew) as (Es & (_ & _ & Em & Er) & _).
    destruct (window_state_inv e v w Hpct He Hv Ew) as (n & k & Hk & Hwi).
    destruct (window_step n k w Hwi) as (_ & _ & _ & Hgate). specialize (Hgate Hen).
    rewrite <- Es, Em, Er in Hgate. destruct Hgate as (Hrun & Hst & _).
    pose proof (gate_memory_step _ _ _ (window_moves w) Hm) as Hm'. cbv zeta in Hm'.
    rewrite <- Hst, <- Hrun in Hm'.
    rewrite fmap_cons. cbn [rev]. rewrite <- app_assoc. by apply IH.
  - destruct (step_idle e v Ew Hi) as ((_ & _ & Em & Er) & _). apply IH; [done | done |].
    by rewrite Em, Er.
Qed.

(** The motion gate has a memory of three windows: after any run that
    starts calm, the helmet counts as moving exactly when one of the
    last three windows reached the motion threshold. *)
Theorem motion_gate_hysteresis `{HelmetConfig} v es :
  ENABLE_LIS3DH = true -> HR_CUSUM_SLACK_PCT <= 100 -> vitals_ok v ->
  Forall event_ok es -> Forall (fun e => not_init e = true) es ->
  st_motion (v_st v) = smart_helmet_motion_calm ->
  st_motion (v_st (vitals_run es v)) = smart_helmet_motion_active <->
    true ∈ latest 3 (window_moves <$> vitals_windows es v).
Proof.
  intros Hen Hpct Hv Hes Hni Hc.
  pose proof (gate_memory_run es v [] Hen Hpct Hes Hni Hv) as Hm. rewrite Hc in Hm.
  specialize (Hm ltac:(cbn; set_solver)). rewrite app_nil_r in Hm. unfold latest.
  destruct (st_motion (v_st (vitals_run es v))); cbn [gate_memory] in Hm.
  - split; [done |]. intros Ht. by destruct Hm.
  - split; [intros _ | done]. destruct Hm as (k & Hk & _ & tr & ->).
    destruct k as [| [| [| k]]]; [.. | lia]; cbn; set_solver.
Qed.

Lemma motion_gate_hysteresis_witness :
  let es := [EvProcess; EvAccel 500 0 1000; EvProcess] in
  st_motion (v_st (vitals_run (H := shipped) es moved_state)) = smart_helmet_motion_active <->
    true ∈ latest 3 (window_moves (H := shipped) <$> vitals_windows (H := shipped) es moved_state).
Proof.
  apply (@motion_gate_hysteresis shipped); [reflexivity | vdec | | vdec | vdec | reflexivity].
  apply (@vitals_run_ok shipped); [vdec | vdec | apply vitals_start_ok].
Defined.

(** * The fall latch *)
Lemma accel_mag_eq x y z :
  is_i16 x -> is_i16 y -> is_i16 z -> accel_mag x y z = Z.sqrt (x * x + y * y + z * z).
Proof.
  intros Hx Hy Hz. unfold accel_mag.
  destruct (square_i16 x Hx), (square_i16 y Hy), (square_i16 z Hz).
  assert (u32 (i32 (i32 (i32 (x * x) + i32 (y * y)) + i32 (z * z))) = x * x + y * y + z * z) as ->.
  { assert (forall a, exists k, i32 a = a + k * 4294967296) as Hi.
    { intros a. exists (- ((a + 2147483648) / 4294967296)). unfold i32.
      pose proof (Z.div_mod (a + 2147483648) 4294967296). lia. }
    destruct (Hi (x * x)) as [k1 ->], (Hi (y * y)) as [k2 ->], (Hi (z * z)) as [k3 ->].
    match goal with |- context [i32 (i32 ?a + _)] => destruct (Hi a) as [k4 ->] end.
    match goal with |- u32 (i32 ?a) = _ => destruct (Hi a) as [k5 ->] end.
    unfold u32. transitivity ((x * x + y * y + z * z) mod 4294967296); [| apply Z.mod_small; rlia].
    rewrite <- (Z_mod_plus_full (x * x + y * y + z * z) (k1 + k2 + k3 + k4 + k5)). f_equal. lia. }
  apply sqrt_u32_eq. rlia.
Qed.

Lemma fall_run `{HelmetConfig} es v :
  Forall (fun e => keeps_fall e = true) es -> v_fall v = true ->
  HR_CUSUM_SLACK_PCT <= 100 -> Forall event_ok es -> vitals_ok v ->
  v_fall (vitals_run es v) = true.
Proof.
  intros Hk Hf Hpct Hes. revert v Hf. induction Hes as [| e es He Hes IH]; intros v Hf Hv; [done |].
  inversion Hk as [| ? ? Hke Hk']; subst.
  change (vitals_run (e :: es) v) with (vitals_run es (vitals_step e v)).
  apply IH; [done | | by apply vitals_step_ok].
  destruct (window_state e v) as [w |] eqn:Ew.
  - destruct (step_window e v w Ew) as (Es & _ & Efall).
    destruct (window_state_inv e v w Hpct He Hv Ew) as (n & k & Hkk & Hwi).
    destruct (window_step n k w Hwi) as (_ & _ & Hfall & _). rewrite Es. apply Hfall. by rewrite Efall.
  - assert (not_init e = true) as Hi by (by destruct e). by apply (step_idle e v Ew Hi).
Qed.

(** [C32] A fall is never lost and never reported twice: an acceleration
    whose magnitude reaches the impact level, or falls to the free-fall level
    without being zero, is latched through every later call until it is
    taken; taking it reports it once and clears the pending flag. *)
Theorem fall_latched `{HelmetConfig} x y z es v :
  HR_CUSUM_SLACK_PCT <= 100 -> vitals_ok v -> is_i16 x -> is_i16 y -> is_i16 z ->
  let m := Z.sqrt (x * x + y * y + z * z) in
  FALL_IMPACT_MG <= m \/ 1 <= m <= FALL_FREEFALL_MG ->
  Forall event_ok es -> Forall (fun e => keeps_fall e = true) es ->
  let v' := vitals_run es (SmartHelmet_VitalsPushAccel x y z v) in
  let '(got, v'') := SmartHelmet_VitalsTakeFall v' in
  got = true /\ st_fall_pending (v_st v'') = false /\ fst (SmartHelmet_VitalsTakeFall v'') = false.
Proof.
  intros Hpct Hv Hx Hy Hz m Hm Hes Hk. cbv zeta.
  assert (event_ok (EvAccel x y z)) as He by (by split_and!).
  pose proof (vitals_step_ok Hpct _ v He Hv) as Hv'. cbn [vitals_step] in Hv'.
  unfold SmartHelmet_VitalsTakeFall at 1. split; [| done]. apply fall_run; try done.
  destruct (push_accel_frame x y z v) as [_ ->]. rewrite accel_mag_eq by done. fold m.
  unfold shNoteFallMag, FALL_IMPACT_MG, FALL_FREEFALL_MG in *. rewrite (proj2 (Z.eqb_neq m 0)) by lia.
  destruct (Z.leb_spec 1300 m), (Z.leb_spec m 700); cbn [orb]; done || lia.
Qed.

Lemma fall_latched_witness :
  let v' := vitals_run (H := shipped) [EvProcess; EvSample 800 40000]
    (SmartHelmet_VitalsPushAccel (H := shipped) 0 0 (-1500) moved_state) in
  let '(got, v'') := SmartHelmet_VitalsTakeFall v' in
  got = true /\ st_fall_pending (v_st v'') = false /\ fst (SmartHelmet_VitalsTakeFall v'') = false.
Proof.
  apply (@fall_latched shipped 0 0 (-1500) [EvProcess; EvSample 800 40000] moved_state);
    [vdec | | vdec | vdec | vdec | left; vdec | vdec | vdec].
  apply (@vitals_run_ok shipped); [vdec | vdec | apply vitals_start_ok].
Defined.
