(* ===== verification/VitalsTelem.v ===== *)
(** The telemetry record of a window: one line per window, complete, and
    readable back to the values of the status. *)
From S2P Require Import Prelude Config Dsp Ring ISort Peak Fft Corr Adapt Fuse Change Decimal Telemetry Vitals VitalsInv VitalsSpec.

(** * Vocabulary of the specifications *)

(** The widest text of each column, the sequence number first. *)
Definition csv_widths : list Z :=
  [11; 1; 1; 2; 5; 5; 5; 5; 5; 6; 5; 5; 1; 5; 5; 5; 3; 3; 5; 5; 5; 5; 3; 5].

(** The longest record, separators included. *)
Definition record_max : Z := sumZ csv_widths + alen csv_widths.

(** The columns of a window in the order the README of the vitals tests
    documents, from the status [s] the window leaves: seq, active, hr_valid,
    hr_reason, hr_bpm, hr_bpm_peak, hr_bpm_fft, hr_bpm_ac, hr_baseline_bpm,
    hr_delta_bpm, hr_cusum_up, hr_cusum_dn, hr_change, resp_bpm, resp_q8,
    fs_x100, fs_jitter_pct, sens_dropped, band_energy, baseline_energy,
    sens_abs, motion_rms_mg, adapt_removed_pct, sens_mv.  A baseline that is
    not learned yet is 1 in a calm window. *)
Definition documented_columns (seq sens_abs : Z) (s : vitals_status) : list Z :=
  let active := bool_decide (st_motion s = smart_helmet_motion_active) in
  let baseline := if negb active && (st_baseline_energy s =? 0) then 1 else st_baseline_energy s in
  [seq; if active then 1 else 0; if hr_valid (st_hr s) then 1 else 0; hr_reason_code (hr_reason (st_hr s));
   hr_bpm (st_hr s); hr_bpm_peak (st_hr s); hr_bpm_fft (st_hr s); hr_bpm_ac (st_hr s); hr_baseline_bpm (st_chg s);
   hr_delta_bpm (st_chg s); hr_cusum_up (st_chg s); hr_cusum_dn (st_chg s); trend_code (hr_change (st_chg s)); st_resp_bpm s;
   st_resp_q8 s; st_fs_x100 s; st_fs_jitter_pct s; st_sens_dropped s; st_band_energy s; baseline; sens_abs; st_motion_rms_mg s;
   st_adapt_removed_pct s; st_sens_mv s].

(** The initial state with a sink registered. *)
Definition record_start : vitals :=
  (vitals_start (H := bench_build)) <| v_telem := (telem_init <| sh_sink := true |>) |>.

(** * Widths *)
Lemma csv_text_width vs ks :
  Forall2 (fun v k => alen (dec_int v) <= k) vs ks -> alen (csv_text vs) <= sumZ ks + alen ks.
Proof.
  unfold csv_text. induction 1 as [| v k vs ks Hv Hvs IH]; [done |]. rewrite fmap_cons.
  change (sumZ (k :: ks)) with (k + sumZ ks).
  replace (alen (k :: ks)) with (1 + alen ks) by (unfold alen; cbn [length]; lia).
  destruct vs as [| v' vs].
  - inversion Hvs; subst. change (alen (dec_int v) <= k + 0 + (1 + 0)). lia.
  - change (join 44 (dec_int <$> v' :: vs)) with (join 44 (dec_int v' :: (dec_int <$> vs))) in IH.
    change (join 44 (dec_int v :: (dec_int <$> v' :: vs)))
      with (dec_int v ++ 44 :: join 44 (dec_int v' :: (dec_int <$> vs))).
    unfold alen in *. rewrite length_app. cbn [length] in *. lia.
Qed.

Lemma width_u16 v : is_u16 v -> alen (dec_int v) <= 5.
Proof. intros Hv. pose proof (alen_dec_int v 5 ltac:(lia)) as Hl. revert Hl. zcase; rlia. Qed.
Lemma width_u8 v : is_u8 v -> alen (dec_int v) <= 3.
Proof. intros Hv. pose proof (alen_dec_int v 3 ltac:(lia)) as Hl. revert Hl. zcase; rlia. Qed.
Lemma width_i16 v : is_i16 v -> alen (dec_int v) <= 6.
Proof. intros Hv. pose proof (alen_dec_int v 5 ltac:(lia)) as Hl. revert Hl. zcase; rlia. Qed.
Lemma width_i32 v : is_i32 v -> alen (dec_int v) <= 11.
Proof. intros Hv. pose proof (alen_dec_int v 10 ltac:(lia)) as Hl. revert Hl. zcase; rlia. Qed.
Lemma width_bool b : alen (dec_int (Z.b2z b)) <= 1.
Proof. by destruct b. Qed.
Lemma width_reason r : alen (dec_int (hr_reason_code r)) <= 2.
Proof. by destruct r. Qed.
Lemma width_trend t : alen (dec_int (trend_code t)) <= 1.
Proof. by destruct t. Qed.

Lemma mean_abs_range buf n : is_u16 (shMeanAbsI16 buf n).
Proof. unfold shMeanAbsI16. destruct (n =? 0); [vdec | apply u16_range]. Qed.

Section record.
Context `{HelmetConfig}.
Hypothesis Hpct : HR_CUSUM_SLACK_PCT <= 100.

Lemma csv_columns_ok energy baseline sa rms act s seq :
  is_u16 energy -> is_u16 baseline -> is_u16 sa -> is_u16 rms -> status_ok s ->
  let vs := i32 seq :: csv_columns energy baseline sa rms act s in
  Forall is_i32 vs /\ Forall2 (fun v k => alen (dec_int v) <= k) vs csv_widths.
Proof.
  intros He Hb Hs Hr Hst. unfold status_ok, hr_ok_out, chg_ok_out in Hst. destruct_and! Hst.
  assert (forall v, is_u16 v -> is_i32 v) as W16 by (intros; rlia).
  assert (forall v, is_u8 v -> is_i32 v) as W8 by (intros; rlia).
  assert (forall v, is_i16 v -> is_i32 v) as WI by (intros; rlia).
  split.
  - unfold csv_columns.
    repeat (apply Forall_cons; split; [first [by apply i32_range | by apply W16 | by apply W8 | by apply WI
      | by match goal with |- is_i32 (Z.b2z ?b) => destruct b end
      | by match goal with |- is_i32 (hr_reason_code ?r) => destruct r end
      | by match goal with |- is_i32 (trend_code ?r) => destruct r end] |]).
    constructor.
  - unfold csv_columns, csv_widths.
    repeat (apply Forall2_cons; split; [first [by apply width_bool | by apply width_reason | by apply width_trend
      | by apply width_u16 | by apply width_u8 | by apply width_i16 | by apply width_i32, i32_range] |]).
    constructor.
Qed.

Lemma disturb_status v : v_st (disturb v) = v_st v.
Proof. unfold disturb. by destruct (shHrDisturb HR_DISTURB_HOLDOFF_WIN (v_guard v) (v_smooth v)). Qed.

(** The pulse stage leaves the baseline and the motion. *)
Lemma hr_frame_base w r : hr_frame w r ->
  st_baseline_energy (v_st r) = st_baseline_energy (v_st w) /\ st_motion_rms_mg (v_st r) = st_motion_rms_mg (v_st w).
Proof. by intros ->. Qed.

Lemma calm_hr_base e sa v :
  st_baseline_energy (v_st (calm_hr e sa v)) = st_baseline_energy (v_st v) /\
  st_motion_rms_mg (v_st (calm_hr e sa v)) = st_motion_rms_mg (v_st v).
Proof.
  unfold calm_hr. cbv zeta. destruct (0 <? hr_win_left (v_guard v)).
  - set (w := v <| v_guard ::= _ |>). destruct (_ || _); [destruct (negb _) |];
      apply (hr_frame_base w); (apply estimate_frame || apply fuse_hr_frame).
  - destruct (_ || _); [destruct (negb _) |]; apply hr_frame_base; (apply estimate_frame || apply fuse_hr_frame).
Qed.

(** The reported baseline of a calm window is the learned one, or 1. *)
Definition base_of (s : vitals_status) (base : Z) : Prop :=
  base = if st_baseline_energy s =? 0 then 1 else st_baseline_energy s.

Lemma calm_begin_base es sa ea w : base_of (v_st (snd (calm_begin es sa ea w))) (snd (fst (calm_begin es sa ea w))).
Proof. unfold calm_begin, base_of. cbn. by destruct (negb _). Qed.

(** A baseline that is learned is not 0. *)
Lemma calm_trend_pos sa v b : 0 <= bio_pulse_abs (v_bio v) <= 32767 -> is_u16 (st_baseline_energy (v_st v)) ->
  snd (calm_trend sa v) = Some b -> 1 <= b.
Proof.
  intros Hp Hb. unfold calm_trend. cbv zeta. destruct (_ && _); [done |]. destruct (_ <? sa); [done |]. intros [= <-].
  destruct (Z.eqb_spec (st_baseline_energy (v_st v)) 0) as [E | E]; [zcase; lia |].
  pose proof (ema_between (st_baseline_energy (v_st v)) (bio_pulse_abs (v_bio v)) 16 ltac:(lia)) as He.
  unfold BASELINE_ALPHA_Q8. rewrite u16_small by rlia.
  destruct (Z.eq_dec (bio_pulse_abs (v_bio v)) 0) as [-> | Hne]; [| rlia].
  assert ((0 - st_baseline_energy (v_st v)) * 16 ÷ 256 = - (st_baseline_energy (v_st v) * 16 ÷ 256)) as ->
    by (rewrite <- Z.quot_opp_l by lia; f_equal; lia).
  rewrite Z.quot_div_nonneg by rlia. unfold_ranges; zlia.
Qed.

Lemma calm_window_base energy sa base w :
  bio_ok (v_bio w) -> is_u16 (st_baseline_energy (v_st w)) -> base_of (v_st w) base ->
  base_of (v_st (snd (calm_window energy sa base w))) (snd (fst (calm_window energy sa base w))) /\
  st_motion_rms_mg (v_st (snd (calm_window energy sa base w))) = st_motion_rms_mg (v_st w).
Proof.
  intros Hbio Hst Hb. unfold calm_window. destruct (calm_warm w) eqn:Ewarm; cbv zeta.
  - cbn [fst snd]. set (u := disturb _).
    assert (v_st u = (v_st w) <| st_valid := false |>) as Eu by (unfold u; by rewrite disturb_status).
    destruct (hr_frame_base u _ (proj1 (fuse_hr_frame 0 0 0 0 0 false hr_warm u))) as [E1 E2].
    unfold base_of in *. rewrite E1, E2, Eu. done.
  - pose proof (calm_trend_pos sa w) as Hp. destruct (calm_trend sa w) as [[tr ok] nb]. cbn [fst snd] in *.
    set (w1 := match nb with Some _ => _ | None => _ end). destruct (calm_hr_base energy sa w1) as [E1 ->].
    unfold base_of in *. rewrite E1. unfold w1. destruct nb as [b |]; [| done]. split; [| done]. cbn.
    specialize (Hp b ltac:(apply Hbio) Hst eq_refl). by rewrite (proj2 (Z.eqb_neq b 0)) by lia.
Qed.

(** The motion figures leave the activity measure in the status. *)
Lemma motion_rms v : st_motion_rms_mg (v_st (snd (motion_eval v))) = fst (motion_eval v).
Proof. unfold motion_eval. cbv zeta. by destruct (if have_accel v then _ else _). Qed.

Lemma gate_status rms sa v : v_st (snd (motion_gate rms sa v)) = v_st v.
Proof.
  unfold motion_gate. destruct ENABLE_LIS3DH; [| done]. destruct (_ && _); [done |]. by destruct (bool_decide _).
Qed.

(** Every branch ends with the report of its own status. *)
Lemma process_report n k v :
  0 <= k <= 25 -> vitals_inv n k v ->
  let r := SmartHelmet_VitalsProcess v in
  let active := bool_decide (st_motion (v_st r) = smart_helmet_motion_active) in
  v_telem r = (if ENABLE_VITALS_CSV
      then telem_window (csv_columns (st_band_energy (v_st r))
             (if negb active && (st_baseline_energy (v_st r) =? 0) then 1 else st_baseline_energy (v_st r))
             (window_sens_abs v) (st_motion_rms_mg (v_st r)) active (v_st r)) (v_telem v)
      else v_telem v).
Proof.
  intros Hk Hv. cbv zeta.
  destruct (process_split v) as (act & rms & es & ea & w & -> & Hf & _ & _ & Er & Ew).
  pose proof (motion_eval_inv n 0 _ (resp_inv n 0 _ (timebase_inv n k v Hk Hv))) as [Hr Hw].
  fold (window_begin v) in Hr, Hw. rewrite <- Er in Hr.
  pose proof (motion_gate_inv n 0 rms (window_sens_abs v) _ Hw) as Hw'. rewrite <- Ew in Hw'.
  assert (st_motion_rms_mg (v_st w) = rms) as Erms by (rewrite Ew, gate_status, Er; apply motion_rms).
  assert (v_telem w = v_telem v) as Et by apply Hf. clear Hf Hw Ew Er Hv.
  assert (hr_win_left (v_guard w) <= HR_DISTURB_HOLDOFF_WIN) as Hl
    by (assert (guard_ok (v_guard w)) as ((_ & ?) & _) by (dinv Hw'; done); done).
  destruct act.
  - destruct (active_result rms (window_sens_abs v) w Hl) as (A1 & _). rewrite bool_decide_eq_true_2 by done.
    unfold process_active, shVitalsReport. destruct ENABLE_VITALS_CSV; cbn; rewrite ?disturb_status; by rewrite Et, ?Erms.
  - assert (guard_ok (v_guard w)) as Hg by (dinv Hw'; done).
    destruct (calm_result rms es (window_sens_abs v) ea w Hg) as (A1 & _). rewrite bool_decide_eq_false_2 by (by rewrite A1).
    clear A1. unfold process_calm.
    pose proof (calm_begin_frame es (window_sens_abs v) ea w) as Hb.
    destruct (calm_begin_inv n 0 es (window_sens_abs v) ea w Hw') as [_ Hw1].
    pose proof (calm_begin_base es (window_sens_abs v) ea w) as Hbase.
    assert (st_motion_rms_mg (v_st (snd (calm_begin es (window_sens_abs v) ea w))) = rms) as Erms1
      by (unfold calm_begin; cbn; by destruct (negb _); rewrite ?disturb_status).
    destruct (calm_begin es _ ea w) as [[energy base] w1]. destruct Hb as (Hf & He & _). cbn [fst snd] in *.
    assert (guard_ok (v_guard w1)) as Hg1 by (dinv Hw1; done).
    pose proof (calm_window_frame energy (window_sens_abs v) base w1 Hg1) as Hwf.
    destruct (calm_window_base energy (window_sens_abs v) base w1) as [Hbase' Erms2]; [dinv Hw1; done | dinv Hw1; done | exact Hbase |].
    destruct (calm_window energy _ base w1) as [[trend base'] w2]. cbn [fst snd] in *.
    destruct Hwf as (_ & C2 & _ & _ & _ & _ & _ & _ & _ & _ & C11 & _).
    destruct Hf as (_ & _ & _ & _ & _ & _ & _ & _ & F9).
    pose proof (change_frame w2) as Hc. set (w3 := update_change w2) in *. clearbody w3.
    assert (v_telem w3 = v_telem w2 /\ st_band_energy (v_st w3) = st_band_energy (v_st w2) /\
      st_baseline_energy (v_st w3) = st_baseline_energy (v_st w2) /\ st_motion_rms_mg (v_st w3) = st_motion_rms_mg (v_st w2))
      as (D1 & D2 & D3 & D4) by (rewrite Hc; done).
    unfold shVitalsReport, calm_finish. destruct ENABLE_VITALS_CSV; cbn; rewrite D1, C11, F9, Et; [| done].
    unfold base_of in Hbase'. by rewrite D2, C2, He, D3, <- Hbase', D4, Erms2, Erms1.
Qed.
End record.

(** [C34] In a build with ENABLE_VITALS_CSV (which the shipped one leaves out)
    the telemetry of a window is complete: with a sink registered each window
    delivers exactly one line, which always fits the builder's 160 bytes (130
    at most, so it is never cut) and reads back as the sequence number
    followed by the 23 columns the README of the vitals tests documents, in
    its order, from the status the window leaves and the window's mean
    absolute SENS residual; the sequence number advances by one. *)
Theorem window_record `{HelmetConfig} v :
  ENABLE_VITALS_CSV = true -> HR_CUSUM_SLACK_PCT <= 100 -> vitals_ok v -> sh_sink (v_telem v) = true ->
  let r := SmartHelmet_VitalsProcess v in
  exists line,
    telem_out (v_telem r) = telem_out (v_telem v) ++ [line] /\ alen line <= record_max < TELEMETRY_LINE_MAX /\
    csv_read line = documented_columns (i32 (sh_win_seq (v_telem v))) (window_sens_abs v) (v_st r) /\
    sh_win_seq (v_telem r) = u32 (sh_win_seq (v_telem v) + 1).
Proof.
  intros Hen Hpct [Hn Hv] Hsink. cbv zeta. unfold MOTION_WIN in Hn.
  pose proof (process_report _ _ v ltac:(split; [apply Hn | lia]) Hv) as Et.
  pose proof (process_inv Hpct _ _ v ltac:(split; [apply Hn | lia]) Hv) as (_ & Hst & _).
  set (r := SmartHelmet_VitalsProcess v) in *. clearbody r. cbv zeta in Et. rewrite Hen in Et.
  set (act := bool_decide _) in Et. set (base := if negb act && _ then _ else _) in Et.
  assert (is_u16 base) as Hb by (unfold base; destruct (_ && _); [vdec | apply Hst]).
  destruct (csv_columns_ok (st_band_energy (v_st r)) base (window_sens_abs v) (st_motion_rms_mg (v_st r)) act (v_st r)
    (sh_win_seq (v_telem v))) as [Hi Hw]; [apply Hst | done | apply mean_abs_range | apply Hst | done |].
  assert (i32 (sh_win_seq (v_telem v)) :: csv_columns (st_band_energy (v_st r)) base (window_sens_abs v) (st_motion_rms_mg (v_st r)) act (v_st r) =
    documented_columns (i32 (sh_win_seq (v_telem v))) (window_sens_abs v) (v_st r)) as Edoc.
  { unfold documented_columns, csv_columns. fold act. fold base. by destruct act, (hr_valid (st_hr (v_st r))). }
  rewrite <- Edoc. set (cols := csv_columns _ _ _ _ _ _) in *.
  pose proof (csv_text_width _ _ Hw) as Hlen. change (sumZ csv_widths + alen csv_widths) with 130 in Hlen.
  assert (record_max = 130) as Hmax by reflexivity.
  exists (csv_text (i32 (sh_win_seq (v_telem v)) :: cols)). clear Edoc. clearbody cols.
  unfold telem_window in Et. rewrite Hsink, telem_record_eq, Hsink in Et by done. rewrite Et.
  cbn [field_set telem_out sh_win_seq].
  split; [| split; [rewrite Hmax; unfold TELEMETRY_LINE_MAX; lia | split; [by apply csv_round_trip | done]]].
  unfold fit. rewrite take_ge by (unfold alen in Hlen; lia). done.
Qed.

Lemma window_record_witness :
  let r := SmartHelmet_VitalsProcess (H := bench_build) record_start in
  exists line,
    telem_out (v_telem r) = telem_out (v_telem record_start) ++ [line] /\ alen line <= record_max < TELEMETRY_LINE_MAX /\
    csv_read line = documented_columns (i32 (sh_win_seq (v_telem record_start))) (window_sens_abs record_start) (v_st r) /\
    sh_win_seq (v_telem r) = u32 (sh_win_seq (v_telem record_start) + 1).
Proof.
  apply (@window_record bench_build record_start); [reflexivity | vdec | | reflexivity].
  exact (@vitals_start_ok bench_build).
Defined.
