(* ===== verification/VitalsTime.v ===== *)
(** The measured time base: from the time stamps of the SENS samples to the
    sampling rate every estimator of the window uses. *)
From S2P Require Import Prelude Config Dsp Ring ISort Peak Fft Corr Adapt Fuse Change Decimal Telemetry Vitals VitalsInv.

(** * Vocabulary of the specifications *)

(** The time stamps of samples at the given intervals after [t]; the
    microsecond counter wraps at 32 bits. *)
Fixpoint stamps (t : Z) (ds : list Z) : list Z :=
  match ds with [] => [] | d :: ds => u32 (t + d) :: stamps (u32 (t + d)) ds end.

Definition ts_feed (ts : list Z) (s : ts_st) : ts_st := fold_left (fun s t => ts_note t s) ts s.

(** An interval the code counts: a quarter to four times the nominal one. *)
Definition interval_ok (d : Z) : Prop := 10000 <= d <= 160000.

#[export] Instance interval_ok_dec d : Decision (interval_ok d).
Proof. unfold interval_ok. apply _. Defined.

(** The total and the total deviation from the nominal interval. *)
Definition jitter_sum (ds : list Z) : Z := sumZ ((fun d => Z.abs (d - nominal_us)) <$> ds).

(** Percent of deviation of [x] from the nominal interval. *)
Definition nominal_err (x : Z) : Z := Z.abs (x - nominal_us) * 100 / nominal_us.

(** * Accumulation *)
Lemma interval_sums ds :
  Forall interval_ok ds ->
  10000 * alen ds <= sumZ ds <= 160000 * alen ds /\ 0 <= jitter_sum ds <= 120000 * alen ds.
Proof.
  unfold jitter_sum, interval_ok, nominal_us, VITALS_FS_HZ, alen.
  induction 1 as [| d ds Hd Hds IH]; [vm_compute; split; split; discriminate |].
  rewrite sumZ_fmap_cons. change (sumZ (d :: ds)) with (d + sumZ ds). cbn [length]. 
  change (1000000 / 25) with 40000 in *. lia.
Qed.

Lemma ts_feed_eq ds t s :
  Forall interval_ok ds -> is_u32 t -> ts_prev_valid s = true -> ts_prev_us s = t ->
  Forall (fun x => x <> 0) (stamps t ds) -> 0 <= ts_n s -> ts_n s + alen ds <= 255 ->
  0 <= ts_sum_us s <= 160000 * ts_n s -> 0 <= ts_jit_sum_us s <= 120000 * ts_n s ->
  let r := ts_feed (stamps t ds) s in
  ts_n r = ts_n s + alen ds /\ ts_sum_us r = ts_sum_us s + sumZ ds /\
  ts_jit_sum_us r = ts_jit_sum_us s + jitter_sum ds.
Proof.
  intros Hds. revert t s. induction Hds as [| d ds Hd Hds IH]; intros t s Ht Hv Hp Hz Hn Hl Hs Hj; cbv zeta.
  { change (alen []) with 0. change (sumZ []) with 0. change (jitter_sum []) with 0. cbn. lia. }
  cbn [stamps] in *. inversion Hz as [| ? ? Hz1 Hz2]; subst. cbn [ts_feed fold_left].
  change (fold_left _ ?l ?x) with (ts_feed l x).
  assert (alen (d :: ds) = 1 + alen ds) as El by (unfold alen; cbn [length]; lia).
  pose proof (alen_nonneg ds). unfold interval_ok in Hd.
  assert (ts_note (u32 (ts_prev_us s + d)) s = s <| ts_sum_us := ts_sum_us s + d |>
    <| ts_jit_sum_us := ts_jit_sum_us s + Z.abs (d - nominal_us) |> <| ts_n := ts_n s + 1 |>
    <| ts_prev_us := u32 (ts_prev_us s + d) |> <| ts_prev_valid := true |>) as ->.
  { unfold ts_note. rewrite (proj2 (Z.eqb_neq _ 0)) by done. rewrite Hv. cbv zeta.
    assert (u32 (u32 (ts_prev_us s + d) - ts_prev_us s) = d) as ->.
    { unfold u32. rewrite Zminus_mod_idemp_l. replace (_ + d - _) with d by lia. apply Z.mod_small. lia. }
    change nominal_us with 40000. change (40000 / 4) with 10000. change (40000 * 4) with 160000.
    rewrite (proj2 (Z.leb_le 10000 d)), (proj2 (Z.leb_le d 160000)) by lia. cbn [andb].
    assert ((if 40000 <? d then u32 (d - 40000) else u32 (40000 - d)) = Z.abs (d - 40000)) as ->
      by (zcase; rewrite u32_small by rlia; lia).
    cbn [field_set ts_sum_us ts_jit_sum_us ts_n].
    rewrite (u32_small (ts_sum_us s + d)), (u32_small (ts_jit_sum_us s + _)) by rlia.
    rewrite (proj2 (Z.ltb_lt (ts_n s) 65535)), u16_small by rlia. done. }
  match goal with |- context [ts_feed _ ?s1] => specialize (IH _ s1 (u32_range (ts_prev_us s + d))) end.
  destruct IH as (E1 & E2 & E3); cbn [field_set ts_n ts_sum_us ts_jit_sum_us ts_prev_us ts_prev_valid] in *;
    try done; try lia.
  { change nominal_us with 40000. lia. }
  rewrite E1, E2, E3, El. unfold jitter_sum. rewrite sumZ_fmap_cons.
  change (sumZ (d :: ds)) with (d + sumZ ds). lia.
Qed.

(** [C35] The sampling rate is measured, not assumed.  From 12 to 25
    consecutive intervals of 10 to 160 ms, with the 32-bit microsecond counter
    wrapping anywhere among them, give exactly: the rate of their
    mean interval (rounded down, in Q8 and in hundredths of a Hz), a
    sound time base when the mean is within the tolerance of the nominal
    interval and the mean deviation from it within the jitter limit, and cleared
    sums for the next window. *)
Theorem timebase_measured `{HelmetConfig} v t ds :
  ENABLE_VITALS_TIMESTAMP = true -> is_u32 t -> ts_prev_valid (v_ts v) = true -> ts_prev_us (v_ts v) = t ->
  ts_n (v_ts v) = 0 -> ts_sum_us (v_ts v) = 0 -> ts_jit_sum_us (v_ts v) = 0 ->
  12 <= alen ds <= 25 -> Forall interval_ok ds -> Forall (fun x => x <> 0) (stamps t ds) ->
  let v' := shUpdateTimebase (v <| v_ts ::= ts_feed (stamps t ds) |>) in
  let mean := sumZ ds / alen ds in
  let jitter := jitter_sum ds / alen ds * 100 / mean in
  fs_q8 (v_ts v') = 256000000 / mean /\ 1600 <= fs_q8 (v_ts v') <= 25600 /\
  st_fs_x100 (v_st v') = 100000000 / mean /\
  st_fs_jitter_pct (v_st v') = Z.min 255 jitter /\
  (timebase_ok (v_ts v') = true <-> nominal_err mean <= VITALS_FS_TOL_PCT /\ jitter <= VITALS_JITTER_PCT) /\
  ts_n (v_ts v') = 0 /\ ts_sum_us (v_ts v') = 0 /\ ts_jit_sum_us (v_ts v') = 0.
Proof.
  intros Hen Ht Hv Hp Hn Hs Hj Hlen Hds Hz v' mean jitter.
  destruct (interval_sums ds Hds) as [Hsum Hjit].
  destruct (ts_feed_eq ds t (v_ts v) Hds Ht Hv Hp Hz) as (E1 & E2 & E3); [lia.. |].
  rewrite Hn in E1. rewrite Hs in E2. rewrite Hj in E3. rewrite Z.add_0_l in E1, E2, E3.
  assert (10000 <= mean <= 160000) as Hm
    by (unfold mean; split; [apply Z.div_le_lower_bound | apply Z.div_le_upper_bound]; lia).
  assert (0 <= jitter_sum ds / alen ds <= 120000) as Hjm
    by (split; [apply Z.div_pos | apply Z.div_le_upper_bound]; lia).
  assert (0 <= jitter) as Hj0 by (unfold jitter; apply Z.div_pos; lia).
  assert (1600 <= 256000000 / mean <= 25600) as Hq
    by (split; [apply Z.div_le_lower_bound | apply Z.div_le_upper_bound]; lia).
  assert (0 <= 100000000 / mean <= 10000) as Hx
    by (split; [apply Z.div_pos | apply Z.div_le_upper_bound]; lia).
  unfold v'. change (v <| v_ts ::= ts_feed (stamps t ds) |>) with (v <| v_ts := ts_feed (stamps t ds) (v_ts v) |>).
  set (s := ts_feed _ _) in *. clearbody s.
  unfold shUpdateTimebase. rewrite Hen. change (v_ts (v <| v_ts := s |>)) with s. rewrite E1, E2, E3. change (MOTION_WIN / 2) with 12.
  rewrite (proj2 (Z.leb_le 12 _)) by lia. fold mean. rewrite (proj2 (Z.eqb_neq mean 0)) by lia.
  change (1000000 * 256) with 256000000. change (100 * 1000000) with 100000000.
  rewrite (u32_small (jitter_sum ds / alen ds * 100)) by rlia. fold jitter.
  assert ((if nominal_us <? mean then u32 ((mean - nominal_us) * 100) / nominal_us
    else u32 ((nominal_us - mean) * 100) / nominal_us) = nominal_err mean) as ->.
  { unfold nominal_err. change nominal_us with 40000. zcase; rewrite u32_small by rlia; do 2 f_equal; lia. }
  assert (u8 (if 255 <? jitter then 255 else jitter) = Z.min 255 jitter) as ->
    by (zcase; rewrite u8_small by rlia; lia).
  assert (sat16 (100000000 / mean) = 100000000 / mean) as ->
    by (unfold sat16; rewrite (proj2 (Z.ltb_ge 65535 _)), u16_small by rlia; done).
  assert (sat16 (256000000 / mean) = 256000000 / mean) as ->
    by (unfold sat16; rewrite (proj2 (Z.ltb_ge 65535 _)), u16_small by rlia; done).
  cbn. split; [done |]. split; [done |]. split; [done |]. split; [done |]. split; [| done].
  unfold VITALS_JITTER_PCT. rewrite andb_true_iff, !Z.leb_le. lia.
Qed.

Lemma timebase_measured_witness :
  let ds := replicate 20 50000 in
  let v := (vitals_start (H := shipped)) <| v_ts := mkts 4294500000 true 0 0 0 true 6400 |> in
  let v' := shUpdateTimebase (H := shipped) (v <| v_ts ::= ts_feed (stamps 4294500000 ds) |>) in
  let mean := sumZ ds / alen ds in
  let jitter := jitter_sum ds / alen ds * 100 / mean in
  (fs_q8 (v_ts v') = 256000000 / mean /\ 1600 <= fs_q8 (v_ts v') <= 25600 /\
  st_fs_x100 (v_st v') = 100000000 / mean /\
  st_fs_jitter_pct (v_st v') = Z.min 255 jitter /\
  (timebase_ok (v_ts v') = true <-> nominal_err mean <= VITALS_FS_TOL_PCT /\ jitter <= VITALS_JITTER_PCT) /\
  ts_n (v_ts v') = 0 /\ ts_sum_us (v_ts v') = 0 /\ ts_jit_sum_us (v_ts v') = 0) /\
  fs_q8 (v_ts v') = 5120.
Proof.
  intros ds v v' mean jitter. split; [| vm_compute; reflexivity].
  apply (@timebase_measured shipped v 4294500000 ds); try reflexivity; vdec.
Defined.
