(* ===== verification/Board.v ===== *)
(** The board switches and constants of smart_helmet_config.h that the
    drivers, the Wi-SUN link and the report use; the vitals part is Config. *)
From S2P Require Import Prelude Config Decimal.

(** * Switches

    As in [HelmetConfig], a macro that a build may redefine is a field and
    [if] stands where the code has [#if]. *)
Class BoardConfig := {
  ENABLE_I2C0 : bool;
  ENABLE_I2C1 : bool;
  ENABLE_ADC : bool;
  ENABLE_WISUN_UART : bool;
  ENABLE_WISUN_LINK_CHECK : bool;
  ENABLE_CCS811 : bool;
  ENABLE_HDC1080 : bool;
  ENABLE_MLX90614 : bool;
  ENABLE_SSD1315 : bool;
  LIS3DH_ODR_SEL : Z;
  LIS3DH_FS_G : Z;
  LIS3DH_USE_FIFO : bool;
  LIS3DH_BOOT_LOG : bool;
  SSD1315_ON_I2C1 : bool;
  I2C_PROBE_RETRY_MAX : Z;
  WISUN_AT_RESET_FIRST : bool;
  WISUN_RESET_RETRIES : Z;
  WISUN_PROVISION : bool;
  ENABLE_WISUN_REPORT : bool;
  ENABLE_VITALS_PROXY : bool;
}.

(** The default values. *)
Definition shipped_board : BoardConfig := {|
  ENABLE_I2C0 := true;
  ENABLE_I2C1 := true;
  ENABLE_ADC := true;
  ENABLE_WISUN_UART := true;
  ENABLE_WISUN_LINK_CHECK := true;
  ENABLE_CCS811 := true;
  ENABLE_HDC1080 := true;
  ENABLE_MLX90614 := true;
  ENABLE_SSD1315 := true;
  LIS3DH_ODR_SEL := 5;
  LIS3DH_FS_G := 2;
  LIS3DH_USE_FIFO := false;
  LIS3DH_BOOT_LOG := false;
  SSD1315_ON_I2C1 := true;
  I2C_PROBE_RETRY_MAX := 5;
  WISUN_AT_RESET_FIRST := true;
  WISUN_RESET_RETRIES := 2;
  WISUN_PROVISION := true;
  ENABLE_WISUN_REPORT := true;
  ENABLE_VITALS_PROXY := true;
|}.

(** * I2C wiring *)
Definition I2C0_SCL_PIO : Z := 20.
Definition I2C0_SDA_PIO : Z := 19.
Definition I2C0_SPEED_KHZ : Z := 100.
Definition I2C1_SCL_PIO : Z := 16.
Definition I2C1_SDA_PIO : Z := 15.
Definition I2C1_SPEED_KHZ : Z := 100.
Definition ADDR_CCS811 : Z := 0x5B.
Definition ADDR_HDC1080 : Z := 0x40.
Definition ADDR_LIS3DH : Z := 0x18.
Definition ADDR_MLX90614 : Z := 0x5A.
Definition ADDR_SSD1315 : Z := 0x3C.
Definition I2C_PROBE_RETRY_MS : Z := 1000.
Definition LIS3DH_FIFO_BURST : Z := 16.

(** * Wi-SUN module *)
Definition WISUN_UART_TX_PIO : Z := 14.
Definition WISUN_UART_RX_PIO : Z := 13.
Definition WISUN_RESET_PIO : Z := 3.
Definition WISUN_RX_BUF_SIZE : Z := 512.
Definition WISUN_LINK_TIMEOUT_MS : Z := 1500.
Definition WISUN_RESET_WAIT_MS : Z := 20000.
Definition WISUN_REPLY_SETTLE_MS : Z := 400.
Definition WISUN_RX_POLL_MS : Z := 50.
Definition WISUN_NETNAME : list Z := chars "SmartHelmetWisun".
Definition WISUN_PAN_HEX : list Z := chars "dcba".
Definition WISUN_DOMAIN : list Z := chars "1".
Definition WISUN_CHRATE_KBPS : list Z := chars "50".
Definition WISUN_TXPOWER_DBM : list Z := chars "20".
Definition WISUN_CCA_DBM : list Z := chars "-83".
Definition WISUN_UDP_PORT : list Z := chars "4321".
Definition WISUN_BR_ADDR : list Z := chars "2020:abcd::212:4b00:2de1:f9ff".
