(* ===== verification/Platform.v ===== *)
(** The state monad of the drivers, and the platform they run on: the calls
    of the SDK as requests whose answers a parameter gives. *)
From S2P Require Import Prelude.

(** * State-passing computations

    [M S A] reads and changes a state of type [S].  stdpp's [mret] and
    [x ← m; k] are its unit and sequencing. *)
Definition M (S A : Type) : Type := S -> A * S.
#[export] Instance M_ret {S} : MRet (M S) := fun A x s => (x, s).
#[export] Instance M_bind {S} : MBind (M S) := fun A B k m s => k (fst (m s)) (snd (m s)).

Definition gets {S A} (f : S -> A) : M S A := fun s => (f s, s).
Definition modify {S} (f : S -> S) : M S unit := fun s => (tt, f s).
Definition run {S A} (m : M S A) (s : S) : S := snd (m s).
Definition eval {S A} (m : M S A) (s : S) : A := fst (m s).

Definition when {S} (c : bool) (m : M S unit) : M S unit := if c then m else mret tt.

Fixpoint for_each {S A} (l : list A) (f : A -> M S unit) : M S unit :=
  match l with
  | [] => mret tt
  | x :: l => f x;; for_each l f
  end.

(** [a && b] and [a || b] on computed conditions: [b] is run only when needed. *)
Definition and_then {S} (a b : M S bool) : M S bool := x ← a; if (x : bool) then b else mret false.
Definition or_else {S} (a b : M S bool) : M S bool := x ← a; if (x : bool) then mret true else b.

(** A [for(;;)] or a [while] with a body that says whether to go on. *)
Fixpoint repeat_m {S} (fuel : nat) (body : M S bool) : M S unit :=
  match fuel with
  | O => mret tt
  | S fuel => x ← body; if (x : bool) then repeat_m fuel body else mret tt
  end.

(** Evaluation equations, for rewriting. *)
Section equations.
Context {S : Type}.

Lemma run_ret {A} (x : A) (s : S) : run (mret x) s = s.
Proof. done. Qed.
Lemma eval_ret {A} (x : A) (s : S) : eval (mret x) s = x.
Proof. done. Qed.
Lemma run_bind {A B} (m : M S A) (k : A -> M S B) s : run (m ≫= k) s = run (k (eval m s)) (run m s).
Proof. done. Qed.
Lemma eval_bind {A B} (m : M S A) (k : A -> M S B) s : eval (m ≫= k) s = eval (k (eval m s)) (run m s).
Proof. done. Qed.
Lemma run_gets {A} (f : S -> A) s : run (gets f) s = s.
Proof. done. Qed.
Lemma eval_gets {A} (f : S -> A) s : eval (gets f) s = f s.
Proof. done. Qed.
Lemma run_modify (f : S -> S) s : run (modify f) s = f s.
Proof. done. Qed.
End equations.

Create Rewrite HintDb io.
#[export] Hint Rewrite @run_ret @eval_ret @run_bind @eval_bind @run_gets @eval_gets @run_modify : io.

(** [io]: evaluate as far as the conditions are known. *)
Ltac io := repeat (progress (cbn [when negb andb orb fst snd]; autorewrite with io; unfold id)).

(** * Weakest preconditions *)
Definition wp {S A} (m : M S A) (Q : A -> S -> Prop) (s : S) : Prop := Q (fst (m s)) (snd (m s)).

Section wp.
Context {S : Type}.

Lemma wp_ret {A} (x : A) Q (s : S) : Q x s -> wp (mret x) Q s.
Proof. done. Qed.

Lemma wp_bind {A B} (m : M S A) (k : A -> M S B) Q (s : S) :
  wp m (fun x s => wp (k x) Q s) s -> wp (m ≫= k) Q s.
Proof. done. Qed.

Lemma wp_gets {A} (f : S -> A) Q (s : S) : Q (f s) s -> wp (gets f) Q s.
Proof. done. Qed.

Lemma wp_modify (f : S -> S) Q (s : S) : Q tt (f s) -> wp (modify f) Q s.
Proof. done. Qed.

Lemma wp_mono {A} (m : M S A) (P Q : A -> S -> Prop) (s : S) :
  wp m P s -> (forall x s', P x s' -> Q x s') -> wp m Q s.
Proof. unfold wp. auto. Qed.

Lemma wp_when (c : bool) (m : M S unit) Q (s : S) :
  (c = true -> wp m Q s) -> (c = false -> Q tt s) -> wp (when c m) Q s.
Proof. destruct c; intros H1 H2; [auto | exact (H2 eq_refl)]. Qed.

Lemma wp_and {A} (m : M S A) (P Q : A -> S -> Prop) (s : S) :
  wp m P s -> wp m Q s -> wp m (fun x s' => P x s' /\ Q x s') s.
Proof. done. Qed.
End wp.

(** * Frames and invariants

    [keeps f m]: the computation [m] leaves [f] of the state as it was;
    [inv P m]: it preserves [P].  The hints of the database [keeps] carry
    both through the combinators, and the operations of a component add
    theirs. *)
Definition keeps {S T A} (f : S -> T) (m : M S A) : Prop := forall s, f (snd (m s)) = f s.
Definition inv {S A} (P : S -> Prop) (m : M S A) : Prop := forall s, P s -> P (snd (m s)).

Create HintDb keeps.

Section frames.
Context {S T : Type}.
Implicit Types (f : S -> T) (P : S -> Prop).

Lemma keeps_ret {A} f (x : A) : keeps f (mret x).
Proof. done. Qed.
Lemma keeps_gets {A} f (g : S -> A) : keeps f (gets g).
Proof. done. Qed.
Lemma keeps_bind {A B} f (m : M S A) (k : A -> M S B) :
  keeps f m -> (forall x, keeps f (k x)) -> keeps f (m ≫= k).
Proof. intros Hm Hk s. unfold mbind, M_bind. by rewrite Hk, Hm. Qed.
Lemma keeps_when f c (m : M S unit) : keeps f m -> keeps f (when c m).
Proof. by destruct c. Qed.
Lemma keeps_for_each {A} f (l : list A) (g : A -> M S unit) :
  (forall x, keeps f (g x)) -> keeps f (for_each l g).
Proof. intros Hg. induction l; simpl; [done |]. by apply keeps_bind. Qed.
Lemma keeps_and_then f (a b : M S bool) : keeps f a -> keeps f b -> keeps f (and_then a b).
Proof. intros. apply keeps_bind; [done |]. by intros []. Qed.
Lemma keeps_or_else f (a b : M S bool) : keeps f a -> keeps f b -> keeps f (or_else a b).
Proof. intros. apply keeps_bind; [done |]. by intros []. Qed.
Lemma keeps_repeat f n (b : M S bool) : keeps f b -> keeps f (repeat_m n b).
Proof. intros Hb. induction n; simpl; [done |]. apply keeps_bind; [done |]. by intros []. Qed.

Lemma inv_ret {A} P (x : A) : inv P (mret x).
Proof. by intros s. Qed.
Lemma inv_gets {A} P (g : S -> A) : inv P (gets g).
Proof. by intros s. Qed.
Lemma inv_bind {A B} P (m : M S A) (k : A -> M S B) :
  inv P m -> (forall x, inv P (k x)) -> inv P (m ≫= k).
Proof. intros Hm Hk s Hs. by apply Hk, Hm. Qed.
(** The same, with what is known of the value. *)
Lemma inv_bind_post {A B} P (Q : A -> Prop) (m : M S A) (k : A -> M S B) :
  inv P m -> (forall s, P s -> Q (fst (m s))) -> (forall x, Q x -> inv P (k x)) -> inv P (m ≫= k).
Proof. intros Hm HQ Hk s Hs. apply (Hk (fst (m s))); [by apply HQ | by apply Hm]. Qed.
Lemma inv_when P c (m : M S unit) : inv P m -> inv P (when c m).
Proof. destruct c; [done |]. intros _. apply inv_ret. Qed.
Lemma inv_for_each {A} P (l : list A) (g : A -> M S unit) :
  (forall x, inv P (g x)) -> inv P (for_each l g).
Proof. intros Hg. induction l; simpl; [apply inv_ret |]. by apply inv_bind. Qed.
Lemma inv_and_then P (a b : M S bool) : inv P a -> inv P b -> inv P (and_then a b).
Proof. intros. apply inv_bind; [done |]. intros []; [done | apply inv_ret]. Qed.
Lemma inv_or_else P (a b : M S bool) : inv P a -> inv P b -> inv P (or_else a b).
Proof. intros. apply inv_bind; [done |]. intros []; [apply inv_ret | done]. Qed.
Lemma inv_repeat P n (b : M S bool) : inv P b -> inv P (repeat_m n b).
Proof.
  intros Hb. induction n; simpl; [apply inv_ret |]. apply inv_bind; [done |].
  intros []; [done | apply inv_ret].
Qed.

Lemma run_keeps {A} f (m : M S A) s : keeps f m -> f (run m s) = f s.
Proof. intros Hm. apply Hm. Qed.

(** An invariant that only looks at what is kept. *)
Lemma keeps_inv {A} f (R : T -> Prop) (m : M S A) : keeps f m -> inv (fun s => R (f s)) m.
Proof. intros Hm s. by rewrite Hm. Qed.
End frames.

(** A frame is an invariant for every value. *)
Lemma keeps_of_inv {S T A} (f : S -> T) (m : M S A) : (forall x, inv (fun s => f s = x) m) -> keeps f m.
Proof. intros Hm s. by apply (Hm (f s) s). Qed.

(** From one condition to another. *)
Definition leads {S A} (P Q : S -> Prop) (m : M S A) : Prop := forall s, P s -> Q (snd (m s)).

Lemma leads_bind {S A B} (P Q R : S -> Prop) (m : M S A) (k : A -> M S B) :
  leads P Q m -> (forall x, leads Q R (k x)) -> leads P R (m ≫= k).
Proof. intros Hm Hk s Hs. by apply Hk, Hm. Qed.

Lemma leads_weaken {S A} (P P' Q Q' : S -> Prop) (m : M S A) :
  (forall s, P s -> P' s) -> leads P' Q' m -> (forall s, Q' s -> Q s) -> leads P Q m.
Proof. intros HP Hm HQ s Hs. by apply HQ, Hm, HP. Qed.

Lemma inv_leads {S A} (P P' Q : S -> Prop) (m : M S A) :
  (forall s, P s -> P' s) -> (forall s, P' s -> Q s) -> inv P' m -> leads P Q m.
Proof. intros HP HQ Hm s Hs. by apply HQ, Hm, HP. Qed.

(** Reading, with what the value says about the state. *)
Lemma inv_read {S A B} (P : S -> Prop) (f : S -> A) (k : A -> M S B) :
  (forall s, P s -> P (run (k (f s)) s)) -> inv P (gets f ≫= k).
Proof. intros Hk s. apply Hk. Qed.

Lemma inv_and {S A} (P Q : S -> Prop) (m : M S A) : inv P m -> inv Q m -> inv (fun s => P s /\ Q s) m.
Proof. intros HP HQ s [Hp Hq]. by split; [apply HP | apply HQ]. Qed.

Lemma leads_read {S A B} (P Q : S -> Prop) (f : S -> A) (k : A -> M S B) :
  (forall s, P s -> Q (run (k (f s)) s)) -> leads P Q (gets f ≫= k).
Proof. intros Hk s. apply Hk. Qed.

Lemma inv_run {S A} (P : S -> Prop) (m : M S A) s : inv P m -> P s -> P (run m s).
Proof. intros Hm. apply Hm. Qed.

Lemma keeps_fst {S T U A} (f : S -> T) (g : T -> U) (m : M S A) :
  keeps f m -> keeps (fun s => g (f s)) m.
Proof. intros Hm s. by rewrite Hm. Qed.

#[export] Hint Resolve keeps_ret keeps_gets keeps_bind keeps_when keeps_for_each keeps_and_then
  keeps_or_else keeps_repeat inv_ret inv_gets inv_bind inv_when inv_for_each inv_and_then
  inv_or_else inv_repeat : keeps.

(** [keeps_tac]: walk through a computation, splitting on its conditions. *)
Ltac keeps_step :=
  match goal with
  | |- forall _, _ => intros ?
  | |- keeps _ (if ?b then _ else _) => destruct b
  | |- inv _ (if ?b then _ else _) => destruct b
  | |- keeps _ (match ?x with _ => _ end) => destruct x
  | |- inv _ (match ?x with _ => _ end) => destruct x
  | |- keeps _ (_ ≫= _) => apply keeps_bind
  | |- inv _ (_ ≫= _) => apply inv_bind
  | |- keeps _ (when _ _) => apply keeps_when
  | |- inv _ (when _ _) => apply inv_when
  | |- keeps _ (for_each _ _) => apply keeps_for_each
  | |- inv _ (for_each _ _) => apply inv_for_each
  | |- keeps _ (and_then _ _) => apply keeps_and_then
  | |- inv _ (and_then _ _) => apply inv_and_then
  | |- keeps _ (or_else _ _) => apply keeps_or_else
  | |- inv _ (or_else _ _) => apply inv_or_else
  | |- keeps _ (repeat_m _ _) => apply keeps_repeat
  | |- inv _ (repeat_m _ _) => apply inv_repeat
  | |- _ => solve [eauto with keeps nocore]
  | |- _ => solve [eauto with keeps]
  | |- keeps _ (modify _) => intros ?; reflexivity
  end.
Ltac keeps_tac := repeat keeps_step.

(** * Requests to the platform *)

(** Timer messages; the values of the identifiers are SDK-wide. *)
Inductive MsgId :=
| ADC_INTERNAL_TRIGGER | ADC_SENS_TRIGGER | I2C_PROBE_RETRY | LIS3DH_LOG_TICK
| WISUN_LINK_CHECK | WISUN_RX_POLL | REPORT_TICK | MOTION_POLL.

#[export] Instance MsgId_eq_dec : EqDecision MsgId.
Proof. solve_decision. Defined.

Inductive pin_function_id :=
| OTHER | UART_TX | UART_RX | BITSERIAL_CLOCK_OUT (b : Z) | BITSERIAL_CLOCK_IN (b : Z)
| BITSERIAL_DATA_OUT (b : Z) | BITSERIAL_DATA_IN (b : Z).

Inductive bitserial_result :=
| BITSERIAL_RESULT_SUCCESS | BITSERIAL_RESULT_I2C_NACK | BITSERIAL_RESULT_FAIL (code : Z).

#[export] Instance bitserial_result_eq_dec : EqDecision bitserial_result.
Proof. solve_decision. Defined.

Inductive vm_adc_source_type := adcsel_vref_hq_buff | adcsel_led0 | adcsel_led1 | adcsel_led2
| adcsel_led3 | adcsel_led4.

#[export] Instance adc_source_eq_dec : EqDecision vm_adc_source_type.
Proof. solve_decision. Defined.

(** One constructor per SDK function.  A bank and a mask are written as the
    pin they select; a failed open handle is [None]; the bytes that the code
    copies into the claimed stream buffer are an argument of the flush. *)
Inductive Req :=
| PioSetFunction (pio : Z) (fn : pin_function_id)
| PioSetMapPins32Bank (pio : Z) (apps : bool)
| PioSetDir32Bank (pio : Z) (out : bool)
| PioSet32Bank (pio : Z) (high : bool)
| BitserialOpen (block speed_khz addr7 : Z)
| BitserialClose (handle : option Z)
| BitserialChangeParam (handle : option Z) (addr7 : Z)
| BitserialTransfer (handle : option Z) (tx : list Z) (rx_len : Z)
| BitserialWrite (handle : option Z) (tx : list Z)
| BitserialRead (handle : option Z) (rx_len : Z)
| StreamUartConfigure
| StreamUartSink
| StreamUartSource
| SourceConfigure
| SinkConfigure
| MessageStreamTaskFromSink
| MessageStreamTaskFromSource
| SinkSlack
| SinkClaim (len : Z)
| SinkMap
| SinkFlush (offset : Z) (data : list Z)
| SourceBoundary
| SourceSize
| SourceMap (len : Z)
| SourceDrop (len : Z)
| AdcReadRequest (source : vm_adc_source_type)
| MessageSendLater (id : MsgId) (delay_ms : Z)
| MessageCancelAll (id : MsgId)
| SystemClockGetTimerTime
| VmGetTimerTime
| headsetSmOnWisunBrOnlineChanged (online : bool)
| uart_rx_cb (data : list Z)
| appBatteryGetVoltageInstantaneous
| Soc_ConvertLevelToPercentage (mv : Z)
| appDeviceIsHandsetConnected
| HfpProfile_IsScoActive
| Av_IsA2dpSinkStreaming.

(** Requests that leave the timers alone. *)
Definition not_timer (q : Req) : bool :=
  match q with MessageSendLater _ _ | MessageCancelAll _ => false | _ => true end.

(** Requests that also leave the received bytes alone: all that the drivers
    of the buses, the display and the transmit path make. *)
Definition plain (q : Req) : bool :=
  match q with MessageSendLater _ _ | MessageCancelAll _ | SourceMap _ | SourceDrop _ => false | _ => true end.

Lemma plain_timer q : plain q = true -> not_timer q = true.
Proof. by destruct q. Qed.

(** Requests to the serial block of the I2C buses. *)
Definition on_bus (q : Req) : bool :=
  match q with
  | BitserialOpen _ _ _ | BitserialClose _ | BitserialChangeParam _ _ | BitserialTransfer _ _ _ | BitserialWrite _ _
  | BitserialRead _ _ => true
  | _ => false
  end.

(** Requests that leave timers, received bytes and buses alone. *)
Definition inert (q : Req) : bool := plain q && negb (on_bus q).

Lemma inert_plain q : inert q = true -> plain q = true.
Proof. by intros [? _]%andb_true_iff. Qed.

Lemma inert_bus q : inert q = true -> on_bus q = false.
Proof. by intros [_ ?%negb_true_iff]%andb_true_iff. Qed.

(** What each returns. *)
Definition Resp (q : Req) : Type :=
  match q with
  | PioSetFunction _ _ | PioSetMapPins32Bank _ _ => bool
  | BitserialOpen _ _ _ => option Z
  | BitserialChangeParam _ _ | BitserialWrite _ _ => bitserial_result
  | BitserialTransfer _ _ _ | BitserialRead _ _ => bitserial_result * list Z
  | StreamUartSink | StreamUartSource | SinkMap => bool
  | SinkSlack | SinkClaim _ | SourceBoundary | SourceSize => Z
  | SinkFlush _ _ => bool
  | SourceMap _ => option (list Z)
  | SystemClockGetTimerTime | VmGetTimerTime => Z
  | appBatteryGetVoltageInstantaneous | Soc_ConvertLevelToPercentage _ => Z
  | appDeviceIsHandsetConnected | HfpProfile_IsScoActive | Av_IsA2dpSinkStreaming => bool
  | _ => unit
  end.

(** The platform: everything outside the module, as a state that answers. *)
Class Platform := {
  Env : Type;
  serve : forall q : Req, Env -> Resp q * Env;
}.

(** * A bench platform

    A platform for evaluating the firmware on concrete inputs: scripted I2C
    answers, then successes that read zero; received UART chunks; a clock
    that advances 10 ms at each reading; everything else succeeds. *)
Record bench_env := mkbench {
  bench_i2c : list (bitserial_result * list Z);
  bench_rx : list (list Z);
  bench_clock_us : Z }.

#[export] Instance bench_eta : RecordEta bench_env := fun r =>
  mkbench (bench_i2c r) (bench_rx r) (bench_clock_us r).

Definition bench_cycle (n : Z) (e : bench_env) : (bitserial_result * list Z) * bench_env :=
  match bench_i2c e with
  | a :: l => (a, e <| bench_i2c := l |>)
  | [] => ((BITSERIAL_RESULT_SUCCESS, replicate (Z.to_nat n) 0), e)
  end.

Definition bench_tick (e : bench_env) : Z * bench_env :=
  (bench_clock_us e, e <| bench_clock_us ::= Z.add 10000 |>).

Definition bench_pending (e : bench_env) : Z :=
  match bench_rx e with c :: _ => alen c | [] => 0 end.

Definition bench_serve (q : Req) (e : bench_env) : Resp q * bench_env :=
  match q with
  | PioSetFunction _ _ => (true, e)
  | PioSetMapPins32Bank _ _ => (false, e)
  | BitserialOpen b _ _ => (Some b, e)
  | BitserialChangeParam _ _ => (BITSERIAL_RESULT_SUCCESS, e)
  | BitserialTransfer _ _ n => bench_cycle n e
  | BitserialWrite _ _ => let r := bench_cycle 0 e in (fst (fst r), snd r)
  | BitserialRead _ n => bench_cycle n e
  | StreamUartSink | StreamUartSource | SinkMap => (true, e)
  | SinkSlack => (1024, e)
  | SinkClaim _ => (0, e)
  | SinkFlush _ _ => (true, e)
  | SourceBoundary | SourceSize => (bench_pending e, e)
  | SourceMap _ => (head (bench_rx e), e)
  | SourceDrop _ => (tt, e <| bench_rx ::= tail |>)
  | SystemClockGetTimerTime | VmGetTimerTime => bench_tick e
  | appBatteryGetVoltageInstantaneous => (3700, e)
  | Soc_ConvertLevelToPercentage _ => (55, e)
  | appDeviceIsHandsetConnected | HfpProfile_IsScoActive | Av_IsA2dpSinkStreaming => (false, e)
  | _ => (tt, e)
  end.

Definition bench : Platform := {| Env := bench_env; serve := bench_serve |}.
