(* ===== verification/World.v ===== *)
(** The state of the firmware: the statics of every file of
    src/headset/src/smart_helmet, the platform, and the calls made to it. *)
From S2P Require Import Prelude Config Decimal Telemetry Vitals Board Platform.

(** * smart_helmet_i2c.c *)

(** [sh_i2c_bus_state_t]; a handle [None] is BITSERIAL_HANDLE_ERROR. *)
Record sh_i2c_bus_state_t := mkbus {
  i2c_handle : option Z;
  i2c_block : Z;
  i2c_scl : Z;
  i2c_sda : Z;
  i2c_speed_khz : Z;
  i2c_addr7 : Z;
  i2c_open : bool;
  i2c_addr_ready : bool }.

#[export] Instance bus_eta : RecordEta sh_i2c_bus_state_t := fun r =>
  mkbus (i2c_handle r) (i2c_block r) (i2c_scl r) (i2c_sda r) (i2c_speed_khz r) (i2c_addr7 r)
    (i2c_open r) (i2c_addr_ready r).

(** A static is zero before the first call; a zero handle is not an error handle. *)
Definition bus_zero : sh_i2c_bus_state_t := mkbus (Some 0) 0 0 0 0 0 false false.

(** * smart_helmet_adc.c *)
Inductive sh_adc_mode_t := sh_adc_mode_idle | sh_adc_mode_full | sh_adc_mode_sens.

#[export] Instance adc_mode_eq_dec : EqDecision sh_adc_mode_t.
Proof. solve_decision. Defined.

(** A [Task] is NULL or the task of the module. *)
Record adc_st := mkadc {
  sh_adc_task : bool;
  sh_adc_index : Z;
  sh_adc_mode : sh_adc_mode_t;
  sh_adc_vref_mv : Z;
  adc_millivolts : list Z;
  adc_valid : list Z;
  sh_sens_pending : bool;
  sh_sens_os_n : Z;
  sh_sens_os_acc : Z }.

#[export] Instance adc_st_eta : RecordEta adc_st := fun r =>
  mkadc (sh_adc_task r) (sh_adc_index r) (sh_adc_mode r) (sh_adc_vref_mv r) (adc_millivolts r)
    (adc_valid r) (sh_sens_pending r) (sh_sens_os_n r) (sh_sens_os_acc r).

Definition adc_zero : adc_st := mkadc false 0 sh_adc_mode_idle 0 [0; 0; 0; 0] [0; 0; 0; 0] false 0 0.

(** * smart_helmet_sensors.c *)

(** [smart_helmet_sensor_data_t] *)
Record smart_helmet_sensor_data_t := mksens {
  ccs811_ok : bool;
  hdc1080_ok : bool;
  lis3dh_ok : bool;
  mlx90614_ok : bool;
  ssd1315_ok : bool;
  ccs811_eco2 : Z;
  ccs811_tvoc : Z;
  hdc_temp_x100 : Z;
  hdc_humidity_x100 : Z;
  lis3dh_x : Z;
  lis3dh_y : Z;
  lis3dh_z : Z;
  object_temp_x100 : Z;
  ambient_temp_x100 : Z }.

#[export] Instance sens_eta : RecordEta smart_helmet_sensor_data_t := fun r =>
  mksens (ccs811_ok r) (hdc1080_ok r) (lis3dh_ok r) (mlx90614_ok r) (ssd1315_ok r) (ccs811_eco2 r)
    (ccs811_tvoc r) (hdc_temp_x100 r) (hdc_humidity_x100 r) (lis3dh_x r) (lis3dh_y r) (lis3dh_z r)
    (object_temp_x100 r) (ambient_temp_x100 r).

Definition sens_zero : smart_helmet_sensor_data_t :=
  mksens false false false false false 0 0 0 0 0 0 0 0 0.

(** The other statics of the file: the probe and log tasks, the display
    cache (the lines last drawn) and the latched failure line. *)
Record sensors_st := mksensors {
  sh_sensors : smart_helmet_sensor_data_t;
  sh_probe_task : bool;
  sh_log_task : bool;
  sh_probe_try : Z;
  sh_accel_fifo : list (Z * Z * Z);
  sh_display_blanked : bool;
  sh_oled_prev : list (list Z);
  sh_oled_have_prev : bool;
  sh_init_fail_latched : bool;
  sh_init_fail_line : list Z;
  log_last_motion : smart_helmet_motion_gate_t }.

#[export] Instance sensors_st_eta : RecordEta sensors_st := fun r =>
  mksensors (sh_sensors r) (sh_probe_task r) (sh_log_task r) (sh_probe_try r) (sh_accel_fifo r)
    (sh_display_blanked r) (sh_oled_prev r) (sh_oled_have_prev r) (sh_init_fail_latched r)
    (sh_init_fail_line r) (log_last_motion r).

Definition sensors_zero : sensors_st :=
  mksensors sens_zero false false 0 [] false [[]; []; []; []] false false [] smart_helmet_motion_calm.

(** * smart_helmet_uart.c *)
Inductive smart_helmet_wisun_link_t :=
| smart_helmet_wisun_idle | smart_helmet_wisun_tx_only | smart_helmet_wisun_rx_unknown
| smart_helmet_wisun_module_ok.

(** [smart_helmet_wisun_status_t] *)
Record wisun_status := mkwisun {
  ws_result : smart_helmet_wisun_link_t;
  ws_tx_ok : bool;
  ws_rx_seen : bool;
  ws_module_seen : bool;
  ws_ip_seen : bool;
  ws_online : bool;
  ws_reset_seen : bool;
  ws_at_mode : bool;
  ws_at_ok : bool;
  ws_at_pass : Z;
  ws_at_fail : Z;
  ws_status_code : Z;
  ws_tries : Z;
  ws_at_cmd : list Z;
  ws_last_line : list Z }.

#[export] Instance wisun_eta : RecordEta wisun_status := fun r =>
  mkwisun (ws_result r) (ws_tx_ok r) (ws_rx_seen r) (ws_module_seen r) (ws_ip_seen r) (ws_online r)
    (ws_reset_seen r) (ws_at_mode r) (ws_at_ok r) (ws_at_pass r) (ws_at_fail r) (ws_status_code r)
    (ws_tries r) (ws_at_cmd r) (ws_last_line r).

Definition wisun_zero : wisun_status :=
  mkwisun smart_helmet_wisun_idle false false false false false false false false 0 0 0 0 [] [].

(** [sh_rejoin_ms] is the static of SmartHelmet_UartRejoin.  The copies kept
    for the log only (rx_str, sh_rx_prev) are left out. *)
Record uart_st := mkuart {
  sh_uart_sink : bool;
  sh_uart_source : bool;
  sh_uart_task : bool;
  sh_uart_rx_cb : bool;
  sh_wisun : wisun_status;
  sh_wisun_step : Z;
  sh_at_idx : Z;
  sh_passthrough : bool;
  sh_restart_seen : bool;
  sh_send_ok_wait : bool;
  sh_rejoining : bool;
  sh_missed_ok : Z;
  sh_leave_next : Z;
  sh_too_long_retry : Z;
  sh_rx_asm : list Z;
  sh_rx_line : list Z;
  sh_prov_q : list (list Z);
  sh_prov_i : Z;
  sh_prov_done : Z;
  sh_prov_dirty : Z;
  sh_rejoin_ms : Z }.

#[export] Instance uart_st_eta : RecordEta uart_st := fun r =>
  mkuart (sh_uart_sink r) (sh_uart_source r) (sh_uart_task r) (sh_uart_rx_cb r) (sh_wisun r)
    (sh_wisun_step r) (sh_at_idx r) (sh_passthrough r) (sh_restart_seen r) (sh_send_ok_wait r)
    (sh_rejoining r) (sh_missed_ok r) (sh_leave_next r) (sh_too_long_retry r) (sh_rx_asm r)
    (sh_rx_line r) (sh_prov_q r) (sh_prov_i r) (sh_prov_done r)
    (sh_prov_dirty r) (sh_rejoin_ms r).

Definition uart_zero : uart_st :=
  mkuart false false false false wisun_zero 0 0 false false false false 0 0 0 [] [] [] 0 0 0 0.

(** * smart_helmet.c *)

(** [prev_x], [prev_y], [prev_z] and [have_prev] are the statics of the
    motion poll. *)
Record helmet_st := mkhelmet {
  sh_ready : bool;
  sh_powered : bool;
  sh_motion_since_report : bool;
  sh_motion_quiet_reports : Z;
  sh_motion_holding : bool;
  poll_prev : Z * Z * Z;
  poll_have_prev : bool;
  sh_gas_r0_mv : list Z;
  sh_ui_state : Z }.

#[export] Instance helmet_st_eta : RecordEta helmet_st := fun r =>
  mkhelmet (sh_ready r) (sh_powered r) (sh_motion_since_report r) (sh_motion_quiet_reports r)
    (sh_motion_holding r) (poll_prev r) (poll_have_prev r) (sh_gas_r0_mv r) (sh_ui_state r).

Definition helmet_zero : helmet_st := mkhelmet false false false 0 false (0, 0, 0) false [0; 0; 0] 0.

(** * Messages

    What the module task can receive: its own timers, a finished conversion,
    the stream notifications, and messages of others. *)
Inductive Message :=
| MsgTimer (id : MsgId)
| MESSAGE_ADC_RESULT (adc_source : vm_adc_source_type) (reading : Z)
| MESSAGE_MORE_DATA
| MESSAGE_MORE_SPACE
| MsgOther.

(** * The world *)

(** A call to the platform with its answer. *)
Record Call := mkcall { c_req : Req; c_resp : Resp c_req }.

(** [w_trace] lists the calls with their answers, the last one first. *)
Record World `{Platform} := mkworld {
  w_env : Env;
  w_trace : list Call;
  w_vit : vitals;
  w_i2c : list sh_i2c_bus_state_t;
  w_adc : adc_st;
  w_sens : sensors_st;
  w_uart : uart_st;
  w_hel : helmet_st }.

#[export] Instance world_eta `{Platform} : RecordEta World := fun r =>
  mkworld _ (w_env r) (w_trace r) (w_vit r) (w_i2c r) (w_adc r) (w_sens r) (w_uart r) (w_hel r).

(** The statics before the first call. *)
Definition world_start `{HelmetConfig} `{Platform} (e : Env) : World :=
  mkworld _ e [] vitals_start [bus_zero; bus_zero] adc_zero sensors_zero uart_zero helmet_zero.

(** * Computations of the firmware *)
Notation IO := (M World).

Section io.
Context `{Platform}.

(** A call to the platform. *)
Definition call (q : Req) : IO (Resp q) := fun w =>
  let r := serve q (w_env w) in
  (fst r, w <| w_env := snd r |> <| w_trace ::= cons (mkcall q (fst r)) |>).

Definition vit_do (f : vitals -> vitals) : IO unit := modify (fun w => w <| w_vit ::= f |>).
Definition adc_do (f : adc_st -> adc_st) : IO unit := modify (fun w => w <| w_adc ::= f |>).
Definition sens_do (f : sensors_st -> sensors_st) : IO unit := modify (fun w => w <| w_sens ::= f |>).
Definition uart_do (f : uart_st -> uart_st) : IO unit := modify (fun w => w <| w_uart ::= f |>).
Definition hel_do (f : helmet_st -> helmet_st) : IO unit := modify (fun w => w <| w_hel ::= f |>).

Definition adc_get {A} (f : adc_st -> A) : IO A := gets (fun w => f (w_adc w)).
Definition sens_get {A} (f : sensors_st -> A) : IO A := gets (fun w => f (w_sens w)).
Definition uart_get {A} (f : uart_st -> A) : IO A := gets (fun w => f (w_uart w)).
Definition hel_get {A} (f : helmet_st -> A) : IO A := gets (fun w => f (w_hel w)).
Definition data_get {A} (f : smart_helmet_sensor_data_t -> A) : IO A := sens_get (fun s => f (sh_sensors s)).
Definition data_do (f : smart_helmet_sensor_data_t -> smart_helmet_sensor_data_t) : IO unit :=
  sens_do (fun s => s <| sh_sensors ::= f |>).
Definition wisun_do (f : wisun_status -> wisun_status) : IO unit :=
  uart_do (fun u => u <| sh_wisun ::= f |>).

(** Evaluation equations. *)
Lemma run_adc_do f w : run (adc_do f) w = w <| w_adc ::= f |>.
Proof. done. Qed.
Lemma run_sens_do f w : run (sens_do f) w = w <| w_sens ::= f |>.
Proof. done. Qed.
Lemma run_uart_do f w : run (uart_do f) w = w <| w_uart ::= f |>.
Proof. done. Qed.
Lemma run_wisun_do f w : run (wisun_do f) w = w <| w_uart ::= (fun u => u <| sh_wisun ::= f |>) |>.
Proof. done. Qed.
Lemma run_hel_do f w : run (hel_do f) w = w <| w_hel ::= f |>.
Proof. done. Qed.
Lemma run_adc_get {A} (f : _ -> A) w : run (adc_get f) w = w.
Proof. done. Qed.
Lemma eval_adc_get {A} (f : _ -> A) w : eval (adc_get f) w = f (w_adc w).
Proof. done. Qed.
Lemma run_sens_get {A} (f : _ -> A) w : run (sens_get f) w = w.
Proof. done. Qed.
Lemma eval_sens_get {A} (f : _ -> A) w : eval (sens_get f) w = f (w_sens w).
Proof. done. Qed.
Lemma run_data_get {A} (f : _ -> A) w : run (data_get f) w = w.
Proof. done. Qed.
Lemma eval_data_get {A} (f : _ -> A) w : eval (data_get f) w = f (sh_sensors (w_sens w)).
Proof. done. Qed.
Lemma run_uart_get {A} (f : _ -> A) w : run (uart_get f) w = w.
Proof. done. Qed.
Lemma eval_uart_get {A} (f : _ -> A) w : eval (uart_get f) w = f (w_uart w).
Proof. done. Qed.
Lemma run_hel_get {A} (f : _ -> A) w : run (hel_get f) w = w.
Proof. done. Qed.
Lemma eval_hel_get {A} (f : _ -> A) w : eval (hel_get f) w = f (w_hel w).
Proof. done. Qed.

(** What each leaves alone. *)
Lemma keeps_call {T} (f : World -> T) q :
  (forall w e t, f (w <| w_env := e |> <| w_trace := t |>) = f w) -> keeps f (call q).
Proof. intros Hf w. unfold call. cbn [snd]. apply (Hf w). Qed.

(** The generic frame lemmas of the components take an invariant and these
    two conditions on it: calls other than those of the timers, and updates
    of a part of the state.  The tactics prove them for the projections of
    the world, or by the hints of [calls]. *)
Lemma inv_modify (P : World -> Prop) g : (forall w, P w -> P (g w)) -> inv P (modify g).
Proof. done. Qed.

(** The calls a computation adds to the trace. *)
Definition calls {A} (m : IO A) (w : World) (l : list Call) : Prop :=
  w_trace (run m w) = l ++ w_trace w.
End io.

Create HintDb calls.
#[export] Hint Resolve plain_timer inert_plain : calls.
Ltac side :=
  solve [intros ? ? ? Hcs; exact Hcs | intros ? ? Hcs; exact Hcs | intros ? Hcs; exact Hcs | eauto with calls].

#[export] Hint Rewrite @run_adc_do @run_sens_do @run_uart_do @run_wisun_do @run_hel_do @run_adc_get
  @eval_adc_get @run_sens_get @eval_sens_get @run_data_get @eval_data_get @run_uart_get @eval_uart_get
  @run_hel_get @eval_hel_get : io.

#[export] Hint Extern 2 (keeps _ (call _)) => apply keeps_call; reflexivity : keeps.
#[export] Hint Extern 2 (keeps _ (vit_do _)) => intros ?; reflexivity : keeps.
#[export] Hint Extern 2 (keeps _ (adc_do _)) => intros ?; reflexivity : keeps.
#[export] Hint Extern 2 (keeps _ (sens_do _)) => intros ?; reflexivity : keeps.
#[export] Hint Extern 2 (keeps _ (data_do _)) => intros ?; reflexivity : keeps.
#[export] Hint Extern 2 (keeps _ (uart_do _)) => intros ?; reflexivity : keeps.
#[export] Hint Extern 2 (keeps _ (wisun_do _)) => intros ?; reflexivity : keeps.
#[export] Hint Extern 2 (keeps _ (hel_do _)) => intros ?; reflexivity : keeps.
#[export] Hint Extern 2 (keeps _ (adc_get _)) => apply keeps_gets : keeps.
#[export] Hint Extern 2 (keeps _ (sens_get _)) => apply keeps_gets : keeps.
#[export] Hint Extern 2 (keeps _ (data_get _)) => apply keeps_gets : keeps.
#[export] Hint Extern 2 (keeps _ (uart_get _)) => apply keeps_gets : keeps.
#[export] Hint Extern 2 (keeps _ (hel_get _)) => apply keeps_gets : keeps.
#[export] Hint Extern 2 (inv _ (adc_get _)) => apply inv_gets : keeps.
#[export] Hint Extern 2 (inv _ (sens_get _)) => apply inv_gets : keeps.
#[export] Hint Extern 2 (inv _ (data_get _)) => apply inv_gets : keeps.
#[export] Hint Extern 2 (inv _ (uart_get _)) => apply inv_gets : keeps.
#[export] Hint Extern 2 (inv _ (hel_get _)) => apply inv_gets : keeps.
#[export] Hint Extern 1 (keeps _ (modify _)) => intros ?; reflexivity : keeps.
