(* ===== verification/Timers.v ===== *)
(** What the firmware relies on of the message timers of the SDK, as laws of
    the platform, and timers for any platform that has none. *)
From S2P Require Import Prelude Config Board Platform World.

(** [due id e] counts the pending messages [id]; [fire] takes one of them
    away, as the scheduler does when it delivers it. *)
Class TimerLaws `{Platform} := {
  due : MsgId -> Env -> nat;
  fire : MsgId -> Env -> Env;
  due_send i d j e :
    due j (snd (serve (MessageSendLater i d) e)) = if decide (i = j) then S (due j e) else due j e;
  due_cancel i j e : due j (snd (serve (MessageCancelAll i) e)) = if decide (i = j) then 0%nat else due j e;
  due_other q j e : not_timer q = true -> due j (snd (serve q e)) = due j e;
  due_fire i j e : due j (fire i e) = if decide (i = j) then pred (due j e) else due j e;
}.

(** * Timers in the world *)
Section world.
Context `{TimerLaws}.

Definition due_in (id : MsgId) (w : World) : nat := due id (w_env w).

(** The state in which the handler of a fired timer starts. *)
Definition fired (id : MsgId) (w : World) : World := w <| w_env ::= fire id |>.

Lemma due_in_call q id w : due_in id (snd (call q w)) = due id (snd (serve q (w_env w))).
Proof. done. Qed.

Lemma due_call q id : not_timer q = true -> keeps (due_in id) (call q).
Proof. intros Hq w. rewrite due_in_call. by apply due_other. Qed.

Lemma due_call_inv q id n : not_timer q = true -> inv (fun w => due_in id w = n) (call q).
Proof. intros Hq w <-. by apply due_call. Qed.

Lemma due_send_other i d id : i <> id -> keeps (due_in id) (call (MessageSendLater i d)).
Proof. intros Hn w. by rewrite due_in_call, due_send, decide_False. Qed.

Lemma due_cancel_other i id : i <> id -> keeps (due_in id) (call (MessageCancelAll i)).
Proof. intros Hn w. by rewrite due_in_call, due_cancel, decide_False. Qed.

Lemma due_send_same i d w : due_in i (run (call (MessageSendLater i d) : IO unit) w) = S (due_in i w).
Proof. change (due i (snd (serve (MessageSendLater i d) (w_env w))) = S (due_in i w)). by rewrite due_send, decide_True. Qed.

Lemma due_cancel_same i w : due_in i (run (call (MessageCancelAll i) : IO unit) w) = 0%nat.
Proof. change (due i (snd (serve (MessageCancelAll i) (w_env w))) = 0%nat). by rewrite due_cancel, decide_True. Qed.

(** In the form of the invariants. *)
Lemma due_cancel_snd i w : due_in i (snd (call (MessageCancelAll i) w)) = 0%nat.
Proof. apply due_cancel_same. Qed.

Lemma due_send_snd i d w : due_in i (snd (call (MessageSendLater i d) w)) = S (due_in i w).
Proof. apply due_send_same. Qed.

Lemma due_fired i j w : due_in j (fired i w) = if decide (i = j) then pred (due_in j w) else due_in j w.
Proof. unfold due_in, fired. cbn. apply due_fire. Qed.

Lemma due_fired_same i w : due_in i (fired i w) = pred (due_in i w).
Proof. by rewrite due_fired, decide_True. Qed.

Lemma due_fired_other i j w : i <> j -> due_in j (fired i w) = due_in j w.
Proof. intros Hn. by rewrite due_fired, decide_False. Qed.
(** A cancelled timer that is set once is pending once. *)
Lemma due_again id d w : due_in id (snd ((call (MessageCancelAll id);; call (MessageSendLater id d)) w)) = 1%nat.
Proof.
  change (due_in id (snd (call (MessageSendLater id d) (snd (call (MessageCancelAll id) w)))) = 1%nat).
  by rewrite due_send_snd, due_cancel_snd.
Qed.

End world.

#[export] Hint Resolve due_call_inv : calls.
#[export] Hint Extern 2 (keeps (due_in _) (call _)) =>
  first [apply due_call; reflexivity | apply due_send_other; discriminate | apply due_cancel_other; discriminate] : keeps.

(** * A platform with timers

    The pending messages of any platform, kept beside its state. *)
Section timed.
Context (P : Platform).

Definition timer_step (q : Req) (l : list MsgId) : list MsgId :=
  match q with
  | MessageSendLater i _ => l ++ [i]
  | MessageCancelAll i => filter (fun j => j <> i) l
  | _ => l
  end.

Definition timed_serve (q : Req) (e : Env * list MsgId) : Resp q * (Env * list MsgId) :=
  let r := serve q (fst e) in (fst r, (snd r, timer_step q (snd e))).

Definition timed : Platform := {| Env := Env * list MsgId; serve := timed_serve |}.

Definition pending (id : MsgId) (l : list MsgId) : nat := length (filter (fun j => j = id) l).

(** Without its first [id]. *)
Fixpoint drop_first (id : MsgId) (l : list MsgId) : list MsgId :=
  match l with
  | [] => []
  | j :: l => if decide (j = id) then l else j :: drop_first id l
  end.

Lemma pending_app id l l' : pending id (l ++ l') = (pending id l + pending id l')%nat.
Proof. unfold pending. by rewrite filter_app, length_app. Qed.

Lemma pending_cons id j l : pending id (j :: l) = if decide (j = id) then S (pending id l) else pending id l.
Proof. unfold pending. rewrite filter_cons. by destruct (decide (j = id)). Qed.

Lemma pending_cancel i j l : pending j (filter (fun x => x <> i) l) = if decide (i = j) then 0%nat else pending j l.
Proof.
  induction l as [| x l IH]; [by destruct (decide (i = j)) |]. rewrite filter_cons, pending_cons.
  destruct (decide (x = i)) as [-> | Hx]; [rewrite decide_False by auto | rewrite decide_True by done];
    rewrite ?pending_cons, IH; repeat destruct (decide _); congruence.
Qed.

Lemma pending_drop i j l : pending j (drop_first i l) = if decide (i = j) then pred (pending j l) else pending j l.
Proof.
  induction l as [| x l IH]; [by destruct (decide (i = j)) |]. cbn [drop_first]. rewrite (pending_cons j x l).
  destruct (decide (x = i)) as [-> | Hx]; [by destruct (decide (i = j)) |]. rewrite pending_cons, IH.
  destruct (decide (x = j)), (decide (i = j)); congruence.
Qed.

#[global] Instance timed_laws : TimerLaws (H := timed).
Proof.
  refine (Build_TimerLaws timed (fun id (e : Env * list MsgId) => pending id (snd e))
            (fun id (e : Env * list MsgId) => (fst e, drop_first id (snd e))) _ _ _ _).
  - intros i d j e. change (pending j (snd e ++ [i]) = if decide (i = j) then S (pending j (snd e)) else pending j (snd e)).
    rewrite pending_app, pending_cons. change (pending j []) with 0%nat. destruct (decide _); lia.
  - intros i j e. apply pending_cancel.
  - intros q j e Hq. cbn. destruct q; done.
  - intros i j e. apply pending_drop.
Defined.
End timed.
