(* ===== verification/I2c.v ===== *)
(** The I2C master of smart_helmet_i2c.c: two buses over Bitserial, the
    slave address programmed before each transfer, and one retry after a
    change of address.

    The logging of the file has no effect on the state and is left out, as
    everywhere in the drivers.  A buffer is a list, so the tests for a NULL
    pointer with a length have no counterpart. *)
From S2P Require Import Prelude Config Board Platform World.

Section i2c.
Context `{BoardConfig} `{Platform}.

(** * Access to a bus *)
Definition smart_helmet_i2c_bus_count : Z := 2.
Definition bus_of (bus : Z) (w : World) : sh_i2c_bus_state_t :=
  default bus_zero (w_i2c w !! Z.to_nat bus).
Definition bus_get {A} (bus : Z) (f : sh_i2c_bus_state_t -> A) : IO A := gets (fun w => f (bus_of bus w)).
Definition bus_do (bus : Z) (f : sh_i2c_bus_state_t -> sh_i2c_bus_state_t) : IO unit :=
  modify (fun w => w <| w_i2c ::= alter f (Z.to_nat bus) |>).

(** * Pins *)
Definition shI2cSetFunction (pio : Z) (fn : pin_function_id) : IO bool :=
  r ← call (PioSetFunction pio fn);
  if negb r then mret false else mret true.

Definition shI2cUnmapAppsGpio (pio : Z) : IO bool :=
  r ← call (PioSetMapPins32Bank pio false);
  if (r : bool) then mret false else mret true.

Definition shI2cConfigurePios (scl sda block : Z) : IO bool :=
  a ← and_then (shI2cUnmapAppsGpio scl) (shI2cUnmapAppsGpio sda);
  if negb a then mret false else
  let b := if block =? 0 then 0 else 1 in
  r ← shI2cSetFunction scl (BITSERIAL_CLOCK_OUT b);
  if negb r then mret false else
  r ← shI2cSetFunction scl (BITSERIAL_CLOCK_IN b);
  if negb r then mret false else
  r ← shI2cSetFunction sda (BITSERIAL_DATA_OUT b);
  if negb r then mret false else
  r ← shI2cSetFunction sda (BITSERIAL_DATA_IN b);
  if negb r then mret false else
  mret true.

(** * Opening and addressing *)
Definition shI2cOpenHandle (bus addr7 : Z) : IO bool :=
  st ← bus_get bus id;
  h ← call (BitserialOpen (i2c_block st) (i2c_speed_khz st) addr7);
  bus_do bus (fun b => b <| i2c_handle := h |>);;
  match (h : option Z) with
  | None => bus_do bus (fun b => b <| i2c_open := false |>);; mret false
  | Some _ =>
    bus_do bus (fun b => b <| i2c_addr7 := addr7 |> <| i2c_open := true |>);; mret true
  end.

Definition shI2cChangeAddr (bus addr7 : Z) : IO bool :=
  h ← bus_get bus i2c_handle;
  r ← call (BitserialChangeParam h addr7);
  mret (bool_decide ((r : bitserial_result) = BITSERIAL_RESULT_SUCCESS)).

(** Closing and reopening when the address cannot be changed. *)
Definition shI2cReopen (bus addr7 : Z) : IO bool :=
  st ← bus_get bus id;
  call (BitserialClose (i2c_handle st));;
  bus_do bus (fun b => b <| i2c_handle := None |> <| i2c_open := false |> <| i2c_addr7 := 0 |>
    <| i2c_addr_ready := false |>);;
  and_then (shI2cConfigurePios (i2c_scl st) (i2c_sda st) (i2c_block st)) (shI2cOpenHandle bus addr7).

Definition shI2cSetAddr (bus addr7 : Z) : IO bool :=
  st ← bus_get bus id;
  if negb (i2c_open st) then mret false else
  if i2c_addr7 st =? addr7 then mret true else
  c ← shI2cChangeAddr bus addr7;
  ok ← (if negb c then shI2cReopen bus addr7
        else bus_do bus (fun b => b <| i2c_addr7 := addr7 |>);; mret true);
  if negb ok then mret false else
  bus_do bus (fun b => b <| i2c_addr_ready := false |>);; mret true.

Definition shI2cOpenBus (bus block scl sda speed_khz : Z) : IO bool :=
  o ← bus_get bus i2c_open;
  if (o : bool) then mret true else
  bus_do bus (fun b => b <| i2c_block := block |> <| i2c_scl := scl |> <| i2c_sda := sda |>
    <| i2c_speed_khz := speed_khz |> <| i2c_addr7 := 0 |> <| i2c_handle := None |>);;
  p ← shI2cConfigurePios scl sda block;
  if negb p then mret false else shI2cOpenHandle bus 0.

Definition SmartHelmet_I2cInit : IO bool :=
  ok0 ← (if ENABLE_I2C0 then shI2cOpenBus 0 0 I2C0_SCL_PIO I2C0_SDA_PIO I2C0_SPEED_KHZ else mret true);
  ok1 ← (if ENABLE_I2C1 then shI2cOpenBus 1 1 I2C1_SCL_PIO I2C1_SDA_PIO I2C1_SPEED_KHZ else mret true);
  mret (ok1 && ok0).

Definition i2c_close_bus (bus : Z) : IO unit :=
  st ← bus_get bus id;
  when (i2c_open st && bool_decide (is_Some (i2c_handle st)))
    (call (BitserialClose (i2c_handle st));;
     bus_do bus (fun b => b <| i2c_handle := None |> <| i2c_open := false |> <| i2c_addr7 := 0 |>)).

Definition SmartHelmet_I2cClose : IO unit :=
  for_each (seqZ 0 smart_helmet_i2c_bus_count) i2c_close_bus.

(** * Transfers

    [Some rx] is TRUE with the received bytes; [None] is FALSE. *)
Definition shI2cRunXfer (bus : Z) (tx : list Z) (rx_len : Z) : IO (bitserial_result * list Z) :=
  h ← bus_get bus i2c_handle;
  if negb (alen tx =? 0) && negb (rx_len =? 0) then call (BitserialTransfer h tx rx_len)
  else if negb (alen tx =? 0) then r ← call (BitserialWrite h tx); mret ((r : bitserial_result), [])
  else call (BitserialRead h rx_len).

Definition SmartHelmet_I2cTransfer (bus addr7 : Z) (tx : list Z) (rx_len : Z) : IO (option (list Z)) :=
  st ← bus_get bus id;
  if (smart_helmet_i2c_bus_count <=? bus) || negb (i2c_open st) then mret None else
  if (alen tx =? 0) && (rx_len =? 0) then mret (Some []) else
  let prev_addr := i2c_addr7 st in
  s ← shI2cSetAddr bus addr7;
  if negb s then mret None else
  let switched := negb (prev_addr =? addr7) in
  r ← shI2cRunXfer bus tx rx_len;
  ready ← bus_get bus i2c_addr_ready;
  r ← (if bool_decide (fst (r : bitserial_result * list Z) = BITSERIAL_RESULT_I2C_NACK) &&
          (switched || negb ready)
       then shI2cRunXfer bus tx rx_len else mret r);
  bus_do bus (fun b => b <| i2c_addr_ready := true |>);;
  if bool_decide (fst (r : bitserial_result * list Z) = BITSERIAL_RESULT_SUCCESS)
  then mret (Some (snd r)) else mret None.

Definition is_true {A} (o : option A) : bool := match o with Some _ => true | None => false end.

Definition SmartHelmet_I2cWrite (bus addr7 : Z) (tx : list Z) : IO bool :=
  r ← SmartHelmet_I2cTransfer bus addr7 tx 0; mret (is_true r).

Definition SmartHelmet_I2cRead (bus addr7 rx_len : Z) : IO (option (list Z)) :=
  SmartHelmet_I2cTransfer bus addr7 [] rx_len.

Definition SmartHelmet_I2cReadReg (bus addr7 reg rx_len : Z) : IO (option (list Z)) :=
  SmartHelmet_I2cTransfer bus addr7 [reg] rx_len.

Definition SmartHelmet_I2cWriteReg (bus addr7 reg : Z) (tx : list Z) : IO bool :=
  if 16 <? alen tx then mret false else
  r ← SmartHelmet_I2cTransfer bus addr7 (reg :: tx) 0; mret (is_true r).
End i2c.

(** ** Frames: the rest of the world does not change. *)
Section i2c_inv.
Context `{BoardConfig} `{Platform} (P : World -> Prop).
Hypothesis Hc : forall q, plain q = true -> inv P (call q).
Hypothesis Hb : forall b w, P w -> P (w <| w_i2c := b |>).

Lemma inv_bus_do k g : inv P (bus_do k g).
Proof. intros w. apply Hb. Qed.

Lemma inv_bus_get {A} k (g : _ -> A) : inv P (bus_get k g).
Proof. by intros w. Qed.

Ltac i2c_inv := repeat first [keeps_step | apply Hc; reflexivity | apply inv_bus_do | apply inv_bus_get].

Lemma inv_configure scl sda b : inv P (shI2cConfigurePios scl sda b).
Proof. unfold shI2cConfigurePios, shI2cUnmapAppsGpio, shI2cSetFunction. i2c_inv. Qed.

Lemma inv_open_handle k a : inv P (shI2cOpenHandle k a).
Proof. unfold shI2cOpenHandle. i2c_inv. Qed.

Lemma inv_transfer k a tx n : inv P (SmartHelmet_I2cTransfer k a tx n).
Proof.
  pose proof inv_configure. pose proof inv_open_handle.
  unfold SmartHelmet_I2cTransfer, shI2cSetAddr, shI2cChangeAddr, shI2cReopen, shI2cRunXfer. i2c_inv.
Qed.

Lemma inv_i2c_write k a tx : inv P (SmartHelmet_I2cWrite k a tx).
Proof. apply inv_bind; [apply inv_transfer | by intros ? ?]. Qed.

Lemma inv_i2c_write_reg k a r tx : inv P (SmartHelmet_I2cWriteReg k a r tx).
Proof. unfold SmartHelmet_I2cWriteReg. pose proof inv_transfer. i2c_inv. Qed.

Lemma inv_i2c_init : inv P SmartHelmet_I2cInit.
Proof.
  pose proof inv_configure. pose proof inv_open_handle. unfold SmartHelmet_I2cInit, shI2cOpenBus. i2c_inv.
Qed.

Lemma inv_i2c_close : inv P SmartHelmet_I2cClose.
Proof. unfold SmartHelmet_I2cClose, i2c_close_bus. i2c_inv. Qed.
End i2c_inv.

#[export] Hint Extern 2 (inv _ (SmartHelmet_I2cTransfer _ _ _ _)) => apply inv_transfer; side : keeps.
#[export] Hint Extern 2 (inv _ (SmartHelmet_I2cWrite _ _ _)) => apply inv_i2c_write; side : keeps.
#[export] Hint Extern 2 (inv _ (SmartHelmet_I2cRead _ _ _)) => apply inv_transfer; side : keeps.
#[export] Hint Extern 2 (inv _ (SmartHelmet_I2cReadReg _ _ _ _)) => apply inv_transfer; side : keeps.
#[export] Hint Extern 2 (inv _ (SmartHelmet_I2cWriteReg _ _ _ _)) => apply inv_i2c_write_reg; side : keeps.
#[export] Hint Extern 2 (inv _ SmartHelmet_I2cInit) => apply inv_i2c_init; side : keeps.
#[export] Hint Extern 2 (inv _ SmartHelmet_I2cClose) => apply inv_i2c_close; side : keeps.

Ltac as_inv := apply keeps_of_inv; intros ?; solve [eauto with keeps nocore].
#[export] Hint Extern 2 (keeps _ (SmartHelmet_I2cTransfer _ _ _ _)) => as_inv : keeps.
#[export] Hint Extern 2 (keeps _ (SmartHelmet_I2cWrite _ _ _)) => as_inv : keeps.
#[export] Hint Extern 2 (keeps _ (SmartHelmet_I2cRead _ _ _)) => as_inv : keeps.
#[export] Hint Extern 2 (keeps _ (SmartHelmet_I2cReadReg _ _ _ _)) => as_inv : keeps.
#[export] Hint Extern 2 (keeps _ (SmartHelmet_I2cWriteReg _ _ _ _)) => as_inv : keeps.
#[export] Hint Extern 2 (keeps _ SmartHelmet_I2cInit) => as_inv : keeps.
#[export] Hint Extern 2 (keeps _ SmartHelmet_I2cClose) => as_inv : keeps.

(** * Vocabulary of the specifications *)

(** The address that a call programs into handle [h]. *)
Definition call_programs (h : Z) (c : Call) : option Z :=
  match c_req c as q return Resp q -> option Z with
  | BitserialOpen _ _ a => fun r => if bool_decide (r = Some h) then Some a else None
  | BitserialChangeParam h' a => fun r =>
    if bool_decide (h' = Some h) && bool_decide (r = BITSERIAL_RESULT_SUCCESS) then Some a else None
  | _ => fun _ => None
  end (c_resp c).

(** The slave address handle [h] has after the calls of a trace. *)
Fixpoint programmed (h : Z) (t : list Call) : option Z :=
  match t with
  | [] => None
  | c :: t => match call_programs h c with Some a => Some a | None => programmed h t end
  end.

(** A data cycle: the handle, the bytes sent and the number to receive. *)
Definition data_cycle (c : Call) : option (option Z * list Z * Z) :=
  match c_req c with
  | BitserialTransfer h tx n => Some (h, tx, n)
  | BitserialWrite h tx => Some (h, tx, 0)
  | BitserialRead h n => Some (h, [], n)
  | _ => None
  end.

(** What a data cycle answered. *)
Definition cycle_answer (c : Call) : option (bitserial_result * list Z) :=
  match c_req c as q return Resp q -> option (bitserial_result * list Z) with
  | BitserialTransfer _ _ _ => Some
  | BitserialWrite _ _ => fun r => Some (r, [])
  | BitserialRead _ _ => Some
  | _ => fun _ => None
  end (c_resp c).

(** The bytes of the last data cycle, if it succeeded. *)
Definition received (cs : list Call) : option (list Z) :=
  match cs with
  | c :: _ =>
    match cycle_answer c with
    | Some (BITSERIAL_RESULT_SUCCESS, rx) => Some rx
    | _ => None
    end
  | [] => None
  end.

(** The data cycles of a list of calls, the last one first. *)
Definition cycles (l : list Call) : list Call := filter (fun c => is_true (data_cycle c) = true) l.

(** What the theorems need of the platform: a handle belongs to the block it
    was opened for. *)
Class BitserialLaws `{Platform} := {
  handle_block : Z -> Z;
  open_block : forall b s a (e : Env) h, fst (serve (BitserialOpen b s a) e) = Some h -> handle_block h = b;
}.

Section i2c_spec.
Context `{BoardConfig} `{BitserialLaws}.

(** Each data cycle of [l], made after the calls [t], sends [tx] and asks for
    [n] bytes on a handle of bus [k] that has address [addr]. *)
Fixpoint addressed (k addr : Z) (tx : list Z) (n : Z) (l t : list Call) : Prop :=
  match l with
  | [] => True
  | c :: l =>
    match data_cycle c with
    | Some (h, tx', n') =>
      exists i, h = Some i /\ handle_block i = k /\ programmed i (l ++ t) = Some addr /\ tx' = tx /\ n' = n
    | None => True
    end /\ addressed k addr tx n l t
  end.

(** Bus [k]: an open bus has a handle of its block, programmed with the
    address on record. *)
Definition bus_ok (t : list Call) (k : Z) (b : sh_i2c_bus_state_t) : Prop :=
  i2c_open b = true ->
  i2c_block b = k /\
  exists h, i2c_handle b = Some h /\ handle_block h = k /\ programmed h t = Some (i2c_addr7 b).

Definition i2c_ok (w : World) : Prop :=
  length (w_i2c w) = 2%nat /\
  forall k, 0 <= k < 2 -> bus_ok (w_trace w) k (bus_of k w).

(** Calls that carry no data and program handles of block [k] only. *)
Definition neutral (k : Z) (c : Call) : Prop :=
  data_cycle c = None /\ forall h, handle_block h <> k -> call_programs h c = None.

(** From [w] to [w'] only bus [k] changed, to [b], with the calls [l]. *)
Definition upd (k : Z) (w w' : World) (b : sh_i2c_bus_state_t) (l : list Call) : Prop :=
  w_i2c w' = <[Z.to_nat k := b]> (w_i2c w) /\ w_trace w' = l ++ w_trace w /\ Forall (neutral k) l.

Lemma upd_refl k w : (Z.to_nat k < length (w_i2c w))%nat -> upd k w w (bus_of k w) [].
Proof.
  intros Hk. destruct (lookup_lt_is_Some_2 _ _ Hk) as [b Hb]. unfold upd, bus_of. rewrite Hb. cbn.
  by rewrite list_insert_id.
Qed.

Lemma upd_trans k w w1 w2 b1 b2 l1 l2 :
  upd k w w1 b1 l1 -> upd k w1 w2 b2 l2 -> upd k w w2 b2 (l2 ++ l1).
Proof.
  intros (E1 & T1 & N1) (E2 & T2 & N2). split_and!.
  - by rewrite E2, E1, list_insert_insert_eq.
  - by rewrite T2, T1, app_assoc.
  - by apply Forall_app.
Qed.

Lemma upd_bus k w w' b l : (Z.to_nat k < length (w_i2c w))%nat -> upd k w w' b l -> bus_of k w' = b.
Proof. intros Hk (E & _). unfold bus_of. by rewrite E, list_lookup_insert_eq. Qed.

Lemma upd_length k w w' b l : upd k w w' b l -> length (w_i2c w') = length (w_i2c w).
Proof. intros (E & _). by rewrite E, length_insert. Qed.

Lemma programmed_neutral k h l t : handle_block h <> k -> Forall (neutral k) l ->
  programmed h (l ++ t) = programmed h t.
Proof.
  intros Hh. induction 1 as [| c l [_ Hc] Hl IH]; [done |]. cbn [app programmed]. by rewrite Hc.
Qed.

Lemma upd_ok k w w' b l : 0 <= k < 2 -> i2c_ok w -> upd k w w' b l -> bus_ok (w_trace w') k b -> i2c_ok w'.
Proof.
  intros Hk [Hlen Hb] U Hok. split; [by rewrite (upd_length _ _ _ _ _ U) |].
  intros j Hj. destruct (decide (j = k)) as [-> | Hne].
  - rewrite (upd_bus k w w' b l); [done | lia | done].
  - destruct U as (E & T & N). unfold bus_of. rewrite E, list_lookup_insert_ne by lia.
    intros Ho. destruct (Hb j Hj Ho) as (? & h & ? & Hh & Hp). split; [done |]. exists h.
    rewrite T, (programmed_neutral k) by (congruence || done). done.
Qed.

(** Computations that only update bus [k]. *)
Definition updates {A} (k : Z) (m : IO A) (w : World) (Q : A -> sh_i2c_bus_state_t -> list Call -> Prop) : Prop :=
  exists b l, upd k w (run m w) b l /\ Q (eval m w) b l.

Lemma updates_bind {A B} k (m : IO A) (f : A -> IO B) w Q :
  updates k m w (fun x b l => forall w', upd k w w' b l ->
    updates k (f x) w' (fun y b' l' => Q y b' (l' ++ l))) ->
  updates k (m ≫= f) w Q.
Proof.
  intros (b & l & U & H2). destruct (H2 _ U) as (b' & l' & U' & HQ).
  exists b', (l' ++ l). split; [exact (upd_trans _ _ _ _ _ _ _ _ U U') | exact HQ].
Qed.

Lemma updates_mono {A} k (m : IO A) w (Q R : A -> _ -> _ -> Prop) :
  updates k m w Q -> (forall x b l, upd k w (run m w) b l -> Q x b l -> R x b l) -> updates k m w R.
Proof. intros (b & l & U & HQ) HR. exists b, l. auto. Qed.
End i2c_spec.

Section i2c_steps.
Context `{BoardConfig} `{BitserialLaws} (k : Z) (Hk : 0 <= k < 2).

Let len (w : World) : Prop := length (w_i2c w) = 2%nat.

Lemma updates_ret {A} (x : A) w Q : len w -> Q x (bus_of k w) [] -> updates k (mret x) w Q.
Proof. intros Hl HQ. exists (bus_of k w), []. split; [apply upd_refl; unfold len in *; lia | done]. Qed.

Lemma updates_get {A} (f : _ -> A) w Q : len w -> Q (f (bus_of k w)) (bus_of k w) [] -> updates k (bus_get k f) w Q.
Proof. intros Hl HQ. exists (bus_of k w), []. split; [apply upd_refl; unfold len in *; lia | done]. Qed.

Lemma updates_do f w Q : len w -> Q tt (f (bus_of k w)) [] -> updates k (bus_do k f) w Q.
Proof.
  intros Hl HQ. exists (f (bus_of k w)), []. split; [| done]. split; [| done].
  unfold len in Hl. cbn. unfold bus_of. destruct (lookup_lt_is_Some_2 (w_i2c w) (Z.to_nat k)) as [b Hb]; [lia |].
  rewrite Hb. cbn. apply list_eq. intros i. destruct (decide (i = Z.to_nat k)) as [-> | Hne].
  - rewrite list_lookup_alter_eq, list_lookup_insert_eq, Hb by lia. done.
  - by rewrite list_lookup_alter_ne, list_lookup_insert_ne by done.
Qed.

Lemma updates_call q w Q : len w ->
  (forall r, r = fst (serve q (w_env w)) -> neutral k (mkcall q r) /\ Q r (bus_of k w) [mkcall q r]) ->
  updates k (call q) w Q.
Proof.
  intros Hl HQ. destruct (HQ _ eq_refl) as [Hn Hq].
  exists (bus_of k w), [mkcall q (fst (serve q (w_env w)))]. split; [| done].
  destruct (upd_refl k w) as (E & _ & _); [unfold len in *; lia |].
  split; [exact E |]. split; [done | by constructor].
Qed.

Lemma upd_len w w' b l : len w -> upd k w w' b l -> len w'.
Proof. unfold len. intros Hl U. by rewrite (upd_length _ _ _ _ _ U). Qed.

Lemma upd_get w w' b l : len w -> upd k w w' b l -> bus_of k w' = b.
Proof. unfold len. intros Hl U. eapply upd_bus, U. lia. Qed.

(** Computations that touch no bus record and make neutral calls only. *)
Definition quiet {A} (m : IO A) : Prop := forall w,
  w_i2c (run m w) = w_i2c w /\
  exists l, w_trace (run m w) = l ++ w_trace w /\ Forall (neutral k) l.

Lemma quiet_ret {A} (x : A) : quiet (mret x).
Proof. intros w. split; [done |]. by exists []. Qed.

Lemma quiet_bind {A B} (m : IO A) (f : A -> IO B) : quiet m -> (forall x, quiet (f x)) -> quiet (m ≫= f).
Proof.
  intros Hm Hf w. destruct (Hm w) as (E1 & l1 & T1 & N1).
  destruct (Hf (eval m w) (run m w)) as (E2 & l2 & T2 & N2). split; [etransitivity; [exact E2 | exact E1] |].
  exists (l2 ++ l1). split; [| by apply Forall_app].
  change (run (m ≫= f) w) with (run (f (eval m w)) (run m w)). by rewrite T2, T1, app_assoc.
Qed.

Lemma quiet_call q : (forall r, neutral k (mkcall q r)) -> quiet (call q).
Proof. intros Hq w. split; [done |]. exists [mkcall q (fst (serve q (w_env w)))]. split; [done | by constructor]. Qed.

Lemma quiet_configure scl sda block : quiet (shI2cConfigurePios scl sda block).
Proof.
  unfold shI2cConfigurePios, and_then, shI2cUnmapAppsGpio, shI2cSetFunction.
  repeat match goal with
  | |- quiet (_ ≫= _) => apply quiet_bind; [| intros ?]
  | |- quiet (mret _) => apply quiet_ret
  | |- quiet (call _) => apply quiet_call; done
  | |- quiet (if ?b then _ else _) => destruct b
  end.
Qed.

Lemma updates_quiet {A} (m : IO A) w Q : quiet m -> len w ->
  (forall x l, w_trace (run m w) = l ++ w_trace w -> Q x (bus_of k w) l) -> updates k m w Q.
Proof.
  intros Hm Hl HQ. destruct (Hm w) as (E & l & T & N). exists (bus_of k w), l. split; [| by apply HQ].
  destruct (upd_refl k w) as (E' & _); [unfold len in *; lia |]. split_and!; [| done..].
  by rewrite E, <- E'.
Qed.

(** [ustep]: the state after an update, and its bus record. *)
Ltac ustep :=
  let U := fresh "U" in let w' := fresh "w" in intros w' U;
  match type of U with upd k ?w0 _ _ _ =>
    match goal with Hl : len w0 |- _ =>
      let Hl' := fresh "Hl" in pose proof (upd_len _ _ _ _ Hl U) as Hl';
      let E := fresh "E" in pose proof (upd_get _ _ _ _ Hl U) as E
    end
  end.

(** Opening: on success the record has the fresh handle and the address. *)
Definition opened (a : Z) (b : sh_i2c_bus_state_t) (l : list Call) : Prop :=
  i2c_addr7 b = a /\
  exists h, i2c_handle b = Some h /\ handle_block h = k /\ forall t, programmed h (l ++ t) = Some a.

Lemma opened_app a b l l' : opened a b l -> opened a b (l ++ l').
Proof.
  intros (Ha & h & Hh & Hb & Hp). split; [done |]. exists h. split_and!; [done.. |].
  intros t. rewrite <- app_assoc. apply Hp.
Qed.

Lemma opened_ok a b l t : i2c_block b = k -> opened a b l -> bus_ok (l ++ t) k b.
Proof. intros Hb (<- & h & Hh & ? & Hp) _. eauto 10. Qed.

Lemma open_handle_upd a w : len w ->
  i2c_block (bus_of k w) = k ->
  updates k (shI2cOpenHandle k a) w (fun r b l =>
    i2c_open b = r /\ i2c_block b = k /\ (r = true -> opened a b l)).
Proof.
  intros Hl Hb. unfold shI2cOpenHandle. apply updates_bind, updates_get; [done.. |]. ustep.
  apply updates_bind, updates_call; [done.. |]. intros r Hr. split.
  { split; [done |]. intros h Hh. unfold call_programs. cbn. rewrite bool_decide_eq_false_2; [done |].
    intros ->. apply Hh. symmetry in Hr. apply open_block in Hr. unfold id in Hr. congruence. }
  ustep. apply updates_bind, updates_do; [done.. |]. ustep.
  destruct r as [h |]; (apply updates_bind, updates_do; [done.. |]; ustep; apply updates_ret; [done.. |]).
  - rewrite E2, E1, E0, E. cbn. split_and!; [done.. |]. intros _. split; [done |].
    exists h. split_and!; [done | symmetry in Hr; by apply open_block in Hr as -> | ].
    intros t. unfold call_programs. cbn. by rewrite bool_decide_eq_true_2.
  - rewrite E2, E1, E0, E. cbn. done.
Qed.

Lemma reopen_upd a w : len w -> i2c_block (bus_of k w) = k ->
  updates k (shI2cReopen k a) w (fun r b l => i2c_open b = r /\ i2c_block b = k /\ (r = true -> opened a b l)).
Proof.
  intros Hl Hb. unfold shI2cReopen, and_then. apply updates_bind, updates_get; [done.. |]. ustep.
  apply updates_bind, updates_call; [done.. |]. intros r _. split; [done |]. ustep.
  apply updates_bind, updates_do; [done.. |]. ustep.
  apply updates_bind, updates_quiet; [apply quiet_configure | done |]. intros x l _. ustep.
  assert (i2c_block (bus_of k w3) = k) as Hb' by (rewrite E2, E1, E0, E; done).
  destruct x; cbv iota beta.
  - eapply updates_mono; [by apply open_handle_upd |]. intros y b l' _ (Ho & Hbb & Hy).
    split_and!; [done.. |]. intros E'. repeat apply opened_app. by apply Hy.
  - apply updates_ret; [done.. |]. split_and!; [| done..]. rewrite E2, E1. done.
Qed.

Lemma set_addr_upd a w : len w -> bus_ok (w_trace w) k (bus_of k w) ->
  updates k (shI2cSetAddr k a) w (fun r b l =>
    bus_ok (l ++ w_trace w) k b /\ (r = true -> i2c_open b = true /\ i2c_addr7 b = a)).
Proof.
  intros Hl Hok. unfold shI2cSetAddr. apply updates_bind, updates_get; [done.. |]. ustep.
  unfold id. destruct (i2c_open (bus_of k w)) eqn:Ho; cbn [negb]; [| by apply updates_ret; rewrite ?E].
  destruct (Z.eqb_spec (i2c_addr7 (bus_of k w)) a) as [Ha | Ha]; [by apply updates_ret; rewrite ?E |].
  destruct (Hok Ho) as (Hb & h & Hh & Hhb & Hp).
  unfold shI2cChangeAddr. apply updates_bind, updates_bind, updates_get; [done.. |]. ustep.
  apply updates_bind, updates_call; [done.. |]. intros r _. rewrite E, Hh. split.
  { split; [done |]. intros h' Hh'. unfold call_programs. cbn. rewrite bool_decide_eq_false_2; [done |]. congruence. }
  ustep. apply updates_ret; [done.. |]. ustep.
  match goal with |- context [bool_decide ?P] => destruct (bool_decide P) eqn:Hr end; cbn [negb]; apply updates_bind.
  - apply updates_bind, updates_do; [done.. |]. ustep. apply updates_ret; [done.. |]. ustep. cbn [negb].
    apply updates_bind, updates_do; [done.. |]. ustep. apply updates_ret; [done.. |].
    rewrite E5, E4, E3, E2, E1, E0, E. cbn. split; [| done].
    intros _. split; [done |]. exists h. split_and!; [done.. |]. cbn. unfold call_programs. cbn.
    by rewrite bool_decide_eq_true_2, Hr.
  - eapply updates_mono; [apply reopen_upd; [done | by rewrite E2, E1, E0, E] |].
    intros x b l U' (Ho' & Hb' & Hx). clear U'. ustep.
    destruct x; cbn [negb]; [| apply updates_ret; [done.. |]; rewrite E3; split; [unfold bus_ok; congruence | done]].
    apply updates_bind, updates_do; [done.. |]. ustep. apply updates_ret; [done.. |].
    rewrite E4, E3. cbn. destruct (Hx eq_refl) as (Ha' & Hx'). split; [| done].
    intros _. split; [done |]. destruct Hx' as (h' & ? & ? & Hp'). exists h'. split_and!; [done.. |].
    cbn. rewrite <- !app_assoc, Ha'. apply Hp'.
Qed.

Lemma open_bus_upd scl sda speed w : len w -> i2c_ok w ->
  updates k (shI2cOpenBus k k scl sda speed) w (fun _ b l => bus_ok (l ++ w_trace w) k b).
Proof.
  intros Hl Hok. unfold shI2cOpenBus. apply updates_bind, updates_get; [done.. |]. ustep.
  destruct (i2c_open (bus_of k w)) eqn:Ho.
  { apply updates_ret; [done.. |]. rewrite E. apply Hok. lia. }
  apply updates_bind, updates_do; [done.. |]. ustep.
  apply updates_bind, updates_quiet; [apply quiet_configure | done |]. intros x l _. ustep.
  destruct x; cbn [negb].
  - eapply updates_mono; [apply open_handle_upd; [done | by rewrite E1, E0, E] |].
    intros [] b l' _ (Hy & Hb & Hop); [| unfold bus_ok; congruence].
    apply (opened_ok 0); [done |]. repeat apply opened_app. by apply Hop.
  - apply updates_ret; [done.. |]. rewrite E1, E0, E. intros Ho'. cbn in Ho'. congruence.
Qed.

Lemma close_bus_upd w : len w -> i2c_ok w ->
  updates k (i2c_close_bus k) w (fun _ b l => bus_ok (l ++ w_trace w) k b).
Proof.
  intros Hl Hok. unfold i2c_close_bus. apply updates_bind, updates_get; [done.. |]. ustep.
  unfold when. destruct (i2c_open _ && _) eqn:Hc.
  - apply updates_bind, updates_call; [done.. |]. intros r _. split; [done |]. ustep.
    apply updates_do; [done.. |]. rewrite E0, E. by intros Ho.
  - apply updates_ret; [done.. |]. rewrite E. apply Hok. lia.
Qed.

(** One data cycle: the request, its answer, and nothing else. *)
Lemma run_xfer_spec tx n w h :
  i2c_handle (bus_of k w) = Some h -> alen tx <> 0 \/ n <> 0 ->
  let r := eval (shI2cRunXfer k tx n) w in
  let w' := run (shI2cRunXfer k tx n) w in
  w_i2c w' = w_i2c w /\
  exists c, w_trace w' = c :: w_trace w /\ data_cycle c = Some (Some h, tx, n) /\
    cycle_answer c = Some r /\ forall h', call_programs h' c = None.
Proof.
  intros Hh Hn. unfold shI2cRunXfer, bus_get, gets, eval, run, mbind, M_bind, mret, M_ret. cbn [fst snd]. rewrite Hh.
  destruct (Z.eqb_spec (alen tx) 0) as [Ht | Ht], (Z.eqb_spec n 0) as [Hn' | Hn']; cbn [negb andb]; [lia | | |];
    (split; [done |]); eexists; (split; [done |]); cbn; (split; [| done]).
  - unfold alen in Ht. destruct tx; [done | cbn in Ht; lia].
  - by rewrite Hn'.
  - done.
Qed.
End i2c_steps.

(** * The transfer *)
Section i2c_transfer.
Context `{BoardConfig} `{BitserialLaws}.

Lemma updates_ok {A} k (m : IO A) w : 0 <= k < 2 -> i2c_ok w ->
  updates k m w (fun _ b l => bus_ok (l ++ w_trace w) k b) -> i2c_ok (run m w).
Proof. intros Hk Hok (b & l & U & Hb). eapply upd_ok; [done.. |]. destruct U as (_ & -> & _). done. Qed.

Lemma i2c_init_ok : inv i2c_ok SmartHelmet_I2cInit.
Proof.
  assert (forall k scl sda sp, 0 <= k < 2 -> inv i2c_ok (shI2cOpenBus k k scl sda sp)) as Hb.
  { intros * Hk w Hok. apply (updates_ok k); [done.. |]. by apply open_bus_upd; [| apply Hok |]. }
  unfold SmartHelmet_I2cInit. keeps_tac; apply Hb; lia.
Qed.

Lemma i2c_close_ok : inv i2c_ok SmartHelmet_I2cClose.
Proof.
  assert (forall k, 0 <= k < 2 -> inv i2c_ok (i2c_close_bus k)) as Hb.
  { intros k Hk w Hok. apply (updates_ok k); [done.. |]. by apply close_bus_upd; [| apply Hok |]. }
  unfold SmartHelmet_I2cClose. change (seqZ _ _) with [0; 1]. cbn [for_each].
  repeat (apply inv_bind; [apply Hb; lia | intros _]). apply inv_ret.
Qed.

Lemma i2c_start_ok `{HelmetConfig} e : i2c_ok (world_start e).
Proof. split; [done |]. intros k Hk Ho. assert (k = 0 \/ k = 1) as [-> | ->] by lia; done. Qed.

Lemma addressed_neutral k j addr tx n l t : Forall (neutral k) l -> addressed j addr tx n l t.
Proof. induction 1 as [| c l [Hc _] Hl IH]; cbn; [done |]. by rewrite Hc. Qed.

Lemma cycles_neutral k l : Forall (neutral k) l -> cycles l = [].
Proof.
  unfold cycles. induction 1 as [| c l [Hc _] Hl IH]; [done |]. rewrite filter_cons_False; [done |]. by rewrite Hc.
Qed.

Lemma cycles_cons c l d : data_cycle c = Some d -> cycles (c :: l) = c :: cycles l.
Proof. intros Hc. unfold cycles. by rewrite filter_cons_True by (rewrite Hc; done). Qed.

Lemma programs_ok w w' c k h : 0 <= k < 2 -> i2c_ok w -> w_i2c w' = w_i2c w -> w_trace w' = c :: w_trace w ->
  (forall h', call_programs h' c = None) -> i2c_handle (bus_of k w) = Some h ->
  i2c_ok w' /\ i2c_handle (bus_of k w') = Some h /\ bus_of k w' = bus_of k w.
Proof.
  intros Hk [Hl Hb] E T Hc Hh. assert (forall j, bus_of j w' = bus_of j w) as Eb by (intros j; unfold bus_of; by rewrite E).
  split_and!; [split; [by rewrite E |] | by rewrite Eb | by rewrite Eb].
  intros j Hj. rewrite Eb, T. intros Ho. destruct (Hb j Hj Ho) as (? & h' & ? & ? & Hp). split; [done |].
  exists h'. cbn. by rewrite Hc.
Qed.

(** The end of a transfer. *)
Lemma finish_spec bus (r : bitserial_result * list Z) c cs w Q :
  0 <= bus < 2 -> i2c_ok w -> cycle_answer c = Some r ->
  (forall w', i2c_ok w' -> w_trace w' = w_trace w -> Q (received (c :: cs)) w') ->
  wp (bus_do bus (fun b => b <| i2c_addr_ready := true |>);;
      if bool_decide (fst r = BITSERIAL_RESULT_SUCCESS) then mret (Some (snd r)) else mret None) Q w.
Proof.
  intros Hk Hok Hc HQ. apply wp_bind, wp_modify. set (w' := w <| w_i2c ::= _ |>).
  assert (i2c_ok w') as Hok'.
  { destruct (updates_do bus Hk (fun b => b <| i2c_addr_ready := true |>) w
      (fun _ b l => b = (bus_of bus w) <| i2c_addr_ready := true |> /\ l = []) (proj1 Hok)) as (b & l & U & -> & ->);
      [done |].
    eapply upd_ok; [exact Hk | exact Hok | exact U | exact (proj2 Hok bus Hk)]. }
  specialize (HQ w' Hok' eq_refl). unfold received in HQ. rewrite Hc in HQ. destruct r as [[] rx]; exact HQ.
Qed.

(** A transfer: the bus records stay true, the calls are addressed, and the
    result is the answer of the last cycle. *)
Definition transfer_post (bus addr : Z) (tx : list Z) (n : Z) (w : World) (r : option (list Z)) (w' : World) : Prop :=
  i2c_ok w' /\ exists l, w_trace w' = l ++ w_trace w /\ addressed bus addr tx n l (w_trace w) /\ r = received (cycles l) /\
    (cycles l = [] \/ (exists c, cycles l = [c]) \/
     exists c c' rx, cycles l = [c; c'] /\ cycle_answer c' = Some (BITSERIAL_RESULT_I2C_NACK, rx)).

(** From the programmed handle on: one cycle, and another after a NACK. *)
Lemma transfer_cycles bus addr tx n switched w w1 l1 h :
  0 <= bus < 2 -> alen tx <> 0 \/ n <> 0 -> i2c_ok w1 ->
  w_trace w1 = l1 ++ w_trace w -> Forall (neutral bus) l1 -> i2c_handle (bus_of bus w1) = Some h ->
  handle_block h = bus -> programmed h (l1 ++ w_trace w) = Some addr ->
  wp (r ← shI2cRunXfer bus tx n; ready ← bus_get bus i2c_addr_ready;
      r ← (if bool_decide (fst (r : bitserial_result * list Z) = BITSERIAL_RESULT_I2C_NACK) && (switched || negb ready)
           then shI2cRunXfer bus tx n else mret r);
      bus_do bus (fun b => b <| i2c_addr_ready := true |>);;
      if bool_decide (fst (r : bitserial_result * list Z) = BITSERIAL_RESULT_SUCCESS)
      then mret (Some (snd r)) else mret None) (transfer_post bus addr tx n w) w1.
Proof.
  intros Hk Hn Hok1 T1 N1 Hh Hhb Hp. pose proof (cycles_neutral _ _ N1) as C1.
  destruct (run_xfer_spec bus tx n w1 h Hh Hn) as (E2 & c & T2 & D2 & A2 & P2).
  apply wp_bind. unfold wp at 1. fold (run (shI2cRunXfer bus tx n) w1) (eval (shI2cRunXfer bus tx n) w1).
  revert E2 T2 A2. generalize (run (shI2cRunXfer bus tx n) w1) as w2, (eval (shI2cRunXfer bus tx n) w1) as r2.
  intros w2 r2 E2 T2 A2.
  destruct (programs_ok w1 w2 c bus h Hk Hok1 E2 T2 P2 Hh) as (Hok2 & Hh2 & Eb2).
  apply wp_bind, wp_gets. rewrite Eb2.
  assert (addressed bus addr tx n (c :: l1) (w_trace w)) as Hadd.
  { cbn [addressed]. rewrite D2. split; [eauto 8 | by eapply addressed_neutral]. }
  destruct (bool_decide (fst r2 = BITSERIAL_RESULT_I2C_NACK) && _) eqn:Hr.
  - destruct (run_xfer_spec bus tx n w2 h Hh2 Hn) as (E3 & c' & T3 & D3 & A3 & P3).
    apply wp_bind. unfold wp at 1. fold (run (shI2cRunXfer bus tx n) w2) (eval (shI2cRunXfer bus tx n) w2).
    revert E3 T3 A3. generalize (run (shI2cRunXfer bus tx n) w2) as w3, (eval (shI2cRunXfer bus tx n) w2) as r3.
    intros w3 r3 E3 T3 A3.
    destruct (programs_ok w2 w3 c' bus h Hk Hok2 E3 T3 P3 Hh2) as (Hok3 & _ & _).
    apply (finish_spec bus r3 c' (cycles (c :: l1))); [done.. |]. intros w' Hok' T'. split; [done |].
    exists (c' :: c :: l1). rewrite T', T3, T2, T1. split; [done |]. split.
    { cbn [addressed]. rewrite D3. split; [| exact Hadd]. exists h. cbn [app programmed]. rewrite P2. done. }
    rewrite !(cycles_cons _ _ _ D3), !(cycles_cons _ _ _ D2), C1. split; [done |]. right. right.
    apply andb_true_iff in Hr as [Hr _]. apply bool_decide_eq_true in Hr. destruct r2 as [? rx]. cbn in Hr. subst.
    by exists c', c, rx.
  - apply wp_bind, wp_ret. apply (finish_spec bus r2 c []); [done.. |]. intros w' Hok' T'. split; [done |].
    exists (c :: l1). rewrite T', T2, T1, (cycles_cons _ _ _ D2), C1. split_and!; [done.. |]. right. left. by exists c.
Qed.

Lemma transfer_wp bus addr tx n w :
  i2c_ok w -> 0 <= bus < 2 -> alen tx <> 0 \/ n <> 0 ->
  wp (SmartHelmet_I2cTransfer bus addr tx n) (transfer_post bus addr tx n w) w.
Proof.
  intros Hok Hk Hn.
  unfold SmartHelmet_I2cTransfer. apply wp_bind, wp_gets. unfold id, smart_helmet_i2c_bus_count.
  destruct (Z.leb_spec 2 bus); [lia |]. cbn [orb].
  destruct (i2c_open (bus_of bus w)) eqn:Ho; cbn [negb]; [| apply wp_ret; split; [done |]; exists []; split_and!; [done.. | by left]].
  rewrite (proj2 (andb_false_iff _ _)) by (rewrite !Z.eqb_neq; done).
  destruct (set_addr_upd bus Hk addr w (proj1 Hok) (proj2 Hok bus Hk)) as (b1 & l1 & U1 & Hb1 & Hs1).
  apply wp_bind. unfold wp at 1. fold (run (shI2cSetAddr bus addr) w) (eval (shI2cSetAddr bus addr) w).
  revert U1 Hs1. generalize (run (shI2cSetAddr bus addr) w) as w1, (eval (shI2cSetAddr bus addr) w) as s1.
  intros w1 s1 U1 Hs1. destruct (U1) as (_ & T1 & N1).
  assert (i2c_ok w1) as Hok1 by (eapply upd_ok; [exact Hk | exact Hok | exact U1 | by rewrite T1]).
  assert (bus_of bus w1 = b1) as Eb1 by (eapply upd_bus, U1; pose proof (proj1 Hok); lia).
  destruct s1; cbn [negb]; [| apply wp_ret; split; [done |]; exists l1; rewrite (cycles_neutral _ _ N1);
    split_and!; eauto using addressed_neutral].
  destruct (Hs1 eq_refl) as [Ho1 Ha1]. destruct (Hb1 Ho1) as (_ & h & Hh & Hhb & Hp).
  apply (transfer_cycles bus addr tx n _ w w1 l1 h); try done; congruence.
Qed.

(** [C24] A transfer on either bus, whatever the platform answers: every data
    cycle it makes sends exactly the given bytes to a handle of that bus which
    is programmed with the given slave address, the transfer returns what the
    last cycle returned, and there is at most one retry, made after a NACK;
    the records of the buses stay true. *)
Theorem i2c_transfer_addressed bus addr tx n w :
  i2c_ok w -> 0 <= bus < 2 -> alen tx <> 0 \/ n <> 0 ->
  let w' := run (SmartHelmet_I2cTransfer bus addr tx n) w in
  i2c_ok w' /\
  exists l, w_trace w' = l ++ w_trace w /\
    addressed bus addr tx n l (w_trace w) /\
    eval (SmartHelmet_I2cTransfer bus addr tx n) w = received (cycles l) /\
    (cycles l = [] \/ (exists c, cycles l = [c]) \/
     exists c c' rx, cycles l = [c; c'] /\ cycle_answer c' = Some (BITSERIAL_RESULT_I2C_NACK, rx)).
Proof. apply transfer_wp. Qed.
End i2c_transfer.

#[export] Instance bench_laws : @BitserialLaws bench.
Proof. refine (@Build_BitserialLaws bench (fun h => h) _). intros b s a e h Hh. cbn in Hh. congruence. Defined.

#[local] Existing Instances bench shipped shipped_board.

(** The identity register of the accelerometer, read on the bench at the
    second attempt. *)
Lemma i2c_transfer_addressed_witness :
  let w := run SmartHelmet_I2cInit (world_start
    (mkbench [(BITSERIAL_RESULT_I2C_NACK, []); (BITSERIAL_RESULT_SUCCESS, [0x33])] [] 0)) in
  eval (SmartHelmet_I2cReadReg 0 ADDR_LIS3DH 0x0F 1) w = Some [0x33] /\
  i2c_ok (run (SmartHelmet_I2cReadReg 0 ADDR_LIS3DH 0x0F 1) w).
Proof.
  intros w. split; [vm_compute; reflexivity |].
  refine (proj1 (i2c_transfer_addressed 0 ADDR_LIS3DH [0x0F] 1 w _ _ _)).
  - apply i2c_init_ok, i2c_start_ok.
  - lia.
  - right. lia.
Defined.
