(* ===== verification/Stream.v ===== *)
(** The transmit path to the Wi-SUN module (SmartHelmet_UartSend) and the
    telemetry sink that feeds it, used by every component that calls the
    vitals engine. *)
From S2P Require Import Prelude Config Decimal Telemetry Vitals Board Platform World.

Section stream.
Context `{HelmetConfig} `{BoardConfig} `{Platform}.

(** The bytes are claimed, copied and flushed in one piece; they are lost
    when the sink is closed or full. *)
Definition SmartHelmet_UartSend (data : list Z) : IO bool :=
  sink ← uart_get sh_uart_sink;
  if negb sink || (alen data =? 0) then mret false else
  slack ← call SinkSlack;
  if slack <? alen data then mret false else
  offset ← call (SinkClaim (alen data));
  if offset =? 0xffff then mret false else
  snk ← call SinkMap;
  if negb snk then mret false else
  call (SinkFlush offset data).

(** smartHelmetTelemetrySink: a record, then the end of line. *)
Definition smartHelmetTelemetrySink (line : list Z) : IO unit :=
  if alen line =? 0 then mret tt else
  SmartHelmet_UartSend line;; SmartHelmet_UartSend [13; 10];; mret tt.

(** A call of the vitals engine.  The records it hands to the sink go out
    after the call: the sink changes nothing that the engine reads.  A build
    without [ENABLE_VITALS_PROXY] has empty functions for the engine. *)
Definition vit_call (f : vitals -> vitals) : IO unit :=
  if negb ENABLE_VITALS_PROXY then mret tt else
  before ← gets (fun w => telem_out (v_telem (w_vit w)));
  vit_do f;;
  after ← gets (fun w => telem_out (v_telem (w_vit w)));
  for_each (drop (length before) after) smartHelmetTelemetrySink.

(** The same, for a call that returns a value ([stub] in the empty engine). *)
Definition vit_result {A} (stub : A) (f : vitals -> A * vitals) : IO A :=
  if negb ENABLE_VITALS_PROXY then mret stub else
  x ← gets (fun w => fst (f (w_vit w)));
  vit_call (fun v => snd (f v));;
  mret x.

Definition SmartHelmet_WisunSend (data : list Z) : IO bool := SmartHelmet_UartSend data.
End stream.

Section stream_inv.
Context `{HelmetConfig} `{BoardConfig} `{Platform} (P : World -> Prop).
Hypothesis Hc : forall q, inert q = true -> inv P (call q).

Lemma inv_uart_get {A} (g : uart_st -> A) : inv P (uart_get g).
Proof. by intros w. Qed.

Lemma inv_send data : inv P (SmartHelmet_UartSend data).
Proof.
  pose proof (@inv_uart_get). unfold SmartHelmet_UartSend. repeat first [keeps_step | apply Hc; reflexivity].
Qed.

Lemma inv_vit_call g : (forall w, P w -> P (w <| w_vit ::= g |>)) -> inv P (vit_call g).
Proof.
  intros Hv. unfold vit_call, smartHelmetTelemetrySink. pose proof inv_send.
  keeps_step; [apply inv_ret |]. keeps_step; [keeps_tac | intros]. keeps_step; [exact Hv |]. keeps_tac.
Qed.
End stream_inv.

Section vit_call.
Context `{HelmetConfig} `{BoardConfig} `{Platform}.

(** The effect of a vitals call on the engine, and its silence when it
    hands over no record. *)
Lemma vit_call_vit f w : w_vit (run (vit_call f) w) = if ENABLE_VITALS_PROXY then f (w_vit w) else w_vit w.
Proof.
  unfold vit_call, smartHelmetTelemetrySink. destruct ENABLE_VITALS_PROXY; cbn [negb]; [| done]. autorewrite with io. rewrite (run_keeps w_vit); [done |].
  keeps_tac; apply keeps_of_inv; intros ?; apply inv_send; side.
Qed.

Lemma vit_call_silent f w : telem_out (v_telem (f (w_vit w))) = telem_out (v_telem (w_vit w)) ->
  run (vit_call f) w = if ENABLE_VITALS_PROXY then w <| w_vit ::= f |> else w.
Proof.
  intros Ht. unfold vit_call. destruct ENABLE_VITALS_PROXY; cbn [negb]; [| done]. autorewrite with io. unfold vit_do. autorewrite with io. cbn. rewrite Ht.
  by rewrite drop_all.
Qed.
End vit_call.

#[export] Hint Extern 2 (keeps _ (SmartHelmet_UartSend _)) => apply keeps_of_inv; intros ?; apply inv_send; side : keeps.
#[export] Hint Extern 2 (keeps _ (vit_call _)) => apply keeps_of_inv; intros ?; apply inv_vit_call; side : keeps.
