(* ===== verification/Display.v ===== *)
(** The SSD1315 display of smart_helmet_sensors.c: commands and data over
    I2C in chunks, the 5x7 text, and the four status lines with the cache of
    what was drawn last. *)
From S2P Require Import Prelude Config Decimal Board Platform World I2c.

(** * Data *)

(** Columns of the glyphs from the space to Z, the low bit on top. *)
Definition sh_font5x7 : list (list Z) := [
  [0x00; 0x00; 0x00; 0x00; 0x00]; [0x00; 0x00; 0x5F; 0x00; 0x00]; [0x00; 0x07; 0x00; 0x07; 0x00];
  [0x14; 0x7F; 0x14; 0x7F; 0x14]; [0x24; 0x2A; 0x7F; 0x2A; 0x12]; [0x23; 0x13; 0x08; 0x64; 0x62];
  [0x36; 0x49; 0x55; 0x22; 0x50]; [0x00; 0x05; 0x03; 0x00; 0x00]; [0x00; 0x1C; 0x22; 0x41; 0x00];
  [0x00; 0x41; 0x22; 0x1C; 0x00]; [0x14; 0x08; 0x3E; 0x08; 0x14]; [0x08; 0x08; 0x3E; 0x08; 0x08];
  [0x00; 0x50; 0x30; 0x00; 0x00]; [0x08; 0x08; 0x08; 0x08; 0x08]; [0x00; 0x60; 0x60; 0x00; 0x00];
  [0x20; 0x10; 0x08; 0x04; 0x02]; [0x3E; 0x51; 0x49; 0x45; 0x3E]; [0x00; 0x42; 0x7F; 0x40; 0x00];
  [0x42; 0x61; 0x51; 0x49; 0x46]; [0x21; 0x41; 0x45; 0x4B; 0x31]; [0x18; 0x14; 0x12; 0x7F; 0x10];
  [0x27; 0x45; 0x45; 0x45; 0x39]; [0x3C; 0x4A; 0x49; 0x49; 0x30]; [0x01; 0x71; 0x09; 0x05; 0x03];
  [0x36; 0x49; 0x49; 0x49; 0x36]; [0x06; 0x49; 0x49; 0x29; 0x1E]; [0x00; 0x36; 0x36; 0x00; 0x00];
  [0x00; 0x56; 0x36; 0x00; 0x00]; [0x08; 0x14; 0x22; 0x41; 0x00]; [0x14; 0x14; 0x14; 0x14; 0x14];
  [0x00; 0x41; 0x22; 0x14; 0x08]; [0x02; 0x01; 0x51; 0x09; 0x06]; [0x32; 0x49; 0x79; 0x41; 0x3E];
  [0x7E; 0x11; 0x11; 0x11; 0x7E]; [0x7F; 0x49; 0x49; 0x49; 0x36]; [0x3E; 0x41; 0x41; 0x41; 0x22];
  [0x7F; 0x41; 0x41; 0x22; 0x1C]; [0x7F; 0x49; 0x49; 0x49; 0x41]; [0x7F; 0x09; 0x09; 0x09; 0x01];
  [0x3E; 0x41; 0x49; 0x49; 0x7A]; [0x7F; 0x08; 0x08; 0x08; 0x7F]; [0x00; 0x41; 0x7F; 0x41; 0x00];
  [0x20; 0x40; 0x41; 0x3F; 0x01]; [0x7F; 0x08; 0x14; 0x22; 0x41]; [0x7F; 0x40; 0x40; 0x40; 0x40];
  [0x7F; 0x02; 0x0C; 0x02; 0x7F]; [0x7F; 0x04; 0x08; 0x10; 0x7F]; [0x3E; 0x41; 0x41; 0x41; 0x3E];
  [0x7F; 0x09; 0x09; 0x09; 0x06]; [0x3E; 0x41; 0x51; 0x21; 0x5E]; [0x7F; 0x09; 0x19; 0x29; 0x46];
  [0x46; 0x49; 0x49; 0x49; 0x31]; [0x01; 0x01; 0x7F; 0x01; 0x01]; [0x3F; 0x40; 0x40; 0x40; 0x3F];
  [0x1F; 0x20; 0x40; 0x20; 0x1F]; [0x3F; 0x40; 0x38; 0x40; 0x3F]; [0x63; 0x14; 0x08; 0x14; 0x63];
  [0x07; 0x08; 0x70; 0x08; 0x07]; [0x61; 0x51; 0x49; 0x45; 0x43]].

Definition SSD1315_CTRL_CMD : Z := 0x00.
Definition SSD1315_CTRL_DATA : Z := 0x40.
Definition SSD1315_WIDTH : Z := 128.
Definition SSD1315_PAGES : Z := 8.

Definition init_cmds : list Z :=
  [0xAE; 0xD5; 0x80; 0xA8; 0x3F; 0xD3; 0x00; 0x40; 0x8D; 0x14; 0x20; 0x02; 0xA0; 0xC0; 0xDA; 0x12;
   0x81; 0xCF; 0xD9; 0xF1; 0xDB; 0x40; 0xA4; 0xA6; 0x2E; 0xAF].

Section display.
Context `{HelmetConfig} `{BoardConfig} `{Platform}.

(** A list of steps, up to the first that fails. *)
Fixpoint all_m {A} (l : list A) (f : A -> IO bool) : IO bool :=
  match l with
  | [] => mret true
  | x :: l => r ← f x; if negb r then mret false else all_m l f
  end.

(** * Bytes to the panel *)
Definition shSsdBus : Z := if SSD1315_ON_I2C1 then 1 else 0.

Definition shSsdRaw (tx : list Z) : IO bool := SmartHelmet_I2cWrite shSsdBus ADDR_SSD1315 tx.

Definition shSsdCmd (cmd : Z) : IO bool := shSsdRaw [SSD1315_CTRL_CMD; cmd].

(** The loop of shSsdCmdList and shSsdData: at most 16 bytes behind each
    control byte. *)
Fixpoint ssd_chunks (fuel : nat) (ctrl : Z) (data : list Z) (i : Z) : IO bool :=
  match fuel with
  | O => mret true
  | S fuel =>
    if i <? alen data then
      let chunk := u16 (alen data - i) in
      let chunk := if 16 <? chunk then 16 else chunk in
      r ← shSsdRaw (ctrl :: take (Z.to_nat chunk) (drop (Z.to_nat i) data));
      if negb r then mret false else ssd_chunks fuel ctrl data (u16 (i + chunk))
    else mret true
  end.

Definition shSsdCmdList (cmds : list Z) : IO bool := ssd_chunks (S (length cmds)) SSD1315_CTRL_CMD cmds 0.
Definition shSsdData (data : list Z) : IO bool := ssd_chunks (S (length data)) SSD1315_CTRL_DATA data 0.

Definition shSsdSetPageCol (page col : Z) : IO bool :=
  shSsdCmdList [u8 (Z.lor 0xB0 (Z.land page 0x07)); u8 (Z.lor 0x00 (Z.land col 0x0F));
                u8 (Z.lor 0x10 (Z.land (Z.shiftr col 4) 0x0F))].

(** Zeros from column [col] to the end of the page. *)
Fixpoint ssd_zero_row (fuel : nat) (col : Z) : IO bool :=
  match fuel with
  | O => mret true
  | S fuel =>
    if col <? SSD1315_WIDTH then
      let n := u8 (SSD1315_WIDTH - col) in
      let n := if 16 <? n then 16 else n in
      r ← shSsdData (replicate (Z.to_nat n) 0);
      if negb r then mret false else ssd_zero_row fuel (u8 (col + n))
    else mret true
  end.

Definition shSsdClearPage (page : Z) : IO bool :=
  r ← shSsdSetPageCol page 0;
  if negb r then mret false else ssd_zero_row 9 0.

Definition shSsdClear : IO bool := all_m (seqZ 0 SSD1315_PAGES) shSsdClearPage.

(** * Text *)
Definition ssd_glyph (c : Z) : list Z :=
  let ch := if (c <? 0x20) || (0x5A <? c) then 32 else c in
  default [] (sh_font5x7 !! Z.to_nat (ch - 0x20)).

Definition shSsdDrawText (page col : Z) (s : list Z) : IO bool :=
  r ← shSsdSetPageCol page col;
  if negb r then mret false else
  all_m s (fun c =>
    a ← shSsdData (ssd_glyph c);
    if negb a then mret false else
    b ← shSsdData [0];
    if negb b then mret false else mret true).

Definition shSsdInitPanel : IO bool := shSsdCmdList init_cmds.

Definition shSsdShowSplash : IO bool :=
  r ← shSsdClear;
  if negb r then mret false else
  r ← shSsdDrawText 2 28 (chars "SMART HELMET");
  if negb r then mret false else
  r ← shSsdDrawText 4 40 (chars "QCC3044");
  if negb r then mret false else
  r ← shSsdDrawText 6 46 (chars "READY");
  if negb r then mret false else mret true.

Definition shProbeSsd1315 : IO bool := shSsdCmd 0xAE.

Definition shInitSsd1315 : IO bool :=
  r ← shSsdInitPanel;
  if negb r then mret false else
  r ← shSsdShowSplash;
  if negb r then mret false else mret true.

(** * The status lines *)
Definition shStateText (state : Z) : IO (list Z) :=
  match state with
  | 2 => mret (chars "STATE LIMBO")
  | 3 => mret (chars "STATE PWR ON")
  | 4 => mret (chars "STATE PAIR")
  | 5 => c ← call appDeviceIsHandsetConnected;
         if (c : bool) then mret (chars "CONNECTED IDLE") else mret (chars "IDLE")
  | 6 => mret (chars "STATE BUSY")
  | 8 => mret (chars "STATE PWR OFF")
  | 7 => mret (chars "STATE TERM")
  | _ => mret (chars "STATE OFF")
  end.

Definition shStateIsOn (state : Z) : bool :=
  (state =? 3) || (state =? 4) || (state =? 5) || (state =? 6).

Definition shBrText : IO (list Z) :=
  u ← uart_get id;
  if sh_rejoining u then mret (chars "WISUN REJOIN")
  else if ws_online (sh_wisun u) then mret (chars "WISUN ONLINE")
  else if sh_passthrough u then mret (chars "WISUN JOIN")
  else if ws_module_seen (sh_wisun u) || ws_ip_seen (sh_wisun u) || ws_reset_seen (sh_wisun u)
  then mret (chars "WISUN JOIN")
  else mret (chars "WISUN WAIT").

Definition shAudioText : IO (list Z) :=
  c ← call HfpProfile_IsScoActive;
  if (c : bool) then mret (chars "AUDIO CALL") else
  m ← call Av_IsA2dpSinkStreaming;
  if (m : bool) then mret (chars "AUDIO MUSIC") else mret (chars "AUDIO IDLE").

Definition shFmtPct (pct : Z) : list Z :=
  chars "BAT  " ++
  (if 99 <? pct then [49; 48; 48]
   else if 9 <? pct then [32; 48 + pct / 10; 48 + pct mod 10]
   else [32; 32; 48 + pct]) ++ [37].

(** ** The latched failure line *)

(** One device of shLatchInitFail: a separator and three characters, when
    they fit before the terminator of the 16-byte line. *)
Definition latch_name (ok : bool) (name : list Z) (l : list Z) : list Z :=
  if negb ok && (alen l + 4 <=? 15)
  then l ++ (if negb (alen l =? 0) then [32] else []) ++ name else l.

Definition shLatchInitFail : IO unit :=
  s ← data_get id;
  let l := [] in
  let l := if ENABLE_CCS811 then latch_name (ccs811_ok s) (chars "CCS") l else l in
  let l := if ENABLE_HDC1080 then latch_name (hdc1080_ok s) (chars "HDC") l else l in
  let l := if ENABLE_MLX90614 then latch_name (mlx90614_ok s) (chars "MLX") l else l in
  let l := if ENABLE_LIS3DH then latch_name (lis3dh_ok s) (chars "LIS") l else l in
  sens_do (fun s => s <| sh_init_fail_line := l |> <| sh_init_fail_latched := negb (alen l =? 0) |>).

Definition shClearInitFail : IO unit :=
  sens_do (fun s => s <| sh_init_fail_latched := false |> <| sh_init_fail_line := [] |>).

(** ** Switching the panel *)
Definition SmartHelmet_SensorsDisplayOff : IO unit :=
  ok ← data_get ssd1315_ok;
  if negb ok then mret tt else shSsdCmd 0xAE;; mret tt.

Definition SmartHelmet_SensorsDisplayBlank : IO unit :=
  sens_do (fun s => s <| sh_display_blanked := true |> <| sh_oled_have_prev := false |>
    <| sh_oled_prev := [[]; []; []; []] |>);;
  shClearInitFail;;
  ok ← data_get ssd1315_ok;
  if negb ok then mret tt else
  shSsdClear;; shSsdCmdList [0x8D; 0x10; 0xAE];; mret tt.

Definition SmartHelmet_SensorsDisplayOn : IO unit :=
  ok ← data_get ssd1315_ok;
  if negb ok then mret tt else
  sens_do (fun s => s <| sh_display_blanked := false |>);;
  shSsdCmdList [0x8D; 0x14; 0xAF];; mret tt.

Definition SmartHelmet_SensorsDisplayResume : IO unit := SmartHelmet_SensorsDisplayOn.

(** ** Drawing the lines *)

(** The four texts; the lower two depend on the failure latch. *)
Definition status_lines (state : Z) : IO (list (list Z)) :=
  l0 ← shStateText state;
  mv ← call appBatteryGetVoltageInstantaneous;
  pct ← call (Soc_ConvertLevelToPercentage mv);
  let pct := if 99 <=? pct then 100 else pct in
  let l1 := shFmtPct pct in
  s ← sens_get id;
  if sh_init_fail_latched s && shStateIsOn state
  then mret [l0; l1; chars "INIT FAIL"; sh_init_fail_line s]
  else
    l2 ← (if state =? 2 then mret [] else shBrText);
    l3 ← (if state =? 2 then mret [] else shAudioText);
    mret [l0; l1; l2; l3].

(** One line, unless it is on the panel already. *)
Definition draw_line (i : nat) (line : list Z) : IO bool :=
  s ← sens_get id;
  if sh_oled_have_prev s && bool_decide (sh_oled_prev s !! i = Some line) then mret true else
  let page := 2 * Z.of_nat i in
  c ← shSsdClearPage page;
  if negb c then mret false else
  d ← (if alen line =? 0 then mret true else shSsdDrawText page 4 line);
  if negb d then mret false else
  sens_do (fun s => s <| sh_oled_prev ::= <[i := take 15 line]> |>);; mret true.

Definition SmartHelmet_SensorsShowAdcMv (sens_mv co_mv nh3_mv no2_mv : Z) : IO unit :=
  if negb ENABLE_SSD1315 then mret tt else
  state ← hel_get sh_ui_state;
  ok ← data_get ssd1315_ok;
  if negb ok then mret tt else
  blanked ← sens_get sh_display_blanked;
  if blanked || (negb (shStateIsOn state) && negb (state =? 2))
  then SmartHelmet_SensorsDisplayBlank
  else
    SmartHelmet_SensorsDisplayOn;;
    lines ← status_lines state;
    drawn ← all_m (imap pair lines) (fun '(i, l) => draw_line i l);
    if negb drawn then mret tt else
    sens_do (fun s => s <| sh_oled_have_prev := true |>).
End display.

(** * Frames *)

(** The lines fit their 16-byte buffers. *)
Definition display_ok (s : sensors_st) : Prop :=
  alen (sh_init_fail_line s) <= 15 /\ length (sh_oled_prev s) = 4%nat /\
  Forall (fun l => alen l <= 15) (sh_oled_prev s).

(** What the display code does to the statics: the cache and the failure
    line, within their buffers. *)
Definition display_update (g : sensors_st -> sensors_st) : Prop :=
  forall s, sh_sensors (g s) = sh_sensors s /\ sh_probe_task (g s) = sh_probe_task s /\
    sh_log_task (g s) = sh_log_task s /\ sh_probe_try (g s) = sh_probe_try s /\
    sh_accel_fifo (g s) = sh_accel_fifo s /\ log_last_motion (g s) = log_last_motion s /\
    (display_ok s -> display_ok (g s)).

Lemma latch_name_ok ok name l : alen name = 3 -> alen l <= 15 -> alen (latch_name ok name l) <= 15.
Proof.
  intros Hn Hl. unfold latch_name. destruct (negb ok && _) eqn:E; [| done].
  apply andb_true_iff in E as [_ E]. apply Z.leb_le in E. unfold alen in *. rewrite !length_app.
  destruct (negb _); cbn [length]; lia.
Qed.

Section display_inv.
Context `{HelmetConfig} `{BoardConfig} `{Platform} (P : World -> Prop).
Hypothesis Hc : forall q, inert q = true -> inv P (call q).
Hypothesis Hw : forall ctrl data, ctrl = SSD1315_CTRL_CMD \/ ctrl = SSD1315_CTRL_DATA ->
  inv P (SmartHelmet_I2cWrite shSsdBus ADDR_SSD1315 (ctrl :: data)).

Lemma inv_all_m {A} (l : list A) g : (forall x, inv P (g x)) -> inv P (all_m l g).
Proof. intros Hg. induction l; cbn [all_m]; keeps_tac. Qed.

Lemma inv_raw ctrl data : ctrl = SSD1315_CTRL_CMD \/ ctrl = SSD1315_CTRL_DATA -> inv P (shSsdRaw (ctrl :: data)).
Proof. apply Hw. Qed.

Lemma inv_chunks ctrl : ctrl = SSD1315_CTRL_CMD \/ ctrl = SSD1315_CTRL_DATA -> forall n data i, inv P (ssd_chunks n ctrl data i).
Proof.
  intros Hctrl n data. induction n; intros i; cbn [ssd_chunks]; [keeps_tac |]. keeps_step; [| keeps_tac].
  cbv zeta. keeps_step; [by apply inv_raw |]. keeps_tac.
Qed.

Lemma inv_cmds n data i : inv P (ssd_chunks n SSD1315_CTRL_CMD data i).
Proof. apply inv_chunks. by left. Qed.
Lemma inv_data n data i : inv P (ssd_chunks n SSD1315_CTRL_DATA data i).
Proof. apply inv_chunks. by right. Qed.

Lemma inv_clear_page p : inv P (shSsdClearPage p).
Proof.
  assert (forall n c, inv P (ssd_zero_row n c)) as Hz.
  { intros n. pose proof inv_cmds. pose proof inv_data. induction n; intros c; cbn [ssd_zero_row]; unfold shSsdData; keeps_tac. }
  pose proof inv_cmds. pose proof inv_data. unfold shSsdClearPage, shSsdSetPageCol, shSsdCmdList. keeps_tac.
Qed.

Lemma inv_clear : inv P shSsdClear.
Proof. apply inv_all_m, inv_clear_page. Qed.

Lemma inv_draw_text p c s : inv P (shSsdDrawText p c s).
Proof.
  pose proof inv_cmds. pose proof inv_data. unfold shSsdDrawText, shSsdSetPageCol, shSsdCmdList, shSsdData.
  repeat first [keeps_step | apply inv_all_m].
Qed.

Lemma inv_probe_ssd : inv P shProbeSsd1315.
Proof. apply inv_raw. by left. Qed.

Lemma inv_init_ssd : inv P shInitSsd1315.
Proof.
  pose proof inv_cmds. pose proof inv_data. pose proof inv_clear. pose proof inv_draw_text.
  unfold shInitSsd1315, shSsdInitPanel, shSsdCmdList, shSsdShowSplash. keeps_tac.
Qed.

Lemma inv_display_off : inv P SmartHelmet_SensorsDisplayOff.
Proof. pose proof (inv_raw SSD1315_CTRL_CMD [0xAE] (or_introl eq_refl)). unfold SmartHelmet_SensorsDisplayOff, shSsdCmd, data_get, sens_get. keeps_tac. Qed.

Hypothesis Hs : forall g, display_update g -> forall w, P w -> P (w <| w_sens ::= g |>).

(** The updates of the display code. *)
Ltac display_leaf :=
  intros w; apply Hs; intros s; unfold display_ok; cbn; split_and!; try done; intros (Hl & Hn & Hp);
  split_and!; first [done | lia | by repeat constructor | idtac].

Lemma inv_clear_fail : inv P shClearInitFail.
Proof. display_leaf. Qed.

Lemma inv_blank : inv P SmartHelmet_SensorsDisplayBlank.
Proof.
  pose proof inv_cmds. pose proof inv_data. pose proof inv_clear. pose proof inv_clear_fail.
  unfold SmartHelmet_SensorsDisplayBlank, shSsdCmdList, data_get, sens_get.
  repeat first [keeps_step | display_leaf].
Qed.

Lemma inv_display_on : inv P SmartHelmet_SensorsDisplayOn.
Proof.
  pose proof inv_cmds. pose proof inv_data. unfold SmartHelmet_SensorsDisplayOn, shSsdCmdList, data_get, sens_get.
  repeat first [keeps_step | display_leaf].
Qed.

Lemma inv_latch : inv P shLatchInitFail.
Proof.
  unfold shLatchInitFail, data_get, sens_get. keeps_step; [keeps_tac |]. intros s w. apply Hs.
  intros s'. unfold display_ok. cbn. split_and!; try done. intros (_ & Hn & Hp). split_and!; [| done | done].
  assert (forall (b : bool) l l', alen l <= 15 -> (alen l <= 15 -> alen l' <= 15) -> alen (if b then l' else l) <= 15)
    as Hif by (intros []; auto).
  repeat (apply Hif; [| intros; by apply latch_name_ok]). done.
Qed.

Lemma inv_draw_line i l : (i < 4)%nat -> inv P (draw_line i l).
Proof.
  intros Hi. pose proof inv_clear_page. pose proof inv_draw_text. unfold draw_line, sens_get.
  repeat first [keeps_step | display_leaf].
  - by rewrite length_insert.
  - apply Forall_insert; [done |]. unfold alen. rewrite length_take. lia.
Qed.

Lemma status_lines_len st w : length (eval (status_lines st) w) = 4%nat.
Proof.
  unfold status_lines. rewrite !eval_bind. destruct (_ && _); [done |]. rewrite !eval_bind. done.
Qed.

Lemma inv_show a b c d : inv P (SmartHelmet_SensorsShowAdcMv a b c d).
Proof.
  pose proof inv_blank. pose proof inv_display_on.
  assert (forall st, inv P (status_lines st)) as Hl.
  { intros st. unfold status_lines, shStateText, shBrText, shAudioText, sens_get, uart_get.
    repeat first [keeps_step | apply Hc; reflexivity]. }
  assert (forall l, length l = 4%nat -> inv P (all_m (imap pair l) (fun '(i, l) => draw_line i l))) as Hd.
  { intros l Hl4. destruct l as [| l0 [| l1 [| l2 [| l3 []]]]]; try done. unfold compose. cbn [imap all_m].
    unfold compose.
    repeat first [keeps_step | apply inv_draw_line; cbn; lia]. }
  unfold SmartHelmet_SensorsShowAdcMv, hel_get, data_get, sens_get.
  keeps_step; [apply inv_ret |].
  do 3 (keeps_step; [apply inv_gets | intros ?]; try (keeps_step; [apply inv_ret |])).
  keeps_step; [done |]. keeps_step; [done | intros _].
  apply (inv_bind_post _ (fun l => length l = 4%nat)); [apply Hl | intros w _; apply status_lines_len | intros l Hl4].
  keeps_step; [by apply Hd | intros r]. keeps_step; [apply inv_ret | display_leaf].
Qed.
End display_inv.

Ltac display_side :=
  match goal with |- forall _ _, _ -> inv _ (SmartHelmet_I2cWrite _ _ _) => intros ? ? ?; solve [eauto 3 with keeps nocore] | _ => idtac end;
  solve [side | intros ? ? ? Hcs; exact Hcs
        | let Hg := fresh in let w := fresh in let Hw := fresh in
          intros ? Hg w Hw; cbn in *; destruct (Hg (w_sens w)) as (? & ? & ? & ? & ? & ? & _); congruence].
#[export] Hint Extern 2 (inv _ (SmartHelmet_SensorsShowAdcMv _ _ _ _)) => apply inv_show; display_side : keeps.
#[export] Hint Extern 2 (inv _ SmartHelmet_SensorsDisplayBlank) => apply inv_blank; display_side : keeps.
#[export] Hint Extern 2 (inv _ SmartHelmet_SensorsDisplayOn) => apply inv_display_on; display_side : keeps.
#[export] Hint Extern 2 (inv _ SmartHelmet_SensorsDisplayResume) => apply inv_display_on; display_side : keeps.
#[export] Hint Extern 2 (inv _ SmartHelmet_SensorsDisplayOff) => apply inv_display_off; display_side : keeps.
#[export] Hint Extern 2 (inv _ shLatchInitFail) => apply inv_latch; display_side : keeps.
#[export] Hint Extern 2 (inv _ shClearInitFail) => apply inv_clear_fail; display_side : keeps.
#[export] Hint Extern 2 (inv _ shProbeSsd1315) => apply inv_probe_ssd; display_side : keeps.
#[export] Hint Extern 2 (inv _ shInitSsd1315) => apply inv_init_ssd; display_side : keeps.
#[export] Hint Extern 2 (keeps _ (SmartHelmet_SensorsShowAdcMv _ _ _ _)) => as_inv : keeps.
#[export] Hint Extern 2 (keeps _ SmartHelmet_SensorsDisplayBlank) => as_inv : keeps.
#[export] Hint Extern 2 (keeps _ SmartHelmet_SensorsDisplayOn) => as_inv : keeps.
#[export] Hint Extern 2 (keeps _ SmartHelmet_SensorsDisplayResume) => as_inv : keeps.
#[export] Hint Extern 2 (keeps _ SmartHelmet_SensorsDisplayOff) => as_inv : keeps.
#[export] Hint Extern 2 (keeps _ shLatchInitFail) => as_inv : keeps.
#[export] Hint Extern 2 (keeps _ shClearInitFail) => as_inv : keeps.
#[export] Hint Extern 2 (keeps _ shProbeSsd1315) => as_inv : keeps.
#[export] Hint Extern 2 (keeps _ shInitSsd1315) => as_inv : keeps.
