(* ===== verification/Adc.v ===== *)
(** The sequential ADC sampling of smart_helmet_adc.c: the gas scan of four
    channels, the SENS_IN conversion of the vitals path, and their timers. *)
From S2P Require Import Prelude Config Decimal Telemetry Vitals Board Platform World Stream I2c Display.

Section adc.
Context `{HelmetConfig} `{BoardConfig} `{Platform}.

(** * Channels *)
Definition smart_helmet_adc_sens_in : Z := 0.
Definition smart_helmet_adc_co : Z := 1.
Definition smart_helmet_adc_nh3 : Z := 2.
Definition smart_helmet_adc_no2 : Z := 3.
Definition smart_helmet_adc_channel_count : Z := 4.

Definition SENS_IN : vm_adc_source_type := adcsel_led4.

Definition sh_adc_sources : list vm_adc_source_type := [SENS_IN; adcsel_led0; adcsel_led1; adcsel_led2].

Definition adc_source (i : Z) : vm_adc_source_type := nth (Z.to_nat i) sh_adc_sources adcsel_vref_hq_buff.

(** * The vitals path *)
Definition shAdcFeedVitalsSens (mv : Z) : IO unit :=
  if ENABLE_VITALS_PROXY then
    (if ENABLE_VITALS_TIMESTAMP
     then t ← call VmGetTimerTime; vit_call (SmartHelmet_VitalsPushSensInMvAt mv (u32 t))
     else vit_call (SmartHelmet_VitalsPushSensInMv mv));;
    vit_call SmartHelmet_VitalsOnSensSample
  else mret tt.

Definition shAdcSensDropped : IO unit :=
  if ENABLE_VITALS_PROXY then vit_call SmartHelmet_VitalsNoteSensDropped else mret tt.

(** * Requests *)

(** Each conversion is preceded by one of the reference. *)
Definition adc_read (src : vm_adc_source_type) : IO unit :=
  call (AdcReadRequest adcsel_vref_hq_buff);; call (AdcReadRequest src).

Definition shAdcStartSens : IO unit :=
  adc_do (fun a =>
    let a := a <| sh_adc_mode := sh_adc_mode_sens |> <| sh_adc_index := smart_helmet_adc_sens_in |> in
    if ENABLE_SENS_OVERSAMPLE then a <| sh_sens_os_n := 0 |> <| sh_sens_os_acc := 0 |> else a);;
  adc_read SENS_IN.

Definition SmartHelmet_AdcRequestSensIn : IO unit :=
  a ← adc_get id;
  if negb (sh_adc_task a) then mret tt else
  if negb (bool_decide (sh_adc_mode a = sh_adc_mode_idle)) then
    (if ADC_SENS_PRIORITY then shAdcSensDropped
     else adc_do (fun a => a <| sh_sens_pending := true |>))
  else shAdcStartSens.

Definition shAdcRequestNextFull : IO unit :=
  a ← adc_get id;
  if smart_helmet_adc_channel_count <=? sh_adc_index a then
    adc_do (fun a => a <| sh_adc_mode := sh_adc_mode_idle |>);;
    let mv := adc_millivolts a in
    SmartHelmet_SensorsShowAdcMv (aget mv smart_helmet_adc_sens_in) (aget mv smart_helmet_adc_co)
      (aget mv smart_helmet_adc_nh3) (aget mv smart_helmet_adc_no2);;
    pending ← adc_get sh_sens_pending;
    when (negb ADC_SENS_PRIORITY && pending)
      (adc_do (fun a => a <| sh_sens_pending := false |>);; SmartHelmet_AdcRequestSensIn)
  else adc_read (adc_source (sh_adc_index a)).

Definition SmartHelmet_AdcRequestScan : IO unit :=
  a ← adc_get id;
  if negb (sh_adc_task a) then mret tt else
  if negb (bool_decide (sh_adc_mode a = sh_adc_mode_idle)) then mret tt else
  adc_do (fun a => a <| sh_adc_mode := sh_adc_mode_full |> <| sh_adc_index := 0 |>);;
  shAdcRequestNextFull.

(** * Start and stop *)
Definition SmartHelmet_AdcInit (client_task : bool) : IO unit :=
  adc_do (fun a =>
    let a := a <| sh_adc_task := client_task |> <| sh_adc_index := 0 |> <| sh_adc_mode := sh_adc_mode_idle |>
      <| sh_adc_vref_mv := 0 |> <| sh_sens_pending := false |> in
    let a := if ENABLE_SENS_OVERSAMPLE then a <| sh_sens_os_n := 0 |> <| sh_sens_os_acc := 0 |> else a in
    a <| adc_millivolts := [0; 0; 0; 0] |> <| adc_valid := [0; 0; 0; 0] |>);;
  when client_task
    (call (MessageCancelAll ADC_INTERNAL_TRIGGER);;
     call (MessageCancelAll ADC_SENS_TRIGGER);;
     call (MessageSendLater ADC_INTERNAL_TRIGGER ADC_PERIOD_MS);;
     when ENABLE_VITALS_PROXY (call (MessageSendLater ADC_SENS_TRIGGER ADC_SENS_PERIOD_MS))).

Definition SmartHelmet_AdcStop : IO unit :=
  task ← adc_get sh_adc_task;
  when task (call (MessageCancelAll ADC_INTERNAL_TRIGGER);; call (MessageCancelAll ADC_SENS_TRIGGER));;
  adc_do (fun a => a <| sh_adc_mode := sh_adc_mode_idle |> <| sh_sens_pending := false |>).

(** * Results *)

(** The reference is 1200 mV; before it was read the raw value stands. *)
Definition scaled_mv (vref reading : Z) : Z :=
  if negb (vref =? 0) then u32 (reading * 1200) / vref else reading.

Definition store_sample (i mv : Z) (a : adc_st) : adc_st :=
  a <| adc_millivolts ::= (fun l => aset l i (u16 mv)) |> <| adc_valid ::= (fun l => aset l i 1) |>.

Definition sens_done (mv : Z) : IO bool :=
  adc_do (fun a => store_sample smart_helmet_adc_sens_in mv a <| sh_adc_mode := sh_adc_mode_idle |>);;
  shAdcFeedVitalsSens (u16 mv);;
  mret true.

Definition sens_result (reading : Z) : IO bool :=
  a ← adc_get id;
  let mv := scaled_mv (sh_adc_vref_mv a) reading in
  if ENABLE_SENS_OVERSAMPLE then
    let acc := u32 (sh_sens_os_acc a + mv) in
    let n := u8 (sh_sens_os_n a + 1) in
    adc_do (fun a => a <| sh_sens_os_acc := acc |> <| sh_sens_os_n := n |>);;
    if n <? SENS_OVERSAMPLE_N then adc_read SENS_IN;; mret true
    else
      adc_do (fun a => a <| sh_sens_os_acc := 0 |> <| sh_sens_os_n := 0 |>);;
      sens_done (acc / n)
  else sens_done mv.

Definition full_result (reading : Z) : IO bool :=
  a ← adc_get id;
  let mv := scaled_mv (sh_adc_vref_mv a) reading in
  adc_do (store_sample (sh_adc_index a) mv);;
  when ((sh_adc_index a =? smart_helmet_adc_sens_in) && negb ADC_SENS_PRIORITY) (shAdcFeedVitalsSens (u16 mv));;
  adc_do (fun a => a <| sh_adc_index ::= (fun i => u8 (i + 1)) |>);;
  shAdcRequestNextFull;;
  mret true.

Definition adc_result (source : vm_adc_source_type) (reading : Z) : IO bool :=
  if bool_decide (source = adcsel_vref_hq_buff)
  then adc_do (fun a => a <| sh_adc_vref_mv := reading |>);; mret true else
  a ← adc_get id;
  if bool_decide (sh_adc_mode a = sh_adc_mode_sens) then
    if negb (bool_decide (source = SENS_IN)) then mret false else sens_result reading
  else if bool_decide (sh_adc_mode a = sh_adc_mode_full) && (sh_adc_index a <? smart_helmet_adc_channel_count) &&
          bool_decide (source = adc_source (sh_adc_index a))
  then full_result reading
  else mret false.

Definition SmartHelmet_AdcHandleMessage (m : Message) : IO bool :=
  match m with
  | MESSAGE_ADC_RESULT source reading => adc_result source reading
  | MsgTimer ADC_INTERNAL_TRIGGER =>
    SmartHelmet_AdcRequestScan;;
    task ← adc_get sh_adc_task;
    when task (call (MessageSendLater ADC_INTERNAL_TRIGGER ADC_PERIOD_MS));;
    mret true
  | MsgTimer ADC_SENS_TRIGGER =>
    when ENABLE_VITALS_PROXY
      (SmartHelmet_AdcRequestSensIn;;
       task ← adc_get sh_adc_task;
       when task (call (MessageSendLater ADC_SENS_TRIGGER ADC_SENS_PERIOD_MS)));;
    mret true
  | _ => mret false
  end.

Definition SmartHelmet_AdcGetLastSample : IO (list Z) := adc_get adc_millivolts.
End adc.

(** * Vocabulary of the specifications *)
Section adc_spec.
Context `{HelmetConfig} `{BoardConfig} `{Platform}.

Definition deliver (ms : list Message) : IO unit :=
  for_each ms (fun m => SmartHelmet_AdcHandleMessage m;; mret tt).

Definition SENS_TICK : Message := MsgTimer ADC_SENS_TRIGGER.
#[global] Instance is_tick_dec m : Decision (m = SENS_TICK).
Proof. destruct m as [[] | | | |]; first [by left | by right]. Defined.

(** The results of a scan from channel [i]: for each channel the reference
    and the reading. *)
Fixpoint scan_script (i : Z) (l : list (Z * Z)) : list Message :=
  match l with
  | [] => []
  | (v, r) :: l =>
    MESSAGE_ADC_RESULT adcsel_vref_hq_buff v :: MESSAGE_ADC_RESULT (adc_source i) r :: scan_script (i + 1) l
  end.

(** What the scan stores. *)
Definition scan_values (l : list (Z * Z)) : list Z := (fun '(v, r) => u16 (scaled_mv v r)) <$> l.

(** * The invariant of the sampler *)
Definition adc_ok (a : adc_st) : Prop :=
  alen (adc_millivolts a) = 4 /\ Forall is_u16 (adc_millivolts a) /\ alen (adc_valid a) = 4 /\
  0 <= sh_adc_index a <= 4 /\ is_u16 (sh_adc_vref_mv a) /\
  0 <= sh_sens_os_n a < SENS_OVERSAMPLE_N /\ is_u32 (sh_sens_os_acc a) /\
  (sh_adc_mode a = sh_adc_mode_full -> sh_adc_index a < 4).

(** * Steps of a scan *)
Lemma adc_read_adc src w : w_adc (run (adc_read src) w) = w_adc w.
Proof. done. Qed.

Lemma adc_read_vit src w : w_vit (run (adc_read src) w) = w_vit w.
Proof. done. Qed.

(** A SENS tick that finds the converter busy is counted, and nothing else. *)
Lemma tick_busy w :
  ADC_SENS_PRIORITY = true -> ENABLE_VITALS_PROXY = true ->
  sh_adc_task (w_adc w) = true -> sh_adc_mode (w_adc w) <> sh_adc_mode_idle ->
  let w' := run (SmartHelmet_AdcHandleMessage SENS_TICK) w in
  w_adc w' = w_adc w /\ w_vit w' = SmartHelmet_VitalsNoteSensDropped (w_vit w).
Proof.
  intros Hp Hv Ht Hm. cbn [SmartHelmet_AdcHandleMessage SENS_TICK]. rewrite Hv.
  unfold SmartHelmet_AdcRequestSensIn, shAdcSensDropped. io. rewrite Ht, Hp, Hv. io.
  rewrite bool_decide_eq_false_2 by done. io.
  rewrite vit_call_silent; [rewrite Hv; cbn; by rewrite Ht | unfold SmartHelmet_VitalsNoteSensDropped; by destruct ENABLE_VITALS_TIMESTAMP].
Qed.

(** The channel the scan waits for, and what it has stored. *)
Definition scanning (i : Z) (v : option Z) (mv ok : list Z) (w : World) : Prop :=
  sh_adc_task (w_adc w) = true /\ sh_adc_mode (w_adc w) = sh_adc_mode_full /\
  sh_adc_index (w_adc w) = i /\ (forall x, v = Some x -> sh_adc_vref_mv (w_adc w) = x) /\
  adc_millivolts (w_adc w) = mv /\ adc_valid (w_adc w) = ok.

Lemma scan_vref i v mv ok x w : scanning i v mv ok w ->
  let w' := run (SmartHelmet_AdcHandleMessage (MESSAGE_ADC_RESULT adcsel_vref_hq_buff x)) w in
  scanning i (Some x) mv ok w' /\ w_vit w' = w_vit w.
Proof. intros (? & ? & ? & ? & ? & ?). split; [split_and!; try done; by intros ? [= ->] | done]. Qed.

Lemma next_full_idle w : smart_helmet_adc_channel_count <= sh_adc_index (w_adc w) ->
  ADC_SENS_PRIORITY = true ->
  let w' := run shAdcRequestNextFull w in
  w_adc w' = (w_adc w) <| sh_adc_mode := sh_adc_mode_idle |> /\ w_vit w' = w_vit w.
Proof.
  intros Hi Hp. unfold shAdcRequestNextFull. io.
  rewrite (proj2 (Z.leb_le _ _)) by done. io. rewrite Hp. io. split.
  - rewrite (run_keeps w_adc); [done |]. keeps_tac.
  - rewrite (run_keeps w_vit); [done |]. keeps_tac.
Qed.

Lemma scan_channel i v mv ok r w :
  ADC_SENS_PRIORITY = true -> 0 <= i < 4 -> scanning i (Some v) mv ok w ->
  let w' := run (SmartHelmet_AdcHandleMessage (MESSAGE_ADC_RESULT (adc_source i) r)) w in
  let mv' := aset mv i (u16 (scaled_mv v r)) in
  let ok' := aset ok i 1 in
  (if i <? 3 then scanning (i + 1) None mv' ok' w'
   else w_adc w' = (w_adc w) <| adc_millivolts := mv' |> <| adc_valid := ok' |> <| sh_adc_index := 4 |>
          <| sh_adc_mode := sh_adc_mode_idle |>) /\
  w_vit w' = w_vit w.
Proof.
  intros Hp Hi (Ht & Hm & Hx & Hv & Hmv & Hok). specialize (Hv v eq_refl).
  cbn [SmartHelmet_AdcHandleMessage]. unfold adc_result.
  assert (adc_source i <> adcsel_vref_hq_buff) as Hs
    by (assert (i = 0 \/ i = 1 \/ i = 2 \/ i = 3) as [-> | [-> | [-> | ->]]] by lia; done).
  rewrite bool_decide_eq_false_2 by done. io. rewrite Hm.
  rewrite bool_decide_eq_false_2, bool_decide_eq_true_2 by done. rewrite Hx.
  unfold smart_helmet_adc_channel_count. rewrite (proj2 (Z.ltb_lt i 4)) by lia.
  rewrite bool_decide_eq_true_2 by done. unfold full_result. io.
  rewrite Hp, andb_false_r. io. rewrite Hx, Hv.
  set (w1 := w <| w_adc ::= _ |> <| w_adc ::= _ |>).
  assert (w_adc w1 = (w_adc w) <| adc_millivolts := aset mv i (u16 (scaled_mv v r)) |> <| adc_valid := aset ok i 1 |>
    <| sh_adc_index := i + 1 |>) as E1.
  { subst w1. unfold store_sample. cbn. rewrite Hx, Hmv, Hok. by rewrite u8_small by rlia. }
  destruct (Z.ltb_spec i 3).
  - unfold shAdcRequestNextFull. io. unfold smart_helmet_adc_channel_count.
    rewrite (proj2 (Z.leb_gt 4 _)) by (rewrite E1; cbn; lia). split; [| done].
    unfold scanning. rewrite adc_read_adc, E1. cbn. done.
  - assert (i = 3) as -> by lia. destruct (next_full_idle w1) as [E2 V2]; [by rewrite E1 | done |].
    by rewrite E2, V2, E1.
Qed.

(** What is left of the script when channel [i] waits for its reference, or
    for its reading after reference [v]. *)
Definition script_left (i : Z) (v : option Z) (l : list (Z * Z)) : list Message :=
  match v with None => scan_script i l | Some _ => tail (scan_script i l) end.

Fixpoint store_all (i : Z) (l : list (Z * Z)) (mv : list Z) : list Z :=
  match l with
  | [] => mv
  | (v, r) :: l => store_all (i + 1) l (aset mv i (u16 (scaled_mv v r)))
  end.

Fixpoint mark_all (i : Z) (l : list (Z * Z)) (ok : list Z) : list Z :=
  match l with [] => ok | _ :: l => mark_all (i + 1) l (aset ok i 1) end.

Lemma scan_go ms : forall i v l mv ok w,
  ADC_SENS_PRIORITY = true -> ENABLE_VITALS_PROXY = true ->
  scanning i v mv ok w -> 0 <= i -> i + Z.of_nat (length l) = 4 -> l <> [] ->
  (forall x, v = Some x -> fst <$> head l = Some x) ->
  filter (fun m => m <> SENS_TICK) ms = script_left i v l -> last ms <> Some SENS_TICK ->
  let w' := run (deliver ms) w in
  adc_millivolts (w_adc w') = store_all i l mv /\ adc_valid (w_adc w') = mark_all i l ok /\
  sh_adc_mode (w_adc w') = sh_adc_mode_idle /\
  w_vit w' = Nat.iter (length (filter (fun m => m = SENS_TICK) ms)) SmartHelmet_VitalsNoteSensDropped (w_vit w).
Proof.
  induction ms as [| m ms IH]; intros i v l mv ok w Hp Hpx Hs Hi Hl Hne Hv Hms Hlast w'.
  { destruct l as [| [x r] l]; [done |]. by destruct v. }
  assert (last ms <> Some SENS_TICK) as Hlast' by (destruct ms; [done | exact Hlast]).
  subst w'. unfold deliver in *. cbn [for_each]. io.
  destruct (decide (m = SENS_TICK)) as [-> | Hm].
  - destruct (tick_busy w Hp Hpx) as [Ha Hvit]; [apply Hs | by destruct Hs as (_ & -> & _) |].
    rewrite filter_cons_True by done. rewrite filter_cons_False in Hms by tauto. cbn [length].
    rewrite Nat.iter_succ_r, <- Hvit. apply (IH i v l mv ok); try done. unfold scanning. by rewrite Ha.
  - rewrite filter_cons_True in Hms by done. rewrite (filter_cons_False (fun m => m = SENS_TICK)) by done.
    destruct l as [| [x r] l]; [done |]. cbn [length] in Hl. destruct v as [y |]; cbn [script_left scan_script tail] in Hms; injection Hms as -> Hms.
    + specialize (Hv y eq_refl). injection Hv as ->.
      destruct (scan_channel i y mv ok r w) as [Hs' Hvit]; [done | lia | done |]. rewrite <- Hvit. cbn [store_all mark_all].
      destruct (Z.ltb_spec i 3).
      * apply (IH (i + 1) None l); try done; [lia | lia | by destruct l; [cbn in Hl; lia |]].
      * assert (l = []) as -> by (destruct l; [done | cbn in Hl; lia]). cbn in Hms.
        assert (ms = []) as ->.
        { destruct ms as [| m' ms]; [done |]. exfalso. clear -Hms Hlast'.
          assert (Forall (fun m => m = SENS_TICK) (m' :: ms)) as Hall.
          { apply Forall_forall. intros z Hz. destruct (decide (z = SENS_TICK)) as [| n]; [done |].
            assert (z ∈ filter (fun m => m <> SENS_TICK) (m' :: ms)) as Hin by (by apply list_elem_of_filter).
            rewrite Hms in Hin. by apply elem_of_nil in Hin. }
          destruct (last (m' :: ms)) eqn:E; [| by apply last_None in E].
          apply last_Some_elem_of in E. rewrite Forall_forall in Hall. apply Hall in E. congruence. }
        cbn [for_each length filter]. io. by rewrite Hs'.
    + destruct (scan_vref i None mv ok x w Hs) as [Hs' Hvit]. rewrite <- Hvit.
      by apply (IH i (Some x) ((x, r) :: l)).
Qed.

(** [C25] A gas scan reads its four channels in order: with the converter idle,
    whatever SENS ticks arrive between the results, the four stored values are
    the scaled readings of the scan, the converter is idle again, and the
    vitals engine has seen no sample of the scan, only one dropped-sample note
    per tick. *)
Theorem adc_scan_interleaved l ms w :
  ADC_SENS_PRIORITY = true -> ENABLE_VITALS_PROXY = true ->
  adc_ok (w_adc w) -> sh_adc_task (w_adc w) = true -> sh_adc_mode (w_adc w) = sh_adc_mode_idle ->
  length l = 4%nat ->
  filter (fun m => m <> SENS_TICK) ms = scan_script 0 l -> last ms <> Some SENS_TICK ->
  let w' := run (SmartHelmet_AdcRequestScan;; deliver ms) w in
  adc_millivolts (w_adc w') = scan_values l /\ adc_valid (w_adc w') = [1; 1; 1; 1] /\
  sh_adc_mode (w_adc w') = sh_adc_mode_idle /\
  w_vit w' = Nat.iter (length (filter (fun m => m = SENS_TICK) ms)) SmartHelmet_VitalsNoteSensDropped (w_vit w).
Proof.
  intros Hp Hpx (Hm4 & _ & Hv4 & _) Ht Hm Hl Hms Hlast w'. subst w'. io.
  set (w1 := run SmartHelmet_AdcRequestScan w).
  assert (scanning 0 None (adc_millivolts (w_adc w)) (adc_valid (w_adc w)) w1 /\ w_vit w1 = w_vit w) as [Hs <-].
  { subst w1. unfold SmartHelmet_AdcRequestScan. io. rewrite Ht, Hm. io.
    rewrite bool_decide_eq_true_2 by done. io. by unfold scanning. }
  destruct (scan_go ms 0 None l _ _ w1 Hp Hpx Hs) as (E1 & E2 & E3 & E4);
    [lia | lia | by destruct l | done | done | done |].
  rewrite E1, E2. split_and!; try done; clear -Hl Hm4 Hv4;
    (destruct l as [| [v0 r0] [| [v1 r1] [| [v2 r2] [| [v3 r3] [|]]]]]; try done); unfold alen in *.
  - destruct (adc_millivolts _) as [| a [| b [| c [| d [|]]]]]; cbn in Hm4; try lia. done.
  - destruct (adc_valid _) as [| a [| b [| c [| d [|]]]]]; cbn in Hv4; try lia. done.
Qed.

(** * The invariant is kept *)

(** Take the invariant apart, and prove it of an updated record. *)
Ltac adc_rebuild Hok :=
  destruct Hok as (? & ? & ? & ? & ? & ? & ? & ?);
  unfold adc_ok, smart_helmet_adc_sens_in, SENS_OVERSAMPLE_N in *; cbn in *;
  split_and!; try done; try rlia; try apply u32_range.

Definition message_ok (m : Message) : Prop :=
  match m with MESSAGE_ADC_RESULT _ r => is_u16 r | _ => True end.

Lemma feed_adc mv w : w_adc (run (shAdcFeedVitalsSens mv) w) = w_adc w.
Proof. rewrite (run_keeps w_adc); [done |]. unfold shAdcFeedVitalsSens. keeps_tac. Qed.

Lemma start_sens_ok w : adc_ok (w_adc w) -> adc_ok (w_adc (run shAdcStartSens w)).
Proof.
  intros Hok. unfold shAdcStartSens. io. rewrite adc_read_adc.
  destruct ENABLE_SENS_OVERSAMPLE; adc_rebuild Hok.
Qed.

Lemma request_sens_ok w : adc_ok (w_adc w) -> adc_ok (w_adc (run SmartHelmet_AdcRequestSensIn w)).
Proof.
  intros Hok. unfold SmartHelmet_AdcRequestSensIn. io. destruct (sh_adc_task _); io; [| done].
  destruct (bool_decide _) eqn:Hm; io; [by apply start_sens_ok |].
  destruct ADC_SENS_PRIORITY; [| exact Hok]. rewrite (run_keeps w_adc); [done |]. unfold shAdcSensDropped. keeps_tac.
Qed.

Lemma next_full_ok w : let a := w_adc w in
  adc_ok (a <| sh_adc_mode := sh_adc_mode_idle |>) -> adc_ok (w_adc (run shAdcRequestNextFull w)).
Proof.
  intros a Hok. unfold shAdcRequestNextFull. io. unfold smart_helmet_adc_channel_count.
  destruct (Z.leb_spec 4 (sh_adc_index (w_adc w))).
  - io. match goal with |- context [run (SmartHelmet_SensorsShowAdcMv ?x ?y ?z ?t) ?v] =>
      assert (w_adc (run (SmartHelmet_SensorsShowAdcMv x y z t) v) = a <| sh_adc_mode := sh_adc_mode_idle |>) as E
        by (rewrite (run_keeps w_adc); [done | keeps_tac]); revert E;
      generalize (run (SmartHelmet_SensorsShowAdcMv x y z t) v); intros w1 E end.
    rewrite <- E in Hok. destruct (negb ADC_SENS_PRIORITY && _); io; [apply request_sens_ok; exact Hok | done].
  - subst a. rewrite adc_read_adc. adc_rebuild Hok.
Qed.

Lemma request_scan_ok w : adc_ok (w_adc w) -> adc_ok (w_adc (run SmartHelmet_AdcRequestScan w)).
Proof.
  intros Hok. unfold SmartHelmet_AdcRequestScan. io. destruct (sh_adc_task _); io; [| done].
  destruct (bool_decide _) eqn:Hm; io; [| done]. apply next_full_ok. adc_rebuild Hok.
Qed.

Lemma store_ok i mv a : adc_ok a -> adc_ok (store_sample i mv a).
Proof.
  intros Hok. unfold store_sample. adc_rebuild Hok; rewrite ?alen_aset; try done.
  apply aset_Forall; [done | apply u16_range].
Qed.

Lemma sens_done_ok mv w : adc_ok (w_adc w) -> adc_ok (w_adc (run (sens_done mv) w)).
Proof.
  intros Hok. unfold sens_done. io. rewrite feed_adc. apply (store_ok smart_helmet_adc_sens_in mv) in Hok.
  adc_rebuild Hok.
Qed.

Lemma adc_result_ok src r w : is_u16 r -> adc_ok (w_adc w) -> adc_ok (w_adc (run (adc_result src r) w)).
Proof.
  intros Hr Hok. unfold adc_result. destruct (bool_decide (src = _)); io.
  { adc_rebuild Hok. }
  destruct (bool_decide (sh_adc_mode _ = _)) eqn:Hm; io.
  - destruct (negb _); [done |]. unfold sens_result. io. destruct ENABLE_SENS_OVERSAMPLE; [| by apply sens_done_ok].
    io. pose proof (u8_range (sh_sens_os_n (w_adc w) + 1)).
    destruct (Z.ltb_spec (u8 (sh_sens_os_n (w_adc w) + 1)) SENS_OVERSAMPLE_N); io.
    + rewrite adc_read_adc. adc_rebuild Hok.
    + apply sens_done_ok. adc_rebuild Hok.
  - destruct (_ && _) eqn:Hc; [| done]. apply andb_true_iff in Hc as [Hc _]. apply andb_true_iff in Hc as [_ Hi].
    apply Z.ltb_lt in Hi. unfold smart_helmet_adc_channel_count in Hi.
    unfold full_result. io. apply next_full_ok.
    match goal with |- context [run (when ?c ?m) ?v] =>
      assert (w_adc (run (when c m) v) = w_adc v) as E by (destruct c; [apply feed_adc | done]);
      revert E; generalize (run (when c m) v); intros w1 E end.
    apply (store_ok (sh_adc_index (w_adc w)) (scaled_mv (sh_adc_vref_mv (w_adc w)) r)) in Hok.
    change (store_sample _ _ (w_adc w)) with (w_adc (w <| w_adc ::= store_sample (sh_adc_index (w_adc w))
      (scaled_mv (sh_adc_vref_mv (w_adc w)) r) |>)) in Hok.
    rewrite <- E in Hok. assert (sh_adc_index (w_adc w1) = sh_adc_index (w_adc w)) as Ei by (by rewrite E).
    adc_rebuild Hok; rewrite u8_small by rlia; lia.
Qed.

Lemma adc_message_ok m : message_ok m -> inv (fun w => adc_ok (w_adc w)) (SmartHelmet_AdcHandleMessage m).
Proof.
  intros Hm w Hok. fold (run (SmartHelmet_AdcHandleMessage m) w).
  assert (forall c id d v, w_adc (run (when c (call (MessageSendLater id d))) v) = w_adc v) as Hs by by intros [].
  destruct m as [[] | src r | | |]; try exact Hok; cbn [SmartHelmet_AdcHandleMessage]; io.
  - rewrite Hs. by apply request_scan_ok.
  - destruct ENABLE_VITALS_PROXY; io; [| done]. rewrite Hs. by apply request_sens_ok.
  - by apply adc_result_ok.
Qed.

Lemma adc_init_ok t : inv (fun w => adc_ok (w_adc w)) (SmartHelmet_AdcInit t).
Proof.
  intros w Hok. fold (run (SmartHelmet_AdcInit t) w). unfold SmartHelmet_AdcInit. io.
  rewrite (run_keeps w_adc) by keeps_tac.
  destruct ENABLE_SENS_OVERSAMPLE; adc_rebuild Hok; repeat constructor; rlia.
Qed.

Lemma adc_stop_ok : inv (fun w => adc_ok (w_adc w)) SmartHelmet_AdcStop.
Proof.
  intros w Hok. fold (run SmartHelmet_AdcStop w). unfold SmartHelmet_AdcStop. io.
  destruct (sh_adc_task _); io; adc_rebuild Hok.
Qed.

(** * A sample of the vitals path *)

(** Conversions per sample, and their results. *)
Definition conversions : nat := if ENABLE_SENS_OVERSAMPLE then Z.to_nat SENS_OVERSAMPLE_N else 1.

Fixpoint sens_script (l : list (Z * Z)) : list Message :=
  match l with
  | [] => []
  | (v, r) :: l => MESSAGE_ADC_RESULT adcsel_vref_hq_buff v :: MESSAGE_ADC_RESULT SENS_IN r :: sens_script l
  end.

Definition sens_mean (l : list (Z * Z)) : Z :=
  u16 (sumZ ((fun '(v, r) => scaled_mv v r) <$> l) / Z.of_nat (length l)).

Definition vitals_sample (mv t : Z) (v : vitals) : vitals :=
  SmartHelmet_VitalsOnSensSample
    (if ENABLE_VITALS_TIMESTAMP then SmartHelmet_VitalsPushSensInMvAt mv t v else SmartHelmet_VitalsPushSensInMv mv v).

Lemma scaled_mv_range v r : is_u16 v -> is_u16 r -> 0 <= scaled_mv v r < 2 ^ 27.
Proof.
  intros Hv Hr. unfold scaled_mv. destruct (Z.eqb_spec v 0); cbn [negb]; [rlia |]. unwrap.
  split; [apply Z.div_pos; rlia |]. apply Z.div_lt_upper_bound; rlia.
Qed.

Lemma feed_vit mv w : ENABLE_VITALS_PROXY = true ->
  exists t, w_vit (run (shAdcFeedVitalsSens mv) w) = vitals_sample mv t (w_vit w).
Proof.
  intros Hp. unfold shAdcFeedVitalsSens, vitals_sample. rewrite Hp. destruct ENABLE_VITALS_TIMESTAMP; io.
  - exists (u32 (eval (call VmGetTimerTime) w)). by rewrite !vit_call_vit, Hp.
  - exists 0. by rewrite !vit_call_vit, Hp.
Qed.

(** Waiting for a conversion of a sample, [n] of which have been summed. *)
Definition sampling (n acc : Z) (w : World) : Prop :=
  sh_adc_mode (w_adc w) = sh_adc_mode_sens /\ alen (adc_millivolts (w_adc w)) = 4 /\
  (ENABLE_SENS_OVERSAMPLE = true -> sh_sens_os_n (w_adc w) = n /\ sh_sens_os_acc (w_adc w) = acc).

Lemma sens_vref n acc v w : sampling n acc w ->
  let w' := run (SmartHelmet_AdcHandleMessage (MESSAGE_ADC_RESULT adcsel_vref_hq_buff v)) w in
  sampling n acc w' /\ sh_adc_vref_mv (w_adc w') = v /\ w_vit w' = w_vit w.
Proof. done. Qed.

Lemma sens_done_spec mv w : ENABLE_VITALS_PROXY = true -> alen (adc_millivolts (w_adc w)) = 4 ->
  let w' := run (sens_done mv) w in
  sh_adc_mode (w_adc w') = sh_adc_mode_idle /\ aget (adc_millivolts (w_adc w')) 0 = u16 mv /\
  exists t, w_vit w' = vitals_sample (u16 mv) t (w_vit w).
Proof.
  intros Hp Hl. unfold sens_done. io. rewrite feed_adc. split_and!; [done | |
    match goal with |- context [run (shAdcFeedVitalsSens _) ?v] => exact (feed_vit (u16 mv) v Hp) end].
  cbn. apply aget_aset_eq. unfold smart_helmet_adc_sens_in. lia.
Qed.

(** A conversion that completes the sample, and one that does not. *)
Lemma sens_conversion n acc v r w :
  ENABLE_VITALS_PROXY = true -> sampling n acc w -> sh_adc_vref_mv (w_adc w) = v ->
  0 <= n < Z.of_nat conversions -> 0 <= acc -> is_u32 (acc + scaled_mv v r) -> (ENABLE_SENS_OVERSAMPLE = false -> acc = 0) ->
  let w' := run (SmartHelmet_AdcHandleMessage (MESSAGE_ADC_RESULT SENS_IN r)) w in
  let acc' := acc + scaled_mv v r in
  if n + 1 =? Z.of_nat conversions
  then sh_adc_mode (w_adc w') = sh_adc_mode_idle /\ aget (adc_millivolts (w_adc w')) 0 = u16 (acc' / (n + 1)) /\
       exists t, w_vit w' = vitals_sample (u16 (acc' / (n + 1))) t (w_vit w)
  else sampling (n + 1) acc' w' /\ w_vit w' = w_vit w.
Proof.
  unfold conversions. intros Hp (Hm & Hl & Hos) Hv Hn Ha Hu Hacc. cbn [SmartHelmet_AdcHandleMessage].
  unfold adc_result. rewrite bool_decide_eq_false_2 by done. io. rewrite Hm, !bool_decide_eq_true_2 by done. io.
  unfold sens_result. io. rewrite Hv. destruct ENABLE_SENS_OVERSAMPLE.
  - destruct (Hos eq_refl) as [-> ->]. io. change (Z.of_nat (Z.to_nat SENS_OVERSAMPLE_N)) with 4 in *.
    unfold SENS_OVERSAMPLE_N. unwrap. destruct (Z.ltb_spec (n + 1) 4).
    + rewrite (proj2 (Z.eqb_neq (n + 1) 4)) by lia. io. by rewrite adc_read_vit.
    + rewrite (proj2 (Z.eqb_eq (n + 1) 4)) by lia. io. match goal with |- context [run (sens_done ?m) ?v] => exact (sens_done_spec m v Hp Hl) end.
  - specialize (Hacc eq_refl). subst acc. assert (n = 0) as -> by (cbn in Hn; lia). change (0 + 1 =? Z.of_nat 1) with true.
    rewrite Z.add_0_l, Z.div_1_r. exact (sens_done_spec _ w Hp Hl).
Qed.

Lemma sens_go l : forall n acc w,
  ENABLE_VITALS_PROXY = true -> sampling n acc w ->
  0 <= n -> n + Z.of_nat (length l) = Z.of_nat conversions -> l <> [] ->
  Forall (fun '(v, r) => is_u16 v /\ is_u16 r) l ->
  0 <= acc <= n * 2 ^ 27 ->
  let w' := run (deliver (sens_script l)) w in
  let mv := u16 ((acc + sumZ ((fun '(v, r) => scaled_mv v r) <$> l)) / Z.of_nat conversions) in
  sh_adc_mode (w_adc w') = sh_adc_mode_idle /\ aget (adc_millivolts (w_adc w')) 0 = mv /\
  exists t, w_vit w' = vitals_sample mv t (w_vit w).
Proof.
  induction l as [| [v r] l IH]; intros n acc w Hp Hs Hn Hl Hne Hr Ha; [done |].
  apply Forall_cons in Hr as [[Hv Hr0] Hr]. cbn [length] in Hl. cbv zeta.
  assert (Z.of_nat conversions = 1 \/ Z.of_nat conversions = 4) as Hc by (unfold conversions; destruct ENABLE_SENS_OVERSAMPLE; auto).
  unfold deliver in *. cbn [sens_script for_each]. io.
  destruct (sens_vref n acc v w Hs) as (Hs1 & Hv1 & Evit). cbv zeta in *. revert Hs1 Hv1 Evit.
  generalize (run (SmartHelmet_AdcHandleMessage (MESSAGE_ADC_RESULT adcsel_vref_hq_buff v)) w).
  intros w1 Hs1 Hv1 <-. pose proof (scaled_mv_range v r Hv Hr0).
  pose proof (sens_conversion n acc v r w1 Hp Hs1 Hv1) as Hstep. cbv zeta in Hstep.
  rewrite sumZ_fmap_cons, Z.add_assoc. revert Hstep.
  generalize (run (SmartHelmet_AdcHandleMessage (MESSAGE_ADC_RESULT SENS_IN r)) w1). intros w2 Hstep.
  assert (ENABLE_SENS_OVERSAMPLE = false -> acc = 0) as Hacc
    by (intros Ho; unfold conversions in *; rewrite Ho in *; lia).
  specialize (Hstep ltac:(lia) ltac:(lia) ltac:(rlia) Hacc).
  destruct (Z.eqb_spec (n + 1) (Z.of_nat conversions)) as [E | E].
  - assert (l = []) as -> by (destruct l; [done | cbn in Hl; lia]). cbn [sens_script for_each]. io.
    rewrite <- E. cbn [fmap list_fmap sumZ fold_right]. by rewrite Z.add_0_r.
  - destruct Hstep as [Hs2 <-]. apply (IH (n + 1)); [done | done | lia | lia | | done | lia].
    by destruct l; [cbn in Hl; lia |].
Qed.

(** A SENS tick that finds the converter idle takes one sample: as many
    conversions as the build averages, each scaled by the reference read just
    before it, and the vitals engine gets the rounded-down mean exactly once,
    with one notification; the converter is idle again. *)
Theorem adc_sens_sample l w :
  ENABLE_VITALS_PROXY = true -> adc_ok (w_adc w) ->
  sh_adc_task (w_adc w) = true -> sh_adc_mode (w_adc w) = sh_adc_mode_idle ->
  length l = conversions -> Forall (fun '(v, r) => is_u16 v /\ is_u16 r) l ->
  let w' := run (SmartHelmet_AdcHandleMessage SENS_TICK;; deliver (sens_script l)) w in
  sh_adc_mode (w_adc w') = sh_adc_mode_idle /\
  aget (adc_millivolts (w_adc w')) smart_helmet_adc_sens_in = sens_mean l /\
  exists t, w_vit w' = vitals_sample (sens_mean l) t (w_vit w).
Proof.
  intros Hp Hok Ht Hm Hl Hr. cbv zeta. io.
  set (w1 := run (SmartHelmet_AdcHandleMessage SENS_TICK) w).
  assert (sampling 0 0 w1 /\ w_vit w1 = w_vit w) as [Hs <-].
  { subst w1. cbn [SmartHelmet_AdcHandleMessage SENS_TICK]. io. rewrite Hp. io.
    unfold SmartHelmet_AdcRequestSensIn. io. rewrite Ht. io. rewrite Hm, bool_decide_eq_true_2 by done. io.
    unfold shAdcStartSens. io. rewrite adc_read_adc. cbn [w_adc]. unfold sampling.
    destruct Hok as (Hlen & _). destruct ENABLE_SENS_OVERSAMPLE; cbn; by rewrite Ht. }
  assert (l <> []) by (intros ->; unfold conversions in Hl; by destruct ENABLE_SENS_OVERSAMPLE).
  unfold sens_mean. rewrite Hl. unfold smart_helmet_adc_sens_in.
  by apply (sens_go l 0 0 w1); [| | | rewrite Hl | | |].
Qed.
End adc_spec.

(** * Examples on the bench *)
#[local] Existing Instances bench shipped shipped_board.

Definition adc_bench : World := run (SmartHelmet_AdcInit true) (world_start (mkbench [] [] 0)).

Lemma adc_bench_ok : adc_ok (w_adc adc_bench).
Proof. apply adc_init_ok. unfold adc_ok. cbn. split_and!; repeat constructor; rlia. Qed.

(** A scan with two SENS ticks among its results. *)
Lemma adc_scan_interleaved_witness :
  let l := [(1200, 100); (1200, 700); (1199, 800); (1201, 900)] in
  let ms := [SENS_TICK] ++ scan_script 0 (take 2 l) ++ [SENS_TICK] ++ scan_script 2 (drop 2 l) in
  let w := run (SmartHelmet_AdcRequestScan;; deliver ms) adc_bench in
  adc_millivolts (w_adc w) = [100; 700; 800; 899] /\ sens_dropped (w_vit w) = 2.
Proof.
  intros l ms w.
  destruct (adc_scan_interleaved l ms adc_bench) as (E & _ & _ & V);
    [done | done | apply adc_bench_ok | done | done | done | done | done |].
  split; [etransitivity; [exact E | reflexivity] |].
  change (w_vit (run (SmartHelmet_AdcRequestScan;; deliver ms) adc_bench)) with (w_vit w) in V. rewrite V. reflexivity.
Defined.

Lemma adc_sens_sample_witness :
  let w := run (SmartHelmet_AdcHandleMessage SENS_TICK;; deliver (sens_script [(1200, 1650)])) adc_bench in
  sh_adc_mode (w_adc w) = sh_adc_mode_idle /\ aget (adc_millivolts (w_adc w)) 0 = 1650.
Proof.
  destruct (adc_sens_sample [(1200, 1650)] adc_bench) as (E & V & _);
    [done | apply adc_bench_ok | done | done | done | repeat constructor; rlia |].
  split; [exact E | etransitivity; [exact V | reflexivity]].
Defined.
