(* ===== verification/Sensors.v ===== *)
(** The I2C devices of smart_helmet_sensors.c: probing, initialisation,
    conversion of the raw readings, polling, and the retry of the bring-up. *)
From S2P Require Import Prelude Config Decimal Board Platform World I2c Display.

(** * Conversions *)
Section convert.
Context `{BoardConfig}.

(** A byte of a receive buffer. *)
Definition rx (buf : list Z) (i : Z) : Z := u8 (aget buf i).
Definition be16 (buf : list Z) (i : Z) : Z := u16 (Z.lor (Z.shiftl (rx buf i) 8) (rx buf (i + 1))).
Definition le16 (buf : list Z) (i : Z) : Z := u16 (Z.lor (rx buf i) (Z.shiftl (rx buf (i + 1)) 8)).

Definition LIS3DH_FS_BITS : Z :=
  if LIS3DH_FS_G =? 2 then 0x00 else if LIS3DH_FS_G =? 4 then 0x10
  else if LIS3DH_FS_G =? 8 then 0x20 else 0x30.
Definition LIS3DH_MG_PER_LSB : Z :=
  if LIS3DH_FS_G =? 2 then 4 else if LIS3DH_FS_G =? 4 then 8
  else if LIS3DH_FS_G =? 8 then 16 else 48.

Definition shLis3dhRawToMg (lo hi : Z) : Z :=
  let raw := i16 (u16 (Z.lor (Z.shiftl hi 8) lo)) in
  i16 ((raw ÷ 64) * LIS3DH_MG_PER_LSB).

Definition shMlxRawToCentiC (raw : Z) : Z := i16 (raw * 2 - 27315).

(** Hundredths of a degree and of a percent from the HDC1080 registers. *)
Definition hdc_temp (raw_t : Z) : Z := i16 ((raw_t * 16500) ÷ 65536 - 4000).
Definition hdc_humidity (raw_h : Z) : Z := u16 (u32 (raw_h * 10000) / 65536).
End convert.

Section sensors.
Context `{HelmetConfig} `{BoardConfig} `{Platform}.

Definition SmartHelmet_SensorsGetData : IO smart_helmet_sensor_data_t := data_get id.

(** * CCS811 *)
Definition shProbeCcs811 : IO bool :=
  r ← SmartHelmet_I2cReadReg 0 ADDR_CCS811 0x20 1;
  mret (match r with Some id => rx id 0 =? 0x81 | None => false end).

Definition shInitCcs811 : IO bool :=
  SmartHelmet_I2cWriteReg 0 ADDR_CCS811 0xF4 [];;
  SmartHelmet_I2cWriteReg 0 ADDR_CCS811 0x01 [0x10].

(** * HDC1080 *)

(** The first word read after a pointer change is stale and is dropped. *)
Definition shHdcReadU16 (reg : Z) : IO (option Z) :=
  w ← SmartHelmet_I2cWrite 0 ADDR_HDC1080 [reg];
  if negb w then mret None else
  first ← SmartHelmet_I2cRead 0 ADDR_HDC1080 2;
  match first with
  | None => mret None
  | Some _ =>
    buf ← SmartHelmet_I2cRead 0 ADDR_HDC1080 2;
    match buf with
    | None => mret None
    | Some buf => mret (Some (be16 buf 0))
    end
  end.

Definition shProbeHdc1080 : IO bool :=
  manuf ← shHdcReadU16 0xFE;
  devid ← shHdcReadU16 0xFF;
  mret (bool_decide (manuf = Some 0x5449) && bool_decide (devid = Some 0x1050)).

Definition shInitHdc1080 : IO bool := SmartHelmet_I2cWriteReg 0 ADDR_HDC1080 0x02 [0x10; 0x00].

(** * LIS3DH *)
Definition shProbeLis3dh : IO bool :=
  r ← SmartHelmet_I2cReadReg 0 ADDR_LIS3DH 0x0F 1;
  match r with
  | None => mret false
  | Some id => mret (rx id 0 =? 0x33)
  end.

Definition shInitLis3dh : IO bool :=
  let ctrl1 := u8 (Z.lor (Z.shiftl LIS3DH_ODR_SEL 4) 0x07) in
  let ctrl4 := u8 (Z.lor 0x80 LIS3DH_FS_BITS) in
  r ← SmartHelmet_I2cWriteReg 0 ADDR_LIS3DH 0x23 [ctrl4];
  if negb r then mret false else
  f ← (if LIS3DH_USE_FIFO then
         r ← SmartHelmet_I2cWriteReg 0 ADDR_LIS3DH 0x2E [0x80];
         if negb r then mret false else
         r ← SmartHelmet_I2cWriteReg 0 ADDR_LIS3DH 0x24 [0x40];
         if negb r then mret false else mret true
       else mret true);
  if negb f then mret false else
  SmartHelmet_I2cWriteReg 0 ADDR_LIS3DH 0x20 [ctrl1].

Definition accel_of (buf : list Z) : Z * Z * Z :=
  (shLis3dhRawToMg (rx buf 0) (rx buf 1), shLis3dhRawToMg (rx buf 2) (rx buf 3),
   shLis3dhRawToMg (rx buf 4) (rx buf 5)).

Definition set_accel (a : Z * Z * Z) : IO unit :=
  data_do (fun s => s <| lis3dh_x := fst (fst a) |> <| lis3dh_y := snd (fst a) |> <| lis3dh_z := snd a |>).

Definition read_accel : IO (option (list Z)) := SmartHelmet_I2cReadReg 0 ADDR_LIS3DH (Z.lor 0x28 0x80) 6.

(** * MLX90614 *)
Definition MLX90614_RAM_TA : Z := 0x06.
Definition MLX90614_RAM_TOBJ1 : Z := 0x07.

Definition shReadMlx90614 (ram_addr : Z) : IO (option Z) :=
  r ← SmartHelmet_I2cTransfer 0 ADDR_MLX90614 [u8 (Z.lor 0x00 ram_addr)] 3;
  match r with
  | None => mret None
  | Some buf =>
    let raw := le16 buf 0 in
    if (raw =? 0) || (raw =? 0xFFFF) then mret None else mret (Some (shMlxRawToCentiC raw))
  end.

(** * Bring-up of a device *)
Definition bring_up_ccs811 : IO unit :=
  p ← shProbeCcs811;
  when p (r ← shInitCcs811; data_do (fun s => s <| ccs811_ok := r |>)).

Definition bring_up_hdc1080 : IO unit :=
  p ← shProbeHdc1080;
  when p (r ← shInitHdc1080; data_do (fun s => s <| hdc1080_ok := r |>)).

Definition bring_up_lis3dh : IO unit :=
  p ← shProbeLis3dh;
  when p (r ← shInitLis3dh; data_do (fun s => s <| lis3dh_ok := r |>)).

Definition bring_up_mlx90614 : IO unit :=
  r ← shReadMlx90614 MLX90614_RAM_TA;
  match r with
  | Some t => data_do (fun s => s <| ambient_temp_x100 := t |> <| mlx90614_ok := true |>)
  | None => mret tt
  end.

Definition bring_up_ssd1315 : IO unit :=
  r ← and_then shProbeSsd1315 shInitSsd1315;
  when r (data_do (fun s => s <| ssd1315_ok := true |>)).

Definition SmartHelmet_SensorsInit : IO unit :=
  when ENABLE_SSD1315 shClearInitFail;;
  data_do (fun s => s <| ccs811_ok := false |> <| hdc1080_ok := false |> <| lis3dh_ok := false |>
    <| mlx90614_ok := false |> <| ssd1315_ok := false |>);;
  sens_do (fun s => s <| sh_probe_try := 0 |>);;
  when ENABLE_CCS811 bring_up_ccs811;;
  when ENABLE_HDC1080 bring_up_hdc1080;;
  when ENABLE_LIS3DH bring_up_lis3dh;;
  when ENABLE_MLX90614 bring_up_mlx90614;;
  when ENABLE_SSD1315 bring_up_ssd1315.

Definition SmartHelmet_SensorsInitDisplay : IO unit :=
  data_do (fun s => s <| ssd1315_ok := false |>);;
  when ENABLE_SSD1315 bring_up_ssd1315.

(** * The bring-up retry *)

(** Every enabled device is up. *)
Definition required_ok (s : smart_helmet_sensor_data_t) : bool :=
  (negb ENABLE_CCS811 || ccs811_ok s) && (negb ENABLE_HDC1080 || hdc1080_ok s) &&
  (negb ENABLE_MLX90614 || mlx90614_ok s) && (negb ENABLE_LIS3DH || lis3dh_ok s) &&
  (negb ENABLE_SSD1315 || ssd1315_ok s).

Definition shSensorsRequiredOk : IO bool := data_get required_ok.

Definition SmartHelmet_SensorsReady : IO bool := shSensorsRequiredOk.

Definition shSensorsScheduleRetry : IO unit :=
  t ← sens_get sh_probe_task;
  if negb t then mret tt else
  call (MessageCancelAll I2C_PROBE_RETRY);; call (MessageSendLater I2C_PROBE_RETRY I2C_PROBE_RETRY_MS).

Definition cancel_retry : IO unit :=
  t ← sens_get sh_probe_task;
  when t (call (MessageCancelAll I2C_PROBE_RETRY)).

(** A device that is still missing is tried again. *)
Definition retry (enabled : bool) (ok : smart_helmet_sensor_data_t -> bool) (up : IO unit) : IO unit :=
  when enabled (o ← data_get ok; when (negb o) up).

Definition shSensorsVerifyPass : IO unit :=
  sens_do (fun s => s <| sh_probe_try ::= (fun n => u16 (n + 1)) |>);;
  retry ENABLE_CCS811 ccs811_ok bring_up_ccs811;;
  retry ENABLE_HDC1080 hdc1080_ok bring_up_hdc1080;;
  retry ENABLE_LIS3DH lis3dh_ok bring_up_lis3dh;;
  retry ENABLE_MLX90614 mlx90614_ok bring_up_mlx90614;;
  retry ENABLE_SSD1315 ssd1315_ok bring_up_ssd1315;;
  ok ← shSensorsRequiredOk;
  if (ok : bool) then cancel_retry else
  try ← sens_get sh_probe_try;
  if I2C_PROBE_RETRY_MAX <=? try then
    cancel_retry;;
    when ENABLE_SSD1315 shLatchInitFail;;
    SmartHelmet_SensorsShowAdcMv 0 0 0 0
  else shSensorsScheduleRetry.

Definition SmartHelmet_SensorsStartVerify (retry_task : bool) : IO unit :=
  sens_do (fun s => s <| sh_probe_task := retry_task |>);;
  ok ← shSensorsRequiredOk;
  if negb ok then shSensorsScheduleRetry else mret tt.

Definition SmartHelmet_SensorsStopVerify : IO unit :=
  cancel_retry;;
  sens_do (fun s => s <| sh_probe_task := false |>).

(** * Sleep *)
Definition SmartHelmet_SensorsSleep : IO unit :=
  s ← data_get id;
  when (ENABLE_CCS811 && ccs811_ok s)
    (SmartHelmet_I2cWriteReg 0 ADDR_CCS811 0x01 [0];; data_do (fun s => s <| ccs811_ok := false |>));;
  when (ENABLE_LIS3DH && lis3dh_ok s)
    (SmartHelmet_I2cWriteReg 0 ADDR_LIS3DH 0x20 [0];; data_do (fun s => s <| lis3dh_ok := false |>));;
  when ENABLE_HDC1080 (data_do (fun s => s <| hdc1080_ok := false |>));;
  when ENABLE_MLX90614 (data_do (fun s => s <| mlx90614_ok := false |>));;
  shClearInitFail.

(** * Polling *)
Definition poll_ccs811 : IO unit :=
  st ← SmartHelmet_I2cReadReg 0 ADDR_CCS811 0x00 1;
  match st with
  | None => mret tt
  | Some st =>
    if Z.land (rx st 0) 0x08 =? 0 then mret tt else
    r ← SmartHelmet_I2cReadReg 0 ADDR_CCS811 0x02 4;
    match r with
    | None => mret tt
    | Some b => data_do (fun s => s <| ccs811_eco2 := be16 b 0 |> <| ccs811_tvoc := be16 b 2 |>)
    end
  end.

(** Draining the FIFO: [n] samples read so far. *)
Fixpoint drain_fifo (fuel : nat) (available : Z) : IO unit :=
  match fuel with
  | O => mret tt
  | S fuel =>
    n ← sens_get (fun s => Z.of_nat (length (sh_accel_fifo s)));
    if n <? available then
      r ← read_accel;
      match r with
      | None => mret tt
      | Some b => sens_do (fun s => s <| sh_accel_fifo ::= (fun l => l ++ [accel_of b]) |>);; drain_fifo fuel available
      end
    else mret tt
  end.

Definition poll_fifo : IO unit :=
  sens_do (fun s => s <| sh_accel_fifo := [] |>);;
  r ← SmartHelmet_I2cReadReg 0 ADDR_LIS3DH 0x2F 1;
  let available := match r with Some b => Z.land (rx b 0) 0x1F | None => 0 end in
  let available := if LIS3DH_FIFO_BURST <? available then LIS3DH_FIFO_BURST else available in
  drain_fifo (S (Z.to_nat LIS3DH_FIFO_BURST)) available;;
  l ← sens_get sh_accel_fifo;
  match last l with
  | None => mret tt
  | Some a => set_accel a
  end.

Definition poll_single : IO unit :=
  r ← read_accel;
  match r with
  | None => mret tt
  | Some b => set_accel (accel_of b)
  end.

(** [while ((uint32)(now - start) < 20000u) {}] *)
Definition hdc_wait : IO unit :=
  start ← call SystemClockGetTimerTime;
  repeat_m (Z.to_nat 20001) (now ← call SystemClockGetTimerTime; mret (u32 (now - start) <? 20000)).

(** Temperature and humidity of one sample; a zero word is not stored. *)
Definition hdc_store (b : list Z) (s : smart_helmet_sensor_data_t) : smart_helmet_sensor_data_t :=
  let s := if negb (rx b 0 =? 0) || negb (rx b 1 =? 0) then s <| hdc_temp_x100 := hdc_temp (be16 b 0) |> else s in
  if negb (rx b 2 =? 0) || negb (rx b 3 =? 0) then s <| hdc_humidity_x100 := hdc_humidity (be16 b 2) |> else s.

Definition poll_hdc1080 : IO unit :=
  w ← SmartHelmet_I2cWrite 0 ADDR_HDC1080 [0x00];
  if negb w then mret tt else
  hdc_wait;;
  sample ← SmartHelmet_I2cRead 0 ADDR_HDC1080 4;
  match sample with
  | None => mret tt
  | Some sample =>
    second ← SmartHelmet_I2cRead 0 ADDR_HDC1080 4;
    data_do (hdc_store (default sample second))
  end.

Definition poll_mlx90614 : IO unit :=
  ta ← shReadMlx90614 MLX90614_RAM_TA;
  match ta with Some t => data_do (fun s => s <| ambient_temp_x100 := t |>) | None => mret tt end;;
  to ← shReadMlx90614 MLX90614_RAM_TOBJ1;
  match to with Some t => data_do (fun s => s <| object_temp_x100 := t |>) | None => mret tt end.

Definition poll_if (enabled : bool) (ok : smart_helmet_sensor_data_t -> bool) (m : IO unit) : IO unit :=
  when enabled (o ← data_get ok; when o m).

Definition SmartHelmet_SensorsPoll : IO unit :=
  poll_if ENABLE_CCS811 ccs811_ok poll_ccs811;;
  poll_if ENABLE_LIS3DH lis3dh_ok (if LIS3DH_USE_FIFO then poll_fifo else poll_single);;
  poll_if ENABLE_HDC1080 hdc1080_ok poll_hdc1080;;
  poll_if ENABLE_MLX90614 mlx90614_ok poll_mlx90614.

Definition SmartHelmet_SensorsPollLis3dh : IO unit := poll_if ENABLE_LIS3DH lis3dh_ok poll_single.

Definition SmartHelmet_SensorsAccelBurst : IO (list (Z * Z * Z)) :=
  if ENABLE_LIS3DH && LIS3DH_USE_FIFO then sens_get sh_accel_fifo else mret [].
Definition SmartHelmet_SensorsAccelBurstCount : IO Z :=
  l ← SmartHelmet_SensorsAccelBurst; mret (Z.of_nat (length l)).
End sensors.
