(* ===== verification/Text.v ===== *)
(** The recognition of the module's replies in smart_helmet_uart.c: the
    case-insensitive search, the IPv6 test, the status digit and the preview
    of a reply. *)
From S2P Require Import Prelude Decimal.

(** * The search *)

(** Lower case. *)
Definition fold (c : Z) : Z := if (65 <=? c) && (c <=? 90) then u8 (c - 65 + 97) else c.

(** [needle] at position [i]. *)
Definition match_at (data needle : list Z) (i : Z) : bool :=
  forallb (fun j => fold (aget data (i + j)) =? fold (aget needle j)) (seqZ 0 (alen needle)).

Definition shContainsFold (data needle : list Z) : bool :=
  let nlen := alen needle in
  if (nlen =? 0) || (alen data <? nlen) then false
  else existsb (match_at data needle) (seqZ 0 (alen data - nlen + 1)).

(** * Replies *)
Definition is_hex (c : Z) : bool :=
  ((48 <=? c) && (c <=? 57)) || ((97 <=? c) && (c <=? 102)) || ((65 <=? c) && (c <=? 70)).

(** Colons and hexadecimal digits, in 8-bit counters. *)
Definition ipv6_count (data : list Z) : Z * Z :=
  fold_left (fun '(colons, hex) c =>
    if c =? 58 then (u8 (colons + 1), hex)
    else if is_hex c then (colons, u8 (hex + 1)) else (colons, hex)) data (0, 0).

Definition shIpv6Like (data : list Z) : bool :=
  let '(colons, hex) := ipv6_count data in
  (2 <=? colons) && (4 <=? hex) && shContainsFold data (chars "fe80").

Definition digit (c : Z) : bool := (48 <=? c) && (c <=? 57).

(** [while (j < len && !digit) { j++; if (j > i + 12) break; }] *)
Fixpoint status_scan (fuel : nat) (data : list Z) (i j : Z) : Z :=
  match fuel with
  | O => j
  | S fuel =>
    if (j <? alen data) && negb (digit (aget data j)) then
      if i + 12 <? j + 1 then j + 1 else status_scan fuel data i (j + 1)
    else j
  end.

(** The status code to store, if any. *)
Definition shNoteStatus (data : list Z) : option Z :=
  match find (fun i => shContainsFold (drop (Z.to_nat i) data) (chars "state") ||
                       shContainsFold (drop (Z.to_nat i) data) (chars "status"))
             (seqZ 0 (alen data - 6)) with
  | None => None
  | Some i =>
    let j := status_scan 8 data i (i + 6) in
    if (j <? alen data) && digit (aget data j) then Some (u8 (aget data j - 48)) else None
  end.

(** The first 47 characters, line breaks as '|' and spaces as '_'. *)
Definition preview_char (c : Z) : Z :=
  if (c =? 13) || (c =? 10) then 124
  else if c =? 32 then 95
  else if (32 <=? c) && (c <? 127) then c else 46.

Definition shCopyPreview (data : list Z) : list Z := preview_char <$> take 47 data.

Definition printable (data : list Z) : Z :=
  Z.of_nat (length (filter (fun c => (32 <=? c) && (c <? 127) = true) data)).

(** * The search finds the occurrences *)
Lemma fold_lower c : is_u8 c -> is_u8 (fold c).
Proof. unfold fold. destruct (Z.leb_spec 65 c), (Z.leb_spec c 90); cbn [andb]; intros; unwrap; rlia. Qed.

Definition occurs (needle data : list Z) : Prop :=
  exists pre mid post, data = pre ++ mid ++ post /\ (fold <$> mid) = (fold <$> needle).

Lemma match_at_spec data needle i : 0 <= i -> i + alen needle <= alen data ->
  match_at data needle i = true <->
  fold <$> take (length needle) (drop (Z.to_nat i) data) = fold <$> needle.
Proof.
  intros Hi Hl. unfold match_at, alen in *. rewrite forallb_forall.
  assert (length (fold <$> take (length needle) (drop (Z.to_nat i) data)) = length (fold <$> needle)) as Hlen
    by (rewrite !length_fmap, length_take, length_drop; lia).
  assert (forall j, (j < length needle)%nat ->
    take (length needle) (drop (Z.to_nat i) data) !! j = Some (aget data (i + Z.of_nat j))) as Ha.
  { intros j Hj. rewrite lookup_take_lt, lookup_drop by done. unfold aget. rewrite nth_lookup.
    replace (Z.to_nat (i + Z.of_nat j)) with (Z.to_nat i + j)%nat by lia.
    destruct (lookup_lt_is_Some_2 data (Z.to_nat i + j)) as [x ->]; [lia | done]. }
  assert (forall j, (j < length needle)%nat -> needle !! j = Some (aget needle (Z.of_nat j))) as Hb.
  { intros j Hj. unfold aget. rewrite nth_lookup, Nat2Z.id.
    destruct (lookup_lt_is_Some_2 needle j) as [x ->]; [lia | done]. }
  split.
  - intros Hall. apply list_eq. intros j. destruct (Nat.lt_ge_cases j (length needle)) as [Hj |].
    + rewrite !list_lookup_fmap, Ha, Hb by done. cbn. f_equal. apply Z.eqb_eq, Hall.
      apply list_elem_of_In, elem_of_seqZ. lia.
    + rewrite !lookup_ge_None_2; [done | rewrite length_fmap; lia | rewrite Hlen, length_fmap; lia].
  - intros Heq j Hj. apply list_elem_of_In, elem_of_seqZ in Hj. apply Z.eqb_eq.
    assert (Z.to_nat j < length needle)%nat as Hj' by lia.
    pose proof (f_equal (fun l => l !! Z.to_nat j) Heq) as He. cbn in He.
    rewrite !list_lookup_fmap, Ha, Hb in He by done. cbn in He. rewrite Z2Nat.id in He by lia. congruence.
Qed.

(** shContainsFold holds exactly when the text occurs in the data, up to
    letter case, and the text is not empty. *)
Theorem shContainsFold_spec data needle :
  shContainsFold data needle = true <-> needle <> [] /\ occurs needle data.
Proof.
  unfold shContainsFold. destruct (Z.eqb_spec (alen needle) 0) as [E | E]; cbn [orb].
  { split; [done |]. intros [Hn _]. unfold alen in E. destruct needle; [done | cbn in E; lia]. }
  assert (needle <> []) as Hne by (intros ->; done).
  destruct (Z.ltb_spec (alen data) (alen needle)) as [Hlt | Hge].
  { split; [done |]. intros [_ (pre & mid & post & -> & Hm)]. apply (f_equal length) in Hm.
    rewrite !length_fmap in Hm. unfold alen in Hlt. rewrite !length_app in Hlt. lia. }
  rewrite existsb_exists. split.
  - intros (i & Hi & Hm). apply list_elem_of_In, elem_of_seqZ in Hi. apply match_at_spec in Hm; [| lia | lia].
    split; [done |]. exists (take (Z.to_nat i) data), (take (length needle) (drop (Z.to_nat i) data)),
      (drop (length needle) (drop (Z.to_nat i) data)). by rewrite !take_drop.
  - intros [_ (pre & mid & post & -> & Hm)]. exists (alen pre).
    pose proof (f_equal length Hm) as Hlm. rewrite !length_fmap in Hlm. unfold alen in *. rewrite !length_app in Hge.
    assert (Z.of_nat (length pre) + alen needle <= alen (pre ++ mid ++ post))
      by (unfold alen; rewrite !length_app; lia).
    split; [apply list_elem_of_In, elem_of_seqZ; rewrite !length_app; lia |].
    apply match_at_spec; [lia | done |]. rewrite Nat2Z.id, drop_app_length, <- Hlm, take_app_length. done.
Qed.

(** Letter case does not matter. *)
Lemma shContainsFold_witness :
  shContainsFold (chars "<ok>") (chars "OK") = true /\ shContainsFold (chars "") (chars "ok") = false.
Proof. vm_compute. done. Qed.

(** The search for the keyword starts at every position, so the first
    position already matches, and the digit that is stored is the first one
    after the sixth character of the reply, not the one after the keyword. *)
Lemma shNoteStatus_offset : shNoteStatus (chars "net role:2 state:5") = Some 2.
Proof. vm_compute. done. Qed.
