(* ===== verification/Wisun.v ===== *)
(** The Wi-SUN transport of smart_helmet_uart.c: opening and closing the
    stream, the commands to the module, passthrough, the report bookkeeping
    and the rejoin. *)
From S2P Require Import Prelude Config Decimal Telemetry Vitals Board Platform World Stream I2c Display Text.

(** * Steps of the link *)
Definition SH_STEP_RESET : Z := 1.
Definition SH_STEP_CMD : Z := 2.
Definition SH_STEP_DONE : Z := 3.
Definition SH_STEP_PROV_READ : Z := 4.
Definition SH_STEP_PROV_SET : Z := 5.
Definition SH_STEP_DEST : Z := 6.
Definition SH_STEP_PASS : Z := 7.
Definition SH_STEP_LEAVE : Z := 8.

Section wisun.
Context `{HelmetConfig} `{BoardConfig} `{Platform}.

(** * Pins *)
Definition shUartMapPio (pio : Z) (fn : pin_function_id) : IO bool :=
  busy ← (if ENABLE_WISUN_UART then call (PioSetMapPins32Bank pio false) else mret false);
  if (busy : bool) then mret false else call (PioSetFunction pio fn).

Definition shUartReleasePio (pio : Z) : IO unit :=
  when ENABLE_WISUN_UART
    (call (PioSetFunction pio OTHER);; call (PioSetMapPins32Bank pio true);; call (PioSetDir32Bank pio false)).

Definition SmartHelmet_UartResetHold (held : bool) : IO unit :=
  when ENABLE_WISUN_UART
    (call (PioSetFunction WISUN_RESET_PIO OTHER);; call (PioSetMapPins32Bank WISUN_RESET_PIO true);;
     call (PioSetDir32Bank WISUN_RESET_PIO true);; call (PioSet32Bank WISUN_RESET_PIO (negb held))).

(** * Commands *)

(** The command and its end in one frame of at most 48 bytes. *)
Definition shWisunSendProbe (cmd : list Z) : IO unit :=
  ok ← SmartHelmet_UartSend (take 46 cmd ++ [13; 10]);
  wisun_do (fun s => s <| ws_tx_ok := ok |>).

Definition shWisunArm (delay_ms : Z) : IO unit :=
  t ← uart_get sh_uart_task;
  when t (call (MessageCancelAll WISUN_LINK_CHECK);; call (MessageSendLater WISUN_LINK_CHECK delay_ms)).

Definition SmartHelmet_ReportStop : IO unit := call (MessageCancelAll REPORT_TICK).

(** Leaving passthrough: exit, then the step [next] after 400 ms. *)
Definition leave_to (next : Z) : IO unit :=
  uart_do (fun u => u <| sh_leave_next := next |> <| sh_wisun_step := SH_STEP_LEAVE |>);;
  shWisunSendProbe (chars "exit");;
  shWisunArm 400.

Definition leaving (step : Z) : bool :=
  (step =? SH_STEP_LEAVE) || (step =? SH_STEP_DEST) || (step =? SH_STEP_PASS).

(** [was_online] and the notification of the headset state machine. *)
Definition set_offline : IO unit :=
  was ← uart_get (fun u => ws_online (sh_wisun u));
  wisun_do (fun s => s <| ws_online := false |>);;
  when was (call (headsetSmOnWisunBrOnlineChanged false)).

Definition SmartHelmet_UartRejoin : IO unit :=
  t ← call SystemClockGetTimerTime;
  let now := u32 t / 1000 in
  u ← uart_get id;
  if leaving (sh_wisun_step u) then mret tt else
  if negb (sh_rejoin_ms u =? 0) && (u32 (now - sh_rejoin_ms u) <? 60000) then mret tt else
  uart_do (fun u => u <| sh_rejoin_ms := now |> <| sh_rejoining := true |> <| sh_passthrough := false |>);;
  set_offline;;
  uart_do (fun u => u <| sh_send_ok_wait := false |>);;
  SmartHelmet_ReportStop;;
  SmartHelmet_SensorsShowAdcMv 0 0 0 0;;
  leave_to SH_STEP_DEST.

(** The module rejected a burst as a command. *)
Definition shOnCmdTooLong : IO unit :=
  uart_do (fun u => u <| sh_passthrough := false |>);;
  SmartHelmet_ReportStop;;
  u ← uart_get id;
  if (sh_wisun_step u =? SH_STEP_DONE) || (sh_wisun_step u =? 0) then
    if 2 <=? sh_too_long_retry u then mret tt else
    uart_do (fun u => u <| sh_too_long_retry ::= (fun n => u8 (n + 1)) |>);;
    leave_to SH_STEP_DEST
  else mret tt.

(** * Reports *)
Definition SmartHelmet_UartNoteReportSent (ok : bool) : IO unit :=
  if negb ok then set_offline;; SmartHelmet_UartRejoin else
  u ← uart_get id;
  if sh_send_ok_wait u then
    when (sh_missed_ok u <? 12) (uart_do (fun u => u <| sh_missed_ok ::= (fun n => u8 (n + 1)) |>));;
    missed ← uart_get sh_missed_ok;
    when (12 <=? missed) SmartHelmet_UartRejoin
  else uart_do (fun u => u <| sh_send_ok_wait := true |>).

Definition SmartHelmet_UartTakeRestart : IO bool :=
  seen ← uart_get sh_restart_seen;
  uart_do (fun u => u <| sh_restart_seen := false |>);;
  mret seen.

Definition SmartHelmet_UartGetStatus : IO wisun_status := uart_get sh_wisun.
Definition SmartHelmet_UartInPassthrough : IO bool := uart_get sh_passthrough.
Definition SmartHelmet_UartIsRejoining : IO bool := uart_get sh_rejoining.
Definition SmartHelmet_UartIsBrOnline : IO bool :=
  uart_get (fun u => ws_online (sh_wisun u) && negb (sh_rejoining u)).

(** * Open, verify, close *)
Definition SmartHelmet_UartSetRxCallback (cb : bool) : IO unit := uart_do (fun u => u <| sh_uart_rx_cb := cb |>).

Definition SmartHelmet_UartInit (client_task : bool) : IO bool :=
  uart_do (fun u => u <| sh_uart_task := client_task |>);;
  if negb ENABLE_WISUN_UART then mret true else
  u ← uart_get id;
  if sh_uart_sink u && sh_uart_source u then mret true else
  tx ← shUartMapPio WISUN_UART_TX_PIO UART_TX;
  if negb tx then mret false else
  rx ← shUartMapPio WISUN_UART_RX_PIO UART_RX;
  if negb rx then mret false else
  call StreamUartConfigure;;
  sink ← call StreamUartSink;
  uart_do (fun u => u <| sh_uart_sink := sink |>);;
  source ← call StreamUartSource;
  uart_do (fun u => u <| sh_uart_source := source |>);;
  if negb sink || negb source then mret false else
  call SourceConfigure;; call SinkConfigure;;
  call MessageStreamTaskFromSink;; call MessageStreamTaskFromSource;;
  call (MessageSendLater WISUN_RX_POLL WISUN_RX_POLL_MS);;
  mret true.

Definition SmartHelmet_UartStopVerify : IO unit :=
  t ← uart_get sh_uart_task;
  when t (call (MessageCancelAll WISUN_LINK_CHECK));;
  uart_do (fun u => u <| sh_wisun_step := 0 |>).

Definition SmartHelmet_UartStartVerify : IO unit :=
  if negb ENABLE_WISUN_UART || negb ENABLE_WISUN_LINK_CHECK then mret tt else
  uart_do (fun u => u <| sh_wisun := wisun_zero <| ws_status_code := 0xFF |> |> <| sh_at_idx := 0 |>
    <| sh_rx_asm := [] |> <| sh_prov_done := 0 |> <| sh_prov_dirty := 0 |> <| sh_prov_q := [] |>
    <| sh_prov_i := 0 |> <| sh_passthrough := false |> <| sh_too_long_retry := 0 |>);;
  leave_to SH_STEP_RESET.

Definition SmartHelmet_UartClose : IO unit :=
  sink ← uart_get sh_uart_sink;
  when sink (shWisunSendProbe (chars "exit"));;
  uart_do (fun u => u <| sh_passthrough := false |>);;
  SmartHelmet_UartStopVerify;;
  t ← uart_get sh_uart_task;
  when t (call (MessageCancelAll WISUN_RX_POLL);; call (MessageCancelAll WISUN_LINK_CHECK));;
  uart_do (fun u => u <| sh_uart_sink := false |> <| sh_uart_source := false |>);;
  shUartReleasePio WISUN_UART_TX_PIO;;
  shUartReleasePio WISUN_UART_RX_PIO;;
  SmartHelmet_UartResetHold true.

Definition SmartHelmet_UartSleep : IO unit :=
  SmartHelmet_UartStopVerify;;
  u ← uart_get id;
  when (sh_passthrough u && sh_uart_sink u)
    (uart_do (fun u => u <| sh_passthrough := false |>);;
     SmartHelmet_UartSend (chars "exit" ++ [13; 10]);; mret tt);;
  wisun_do (fun s => s <| ws_online := false |>);;
  SmartHelmet_UartClose.
End wisun.
