(* ===== verification/Report.v ===== *)
(** The border-router report of smart_helmet.c: the bounded text builder, the
    gas tables, the motion hold, the report text and its frames. *)
From S2P Require Import Prelude Config Fuse Change Decimal Telemetry Vitals Board Platform World Stream I2c Display Adc Sensors Text Wisun.

(** * The text builder

    A text under construction is the list of its characters; room is left
    for the terminator. *)
Fixpoint shAppend (max : Z) (s l : list Z) : list Z :=
  match s with
  | [] => l
  | c :: s => if alen l + 1 <? max then shAppend max s (l ++ [c]) else l
  end.

Definition shAppendU (max v : Z) (l : list Z) : list Z :=
  if v =? 0 then shAppend max [48] l else shAppend max (rev (digits_loop 6 v)) l.

Definition shAppendX100 (max v : Z) (l : list Z) : list Z :=
  let '(l, mag) := if v <? 0 then (shAppend max [45] l, u16 (- v)) else (l, u16 v) in
  let l := shAppendU max (u16 (mag / 100)) l in
  let l := shAppend max [46] l in
  let l := shAppendU max (u16 ((mag / 10) mod 10)) l in
  shAppendU max (u16 (mag mod 10)) l.

(** * Gas *)
Definition gas_in_range (mv : Z) : bool := (50 <=? mv) && (mv <? MICS_VCC_MV).

Definition shGasRatioX100 (mv r0 : Z) : Z :=
  if negb (gas_in_range mv) || negb (gas_in_range r0) then 100 else
  let rs := u32 ((MICS_VCC_MV - mv) * 1000) / mv in
  let rs0 := u32 ((MICS_VCC_MV - r0) * 1000) / r0 in
  if rs0 =? 0 then 100 else u16 (u32 (rs * 100) / rs0).

Definition shCoPpm (ratio_x100 : Z) : Z :=
  if 80 <=? ratio_x100 then 1 else if 40 <=? ratio_x100 then 10 else if 20 <=? ratio_x100 then 40
  else if 10 <=? ratio_x100 then 120 else if 5 <=? ratio_x100 then 400 else 1000.

Definition shNh3Ppm (ratio_x100 : Z) : Z :=
  if 80 <=? ratio_x100 then 1 else if 40 <=? ratio_x100 then 15 else if 20 <=? ratio_x100 then 60
  else if 10 <=? ratio_x100 then 180 else 500.

Definition shNo2PpmX100 (ratio_x100 : Z) : Z :=
  if ratio_x100 <=? 120 then 5 else if ratio_x100 <=? 200 then 25 else if ratio_x100 <=? 400 then 100
  else if ratio_x100 <=? 800 then 400 else 1000.

(** The first reading in range becomes the reference of the channel. *)
Definition gas_note (ch mv : Z) (r0 : list Z) : list Z :=
  if (aget r0 ch =? 0) && gas_in_range mv then aset r0 ch mv else r0.

Definition gas_ratio (ch mv : Z) (r0 : list Z) : Z :=
  shGasRatioX100 mv (if negb (aget r0 ch =? 0) then aget r0 ch else mv).

(** * Motion

    [since] is the latch of the poll; the counter of quiet reports holds
    "moving". *)
Definition motion_hold (since holding : bool) (quiet : Z) : bool * Z :=
  if since then (true, 0)
  else if holding then
    let quiet := if quiet <? 255 then u8 (quiet + 1) else quiet in
    if MOTION_STILL_REPORTS <=? quiet then (false, 0) else (true, quiet)
  else (holding, quiet).

(** * Frames *)

(** Characters of the line at the head of a text. *)
Definition is_eol (c : Z) : bool := (c =? 13) || (c =? 10).
Fixpoint line_of (l : list Z) : list Z :=
  match l with
  | [] => []
  | c :: l => if is_eol c then [] else c :: line_of l
  end.
Fixpoint skip_eol (l : list Z) : list Z :=
  match l with
  | [] => []
  | c :: l' => if is_eol c then skip_eol l' else l
  end.

Section report.
Context `{HelmetConfig} `{BoardConfig} `{Platform}.

Definition LINE : Z := 192.

Definition shGasValue (ch mv : Z) : IO Z :=
  hel_do (fun h => h <| sh_gas_r0_mv ::= gas_note ch mv |>);;
  r0 ← hel_get sh_gas_r0_mv;
  mret (gas_ratio ch mv r0).

(** The loop of shSendReportLines: one frame of at most 37 characters and
    the end of line per line of the text. *)
Fixpoint send_frames (fuel : nat) (l : list Z) : IO bool :=
  match fuel with
  | O => mret true
  | S fuel =>
    if alen l =? 0 then mret true else
    let l := skip_eol l in
    let frame := take 37 (line_of l) in
    let rest := drop (length (line_of l)) l in
    if alen frame =? 0 then send_frames fuel rest else
    r ← SmartHelmet_UartSend (frame ++ [13; 10]);
    if negb r then SmartHelmet_UartNoteReportSent false;; mret false
    else send_frames fuel rest
  end.

Definition shSendReportLines (line : list Z) : IO unit :=
  sent ← send_frames (S (length line)) line;
  when sent (SmartHelmet_UartNoteReportSent true).

(** * The report *)
Definition pulse_text (s : vitals_status) : list Z :=
  if bool_decide (st_trend s = smart_helmet_trend_absent) then chars "none"
  else if negb (st_valid s) then chars "unknown"
  else if bool_decide (st_trend s = smart_helmet_trend_rising) then chars "rising"
  else if bool_decide (st_trend s = smart_helmet_trend_falling) then chars "falling"
  else chars "stable".

(** A temperature or humidity with its unit. *)
Definition append_x100 (ok : bool) (v : Z) (unit : list Z) (l : list Z) : list Z :=
  if negb ok then shAppend LINE (chars "na") l else shAppend LINE unit (shAppendX100 LINE v l).

Definition DISABLED : list Z := chars "Disabled".

Definition rep_motion (l : list Z) : IO (list Z) :=
  let l := shAppend LINE (chars "motion:") l in
  if negb ENABLE_LIS3DH then mret (shAppend LINE DISABLED l) else
  hel_do (fun h : helmet_st =>
    let '(holding, quiet) := motion_hold (sh_motion_since_report h) (sh_motion_holding h) (sh_motion_quiet_reports h) in
    h <| sh_motion_holding := holding |> <| sh_motion_quiet_reports := quiet |>);;
  holding ← hel_get sh_motion_holding;
  hel_do (fun h => h <| sh_motion_since_report := false |>);;
  mret (shAppend LINE (if (holding : bool) then chars "moving" else chars "still") l).

(** [TakeFall] through the vitals engine. *)
Definition take_fall : IO bool := vit_result false SmartHelmet_VitalsTakeFall.

Definition yes_no (b : bool) : list Z := if b then chars "yes" else chars "no".

Definition EOL : list Z := [13; 10].

Definition rep_restart (l : list Z) : IO (list Z) :=
  let l := shAppend LINE (EOL ++ chars "restart:") l in
  r ← SmartHelmet_UartTakeRestart;
  mret (shAppend LINE (yes_no r) l).

Definition rep_fall (l : list Z) : IO (list Z) :=
  let l := shAppend LINE (EOL ++ chars "fall:") l in
  if negb ENABLE_LIS3DH then mret (shAppend LINE DISABLED l) else
  f ← take_fall;
  mret (shAppend LINE (yes_no f) l).

Definition rep_pulse (l : list Z) : IO (list Z) :=
  let l := shAppend LINE (EOL ++ chars "pulse:") l in
  if negb ENABLE_VITALS_PROXY then mret (shAppend LINE DISABLED l) else
  s ← gets (fun w => v_st (w_vit w));
  mret (shAppend LINE (pulse_text s) l).

Definition rep_climate (l : list Z) : IO (list Z) :=
  s ← data_get id;
  let l := shAppend LINE (EOL ++ chars "body:") l in
  let l := if negb ENABLE_MLX90614 then shAppend LINE DISABLED l
           else append_x100 (mlx90614_ok s) (object_temp_x100 s) (chars "C") l in
  let l := shAppend LINE (EOL ++ chars "amb:") l in
  let l := if negb ENABLE_HDC1080 then shAppend LINE DISABLED l
           else append_x100 (hdc1080_ok s) (i16 (hdc_temp_x100 s + AMB_OFFSET_X100)) (chars "C") l in
  let l := shAppend LINE (EOL ++ chars "rh:") l in
  mret (if negb ENABLE_HDC1080 then shAppend LINE DISABLED l
        else append_x100 (hdc1080_ok s) (i16 (hdc_humidity_x100 s)) (chars "%") l).

Definition rep_voc (l : list Z) : IO (list Z) :=
  s ← data_get id;
  let l := shAppend LINE (EOL ++ chars "voc:") l in
  mret (if negb ENABLE_CCS811 then shAppend LINE DISABLED l
        else if negb (ccs811_ok s) then shAppend LINE (chars "na") l
        else shAppend LINE (chars "ppb") (shAppendU LINE (ccs811_tvoc s) l)).

(** One gas line: channel [ch] of the scan, reference [r]. *)
Definition rep_gas (name : list Z) (ch r : Z) (put : Z -> list Z -> list Z) (l : list Z) : IO (list Z) :=
  let l := shAppend LINE (EOL ++ name) l in
  if negb ENABLE_ADC then mret (shAppend LINE DISABLED l) else
  mv ← adc_get (fun a => aget (adc_millivolts a) ch);
  ratio ← shGasValue r mv;
  mret (shAppend LINE (chars "ppm") (put ratio l)).

Definition report_head : IO (list Z) :=
  l ← rep_motion [];
  l ← rep_restart l;
  l ← rep_fall l;
  l ← rep_pulse l;
  l ← rep_climate l;
  rep_voc l.

Definition report_gases (l : list Z) : IO (list Z) :=
  l ← rep_gas (chars "co:") smart_helmet_adc_co 0 (fun ratio => shAppendU LINE (shCoPpm ratio)) l;
  l ← rep_gas (chars "nh3:") smart_helmet_adc_nh3 1 (fun ratio => shAppendU LINE (shNh3Ppm ratio)) l;
  rep_gas (chars "no2:") smart_helmet_adc_no2 2 (fun ratio => shAppendX100 LINE (i16 (shNo2PpmX100 ratio))) l.

Definition report_text : IO (list Z) :=
  l ← report_head;
  l ← report_gases l;
  mret (shAppend LINE EOL l).

(** The sensors are read, and the vitals window is run, only when the report
    can go out. *)
Definition report_poll : IO unit :=
  SmartHelmet_SensorsPoll;;
  s ← data_get id;
  when (lis3dh_ok s)
    (vit_call (SmartHelmet_VitalsPushAccel (lis3dh_x s) (lis3dh_y s) (lis3dh_z s));;
     vit_call SmartHelmet_VitalsProcess).

Definition SmartHelmet_ReportStart : IO unit :=
  can_send ← and_then SmartHelmet_UartInPassthrough SmartHelmet_SensorsReady;
  when can_send report_poll;;
  line ← report_text;
  when can_send (shSendReportLines line);;
  call (MessageCancelAll REPORT_TICK);;
  call (MessageSendLater REPORT_TICK WISUN_REPORT_MS).
End report.
