(* ===== verification/ReportSpec.v ===== *)
(** What the report says: the unbounded text it implements, the frames that
    go out, the motion hold, and the gas tables. *)
From S2P Require Import Prelude Config Dsp Ring Fuse Change Decimal Telemetry Vitals Board Platform World Stream I2c Display Adc Sensors Text Wisun Report.

(** * Vocabulary: the lines of a report *)

(** A number of hundredths. *)
Definition x100_text (v : Z) : list Z :=
  let mag := Z.abs v in
  (if v <? 0 then [45] else []) ++ dec (mag / 100) ++ [46] ++ dec ((mag / 10) mod 10) ++ dec (mag mod 10).

(** Reading it back. *)
Definition x100_read (l : list Z) : Z :=
  let '(neg, l) := match l with c :: l' => if c =? 45 then (true, l') else (false, l) | [] => (false, l) end in
  let v := match split_on 46 l with
           | [a; b] => parse_nat a * 100 + parse_nat b
           | _ => 0
           end in
  if (neg : bool) then - v else v.

Section values.
Context `{HelmetConfig} `{BoardConfig} `{Platform}.

Definition val_motion (h : helmet_st) : list Z :=
  if negb ENABLE_LIS3DH then DISABLED
  else if fst (motion_hold (sh_motion_since_report h) (sh_motion_holding h) (sh_motion_quiet_reports h))
  then chars "moving" else chars "still".

Definition val_x100 (enabled ok : bool) (v : Z) (unit : list Z) : list Z :=
  if negb enabled then DISABLED else if negb ok then chars "na" else x100_text v ++ unit.

Definition val_gas (w : World) (ch r : Z) (text : Z -> list Z) : list Z :=
  if negb ENABLE_ADC then DISABLED else
  let mv := aget (adc_millivolts (w_adc w)) ch in
  text (gas_ratio r mv (gas_note r mv (sh_gas_r0_mv (w_hel w)))) ++ chars "ppm".

Definition head_lines (w : World) : list (list Z) :=
  let s := sh_sensors (w_sens w) in
  [ chars "motion:" ++ val_motion (w_hel w);
    chars "restart:" ++ yes_no (sh_restart_seen (w_uart w));
    chars "fall:" ++ (if negb ENABLE_LIS3DH then DISABLED else yes_no (ENABLE_VITALS_PROXY && v_fall (w_vit w)));
    chars "pulse:" ++ (if negb ENABLE_VITALS_PROXY then DISABLED else pulse_text (v_st (w_vit w)));
    chars "body:" ++ val_x100 ENABLE_MLX90614 (mlx90614_ok s) (object_temp_x100 s) (chars "C");
    chars "amb:" ++ val_x100 ENABLE_HDC1080 (hdc1080_ok s) (i16 (hdc_temp_x100 s + AMB_OFFSET_X100)) (chars "C");
    chars "rh:" ++ val_x100 ENABLE_HDC1080 (hdc1080_ok s) (i16 (hdc_humidity_x100 s)) (chars "%");
    chars "voc:" ++ (if negb ENABLE_CCS811 then DISABLED else if negb (ccs811_ok s) then chars "na"
                     else dec (ccs811_tvoc s) ++ chars "ppb") ].

Definition gas_lines (w : World) : list (list Z) :=
  [ chars "co:" ++ val_gas w smart_helmet_adc_co 0 (fun r => dec (shCoPpm r));
    chars "nh3:" ++ val_gas w smart_helmet_adc_nh3 1 (fun r => dec (shNh3Ppm r));
    chars "no2:" ++ val_gas w smart_helmet_adc_no2 2 (fun r => x100_text (shNo2PpmX100 r)) ].

Definition report_lines (w : World) : list (list Z) := head_lines w ++ gas_lines w.

Definition text_of (lines : list (list Z)) : list Z := concat ((fun l => l ++ EOL) <$> lines).

(** The frames of the lines, up to the first that cannot be sent. *)
Fixpoint send_all (lines : list (list Z)) : IO bool :=
  match lines with
  | [] => mret true
  | l :: lines =>
    r ← SmartHelmet_UartSend (l ++ EOL);
    if negb r then SmartHelmet_UartNoteReportSent false;; mret false else send_all lines
  end.

(** The readings of the devices fit their C types. *)
Definition data_ok (s : smart_helmet_sensor_data_t) : Prop :=
  is_u16 (ccs811_tvoc s) /\ is_u16 (hdc_humidity_x100 s) /\ is_i16 (hdc_temp_x100 s) /\ is_i16 (object_temp_x100 s).
End values.

(** * The builder without its bound *)
Lemma shAppend_fits max s : forall l, alen l + alen s < max -> shAppend max s l = l ++ s.
Proof.
  induction s as [| c s IH]; intros l Hl; cbn [shAppend]; [by rewrite app_nil_r |].
  unfold alen in *. cbn [length] in Hl. rewrite (proj2 (Z.ltb_lt _ _)) by lia.
  rewrite IH; [by rewrite <- app_assoc | rewrite length_app; cbn; lia].
Qed.

(** The builder never writes past the terminator. *)
Lemma shAppend_bound max s : forall l, alen l < max -> alen (shAppend max s l) < max.
Proof.
  induction s as [| c s IH]; intros l Hl; cbn [shAppend]; [done |].
  destruct (Z.ltb_spec (alen l + 1) max); [| done]. apply IH. unfold alen in *. rewrite length_app. cbn. lia.
Qed.

Lemma alen_dec v k : 0 <= v < 10 ^ k -> 1 <= k <= 10 -> alen (dec v) <= k.
Proof.
  intros Hv Hk. assert (10 ^ k <= 10 ^ 10) by (apply Z.pow_le_mono_r; lia).
  destruct (dec_spec v ltac:(lia)) as (_ & _ & _ & Hl). apply Hl; lia.
Qed.

Lemma shAppendU_fits max v l : is_u16 v -> alen l + alen (dec v) < max -> shAppendU max v l = l ++ dec v.
Proof.
  intros Hv Hl. unfold shAppendU. destruct (Z.eqb_spec v 0) as [-> | Hv0]; [by apply shAppend_fits |].
  rewrite (digits_loop_dec 6) by rlia. by apply shAppend_fits.
Qed.

Lemma x100_parts v : is_i16 v -> let mag := Z.abs v in
  0 <= mag / 100 < 10 ^ 3 /\ 0 <= (mag / 10) mod 10 < 10 /\ 0 <= mag mod 10 < 10 /\ is_u16 mag /\
  mag = mag / 100 * 100 + ((mag / 10) mod 10) * 10 + mag mod 10.
Proof. intros Hv mag. subst mag. unfold_ranges. split_and!; zlia. Qed.

Lemma alen_x100 v : is_i16 v -> alen (x100_text v) <= 7.
Proof.
  intros Hv. destruct (x100_parts v Hv) as (Ha & Hb & Hc & _). unfold x100_text. rewrite !alen_app.
  pose proof (alen_dec _ 3 Ha ltac:(lia)). pose proof (alen_dec _ 1 Hb ltac:(lia)). pose proof (alen_dec _ 1 Hc ltac:(lia)).
  change (alen [46]) with 1. destruct (v <? 0); [change (alen [45]) with 1 | change (alen []) with 0]; lia.
Qed.

Lemma shAppendX100_fits max v l : is_i16 v -> alen l + 7 < max -> shAppendX100 max v l = l ++ x100_text v.
Proof.
  intros Hv Hl. destruct (x100_parts v Hv) as (Ha & Hb & Hc & Hm & _).
  pose proof (alen_dec _ 3 Ha ltac:(lia)). pose proof (alen_dec _ 1 Hb ltac:(lia)). pose proof (alen_dec _ 1 Hc ltac:(lia)).
  unfold shAppendX100, x100_text.
  assert ((if v <? 0 then (shAppend max [45] l, u16 (- v)) else (l, u16 v)) =
          (l ++ (if v <? 0 then [45] else []), Z.abs v)) as ->.
  { destruct (Z.ltb_spec v 0).
    - rewrite shAppend_fits by (change (alen [45]) with 1; lia). rewrite u16_small by rlia. f_equal. lia.
    - rewrite app_nil_r, u16_small by rlia. f_equal. lia. }
  set (sg := if v <? 0 then _ else _). assert (alen sg <= 1) by (subst sg; by destruct (v <? 0)).
  rewrite !u16_small by rlia.
  rewrite (shAppendU_fits _ (Z.abs v / 100)); [| rlia | rewrite alen_app; lia].
  rewrite shAppend_fits; [| rewrite !alen_app; change (alen [46]) with 1; lia].
  rewrite (shAppendU_fits _ ((Z.abs v / 10) mod 10)); [| rlia | rewrite !alen_app; change (alen [46]) with 1; lia].
  rewrite shAppendU_fits; [| rlia | rewrite !alen_app; change (alen [46]) with 1; lia].
  by rewrite <- !app_assoc.
Qed.

(** * Round trip of the hundredths *)
Lemma dec_digit c : 0 <= c < 10 -> dec c = [48 + c].
Proof.
  intros Hc. assert (forallb (fun c => bool_decide (dec c = [48 + c])) (seqZ 0 10) = true) as Hall by reflexivity.
  rewrite forallb_forall in Hall. specialize (Hall c).
  rewrite bool_decide_eq_true in Hall. apply Hall, list_elem_of_In, elem_of_seqZ. lia.
Qed.

Lemma digits_ne v sep : 0 <= v < 10 ^ 10 -> ~ is_digit sep -> Forall (fun c => c <> sep) (dec v).
Proof.
  intros Hv Hs. destruct (dec_spec v Hv) as (_ & Hd & _). eapply Forall_impl; [exact Hd |]. by intros c Hc ->.
Qed.

(** A hundredths field of the report (a temperature, the humidity or the
    NO2 level) is written without loss for every 16-bit value, the most
    negative included: it fits its line, and reading the text back gives the
    value. *)
Theorem shAppendX100_round_trip v l :
  is_i16 v -> alen l + 7 < LINE -> exists text, shAppendX100 LINE v l = l ++ text /\ alen text <= 7 /\ x100_read text = v.
Proof.
  intros Hv Hl. exists (x100_text v). split; [by apply shAppendX100_fits |]. split; [by apply alen_x100 |].
  destruct (x100_parts v Hv) as (Ha & Hb & Hc & Hm & E). unfold x100_text.
  rewrite (dec_digit _ Hb), (dec_digit _ Hc). set (a := Z.abs v / 100) in *.
  assert (split_on 46 (dec a ++ [46] ++ [48 + (Z.abs v / 10) mod 10] ++ [48 + Z.abs v mod 10]) =
          [dec a; [48 + (Z.abs v / 10) mod 10; 48 + Z.abs v mod 10]]) as Hsp.
  { cbn [app]. rewrite split_on_app by (apply digits_ne; [lia | unfold is_digit; lia]).
    by rewrite split_on_none by (repeat constructor; lia). }
  destruct (dec_spec a ltac:(lia)) as (Hpa & Hda & Hna & _).
  assert (parse_nat (dec a) * 100 + parse_nat [48 + (Z.abs v / 10) mod 10; 48 + Z.abs v mod 10] = Z.abs v) as Hval
    by (rewrite Hpa; unfold parse_nat; cbn [fold_left]; lia).
  unfold x100_read. destruct (Z.ltb_spec v 0).
  - cbn [app]. cbn [app] in Hsp. rewrite Z.eqb_refl, Hsp, Hval. lia.
  - cbn [app]. destruct (dec a) as [| c d] eqn:Ed; [done |]. inversion Hda as [| ? ? Hc0 _]; subst. unfold is_digit in Hc0.
    cbn [app] in *. assert (c <> 45) by lia.
    rewrite (proj2 (Z.eqb_neq c 45)) by done.
    rewrite Hsp, Hval. lia.
Qed.

Lemma shAppendX100_round_trip_witness :
  exists text, shAppendX100 LINE (-32768) (chars "body:") = chars "body:" ++ text /\ alen text <= 7 /\ x100_read text = -32768.
Proof. apply (shAppendX100_round_trip (-32768) (chars "body:")); vdec. Defined.

(** * Bounds of the values *)
Section bounds.
Context `{HelmetConfig} `{BoardConfig} `{Platform}.

Ltac known := repeat (match goal with |- context [if ?b then _ else _] => destruct b end); cbv; congruence.

Lemma val_motion_len h : alen (val_motion h) <= 8.
Proof. unfold val_motion. known. Qed.
Lemma yes_no_len b : alen (yes_no b) <= 3.
Proof. by destruct b. Qed.
Lemma fall_len b : alen (if negb ENABLE_LIS3DH then DISABLED else yes_no b) <= 8.
Proof. destruct b; known. Qed.
Lemma pulse_len s : alen (if negb ENABLE_VITALS_PROXY then DISABLED else pulse_text s) <= 8.
Proof. unfold pulse_text. known. Qed.
Lemma val_x100_len e ok v unit : is_i16 v -> alen unit = 1 -> alen (val_x100 e ok v unit) <= 8.
Proof.
  intros Hv Hu. unfold val_x100. destruct (negb e); [done |]. destruct (negb ok); [done |].
  rewrite alen_app. pose proof (alen_x100 v Hv). lia.
Qed.
Lemma voc_len s : is_u16 (ccs811_tvoc s) ->
  alen (if negb ENABLE_CCS811 then DISABLED else if negb (ccs811_ok s) then chars "na"
        else dec (ccs811_tvoc s) ++ chars "ppb") <= 8.
Proof.
  intros Hv. destruct (negb _); [done |]. destruct (negb _); [done |].
  rewrite alen_app. pose proof (alen_dec (ccs811_tvoc s) 5). change (alen (chars "ppb")) with 3. rlia.
Qed.

Lemma co_range r : 1 <= shCoPpm r <= 1000.
Proof. unfold shCoPpm. repeat zcase; lia. Qed.
Lemma nh3_range r : 1 <= shNh3Ppm r <= 500.
Proof. unfold shNh3Ppm. repeat zcase; lia. Qed.
Lemma no2_range r : 5 <= shNo2PpmX100 r <= 1000.
Proof. unfold shNo2PpmX100. repeat zcase; lia. Qed.

Lemma val_gas_len w ch r text : (forall x, alen (text x) <= 7) -> alen (val_gas w ch r text) <= 10.
Proof.
  intros Ht. unfold val_gas. destruct (negb _); [done |]. rewrite alen_app. change (alen (chars "ppm")) with 3.
  pose proof (Ht (gas_ratio r (aget (adc_millivolts (w_adc w)) ch)
    (gas_note r (aget (adc_millivolts (w_adc w)) ch) (sh_gas_r0_mv (w_hel w))))). lia.
Qed.
End bounds.

(** * The parts of the text *)
(** [room]: the text fits; the lengths of the constant parts are computed. *)
Ltac lens :=
  repeat match goal with |- context [alen (chars ?s)] =>
    let n := eval cbv in (alen (chars s)) in change (alen (chars s)) with n end;
  change (alen EOL) with 2; change (alen DISABLED) with 8; change (alen []) with 0.
Ltac room := unfold LINE in *; rewrite ?alen_app; lens; lia.

Section parts.
Context `{HelmetConfig} `{BoardConfig} `{Platform}.

Lemma rep_motion_text w : eval (rep_motion []) w = chars "motion:" ++ val_motion (w_hel w).
Proof.
  unfold rep_motion, val_motion. destruct (negb ENABLE_LIS3DH); io; [done |].
  match goal with |- context [sh_motion_holding (w_hel ?v)] =>
    assert (sh_motion_holding (w_hel v) = fst (motion_hold (sh_motion_since_report (w_hel w))
      (sh_motion_holding (w_hel w)) (sh_motion_quiet_reports (w_hel w)))) as -> by (cbn; by destruct (motion_hold _ _ _))
  end.
  by destruct (fst _).
Qed.

Lemma rep_restart_text l w : alen l < 170 ->
  eval (rep_restart l) w = l ++ EOL ++ chars "restart:" ++ yes_no (sh_restart_seen (w_uart w)).
Proof.
  intros Hl. unfold rep_restart, SmartHelmet_UartTakeRestart. io. pose proof (yes_no_len (sh_restart_seen (w_uart w))).
  rewrite (shAppend_fits LINE (EOL ++ _)), shAppend_fits by room. by rewrite <- !app_assoc.
Qed.

Lemma rep_fall_text l w : alen l < 170 ->
  eval (rep_fall l) w = l ++ EOL ++ chars "fall:" ++ (if negb ENABLE_LIS3DH then DISABLED else yes_no (ENABLE_VITALS_PROXY && v_fall (w_vit w))).
Proof.
  intros Hl. unfold rep_fall. destruct (negb ENABLE_LIS3DH); io.
  - rewrite (shAppend_fits LINE (EOL ++ _)), shAppend_fits by room. by rewrite <- !app_assoc.
  - assert (eval take_fall w = ENABLE_VITALS_PROXY && v_fall (w_vit w)) as ->
      by (unfold take_fall, vit_result; by destruct ENABLE_VITALS_PROXY).
    pose proof (yes_no_len (ENABLE_VITALS_PROXY && v_fall (w_vit w))).
    rewrite (shAppend_fits LINE (EOL ++ _)), shAppend_fits by room. by rewrite <- !app_assoc.
Qed.

Lemma rep_pulse_text l w : alen l < 170 ->
  eval (rep_pulse l) w =
  l ++ EOL ++ chars "pulse:" ++ (if negb ENABLE_VITALS_PROXY then DISABLED else pulse_text (v_st (w_vit w))).
Proof.
  intros Hl. unfold rep_pulse. pose proof (pulse_len (v_st (w_vit w))).
  destruct (negb ENABLE_VITALS_PROXY); io; rewrite (shAppend_fits LINE (EOL ++ _)), shAppend_fits by room; by rewrite <- !app_assoc.
Qed.

Lemma append_val_x100 e ok v unit l : is_i16 v -> alen unit = 1 -> alen l < 180 ->
  (if negb e then shAppend LINE DISABLED l else append_x100 ok v unit l) = l ++ val_x100 e ok v unit.
Proof.
  intros Hv Hu Hl. unfold append_x100, val_x100. pose proof (alen_x100 v Hv).
  destruct (negb e); [by rewrite shAppend_fits by room |]. destruct (negb ok); [by rewrite shAppend_fits by room |].
  rewrite shAppendX100_fits by (done || room). rewrite shAppend_fits by room. by rewrite <- app_assoc.
Qed.

Lemma rep_climate_text l w : data_ok (sh_sensors (w_sens w)) -> alen l < 130 ->
  let s := sh_sensors (w_sens w) in
  eval (rep_climate l) w =
  l ++ EOL ++ chars "body:" ++ val_x100 ENABLE_MLX90614 (mlx90614_ok s) (object_temp_x100 s) (chars "C") ++
  EOL ++ chars "amb:" ++ val_x100 ENABLE_HDC1080 (hdc1080_ok s) (i16 (hdc_temp_x100 s + AMB_OFFSET_X100)) (chars "C") ++
  EOL ++ chars "rh:" ++ val_x100 ENABLE_HDC1080 (hdc1080_ok s) (i16 (hdc_humidity_x100 s)) (chars "%").
Proof.
  intros (_ & _ & _ & Hb) Hl s. unfold rep_climate. io. fold s. fold s in Hb.
  pose proof (val_x100_len ENABLE_MLX90614 (mlx90614_ok s) _ (chars "C") Hb eq_refl).
  pose proof (val_x100_len ENABLE_HDC1080 (hdc1080_ok s) _ (chars "C") (i16_range (hdc_temp_x100 s + AMB_OFFSET_X100)) eq_refl).
  rewrite (shAppend_fits LINE (EOL ++ chars "body:")) by room.
  rewrite (append_val_x100 ENABLE_MLX90614 _ (object_temp_x100 s)) by (done || room).
  rewrite (shAppend_fits LINE (EOL ++ chars "amb:")) by room.
  rewrite (append_val_x100 _ _ (i16 (hdc_temp_x100 s + AMB_OFFSET_X100))) by (apply i16_range || done || room).
  rewrite (shAppend_fits LINE (EOL ++ chars "rh:")) by room.
  rewrite append_val_x100 by (apply i16_range || done || room).
  by rewrite <- !app_assoc.
Qed.

Lemma rep_voc_text l w : data_ok (sh_sensors (w_sens w)) -> alen l < 170 ->
  let s := sh_sensors (w_sens w) in
  eval (rep_voc l) w =
  l ++ EOL ++ chars "voc:" ++ (if negb ENABLE_CCS811 then DISABLED else if negb (ccs811_ok s) then chars "na"
                               else dec (ccs811_tvoc s) ++ chars "ppb").
Proof.
  intros (Hv & _) Hl s. unfold rep_voc. io. fold s. fold s in Hv. rewrite (shAppend_fits LINE (EOL ++ chars "voc:")) by room.
  destruct (negb ENABLE_CCS811); [rewrite shAppend_fits by room; by rewrite <- !app_assoc |].
  destruct (negb (ccs811_ok s)); [rewrite shAppend_fits by room; by rewrite <- !app_assoc |].
  pose proof (alen_dec (ccs811_tvoc s) 5 ltac:(rlia) ltac:(lia)).
  rewrite shAppendU_fits by (done || room). rewrite shAppend_fits by room. by rewrite <- !app_assoc.
Qed.

Lemma rep_gas_text name ch r put text l w :
  alen l + alen name < 170 -> (forall x, alen (text x) <= 7) ->
  (forall x l, alen l < 180 -> put x l = l ++ text x) ->
  eval (rep_gas name ch r put l) w = l ++ EOL ++ name ++ val_gas w ch r text.
Proof.
  intros Hl Ht Hp. unfold rep_gas, val_gas. pose proof (alen_nonneg name). pose proof (alen_nonneg l).
  rewrite (shAppend_fits LINE (EOL ++ name)) by room.
  destruct (negb ENABLE_ADC); io; [rewrite shAppend_fits by room; by rewrite <- !app_assoc |].
  unfold shGasValue. io. rewrite Hp by room. cbn [w_hel]. set (x := gas_ratio _ _ _). pose proof (Ht x).
  rewrite shAppend_fits by room. by rewrite <- !app_assoc.
Qed.
End parts.

(** * The whole text *)
Section text.
Context `{HelmetConfig} `{BoardConfig} `{Platform}.

Lemma gas_ratio_note r mv r0 : 0 <= r < alen r0 ->
  gas_ratio r mv (gas_note r mv r0) = shGasRatioX100 mv (if aget r0 r =? 0 then mv else aget r0 r).
Proof.
  intros Hr. unfold gas_ratio, gas_note, gas_in_range. destruct (Z.eqb_spec (aget r0 r) 0) as [E | E]; cbn [andb].
  - destruct ((50 <=? mv) && (mv <? MICS_VCC_MV)) eqn:Hm; [| by rewrite E].
    rewrite aget_aset_eq by done. by destruct (Z.eqb_spec mv 0).
  - by rewrite (proj2 (Z.eqb_neq _ _)).
Qed.

(** The value of a gas line depends on the sample and its reference only. *)
Lemma val_gas_ext w w' ch r text :
  w_adc w' = w_adc w -> alen (sh_gas_r0_mv (w_hel w)) = 3 -> alen (sh_gas_r0_mv (w_hel w')) = 3 -> 0 <= r < 3 ->
  aget (sh_gas_r0_mv (w_hel w')) r = aget (sh_gas_r0_mv (w_hel w)) r ->
  val_gas w' ch r text = val_gas w ch r text.
Proof. intros E Hl Hl' Hr Eg. unfold val_gas. by rewrite !gas_ratio_note, E, Eg by lia. Qed.

Lemma gas_note_other r r' mv r0 : 0 <= r -> 0 <= r' -> r <> r' -> aget (gas_note r mv r0) r' = aget r0 r'.
Proof. intros. unfold gas_note. destruct (_ && _); [by rewrite aget_aset_ne by lia | done]. Qed.

Lemma gas_note_len r mv r0 : alen (gas_note r mv r0) = alen r0.
Proof. unfold gas_note. destruct (_ && _); [apply alen_aset | done]. Qed.

Lemma rep_gas_run name ch r put l w :
  let w' := run (rep_gas name ch r put l) w in
  w_adc w' = w_adc w /\ alen (sh_gas_r0_mv (w_hel w')) = alen (sh_gas_r0_mv (w_hel w)) /\
  forall r', 0 <= r -> 0 <= r' -> r <> r' -> aget (sh_gas_r0_mv (w_hel w')) r' = aget (sh_gas_r0_mv (w_hel w)) r'.
Proof.
  unfold rep_gas. destruct (negb ENABLE_ADC); io; [done |]. unfold shGasValue. io. cbn.
  split_and!; [done | apply gas_note_len |]. intros. by apply gas_note_other.
Qed.

Lemma rep_fall_pulse l w : pulse_text (v_st (w_vit (run (rep_fall l) w))) = pulse_text (v_st (w_vit w)).
Proof.
  unfold rep_fall. destruct (negb ENABLE_LIS3DH); io; [done |]. unfold take_fall, vit_result.
  destruct ENABLE_VITALS_PROXY eqn:Hp; cbn [negb]; io; [| done]. by rewrite vit_call_vit, Hp.
Qed.

(** Lines after the first, each behind an end of line. *)
Definition more (lines : list (list Z)) : list Z := concat ((fun l => EOL ++ l) <$> lines).

Lemma text_of_more x lines : text_of (x :: lines) = x ++ more lines ++ EOL.
Proof.
  unfold text_of, more. revert x. induction lines as [| y lines IH]; intros x; cbn [fmap list_fmap concat] in *.
  - by rewrite app_nil_r.
  - rewrite IH. by rewrite <- !app_assoc.
Qed.

Lemma more_app a b : more (a ++ b) = more a ++ more b.
Proof. unfold more. by rewrite fmap_app, concat_app. Qed.

Lemma head_frames : keeps w_adc report_head /\ keeps (fun w => sh_gas_r0_mv (w_hel w)) report_head.
Proof.
  unfold report_head, rep_motion, rep_restart, rep_fall, rep_pulse, rep_climate, rep_voc, take_fall, vit_result,
    SmartHelmet_UartTakeRestart.
  split; repeat first [keeps_step | intros v; cbn; by destruct (motion_hold _ _ _)].
Qed.

(** The first four lines, and what they leave for the others. *)
Lemma head_text w : data_ok (sh_sensors (w_sens w)) ->
  eval report_head w = hd [] (head_lines w) ++ more (tail (head_lines w)) /\
  alen (eval report_head w) < 130.
Proof.
  intros Hd. unfold report_head, head_lines, more. cbn [hd tail fmap list_fmap concat]. io.
  rewrite (rep_motion_text w). pose proof (val_motion_len (w_hel w)).
  set (w1 := run (rep_motion []) w).
  assert (w_uart w1 = w_uart w /\ w_vit w1 = w_vit w /\ w_sens w1 = w_sens w) as (U1 & V1 & S1)
    by (split_and!; apply run_keeps; unfold rep_motion; keeps_tac).
  clearbody w1. rewrite (rep_restart_text _ w1) by room. rewrite U1. pose proof (yes_no_len (sh_restart_seen (w_uart w))).
  match goal with |- context [run (rep_restart ?l) w1] => set (w2 := run (rep_restart l) w1) end.
  assert (w_vit w2 = w_vit w /\ w_sens w2 = w_sens w) as [V2 S2] by done. clearbody w2.
  rewrite (rep_fall_text _ w2) by room. rewrite V2. pose proof (fall_len (ENABLE_VITALS_PROXY && v_fall (w_vit w))).
  match goal with |- context [run (rep_fall ?l) w2] => set (w3 := run (rep_fall l) w2);
    assert (pulse_text (v_st (w_vit w3)) = pulse_text (v_st (w_vit w))) as V3 by (subst w3; by rewrite rep_fall_pulse, V2);
    assert (w_sens w3 = w_sens w2) as S3 by (apply run_keeps; unfold rep_fall, take_fall, vit_result; keeps_tac) end.
  clearbody w3. rewrite S2 in S3. rewrite (rep_pulse_text _ w3) by room. rewrite V3. pose proof (pulse_len (v_st (w_vit w))).
  match goal with |- context [run (rep_pulse ?l) w3] => assert (run (rep_pulse l) w3 = w3) as -> by
    (unfold rep_pulse; by destruct (negb ENABLE_VITALS_PROXY)) end.
  destruct Hd as (Hv & Hh & Ht & Hb). set (s := sh_sensors (w_sens w)) in *.
  pose proof (val_x100_len ENABLE_MLX90614 (mlx90614_ok s) _ (chars "C") Hb eq_refl).
  pose proof (val_x100_len ENABLE_HDC1080 (hdc1080_ok s) _ (chars "C") (i16_range (hdc_temp_x100 s + AMB_OFFSET_X100)) eq_refl).
  pose proof (val_x100_len ENABLE_HDC1080 (hdc1080_ok s) _ (chars "%") (i16_range (hdc_humidity_x100 s)) eq_refl).
  pose proof (voc_len s Hv).
  rewrite (rep_climate_text _ w3) by (rewrite ?S3; done || room). cbv zeta. rewrite S3. fold s.
  match goal with |- context [run (rep_climate ?l) w3] => change (run (rep_climate l) w3) with w3 end.
  rewrite (rep_voc_text _ w3) by (rewrite ?S3; done || room). cbv zeta. rewrite S3. fold s.
  split; [by rewrite <- !app_assoc, app_nil_r | room].
Qed.

Lemma gases_text l w : alen (sh_gas_r0_mv (w_hel w)) = 3 -> alen l < 130 ->
  eval (report_gases l) w = l ++ more (gas_lines w) /\ alen (eval (report_gases l) w) < 180.
Proof.
  intros Hr Hl. unfold report_gases, gas_lines, more, smart_helmet_adc_co, smart_helmet_adc_nh3, smart_helmet_adc_no2. cbn [fmap list_fmap concat].
  assert (forall r, is_u16 (shCoPpm r) /\ alen (dec (shCoPpm r)) <= 4) as Hco
    by (intros r; pose proof (co_range r); split; [rlia | apply alen_dec; lia]).
  assert (forall r, is_u16 (shNh3Ppm r) /\ alen (dec (shNh3Ppm r)) <= 4) as Hnh
    by (intros r; pose proof (nh3_range r); split; [rlia | apply alen_dec; lia]).
  assert (forall r, is_i16 (shNo2PpmX100 r) /\ alen (x100_text (shNo2PpmX100 r)) <= 7) as Hno
    by (intros r; pose proof (no2_range r); assert (is_i16 (shNo2PpmX100 r)) by rlia; split; [done | by apply alen_x100]).
  pose proof (val_gas_len w 1 0 (fun r => dec (shCoPpm r)) ltac:(intros x; destruct (Hco x); lia)).
  pose proof (val_gas_len w 2 1 (fun r => dec (shNh3Ppm r)) ltac:(intros x; destruct (Hnh x); lia)).
  pose proof (val_gas_len w 3 2 (fun r => x100_text (shNo2PpmX100 r)) ltac:(intros x; apply Hno)).
  io. rewrite (rep_gas_text (chars "co:") _ _ _ (fun r => dec (shCoPpm r)));
    [| room | intros x; destruct (Hco x); lia | intros x l' Hl'; destruct (Hco x); apply shAppendU_fits; [done | room]].
  match goal with |- context [run (rep_gas ?a ?b ?c ?d ?e) w] => destruct (rep_gas_run a b c d e w) as (A1 & L1 & G1);
    set (w1 := run (rep_gas a b c d e) w) in * end. clearbody w1.
  rewrite (rep_gas_text (chars "nh3:") _ _ _ (fun r => dec (shNh3Ppm r)));
    [| room | intros x; destruct (Hnh x); lia | intros x l' Hl'; destruct (Hnh x); apply shAppendU_fits; [done | room]].
  match goal with |- context [run (rep_gas ?a ?b ?c ?d ?e) w1] => destruct (rep_gas_run a b c d e w1) as (A2 & L2 & G2);
    set (w2 := run (rep_gas a b c d e) w1) in * end. clearbody w2.
  rewrite (val_gas_ext w w1) by (lia || done || congruence || (apply G1; lia)).
  rewrite (rep_gas_text (chars "no2:") _ _ _ (fun r => x100_text (shNo2PpmX100 r)));
    [| room | intros x; apply Hno | intros x l' Hl'; destruct (Hno x); rewrite i16_small by done;
       apply shAppendX100_fits; [done | room]].
  rewrite (val_gas_ext w w2) by (lia || done || congruence || (rewrite G2, G1 by lia; done)).
  split; [by rewrite <- !app_assoc, app_nil_r | room].
Qed.

Lemma report_text_eq w :
  data_ok (sh_sensors (w_sens w)) -> alen (sh_gas_r0_mv (w_hel w)) = 3 ->
  eval report_text w = text_of (report_lines w) /\ alen (eval report_text w) < LINE.
Proof.
  intros Hd Hr. destruct (head_text w Hd) as [Eh Lh]. destruct head_frames as [Ka Kg].
  assert (w_adc (run report_head w) = w_adc w) as Ea by apply Ka.
  assert (sh_gas_r0_mv (w_hel (run report_head w)) = sh_gas_r0_mv (w_hel w)) as Er by apply (Kg w).
  unfold report_text. io. destruct (gases_text (eval report_head w) (run report_head w)) as [Eg Lg];
    [by rewrite Er | done |].
  rewrite (shAppend_fits LINE EOL) by room. split; [| room]. rewrite Eg, Eh.
  assert (gas_lines (run report_head w) = gas_lines w) as ->.
  { unfold gas_lines. by rewrite !(val_gas_ext w (run report_head w)) by (rewrite ?Ea, ?Er; done || lia). }
  unfold report_lines. change (head_lines w ++ gas_lines w) with (hd [] (head_lines w) :: (tail (head_lines w) ++ gas_lines w)).
  by rewrite text_of_more, more_app, <- !app_assoc.
Qed.
End text.

(** * The frames *)
Section frames.
Context `{HelmetConfig} `{BoardConfig} `{Platform}.

Definition plain (l : list Z) : Prop := Forall (fun c => is_eol c = false) l.
Definition good_line (l : list Z) : Prop := l <> [] /\ plain l /\ alen l <= 37.

Lemma plain_app a b : plain a -> plain b -> plain (a ++ b).
Proof. apply Forall_app_2. Qed.

Lemma plain_dec v : 0 <= v < 10 ^ 10 -> plain (dec v).
Proof.
  intros Hv. destruct (dec_spec v Hv) as (_ & Hd & _). eapply Forall_impl; [exact Hd |].
  intros c Hc. unfold is_digit, is_eol in *. apply orb_false_iff. rewrite !Z.eqb_neq. lia.
Qed.

Lemma plain_x100 v : is_i16 v -> plain (x100_text v).
Proof.
  intros Hv. destruct (x100_parts v Hv) as (Ha & Hb & Hc & _). unfold x100_text.
  repeat apply plain_app; try (apply plain_dec; lia); [| by repeat constructor].
  destruct (v <? 0); by repeat constructor.
Qed.

Lemma skip_line pre l k : Forall (fun c => is_eol c = true) pre -> plain l -> l <> [] ->
  skip_eol (pre ++ l ++ EOL ++ k) = l ++ EOL ++ k /\ line_of (l ++ EOL ++ k) = l.
Proof.
  intros Hpre Hl Hne. split.
  - induction Hpre as [| c pre Hc Hpre IH]; cbn [app skip_eol]; [| by rewrite Hc].
    destruct l as [| c l]; [done |]. apply Forall_cons in Hl as [Hc _]. cbn [app skip_eol]. by rewrite Hc.
  - clear Hne. induction Hl as [| c l Hc Hl IH]; [done |]. cbn [app line_of]. by rewrite Hc, IH.
Qed.

Lemma skip_all pre : Forall (fun c => is_eol c = true) pre -> skip_eol pre = [].
Proof. induction 1 as [| c pre Hc Hpre IH]; cbn [skip_eol]; [done | by rewrite Hc]. Qed.

Lemma send_frames_text lines : forall fuel pre w,
  Forall (fun c => is_eol c = true) pre -> Forall good_line lines ->
  (length (pre ++ text_of lines) < fuel)%nat ->
  send_frames fuel (pre ++ text_of lines) w = send_all lines w.
Proof.
  induction lines as [| l lines IH]; intros [| fuel] pre w Hpre Hg Hf; try lia; cbn [send_frames send_all].
  - unfold text_of. cbn [fmap list_fmap concat]. rewrite app_nil_r. destruct (_ =? 0); [done |].
    rewrite skip_all by done. by destruct fuel.
  - apply Forall_cons in Hg as [(Hne & Hpl & Hlen) Hg].
    assert (text_of (l :: lines) = l ++ EOL ++ text_of lines) as E by (unfold text_of; cbn; by rewrite <- app_assoc).
    rewrite E in *. destruct (skip_line pre l (text_of lines) Hpre Hpl Hne) as [-> ->].
    assert (forall x : list Z, x <> [] -> (alen x =? 0) = false) as Hnz
      by (intros [|]; [done | intros _; apply Z.eqb_neq; unfold alen; cbn; lia]).
    rewrite Hnz by (intros Hn; apply app_eq_nil in Hn as [_ Hn]; by apply app_eq_nil in Hn as [Hn _]).
    rewrite (take_ge l) by (unfold alen in Hlen; lia). rewrite Hnz, drop_app_length by done.
    unfold mbind, M_bind. destruct (negb _); [done |]. apply IH; [by repeat constructor | done |].
    assert (length l <> 0)%nat by (by destruct l). rewrite !length_app in *. lia.
Qed.

Lemma good_cons name v : name <> [] -> plain name -> alen name <= 8 -> plain v -> alen v <= 10 -> good_line (name ++ v).
Proof.
  intros Hn Hp Hl Hv Hlv. split_and!; [by destruct name | by apply plain_app |]. rewrite alen_app. lia.
Qed.

Lemma plain_chars s : forallb (fun c => negb (is_eol c)) (chars s) = true -> plain (chars s).
Proof.
  intros Hs. apply Forall_forall. intros c Hc. rewrite forallb_forall in Hs.
  apply negb_true_iff, Hs, list_elem_of_In. done.
Qed.

Lemma plain_x100_val e ok v unit : is_i16 v -> plain unit -> plain (val_x100 e ok v unit).
Proof.
  intros Hv Hu. unfold val_x100. destruct (negb e); [by apply plain_chars |]. destruct (negb ok); [by apply plain_chars |].
  apply plain_app; [by apply plain_x100 | done].
Qed.

Lemma plain_gas w ch r text : (forall x, plain (text x)) -> plain (val_gas w ch r text).
Proof.
  intros Ht. unfold val_gas. destruct (negb _); [by apply plain_chars |]. apply plain_app; [apply Ht | by apply plain_chars].
Qed.

Ltac plain_cases := repeat match goal with |- context [if ?b then _ else _] => destruct b end;
  apply plain_chars; reflexivity.

Lemma plain_motion h : plain (val_motion h).
Proof. unfold val_motion. plain_cases. Qed.
Lemma plain_yes_no b : plain (yes_no b).
Proof. unfold yes_no. plain_cases. Qed.
Lemma plain_fall b : plain (if negb ENABLE_LIS3DH then DISABLED else yes_no b).
Proof. unfold yes_no. plain_cases. Qed.
Lemma plain_pulse s : plain (if negb ENABLE_VITALS_PROXY then DISABLED else pulse_text s).
Proof. unfold pulse_text. plain_cases. Qed.
Lemma plain_voc s : is_u16 (ccs811_tvoc s) ->
  plain (if negb ENABLE_CCS811 then DISABLED else if negb (ccs811_ok s) then chars "na" else dec (ccs811_tvoc s) ++ chars "ppb").
Proof.
  intros Hv. destruct (negb _); [by apply plain_chars |]. destruct (negb _); [by apply plain_chars |].
  apply plain_app; [apply plain_dec; cbn; rlia | by apply plain_chars].
Qed.

(** Each line is plain and fits its frame. *)
Lemma report_lines_good w : data_ok (sh_sensors (w_sens w)) -> Forall good_line (report_lines w).
Proof.
  intros (Hv & Hh & Ht & Hb). unfold report_lines, head_lines, gas_lines. set (s := sh_sensors (w_sens w)) in *.
  assert (forall r, plain (dec (shCoPpm r)) /\ alen (dec (shCoPpm r)) <= 7) as Hco
    by (intros r; pose proof (co_range r); pose proof (alen_dec (shCoPpm r) 4 ltac:(lia) ltac:(lia)); split; [apply plain_dec; lia | lia]).
  assert (forall r, plain (dec (shNh3Ppm r)) /\ alen (dec (shNh3Ppm r)) <= 7) as Hnh
    by (intros r; pose proof (nh3_range r); pose proof (alen_dec (shNh3Ppm r) 4 ltac:(lia) ltac:(lia)); split; [apply plain_dec; lia | lia]).
  assert (forall r, plain (x100_text (shNo2PpmX100 r)) /\ alen (x100_text (shNo2PpmX100 r)) <= 7) as Hno
    by (intros r; pose proof (no2_range r); split; [apply plain_x100; rlia | apply alen_x100; rlia]).
  cbn [app].
  repeat (apply Forall_cons; split; [apply good_cons; [discriminate | apply plain_chars; reflexivity | lens; lia | |] |]);
    [.. | apply Forall_nil; exact I].
  - apply plain_motion.
  - pose proof (val_motion_len (w_hel w)). lia.
  - apply plain_yes_no.
  - pose proof (yes_no_len (sh_restart_seen (w_uart w))). lia.
  - apply plain_fall.
  - pose proof (fall_len (ENABLE_VITALS_PROXY && v_fall (w_vit w))). lia.
  - apply plain_pulse.
  - pose proof (pulse_len (v_st (w_vit w))). lia.
  - apply plain_x100_val; [done | by apply plain_chars].
  - pose proof (val_x100_len ENABLE_MLX90614 (mlx90614_ok s) _ (chars "C") Hb eq_refl). lia.
  - apply plain_x100_val; [apply i16_range | by apply plain_chars].
  - pose proof (val_x100_len ENABLE_HDC1080 (hdc1080_ok s) _ (chars "C") (i16_range (hdc_temp_x100 s + AMB_OFFSET_X100)) eq_refl). lia.
  - apply plain_x100_val; [apply i16_range | by apply plain_chars].
  - pose proof (val_x100_len ENABLE_HDC1080 (hdc1080_ok s) _ (chars "%") (i16_range (hdc_humidity_x100 s)) eq_refl). lia.
  - by apply plain_voc.
  - pose proof (voc_len s Hv). lia.
  - apply plain_gas. intros r. apply Hco.
  - apply val_gas_len. intros r. apply Hco.
  - apply plain_gas. intros r. apply Hnh.
  - apply val_gas_len. intros r. apply Hnh.
  - apply plain_gas. intros r. apply Hno.
  - apply val_gas_len. intros r. apply Hno.
Qed.

(** [C19] The report goes out whole: for every state of the firmware the text
    that the bounded builder makes is the eleven lines of the specification,
    none cut by the 192-byte buffer, and sending it sends exactly those lines,
    one frame each and uncut, up to the first frame the link refuses. *)
Theorem report_sends_its_lines w :
  data_ok (sh_sensors (w_sens w)) -> alen (sh_gas_r0_mv (w_hel w)) = 3 ->
  eval report_text w = text_of (report_lines w) /\
  alen (eval report_text w) < LINE /\
  forall w', shSendReportLines (eval report_text w) w' =
    (sent ← send_all (report_lines w); when sent (SmartHelmet_UartNoteReportSent true)) w'.
Proof.
  intros Hd Hr. destruct (report_text_eq w Hd Hr) as [E Hl]. split; [exact E |]. split; [exact Hl |].
  intros w'. rewrite E. unfold shSendReportLines. pose proof (report_lines_good w Hd).
  pose proof (send_frames_text (report_lines w) (S (length (text_of (report_lines w)))) [] w') as Es.
  cbn [app] in Es. unfold mbind, M_bind. rewrite Es; [done | done | done | lia].
Qed.
End frames.

(** * The motion line *)

(** The hold after a series of reports, given whether a step was latched
    before each. *)
Definition motion_run (flags : list bool) : bool * Z :=
  fold_left (fun '(h, q) since => motion_hold since h q) flags (false, 0).

(** The last [n] flags, the newest first. *)
Definition latest (n : Z) (flags : list bool) : list bool := take (Z.to_nat n) (rev flags).

Lemma motion_run_state flags :
  motion_run flags =
  match rev flags with
  | true :: _ => (true, 0)
  | false :: true :: _ => (true, 1)
  | _ => (false, 0)
  end.
Proof.
  induction flags as [| f flags IH] using rev_ind; [done |]. unfold motion_run in *.
  rewrite fold_left_app, rev_app_distr, IH. cbn [fold_left rev app].
  by destruct f, (rev flags) as [| [] [| [] k]].
Qed.

(** The report says "moving" exactly when a step over the threshold was
    latched before one of the last [MOTION_STILL_REPORTS] reports, the present
    one included. *)
Theorem motion_line_holds flags :
  fst (motion_run flags) = existsb id (latest MOTION_STILL_REPORTS flags).
Proof.
  rewrite motion_run_state. unfold latest, MOTION_STILL_REPORTS.
  destruct (rev flags) as [| [] [| [] k]]; done.
Qed.

(** * The gas lines *)
Lemma gas_rs_range mv : gas_in_range mv = true ->
  0 <= (MICS_VCC_MV - mv) * 1000 / mv <= 65000 /\ u32 ((MICS_VCC_MV - mv) * 1000) = (MICS_VCC_MV - mv) * 1000.
Proof.
  unfold gas_in_range, MICS_VCC_MV. rewrite andb_true_iff, Z.leb_le, Z.ltb_lt. intros Hm. split; [| apply u32_small; rlia].
  split; [apply Z.div_pos; lia | apply Z.div_le_upper_bound; lia].
Qed.

Lemma gas_rs_antitone mv mv' : 50 <= mv <= mv' -> mv' < MICS_VCC_MV ->
  (MICS_VCC_MV - mv') * 1000 / mv' <= (MICS_VCC_MV - mv) * 1000 / mv.
Proof.
  unfold MICS_VCC_MV. intros Hm Hm'. etransitivity.
  - apply (Z.div_le_mono ((3300 - mv') * 1000) ((3300 - mv) * 1000) mv'); lia.
  - apply Z.div_le_compat_l; lia.
Qed.

(** The ratio without wrap-around, for a reference up to 3000 mV. *)
Lemma gas_ratio_exact mv r0 : gas_in_range mv = true -> 50 <= r0 <= 3000 ->
  let rs x := (MICS_VCC_MV - x) * 1000 / x in
  shGasRatioX100 mv r0 = rs mv * 100 / rs r0 /\ 100 <= rs r0.
Proof.
  intros Hm Hr rs. destruct (gas_rs_range mv Hm) as [Hrs E]. 
  assert (gas_in_range r0 = true) as Hr0 by (unfold gas_in_range, MICS_VCC_MV; rewrite andb_true_iff, Z.leb_le, Z.ltb_lt; lia).
  destruct (gas_rs_range r0 Hr0) as [_ E0].
  assert (100 <= rs r0) as H100 by (subst rs; unfold MICS_VCC_MV; apply Z.div_le_lower_bound; lia).
  split; [| done]. unfold shGasRatioX100. rewrite Hm, Hr0, E, E0. cbn [negb orb]. fold (rs mv) (rs r0) in *.
  rewrite (proj2 (Z.eqb_neq _ _)) by lia. rewrite u32_small by rlia.
  apply u16_small. split; [apply Z.div_pos; lia |]. apply Z.div_lt_upper_bound; nia.
Qed.

(** The gas levels are monotone in the sensor voltage: with a reference up
    to 3000 mV, a higher voltage (a lower sensor resistance) never lowers the
    reported CO and NH3 and never raises NO2, and a reading at the reference
    gives the lowest level of each. *)
Theorem gas_levels_monotone r0 mv mv' :
  50 <= r0 <= 3000 -> 50 <= mv <= mv' -> mv' < MICS_VCC_MV ->
  shCoPpm (shGasRatioX100 mv r0) <= shCoPpm (shGasRatioX100 mv' r0) /\
  shNh3Ppm (shGasRatioX100 mv r0) <= shNh3Ppm (shGasRatioX100 mv' r0) /\
  shNo2PpmX100 (shGasRatioX100 mv' r0) <= shNo2PpmX100 (shGasRatioX100 mv r0) /\
  shGasRatioX100 r0 r0 = 100 /\ shCoPpm 100 = 1 /\ shNh3Ppm 100 = 1 /\ shNo2PpmX100 100 = 5.
Proof.
  intros Hr Hm Hm'.
  assert (forall x, 50 <= x < MICS_VCC_MV -> gas_in_range x = true) as Hin
    by (intros x Hx; unfold gas_in_range; rewrite andb_true_iff, Z.leb_le, Z.ltb_lt; lia).
  destruct (gas_ratio_exact mv r0) as [E H100]; [apply Hin; lia | done |].
  destruct (gas_ratio_exact mv' r0) as [E' _]; [apply Hin; lia | done |].
  destruct (gas_ratio_exact r0 r0) as [E0 _]; [apply Hin; unfold MICS_VCC_MV; lia | done |].
  assert (shGasRatioX100 mv' r0 <= shGasRatioX100 mv r0) as Hle.
  { rewrite E, E'. apply Z.div_le_mono; [lia |]. pose proof (gas_rs_antitone mv mv' Hm Hm'). lia. }
  rewrite E0, Z.mul_comm, Z.div_mul by lia. revert Hle. generalize (shGasRatioX100 mv r0) (shGasRatioX100 mv' r0).
  intros a b Hle. unfold shCoPpm, shNh3Ppm, shNo2PpmX100. split_and!; repeat zcase; lia.
Qed.

Lemma gas_levels_monotone_witness :
  shCoPpm (shGasRatioX100 400 500) <= shCoPpm (shGasRatioX100 2900 500) /\ shCoPpm (shGasRatioX100 2900 500) = 1000.
Proof.
  split; [| reflexivity].
  refine (proj1 (gas_levels_monotone 500 400 2900 _ _ _)); unfold MICS_VCC_MV; lia.
Defined.

(** With a reference above 3000 mV the ratio can exceed 16 bits, and the
    stored ratio is then far too low: a clean reading (voltage far below the
    reference) is reported as 40 ppm of CO instead of the lowest level. *)
Lemma gas_ratio_truncates : shGasRatioX100 1112 3290 = 30 /\ shCoPpm (shGasRatioX100 1112 3290) = 40.
Proof. vm_compute. done. Qed.

(** * When a report may be sent *)
Section held.
Context `{HelmetConfig} `{BoardConfig} `{Platform}.

Definition can_send (w : World) : bool := sh_passthrough (w_uart w) && required_ok (sh_sensors (w_sens w)).

Lemma text_trace : keeps w_trace report_text.
Proof.
  assert (forall l, keeps w_trace (rep_fall l)) as Hf.
  { intros l w. unfold rep_fall. destruct (negb ENABLE_LIS3DH); [done |]. fold (run (l0 ← take_fall; mret l0) w).
    unfold take_fall, vit_result. destruct ENABLE_VITALS_PROXY eqn:Hp; [| done]. cbn [negb].
    pose proof (vit_call_silent (fun v => snd (SmartHelmet_VitalsTakeFall v)) w eq_refl) as E. rewrite Hp in E.
    unfold run in E. unfold mbind, M_bind. cbn [snd fst mret M_ret]. cbn [gets]. unfold gets. cbn [snd fst].
    by rewrite E. }
  unfold report_text, report_head, report_gases, rep_motion, rep_restart, rep_pulse, rep_climate, rep_voc, rep_gas,
    shGasValue, SmartHelmet_UartTakeRestart.
  repeat first [apply Hf | keeps_step].
Qed.

Lemma text_uart w : w_uart (run report_text w) = (w_uart w) <| sh_restart_seen := false |>.
Proof.
  unfold report_text, report_head. io.
  rewrite (run_keeps w_uart) by (unfold report_gases, rep_gas, shGasValue; keeps_tac).
  rewrite (run_keeps w_uart) by (unfold rep_voc; keeps_tac).
  rewrite (run_keeps w_uart) by (unfold rep_climate; keeps_tac).
  rewrite (run_keeps w_uart) by (unfold rep_pulse; keeps_tac).
  rewrite (run_keeps w_uart) by (unfold rep_fall, take_fall, vit_result; keeps_tac).
  match goal with |- context [run (rep_restart ?l) ?v] =>
    change (w_uart (run (rep_restart l) v)) with ((w_uart v) <| sh_restart_seen := false |>) end.
  by rewrite (run_keeps w_uart) by (unfold rep_motion; keeps_tac).
Qed.

(** ReportStart, with its condition. *)
Lemma report_start_eq w :
  run SmartHelmet_ReportStart w =
  run (when (can_send w) report_poll;;
       line ← report_text;
       when (can_send w) (shSendReportLines line);;
       call (MessageCancelAll REPORT_TICK);;
       call (MessageSendLater REPORT_TICK WISUN_REPORT_MS)) w.
Proof.
  unfold SmartHelmet_ReportStart.
  assert (eval (and_then SmartHelmet_UartInPassthrough SmartHelmet_SensorsReady) w = can_send w /\
          run (and_then SmartHelmet_UartInPassthrough SmartHelmet_SensorsReady) w = w) as [Ec Er].
  { unfold and_then, SmartHelmet_UartInPassthrough, SmartHelmet_SensorsReady, shSensorsRequiredOk, can_send. io.
    by destruct (sh_passthrough (w_uart w)). }
  rewrite run_bind, Ec, Er. done.
Qed.

(** The payload is held outside passthrough: when the link is not in
    passthrough or a required device is missing, a report reads no sensor and
    sends nothing; the only calls it makes renew the report timer, and the
    link is left as it was apart from the restart flag it reports. *)
Theorem report_held w : can_send w = false ->
  let w' := run SmartHelmet_ReportStart w in
  c_req <$> w_trace w' =
    MessageSendLater REPORT_TICK WISUN_REPORT_MS :: MessageCancelAll REPORT_TICK :: (c_req <$> w_trace w) /\
  w_uart w' = (w_uart w) <| sh_restart_seen := false |> /\
  w_i2c w' = w_i2c w /\ w_sens w' = w_sens w.
Proof.
  intros Hc w'. subst w'. rewrite report_start_eq, Hc. io.
  assert (w_trace (run report_text w) = w_trace w) as Et by apply text_trace.
  assert (w_i2c (run report_text w) = w_i2c w /\ w_sens (run report_text w) = w_sens w) as [Ei Es].
  { split; apply run_keeps; unfold report_text, report_head, report_gases, rep_motion, rep_restart, rep_fall, rep_pulse,
      rep_climate, rep_voc, rep_gas, shGasValue, take_fall, vit_result, SmartHelmet_UartTakeRestart; keeps_tac. }
  split_and!; [cbn; by rewrite Et | | exact Ei | exact Es].
  cbn. apply text_uart.
Qed.
End held.

(** * Examples on the bench *)
#[local] Existing Instances bench shipped shipped_board.

Definition report_bench : World :=
  let w := world_start (mkbench [] [] 0) in
  w <| w_sens ::= (fun s => s <| sh_sensors ::= (fun d => d <| mlx90614_ok := true |> <| object_temp_x100 := 3652 |>) |>) |>
    <| w_adc ::= (fun a => a <| adc_millivolts := [0; 1650; 1650; 1650] |>) |>.

Lemma report_sends_its_lines_witness :
  take 5 (report_lines report_bench) =
    chars <$> ["motion:still"; "restart:no"; "fall:no"; "pulse:unknown"; "body:36.52C"]%string /\
  eval report_text report_bench = text_of (report_lines report_bench).
Proof.
  split; [vm_compute; reflexivity |].
  refine (proj1 (report_sends_its_lines report_bench _ _)); [| reflexivity].
  unfold data_ok. cbn. split_and!; rlia.
Defined.

Lemma report_held_witness :
  can_send report_bench = false /\ w_sens (run SmartHelmet_ReportStart report_bench) = w_sens report_bench.
Proof.
  split; [reflexivity |]. destruct (report_held report_bench eq_refl) as (_ & _ & _ & E). exact E.
Defined.
