(* ===== verification/Uart.v ===== *)
(** The link check of smart_helmet_uart.c: received bytes, the AT command
    sequence, the provisioning, the way into passthrough, and the messages of
    the stream. *)
From S2P Require Import Prelude Config Decimal Telemetry Vitals Board Platform World Stream I2c Display Text Wisun Report.

(** * Commands

    Read-only probes with the text that a reply must contain, if any. *)
Definition sh_at_cmds : list (list Z * option (list Z)) :=
  [ (chars "version", None); (chars "role", Some (chars "role:")); (chars "param", Some (chars "state"));
    (chars "mac", Some (chars ":")); (chars "ip", None); (chars "fstat", None); (chars "domain", None);
    (chars "cca", None); (chars "txpower", None); (chars "pan", None); (chars "chrate", None);
    (chars "chconfig", None); (chars "neighbor", None) ].

Definition SH_AT_CMD_COUNT : Z := 13.

Definition at_cmd (i : Z) : list Z * option (list Z) := nth (Z.to_nat i) sh_at_cmds ([], None).

(** The verdict on the reply [asm] to a command. *)
Definition shAtReplyOk (idx : Z) (asm : list Z) : bool :=
  let '(cmd, expect) := at_cmd idx in
  if SH_AT_CMD_COUNT <=? idx then false
  else if shContainsFold asm (chars "invalid") then false
  else if shContainsFold asm (chars "ok") then true
  else if bool_decide (cmd = chars "ip") then shIpv6Like asm
  else if bool_decide (cmd = chars "role") then
    shContainsFold asm (chars "role:1") || shContainsFold asm (chars "role:2") ||
    shContainsFold asm (chars "router") || shContainsFold asm (chars "border")
  else
    match expect with
    | Some e => if negb (shContainsFold cmd e) then shContainsFold asm e
                else u16 (alen cmd + 2) <? printable asm
    | None => u16 (alen cmd + 2) <? printable asm
    end.

(** * Provisioning *)

(** The queue of shProvPlan: the settings that the reply does not show. *)
Definition shProvQueue (cmd : list Z) (q : list (list Z)) : list (list Z) :=
  if 8 <=? Z.of_nat (length q) then q else q ++ [take 39 cmd].

Definition queue_if (c : bool) (cmd : list Z) (q : list (list Z)) : list (list Z) :=
  if c then shProvQueue cmd q else q.

Definition shProvPlan (asm : list Z) : list (list Z) :=
  let has s := shContainsFold asm s in
  let q := queue_if (negb (has WISUN_NETNAME)) (chars "netname " ++ WISUN_NETNAME) [] in
  let q := queue_if (has (chars "border") && negb (has (chars "0x" ++ WISUN_PAN_HEX))) (chars "pan 0x" ++ WISUN_PAN_HEX) q in
  let q := queue_if (negb (has (chars "domain=" ++ WISUN_DOMAIN)) && negb (has (chars "domain:" ++ WISUN_DOMAIN)))
             (chars "domain " ++ WISUN_DOMAIN) q in
  let q := queue_if (negb (has (chars "rate=" ++ WISUN_CHRATE_KBPS ++ chars "kbps")) &&
                     negb (has (chars "rate:" ++ WISUN_CHRATE_KBPS)))
             (chars "chrate " ++ WISUN_CHRATE_KBPS) q in
  let q := queue_if (negb (has (chars "20dbm")) && negb (has (chars "txpower:20")) && negb (has (chars ": 20")))
             (chars "txpower " ++ WISUN_TXPOWER_DBM) q in
  let q := queue_if (negb (has (chars "-83"))) (chars "cca " ++ WISUN_CCA_DBM) q in
  queue_if (negb (has (chars "udp_port=" ++ WISUN_UDP_PORT))) (chars "udpopts udp_port " ++ WISUN_UDP_PORT) q.

Section uart.
Context `{HelmetConfig} `{BoardConfig} `{Platform}.

Definition shAsmHas (needle : list Z) : IO bool := uart_get (fun u => shContainsFold (sh_rx_asm u) needle).

Definition clear_asm : IO unit := uart_do (fun u => u <| sh_rx_asm := [] |>).
Definition set_step (step : Z) : IO unit := uart_do (fun u => u <| sh_wisun_step := step |>).

Definition shProvSendCurrent : IO unit :=
  u ← uart_get id;
  if Z.of_nat (length (sh_prov_q u)) <=? sh_prov_i u then
    uart_do (fun u => u <| sh_prov_dirty := 1 |>);;
    clear_asm;; set_step SH_STEP_PROV_SET;;
    shWisunSendProbe (chars "save");;
    shWisunArm WISUN_LINK_TIMEOUT_MS;;
    uart_do (fun u => u <| sh_prov_i := 0xff |>)
  else
    clear_asm;; set_step SH_STEP_PROV_SET;;
    shWisunSendProbe (default [] (sh_prov_q u !! Z.to_nat (sh_prov_i u)));;
    shWisunArm WISUN_LINK_TIMEOUT_MS.

(** * The AT sequence *)
Definition shWisunLogResult : IO unit :=
  wisun_do (fun s => s <| ws_result :=
    if ws_module_seen s then smart_helmet_wisun_module_ok
    else if ws_rx_seen s then smart_helmet_wisun_rx_unknown
    else if ws_tx_ok s then smart_helmet_wisun_tx_only
    else smart_helmet_wisun_idle |>).

Definition at_verdict (s : wisun_status) : wisun_status :=
  let ok := (ws_at_fail s =? 0) && (0 <? ws_at_pass s) && (negb WISUN_AT_RESET_FIRST || ws_reset_seen s) in
  let s := s <| ws_at_ok := ok |> in
  if ok || ws_module_seen s then s <| ws_result := smart_helmet_wisun_module_ok |> else s.

Definition shAtFinish : IO unit :=
  set_step SH_STEP_DONE;;
  wisun_do at_verdict;;
  shWisunLogResult;;
  t ← uart_get sh_uart_task;
  when t (call (MessageCancelAll WISUN_LINK_CHECK));;
  when ENABLE_WISUN_REPORT
    (uart_do (fun u => u <| sh_passthrough := false |>);; clear_asm;; leave_to SH_STEP_DEST).

Definition shAtSendCurrent : IO unit :=
  idx ← uart_get sh_at_idx;
  if SH_AT_CMD_COUNT <=? idx then shAtFinish else
  clear_asm;;
  wisun_do (fun s => s <| ws_at_cmd := take 11 (fst (at_cmd idx)) |>);;
  set_step SH_STEP_CMD;;
  shWisunSendProbe (fst (at_cmd idx));;
  shWisunArm WISUN_LINK_TIMEOUT_MS.

Definition shAtNoteResult (pass : bool) : IO unit :=
  wisun_do (fun s =>
    if pass then (if ws_at_pass s <? 0xff then s <| ws_at_pass ::= (fun n => u8 (n + 1)) |> else s)
    else if ws_at_fail s <? 0xff then s <| ws_at_fail ::= (fun n => u8 (n + 1)) |> else s);;
  uart_do (fun u => u <| sh_at_idx ::= (fun n => u8 (n + 1)) |>);;
  shAtSendCurrent.

Definition note_status (data : list Z) : IO unit :=
  match shNoteStatus data with
  | Some c => wisun_do (fun s => s <| ws_status_code := c |>)
  | None => mret tt
  end.

(** * The timer of the link *)
Definition on_reset : IO unit :=
  u ← uart_get id;
  if ws_reset_seen (sh_wisun u) then
    if WISUN_PROVISION && (sh_prov_done u =? 0) then
      clear_asm;; set_step SH_STEP_PROV_READ;;
      shWisunSendProbe (chars "param");;
      shWisunArm WISUN_LINK_TIMEOUT_MS
    else uart_do (fun u => u <| sh_at_idx := 0 |>);; shAtSendCurrent
  else if ws_tries (sh_wisun u) =? 0 then
    wisun_do (fun s => s <| ws_tries := 1 |>);; clear_asm;;
    shWisunSendProbe (chars "reset");;
    shWisunArm WISUN_RESET_WAIT_MS
  else if ws_tries (sh_wisun u) <? WISUN_RESET_RETRIES then
    wisun_do (fun s => s <| ws_tries ::= (fun n => u8 (n + 1)) |>);; clear_asm;;
    shWisunSendProbe (chars "reset");;
    shWisunArm WISUN_RESET_WAIT_MS
  else
    wisun_do (fun s => s <| ws_at_fail ::= (fun n => u8 (n + 1)) |>);; shAtFinish.

Definition on_prov_read : IO unit :=
  uart_do (fun u => u <| sh_prov_q := shProvPlan (sh_rx_asm u) |> <| sh_prov_i := 0 |>);;
  u ← uart_get id;
  if bool_decide (sh_prov_q u = []) then
    uart_do (fun u => u <| sh_prov_done := 1 |> <| sh_at_idx := 0 |>);; shAtSendCurrent
  else shProvSendCurrent.

Definition on_prov_set : IO unit :=
  i ← uart_get sh_prov_i;
  if i =? 0xff then
    uart_do (fun u => u <| sh_prov_done := 1 |> <| sh_wisun_step := SH_STEP_RESET |> <| sh_rx_asm := [] |>
      <| sh_wisun ::= (fun s => s <| ws_reset_seen := false |>) |>);;
    shWisunSendProbe (chars "svrst");;
    shWisunArm WISUN_RESET_WAIT_MS
  else
    uart_do (fun u => u <| sh_prov_i ::= (fun n => u8 (n + 1)) |>);; shProvSendCurrent.

Definition on_leave : IO unit :=
  next ← uart_get sh_leave_next;
  if next =? SH_STEP_RESET then
    uart_do (fun u => u <| sh_rx_asm := [] |> <| sh_wisun_step := SH_STEP_RESET |>
      <| sh_wisun ::= (fun s => s <| ws_tries := 0 |> <| ws_reset_seen := false |>) |>);;
    shWisunArm 200
  else
    clear_asm;; set_step SH_STEP_DEST;;
    shWisunSendProbe (chars "at_dest " ++ WISUN_BR_ADDR);;
    shWisunArm WISUN_LINK_TIMEOUT_MS.

Definition on_dest : IO unit :=
  uart_do (fun u => u <| sh_wisun_step := SH_STEP_PASS |> <| sh_passthrough := false |> <| sh_rx_asm := [] |>);;
  shWisunSendProbe (chars "+++");;
  shWisunArm WISUN_LINK_TIMEOUT_MS.

(** Silence after +++ is acceptance; a rejection is tried again twice. *)
Definition on_pass : IO unit :=
  u ← uart_get id;
  let has s := shContainsFold (sh_rx_asm u) s in
  let entered := has (chars "transparent") || has (chars "passthrough") in
  let rejected := has (chars "cmd too long") || has (chars "format err") in
  if rejected && (sh_too_long_retry u <? 2) then
    uart_do (fun u => u <| sh_too_long_retry ::= (fun n => u8 (n + 1)) |> <| sh_passthrough := false |>
      <| sh_rx_asm := [] |>);;
    leave_to SH_STEP_DEST
  else
    uart_do (fun u => u <| sh_wisun_step := SH_STEP_DONE |> <| sh_passthrough := entered || negb rejected |>);;
    p ← uart_get sh_passthrough;
    if negb p then mret tt else
    wisun_do (fun s => s <| ws_online := false |>);;
    SmartHelmet_SensorsShowAdcMv 0 0 0 0;;
    SmartHelmet_ReportStart.

Definition on_cmd : IO unit :=
  u ← uart_get id;
  note_status (sh_rx_asm u);;
  shAtNoteResult (shAtReplyOk (sh_at_idx u) (sh_rx_asm u)).

Definition shWisunOnTimeout : IO unit :=
  if negb ENABLE_WISUN_UART || negb ENABLE_WISUN_LINK_CHECK then mret tt else
  step ← uart_get sh_wisun_step;
  if step =? SH_STEP_RESET then on_reset
  else if step =? SH_STEP_PROV_READ then on_prov_read
  else if step =? SH_STEP_PROV_SET then on_prov_set
  else if step =? SH_STEP_LEAVE then on_leave
  else if step =? SH_STEP_DEST then on_dest
  else if step =? SH_STEP_PASS then on_pass
  else if step =? SH_STEP_CMD then on_cmd
  else mret tt.

(** * Received bytes *)
Definition vitals_restart : IO unit :=
  uart_do (fun u => u <| sh_restart_seen := true |>);;
  vit_call SmartHelmet_VitalsInit.

Definition shRxLineFlush : IO unit :=
  line ← uart_get sh_rx_line;
  if alen line =? 0 then mret tt else
  when (shContainsFold line (chars "cmd too long")) shOnCmdTooLong;;
  uart_do (fun u => u <| sh_rx_line := [] |>).

Definition rx_byte (b : Z) : IO unit :=
  if b =? 10 then
    line ← uart_get sh_rx_line;
    when (shContainsFold line (chars "RESTART_SENSOR")) vitals_restart;;
    shRxLineFlush
  else if b =? 13 then mret tt
  else
    line ← uart_get sh_rx_line;
    when (96 <=? alen line) shRxLineFlush;;
    uart_do (fun u => u <| sh_rx_line ::= (fun l => l ++ [b]) |>).

Definition shRxLinePush (data : list Z) : IO unit := for_each data rx_byte.

(** "send fail" and "send ok": the module's word on the last report. *)
Definition note_send_fail : IO unit :=
  was ← uart_get (fun u => ws_online (sh_wisun u));
  uart_do (fun u => u <| sh_wisun ::= (fun s => s <| ws_online := false |>) |> <| sh_send_ok_wait := false |>);;
  SmartHelmet_SensorsShowAdcMv 0 0 0 0;;
  when was (call (headsetSmOnWisunBrOnlineChanged false));;
  SmartHelmet_UartRejoin.

Definition note_send_ok : IO unit :=
  was ← uart_get (fun u => ws_online (sh_wisun u));
  uart_do (fun u => u <| sh_wisun ::= (fun s => s <| ws_online := true |>) |> <| sh_send_ok_wait := false |>
    <| sh_missed_ok := 0 |> <| sh_rejoining := false |> <| sh_too_long_retry := 0 |>);;
  when (negb was) (call (headsetSmOnWisunBrOnlineChanged true));;
  step ← uart_get sh_wisun_step;
  when (leaving step) (uart_do (fun u => u <| sh_wisun_step := SH_STEP_DONE |> <| sh_passthrough := true |>));;
  SmartHelmet_SensorsShowAdcMv 0 0 0 0.

Definition shWisunNoteRx (data : list Z) : IO unit :=
  if alen data =? 0 then mret tt else
  let has s := shContainsFold data s in
  wisun_do (fun s => s <| ws_rx_seen := true |> <| ws_last_line := shCopyPreview data |>);;
  when (has (chars "8856") || has (chars "role") || has (chars "status") || has (chars "phy") || has (chars "domain"))
    (wisun_do (fun s => s <| ws_module_seen := true |>);; note_status data);;
  step ← uart_get sh_wisun_step;
  when ((step =? 2) && shIpv6Like data) (wisun_do (fun s => s <| ws_ip_seen := true |>));;
  (if has (chars "send fail") then note_send_fail
   else if has (chars "send ok") then note_send_ok else mret tt);;
  when (has (chars "RESTART_SENSOR")) vitals_restart.

Definition shResetNoteBanner : IO unit :=
  mode ← shAsmHas (chars "AT Command mode");
  when mode (wisun_do (fun s => s <| ws_at_mode := true |>));;
  start ← shAsmHas (chars "Router start");
  when start (wisun_do (fun s => s <| ws_reset_seen := true |>);; shWisunArm WISUN_REPLY_SETTLE_MS).

(** The reply buffer keeps the first [WISUN_RX_BUF_SIZE] bytes. *)
Definition asm_add (data : list Z) (u : uart_st) : uart_st :=
  u <| sh_rx_asm ::= (fun l => l ++ take (Z.to_nat (WISUN_RX_BUF_SIZE - alen l)) data) |>.

Definition shUartConsume (data : list Z) : IO unit :=
  uart_do (asm_add data);;
  shWisunNoteRx data;;
  shRxLinePush data;;
  cb ← uart_get sh_uart_rx_cb;
  when cb (call (uart_rx_cb data));;
  step ← uart_get sh_wisun_step;
  if step =? SH_STEP_RESET then
    shResetNoteBanner;;
    seen ← uart_get (fun u => ws_reset_seen (sh_wisun u));
    when (negb seen) (shWisunArm WISUN_RESET_WAIT_MS)
  else when ((step =? SH_STEP_CMD) || (step =? SH_STEP_PROV_READ) || (step =? SH_STEP_PROV_SET))
    (shWisunArm WISUN_REPLY_SETTLE_MS).

(** One turn of the drain loop; it ends when the stream is empty. *)
Definition drain_turn : IO bool :=
  size ← call SourceBoundary;
  size ← (if size =? 0 then call SourceSize else mret size);
  if size =? 0 then mret false else
  ptr ← call (SourceMap size);
  match (ptr : option (list Z)) with
  | Some data => shUartConsume data
  | None => mret tt
  end;;
  call (SourceDrop size);;
  mret true.

(** A stream holds fewer than 65536 bytes and every turn drops at least one. *)
Definition shUartDrain : IO unit :=
  src ← uart_get sh_uart_source;
  if negb src then mret tt else repeat_m (Z.to_nat 65536) drain_turn.

Definition shRxPollArm : IO unit :=
  t ← uart_get sh_uart_task;
  when t (call (MessageCancelAll WISUN_RX_POLL);; call (MessageSendLater WISUN_RX_POLL WISUN_RX_POLL_MS)).

Definition SmartHelmet_UartHandleMessage (m : Message) : IO bool :=
  match m with
  | MsgTimer WISUN_RX_POLL => shUartDrain;; shRxPollArm;; mret true
  | MsgTimer WISUN_LINK_CHECK => shWisunOnTimeout;; mret true
  | MESSAGE_MORE_DATA => shUartDrain;; mret true
  | MESSAGE_MORE_SPACE => mret true
  | _ => mret false
  end.
End uart.
