(* ===== verification/Helmet.v ===== *)
(** The module task of smart_helmet.c: the LIS3DH log of the sensors file,
    the message dispatch, the motion poll, initialisation, power and close. *)
From S2P Require Import Prelude Config Fuse Change Decimal Telemetry Vitals Board Platform World Stream I2c Display Adc Sensors Text Wisun Report Uart.

Section helmet.
Context `{HelmetConfig} `{BoardConfig} `{Platform}.

(** * The LIS3DH log (smart_helmet_sensors.c) *)

(** The identity and FIFO reads feed the log only; [log_last_motion] is the
    static [last]. *)
Definition shLis3dhLogSample : IO unit :=
  if negb ENABLE_LIS3DH then mret tt else
  SmartHelmet_I2cReadReg 0 ADDR_LIS3DH 0x0F 1;;
  data ← read_accel;
  match data with
  | None => mret tt
  | Some b =>
    let a := accel_of b in
    set_accel a;;
    vit_call (SmartHelmet_VitalsPushAccel (fst (fst a)) (snd (fst a)) (snd a));;
    vit_call SmartHelmet_VitalsProcess;;
    motion ← gets (fun w => st_motion (v_st (w_vit w)));
    last ← sens_get log_last_motion;
    when (negb (bool_decide (motion = last)))
      (sens_do (fun s => s <| log_last_motion := motion |>);; SmartHelmet_ReportStart)
  end;;
  when LIS3DH_USE_FIFO (SmartHelmet_I2cReadReg 0 ADDR_LIS3DH 0x2F 1;; mret tt).

Definition shLis3dhLogArm : IO unit :=
  t ← sens_get sh_log_task;
  when t (call (MessageCancelAll LIS3DH_LOG_TICK);; call (MessageSendLater LIS3DH_LOG_TICK 1000)).

Definition lis3dh_chk (enable : Z) : IO Z :=
  t ← sens_get sh_log_task;
  if negb t then mret 0 else
  if negb (enable =? 0) then shLis3dhLogSample;; shLis3dhLogArm;; mret 1
  else call (MessageCancelAll LIS3DH_LOG_TICK);; mret 0.

Definition SmartHelmet_SensorsSetLogTask (task : bool) : IO unit :=
  sens_do (fun s => s <| sh_log_task := task |>);; lis3dh_chk 0;; mret tt.

Definition SmartHelmet_SensorsBootLis3dhTest (task : bool) : IO unit :=
  sens_do (fun s => s <| sh_log_task := task |>);;
  when LIS3DH_BOOT_LOG
    (when ENABLE_LIS3DH (data_do (fun s => s <| lis3dh_ok := false |>);; bring_up_lis3dh);;
     shLis3dhLogSample;; shLis3dhLogArm).

Definition SmartHelmet_SensorsHandleMessage (m : Message) : IO bool :=
  match m with
  | MsgTimer LIS3DH_LOG_TICK => shLis3dhLogSample;; shLis3dhLogArm;; mret true
  | MsgTimer I2C_PROBE_RETRY => shSensorsVerifyPass;; mret true
  | _ => mret false
  end.

(** * Dispatch *)
Definition SmartHelmet_HandleMessage (m : Message) : IO bool :=
  or_else (SmartHelmet_SensorsHandleMessage m)
    (or_else (SmartHelmet_AdcHandleMessage m) (SmartHelmet_UartHandleMessage m)).

(** The motion poll: the largest step of an axis since the previous sample. *)
Definition axis_diff (a b : Z) : Z := u16 (if b <? a then a - b else b - a).

Definition accel_step (a b : Z * Z * Z) : Z :=
  let dx := axis_diff (fst (fst a)) (fst (fst b)) in
  let dy := axis_diff (snd (fst a)) (snd (fst b)) in
  let dz := axis_diff (snd a) (snd b) in
  let step := dx in
  let step := if step <? dy then dy else step in
  if step <? dz then dz else step.

Definition accel_now (s : smart_helmet_sensor_data_t) : Z * Z * Z := (lis3dh_x s, lis3dh_y s, lis3dh_z s).

Definition motion_sample : IO unit :=
  s ← data_get id;
  if negb (lis3dh_ok s) then mret tt else
  let a := accel_now s in
  h ← hel_get id;
  let step := if poll_have_prev h then accel_step a (poll_prev h) else 0 in
  hel_do (fun h => h <| poll_prev := a |> <| poll_have_prev := true |>);;
  vit_call (SmartHelmet_VitalsPushAccel (lis3dh_x s) (lis3dh_y s) (lis3dh_z s));;
  when ((MOTION_RMS_MG <=? step) && negb (sh_motion_since_report h))
    (hel_do (fun h => h <| sh_motion_since_report := true |>)).

Definition motion_poll : IO unit :=
  powered ← hel_get sh_powered;
  when powered
    (SmartHelmet_SensorsPollLis3dh;; motion_sample;; call (MessageSendLater MOTION_POLL MOTION_POLL_MS)).

Definition smartHelmetTaskHandler (m : Message) : IO unit :=
  match m with
  | MsgTimer REPORT_TICK => SmartHelmet_ReportStart
  | MsgTimer MOTION_POLL => motion_poll
  | _ =>
    handled ← SmartHelmet_SensorsHandleMessage m;
    if (handled : bool) then
      go ← and_then SmartHelmet_SensorsReady SmartHelmet_UartInPassthrough;
      when go SmartHelmet_ReportStart
    else SmartHelmet_HandleMessage m;; mret tt
  end.

(** * Close and initialisation *)
Definition motion_clear (h : helmet_st) : helmet_st :=
  h <| sh_motion_since_report := false |> <| sh_motion_holding := false |> <| sh_motion_quiet_reports := 0 |>.

Definition SmartHelmet_Close : IO unit :=
  SmartHelmet_SensorsStopVerify;;
  SmartHelmet_ReportStop;;
  call (MessageCancelAll MOTION_POLL);;
  SmartHelmet_AdcStop;;
  SmartHelmet_UartClose;;
  SmartHelmet_I2cClose;;
  hel_do (fun h => motion_clear (h <| sh_ready := false |> <| sh_powered := false |>)).

Definition SmartHelmet_Init : IO bool :=
  ready ← hel_get sh_ready;
  when ready SmartHelmet_Close;;
  i2c ← SmartHelmet_I2cInit;
  if negb i2c then mret false else
  SmartHelmet_AdcInit true;;
  SmartHelmet_UartResetHold true;;
  SmartHelmet_SensorsSetLogTask true;;
  hel_do (fun h => h <| sh_ready := true |>);;
  mret true.

(** * Power *)
Definition SmartHelmet_PowerOn : IO unit :=
  h ← hel_get id;
  if negb (sh_ready h) || sh_powered h then mret tt else
  hel_do (fun h => h <| sh_powered := true |>);;
  SmartHelmet_AdcInit true;;
  SmartHelmet_SensorsInit;;
  when ENABLE_SSD1315 SmartHelmet_SensorsDisplayResume;;
  SmartHelmet_SensorsStartVerify true;;
  vit_call SmartHelmet_VitalsInit;;
  when (ENABLE_VITALS_CSV || ENABLE_SENS_DUMP) (vit_call (fun v => v <| v_telem ::= SmartHelmet_VitalsSetSink true |>));;
  SmartHelmet_UartResetHold false;;
  SmartHelmet_UartInit true;;
  SmartHelmet_UartStartVerify;;
  SmartHelmet_AdcRequestScan;;
  SmartHelmet_ReportStart;;
  call (MessageCancelAll MOTION_POLL);;
  call (MessageSendLater MOTION_POLL MOTION_POLL_MS).

Definition SmartHelmet_PowerOff : IO unit :=
  powered ← hel_get sh_powered;
  if negb powered then mret tt else
  hel_do (fun h => motion_clear (h <| sh_powered := false |>));;
  SmartHelmet_ReportStop;;
  call (MessageCancelAll MOTION_POLL);;
  SmartHelmet_SensorsStopVerify;;
  when ENABLE_SSD1315 SmartHelmet_SensorsSleep;;
  SmartHelmet_UartSleep;;
  SmartHelmet_AdcStop;;
  when ENABLE_SSD1315 SmartHelmet_SensorsDisplayBlank.

Definition SmartHelmet_PowerSave : IO unit := SmartHelmet_PowerOff.

Definition SH_STATE_LIMBO : Z := 2.
Definition SH_STATE_POWERING_ON : Z := 3.
Definition SH_STATE_PAIRING : Z := 4.
Definition SH_STATE_IDLE : Z := 5.
Definition SH_STATE_BUSY : Z := 6.

Definition SmartHelmet_UiRefresh (state : Z) : IO unit :=
  hel_do (fun h => h <| sh_ui_state := state |>);;
  (if (state =? SH_STATE_POWERING_ON) || (state =? SH_STATE_PAIRING) || (state =? SH_STATE_IDLE) ||
      (state =? SH_STATE_BUSY)
   then SmartHelmet_PowerOn
   else powered ← hel_get sh_powered; when powered SmartHelmet_PowerOff);;
  SmartHelmet_SensorsShowAdcMv 0 0 0 0.

Definition SmartHelmet_UiState : IO Z := hel_get sh_ui_state.

(** * The clients' poll *)
Definition SmartHelmet_PollSensors : IO unit :=
  ready ← hel_get sh_ready;
  if negb ready then mret tt else
  SmartHelmet_AdcRequestScan;;
  SmartHelmet_SensorsPoll;;
  s ← data_get id;
  when (lis3dh_ok s)
    (burst ← SmartHelmet_SensorsAccelBurst;
     if negb (Z.of_nat (length burst) =? 0)
     then for_each burst (fun a => vit_call (SmartHelmet_VitalsPushAccel (fst (fst a)) (snd (fst a)) (snd a)))
     else vit_call (SmartHelmet_VitalsPushAccel (lis3dh_x s) (lis3dh_y s) (lis3dh_z s))).

Definition SmartHelmet_VitalsTick : IO unit := vit_call SmartHelmet_VitalsProcess.
End helmet.
