(* ===== verification/System.v ===== *)
(** The module in its surroundings: what the headset calls, which timers
    fire, and the states that can be reached. *)
From stdpp Require Import relations.
From S2P Require Import Prelude Config Decimal Telemetry Vitals Board Platform World Timers Stream I2c Display Adc Sensors Text Wisun Report Uart Helmet.

(** * Calls into the module

    The functions of the header that the headset application calls, and the
    messages of the SDK that are not timers. *)
Inductive Entry :=
| CallInit | CallPowerOn | CallPowerOff | CallPowerSave | CallClose | CallUiRefresh (state : Z)
| CallPollSensors | CallVitalsTick | CallWisunSend (data : list Z) | CallDisplayResume | CallDisplayBlank
| OnAdcResult (source : vm_adc_source_type) (reading : Z) | OnMoreData | OnMoreSpace | OnOther.

(** A reading of the converter is an unsigned 16-bit value. *)
Definition entry_ok (e : Entry) : Prop :=
  match e with OnAdcResult _ r => is_u16 r | _ => True end.

Section system.
Context `{HelmetConfig} `{BoardConfig} `{Platform}.

Definition enter (e : Entry) : IO unit :=
  match e with
  | CallInit => SmartHelmet_Init;; mret tt
  | CallPowerOn => SmartHelmet_PowerOn
  | CallPowerOff => SmartHelmet_PowerOff
  | CallPowerSave => SmartHelmet_PowerSave
  | CallClose => SmartHelmet_Close
  | CallUiRefresh state => SmartHelmet_UiRefresh state
  | CallPollSensors => SmartHelmet_PollSensors
  | CallVitalsTick => SmartHelmet_VitalsTick
  | CallWisunSend data => SmartHelmet_WisunSend data;; mret tt
  | CallDisplayResume => SmartHelmet_SensorsDisplayResume
  | CallDisplayBlank => SmartHelmet_SensorsDisplayBlank
  | OnAdcResult source reading => smartHelmetTaskHandler (MESSAGE_ADC_RESULT source reading)
  | OnMoreData => smartHelmetTaskHandler MESSAGE_MORE_DATA
  | OnMoreSpace => smartHelmetTaskHandler MESSAGE_MORE_SPACE
  | OnOther => smartHelmetTaskHandler MsgOther
  end.
End system.

(** * Runs *)
Section runs.
Context `{HelmetConfig} `{BoardConfig} `{TimerLaws}.

(** A call, or a timer that is due. *)
Inductive sys_step : World -> World -> Prop :=
| step_entry e w : entry_ok e -> sys_step w (run (enter e) w)
| step_timer id w : due_in id w <> 0%nat -> sys_step w (run (smartHelmetTaskHandler (MsgTimer id)) (fired id w)).

(** From the zeroed statics, on a platform with no timer running. *)
Definition reachable (w : World) : Prop :=
  exists e, (forall id, due id e = 0%nat) /\ rtc sys_step (world_start e) w.

(** Rule induction for an invariant. *)
Lemma reachable_inv (I : World -> Prop) :
  (forall e, (forall id, due id e = 0%nat) -> I (world_start e)) ->
  (forall e, entry_ok e -> inv I (enter e)) ->
  (forall id w, due_in id w <> 0%nat -> I w -> I (run (smartHelmetTaskHandler (MsgTimer id)) (fired id w))) ->
  forall w, reachable w -> I w.
Proof.
  intros H0' He Ht w (e & Hq & Hr). assert (I (world_start e)) as Hi by auto. clear Hq. revert Hi.
  induction Hr as [| w1 w2 w3 [en w Hen | id w Hid] _ IH]; intros Hi; [done | |]; apply IH; [by apply He | by apply Ht].
Qed.

(** The same for an invariant that does not look at the timers. *)
Lemma reachable_inv_all (I : World -> Prop) :
  (forall e, I (world_start e)) ->
  (forall e w, I w -> I (w <| w_env := e |>)) ->
  (forall e, entry_ok e -> inv I (enter e)) ->
  (forall id, inv I (smartHelmetTaskHandler (MsgTimer id))) ->
  forall w, reachable w -> I w.
Proof.
  intros H0' Hw He Ht. apply reachable_inv; [auto | done |]. intros id w _ Hi. apply Ht. by apply Hw.
Qed.

(** Building a run step by step. *)
Lemma reachable_start e : (forall id, due id e = 0%nat) -> reachable (world_start e).
Proof. intros Hq. exists e. split; [done | apply rtc_refl]. Qed.

Lemma reachable_enter e w : entry_ok e -> reachable w -> reachable (run (enter e) w).
Proof. intros He (e0 & Hq & Hr). exists e0. split; [done |]. eapply rtc_r; [exact Hr |]. by apply step_entry. Qed.

Lemma reachable_timer id w : due_in id w <> 0%nat -> reachable w -> reachable (run (smartHelmetTaskHandler (MsgTimer id)) (fired id w)).
Proof. intros Hd (e0 & Hq & Hr). exists e0. split; [done |]. eapply rtc_r; [exact Hr |]. by apply step_timer. Qed.
End runs.
