(* ===== verification/LinkInv.v ===== *)
(** The invariant of the Wi-SUN link: the buffers and counters of
    smart_helmet_uart.c, what each step may assume, and the evidence for
    "online". *)
From S2P Require Import Prelude Config Decimal Telemetry Vitals Board Platform World Timers Stream I2c Display Adc Sensors Text Wisun Report Uart Helmet System.

(** * Steps *)

(** At rest no command is outstanding and a timeout does nothing. *)
Definition at_rest (step : Z) : Prop := step = SH_STEP_DONE \/ step = 0.

Definition counters_ok (s : wisun_status) : Prop :=
  is_u8 (ws_tries s) /\ is_u8 (ws_at_pass s) /\ is_u8 (ws_at_fail s) /\ is_u8 (ws_status_code s) /\
  alen (ws_at_cmd s) <= 11 /\ alen (ws_last_line s) <= 47.

Definition link_ok (u : uart_st) : Prop :=
  0 <= sh_wisun_step u <= SH_STEP_LEAVE /\
  alen (sh_rx_asm u) <= WISUN_RX_BUF_SIZE /\ alen (sh_rx_line u) <= 96 /\
  (length (sh_prov_q u) <= 8)%nat /\ Forall (fun c => alen c <= 39) (sh_prov_q u) /\
  0 <= sh_at_idx u <= SH_AT_CMD_COUNT /\
  (sh_wisun_step u = SH_STEP_CMD -> sh_at_idx u < SH_AT_CMD_COUNT) /\
  (sh_wisun_step u = SH_STEP_PROV_SET ->
     sh_prov_i u = 0xff \/ 0 <= sh_prov_i u < Z.of_nat (length (sh_prov_q u))) /\
  is_u8 (sh_prov_i u) /\ 0 <= sh_too_long_retry u <= 2 /\ 0 <= sh_missed_ok u <= 12 /\
  (sh_passthrough u = true -> at_rest (sh_wisun_step u)) /\
  counters_ok (sh_wisun u).

(** * Evidence *)

(** The bytes that a call read from the module. *)
Definition call_data (c : Call) : list Z :=
  match c_req c as q return Resp q -> list Z with
  | SourceMap _ => fun r => default [] r
  | _ => fun _ => []
  end (c_resp c).

Definition heard (text : list Z) (l : list Call) : Prop :=
  exists c, c ∈ l /\ shContainsFold (call_data c) text = true.

Lemma heard_cons text c l : heard text l -> heard text (c :: l).
Proof. intros (x & Hx & E). exists x. split; [by right | done]. Qed.

(** ** The invariant

    [off] adds that the link is not in passthrough, [said] that "send ok"
    was heard. *)
Record linked `{Platform} (off said : bool) (w : World) : Prop := {
  lk_ok : link_ok (w_uart w);
  lk_off : off = true -> sh_passthrough (w_uart w) = false;
  lk_said : said = true -> heard (chars "send ok") (w_trace w);
  lk_online : ws_online (sh_wisun (w_uart w)) = true -> heard (chars "send ok") (w_trace w) }.

Section linked.
Context `{HelmetConfig} `{BoardConfig} `{Platform}.

Lemma linked_weaken off said w : linked true said w -> linked off said w.
Proof. intros []; constructor; first [done | auto]. Qed.

Lemma linked_from {A} off said (m : IO A) :
  inv (linked true said) m -> leads (linked true said) (linked off said) m.
Proof. apply inv_leads; [done | intros w; apply linked_weaken]. Qed.

Lemma linked_forget off said w : linked off said w -> linked off false w.
Proof. intros []; constructor; first [done | auto]. Qed.

Lemma linked_call off said q : inv (linked off said) (call q).
Proof. intros w []. constructor; cbn; auto using heard_cons. Qed.

Lemma linked_i2c off said b w : linked off said w -> linked off said (w <| w_i2c := b |>).
Proof. intros []. by constructor. Qed.
Lemma linked_sens off said g w : linked off said w -> linked off said (w <| w_sens ::= g |>).
Proof. intros []. by constructor. Qed.
Lemma linked_vit off said g w : linked off said w -> linked off said (w <| w_vit ::= g |>).
Proof. intros []. by constructor. Qed.
Lemma linked_display off said g : display_update g -> forall w, linked off said w -> linked off said (w <| w_sens ::= g |>).
Proof. intros _. apply linked_sens. Qed.
Lemma linked_adc_do off said g : inv (linked off said) (adc_do g).
Proof. intros w []. by constructor. Qed.
Lemma linked_hel_do off said g : inv (linked off said) (hel_do g).
Proof. intros w []. by constructor. Qed.
Lemma linked_send off said d : inv (linked off said) (SmartHelmet_UartSend d).
Proof. apply inv_send. intros. apply linked_call. Qed.
Lemma linked_vit_call off said g : inv (linked off said) (vit_call g).
Proof. apply inv_vit_call; [intros; apply linked_call | apply linked_vit]. Qed.
Lemma linked_sens_do off said g : inv (linked off said) (sens_do g).
Proof. intros w. apply linked_sens. Qed.

(** An assignment of the link, in a known state and in any state. *)
Lemma linked_at off off' said g w : linked off said w ->
  (let u := w_uart w in link_ok u -> (off = true -> sh_passthrough u = false) ->
     link_ok (g u) /\ (off' = true -> sh_passthrough (g u) = false) /\
     (ws_online (sh_wisun (g u)) = true -> ws_online (sh_wisun u) = true)) ->
  linked off' said (run (uart_do g) w).
Proof. intros [] Hg. destruct Hg as (? & ? & ?); [done | done |]. constructor; cbn; auto. Qed.

Lemma linked_uart_do off off' said g :
  (forall u, link_ok u -> (off = true -> sh_passthrough u = false) ->
     link_ok (g u) /\ (off' = true -> sh_passthrough (g u) = false) /\
     (ws_online (sh_wisun (g u)) = true -> ws_online (sh_wisun u) = true)) ->
  leads (linked off said) (linked off' said) (uart_do g).
Proof. intros Hg w Hw. apply (linked_at off); [done | intros u; apply Hg]. Qed.

Lemma linked_wisun_do off said g :
  (forall s, counters_ok s -> counters_ok (g s)) -> (forall s, ws_online (g s) = true -> ws_online s = true) ->
  inv (linked off said) (wisun_do g).
Proof.
  intros Hg Ho. apply linked_uart_do. intros u Hu Hf. unfold link_ok in *. cbn. destruct_and! Hu. split_and!; auto.
Qed.
End linked.

Ltac link_unfold :=
  unfold link_ok, counters_ok, at_rest, SH_STEP_RESET, SH_STEP_CMD, SH_STEP_DONE, SH_STEP_PROV_READ, SH_STEP_PROV_SET,
    SH_STEP_DEST, SH_STEP_PASS, SH_STEP_LEAVE, SH_AT_CMD_COUNT, WISUN_RX_BUF_SIZE in *.
Ltac link_close :=
  first [done | assumption | apply u8_range | rlia | lia | (rewrite u8_small by rlia; lia) | (intros; first [done | lia | congruence | auto with zarith]) | idtac].
(** An assignment: the invariant of the new record, clause by clause. *)
Ltac link_clauses :=
  cbv zeta; intros; repeat match goal with Hf : true = true -> _ |- _ => specialize (Hf eq_refl) end;
  link_unfold; unfold id in *; cbn in *; destruct_and?; split_and!; link_close.
Ltac link_leaf := apply linked_uart_do; link_clauses.

#[export] Hint Resolve linked_call linked_i2c linked_display : calls.
#[export] Hint Extern 2 (inv (linked _ _) (call _)) => apply linked_call : keeps.
#[export] Hint Extern 2 (inv (linked _ _) (vit_call _)) => apply linked_vit_call : keeps.
#[export] Hint Extern 2 (inv (linked _ _) (SmartHelmet_UartSend _)) => apply linked_send : keeps.
#[export] Hint Extern 2 (inv (linked _ _) (adc_do _)) => apply linked_adc_do : keeps.
#[export] Hint Extern 2 (inv (linked _ _) (hel_do _)) => apply linked_hel_do : keeps.
#[export] Hint Extern 2 (inv (linked _ _) (sens_do _)) => apply linked_sens_do : keeps.
#[export] Hint Extern 2 (inv (linked _ _) (data_do _)) => apply linked_sens_do : keeps.

Section ops.
Context `{HelmetConfig} `{BoardConfig} `{Platform}.

Lemma linked_probe off said cmd : inv (linked off said) (shWisunSendProbe cmd).
Proof. unfold shWisunSendProbe. keeps_step; [keeps_tac | intros ok]. by apply linked_wisun_do. Qed.

Lemma linked_arm off said d : inv (linked off said) (shWisunArm d).
Proof. unfold shWisunArm. keeps_tac. Qed.

Lemma linked_offline off said : inv (linked off said) set_offline.
Proof.
  unfold set_offline. keeps_step; [keeps_tac | intros was]. keeps_step; [| intros _; keeps_tac].
  by apply linked_wisun_do.
Qed.

(** A step other than rest is only entered outside passthrough. *)
Lemma linked_leave said next : inv (linked true said) (leave_to next).
Proof.
  unfold leave_to. keeps_step; [| intros _; keeps_step; [apply linked_probe | intros _; apply linked_arm]].
  link_leaf.
Qed.

(** ** Leaving passthrough *)
Lemma linked_rejoin off said : inv (linked off said) SmartHelmet_UartRejoin.
Proof.
  unfold SmartHelmet_UartRejoin. keeps_step; [keeps_tac | intros t]. cbv zeta. keeps_step; [keeps_tac | intros u].
  keeps_step; [apply inv_ret |]. keeps_step; [apply inv_ret |].
  apply (leads_bind _ (linked true said)); [link_leaf | intros _].
  apply linked_from.
  keeps_step; [apply linked_offline | intros _]. keeps_step; [link_leaf | intros _].
  unfold SmartHelmet_ReportStop. pose proof (linked_leave said). keeps_tac.
Qed.

Lemma linked_too_long off said : inv (linked off said) shOnCmdTooLong.
Proof.
  unfold shOnCmdTooLong. apply (leads_bind _ (linked true said)); [link_leaf | intros _].
  apply linked_from.
  unfold SmartHelmet_ReportStop. keeps_step; [keeps_tac | intros _]. apply inv_read. intros w Hw.
  destruct (_ || _); [| done]. destruct (Z.leb_spec 2 (sh_too_long_retry (id (w_uart w)))) as [| Hr]; [done |].
  rewrite run_bind. apply linked_leave. apply (linked_at true); [done |]. link_clauses.
Qed.

Lemma linked_note_sent off said ok : inv (linked off said) (SmartHelmet_UartNoteReportSent ok).
Proof.
  unfold SmartHelmet_UartNoteReportSent. pose proof (linked_offline off said). pose proof (linked_rejoin off said).
  keeps_step; [keeps_tac |]. apply inv_read. intros w Hw. unfold id. destruct (sh_send_ok_wait (w_uart w)).
  - rewrite run_bind.
    assert (inv (linked off said) (missed ← uart_get sh_missed_ok; when (12 <=? missed) SmartHelmet_UartRejoin)) as Hk by keeps_tac.
    apply Hk. destruct (Z.ltb_spec (sh_missed_ok (w_uart w)) 12); io; [| done]. apply (linked_at off); [done |]. link_clauses.
  - revert w Hw. change (inv (linked off said) (uart_do (fun u => u <| sh_send_ok_wait := true |>))). link_leaf.
Qed.

(** ** The report *)
Lemma linked_take_restart off said : inv (linked off said) SmartHelmet_UartTakeRestart.
Proof.
  unfold SmartHelmet_UartTakeRestart. keeps_step; [keeps_tac | intros seen]. keeps_step; [link_leaf | intros _; keeps_tac].
Qed.

Lemma linked_poll off said : inv (linked off said) SmartHelmet_SensorsPoll.
Proof.
  assert (forall n k, inv (linked off said) (drain_fifo n k)) as Hd
    by (induction n; intros k; cbn [drain_fifo]; unfold read_accel; keeps_tac).
  unfold SmartHelmet_SensorsPoll, poll_if, poll_ccs811, poll_fifo, poll_single, poll_hdc1080, poll_mlx90614, shReadMlx90614,
    hdc_wait, read_accel, set_accel. keeps_tac.
Qed.

Lemma linked_report off said : inv (linked off said) SmartHelmet_ReportStart.
Proof.
  pose proof (linked_note_sent off said). pose proof (linked_take_restart off said). pose proof (linked_poll off said).
  assert (forall n l, inv (linked off said) (send_frames n l)) as Hf
    by (intros n; induction n; intros l; cbn [send_frames]; keeps_tac).
  unfold SmartHelmet_ReportStart, SmartHelmet_UartInPassthrough, SmartHelmet_SensorsReady, shSensorsRequiredOk, report_poll,
    shSendReportLines, report_text, report_head, report_gases, rep_motion, rep_restart, rep_fall, rep_pulse, rep_climate,
    rep_voc, rep_gas, shGasValue, take_fall, vit_result.
  keeps_tac.
Qed.

(** ** The timer of the link *)
(** In the middle of an operation the world may be in order only up to an
    assignment that follows: the queue index is past the end while [save]
    goes out, the index of the command is past the end before the sequence
    is finished. *)
Definition up_to (g : uart_st -> uart_st) (said : bool) (w : World) : Prop := linked true said (w <| w_uart ::= g |>).

Lemma up_to_call g said q : inv (up_to g said) (call q).
Proof. intros w []. constructor; cbn; auto using heard_cons. Qed.

Lemma up_to_finish said w : up_to (fun u => u <| sh_wisun_step := SH_STEP_DONE |>) said w ->
  linked true said (run shAtFinish w).
Proof.
  intros Hw. unfold shAtFinish. rewrite run_bind.
  match goal with |- linked _ _ (run ?m _) => assert (inv (linked true said) m) as Hk end; [| exact (Hk _ Hw)].
  pose proof (linked_leave said). unfold clear_asm, shWisunLogResult, at_verdict.
  keeps_step; [apply linked_wisun_do; intros s Hs; repeat destruct (_ || _); exact Hs | intros _].
  keeps_step; [by apply linked_wisun_do | intros _].
  keeps_step; [keeps_tac | intros t]. keeps_step; [keeps_tac | intros _]. apply inv_when.
  keeps_step; [link_leaf | intros _]. keeps_step; [link_leaf | intros _]. keeps_tac.
Qed.

Lemma up_to_done said w : linked true said w -> up_to (fun u => u <| sh_wisun_step := SH_STEP_DONE |>) said w.
Proof.
  intros Hw. assert (linked true said (run (set_step SH_STEP_DONE) w)) as Hk
    by (apply (linked_at true); [done | link_clauses]). exact Hk.
Qed.

Lemma linked_finish said : inv (linked true said) shAtFinish.
Proof. intros w Hw. by apply up_to_finish, up_to_done. Qed.

Lemma at_cmd_len i : alen (take 11 (fst (at_cmd i))) <= 11.
Proof. unfold alen. rewrite length_take. lia. Qed.

Lemma up_to_send_current said w : up_to (fun u => u <| sh_wisun_step := SH_STEP_DONE |>) said w ->
  linked true said (run shAtSendCurrent w).
Proof.
  intros Hw. unfold shAtSendCurrent. rewrite run_bind, eval_uart_get, run_uart_get.
  destruct (Z.leb_spec SH_AT_CMD_COUNT (sh_at_idx (w_uart w))) as [| Hi]; [by apply up_to_finish |].
  rewrite !run_bind. apply linked_arm, linked_probe. pose proof (at_cmd_len (sh_at_idx (w_uart w))).
  assert (linked true said (run (uart_do (fun u => u <| sh_rx_asm := [] |>
    <| sh_wisun ::= (fun s => s <| ws_at_cmd := take 11 (fst (at_cmd (sh_at_idx (w_uart w)))) |>) |> <| sh_wisun_step := SH_STEP_CMD |>))
    (w <| w_uart ::= (fun u => u <| sh_wisun_step := SH_STEP_DONE |>) |>))) as Hk
    by (apply (linked_at true); [exact Hw | link_clauses]).
  exact Hk.
Qed.

Lemma linked_send_current said : inv (linked true said) shAtSendCurrent.
Proof. intros w Hw. by apply up_to_send_current, up_to_done. Qed.

Lemma up_to_probe said cmd : inv (up_to (fun u => u <| sh_prov_i := 0xff |>) said) (shWisunSendProbe cmd).
Proof.
  pose proof (up_to_call (fun u => u <| sh_prov_i := 0xff |>) said). unfold shWisunSendProbe.
  keeps_step; [apply inv_send; auto | intros ok w Hw]. 
  assert (linked true said (run (wisun_do (fun s => s <| ws_tx_ok := ok |>)) (w <| w_uart ::= (fun u => u <| sh_prov_i := 0xff |>) |>)))
    as Hk by (apply linked_wisun_do; done).
  exact Hk.
Qed.

Lemma up_to_arm g said d : inv (up_to g said) (shWisunArm d).
Proof. unfold shWisunArm. repeat first [apply up_to_call | keeps_step]. Qed.

Lemma up_to_prov_current said w : up_to (fun u => u <| sh_prov_i := 0xff |>) said w -> is_u8 (sh_prov_i (w_uart w)) ->
  linked true said (run shProvSendCurrent w).
Proof.
  intros Hw Hi0. unfold shProvSendCurrent. rewrite run_bind, eval_uart_get, run_uart_get. unfold id.
  destruct (Z.leb_spec (Z.of_nat (length (sh_prov_q (w_uart w)))) (sh_prov_i (w_uart w))) as [Hi | Hi]; rewrite !run_bind.
  - refine (up_to_arm _ said _ _ (up_to_probe said _ _ _)).
    assert (linked true said (run (uart_do (fun u => u <| sh_prov_dirty := 1 |> <| sh_rx_asm := [] |>
      <| sh_wisun_step := SH_STEP_PROV_SET |> <| sh_prov_i := 0xff |>)) (w <| w_uart ::= (fun u => u <| sh_prov_i := 0xff |>) |>))) as Hk
      by (apply (linked_at true); [exact Hw | link_clauses]).
    exact Hk.
  - apply linked_arm, linked_probe.
    assert (linked true said (run (uart_do (fun u => u <| sh_rx_asm := [] |> <| sh_wisun_step := SH_STEP_PROV_SET |>
      <| sh_prov_i := sh_prov_i (w_uart w) |>)) (w <| w_uart ::= (fun u => u <| sh_prov_i := 0xff |>) |>))) as Hk
      by (apply (linked_at true); [exact Hw | link_clauses]).
    exact Hk.
Qed.

Lemma linked_prov_current said : inv (linked true said) shProvSendCurrent.
Proof.
  intros w Hw. fold (run shProvSendCurrent w). apply up_to_prov_current; [| apply Hw].
  assert (linked true said (run (uart_do (fun u => u <| sh_prov_i := 0xff |>)) w)) as Hk
    by (apply (linked_at true); [done | link_clauses]).
  exact Hk.
Qed.

Definition queue_ok (q : list (list Z)) : Prop := (length q <= 8)%nat /\ Forall (fun c => alen c <= 39) q.

Lemma queue_if_ok c cmd q : queue_ok q -> queue_ok (queue_if c cmd q).
Proof.
  intros [Hl Hq]. unfold queue_if, shProvQueue. destruct c; [| done].
  destruct (Z.leb_spec 8 (Z.of_nat (length q))); [done |]. split; [rewrite length_app; cbn; lia |].
  apply Forall_app_2; [done |]. repeat constructor. unfold alen. rewrite length_take. lia.
Qed.

Lemma plan_ok asm : queue_ok (shProvPlan asm).
Proof. unfold shProvPlan. cbv zeta. do 7 apply queue_if_ok. split; [cbn; lia | constructor]. Qed.

Lemma linked_note_status off said d : inv (linked off said) (note_status d).
Proof.
  unfold note_status. destruct (shNoteStatus d) as [c |] eqn:E; [| apply inv_ret]. apply linked_wisun_do; [| done].
  intros s (? & ? & ? & _ & ? & ?). unfold counters_ok. cbn. split_and!; try done.
  unfold shNoteStatus in E. destruct (find _ _); [| done]. destruct (_ && _); [| done]. injection E as <-. apply u8_range.
Qed.

(** ** The steps: none of them enters passthrough, except the last. *)
Lemma linked_reset said : inv (linked true said) on_reset.
Proof.
  pose proof (linked_probe true said). pose proof (linked_arm true said). pose proof (linked_send_current said).
  pose proof (linked_finish said). unfold on_reset, clear_asm, set_step.
  repeat first [keeps_step | link_leaf
      | apply linked_wisun_do; [unfold counters_ok; intros; cbn; destruct_and?; split_and!; done || (try apply u8_range; vdec) | done]].
Qed.

Lemma linked_prov_read said w : linked true said w -> sh_wisun_step (w_uart w) = SH_STEP_PROV_READ ->
  linked true said (run on_prov_read w).
Proof.
  intros Hw Hs. unfold on_prov_read. rewrite run_bind.
  assert (forall u, inv (linked true said) (if bool_decide (sh_prov_q u = []) then
    uart_do (fun u => u <| sh_prov_done := 1 |> <| sh_at_idx := 0 |>);; shAtSendCurrent else shProvSendCurrent)) as Hk.
  { intros u. pose proof (linked_send_current said). pose proof (linked_prov_current said).
    repeat first [keeps_step | link_leaf]. }
  refine (Hk _ _ _). apply (linked_at true); [done |]. destruct (plan_ok (sh_rx_asm (w_uart w))). link_clauses.
Qed.

Lemma linked_prov_set said w : linked true said w -> sh_wisun_step (w_uart w) = SH_STEP_PROV_SET ->
  linked true said (run on_prov_set w).
Proof.
  intros Hw Hs. unfold on_prov_set. rewrite run_bind. autorewrite with io.
  destruct (Z.eqb_spec (sh_prov_i (w_uart w)) 0xff).
  - rewrite !run_bind. apply linked_arm, linked_probe. apply (linked_at true); [done |]. link_clauses.
  - rewrite run_bind. apply up_to_prov_current; [| apply u8_range].
    assert (linked true said (run (uart_do (fun u => u <| sh_prov_i := 0xff |>)) w)) as Hk
      by (apply (linked_at true); [done | link_clauses]).
    exact Hk.
Qed.

Lemma linked_leaving said w : linked true said w -> sh_wisun_step (w_uart w) = SH_STEP_LEAVE ->
  linked true said (run on_leave w).
Proof.
  intros Hw _. revert w Hw. change (inv (linked true said) on_leave).
  pose proof (linked_probe true said). pose proof (linked_arm true said).
  unfold on_leave, clear_asm, set_step. repeat first [keeps_step | link_leaf].
Qed.

Lemma linked_dest said : inv (linked true said) on_dest.
Proof.
  pose proof (linked_probe true said). pose proof (linked_arm true said).
  unfold on_dest. repeat first [keeps_step | link_leaf].
Qed.

Lemma linked_pass said w : linked true said w -> linked false said (run on_pass w).
Proof.
  intros Hw. unfold on_pass. rewrite run_bind, eval_uart_get, run_uart_get. unfold id. cbv zeta.
  set (rejected := _ || _). set (entered := _ || _).
  destruct (rejected && _) eqn:E.
  - apply andb_true_iff in E as [_ E]. apply Z.ltb_lt in E. rewrite run_bind. apply linked_weaken.
    apply linked_leave. apply (linked_at true); [done |]. link_clauses.
  - rewrite run_bind.
    assert (inv (linked false said) (p ← uart_get sh_passthrough; if negb p then mret tt else
      wisun_do (fun s => s <| ws_online := false |>);; SmartHelmet_SensorsShowAdcMv 0 0 0 0;; SmartHelmet_ReportStart)) as Hk.
    { pose proof (linked_report false said). keeps_step; [keeps_tac | intros p]. keeps_step; [apply inv_ret |].
      keeps_step; [by apply linked_wisun_do | intros _]. keeps_tac. }
    apply Hk. apply (linked_at true); [done |]. link_clauses.
Qed.

Lemma linked_cmd said w : linked true said w -> sh_wisun_step (w_uart w) = SH_STEP_CMD ->
  linked true said (run on_cmd w).
Proof.
  intros Hw Hs. unfold on_cmd, shAtNoteResult. rewrite run_bind, eval_uart_get, run_uart_get. unfold id. rewrite !run_bind.
  set (w1 := run (note_status _) w).
  assert (linked true said w1 /\ sh_wisun_step (w_uart w1) = SH_STEP_CMD) as [Hw1 Hs1].
  { split; [by apply linked_note_status |]. subst w1. unfold note_status. by destruct (shNoteStatus _). }
  clearbody w1. clear Hw Hs. set (w2 := run (wisun_do _) w1).
  assert (linked true said w2 /\ sh_wisun_step (w_uart w2) = SH_STEP_CMD) as [Hw2 Hs2].
  { split; [| done]. subst w2. revert Hw1. generalize w1. intros w3 Hw3. revert w3 Hw3. apply linked_wisun_do; intros s Hs;
      destruct (shAtReplyOk _ _); try destruct (_ <? _); try done;
      unfold counters_ok in *; cbn; destruct_and?; split_and!; done || apply u8_range. }
  clearbody w2. apply up_to_send_current.
  assert (linked true said (run (uart_do (fun u => u <| sh_at_idx ::= (fun n => u8 (n + 1)) |> <| sh_wisun_step := SH_STEP_DONE |>)) w2)) as Hk
    by (apply (linked_at true); [done | link_clauses]).
  exact Hk.
Qed.

Lemma linked_timeout said : inv (linked false said) shWisunOnTimeout.
Proof.
  intros w Hw. fold (run shWisunOnTimeout w). unfold shWisunOnTimeout. destruct (_ || _); [done |].
  rewrite run_bind, eval_uart_get, run_uart_get.
  assert (~ at_rest (sh_wisun_step (w_uart w)) -> linked true said w) as Hoff.
  { intros Hr. destruct Hw as [Hl Ho Hs He]. constructor; try done. intros _. destruct (sh_passthrough (w_uart w)) eqn:E; [| done].
    exfalso. apply Hr. by apply Hl. }
  unfold at_rest, SH_STEP_DONE in Hoff.
  repeat match goal with |- context [if ?x =? ?y then _ else _] => destruct (Z.eqb_spec x y) as [Hs |]; [rewrite Hs in Hoff |] end;
    try done; unfold SH_STEP_RESET, SH_STEP_PROV_READ, SH_STEP_PROV_SET, SH_STEP_LEAVE, SH_STEP_DEST, SH_STEP_PASS, SH_STEP_CMD in Hoff;
    specialize (Hoff ltac:(lia)).
  - by apply linked_weaken, linked_reset.
  - by apply linked_weaken, linked_prov_read.
  - by apply linked_weaken, linked_prov_set.
  - by apply linked_weaken, linked_leaving.
  - by apply linked_weaken, linked_dest.
  - by apply linked_pass.
  - by apply linked_weaken, linked_cmd.
Qed.

(** ** Received bytes *)
Lemma linked_restart off said : inv (linked off said) vitals_restart.
Proof. unfold vitals_restart. keeps_step; [link_leaf | intros _; keeps_tac]. Qed.

Lemma linked_flush off said : inv (linked off said) shRxLineFlush.
Proof.
  pose proof (linked_too_long off said). unfold shRxLineFlush. keeps_step; [keeps_tac | intros line].
  keeps_step; [keeps_tac |]. keeps_step; [keeps_tac | intros _]. link_leaf.
Qed.

Lemma flush_empty w : alen (sh_rx_line (w_uart (run shRxLineFlush w))) <= 0.
Proof.
  unfold shRxLineFlush. rewrite run_bind, eval_uart_get, run_uart_get.
  destruct (Z.eqb_spec (alen (sh_rx_line (w_uart w))) 0); [rewrite run_ret; lia | rewrite run_bind; done].
Qed.

Lemma linked_byte off said b : inv (linked off said) (rx_byte b).
Proof.
  pose proof (linked_restart off said). pose proof (linked_flush off said).
  unfold rx_byte. keeps_step; [keeps_tac |]. keeps_step; [keeps_tac |]. apply inv_read. intros w Hw. rewrite run_bind.
  set (w1 := run (when _ _) w). assert (linked off said w1 /\ alen (sh_rx_line (w_uart w1)) <= 95) as [Hw1 Hl].
  { subst w1. destruct (Z.leb_spec 96 (alen (sh_rx_line (w_uart w)))); cbn [when].
    - split; [by apply linked_flush |]. pose proof (flush_empty w). lia.
    - split; [done |]. rewrite run_ret. lia. }
  clearbody w1. apply (linked_at off); [done |]. unfold alen in *. cbv zeta. intros Hu Hf. link_unfold. unfold alen in *. cbn.
  destruct_and?. split_and!; link_close. rewrite length_app. cbn. lia.
Qed.

Lemma linked_send_fail off said : inv (linked off said) note_send_fail.
Proof.
  pose proof (linked_rejoin off said). unfold note_send_fail. keeps_step; [keeps_tac | intros was].
  keeps_step; [link_leaf | intros _]. keeps_tac.
Qed.

(** "send ok" is the only way to be online, and may end a rejoin. *)
Lemma linked_send_ok : inv (linked false true) note_send_ok.
Proof.
  unfold note_send_ok. keeps_step; [keeps_tac | intros was]. keeps_step; [| intros _].
  { intros w [Hl Ho Hs He]. constructor; try done.
    revert Hl. cbn. generalize (w_uart w). link_clauses. }
  keeps_step; [keeps_tac | intros _]. keeps_step; [keeps_tac | intros step]. keeps_step; [| intros _; keeps_tac].
  apply inv_when. link_leaf.
Qed.

Lemma linked_note_rx data : inv (linked false (shContainsFold data (chars "send ok"))) (shWisunNoteRx data).
Proof.
  set (said := shContainsFold data (chars "send ok")). pose proof (linked_note_status false said data).
  pose proof (linked_restart false said). pose proof (linked_send_fail false said).
  unfold shWisunNoteRx. keeps_step; [apply inv_ret |]. cbv zeta. fold said. keeps_step; [| intros _].
  { apply linked_wisun_do; [| done]. unfold counters_ok, shCopyPreview. intros s Hs. cbn. destruct_and?. split_and!; try done.
    unfold alen. rewrite length_fmap, length_take. lia. }
  keeps_step; [repeat first [by apply linked_wisun_do | keeps_step] | intros _].
  keeps_step; [keeps_tac | intros step]. keeps_step; [repeat first [by apply linked_wisun_do | keeps_step] | intros _].
  keeps_step; [| intros _; keeps_tac]. destruct (shContainsFold data (chars "send fail")); [done |].
  destruct said; [apply linked_send_ok | apply inv_ret].
Qed.

Lemma linked_consume data : inv (linked false (shContainsFold data (chars "send ok"))) (shUartConsume data).
Proof.
  set (said := shContainsFold data (chars "send ok")). pose proof (linked_arm false said). pose proof (linked_byte false said).
  unfold shUartConsume. keeps_step; [| intros _; keeps_step; [apply linked_note_rx | intros _]].
  { apply linked_uart_do. intros u Hu Hf. unfold asm_add. link_unfold. cbn. unfold alen in *. rewrite length_app, length_take.
    destruct_and?. split_and!; link_close. }
  keeps_step; [unfold shRxLinePush; keeps_tac | intros _]. unfold shResetNoteBanner, shAsmHas.
  repeat first [keeps_step | by apply linked_wisun_do].
Qed.

Lemma linked_drain : inv (linked false false) shUartDrain.
Proof.
  unfold shUartDrain, drain_turn. keeps_step; [keeps_tac | intros src]. keeps_step; [keeps_tac |]. keeps_step.
  keeps_step; [keeps_tac | intros size]. keeps_step; [keeps_tac | intros size']. keeps_step; [keeps_tac |].
  intros w Hw. set (w1 := run (call (SourceMap size')) w). set (ptr := eval (call (SourceMap size')) w).
  assert (linked false false w1) as Hw1 by by apply linked_call.
  assert (inv (linked false false) (call (SourceDrop size');; mret true)) as Hk by keeps_tac.
  apply (Hk (run (match ptr with Some data => shUartConsume data | None => mret tt end) w1)).
  destruct ptr as [data |] eqn:E; [| exact Hw1]. apply (linked_forget _ (shContainsFold data (chars "send ok"))), linked_consume.
  destruct Hw1 as [Hl Ho _ He]. constructor; try done. intros Hc. exists (mkcall (SourceMap size') ptr). split; [left |].
  by rewrite E.
Qed.

Lemma linked_uart_message m : inv (linked false false) (SmartHelmet_UartHandleMessage m).
Proof.
  pose proof linked_drain. pose proof (linked_timeout false). unfold SmartHelmet_UartHandleMessage, shRxPollArm. keeps_tac.
Qed.

(** ** Opening and closing *)
Lemma linked_uart_init t : inv (linked false false) (SmartHelmet_UartInit t).
Proof.
  unfold SmartHelmet_UartInit, shUartMapPio. keeps_step; [link_leaf | intros _]. repeat first [keeps_step | link_leaf].
Qed.

Lemma linked_start_verify : inv (linked false false) SmartHelmet_UartStartVerify.
Proof.
  unfold SmartHelmet_UartStartVerify. keeps_step; [apply inv_ret |].
  intros w Hw. apply linked_weaken, linked_arm, linked_probe.
  assert (linked true false (run (uart_do (fun u => u <| sh_wisun := wisun_zero <| ws_status_code := 0xFF |> |> <| sh_at_idx := 0 |>
    <| sh_rx_asm := [] |> <| sh_prov_done := 0 |> <| sh_prov_dirty := 0 |> <| sh_prov_q := [] |>
    <| sh_prov_i := 0 |> <| sh_passthrough := false |> <| sh_too_long_retry := 0 |> <| sh_leave_next := SH_STEP_RESET |>
    <| sh_wisun_step := SH_STEP_LEAVE |>)) w)) as Hk by (apply (linked_at false); [done | link_clauses]).
  exact Hk.
Qed.

Lemma linked_close : inv (linked false false) SmartHelmet_UartClose.
Proof.
  pose proof (linked_probe false false). unfold SmartHelmet_UartClose, SmartHelmet_UartStopVerify, shUartReleasePio, SmartHelmet_UartResetHold.
  keeps_step; [keeps_tac | intros sink]. keeps_step; [keeps_tac | intros _]. keeps_step; [link_leaf | intros _].
  repeat first [keeps_step | link_leaf].
Qed.

Lemma linked_sleep : inv (linked false false) SmartHelmet_UartSleep.
Proof.
  pose proof linked_close. unfold SmartHelmet_UartSleep, SmartHelmet_UartStopVerify.
  repeat first [keeps_step | link_leaf | by apply linked_wisun_do].
Qed.

(** ** The module *)
Lemma linked_sensors_message m : inv (linked false false) (SmartHelmet_SensorsHandleMessage m).
Proof.
  pose proof (linked_report false false).
  unfold SmartHelmet_SensorsHandleMessage, shLis3dhLogSample, shLis3dhLogArm, read_accel, set_accel, shSensorsVerifyPass, retry,
    shSensorsRequiredOk, cancel_retry, shSensorsScheduleRetry, bring_up_ccs811, bring_up_hdc1080, bring_up_lis3dh,
    bring_up_mlx90614, bring_up_ssd1315, shProbeCcs811, shInitCcs811, shProbeHdc1080, shHdcReadU16, shInitHdc1080,
    shProbeLis3dh, shInitLis3dh, shReadMlx90614.
  keeps_tac.
Qed.

Lemma linked_adc_message m : inv (linked false false) (SmartHelmet_AdcHandleMessage m).
Proof.
  unfold SmartHelmet_AdcHandleMessage, adc_result, sens_result, full_result, sens_done, SmartHelmet_AdcRequestScan,
    shAdcRequestNextFull, SmartHelmet_AdcRequestSensIn, shAdcStartSens, adc_read, shAdcFeedVitalsSens, shAdcSensDropped.
  keeps_tac.
Qed.

Lemma linked_handler m : inv (linked false false) (smartHelmetTaskHandler m).
Proof.
  pose proof (linked_report false false). pose proof linked_sensors_message. pose proof linked_adc_message.
  pose proof linked_uart_message.
  unfold smartHelmetTaskHandler, SmartHelmet_HandleMessage, motion_poll, motion_sample, SmartHelmet_SensorsPollLis3dh,
    poll_if, poll_single, read_accel, set_accel, SmartHelmet_SensorsReady, shSensorsRequiredOk, SmartHelmet_UartInPassthrough.
  keeps_tac.
Qed.

Lemma linked_power_on : inv (linked false false) SmartHelmet_PowerOn.
Proof.
  pose proof (linked_report false false). pose proof linked_uart_init. pose proof linked_start_verify.
  unfold SmartHelmet_PowerOn, SmartHelmet_AdcInit, SmartHelmet_SensorsInit, bring_up_ccs811, bring_up_hdc1080, bring_up_lis3dh,
    bring_up_mlx90614, bring_up_ssd1315, shProbeCcs811, shInitCcs811, shProbeHdc1080, shHdcReadU16, shInitHdc1080,
    shProbeLis3dh, shInitLis3dh, shReadMlx90614, SmartHelmet_SensorsStartVerify, shSensorsRequiredOk, shSensorsScheduleRetry,
    SmartHelmet_UartResetHold, SmartHelmet_AdcRequestScan, shAdcRequestNextFull, SmartHelmet_AdcRequestSensIn, shAdcStartSens,
    adc_read, shAdcSensDropped.
  keeps_tac.
Qed.

Lemma linked_power_off : inv (linked false false) SmartHelmet_PowerOff.
Proof.
  pose proof linked_sleep.
  unfold SmartHelmet_PowerOff, SmartHelmet_SensorsStopVerify, cancel_retry, SmartHelmet_ReportStop, SmartHelmet_SensorsSleep,
    SmartHelmet_AdcStop. keeps_tac.
Qed.

Lemma linked_module_close : inv (linked false false) SmartHelmet_Close.
Proof.
  pose proof linked_close.
  unfold SmartHelmet_Close, SmartHelmet_SensorsStopVerify, cancel_retry, SmartHelmet_ReportStop, SmartHelmet_AdcStop. keeps_tac.
Qed.

Lemma linked_enter e : inv (linked false false) (enter e).
Proof.
  pose proof linked_handler. pose proof linked_power_on. pose proof linked_power_off. pose proof linked_module_close.
  pose proof (linked_poll false false).
  destruct e; cbn [enter]; unfold SmartHelmet_PowerSave, SmartHelmet_VitalsTick, SmartHelmet_WisunSend, SmartHelmet_Init,
    SmartHelmet_AdcInit, SmartHelmet_UartResetHold, SmartHelmet_SensorsSetLogTask, lis3dh_chk, SmartHelmet_UiRefresh,
    SmartHelmet_PollSensors, SmartHelmet_AdcRequestScan, shAdcRequestNextFull, SmartHelmet_AdcRequestSensIn, shAdcStartSens,
    adc_read, shAdcSensDropped, SmartHelmet_SensorsAccelBurst; cbn [Z.eqb negb]; keeps_tac.
Qed.
End ops.

(** * Every reachable state *)
Lemma linked_start `{HelmetConfig} `{Platform} e : linked false false (world_start e).
Proof. constructor; [| done | done | done]. cbn. link_unfold. cbn. split_and!; try done; try rlia. Qed.

Section reached.
Context `{HelmetConfig} `{BoardConfig} `{TimerLaws}.

(** [C13] In every reachable state the link keeps its bounds (reply and line
    buffers, the provisioning queue, indices and counters), a link in
    passthrough has no command outstanding, and "border router online" is
    reported only after the module answered "send ok": the text was in bytes
    read from its stream. *)
Theorem link_reachable w : reachable w ->
  link_ok (w_uart w) /\
  (eval SmartHelmet_UartIsBrOnline w = true -> heard (chars "send ok") (w_trace w)).
Proof.
  intros Hr.
  assert (linked false false w) as [Hk _ _ Ho].
  { revert w Hr. apply reachable_inv_all; [apply linked_start | by intros e w [] | intros; apply linked_enter | intros; apply linked_handler]. }
  split; [exact Hk |]. unfold SmartHelmet_UartIsBrOnline. rewrite eval_uart_get. intros [Hb _]%andb_true_iff. by apply Ho.
Qed.
End reached.

(** On the bench: the module answers the first poll with "send ok". *)
Section example.
#[local] Existing Instances shipped shipped_board.
#[local] Instance timed_bench : Platform := timed bench.

Definition answered : World :=
  run (enter OnMoreData) (run (enter CallPowerOn) (run (enter CallInit)
    (world_start ((mkbench [] [chars "send ok" ++ [13; 10]] 0, []) : Env)))).

Lemma link_reachable_witness :
  eval SmartHelmet_UartIsBrOnline answered = true /\ heard (chars "send ok") (w_trace answered).
Proof.
  assert (@reachable shipped shipped_board timed_bench (timed_laws bench) answered) as Hr.
  { apply (reachable_enter OnMoreData); [done |]. apply (reachable_enter CallPowerOn); [done |].
    apply (reachable_enter CallInit); [done |]. by apply reachable_start. }
  assert (eval SmartHelmet_UartIsBrOnline answered = true) as Ho by (vm_compute; reflexivity).
  split; [exact Ho |].
  exact (proj2 (@link_reachable shipped shipped_board timed_bench (timed_laws bench) answered Hr) Ho).
Defined.
End example.

