(* ===== verification/Schedule.v ===== *)
(** The timers of the module: which are pending in each state, and that none
    is ever pending twice. *)
From S2P Require Import Prelude Config Decimal Telemetry Vitals Board Platform World Timers Stream I2c Display Adc Sensors Text Wisun Report Uart Helmet System.

(** * What the schedule promises *)

(** A step with a command outstanding. *)
Definition active (step : Z) : bool :=
  bool_decide (step ∈ [SH_STEP_RESET; SH_STEP_CMD; SH_STEP_PROV_READ; SH_STEP_PROV_SET; SH_STEP_DEST; SH_STEP_PASS; SH_STEP_LEAVE]).

(** The switches that say whether each part of the module has its task. *)
Definition flags `{Platform} (w : World) : bool * bool * bool * bool * bool :=
  (sh_ready (w_hel w), sh_powered (w_hel w), sh_adc_task (w_adc w), sh_probe_task (w_sens w), sh_uart_task (w_uart w)).

Definition tasks `{Platform} (w : World) : bool * bool * bool :=
  (sh_adc_task (w_adc w), sh_uart_task (w_uart w), sh_probe_task (w_sens w)).

Section schedule.
Context `{HelmetConfig} `{BoardConfig} `{TimerLaws}.

(** The timers of the link while its task is set: a command that is
    outstanding has its timeout running. *)
Definition link_weak (w : World) : Prop :=
  sh_uart_task (w_uart w) = true /\ (due_in WISUN_LINK_CHECK w <= 1)%nat /\ (due_in REPORT_TICK w <= 1)%nat.

Definition link_timed (w : World) : Prop :=
  link_weak w /\ (active (sh_wisun_step (w_uart w)) = true -> due_in WISUN_LINK_CHECK w = 1%nat).

(** ** Leaves *)
Lemma link_weak_call q : not_timer q = true -> inv link_weak (call q).
Proof. intros Hq w. unfold link_weak. by rewrite !(due_call q _ Hq). Qed.
Lemma link_timed_call q : not_timer q = true -> inv link_timed (call q).
Proof. intros Hq w. unfold link_timed, link_weak. by rewrite !(due_call q _ Hq). Qed.

(** A computation that changes none of what they look at. *)
Lemma link_timed_frame {A} (m : IO A) :
  (forall id, id = WISUN_LINK_CHECK \/ id = REPORT_TICK -> keeps (due_in id) m) ->
  keeps (fun w => (sh_uart_task (w_uart w), sh_wisun_step (w_uart w))) m -> inv link_timed m.
Proof.
  intros Hd Hk w. unfold link_timed, link_weak. rewrite !Hd by auto. specialize (Hk w). cbn in Hk.
  injection Hk as -> ->. done.
Qed.

Lemma link_weak_uart g : (forall u, sh_uart_task (g u) = sh_uart_task u) -> inv link_weak (uart_do g).
Proof. intros Hg w (Ht & Hl). split; [cbn; by rewrite Hg | exact Hl]. Qed.

(** A timer is cancelled before it is set again, so it is pending once. *)
Lemma link_armed d : leads link_weak link_timed (shWisunArm d).
Proof.
  intros w (Ht & Hl & Hr). fold (run (shWisunArm d) w). unfold shWisunArm. rewrite run_bind, eval_uart_get, run_uart_get, Ht.
  cbn [when]. rewrite run_bind. cbv beta. unfold link_timed, link_weak.
  rewrite due_send_same, due_cancel_same. rewrite !(run_keeps (due_in REPORT_TICK)) by keeps_tac. done.
Qed.

Lemma link_timed_weak w : link_timed w -> link_weak w.
Proof. by intros []. Qed.

(** Cancelling the report, and the report's own timer. *)
Lemma link_weak_stop : inv link_weak SmartHelmet_ReportStop.
Proof.
  intros w (Ht & Hl & Hr). fold (run SmartHelmet_ReportStop w). unfold SmartHelmet_ReportStop, link_weak.
  rewrite due_cancel_same, (run_keeps (due_in WISUN_LINK_CHECK)) by keeps_tac. split_and!; [done | done | lia].
Qed.

Lemma link_timed_stop : inv link_timed SmartHelmet_ReportStop.
Proof.
  intros w [Hw Ha]. split; [by apply link_weak_stop |]. intros Hs. fold (run SmartHelmet_ReportStop w).
  unfold SmartHelmet_ReportStop. rewrite (run_keeps (due_in WISUN_LINK_CHECK)) by keeps_tac. by apply Ha.
Qed.

Lemma link_timed_again d : inv link_timed (call (MessageCancelAll REPORT_TICK);; call (MessageSendLater REPORT_TICK d)).
Proof.
  intros w ((Ht & Hl & Hr) & Ha). fold (run (call (MessageCancelAll REPORT_TICK);; call (MessageSendLater REPORT_TICK d)) w).
  unfold link_timed, link_weak. rewrite !(run_keeps (due_in WISUN_LINK_CHECK)) by keeps_tac.
  rewrite run_bind. cbv beta. rewrite due_send_same, due_cancel_same. split_and!; [done | done | lia | done].
Qed.
End schedule.

(** ** Walking *)
Lemma link_weak_field `{TimerLaws} w w' : w_env w' = w_env w -> sh_uart_task (w_uart w') = sh_uart_task (w_uart w) ->
  link_weak w -> link_weak w'.
Proof. unfold link_weak, due_in. by intros -> ->. Qed.

Lemma link_timed_field `{TimerLaws} w w' : w_env w' = w_env w -> sh_uart_task (w_uart w') = sh_uart_task (w_uart w) ->
  (active (sh_wisun_step (w_uart w')) = true -> active (sh_wisun_step (w_uart w)) = true) -> link_timed w -> link_timed w'.
Proof. intros He Ht Ha [Hw Hl]. split; [by apply (link_weak_field w) |]. unfold due_in. rewrite He. auto. Qed.

Ltac link_field :=
  let w := fresh "w" in let Hw := fresh "Hw" in
  intros w Hw;
  lazymatch goal with
  | |- link_weak ?w' => exact (link_weak_field w w' eq_refl eq_refl Hw)
  | |- link_timed ?w' =>
    refine (link_timed_field w w' eq_refl eq_refl _ Hw);
    first [exact id | let Ha := fresh in intros Ha; exfalso; vm_compute in Ha; discriminate]
  end.
#[export] Hint Resolve link_weak_call link_timed_call : calls.
#[export] Hint Extern 2 (inv link_weak (call _)) => apply link_weak_call; reflexivity : keeps.
#[export] Hint Extern 2 (inv link_timed (call _)) => apply link_timed_call; reflexivity : keeps.
#[export] Hint Extern 2 (inv link_weak (SmartHelmet_UartSend _)) => apply inv_send; auto with calls : keeps.
#[export] Hint Extern 2 (inv link_timed (SmartHelmet_UartSend _)) => apply inv_send; auto with calls : keeps.
#[export] Hint Extern 2 (inv link_weak (vit_call _)) => apply inv_vit_call; [auto with calls | link_field] : keeps.
#[export] Hint Extern 2 (inv link_timed (vit_call _)) => apply inv_vit_call; [auto with calls | link_field] : keeps.
#[export] Hint Extern 3 (inv link_weak (_ _)) => link_field : keeps.
#[export] Hint Extern 3 (inv link_timed (_ _)) => link_field : keeps.

Section link.
Context `{HelmetConfig} `{BoardConfig} `{TimerLaws}.

Lemma link_weak_probe cmd : inv link_weak (shWisunSendProbe cmd).
Proof. unfold shWisunSendProbe. keeps_tac. Qed.
Lemma link_timed_probe cmd : inv link_timed (shWisunSendProbe cmd).
Proof. unfold shWisunSendProbe. keeps_tac. Qed.
Lemma link_weak_offline : inv link_weak set_offline.
Proof. unfold set_offline. keeps_tac. Qed.
Lemma link_timed_offline : inv link_timed set_offline.
Proof. unfold set_offline. keeps_tac. Qed.

Lemma link_leave next : leads link_weak link_timed (leave_to next).
Proof.
  unfold leave_to. apply (leads_bind _ link_weak); [link_field | intros _].
  apply (leads_bind _ link_weak); [apply link_weak_probe | intros _; apply link_armed].
Qed.

(** Up to the arming of the timer only the weak half is needed. *)
Lemma leads_weak {A B} (m : IO A) (k : A -> IO B) :
  inv link_weak m -> (forall x, leads link_weak link_timed (k x)) -> leads link_weak link_timed (m ≫= k).
Proof. intros Hm Hk. by apply (leads_bind _ link_weak). Qed.

Lemma timed_from {A} (m : IO A) : leads link_weak link_timed m -> inv link_timed m.
Proof. intros Hm w Hw. by apply Hm, link_timed_weak. Qed.

Ltac weak_steps :=
  pose proof link_weak_probe; pose proof link_weak_offline; pose proof link_weak_stop;
  repeat lazymatch goal with
  | |- leads _ _ (leave_to _) => apply link_leave
  | |- leads _ _ (shWisunArm _) => apply link_armed
  | |- leads _ _ (_ ≫= _) => apply leads_weak; [solve [keeps_tac] | intros ?]
  | |- leads _ _ (if ?b then _ else _) => destruct b
  end.

Lemma link_rejoin : inv link_timed SmartHelmet_UartRejoin.
Proof.
  unfold SmartHelmet_UartRejoin. keeps_step; [keeps_tac | intros t]. keeps_step; [keeps_tac | intros u].
  keeps_step; [apply inv_ret |]. keeps_step; [apply inv_ret |]. apply timed_from. weak_steps.
Qed.

Lemma link_too_long : inv link_timed shOnCmdTooLong.
Proof.
  pose proof link_timed_stop. unfold shOnCmdTooLong. keeps_step; [keeps_tac | intros _]. keeps_step; [keeps_tac | intros _].
  keeps_step; [keeps_tac | intros u]. keeps_step; [| apply inv_ret]. keeps_step; [apply inv_ret |].
  apply timed_from. weak_steps.
Qed.

Lemma link_note_sent ok : inv link_timed (SmartHelmet_UartNoteReportSent ok).
Proof.
  pose proof link_timed_offline. pose proof link_rejoin. unfold SmartHelmet_UartNoteReportSent. keeps_tac.
Qed.

Lemma link_poll : inv link_timed SmartHelmet_SensorsPoll.
Proof.
  assert (forall n k, inv link_timed (drain_fifo n k)) as Hd
    by (induction n; intros k; cbn [drain_fifo]; unfold read_accel; keeps_tac).
  unfold SmartHelmet_SensorsPoll, poll_if, poll_ccs811, poll_fifo, poll_single, poll_hdc1080, poll_mlx90614, shReadMlx90614,
    hdc_wait, read_accel, set_accel. keeps_tac.
Qed.

Lemma link_report : inv link_timed SmartHelmet_ReportStart.
Proof.
  pose proof link_note_sent. pose proof link_poll. pose proof (link_timed_again WISUN_REPORT_MS).
  assert (forall n l, inv link_timed (send_frames n l)) as Hf
    by (intros n; induction n; intros l; cbn [send_frames]; keeps_tac).
  unfold SmartHelmet_ReportStart, SmartHelmet_UartInPassthrough, SmartHelmet_SensorsReady, shSensorsRequiredOk, report_poll,
    shSendReportLines, report_text, report_head, report_gases, rep_motion, rep_restart, rep_fall, rep_pulse, rep_climate,
    rep_voc, rep_gas, shGasValue, take_fall, vit_result, SmartHelmet_UartTakeRestart.
  do 4 (keeps_step; [keeps_tac | intros ?]). done.
Qed.

(** ** The timer of the link: every step ends at rest or with its timeout set. *)
Definition link_idle (w : World) : Prop := link_weak w /\ sh_wisun_step (w_uart w) = SH_STEP_DONE.

Lemma idle_timed w : link_idle w -> link_timed w.
Proof. intros [Hw Hs]. split; [done |]. by rewrite Hs. Qed.

Lemma idle_frame {A} (m : IO A) : inv link_weak m -> keeps (fun w => sh_wisun_step (w_uart w)) m -> inv link_idle m.
Proof. intros Hm Hk w [Hw Hs]. split; [by apply Hm | by rewrite Hk]. Qed.

Lemma weak_cancel_link : inv link_weak (call (MessageCancelAll WISUN_LINK_CHECK)).
Proof.
  intros w (Ht & Hl & Hr). unfold link_weak. rewrite due_cancel_snd, (due_cancel_other _ REPORT_TICK) by discriminate.
  split_and!; [done | lia | done].
Qed.

Lemma link_finish : leads link_weak link_timed shAtFinish.
Proof.
  unfold shAtFinish, clear_asm, set_step, shWisunLogResult. pose proof weak_cancel_link.
  apply (leads_bind _ link_idle); [intros w Hw; split; [by apply (link_weak_field w) | done] | intros _].
  do 3 (apply (leads_bind _ link_idle); [apply idle_frame; keeps_tac | intros ?]).
  apply (leads_bind _ link_idle); [apply idle_frame; keeps_tac | intros _].
  destruct ENABLE_WISUN_REPORT; cbn [when]; [| intros w; apply idle_timed].
  apply (leads_weaken _ link_weak _ link_timed); [by intros w [] | | done].
  weak_steps.
Qed.

Lemma link_send_current : leads link_weak link_timed shAtSendCurrent.
Proof.
  pose proof link_finish. unfold shAtSendCurrent, clear_asm, set_step. weak_steps. done.
Qed.

Lemma link_prov_current : leads link_weak link_timed shProvSendCurrent.
Proof.
  unfold shProvSendCurrent, clear_asm, set_step. apply leads_weak; [keeps_tac | intros u]. destruct (_ <=? _).
  - do 4 (apply leads_weak; [pose proof link_weak_probe; keeps_tac | intros ?]).
    apply (leads_bind _ link_timed); [apply link_armed | intros _; link_field].
  - weak_steps.
Qed.

Lemma link_status d : inv link_weak (note_status d).
Proof. unfold note_status. keeps_tac. Qed.

(** [ReportStart] at rest. *)
Lemma link_pass : leads link_weak link_timed on_pass.
Proof.
  unfold on_pass. apply leads_weak; [keeps_tac | intros u]. cbv zeta. destruct (_ && _).
  - weak_steps.
  - apply (leads_bind _ link_timed); [intros w Hw; apply idle_timed; split; [by apply (link_weak_field w) | done] | intros _].
    pose proof link_report.
    assert (inv link_timed (p ← uart_get sh_passthrough; if negb p then mret tt else
      wisun_do (fun s => s <| ws_online := false |>);; SmartHelmet_SensorsShowAdcMv 0 0 0 0;; SmartHelmet_ReportStart)) as Hk by keeps_tac.
    exact Hk.
Qed.

Lemma link_steps :
  leads link_weak link_timed on_reset /\ leads link_weak link_timed on_prov_read /\ leads link_weak link_timed on_prov_set /\
  leads link_weak link_timed on_leave /\ leads link_weak link_timed on_dest /\ leads link_weak link_timed on_cmd.
Proof.
  pose proof link_send_current. pose proof link_prov_current. pose proof link_finish. pose proof link_status.
  unfold on_reset, on_prov_read, on_prov_set, on_leave, on_dest, on_cmd, shAtNoteResult, clear_asm, set_step.
  repeat match goal with |- _ /\ _ => split end; weak_steps; done.
Qed.

Lemma link_timeout : ENABLE_WISUN_UART = true -> ENABLE_WISUN_LINK_CHECK = true -> leads link_weak link_timed shWisunOnTimeout.
Proof.
  intros H1' H2'. unfold shWisunOnTimeout. rewrite H1', H2'. cbn [negb orb].
  destruct link_steps as (? & ? & ? & ? & ? & ?). pose proof link_pass.
  apply leads_read. intros w Hw.
  repeat match goal with |- context [if ?x =? ?y then _ else _] => destruct (Z.eqb_spec x y); [match goal with Hl : leads _ _ _ |- _ => by apply Hl end |] end.
  rewrite run_ret. split; [exact Hw |]. intros Ha. exfalso. unfold active in Ha. apply bool_decide_eq_true_1 in Ha.
  repeat (apply elem_of_cons in Ha as [Ha | Ha]; [done |]). by apply elem_of_nil in Ha.
Qed.

(** ** Received data *)
Lemma link_consume data : inv link_timed (shUartConsume data).
Proof.
  assert (forall d, inv link_timed (shWisunArm d)) by (intros; apply timed_from, link_armed).
  pose proof link_rejoin. pose proof link_too_long.
  assert (inv link_timed (step ← uart_get sh_wisun_step;
    when (leaving step) (uart_do (fun u => u <| sh_wisun_step := SH_STEP_DONE |> <| sh_passthrough := true |>)))) by keeps_tac.
  unfold shUartConsume, asm_add, shWisunNoteRx, shRxLinePush, rx_byte, shRxLineFlush, vitals_restart, note_send_fail, note_send_ok,
    note_status, shResetNoteBanner, shAsmHas. keeps_tac.
Qed.

Lemma link_drain : inv link_timed shUartDrain.
Proof. pose proof link_consume. unfold shUartDrain, drain_turn. keeps_tac. Qed.
End link.

(** * The other timers

    The link and the report touch no timer but their own, and no flag. *)
Definition others `{TimerLaws} (id : MsgId) (w : World) := (flags w, sh_uart_source (w_uart w), due_in id w).

Section others.
Context `{HelmetConfig} `{BoardConfig} `{TimerLaws}.

Lemma others_call id q x : not_timer q = true -> inv (fun w => others id w = x) (call q).
Proof. intros Hq w <-. unfold others. by rewrite due_call. Qed.

Lemma others_send i d id : i <> id -> keeps (others id) (call (MessageSendLater i d)).
Proof. intros Hn w. unfold others. by rewrite due_send_other. Qed.

Lemma others_cancel i id : i <> id -> keeps (others id) (call (MessageCancelAll i)).
Proof. intros Hn w. unfold others. by rewrite due_cancel_other. Qed.

Lemma others_keeps_call id q : not_timer q = true -> keeps (others id) (call q).
Proof. intros Hq. apply keeps_of_inv. intros x. by apply others_call. Qed.

Lemma others_uart_send id d : keeps (others id) (SmartHelmet_UartSend d).
Proof. apply keeps_of_inv. intros x. apply inv_send. intros. by apply others_call, plain_timer, inert_plain. Qed.

Lemma others_vit id g : keeps (others id) (vit_call g).
Proof. apply keeps_of_inv. intros x. apply inv_vit_call; [intros; by apply others_call, plain_timer, inert_plain | done]. Qed.
End others.

#[export] Hint Resolve others_call : calls.
#[export] Hint Extern 5 => match goal with
  | Hg : display_update _, w : World |- _ =>
    unfold others, flags, tasks, due_in in *; cbn in *; destruct (Hg (w_sens w)) as (? & ? & ? & ? & ? & ? & _); congruence
  end : calls.
#[export] Hint Extern 2 (keeps (others _) (call _)) =>
  first [apply others_keeps_call; reflexivity | apply others_send; congruence | apply others_cancel; congruence] : keeps.
#[export] Hint Extern 1 (keeps (others _) (SmartHelmet_UartSend _)) => apply others_uart_send : keeps.
#[export] Hint Extern 1 (keeps (others _) (vit_call _)) => apply others_vit : keeps.

Section other_frames.
Context `{HelmetConfig} `{BoardConfig} `{TimerLaws} (id : MsgId).

Lemma others_scan : keeps (others id) SmartHelmet_AdcRequestScan.
Proof.
  unfold SmartHelmet_AdcRequestScan, shAdcRequestNextFull, SmartHelmet_AdcRequestSensIn, shAdcStartSens, adc_read, shAdcSensDropped.
  destruct ENABLE_SENS_OVERSAMPLE; keeps_tac.
Qed.

Hypothesis Hr : id <> REPORT_TICK.
Hypothesis Hl : id <> WISUN_LINK_CHECK.

Lemma others_report : keeps (others id) SmartHelmet_ReportStart.
Proof.
  assert (keeps (others id) SmartHelmet_SensorsPoll) as Hp.
  { assert (forall n k, keeps (others id) (drain_fifo n k)) as Hd
      by (induction n; intros k; cbn [drain_fifo]; unfold read_accel; keeps_tac).
    unfold SmartHelmet_SensorsPoll, poll_if, poll_ccs811, poll_fifo, poll_single, poll_hdc1080, poll_mlx90614, shReadMlx90614,
      hdc_wait, read_accel, set_accel. keeps_tac. }
  assert (forall n l, keeps (others id) (send_frames n l)) as Hf.
  { intros n. induction n; intros l; cbn [send_frames]; unfold SmartHelmet_UartNoteReportSent, set_offline, SmartHelmet_UartRejoin,
      leave_to, shWisunSendProbe, shWisunArm, SmartHelmet_ReportStop; keeps_tac. }
  unfold SmartHelmet_ReportStart, SmartHelmet_UartInPassthrough, SmartHelmet_SensorsReady, shSensorsRequiredOk, report_poll,
    shSendReportLines, report_text, report_head, report_gases, rep_motion, rep_restart, rep_fall, rep_pulse, rep_climate,
    rep_voc, rep_gas, shGasValue, take_fall, vit_result, SmartHelmet_UartTakeRestart, SmartHelmet_UartNoteReportSent,
    set_offline, SmartHelmet_UartRejoin, leave_to, shWisunSendProbe, shWisunArm, SmartHelmet_ReportStop.
  repeat first [keeps_step | intros v; cbn; by destruct (motion_hold _ _ _)].
Qed.

Lemma others_leave next : keeps (others id) (leave_to next).
Proof. unfold leave_to, shWisunSendProbe, shWisunArm. keeps_tac. Qed.

Lemma others_rejoin : keeps (others id) SmartHelmet_UartRejoin.
Proof. pose proof others_leave. unfold SmartHelmet_UartRejoin, set_offline, SmartHelmet_ReportStop. keeps_tac. Qed.

Lemma others_timeout : keeps (others id) shWisunOnTimeout.
Proof.
  pose proof others_report. pose proof others_leave.
  assert (keeps (others id) shAtFinish) by (unfold shAtFinish, clear_asm, set_step, shWisunLogResult; keeps_tac).
  assert (keeps (others id) shAtSendCurrent)
    by (unfold shAtSendCurrent, clear_asm, set_step, shWisunSendProbe, shWisunArm; keeps_tac).
  assert (keeps (others id) shProvSendCurrent)
    by (unfold shProvSendCurrent, clear_asm, set_step, shWisunSendProbe, shWisunArm; keeps_tac).
  unfold shWisunOnTimeout, on_reset, on_prov_read, on_prov_set, on_leave, on_dest, on_pass, on_cmd, note_status,
    shAtNoteResult, clear_asm, set_step, shWisunSendProbe, shWisunArm. keeps_tac.
Qed.

Lemma others_drain : keeps (others id) shUartDrain.
Proof.
  pose proof others_rejoin. pose proof others_leave.
  unfold shUartDrain, drain_turn, shUartConsume, asm_add, shWisunNoteRx, shRxLinePush, rx_byte, shRxLineFlush, vitals_restart,
    note_send_fail, note_send_ok, shOnCmdTooLong, SmartHelmet_ReportStop, note_status, shResetNoteBanner, shAsmHas, shWisunArm.
  keeps_tac.
Qed.
End other_frames.

(** * The schedule *)

(** With the power on every part runs its timer.  [m], [n] and [k] count the
    timers of the motion poll and of the converter, and [L] is what holds of
    the link; between calls these are [1], [1], [1] and [link_timed]. *)
Record on_schedule `{TimerLaws} (m n k : nat) (L : World -> Prop) (w : World) : Prop := {
  on_flags : flags w = (true, true, true, true, true);
  on_motion : due_in MOTION_POLL w = m;
  on_scan : due_in ADC_INTERNAL_TRIGGER w = n;
  on_sens : due_in ADC_SENS_TRIGGER w = k;
  on_probe : (due_in I2C_PROBE_RETRY w <= 1)%nat;
  on_rx : (due_in WISUN_RX_POLL w <= 1)%nat;
  on_log : due_in LIS3DH_LOG_TICK w = 0%nat;
  on_link : L w }.

(** With the power off the stream is closed, and only the timers of the
    converter can be left. *)
Record off_schedule `{TimerLaws} (n k : nat) (w : World) : Prop := {
  off_source : sh_uart_source (w_uart w) = false;
  off_quiet : forall id, id <> ADC_INTERNAL_TRIGGER -> id <> ADC_SENS_TRIGGER -> due_in id w = 0%nat;
  off_scan : (due_in ADC_INTERNAL_TRIGGER w <= n)%nat;
  off_sens : (due_in ADC_SENS_TRIGGER w <= k)%nat }.

Definition scheduled `{HelmetConfig} `{BoardConfig} `{TimerLaws} (w : World) : Prop :=
  if sh_powered (w_hel w)
  then on_schedule 1 1 (if ENABLE_VITALS_PROXY then 1 else 0) link_timed w
  else off_schedule 1 1 w.

Section scheduled.
Context `{HelmetConfig} `{BoardConfig} `{TimerLaws}.

(** The report and the link change only their own timers. *)
Lemma on_frame {A} m n k (L L' : World -> Prop) (c : IO A) :
  (forall id, id <> REPORT_TICK -> id <> WISUN_LINK_CHECK -> keeps (others id) c) -> leads L L' c ->
  leads (on_schedule m n k L) (on_schedule m n k L') c.
Proof.
  intros Hk Hc w [Hf Hm Hn Hs Hp Hx Hg Hl].
  assert (forall id, id <> REPORT_TICK -> id <> WISUN_LINK_CHECK -> due_in id (snd (c w)) = due_in id w) as Hd
    by (intros id H3 H4; exact (f_equal snd (Hk id H3 H4 w))).
  assert (flags (snd (c w)) = flags w) as Ef by exact (f_equal (fun x => fst (fst x)) (Hk MOTION_POLL ltac:(done) ltac:(done) w)).
  constructor; [by rewrite Ef | by rewrite Hd ..| by apply Hc].
Qed.

Lemma off_frame {A} n k (c : IO A) : (forall id, keeps (others id) c) -> inv (off_schedule n k) c.
Proof.
  intros Hk w [Ho Hq Hn Hs].
  assert (forall id, due_in id (snd (c w)) = due_in id w) as Hd by (intros id; exact (f_equal snd (Hk id w))).
  assert (sh_uart_source (w_uart (snd (c w))) = false) as Es by (rewrite <- Ho; exact (f_equal (fun x => snd (fst x)) (Hk MOTION_POLL w))).
  constructor; [done | intros; rewrite Hd; auto | by rewrite Hd ..].
Qed.

(** ** Timers of one part *)
Lemma timed_other {A} (c : IO A) : keeps (others WISUN_LINK_CHECK) c -> keeps (others REPORT_TICK) c ->
  keeps (fun w => sh_wisun_step (w_uart w)) c -> inv link_timed c.
Proof.
  intros Hl Hr Hs. apply link_timed_frame.
  - intros id [-> | ->] w; [exact (f_equal snd (Hl w)) | exact (f_equal snd (Hr w))].
  - intros w. pose proof (f_equal (fun x => snd (fst (fst x))) (Hl w)) as E. cbn in E. by rewrite E, Hs.
Qed.

(** A part that sets its own timer once more. *)
Lemma on_part {A} id (c : IO A) m n k m' n' k' :
  id <> REPORT_TICK -> id <> WISUN_LINK_CHECK ->
  (forall i, i <> id -> keeps (others i) c) -> keeps (fun w => sh_wisun_step (w_uart w)) c ->
  (forall w, flags w = (true, true, true, true, true) ->
     due_in MOTION_POLL w = m -> due_in ADC_INTERNAL_TRIGGER w = n -> due_in ADC_SENS_TRIGGER w = k ->
     match id with
     | MOTION_POLL => due_in id (snd (c w)) = m' /\ n' = n /\ k' = k
     | ADC_INTERNAL_TRIGGER => due_in id (snd (c w)) = n' /\ m' = m /\ k' = k
     | ADC_SENS_TRIGGER => due_in id (snd (c w)) = k' /\ m' = m /\ n' = n
     | LIS3DH_LOG_TICK => False
     | _ => ((due_in id w <= 1)%nat -> (due_in id (snd (c w)) <= 1)%nat) /\ m' = m /\ n' = n /\ k' = k
     end) ->
  leads (on_schedule m n k link_timed) (on_schedule m' n' k' link_timed) c.
Proof.
  intros Hr Hl Hk Hs Hid w [Hf Hm Hn Hss Hp Hx Hg Hlk]. specialize (Hid w Hf Hm Hn Hss).
  assert (forall i, i <> id -> due_in i (snd (c w)) = due_in i w) as Hd by (intros i Hi; exact (f_equal snd (Hk i Hi w))).
  assert (flags (snd (c w)) = flags w) as Ef by exact (f_equal (fun x => fst (fst x)) (Hk WISUN_LINK_CHECK (not_eq_sym Hl) w)).
  assert (link_timed (snd (c w))) as Hlk' by (apply timed_other; auto).
  destruct id; try done; destruct_and!; subst; (constructor; [congruence | try (rewrite Hd by done); auto ..| done]).
Qed.

(** ** The parts *)
Lemma others_motion id : id <> MOTION_POLL -> keeps (others id) motion_poll.
Proof.
  intros Hi. unfold motion_poll, motion_sample, SmartHelmet_SensorsPollLis3dh, poll_if, poll_single, read_accel, set_accel.
  keeps_tac.
Qed.

Lemma others_verify id : id <> I2C_PROBE_RETRY -> keeps (others id) shSensorsVerifyPass.
Proof.
  intros Hi. unfold shSensorsVerifyPass, retry, shSensorsRequiredOk, cancel_retry, shSensorsScheduleRetry, bring_up_ccs811,
    bring_up_hdc1080, bring_up_lis3dh, bring_up_mlx90614, bring_up_ssd1315, shProbeCcs811, shInitCcs811, shProbeHdc1080,
    shHdcReadU16, shInitHdc1080, shProbeLis3dh, shInitLis3dh, shReadMlx90614.
  keeps_tac.
Qed.

Lemma others_adc_result id src r : keeps (others id) (adc_result src r).
Proof.
  unfold adc_result, sens_result, full_result, sens_done, shAdcRequestNextFull, SmartHelmet_AdcRequestSensIn,
    shAdcStartSens, adc_read, shAdcFeedVitalsSens, shAdcSensDropped.
  destruct ENABLE_SENS_OVERSAMPLE; keeps_tac.
Qed.

Lemma others_request_sens id : keeps (others id) SmartHelmet_AdcRequestSensIn.
Proof.
  unfold SmartHelmet_AdcRequestSensIn, shAdcStartSens, adc_read, shAdcSensDropped. destruct ENABLE_SENS_OVERSAMPLE; keeps_tac.
Qed.

(** ** What sets a timer again *)

Lemma rearm_le id d (t : bool) w : (due_in id w <= 1)%nat ->
  (due_in id (snd ((when t (call (MessageCancelAll id);; call (MessageSendLater id d))) w)) <= 1)%nat.
Proof.
  destruct t; cbn [when]; [| done]. intros _. exact (eq_ind_r (fun n => (n <= 1)%nat) (le_n 1) (due_again id d w)).
Qed.

Definition once (id : MsgId) (w : World) : Prop := (due_in id w <= 1)%nat.

Lemma once_call id q : not_timer q = true -> inv (once id) (call q).
Proof. intros Hq w. unfold once. by rewrite (due_call q id Hq). Qed.

Lemma verify_probe : inv (once I2C_PROBE_RETRY) shSensorsVerifyPass.
Proof.
  pose proof (once_call I2C_PROBE_RETRY) as Hc.
  assert (inv (once I2C_PROBE_RETRY) cancel_retry).
  { unfold cancel_retry. keeps_step; [keeps_tac | intros []; [| apply inv_ret]]. intros w _. cbn [when]. unfold once.
    rewrite due_cancel_snd. lia. }
  assert (inv (once I2C_PROBE_RETRY) shSensorsScheduleRetry).
  { unfold shSensorsScheduleRetry. keeps_step; [keeps_tac | intros []; [| apply inv_ret]]. cbn [negb]. intros w.
    apply (rearm_le _ _ true). }
  unfold shSensorsVerifyPass, retry, shSensorsRequiredOk, bring_up_ccs811, bring_up_hdc1080, bring_up_lis3dh,
    bring_up_mlx90614, bring_up_ssd1315, shProbeCcs811, shInitCcs811, shProbeHdc1080, shHdcReadU16, shInitHdc1080,
    shProbeLis3dh, shInitLis3dh, shReadMlx90614.
  repeat first [keeps_step | apply inv_show; [auto using plain_timer, inert_plain | intros; apply inv_i2c_write; [auto using plain_timer | done] | done] | apply inv_latch; done | intros ? Ho; exact Ho].
Qed.

(** * Handlers with the power on *)
Definition sens_timers : nat := if ENABLE_VITALS_PROXY then 1 else 0.
Definition running : World -> Prop := on_schedule 1 1 sens_timers link_timed.

Lemma on_report m n k : inv (on_schedule m n k link_timed) SmartHelmet_ReportStart.
Proof. apply on_frame; [intros; by apply others_report | apply link_report]. Qed.

Lemma on_drain m n k : inv (on_schedule m n k link_timed) shUartDrain.
Proof. apply on_frame; [intros; by apply others_drain | apply link_drain]. Qed.

(** What no part but one touches. *)
Lemma on_keeps {A} m n k (c : IO A) :
  (forall id, keeps (others id) c) -> keeps (fun w => sh_wisun_step (w_uart w)) c -> inv (on_schedule m n k link_timed) c.
Proof. intros Hk Hs. apply on_frame; [auto | by apply timed_other]. Qed.

(** A timer that fired. *)
Lemma running_fired id w : running w -> due_in id w <> 0%nat ->
  match id with
  | MOTION_POLL => on_schedule 0 1 sens_timers link_timed
  | ADC_INTERNAL_TRIGGER => on_schedule 1 0 sens_timers link_timed
  | ADC_SENS_TRIGGER => fun w => ENABLE_VITALS_PROXY = true /\ on_schedule 1 1 0 link_timed w
  | WISUN_LINK_CHECK => on_schedule 1 1 sens_timers link_weak
  | LIS3DH_LOG_TICK => fun _ => False
  | _ => running
  end (fired id w).
Proof.
  intros [Hf Hm Hn Hs Hp Hx Hg ((Ht & Hl & Hr) & Ha)] Hd. unfold running, sens_timers in *.
  assert (flags (fired id w) = flags w) as Ef by done.
  destruct id; try (by rewrite Hg in Hd);
    try (rewrite Hs in Hd; destruct ENABLE_VITALS_PROXY; [split; [done |] | done]);
    constructor; unfold link_timed, link_weak;
    repeat first [rewrite due_fired_same | rewrite due_fired_other by discriminate]; auto; try lia.
  all: rewrite ?Hs; split_and?; auto; lia.
Qed.

Lemma part_motion : leads (on_schedule 0 1 sens_timers link_timed) running motion_poll.
Proof.
  apply (on_part MOTION_POLL); [done | done | apply others_motion | |].
  - unfold motion_poll, motion_sample, SmartHelmet_SensorsPollLis3dh, poll_if, poll_single, read_accel, set_accel. keeps_tac.
  - intros w Hf Hm _ _. split; [| done]. unfold motion_poll.
    assert (sh_powered (w_hel w) = true) as Hp by exact (f_equal (fun x => snd (fst (fst (fst x)))) Hf).
    change (due_in MOTION_POLL (run (powered ← hel_get sh_powered; when powered (SmartHelmet_SensorsPollLis3dh;; motion_sample;;
      call (MessageSendLater MOTION_POLL MOTION_POLL_MS))) w) = 1%nat).
    rewrite run_bind, eval_hel_get, run_hel_get, Hp. cbn [when]. rewrite !run_bind. cbv beta. rewrite due_send_same.
    rewrite !(run_keeps (due_in MOTION_POLL)); [by rewrite Hm | | ];
      unfold motion_sample, SmartHelmet_SensorsPollLis3dh, poll_if, poll_single, read_accel, set_accel; keeps_tac.
Qed.

(** The converter's timers are set again after their work. *)
Lemma adc_again id d (body : IO unit) w : keeps (others id) body -> sh_adc_task (w_adc w) = true ->
  due_in id (run (body;; task ← adc_get sh_adc_task; when task (call (MessageSendLater id d))) w) = S (due_in id w).
Proof.
  intros Hk Ht. rewrite !run_bind, eval_adc_get, run_adc_get.
  assert (sh_adc_task (w_adc (run body w)) = true) as ->
    by (rewrite <- Ht; exact (f_equal (fun x => snd (fst (fst (fst (fst x))))) (Hk w))).
  cbn [when]. rewrite due_send_same. f_equal. exact (f_equal snd (Hk w)).
Qed.

Lemma flags_adc w : flags w = (true, true, true, true, true) -> sh_adc_task (w_adc w) = true.
Proof. intros Hf. exact (f_equal (fun x => snd (fst (fst x))) Hf). Qed.

Lemma part_scan : leads (on_schedule 1 0 sens_timers link_timed) running
  (SmartHelmet_AdcRequestScan;; task ← adc_get sh_adc_task; when task (call (MessageSendLater ADC_INTERNAL_TRIGGER ADC_PERIOD_MS))).
Proof.
  apply (on_part ADC_INTERNAL_TRIGGER); [done | done | | |].
  - intros i Hi. pose proof (others_scan i). keeps_tac.
  - unfold SmartHelmet_AdcRequestScan, shAdcRequestNextFull, SmartHelmet_AdcRequestSensIn,
      shAdcStartSens, adc_read, shAdcSensDropped. keeps_tac.
  - intros w Hf _ Hn _. split; [| done]. rewrite <- Hn. apply adc_again; [apply others_scan | by apply flags_adc].
Qed.

Lemma part_sens : ENABLE_VITALS_PROXY = true -> leads (on_schedule 1 1 0 link_timed) running
  (SmartHelmet_AdcRequestSensIn;; task ← adc_get sh_adc_task; when task (call (MessageSendLater ADC_SENS_TRIGGER ADC_SENS_PERIOD_MS))).
Proof.
  intros Hp. unfold running, sens_timers. rewrite Hp. apply (on_part ADC_SENS_TRIGGER); [done | done | | |].
  - intros i Hi. pose proof (others_request_sens i). keeps_tac.
  - unfold SmartHelmet_AdcRequestSensIn, shAdcStartSens, adc_read, shAdcSensDropped. keeps_tac.
  - intros w Hf _ _ Hn. split; [| done]. rewrite <- Hn. apply adc_again; [apply others_request_sens | by apply flags_adc].
Qed.

Lemma part_verify : inv running shSensorsVerifyPass.
Proof.
  apply (on_part I2C_PROBE_RETRY); [done | done | apply others_verify | |].
  - unfold shSensorsVerifyPass, retry, shSensorsRequiredOk, cancel_retry, shSensorsScheduleRetry, bring_up_ccs811,
      bring_up_hdc1080, bring_up_lis3dh, bring_up_mlx90614, bring_up_ssd1315, shProbeCcs811, shInitCcs811, shProbeHdc1080,
      shHdcReadU16, shInitHdc1080, shProbeLis3dh, shInitLis3dh, shReadMlx90614. keeps_tac.
  - intros w _ _ _ _. split; [apply verify_probe | done].
Qed.

Lemma part_rx : inv running shRxPollArm.
Proof.
  apply (on_part WISUN_RX_POLL); [done | done | unfold shRxPollArm; intros; keeps_tac | unfold shRxPollArm; keeps_tac |].
  intros w _ _ _ _. split; [| done]. unfold shRxPollArm. apply rearm_le.
Qed.

Lemma part_link : ENABLE_WISUN_UART = true -> ENABLE_WISUN_LINK_CHECK = true ->
  leads (on_schedule 1 1 sens_timers link_weak) running shWisunOnTimeout.
Proof. intros H1' H2'. apply on_frame; [intros; by apply others_timeout | by apply link_timeout]. Qed.

Lemma part_result src r : inv running (adc_result src r).
Proof.
  apply on_keeps; [intros; apply others_adc_result |].
  unfold adc_result, sens_result, full_result, sens_done, shAdcRequestNextFull, SmartHelmet_AdcRequestSensIn,
    shAdcStartSens, adc_read, shAdcFeedVitalsSens, shAdcSensDropped. keeps_tac.
Qed.

(** What the dispatch does with each timer of the converter and the link. *)
Lemma dispatch m w : match m with MsgTimer REPORT_TICK | MsgTimer MOTION_POLL | MsgTimer I2C_PROBE_RETRY | MsgTimer LIS3DH_LOG_TICK => False
                     | _ => True end ->
  run (smartHelmetTaskHandler m) w = run (or_else (SmartHelmet_AdcHandleMessage m) (SmartHelmet_UartHandleMessage m)) w.
Proof. destruct m as [[] | | | |]; done. Qed.

Lemma dispatch_scan w :
  run (smartHelmetTaskHandler (MsgTimer ADC_INTERNAL_TRIGGER)) w =
  run (SmartHelmet_AdcRequestScan;; task ← adc_get sh_adc_task; when task (call (MessageSendLater ADC_INTERNAL_TRIGGER ADC_PERIOD_MS))) w.
Proof. rewrite dispatch by done. unfold or_else. cbn [SmartHelmet_AdcHandleMessage]. rewrite !run_bind, !eval_bind. reflexivity. Qed.

Lemma dispatch_sens w : ENABLE_VITALS_PROXY = true ->
  run (smartHelmetTaskHandler (MsgTimer ADC_SENS_TRIGGER)) w =
  run (SmartHelmet_AdcRequestSensIn;; task ← adc_get sh_adc_task; when task (call (MessageSendLater ADC_SENS_TRIGGER ADC_SENS_PERIOD_MS))) w.
Proof.
  intros Hp. rewrite dispatch by done. unfold or_else. cbn [SmartHelmet_AdcHandleMessage]. rewrite Hp. cbn [when].
  rewrite !run_bind, !eval_bind. reflexivity.
Qed.

Lemma dispatch_link w : run (smartHelmetTaskHandler (MsgTimer WISUN_LINK_CHECK)) w = run shWisunOnTimeout w.
Proof.
  rewrite dispatch by done. unfold or_else. cbn [SmartHelmet_AdcHandleMessage SmartHelmet_UartHandleMessage].
  rewrite !run_bind. reflexivity.
Qed.

Lemma dispatch_rx w : run (smartHelmetTaskHandler (MsgTimer WISUN_RX_POLL)) w = run shRxPollArm (run shUartDrain w).
Proof.
  rewrite dispatch by done. unfold or_else. cbn [SmartHelmet_AdcHandleMessage SmartHelmet_UartHandleMessage].
  rewrite !run_bind. reflexivity.
Qed.

Lemma dispatch_probe w :
  run (smartHelmetTaskHandler (MsgTimer I2C_PROBE_RETRY)) w =
  run (go ← and_then SmartHelmet_SensorsReady SmartHelmet_UartInPassthrough; when go SmartHelmet_ReportStart) (run shSensorsVerifyPass w).
Proof. cbn [smartHelmetTaskHandler SmartHelmet_SensorsHandleMessage]. rewrite !run_bind, eval_bind. reflexivity. Qed.

(** A timer of the module, with the power on. *)
Lemma on_timer id w : ENABLE_WISUN_UART = true -> ENABLE_WISUN_LINK_CHECK = true ->
  running w -> due_in id w <> 0%nat -> running (run (smartHelmetTaskHandler (MsgTimer id)) (fired id w)).
Proof.
  intros H1' H2' Hw Hd. pose proof (running_fired id w Hw Hd) as Hf. clear Hd. revert Hf. generalize (fired id w).
  intros v Hf. destruct id.
  - rewrite dispatch_scan. by apply part_scan.
  - destruct Hf as [Hp Hf]. rewrite (dispatch_sens v Hp). by apply part_sens.
  - rewrite dispatch_probe.
    assert (inv running (go ← and_then SmartHelmet_SensorsReady SmartHelmet_UartInPassthrough; when go SmartHelmet_ReportStart)) as Hk.
    { pose proof (on_report 1 1 sens_timers).
      unfold SmartHelmet_SensorsReady, shSensorsRequiredOk, SmartHelmet_UartInPassthrough. keeps_tac. }
    apply Hk. by apply part_verify.
  - destruct Hf.
  - rewrite dispatch_link. by apply part_link.
  - rewrite dispatch_rx. apply part_rx. by apply on_drain.
  - by apply on_report.
  - by apply part_motion.
Qed.

(** * Stopping *)

(** While the module stops: the tasks that are still set, and the timers that
    are gone already. *)
Record stopping (p : bool) (l : list MsgId) (w : World) : Prop := {
  st_adc : sh_adc_task (w_adc w) = true;
  st_uart : sh_uart_task (w_uart w) = true;
  st_probe : p = true -> sh_probe_task (w_sens w) = true;
  st_gone : Forall (fun id => due_in id w = 0%nat) l }.

Lemma stopping_frame {A} p l (c : IO A) : (forall id, keeps (due_in id) c) -> keeps tasks c -> inv (stopping p l) c.
Proof.
  intros Hd Ht w [Ha Hu Hp Hg]. specialize (Ht w).
  pose proof (f_equal (fun x => fst (fst x)) Ht) as E1. pose proof (f_equal (fun x => snd (fst x)) Ht) as E2.
  pose proof (f_equal snd Ht) as E3. cbn in E1, E2, E3.
  constructor; [congruence | congruence | intros; rewrite E3; auto |].
  eapply Forall_impl; [exact Hg |]. intros id E. by rewrite Hd.
Qed.

Lemma stopping_cancel p l id : leads (stopping p l) (stopping p (id :: l)) (call (MessageCancelAll id)).
Proof.
  intros w [Ha Hu Hp Hg]. constructor; try done. constructor; [apply due_cancel_snd |].
  eapply Forall_impl; [exact Hg |]. intros j E. destruct (decide (id = j)) as [-> | Hn]; [apply due_cancel_snd |].
  by rewrite (due_cancel_other id j Hn).
Qed.

(** A read of a task that is known. *)
Lemma leads_known {A B} (P Q : World -> Prop) (f : World -> A) x (k : A -> IO B) :
  (forall w, P w -> f w = x) -> leads P Q (k x) -> leads P Q (gets f ≫= k).
Proof. intros Hx Hk. apply leads_read. intros w Hw. rewrite (Hx w Hw). by apply Hk. Qed.

Lemma stopping_probe l : leads (stopping true l) (stopping false (I2C_PROBE_RETRY :: l)) SmartHelmet_SensorsStopVerify.
Proof.
  unfold SmartHelmet_SensorsStopVerify, cancel_retry. apply (leads_bind _ (stopping true (I2C_PROBE_RETRY :: l))).
  - apply (leads_known _ _ _ true); [intros w []; auto |]. apply stopping_cancel.
  - intros _ w [Ha Hu Hp Hg]. by constructor.
Qed.

Lemma stopping_adc p l :
  leads (stopping p l) (stopping p (ADC_SENS_TRIGGER :: ADC_INTERNAL_TRIGGER :: l)) SmartHelmet_AdcStop.
Proof.
  unfold SmartHelmet_AdcStop. apply (leads_known _ _ (fun w => sh_adc_task (w_adc w)) true); [intros w []; auto |]. cbn [when].
  apply (leads_bind _ (stopping p (ADC_SENS_TRIGGER :: ADC_INTERNAL_TRIGGER :: l))).
  - apply (leads_bind _ (stopping p (ADC_INTERNAL_TRIGGER :: l))); [apply stopping_cancel | intros _; apply stopping_cancel].
  - intros _ w [Ha Hu Hp Hg]. by constructor.
Qed.

Lemma stopping_send p l d : inv (stopping p l) (SmartHelmet_UartSend d).
Proof.
  apply stopping_frame; [intros id |]; apply keeps_of_inv; intros x; apply inv_send; side.
Qed.

Definition closed (w : World) : Prop := sh_uart_source (w_uart w) = false.

Lemma stopping_uart p l :
  leads (stopping p l) (fun w => stopping p (WISUN_LINK_CHECK :: WISUN_RX_POLL :: WISUN_LINK_CHECK :: l) w /\ closed w)
    SmartHelmet_UartClose.
Proof.
  assert (forall l g, (forall u, sh_uart_task (g u) = sh_uart_task u) -> inv (stopping p l) (uart_do g)) as Hg.
  { intros l' g Hg w [Ha Hu Hp Hl]. constructor; try done. cbn. by rewrite Hg. }
  unfold SmartHelmet_UartClose, SmartHelmet_UartStopVerify.
  apply (leads_bind _ (stopping p l)); [apply inv_gets | intros sink].
  apply (leads_bind _ (stopping p l)).
  { apply inv_when. unfold shWisunSendProbe. apply inv_bind; [apply stopping_send | intros ok]. by apply Hg. }
  intros _. apply (leads_bind _ (stopping p l)); [by apply Hg | intros _].
  apply (leads_bind _ (stopping p (WISUN_LINK_CHECK :: l))).
  { apply (leads_known _ _ (fun w => sh_uart_task (w_uart w)) true); [intros w []; auto |]. cbn [when].
    apply (leads_bind _ (stopping p (WISUN_LINK_CHECK :: l))); [apply stopping_cancel | intros _; by apply Hg]. }
  intros _. apply (leads_known _ _ (fun w => sh_uart_task (w_uart w)) true); [intros w []; auto |]. cbn [when].
  apply (leads_bind _ (stopping p (WISUN_LINK_CHECK :: WISUN_RX_POLL :: WISUN_LINK_CHECK :: l))).
  { apply (leads_bind _ (stopping p (WISUN_RX_POLL :: WISUN_LINK_CHECK :: l))); [apply stopping_cancel | intros _; apply stopping_cancel]. }
  intros _.
  apply (leads_bind _ (fun w => stopping p (WISUN_LINK_CHECK :: WISUN_RX_POLL :: WISUN_LINK_CHECK :: l) w /\ closed w)).
  { intros w [Ha Hu Hp Hl]. by split. }
  intros _. apply inv_and.
  - apply stopping_frame; [intros id |]; unfold shUartReleasePio, SmartHelmet_UartResetHold; keeps_tac.
  - apply (keeps_inv (fun w => sh_uart_source (w_uart w)) (fun b => b = false)).
    unfold shUartReleasePio, SmartHelmet_UartResetHold; keeps_tac.
Qed.

Lemma running_stopping w : running w -> stopping true [LIS3DH_LOG_TICK] w.
Proof.
  intros [Hf _ _ _ _ _ Hg _]. pose proof (f_equal (fun x => snd (fst (fst x))) Hf). pose proof (f_equal (fun x => snd (fst x)) Hf).
  pose proof (f_equal snd Hf). constructor; [done | done | done |]. by constructor.
Qed.

(** Everything is gone. *)
Definition all_gone (l : list MsgId) : Prop :=
  forall id, id ∈ l.

Lemma stopping_off p l w : all_gone l -> stopping p l w -> closed w -> off_schedule 0 0 w.
Proof.
  intros Hl [_ _ _ Hg] Hs. rewrite Forall_forall in Hg.
  constructor; [done | intros; by apply Hg | by rewrite Hg ..].
Qed.

Lemma stopping_sleep p l :
  leads (stopping p l) (fun w => stopping p (WISUN_LINK_CHECK :: WISUN_RX_POLL :: WISUN_LINK_CHECK :: WISUN_LINK_CHECK :: l) w /\ closed w)
    SmartHelmet_UartSleep.
Proof.
  assert (forall l, inv (stopping p l) (wisun_do (fun s => s <| ws_online := false |>))) as Hw
    by (intros l' w [Ha Hu Hp Hl]; by constructor).
  unfold SmartHelmet_UartSleep, SmartHelmet_UartStopVerify. apply (leads_bind _ (stopping p (WISUN_LINK_CHECK :: l))).
  { apply (leads_known _ _ (fun w => sh_uart_task (w_uart w)) true); [intros w []; auto |]. cbn [when].
    apply (leads_bind _ (stopping p (WISUN_LINK_CHECK :: l))); [apply stopping_cancel |].
    intros _ w [Ha Hu Hp Hl]. by constructor. }
  intros _. apply (leads_bind _ (stopping p (WISUN_LINK_CHECK :: l))); [apply inv_gets | intros u].
  apply (leads_bind _ (stopping p (WISUN_LINK_CHECK :: l))).
  { apply inv_when. apply inv_bind; [intros w [Ha Hu Hp Hl]; by constructor | intros _].
    apply inv_bind; [apply stopping_send | intros; apply inv_ret]. }
  intros _. apply (leads_bind _ (stopping p (WISUN_LINK_CHECK :: l))); [apply Hw | intros _]. apply stopping_uart.
Qed.

Definition off (w : World) : Prop := sh_powered (w_hel w) = false.

Lemma keeps_off {A} (c : IO A) : keeps w_hel c -> inv off c.
Proof. intros Hk. apply (keeps_inv (fun w => sh_powered (w_hel w)) (fun b => b = false)). intros w. by rewrite Hk. Qed.

Lemma off_step {A} (P Q : World -> Prop) (c : IO A) :
  leads P Q c -> keeps w_hel c -> leads (fun w => P w /\ off w) (fun w => Q w /\ off w) c.
Proof. intros Hc Hk w [Hw Ho]. split; [by apply Hc | unfold off in *; by rewrite Hk]. Qed.

(** The common part of power-off and close: the timers of the report, the
    motion poll and the bring-up. *)
Lemma stopping_clear : leads running (fun w => stopping true [LIS3DH_LOG_TICK] w /\ off w)
  (hel_do (fun h => motion_clear (h <| sh_powered := false |>))).
Proof. intros w Hw. apply running_stopping in Hw as [Ha Hu Hp Hl]. split; [by constructor | done]. Qed.

Lemma running_powered w : running w -> sh_powered (w_hel w) = true /\ sh_ready (w_hel w) = true.
Proof.
  intros [Hf]. split; [exact (f_equal (fun x => snd (fst (fst (fst x)))) Hf) | exact (f_equal (fun x => fst (fst (fst (fst x)))) Hf)].
Qed.

Lemma closed_step {A} (P Q : World -> Prop) (c : IO A) :
  leads P Q c -> keeps w_uart c -> leads (fun w => P w /\ closed w) (fun w => Q w /\ closed w) c.
Proof. intros Hc Hk w [Hw Ho]. split; [by apply Hc | unfold closed in *; by rewrite Hk]. Qed.

Lemma power_off_gone : leads running (fun w => off_schedule 0 0 w /\ off w) SmartHelmet_PowerOff.
Proof.
  unfold SmartHelmet_PowerOff.
  apply (leads_known _ _ (fun w => sh_powered (w_hel w)) true); [intros w Hw; apply (running_powered w Hw) |]. cbn [negb].
  eapply leads_bind; [apply stopping_clear | intros _].
  eapply leads_bind; [apply off_step; [apply stopping_cancel | solve [unfold SmartHelmet_ReportStop; keeps_tac]] | intros _].
  eapply leads_bind; [apply off_step; [apply stopping_cancel | keeps_tac] | intros _].
  eapply leads_bind; [apply off_step; [apply stopping_probe | unfold SmartHelmet_SensorsStopVerify, cancel_retry; keeps_tac] | intros _].
  eapply leads_bind; [apply off_step; [apply inv_when, stopping_frame; [intros id |] |];
    unfold SmartHelmet_SensorsSleep; keeps_tac | intros _].
  eapply leads_bind; [apply off_step; [apply stopping_sleep |
    unfold SmartHelmet_UartSleep, SmartHelmet_UartClose, shWisunSendProbe, SmartHelmet_UartStopVerify, shUartReleasePio,
      SmartHelmet_UartResetHold; keeps_tac] | intros _].
  eapply leads_bind; [apply off_step; [apply closed_step; [apply stopping_adc |] |]; unfold SmartHelmet_AdcStop; keeps_tac | intros _].
  apply off_step; [| keeps_tac].
  eapply leads_weaken; [intros w Hw; exact Hw | apply closed_step; [apply inv_when, stopping_frame; [intros id |] |]; keeps_tac |].
  intros w [Hw Hc]. eapply stopping_off; [| exact Hw | exact Hc]. intros []; repeat first [by left | right].
Qed.

Lemma close_gone : leads running (fun w => off_schedule 0 0 w /\ off w) SmartHelmet_Close.
Proof.
  unfold SmartHelmet_Close.
  apply (leads_bind _ (stopping false [I2C_PROBE_RETRY; LIS3DH_LOG_TICK])).
  { intros w Hw. by apply stopping_probe, running_stopping. }
  intros _. eapply leads_bind; [apply stopping_cancel | intros _].
  eapply leads_bind; [apply stopping_cancel | intros _].
  eapply leads_bind; [apply stopping_adc | intros _].
  eapply leads_bind; [apply stopping_uart | intros _].
  eapply leads_bind.
  - apply closed_step; [apply stopping_frame; [intros id |] |]; keeps_tac.
  - intros _ w [[Ha Hu Hp Hg] Hc]. split; [| done]. eapply (stopping_off false); [| by constructor | exact Hc].
    intros []; repeat first [by left | right].
Qed.

(** * Starting *)

(** The power is on and the parts come up one after the other: [a] and [p]
    say whether the converter and the bring-up have their task. *)
Record starting (a p : bool) (w : World) : Prop := {
  sg_ready : sh_ready (w_hel w) = true;
  sg_powered : sh_powered (w_hel w) = true;
  sg_adc : a = true -> sh_adc_task (w_adc w) = true /\ due_in ADC_INTERNAL_TRIGGER w = 1%nat /\ due_in ADC_SENS_TRIGGER w = sens_timers;
  sg_probe : p = true -> sh_probe_task (w_sens w) = true;
  sg_once : (due_in I2C_PROBE_RETRY w <= 1)%nat;
  sg_quiet : forall id, id <> ADC_INTERNAL_TRIGGER -> id <> ADC_SENS_TRIGGER -> id <> I2C_PROBE_RETRY -> due_in id w = 0%nat }.

Lemma starting_frame {A} a p (c : IO A) : (forall id, keeps (due_in id) c) -> keeps tasks c -> keeps w_hel c -> inv (starting a p) c.
Proof.
  intros Hd Ht Hh w [Hr Hp Ha Hb Ho Hq]. specialize (Ht w).
  pose proof (f_equal (fun x => fst (fst x)) Ht) as E1. pose proof (f_equal snd Ht) as E3. cbn in E1, E3.
  constructor; rewrite ?Hh, ?Hd, ?E1, ?E3; auto. intros. rewrite Hd. auto.
Qed.

Lemma starting_adc : leads (starting false false) (starting true false) (SmartHelmet_AdcInit true).
Proof.
  intros w [Hr Hp _ _ Ho Hq]. fold (run (SmartHelmet_AdcInit true) w).
  assert (forall id, id <> ADC_INTERNAL_TRIGGER -> id <> ADC_SENS_TRIGGER ->
    due_in id (run (SmartHelmet_AdcInit true) w) = due_in id w) as Hd.
  { intros id H3 H4. apply run_keeps. unfold SmartHelmet_AdcInit.
    repeat first [keeps_step | apply due_cancel_other; congruence | apply due_send_other; congruence]. }
  assert (w_hel (run (SmartHelmet_AdcInit true) w) = w_hel w) as Hh by (apply run_keeps; unfold SmartHelmet_AdcInit; keeps_tac).
  constructor; rewrite ?Hh; try done; [intros _ | rewrite Hd by done; done | intros; rewrite Hd by done; auto].
  unfold SmartHelmet_AdcInit, sens_timers. rewrite run_bind. cbn [when]. rewrite !run_bind. cbv beta.
  set (w1 := run (adc_do _) w). assert (sh_adc_task (w_adc w1) = true) as Ht by (subst w1; cbn; by destruct ENABLE_SENS_OVERSAMPLE).
  clearbody w1. split_and!.
  - rewrite (run_keeps (fun w => sh_adc_task (w_adc w))) by keeps_tac. exact Ht.
  - rewrite (run_keeps (due_in ADC_INTERNAL_TRIGGER)) by keeps_tac. rewrite due_send_same.
    rewrite (run_keeps (due_in ADC_INTERNAL_TRIGGER)) by keeps_tac. by rewrite due_cancel_same.
  - destruct ENABLE_VITALS_PROXY; cbn [when].
    + rewrite due_send_same, (run_keeps (due_in ADC_SENS_TRIGGER)) by keeps_tac. by rewrite due_cancel_same.
    + rewrite run_ret, (run_keeps (due_in ADC_SENS_TRIGGER)) by keeps_tac. by rewrite due_cancel_same.
Qed.

Lemma starting_verify : leads (starting true false) (starting true true) (SmartHelmet_SensorsStartVerify true).
Proof.
  unfold SmartHelmet_SensorsStartVerify. apply (leads_bind _ (starting true true)).
  { intros w [Hr Hp Ha _ Ho Hq]. by constructor. }
  intros _. apply (leads_bind _ (starting true true)); [apply inv_gets | intros ok].
  destruct (negb ok); [| apply inv_ret]. unfold shSensorsScheduleRetry.
  apply (leads_known _ _ (fun w => sh_probe_task (w_sens w)) true); [intros w []; auto |]. cbn [negb].
  intros w [Hr Hp Ha Hb Ho Hq].
  assert (forall id, id <> I2C_PROBE_RETRY ->
    keeps (due_in id) (call (MessageCancelAll I2C_PROBE_RETRY);; call (MessageSendLater I2C_PROBE_RETRY I2C_PROBE_RETRY_MS))) as Hk
    by (intros; repeat first [keeps_step | apply due_cancel_other; congruence | apply due_send_other; congruence]).
  constructor; try done.
  - intros _. destruct (Ha eq_refl) as (H3 & H4 & H5). split; [exact H3 |]. rewrite !Hk by done. done.
  - exact (eq_ind_r (fun n => (n <= 1)%nat) (le_n 1) (due_again I2C_PROBE_RETRY I2C_PROBE_RETRY_MS w)).
  - intros id H3 H4 H5. rewrite Hk; auto.
Qed.

(** The stream is opened: its poll is set, once. *)
Definition opening (w : World) : Prop := on_schedule 0 1 sens_timers link_weak w /\ due_in WISUN_RX_POLL w = 0%nat.

Lemma opening_on {A} (c : IO A) : inv opening c -> leads opening (on_schedule 0 1 sens_timers link_weak) c.
Proof. intros Hc w Hw. by destruct (Hc w Hw). Qed.

Lemma opening_call q : not_timer q = true -> inv opening (call q).
Proof.
  intros Hq w [Hw Hr]. split; [| by rewrite (due_call q _ Hq)]. clear Hr. revert w Hw.
  apply on_frame; [intros; by apply others_keeps_call | by apply link_weak_call].
Qed.

Lemma opening_field g : (forall u, sh_uart_task (g u) = sh_uart_task u) -> inv opening (uart_do g).
Proof.
  intros Hg w [[Hf Hm Hn Hs Hp Hx Hl Hk] Hr]. split; [| exact Hr].
  constructor; try done; [| by apply link_weak_uart]. unfold flags in *. cbn. by rewrite Hg.
Qed.

Lemma starting_uart : leads (starting true true) (on_schedule 0 1 sens_timers link_weak) (SmartHelmet_UartInit true).
Proof.
  unfold SmartHelmet_UartInit. apply (leads_bind _ opening).
  { intros w [Hr Hp Ha Hb Ho Hq]. destruct (Ha eq_refl) as (Ht & Hn & Hk). specialize (Hb eq_refl).
    assert (forall id, id <> ADC_INTERNAL_TRIGGER -> id <> ADC_SENS_TRIGGER -> id <> I2C_PROBE_RETRY ->
      due_in id (snd (uart_do (fun u => u <| sh_uart_task := true |>) w)) = 0%nat) as Hz by exact Hq.
    split; [| by apply Hz]. constructor; try done; try (by rewrite Hz by done); try (by apply Hz).
    - unfold flags. cbn. by rewrite Hr, Hp, Ht, Hb.
    - rewrite Hz by done. lia.
    - split_and!; [done | rewrite Hz by done; lia ..]. }
  pose proof opening_call. pose proof opening_field. intros _.
  assert (forall p f, inv opening (shUartMapPio p f)) as Hmap
    by (intros; unfold shUartMapPio; repeat first [keeps_step | apply opening_call; reflexivity]).
  assert (forall b : bool, leads opening (on_schedule 0 1 sens_timers link_weak) (mret b)) as Hret
    by (intros b; apply opening_on, inv_ret).
  repeat lazymatch goal with
  | |- leads _ _ (if ?b then _ else _) => destruct b; [apply Hret |]
  | |- leads _ _ (call (MessageSendLater _ _) ≫= _) => fail
  | |- leads _ _ (call _ ≫= _) => apply (leads_bind _ opening); [by apply opening_call | intros ?]
  | |- leads _ _ (uart_do _ ≫= _) => apply (leads_bind _ opening); [by apply opening_field | intros _]
  | |- leads _ _ (shUartMapPio _ _ ≫= _) => apply (leads_bind _ opening); [apply Hmap | intros ?]
  | |- leads _ _ (uart_get _ ≫= _) => apply (leads_bind _ opening); [apply inv_gets | intros ?]
  end.
  apply (leads_bind _ (on_schedule 0 1 sens_timers link_weak)); [| intros _; apply inv_ret].
  intros w [[Hf Hm Hn Hs Hp Hx Hl Hk] Hr].
  constructor; try done; try (by rewrite due_send_other by done).
  - by rewrite due_send_snd, Hr.
  - destruct Hk as (Hk1 & Hk2 & Hk3). split_and!; [done | by rewrite due_send_other by done ..].
Qed.

Lemma part_arm : leads (on_schedule 0 1 sens_timers link_timed) running
  (call (MessageCancelAll MOTION_POLL);; call (MessageSendLater MOTION_POLL MOTION_POLL_MS)).
Proof.
  apply (on_part MOTION_POLL); [done | done | intros; keeps_tac | keeps_tac |].
  intros w _ _ _ _. split; [apply due_again | done].
Qed.

(** Power-on with the power off. *)
Lemma power_on_runs w : ENABLE_WISUN_UART = true -> ENABLE_WISUN_LINK_CHECK = true ->
  sh_ready (w_hel w) = true -> off w -> off_schedule 1 1 w -> running (run SmartHelmet_PowerOn w).
Proof.
  intros H1' H2' Hr Ho Hs.
  assert (leads (fun w => sh_ready (w_hel w) = true /\ off w /\ off_schedule 1 1 w) running SmartHelmet_PowerOn) as Hk; [| by apply Hk].
  clear w Hr Ho Hs. unfold SmartHelmet_PowerOn. apply leads_read. intros w (Hr & Ho & Hs). unfold id, off in *. rewrite Hr, Ho. cbn [negb orb].
  assert (sh_ready (w_hel w) = true /\ off_schedule 1 1 w) as Hw by done. clear Hr Ho Hs. revert w Hw.
  match goal with |- forall w, _ -> running (run ?c w) => change (leads (fun w => sh_ready (w_hel w) = true /\ off_schedule 1 1 w) running c) end.
  apply (leads_bind _ (starting false false)).
  { intros w [Hr [_ Hq _ _]]. constructor; try done; [change (due_in I2C_PROBE_RETRY w <= 1)%nat; rewrite Hq by done; lia | intros; by apply Hq]. }
  intros _. apply (leads_bind _ (starting true false)); [apply starting_adc | intros _].
  apply (leads_bind _ (starting true false)).
  { apply starting_frame; [intros id | |]; unfold SmartHelmet_SensorsInit, bring_up_ccs811,
      bring_up_hdc1080, bring_up_lis3dh, bring_up_mlx90614, bring_up_ssd1315, shProbeCcs811, shInitCcs811, shProbeHdc1080,
      shHdcReadU16, shInitHdc1080, shProbeLis3dh, shInitLis3dh, shReadMlx90614, shClearInitFail; keeps_tac. }
  intros _. apply (leads_bind _ (starting true false)).
  { apply inv_when, starting_frame; [intros id | |]; keeps_tac. }
  intros _. apply (leads_bind _ (starting true true)); [apply starting_verify | intros _].
  apply (leads_bind _ (starting true true)); [apply starting_frame; [intros id | |]; keeps_tac | intros _].
  apply (leads_bind _ (starting true true)); [apply inv_when, starting_frame; [intros id | |]; keeps_tac | intros _].
  apply (leads_bind _ (starting true true)).
  { apply starting_frame; [intros id | |]; unfold SmartHelmet_UartResetHold; keeps_tac. }
  intros _. apply (leads_bind _ (on_schedule 0 1 sens_timers link_weak)); [apply starting_uart | intros _].
  apply (leads_bind _ (on_schedule 0 1 sens_timers link_timed)).
  { unfold SmartHelmet_UartStartVerify. rewrite H1', H2'. cbn [negb orb]. apply on_frame.
    - intros id Hi1 Hi2. pose proof (others_leave id Hi2). keeps_tac.
    - apply leads_weak; [keeps_tac | intros _; apply link_leave]. }
  intros _. apply (leads_bind _ (on_schedule 0 1 sens_timers link_timed)).
  { apply on_keeps; [apply others_scan |]. unfold SmartHelmet_AdcRequestScan, shAdcRequestNextFull, SmartHelmet_AdcRequestSensIn,
      shAdcStartSens, adc_read, shAdcSensDropped. keeps_tac. }
  intros _. apply (leads_bind _ (on_schedule 0 1 sens_timers link_timed)); [apply on_report | intros _]. apply part_arm.
Qed.

(** * Handlers and calls with the power off *)
Lemma off_cancel n k id : inv (off_schedule n k) (call (MessageCancelAll id)).
Proof.
  assert (forall j w, (due_in j (snd (call (MessageCancelAll id) w)) <= due_in j w)%nat) as Hd.
  { intros j w. rewrite due_in_call, due_cancel. unfold due_in. destruct (decide _); lia. }
  intros w [Ho Hq Hn Hs]. constructor; [done | | |].
  - intros j H3 H4. pose proof (Hd j w). rewrite Hq in * by done. lia.
  - pose proof (Hd ADC_INTERNAL_TRIGGER w). lia.
  - pose proof (Hd ADC_SENS_TRIGGER w). lia.
Qed.

Lemma off_call n k q : not_timer q = true -> inv (off_schedule n k) (call q).
Proof. intros Hq. apply off_frame. intros. by apply others_keeps_call. Qed.

Lemma off_field n k w w' : w_env w' = w_env w -> sh_uart_source (w_uart w') = sh_uart_source (w_uart w) ->
  off_schedule n k w -> off_schedule n k w'.
Proof. intros He Hu [Ho Hq Hn Hs]. unfold due_in in *. constructor; unfold due_in; rewrite ?He, ?Hu; done. Qed.

Lemma off_close n k : inv (off_schedule n k) SmartHelmet_Close.
Proof.
  pose proof (off_cancel n k). pose proof (off_call n k).
  assert (forall g, (forall w, w_env (g w) = w_env w /\ (sh_uart_source (w_uart (g w)) = sh_uart_source (w_uart w) \/
    sh_uart_source (w_uart (g w)) = false)) -> inv (off_schedule n k) (modify g)) as Hg.
  { intros g Hg w Hw. destruct (Hg w) as [He Hs]. apply (off_field n k w); [done | | done].
    destruct Hs as [Hs | Hs]; [done | by rewrite (off_source n k w Hw)]. }
  assert (forall d, inv (off_schedule n k) (SmartHelmet_UartSend d)) by (intros d; apply inv_send; auto using plain_timer, inert_plain).
  unfold SmartHelmet_Close, SmartHelmet_SensorsStopVerify, cancel_retry, SmartHelmet_ReportStop, SmartHelmet_AdcStop,
    SmartHelmet_UartClose, SmartHelmet_UartStopVerify, shWisunSendProbe, shUartReleasePio, SmartHelmet_UartResetHold.
  repeat first [keeps_step | apply off_call; reflexivity | apply inv_i2c_close; [auto using plain_timer | by intros b w []]
    | apply Hg; intros ?; cbn; by auto].
Qed.

Lemma off_again {A} n k (c : IO A) : inv (off_schedule n k) c -> keeps w_hel c -> inv (fun w => off w /\ off_schedule n k w) c.
Proof. intros Hc Hk. apply inv_and; [by apply keeps_off | done]. Qed.

(** Whatever was pending, the timers of the converter are set once. *)
Lemma off_adc_init : inv (off_schedule 1 1) (SmartHelmet_AdcInit true).
Proof.
  intros w [Ho Hq _ _]. fold (run (SmartHelmet_AdcInit true) w).
  assert (forall id, id <> ADC_INTERNAL_TRIGGER -> id <> ADC_SENS_TRIGGER ->
    due_in id (run (SmartHelmet_AdcInit true) w) = due_in id w) as Hd.
  { intros id H3 H4. apply run_keeps. unfold SmartHelmet_AdcInit.
    repeat first [keeps_step | apply due_cancel_other; congruence | apply due_send_other; congruence]. }
  constructor.
  - rewrite (run_keeps (fun w => sh_uart_source (w_uart w))) by (unfold SmartHelmet_AdcInit; keeps_tac). done.
  - intros. rewrite Hd by done. auto.
  - unfold SmartHelmet_AdcInit. rewrite run_bind. cbn [when]. rewrite !run_bind. cbv beta.
    rewrite (run_keeps (due_in ADC_INTERNAL_TRIGGER)) by keeps_tac. rewrite due_send_same.
    rewrite (run_keeps (due_in ADC_INTERNAL_TRIGGER)) by keeps_tac. by rewrite due_cancel_same.
  - unfold SmartHelmet_AdcInit. rewrite run_bind. cbn [when]. rewrite !run_bind. cbv beta.
    destruct ENABLE_VITALS_PROXY; cbn [when].
    + rewrite due_send_same, (run_keeps (due_in ADC_SENS_TRIGGER)) by keeps_tac. by rewrite due_cancel_same.
    + rewrite run_ret, (run_keeps (due_in ADC_SENS_TRIGGER)) by keeps_tac. rewrite due_cancel_same. lia.
Qed.

(** A timer of the converter set again after its work. *)
Lemma off_rearm id d (body : IO unit) : id = ADC_INTERNAL_TRIGGER \/ id = ADC_SENS_TRIGGER ->
  (forall i, keeps (others i) body) ->
  leads (fun w => off_schedule 1 1 w /\ due_in id w = 0%nat) (off_schedule 1 1)
    (body;; task ← adc_get sh_adc_task; when task (call (MessageSendLater id d))).
Proof.
  intros Hid Hk. apply (leads_bind _ (fun w => off_schedule 1 1 w /\ due_in id w = 0%nat)).
  { apply inv_and; [by apply off_frame |]. intros w Hw. exact (eq_trans (f_equal snd (Hk id w)) Hw). }
  intros _. apply (leads_bind _ (fun w => off_schedule 1 1 w /\ due_in id w = 0%nat)); [apply inv_gets | intros []]; cbn [when].
  - intros w [[Ho Hq Hn Hs] H0'].
    constructor; [done | intros j H3 H4; rewrite due_send_other; [auto | destruct Hid; congruence] | |];
      destruct Hid as [-> | ->]; rewrite ?due_send_other by done;
      first [assumption | apply Nat.eq_le_incl; etransitivity; [apply due_send_snd | by rewrite H0']].
  - by intros w [].
Qed.

Lemma off_fired id w : off_schedule 1 1 w -> due_in id w <> 0%nat ->
  (id = ADC_INTERNAL_TRIGGER \/ id = ADC_SENS_TRIGGER) /\ off_schedule 1 1 (fired id w) /\ due_in id (fired id w) = 0%nat.
Proof.
  intros [Ho Hq Hn Hs] Hd.
  assert (id = ADC_INTERNAL_TRIGGER \/ id = ADC_SENS_TRIGGER) as Hid.
  { destruct (decide (id = ADC_INTERNAL_TRIGGER)); [by left |]. destruct (decide (id = ADC_SENS_TRIGGER)); [by right |].
    by rewrite Hq in Hd. }
  split; [done |]. split; [| rewrite due_fired_same; destruct Hid as [-> | ->]; lia].
  constructor; [done | intros j H3 H4; rewrite due_fired; destruct (decide _); [rewrite Hq by done; done | by apply Hq] | |];
    rewrite due_fired; destruct (decide _); subst; lia.
Qed.

Lemma off_timer id w : off_schedule 1 1 w -> due_in id w <> 0%nat ->
  off_schedule 1 1 (run (smartHelmetTaskHandler (MsgTimer id)) (fired id w)).
Proof.
  intros Hw Hd. destruct (off_fired id w Hw Hd) as (Hid & Hf & Hz). clear Hw Hd. revert Hf Hz. generalize (fired id w).
  intros v Hf Hz. destruct Hid as [-> | ->].
  - rewrite dispatch_scan. apply (off_rearm ADC_INTERNAL_TRIGGER); [by left | apply others_scan | done].
  - destruct ENABLE_VITALS_PROXY eqn:Hp.
    + rewrite (dispatch_sens v Hp). apply (off_rearm ADC_SENS_TRIGGER); [by right | apply others_request_sens | done].
    + rewrite dispatch by done. unfold or_else. cbn [SmartHelmet_AdcHandleMessage]. rewrite Hp. done.
Qed.

(** * Every call and every timer keeps the schedule *)
Section kept.
Hypothesis Huart : ENABLE_WISUN_UART = true.
Hypothesis Hcheck : ENABLE_WISUN_LINK_CHECK = true.

Lemma scheduled_on w : running w -> scheduled w.
Proof. intros Hw. unfold scheduled. by rewrite (proj1 (running_powered w Hw)). Qed.

Lemma scheduled_off n k w : (n <= 1)%nat -> (k <= 1)%nat -> off w -> off_schedule n k w -> scheduled w.
Proof. intros Hn Hk Ho [Hs Hq H3 H4]. unfold scheduled. rewrite Ho. constructor; [done | done | lia | lia]. Qed.

Lemma scheduled_cases w : scheduled w -> running w \/ (off w /\ off_schedule 1 1 w).
Proof. unfold scheduled, off. destruct (sh_powered _); [by left | by right]. Qed.

(** What touches neither the timers nor the switches. *)
Lemma scheduled_frame {A} (c : IO A) :
  (forall id, keeps (others id) c) -> keeps (fun w => sh_wisun_step (w_uart w)) c -> inv scheduled c.
Proof.
  intros Hk Hs w Hw.
  assert (sh_powered (w_hel (snd (c w))) = sh_powered (w_hel w)) as Hp
    by exact (f_equal (fun x => snd (fst (fst (fst (fst (fst x)))))) (Hk MOTION_POLL w)).
  apply scheduled_cases in Hw as [Hw | [Ho Hw]].
  - apply scheduled_on. by apply on_keeps.
  - apply (scheduled_off 1 1); [done | done | unfold off; by rewrite Hp | by apply off_frame].
Qed.

Lemma scheduled_power_on : inv scheduled SmartHelmet_PowerOn.
Proof.
  intros w Hw. fold (run SmartHelmet_PowerOn w).
  assert (sh_powered (w_hel w) = true \/ sh_ready (w_hel w) = false -> run SmartHelmet_PowerOn w = w) as Hn.
  { intros Hc. unfold SmartHelmet_PowerOn. rewrite run_bind, eval_hel_get, run_hel_get. unfold id.
    by destruct Hc as [-> | ->]; rewrite ?orb_true_r. }
  destruct (sh_ready (w_hel w)) eqn:Hr; [| rewrite Hn by auto; done].
  destruct (scheduled_cases w Hw) as [Ho | [Ho Hs]].
  - rewrite Hn; [done |]. left. apply (running_powered w Ho).
  - apply scheduled_on. by apply power_on_runs.
Qed.

Lemma scheduled_power_off : inv scheduled SmartHelmet_PowerOff.
Proof.
  intros w Hw. destruct (scheduled_cases w Hw) as [Ho | [Ho Hs]].
  - destruct (power_off_gone w Ho) as [Hs Hp]. by apply (scheduled_off 0 0); [lia | lia | ..].
  - fold (run SmartHelmet_PowerOff w). unfold SmartHelmet_PowerOff. rewrite run_bind, eval_hel_get, run_hel_get. by rewrite Ho.
Qed.

Lemma scheduled_close : leads scheduled (fun w => off w /\ off_schedule 1 1 w) SmartHelmet_Close.
Proof.
  intros w Hw. split.
  - fold (run SmartHelmet_Close w). unfold off, SmartHelmet_Close. rewrite !run_bind. cbv beta. by rewrite run_hel_do.
  - destruct (scheduled_cases w Hw) as [Ho | [Ho Hs]]; [| by apply off_close].
    destruct (close_gone w Ho) as [[Hs Hq Hn Hk] _]. constructor; [done | done | lia | lia].
Qed.

Lemma scheduled_init : inv scheduled (SmartHelmet_Init;; mret tt).
Proof.
  pose proof (off_cancel 1 1) as Hc. pose proof (off_call 1 1) as Hq.
  apply (leads_bind _ scheduled); [| intros _; apply inv_ret].
  assert (leads (fun w => off w /\ off_schedule 1 1 w) scheduled (mret false : IO bool)) as Hret
    by (intros w [Ho Hs]; by apply (scheduled_off 1 1)).
  unfold SmartHelmet_Init. apply leads_read. intros w Hw.
  assert (off (run (when (sh_ready (w_hel w)) SmartHelmet_Close) w) /\
    off_schedule 1 1 (run (when (sh_ready (w_hel w)) SmartHelmet_Close) w)) as Hw1.
  { destruct (sh_ready (w_hel w)) eqn:Hr; cbn [when]; [by apply scheduled_close |].
    destruct (scheduled_cases w Hw) as [Ho | Ho]; [| exact Ho]. apply running_powered in Ho as [_ Ho]. congruence. }
  rewrite run_bind. revert Hw1. generalize (run (when (sh_ready (w_hel w)) SmartHelmet_Close) w). clear w Hw. intros w Hw.
  revert w Hw. match goal with |- forall w, _ -> scheduled (run ?c w) => change (leads (fun w => off w /\ off_schedule 1 1 w) scheduled c) end.
  apply (leads_bind _ (fun w => off w /\ off_schedule 1 1 w)).
  { apply off_again; [| keeps_tac]. apply inv_i2c_init; [auto using plain_timer | by intros b w []]. }
  intros [|]; cbn [negb]; [| exact Hret].
  apply (leads_bind _ (fun w => off w /\ off_schedule 1 1 w)).
  { apply off_again; [apply off_adc_init | unfold SmartHelmet_AdcInit; keeps_tac]. }
  intros _. apply (leads_bind _ (fun w => off w /\ off_schedule 1 1 w)).
  { apply off_again; [apply off_frame; intros id |]; unfold SmartHelmet_UartResetHold; keeps_tac. }
  intros _. apply (leads_bind _ (fun w => off w /\ off_schedule 1 1 w)).
  { apply off_again; unfold SmartHelmet_SensorsSetLogTask, lis3dh_chk; cbn [negb Z.eqb]; [| keeps_tac].
    keeps_step; [by intros w [] |]. intros _. keeps_step; [| intros; apply inv_ret].
    keeps_step; [apply inv_gets | intros t]. destruct t; cbn [negb]; [| apply inv_ret].
    keeps_step; [apply Hc | intros; apply inv_ret]. }
  intros _. apply (leads_bind _ (fun w => off w /\ off_schedule 1 1 w)).
  { by intros w [Ho [Hs H3 H4 H5]]. }
  intros _ w [Ho Hs]. by apply (scheduled_off 1 1).
Qed.

Lemma scheduled_ui state : inv scheduled (SmartHelmet_UiRefresh state).
Proof.
  pose proof scheduled_power_on. pose proof scheduled_power_off. unfold SmartHelmet_UiRefresh.
  keeps_step; [apply scheduled_frame; [intros id |]; keeps_tac | intros _].
  keeps_step; [keeps_tac | intros _]. apply scheduled_frame; [intros id |]; keeps_tac.
Qed.

Lemma scheduled_drain : inv scheduled shUartDrain.
Proof.
  intros w Hw. destruct (scheduled_cases w Hw) as [Ho | [Ho Hs]]; [apply scheduled_on; by apply on_drain |].
  fold (run shUartDrain w). unfold shUartDrain. rewrite run_bind, eval_uart_get, run_uart_get.
  by rewrite (off_source 1 1 w Hs).
Qed.

Lemma scheduled_poll : inv scheduled SmartHelmet_PollSensors.
Proof.
  pose proof others_scan.
  assert (forall id, keeps (others id) SmartHelmet_SensorsPoll) as Hp.
  { intros id. assert (forall n k, keeps (others id) (drain_fifo n k)) as Hd
      by (induction n; intros k; cbn [drain_fifo]; unfold read_accel; keeps_tac).
    unfold SmartHelmet_SensorsPoll, poll_if, poll_ccs811, poll_fifo, poll_single, poll_hdc1080, poll_mlx90614, shReadMlx90614,
      hdc_wait, read_accel, set_accel. keeps_tac. }
  assert (keeps (fun w => sh_wisun_step (w_uart w)) SmartHelmet_SensorsPoll) as Hs.
  { assert (forall n k, keeps (fun w => sh_wisun_step (w_uart w)) (drain_fifo n k)) as Hd
      by (induction n; intros k; cbn [drain_fifo]; unfold read_accel; keeps_tac).
    unfold SmartHelmet_SensorsPoll, poll_if, poll_ccs811, poll_fifo, poll_single, poll_hdc1080, poll_mlx90614, shReadMlx90614,
      hdc_wait, read_accel, set_accel. keeps_tac. }
  apply scheduled_frame; [intros id |]; unfold SmartHelmet_PollSensors, SmartHelmet_SensorsAccelBurst; [keeps_tac |].
  unfold SmartHelmet_AdcRequestScan, shAdcRequestNextFull, SmartHelmet_AdcRequestSensIn,
    shAdcStartSens, adc_read, shAdcSensDropped. keeps_tac.
Qed.

Lemma scheduled_result src r : inv scheduled (smartHelmetTaskHandler (MESSAGE_ADC_RESULT src r)).
Proof.
  intros w Hw. fold (run (smartHelmetTaskHandler (MESSAGE_ADC_RESULT src r)) w). rewrite dispatch by done. revert w Hw.
  change (inv scheduled (or_else (adc_result src r) (mret false))). apply inv_or_else; [| apply inv_ret].
  apply scheduled_frame; [intros; apply others_adc_result |].
  unfold adc_result, sens_result, full_result, sens_done, shAdcRequestNextFull, SmartHelmet_AdcRequestSensIn,
    shAdcStartSens, adc_read, shAdcFeedVitalsSens, shAdcSensDropped. keeps_tac.
Qed.

Lemma scheduled_more : inv scheduled (smartHelmetTaskHandler MESSAGE_MORE_DATA).
Proof.
  intros w Hw. fold (run (smartHelmetTaskHandler MESSAGE_MORE_DATA) w). rewrite dispatch by done.
  unfold or_else. cbn [SmartHelmet_AdcHandleMessage SmartHelmet_UartHandleMessage]. rewrite !run_bind. by apply scheduled_drain.
Qed.

Lemma scheduled_enter e : inv scheduled (enter e).
Proof.
  destruct e; cbn [enter].
  - apply scheduled_init.
  - apply scheduled_power_on.
  - apply scheduled_power_off.
  - apply scheduled_power_off.
  - intros w Hw. destruct (scheduled_close w Hw) as [Ho Hs]. by apply (scheduled_off 1 1).
  - apply scheduled_ui.
  - apply scheduled_poll.
  - apply scheduled_frame; [intros id |]; unfold SmartHelmet_VitalsTick; keeps_tac.
  - apply scheduled_frame; [intros id |]; unfold SmartHelmet_WisunSend; keeps_tac.
  - apply scheduled_frame; [intros id |]; keeps_tac.
  - apply scheduled_frame; [intros id |]; keeps_tac.
  - apply scheduled_result.
  - apply scheduled_more.
  - by intros w Hw.
  - by intros w Hw.
Qed.

Lemma scheduled_timer id w : due_in id w <> 0%nat -> scheduled w -> scheduled (run (smartHelmetTaskHandler (MsgTimer id)) (fired id w)).
Proof.
  intros Hd Hw. destruct (scheduled_cases w Hw) as [Ho | [Ho Hs]]; [apply scheduled_on; by apply on_timer |].
  apply (scheduled_off 1 1); [done | done | | by apply off_timer].
  assert (off (fired id w)) as Hf by done. destruct (off_fired id w Hs Hd) as ([-> | ->] & _ & _).
  - unfold off. rewrite dispatch_scan. rewrite (run_keeps (fun w => sh_powered (w_hel w))); [done |].
    unfold SmartHelmet_AdcRequestScan, shAdcRequestNextFull, SmartHelmet_AdcRequestSensIn,
      shAdcStartSens, adc_read, shAdcSensDropped. keeps_tac.
  - destruct ENABLE_VITALS_PROXY eqn:Hp.
    + unfold off. rewrite (dispatch_sens _ Hp). rewrite (run_keeps (fun w => sh_powered (w_hel w))); [done |].
      unfold SmartHelmet_AdcRequestSensIn, shAdcStartSens, adc_read, shAdcSensDropped. keeps_tac.
    + rewrite dispatch by done. unfold or_else. cbn [SmartHelmet_AdcHandleMessage]. by rewrite Hp.
Qed.
End kept.

Lemma scheduled_start e : (forall id, due id e = 0%nat) -> scheduled (world_start e).
Proof. intros Hq. apply (scheduled_off 0 0); [lia | lia | done |]. constructor; [done | intros; apply Hq | unfold due_in; cbn; rewrite Hq; lia ..]. Qed.
End scheduled.

(** * The timers in every reachable state *)
Section reached.
Context `{HelmetConfig} `{BoardConfig} `{TimerLaws}.

(** [C2] Under any sequence of calls, messages and fired timers, no timer
    of the module is ever pending twice.  With the power on the motion poll,
    the gas scan and the SENS tick (in a build with vitals) are pending
    exactly once and a command that is outstanding to the module has its
    timeout running; with the power off only the converter's timers can be
    pending and the stream is closed. *)
Theorem timers_reachable w :
  ENABLE_WISUN_UART = true -> ENABLE_WISUN_LINK_CHECK = true -> reachable w ->
  (forall id, (due_in id w <= 1)%nat) /\
  (sh_powered (w_hel w) = true ->
     due_in MOTION_POLL w = 1%nat /\ due_in ADC_INTERNAL_TRIGGER w = 1%nat /\
     due_in ADC_SENS_TRIGGER w = (if ENABLE_VITALS_PROXY then 1 else 0)%nat /\
     (active (sh_wisun_step (w_uart w)) = true -> due_in WISUN_LINK_CHECK w = 1%nat)) /\
  (sh_powered (w_hel w) = false ->
     sh_uart_source (w_uart w) = false /\
     forall id, id <> ADC_INTERNAL_TRIGGER -> id <> ADC_SENS_TRIGGER -> due_in id w = 0%nat).
Proof.
  intros Hu Hc Hr.
  assert (scheduled w) as Hw.
  { revert w Hr. apply reachable_inv; [apply scheduled_start | intros; by apply scheduled_enter | intros; by apply scheduled_timer]. }
  destruct (scheduled_cases w Hw) as [Ho | [Ho Hs]].
  - pose proof (running_powered w Ho) as [Hp _]. destruct Ho as [Hf Hm Hn Hs Hb Hx Hg [[Ht [Hl Hk]] Ha]]. rewrite Hp.
    split; [| done]. unfold sens_timers in Hs. destruct ENABLE_VITALS_PROXY; intros []; lia.
  - destruct Hs as [Hs Hq Hn Hk]. unfold off in Ho. rewrite Ho. split; [| done].
    intros id. destruct (decide (id = ADC_INTERNAL_TRIGGER)) as [-> |]; [lia |].
    destruct (decide (id = ADC_SENS_TRIGGER)) as [-> |]; [lia |]. rewrite Hq by done. lia.
Qed.

(** [C9] Power-off cancels every timer of the module and closes the stream,
    from any reachable state with the power on, so nothing of the module
    runs until the next call. *)
Theorem power_off_silent w :
  ENABLE_WISUN_UART = true -> ENABLE_WISUN_LINK_CHECK = true -> reachable w -> sh_powered (w_hel w) = true ->
  let w' := run SmartHelmet_PowerOff w in
  off w' /\ closed w' /\ forall id, due_in id w' = 0%nat.
Proof.
  intros Hu Hc Hr Hp.
  assert (scheduled w) as Hw.
  { revert w Hr Hp. intros w Hr _. revert w Hr.
    apply reachable_inv; [apply scheduled_start | intros; by apply scheduled_enter | intros; by apply scheduled_timer]. }
  destruct (scheduled_cases w Hw) as [Ho | [Ho _]]; [| unfold off in Ho; congruence].
  destruct (power_off_gone w Ho) as [[Hs Hq Hn Hk] Hoff]. cbv zeta. split; [exact Hoff |]. split; [exact Hs |].
  intros id. destruct (decide (id = ADC_INTERNAL_TRIGGER)) as [-> |]; [unfold run; lia |].
  destruct (decide (id = ADC_SENS_TRIGGER)) as [-> |]; [unfold run; lia |]. by apply Hq.
Qed.
End reached.

(** * On the bench *)

(** The bench with timers, initialised and switched on. *)
Section example.
#[local] Existing Instances shipped shipped_board.
#[local] Instance timed_bench : Platform := timed bench.

Definition first_env : Env := (mkbench [] [] 0, []).
Definition switched_on : World := run (enter CallPowerOn) (run (enter CallInit) (world_start first_env)).

Lemma switched_on_reachable : reachable switched_on.
Proof. apply (reachable_enter CallPowerOn); [done |]. apply (reachable_enter CallInit); [done |]. by apply reachable_start. Qed.

Lemma timers_reachable_witness :
  sh_powered (w_hel switched_on) = true /\ due_in MOTION_POLL switched_on = 1%nat /\
  active (sh_wisun_step (w_uart switched_on)) = true /\ due_in WISUN_LINK_CHECK switched_on = 1%nat.
Proof.
  assert (sh_powered (w_hel switched_on) = true) as Hp by (vm_compute; reflexivity).
  assert (active (sh_wisun_step (w_uart switched_on)) = true) as Ha by (vm_compute; reflexivity).
  destruct (@timers_reachable shipped shipped_board timed_bench (timed_laws bench) switched_on eq_refl eq_refl switched_on_reachable) as (_ & Ho & _).
  destruct (Ho Hp) as (Hm & _ & _ & Hl). split_and!; [exact Hp | exact Hm | exact Ha | exact (Hl Ha)].
Defined.

Lemma power_off_silent_witness :
  sh_powered (w_hel switched_on) = true /\ due_in MOTION_POLL (run SmartHelmet_PowerOff switched_on) = 0%nat.
Proof.
  assert (sh_powered (w_hel switched_on) = true) as Hp by (vm_compute; reflexivity).
  split; [exact Hp |].
  destruct (@power_off_silent shipped shipped_board timed_bench (timed_laws bench) switched_on eq_refl eq_refl switched_on_reachable Hp) as (_ & _ & Hq). apply Hq.
Defined.
End example.
