(* ===== verification/Invariants.v ===== *)
(** The invariants of the firmware: what every call into the module keeps,
    component by component. *)
From S2P Require Import Prelude Config Dsp Fuse Change Decimal Telemetry Vitals VitalsInv Board Platform World Timers Stream I2c Display Adc Sensors Text Wisun Report Uart Helmet System.

(** * Readings *)

(** A reading has the type of its field. *)
Definition accel_ok (a : Z * Z * Z) : Prop := is_i16 (fst (fst a)) /\ is_i16 (snd (fst a)) /\ is_i16 (snd a).

Definition readings_ok (s : smart_helmet_sensor_data_t) : Prop :=
  is_u16 (ccs811_eco2 s) /\ is_u16 (ccs811_tvoc s) /\ is_i16 (hdc_temp_x100 s) /\ is_u16 (hdc_humidity_x100 s) /\
  accel_ok (accel_now s) /\ is_i16 (object_temp_x100 s) /\ is_i16 (ambient_temp_x100 s).

(** The samples drained from the accelerometer fit their buffer. *)
Definition fifo_ok (l : list (Z * Z * Z)) : Prop := Z.of_nat (length l) <= LIS3DH_FIFO_BURST /\ Forall accel_ok l.

Definition sensors_ok (s : sensors_st) : Prop :=
  readings_ok (sh_sensors s) /\ fifo_ok (sh_accel_fifo s) /\ is_u16 (sh_probe_try s) /\ display_ok s.

(** The engine is only ever given values of its types, so it stays in its
    invariant; the samples come from the sensors and from the converter. *)
Definition readings_inv `{HelmetConfig} `{Platform} (w : World) : Prop :=
  vitals_ok (w_vit w) /\ sensors_ok (w_sens w) /\ accel_ok (poll_prev (w_hel w)).

Section readings.
Context `{HelmetConfig} `{BoardConfig} `{Platform}.
Hypothesis Hpct : HR_CUSUM_SLACK_PCT <= 100.

Lemma readings_call q : inv readings_inv (call q).
Proof. by intros w. Qed.

Lemma readings_i2c b w : readings_inv w -> readings_inv (w <| w_i2c := b |>).
Proof. done. Qed.

Lemma readings_display g : display_update g -> forall w, readings_inv w -> readings_inv (w <| w_sens ::= g |>).
Proof.
  intros Hg w (Hv & (Hr & Hf & Ht & Hd) & Hp). destruct (Hg (w_sens w)) as (E1 & _ & _ & E2 & E3 & _ & E4).
  split_and!; [done | | done]. unfold sensors_ok. cbn. rewrite E1, E2, E3. auto.
Qed.

Lemma readings_frame {A} (m : IO A) :
  keeps w_vit m -> keeps w_sens m -> keeps (fun w => poll_prev (w_hel w)) m -> inv readings_inv m.
Proof. intros Hv Hs Hp w. unfold readings_inv. by rewrite Hv, Hs, Hp. Qed.

Lemma readings_data g : (forall s, readings_ok s -> readings_ok (g s)) -> inv readings_inv (data_do g).
Proof. 
  intros Hg w (Hv & (Hr & Hf & Ht & Hd) & Hp).
  exact (conj Hv (conj (conj (Hg _ Hr) (conj Hf (conj Ht Hd))) Hp)).
Qed.

Lemma readings_event e : event_ok e -> inv readings_inv (vit_call (vitals_step e)).
Proof.
  intros He. apply inv_vit_call; [intros; apply readings_call |]. intros w (Hv & Hs & Hp).
  split_and!; [by apply vitals_step_ok | done | done].
Qed.

Lemma readings_uart g : inv readings_inv (uart_do g).
Proof. by intros w. Qed.
Lemma readings_wisun g : inv readings_inv (wisun_do g).
Proof. by intros w. Qed.
Lemma readings_adc g : inv readings_inv (adc_do g).
Proof. by intros w. Qed.
Lemma readings_hel g : (forall h, poll_prev (g h) = poll_prev h) -> inv readings_inv (hel_do g).
Proof. intros Hg w (Hv & Hs & Hp). split_and!; [done | apply Hs.. | cbn; by rewrite Hg]. Qed.

#[local] Hint Resolve readings_call readings_i2c readings_display readings_uart readings_wisun readings_adc : calls.
#[local] Hint Extern 2 (inv readings_inv (call _)) => apply readings_call : keeps.
#[local] Hint Resolve readings_uart readings_wisun readings_adc : keeps.
#[local] Hint Extern 3 (inv readings_inv (hel_do _)) => apply readings_hel; intros; reflexivity : keeps.

(** ** The sensors *)
Lemma be16_range b i : is_u16 (be16 b i).
Proof. apply u16_range. Qed.

Lemma accel_of_ok b : accel_ok (accel_of b).
Proof. unfold accel_ok, accel_of, shLis3dhRawToMg. cbn. auto using i16_range. Qed.

Ltac readings_leaf :=
  apply readings_data; intros s; unfold readings_ok, accel_ok, accel_now; cbn; intros; destruct_and?;
  split_and!; auto using be16_range, i16_range, u16_range.

Lemma readings_flag g : (forall s, readings_ok s -> readings_ok (g s)) -> inv readings_inv (data_do g).
Proof. apply readings_data. Qed.

Lemma readings_mlx a : forall w, readings_inv w ->
  match eval (shReadMlx90614 a) w with Some t => is_i16 t | None => True end.
Proof.
  intros w _. unfold shReadMlx90614. rewrite eval_bind. destruct (eval _ w) as [b |]; [| done].
  destruct (_ || _); [done |]. apply i16_range.
Qed.

Lemma readings_set_accel a : accel_ok a -> inv readings_inv (set_accel a).
Proof. intros (? & ? & ?). unfold set_accel. readings_leaf. Qed.

Lemma readings_poll_mlx : inv readings_inv poll_mlx90614.
Proof.
  unfold poll_mlx90614.
  apply (inv_bind_post _ (fun o => match o with Some t => is_i16 t | None => True end));
    [unfold shReadMlx90614; keeps_tac | apply readings_mlx |]. intros o Ho.
  keeps_step; [destruct o; [readings_leaf | keeps_tac] | intros _].
  apply (inv_bind_post _ (fun o => match o with Some t => is_i16 t | None => True end));
    [unfold shReadMlx90614; keeps_tac | apply readings_mlx |]. intros o' Ho'.
  destruct o'; [readings_leaf | keeps_tac].
Qed.

Lemma readings_single : inv readings_inv poll_single.
Proof. pose proof accel_of_ok. pose proof readings_set_accel. unfold poll_single, read_accel. keeps_tac. Qed.

Lemma readings_fifo_push a w : accel_ok a -> Z.of_nat (length (sh_accel_fifo (w_sens w))) < LIS3DH_FIFO_BURST -> readings_inv w ->
  readings_inv (run (sens_do (fun s => s <| sh_accel_fifo ::= (fun l => l ++ [a]) |>)) w).
Proof.
  intros Ha Hl (Hv & (Hr & [Hn Hf] & Ht & Hd) & Hp). unfold readings_inv, sensors_ok. split_and!; try done.
  split; [cbn; rewrite length_app; cbn [length]; lia |]. apply Forall_app_2; [done | by constructor].
Qed.

Lemma read_accel_sens w : w_sens (run read_accel w) = w_sens w.
Proof. apply run_keeps. unfold read_accel. keeps_tac. Qed.

Lemma readings_drain n k : k <= LIS3DH_FIFO_BURST -> inv readings_inv (drain_fifo n k).
Proof.
  intros Hk. induction n as [| n IH]; intros w Hw; cbn [drain_fifo]; [exact Hw |].
  match goal with |- readings_inv (snd (?m w)) => fold (run m w) end. rewrite run_bind. unfold sens_get at 1 2. rewrite eval_gets, run_gets.
  destruct (Z.ltb_spec (Z.of_nat (length (sh_accel_fifo (w_sens w)))) k) as [Hlt | _]; [| exact Hw].
  assert (readings_inv (run read_accel w)) as Hw1.
  { assert (inv readings_inv read_accel) as Hm by (unfold read_accel; keeps_tac). by apply Hm. }
  rewrite run_bind. destruct (eval read_accel w) as [b |]; [| exact Hw1]. rewrite run_bind. apply IH.
  apply readings_fifo_push; [apply accel_of_ok | rewrite read_accel_sens; lia | exact Hw1].
Qed.

Lemma readings_fifo : inv readings_inv poll_fifo.
Proof.
  unfold poll_fifo. apply inv_bind.
  { intros w (Hv & (Hr & Hf & Ht & Hd) & Hp). 
    assert (fifo_ok []) as Hnil by (split; [vdec | constructor]). exact (conj Hv (conj (conj Hr (conj Hnil (conj Ht Hd))) Hp)). }
  intros _. keeps_step; [keeps_tac | intros b]. cbv zeta. keeps_step; [apply readings_drain; zcase; lia | intros _].
  apply (inv_bind_post _ (fun l => Forall accel_ok l)); [apply inv_gets | intros w Hw; apply Hw |].
  intros l Hl. destruct (last l) as [a |] eqn:E; [| apply inv_ret].
  apply readings_set_accel. rewrite Forall_forall in Hl. apply Hl. by apply last_Some_elem_of.
Qed.

Lemma readings_hdc : inv readings_inv poll_hdc1080.
Proof.
  unfold poll_hdc1080, hdc_wait. repeat first [keeps_step | apply readings_call].
  apply readings_data. intros s. unfold hdc_store, hdc_temp, hdc_humidity.
  repeat match goal with |- context [if ?b then _ else _] => destruct b end;
    unfold readings_ok, accel_ok, accel_now; cbn; intros; destruct_and?; split_and!;
    auto using i16_range, u16_range.
Qed.

Lemma readings_poll : inv readings_inv SmartHelmet_SensorsPoll.
Proof.
  pose proof readings_single. pose proof readings_fifo. pose proof readings_hdc. pose proof readings_poll_mlx.
  unfold SmartHelmet_SensorsPoll, poll_if, poll_ccs811. repeat first [keeps_step | readings_leaf].
Qed.

Lemma readings_poll_lis : inv readings_inv SmartHelmet_SensorsPollLis3dh.
Proof. pose proof readings_single. unfold SmartHelmet_SensorsPollLis3dh, poll_if. keeps_tac. Qed.

Lemma readings_bring_up :
  inv readings_inv bring_up_ccs811 /\ inv readings_inv bring_up_hdc1080 /\ inv readings_inv bring_up_lis3dh /\
  inv readings_inv bring_up_mlx90614 /\ inv readings_inv bring_up_ssd1315.
Proof.
  unfold bring_up_ccs811, bring_up_hdc1080, bring_up_lis3dh, bring_up_mlx90614, bring_up_ssd1315, shProbeCcs811,
    shInitCcs811, shProbeHdc1080, shHdcReadU16, shInitHdc1080, shProbeLis3dh, shInitLis3dh.
  repeat match goal with |- _ /\ _ => split end; try solve [repeat first [keeps_step | readings_leaf]].
  apply (inv_bind_post _ (fun o => match o with Some t => is_i16 t | None => True end));
    [unfold shReadMlx90614; keeps_tac | apply readings_mlx |]. intros [t |] Ht; [readings_leaf | apply inv_ret].
Qed.

Lemma readings_sens_do g :
  (forall s, sh_sensors (g s) = sh_sensors s /\ sh_accel_fifo (g s) = sh_accel_fifo s /\
             (is_u16 (sh_probe_try s) -> is_u16 (sh_probe_try (g s))) /\ (display_ok s -> display_ok (g s))) ->
  inv readings_inv (sens_do g).
Proof.
  intros Hg w (Hv & (Hr & Hf & Ht & Hd) & Hp). destruct (Hg (w_sens w)) as (E1 & E2 & E3 & E4).
  split_and!; [done | | done]. unfold sensors_ok. cbn. rewrite E1, E2. auto.
Qed.

Ltac readings_walk :=
  pose proof readings_bring_up; destruct_and?;
  repeat first [keeps_step | readings_leaf | apply readings_call
    | apply readings_sens_do; intros; split_and!; done || (intros; apply u16_range) ].

Lemma readings_init : inv readings_inv SmartHelmet_SensorsInit.
Proof. unfold SmartHelmet_SensorsInit. readings_walk. Qed.

Lemma readings_verify : inv readings_inv shSensorsVerifyPass.
Proof.
  unfold shSensorsVerifyPass, retry, shSensorsRequiredOk, cancel_retry, shSensorsScheduleRetry. readings_walk.
Qed.

Lemma readings_sleep : inv readings_inv SmartHelmet_SensorsSleep.
Proof. unfold SmartHelmet_SensorsSleep. readings_walk. Qed.

Lemma readings_start_verify t : inv readings_inv (SmartHelmet_SensorsStartVerify t).
Proof. unfold SmartHelmet_SensorsStartVerify, shSensorsRequiredOk, shSensorsScheduleRetry. readings_walk. Qed.

Lemma readings_stop_verify : inv readings_inv SmartHelmet_SensorsStopVerify.
Proof. unfold SmartHelmet_SensorsStopVerify, cancel_retry. readings_walk. Qed.

(** ** The engine *)
Lemma readings_send d : inv readings_inv (SmartHelmet_UartSend d).
Proof. apply inv_send. intros. apply readings_call. Qed.

Lemma readings_accel x y z : accel_ok (x, y, z) -> inv readings_inv (vit_call (SmartHelmet_VitalsPushAccel x y z)).
Proof. intros Ha. by apply (readings_event (EvAccel x y z)). Qed.

Lemma readings_process : inv readings_inv (vit_call SmartHelmet_VitalsProcess).
Proof. by apply (readings_event EvProcess). Qed.

Lemma readings_vinit : inv readings_inv (vit_call SmartHelmet_VitalsInit).
Proof. by apply (readings_event EvInit). Qed.

Lemma readings_feed mv : is_u16 mv -> inv readings_inv (shAdcFeedVitalsSens mv).
Proof.
  intros Hmv w (Hv & Hs & Hp). fold (run (shAdcFeedVitalsSens mv) w).
  split_and!; [| by rewrite (run_keeps w_sens) by (unfold shAdcFeedVitalsSens; keeps_tac)
    | by rewrite (run_keeps w_hel) by (unfold shAdcFeedVitalsSens; keeps_tac)].
  unfold shAdcFeedVitalsSens. destruct ENABLE_VITALS_PROXY eqn:Hx; [| done].
  destruct ENABLE_VITALS_TIMESTAMP; io; rewrite !vit_call_vit, Hx.
  - apply (vitals_step_ok Hpct (EvSample mv (u32 (eval (call VmGetTimerTime) w))) (w_vit w)); [| done].
    split; [done | apply u32_range].
  - apply (vitals_step_ok Hpct (EvSample mv 0) (w_vit w)); [| done]. split; [done | vdec].
Qed.

Lemma readings_dropped : inv readings_inv shAdcSensDropped.
Proof.
  unfold shAdcSensDropped. destruct ENABLE_VITALS_PROXY; [| apply inv_ret]. by apply (readings_event EvDropped).
Qed.

(** ** The report and the link *)
Lemma readings_with_accel (k : Z * Z * Z -> IO unit) :
  (forall a, accel_ok a -> inv readings_inv (k a)) ->
  inv readings_inv (s ← data_get id; k (accel_now s)).
Proof.
  intros Hk. apply (inv_bind_post _ (fun s => accel_ok (accel_now s))); [apply inv_gets | | auto].
  intros w (_ & (Hr & _) & _). apply Hr.
Qed.

Lemma readings_report : inv readings_inv SmartHelmet_ReportStart.
Proof.
  assert (inv readings_inv report_poll) as Hp.
  { unfold report_poll. keeps_step; [apply readings_poll | intros _].
    apply (inv_bind_post _ (fun s => accel_ok (accel_now s))); [apply inv_gets | intros w (_ & (Hr & _) & _); apply Hr |].
    intros s Hs. apply inv_when. keeps_step; [by apply readings_accel | intros _; apply readings_process]. }
  assert (forall n l, inv readings_inv (send_frames n l)) as Hf.
  { intros n. pose proof readings_send. induction n; intros l; cbn [send_frames]; [apply inv_ret |].
    unfold SmartHelmet_UartNoteReportSent, set_offline, SmartHelmet_UartRejoin, leave_to, shWisunSendProbe, shWisunArm,
      SmartHelmet_ReportStop. keeps_tac. }
  assert (inv readings_inv take_fall) as Ht.
  { unfold take_fall, vit_result. repeat keeps_step. by apply (readings_event EvTakeFall). }
  assert (inv readings_inv (hel_do (fun h => let '(holding, quiet) := motion_hold (sh_motion_since_report h)
    (sh_motion_holding h) (sh_motion_quiet_reports h) in h <| sh_motion_holding := holding |> <| sh_motion_quiet_reports := quiet |>))) as Hm
    by (apply readings_hel; intros h; by destruct (motion_hold _ _ _)).
  unfold SmartHelmet_ReportStart, SmartHelmet_UartInPassthrough, SmartHelmet_SensorsReady, shSensorsRequiredOk,
    shSendReportLines, report_text, report_head, report_gases, rep_motion, rep_restart, rep_fall, rep_pulse, rep_climate,
    rep_voc, rep_gas, shGasValue, SmartHelmet_UartTakeRestart, SmartHelmet_UartNoteReportSent, set_offline,
    SmartHelmet_UartRejoin, leave_to, shWisunSendProbe, shWisunArm, SmartHelmet_ReportStop.
  pose proof readings_send. keeps_tac.
Qed.

Lemma readings_uart_message m : inv readings_inv (SmartHelmet_UartHandleMessage m).
Proof.
  pose proof readings_send. pose proof readings_report. pose proof readings_vinit.
  assert (forall d, inv readings_inv (shWisunSendProbe d)) by (intros; unfold shWisunSendProbe; keeps_tac).
  assert (forall d, inv readings_inv (shWisunArm d)) by (intros; unfold shWisunArm; keeps_tac).
  assert (forall d, inv readings_inv (leave_to d)) by (intros; unfold leave_to; keeps_tac).
  assert (inv readings_inv shAtFinish) by (unfold shAtFinish, shWisunLogResult, clear_asm, set_step; keeps_tac).
  assert (inv readings_inv shAtSendCurrent) by (unfold shAtSendCurrent, clear_asm, set_step; keeps_tac).
  assert (inv readings_inv shProvSendCurrent) by (unfold shProvSendCurrent, clear_asm, set_step; keeps_tac).
  assert (inv readings_inv shWisunOnTimeout).
  { unfold shWisunOnTimeout, on_reset, on_prov_read, on_prov_set, on_leave, on_dest, on_pass, on_cmd, note_status,
      shAtNoteResult, clear_asm, set_step. keeps_tac. }
  assert (forall d, inv readings_inv (shUartConsume d)).
  { intros d. unfold shUartConsume, shWisunNoteRx, shRxLinePush, rx_byte, shRxLineFlush, vitals_restart, note_send_fail,
      note_send_ok, shOnCmdTooLong, SmartHelmet_UartRejoin, set_offline, SmartHelmet_ReportStop, note_status,
      shResetNoteBanner, shAsmHas. keeps_tac. }
  unfold SmartHelmet_UartHandleMessage, shUartDrain, drain_turn, shRxPollArm. keeps_tac.
Qed.

(** ** The converter *)
Lemma readings_adc_message m : inv readings_inv (SmartHelmet_AdcHandleMessage m).
Proof.
  assert (forall mv, inv readings_inv (shAdcFeedVitalsSens (u16 mv))) by (intros; apply readings_feed, u16_range).
  pose proof readings_dropped. 
  unfold SmartHelmet_AdcHandleMessage, adc_result, sens_result, full_result, sens_done, SmartHelmet_AdcRequestScan,
    shAdcRequestNextFull, SmartHelmet_AdcRequestSensIn, shAdcStartSens, adc_read. keeps_tac.
Qed.

(** ** The module *)
Lemma readings_log : inv readings_inv shLis3dhLogSample.
Proof.
  pose proof readings_report. unfold shLis3dhLogSample, read_accel. keeps_step; [apply inv_ret |].
  keeps_step; [keeps_tac | intros _]. keeps_step; [keeps_tac | intros o].
  keeps_step; [destruct o as [b |]; [| apply inv_ret] | intros _; keeps_tac].
  cbv zeta. pose proof (accel_of_ok b) as Ha. keeps_step; [by apply readings_set_accel | intros _].
  keeps_step; [by apply readings_accel | intros _]. keeps_step; [apply readings_process | intros _].
  repeat first [keeps_step | apply readings_sens_do; done].
Qed.

Lemma readings_motion : inv readings_inv motion_sample.
Proof.
  unfold motion_sample. apply (inv_bind_post _ (fun s => accel_ok (accel_now s))); [apply inv_gets | intros w (_ & (Hr & _) & _); apply Hr |].
  intros s Hs. keeps_step; [apply inv_ret |]. cbv zeta. keeps_step; [keeps_tac | intros h].
  keeps_step; [| intros _; keeps_step; [by apply readings_accel | intros _; keeps_tac]].
  intros w (Hv & Hw & Hp). exact (conj Hv (conj Hw Hs)).
Qed.

Lemma readings_handler m : inv readings_inv (smartHelmetTaskHandler m).
Proof.
  pose proof readings_report. pose proof readings_log. pose proof readings_motion. pose proof readings_poll_lis.
  pose proof readings_verify. pose proof readings_adc_message. pose proof readings_uart_message.
  unfold smartHelmetTaskHandler, motion_poll, SmartHelmet_HandleMessage, SmartHelmet_SensorsHandleMessage, shLis3dhLogArm,
    SmartHelmet_SensorsReady, shSensorsRequiredOk, SmartHelmet_UartInPassthrough. keeps_tac.
Qed.

Lemma readings_adc_init t : inv readings_inv (SmartHelmet_AdcInit t).
Proof. unfold SmartHelmet_AdcInit. keeps_tac. Qed.

Lemma readings_uart_close : inv readings_inv SmartHelmet_UartClose.
Proof.
  pose proof readings_send. unfold SmartHelmet_UartClose, shWisunSendProbe, SmartHelmet_UartStopVerify, shUartReleasePio, SmartHelmet_UartResetHold.
  keeps_tac.
Qed.

Lemma readings_close : inv readings_inv SmartHelmet_Close.
Proof.
  pose proof readings_uart_close. pose proof readings_stop_verify.
  unfold SmartHelmet_Close, SmartHelmet_AdcStop, SmartHelmet_ReportStop. keeps_tac.
Qed.

Lemma readings_power_off : inv readings_inv SmartHelmet_PowerOff.
Proof.
  pose proof readings_uart_close. pose proof readings_stop_verify. pose proof readings_sleep. pose proof readings_send.
  unfold SmartHelmet_PowerOff, SmartHelmet_AdcStop, SmartHelmet_ReportStop, SmartHelmet_UartSleep, SmartHelmet_UartStopVerify.
  keeps_tac.
Qed.

Lemma readings_power_on : inv readings_inv SmartHelmet_PowerOn.
Proof.
  pose proof readings_adc_init. pose proof readings_init. pose proof readings_start_verify. pose proof readings_vinit.
  pose proof readings_report. pose proof readings_send.
  assert (inv readings_inv (vit_call (fun v => v <| v_telem ::= SmartHelmet_VitalsSetSink true |>))) as Hsink.
  { by apply (readings_event (EvSink true)). }
  unfold SmartHelmet_PowerOn, SmartHelmet_UartResetHold, SmartHelmet_UartInit, shUartMapPio, SmartHelmet_UartStartVerify,
    leave_to, shWisunSendProbe, shWisunArm, SmartHelmet_AdcRequestScan, shAdcRequestNextFull, SmartHelmet_AdcRequestSensIn,
    shAdcStartSens, adc_read.
  pose proof readings_dropped. keeps_tac.
Qed.

Lemma readings_enter e : entry_ok e -> inv readings_inv (enter e).
Proof.
  pose proof readings_adc_init. pose proof readings_close. pose proof readings_power_off. pose proof readings_power_on.
  pose proof readings_poll. pose proof readings_handler. pose proof readings_process. pose proof readings_send.
  pose proof readings_dropped. intros He.
  destruct e; cbn [enter]; unfold SmartHelmet_PowerSave, SmartHelmet_VitalsTick, SmartHelmet_WisunSend; try solve [keeps_tac].
  - unfold SmartHelmet_Init, SmartHelmet_UartResetHold, SmartHelmet_SensorsSetLogTask, lis3dh_chk.
    pose proof readings_log. unfold shLis3dhLogArm. repeat first [keeps_step | apply readings_sens_do; done].
  - unfold SmartHelmet_UiRefresh. keeps_tac.
  - unfold SmartHelmet_PollSensors, SmartHelmet_AdcRequestScan, shAdcRequestNextFull, SmartHelmet_AdcRequestSensIn,
      shAdcStartSens, adc_read, SmartHelmet_SensorsAccelBurst.
    keeps_step; [keeps_tac | intros ready]. keeps_step; [apply inv_ret |].
    keeps_step; [keeps_tac | intros _]. keeps_step; [keeps_tac | intros _].
    apply (inv_bind_post _ (fun s => accel_ok (accel_now s))); [apply inv_gets | intros w (_ & (Hr & _) & _); apply Hr |].
    intros s Hs. apply inv_when. apply (inv_bind_post _ (Forall accel_ok)).
    + destruct (_ && _); [apply inv_gets | apply inv_ret].
    + intros w (_ & (_ & [_ Hf] & _) & _). destruct (_ && _); [exact Hf | constructor].
    + intros l Hl. keeps_step; [| by apply readings_accel]. induction Hl as [| [[x y] z] l Ha Hl IH]; cbn [for_each]; [apply inv_ret |].
      keeps_step; [by apply readings_accel | auto].
Qed.
End readings.

(** * The converter and the report *)

(** The hold counter stays below its limit, and a gas reference is unset or
    a reading in range. *)
Definition report_ok (h : helmet_st) : Prop :=
  0 <= sh_motion_quiet_reports h < MOTION_STILL_REPORTS /\ alen (sh_gas_r0_mv h) = 3 /\
  Forall (fun r => r = 0 \/ 50 <= r < MICS_VCC_MV) (sh_gas_r0_mv h).

Definition bounds_inv `{Platform} (w : World) : Prop := adc_ok (w_adc w) /\ report_ok (w_hel w).

Section bounds.
Context `{HelmetConfig} `{BoardConfig} `{Platform}.

Lemma bounds_call q : inv bounds_inv (call q).
Proof. by intros w. Qed.
Lemma bounds_i2c b w : bounds_inv w -> bounds_inv (w <| w_i2c := b |>).
Proof. done. Qed.
Lemma bounds_display g : display_update g -> forall w, bounds_inv w -> bounds_inv (w <| w_sens ::= g |>).
Proof. done. Qed.
Lemma bounds_vit g w : bounds_inv w -> bounds_inv (w <| w_vit ::= g |>).
Proof. done. Qed.
Lemma bounds_send d : inv bounds_inv (SmartHelmet_UartSend d).
Proof. apply inv_send. intros. apply bounds_call. Qed.
Lemma bounds_vit_call g : inv bounds_inv (vit_call g).
Proof. apply inv_vit_call; [intros; apply bounds_call | apply bounds_vit]. Qed.

#[local] Hint Resolve bounds_call bounds_i2c bounds_display : calls.
#[local] Hint Extern 2 (inv bounds_inv (call _)) => apply bounds_call : keeps.
#[local] Hint Extern 2 (inv bounds_inv (vit_call _)) => apply bounds_vit_call : keeps.
#[local] Hint Extern 2 (inv bounds_inv (SmartHelmet_UartSend _)) => apply bounds_send : keeps.
#[local] Hint Extern 2 (inv bounds_inv (uart_do _)) => intros ? Hb; exact Hb : keeps.
#[local] Hint Extern 2 (inv bounds_inv (wisun_do _)) => intros ? Hb; exact Hb : keeps.
#[local] Hint Extern 2 (inv bounds_inv (sens_do _)) => intros ? Hb; exact Hb : keeps.
#[local] Hint Extern 2 (inv bounds_inv (data_do _)) => intros ? Hb; exact Hb : keeps.

Lemma bounds_hel g : (forall h, report_ok h -> report_ok (g h)) -> inv bounds_inv (hel_do g).
Proof. intros Hg w [Ha Hh]. split; [done | by apply Hg]. Qed.

Lemma bounds_adc {A} (m : IO A) : inv (fun w => adc_ok (w_adc w)) m -> keeps w_hel m -> inv bounds_inv m.
Proof. intros Hm Hk w [Ha Hh]. split; [by apply Hm | by rewrite Hk]. Qed.

Lemma report_ok_hold h : report_ok h ->
  report_ok (let '(holding, quiet) := motion_hold (sh_motion_since_report h) (sh_motion_holding h) (sh_motion_quiet_reports h) in
    h <| sh_motion_holding := holding |> <| sh_motion_quiet_reports := quiet |>).
Proof.
  intros (Hq & Hg). unfold report_ok, motion_hold, MOTION_STILL_REPORTS in *.
  destruct (sh_motion_since_report h); [split; [cbn; lia | exact Hg] |].
  destruct (sh_motion_holding h); [| split; [exact Hq | exact Hg]].
  rewrite (proj2 (Z.ltb_lt (sh_motion_quiet_reports h) 255)), u8_small by rlia.
  destruct (Z.leb_spec 2 (sh_motion_quiet_reports h + 1)); (split; [cbn; lia | exact Hg]).
Qed.

Lemma report_ok_gas ch mv h : report_ok h -> report_ok (h <| sh_gas_r0_mv ::= gas_note ch mv |>).
Proof.
  intros (Hq & Hl & Hg). split; [exact Hq |]. cbn. unfold gas_note, gas_in_range.
  destruct (_ && _) eqn:E; [| done]. rewrite !andb_true_iff, Z.leb_le, Z.ltb_lt in E. rewrite alen_aset. split; [done |].
  apply aset_Forall; [done | lia].
Qed.

Lemma bounds_report : inv bounds_inv SmartHelmet_ReportStart.
Proof.
  assert (forall n l, inv bounds_inv (send_frames n l)) as Hf.
  { intros n. induction n; intros l; cbn [send_frames]; [apply inv_ret |].
    unfold SmartHelmet_UartNoteReportSent, set_offline, SmartHelmet_UartRejoin, leave_to, shWisunSendProbe, shWisunArm,
      SmartHelmet_ReportStop. keeps_tac. }
  unfold SmartHelmet_ReportStart, SmartHelmet_UartInPassthrough, SmartHelmet_SensorsReady, shSensorsRequiredOk, report_poll,
    shSendReportLines, report_text, report_head, report_gases, rep_motion, rep_restart, rep_fall, rep_pulse, rep_climate,
    rep_voc, rep_gas, shGasValue, SmartHelmet_UartTakeRestart, SmartHelmet_UartNoteReportSent, set_offline,
    SmartHelmet_UartRejoin, leave_to, shWisunSendProbe, shWisunArm, SmartHelmet_ReportStop, take_fall, vit_result,
    SmartHelmet_SensorsPoll, poll_if, poll_ccs811, poll_fifo, poll_single, poll_hdc1080, poll_mlx90614, shReadMlx90614,
    hdc_wait, read_accel, set_accel.
  assert (forall n k, inv bounds_inv (drain_fifo n k)) as Hd
    by (induction n; intros k; cbn [drain_fifo]; unfold read_accel; keeps_tac).
  repeat first [keeps_step | apply bounds_hel; intros; first [by apply report_ok_hold | by apply report_ok_gas | done]].
Qed.

(** Everything that changes neither the converter nor the report. *)
Ltac bounds_walk :=
  pose proof bounds_report;
  repeat first [keeps_step | apply bounds_hel; intros ? Hb; exact Hb].

Lemma bounds_uart_message m : inv bounds_inv (SmartHelmet_UartHandleMessage m).
Proof.
  assert (forall d, inv bounds_inv (leave_to d)) by (intros; unfold leave_to, shWisunSendProbe, shWisunArm; keeps_tac).
  assert (inv bounds_inv shAtFinish) by (unfold shAtFinish, shWisunLogResult, clear_asm, set_step; keeps_tac).
  assert (inv bounds_inv shAtSendCurrent)
    by (unfold shAtSendCurrent, clear_asm, set_step, shWisunSendProbe, shWisunArm; keeps_tac).
  assert (inv bounds_inv shProvSendCurrent)
    by (unfold shProvSendCurrent, clear_asm, set_step, shWisunSendProbe, shWisunArm; keeps_tac).
  assert (inv bounds_inv shWisunOnTimeout).
  { unfold shWisunOnTimeout, on_reset, on_prov_read, on_prov_set, on_leave, on_dest, on_pass, on_cmd, note_status,
      shAtNoteResult, clear_asm, set_step, shWisunSendProbe, shWisunArm. bounds_walk. }
  assert (forall d, inv bounds_inv (shUartConsume d)).
  { intros d. unfold shUartConsume, shWisunNoteRx, shRxLinePush, rx_byte, shRxLineFlush, vitals_restart, note_send_fail,
      note_send_ok, shOnCmdTooLong, SmartHelmet_UartRejoin, set_offline, SmartHelmet_ReportStop, note_status,
      shResetNoteBanner, shAsmHas, shWisunArm. keeps_tac. }
  unfold SmartHelmet_UartHandleMessage, shUartDrain, drain_turn, shRxPollArm. keeps_tac.
Qed.

Lemma bounds_sensors_message m : inv bounds_inv (SmartHelmet_SensorsHandleMessage m).
Proof.
  unfold SmartHelmet_SensorsHandleMessage, shLis3dhLogSample, shLis3dhLogArm, read_accel, set_accel, shSensorsVerifyPass, retry,
    shSensorsRequiredOk, cancel_retry, shSensorsScheduleRetry, bring_up_ccs811, bring_up_hdc1080, bring_up_lis3dh,
    bring_up_mlx90614, bring_up_ssd1315, shProbeCcs811, shInitCcs811, shProbeHdc1080, shHdcReadU16, shInitHdc1080,
    shProbeLis3dh, shInitLis3dh, shReadMlx90614.
  bounds_walk.
Qed.

Lemma bounds_handler m : message_ok m -> inv bounds_inv (smartHelmetTaskHandler m).
Proof.
  intros Hm. pose proof bounds_sensors_message. pose proof bounds_uart_message.
  assert (inv bounds_inv (SmartHelmet_AdcHandleMessage m)).
  { apply bounds_adc; [by apply adc_message_ok |].
    unfold SmartHelmet_AdcHandleMessage, adc_result, sens_result, full_result, sens_done, SmartHelmet_AdcRequestScan,
      shAdcRequestNextFull, SmartHelmet_AdcRequestSensIn, shAdcStartSens, adc_read, shAdcFeedVitalsSens, shAdcSensDropped.
    keeps_tac. }
  unfold smartHelmetTaskHandler, SmartHelmet_HandleMessage, motion_poll, motion_sample, SmartHelmet_SensorsPollLis3dh,
    poll_if, poll_single, read_accel, set_accel, SmartHelmet_SensorsReady, shSensorsRequiredOk, SmartHelmet_UartInPassthrough.
  bounds_walk.
Qed.

Lemma bounds_scan : inv bounds_inv SmartHelmet_AdcRequestScan.
Proof.
  apply bounds_adc; [intros w; apply request_scan_ok |].
  unfold SmartHelmet_AdcRequestScan, shAdcRequestNextFull, SmartHelmet_AdcRequestSensIn, shAdcStartSens, adc_read, shAdcSensDropped.
  keeps_tac.
Qed.

Lemma bounds_adc_init t : inv bounds_inv (SmartHelmet_AdcInit t).
Proof. apply bounds_adc; [apply adc_init_ok | unfold SmartHelmet_AdcInit; keeps_tac]. Qed.

Lemma bounds_adc_stop : inv bounds_inv SmartHelmet_AdcStop.
Proof. apply bounds_adc; [apply adc_stop_ok | unfold SmartHelmet_AdcStop; keeps_tac]. Qed.

Lemma report_ok_clear h : report_ok h -> report_ok (motion_clear h).
Proof. intros (_ & Hg). split; [cbn; unfold MOTION_STILL_REPORTS; lia | exact Hg]. Qed.

Lemma bounds_close : inv bounds_inv SmartHelmet_Close /\ inv bounds_inv SmartHelmet_UartClose.
Proof.
  pose proof bounds_adc_stop. assert (inv bounds_inv SmartHelmet_UartClose).
  { unfold SmartHelmet_UartClose, shWisunSendProbe, SmartHelmet_UartStopVerify, shUartReleasePio, SmartHelmet_UartResetHold. keeps_tac. }
  split; [| done]. unfold SmartHelmet_Close, SmartHelmet_SensorsStopVerify, cancel_retry, SmartHelmet_ReportStop.
  repeat first [keeps_step | apply bounds_hel; intros; by apply report_ok_clear].
Qed.

Lemma bounds_power_off : inv bounds_inv SmartHelmet_PowerOff.
Proof.
  pose proof bounds_adc_stop. pose proof (proj2 bounds_close).
  unfold SmartHelmet_PowerOff, SmartHelmet_SensorsStopVerify, cancel_retry, SmartHelmet_ReportStop, SmartHelmet_SensorsSleep,
    SmartHelmet_UartSleep, SmartHelmet_UartStopVerify.
  repeat first [keeps_step | apply bounds_hel; intros; by apply report_ok_clear].
Qed.

Lemma bounds_power_on : inv bounds_inv SmartHelmet_PowerOn.
Proof.
  pose proof bounds_adc_init. pose proof bounds_scan.
  unfold SmartHelmet_PowerOn, SmartHelmet_SensorsInit, bring_up_ccs811, bring_up_hdc1080, bring_up_lis3dh,
    bring_up_mlx90614, bring_up_ssd1315, shProbeCcs811, shInitCcs811, shProbeHdc1080, shHdcReadU16, shInitHdc1080,
    shProbeLis3dh, shInitLis3dh, shReadMlx90614, SmartHelmet_SensorsStartVerify, shSensorsRequiredOk, shSensorsScheduleRetry,
    SmartHelmet_UartResetHold, SmartHelmet_UartInit, shUartMapPio, SmartHelmet_UartStartVerify, leave_to, shWisunSendProbe, shWisunArm.
  bounds_walk.
Qed.

Lemma bounds_enter e : entry_ok e -> inv bounds_inv (enter e).
Proof.
  pose proof bounds_adc_init. pose proof (proj1 bounds_close). pose proof bounds_power_off. pose proof bounds_power_on.
  pose proof bounds_handler. pose proof bounds_scan. intros He.
  destruct e; cbn [enter]; unfold SmartHelmet_PowerSave, SmartHelmet_VitalsTick, SmartHelmet_WisunSend; try solve [keeps_tac];
    try solve [by apply bounds_handler].
  - unfold SmartHelmet_Init, SmartHelmet_UartResetHold, SmartHelmet_SensorsSetLogTask, lis3dh_chk. cbn [negb Z.eqb]. bounds_walk.
  - unfold SmartHelmet_UiRefresh. bounds_walk.
  - unfold SmartHelmet_PollSensors, SmartHelmet_SensorsPoll, poll_if, poll_ccs811, poll_fifo, poll_single, poll_hdc1080,
      poll_mlx90614, shReadMlx90614, hdc_wait, read_accel, set_accel, SmartHelmet_SensorsAccelBurst.
    assert (forall n k, inv bounds_inv (drain_fifo n k)) as Hd
      by (induction n; intros k; cbn [drain_fifo]; unfold read_accel; keeps_tac).
    bounds_walk.
Qed.
End bounds.

(** * Every reachable state *)
Lemma readings_start `{HelmetConfig} `{Platform} e : readings_inv (world_start e).
Proof.
  split; [apply vitals_start_ok |]. unfold world_start, sensors_ok, readings_ok, display_ok, accel_ok. cbn.
  split_and!; try rlia; try done; repeat apply Forall_cons_2; try apply Forall_nil_2; done.
Qed.

Lemma bounds_start `{HelmetConfig} `{BoardConfig} `{Platform} e : bounds_inv (world_start e).
Proof.
  split; [unfold adc_ok | unfold report_ok]; cbn; split_and!; try rlia; try done;
    repeat apply Forall_cons_2; try apply Forall_nil_2; try rlia; by left.
Qed.

Section reached.
Context `{HelmetConfig} `{BoardConfig} `{TimerLaws}.

(** [C26] In every reachable state the measured values are in range: the
    vitals engine is in its invariant (so no sample from the sensors, the
    converter or a restart ever takes it out); the readings of the sensors
    and the previous poll's are of their 16-bit types; the accelerometer
    burst holds at most LIS3DH_FIFO_BURST samples, the probe counter is
    16-bit, and the display lines and the failure line fit their buffers; the
    converter has four channels of 16-bit values, its index, its oversampling
    count and its accumulator in range; the motion hold is below its limit
    and each of the three gas references is unset or a reading in range.  (The
    link's buffers and counters are LinkInv's subject, the bus records
    BusInv's.) *)
Theorem values_reachable w : HR_CUSUM_SLACK_PCT <= 100 -> reachable w -> readings_inv w /\ bounds_inv w.
Proof.
  intros Hp. apply (reachable_inv_all (fun w => readings_inv w /\ bounds_inv w)).
  - intros e. split; [apply readings_start | apply bounds_start].
  - by intros e v [].
  - intros e He. apply inv_and; [by apply readings_enter | by apply bounds_enter].
  - intros id. apply inv_and; [by apply readings_handler | by apply bounds_handler].
Qed.
End reached.

Section example.
#[local] Existing Instances shipped shipped_board.
#[local] Instance timed_bench : Platform := timed bench.

(** Switched on, with one conversion of SENS_IN delivered. *)
Definition sampled : World :=
  run (enter (OnAdcResult adcsel_led4 1650)) (run (enter CallPowerOn) (run (enter CallInit) (world_start ((mkbench [] [] 0, []) : Env)))).

Lemma values_reachable_witness : readings_inv sampled /\ bounds_inv sampled.
Proof.
  apply (@values_reachable shipped shipped_board timed_bench (timed_laws bench) sampled); [vm_compute; discriminate |].
  apply (reachable_enter (OnAdcResult _ _)); [cbn; rlia |]. apply (reachable_enter CallPowerOn); [done |].
  apply (reachable_enter CallInit); [done |]. by apply reachable_start.
Defined.
End example.

