(* ===== verification/LinkSpec.v ===== *)
(** What the Wi-SUN link promises: the link check ends whatever the module
    sends between the timeouts, provisioning sends the commands of the
    settings a reply does not show, a restart command is seen across chunks,
    and the drain hands over every piece of the stream, once and in order. *)
From S2P Require Import Prelude Config Decimal Telemetry Vitals Board Platform World Timers Stream I2c Display Adc Sensors Text Wisun Report Uart Helmet System LinkInv Schedule.

(** * Progress

    [link_rank] bounds the timeouts that are left before the link is at rest.
    From the end: entering passthrough, with two retries after a rejection;
    the thirteen commands; the wait for the reset banner; the provisioning,
    which is followed by a second wait. *)
Section rank.
Context `{HelmetConfig} `{BoardConfig}.

Definition reset_tries : Z := Z.max 1 WISUN_RESET_RETRIES.

Definition link_rank (u : uart_st) : Z :=
  let enter := 3 * (2 - sh_too_long_retry u) in
  let left := Z.max 0 (reset_tries - ws_tries (sh_wisun u)) in
  let step := sh_wisun_step u in
  if step =? SH_STEP_PASS then 1 + enter
  else if step =? SH_STEP_DEST then 2 + enter
  else if step =? SH_STEP_LEAVE then
    if sh_leave_next u =? SH_STEP_RESET then 37 + 2 * reset_tries else 3 + enter
  else if step =? SH_STEP_CMD then 10 + (SH_AT_CMD_COUNT - sh_at_idx u)
  else if step =? SH_STEP_RESET then
    if sh_prov_done u =? 0 then 36 + reset_tries + left else 24 + left
  else if step =? SH_STEP_PROV_READ then 35 + reset_tries
  else if step =? SH_STEP_PROV_SET then
    if sh_prov_i u =? 0xff then 25 + reset_tries else 26 + reset_tries + (8 - sh_prov_i u)
  else 0.

(** The most timeouts that a link check can take. *)
Definition link_bound : Z := 37 + 2 * reset_tries.

Lemma link_rank_bound u : link_ok u -> 0 <= link_rank u <= link_bound.
Proof.
  unfold link_rank, link_bound, reset_tries. link_unfold. intros. destruct_and?.
  repeat match goal with |- context [if ?x =? ?y then _ else _] => destruct (Z.eqb_spec x y) end;
    try solve [rlia | intuition rlia].
Qed.
End rank.

(** What the rank looks at, and what of it a computation leaves alone. *)
Definition ctl `{Platform} (w : World) :=
  let u := w_uart w in
  (sh_wisun_step u, sh_leave_next u, sh_too_long_retry u, ws_tries (sh_wisun u), sh_prov_done u, sh_prov_i u, sh_at_idx u,
   sh_prov_q u).

Section steps.
Context `{HelmetConfig} `{BoardConfig} `{Platform}.

Lemma rank_ctl w w' : ctl w = ctl w' -> link_rank (w_uart w) = link_rank (w_uart w').
Proof. unfold ctl, link_rank. intros [= -> -> -> -> -> -> -> _]. done. Qed.

Lemma rank_keeps {A} (m : IO A) w : keeps ctl m -> link_rank (w_uart (run m w)) = link_rank (w_uart w).
Proof. intros Hm. apply rank_ctl, Hm. Qed.

Lemma ctl_probe cmd : keeps ctl (shWisunSendProbe cmd).
Proof. unfold shWisunSendProbe. keeps_tac. Qed.
Lemma ctl_arm d : keeps ctl (shWisunArm d).
Proof. unfold shWisunArm. keeps_tac. Qed.
Lemma ctl_status d : keeps ctl (note_status d).
Proof. unfold note_status. keeps_tac. Qed.
Lemma ctl_clear : keeps ctl clear_asm.
Proof. unfold clear_asm. keeps_tac. Qed.
Lemma ctl_verdict : keeps ctl (wisun_do at_verdict).
Proof. intros w. unfold ctl, at_verdict. cbn. by repeat destruct (_ || _). Qed.
Lemma ctl_log : keeps ctl shWisunLogResult.
Proof. unfold shWisunLogResult. keeps_tac. Qed.
#[local] Hint Resolve ctl_probe ctl_arm ctl_status ctl_clear ctl_verdict ctl_log : keeps.

(** Walking backwards over what keeps the rank, to the last assignment. *)
Ltac rank_back := rewrite !run_bind; cbv beta; repeat (rewrite rank_keeps by solve [keeps_tac]).

Definition enter_rank (u : uart_st) : Z := 3 * (2 - sh_too_long_retry u).

Lemma rank_leave next w : link_rank (w_uart (run (leave_to next) w)) =
  if next =? SH_STEP_RESET then 37 + 2 * reset_tries else 3 + enter_rank (w_uart w).
Proof. unfold leave_to. rank_back. reflexivity. Qed.

Lemma rank_finish w e : enter_rank (w_uart w) = e -> 0 <= e ->
  0 <= link_rank (w_uart (run shAtFinish w)) <= 3 + e.
Proof.
  intros <- He. unfold shAtFinish. rewrite !run_bind. cbv beta.
  match goal with |- context [run (when ENABLE_WISUN_REPORT _) ?x] => set (w2 := x) end.
  assert (ctl w2 = ctl (run (set_step SH_STEP_DONE) w)) as E2.
  { subst w2. rewrite (run_keeps ctl) by keeps_tac. rewrite run_uart_get, (run_keeps ctl) by keeps_tac. apply ctl_verdict. }
  assert (sh_too_long_retry (w_uart w2) = sh_too_long_retry (w_uart w)) as Er
    by exact (f_equal (fun x => snd (fst (fst (fst (fst (fst x)))))) E2).
  destruct ENABLE_WISUN_REPORT; cbn [when].
  - rewrite !run_bind. cbv beta. rewrite rank_leave. unfold enter_rank in *. cbn.
    rewrite Er. lia.
  - rewrite run_ret, (rank_ctl _ _ E2). cbn. lia.
Qed.

Lemma enter_range u : link_ok u -> 0 <= enter_rank u <= 6.
Proof. unfold link_ok, enter_rank. intros. destruct_and?. lia. Qed.

Lemma rank_send_current w i e : sh_at_idx (w_uart w) = i -> enter_rank (w_uart w) = e ->
  0 <= i <= SH_AT_CMD_COUNT -> 0 <= e <= 6 ->
  link_rank (w_uart (run shAtSendCurrent w)) <= 10 + (SH_AT_CMD_COUNT - i).
Proof.
  intros <- <- Hi He. unfold shAtSendCurrent. rewrite run_bind, eval_uart_get, run_uart_get.
  destruct (Z.leb_spec SH_AT_CMD_COUNT (sh_at_idx (w_uart w))).
  - pose proof (rank_finish w _ eq_refl ltac:(lia)). lia.
  - rank_back. reflexivity.
Qed.

Lemma rank_prov_current w : 0 <= sh_prov_i (w_uart w) <= 8 -> (length (sh_prov_q (w_uart w)) <= 8)%nat ->
  link_rank (w_uart (run shProvSendCurrent w)) =
  if Z.of_nat (length (sh_prov_q (w_uart w))) <=? sh_prov_i (w_uart w) then 25 + reset_tries
  else 26 + reset_tries + (8 - sh_prov_i (w_uart w)).
Proof.
  intros Hi Hl. unfold shProvSendCurrent. rewrite run_bind, eval_uart_get, run_uart_get. unfold id.
  destruct (Z.leb_spec (Z.of_nat (length (sh_prov_q (w_uart w)))) (sh_prov_i (w_uart w))).
  - rewrite !run_bind. cbv beta.
    match goal with |- link_rank (w_uart (run (uart_do ?g) ?x)) = _ =>
      assert (ctl x = ctl (run (set_step SH_STEP_PROV_SET) w)) as E end.
    { rewrite !(run_keeps ctl) by keeps_tac. unfold ctl, set_step. cbn. reflexivity. }
    rewrite (rank_ctl _ (run (uart_do (fun u => u <| sh_prov_i := 0xff |>)) (run (set_step SH_STEP_PROV_SET) w))); [reflexivity |].
    unfold ctl in *. cbn in *. congruence.
  - rank_back. unfold link_rank, set_step, clear_asm. cbn. destruct (Z.eqb_spec (sh_prov_i (w_uart w)) 255); lia.
Qed.

Lemma rank_reset w : WISUN_RESET_RETRIES <= 255 -> link_ok (w_uart w) -> sh_wisun_step (w_uart w) = SH_STEP_RESET ->
  link_rank (w_uart (run on_reset w)) < link_rank (w_uart w).
Proof.
  intros Hm Hk Hs. pose proof (enter_range _ Hk) as He.
  assert (is_u8 (ws_tries (sh_wisun (w_uart w)))) as Ht by apply Hk.
  assert (link_rank (w_uart w) = (if sh_prov_done (w_uart w) =? 0 then 36 + reset_tries else 24) +
    Z.max 0 (reset_tries - ws_tries (sh_wisun (w_uart w)))) as Er
    by (unfold link_rank; rewrite Hs; cbn; destruct (_ =? 0); lia).
  assert (1 <= reset_tries <= 255) as Hr by (unfold reset_tries; lia).
  rewrite Er. unfold on_reset. rewrite run_bind, eval_uart_get, run_uart_get. unfold id.
  destruct (ws_reset_seen (sh_wisun (w_uart w))).
  - destruct (WISUN_PROVISION && (sh_prov_done (w_uart w) =? 0)) eqn:Hp.
    + apply andb_true_iff in Hp as [_ Hp]. rewrite Hp. rank_back. unfold set_step. cbn. lia.
    + rewrite run_bind. pose proof (rank_send_current (run (uart_do (fun u => u <| sh_at_idx := 0 |>)) w) 0 (enter_rank (w_uart w))
        eq_refl eq_refl) as Hc. unfold SH_AT_CMD_COUNT in Hc. specialize (Hc ltac:(lia) He). destruct (_ =? 0); lia.
  - destruct (Z.eqb_spec (ws_tries (sh_wisun (w_uart w))) 0) as [Hz |].
    + rank_back. unfold link_rank. cbn. rewrite Hs, Hz. cbn. destruct (sh_prov_done (w_uart w) =? 0); lia.
    + destruct (Z.ltb_spec (ws_tries (sh_wisun (w_uart w))) WISUN_RESET_RETRIES).
      * rank_back. unfold link_rank. cbn. rewrite Hs. cbn. rewrite u8_small by rlia.
        unfold reset_tries in *. destruct (sh_prov_done (w_uart w) =? 0); rlia.
      * rewrite run_bind. match goal with |- link_rank (w_uart (run shAtFinish ?x)) < _ =>
          pose proof (rank_finish x (enter_rank (w_uart w)) eq_refl) as Hf end.
        specialize (Hf ltac:(lia)). destruct (_ =? 0); lia.
Qed.

Lemma rank_prov_read w : link_ok (w_uart w) -> sh_wisun_step (w_uart w) = SH_STEP_PROV_READ ->
  link_rank (w_uart (run on_prov_read w)) < link_rank (w_uart w).
Proof.
  intros Hk Hs. pose proof (enter_range _ Hk) as He.
  assert (link_rank (w_uart w) = 35 + reset_tries) as Er by (unfold link_rank; by rewrite Hs).
  assert (1 <= reset_tries) as Hr by (unfold reset_tries; lia).
  rewrite Er. unfold on_prov_read. rewrite !run_bind, eval_uart_get, run_uart_get. cbv beta. unfold id.
  set (w1 := run (uart_do _) w).
  assert (enter_rank (w_uart w1) = enter_rank (w_uart w)) as E1 by done.
  destruct (plan_ok (sh_rx_asm (w_uart w))) as [Hq _].
  assert (sh_prov_i (w_uart w1) = 0 /\ sh_prov_q (w_uart w1) = shProvPlan (sh_rx_asm (w_uart w))) as [Hi Hp] by done.
  clearbody w1. destruct (bool_decide_reflect (sh_prov_q (w_uart w1) = [])) as [| Hn].
  - rewrite run_bind. pose proof (rank_send_current (run (uart_do (fun u => u <| sh_prov_done := 1 |> <| sh_at_idx := 0 |>)) w1) 0
      (enter_rank (w_uart w1)) eq_refl eq_refl) as Hc.
    unfold SH_AT_CMD_COUNT in Hc. specialize (Hc ltac:(lia) ltac:(lia)). lia.
  - rewrite rank_prov_current by (rewrite ?Hi, ?Hp; lia || exact Hq). rewrite Hi.
    destruct (Z.leb_spec (Z.of_nat (length (sh_prov_q (w_uart w1)))) 0); [| lia].
    destruct (sh_prov_q (w_uart w1)); [done | cbn in *; lia].
Qed.

Lemma rank_prov_set w : link_ok (w_uart w) -> sh_wisun_step (w_uart w) = SH_STEP_PROV_SET ->
  link_rank (w_uart (run on_prov_set w)) < link_rank (w_uart w).
Proof.
  intros Hk Hs.
  assert (link_rank (w_uart w) = if sh_prov_i (w_uart w) =? 0xff then 25 + reset_tries else 26 + reset_tries + (8 - sh_prov_i (w_uart w)))
    as Er by (unfold link_rank; by rewrite Hs).
  assert (1 <= reset_tries) as Hr by (unfold reset_tries; lia).
  unfold link_ok in Hk. destruct_and! Hk. rewrite Er. unfold on_prov_set. rewrite run_bind, eval_uart_get, run_uart_get.
  destruct (Z.eqb_spec (sh_prov_i (w_uart w)) 0xff) as [Hi | Hi].
  - rank_back. unfold link_rank. cbn. assert (0 <= ws_tries (sh_wisun (w_uart w))).
    { match goal with Hc : counters_ok _ |- _ => destruct Hc; rlia end. } lia.
  - match goal with Hq : sh_wisun_step _ = SH_STEP_PROV_SET -> _ |- _ => destruct (Hq Hs) as [? | Hl]; [done |] end.
    rewrite run_bind. set (w1 := run (uart_do _) w).
    assert (sh_prov_i (w_uart w1) = sh_prov_i (w_uart w) + 1 /\ sh_prov_q (w_uart w1) = sh_prov_q (w_uart w)) as [Hi1 Hq1].
    { subst w1. cbn. split; [apply u8_small; rlia | done]. }
    clearbody w1. rewrite rank_prov_current by (rewrite ?Hi1, ?Hq1; lia). rewrite Hi1, Hq1.
    destruct (Z.leb_spec (Z.of_nat (length (sh_prov_q (w_uart w)))) (sh_prov_i (w_uart w) + 1)); lia.
Qed.

Lemma rank_leaving w : link_ok (w_uart w) -> sh_wisun_step (w_uart w) = SH_STEP_LEAVE ->
  link_rank (w_uart (run on_leave w)) < link_rank (w_uart w).
Proof.
  intros Hk Hs. assert (1 <= reset_tries) as Hr by (unfold reset_tries; lia).
  assert (link_rank (w_uart w) = if sh_leave_next (w_uart w) =? SH_STEP_RESET then 37 + 2 * reset_tries else 3 + enter_rank (w_uart w))
    as Er by (unfold link_rank, enter_rank; by rewrite Hs).
  rewrite Er. unfold on_leave. rewrite run_bind, eval_uart_get, run_uart_get.
  destruct (sh_leave_next (w_uart w) =? SH_STEP_RESET).
  - rank_back. unfold link_rank. cbn. destruct (_ =? 0); lia.
  - rank_back. unfold link_rank, set_step, enter_rank. cbn. lia.
Qed.

Lemma rank_dest w : sh_wisun_step (w_uart w) = SH_STEP_DEST ->
  link_rank (w_uart (run on_dest w)) < link_rank (w_uart w).
Proof.
  intros Hs. assert (link_rank (w_uart w) = 2 + enter_rank (w_uart w)) as -> by (unfold link_rank; by rewrite Hs).
  unfold on_dest. rank_back. unfold link_rank, enter_rank. cbn. lia.
Qed.

Lemma rank_cmd w : link_ok (w_uart w) -> sh_wisun_step (w_uart w) = SH_STEP_CMD ->
  link_rank (w_uart (run on_cmd w)) < link_rank (w_uart w).
Proof.
  intros Hk Hs. pose proof (enter_range _ Hk) as He. unfold link_ok in Hk. destruct_and! Hk.
  assert (sh_at_idx (w_uart w) < SH_AT_CMD_COUNT) as Hi by auto.
  assert (link_rank (w_uart w) = 10 + (SH_AT_CMD_COUNT - sh_at_idx (w_uart w))) as -> by (unfold link_rank; by rewrite Hs).
  unfold on_cmd, shAtNoteResult. rewrite !run_bind. cbv beta. rewrite run_uart_get.
  match goal with |- link_rank (w_uart (run shAtSendCurrent (run ?m ?x))) < _ => set (w1 := x) end.
  assert (ctl w1 = ctl w) as E1.
  { subst w1. rewrite (run_keeps ctl) by (intros v; unfold ctl; cbn; by repeat destruct (_ <? 255); destruct (shAtReplyOk _ _)).
    by rewrite (run_keeps ctl) by keeps_tac. }
  assert (sh_at_idx (w_uart w1) = sh_at_idx (w_uart w)) as Ei by exact (f_equal (fun x => snd (fst x)) E1).
  assert (sh_too_long_retry (w_uart w1) = sh_too_long_retry (w_uart w)) as Et
    by exact (f_equal (fun x => snd (fst (fst (fst (fst (fst x)))))) E1).
  clearbody w1. unfold SH_AT_CMD_COUNT in *.
  pose proof (rank_send_current (run (uart_do (fun u => u <| sh_at_idx ::= (fun n => u8 (n + 1)) |>)) w1)
    (u8 (sh_at_idx (w_uart w1) + 1)) (enter_rank (w_uart w1)) eq_refl eq_refl) as Hc.
  unfold enter_rank in *. rewrite Ei, Et, u8_small in Hc by rlia. unfold SH_AT_CMD_COUNT in Hc. specialize (Hc ltac:(lia) He).
  lia.
Qed.

(** ** The report on entering passthrough *)

(** At rest, or on the way into a rejoin. *)
Definition rested (r : Z) (w : World) : Prop :=
  sh_too_long_retry (w_uart w) = r /\
  (sh_wisun_step (w_uart w) = SH_STEP_DONE \/ (sh_wisun_step (w_uart w) = SH_STEP_LEAVE /\ sh_rejoining (w_uart w) = true)).

Lemma rested_call r q : inv (rested r) (call q).
Proof. by intros w. Qed.
#[local] Hint Resolve rested_call : calls.
#[local] Hint Extern 2 (inv (rested _) (call _)) => apply rested_call : keeps.
#[local] Hint Extern 2 (inv (rested _) (vit_call _)) => apply inv_vit_call; [intros; apply rested_call | done] : keeps.
#[local] Hint Extern 2 (inv (rested _) (SmartHelmet_UartSend _)) => apply inv_send; intros; apply rested_call : keeps.
#[local] Hint Extern 3 (inv (rested _) (_ _)) => let w := fresh in let H := fresh in intros w H; exact H : keeps.

Lemma rested_rejoin r : inv (rested r) SmartHelmet_UartRejoin.
Proof.
  unfold SmartHelmet_UartRejoin. keeps_step; [keeps_tac | intros t]. cbv zeta. apply inv_read. intros w Hw. unfold id.
  destruct (leaving (sh_wisun_step (w_uart w))); [done |]. destruct (negb _ && _); [done |].
  assert (forall v, sh_too_long_retry (w_uart v) = r -> sh_rejoining (w_uart v) = true -> rested r (run (leave_to SH_STEP_DEST) v)) as Hl.
  { intros v Hr Hj. unfold leave_to. rewrite !run_bind. cbv beta.
    assert (keeps (fun w => (sh_too_long_retry (w_uart w), sh_wisun_step (w_uart w), sh_rejoining (w_uart w))) (shWisunSendProbe (chars "exit"))) as K1
      by (unfold shWisunSendProbe; keeps_tac).
    assert (keeps (fun w => (sh_too_long_retry (w_uart w), sh_wisun_step (w_uart w), sh_rejoining (w_uart w))) (shWisunArm 400)) as K2
      by (unfold shWisunArm; keeps_tac).
    match goal with |- rested r (run _ (run _ ?x)) => pose proof (eq_trans (K2 (run (shWisunSendProbe (chars "exit")) x)) (K1 x)) as E end.
    cbn in E. injection E as E1 E2 E3. split; [exact (eq_trans E1 Hr) | right; split; [exact E2 | exact (eq_trans E3 Hj)]]. }
  rewrite !run_bind. cbv beta. apply Hl.
  - rewrite (run_keeps (fun w => sh_too_long_retry (w_uart w))) by keeps_tac.
    rewrite (run_keeps (fun w => sh_too_long_retry (w_uart w))) by (unfold SmartHelmet_ReportStop; keeps_tac).
    rewrite (run_keeps (fun w => sh_too_long_retry (w_uart w))) by keeps_tac.
    rewrite (run_keeps (fun w => sh_too_long_retry (w_uart w))) by (unfold set_offline; keeps_tac). apply Hw.
  - rewrite (run_keeps (fun w => sh_rejoining (w_uart w))) by keeps_tac.
    rewrite (run_keeps (fun w => sh_rejoining (w_uart w))) by (unfold SmartHelmet_ReportStop; keeps_tac).
    rewrite (run_keeps (fun w => sh_rejoining (w_uart w))) by keeps_tac.
    rewrite (run_keeps (fun w => sh_rejoining (w_uart w))) by (unfold set_offline; keeps_tac). done.
Qed.

Lemma rested_report r : inv (rested r) SmartHelmet_ReportStart.
Proof.
  pose proof (rested_rejoin r).
  assert (inv (rested r) SmartHelmet_SensorsPoll) as Hp.
  { assert (forall n k, inv (rested r) (drain_fifo n k)) as Hd
      by (induction n; intros k; cbn [drain_fifo]; unfold read_accel; keeps_tac).
    unfold SmartHelmet_SensorsPoll, poll_if, poll_ccs811, poll_fifo, poll_single, poll_hdc1080, poll_mlx90614, shReadMlx90614,
      hdc_wait, read_accel, set_accel. keeps_tac. }
  assert (forall ok, inv (rested r) (SmartHelmet_UartNoteReportSent ok)) as Hn
    by (intros ok; unfold SmartHelmet_UartNoteReportSent, set_offline; keeps_tac).
  assert (forall n l, inv (rested r) (send_frames n l)) as Hf by (intros n; induction n; intros l; cbn [send_frames]; keeps_tac).
  unfold SmartHelmet_ReportStart, SmartHelmet_UartInPassthrough, SmartHelmet_SensorsReady, shSensorsRequiredOk, report_poll,
    shSendReportLines, report_text, report_head, report_gases, rep_motion, rep_restart, rep_fall, rep_pulse, rep_climate,
    rep_voc, rep_gas, shGasValue, take_fall, vit_result, SmartHelmet_UartTakeRestart.
  keeps_tac.
Qed.

(** The report sent on entering passthrough could not be written or was the
    twelfth without an answer, so the link rejoins at once. *)
Definition report_failed (w w' : World) : Prop :=
  sh_wisun_step (w_uart w) = SH_STEP_PASS /\ sh_wisun_step (w_uart w') = SH_STEP_LEAVE /\
  sh_too_long_retry (w_uart w') = sh_too_long_retry (w_uart w) /\ sh_rejoining (w_uart w') = true.

Lemma rank_pass w : link_ok (w_uart w) -> sh_wisun_step (w_uart w) = SH_STEP_PASS ->
  link_rank (w_uart (run on_pass w)) < link_rank (w_uart w) \/ report_failed w (run on_pass w).
Proof.
  intros Hk Hs. pose proof (enter_range _ Hk) as He.
  assert (link_rank (w_uart w) = 1 + enter_rank (w_uart w)) as Er by (unfold link_rank; by rewrite Hs).
  unfold on_pass. rewrite run_bind, eval_uart_get, run_uart_get. unfold id. cbv zeta.
  destruct (_ && (sh_too_long_retry (w_uart w) <? 2)) eqn:Hc.
  - left. rewrite run_bind, rank_leave, Er. unfold enter_rank in *. cbn. rewrite u8_small by rlia. lia.
  - set (p := _ || negb _). clearbody p. rewrite run_bind.
    set (w1 := run (uart_do _) w).
    assert (sh_too_long_retry (w_uart w1) = sh_too_long_retry (w_uart w) /\ sh_wisun_step (w_uart w1) = SH_STEP_DONE /\
      sh_passthrough (w_uart w1) = p) as (E1 & E2 & E3) by done. clearbody w1.
    rewrite run_bind, eval_uart_get, run_uart_get, E3. destruct p; cbn [negb].
    + rewrite !run_bind. cbv beta.
      match goal with |- context [run SmartHelmet_ReportStart ?x] => set (w2 := x) end.
      assert (rested (sh_too_long_retry (w_uart w)) w2) as Hw.
      { subst w2. split.
        - rewrite (run_keeps (fun w => sh_too_long_retry (w_uart w))) by keeps_tac. exact E1.
        - left. rewrite (run_keeps (fun w => sh_wisun_step (w_uart w))) by keeps_tac. exact E2. }
      clearbody w2. destruct (rested_report _ w2 Hw) as [Hr [Hd | [Hl Hj]]].
      * left. fold (run SmartHelmet_ReportStart w2) in Hd. unfold link_rank at 1. rewrite Hd. cbn. lia.
      * right. done.
    + left. rewrite run_ret. unfold link_rank at 1. rewrite E2. cbn. lia.
Qed.

(** One timeout, whatever the reply buffer holds. *)
Lemma timeout_progress w :
  ENABLE_WISUN_UART = true -> ENABLE_WISUN_LINK_CHECK = true -> WISUN_RESET_RETRIES <= 255 ->
  link_ok (w_uart w) -> ~ at_rest (sh_wisun_step (w_uart w)) ->
  link_rank (w_uart (run shWisunOnTimeout w)) < link_rank (w_uart w) \/ report_failed w (run shWisunOnTimeout w).
Proof.
  intros Hu Hc Hm Hk Ha. unfold shWisunOnTimeout. rewrite Hu, Hc. cbn [negb orb]. rewrite run_bind, eval_uart_get, run_uart_get.
  destruct (Z.eqb_spec (sh_wisun_step (w_uart w)) SH_STEP_RESET); [left; by apply rank_reset |].
  destruct (Z.eqb_spec (sh_wisun_step (w_uart w)) SH_STEP_PROV_READ); [left; by apply rank_prov_read |].
  destruct (Z.eqb_spec (sh_wisun_step (w_uart w)) SH_STEP_PROV_SET); [left; by apply rank_prov_set |].
  destruct (Z.eqb_spec (sh_wisun_step (w_uart w)) SH_STEP_LEAVE); [left; by apply rank_leaving |].
  destruct (Z.eqb_spec (sh_wisun_step (w_uart w)) SH_STEP_DEST); [left; by apply rank_dest |].
  destruct (Z.eqb_spec (sh_wisun_step (w_uart w)) SH_STEP_PASS); [by apply rank_pass |].
  destruct (Z.eqb_spec (sh_wisun_step (w_uart w)) SH_STEP_CMD); [left; by apply rank_cmd |].
  exfalso. apply Ha. unfold at_rest, link_ok in *. destruct_and! Hk.
  unfold SH_STEP_RESET, SH_STEP_PROV_READ, SH_STEP_PROV_SET, SH_STEP_LEAVE, SH_STEP_DEST, SH_STEP_PASS, SH_STEP_CMD, SH_STEP_DONE in *. lia.
Qed.
End steps.

(** ** Received data between the timeouts *)
Inductive LinkEvent := LinkTimeout | LinkData (data : list Z).

Section settles.
Context `{HelmetConfig} `{BoardConfig} `{Platform}.

(** The chunk [data] has been read from the stream. *)
Definition note_read (data : list Z) : IO unit :=
  fun w => (tt, w <| w_trace ::= cons (mkcall (SourceMap (alen data)) (Some data)) |>).

Definition link_step (e : LinkEvent) : IO unit :=
  match e with LinkTimeout => shWisunOnTimeout | LinkData data => note_read data;; shUartConsume data end.
Definition link_run (es : list LinkEvent) : IO unit := for_each es link_step.

Fixpoint timeouts (es : list LinkEvent) : Z :=
  match es with
  | [] => 0
  | LinkTimeout :: es => 1 + timeouts es
  | LinkData _ :: es => timeouts es
  end.

(** On the way to rest; this only depends on what the rank depends on. *)
Definition under_way (k : Z) (w : World) : Prop :=
  ~ at_rest (sh_wisun_step (w_uart w)) /\ link_rank (w_uart w) <= k /\ 0 <= enter_rank (w_uart w) <= 6 /\
  (leaving (sh_wisun_step (w_uart w)) = false -> 9 <= k).

Lemma under_way_frame {A} k (m : IO A) : keeps ctl m -> inv (under_way k) m.
Proof.
  intros Hm w (Ha & Hr & He & Hl). specialize (Hm w). unfold under_way. rewrite (rank_ctl _ _ Hm).
  assert (sh_wisun_step (w_uart (snd (m w))) = sh_wisun_step (w_uart w)) as ->
    by exact (f_equal (fun x => fst (fst (fst (fst (fst (fst (fst x))))))) Hm).
  assert (sh_too_long_retry (w_uart (snd (m w))) = sh_too_long_retry (w_uart w)) as Et
    by exact (f_equal (fun x => snd (fst (fst (fst (fst (fst x)))))) Hm).
  unfold enter_rank in *. rewrite Et. done.
Qed.

Lemma under_way_start w : link_ok (w_uart w) -> ~ at_rest (sh_wisun_step (w_uart w)) -> under_way (link_rank (w_uart w)) w.
Proof.
  intros Hk Ha. pose proof (enter_range _ Hk). split_and!; [done | lia | lia | lia |]. intros Hl.
  unfold link_ok in Hk. destruct_and! Hk. unfold at_rest, leaving in *. apply orb_false_iff in Hl as [[H1' H2']%orb_false_iff H3'].
  apply Z.eqb_neq in H1', H2', H3'. unfold link_rank, reset_tries.
  repeat match goal with |- context [if ?x =? ?y then _ else _] => destruct (Z.eqb_spec x y); try done end;
    link_unfold; try lia.
Qed.

Lemma under_way_rejoin k : inv (under_way k) SmartHelmet_UartRejoin.
Proof.
  unfold SmartHelmet_UartRejoin. keeps_step; [apply under_way_frame; keeps_tac | intros t]. cbv zeta. apply inv_read. intros w Hw. unfold id.
  destruct (leaving (sh_wisun_step (w_uart w))) eqn:Hl; [done |]. destruct (negb _ && _); [done |].
  rewrite !run_bind. cbv beta.
  match goal with |- under_way _ (run (leave_to _) ?x) => set (v := x) end.
  assert (sh_too_long_retry (w_uart v) = sh_too_long_retry (w_uart w)) as Et.
  { subst v. rewrite (run_keeps (fun w => sh_too_long_retry (w_uart w))) by keeps_tac.
    rewrite (run_keeps (fun w => sh_too_long_retry (w_uart w))) by (unfold SmartHelmet_ReportStop; keeps_tac).
    rewrite (run_keeps (fun w => sh_too_long_retry (w_uart w))) by keeps_tac.
    by rewrite (run_keeps (fun w => sh_too_long_retry (w_uart w))) by (unfold set_offline; keeps_tac). }
  clearbody v. destruct Hw as (_ & _ & He & Hk). specialize (Hk Hl).
  assert (ctl (run (leave_to SH_STEP_DEST) v) =
    ctl (run (uart_do (fun u => u <| sh_leave_next := SH_STEP_DEST |> <| sh_wisun_step := SH_STEP_LEAVE |>)) v)) as E.
  { unfold leave_to. rewrite !run_bind. cbv beta. rewrite (run_keeps ctl) by apply ctl_arm. by rewrite (run_keeps ctl) by apply ctl_probe. }
  pose proof (f_equal (fun x => fst (fst (fst (fst (fst (fst (fst x))))))) E) as Es.
  pose proof (f_equal (fun x => snd (fst (fst (fst (fst (fst x)))))) E) as Er. cbn in Es, Er.
  unfold under_way. rewrite rank_leave. unfold enter_rank in *. rewrite Es, Er, Et. cbn. split_and!; try lia; try done.
  unfold at_rest, SH_STEP_LEAVE, SH_STEP_DONE. lia.
Qed.

Lemma under_way_too_long k : inv (under_way k) shOnCmdTooLong.
Proof.
  unfold shOnCmdTooLong, SmartHelmet_ReportStop. keeps_step; [apply under_way_frame; keeps_tac | intros _].
  keeps_step; [apply under_way_frame; keeps_tac | intros _]. apply inv_read. intros w Hw. unfold id.
  destruct Hw as (Ha & Hw). unfold at_rest in Ha.
  destruct (Z.eqb_spec (sh_wisun_step (w_uart w)) SH_STEP_DONE); [exfalso; auto |].
  destruct (Z.eqb_spec (sh_wisun_step (w_uart w)) 0); [exfalso; auto |]. done.
Qed.

(** The same, with where the link is. *)
Definition waits (b : bool) (k : Z) (w : World) : Prop := under_way k w /\ leaving (sh_wisun_step (w_uart w)) = b.

Lemma step_ctl {A} (m : IO A) w : keeps ctl m -> sh_wisun_step (w_uart (run m w)) = sh_wisun_step (w_uart w).
Proof. intros Hm. exact (f_equal (fun x => fst (fst (fst (fst (fst (fst (fst x))))))) (Hm w)). Qed.

Lemma waits_frame {A} b k (m : IO A) : keeps ctl m -> inv (waits b k) m.
Proof.
  intros Hm w [Hw Hl]. split; [by apply (under_way_frame k m Hm) |]. fold (run m w). by rewrite (step_ctl m w Hm).
Qed.

Lemma rest_frame {A} (m : IO A) : keeps ctl m -> inv (fun w => at_rest (sh_wisun_step (w_uart w))) m.
Proof. intros Hm w Hw. fold (run m w). by rewrite (step_ctl m w Hm). Qed.

(** "send ok" only ends a leave; elsewhere it resets counters, which the
    steps before passthrough do not depend on. *)
Lemma send_ok_goes_on k : leads (waits false k) (under_way k) note_send_ok.
Proof.
  unfold note_send_ok. eapply leads_bind; [apply waits_frame; keeps_tac | intros was].
  apply (leads_bind _ (waits false k)).
  { intros w [(Ha & Hr & He & Hl9) Hl]. specialize (Hl9 Hl). split; [| exact Hl]. split_and!; try done.
    etrans; [| exact Hr]. apply Z.eq_le_incl. unfold leaving in Hl. apply orb_false_iff in Hl as [[H1' H2']%orb_false_iff H3'].
    unfold link_rank. cbn. by rewrite H1', H2', H3'. }
  intros _. eapply leads_bind; [apply waits_frame; keeps_tac | intros _].
  apply leads_read. intros w [Hw ->]. cbn [when]. rewrite run_bind, run_ret. apply under_way_frame; [keeps_tac | exact Hw].
Qed.

Lemma send_ok_ends k : leads (waits true k) (fun w => at_rest (sh_wisun_step (w_uart w))) note_send_ok.
Proof.
  unfold note_send_ok. eapply leads_bind; [apply waits_frame; keeps_tac | intros was].
  apply (leads_bind _ (fun w => leaving (sh_wisun_step (w_uart w)) = true)); [by intros w [_ Hl] | intros _].
  apply (leads_bind _ (fun w => leaving (sh_wisun_step (w_uart w)) = true)).
  { intros w Hl. match goal with |- context [snd (?m w)] => fold (run m w) end. rewrite step_ctl; [exact Hl | keeps_tac]. }
  intros _. apply leads_read. intros w ->. cbn [when]. rewrite run_bind. apply rest_frame; [keeps_tac |]. by left.
Qed.

(** The evidence on a chunk, from what its "send ok" or "send fail" does. *)
Lemma note_rx_leads b k data (Q : World -> Prop) : alen data <> 0 ->
  (forall A (m : IO A), keeps ctl m -> inv Q m) ->
  leads (waits b k) Q (if shContainsFold data (chars "send fail") then note_send_fail
    else if shContainsFold data (chars "send ok") then note_send_ok else mret tt) ->
  leads (waits b k) Q (shWisunNoteRx data).
Proof.
  intros Hn HQ Hm. unfold shWisunNoteRx. destruct (Z.eqb_spec (alen data) 0); [done |]. cbv zeta.
  eapply leads_bind; [apply waits_frame; keeps_tac | intros _].
  eapply leads_bind; [apply waits_frame; unfold note_status; keeps_tac | intros _].
  eapply leads_bind; [apply waits_frame; keeps_tac | intros step].
  eapply leads_bind; [apply waits_frame; keeps_tac | intros _].
  eapply leads_bind; [exact Hm | intros _]. apply HQ. unfold vitals_restart. keeps_tac.
Qed.

(** The chunk ends a leave: "send ok" and no "send fail". *)
Definition ends_leave (data : list Z) (w : World) : bool :=
  shContainsFold data (chars "send ok") && negb (shContainsFold data (chars "send fail")) && leaving (sh_wisun_step (w_uart w)).

(** The link when the evidence on a chunk is in, before its lines are looked at. *)
Definition evidence (data : list Z) : IO unit := note_read data;; uart_do (asm_add data);; shWisunNoteRx data.

Lemma contains_nonempty data needle : shContainsFold data needle = true -> alen data <> 0.
Proof.
  unfold shContainsFold, alen. intros Hc E. destruct data; [| cbn in E; lia]. destruct needle; [done |]. cbn [length] in Hc.
  destruct (_ || _) eqn:Hl; [done |]. apply orb_false_iff in Hl as [_ Hl]. apply Z.ltb_ge in Hl. cbn in Hl. lia.
Qed.

Lemma under_way_evidence k data w : under_way k w ->
  if ends_leave data w then at_rest (sh_wisun_step (w_uart (run (evidence data) w))) else under_way k (run (evidence data) w).
Proof.
  intros Hw. unfold evidence. rewrite !run_bind.
  set (v := run (uart_do (asm_add data)) (run (note_read data) w)).
  assert (waits (leaving (sh_wisun_step (w_uart w))) k v) as Hv by (split; [exact Hw | done]). clearbody v.
  assert (inv (under_way k) note_send_fail) as Hf.
  { pose proof (under_way_rejoin k). unfold note_send_fail. keeps_step; [keeps_tac | intros was].
    keeps_step; [apply under_way_frame; keeps_tac | intros _].
    keeps_step; [apply under_way_frame; keeps_tac | intros _]. keeps_step; [apply under_way_frame; keeps_tac | intros _]. done. }
  unfold ends_leave. destruct (decide (alen data = 0)) as [E | E].
  { destruct (shContainsFold data (chars "send ok")) eqn:Ho; [by apply contains_nonempty in Ho |]. cbn [andb].
    unfold shWisunNoteRx. rewrite E. exact (proj1 Hv). }
  destruct (shContainsFold data (chars "send fail")) eqn:Hc; cbn [negb]; rewrite ?andb_false_r, ?andb_true_r; cbn [andb].
  - refine (note_rx_leads _ k data (under_way k) E (fun A m Hm => under_way_frame k m Hm) _ v Hv). rewrite Hc.
    by apply (inv_leads _ (under_way k)); [intros ? [] | |].
  - destruct (shContainsFold data (chars "send ok")) eqn:Ho; cbn [andb].
    + destruct (leaving _).
      * refine (note_rx_leads _ k data _ E (fun A m Hm => rest_frame m Hm) _ v Hv). rewrite Hc, Ho. apply send_ok_ends.
      * refine (note_rx_leads _ k data (under_way k) E (fun A m Hm => under_way_frame k m Hm) _ v Hv). rewrite Hc, Ho.
        apply send_ok_goes_on.
    + refine (note_rx_leads _ k data (under_way k) E (fun A m Hm => under_way_frame k m Hm) _ v Hv). rewrite Hc, Ho. by intros x [Hx _].
Qed.

(** The rest of a chunk adds no timeouts and does not end the check. *)
Definition consume_lines (data : list Z) : IO unit :=
  shRxLinePush data;;
  cb ← uart_get sh_uart_rx_cb;
  when cb (call (uart_rx_cb data));;
  step ← uart_get sh_wisun_step;
  if step =? SH_STEP_RESET then
    shResetNoteBanner;;
    seen ← uart_get (fun u => ws_reset_seen (sh_wisun u));
    when (negb seen) (shWisunArm WISUN_RESET_WAIT_MS)
  else when ((step =? SH_STEP_CMD) || (step =? SH_STEP_PROV_READ) || (step =? SH_STEP_PROV_SET))
    (shWisunArm WISUN_REPLY_SETTLE_MS).

Lemma link_data_run data w : run (link_step (LinkData data)) w = run (consume_lines data) (run (evidence data) w).
Proof. done. Qed.

Lemma under_way_lines k data : inv (under_way k) (consume_lines data).
Proof.
  pose proof (under_way_too_long k).
  assert (inv (under_way k) shRxLineFlush).
  { unfold shRxLineFlush. keeps_step; [keeps_tac | intros line]. keeps_step; [apply inv_ret |].
    keeps_step; [keeps_tac | intros _]. apply under_way_frame. keeps_tac. }
  unfold consume_lines. keeps_step.
  { unfold shRxLinePush. apply inv_for_each. intros b. unfold rx_byte. keeps_step.
    - keeps_step; [keeps_tac | intros line]. keeps_step; [apply under_way_frame; unfold vitals_restart; keeps_tac | intros _; done].
    - keeps_step; [apply inv_ret |]. keeps_step; [keeps_tac | intros line]. keeps_step; [keeps_tac | intros _].
      apply under_way_frame. keeps_tac. }
  intros _. apply under_way_frame. unfold shResetNoteBanner, shAsmHas, shWisunArm. keeps_tac.
Qed.

Lemma linked_data data w : linked false false w -> linked false false (run (link_step (LinkData data)) w).
Proof.
  intros [Hl Ho _ He]. cbn [link_step]. rewrite run_bind. apply (linked_forget _ (shContainsFold data (chars "send ok"))), linked_consume.
  constructor; [exact Hl | exact Ho | | intros Hn; by apply heard_cons, He]. intros Hc.
  exists (mkcall (SourceMap (alen data)) (Some data)). split; [left | exact Hc].
Qed.

Lemma run_link_app es es' w : run (link_run (es ++ es')) w = run (link_run es') (run (link_run es) w).
Proof. revert w. induction es as [| e es IH]; intros w; [done |]. cbn [app link_run for_each]. rewrite !run_bind. apply IH. Qed.

(** How a link check ends: at rest; with a first report on entering
    passthrough that could not be written, which starts a rejoin; or with the
    module's "send ok" during a leave, after which the link is at rest (a
    line of the same chunk may make it leave again). *)
Definition ended (w : World) (next : option LinkEvent) : Prop :=
  at_rest (sh_wisun_step (w_uart w)) \/
  match next with
  | Some LinkTimeout => report_failed w (run shWisunOnTimeout w)
  | Some (LinkData d) => ends_leave d w = true /\ at_rest (sh_wisun_step (w_uart (run (evidence d) w)))
  | None => False
  end.

(** [C1] The link check ends, whatever the module sends between the
    timeouts: within [link_bound] timeouts, 41 in the shipped build, there is
    a point where the link is at rest, or where the next event ends the check
    ([ended]). *)
Theorem link_settles es w :
  ENABLE_WISUN_UART = true -> ENABLE_WISUN_LINK_CHECK = true -> WISUN_RESET_RETRIES <= 255 ->
  linked false false w -> link_bound <= timeouts es ->
  exists es1 es2, es = es1 ++ es2 /\ ended (run (link_run es1) w) (head es2).
Proof.
  intros Hu Hc Hm Hk Hb.
  assert (link_rank (w_uart w) <= timeouts es) as Hr by (pose proof (link_rank_bound _ (lk_ok _ _ _ Hk)); lia).
  clear Hb. revert w Hk Hr. induction es as [| e es IH]; intros w Hk Hr.
  - exists [], []. split; [done |]. left. cbn.
    destruct (decide (at_rest (sh_wisun_step (w_uart w)))) as [| Ha]; [done | exfalso].
    destruct (timeout_progress w Hu Hc Hm (lk_ok _ _ _ Hk) Ha) as [Hlt | (Hs & _)].
    + pose proof (linked_timeout false w Hk) as Hk'. pose proof (link_rank_bound _ (lk_ok _ _ _ Hk')). unfold run in Hlt. cbn in Hr. lia.
    + unfold link_rank in Hr. rewrite Hs in Hr. cbn in Hr. pose proof (enter_range _ (lk_ok _ _ _ Hk)). unfold enter_rank in *. lia.
  - destruct (decide (at_rest (sh_wisun_step (w_uart w)))) as [Ha | Ha]; [by exists [], (e :: es); split; [| left] |].
    assert (linked false false (run (link_step e) w) -> link_rank (w_uart (run (link_step e) w)) <= timeouts es ->
      exists es1 es2, e :: es = es1 ++ es2 /\ ended (run (link_run es1) w) (head es2)) as Hnext.
    { intros Hk' Hr'. destruct IH with (w := run (link_step e) w) as (es1 & es2 & -> & Hend); [done | done |].
      by exists (e :: es1), es2. }
    destruct e as [| data]; cbn [timeouts] in *.
    + destruct (timeout_progress w Hu Hc Hm (lk_ok _ _ _ Hk) Ha) as [Hlt | Hf].
      * apply Hnext; [by apply linked_timeout | cbn [link_step]; lia].
      * exists [], (LinkTimeout :: es). split; [done |]. by right.
    + pose proof (under_way_evidence _ data w (under_way_start w (lk_ok _ _ _ Hk) Ha)) as He.
      destruct (ends_leave data w) eqn:El; [by exists [], (LinkData data :: es); split; [| right; split] |].
      apply Hnext; [by apply linked_data |].
      destruct (under_way_lines _ data _ He) as (_ & Hle & _). rewrite link_data_run. unfold run. unfold run in Hle. lia.
Qed.
End settles.


(** * Provisioning *)

(** A transmit stream with room for a command. *)
Class SinkAccepts `{Platform} := {
  accept_slack : forall e : Env, 48 <= fst (serve SinkSlack e);
  accept_claim : forall n (e : Env), fst (serve (SinkClaim n) e) <> 0xffff;
  accept_map : forall e : Env, fst (serve SinkMap e) = true;
}.

(** What was sent to the module, the last one first. *)
Definition flushed (c : Call) : option (list Z) :=
  match c_req c with SinkFlush _ d => Some d | _ => None end.
Definition sent_log `{Platform} (w : World) : list (list Z) := omap flushed (w_trace w).

(** The frame of a command. *)
Definition cmd_frame (cmd : list Z) : list Z := take 46 cmd ++ [13; 10].

Section provision.
Context `{HelmetConfig} `{BoardConfig} `{SinkAccepts}.

Definition prov (w : World) :=
  let u := w_uart w in (sh_uart_sink u, sh_wisun_step u, sh_prov_q u, sh_prov_i u, sh_prov_done u).

Lemma log_call q : (match q with SinkFlush _ _ => False | _ => True end) -> keeps sent_log (call q).
Proof. intros Hq w. unfold sent_log, call. cbn. by destruct q. Qed.
#[local] Hint Extern 2 (keeps sent_log (call _)) => apply log_call; exact I : keeps.

Lemma log_arm d : keeps sent_log (shWisunArm d).
Proof. unfold shWisunArm. keeps_tac. Qed.
Lemma prov_arm d : keeps prov (shWisunArm d).
Proof. unfold shWisunArm. keeps_tac. Qed.
Lemma prov_probe cmd : keeps prov (shWisunSendProbe cmd).
Proof. unfold shWisunSendProbe. keeps_tac. Qed.

Lemma run_call_bind {A} q (k : Resp q -> IO A) w :
  run (call q ≫= k) w = run (k (fst (serve q (w_env w)))) (snd (call q w)).
Proof. done. Qed.

(** With the stream open and room in it, a command goes out as one frame. *)
Lemma send_sent d w : sh_uart_sink (w_uart w) = true -> 0 < alen d <= 48 ->
  sent_log (run (SmartHelmet_UartSend d) w) = d :: sent_log w.
Proof.
  intros Ho Hl. unfold SmartHelmet_UartSend. rewrite run_bind, eval_uart_get, run_uart_get, Ho.
  destruct (Z.eqb_spec (alen d) 0); [lia |]. cbn [negb orb]. rewrite (run_call_bind SinkSlack).
  pose proof (accept_slack (w_env w)). destruct (Z.ltb_spec (fst (serve SinkSlack (w_env w))) (alen d)); [lia |].
  rewrite (run_call_bind (SinkClaim (alen d))).
  match goal with |- context [fst ?x =? 0xffff] => destruct (Z.eqb_spec (fst x) 0xffff) as [Hc |] end;
    [by apply accept_claim in Hc |].
  rewrite (run_call_bind SinkMap), accept_map. reflexivity.
Qed.

Lemma probe_sent cmd w : sh_uart_sink (w_uart w) = true ->
  sent_log (run (shWisunSendProbe cmd) w) = cmd_frame cmd :: sent_log w.
Proof.
  intros Ho. unfold shWisunSendProbe. rewrite run_bind. rewrite (run_keeps sent_log) by (intros v; done).
  apply send_sent; [done |]. unfold alen, cmd_frame. rewrite length_app, length_take. change (length [13; 10]) with 2%nat. lia.
Qed.

(** One timeout of the provisioning. *)
Lemma prov_current w i q : sh_uart_sink (w_uart w) = true -> sh_prov_i (w_uart w) = i -> sh_prov_q (w_uart w) = q -> 0 <= i ->
  let w' := run shProvSendCurrent w in
  match q !! Z.to_nat i with
  | Some c => sent_log w' = cmd_frame c :: sent_log w /\ prov w' = (true, SH_STEP_PROV_SET, q, i, sh_prov_done (w_uart w))
  | None => sent_log w' = cmd_frame (chars "save") :: sent_log w /\
            prov w' = (true, SH_STEP_PROV_SET, q, 0xff, sh_prov_done (w_uart w))
  end.
Proof.
  intros Ho <- <- Hi. unfold shProvSendCurrent. rewrite run_bind, eval_uart_get, run_uart_get. unfold id. cbv zeta.
  destruct (Z.leb_spec (Z.of_nat (length (sh_prov_q (w_uart w)))) (sh_prov_i (w_uart w))).
  - rewrite lookup_ge_None_2 by lia. rewrite !run_bind. cbv beta. split.
    + rewrite (run_keeps sent_log) by (intros v; done). rewrite (run_keeps sent_log) by apply log_arm. by rewrite probe_sent.
    + match goal with |- prov (run (uart_do ?g) ?x) = _ => set (v := x) end.
      assert (prov v = prov (run (set_step SH_STEP_PROV_SET) w)) as E.
      { subst v. rewrite (run_keeps prov) by apply prov_arm. by rewrite (run_keeps prov) by apply prov_probe. }
      clearbody v. unfold prov in *. cbn in *. congruence.
  - destruct (lookup_lt_is_Some_2 (sh_prov_q (w_uart w)) (Z.to_nat (sh_prov_i (w_uart w)))) as [c Hc]; [lia |].
    rewrite Hc. rewrite !run_bind. cbv beta. split.
    + rewrite (run_keeps sent_log) by apply log_arm. by rewrite probe_sent.
    + rewrite (run_keeps prov) by apply prov_arm. rewrite (run_keeps prov) by apply prov_probe. unfold prov. cbn. by rewrite Ho.
Qed.

Lemma timeout_set w : ENABLE_WISUN_UART = true -> ENABLE_WISUN_LINK_CHECK = true ->
  sh_wisun_step (w_uart w) = SH_STEP_PROV_SET -> run shWisunOnTimeout w = run on_prov_set w.
Proof.
  intros Hu Hc Hs. unfold shWisunOnTimeout. rewrite Hu, Hc. cbn [negb orb]. by rewrite run_bind, eval_uart_get, run_uart_get, Hs.
Qed.

Lemma prov_set_next w : sh_prov_i (w_uart w) <> 0xff ->
  run on_prov_set w = run shProvSendCurrent (run (uart_do (fun u => u <| sh_prov_i ::= (fun n => u8 (n + 1)) |>)) w).
Proof. intros Hi. unfold on_prov_set. rewrite run_bind, eval_uart_get, run_uart_get. by destruct (Z.eqb_spec (sh_prov_i (w_uart w)) 0xff). Qed.

(** The rest of the queue, then save, then svrst. *)
Lemma prov_set_runs rest q i w : ENABLE_WISUN_UART = true -> ENABLE_WISUN_LINK_CHECK = true ->
  (length q <= 8)%nat -> 0 <= i < 8 -> drop (Z.to_nat (i + 1)) q = rest ->
  sh_uart_sink (w_uart w) = true -> sh_wisun_step (w_uart w) = SH_STEP_PROV_SET ->
  sh_prov_q (w_uart w) = q -> sh_prov_i (w_uart w) = i ->
  let w' := run (link_run (replicate (length rest + 2) LinkTimeout)) w in
  sent_log w' = rev (cmd_frame <$> rest ++ [chars "save"; chars "svrst"]) ++ sent_log w /\
  sh_wisun_step (w_uart w') = SH_STEP_RESET /\ sh_prov_done (w_uart w') = 1 /\ ws_reset_seen (sh_wisun (w_uart w')) = false.
Proof.
  intros Hu Hc Hl. revert i w. induction rest as [| c rest IH]; intros i w Hi Hd Ho Hs Hq Hp; cbv zeta.
  - assert (q !! Z.to_nat (i + 1) = None) as Hn.
    { apply lookup_ge_None_2. apply (f_equal length) in Hd. rewrite length_drop in Hd. cbn in Hd. lia. }
    cbn [length Nat.add replicate link_run for_each link_step]. rewrite !run_bind, run_ret. cbv beta.
    rewrite (timeout_set w), prov_set_next by (rewrite ?Hp; done || lia).
    set (w1 := run (uart_do _) w).
    assert (sh_prov_i (w_uart w1) = i + 1) as Hp1 by (subst w1; cbn; rewrite Hp, u8_small by rlia; done).
    pose proof (prov_current w1 (i + 1) q Ho Hp1 Hq ltac:(lia)) as Hw. cbv zeta in Hw. rewrite Hn in Hw.
    destruct Hw as [E1 E2]. assert (sent_log w1 = sent_log w) as E0 by done. clearbody w1.
    set (w2 := run shProvSendCurrent w1) in *. clearbody w2. unfold prov in E2. injection E2 as F1 F2 F3 F4 F5.
    rewrite (timeout_set w2) by done. unfold on_prov_set. rewrite run_bind, eval_uart_get, run_uart_get, F4, Z.eqb_refl.
    rewrite !run_bind. cbv beta. set (w3 := run (uart_do _) w2).
    assert (sh_uart_sink (w_uart w3) = true /\ sh_wisun_step (w_uart w3) = SH_STEP_RESET /\ sh_prov_done (w_uart w3) = 1 /\
      ws_reset_seen (sh_wisun (w_uart w3)) = false /\ sent_log w3 = sent_log w2) as (G1 & G2 & G3 & G4 & G5) by done.
    clearbody w3. split_and!.
    + rewrite (run_keeps sent_log) by apply log_arm. rewrite probe_sent by done. cbn. by rewrite G5, E1, E0.
    + rewrite (run_keeps (fun w => sh_wisun_step (w_uart w))) by (unfold shWisunArm; keeps_tac).
      by rewrite (run_keeps (fun w => sh_wisun_step (w_uart w))) by (unfold shWisunSendProbe; keeps_tac).
    + rewrite (run_keeps (fun w => sh_prov_done (w_uart w))) by (unfold shWisunArm; keeps_tac).
      by rewrite (run_keeps (fun w => sh_prov_done (w_uart w))) by (unfold shWisunSendProbe; keeps_tac).
    + rewrite (run_keeps (fun w => ws_reset_seen (sh_wisun (w_uart w)))) by (unfold shWisunArm; keeps_tac).
      by rewrite (run_keeps (fun w => ws_reset_seen (sh_wisun (w_uart w)))) by (unfold shWisunSendProbe; keeps_tac).
  - assert (q !! Z.to_nat (i + 1) = Some c) as Hn.
    { rewrite <- (Nat.add_0_r (Z.to_nat (i + 1))), <- lookup_drop, Hd. done. }
    assert (i + 1 < 8) as Hi1 by (apply lookup_lt_Some in Hn; lia).
    cbn [length Nat.add replicate link_run for_each link_step]. rewrite run_bind.
    rewrite (timeout_set w), prov_set_next by (rewrite ?Hp; done || lia).
    set (w1 := run (uart_do _) w).
    assert (sh_prov_i (w_uart w1) = i + 1) as Hp1 by (subst w1; cbn; rewrite Hp, u8_small by rlia; done).
    pose proof (prov_current w1 (i + 1) q Ho Hp1 Hq ltac:(lia)) as Hw. cbv zeta in Hw. rewrite Hn in Hw.
    destruct Hw as [E1 E2]. assert (sent_log w1 = sent_log w) as E0 by done. clearbody w1.
    set (w2 := run shProvSendCurrent w1) in *. clearbody w2. unfold prov in E2. injection E2 as F1 F2 F3 F4 F5.
    assert (drop (Z.to_nat (i + 1 + 1)) q = rest) as Hd'.
    { replace (Z.to_nat (i + 1 + 1)) with (S (Z.to_nat (i + 1))) by lia. by erewrite drop_S in Hd; [injection Hd as ? |]. }
    destruct (IH (i + 1) w2 ltac:(lia) Hd' F1 F2 F3 F4) as (G1 & G2). split; [| exact G2].
    unfold link_run in G1. rewrite G1, E1, E0. cbn [fmap list_fmap app rev]. by rewrite <- app_assoc.
Qed.

Lemma provision_frames w :
  ENABLE_WISUN_UART = true -> ENABLE_WISUN_LINK_CHECK = true ->
  sh_uart_sink (w_uart w) = true -> sh_wisun_step (w_uart w) = SH_STEP_PROV_READ ->
  let plan := shProvPlan (sh_rx_asm (w_uart w)) in
  (plan <> [] ->
   let w' := run (link_run (replicate (length plan + 2) LinkTimeout)) w in
   sent_log w' = rev (cmd_frame <$> plan ++ [chars "save"; chars "svrst"]) ++ sent_log w /\
   sh_wisun_step (w_uart w') = SH_STEP_RESET /\ sh_prov_done (w_uart w') = 1 /\ ws_reset_seen (sh_wisun (w_uart w')) = false) /\
  (plan = [] ->
   let w' := run shWisunOnTimeout w in
   sent_log w' = cmd_frame (fst (at_cmd 0)) :: sent_log w /\ sh_wisun_step (w_uart w') = SH_STEP_CMD /\
   sh_prov_done (w_uart w') = 1).
Proof.
  intros Hu Hc Ho Hs plan. destruct (plan_ok (sh_rx_asm (w_uart w))) as [Hl _]. fold plan in Hl.
  assert (run shWisunOnTimeout w = run on_prov_read w) as Et.
  { unfold shWisunOnTimeout. rewrite Hu, Hc. cbn [negb orb]. by rewrite run_bind, eval_uart_get, run_uart_get, Hs. }
  set (w1 := run (uart_do (fun u => u <| sh_prov_q := shProvPlan (sh_rx_asm u) |> <| sh_prov_i := 0 |>)) w).
  assert (run on_prov_read w = run (if bool_decide (plan = []) then
      uart_do (fun u => u <| sh_prov_done := 1 |> <| sh_at_idx := 0 |>);; shAtSendCurrent else shProvSendCurrent) w1) as Er by done.
  assert (sh_uart_sink (w_uart w1) = true /\ sh_prov_q (w_uart w1) = plan /\ sh_prov_i (w_uart w1) = 0 /\ sent_log w1 = sent_log w)
    as (F1 & F2 & F3 & F4) by done.
  clearbody w1. split; intros Hp; cbv zeta.
  - rewrite bool_decide_eq_false_2 in Er by done. destruct plan as [| c rest] eqn:Epl; [done |].
    cbn [length Nat.add replicate link_run for_each link_step]. rewrite run_bind, Et, Er.
    pose proof (prov_current w1 0 (c :: rest) F1 F3 F2 ltac:(lia)) as [E1 E2].
    set (w2 := run shProvSendCurrent w1) in *. clearbody w2. unfold prov in E2. injection E2 as G1 G2 G3 G4 G5.
    destruct (prov_set_runs rest (c :: rest) 0 w2 Hu Hc Hl ltac:(lia) eq_refl G1 G2 G3 G4) as (K1 & K2). split; [| exact K2].
    unfold link_run in K1. rewrite K1, E1, F4. cbn [fmap list_fmap app rev]. by rewrite <- app_assoc.
  - rewrite bool_decide_eq_true_2 in Er by done. rewrite Et, Er, run_bind.
    set (w2 := run (uart_do _) w1).
    assert (sh_uart_sink (w_uart w2) = true /\ sh_at_idx (w_uart w2) = 0 /\ sh_prov_done (w_uart w2) = 1 /\ sent_log w2 = sent_log w)
      as (G1 & G2 & G3 & G4) by done.
    clearbody w2. unfold shAtSendCurrent. rewrite run_bind, eval_uart_get, run_uart_get, G2.
    change (SH_AT_CMD_COUNT <=? 0) with false. cbn iota. rewrite !run_bind. cbv beta. split_and!.
    + rewrite (run_keeps sent_log) by apply log_arm. rewrite probe_sent by done. by rewrite <- G4.
    + rewrite (run_keeps (fun w => sh_wisun_step (w_uart w))) by (unfold shWisunArm; keeps_tac).
      by rewrite (run_keeps (fun w => sh_wisun_step (w_uart w))) by (unfold shWisunSendProbe; keeps_tac).
    + rewrite (run_keeps (fun w => sh_prov_done (w_uart w))) by (unfold shWisunArm; keeps_tac).
      by rewrite (run_keeps (fun w => sh_prov_done (w_uart w))) by (unfold shWisunSendProbe; keeps_tac).
Qed.

(** ** The settings

    What the module has to be set to, from smart_helmet_config.h: the command
    that makes a setting, whether only a border router takes it, and the
    texts of a reply, in any letter case, that show it is made. *)
Record setting := Setting { s_cmd : string; s_border : bool; s_marks : list string }.

Definition settings : list setting := [
  Setting "netname SmartHelmetWisun" false ["SmartHelmetWisun"];
  Setting "pan 0xdcba" true ["0xdcba"];
  Setting "domain 1" false ["domain=1"; "domain:1"];
  Setting "chrate 50" false ["rate=50kbps"; "rate:50"];
  Setting "txpower 20" false ["20dbm"; "txpower:20"; ": 20"];
  Setting "cca -83" false ["-83"];
  Setting "udpopts udp_port 4321" false ["udp_port=4321"]]%string.

Definition shows (reply : list Z) (mark : string) : Prop := occurs (chars mark) reply.

(** A setting that the reply leaves to be made. *)
Definition to_make (reply : list Z) (s : setting) : Prop :=
  (s_border s = true -> shows reply "border"%string) /\ Forall (fun m => ~ shows reply m) (s_marks s).

(** The commands of the settings to be made, in order. *)
Inductive plan_for (reply : list Z) : list setting -> list (list Z) -> Prop :=
| plan_end : plan_for reply [] []
| plan_skip s ss p : ~ to_make reply s -> plan_for reply ss p -> plan_for reply (s :: ss) p
| plan_make s ss p : to_make reply s -> plan_for reply ss p -> plan_for reply (s :: ss) (chars (s_cmd s) :: p).

Lemma plan_cons reply s ss p (c : bool) cmd : cmd = chars (s_cmd s) -> (c = true <-> to_make reply s) ->
  plan_for reply ss p -> plan_for reply (s :: ss) ((if c then [cmd] else []) ++ p).
Proof. intros -> Hc Hp. destruct c; cbn [app]; constructor; [by apply Hc | done | by rewrite <- Hc | done]. Qed.

Lemma shows_has reply m : chars m <> [] -> (shows reply m <-> shContainsFold reply (chars m) = true).
Proof. intros Hm. rewrite shContainsFold_spec. unfold shows. tauto. Qed.

Lemma queue_if_app c cmd q k : (length q <= k)%nat -> (k < 8)%nat -> (length cmd <= 39)%nat ->
  queue_if c cmd q = q ++ (if c then [cmd] else []) /\ (length (queue_if c cmd q) <= S k)%nat.
Proof.
  intros Hq Hk Hc. unfold queue_if, shProvQueue. destruct c; [| rewrite app_nil_r; split; [done | lia]].
  destruct (Z.leb_spec 8 (Z.of_nat (length q))); [lia |]. rewrite take_ge by done.
  split; [done |]. rewrite length_app. cbn. lia.
Qed.

Ltac queue_step k :=
  match goal with |- context [queue_if ?c ?cmd ?q] =>
    assert_fails (idtac; match q with context [queue_if] => idtac end);
    let E := fresh in let L := fresh in
    pose proof (queue_if_app c cmd q k ltac:(assumption || (cbn; lia)) ltac:(lia) ltac:(apply Nat.leb_le; reflexivity)) as [E L];
    rewrite E in L |- *; clear E
  end.

Ltac to_make_tac :=
  unfold to_make; cbn [s_border s_marks]; rewrite ?Forall_cons, ?Forall_nil, !shows_has by discriminate;
  rewrite ?andb_true_iff, ?negb_true_iff, <- ?not_true_iff_false; intuition discriminate.

Lemma plan_settings reply : plan_for reply settings (shProvPlan reply).
Proof.
  unfold shProvPlan. cbv zeta.
  queue_step 0%nat. queue_step 1%nat. queue_step 2%nat. queue_step 3%nat. queue_step 4%nat. queue_step 5%nat. queue_step 6%nat.
  rewrite <- !app_assoc. cbn [app]. do 6 (apply plan_cons; [reflexivity | to_make_tac |]).
  rewrite <- (app_nil_r (if negb _ then _ else _)). apply plan_cons; [reflexivity | to_make_tac | constructor].
Qed.

Lemma cmd_frames plan : Forall (fun c => alen c <= 39) plan -> cmd_frame <$> plan = (fun cmd => cmd ++ [13; 10]) <$> plan.
Proof.
  induction 1 as [| c plan Hc _ IH]; [done |]. cbn. f_equal; [| exact IH]. unfold cmd_frame. rewrite take_ge; [done |].
  unfold alen in Hc. lia.
Qed.

(** [C16] Provisioning sends exactly what the module's reply does not show.
    With the stream open, a transmit stream that takes every frame
    ([SinkAccepts]) and a module that says nothing more, the timeouts from
    the reply on send the command of each setting of [settings] that the
    reply does not show (the PAN identifier only if it mentions a border
    router), each once, in that order and in a frame of its own, then "save",
    then "svrst", and the link waits for the reset with provisioning done.
    If every setting is shown, the timeout sends the first AT command
    instead. *)
Theorem provision_sends w :
  ENABLE_WISUN_UART = true -> ENABLE_WISUN_LINK_CHECK = true ->
  sh_uart_sink (w_uart w) = true -> sh_wisun_step (w_uart w) = SH_STEP_PROV_READ ->
  exists plan, plan_for (sh_rx_asm (w_uart w)) settings plan /\
  (plan <> [] ->
   let w' := run (link_run (replicate (length plan + 2) LinkTimeout)) w in
   sent_log w' = rev ((fun cmd => cmd ++ [13; 10]) <$> plan ++ [chars "save"; chars "svrst"]) ++ sent_log w /\
   sh_wisun_step (w_uart w') = SH_STEP_RESET /\ sh_prov_done (w_uart w') = 1 /\ ws_reset_seen (sh_wisun (w_uart w')) = false) /\
  (plan = [] ->
   let w' := run shWisunOnTimeout w in
   sent_log w' = (chars "version" ++ [13; 10]) :: sent_log w /\ sh_wisun_step (w_uart w') = SH_STEP_CMD /\
   sh_prov_done (w_uart w') = 1).
Proof.
  intros Hu Hc Ho Hs. exists (shProvPlan (sh_rx_asm (w_uart w))). split; [apply plan_settings |].
  destruct (provision_frames w Hu Hc Ho Hs) as [Hp He]. split; [| exact He].
  intros Hn. specialize (Hp Hn). rewrite cmd_frames in Hp; [exact Hp |].
  apply Forall_app_2; [apply plan_ok | repeat constructor; unfold alen; cbn; lia].
Qed.
End provision.

(** * A restart command across chunks *)
Section restart.
Context `{HelmetConfig} `{BoardConfig} `{Platform}.

Definition consume_all (chunks : list (list Z)) : IO unit := for_each chunks shUartConsume.

(** The line that is being assembled. *)
Definition rx_line (w : World) : list Z := sh_rx_line (w_uart w).

Lemma line_vit f : keeps rx_line (vit_call f).
Proof. keeps_tac. Qed.

Lemma line_note data : keeps rx_line (shWisunNoteRx data).
Proof.
  unfold shWisunNoteRx, note_status, note_send_fail, note_send_ok, vitals_restart, SmartHelmet_UartRejoin, set_offline,
    SmartHelmet_ReportStop, leave_to, shWisunSendProbe, shWisunArm. keeps_tac.
Qed.

Definition plain_char (c : Z) : Prop := c <> 10 /\ c <> 13.

(** A character is appended while there is room. *)
Lemma byte_appends b w : plain_char b -> alen (rx_line w) < 96 -> rx_line (run (rx_byte b) w) = rx_line w ++ [b].
Proof.
  intros [H1' H2'] Hl. unfold rx_byte. destruct (Z.eqb_spec b 10); [done |]. destruct (Z.eqb_spec b 13); [done |].
  rewrite !run_bind, eval_uart_get, run_uart_get. unfold rx_line in *.
  destruct (Z.leb_spec 96 (alen (sh_rx_line (w_uart w)))); [lia |]. done.
Qed.

Lemma push_appends l w : Forall plain_char l -> alen (rx_line w ++ l) <= 96 -> rx_line (run (shRxLinePush l) w) = rx_line w ++ l.
Proof.
  unfold shRxLinePush. intros Hl. revert w. induction Hl as [| b l Hb Hl IH]; intros w Ha; [by rewrite app_nil_r |].
  cbn [for_each]. rewrite run_bind. assert (alen (rx_line w) < 96) by (unfold alen in *; rewrite length_app in Ha; cbn in Ha; lia).
  pose proof (byte_appends b w Hb ltac:(done)) as E. rewrite IH, E; rewrite ?E, <- ?app_assoc; done.
Qed.

Lemma consume_appends l w : Forall plain_char l -> alen (rx_line w ++ l) <= 96 -> rx_line (run (shUartConsume l) w) = rx_line w ++ l.
Proof.
  intros Hl Ha. unfold shUartConsume. rewrite !run_bind. cbv beta.
  set (v := run (shWisunNoteRx l) _). assert (rx_line v = rx_line w) as Ev by (subst v; rewrite (run_keeps rx_line) by apply line_note; done).
  clearbody v. match goal with |- rx_line (run ?m ?x) = _ => rewrite (run_keeps rx_line m) end.
  2:{ unfold shResetNoteBanner, shAsmHas, shWisunArm. keeps_tac. }
  rewrite run_uart_get. rewrite (run_keeps rx_line) by keeps_tac. rewrite run_uart_get, push_appends; by rewrite ?Ev.
Qed.

(** The restart is noted, and the engine was started afresh. *)
Definition restarted (w : World) : Prop :=
  sh_restart_seen (w_uart w) = true /\ (ENABLE_VITALS_PROXY = true -> exists v, w_vit w = SmartHelmet_VitalsInit v).

Lemma restarted_frame {A} (m : IO A) : keeps (fun w => sh_restart_seen (w_uart w)) m -> keeps w_vit m -> inv restarted m.
Proof. intros H1' H2' w. unfold restarted. by rewrite H1', H2'. Qed.

Lemma restart_done : leads (fun _ => True) restarted vitals_restart.
Proof.
  intros w _. fold (run vitals_restart w). unfold vitals_restart. rewrite run_bind. split.
  - rewrite (run_keeps (fun w => sh_restart_seen (w_uart w))) by keeps_tac. done.
  - intros Hp. rewrite vit_call_vit, Hp. by eexists.
Qed.

(** The line feed that ends the line. *)
Lemma feed_restarts w : shContainsFold (rx_line w) (chars "RESTART_SENSOR") = true -> restarted (run (rx_byte 10) w).
Proof.
  intros Hc. unfold rx_byte. cbn [Z.eqb Pos.eqb]. rewrite !run_bind, eval_uart_get, run_uart_get. unfold rx_line in Hc.
  rewrite Hc. cbn [when]. set (v := run vitals_restart w). assert (restarted v) as Hv by by apply restart_done.
  clearbody v. revert v Hv.
  change (inv restarted shRxLineFlush). apply restarted_frame; unfold shRxLineFlush, shOnCmdTooLong, SmartHelmet_ReportStop,
    leave_to, shWisunSendProbe, shWisunArm; keeps_tac.
Qed.

Lemma consume_empty : inv restarted (shUartConsume []).
Proof.
  assert (shWisunNoteRx [] = mret tt) as En by done. assert (shRxLinePush [] = mret tt) as Ep by done.
  apply restarted_frame; unfold shUartConsume; rewrite En, Ep; unfold shResetNoteBanner, shAsmHas, shWisunArm; keeps_tac.
Qed.

Lemma consume_feed l w : Forall plain_char l -> alen (rx_line w ++ l) <= 96 ->
  shContainsFold (rx_line w ++ l) (chars "RESTART_SENSOR") = true -> restarted (run (shUartConsume (l ++ [10])) w).
Proof.
  intros Hl Ha Hc. unfold shUartConsume. rewrite !run_bind. cbv beta.
  set (v := run (shWisunNoteRx _) _).
  assert (rx_line v = rx_line w) as Ev by (subst v; rewrite (run_keeps rx_line) by apply line_note; done).
  clearbody v. unfold shRxLinePush.
  assert (run (for_each (l ++ [10]) rx_byte) v = run (rx_byte 10) (run (shRxLinePush l) v)) as ->.
  { unfold shRxLinePush. clear. revert v. induction l as [| b l IH]; intros v; [done |]. cbn [app for_each]. rewrite !run_bind. apply IH. }
  assert (restarted (run (rx_byte 10) (run (shRxLinePush l) v))) as Hr by (apply feed_restarts; rewrite push_appends; by rewrite ?Ev).
  revert Hr. generalize (run (rx_byte 10) (run (shRxLinePush l) v)). clear. intros v Hr.
  match goal with |- restarted (run ?m ?x) => assert (inv restarted m) as Hk end.
  { apply restarted_frame; unfold shResetNoteBanner, shAsmHas, shWisunArm; keeps_tac. }
  apply Hk. rewrite run_uart_get.
  match goal with |- restarted (run ?m ?x) => assert (inv restarted m) as Hk2 by (apply restarted_frame; keeps_tac) end.
  by apply Hk2.
Qed.

(** [C15] A restart command of the border router is obeyed however the
    stream cuts it: when a line of at most 96 characters that contains
    RESTART_SENSOR arrives in any chunks, at the end the restart is noted for
    the next report and the vitals engine has been started afresh. *)
Theorem restart_across_chunks chunks l w :
  Forall plain_char l -> alen l <= 96 -> shContainsFold l (chars "RESTART_SENSOR") = true ->
  rx_line w = [] -> concat chunks = l ++ [10] ->
  restarted (run (consume_all chunks) w).
Proof.
  intros Hl Ha Hc Hw Hk.
  assert (forall cs p s v, Forall plain_char (p ++ s) -> alen (p ++ s) <= 96 ->
    shContainsFold (p ++ s) (chars "RESTART_SENSOR") = true -> rx_line v = p -> concat cs = s ++ [10] ->
    restarted (run (consume_all cs) v)) as Hgen; [| by apply (Hgen chunks [] l)].
  clear. induction cs as [| c cs IH]; intros p s v Hl Ha Hc Hv Hk; [by destruct s |].
  cbn [concat] in Hk. unfold consume_all. cbn [for_each]. rewrite run_bind. fold (consume_all cs).
  apply Forall_app in Hl as [Hp Hs]. destruct (decide (length c <= length s)%nat) as [Hle | Hgt].
  - assert (exists t, s = c ++ t) as [t ->].
    { exists (drop (length c) s). apply (f_equal (take (length c))) in Hk. rewrite take_app_length, take_app_le in Hk by done.
      rewrite Hk at 1. by rewrite take_drop. }
    rewrite <- app_assoc in Hk. apply app_inv_head in Hk. apply Forall_app in Hs as [Hcc Ht].
    apply (IH (p ++ c) t); [rewrite <- app_assoc; by repeat apply Forall_app_2 | by rewrite <- app_assoc | by rewrite <- app_assoc | | done].
    rewrite consume_appends; [by rewrite Hv | done |]. rewrite Hv. unfold alen in *. rewrite !length_app in *. lia.
  - assert (c = s ++ [10] /\ concat cs = []) as [-> Hn].
    { assert (length (concat cs) = 0%nat) as Hz by (apply (f_equal length) in Hk; rewrite !length_app in Hk; cbn in Hk; lia).
      apply nil_length_inv in Hz. rewrite Hz, app_nil_r in Hk. done. }
    assert (restarted (run (shUartConsume (s ++ [10])) v)) as Hr by (apply consume_feed; by rewrite ?Hv).
    revert Hr Hn. generalize (run (shUartConsume (s ++ [10])) v). clear. induction cs as [| c cs IH]; intros v Hr Hn; [done |].
    cbn [concat] in Hn. apply app_eq_nil in Hn as [-> Hn]. unfold consume_all. cbn [for_each]. rewrite run_bind.
    apply IH; [by apply consume_empty | done].
Qed.
End restart.

(** * The drain of the stream *)

(** A receive stream: [buffered] bytes that a boundary splits, that can be
    mapped and dropped from the front; no other call of the module, and none
    of the time that the drain takes, changes them. *)
Class SourceLaws `{Platform} := {
  buffered : Env -> list Z;
  boundary_range : forall e, 0 <= fst (serve SourceBoundary e) <= alen (buffered e);
  source_size : forall e, fst (serve SourceSize e) = alen (buffered e);
  source_map : forall n e, 0 < n <= alen (buffered e) ->
    fst (serve (SourceMap n) e) = Some (take (Z.to_nat n) (buffered e));
  source_drop : forall n e, 0 < n <= alen (buffered e) ->
    buffered (snd (serve (SourceDrop n) e)) = drop (Z.to_nat n) (buffered e);
  source_other : forall q e, (match q with SourceDrop _ => False | _ => True end) ->
    buffered (snd (serve q e)) = buffered e;
}.

(** Looking at the stream: nothing of the firmware changes, and the only calls
    are for the size of what has arrived and for its address. *)
Definition looks (q : Req) : Prop := match q with SourceBoundary | SourceSize | SourceMap _ => True | _ => False end.
Definition statics `{Platform} (w : World) := (w_vit w, w_i2c w, w_adc w, w_sens w, w_uart w, w_hel w).
Definition looked `{Platform} (w w' : World) : Prop :=
  statics w' = statics w /\ exists cs, w_trace w' = cs ++ w_trace w /\ Forall (fun c => looks (c_req c)) cs.

(** From [w] to [w'] the pieces are handed over one after the other: each to
    shUartConsume, once, and then dropped from the stream with its length. *)
Inductive handed `{HelmetConfig} `{BoardConfig} `{Platform} : list (list Z) -> World -> World -> Prop :=
| handed_end w w' : looked w w' -> handed [] w w'
| handed_piece d ds w w1 w' : looked w w1 ->
    handed ds (run (call (SourceDrop (alen d))) (run (shUartConsume d) w1)) w' -> handed (d :: ds) w w'.

Section drain.
Context `{HelmetConfig} `{BoardConfig} `{SourceLaws}.

Definition left_in (w : World) : list Z := buffered (w_env w).

Lemma left_call q : plain q = true -> keeps left_in (call q).
Proof. intros Hq w. unfold left_in. cbn. apply source_other. by destruct q. Qed.

Lemma left_timer q : not_timer q = false -> keeps left_in (call q).
Proof. intros Hq w. unfold left_in. cbn. apply source_other. by destruct q. Qed.

Lemma left_call_inv q x : plain q = true -> inv (fun w => left_in w = x) (call q).
Proof. intros Hq w <-. by apply left_call. Qed.
#[local] Hint Resolve left_call_inv : calls.
#[local] Hint Extern 2 (keeps left_in (call _)) => first [apply left_call; reflexivity | apply left_timer; reflexivity] : keeps.

Lemma left_consume data : keeps left_in (shUartConsume data).
Proof.
  unfold shUartConsume, asm_add, shWisunNoteRx, shRxLinePush, rx_byte, shRxLineFlush, vitals_restart,
    note_send_fail, note_send_ok, shOnCmdTooLong, SmartHelmet_UartRejoin, set_offline, SmartHelmet_ReportStop, leave_to,
    shWisunSendProbe, note_status, shResetNoteBanner, shAsmHas, shWisunArm.
  keeps_tac.
Qed.

Lemma looked_refl w : looked w w.
Proof. split; [done |]. by exists []. Qed.

Lemma looked_trans a b c : looked a b -> looked b c -> looked a c.
Proof.
  intros [E1 (cs1 & T1 & F1)] [E2 (cs2 & T2 & F2)]. split; [congruence |]. exists (cs2 ++ cs1).
  split; [by rewrite T2, T1, app_assoc | by apply Forall_app].
Qed.

Lemma looked_call q w : looks q -> looked w (snd (call q w)).
Proof. intros Hq. split; [done |]. exists [mkcall q (fst (serve q (w_env w)))]. split; [done | by repeat constructor]. Qed.

Lemma handed_looked w w1 ds w' : looked w w1 -> handed ds w1 w' -> handed ds w w'.
Proof.
  intros Hl Hh. inversion Hh; subst; [constructor | econstructor; [| eassumption]]; by eapply looked_trans.
Qed.

Lemma eval_call_bind {A} q (k : Resp q -> IO A) w :
  eval (call q ≫= k) w = eval (k (fst (serve q (w_env w)))) (snd (call q w)).
Proof. done. Qed.

(** Reading the size changes nothing that is read again. *)
Lemma turn_size w :
  let m := size ← call SourceBoundary; if size =? 0 then call SourceSize else mret size in
  0 <= eval m w <= alen (left_in w) /\ (eval m w = 0 -> left_in w = []) /\ looked w (run m w) /\ left_in (run m w) = left_in w.
Proof.
  cbv zeta. rewrite (eval_call_bind SourceBoundary).
  pose proof (boundary_range (w_env w)) as Hb. fold (left_in w) in Hb.
  assert (left_in (snd (call SourceBoundary w)) = left_in w) as E1 by exact (left_call SourceBoundary eq_refl w).
  split; [| split; [| split]].
  - destruct (Z.eqb_spec (fst (serve SourceBoundary (w_env w))) 0); [| exact Hb].
    change (0 <= fst (serve SourceSize (w_env (snd (call SourceBoundary w)))) <= alen (left_in w)).
    rewrite source_size. fold (left_in (snd (call SourceBoundary w))). rewrite E1. unfold alen. lia.
  - destruct (Z.eqb_spec (fst (serve SourceBoundary (w_env w))) 0); [| done].
    change (fst (serve SourceSize (w_env (snd (call SourceBoundary w)))) = 0 -> left_in w = []).
    rewrite source_size. fold (left_in (snd (call SourceBoundary w))). rewrite E1. unfold alen. intros Hz.
    by apply nil_length_inv; lia.
  - rewrite (run_call_bind SourceBoundary). apply looked_trans with (snd (call SourceBoundary w)); [by apply looked_call |].
    destruct (_ =? 0); [by apply looked_call | apply looked_refl].
  - match goal with |- left_in (run ?m w) = _ => apply (run_keeps left_in m w) end. keeps_tac.
Qed.

(** The rest of a turn, once the size is known. *)
Definition turn_rest (size : Z) : IO bool :=
  if size =? 0 then mret false else
  ptr ← call (SourceMap size);
  match (ptr : option (list Z)) with Some data => shUartConsume data | None => mret tt end;;
  call (SourceDrop size);;
  mret true.

Lemma drain_turn_eq : drain_turn =
  ((size ← call SourceBoundary; if size =? 0 then call SourceSize else mret size) ≫= turn_rest).
Proof. done. Qed.

Lemma turn_rest_reads size w : 0 < size <= alen (left_in w) ->
  let d := take (Z.to_nat size) (left_in w) in
  eval (turn_rest size) w = true /\ left_in (run (turn_rest size) w) = drop (Z.to_nat size) (left_in w) /\
  exists w1, looked w w1 /\ run (turn_rest size) w = run (call (SourceDrop (alen d))) (run (shUartConsume d) w1).
Proof.
  intros Hs d. assert (alen d = size) as Hd by (unfold d, alen in *; rewrite length_take; lia).
  unfold turn_rest. destruct (Z.eqb_spec size 0); [lia |].
  rewrite (eval_call_bind (SourceMap size)), (run_call_bind (SourceMap size)), (source_map size (w_env w)) by exact Hs.
  fold (left_in w). fold d. split; [done |]. set (w1 := snd (call (SourceMap size) w)).
  assert (left_in w1 = left_in w) as E1 by (unfold left_in; cbn; by apply (source_other (SourceMap size))).
  assert (looked w w1) as L1 by (by apply looked_call). clearbody w1. split.
  - rewrite run_bind. pose proof (left_consume d w1) as E2. fold (run (shUartConsume d) w1) in E2. rewrite E1 in E2.
    set (w2 := run (shUartConsume d) w1) in *. clearbody w2. rewrite (run_call_bind (SourceDrop size)), run_ret.
    unfold left_in in *. cbn. etransitivity; [apply (source_drop size (w_env w2)); rewrite E2; exact Hs | by rewrite E2].
  - exists w1. split; [exact L1 |]. rewrite run_bind, (run_call_bind (SourceDrop size)), run_ret, Hd. done.
Qed.

(** One turn hands over and drops a non-empty piece, or finds the stream
    empty. *)
Lemma drain_turn_reads w :
  (left_in w = [] /\ eval drain_turn w = false /\ looked w (run drain_turn w) /\ left_in (run drain_turn w) = []) \/
  exists d w1, d <> [] /\ eval drain_turn w = true /\ left_in w = d ++ left_in (run drain_turn w) /\ looked w w1 /\
    run drain_turn w = run (call (SourceDrop (alen d))) (run (shUartConsume d) w1).
Proof.
  rewrite drain_turn_eq. pose proof (turn_size w) as Hm. cbv zeta in Hm. revert Hm.
  set (m := size ← call SourceBoundary; if size =? 0 then call SourceSize else mret size).
  change (eval (m ≫= turn_rest) w) with (eval (turn_rest (eval m w)) (run m w)).
  change (run (m ≫= turn_rest) w) with (run (turn_rest (eval m w)) (run m w)).
  clearbody m. intros (Hr & Hz & Hl & Hs). set (size := eval m w) in *. set (w1 := run m w) in *. clearbody size w1.
  destruct (Z.eq_dec size 0) as [-> | Hne]; [left | right].
  - split; [by apply Hz |]. split; [done |]. split; [exact Hl |]. rewrite <- (Hz eq_refl). exact Hs.
  - destruct (turn_rest_reads size w1) as (G1 & G2 & w2 & L2 & G3); [rewrite Hs; lia |].
    exists (take (Z.to_nat size) (left_in w1)), w2. split.
    { intros E. apply (f_equal length) in E. rewrite length_take, Hs in E. unfold alen in Hr. cbn in E. lia. }
    split; [exact G1 |]. rewrite G2, take_drop. split; [by rewrite Hs |]. split; [by eapply looked_trans | exact G3].
Qed.

Lemma drain_all n w : (length (left_in w) < n)%nat ->
  exists ds, Forall (fun d => d <> []) ds /\ concat ds = left_in w /\ handed ds w (run (repeat_m n drain_turn) w) /\
    left_in (run (repeat_m n drain_turn) w) = [].
Proof.
  revert w. induction n as [| n IH]; intros w Hn; [lia |]. cbn [repeat_m].
  change (run (x ← drain_turn; if (x : bool) then repeat_m n drain_turn else mret tt) w)
    with (run (if eval drain_turn w then repeat_m n drain_turn else mret tt) (run drain_turn w)).
  destruct (drain_turn_reads w) as [(Hz & -> & Hl & Hs) | (d & w1 & Hd & -> & Hs & Hl & Hr)].
  - exists []. rewrite run_ret, Hz. split; [constructor |]. split; [done |]. split; [by constructor | exact Hs].
  - destruct (IH (run drain_turn w)) as (ds & G1 & G2 & G3 & G4).
    { rewrite Hs, length_app in Hn. destruct d; [done |]. cbn in Hn. lia. }
    exists (d :: ds). split; [by constructor |]. cbn [concat]. rewrite G2, <- Hs. split; [done |]. split; [| exact G4].
    apply handed_piece with w1; [exact Hl |]. rewrite <- Hr. exact G3.
Qed.

(** [C14] The drain ends and loses nothing: what the stream holds (fewer than
    65536 bytes) is split into pieces, and each piece, in order, is handed to
    shUartConsume exactly once and then dropped from the stream with its
    length; nothing else changes the firmware, and the stream is empty after
    it. *)
Theorem drain_delivers w :
  sh_uart_source (w_uart w) = true -> alen (buffered (w_env w)) < 65536 ->
  exists pieces, Forall (fun d => d <> []) pieces /\ concat pieces = buffered (w_env w) /\
    handed pieces w (run shUartDrain w) /\ buffered (w_env (run shUartDrain w)) = [].
Proof.
  intros Ho Hl.
  assert (forall n, run (repeat_m n drain_turn) w = run (src ← uart_get sh_uart_source; if negb src then mret tt else repeat_m n drain_turn) w) as E
    by (intros n; by rewrite run_bind, eval_uart_get, run_uart_get, Ho).
  unfold shUartDrain. rewrite <- E. clear E.
  assert (length (left_in w) < Z.to_nat 65536)%nat as Hn by (unfold left_in, alen in *; lia). revert Hn.
  generalize (Z.to_nat 65536). intros n Hn. exact (drain_all n w Hn).
Qed.
End drain.

(** * On the bench *)

(** The receive stream of any platform replaced by a queue of bytes, with a
    boundary after every four. *)
Section piped.
Context (P : Platform).

Definition piped_serve (q : Req) (e : Env * list Z) : Resp q * (Env * list Z) :=
  match q as q return Resp q * (Env * list Z) with
  | SourceBoundary => (Z.min 4 (alen (snd e)), e)
  | SourceSize => (alen (snd e), e)
  | SourceMap n => (Some (take (Z.to_nat n) (snd e)), e)
  | SourceDrop n => (tt, (fst e, drop (Z.to_nat n) (snd e)))
  | q => let r := serve q (fst e) in (fst r, (snd r, snd e))
  end.

Definition piped : Platform := {| Env := Env * list Z; serve := piped_serve |}.

#[global] Instance piped_laws : SourceLaws (H := piped).
Proof.
  refine (Build_SourceLaws piped (fun e : Env * list Z => snd e) _ _ _ _ _); cbn.
  - intros e. unfold alen. lia.
  - done.
  - done.
  - done.
  - intros q e Hq. by destruct q.
Defined.
End piped.

#[export] Instance bench_accepts : SinkAccepts (H := bench).
Proof. constructor; done. Qed.

Section example.
#[local] Existing Instances bench shipped shipped_board.

Definition first_world : World := world_start (mkbench [] [] 0).

(** A link check that nobody answers. *)
Definition checking : World := run SmartHelmet_UartStartVerify first_world.

(** The module says "send ok" in between, which does not end the reset. *)
Definition check_events : list LinkEvent := LinkTimeout :: LinkData (chars "send ok") :: replicate 40 LinkTimeout.

Lemma link_settles_witness :
  exists es1 es2, check_events = es1 ++ es2 /\ ended (run (link_run es1) checking) (head es2).
Proof.
  apply (link_settles check_events checking); [done | done | vm_compute; discriminate | | vm_compute; discriminate].
  apply linked_start_verify, linked_start.
Defined.

(** A module that shows all but the power and the port. *)
Definition reply : list Z := chars "netname SmartHelmetWisun domain=1 rate=50kbps cca -83".
Definition asked : World :=
  first_world <| w_uart ::= (fun u => u <| sh_uart_sink := true |> <| sh_wisun_step := SH_STEP_PROV_READ |> <| sh_rx_asm := reply |>) |>.

Lemma provision_sends_witness :
  exists plan, plan_for reply settings plan /\
  (plan <> [] ->
   let w' := run (link_run (replicate (length plan + 2) LinkTimeout)) asked in
   sent_log w' = rev ((fun cmd => cmd ++ [13; 10]) <$> plan ++ [chars "save"; chars "svrst"]) ++ [] /\
   sh_wisun_step (w_uart w') = SH_STEP_RESET /\ sh_prov_done (w_uart w') = 1 /\ ws_reset_seen (sh_wisun (w_uart w')) = false) /\
  (plan = [] ->
   let w' := run shWisunOnTimeout asked in
   sent_log w' = (chars "version" ++ [13; 10]) :: [] /\ sh_wisun_step (w_uart w') = SH_STEP_CMD /\ sh_prov_done (w_uart w') = 1).
Proof. exact (@provision_sends shipped shipped_board bench bench_accepts asked eq_refl eq_refl eq_refl eq_refl). Defined.

(** Its plan has two commands. *)
Lemma asked_plan : plan_for reply settings [chars "txpower 20"; chars "udpopts udp_port 4321"].
Proof. exact (plan_settings reply). Qed.

Lemma restart_across_chunks_witness :
  restarted (run (consume_all [chars "cmd RESTART_S"; chars "ENSOR"; [10]]) first_world).
Proof.
  apply (restart_across_chunks _ (chars "cmd RESTART_SENSOR")); [| vm_compute; discriminate | vm_compute; reflexivity | reflexivity | vm_compute; reflexivity].
  repeat constructor; discriminate.
Defined.
End example.

Section example_drain.
#[local] Existing Instances shipped shipped_board.
#[local] Instance piped_bench : Platform := piped bench.

Definition filled : World :=
  (world_start ((mkbench [] [] 0, chars "net role:2") : Env)) <| w_uart ::= (fun u => u <| sh_uart_source := true |>) |>.

Lemma drain_delivers_witness :
  exists pieces, Forall (fun d => d <> []) pieces /\ concat pieces = chars "net role:2" /\
    handed pieces filled (run shUartDrain filled) /\ buffered (SourceLaws := piped_laws bench) (w_env (run shUartDrain filled)) = [].
Proof. apply (@drain_delivers shipped shipped_board piped_bench (piped_laws bench) filled eq_refl). vm_compute. reflexivity. Defined.
End example_drain.

(** * What the examples show

    A late "send ok" during a rejoin, and the limit on rejoins. *)
Section example_findings.
#[local] Existing Instances shipped shipped_board.
#[local] Instance timed_bench : Platform := timed bench.

Definition at_clock (us : Z) (w : World) : World := w <| w_env := ((mkbench [] [] us, snd (w_env w : bench_env * list MsgId)) : Env) |>.

(** In passthrough, with the report timer running. *)
Definition reporting : World :=
  run SmartHelmet_ReportStart
    ((world_start ((mkbench [] [] 0, []) : Env)) <| w_uart ::= (fun u =>
      u <| sh_uart_task := true |> <| sh_uart_sink := true |> <| sh_wisun_step := SH_STEP_DONE |> <| sh_passthrough := true |>) |>).

Definition late_ok : World :=
  run (shUartConsume (chars "send ok" ++ [13; 10])) (run SmartHelmet_UartRejoin (at_clock 5000000 reporting)).

(** The rejoin has cancelled the report and told the module to leave
    passthrough; a "send ok" that was still on its way makes the link think
    that it is in passthrough, and nothing sets the report timer again. *)
Lemma late_ok_stops_reports :
  due_in REPORT_TICK reporting = 1%nat /\
  let w := run (smartHelmetTaskHandler (MsgTimer WISUN_LINK_CHECK)) (fired WISUN_LINK_CHECK late_ok) in
  sent_log w = [chars "exit" ++ [13; 10]] /\ sh_passthrough (w_uart w) = true /\ at_rest (sh_wisun_step (w_uart w)) /\
  due_in REPORT_TICK w = 0%nat /\ due_in WISUN_LINK_CHECK w = 0%nat.
Proof. vm_compute. split; [done |]. split_and!; try done. by left. Qed.

(** The microsecond clock wraps after 71 minutes, at 4294967 ms, and the
    millisecond difference of the limit does not wrap with it: 8 seconds
    after a rejoin the next one goes through, not 60. *)
Definition rejoined : World := run SmartHelmet_UartRejoin (at_clock 4290000000 reporting).
Definition back : World := rejoined <| w_uart ::= (fun u => u <| sh_wisun_step := SH_STEP_DONE |> <| sh_passthrough := true |>) |>.

Lemma rejoin_clock_wraps :
  sh_wisun_step (w_uart (run SmartHelmet_UartRejoin (at_clock (4290000000 + 4000000) back))) = SH_STEP_DONE /\
  sh_wisun_step (w_uart (run SmartHelmet_UartRejoin (at_clock (4290000000 + 8000000) back))) = SH_STEP_LEAVE.
Proof. vm_compute. done. Qed.
End example_findings.
