(* ===== verification/SensorsSpec.v ===== *)
(** What the sensor drivers promise: exact conversions in range, a wait that
    lasts for the conversion, panel data in order and in pieces, and a
    bring-up that ends. *)
From S2P Require Import Prelude Config Decimal Telemetry Vitals Board Platform World Timers Stream I2c Display Sensors.

(** * Conversions *)
Section conversions.
Context `{BoardConfig}.

(** The two registers of a 10-bit acceleration [v], left-justified. *)
Definition lis3dh_bytes (v : Z) : Z * Z := let w := (64 * v) mod 65536 in (w mod 256, w / 256).

Lemma lis3dh_exact v : -512 <= v < 512 ->
  shLis3dhRawToMg (fst (lis3dh_bytes v)) (snd (lis3dh_bytes v)) = v * LIS3DH_MG_PER_LSB.
Proof.
  intros Hv. unfold shLis3dhRawToMg, lis3dh_bytes. cbn [fst snd].
  set (u := (64 * v) mod 65536). assert (0 <= u < 65536) as Hu by (subst u; apply Z.mod_pos_bound; lia).
  assert (Z.lor (Z.shiftl (u / 256) 8) (u mod 256) = u) as ->.
  { rewrite Z.lor_comm. pose proof (Z.add_lor_land (u mod 256) (Z.shiftl (u / 256) 8)) as Ha.
    assert (Z.land (u mod 256) (Z.shiftl (u / 256) 8) = 0) as E.
    { apply Z.bits_inj'. intros n Hn. rewrite Z.land_spec, Z.bits_0. destruct (Z.ltb_spec n 8).
      - rewrite Z.shiftl_spec_low by lia. apply andb_false_r.
      - change 256 with (2 ^ 8). rewrite Z.mod_pow2_bits_high by lia. done. }
    rewrite E, Z.shiftl_mul_pow2 in * by lia. change (2 ^ 8) with 256 in *. pose proof (Z.div_mod u 256). lia. }
  rewrite u16_small by rlia.
  assert (i16 u = 64 * v) as ->.
  { subst u. unfold i16. destruct (Z.ltb_spec v 0).
    - replace ((64 * v) mod 65536) with (64 * v + 65536) by (rewrite <- (Z.mod_add _ 1) by lia; rewrite Z.mod_small by lia; lia).
      replace (64 * v + 65536 + 32768) with (64 * v + 32768 + 1 * 65536) by lia. rewrite Z.mod_add, Z.mod_small by lia. lia.
    - rewrite (Z.mod_small (64 * v)) by lia. rewrite Z.mod_small by lia. lia. }
  rewrite (Z.mul_comm 64), Z.quot_mul by lia. apply i16_small. unfold LIS3DH_MG_PER_LSB.
  repeat destruct (_ =? _); rlia.
Qed.

(** The conversions lose nothing but the resolution of the parts and
    never overflow on what the parts can deliver: a 10-bit acceleration gives
    its value times the milli-g per digit at every full scale; temperature
    and humidity of the HDC1080 are the floor of the data sheet's formula in
    hundredths, inside -40.00 to 125 degrees and 0 to 100 percent, for every
    register value; and the MLX90614 reading is exact up to 327.67 degrees. *)
Theorem conversions_exact :
  (forall v, -512 <= v < 512 ->
     shLis3dhRawToMg (fst (lis3dh_bytes v)) (snd (lis3dh_bytes v)) = v * LIS3DH_MG_PER_LSB) /\
  (forall raw, is_u16 raw ->
     hdc_temp raw = (raw * 16500) / 65536 - 4000 /\ -4000 <= hdc_temp raw < 12500 /\
     hdc_humidity raw = (raw * 10000) / 65536 /\ 0 <= hdc_humidity raw < 10000) /\
  (forall raw, 0 <= raw <= 30041 -> shMlxRawToCentiC raw = 2 * raw - 27315).
Proof.
  split; [apply lis3dh_exact |]. split.
  - intros raw Hr. assert (0 <= raw < 65536) as Hb by rlia.
    assert (0 <= raw * 16500 / 65536 < 16500) by (split; [apply Z.div_pos | apply Z.div_lt_upper_bound]; lia).
    assert (0 <= raw * 10000 / 65536 < 10000) by (split; [apply Z.div_pos | apply Z.div_lt_upper_bound]; lia).
    assert (hdc_temp raw = (raw * 16500) / 65536 - 4000) as Et
      by (unfold hdc_temp; rewrite Z.quot_div_nonneg by lia; apply i16_small; rlia).
    assert (hdc_humidity raw = (raw * 10000) / 65536) as Eh
      by (unfold hdc_humidity; rewrite (u32_small (raw * 10000)) by rlia; apply u16_small; rlia).
    rewrite Et, Eh. lia.
  - intros raw Hr. unfold shMlxRawToCentiC. rewrite i16_small by rlia. lia.
Qed.

(** Above that the reading wraps: 330 degrees show as -325.36. *)
Lemma mlx_wraps : shMlxRawToCentiC ((33000 + 27315) / 2) = -32537.
Proof. reflexivity. Qed.
End conversions.

(** * The wait for the HDC1080

    The clock of the platform: it counts microseconds, a reading gives the low
    32 bits, and between two readings it advances, by less than 36 minutes. *)
Class ClockLaws `{Platform} := {
  clock : Env -> Z;
  clock_read : forall e, u32 (fst (serve SystemClockGetTimerTime e)) = u32 (clock e);
  clock_step : forall e, clock e < clock (snd (serve SystemClockGetTimerTime e)) < clock e + 2 ^ 31;
}.

Section wait.
Context `{BoardConfig} `{ClockLaws}.

Definition clock_in (w : World) : Z := clock (w_env w).
Definition wait_turn (start : Z) : IO bool :=
  now ← call SystemClockGetTimerTime; mret (u32 (now - start) <? 20000).

Lemma wait_turn_eval c0 start w : u32 start = u32 c0 -> c0 <= clock_in w < c0 + 2 ^ 32 ->
  eval (wait_turn start) w = (clock_in w - c0 <? 20000).
Proof.
  intros Hs Hc. change (eval (wait_turn start) w) with (u32 (fst (serve SystemClockGetTimerTime (w_env w)) - start) <? 20000).
  pose proof (clock_read (w_env w)) as Hr. fold (clock_in w) in Hr. unfold u32 in *.
  rewrite Zminus_mod, Hr, Hs, <- Zminus_mod, Z.mod_small by lia. done.
Qed.

Lemma wait_turns n m c0 start w : u32 start = u32 c0 -> (0 < n)%nat ->
  c0 < clock_in w < c0 + 20000 + 2 ^ 31 -> 20001 <= clock_in w - c0 + Z.of_nat n ->
  repeat_m (n + m) (wait_turn start) w = repeat_m n (wait_turn start) w /\
  c0 + 20000 < clock_in (run (repeat_m n (wait_turn start)) w).
Proof.
  intros Hs. revert w. induction n as [| n IH]; intros w Hn Hc Hf; [lia |].
  pose proof (wait_turn_eval c0 start w Hs ltac:(lia)) as He.
  pose proof (clock_step (w_env w)) as Hstep. fold (clock_in w) in Hstep.
  change (clock (snd (serve SystemClockGetTimerTime (w_env w)))) with (clock_in (snd (wait_turn start w))) in Hstep.
  unfold run in *. unfold eval in He. cbn [repeat_m Nat.add]. unfold mbind, M_bind. rewrite He.
  destruct (Z.ltb_spec (clock_in w - c0) 20000) as [Hlt | Hge].
  - apply IH; lia.
  - cbn [mret M_ret]. split; [done |]. unfold mret, M_ret. cbn [snd]. lia.
Qed.

(** The wait between the command to the HDC1080 and its reading ends, and
    takes the 20 ms of the conversion: the clock has advanced by more, across
    its wrap too, and no further turn of the loop would be taken. *)
Lemma hdc_wait_ends w :
  clock_in w + 20000 < clock_in (run hdc_wait w) /\
  forall m, run hdc_wait w =
    run (start ← call SystemClockGetTimerTime; repeat_m (Z.to_nat 20001 + m) (wait_turn start)) w.
Proof.
  unfold hdc_wait. rewrite run_bind.
  change (fun start => repeat_m (Z.to_nat 20001) (now ← call SystemClockGetTimerTime; mret (u32 (now - start) <? 20000)))
    with (fun start => repeat_m (Z.to_nat 20001) (wait_turn start)).
  set (fuel := Z.to_nat 20001). assert (Z.of_nat fuel = 20001) as Hf by (subst fuel; lia). clearbody fuel.
  pose proof (clock_read (w_env w)) as Hr. fold (clock_in w) in Hr.
  pose proof (clock_step (w_env w)) as Hstep. fold (clock_in w) in Hstep.
  set (start := eval (call SystemClockGetTimerTime) w). set (w1 := run (call SystemClockGetTimerTime) w).
  change (clock (snd (serve SystemClockGetTimerTime (w_env w)))) with (clock_in w1) in Hstep.
  split.
  - apply (wait_turns fuel 0 (clock_in w) start w1 Hr); lia.
  - intros m. destruct (wait_turns fuel m (clock_in w) start w1 Hr) as [E _]; [lia.. |].
    exact (eq_sym (f_equal snd E)).
Qed.
End wait.

(** The clock of the bench, ten milliseconds at each reading. *)
#[export] Instance bench_clock : @ClockLaws bench.
Proof. refine (@Build_ClockLaws bench bench_clock_us _ _); intros e; cbn; [done | lia]. Defined.

(** * Panel data *)
Section panel.
Context `{HelmetConfig} `{BoardConfig} `{Platform}.

(** The pieces of [data], sixteen bytes each but the last. *)
Fixpoint pieces (fuel : nat) (data : list Z) : list (list Z) :=
  match fuel with
  | O => []
  | S fuel => match data with [] => [] | _ => take 16 data :: pieces fuel (drop 16 data) end
  end.

Lemma pieces_spec fuel data : (length data <= fuel)%nat ->
  concat (pieces fuel data) = data /\ Forall (fun p => p <> [] /\ (length p <= 16)%nat) (pieces fuel data).
Proof.
  revert data. induction fuel as [| fuel IH]; intros data Hl; [by destruct data; cbn in Hl; [| lia] |].
  destruct data as [| x data]; [done |].
  assert (length (drop 16 (x :: data)) <= fuel)%nat as Hd by (rewrite length_drop; cbn in *; lia).
  destruct (IH _ Hd) as [E F]. cbn [pieces concat]. rewrite E, take_drop. split; [done |].
  constructor; [| done]. split; [done |]. rewrite length_take. lia.
Qed.

(** The loop from position [i] writes the pieces of what is left. *)
Lemma chunks_from fuel ctrl data i w : alen data < 65520 -> 0 <= i -> (length (drop (Z.to_nat i) data) < fuel)%nat ->
  ssd_chunks fuel ctrl data i w = all_m (pieces (pred fuel) (drop (Z.to_nat i) data)) (fun p => shSsdRaw (ctrl :: p)) w.
Proof.
  intros Hl. revert i w. induction fuel as [| fuel IH]; intros i w Hi Hf; [lia |]. cbn [ssd_chunks pred].
  rewrite length_drop in Hf. unfold alen in *. destruct (Z.ltb_spec i (Z.of_nat (length data))) as [Hlt | Hge].
  - rewrite (u16_small (Z.of_nat (length data) - i)) by rlia.
    assert (exists x l, drop (Z.to_nat i) data = x :: l) as (x & l & E).
    { destruct (drop (Z.to_nat i) data) as [| x l] eqn:E; [| by eauto]. apply (f_equal length) in E. rewrite length_drop in E. cbn in E. lia. }
    destruct fuel as [| fuel]; [lia |]. cbn [pieces]. rewrite E.
    set (chunk := if 16 <? _ then 16 else _).
    assert (0 < chunk <= 16 /\ i + chunk <= Z.of_nat (length data) /\ take (Z.to_nat chunk) (x :: l) = take 16 (x :: l) /\
      drop (Z.to_nat (i + chunk)) data = drop 16 (x :: l)) as (Hc & Hic & Ht & Hd).
    { subst chunk. rewrite <- E, drop_drop. pose proof (length_drop data (Z.to_nat i)) as Hld.
      destruct (Z.ltb_spec 16 (Z.of_nat (length data) - i)).
      - split_and!; try lia; [done |]. f_equal. lia.
      - split_and!; try lia; [| rewrite !drop_ge by lia; done].
        rewrite !take_ge by lia. done. }
    cbn [all_m]. unfold mbind, M_bind. rewrite Ht.
    destruct (negb (fst (shSsdRaw (ctrl :: take 16 (x :: l)) w))); [done |].
    rewrite (u16_small (i + chunk)) by rlia. rewrite IH; [| lia | rewrite length_drop; lia]. cbn [pred]. by rewrite Hd.
  - rewrite drop_ge by lia. by destruct fuel.
Qed.

(** Panel data goes out complete and in order: shSsdData writes the
    control byte and then the bytes in pieces of at most sixteen, up to the
    first transfer that fails; the pieces together are the data.  The same
    holds of a command list. *)
Theorem panel_data_in_order data w : alen data < 65520 ->
  let ps := pieces (length data) data in
  concat ps = data /\ Forall (fun p => p <> [] /\ (length p <= 16)%nat) ps /\
  shSsdData data w = all_m ps (fun p => shSsdRaw (SSD1315_CTRL_DATA :: p)) w /\
  shSsdCmdList data w = all_m ps (fun p => shSsdRaw (SSD1315_CTRL_CMD :: p)) w.
Proof.
  intros Hl ps. destruct (pieces_spec (length data) data (le_n _)) as [E F]. split; [exact E |]. split; [exact F |].
  unfold shSsdData, shSsdCmdList. rewrite !chunks_from by (rewrite ?drop_0; lia). done.
Qed.
End panel.

(** * The bring-up *)
Section bring_up.
Context `{HelmetConfig} `{BoardConfig} `{TimerLaws}.

Definition sdata (w : World) : smart_helmet_sensor_data_t := sh_sensors (w_sens w).

(** Nothing that was up is lost. *)
Definition none_lost (s s' : smart_helmet_sensor_data_t) : Prop :=
  (ccs811_ok s = true -> ccs811_ok s' = true) /\ (hdc1080_ok s = true -> hdc1080_ok s' = true) /\
  (lis3dh_ok s = true -> lis3dh_ok s' = true) /\ (mlx90614_ok s = true -> mlx90614_ok s' = true) /\
  (ssd1315_ok s = true -> ssd1315_ok s' = true).

Lemma none_lost_refl s : none_lost s s.
Proof. by split_and!. Qed.

Lemma none_lost_trans s s' s'' : none_lost s s' -> none_lost s' s'' -> none_lost s s''.
Proof. unfold none_lost. tauto. Qed.

(** In a pass, number [n], that began with [s0]. *)
Record passing (s0 : smart_helmet_sensor_data_t) (n : Z) (w : World) : Prop := {
  ps_task : sh_probe_task (w_sens w) = true;
  ps_try : sh_probe_try (w_sens w) = n;
  ps_up : none_lost s0 (sdata w) }.

Lemma passing_frame {A} s0 n (m : IO A) :
  keeps (fun w => (sh_probe_task (w_sens w), sh_probe_try (w_sens w), sdata w)) m -> inv (passing s0 n) m.
Proof.
  intros Hm w [Ht Hn Hu]. specialize (Hm w). unfold sdata in *.
  constructor; unfold sdata; [rewrite <- Ht | rewrite <- Hn | assert (sh_sensors (w_sens (snd (m w))) = sh_sensors (w_sens w)) as -> by exact (f_equal snd Hm); done];
    [exact (f_equal (fun x => fst (fst x)) Hm) | exact (f_equal (fun x => snd (fst x)) Hm)].
Qed.

Lemma passing_data s0 n f : (forall s, none_lost s0 s -> none_lost s0 (f s)) -> inv (passing s0 n) (data_do f).
Proof. intros Hf w [Ht Hn Hu]. constructor; [done | done |]. by apply Hf. Qed.

(** A device that is up is left alone; the others are tried. *)
Lemma passing_retry s0 n en (ok : smart_helmet_sensor_data_t -> bool) up :
  (forall s, none_lost s0 s -> ok s0 = true -> ok s = true) -> (ok s0 = false -> inv (passing s0 n) up) ->
  inv (passing s0 n) (retry en ok up).
Proof.
  intros Hok Hup. unfold retry. apply inv_when. apply inv_read. intros w Hw.
  destruct (ok (sh_sensors (w_sens w))) eqn:E; [done |]. cbn [negb when]. apply Hup; [| done].
  destruct (ok s0) eqn:E0; [| done]. rewrite <- E. symmetry. apply Hok; [apply (ps_up _ _ _ Hw) | done].
Qed.

Ltac passing_up s0 n :=
  repeat first [apply passing_data; unfold none_lost; cbn; intuition congruence
               | apply passing_frame; solve [keeps_tac]
               | keeps_step].

Lemma pass_devices s0 n : inv (passing s0 n) (
  retry ENABLE_CCS811 ccs811_ok bring_up_ccs811;; retry ENABLE_HDC1080 hdc1080_ok bring_up_hdc1080;;
  retry ENABLE_LIS3DH lis3dh_ok bring_up_lis3dh;; retry ENABLE_MLX90614 mlx90614_ok bring_up_mlx90614;;
  retry ENABLE_SSD1315 ssd1315_ok bring_up_ssd1315).
Proof.
  repeat (apply inv_bind; [| intros _]); (apply passing_retry; [unfold none_lost; tauto | intros E]).
  - unfold bring_up_ccs811, shProbeCcs811, shInitCcs811. passing_up s0 n.
  - unfold bring_up_hdc1080, shProbeHdc1080, shHdcReadU16, shInitHdc1080. passing_up s0 n.
  - unfold bring_up_lis3dh, shProbeLis3dh, shInitLis3dh. passing_up s0 n.
  - unfold bring_up_mlx90614, shReadMlx90614. passing_up s0 n.
  - unfold bring_up_ssd1315. passing_up s0 n.
Qed.

(** What a pass leaves: a retry is pending exactly when a device is missing
    and passes are left. *)
Lemma pass_outcome w : sh_probe_task (w_sens w) = true ->
  let w' := run shSensorsVerifyPass w in let n := u16 (sh_probe_try (w_sens w) + 1) in
  passing (sdata w) n w' /\
  due_in I2C_PROBE_RETRY w' =
    if negb (required_ok (sdata w')) && (n <? I2C_PROBE_RETRY_MAX) then 1%nat else 0%nat.
Proof.
  intros Ht w' n.
  set (w1 := w <| w_sens ::= (fun s => s <| sh_probe_try ::= (fun n => u16 (n + 1)) |>) |>).
  assert (passing (sdata w) n w1) as Hp by (constructor; [done | done | apply none_lost_refl]).
  apply (pass_devices (sdata w) n) in Hp. set (w2 := snd _) in Hp.
  set (tail := ok ← shSensorsRequiredOk; if (ok : bool) then cancel_retry else
    try ← sens_get sh_probe_try;
    if I2C_PROBE_RETRY_MAX <=? try then
      cancel_retry;; when ENABLE_SSD1315 shLatchInitFail;; SmartHelmet_SensorsShowAdcMv 0 0 0 0
    else shSensorsScheduleRetry).
  assert (w' = run tail w2) as -> by done. clearbody w2. clear w1.
  assert (keeps (fun w => (sh_probe_task (w_sens w), sh_probe_try (w_sens w), sdata w)) tail) as Hk.
  { subst tail. unfold sdata, shSensorsRequiredOk, cancel_retry, shSensorsScheduleRetry. keeps_tac. }
  split; [by apply (passing_frame _ _ tail Hk) |].
  assert (sdata (run tail w2) = sdata w2) as -> by exact (f_equal snd (Hk w2)). destruct Hp as [Ht2 Hn2 _]. clear Hk.
  assert (forall v, sh_probe_task (w_sens v) = true -> run cancel_retry v = run (call (MessageCancelAll I2C_PROBE_RETRY) : IO unit) v) as Hc.
  { intros v Hv. unfold cancel_retry. by rewrite run_bind, eval_sens_get, run_sens_get, Hv. }
  subst tail. rewrite run_bind. unfold shSensorsRequiredOk. rewrite eval_data_get, run_data_get. fold (sdata w2).
  destruct (required_ok (sdata w2)); cbn [negb andb]; [rewrite Hc by done; apply due_cancel_same |].
  rewrite run_bind, eval_sens_get, run_sens_get, Hn2.
  destruct (Z.leb_spec I2C_PROBE_RETRY_MAX n), (Z.ltb_spec n I2C_PROBE_RETRY_MAX); try lia.
  - rewrite run_bind, Hc by done.
    assert (keeps (due_in I2C_PROBE_RETRY) (when ENABLE_SSD1315 shLatchInitFail;; SmartHelmet_SensorsShowAdcMv 0 0 0 0)) as Hk by keeps_tac.
    rewrite (run_keeps _ _ _ Hk). apply due_cancel_same.
  - unfold shSensorsScheduleRetry. rewrite run_bind, eval_sens_get, run_sens_get, Ht2. cbn [negb]. apply due_again.
Qed.

(** The retries that fire from [w] on, at most [n] of them. *)
Fixpoint verify_run (n : nat) (w : World) : World :=
  match n with
  | O => w
  | S n => if (due_in I2C_PROBE_RETRY w =? 0)%nat then w
           else verify_run n (run shSensorsVerifyPass (fired I2C_PROBE_RETRY w))
  end.

Lemma verify_run_settles n w : 0 <= sh_probe_try (w_sens w) -> I2C_PROBE_RETRY_MAX < 65536 ->
  sh_probe_task (w_sens w) = true -> sh_probe_try (w_sens w) + Z.of_nat n = I2C_PROBE_RETRY_MAX ->
  due_in I2C_PROBE_RETRY w =
    (if negb (required_ok (sdata w)) && (sh_probe_try (w_sens w) <? I2C_PROBE_RETRY_MAX) then 1%nat else 0%nat) ->
  let w' := verify_run n w in
  none_lost (sdata w) (sdata w') /\ due_in I2C_PROBE_RETRY w' = 0%nat /\
  sh_probe_try (w_sens w) <= sh_probe_try (w_sens w') <= I2C_PROBE_RETRY_MAX /\
  (required_ok (sdata w') = true \/ sh_probe_try (w_sens w') = I2C_PROBE_RETRY_MAX).
Proof.
  revert w. induction n as [| n IH]; intros w Hpos Hm Ht Hn Hd; cbn [verify_run].
  - rewrite Hd. destruct (Z.ltb_spec (sh_probe_try (w_sens w)) I2C_PROBE_RETRY_MAX); [lia |].
    rewrite andb_false_r. split_and!; [apply none_lost_refl | done | lia | lia | right; lia].
  - destruct (Z.ltb_spec (sh_probe_try (w_sens w)) I2C_PROBE_RETRY_MAX); [| lia]. rewrite andb_true_r in Hd. rewrite Hd.
    destruct (required_ok (sdata w)) eqn:Er; cbn [negb Nat.eqb].
    + split_and!; [apply none_lost_refl | done | lia | lia | by left].
    + pose proof (pass_outcome (fired I2C_PROBE_RETRY w) Ht) as [[Pt Pn Pu] Pd].
      change (sh_probe_try (w_sens (fired I2C_PROBE_RETRY w))) with (sh_probe_try (w_sens w)) in Pn, Pd.
      change (sdata (fired I2C_PROBE_RETRY w)) with (sdata w) in Pu.
      set (w1 := run shSensorsVerifyPass _) in *. clearbody w1.
      rewrite u16_small in Pn, Pd by rlia. rewrite <- Pn in Pd.
      destruct (IH w1) as (Hu & Hz & Hb & Hr); [lia | done | done | lia | done |].
      split_and!; [by eapply none_lost_trans | done | lia | lia | done].
Qed.

(** [C23] The bring-up of the sensors ends.  Once started, with nothing
    pending and the attempts at zero (as SmartHelmet_SensorsInit leaves
    them), after at most I2C_PROBE_RETRY_MAX fired retries and whatever the
    devices answer, no retry is pending; either every enabled device is up or
    all the attempts were made; and a device that was found is never lost or
    initialised again on the way. *)
Theorem verify_settles w : 0 <= I2C_PROBE_RETRY_MAX < 65536 -> 0 < I2C_PROBE_RETRY_MAX ->
  sh_probe_try (w_sens w) = 0 -> due_in I2C_PROBE_RETRY w = 0%nat ->
  let w' := verify_run (Z.to_nat I2C_PROBE_RETRY_MAX) (run (SmartHelmet_SensorsStartVerify true) w) in
  none_lost (sdata w) (sdata w') /\ due_in I2C_PROBE_RETRY w' = 0%nat /\
  (required_ok (sdata w') = true \/ sh_probe_try (w_sens w') = I2C_PROBE_RETRY_MAX).
Proof.
  intros Hm Hm0 Ht Hd w'.
  set (w1 := run (SmartHelmet_SensorsStartVerify true) w) in *.
  assert (sdata w1 = sdata w /\ sh_probe_try (w_sens w1) = 0 /\ sh_probe_task (w_sens w1) = true /\
    due_in I2C_PROBE_RETRY w1 = if required_ok (sdata w) then 0%nat else 1%nat) as (E1 & E2 & E3 & E4).
  { subst w1. unfold SmartHelmet_SensorsStartVerify, shSensorsRequiredOk. rewrite !run_bind, eval_data_get, run_data_get, run_sens_do.
    set (w0 := w <| w_sens ::= _ |>). change (sh_sensors (w_sens w0)) with (sdata w).
    destruct (required_ok (sdata w)); [done |]. cbn [negb].
    assert (keeps (fun w => (sdata w, sh_probe_try (w_sens w), sh_probe_task (w_sens w))) shSensorsScheduleRetry) as Hk
      by (unfold shSensorsScheduleRetry, sdata; keeps_tac).
    specialize (Hk w0). split_and!; [exact (f_equal (fun x => fst (fst x)) Hk) | rewrite <- Ht; exact (f_equal (fun x => snd (fst x)) Hk)
      | exact (f_equal snd Hk) | apply due_again]. }
  destruct (verify_run_settles (Z.to_nat I2C_PROBE_RETRY_MAX) w1) as (Hu & Hz & _ & Hr); [lia | lia | done | lia | |].
  - rewrite E4, E1, E2. destruct (Z.ltb_spec 0 I2C_PROBE_RETRY_MAX); [| lia]. by destruct (required_ok (sdata w)).
  - rewrite E1 in Hu. done.
Qed.
End bring_up.

(** * On the bench *)
Section example.
#[local] Existing Instances shipped shipped_board.
#[local] Instance timed_bench : Platform := timed bench.

(** The statics before the first call. *)
Definition unstarted : World := world_start ((mkbench [] [] 0, []) : Env).

(** Half a g, and the highest temperature of the HDC1080. *)
Lemma conversions_exact_witness :
  shLis3dhRawToMg (fst (lis3dh_bytes (-125))) (snd (lis3dh_bytes (-125))) = -125 * LIS3DH_MG_PER_LSB /\
  hdc_temp 65535 < 12500 /\ shMlxRawToCentiC 15532 = 2 * 15532 - 27315.
Proof.
  destruct conversions_exact as (Ha & Hh & Hm). split_and!.
  - apply Ha. lia.
  - apply (Hh 65535). rlia.
  - apply Hm. lia.
Defined.

(** A character of the font and a row of the panel. *)
Lemma panel_data_in_order_witness :
  concat (pieces 128 (replicate 128 0)) = replicate 128 0 /\
  shSsdData (replicate 128 0) unstarted = all_m (replicate 8 (replicate 16 0)) (fun p => shSsdRaw (SSD1315_CTRL_DATA :: p)) unstarted.
Proof.
  destruct (@panel_data_in_order shipped_board timed_bench (replicate 128 0) unstarted eq_refl) as (Hc & _ & Hd & _).
  split; [exact Hc | exact Hd].
Defined.

(** No device answers on the bench: the bring-up gives up. *)
Lemma verify_settles_witness :
  let w := verify_run 5 (run (SmartHelmet_SensorsStartVerify true) unstarted) in
  due_in I2C_PROBE_RETRY w = 0%nat.
Proof.
  destruct (@verify_settles shipped shipped_board timed_bench (timed_laws bench) unstarted) as (_ & Hd & _);
    [split; [discriminate | reflexivity] | reflexivity | reflexivity | reflexivity | exact Hd].
Defined.
End example.
