(* ===== verification/BusInv.v ===== *)
(** The traffic on the two I2C buses over every run of the firmware: each data
    cycle is one that a device understands, on a handle of the device's own
    bus that is programmed with the address of the device. *)
From S2P Require Import Prelude Config Decimal Telemetry Vitals Board Platform World Timers Stream I2c Display Adc Sensors Text Wisun Report Uart Helmet System.

(** * The devices and the traffic *)
Section traffic.
Context `{HelmetConfig} `{BoardConfig} `{BitserialLaws}.

(** The cycles each device of the board understands: the bus, the slave
    address, the bytes sent and the number of bytes asked for.  The sensors
    are on bus 0, the display on the bus of the board. *)
Inductive meant : Z -> Z -> list Z -> Z -> Prop :=
(* CCS811: hardware id, status, result; application start and the mode *)
| ccs811_query reg n : (reg, n) ∈ [(0x20, 1); (0x00, 1); (0x02, 4)] -> meant 0 0x5B [reg] n
| ccs811_start : meant 0 0x5B [0xF4] 0
| ccs811_mode v : v ∈ [0x00; 0x10] -> meant 0 0x5B [0x01; v] 0
(* HDC1080: the pointer to the temperature or an id, one or two words, the configuration *)
| hdc1080_pointer reg : reg ∈ [0x00; 0xFE; 0xFF] -> meant 0 0x40 [reg] 0
| hdc1080_read n : n ∈ [2; 4] -> meant 0 0x40 [] n
| hdc1080_config : meant 0 0x40 [0x02; 0x10; 0x00] 0
(* LIS3DH: who am I, the FIFO level, one sample; the control registers *)
| lis3dh_query reg n : (reg, n) ∈ [(0x0F, 1); (0x2F, 1); (0xA8, 6)] -> meant 0 0x18 [reg] n
| lis3dh_set reg v : reg ∈ [0x20; 0x23; 0x24; 0x2E] -> meant 0 0x18 [reg; v] 0
(* MLX90614: ambient and object temperature *)
| mlx90614_read reg : reg ∈ [0x06; 0x07] -> meant 0 0x5A [reg] 3
(* SSD1315: commands or data behind a control byte *)
| ssd1315_send control data : control ∈ [0x00; 0x40] -> meant shSsdBus 0x3C (control :: data) 0.

Lemma meant_bus bus addr tx n : meant bus addr tx n -> 0 <= bus < 2.
Proof. intros []; try lia. unfold shSsdBus. destruct SSD1315_ON_I2C1; lia. Qed.

(** Every data cycle of a trace, the last call first, was made on a handle
    that had been opened for the bus of a device and programmed, by the last
    call that did so before, with the address of a device that the cycle is
    meant for. *)
Fixpoint device_cycles (t : list Call) : Prop :=
  match t with
  | [] => True
  | c :: t =>
    match data_cycle c with
    | Some (h, tx, n) => exists i addr, h = Some i /\ meant (handle_block i) addr tx n /\ programmed i t = Some addr
    | None => True
    end /\ device_cycles t
  end.

Definition bus_safe (w : World) : Prop := i2c_ok w /\ device_cycles (w_trace w).

Lemma meant_addressed bus addr tx n l t :
  meant bus addr tx n -> addressed bus addr tx n l t -> device_cycles t -> device_cycles (l ++ t).
Proof.
  intros Hd. induction l as [| c l IH]; [done |]. cbn [app device_cycles addressed]. intros [Hc Hl] Ht.
  split; [| auto]. destruct (data_cycle c) as [[[h tx'] n'] |]; [| done].
  destruct Hc as (i & -> & <- & Hp & -> & ->). eauto.
Qed.

Lemma device_neutral k l t : Forall (neutral k) l -> device_cycles t -> device_cycles (l ++ t).
Proof. induction 1 as [| c l [Hc _] _ IH]; [done |]. cbn [app device_cycles]. rewrite Hc. auto. Qed.

(** * Steps that keep it *)
Lemma bus_safe_transfer bus addr tx n : meant bus addr tx n -> inv bus_safe (SmartHelmet_I2cTransfer bus addr tx n).
Proof.
  intros Hd w [Hok Ht]. pose proof (meant_bus _ _ _ _ Hd) as Hb.
  destruct (decide (alen tx = 0 /\ n = 0)) as [[Etx ->] | Hn].
  - unfold SmartHelmet_I2cTransfer, smart_helmet_i2c_bus_count. cbn -[mbind]. unfold mbind, M_bind, bus_get, gets. cbn [fst snd].
    rewrite Etx. destruct (_ || _); [done |]. done.
  - destruct (transfer_wp bus addr tx n w Hok Hb) as (Hok' & l & T & Ha & _); [lia |].
    split; [exact Hok' |]. unfold SmartHelmet_I2cTransfer in *. rewrite T. by eapply meant_addressed.
Qed.

Lemma bus_safe_updates {A} k (m : IO A) w : 0 <= k < 2 -> bus_safe w ->
  updates k m w (fun _ b l => bus_ok (l ++ w_trace w) k b) -> bus_safe (run m w).
Proof.
  intros Hk [Hok Ht] Hu. split; [by eapply updates_ok |]. destruct Hu as (b & l & (_ & -> & N) & _). by eapply device_neutral.
Qed.

Lemma bus_safe_init : inv bus_safe SmartHelmet_I2cInit.
Proof.
  assert (forall k scl sda sp, 0 <= k < 2 -> inv bus_safe (shI2cOpenBus k k scl sda sp)) as Hb.
  { intros * Hk w Hok. apply (bus_safe_updates k); [done.. |]. apply open_bus_upd; [done | apply Hok | apply Hok]. }
  unfold SmartHelmet_I2cInit. keeps_tac; apply Hb; lia.
Qed.

Lemma bus_safe_close : inv bus_safe SmartHelmet_I2cClose.
Proof.
  assert (forall k, 0 <= k < 2 -> inv bus_safe (i2c_close_bus k)) as Hb.
  { intros k Hk w Hok. apply (bus_safe_updates k); [done.. |]. apply close_bus_upd; [done | apply Hok | apply Hok]. }
  unfold SmartHelmet_I2cClose. change (seqZ _ _) with [0; 1]. cbn [for_each].
  repeat (apply inv_bind; [apply Hb; lia | intros _]). apply inv_ret.
Qed.

Lemma bus_safe_call q : on_bus q = false -> inv bus_safe (call q).
Proof.
  intros Hq w [[Hl Hb] Ht]. destruct (call q w) as [r w'] eqn:E. unfold call in E. injection E as <- <-.
  assert (forall h, call_programs h (mkcall q (fst (serve q (w_env w)))) = None) as Hn by (intros h; by destruct q).
  split; [split; [done |] |].
  - intros k Hk Ho. destruct (Hb k Hk Ho) as (E1 & h & E2 & E3 & E4). split; [done |]. exists h. split_and!; [done.. |].
    cbn. by rewrite Hn.
  - split; [by destruct q | done].
Qed.

(** * The walk *)
Lemma bus_safe_write bus addr tx : meant bus addr tx 0 -> inv bus_safe (SmartHelmet_I2cWrite bus addr tx).
Proof. intros Hd. apply inv_bind; [by apply bus_safe_transfer | by intros ? ?]. Qed.

Lemma bus_safe_write_reg bus addr r tx : meant bus addr (r :: tx) 0 -> inv bus_safe (SmartHelmet_I2cWriteReg bus addr r tx).
Proof. intros Hd. unfold SmartHelmet_I2cWriteReg. pose proof (bus_safe_transfer bus addr (r :: tx) 0 Hd). keeps_tac. Qed.

Lemma meant_display ctrl data : ctrl = SSD1315_CTRL_CMD \/ ctrl = SSD1315_CTRL_DATA -> meant shSsdBus ADDR_SSD1315 (ctrl :: data) 0.
Proof. intros [-> | ->]; constructor; by repeat constructor. Qed.

Ltac meant_tac := first [ apply meant_display; assumption | constructor; by repeat constructor ].
#[local] Hint Extern 1 (inv bus_safe (SmartHelmet_I2cTransfer _ _ _ _)) => apply bus_safe_transfer; meant_tac : keeps.
#[local] Hint Extern 1 (inv bus_safe (SmartHelmet_I2cRead _ _ _)) => apply bus_safe_transfer; meant_tac : keeps.
#[local] Hint Extern 1 (inv bus_safe (SmartHelmet_I2cReadReg _ _ _ _)) => apply bus_safe_transfer; meant_tac : keeps.
#[local] Hint Extern 1 (inv bus_safe (SmartHelmet_I2cWrite _ _ _)) => apply bus_safe_write; meant_tac : keeps.
#[local] Hint Extern 1 (inv bus_safe (SmartHelmet_I2cWriteReg _ _ _ _)) => apply bus_safe_write_reg; meant_tac : keeps.
#[local] Hint Resolve bus_safe_init bus_safe_close : keeps.
#[local] Hint Extern 1 (inv bus_safe (call _)) => apply bus_safe_call; reflexivity : keeps.
#[local] Hint Extern 1 (inv bus_safe (vit_do _)) => intros ? Hs; exact Hs : keeps.
#[local] Hint Extern 1 (inv bus_safe (adc_do _)) => intros ? Hs; exact Hs : keeps.
#[local] Hint Extern 1 (inv bus_safe (sens_do _)) => intros ? Hs; exact Hs : keeps.
#[local] Hint Extern 1 (inv bus_safe (data_do _)) => intros ? Hs; exact Hs : keeps.
#[local] Hint Extern 1 (inv bus_safe (uart_do _)) => intros ? Hs; exact Hs : keeps.
#[local] Hint Extern 1 (inv bus_safe (wisun_do _)) => intros ? Hs; exact Hs : keeps.
#[local] Hint Extern 1 (inv bus_safe (hel_do _)) => intros ? Hs; exact Hs : keeps.

#[local] Hint Extern 1 (inv bus_safe (SmartHelmet_UartSend _)) => apply inv_send; intros; apply bus_safe_call, inert_bus; assumption : keeps.
#[local] Hint Extern 1 (inv bus_safe (vit_call _)) =>
  apply inv_vit_call; [intros; apply bus_safe_call, inert_bus; assumption | intros ? Hs; exact Hs] : keeps.

Lemma bus_safe_inert q : inert q = true -> inv bus_safe (call q).
Proof. intros Hq. by apply bus_safe_call, inert_bus. Qed.
#[local] Hint Resolve bus_safe_inert : calls.

(** ** The sensors *)
Ltac bus_unfold :=
  unfold poll_ccs811, poll_fifo, poll_single, poll_hdc1080, poll_mlx90614, hdc_wait, bring_up_ccs811, bring_up_hdc1080,
    bring_up_lis3dh, bring_up_mlx90614, bring_up_ssd1315, shProbeCcs811, shInitCcs811, shProbeHdc1080, shHdcReadU16,
    shInitHdc1080, shProbeLis3dh, shInitLis3dh, shReadMlx90614, read_accel, set_accel.

Lemma bus_safe_drain n k : inv bus_safe (drain_fifo n k).
Proof. induction n; cbn [drain_fifo]; [apply inv_ret |]. bus_unfold. keeps_tac. Qed.

Lemma bus_safe_poll : inv bus_safe SmartHelmet_SensorsPoll.
Proof. pose proof bus_safe_drain. unfold SmartHelmet_SensorsPoll, poll_if. bus_unfold. keeps_tac. Qed.

Lemma bus_safe_poll_lis : inv bus_safe SmartHelmet_SensorsPollLis3dh.
Proof. unfold SmartHelmet_SensorsPollLis3dh, poll_if. bus_unfold. keeps_tac. Qed.

Lemma bus_safe_sensors_init : inv bus_safe SmartHelmet_SensorsInit.
Proof. unfold SmartHelmet_SensorsInit. bus_unfold. keeps_tac. Qed.

Lemma bus_safe_verify : inv bus_safe shSensorsVerifyPass.
Proof.
  unfold shSensorsVerifyPass, retry, shSensorsRequiredOk, cancel_retry, shSensorsScheduleRetry. bus_unfold. keeps_tac.
Qed.

(** ** The report and the link *)
Lemma bus_safe_report : inv bus_safe SmartHelmet_ReportStart.
Proof.
  pose proof bus_safe_poll. assert (forall n l, inv bus_safe (send_frames n l)) as Hf.
  { intros n. induction n; intros l; cbn [send_frames]; [apply inv_ret |].
    unfold SmartHelmet_UartNoteReportSent, set_offline, SmartHelmet_UartRejoin, leave_to, shWisunSendProbe, shWisunArm,
      SmartHelmet_ReportStop. keeps_tac. }
  unfold SmartHelmet_ReportStart, SmartHelmet_UartInPassthrough, SmartHelmet_SensorsReady, shSensorsRequiredOk, report_poll,
    shSendReportLines, report_text, report_head, report_gases, rep_motion, rep_restart, rep_fall, rep_pulse, rep_climate,
    rep_voc, rep_gas, shGasValue, SmartHelmet_UartTakeRestart, SmartHelmet_UartNoteReportSent, set_offline,
    SmartHelmet_UartRejoin, leave_to, shWisunSendProbe, shWisunArm, SmartHelmet_ReportStop, take_fall, vit_result.
  keeps_tac.
Qed.

Lemma bus_safe_uart_message m : inv bus_safe (SmartHelmet_UartHandleMessage m).
Proof.
  pose proof bus_safe_report.
  assert (forall d, inv bus_safe (leave_to d)) by (intros; unfold leave_to, shWisunSendProbe, shWisunArm; keeps_tac).
  assert (inv bus_safe shAtFinish) by (unfold shAtFinish, shWisunLogResult, clear_asm, set_step; keeps_tac).
  assert (inv bus_safe shAtSendCurrent)
    by (unfold shAtSendCurrent, clear_asm, set_step, shWisunSendProbe, shWisunArm; keeps_tac).
  assert (inv bus_safe shProvSendCurrent)
    by (unfold shProvSendCurrent, clear_asm, set_step, shWisunSendProbe, shWisunArm; keeps_tac).
  assert (inv bus_safe shWisunOnTimeout).
  { unfold shWisunOnTimeout, on_reset, on_prov_read, on_prov_set, on_leave, on_dest, on_pass, on_cmd, note_status,
      shAtNoteResult, clear_asm, set_step, shWisunSendProbe, shWisunArm. keeps_tac. }
  assert (forall d, inv bus_safe (shUartConsume d)).
  { intros d. unfold shUartConsume, shWisunNoteRx, shRxLinePush, rx_byte, shRxLineFlush, vitals_restart, note_send_fail,
      note_send_ok, shOnCmdTooLong, SmartHelmet_UartRejoin, set_offline, SmartHelmet_ReportStop, note_status,
      shResetNoteBanner, shAsmHas, shWisunArm. keeps_tac. }
  unfold SmartHelmet_UartHandleMessage, shUartDrain, drain_turn, shRxPollArm. keeps_tac.
Qed.

(** ** The module *)
Ltac adc_unfold :=
  unfold SmartHelmet_AdcHandleMessage, adc_result, sens_result, full_result, sens_done, SmartHelmet_AdcRequestScan,
    shAdcRequestNextFull, SmartHelmet_AdcRequestSensIn, shAdcStartSens, adc_read, shAdcFeedVitalsSens, shAdcSensDropped.

Lemma bus_safe_scan : inv bus_safe SmartHelmet_AdcRequestScan.
Proof. adc_unfold. keeps_tac. Qed.

Lemma bus_safe_adc_message m : inv bus_safe (SmartHelmet_AdcHandleMessage m).
Proof. adc_unfold. keeps_tac. Qed.

Lemma bus_safe_log : inv bus_safe shLis3dhLogSample /\ inv bus_safe shLis3dhLogArm.
Proof. pose proof bus_safe_report. unfold shLis3dhLogSample, shLis3dhLogArm. bus_unfold. split; keeps_tac. Qed.

Lemma bus_safe_handler m : inv bus_safe (smartHelmetTaskHandler m).
Proof.
  pose proof bus_safe_report. pose proof bus_safe_log as []. pose proof bus_safe_poll_lis. pose proof bus_safe_verify.
  pose proof bus_safe_adc_message. pose proof bus_safe_uart_message.
  unfold smartHelmetTaskHandler, SmartHelmet_HandleMessage, SmartHelmet_SensorsHandleMessage, motion_poll, motion_sample,
    SmartHelmet_SensorsReady, shSensorsRequiredOk, SmartHelmet_UartInPassthrough.
  keeps_tac.
Qed.

Lemma bus_safe_uart_close : inv bus_safe SmartHelmet_UartClose.
Proof.
  unfold SmartHelmet_UartClose, shWisunSendProbe, SmartHelmet_UartStopVerify, shUartReleasePio, SmartHelmet_UartResetHold.
  keeps_tac.
Qed.

Lemma bus_safe_module_close : inv bus_safe SmartHelmet_Close.
Proof.
  pose proof bus_safe_uart_close.
  unfold SmartHelmet_Close, SmartHelmet_SensorsStopVerify, cancel_retry, SmartHelmet_ReportStop, SmartHelmet_AdcStop.
  keeps_tac.
Qed.

Lemma bus_safe_power_off : inv bus_safe SmartHelmet_PowerOff.
Proof.
  pose proof bus_safe_uart_close.
  unfold SmartHelmet_PowerOff, SmartHelmet_SensorsStopVerify, cancel_retry, SmartHelmet_ReportStop, SmartHelmet_SensorsSleep,
    SmartHelmet_UartSleep, SmartHelmet_UartStopVerify, SmartHelmet_AdcStop.
  keeps_tac.
Qed.

Lemma bus_safe_adc_init t : inv bus_safe (SmartHelmet_AdcInit t).
Proof. unfold SmartHelmet_AdcInit. keeps_tac. Qed.

Lemma bus_safe_power_on : inv bus_safe SmartHelmet_PowerOn.
Proof.
  pose proof bus_safe_adc_init. pose proof bus_safe_scan. pose proof bus_safe_sensors_init. pose proof bus_safe_report.
  unfold SmartHelmet_PowerOn, SmartHelmet_SensorsStartVerify, shSensorsRequiredOk, shSensorsScheduleRetry,
    SmartHelmet_UartResetHold, SmartHelmet_UartInit, shUartMapPio, SmartHelmet_UartStartVerify, leave_to, shWisunSendProbe, shWisunArm.
  keeps_tac.
Qed.

Lemma bus_safe_enter e : inv bus_safe (enter e).
Proof.
  pose proof bus_safe_adc_init. pose proof bus_safe_module_close. pose proof bus_safe_power_off. pose proof bus_safe_power_on.
  pose proof bus_safe_handler. pose proof bus_safe_scan. pose proof bus_safe_poll. pose proof bus_safe_log as [].
  destruct e; cbn [enter]; unfold SmartHelmet_PowerSave, SmartHelmet_VitalsTick, SmartHelmet_WisunSend; try solve [keeps_tac].
  - unfold SmartHelmet_Init, SmartHelmet_UartResetHold, SmartHelmet_SensorsSetLogTask, lis3dh_chk. keeps_tac.
  - unfold SmartHelmet_UiRefresh. keeps_tac.
  - unfold SmartHelmet_PollSensors, SmartHelmet_SensorsAccelBurst. keeps_tac.
Qed.
End traffic.

(** * Every reachable state *)
Section reached.
Context `{HelmetConfig} `{BoardConfig} `{TimerLaws} `{!BitserialLaws}.

(** [C8] In every reachable state, every data cycle that the firmware has made
    on the serial blocks was one that a device of the board understands
    ([meant]: the bytes sent and the number asked for), on a handle opened for
    the bus of that device and programmed with the address of that device; and
    the records of the two buses say truly which handle is open and which
    address it has.  This is about the address the handle is programmed with:
    the first cycle after a change can still carry the previous address on the
    wire (smart_helmet_i2c.c:184), and is repeated when it is not answered. *)
Theorem buses_reachable w : reachable w -> i2c_ok w /\ device_cycles (w_trace w).
Proof.
  apply (reachable_inv bus_safe).
  - intros e _. split; [apply i2c_start_ok | done].
  - intros e _. apply bus_safe_enter.
  - intros id v _ Hv. by apply bus_safe_handler.
Qed.
End reached.

(** * On the bench *)
Section example.
#[local] Existing Instances shipped shipped_board.
#[local] Instance timed_bench : Platform := timed bench.
#[local] Instance timed_bench_handles : BitserialLaws.
Proof. refine (@Build_BitserialLaws timed_bench (fun h => h) _). intros b s a e h Hh. cbn in Hh. congruence. Defined.

(** Initialised and switched on: the bring-up has tried every device. *)
Definition started : World := run (enter CallPowerOn) (run (enter CallInit) (world_start ((mkbench [] [] 0, []) : Env))).

Lemma buses_reachable_witness :
  cycles (w_trace started) <> [] /\ device_cycles (w_trace started).
Proof.
  split; [vm_compute; discriminate |].
  refine (proj2 (@buses_reachable shipped shipped_board timed_bench (timed_laws bench) timed_bench_handles started _)).
  apply (reachable_enter CallPowerOn); [done |]. apply (reachable_enter CallInit); [done |]. by apply reachable_start.
Defined.
End example.
