(* ===== verification/HeadsetSm.v ===== *)
(** The state machine of the headset application, headset_sm.c, with the
    wired audio controller that calls it, which drives the helmet module: power, pairing, the idle and limbo timers, the charge
    indication, and the messages it handles.

    Built with INCLUDE_SMART_HELMET, without which the file does not compile;
    log output, and the counter of the debug build's log timer, are left out. *)
From S2P Require Import Prelude Config Decimal Telemetry Vitals Board Platform World Timers Stream I2c Display Adc Sensors Text Wisun Report Uart Helmet System.

(** * Data *)

(** [headsetState], with the values of its enumerators. *)
Inductive headsetState :=
| HEADSET_STATE_NULL | HEADSET_STATE_FACTORY_RESET | HEADSET_STATE_LIMBO | HEADSET_STATE_POWERING_ON
| HEADSET_STATE_PAIRING | HEADSET_STATE_IDLE | HEADSET_STATE_BUSY | HEADSET_STATE_TERMINATING
| HEADSET_STATE_POWERING_OFF.

#[export] Instance headsetState_eq_dec : EqDecision headsetState.
Proof. solve_decision. Defined.

Definition state_code (s : headsetState) : Z :=
  match s with
  | HEADSET_STATE_NULL => 0 | HEADSET_STATE_FACTORY_RESET => 1 | HEADSET_STATE_LIMBO => 2
  | HEADSET_STATE_POWERING_ON => 3 | HEADSET_STATE_PAIRING => 4 | HEADSET_STATE_IDLE => 5
  | HEADSET_STATE_BUSY => 6 | HEADSET_STATE_TERMINATING => 7 | HEADSET_STATE_POWERING_OFF => 8
  end.

Inductive sm_provider_context_t :=
| context_app_sm_inactive | context_app_sm_active | context_app_sm_powered_off | context_app_sm_powered_on
| context_app_sm_idle | context_app_sm_idle_connected | context_app_sm_exit_idle.

#[export] Instance context_eq_dec : EqDecision sm_provider_context_t.
Proof. solve_decision. Defined.

(** The messages of the charger. *)
Inductive charger_message :=
| CHARGER_MESSAGE_ATTACHED | CHARGER_MESSAGE_DETACHED | CHARGER_MESSAGE_COMPLETED | CHARGER_MESSAGE_CHARGING_OK
| CHARGER_MESSAGE_CHARGING_LOW | CHARGER_MESSAGE_DISABLED.

#[export] Instance charger_eq_dec : EqDecision charger_message.
Proof. solve_decision. Defined.

(** The messages the machine sends to itself. *)
Inductive sm_internal :=
| SM_INTERNAL_PAIR_HANDSET | SM_INTERNAL_DELETE_HANDSETS | SM_INTERNAL_FACTORY_RESET
| SM_INTERNAL_LINK_DISCONNECTION_COMPLETE | SM_INTERNAL_TIMEOUT_LINK_DISCONNECTION | SM_INTERNAL_POWER_OFF
| SM_INTERNAL_TIMEOUT_IDLE | SM_INTERNAL_TIMEOUT_LIMBO | SM_INTERNAL_DUMMY_LOG | SM_INTERNAL_CHARGE_VBAT_LOG.

#[export] Instance sm_internal_eq_dec : EqDecision sm_internal.
Proof. solve_decision. Defined.

Inductive system_state_state_t :=
| system_state_starting_up | system_state_limbo | system_state_powering_on | system_state_active
| system_state_powering_off | system_state_other.

Inductive ui_input_t :=
| ui_input_sm_power_on | ui_input_sm_power_off | ui_input_connect_handset | ui_input_disconnect_lru_handset
| ui_input_sm_pair_handset | ui_input_sm_delete_handsets | ui_input_enable_multipoint | ui_input_disable_multipoint
| ui_input_factory_reset_request | ui_input_other.

Inductive handset_service_status := handset_service_status_success | handset_service_status_failed | handset_service_status_other.
Inductive dfu_reboot_reason_t :=
| REBOOT_REASON_NONE | REBOOT_REASON_DFU_RESET | REBOOT_REASON_ABRUPT_RESET | REBOOT_REASON_REVERT_RESET | REBOOT_REASON_OTHER.
(** A numbered key, or the key of the HFP library. *)
Inductive ps_key := PsKey (k : Z) | PS_KEY_HFP_CONFIG.
Inductive led_pattern := app_led_pattern_limbo_charging | app_led_pattern_limbo_charged.

(** The messages of the other tasks that the machine handles. *)
Inductive HMsg :=
| UiInput (u : ui_input_t)
| DFU_REQUESTED_TO_CONFIRM | DFU_REQUESTED_IN_PROGRESS | DFU_STARTED | DFU_COMPLETED | DFU_ABORTED | DFU_READY_FOR_SILENT_COMMIT
| ANC_UPDATE_STATE_ENABLE_IND | ANC_UPDATE_STATE_DISABLE_IND | LEAKTHROUGH_UPDATE_STATE_IND (state : bool)
| SYSTEM_STATE_STATE_CHANGE (old_state new_state : system_state_state_t)
| PAIRING_PAIR_CFM | HANDSET_SERVICE_DISCONNECTED_IND | HANDSET_SERVICE_CONNECTED_IND
| STEREO_TOPOLOGY_STOP_CFM | STEREO_TOPOLOGY_HANDSET_DISCONNECTED_IND (status : handset_service_status)
| AV_STREAMING_ACTIVE_IND | AV_STREAMING_INACTIVE_IND | TELEPHONY_CALL_ENDED (usb : bool) | TELEPHONY_CALL_ONGOING (usb : bool)
| ChargerMsg (c : charger_message) | SOC_UPDATE_IND | APP_POWER_SHUTDOWN_PREPARE_IND
| SmInternal (m : sm_internal) | HMsgOther.

#[export] Instance ui_input_eq_dec : EqDecision ui_input_t.
Proof. solve_decision. Defined.
#[export] Instance system_state_eq_dec : EqDecision system_state_state_t.
Proof. solve_decision. Defined.
#[export] Instance handset_status_eq_dec : EqDecision handset_service_status.
Proof. solve_decision. Defined.
#[export] Instance HMsg_eq_dec : EqDecision HMsg.
Proof. solve_decision. Defined.

(** What the wired audio controller receives. *)
Inductive WiredMsg :=
| WIRED_AUDIO_DEVICE_CONNECT_IND | WIRED_AUDIO_DEVICE_DISCONNECT_IND | USB_DEVICE_ENUMERATED | USB_DEVICE_DECONFIGURED
| WiredMsgOther.

(** The statics: [smTaskData], those of the charge indication, and the two of
    headset_wired_audio_controller.c. *)
Record sm_st := mksm {
  sm_state : headsetState;
  disconnect_lock : bool;
  user_pairing : bool;
  auto_poweron : bool;
  headset_limbo_charge_event : charger_message;
  headset_limbo_charge_led : Z;
  headset_limbo_charge_high : bool;
  headset_limbo_soc_registered : bool;
  pause_wired_controller : bool;
  wired_connected : bool }.

#[export] Instance sm_st_eta : RecordEta sm_st := fun r =>
  mksm (sm_state r) (disconnect_lock r) (user_pairing r) (auto_poweron r) (headset_limbo_charge_event r)
    (headset_limbo_charge_led r) (headset_limbo_charge_high r) (headset_limbo_soc_registered r)
    (pause_wired_controller r) (wired_connected r).

Definition sm_zero : sm_st := mksm HEADSET_STATE_NULL false false false CHARGER_MESSAGE_DETACHED 0 false false false false.

(** * The surroundings: the ADK and the helmet module

    One constructor per function the file calls; [Helmet] is a call into the
    module. *)
Inductive HReq :=
| Helmet (e : Entry)
| SmartHelmet_IsBrOnline
| HMessageSend (id : sm_internal)
| HMessageSendLater (id : sm_internal) (delay_ms : Z)
| HMessageSendConditionally (id : sm_internal)
| HMessageCancelAll (id : sm_internal)
| HMessageCancelFirst (id : sm_internal)
| HeadsetUsb_IsAudioConnected | HeadsetUsb_IsAudioEnabled | WiredAudioSource_IsAudioAvailable | AudioSources_IsAudioRouted_usb
| VoiceSources_IsVoiceChannelAvailable_usb | HAv_IsA2dpSinkStreaming | Av_IsPaused | HHfpProfile_IsScoActive
| AncStateManager_IsEnabled | AecLeakthrough_IsLeakthroughEnabled
| HappDeviceIsHandsetConnected | appDeviceIsBredrHandsetConnected | appDeviceGetHandsetBdAddr | BtDevice_IsPairedWithHandset
| HandsetService_IsBredrConnected | HandsetService_IsAnyBredrConnected | HandsetService_IsBrEdrMultipointEnabled
| HandsetService_GetNumberOfConnectedBredrHandsets | HandsetService_GetMaxNumberOfConnectedBredrHandsets
| Charger_IsConnected | Soc_GetBatterySoc | Soc_Register | HappBatteryGetVoltageInstantaneous
| Dfu_IsSilentCommitEnabled | Dfu_GetRebootReason | SystemReboot_GetAction_active
| HeadsetUi_IsLogicalInputScreenedInLimboState (logical_input : Z)
| StereoTopology_Stop | StereoTopology_Start
| StereoTopology_ConnectMruHandset | StereoTopology_DisconnectLruHandset | StereoTopology_DisconnectAllHandsets
| StereoTopology_ProhibitHandsetConnection (prohibit : bool)
| WiredAudioSource_StopMonitoring | WiredAudioSource_StartMonitoring | HeadsetUsb_AudioDisable | HeadsetUsb_AudioEnable
| HandsetService_Configure (multipoint : bool) | HandsetService_ConnectableRequest | HandsetService_CancelConnectableRequest
| Pairing_Pair (user : bool) | Pairing_PairStop | PsStore (key : ps_key) | DeviceList_GetMaxTrustedDevices | Dfu_ClearPsStore | FastPair_DeleteAccountKeys
| BtDevice_DeleteAllHandsets | SystemReboot_Reboot | SystemReboot_ResetAction | ConManagerSendCloseAclRequest
| Charger_DisableReasonAdd_CHARGED | Charger_DisableReasonClear_CHARGED
| LedManager_SetPattern (p : led_pattern) | LedManager_StopPattern
| appPowerShutdownPrepareResponse | appPowerOffRequest | SystemState_PowerOff | SystemState_PowerOn
| UpgradeRestartReconnectionTimer | UpgradeSetScoActive (active : bool) | Dfu_SetRebootReason (r : dfu_reboot_reason_t)
| Dfu_HandleDeviceNotInUse | GattServerGatt_SetGattDbChanged
| Ui_InjectBackEndUiInput (u : ui_input_t) (delay_ms : Z) | Ui_InjectUiInput (u : ui_input_t)
| Ui_InformContextChange (c : sm_provider_context_t) | RegisterClients
| WiredAudioSource_ClientRegister | AudioSources_RegisterObserver_line_in | UsbDevice_ClientRegister
| AudioSources_RegisterObserver_usb | UnexpectedMessage_HandleMessage.

Definition HResp (q : HReq) : Type :=
  match q with
  | SmartHelmet_IsBrOnline | HeadsetUsb_IsAudioConnected | HeadsetUsb_IsAudioEnabled | WiredAudioSource_IsAudioAvailable | AudioSources_IsAudioRouted_usb
  | VoiceSources_IsVoiceChannelAvailable_usb | HAv_IsA2dpSinkStreaming | Av_IsPaused | HHfpProfile_IsScoActive
  | AncStateManager_IsEnabled | AecLeakthrough_IsLeakthroughEnabled | HappDeviceIsHandsetConnected
  | appDeviceIsBredrHandsetConnected | appDeviceGetHandsetBdAddr | BtDevice_IsPairedWithHandset
  | HandsetService_IsBredrConnected | HandsetService_IsAnyBredrConnected | HandsetService_IsBrEdrMultipointEnabled
  | Charger_IsConnected | Soc_Register | Dfu_IsSilentCommitEnabled | SystemReboot_GetAction_active
  | HeadsetUi_IsLogicalInputScreenedInLimboState _ => bool
  | HandsetService_GetNumberOfConnectedBredrHandsets | HandsetService_GetMaxNumberOfConnectedBredrHandsets
  | DeviceList_GetMaxTrustedDevices | Soc_GetBatterySoc | HappBatteryGetVoltageInstantaneous => Z
  | Dfu_GetRebootReason => dfu_reboot_reason_t
  | _ => unit
  end.

Class Surroundings := {
  HEnv : Type;
  hserve : forall q : HReq, HEnv -> HResp q * HEnv }.

(** The switches of the file, as the compiler sees them there. *)
Class HeadsetBuild := {
  INCLUDE_DFU : bool;
  INCLUDE_FAST_PAIR : bool;
  ALLOW_USB_BT_COEXISTENCE : bool;
  ENABLE_HEADSET_AUTO_POWER_ON : bool;
  HEADSET_DEBUG : bool;
  SM_ENABLE_SSD1315 : bool }.

(** The project's release build.  smart_helmet_config.h is not among the
    headers of headset_sm.c, so its ENABLE_SSD1315 is not defined there. *)
Definition shipped_headset : HeadsetBuild := {|
  INCLUDE_DFU := true;
  INCLUDE_FAST_PAIR := true;
  ALLOW_USB_BT_COEXISTENCE := false;
  ENABLE_HEADSET_AUTO_POWER_ON := false;
  HEADSET_DEBUG := false;
  SM_ENABLE_SSD1315 := false |}.

Definition headsetConfigIdleTimeoutMs : Z := 600 * 1000.
Definition headsetConfigLimboTimeoutMs : Z := 10 * 1000.
Definition headsetConfigDisconnectTimeoutMs : Z := 5 * 1000.
Definition headsetConfigDfuCommitDelayForLimboToPowerOn : Z := 6 * 1000.
Definition SMART_HELMET_CHARGE_VBAT_LOG_MS : Z := 5000.
Definition SMART_HELMET_LIMBO_RECHARGE_SOC : Z := 90.
Definition SMART_HELMET_TEST_DISABLE_AT_SOC : Z := 99.

(** * Computations

    A state monad that ends at Panic, which does not return. *)
Record HCall := mkhcall { hc_req : HReq; hc_resp : HResp hc_req }.

Record HW `{Surroundings} := mkhw { h_env : HEnv; h_trace : list HCall; h_sm : sm_st }.

#[export] Instance hw_eta `{Surroundings} : RecordEta HW := fun r => mkhw _ (h_env r) (h_trace r) (h_sm r).

Definition HM `{Surroundings} (A : Type) : Type := HW -> option A * HW.

Section monad.
Context `{Surroundings}.

#[export] Instance HM_ret : MRet HM := fun A x s => (Some x, s).
#[export] Instance HM_bind : MBind HM := fun A B k m s =>
  match m s with
  | (Some x, s') => k x s'
  | (None, s') => (None, s')
  end.

Definition hcall (q : HReq) : HM (HResp q) := fun s =>
  let r := hserve q (h_env s) in
  (Some (fst r), s <| h_env := snd r |> <| h_trace ::= cons (mkhcall q (fst r)) |>).
Definition sm_get {A} (f : sm_st -> A) : HM A := fun s => (Some (f (h_sm s)), s).
Definition sm_do (f : sm_st -> sm_st) : HM unit := fun s => (Some tt, s <| h_sm ::= f |>).
Definition Panic : HM unit := fun s => (None, s).

Definition hwhen (c : bool) (m : HM unit) : HM unit := if c then m else mret tt.
Definition hand (a b : HM bool) : HM bool := x ← a; if (x : bool) then b else mret false.
Definition hor (a b : HM bool) : HM bool := x ← a; if (x : bool) then mret true else b.
Definition hnot (a : HM bool) : HM bool := x ← a; mret (negb x).
Fixpoint hfor_each {A} (l : list A) (f : A -> HM unit) : HM unit :=
  match l with
  | [] => mret tt
  | x :: l => f x;; hfor_each l f
  end.
End monad.

(** * The file *)
Section headset_sm.
Context `{HeadsetBuild} `{Surroundings}.

Definition headsetGetState : HM headsetState := sm_get sm_state.
Definition headsetSmStateIsIdle (s : headsetState) : bool := bool_decide (s = HEADSET_STATE_IDLE).
Definition headsetSmStateIsPairing (s : headsetState) : bool := bool_decide (s = HEADSET_STATE_PAIRING).
Definition headsetSmIsActiveState (s : headsetState) : bool :=
  bool_decide (s = HEADSET_STATE_IDLE) || bool_decide (s = HEADSET_STATE_BUSY).

(** ** Conditions *)
Definition IsUsbNotConnected : HM bool :=
  if ALLOW_USB_BT_COEXISTENCE then hnot (hcall HeadsetUsb_IsAudioConnected) else mret true.

Definition IsBtConnectionIdle : HM bool :=
  s ← headsetGetState;
  hand (mret (headsetSmStateIsIdle s))
    (hand (hnot (hcall HappDeviceIsHandsetConnected)) (mret (negb (headsetConfigIdleTimeoutMs =? 0)))).

Definition IsWiredAudioActive : HM bool :=
  if ALLOW_USB_BT_COEXISTENCE then hcall WiredAudioSource_IsAudioAvailable
  else hor (hcall WiredAudioSource_IsAudioAvailable) (hcall HeadsetUsb_IsAudioConnected).

Definition IsUsbAudioRouted : HM bool :=
  if ALLOW_USB_BT_COEXISTENCE
  then hor (hcall AudioSources_IsAudioRouted_usb) (hcall VoiceSources_IsVoiceChannelAvailable_usb)
  else mret false.

Definition IsBtAudioActive : HM bool := hor (hcall HAv_IsA2dpSinkStreaming) (hcall HHfpProfile_IsScoActive).
Definition IsHeadsetAudioActive : HM bool := hor IsUsbAudioRouted (hor IsBtAudioActive IsWiredAudioActive).
Definition IsA2dpStreamingAndAvrcpPaused : HM bool := hand (hcall HAv_IsA2dpSinkStreaming) (hcall Av_IsPaused).

Definition headsetSmIsIdleTimerNeedToStart : HM bool :=
  hand IsUsbNotConnected (hand IsBtConnectionIdle (hand (hnot IsWiredAudioActive)
    (hand (hnot (hcall AncStateManager_IsEnabled)) (hand (hnot (hcall AecLeakthrough_IsLeakthroughEnabled))
      (hnot (hcall SmartHelmet_IsBrOnline)))))).

(** ** The idle timer *)
Definition headsetSMStartIdleTimer : HM unit :=
  c ← hand (mret (negb (headsetConfigIdleTimeoutMs =? 0))) headsetSmIsIdleTimerNeedToStart;
  hwhen c (hcall (HMessageCancelAll SM_INTERNAL_TIMEOUT_IDLE);;
           hcall (HMessageSendLater SM_INTERNAL_TIMEOUT_IDLE headsetConfigIdleTimeoutMs)).

Definition headsetSMStopIdleTimer : HM unit := hcall (HMessageCancelAll SM_INTERNAL_TIMEOUT_IDLE).

Definition start_idle_if_needed : HM unit :=
  c ← headsetSmIsIdleTimerNeedToStart; hwhen c headsetSMStartIdleTimer.

Definition headsetSmOnBrOnlineChanged (online : bool) : HM unit :=
  if online then headsetSMStopIdleTimer else start_idle_if_needed.

Definition headsetSmHandleAncUpdateStateEnableInd : HM unit :=
  e ← hcall AncStateManager_IsEnabled; hwhen e headsetSMStopIdleTimer.

Definition headsetSmHandleAncUpdateStateDisableInd : HM unit :=
  start_idle_if_needed;;
  s ← headsetGetState;
  hwhen (headsetSmStateIsIdle s) (hcall (Helmet (CallUiRefresh (state_code s)))).

Definition headsetSmHandleLeakthroughStateInd (on : bool) : HM unit :=
  if on then headsetSMStopIdleTimer else start_idle_if_needed.

(** ** Audio, links and stored keys *)

(** The controller records the wired state and pauses; the wired audio is
    the same question there and here. *)
Definition HeadsetWiredAudioController_Disable : HM unit :=
  w ← IsWiredAudioActive;
  sm_do (fun s => s <| wired_connected := w |> <| pause_wired_controller := true |>).

Definition headsetPrepareForWiredAudio : HM unit :=
  HeadsetWiredAudioController_Disable;; hcall StereoTopology_Stop.
Definition headsetPrepareForBtAudio : HM unit := hcall StereoTopology_Start.

Definition headsetSmDisconnectLink : HM bool :=
  c ← hand (hcall appDeviceGetHandsetBdAddr) (hcall appDeviceIsBredrHandsetConnected);
  if (c : bool) then hcall StereoTopology_DisconnectAllHandsets;; mret true else mret false.

Definition headsetSmInitiateLinkDisconnection (timeout_ms : Z) : HM unit :=
  d ← headsetSmDisconnectLink;
  sm_do (fun s => s <| disconnect_lock := d |>);;
  hcall (HMessageSendConditionally SM_INTERNAL_LINK_DISCONNECTION_COMPLETE);;
  hcall (HMessageSendLater SM_INTERNAL_TIMEOUT_LINK_DISCONNECTION timeout_ms).

Definition headsetSmClearPsStore : HM unit :=
  n ← hcall DeviceList_GetMaxTrustedDevices;
  hfor_each (seqZ 0 n) (fun i => hcall (PsStore (PsKey (100 + i)));; hcall (PsStore (PsKey (142 + i))));;
  hcall (PsStore (PsKey 141));; hcall (PsStore PS_KEY_HFP_CONFIG);;
  hwhen INCLUDE_DFU (hcall Dfu_ClearPsStore).

Definition headsetSmDeletePairingAndReset : HM unit :=
  hcall (HMessageCancelFirst SM_INTERNAL_TIMEOUT_LINK_DISCONNECTION);;
  headsetSmClearPsStore;;
  hwhen INCLUDE_FAST_PAIR (hcall FastPair_DeleteAccountKeys);;
  hcall SystemReboot_Reboot.

Definition headsetSmHandleInternalLinkDisconnectionComplete : HM unit :=
  hcall (HMessageCancelFirst SM_INTERNAL_TIMEOUT_LINK_DISCONNECTION);;
  hcall BtDevice_DeleteAllHandsets;;
  hwhen INCLUDE_FAST_PAIR (hcall FastPair_DeleteAccountKeys).

Definition headsetSmLinkDisconnectionTimeout : HM unit :=
  l ← sm_get disconnect_lock;
  hwhen l (hcall (HMessageCancelAll SM_INTERNAL_LINK_DISCONNECTION_COMPLETE);;
           sm_do (fun s => s <| disconnect_lock := false |>)).

(** ** The limbo timer and the charge indication *)
Definition headsetSmStartLimboTimer : HM unit :=
  hwhen (negb (headsetConfigLimboTimeoutMs =? 0))
    (hcall (HMessageCancelAll SM_INTERNAL_TIMEOUT_LIMBO);;
     hcall (HMessageSendLater SM_INTERNAL_TIMEOUT_LIMBO headsetConfigLimboTimeoutMs)).

Definition headsetSmStopLimboTimer : HM unit := hcall (HMessageCancelAll SM_INTERNAL_TIMEOUT_LIMBO).

Definition headsetSmStartChargeVbatLog : HM unit :=
  hcall (HMessageCancelAll SM_INTERNAL_CHARGE_VBAT_LOG);;
  hcall (HMessageSendLater SM_INTERNAL_CHARGE_VBAT_LOG SMART_HELMET_CHARGE_VBAT_LOG_MS).

Definition headsetSmStopChargeVbatLog : HM unit := hcall (HMessageCancelAll SM_INTERNAL_CHARGE_VBAT_LOG).

(** The events that say that a cable is in. *)
Definition cable_event (e : charger_message) : bool :=
  bool_decide (e = CHARGER_MESSAGE_ATTACHED) || bool_decide (e = CHARGER_MESSAGE_CHARGING_OK) ||
  bool_decide (e = CHARGER_MESSAGE_CHARGING_LOW) || bool_decide (e = CHARGER_MESSAGE_COMPLETED).

Definition charging_event (e : charger_message) : bool :=
  bool_decide (e = CHARGER_MESSAGE_CHARGING_OK) || bool_decide (e = CHARGER_MESSAGE_CHARGING_LOW).

(** The cable is in, by the charger or by the last event. *)
Definition cable_in : HM bool := hor (hcall Charger_IsConnected) (e ← sm_get headset_limbo_charge_event; mret (cable_event e)).

Definition headsetSmLogChargeVbat : HM unit :=
  s ← headsetGetState;
  if negb (bool_decide (s = HEADSET_STATE_LIMBO)) then headsetSmStopChargeVbatLog else
  hcall HappBatteryGetVoltageInstantaneous;;
  hcall Soc_GetBatterySoc;;
  c ← cable_in;
  hwhen c headsetSmStartChargeVbatLog.

Definition headsetSmChargeCompleted (event : charger_message) : HM bool :=
  if bool_decide (event = CHARGER_MESSAGE_COMPLETED) then mret true else
  if bool_decide (event = CHARGER_MESSAGE_DISABLED) then hcall Charger_IsConnected else mret false.

Definition headsetSmLimboChargeLedChoice : HM Z :=
  soc ← hcall Soc_GetBatterySoc;
  e ← sm_get headset_limbo_charge_event;
  hwhen (negb (SMART_HELMET_TEST_DISABLE_AT_SOC =? 0) && (SMART_HELMET_TEST_DISABLE_AT_SOC <=? soc) &&
         (charging_event e || bool_decide (e = CHARGER_MESSAGE_ATTACHED)))
    (hcall Charger_DisableReasonAdd_CHARGED;;
     sm_do (fun s => s <| headset_limbo_charge_event := CHARGER_MESSAGE_DISABLED |>));;
  e ← sm_get headset_limbo_charge_event;
  done ← headsetSmChargeCompleted e;
  if (done : bool) then
    if soc <=? SMART_HELMET_LIMBO_RECHARGE_SOC then
      hcall Charger_DisableReasonClear_CHARGED;;
      sm_do (fun s => s <| headset_limbo_charge_high := false |>);; mret 1
    else sm_do (fun s => s <| headset_limbo_charge_high := true |>);; mret 2
  else if charging_event e then
    sm_do (fun s => s <| headset_limbo_charge_high ::= (fun h => if 95 <=? soc then true else if soc <=? 92 then false else h) |>);;
    high ← sm_get headset_limbo_charge_high;
    mret (if (high : bool) then 2 else 1)
  else if bool_decide (e = CHARGER_MESSAGE_ATTACHED) then mret 3
  else sm_do (fun s => s <| headset_limbo_charge_high := false |>);; mret 0.

(** The LED, once the choice has changed. *)
Definition charge_led (choice : Z) : HM unit :=
  led ← sm_get headset_limbo_charge_led;
  if (choice =? 3) || (choice =? led) then mret tt else
  sm_do (fun s => s <| headset_limbo_charge_led := choice |>);;
  if choice =? 1 then headsetSmStopLimboTimer;; hcall (LedManager_SetPattern app_led_pattern_limbo_charging)
  else if choice =? 2 then headsetSmStopLimboTimer;; hcall (LedManager_SetPattern app_led_pattern_limbo_charged)
  else
    c ← hor (hcall Charger_IsConnected)
          (e ← sm_get headset_limbo_charge_event;
           mret (bool_decide (e = CHARGER_MESSAGE_COMPLETED) || bool_decide (e = CHARGER_MESSAGE_ATTACHED)));
    if (c : bool) then headsetSmStopLimboTimer
    else hcall LedManager_StopPattern;; headsetSmStartLimboTimer.

Definition headsetSmApplyLimboChargeLed : HM unit :=
  s ← headsetGetState;
  if negb (bool_decide (s = HEADSET_STATE_LIMBO)) then mret tt else
  reg ← sm_get headset_limbo_soc_registered;
  hwhen (negb reg) (r ← hcall Soc_Register; sm_do (fun s => s <| headset_limbo_soc_registered := r |>));;
  choice ← headsetSmLimboChargeLedChoice;
  show ← hor (mret ((choice =? 1) || (choice =? 2) || (choice =? 3))) cable_in;
  (if (show : bool) then
     hwhen SM_ENABLE_SSD1315 (hcall (Helmet CallDisplayResume));;
     hcall (Helmet (CallUiRefresh 2));;
     headsetSmLogChargeVbat
   else
     hwhen SM_ENABLE_SSD1315 (hcall (Helmet CallDisplayBlank));;
     headsetSmStopChargeVbatLog);;
  charge_led choice.

Definition headsetSmNoteChargerEvent (id : charger_message) : HM unit :=
  sm_do (fun s => s <| headset_limbo_charge_event := id |>);; headsetSmApplyLimboChargeLed.

(** ** Entering and leaving the states *)
Definition headsetCheckDfu : HM unit :=
  r ← hcall Dfu_GetRebootReason;
  let active := match r with REBOOT_REASON_DFU_RESET => true | _ => false end in
  let revert := match r with REBOOT_REASON_REVERT_RESET => true | _ => false end in
  c ← hand (mret (active || revert)) (hnot (hcall Dfu_IsSilentCommitEnabled));
  hwhen c
    (hwhen active (hcall UpgradeRestartReconnectionTimer);;
     hcall (Ui_InjectBackEndUiInput ui_input_sm_power_on headsetConfigDfuCommitDelayForLimboToPowerOn);;
     hwhen revert (hcall (Dfu_SetRebootReason REBOOT_REASON_NONE))).

Definition headsetEnterLimbo : HM unit :=
  headsetSmStartLimboTimer;;
  headsetSmApplyLimboChargeLed;;
  hwhen INCLUDE_DFU
    (headsetCheckDfu;;
     c ← hcall Dfu_IsSilentCommitEnabled; hwhen c (hcall Dfu_HandleDeviceNotInUse));;
  a ← sm_get auto_poweron;
  hwhen a (sm_do (fun s => s <| auto_poweron := false |>);; hcall (Ui_InjectUiInput ui_input_sm_power_on)).

Definition headsetExitLimbo : HM unit :=
  headsetSmStopLimboTimer;;
  sm_do (fun s => s <| headset_limbo_charge_led := 0 |>);;
  hcall LedManager_StopPattern.

Definition headsetEnterPoweringOn : HM unit := hcall (Helmet CallPowerOn).
Definition headsetEnterPoweringOff : HM unit := hcall (Helmet CallPowerOff);; hcall (Helmet CallPowerSave).
Definition headsetEnterFactoryReset : HM unit := headsetSmDeletePairingAndReset.
Definition headsetExitFactoryReset : HM unit := Panic.

Definition headsetEnterIdle : HM unit :=
  start_idle_if_needed;; hcall (Ui_InformContextChange context_app_sm_idle).
Definition headsetExitIdle : HM unit :=
  headsetSMStopIdleTimer;; hcall (Ui_InformContextChange context_app_sm_exit_idle).

Definition headsetEnterBusy : HM unit := c ← IsWiredAudioActive; hwhen c headsetPrepareForWiredAudio.
Definition headsetExitBusy : HM unit := c ← IsWiredAudioActive; hwhen (negb c) headsetPrepareForBtAudio.

Definition headsetEnterPairing : HM unit :=
  u ← sm_get user_pairing;
  (if (u : bool) then hcall (StereoTopology_ProhibitHandsetConnection true) else hcall (Pairing_Pair u));;
  hcall HandsetService_ConnectableRequest.
Definition headsetExitPairing : HM unit :=
  hcall Pairing_PairStop;;
  sm_do (fun s => s <| user_pairing := false |>);;
  hcall (StereoTopology_ProhibitHandsetConnection false).

Definition headsetEnterTerminating : HM unit :=
  c ← hand (hcall appDeviceGetHandsetBdAddr) (hcall HandsetService_IsBredrConnected);
  hwhen c (hcall ConManagerSendCloseAclRequest);;
  hcall WiredAudioSource_StopMonitoring;;
  hcall appPowerShutdownPrepareResponse.

Definition headsetSm_GetApplicationCurrentContext : HM sm_provider_context_t :=
  s ← headsetGetState;
  match s with
  | HEADSET_STATE_NULL | HEADSET_STATE_LIMBO | HEADSET_STATE_POWERING_ON | HEADSET_STATE_POWERING_OFF
  | HEADSET_STATE_TERMINATING | HEADSET_STATE_FACTORY_RESET => mret context_app_sm_powered_off
  | HEADSET_STATE_BUSY | HEADSET_STATE_IDLE =>
    u ← IsUsbAudioRouted;
    if (u : bool) then mret context_app_sm_active else
    c ← hcall appDeviceIsBredrHandsetConnected;
    mret (if (c : bool) then context_app_sm_idle_connected else context_app_sm_idle)
  | HEADSET_STATE_PAIRING => mret context_app_sm_powered_on
  end.

Definition exit_state (s : headsetState) : HM unit :=
  match s with
  | HEADSET_STATE_NULL => mret tt
  | HEADSET_STATE_LIMBO => headsetExitLimbo
  | HEADSET_STATE_FACTORY_RESET => headsetExitFactoryReset
  | HEADSET_STATE_PAIRING => headsetExitPairing
  | HEADSET_STATE_IDLE => headsetExitIdle
  | HEADSET_STATE_BUSY => headsetExitBusy
  | HEADSET_STATE_POWERING_ON | HEADSET_STATE_POWERING_OFF | HEADSET_STATE_TERMINATING => mret tt
  end.

Definition enter_state (s : headsetState) : HM unit :=
  match s with
  | HEADSET_STATE_LIMBO => headsetEnterLimbo
  | HEADSET_STATE_FACTORY_RESET => headsetEnterFactoryReset
  | HEADSET_STATE_POWERING_ON => headsetEnterPoweringOn
  | HEADSET_STATE_PAIRING => headsetEnterPairing
  | HEADSET_STATE_IDLE => headsetEnterIdle
  | HEADSET_STATE_POWERING_OFF => headsetEnterPoweringOff
  | HEADSET_STATE_BUSY => headsetEnterBusy
  | HEADSET_STATE_TERMINATING => headsetEnterTerminating
  | HEADSET_STATE_NULL => Panic
  end.

Definition headsetSetState (new_state : headsetState) : HM unit :=
  previous_state ← headsetGetState;
  exit_state previous_state;;
  sm_do (fun s => s <| sm_state := new_state |>);;
  hcall (Helmet (CallUiRefresh (state_code new_state)));;
  enter_state new_state;;
  c ← headsetSm_GetApplicationCurrentContext;
  hcall (Ui_InformContextChange c).

Definition headsetSmDetermineCoreState : HM headsetState :=
  busy ← IsHeadsetAudioActive;
  s ← headsetGetState;
  mret (if headsetSmIsActiveState s then (if (busy : bool) then HEADSET_STATE_BUSY else HEADSET_STATE_IDLE) else s).

Definition follow_audio : HM unit :=
  s ← headsetGetState;
  hwhen (headsetSmIsActiveState s) (n ← headsetSmDetermineCoreState; headsetSetState n).

(** ** Requests of the user *)
Definition headsetSmFactoryReset : HM unit := hcall (HMessageSend SM_INTERNAL_FACTORY_RESET).
Definition headsetSmPairHandset : HM unit := hcall (HMessageSend SM_INTERNAL_PAIR_HANDSET).
Definition headsetSmDeleteHandsets : HM unit := hcall (HMessageSend SM_INTERNAL_DELETE_HANDSETS).
Definition headsetSmPowerOff : HM unit := hcall (HMessageSend SM_INTERNAL_POWER_OFF).
Definition headsetSmDisconnectLruHandset : HM unit := hcall StereoTopology_DisconnectLruHandset.
Definition headsetSmConnectHandset : HM unit :=
  w ← IsWiredAudioActive; hwhen (negb w) (hcall StereoTopology_ConnectMruHandset).

Definition headsetSmEnableMultipoint : HM unit :=
  m ← hcall HandsetService_IsBrEdrMultipointEnabled;
  hwhen (negb m) (hcall (HandsetService_Configure true));;
  c ← hand (hcall HandsetService_IsBrEdrMultipointEnabled)
        (n ← hcall HandsetService_GetNumberOfConnectedBredrHandsets; mret (n =? 1));
  hwhen c (hcall HandsetService_ConnectableRequest).

Definition headsetSmDisableMultipoint : HM unit :=
  m ← hcall HandsetService_IsBrEdrMultipointEnabled;
  hwhen m
    (hcall (HandsetService_Configure false);;
     n ← hcall HandsetService_GetNumberOfConnectedBredrHandsets;
     x ← hcall HandsetService_GetMaxNumberOfConnectedBredrHandsets;
     hwhen (x <? n) (hcall StereoTopology_DisconnectLruHandset)).

Definition headsetSmHandlePowerOn : HM unit :=
  s ← headsetGetState; hwhen (bool_decide (s = HEADSET_STATE_LIMBO)) (hcall SystemState_PowerOn).

Definition headsetSmHandleUiInput (u : ui_input_t) : HM unit :=
  match u with
  | ui_input_sm_power_on => headsetSmHandlePowerOn
  | ui_input_sm_power_off => headsetSmPowerOff
  | ui_input_connect_handset => headsetSmConnectHandset
  | ui_input_disconnect_lru_handset => headsetSmDisconnectLruHandset
  | ui_input_sm_pair_handset => headsetSmPairHandset
  | ui_input_sm_delete_handsets => headsetSmDeleteHandsets
  | ui_input_enable_multipoint => headsetSmEnableMultipoint
  | ui_input_disable_multipoint => headsetSmDisableMultipoint
  | ui_input_factory_reset_request => headsetSmFactoryReset
  | ui_input_other => mret tt
  end.

(** ** The messages to itself *)
Definition headsetSmHandleInternalFactoryReset : HM unit :=
  s ← headsetGetState;
  hwhen (state_code HEADSET_STATE_POWERING_ON <? state_code s) (headsetSetState HEADSET_STATE_FACTORY_RESET).

Definition headsetSmHandleInternalPairHandset : HM unit :=
  s ← headsetGetState;
  c ← hor (mret (headsetSmStateIsIdle s)) IsA2dpStreamingAndAvrcpPaused;
  hwhen c
    (hcall WiredAudioSource_StopMonitoring;; hcall HeadsetUsb_AudioDisable;;
     sm_do (fun s => s <| user_pairing := true |>);;
     headsetSetState HEADSET_STATE_PAIRING).

Definition headsetSmHandleInternalDeleteHandsets : HM unit :=
  s ← headsetGetState;
  hwhen (headsetSmIsActiveState s)
    (hcall HandsetService_CancelConnectableRequest;;
     headsetSmInitiateLinkDisconnection headsetConfigDisconnectTimeoutMs).

Definition headsetSmHandleInternalPowerOff : HM unit :=
  s ← headsetGetState;
  hwhen (state_code HEADSET_STATE_LIMBO <? state_code s) (hcall SystemState_PowerOff).

Definition headsetSmHandleTimeoutIdle : HM unit :=
  s ← headsetGetState;
  c ← hand (mret (bool_decide (s = HEADSET_STATE_IDLE))) (hnot (hcall HappDeviceIsHandsetConnected));
  hwhen c
    (online ← hcall SmartHelmet_IsBrOnline;
     if (online : bool) then
       hcall (HMessageCancelAll SM_INTERNAL_TIMEOUT_IDLE);;
       hcall (HMessageSendLater SM_INTERNAL_TIMEOUT_IDLE headsetConfigIdleTimeoutMs)
     else headsetSmPowerOff).

Definition headsetSmHandleTimeoutLimbo : HM unit :=
  s ← headsetGetState;
  hwhen (bool_decide (s = HEADSET_STATE_LIMBO))
    (c ← cable_in;
     if (c : bool) then headsetSmStopLimboTimer
     else hcall (Helmet CallPowerSave);; hcall appPowerOffRequest).

(** ** Indications *)
Definition headsetSmHandlePowerShutdownPrepareInd : HM unit :=
  s ← headsetGetState;
  if bool_decide (s = HEADSET_STATE_LIMBO) then
    c ← hcall Dfu_IsSilentCommitEnabled; hwhen (negb c) (hcall appPowerShutdownPrepareResponse)
  else headsetSetState HEADSET_STATE_TERMINATING.

Definition headsetSmHandlePoweredOn : HM unit :=
  c ← (if ALLOW_USB_BT_COEXISTENCE then hand (hnot IsWiredAudioActive) (hnot (hcall HeadsetUsb_IsAudioConnected))
       else hnot IsWiredAudioActive);
  if (c : bool) then
    p ← hcall BtDevice_IsPairedWithHandset;
    if (p : bool) then headsetSetState HEADSET_STATE_IDLE
    else
      hcall WiredAudioSource_StopMonitoring;; hcall HeadsetUsb_AudioDisable;;
      sm_do (fun s => s <| user_pairing := false |>);;
      headsetSetState HEADSET_STATE_PAIRING
  else
    s ← headsetGetState;
    hwhen (bool_decide (s = HEADSET_STATE_POWERING_ON)) (headsetSetState HEADSET_STATE_IDLE).

Definition headsetSmHandleSystemSartedUpToLimbo : HM unit :=
  s ← headsetGetState;
  if bool_decide (s = HEADSET_STATE_NULL) then headsetSetState HEADSET_STATE_LIMBO else Panic.

Definition headsetSmHandleSystemStateChange (old_state new_state : system_state_state_t) : HM unit :=
  match old_state, new_state with
  | system_state_starting_up, system_state_limbo => headsetSmHandleSystemSartedUpToLimbo
  | system_state_limbo, system_state_powering_on => headsetSetState HEADSET_STATE_POWERING_ON
  | system_state_powering_on, system_state_active => headsetSmHandlePoweredOn
  | system_state_active, system_state_powering_off => headsetSetState HEADSET_STATE_POWERING_OFF
  | _, _ => mret tt
  end.

Definition headsetSmHandlePairingPairConfirm : HM unit :=
  s ← headsetGetState;
  hwhen (headsetSmStateIsPairing s)
    (hcall WiredAudioSource_StartMonitoring;; hcall HeadsetUsb_AudioEnable;; headsetSetState HEADSET_STATE_IDLE).

Definition headsetSmHandleHandsetServiceConnectedInd : HM unit :=
  s ← headsetGetState;
  hwhen (headsetSmStateIsIdle s)
    (hcall (Ui_InformContextChange context_app_sm_idle_connected);;
     headsetSMStopIdleTimer;;
     s ← headsetGetState; hcall (Helmet (CallUiRefresh (state_code s)))).

Definition headsetSmHandleStereoTopologyHandsetDisInd (status : handset_service_status) : HM unit :=
  u ← sm_get user_pairing;
  s ← headsetGetState;
  hwhen (u && headsetSmStateIsPairing s)
    match status with
    | handset_service_status_success => hcall (Pairing_Pair true)
    | handset_service_status_failed => headsetSetState HEADSET_STATE_IDLE
    | handset_service_status_other => mret tt
    end.

Definition headsetSmUpdateDisconnectingLink : HM unit :=
  l ← sm_get disconnect_lock;
  hwhen l (a ← hcall HandsetService_IsAnyBredrConnected; hwhen (negb a) (sm_do (fun s => s <| disconnect_lock := false |>))).

Definition headsetSmHandleHandsetServiceDisconnectedInd : HM unit :=
  headsetSmUpdateDisconnectingLink;;
  s ← headsetGetState;
  c ← hand (mret (negb (headsetSmStateIsPairing s))) (n ← headsetSmDetermineCoreState; mret (headsetSmStateIsIdle n));
  hwhen c (hcall (Ui_InformContextChange context_app_sm_idle));;
  start_idle_if_needed.

Definition headsetSmWiredAudioConnected : HM unit :=
  s ← headsetGetState;
  hwhen (bool_decide (s = HEADSET_STATE_POWERING_ON) || headsetSmIsActiveState s) (headsetSetState HEADSET_STATE_BUSY).

Definition headsetSmWiredAudioDisconnected : HM unit :=
  s ← headsetGetState; hwhen (bool_decide (s = HEADSET_STATE_BUSY)) (headsetSetState HEADSET_STATE_IDLE).

(** ** The wired audio controller, headset_wired_audio_controller.c *)
Definition headsetWiredAudioController_HandleCurrentWiredStatus : HM unit :=
  is_wired_connected ← IsWiredAudioActive;
  was ← sm_get wired_connected;
  hwhen (negb (eqb is_wired_connected was))
    (if (is_wired_connected : bool) then headsetSmWiredAudioConnected else headsetSmWiredAudioDisconnected).

Definition HeadsetWiredAudioController_Enable : HM unit :=
  paused ← sm_get pause_wired_controller;
  hwhen paused
    (headsetWiredAudioController_HandleCurrentWiredStatus;;
     sm_do (fun s => s <| pause_wired_controller := false |>)).

(** Neither the jack nor the host delivers audio. *)
Definition no_wired_source : HM bool :=
  hand (hnot (hcall WiredAudioSource_IsAudioAvailable)) (hnot (hcall HeadsetUsb_IsAudioConnected)).

Definition headsetWiredAudioController_HandleMessage (m : WiredMsg) : HM unit :=
  paused ← sm_get pause_wired_controller;
  if (paused : bool) then mret tt else
  match m with
  | WIRED_AUDIO_DEVICE_CONNECT_IND => headsetSmWiredAudioConnected
  | USB_DEVICE_ENUMERATED =>
    hwhen (negb ALLOW_USB_BT_COEXISTENCE)
      (e ← hcall HeadsetUsb_IsAudioEnabled; hwhen e headsetSmWiredAudioConnected)
  | USB_DEVICE_DECONFIGURED =>
    hwhen (negb ALLOW_USB_BT_COEXISTENCE)
      (e ← hcall HeadsetUsb_IsAudioEnabled;
       hwhen e (c ← no_wired_source; hwhen c headsetSmWiredAudioDisconnected))
  | WIRED_AUDIO_DEVICE_DISCONNECT_IND => c ← no_wired_source; hwhen c headsetSmWiredAudioDisconnected
  | WiredMsgOther => mret tt
  end.

Definition HeadsetWiredAudioController_Init : HM unit :=
  sm_do (fun s => s <| pause_wired_controller := false |>);;
  hcall WiredAudioSource_ClientRegister;;
  hcall AudioSources_RegisterObserver_line_in;;
  hwhen (negb ALLOW_USB_BT_COEXISTENCE) (hcall UsbDevice_ClientRegister;; hcall AudioSources_RegisterObserver_usb).

Definition headetSmHandleTopologyStopCfm : HM unit :=
  s ← headsetGetState;
  if bool_decide (s = HEADSET_STATE_POWERING_OFF)
  then headsetSetState HEADSET_STATE_LIMBO;; hcall appPowerOffRequest
  else HeadsetWiredAudioController_Enable.

(** The routing of the USB source changed; [known] is whether the change is
    one of the two it knows. *)
Definition headsetSm_AudioRouted (usb known : bool) : HM unit :=
  hwhen usb (if known then follow_audio else Panic).

(** A charge that begins while powering off keeps the headset in limbo. *)
Definition charge_keeps_limbo : HM unit :=
  s ← headsetGetState; hwhen (bool_decide (s = HEADSET_STATE_POWERING_OFF)) (headsetSetState HEADSET_STATE_LIMBO).

Definition dfu_only (m : HM unit) : HM unit := if INCLUDE_DFU then m else hcall UnexpectedMessage_HandleMessage.

Definition headsetSmHandleMessage (m : HMsg) : HM unit :=
  match m with
  | UiInput u => headsetSmHandleUiInput u
  | DFU_REQUESTED_TO_CONFIRM => dfu_only (hcall (Dfu_SetRebootReason REBOOT_REASON_DFU_RESET))
  | DFU_REQUESTED_IN_PROGRESS => dfu_only (hcall (Dfu_SetRebootReason REBOOT_REASON_ABRUPT_RESET))
  | DFU_COMPLETED => dfu_only (hcall GattServerGatt_SetGattDbChanged;; hcall (Dfu_SetRebootReason REBOOT_REASON_NONE))
  | DFU_STARTED | DFU_ABORTED | DFU_READY_FOR_SILENT_COMMIT => dfu_only (mret tt)
  | ANC_UPDATE_STATE_ENABLE_IND => headsetSmHandleAncUpdateStateEnableInd
  | ANC_UPDATE_STATE_DISABLE_IND => headsetSmHandleAncUpdateStateDisableInd
  | LEAKTHROUGH_UPDATE_STATE_IND state => headsetSmHandleLeakthroughStateInd state
  | SYSTEM_STATE_STATE_CHANGE old_state new_state => headsetSmHandleSystemStateChange old_state new_state
  | PAIRING_PAIR_CFM => headsetSmHandlePairingPairConfirm
  | HANDSET_SERVICE_DISCONNECTED_IND => headsetSmHandleHandsetServiceDisconnectedInd
  | HANDSET_SERVICE_CONNECTED_IND => headsetSmHandleHandsetServiceConnectedInd
  | STEREO_TOPOLOGY_STOP_CFM => headetSmHandleTopologyStopCfm
  | STEREO_TOPOLOGY_HANDSET_DISCONNECTED_IND status => headsetSmHandleStereoTopologyHandsetDisInd status
  | AV_STREAMING_ACTIVE_IND | AV_STREAMING_INACTIVE_IND => follow_audio
  | TELEPHONY_CALL_ENDED usb => follow_audio;; hwhen (INCLUDE_DFU && negb usb) (hcall (UpgradeSetScoActive false))
  | TELEPHONY_CALL_ONGOING usb => follow_audio;; hwhen (INCLUDE_DFU && negb usb) (hcall (UpgradeSetScoActive true))
  | ChargerMsg CHARGER_MESSAGE_ATTACHED => charge_keeps_limbo;; headsetSmNoteChargerEvent CHARGER_MESSAGE_ATTACHED
  | ChargerMsg CHARGER_MESSAGE_CHARGING_OK => charge_keeps_limbo;; headsetSmNoteChargerEvent CHARGER_MESSAGE_CHARGING_OK
  | ChargerMsg CHARGER_MESSAGE_CHARGING_LOW => charge_keeps_limbo;; headsetSmNoteChargerEvent CHARGER_MESSAGE_CHARGING_LOW
  | ChargerMsg c => headsetSmNoteChargerEvent c
  | SOC_UPDATE_IND => headsetSmApplyLimboChargeLed
  | APP_POWER_SHUTDOWN_PREPARE_IND => headsetSmHandlePowerShutdownPrepareInd
  | SmInternal SM_INTERNAL_FACTORY_RESET => headsetSmHandleInternalFactoryReset
  | SmInternal SM_INTERNAL_PAIR_HANDSET => headsetSmHandleInternalPairHandset
  | SmInternal SM_INTERNAL_DELETE_HANDSETS => headsetSmHandleInternalDeleteHandsets
  | SmInternal SM_INTERNAL_POWER_OFF => headsetSmHandleInternalPowerOff
  | SmInternal SM_INTERNAL_TIMEOUT_IDLE => headsetSmHandleTimeoutIdle
  | SmInternal SM_INTERNAL_TIMEOUT_LIMBO => headsetSmHandleTimeoutLimbo
  | SmInternal SM_INTERNAL_CHARGE_VBAT_LOG => headsetSmLogChargeVbat
  | SmInternal SM_INTERNAL_LINK_DISCONNECTION_COMPLETE => headsetSmHandleInternalLinkDisconnectionComplete
  | SmInternal SM_INTERNAL_TIMEOUT_LINK_DISCONNECTION => headsetSmLinkDisconnectionTimeout
  | SmInternal SM_INTERNAL_DUMMY_LOG =>
    if HEADSET_DEBUG then hcall (HMessageSendLater SM_INTERNAL_DUMMY_LOG 1000) else hcall UnexpectedMessage_HandleMessage
  | HMsgOther => hcall UnexpectedMessage_HandleMessage
  end.

(** ** The contexts for the user interface, and the start *)
Definition headsetSm_GetApplicationActiveStateContext : HM sm_provider_context_t :=
  c ← headsetSm_GetApplicationCurrentContext;
  mret (if bool_decide (c = context_app_sm_powered_off) then context_app_sm_inactive else context_app_sm_active).

Definition headsetSm_IsLogicalInputScreeningActive (logical_input : Z) : HM bool :=
  c ← headsetSm_GetApplicationCurrentContext;
  if bool_decide (c = context_app_sm_powered_off) then hcall (HeadsetUi_IsLogicalInputScreenedInLimboState logical_input)
  else mret false.

(** After a panic the headset powers on by itself only if a reboot asked for
    it: appConfigEnableAutoPowerOnAfterPanic is FALSE.  [RegisterClients]
    stands for the registrations with the services of the ADK. *)
Definition headsetSmInit : HM unit :=
  sm_do (fun s => s <| sm_state := HEADSET_STATE_NULL |> <| disconnect_lock := false |> <| user_pairing := false |>
    <| auto_poweron := ENABLE_HEADSET_AUTO_POWER_ON |>);;
  r ← hcall SystemReboot_GetAction_active;
  hwhen r (sm_do (fun s => s <| auto_poweron := true |>);; hcall SystemReboot_ResetAction);;
  hcall RegisterClients;;
  hwhen HEADSET_DEBUG (hcall (HMessageSendLater SM_INTERNAL_DUMMY_LOG 1000)).
End headset_sm.
