(* ===== verification/HeadsetLogic.v ===== *)
(** Reasoning about the handlers of the headset state machine: a triple for
    computations that may end at Panic, the frame of the calls that leave
    the state of the headset alone, and the walk through every handler. *)
From S2P Require Import Prelude Config Board Platform World Helmet System HeadsetSm.

(** * Triples *)
Section triples.
Context `{Surroundings}.

(** From [P], [m] returns with [Q], or panics, which only [E] allows. *)
Definition triple {A} (E : Prop) (P : HW -> Prop) (m : HM A) (Q : A -> HW -> Prop) : Prop :=
  forall w, P w -> match fst (m w) with Some x => Q x (snd (m w)) | None => E end.

Lemma triple_ret {A} E (P : HW -> Prop) (x : A) (Q : A -> HW -> Prop) : (forall w, P w -> Q x w) -> triple E P (mret x) Q.
Proof. intros HQ w Hw. by apply HQ. Qed.

Lemma triple_bind {A B} E P (m : HM A) (k : A -> HM B) R Q :
  triple E P m R -> (forall x, triple E (R x) (k x) Q) -> triple E P (m ≫= k) Q.
Proof.
  intros Hm Hk w Hw. specialize (Hm w Hw). unfold mbind, HM_bind.
  destruct (m w) as [[x |] w1]; cbn in *; [by apply Hk | done].
Qed.

Lemma triple_weaken {A} (E E' : Prop) (P : HW -> Prop) (m : HM A) (Q Q' : A -> HW -> Prop) :
  triple E P m Q -> (E -> E') -> (forall x w, Q x w -> Q' x w) -> triple E' P m Q'.
Proof. intros Hm HE HQ w Hw. specialize (Hm w Hw). destruct (fst (m w)); auto. Qed.

Lemma triple_panic E (P : HW -> Prop) Q : (forall w, P w -> E) -> triple E P Panic Q.
Proof. intros HE w Hw. cbn. eauto. Qed.
End triples.

(** * The frame *)

(** Not a call into the module. *)
Definition quiet (q : HReq) : bool := match q with Helmet _ => false | _ => true end.

(** What a fact [J s] about the surroundings needs, to hold in state [s]
    whatever the machine asks for there. *)
Class Frame `{Surroundings} (J : headsetState -> HEnv -> Prop) : Prop := {
  frame_quiet s q e : quiet q = true -> J s e -> J s (snd (hserve q e));
  frame_display s b e : J s e -> J s (snd (hserve (Helmet (if b : bool then CallDisplayResume else CallDisplayBlank)) e));
  frame_refresh s s' e : J s e -> J s' (snd (hserve (Helmet (CallUiRefresh (state_code s'))) e));
  frame_on e : J HEADSET_STATE_POWERING_ON e -> J HEADSET_STATE_POWERING_ON (snd (hserve (Helmet CallPowerOn) e));
  frame_off s b e : s = HEADSET_STATE_LIMBO \/ s = HEADSET_STATE_POWERING_OFF -> J s e ->
    J s (snd (hserve (Helmet (if b : bool then CallPowerOff else CallPowerSave)) e)) }.

#[export] Instance frame_true `{Surroundings} : Frame (fun _ _ => True).
Proof. by split. Qed.

Section frame.
Context `{HeadsetBuild} `{Surroundings} (J : headsetState -> HEnv -> Prop) `{HJ : !Frame J}.

(** The headset is in state [s], where [J s] holds. *)
Definition at_state (s : headsetState) (w : HW) : Prop := sm_state (h_sm w) = s /\ J s (h_env w).

(** [m] returns, and in the same state. *)
Definition stays {A} (s : headsetState) (m : HM A) : Prop :=
  forall w, at_state s w -> is_Some (fst (m w)) /\ at_state s (snd (m w)).

Lemma stays_triple {A} E s (m : HM A) : stays s m -> triple E (at_state s) m (fun _ => at_state s).
Proof. intros Hm w Hw. destruct (Hm w Hw) as [[x Hx] Hs]. by rewrite Hx. Qed.

Lemma stays_bind {A B} s (m : HM A) (k : A -> HM B) : stays s m -> (forall x, stays s (k x)) -> stays s (m ≫= k).
Proof.
  intros Hm Hk w Hw. specialize (Hm w Hw). unfold mbind, HM_bind.
  destruct (m w) as [[x |] w1]; cbn in *; destruct Hm as [[y [=]] Hm]. by apply Hk.
Qed.

Lemma stays_ret {A} s (x : A) : stays s (mret x).
Proof. intros w Hw. by split; [eexists |]. Qed.

Lemma stays_sm_get {A} s (f : sm_st -> A) : stays s (sm_get f).
Proof. intros w Hw. by split; [eexists |]. Qed.

Lemma stays_sm_do s f : (forall x, sm_state (f x) = sm_state x) -> stays s (sm_do f).
Proof. intros Hf w [Hs Hj]. split; [by eexists |]. split; [by rewrite <- Hs; apply Hf | done]. Qed.

Lemma stays_call s q : quiet q = true -> stays s (hcall q).
Proof. intros Hq w [Hs Hj]. split; [by eexists |]. split; cbn; [done | by apply frame_quiet]. Qed.

Lemma stays_display s b : stays s (hcall (Helmet (if b : bool then CallDisplayResume else CallDisplayBlank))).
Proof. intros w [Hs Hj]. split; [by eexists |]. split; cbn; [done | by apply frame_display]. Qed.

Lemma stays_refresh s : stays s (hcall (Helmet (CallUiRefresh (state_code s)))).
Proof. intros w [Hs Hj]. split; [by eexists |]. split; cbn; [done | by eapply frame_refresh]. Qed.

Lemma stays_off s b : s = HEADSET_STATE_LIMBO \/ s = HEADSET_STATE_POWERING_OFF ->
  stays s (hcall (Helmet (if b : bool then CallPowerOff else CallPowerSave))).
Proof. intros Ho w [Hs Hj]. split; [by eexists |]. split; cbn; [done | by apply frame_off]. Qed.

(** The state is known. *)
Lemma stays_get_state {A} s (k : headsetState -> HM A) : stays s (k s) -> stays s (headsetGetState ≫= k).
Proof. intros Hk w Hw. change ((headsetGetState ≫= k) w) with (k (sm_state (h_sm w)) w). destruct Hw as [<- Hj]. by apply Hk. Qed.

Lemma triple_get_state {A} E s (k : headsetState -> HM A) Q :
  triple E (at_state s) (k s) Q -> triple E (at_state s) (headsetGetState ≫= k) Q.
Proof. intros Hk w Hw. change ((headsetGetState ≫= k) w) with (k (sm_state (h_sm w)) w). destruct Hw as [<- Hj]. by apply Hk. Qed.

Lemma triple_stay {A B} E s (m : HM A) (k : A -> HM B) Q :
  stays s m -> (forall x, triple E (at_state s) (k x) Q) -> triple E (at_state s) (m ≫= k) Q.
Proof. intros Hm. apply triple_bind. by apply stays_triple. Qed.

Lemma stays_when s c m : (c = true -> stays s m) -> stays s (hwhen c m).
Proof. intros Hm. destruct c; [by apply Hm | apply stays_ret]. Qed.

Lemma stays_for_each {A} s (l : list A) f : (forall x, stays s (f x)) -> stays s (hfor_each l f).
Proof. intros Hf. induction l; cbn [hfor_each]; [apply stays_ret |]. apply stays_bind; [apply Hf | done]. Qed.
End frame.

(** Splits on the tests of the state, which then is known. *)
Ltac state_case :=
  match goal with
  | |- context [bool_decide (?s = ?c)] => destruct (bool_decide_reflect (s = c)); subst; cbn [negb orb andb]
  end.

Create HintDb stays.
#[export] Hint Resolve stays_ret stays_sm_get stays_refresh : stays.
Ltac stay_walk :=
  repeat first
    [ progress intros
    | match goal with Hb : bool_decide (_ = _) = true |- _ => apply bool_decide_eq_true in Hb; subst end
    | done
    | solve [eauto 2 with stays nocore]
    | apply (stays_display _ _ true)
    | apply (stays_display _ _ false)
    | apply (stays_off _ _ true); by auto
    | apply (stays_off _ _ false); by auto
    | match goal with |- stays _ _ (hcall ?q) => exact (stays_call _ _ q eq_refl) end
    | apply stays_sm_do; by intros []
    | apply stays_get_state
    | apply stays_bind
    | apply stays_when
    | apply stays_for_each
    | progress unfold hand, hor, hnot
    | state_case
    | case_match ].

(** * The functions that leave the state alone *)
Section stay.
Context `{HeadsetBuild} `{Surroundings} (J : headsetState -> HEnv -> Prop) `{HJ : !Frame J}.

Lemma stays_usb s : stays J s IsUsbNotConnected.
Proof. unfold IsUsbNotConnected. stay_walk. Qed.
Lemma stays_wired s : stays J s IsWiredAudioActive.
Proof. unfold IsWiredAudioActive. stay_walk. Qed.
Lemma stays_routed s : stays J s IsUsbAudioRouted.
Proof. unfold IsUsbAudioRouted. stay_walk. Qed.
#[local] Hint Resolve stays_usb stays_wired stays_routed : stays.

Lemma stays_audio s : stays J s IsHeadsetAudioActive.
Proof. unfold IsHeadsetAudioActive, IsBtAudioActive. stay_walk. Qed.
Lemma stays_idle_needed s : stays J s headsetSmIsIdleTimerNeedToStart.
Proof. unfold headsetSmIsIdleTimerNeedToStart, IsBtConnectionIdle. stay_walk. Qed.
Lemma stays_stop_idle s : stays J s headsetSMStopIdleTimer.
Proof. unfold headsetSMStopIdleTimer. stay_walk. Qed.
#[local] Hint Resolve stays_audio stays_idle_needed stays_stop_idle : stays.

Lemma stays_start_idle s : stays J s start_idle_if_needed.
Proof. unfold start_idle_if_needed, headsetSMStartIdleTimer. stay_walk. Qed.
#[local] Hint Resolve stays_start_idle : stays.

Lemma stays_cable s : stays J s cable_in.
Proof. unfold cable_in. stay_walk. Qed.
#[local] Hint Resolve stays_cable : stays.

Lemma stays_choice s : stays J s headsetSmLimboChargeLedChoice.
Proof. unfold headsetSmLimboChargeLedChoice, headsetSmChargeCompleted. stay_walk. Qed.
Lemma stays_vbat s : stays J s headsetSmLogChargeVbat.
Proof. unfold headsetSmLogChargeVbat, headsetSmStopChargeVbatLog, headsetSmStartChargeVbatLog. stay_walk. Qed.
Lemma stays_led s c : stays J s (charge_led c).
Proof. unfold charge_led, headsetSmStopLimboTimer, headsetSmStartLimboTimer. stay_walk. Qed.
#[local] Hint Resolve stays_choice stays_vbat stays_led : stays.

Lemma stays_charge s : stays J s headsetSmApplyLimboChargeLed.
Proof.
  unfold headsetSmApplyLimboChargeLed, headsetSmStopChargeVbatLog. stay_walk.
Qed.
#[local] Hint Resolve stays_charge : stays.

Lemma stays_context s : stays J s headsetSm_GetApplicationCurrentContext.
Proof. unfold headsetSm_GetApplicationCurrentContext. stay_walk. Qed.

Lemma stays_core s : stays J s headsetSmDetermineCoreState.
Proof. unfold headsetSmDetermineCoreState. stay_walk. Qed.

(** The machine panics when it leaves the factory reset. *)
Lemma stays_exit s : s <> HEADSET_STATE_FACTORY_RESET -> stays J s (exit_state s).
Proof.
  intros Hs. destruct s; try done; cbn [exit_state];
    unfold headsetExitLimbo, headsetExitPairing, headsetExitIdle, headsetExitBusy, headsetPrepareForBtAudio,
      headsetSmStopLimboTimer; stay_walk.
Qed.

Lemma stays_on : stays J HEADSET_STATE_POWERING_ON (hcall (Helmet CallPowerOn)).
Proof. intros w [Hs Hj]. split; [by eexists |]. split; [done | by apply frame_on]. Qed.

Lemma stays_enter s : s <> HEADSET_STATE_NULL -> stays J s (enter_state s).
Proof.
  intros Hs. pose proof stays_on. destruct s; try done; cbn [enter_state];
    unfold headsetEnterLimbo, headsetEnterFactoryReset, headsetEnterPairing, headsetEnterIdle, headsetEnterBusy,
      headsetEnterPoweringOn, headsetEnterPoweringOff, headsetEnterTerminating, headsetSmDeletePairingAndReset,
      headsetSmClearPsStore, headsetCheckDfu, headsetPrepareForWiredAudio, HeadsetWiredAudioController_Disable,
      headsetSmStartLimboTimer; stay_walk.
Qed.

(** Entering a state, from any state but that of the factory reset. *)
Lemma triple_set_state s s' : s' <> HEADSET_STATE_NULL ->
  triple (s = HEADSET_STATE_FACTORY_RESET) (at_state J s) (headsetSetState s')
    (fun _ w => s <> HEADSET_STATE_FACTORY_RESET /\ at_state J s' w).
Proof.
  intros Hs'. unfold headsetSetState. apply triple_get_state.
  destruct (decide (s = HEADSET_STATE_FACTORY_RESET)) as [-> |].
  { apply triple_bind with (R := fun _ _ => False); [by apply triple_panic | by intros x w]. }
  apply triple_stay; [by apply stays_exit | intros _].
  eapply triple_bind with (R := fun _ w => sm_state (h_sm w) = s' /\ J s (h_env w)); [by intros w [_ Hj] | intros _].
  eapply triple_bind with (R := fun _ => at_state J s').
  { intros w [Hw Hj]. split; [done | by eapply frame_refresh]. }
  intros _. apply triple_stay; [by apply stays_enter | intros _]. apply triple_stay; [apply stays_context | intros c].
  eapply triple_weaken; [apply stays_triple | done | by intros x w Hw; split; [| exact Hw]]. stay_walk.
Qed.

(** Handlers that stay. *)
Lemma stays_disconnect s t : stays J s (headsetSmInitiateLinkDisconnection t).
Proof. unfold headsetSmInitiateLinkDisconnection, headsetSmDisconnectLink. stay_walk. Qed.
#[local] Hint Resolve stays_disconnect stays_core stays_context : stays.

Lemma stays_ui s u : stays J s (headsetSmHandleUiInput u).
Proof.
  destruct u; cbn [headsetSmHandleUiInput];
    unfold headsetSmHandlePowerOn, headsetSmPowerOff, headsetSmConnectHandset, headsetSmDisconnectLruHandset,
      headsetSmPairHandset, headsetSmDeleteHandsets, headsetSmEnableMultipoint, headsetSmDisableMultipoint,
      headsetSmFactoryReset; stay_walk.
Qed.

Lemma stays_charger s e : stays J s (headsetSmNoteChargerEvent e).
Proof. unfold headsetSmNoteChargerEvent. stay_walk. Qed.

Lemma stays_topology_disconnected s : stays J s headsetSmHandleHandsetServiceDisconnectedInd.
Proof. unfold headsetSmHandleHandsetServiceDisconnectedInd, headsetSmUpdateDisconnectingLink. stay_walk. Qed.

Lemma stays_idle_timeout s : stays J s headsetSmHandleTimeoutIdle.
Proof. unfold headsetSmHandleTimeoutIdle, headsetSmPowerOff. stay_walk. Qed.

Lemma stays_limbo_timeout s : stays J s headsetSmHandleTimeoutLimbo.
Proof. unfold headsetSmHandleTimeoutLimbo, headsetSmStopLimboTimer. stay_walk. Qed.
End stay.

(** * The state diagram *)

(** The states a message may lead to. *)
Definition targets (m : HMsg) (s : headsetState) : list headsetState :=
  match m, s with
  | SYSTEM_STATE_STATE_CHANGE system_state_starting_up system_state_limbo, HEADSET_STATE_NULL => [HEADSET_STATE_LIMBO]
  | SYSTEM_STATE_STATE_CHANGE system_state_limbo system_state_powering_on, _ => [HEADSET_STATE_POWERING_ON]
  | SYSTEM_STATE_STATE_CHANGE system_state_powering_on system_state_active, _ => [HEADSET_STATE_IDLE; HEADSET_STATE_PAIRING]
  | SYSTEM_STATE_STATE_CHANGE system_state_active system_state_powering_off, _ => [HEADSET_STATE_POWERING_OFF]
  | PAIRING_PAIR_CFM, HEADSET_STATE_PAIRING => [HEADSET_STATE_IDLE]
  | STEREO_TOPOLOGY_STOP_CFM, HEADSET_STATE_POWERING_OFF => [HEADSET_STATE_LIMBO]
  | STEREO_TOPOLOGY_STOP_CFM, (HEADSET_STATE_POWERING_ON | HEADSET_STATE_IDLE) => [HEADSET_STATE_BUSY]
  | STEREO_TOPOLOGY_STOP_CFM, HEADSET_STATE_BUSY => [HEADSET_STATE_IDLE; HEADSET_STATE_BUSY]
  | STEREO_TOPOLOGY_HANDSET_DISCONNECTED_IND handset_service_status_failed, HEADSET_STATE_PAIRING => [HEADSET_STATE_IDLE]
  | (AV_STREAMING_ACTIVE_IND | AV_STREAMING_INACTIVE_IND | TELEPHONY_CALL_ENDED _ | TELEPHONY_CALL_ONGOING _),
      (HEADSET_STATE_IDLE | HEADSET_STATE_BUSY) => [HEADSET_STATE_IDLE; HEADSET_STATE_BUSY]
  | ChargerMsg (CHARGER_MESSAGE_ATTACHED | CHARGER_MESSAGE_CHARGING_OK | CHARGER_MESSAGE_CHARGING_LOW),
      HEADSET_STATE_POWERING_OFF => [HEADSET_STATE_LIMBO]
  | APP_POWER_SHUTDOWN_PREPARE_IND, HEADSET_STATE_LIMBO => []
  | APP_POWER_SHUTDOWN_PREPARE_IND, _ => [HEADSET_STATE_TERMINATING]
  | SmInternal SM_INTERNAL_PAIR_HANDSET, _ => [HEADSET_STATE_PAIRING]
  | SmInternal SM_INTERNAL_FACTORY_RESET,
      (HEADSET_STATE_PAIRING | HEADSET_STATE_IDLE | HEADSET_STATE_BUSY | HEADSET_STATE_TERMINATING | HEADSET_STATE_POWERING_OFF) =>
    [HEADSET_STATE_FACTORY_RESET]
  | _, _ => []
  end.

(** Where the code panics: leaving the factory reset, and the start-up told
    to a machine that has started. *)
Definition may_panic (m : HMsg) (s : headsetState) : Prop :=
  s = HEADSET_STATE_FACTORY_RESET /\ targets m s <> [] \/
  m = SYSTEM_STATE_STATE_CHANGE system_state_starting_up system_state_limbo /\ s <> HEADSET_STATE_NULL.

Section diagram.
Context `{HeadsetBuild} `{Surroundings} (J : headsetState -> HEnv -> Prop) `{HJ : !Frame J}.

(** [m] leads from [s] to [s] itself or a state of [l]; it panics only on
    the way out of the factory reset. *)
Definition moves {A} (E : Prop) (s : headsetState) (m : HM A) (l : list headsetState) : Prop :=
  triple (s = HEADSET_STATE_FACTORY_RESET /\ l <> [] \/ E) (at_state J s) m 
    (fun _ w => exists s', (s' = s \/ s <> HEADSET_STATE_FACTORY_RESET /\ s' ∈ l) /\ at_state J s' w).

Lemma moves_stay {A} E s (m : HM A) l : stays J s m -> moves E s m l.
Proof. intros Hm. eapply triple_weaken; [by apply stays_triple | done |]. intros x w Hw. exists s. split; [by left | done]. Qed.

Lemma moves_set E s s' l : s' <> HEADSET_STATE_NULL -> s' ∈ l -> moves E s (headsetSetState s') l.
Proof.
  intros Hs Hl. eapply triple_weaken; [by apply triple_set_state | |].
  - intros ->. left. split; [done |]. by intros ->; apply not_elem_of_nil in Hl.
  - intros x w [Hn Hw]. exists s'. split; [by right | done].
Qed.

Lemma moves_when E s c s' l : s' <> HEADSET_STATE_NULL -> s' ∈ l -> moves E s (hwhen c (headsetSetState s')) l.
Proof. intros Hs Hl. destruct c; [by apply moves_set | apply moves_stay, stays_ret]. Qed.

Lemma moves_get {A} E s (k : headsetState -> HM A) l : moves E s (k s) l -> moves E s (headsetGetState ≫= k) l.
Proof. apply triple_get_state. Qed.

Lemma moves_bind {A B} E s (m : HM A) (k : A -> HM B) l : stays J s m -> (forall x, moves E s (k x) l) -> moves E s (m ≫= k) l.
Proof. intros Hm Hk. by apply triple_stay. Qed.

Lemma moves_then {A B} E s (m : HM A) (k : A -> HM B) l :
  moves E s m l -> (forall x s', stays J s' (k x)) -> moves E s (m ≫= k) l.
Proof.
  intros Hm Hk. eapply triple_bind; [exact Hm |]. intros x w (s' & Hs & Hw).
  destruct (Hk x s' w Hw) as [[y ->] Hw']. by exists s'.
Qed.

Lemma moves_panic (E : Prop) s l : E -> moves E s Panic l.
Proof. intros He. apply triple_panic. auto. Qed.

Lemma moves_follow E s l : (s = HEADSET_STATE_IDLE \/ s = HEADSET_STATE_BUSY -> l = [HEADSET_STATE_IDLE; HEADSET_STATE_BUSY]) ->
  moves E s follow_audio l.
Proof.
  intros Hl. unfold follow_audio. apply moves_get.
  destruct (headsetSmIsActiveState s) eqn:Ha; [| apply moves_stay, stays_ret].
  assert (s = HEADSET_STATE_IDLE \/ s = HEADSET_STATE_BUSY) as Hs
    by (unfold headsetSmIsActiveState in Ha; apply orb_true_iff in Ha as [?%bool_decide_eq_true | ?%bool_decide_eq_true]; auto).
  rewrite (Hl Hs). unfold headsetSmDetermineCoreState, hwhen.
  eapply triple_bind with (R := fun n w => (n = HEADSET_STATE_IDLE \/ n = HEADSET_STATE_BUSY) /\ at_state J s w).
  - eapply triple_stay; [apply stays_audio; tc_solve |]. intros b. apply triple_get_state. rewrite Ha.
    apply triple_ret. intros w Hw. split; [| done]. destruct b; auto.
  - intros n w [[-> | ->] Hw]; (eapply moves_set; [| | exact Hw]; [done | by repeat constructor]).
Qed.

Lemma moves_charge E s l : (s = HEADSET_STATE_POWERING_OFF -> l = [HEADSET_STATE_LIMBO]) -> moves E s charge_keeps_limbo l.
Proof.
  intros Hl. unfold charge_keeps_limbo. apply moves_get. state_case; [| apply moves_stay, stays_ret].
  rewrite Hl by done. by apply moves_set; [| constructor].
Qed.

(** The wired audio calls. *)
Lemma moves_connected E s l : (s = HEADSET_STATE_POWERING_ON \/ s = HEADSET_STATE_IDLE \/ s = HEADSET_STATE_BUSY -> HEADSET_STATE_BUSY ∈ l) ->
  moves E s headsetSmWiredAudioConnected l.
Proof.
  intros Hl. unfold headsetSmWiredAudioConnected, headsetSmIsActiveState. apply moves_get.
  destruct s; try apply moves_stay, stays_ret; apply moves_set; auto.
Qed.

Lemma moves_disconnected E s l : (s = HEADSET_STATE_BUSY -> HEADSET_STATE_IDLE ∈ l) -> moves E s headsetSmWiredAudioDisconnected l.
Proof.
  intros Hl. unfold headsetSmWiredAudioDisconnected. apply moves_get.
  destruct s; try apply moves_stay, stays_ret; apply moves_set; auto.
Qed.

Lemma moves_wired E m s : moves E s (headsetWiredAudioController_HandleMessage m) [HEADSET_STATE_IDLE; HEADSET_STATE_BUSY].
Proof.
  assert (moves E s headsetSmWiredAudioConnected [HEADSET_STATE_IDLE; HEADSET_STATE_BUSY]) as Hc
    by (apply moves_connected; by repeat constructor).
  assert (moves E s headsetSmWiredAudioDisconnected [HEADSET_STATE_IDLE; HEADSET_STATE_BUSY]) as Hd
    by (apply moves_disconnected; by repeat constructor).
  unfold headsetWiredAudioController_HandleMessage, no_wired_source, hwhen.
  apply moves_bind; [stay_walk | intros []; [apply moves_stay, stays_ret |]].
  destruct m; repeat first [exact Hc | exact Hd | apply moves_stay, stays_ret | apply moves_bind; [stay_walk | intros ?] | case_match].
Qed.

Create HintDb moves.
#[local] Hint Resolve moves_stay moves_follow moves_charge : moves.

Lemma moves_system E s o n :
  (o = system_state_starting_up /\ n = system_state_limbo /\ s <> HEADSET_STATE_NULL -> E) ->
  moves E s (headsetSmHandleSystemStateChange o n) (targets (SYSTEM_STATE_STATE_CHANGE o n) s).
Proof.
  intros HE. destruct o, n; cbn [headsetSmHandleSystemStateChange targets]; try (by apply moves_stay, stays_ret);
    try (by apply moves_set; [| by repeat constructor]).
  - unfold headsetSmHandleSystemSartedUpToLimbo. apply moves_get. state_case; [by apply moves_set; [| constructor] |].
    apply moves_panic. auto.
  - unfold headsetSmHandlePoweredOn. apply moves_bind.
    { case_match; [| apply stays_bind; [apply stays_wired; tc_solve |]]; pose proof (stays_wired J); stay_walk. }
    intros []; [| apply moves_get; unfold hwhen; state_case; [by apply moves_set; [| constructor] | apply moves_stay, stays_ret]].
    apply moves_bind; [stay_walk |]. intros []; [by apply moves_set; [| constructor] |].
    do 3 (apply moves_bind; [stay_walk | intros _]). by apply moves_set; [| by repeat constructor].
Qed.

Lemma moves_shutdown E s : moves E s headsetSmHandlePowerShutdownPrepareInd (targets APP_POWER_SHUTDOWN_PREPARE_IND s).
Proof.
  unfold headsetSmHandlePowerShutdownPrepareInd. apply moves_get. state_case; [apply moves_stay; stay_walk |].
  apply moves_set; [done |]. destruct s; try done; by constructor.
Qed.

Lemma moves_pair E s : moves E s headsetSmHandleInternalPairHandset [HEADSET_STATE_PAIRING].
Proof.
  unfold headsetSmHandleInternalPairHandset, IsA2dpStreamingAndAvrcpPaused. apply moves_get. apply moves_bind; [stay_walk |].
  intros []; [| apply moves_stay, stays_ret]. unfold hwhen.
  do 3 (apply moves_bind; [stay_walk | intros _]). by apply moves_set; [| constructor].
Qed.

Lemma moves_reset E s : moves E s headsetSmHandleInternalFactoryReset (targets (SmInternal SM_INTERNAL_FACTORY_RESET) s).
Proof.
  unfold headsetSmHandleInternalFactoryReset. apply moves_get.
  destruct s; cbn; try (by apply moves_stay, stays_ret); by apply moves_set; [| constructor].
Qed.

Lemma moves_topology_stop E s : moves E s headetSmHandleTopologyStopCfm (targets STEREO_TOPOLOGY_STOP_CFM s).
Proof.
  unfold headetSmHandleTopologyStopCfm. apply moves_get. state_case.
  { apply moves_then; [by apply moves_set; [| constructor] | intros; stay_walk]. }
  unfold HeadsetWiredAudioController_Enable, headsetWiredAudioController_HandleCurrentWiredStatus.
  apply moves_bind; [stay_walk | intros []; [| apply moves_stay, stays_ret]].
  apply moves_then; [| intros; stay_walk]. apply moves_bind; [apply stays_wired; tc_solve | intros x].
  apply moves_bind; [stay_walk | intros y]. destruct (negb _); [| apply moves_stay, stays_ret]. unfold hwhen.
  destruct x; [apply moves_connected; intros [-> | [-> | ->]] | apply moves_disconnected; intros ->]; by repeat constructor.
Qed.

Lemma moves_pairing_confirm E s : moves E s headsetSmHandlePairingPairConfirm (targets PAIRING_PAIR_CFM s).
Proof.
  unfold headsetSmHandlePairingPairConfirm, headsetSmStateIsPairing. apply moves_get. unfold hwhen.
  state_case; [| apply moves_stay, stays_ret]. do 2 (apply moves_bind; [stay_walk | intros _]). by apply moves_set; [| constructor].
Qed.

Lemma moves_handset_gone E s st :
  moves E s (headsetSmHandleStereoTopologyHandsetDisInd st) (targets (STEREO_TOPOLOGY_HANDSET_DISCONNECTED_IND st) s).
Proof.
  unfold headsetSmHandleStereoTopologyHandsetDisInd, headsetSmStateIsPairing. apply moves_bind; [stay_walk |]. intros u.
  apply moves_get. unfold hwhen. state_case; rewrite ?andb_false_r, ?andb_true_r; [| apply moves_stay, stays_ret].
  destruct u, st; try (by (apply moves_stay; stay_walk)). by apply moves_set; [| constructor].
Qed.

Lemma moves_call s q (m : HMsg) E : quiet q = true -> moves E s (hcall q) (targets m s).
Proof. intros Hq. by apply moves_stay, stays_call. Qed.

(** Every message, in every state. *)
Theorem moves_message m s : moves (may_panic m s) s (headsetSmHandleMessage m) (targets m s).
Proof.
  pose proof (stays_charger J) as Hc. pose proof (stays_stop_idle J) as Hi. pose proof (stays_start_idle J) as Hj.
  assert (forall st x, stays J st (dfu_only (hcall (Dfu_SetRebootReason x)))) as Hd
    by (unfold dfu_only; intros; stay_walk).
  destruct m as [u | | | | | | | | | on | o n | | | | | st | | | usb | usb | c | | | i |];
    cbn [headsetSmHandleMessage];
    try (by (apply moves_stay; unfold dfu_only, headsetSmHandleAncUpdateStateEnableInd, headsetSmHandleLeakthroughStateInd; stay_walk)).
  - apply moves_stay, (stays_ui J).
  - apply moves_system. intros (-> & -> & Hn). by right.
  - apply moves_pairing_confirm.
  - apply moves_stay, (stays_topology_disconnected J).
  - apply moves_topology_stop.
  - apply moves_handset_gone.
  - apply moves_follow. by intros [-> | ->].
  - apply moves_follow. by intros [-> | ->].
  - apply moves_then; [apply moves_follow; by intros [-> | ->] | intros; stay_walk].
  - apply moves_then; [apply moves_follow; by intros [-> | ->] | intros; stay_walk].
  - destruct c; try (by (apply moves_stay; stay_walk));
      (apply moves_then; [apply moves_charge; by intros -> | intros; stay_walk]).
  - apply moves_stay, (stays_charge J).
  - apply moves_shutdown.
  - destruct i.
    + apply moves_pair.
    + apply moves_stay. pose proof (stays_disconnect J). unfold headsetSmHandleInternalDeleteHandsets. stay_walk.
    + apply moves_reset.
    + apply moves_stay. unfold headsetSmHandleInternalLinkDisconnectionComplete. stay_walk.
    + apply moves_stay. unfold headsetSmLinkDisconnectionTimeout. stay_walk.
    + apply moves_stay. unfold headsetSmHandleInternalPowerOff. stay_walk.
    + apply moves_stay, (stays_idle_timeout J).
    + apply moves_stay, (stays_limbo_timeout J).
    + apply moves_stay. stay_walk.
    + apply moves_stay, (stays_vbat J).
Qed.
End diagram.

(** A message panics only on the way out of the factory reset, or when
    it tells a machine that has started that the system starts up. *)
Theorem panics_only `{HeadsetBuild} `{Surroundings} m w :
  fst (headsetSmHandleMessage m w) = None -> may_panic m (sm_state (h_sm w)).
Proof.
  intros Hm. pose proof (moves_message (fun _ _ => True) m _ w (conj eq_refl I)) as Ht. rewrite Hm in Ht.
  destruct Ht as [Ht | Ht]; [by left | done].
Qed.

(** * Example *)

(** Every question is answered no, zero or none. *)
Definition no_answer (q : HReq) : HResp q :=
  match q with
  | SmartHelmet_IsBrOnline | HeadsetUsb_IsAudioConnected | HeadsetUsb_IsAudioEnabled | WiredAudioSource_IsAudioAvailable | AudioSources_IsAudioRouted_usb
  | VoiceSources_IsVoiceChannelAvailable_usb | HAv_IsA2dpSinkStreaming | Av_IsPaused | HHfpProfile_IsScoActive
  | AncStateManager_IsEnabled | AecLeakthrough_IsLeakthroughEnabled | HappDeviceIsHandsetConnected
  | appDeviceIsBredrHandsetConnected | appDeviceGetHandsetBdAddr | BtDevice_IsPairedWithHandset
  | HandsetService_IsBredrConnected | HandsetService_IsAnyBredrConnected | HandsetService_IsBrEdrMultipointEnabled
  | Charger_IsConnected | Soc_Register | Dfu_IsSilentCommitEnabled | SystemReboot_GetAction_active
  | HeadsetUi_IsLogicalInputScreenedInLimboState _ => false
  | HandsetService_GetNumberOfConnectedBredrHandsets | HandsetService_GetMaxNumberOfConnectedBredrHandsets
  | DeviceList_GetMaxTrustedDevices | Soc_GetBatterySoc | HappBatteryGetVoltageInstantaneous => 0
  | Dfu_GetRebootReason => REBOOT_REASON_NONE
  | _ => tt
  end.

Definition nobody : Surroundings := {| HEnv := unit; hserve q e := (no_answer q, e) |}.

Section example.
#[local] Instance example_headset : HeadsetBuild := shipped_headset.
#[local] Instance example_nobody : Surroundings := nobody.

Definition in_state (s : headsetState) : HW := mkhw _ (tt : HEnv) [] (sm_zero <| sm_state := s |>).

Lemma panics_only_witness :
  fst (headsetSmHandleMessage APP_POWER_SHUTDOWN_PREPARE_IND (in_state HEADSET_STATE_FACTORY_RESET)) = None /\
  may_panic APP_POWER_SHUTDOWN_PREPARE_IND HEADSET_STATE_FACTORY_RESET.
Proof.
  split; [reflexivity |].
  exact (@panics_only example_headset example_nobody APP_POWER_SHUTDOWN_PREPARE_IND (in_state HEADSET_STATE_FACTORY_RESET) eq_refl).
Defined.
End example.
