(* ===== verification/HeadsetDiagram.v ===== *)
(** The next state of the headset state machine, for every message in every
    state: the diagram of headset_sm.h with the conditions of its edges, and
    the edges that the diagram does not show. *)
From S2P Require Import Prelude Config Board Platform World Helmet System HeadsetSm HeadsetLogic.

(** * What decides an edge *)

(** The questions about audio sources and pairing. *)
Definition question (q : HReq) : bool :=
  match q with
  | WiredAudioSource_IsAudioAvailable | HeadsetUsb_IsAudioConnected | AudioSources_IsAudioRouted_usb
  | VoiceSources_IsVoiceChannelAvailable_usb | HAv_IsA2dpSinkStreaming | Av_IsPaused | HHfpProfile_IsScoActive
  | BtDevice_IsPairedWithHandset => true
  | _ => false
  end.

Definition Answers : Type := forall q : HReq, HResp q.

Definition asked `{Surroundings} (e : HEnv) : Answers := fun q => fst (hserve q e).

(** Asking changes no answer. *)
Class GettersPure `{Surroundings} : Prop :=
  asking_keeps : forall q q' e, question q = true -> question q' = true -> asked (snd (hserve q e)) q' = asked e q'.

(** * The diagram *)
Section diagram.
Context `{HeadsetBuild} (a : Answers).

(** A cable delivers audio, or could. *)
Definition plugged : bool := a WiredAudioSource_IsAudioAvailable || a HeadsetUsb_IsAudioConnected.
(** The same, for a build where USB and Bluetooth audio coexist. *)
Definition wired_active : bool :=
  if ALLOW_USB_BT_COEXISTENCE then a WiredAudioSource_IsAudioAvailable else plugged.

(** Music streams, or a call is on. *)
Definition music_or_call : bool :=
  a HAv_IsA2dpSinkStreaming || a HHfpProfile_IsScoActive || wired_active ||
  ALLOW_USB_BT_COEXISTENCE && (a AudioSources_IsAudioRouted_usb || a VoiceSources_IsVoiceChannelAvailable_usb).

(** The state an event asks for, if any. *)
Definition edge (st : sm_st) (m : HMsg) : option headsetState :=
  match m, sm_state st with
  (* NULL -> LIMBO: SSM transition to limbo *)
  | SYSTEM_STATE_STATE_CHANGE system_state_starting_up system_state_limbo, HEADSET_STATE_NULL => Some HEADSET_STATE_LIMBO
  (* LIMBO -> POWERING_ON: SSM transition to powering on; the code does not look at the state *)
  | SYSTEM_STATE_STATE_CHANGE system_state_limbo system_state_powering_on, _ => Some HEADSET_STATE_POWERING_ON
  (* POWERING_ON -> IDLE: already a device in the list; POWERING_ON -> PAIRING: no device.
     Not shown: with a cable in, a device is not needed. *)
  | SYSTEM_STATE_STATE_CHANGE system_state_powering_on system_state_active, s =>
    if plugged then match s with HEADSET_STATE_POWERING_ON => Some HEADSET_STATE_IDLE | _ => None end
    else Some (if a BtDevice_IsPairedWithHandset then HEADSET_STATE_IDLE else HEADSET_STATE_PAIRING)
  (* active -> POWERING_OFF: user initiated, or the idle timer, through the system state *)
  | SYSTEM_STATE_STATE_CHANGE system_state_active system_state_powering_off, _ => Some HEADSET_STATE_POWERING_OFF
  (* PAIRING -> IDLE: pairing successful or failed *)
  | PAIRING_PAIR_CFM, HEADSET_STATE_PAIRING => Some HEADSET_STATE_IDLE
  (* PAIRING -> IDLE, not shown: the handset could not be disconnected for a pairing of the user *)
  | STEREO_TOPOLOGY_HANDSET_DISCONNECTED_IND handset_service_status_failed, HEADSET_STATE_PAIRING =>
    if user_pairing st then Some HEADSET_STATE_IDLE else None
  (* POWERING_OFF -> LIMBO *)
  | STEREO_TOPOLOGY_STOP_CFM, HEADSET_STATE_POWERING_OFF => Some HEADSET_STATE_LIMBO
  (* Not shown: the wired audio controller resumes and finds a change *)
  | STEREO_TOPOLOGY_STOP_CFM, s =>
    if pause_wired_controller st && xorb wired_active (wired_connected st) then
      match wired_active, s with
      | true, (HEADSET_STATE_POWERING_ON | HEADSET_STATE_IDLE | HEADSET_STATE_BUSY) => Some HEADSET_STATE_BUSY
      | false, HEADSET_STATE_BUSY => Some HEADSET_STATE_IDLE
      | _, _ => None
      end
    else None
  (* IDLE -> BUSY: start music streaming or call; BUSY -> IDLE: end of both *)
  | (AV_STREAMING_ACTIVE_IND | AV_STREAMING_INACTIVE_IND | TELEPHONY_CALL_ENDED _ | TELEPHONY_CALL_ONGOING _),
      (HEADSET_STATE_IDLE | HEADSET_STATE_BUSY) => Some (if music_or_call then HEADSET_STATE_BUSY else HEADSET_STATE_IDLE)
  (* POWERING_OFF -> LIMBO, not shown: a charger is attached meanwhile *)
  | ChargerMsg (CHARGER_MESSAGE_ATTACHED | CHARGER_MESSAGE_CHARGING_OK | CHARGER_MESSAGE_CHARGING_LOW), HEADSET_STATE_POWERING_OFF =>
    Some HEADSET_STATE_LIMBO
  (* active -> TERMINATING: emergency shutdown; in limbo the code is ready at once *)
  | APP_POWER_SHUTDOWN_PREPARE_IND, HEADSET_STATE_LIMBO => None
  | APP_POWER_SHUTDOWN_PREPARE_IND, _ => Some HEADSET_STATE_TERMINATING
  (* IDLE -> PAIRING: user initiated pairing; not shown: with the music paused, from any state *)
  | SmInternal SM_INTERNAL_PAIR_HANDSET, s =>
    if bool_decide (s = HEADSET_STATE_IDLE) || a HAv_IsA2dpSinkStreaming && a Av_IsPaused then Some HEADSET_STATE_PAIRING else None
  (* FACTORY_RESET: can be entered after power on *)
  | SmInternal SM_INTERNAL_FACTORY_RESET,
      (HEADSET_STATE_PAIRING | HEADSET_STATE_IDLE | HEADSET_STATE_BUSY | HEADSET_STATE_TERMINATING | HEADSET_STATE_POWERING_OFF) =>
    Some HEADSET_STATE_FACTORY_RESET
  | _, _ => None
  end.

(** The state after a message; [None] is a panic: nothing leads out of the
    factory reset, and the start-up is announced once. *)
Definition next_state (st : sm_st) (m : HMsg) : option headsetState :=
  match m, sm_state st, edge st m with
  | SYSTEM_STATE_STATE_CHANGE system_state_starting_up system_state_limbo, s, None =>
    if bool_decide (s = HEADSET_STATE_NULL) then Some s else None
  | _, HEADSET_STATE_FACTORY_RESET, Some _ => None
  | _, s, None => Some s
  | _, _, Some s' => Some s'
  end.
End diagram.

(** * Outcomes *)
Section outcomes.
Context `{HeadsetBuild} `{Surroundings}.

Notation held := (at_state (fun _ _ => True)).
Notation steady := (stays (fun _ _ => True)).

(** The state a computation ends in, unless it panics. *)
Definition result (r : option unit * HW) : option headsetState :=
  match fst r with Some _ => Some (sm_state (h_sm (snd r))) | None => None end.

Definition outcome (P : HW -> Prop) (m : HM unit) (r : option headsetState) : Prop := forall w, P w -> result (m w) = r.

Lemma outcome_stay s m : steady s m -> outcome (held s) m (Some s).
Proof. intros Hm w Hw. destruct (Hm w Hw) as [[x Hx] [Hs _]]. unfold result. by rewrite Hx, Hs. Qed.

Lemma outcome_bind {A} s (m : HM A) k r : steady s m -> (forall x, outcome (held s) (k x) r) -> outcome (held s) (m ≫= k) r.
Proof.
  intros Hm Hk w Hw. destruct (Hm w Hw) as [[x Hx] Hs]. unfold mbind, HM_bind. destruct (m w) as [[y |] w1]; cbn in *; [| done].
  by apply Hk.
Qed.

Lemma outcome_after P (m k : HM unit) r : outcome P m r -> (forall s', steady s' k) -> outcome P (m;; k) r.
Proof.
  intros Hm Hk w Hw. specialize (Hm w Hw). unfold mbind, HM_bind. unfold result in *.
  destruct (m w) as [[x |] w1]; cbn in *; [| done].
  destruct (Hk (sm_state (h_sm w1)) w1 (conj eq_refl I)) as [[y Hy] [Hs _]]. by rewrite Hy, Hs.
Qed.

Lemma outcome_set s s' : s' <> HEADSET_STATE_NULL ->
  outcome (held s) (headsetSetState s') (if bool_decide (s = HEADSET_STATE_FACTORY_RESET) then None else Some s').
Proof.
  intros Hs' w Hw. pose proof (triple_set_state _ s s' Hs' w Hw) as Ht. unfold result.
  destruct (fst (headsetSetState s' w)); case_bool_decide; try done; destruct Ht as [? [E _]]; [done | by rewrite E].
Qed.

Lemma outcome_weaken (P Q : HW -> Prop) m r : (forall w, P w -> Q w) -> outcome Q m r -> outcome P m r.
Proof. intros HP Hm w Hw. by apply Hm, HP. Qed.

(** ** Questions *)
Context `{!GettersPure}.

(** The statics and the answers are these. *)
Definition knows (st : sm_st) (a : Answers) (w : HW) : Prop :=
  h_sm w = st /\ forall q, question q = true -> asked (h_env w) q = a q.

(** [m] only asks, and finds [x]. *)
Definition finds {A} st a (m : HM A) (x : A) : Prop := forall w, knows st a w -> fst (m w) = Some x /\ knows st a (snd (m w)).

Lemma knows_held st a w : knows st a w -> held (sm_state st) w.
Proof. intros [<- _]. done. Qed.

Lemma finds_ret {A} st a (x : A) : finds st a (mret x) x.
Proof. by intros w Hw. Qed.
Lemma finds_get {A} st a (f : sm_st -> A) : finds st a (sm_get f) (f st).
Proof. intros w Hw. split; [by destruct Hw as [<- _] | done]. Qed.
Lemma finds_call st a q : question q = true -> finds st a (hcall q) (a q).
Proof.
  intros Hq w [Hs Ha]. split; [cbn; f_equal; by apply Ha |]. split; [done |]. intros q' Hq'. cbn. rewrite asking_keeps by done. by apply Ha.
Qed.
Lemma finds_bind {A B} st a (m : HM A) (k : A -> HM B) x y : finds st a m x -> finds st a (k x) y -> finds st a (m ≫= k) y.
Proof.
  intros Hm Hk w Hw. destruct (Hm w Hw) as [Hx Hw']. unfold mbind, HM_bind. destruct (m w) as [[z |] w1]; cbn in *; [| done].
  injection Hx as ->. by apply Hk.
Qed.
Lemma finds_hor st a m n x y : finds st a m x -> finds st a n y -> finds st a (hor m n) (x || y).
Proof. intros Hm Hn. unfold hor. eapply finds_bind; [exact Hm |]. destruct x; [apply finds_ret | exact Hn]. Qed.
Lemma finds_hand st a m n x y : finds st a m x -> finds st a n y -> finds st a (hand m n) (x && y).
Proof. intros Hm Hn. unfold hand. eapply finds_bind; [exact Hm |]. destruct x; [exact Hn | apply finds_ret]. Qed.
Lemma finds_hnot st a m x : finds st a m x -> finds st a (hnot m) (negb x).
Proof. intros Hm. unfold hnot. eapply finds_bind; [exact Hm | apply finds_ret]. Qed.

Ltac ask := match goal with |- finds _ _ (hcall ?q) _ => exact (finds_call _ _ q eq_refl) end.

Lemma finds_wired st a : finds st a IsWiredAudioActive (wired_active a).
Proof.
  unfold IsWiredAudioActive, wired_active, plugged. destruct ALLOW_USB_BT_COEXISTENCE; [ask |].
  apply finds_hor; ask.
Qed.

Lemma finds_audio st a : finds st a IsHeadsetAudioActive (music_or_call a).
Proof.
  assert (finds st a IsUsbAudioRouted
    (ALLOW_USB_BT_COEXISTENCE && (a AudioSources_IsAudioRouted_usb || a VoiceSources_IsVoiceChannelAvailable_usb))) as Hu.
  { unfold IsUsbAudioRouted. destruct ALLOW_USB_BT_COEXISTENCE; [apply finds_hor; ask | apply finds_ret]. }
  unfold IsHeadsetAudioActive, IsBtAudioActive, music_or_call. rewrite orb_comm.
  apply finds_hor; [exact Hu |]. apply finds_hor; [apply finds_hor; ask | apply finds_wired].
Qed.

Lemma outcome_finds {A} st a (m : HM A) k x r : finds st a m x -> outcome (knows st a) (k x) r -> outcome (knows st a) (m ≫= k) r.
Proof.
  intros Hm Hk w Hw. destruct (Hm w Hw) as [Hx Hw']. unfold mbind, HM_bind. destruct (m w) as [[z |] w1]; cbn in *; [| done].
  injection Hx as ->. by apply Hk.
Qed.

Lemma outcome_state st a k r : outcome (knows st a) (k (sm_state st)) r -> outcome (knows st a) (headsetGetState ≫= k) r.
Proof. apply outcome_finds, finds_get. Qed.

Lemma outcome_knows st a m r : outcome (held (sm_state st)) m r -> outcome (knows st a) m r.
Proof. apply outcome_weaken, knows_held. Qed.
End outcomes.

(** * Every message *)
Section messages.
Context `{HeadsetBuild} `{Surroundings} `{!GettersPure}.

Notation steady := (stays (fun _ _ => True)).
Ltac ask := match goal with |- finds _ _ (hcall ?q) _ => exact (finds_call _ _ q eq_refl) end.

Section handlers.
Context (st : sm_st) (a : Answers).
Notation told m := (outcome (knows st a) (headsetSmHandleMessage m) (next_state a st m)).

Lemma told_stay m : steady (sm_state st) (headsetSmHandleMessage m) -> next_state a st m = Some (sm_state st) -> told m.
Proof. intros Hm ->. by apply outcome_knows, outcome_stay. Qed.

(** Assigning the state, after some calls, from a known state. *)
Lemma set_outcome s s' r : s' <> HEADSET_STATE_NULL ->
  (if bool_decide (s = HEADSET_STATE_FACTORY_RESET) then None else Some s') = r ->
  outcome (at_state (fun _ _ => True) s) (headsetSetState s') r.
Proof. intros Hn <-. by apply outcome_set. Qed.

Ltac to_set :=
  lazymatch goal with
  | |- outcome _ (headsetSetState _) _ => apply set_outcome; [done |]
  | _ => apply outcome_bind; [stay_walk | intros ?]; to_set
  end.

Lemma told_follow_audio r :
  (match sm_state st with
   | HEADSET_STATE_IDLE | HEADSET_STATE_BUSY => Some (if music_or_call a then HEADSET_STATE_BUSY else HEADSET_STATE_IDLE)
   | s => Some s end) = r -> outcome (knows st a) follow_audio r.
Proof.
  intros <-. unfold follow_audio. apply outcome_state. destruct (headsetSmIsActiveState (sm_state st)) eqn:Ha; cbn [hwhen].
  - eapply outcome_finds.
    { unfold headsetSmDetermineCoreState. eapply finds_bind; [apply finds_audio |]. eapply finds_bind; [apply finds_get |].
      rewrite Ha. apply finds_ret. }
    apply outcome_knows. destruct (sm_state st); try done; destruct (music_or_call a); by apply set_outcome.
  - apply outcome_knows. destruct (sm_state st); try done; apply outcome_stay, stays_ret.
Qed.

Lemma told_started : told (SYSTEM_STATE_STATE_CHANGE system_state_starting_up system_state_limbo).
Proof.
  cbn [headsetSmHandleMessage headsetSmHandleSystemStateChange]. unfold headsetSmHandleSystemSartedUpToLimbo, next_state, edge.
  apply outcome_state. destruct (sm_state st) eqn:E; state_case; try done; apply outcome_knows; rewrite ?E;
    first [by apply set_outcome | by intros w _].
Qed.

Lemma told_powered_on : told (SYSTEM_STATE_STATE_CHANGE system_state_powering_on system_state_active).
Proof.
  cbn [headsetSmHandleMessage headsetSmHandleSystemStateChange]. unfold headsetSmHandlePoweredOn.
  apply outcome_finds with (x := negb (plugged a)).
  { unfold IsWiredAudioActive, plugged. destruct ALLOW_USB_BT_COEXISTENCE.
    - rewrite negb_orb. apply finds_hand; apply finds_hnot; ask.
    - apply finds_hnot, finds_hor; ask. }
  unfold next_state, edge. destruct (plugged a); cbn [negb].
  - apply outcome_state. state_case; [apply outcome_knows; rewrite e; by apply set_outcome |].
    apply outcome_knows. destruct (sm_state st); try done; apply outcome_stay, stays_ret.
  - eapply outcome_finds; [ask |]. apply outcome_knows.
    destruct (a BtDevice_IsPairedWithHandset); to_set; by destruct (sm_state st).
Qed.

Lemma told_system o n : told (SYSTEM_STATE_STATE_CHANGE o n).
Proof.
  destruct o, n; try apply told_started; try apply told_powered_on; try (by (apply told_stay; [apply stays_ret | by unfold next_state; cbn; destruct (sm_state st)]));
    apply outcome_knows, set_outcome; try done; unfold next_state; cbn; by destruct (sm_state st).
Qed.

Lemma told_pair_confirm : told PAIRING_PAIR_CFM.
Proof.
  cbn [headsetSmHandleMessage]. unfold headsetSmHandlePairingPairConfirm, headsetSmStateIsPairing, next_state, edge.
  apply outcome_state. state_case; apply outcome_knows; destruct (sm_state st); try done; try apply outcome_stay, stays_ret. by to_set.
Qed.

Lemma told_handset_gone status : told (STEREO_TOPOLOGY_HANDSET_DISCONNECTED_IND status).
Proof.
  cbn [headsetSmHandleMessage]. unfold headsetSmHandleStereoTopologyHandsetDisInd, headsetSmStateIsPairing, next_state, edge.
  eapply outcome_finds; [apply finds_get |]. apply outcome_state.
  destruct (user_pairing st), status; state_case; apply outcome_knows; destruct (sm_state st); try done;
    first [by apply set_outcome | apply outcome_stay; stay_walk].
Qed.

Lemma told_topology_stop : told STEREO_TOPOLOGY_STOP_CFM.
Proof.
  cbn [headsetSmHandleMessage]. unfold headetSmHandleTopologyStopCfm. apply outcome_state. state_case.
  { apply outcome_knows. unfold next_state, edge. rewrite e. apply outcome_after; [by apply set_outcome | intros; stay_walk]. }
  unfold HeadsetWiredAudioController_Enable, headsetWiredAudioController_HandleCurrentWiredStatus.
  eapply outcome_finds; [apply finds_get |]. unfold next_state, edge.
  destruct (pause_wired_controller st) eqn:Ep; cbn [hwhen andb];
    [| apply outcome_knows; destruct (sm_state st); try done; apply outcome_stay, stays_ret].
  apply outcome_after; [| intros; stay_walk].
  eapply outcome_finds; [apply finds_wired |]. eapply outcome_finds; [apply finds_get |].
  destruct (wired_active a), (wired_connected st); cbn [negb eqb hwhen xorb];
    try (apply outcome_knows; destruct (sm_state st); try done; apply outcome_stay, stays_ret).
  - unfold headsetSmWiredAudioConnected, headsetSmIsActiveState. apply outcome_state. apply outcome_knows.
    destruct (sm_state st); try done; first [by apply set_outcome | apply outcome_stay, stays_ret].
  - unfold headsetSmWiredAudioDisconnected. apply outcome_state. apply outcome_knows.
    destruct (sm_state st); try done; first [by apply set_outcome | apply outcome_stay, stays_ret].
Qed.

Lemma told_shutdown : told APP_POWER_SHUTDOWN_PREPARE_IND.
Proof.
  cbn [headsetSmHandleMessage]. unfold headsetSmHandlePowerShutdownPrepareInd, next_state, edge. apply outcome_state.
  apply outcome_knows. destruct (sm_state st); state_case; try done; first [by apply set_outcome | apply outcome_stay; stay_walk].
Qed.

Lemma told_pair : told (SmInternal SM_INTERNAL_PAIR_HANDSET).
Proof.
  cbn [headsetSmHandleMessage]. unfold headsetSmHandleInternalPairHandset, IsA2dpStreamingAndAvrcpPaused, headsetSmStateIsIdle.
  apply outcome_state. eapply outcome_finds.
  { apply finds_hor; [apply finds_ret |]. apply finds_hand; ask. }
  apply outcome_knows. unfold next_state, edge.
  destruct (bool_decide (sm_state st = HEADSET_STATE_IDLE) || _); cbn [hwhen];
    [to_set; by destruct (sm_state st) | destruct (sm_state st); apply outcome_stay, stays_ret].
Qed.

Lemma told_reset : told (SmInternal SM_INTERNAL_FACTORY_RESET).
Proof.
  cbn [headsetSmHandleMessage]. unfold headsetSmHandleInternalFactoryReset, next_state, edge. apply outcome_state. apply outcome_knows.
  destruct (sm_state st); cbn [state_code Z.ltb hwhen]; first [by apply set_outcome | apply outcome_stay, stays_ret].
Qed.

Lemma told_charger c : told (ChargerMsg c).
Proof.
  assert (forall e, next_state a st (ChargerMsg c) =
      (match sm_state st with HEADSET_STATE_POWERING_OFF => Some HEADSET_STATE_LIMBO | s => Some s end) ->
    outcome (knows st a) (charge_keeps_limbo;; headsetSmNoteChargerEvent e) (next_state a st (ChargerMsg c))) as Hk.
  { intros e ->. apply outcome_after; [| intros; apply stays_charger; tc_solve]. unfold charge_keeps_limbo. apply outcome_state.
    apply outcome_knows. destruct (sm_state st); state_case; try done; first [by apply set_outcome | apply outcome_stay, stays_ret]. }
  destruct c; try (apply Hk; unfold next_state, edge; by destruct (sm_state st));
    (apply told_stay; [cbn [headsetSmHandleMessage]; apply stays_charger; tc_solve | unfold next_state, edge; by destruct (sm_state st)]).
Qed.

Lemma told_any m : told m.
Proof.
  destruct m as [u | | | | | | | | | on | o n | | | | | status | | | usb | usb | c | | | i |];
    first [ apply told_system | apply told_pair_confirm | apply told_topology_stop | apply told_handset_gone | apply told_charger
          | apply told_shutdown
          | destruct i; first [apply told_pair | apply told_reset | idtac]
          | idtac ];
    try (apply told_follow_audio; unfold next_state, edge; by destruct (sm_state st));
    try (cbn [headsetSmHandleMessage]; apply outcome_after; [apply told_follow_audio; unfold next_state, edge; by destruct (sm_state st) | intros; stay_walk]);
    (apply told_stay; [| unfold next_state, edge; by destruct (sm_state st)]);
    cbn [headsetSmHandleMessage].
  all: pose proof (stays_charger (fun _ _ => True)) as Hc; pose proof (stays_stop_idle (fun _ _ => True)) as Hi;
    pose proof (stays_start_idle (fun _ _ => True)) as Hj; pose proof (stays_disconnect (fun _ _ => True)) as Hl.
  all: first
    [ apply stays_ui; tc_solve | apply stays_topology_disconnected; tc_solve | apply stays_charge; tc_solve
    | apply stays_idle_timeout; tc_solve | apply stays_limbo_timeout; tc_solve | apply stays_vbat; tc_solve
    | unfold dfu_only, headsetSmHandleAncUpdateStateEnableInd, headsetSmHandleAncUpdateStateDisableInd, headsetSmHandleLeakthroughStateInd,
        headsetSmHandleHandsetServiceConnectedInd, headsetSmHandleInternalDeleteHandsets,
        headsetSmHandleInternalLinkDisconnectionComplete, headsetSmLinkDisconnectionTimeout, headsetSmHandleInternalPowerOff; stay_walk ].
Qed.
End handlers.

End messages.

(** * Example *)

(** Only the question about the music is ever answered with yes. *)
Definition plays (q : HReq) (music : bool) : HResp q :=
  match q with
  | HAv_IsA2dpSinkStreaming => music
  | q => no_answer q
  end.

Definition player : Surroundings := {| HEnv := bool; hserve q e := (plays q e, e) |}.

Section example.
#[local] Instance example_build : HeadsetBuild := shipped_headset.
#[local] Instance example_player : Surroundings := player.
#[local] Instance player_pure : GettersPure.
Proof. by intros q q' e. Qed.

Definition placed (s : headsetState) (music : bool) : HW := mkhw _ (music : HEnv) [] (sm_zero <| sm_state := s |>).

End example.
