(* ===== verification/HeadsetCalls.v ===== *)
(** What the headset state machine asks of the others: when it asks for
    power-off, and what it does when its timers fire. *)
From S2P Require Import Prelude Config Board Platform World Helmet System HeadsetSm HeadsetLogic.

(** * The calls made so far *)
Section calls.
Context `{Surroundings}.

Definition asked (p : HReq -> bool) (w : HW) : nat := length (filter (fun c => p (hc_req c) = true) (h_trace w)).


Lemma asked_call (p : HReq -> bool) q w : asked p (snd (hcall q w)) = ((if p q then 1 else 0) + asked p w)%nat.
Proof.
  unfold asked. change (h_trace (snd (hcall q w))) with (mkhcall q (fst (hserve q (h_env w))) :: h_trace w).
  destruct (p q) eqn:Hq; [by rewrite filter_cons_True | rewrite filter_cons_False; [done |]]. cbn. by rewrite Hq.
Qed.

(** What a computation leaves alone. *)
Definition hkeeps {T A} (f : HW -> T) (m : HM A) : Prop := forall w, f (snd (m w)) = f w.

Lemma hkeeps_bind {T A B} (f : HW -> T) (m : HM A) (k : A -> HM B) : hkeeps f m -> (forall x, hkeeps f (k x)) -> hkeeps f (m ≫= k).
Proof.
  intros Hm Hk w. specialize (Hm w). unfold mbind, HM_bind. destruct (m w) as [[x |] w1]; cbn in *; [by rewrite Hk | done].
Qed.

Lemma hkeeps_ret {T A} (f : HW -> T) (x : A) : hkeeps f (mret x).
Proof. done. Qed.
Lemma hkeeps_get {T A} (f : HW -> T) (g : sm_st -> A) : hkeeps f (sm_get g).
Proof. done. Qed.
Lemma hkeeps_panic {T} (f : HW -> T) : hkeeps f Panic.
Proof. done. Qed.
Lemma hkeeps_when {T} (f : HW -> T) c m : hkeeps f m -> hkeeps f (hwhen c m).
Proof. by destruct c. Qed.
Lemma hkeeps_for_each {T A} (f : HW -> T) (l : list A) g : (forall x, hkeeps f (g x)) -> hkeeps f (hfor_each l g).
Proof. intros Hg. induction l; cbn [hfor_each]; [done |]. by apply hkeeps_bind. Qed.

End calls.

(** Makes no call that [p] selects. *)
Notation never p := (hkeeps (asked p)).

Lemma never_call `{Surroundings} p q : p q = false -> never p (hcall q).
Proof. intros Hq w. by rewrite asked_call, Hq. Qed.

Lemma never_do `{Surroundings} p f : never p (sm_do f).
Proof. done. Qed.

Create HintDb never.
#[export] Hint Resolve hkeeps_ret hkeeps_get hkeeps_panic never_do : never.
Ltac never_walk :=
  repeat first
    [ progress intros
    | solve [eauto 2 with never nocore]
    | match goal with |- hkeeps (asked _) (hcall ?q) => exact (never_call _ q eq_refl) end
    | by intros ?
    | apply hkeeps_bind
    | apply hkeeps_when
    | apply hkeeps_for_each
    | progress unfold hand, hor, hnot, headsetGetState
    | case_match ].

(** * Power-off *)
Definition is_off (q : HReq) : bool := match q with appPowerOffRequest => true | _ => false end.

Section off.
Context `{HeadsetBuild} `{Surroundings}.

Lemma off_idle : never is_off start_idle_if_needed.
Proof.
  unfold start_idle_if_needed, headsetSMStartIdleTimer, headsetSmIsIdleTimerNeedToStart, IsUsbNotConnected,
    IsBtConnectionIdle, IsWiredAudioActive. never_walk.
Qed.
Lemma off_audio : never is_off IsHeadsetAudioActive.
Proof. unfold IsHeadsetAudioActive, IsBtAudioActive, IsUsbAudioRouted, IsWiredAudioActive. never_walk. Qed.
Lemma off_wired : never is_off IsWiredAudioActive.
Proof. unfold IsWiredAudioActive. never_walk. Qed.
#[local] Hint Resolve off_idle off_audio off_wired : never.

Lemma off_charge : never is_off headsetSmApplyLimboChargeLed.
Proof.
  unfold headsetSmApplyLimboChargeLed, headsetSmLogChargeVbat, charge_led, headsetSmLimboChargeLedChoice,
    headsetSmChargeCompleted, cable_in, headsetSmStopLimboTimer, headsetSmStartLimboTimer, headsetSmStopChargeVbatLog,
    headsetSmStartChargeVbatLog. never_walk.
Qed.
#[local] Hint Resolve off_charge : never.

Lemma off_exit s : never is_off (exit_state s).
Proof.
  destruct s; cbn [exit_state]; unfold headsetExitLimbo, headsetExitPairing, headsetExitIdle, headsetExitBusy,
    headsetExitFactoryReset, headsetPrepareForBtAudio, headsetSmStopLimboTimer, headsetSMStopIdleTimer; never_walk.
Qed.

Lemma off_enter s : never is_off (enter_state s).
Proof.
  destruct s; cbn [enter_state]; unfold headsetEnterLimbo, headsetEnterFactoryReset, headsetEnterPairing, headsetEnterIdle,
    headsetEnterBusy, headsetEnterPoweringOn, headsetEnterPoweringOff, headsetEnterTerminating,
    headsetSmDeletePairingAndReset, headsetSmClearPsStore, headsetCheckDfu, headsetPrepareForWiredAudio,
    HeadsetWiredAudioController_Disable, headsetSmStartLimboTimer; never_walk.
Qed.
#[local] Hint Resolve off_exit off_enter : never.

Lemma off_set_state s : never is_off (headsetSetState s).
Proof. unfold headsetSetState, headsetSm_GetApplicationCurrentContext, IsUsbAudioRouted. never_walk. Qed.
#[local] Hint Resolve off_set_state : never.

Lemma off_follow : never is_off follow_audio.
Proof. unfold follow_audio, headsetSmDetermineCoreState. never_walk. Qed.
#[local] Hint Resolve off_follow : never.

(** ** The display *)

(** The calls that wake and blank the display are compiled out of the file:
    the charge in limbo never wakes it. *)
Definition is_display (q : HReq) : bool :=
  match q with Helmet CallDisplayResume | Helmet CallDisplayBlank => true | _ => false end.

Lemma never_display : SM_ENABLE_SSD1315 = false -> never is_display headsetSmApplyLimboChargeLed.
Proof.
  intros Hd. unfold headsetSmApplyLimboChargeLed, headsetSmLogChargeVbat, charge_led, headsetSmLimboChargeLedChoice,
    headsetSmChargeCompleted, cable_in, headsetSmStopLimboTimer, headsetSmStartLimboTimer, headsetSmStopChargeVbatLog,
    headsetSmStartChargeVbatLog. rewrite Hd. never_walk.
Qed.

(** ** When it is asked for *)

(** The limbo timer ran out with no cable in, or the topology has stopped. *)
Definition power_off_due (m : HMsg) (w : HW) : bool :=
  match m with
  | SmInternal SM_INTERNAL_TIMEOUT_LIMBO =>
    bool_decide (sm_state (h_sm w) = HEADSET_STATE_LIMBO) && negb (fst (hserve Charger_IsConnected (h_env w))) &&
    negb (cable_event (headset_limbo_charge_event (h_sm w)))
  | STEREO_TOPOLOGY_STOP_CFM => bool_decide (sm_state (h_sm w) = HEADSET_STATE_POWERING_OFF)
  | _ => false
  end.

Lemma off_elsewhere m : m <> SmInternal SM_INTERNAL_TIMEOUT_LIMBO -> m <> STEREO_TOPOLOGY_STOP_CFM ->
  never is_off (headsetSmHandleMessage m).
Proof.
  intros Hl Hs. destruct m as [u | | | | | | | | | x | o n | | | | | st | | | usb | usb | c | | | i |];
    cbn [headsetSmHandleMessage]; try done.
  all: try destruct u; try destruct o; try destruct n; try destruct c; try destruct i; try destruct st; try done;
    cbn [headsetSmHandleUiInput headsetSmHandleSystemStateChange];
    unfold dfu_only, headsetSmHandlePowerOn, headsetSmPowerOff, headsetSmConnectHandset, headsetSmDisconnectLruHandset,
      headsetSmPairHandset, headsetSmDeleteHandsets, headsetSmEnableMultipoint, headsetSmDisableMultipoint,
      headsetSmFactoryReset, headsetSmHandleAncUpdateStateEnableInd, headsetSmHandleAncUpdateStateDisableInd,
      headsetSmHandleLeakthroughStateInd, headsetSmHandleSystemSartedUpToLimbo, headsetSmHandlePoweredOn,
      headsetSmHandlePairingPairConfirm, headsetSmHandleHandsetServiceDisconnectedInd, headsetSmUpdateDisconnectingLink,
      headsetSmDetermineCoreState, headsetSmHandleHandsetServiceConnectedInd, headsetSmHandleStereoTopologyHandsetDisInd,
      charge_keeps_limbo, headsetSmNoteChargerEvent, headsetSmHandlePowerShutdownPrepareInd,
      headsetSmHandleInternalPairHandset, IsA2dpStreamingAndAvrcpPaused, headsetSmHandleInternalDeleteHandsets,
      headsetSmInitiateLinkDisconnection, headsetSmDisconnectLink, headsetSmHandleInternalFactoryReset,
      headsetSmHandleInternalLinkDisconnectionComplete, headsetSmLinkDisconnectionTimeout,
      headsetSmHandleInternalPowerOff, headsetSmHandleTimeoutIdle, headsetSmPowerOff, headsetSmLogChargeVbat, cable_in,
      headsetSmStopChargeVbatLog, headsetSmStartChargeVbatLog, headsetSMStopIdleTimer; never_walk.
Qed.

Lemma off_wired_enable : never is_off HeadsetWiredAudioController_Enable.
Proof.
  unfold HeadsetWiredAudioController_Enable, headsetWiredAudioController_HandleCurrentWiredStatus,
    headsetSmWiredAudioConnected, headsetSmWiredAudioDisconnected. never_walk.
Qed.

Lemma off_topology_stop w :
  asked is_off (snd (headetSmHandleTopologyStopCfm w)) = ((if power_off_due STEREO_TOPOLOGY_STOP_CFM w then 1 else 0) + asked is_off w)%nat.
Proof.
  unfold headetSmHandleTopologyStopCfm, power_off_due. change (headsetGetState ≫= ?k) with (fun w => k (sm_state (h_sm w)) w). cbn beta.
  state_case; [| apply off_wired_enable].
  pose proof (triple_set_state (fun _ _ => True) HEADSET_STATE_POWERING_OFF HEADSET_STATE_LIMBO ltac:(done) w (conj e I)) as Ht.
  pose proof (off_set_state HEADSET_STATE_LIMBO w) as Hn. unfold mbind, HM_bind.
  destruct (headsetSetState HEADSET_STATE_LIMBO w) as [[x |] w1]; cbn in Ht, Hn; [| done].
  rewrite <- Hn. apply asked_call.
Qed.

Lemma off_limbo_timeout w :
  asked is_off (snd (headsetSmHandleTimeoutLimbo w)) =
    ((if power_off_due (SmInternal SM_INTERNAL_TIMEOUT_LIMBO) w then 1 else 0) + asked is_off w)%nat.
Proof.
  unfold headsetSmHandleTimeoutLimbo, power_off_due. change (headsetGetState ≫= ?k) with (fun w => k (sm_state (h_sm w)) w). cbn beta.
  state_case; [| done]. unfold hwhen, cable_in, hor, headsetSmStopLimboTimer, mbind, HM_bind, sm_get.
  destruct (hserve Charger_IsConnected (h_env w)) as [[] e1] eqn:Hc; cbn; rewrite ?Hc; cbn.
  - reflexivity.
  - by destruct (cable_event _).
Qed.

(** [C6] Power-off is asked for once, and only, when the limbo timer runs out
    in limbo with no cable in, by the charger and by its last message, or
    when the topology has stopped for powering off. *)
Theorem power_off_only_when_due m w :
  asked is_off (snd (headsetSmHandleMessage m w)) = ((if power_off_due m w then 1 else 0) + asked is_off w)%nat.
Proof.
  destruct (decide (m = SmInternal SM_INTERNAL_TIMEOUT_LIMBO)) as [-> | Hl]; [apply off_limbo_timeout |].
  destruct (decide (m = STEREO_TOPOLOGY_STOP_CFM)) as [-> | Hs]; [apply off_topology_stop |].
  rewrite off_elsewhere by done. destruct m; try done.
  by match goal with i : sm_internal |- _ => destruct i end.
Qed.
End off.

(** * The limbo timer *)

(** Whether the timer runs, by the calls made, the last one first. *)
Fixpoint limbo_timer (l : list HCall) : bool :=
  match l with
  | [] => false
  | c :: l =>
    match hc_req c with
    | HMessageSendLater SM_INTERNAL_TIMEOUT_LIMBO _ => true
    | HMessageCancelAll SM_INTERNAL_TIMEOUT_LIMBO => false
    | _ => limbo_timer l
    end
  end.

Definition stops_limbo (q : HReq) : bool :=
  match q with HMessageCancelAll SM_INTERNAL_TIMEOUT_LIMBO => true | _ => false end.

Section limbo.
Context `{HeadsetBuild} `{Surroundings}.

(** The charger reports no cable. *)
Context (Hout : forall e, fst (hserve Charger_IsConnected e) = false).

(** No cable, the timer runs, and [m] leaves it so. *)
Definition waits (w : HW) : Prop :=
  cable_event (headset_limbo_charge_event (h_sm w)) = false /\ sm_state (h_sm w) = HEADSET_STATE_LIMBO /\
  limbo_timer (h_trace w) = true.
Definition keeps_waiting {A} (m : HM A) (Q : A -> Prop) : Prop := triple False waits m (fun x w => Q x /\ waits w).

Lemma waits_weaken {A} (m : HM A) (Q Q' : A -> Prop) : keeps_waiting m Q -> (forall x, Q x -> Q' x) -> keeps_waiting m Q'.
Proof. intros Hm HQ. eapply triple_weaken; [exact Hm | done |]. intros x w [Hx Hw]. auto. Qed.

Lemma waits_bind {A B} (m : HM A) (k : A -> HM B) Q R :
  keeps_waiting m Q -> (forall x, Q x -> keeps_waiting (k x) R) -> keeps_waiting (m ≫= k) R.
Proof. intros Hm Hk. eapply triple_bind; [exact Hm |]. intros x w [Hx Hw]. by apply Hk. Qed.

Lemma waits_then {A B} (m : HM A) (k : A -> HM B) R :
  keeps_waiting m (fun _ => True) -> (forall x, keeps_waiting (k x) R) -> keeps_waiting (m ≫= k) R.
Proof. intros Hm Hk. eapply waits_bind; [exact Hm | auto]. Qed.

Lemma waits_done {A} (m : HM A) : keeps_waiting m (fun _ => True) -> triple False waits m (fun _ => waits).
Proof. intros Hm. eapply triple_weaken; [exact Hm | done |]. by intros x w [_ Hw]. Qed.

Lemma waits_ret {A} (x : A) (Q : A -> Prop) : Q x -> keeps_waiting (mret x) Q.
Proof. intros Hx. by apply triple_ret. Qed.

Lemma waits_get {A} (f : sm_st -> A) : keeps_waiting (sm_get f) (fun _ => True).
Proof. by intros w Hw. Qed.

Lemma waits_event : keeps_waiting (sm_get headset_limbo_charge_event) (fun e => cable_event e = false).
Proof. intros w Hw. split; [apply Hw | done]. Qed.

Lemma waits_do f : (forall x, headset_limbo_charge_event (f x) = headset_limbo_charge_event x /\ sm_state (f x) = sm_state x) ->
  keeps_waiting (sm_do f) (fun _ => True).
Proof.
  intros Hf w (Hc & Hs & Ht). split; [done |]. destruct (Hf (h_sm w)) as [He Hst].
  split; [by rewrite <- Hc, <- He |]. split; [by rewrite <- Hs, <- Hst | done].
Qed.

Lemma waits_call q : stops_limbo q = false -> keeps_waiting (hcall q) (fun _ => True).
Proof.
  intros Hq w (Hc & Hs & Ht). split; [done |]. split; [done |]. split; [done |]. cbn.
  destruct q; try done; destruct id; done.
Qed.

Lemma waits_charger : keeps_waiting (hcall Charger_IsConnected) (fun b => b = false).
Proof. intros w Hw. split; [apply Hout | exact Hw]. Qed.

Lemma waits_state {A} (k : headsetState -> HM A) Q : keeps_waiting (k HEADSET_STATE_LIMBO) Q -> keeps_waiting (headsetGetState ≫= k) Q.
Proof. intros Hk w Hw. change ((headsetGetState ≫= k) w) with (k (sm_state (h_sm w)) w). destruct Hw as (Hc & Hs & Ht). rewrite Hs. by apply Hk. Qed.

Lemma waits_when c m : keeps_waiting m (fun _ => True) -> keeps_waiting (hwhen c m) (fun _ => True).
Proof. destruct c; [done |]. intros _. by apply waits_ret. Qed.

Lemma waits_cable : keeps_waiting cable_in (fun b => b = false).
Proof.
  unfold cable_in, hor. eapply waits_bind; [apply waits_charger |]. intros ? ->.
  eapply waits_bind; [apply waits_event |]. intros e He. by apply waits_ret.
Qed.

Lemma waits_timer : keeps_waiting headsetSmStartLimboTimer (fun _ => True).
Proof. by intros w (Hc & Hs & Ht). Qed.

Ltac wait_walk :=
  repeat first
    [ progress intros
    | exact waits_timer
    | apply waits_get
    | by apply waits_ret
    | match goal with |- keeps_waiting (hcall ?q) _ => exact (waits_call q eq_refl) end
    | apply waits_do; by intros []
    | apply waits_state
    | apply waits_then
    | apply waits_when
    | progress unfold hand, hor, hnot
    | case_match ].

Lemma no_cable_event e : cable_event e = false -> e = CHARGER_MESSAGE_DETACHED \/ e = CHARGER_MESSAGE_DISABLED.
Proof. destruct e; try done; auto. Qed.

(** With no cable in nothing is shown. *)
Lemma waits_choice : keeps_waiting headsetSmLimboChargeLedChoice (fun c => c = 0).
Proof.
  unfold headsetSmLimboChargeLedChoice. apply waits_then; [wait_walk |]. intros soc.
  eapply waits_bind; [apply waits_event |]. intros e He. apply waits_then.
  { destruct (no_cable_event e He) as [-> | ->]; rewrite andb_false_r; by apply waits_ret. }
  intros _. eapply waits_bind; [apply waits_event |]. intros e' He'.
  eapply (waits_bind _ _ (fun b => b = false)).
  { destruct (no_cable_event e' He') as [-> | ->]; [by apply waits_ret | apply waits_charger]. }
  intros ? ->. destruct (no_cable_event e' He') as [-> | ->]; (apply waits_then; [wait_walk | intros; by apply waits_ret]).
Qed.

Lemma waits_led : keeps_waiting (charge_led 0) (fun _ => True).
Proof.
  unfold charge_led. apply waits_then; [wait_walk |]. intros led.
  change (0 =? 3) with false. change (0 =? 1) with false. change (0 =? 2) with false. cbn [orb].
  destruct (0 =? led); [by apply waits_ret |]. apply waits_then; [wait_walk | intros _].
  eapply (waits_bind _ _ (fun b => b = false)).
  { unfold hor. eapply waits_bind; [apply waits_charger |]. intros ? ->. eapply waits_bind; [apply waits_event |].
    intros e He. apply waits_ret. by destruct (no_cable_event e He) as [-> | ->]. }
  intros ? ->. wait_walk.
Qed.

Lemma waits_apply : keeps_waiting headsetSmApplyLimboChargeLed (fun _ => True).
Proof.
  unfold headsetSmApplyLimboChargeLed. apply waits_state. cbn [negb]. rewrite bool_decide_true by done. cbn [negb].
  apply waits_then; [wait_walk | intros reg]. apply waits_then; [wait_walk | intros _].
  eapply waits_bind; [apply waits_choice |]. intros ? ->. unfold hor at 1. eapply (waits_bind _ _ (fun b => b = false)).
  { eapply (waits_bind _ _ (fun b => b = false)); [by apply waits_ret |]. intros ? ->. apply waits_cable. }
  intros ? ->. apply waits_then; [unfold headsetSmStopChargeVbatLog; wait_walk | intros _]. apply waits_led.
Qed.

(** Before the timer is started. *)
Definition no_cable (w : HW) : Prop := cable_event (headset_limbo_charge_event (h_sm w)) = false.

Lemma waits_enter : triple False (fun w => no_cable w /\ sm_state (h_sm w) = HEADSET_STATE_LIMBO) headsetEnterLimbo (fun _ => waits).
Proof.
  unfold headsetEnterLimbo, headsetCheckDfu. eapply triple_bind with (R := fun _ => waits); [by intros w [Hc Hs] | intros _].
  apply waits_done.
  apply waits_then; [apply waits_apply | intros _]. wait_walk.
Qed.

(** Leaving a state keeps the event. *)
Lemma event_exit s : hkeeps (fun w => headset_limbo_charge_event (h_sm w)) (exit_state s).
Proof.
  destruct s; cbn [exit_state]; unfold headsetExitLimbo, headsetExitPairing, headsetExitIdle, headsetExitBusy,
    headsetExitFactoryReset, headsetPrepareForBtAudio, headsetSmStopLimboTimer, headsetSMStopIdleTimer, IsWiredAudioActive,
    hor; repeat first [apply hkeeps_bind; intros | apply hkeeps_when | case_match | done].
Qed.

Lemma waits_set_state s : s <> HEADSET_STATE_FACTORY_RESET ->
  triple False (fun w => no_cable w /\ sm_state (h_sm w) = s) (headsetSetState HEADSET_STATE_LIMBO) (fun _ => waits).
Proof.
  intros Hs. unfold headsetSetState. eapply triple_bind with (R := fun p w => no_cable w /\ sm_state (h_sm w) = s /\ p = s).
  { by intros w [Hc <-]. }
  intros p. eapply triple_bind with (R := fun _ => no_cable).
  { intros w (Hc & Hw & ->). destruct (stays_exit (fun _ _ => True) s Hs w (conj Hw I)) as [[x ->] _].
    unfold no_cable. by rewrite (event_exit s w). }
  intros _. eapply triple_bind with (R := fun _ w => no_cable w /\ sm_state (h_sm w) = HEADSET_STATE_LIMBO); [by intros w Hw | intros _].
  eapply triple_bind with (R := fun _ w => no_cable w /\ sm_state (h_sm w) = HEADSET_STATE_LIMBO); [by intros w Hw | intros _].
  eapply triple_bind with (R := fun _ => waits); [exact waits_enter | intros _].
  apply waits_done.
  unfold headsetSm_GetApplicationCurrentContext, IsUsbAudioRouted. wait_walk.
Qed.

(** [C22] With no cable in, entering limbo from any state but the factory
    reset leaves the limbo timer running, and when that runs out power-off
    is due. *)
Theorem limbo_powers_off w :
  sm_state (h_sm w) <> HEADSET_STATE_FACTORY_RESET -> no_cable w ->
  let w' := snd (headsetSetState HEADSET_STATE_LIMBO w) in
  limbo_timer (h_trace w') = true /\ power_off_due (SmInternal SM_INTERNAL_TIMEOUT_LIMBO) w' = true.
Proof.
  intros Hs Hc. pose proof (waits_set_state _ Hs w (conj Hc eq_refl)) as Hw.
  destruct (headsetSetState HEADSET_STATE_LIMBO w) as [[x |] w1]; cbn in *; [| done].
  destruct Hw as (He & Hl & Ht). split; [done |]. by rewrite Hl, Hout, He.
Qed.
End limbo.

(** * Examples *)

(** The surroundings that know whether the cable is in, and the charge. *)
Definition plug : Surroundings := {|
  HEnv := bool * Z;
  hserve q e :=
    (match q return HResp q with Charger_IsConnected => fst e | Soc_GetBatterySoc => snd e | q => no_answer q end, e) |}.

Section example.
#[local] Instance example_headset : HeadsetBuild := shipped_headset.
#[local] Instance example_plug : Surroundings := plug.

Definition plugged (cable : bool) (w : HW) : HW := w <| h_env := ((cable, 50) : HEnv) |>.
Definition send (m : HMsg) (w : HW) : HW := snd (headsetSmHandleMessage m w).
Definition stopped : @HW nobody := @in_state HEADSET_STATE_POWERING_OFF.
Definition in_limbo_silently : @HW nobody := snd (@headsetSetState example_headset nobody HEADSET_STATE_LIMBO stopped).
Definition stopping : HW := mkhw _ ((false, 50) : HEnv) [] (sm_zero <| sm_state := HEADSET_STATE_POWERING_OFF |>).

Lemma limbo_powers_off_witness :
  no_cable stopped /\ limbo_timer (h_trace in_limbo_silently) = true.
Proof.
  split; [reflexivity |].
  exact (proj1 (@limbo_powers_off example_headset nobody (fun _ => eq_refl) stopped ltac:(discriminate) eq_refl)).
Defined.

(** The cable goes in and out while the limbo timer runs.  If charging began,
    the timer is started again; if it did not, nothing starts it again, and
    the headset stays in limbo. *)
Definition went_in (w : HW) : HW := send (ChargerMsg CHARGER_MESSAGE_ATTACHED) (plugged true w).
Definition ran_out (w : HW) : HW := send (SmInternal SM_INTERNAL_TIMEOUT_LIMBO) w.
Definition went_out (w : HW) : HW := send (ChargerMsg CHARGER_MESSAGE_DETACHED) (plugged false w).
Definition in_limbo : HW := send STEREO_TOPOLOGY_STOP_CFM stopping.

Lemma limbo_restarted :
  limbo_timer (h_trace (went_out (send (ChargerMsg CHARGER_MESSAGE_CHARGING_OK) (went_in in_limbo)))) = true.
Proof. vm_compute. reflexivity. Qed.

Lemma limbo_stranded :
  let w := went_out (ran_out (went_in in_limbo)) in
  sm_state (h_sm w) = HEADSET_STATE_LIMBO /\ no_cable w /\ limbo_timer (h_trace w) = false.
Proof. vm_compute. auto. Qed.
End example.
