(* ===== verification/HeadsetSpec.v ===== *)
(** What the headset state machine and the helmet module promise together:
    the power of the module follows the state of the headset, and power-off
    is requested only when it may be. *)
From stdpp Require Import relations.
From S2P Require Import Prelude Config Decimal Telemetry Vitals Board Platform World Timers Stream I2c Display Adc Sensors Text Wisun Report Uart Helmet System HeadsetSm HeadsetLogic.

(** * The power of the module *)
Section power.
Context `{HelmetConfig} `{BoardConfig} `{Platform}.

(** Initialised, and powered. *)
Definition power (w : World) : bool * bool := (sh_ready (w_hel w), sh_powered (w_hel w)).

Ltac bring_unfold :=
  unfold poll_ccs811, poll_fifo, poll_single, poll_hdc1080, poll_mlx90614, hdc_wait, bring_up_ccs811, bring_up_hdc1080,
    bring_up_lis3dh, bring_up_mlx90614, bring_up_ssd1315, shProbeCcs811, shInitCcs811, shProbeHdc1080, shHdcReadU16,
    shInitHdc1080, shProbeLis3dh, shInitLis3dh, shReadMlx90614, read_accel, set_accel.
Ltac link_unfold :=
  unfold SmartHelmet_UartNoteReportSent, set_offline, SmartHelmet_UartRejoin, leave_to, shWisunSendProbe, shWisunArm,
    SmartHelmet_ReportStop.
Ltac adc_unfold :=
  unfold SmartHelmet_AdcHandleMessage, adc_result, sens_result, full_result, sens_done, SmartHelmet_AdcRequestScan,
    shAdcRequestNextFull, SmartHelmet_AdcRequestSensIn, shAdcStartSens, adc_read, shAdcFeedVitalsSens, shAdcSensDropped.

Lemma power_drain n k : keeps power (drain_fifo n k).
Proof. induction n; cbn [drain_fifo]; bring_unfold; keeps_tac. Qed.

Lemma power_poll : keeps power SmartHelmet_SensorsPoll.
Proof. pose proof power_drain. unfold SmartHelmet_SensorsPoll, poll_if. bring_unfold. keeps_tac. Qed.

Lemma power_report : keeps power SmartHelmet_ReportStart.
Proof.
  pose proof power_poll.
  assert (forall n l, keeps power (send_frames n l)) as Hf by (induction n; intros l; cbn [send_frames]; link_unfold; keeps_tac).
  assert (keeps power (hel_do (fun h => let '(holding, quiet) := motion_hold (sh_motion_since_report h)
    (sh_motion_holding h) (sh_motion_quiet_reports h) in h <| sh_motion_holding := holding |> <| sh_motion_quiet_reports := quiet |>))) as Hm.
  { intros w. unfold power. cbn. by destruct (motion_hold _ _ _). }
  unfold SmartHelmet_ReportStart, SmartHelmet_UartInPassthrough, SmartHelmet_SensorsReady, shSensorsRequiredOk, report_poll,
    shSendReportLines, report_text, report_head, report_gases, rep_motion, rep_restart, rep_fall, rep_pulse, rep_climate,
    rep_voc, rep_gas, shGasValue, SmartHelmet_UartTakeRestart, take_fall, vit_result.
  link_unfold. keeps_tac.
Qed.

Lemma power_uart_message m : keeps power (SmartHelmet_UartHandleMessage m).
Proof.
  pose proof power_report.
  assert (forall d, keeps power (leave_to d)) by (intros; link_unfold; keeps_tac).
  assert (keeps power shAtFinish) by (unfold shAtFinish, shWisunLogResult, clear_asm, set_step; keeps_tac).
  assert (keeps power shAtSendCurrent) by (unfold shAtSendCurrent, clear_asm, set_step, shWisunSendProbe, shWisunArm; keeps_tac).
  assert (keeps power shProvSendCurrent) by (unfold shProvSendCurrent, clear_asm, set_step, shWisunSendProbe, shWisunArm; keeps_tac).
  assert (keeps power shWisunOnTimeout).
  { unfold shWisunOnTimeout, on_reset, on_prov_read, on_prov_set, on_leave, on_dest, on_pass, on_cmd, note_status,
      shAtNoteResult, clear_asm, set_step, shWisunSendProbe, shWisunArm. keeps_tac. }
  assert (forall d, keeps power (shUartConsume d)).
  { intros d. unfold shUartConsume, shWisunNoteRx, shRxLinePush, rx_byte, shRxLineFlush, vitals_restart, note_send_fail,
      note_send_ok, shOnCmdTooLong, SmartHelmet_UartRejoin, set_offline, SmartHelmet_ReportStop, note_status,
      shResetNoteBanner, shAsmHas, shWisunArm. keeps_tac. }
  unfold SmartHelmet_UartHandleMessage, shUartDrain, drain_turn, shRxPollArm. keeps_tac.
Qed.

Lemma power_handler m : keeps power (smartHelmetTaskHandler m).
Proof.
  pose proof power_report. pose proof power_uart_message.
  assert (keeps power (SmartHelmet_AdcHandleMessage m)) by (adc_unfold; keeps_tac).
  unfold smartHelmetTaskHandler, SmartHelmet_HandleMessage, SmartHelmet_SensorsHandleMessage, shLis3dhLogSample,
    shLis3dhLogArm, shSensorsVerifyPass, retry, cancel_retry, shSensorsScheduleRetry, motion_poll, motion_sample,
    SmartHelmet_SensorsPollLis3dh, poll_if, SmartHelmet_SensorsReady, shSensorsRequiredOk, SmartHelmet_UartInPassthrough.
  bring_unfold. keeps_tac.
Qed.

(** Power-up and power-down set the flag first, and nothing else does. *)
Lemma power_then {A} f (k : IO A) w : keeps power k -> power (run (hel_do f;; k) w) = power (w <| w_hel ::= f |>).
Proof. intros Hk. exact (Hk (w <| w_hel ::= f |>)). Qed.

Ltac start_unfold :=
  unfold SmartHelmet_AdcInit, SmartHelmet_AdcStop, SmartHelmet_SensorsInit,
    SmartHelmet_SensorsStartVerify, SmartHelmet_SensorsStopVerify, SmartHelmet_SensorsSleep,
    SmartHelmet_UartResetHold, SmartHelmet_UartInit, shUartMapPio, SmartHelmet_UartStartVerify, SmartHelmet_UartSleep,
    SmartHelmet_UartClose, shSensorsVerifyPass, shSensorsScheduleRetry, retry, cancel_retry.

Lemma power_on w : (sh_powered (w_hel w) = true -> sh_ready (w_hel w) = true) ->
  power (run SmartHelmet_PowerOn w) = (sh_ready (w_hel w), sh_ready (w_hel w)).
Proof.
  intros Hp. pose proof power_report.
  unfold SmartHelmet_PowerOn. rewrite run_bind, run_hel_get, eval_hel_get. unfold id.
  destruct (sh_ready (w_hel w)) eqn:Hr, (sh_powered (w_hel w)) eqn:Hq; cbn [negb orb];
    try (unfold power; rewrite run_ret, Hr, Hq; done); try (by specialize (Hp eq_refl)).
  rewrite power_then; [unfold power; cbn; by rewrite Hr |].
  start_unfold; adc_unfold; link_unfold; bring_unfold; keeps_tac.
Qed.

Lemma power_off w : power (run SmartHelmet_PowerOff w) = (sh_ready (w_hel w), false).
Proof.
  unfold SmartHelmet_PowerOff. rewrite run_bind, run_hel_get, eval_hel_get.
  destruct (sh_powered (w_hel w)) eqn:Hq; cbn [negb]; [| unfold power; by rewrite run_ret, Hq].
  rewrite power_then; [done |]. start_unfold; adc_unfold; link_unfold; keeps_tac.
Qed.
(** The states in which the module is powered. *)
Definition on (s : headsetState) : bool :=
  match s with
  | HEADSET_STATE_POWERING_ON | HEADSET_STATE_PAIRING | HEADSET_STATE_IDLE | HEADSET_STATE_BUSY => true
  | _ => false
  end.

Lemma power_refresh s w : (sh_powered (w_hel w) = true -> sh_ready (w_hel w) = true) ->
  power (run (SmartHelmet_UiRefresh (state_code s)) w) = (sh_ready (w_hel w), sh_ready (w_hel w) && on s).
Proof.
  intros Hp. set (w1 := w <| w_hel ::= (fun h => h <| sh_ui_state := state_code s |>) |>).
  assert (keeps power (SmartHelmet_SensorsShowAdcMv 0 0 0 0)) as Hk by keeps_tac.
  transitivity (power (run (if on s then SmartHelmet_PowerOn else powered ← hel_get sh_powered; when powered SmartHelmet_PowerOff) w1)).
  { destruct s; exact (Hk _). }
  destruct (on s); [rewrite power_on by exact Hp; by rewrite andb_true_r |].
  rewrite andb_false_r, run_bind, run_hel_get, eval_hel_get.
  destruct (sh_powered (w_hel w1)) eqn:Hq; cbn [when]; [by rewrite power_off |].
  change (power w1 = (sh_ready (w_hel w), false)). unfold power. by rewrite Hq.
Qed.

(** What else the headset and the platform start. *)
Definition background (e : Entry) : bool :=
  match e with
  | CallInit | CallPowerOn | CallPowerOff | CallPowerSave | CallClose | CallUiRefresh _ => false
  | _ => true
  end.

Lemma power_background e : background e = true -> keeps power (enter e).
Proof.
  intros He. pose proof power_handler. pose proof power_poll.
  destruct e; try done; cbn [enter]; unfold SmartHelmet_PollSensors, SmartHelmet_VitalsTick, SmartHelmet_WisunSend,
    SmartHelmet_SensorsAccelBurst; adc_unfold; keeps_tac.
Qed.

Definition powered_off (w : World) : Prop := sh_powered (w_hel w) = false.

Lemma off_kept {A} (m : IO A) : keeps power m -> inv powered_off m.
Proof. intros Hm w Hw. unfold powered_off. etransitivity; [exact (f_equal snd (Hm w)) | exact Hw]. Qed.

Lemma power_init e : sh_powered (w_hel (run (enter CallInit) (world_start e))) = false.
Proof.
  enough (inv powered_off (enter CallInit)) as Hi by (by apply Hi).
  cbn [enter]. unfold SmartHelmet_Init, SmartHelmet_Close, SmartHelmet_SensorsSetLogTask, lis3dh_chk, shLis3dhLogSample,
    shLis3dhLogArm. start_unfold. adc_unfold. link_unfold. bring_unfold.
  pose proof power_report. repeat first [keeps_step | by intros w | apply off_kept; solve [keeps_tac]].
Qed.
End power.

(** * The headset and its helmet *)

(** The module, in the surroundings of the state machine: a call into it is
    a call of [enter], and nothing else the machine asks for changes the
    statics of the module. *)
Definition statics `{Platform} (w : World) :=
  (w_vit w, w_i2c w, w_adc w, w_sens w, w_uart w, w_hel w).

Class HelmetInside `{HelmetConfig} `{BoardConfig} `{Platform} `{Surroundings} := {
  helmet : HEnv -> World;
  helmet_enter e s : helmet (snd (hserve (Helmet e) s)) = run (enter e) (helmet s);
  helmet_online s : fst (hserve SmartHelmet_IsBrOnline s) = eval SmartHelmet_UartIsBrOnline (helmet s);
  helmet_quiet q s : quiet q = true -> statics (helmet (snd (hserve q s))) = statics (helmet s) }.

Section together.
Context `{HeadsetBuild} `{HelmetInside}.

(** The calls into the machine. *)
Inductive hs_call :=
| HsMessage (m : HMsg) | HsBrOnline (online : bool) | HsWired (m : WiredMsg) | HsWiredInit | HsAudioRouted (usb known : bool).

Definition hs_run (c : hs_call) : HM unit :=
  match c with
  | HsMessage m => headsetSmHandleMessage m
  | HsBrOnline online => headsetSmOnBrOnlineChanged online
  | HsWired m => headsetWiredAudioController_HandleMessage m
  | HsWiredInit => HeadsetWiredAudioController_Init
  | HsAudioRouted usb known => headsetSm_AudioRouted usb known
  end.

Lemma init_state w : sm_state (h_sm (snd (headsetSmInit w))) = HEADSET_STATE_NULL.
Proof.
  assert (forall f (k : unit -> HM unit), sm_state (f (h_sm w)) = HEADSET_STATE_NULL ->
    stays (fun _ _ => True) HEADSET_STATE_NULL (k tt) -> sm_state (h_sm (snd ((sm_do f ≫= k) w))) = HEADSET_STATE_NULL) as Hk.
  { intros f k Hf Hs. by apply Hs. }
  unfold headsetSmInit. apply Hk; [done |]. stay_walk.
Qed.

(** A call into the machine that does not panic, a timer or an event of the
    module, or a change of the surroundings that the module does not see. *)
Inductive hs_step : HW -> HW -> Prop :=
| hs_machine c w w' : hs_run c w = (Some tt, w') -> hs_step w w'
| hs_timer id w e : helmet e = run (smartHelmetTaskHandler (MsgTimer id)) (helmet (h_env w)) -> hs_step w (w <| h_env := e |>)
| hs_event n w e : background n = true -> helmet e = run (enter n) (helmet (h_env w)) -> hs_step w (w <| h_env := e |>)
| hs_other w e : statics (helmet e) = statics (helmet (h_env w)) -> hs_step w (w <| h_env := e |>).

(** The machine is initialised before the module, both from zeroed statics. *)
Definition hs_start (w : HW) : Prop :=
  exists w0 e0, h_sm w0 = sm_zero /\ helmet (h_env w0) = world_start e0 /\ fst (headsetSmInit w0) = Some tt /\
    h_sm w = h_sm (snd (headsetSmInit w0)) /\ helmet (h_env w) = run (enter CallInit) (world_start e0).

Definition hs_reachable (w : HW) : Prop := exists w0, hs_start w0 /\ rtc hs_step w0 w.

(** ** The power follows the state *)
Definition follows (s : headsetState) (e : HEnv) : Prop :=
  sh_powered (w_hel (helmet e)) = sh_ready (w_hel (helmet e)) && on s.

Lemma follows_power s e w : follows s e -> power (helmet e) = power w -> sh_powered (w_hel w) = sh_ready (w_hel w) && on s.
Proof. unfold follows, power. by intros Hf [= <- <-]. Qed.

Lemma follows_ready s e : follows s e -> sh_powered (w_hel (helmet e)) = true -> sh_ready (w_hel (helmet e)) = true.
Proof. unfold follows. intros ->. by intros [? _]%andb_true_iff. Qed.

#[export] Instance follows_frame : Frame follows.
Proof.
  split.
  - intros s q e Hq Hf. unfold follows. eapply follows_power; [exact Hf |].
    pose proof (helmet_quiet q e Hq) as Hs. unfold statics in Hs. unfold power. congruence.
  - intros s b e Hf. unfold follows. rewrite helmet_enter. eapply follows_power; [exact Hf |].
    symmetry. apply power_background. by destruct b.
  - intros s s' e Hf. unfold follows. rewrite helmet_enter.
    pose proof (power_refresh s' (helmet e) (follows_ready _ _ Hf)) as Hp. unfold power in Hp.
    cbn [enter]. injection Hp as -> ->. done.
  - intros e Hf. unfold follows. rewrite helmet_enter.
    pose proof (power_on (helmet e) (follows_ready _ _ Hf)) as Hp. unfold power in Hp. cbn [enter on].
    injection Hp as -> ->. by rewrite andb_true_r.
  - intros s b e Hs Hf. unfold follows. rewrite helmet_enter.
    pose proof (power_off (helmet e)) as Hp. unfold power in Hp.
    assert (on s = false) as -> by (by destruct Hs as [-> | ->]). rewrite andb_false_r.
    destruct b; cbn [enter]; unfold SmartHelmet_PowerSave; by injection Hp as _ ->.
Qed.

Lemma follows_call c s : triple True (at_state follows s) (hs_run c) (fun _ w => follows (sm_state (h_sm w)) (h_env w)).
Proof.
  assert (forall E s (m : HM unit) l, moves follows E s m l ->
    triple True (at_state follows s) m (fun _ w => follows (sm_state (h_sm w)) (h_env w))) as Hmoves.
  { intros E s' m l Hm. eapply triple_weaken; [exact Hm | done |]. by intros x w (s'' & _ & <- & Hf). }
  destruct c as [m | online | m | | usb known]; cbn [hs_run].
  - apply (Hmoves _ _ _ _ (moves_message follows m s)).
  - apply (Hmoves True _ _ []), moves_stay. pose proof (stays_stop_idle follows). pose proof (stays_start_idle follows).
    unfold headsetSmOnBrOnlineChanged. stay_walk.
  - apply (Hmoves _ _ _ _ (moves_wired follows True m s)).
  - apply (Hmoves True _ _ []), moves_stay. unfold HeadsetWiredAudioController_Init. stay_walk.
  - unfold headsetSm_AudioRouted, hwhen. apply (Hmoves True _ _ [HEADSET_STATE_IDLE; HEADSET_STATE_BUSY]).
    destruct usb, known; [apply (moves_follow follows); by intros [-> | ->] | by apply moves_panic | |]; apply moves_stay; stay_walk.
Qed.

(** [C3] In every state that the headset and its module can reach together,
    the module is powered exactly when it is initialised and the headset is
    powering on, pairing, idle or busy. *)
Theorem power_follows_state w : hs_reachable w ->
  sh_powered (w_hel (helmet (h_env w))) = sh_ready (w_hel (helmet (h_env w))) && on (sm_state (h_sm w)).
Proof.
  intros (w0 & (w1 & e0 & Hsm & Hh & _ & Hs & He) & Hr). revert Hr.
  assert (follows (sm_state (h_sm w0)) (h_env w0)) as Hf.
  { unfold follows. rewrite Hs, He, power_init.
    assert (sm_state (h_sm (snd (headsetSmInit w1))) = HEADSET_STATE_NULL) as ->; [| by rewrite andb_false_r].
    apply init_state. }
  clear -Hf. intros Hr. induction Hr as [| w w' w'' Hstep _ IH]; [exact Hf |]. apply IH. clear IH.
  destruct Hstep as [c w w' Hc | id w e He | n w e Hn He | w e He].
  - pose proof (follows_call c _ w (conj eq_refl Hf)) as Hw. by rewrite Hc in Hw.
  - eapply follows_power; [exact Hf |]. cbn. rewrite He. symmetry. apply power_handler.
  - eapply follows_power; [exact Hf |]. cbn. rewrite He. symmetry. by apply power_background.
  - eapply follows_power; [exact Hf |]. cbn. unfold statics in He. unfold power. congruence.
Qed.

(** ** The idle timer waits for the border router *)
Definition br_online (e : HEnv) : bool := eval SmartHelmet_UartIsBrOnline (helmet e).

Lemma online_statics w w' : statics w = statics w' -> eval SmartHelmet_UartIsBrOnline w = eval SmartHelmet_UartIsBrOnline w'.
Proof. unfold statics, SmartHelmet_UartIsBrOnline. rewrite !eval_uart_get. congruence. Qed.

(** When the idle timer runs out in idle with no handset connected, it
    starts again while the link to the border router is online, and asks the
    machine to power off when it is not. *)
Theorem idle_waits_for_link w :
  sm_state (h_sm w) = HEADSET_STATE_IDLE -> fst (hserve HappDeviceIsHandsetConnected (h_env w)) = false ->
  map hc_req (h_trace (snd (headsetSmHandleMessage (SmInternal SM_INTERNAL_TIMEOUT_IDLE) w))) =
  (if br_online (h_env w)
   then [HMessageSendLater SM_INTERNAL_TIMEOUT_IDLE headsetConfigIdleTimeoutMs; HMessageCancelAll SM_INTERNAL_TIMEOUT_IDLE]
   else [HMessageSend SM_INTERNAL_POWER_OFF]) ++
  [SmartHelmet_IsBrOnline; HappDeviceIsHandsetConnected] ++ map hc_req (h_trace w).
Proof.
  intros Hs Hh. pose proof (online_statics _ _ (helmet_quiet HappDeviceIsHandsetConnected (h_env w) eq_refl)) as Ho.
  rewrite <- helmet_online in Ho. fold (br_online (h_env w)) in Ho. rewrite <- Ho.
  cbn [headsetSmHandleMessage]. unfold headsetSmHandleTimeoutIdle.
  change (headsetGetState ≫= ?k) with (fun w => k (sm_state (h_sm w)) w). cbn beta. rewrite Hs, bool_decide_true by done.
  unfold hand, hnot, headsetSmPowerOff, hwhen, hcall, mbind, HM_bind, mret, HM_ret.
  destruct (hserve HappDeviceIsHandsetConnected (h_env w)) as [b e] eqn:Hq. cbn in Hh. subst b. cbn.
  by destruct (hserve SmartHelmet_IsBrOnline e) as [[] e1].
Qed.
End together.

(** * Example *)

(** The module, and surroundings that know a paired handset. *)
Definition paired `{HelmetConfig} `{BoardConfig} `{Platform} : Surroundings := {|
  HEnv := World;
  hserve q w :=
    match q return HResp q * World with
    | Helmet e => (tt, run (enter e) w)
    | SmartHelmet_IsBrOnline => (eval SmartHelmet_UartIsBrOnline w, w)
    | BtDevice_IsPairedWithHandset => (true, w)
    | q => (no_answer q, w)
    end |}.

Definition paired_inside `{HelmetConfig} `{BoardConfig} `{Platform} : @HelmetInside _ _ _ paired.
Proof. refine (@Build_HelmetInside _ _ _ paired (fun w => w) _ _ _); [done | done |]. by intros []. Defined.

Section example.
#[local] Instance timed_bench : Platform := timed bench.
#[local] Instance example_shipped : HelmetConfig := shipped.
#[local] Instance example_board : BoardConfig := shipped_board.
#[local] Instance example_headset : HeadsetBuild := shipped_headset.
#[local] Instance example_paired : Surroundings := paired.
#[local] Instance example_inside : HelmetInside := paired_inside.

Definition env_before : Env := (mkbench [] [] 0, []).
Definition before : HW := mkhw _ (world_start env_before : HEnv) [] sm_zero.
Definition ready : HW := (snd (headsetSmInit before)) <| h_env := run (enter CallInit) (h_env before) |>.
Definition told (o n : system_state_state_t) (w : HW) : HW := snd (hs_run (HsMessage (SYSTEM_STATE_STATE_CHANGE o n)) w).
Definition limbo : HW := told system_state_starting_up system_state_limbo ready.
Definition waking : HW := told system_state_limbo system_state_powering_on limbo.

Lemma told_step o n w : fst (hs_run (HsMessage (SYSTEM_STATE_STATE_CHANGE o n)) w) = Some tt -> hs_step w (told o n w).
Proof. intros Hr. apply (hs_machine (HsMessage (SYSTEM_STATE_STATE_CHANGE o n))). unfold told. rewrite <- Hr. by destruct (hs_run _ w). Qed.

Lemma waking_reachable : hs_reachable waking.
Proof.
  exists ready. split.
  - by exists before, env_before.
  - apply (rtc_l _ _ limbo); [apply told_step; vm_compute; reflexivity |].
    apply (rtc_l _ _ waking); [apply told_step; vm_compute; reflexivity | apply rtc_refl].
Qed.

Lemma power_follows_state_witness : sh_powered (w_hel (helmet (h_env waking))) = true.
Proof.
  etransitivity.
  - exact (@power_follows_state example_headset shipped shipped_board timed_bench paired paired_inside waking waking_reachable).
  - vm_compute. reflexivity.
Defined.

Lemma idle_waits_for_link_witness :
  map hc_req (h_trace (snd (headsetSmHandleMessage (SmInternal SM_INTERNAL_TIMEOUT_IDLE) (ready <| h_sm ::= (fun s => s <| sm_state := HEADSET_STATE_IDLE |>) |>)))) =
  HMessageSend SM_INTERNAL_POWER_OFF :: SmartHelmet_IsBrOnline :: HappDeviceIsHandsetConnected :: map hc_req (h_trace ready).
Proof.
  exact (@idle_waits_for_link example_headset shipped shipped_board timed_bench paired paired_inside
    (ready <| h_sm ::= (fun s => s <| sm_state := HEADSET_STATE_IDLE |>) |>) eq_refl eq_refl).
Defined.
End example.
