(* ===== verification/Filter.v ===== *)
(** The median filter that battery_monitor.c and temperature.c both have, the
    one on uint16 and the other on int8: the last readings in a window, sorted
    by exchange, of which the lower median is taken; and the bounds of the
    exponential average behind it. *)
From S2P Require Import Prelude Ring.

(** * The filter *)

(** The statics of the function. *)
Record median_st := mkmedian { input_arr : list Z; index : Z }.
#[export] Instance median_eta : RecordEta median_st := fun r => mkmedian (input_arr r) (index r).

(** [if (sort_arr[j] > sort_arr[k])] they are swapped. *)
Definition exchange (j k : Z) (a : list Z) : list Z :=
  if aget a k <? aget a j then aset (aset a j (aget a k)) k (aget a j) else a.

Definition exchange_sort (n : Z) (a : list Z) : list Z :=
  for_ 0 n (fun j => for_ (j + 1) n (exchange j)) a.

Definition MedianFiltering (window reading : Z) (f : median_st) : Z * median_st :=
  let input := aset (input_arr f) (index f) reading in
  let n := index f + 1 in
  let sort_arr := exchange_sort n (take (Z.to_nat n) input) in
  let median_val := aget sort_arr ((n - 1) / 2) in
  if index f =? window - 1
  then (median_val, f <| input_arr := aset (for_ 0 (window - 1) (fun i a => aset a i (aget a (i + 1))) input) (window - 1) 0 |>)
  else (median_val, mkmedian input (u8 (index f + 1))).

(** * The sort *)
Lemma exchange_perm j k a : 0 <= j < alen a -> 0 <= k < alen a -> exchange j k a ≡ₚ a.
Proof.
  intros Hj Hk. unfold exchange. destruct (_ <? _); [| done]. unfold alen in *.
  destruct (lookup_lt_is_Some_2 a (Z.to_nat j)) as [x Hx]; [lia |]. destruct (lookup_lt_is_Some_2 a (Z.to_nat k)) as [y Hy]; [lia |].
  rewrite (aget_lookup a j x), (aget_lookup a k y) by done. by apply Permutation_insert_swap.
Qed.

Lemma exchange_get j k a p : 0 <= j < alen a -> 0 <= k < alen a -> j <> k -> 0 <= p ->
  aget (exchange j k a) p =
    if p =? j then Z.min (aget a j) (aget a k) else if p =? k then Z.max (aget a j) (aget a k) else aget a p.
Proof.
  intros Hj Hk Hne Hp. unfold exchange. destruct (Z.ltb_spec (aget a k) (aget a j)).
  - destruct (Z.eqb_spec p j) as [-> |]; [rewrite aget_aset_ne, aget_aset_eq by lia; lia |].
    destruct (Z.eqb_spec p k) as [-> |]; [rewrite aget_aset_eq by (rewrite alen_aset; lia); lia |].
    by rewrite !aget_aset_ne by lia.
  - destruct (Z.eqb_spec p j) as [-> |]; [lia |]. destruct (Z.eqb_spec p k) as [-> |]; lia.
Qed.

(** The first [j] cells are in their places. *)
Definition placed (n : Z) (l : list Z) (j : Z) (a : list Z) : Prop :=
  a ≡ₚ l /\ alen a = n /\ forall p q, 0 <= p < j -> p < q < n -> aget a p <= aget a q.

Lemma sort_pass n l j a : 0 <= j < n -> placed n l j a -> placed n l (j + 1) (for_ (j + 1) n (exchange j) a).
Proof.
  intros Hj Ha.
  enough (placed n l j (for_ (j + 1) n (exchange j) a) /\
    forall q, j < q < n -> aget (for_ (j + 1) n (exchange j) a) j <= aget (for_ (j + 1) n (exchange j) a) q) as [(Hp & Hn & Hb) Hm].
  { split_and!; [done | done |]. intros p q Hpj Hq. destruct (decide (p = j)) as [-> | Hne]; [by apply Hm | apply Hb; lia]. }
  apply (for_ind (fun k a => placed n l j a /\ forall q, j < q < k -> aget a j <= aget a q)); [lia | split; [done | lia] |].
  clear a Ha. intros k a Hk [(Hp & Hn & Hb) Hm]. split; [split_and! |].
  - by rewrite exchange_perm by lia.
  - unfold alen in *. by rewrite exchange_perm by (unfold alen; lia).
  - intros p q Hpj Hq. pose proof (Hb p q Hpj Hq). pose proof (Hb p j Hpj ltac:(lia)). pose proof (Hb p k Hpj ltac:(lia)).
    rewrite !exchange_get by lia. destruct (Z.eqb_spec p j), (Z.eqb_spec p k), (Z.eqb_spec q j), (Z.eqb_spec q k); subst; lia.
  - intros q Hq. rewrite !exchange_get by lia. rewrite Z.eqb_refl. destruct (Z.eqb_spec q j); [lia |].
    destruct (Z.eqb_spec q k); [lia |]. specialize (Hm q ltac:(lia)). lia.
Qed.

Lemma exchange_sort_ok n l : alen l = n -> placed n l n (exchange_sort n l).
Proof.
  intros Hn. apply (for_ind (placed n l)); [pose proof (alen_nonneg l); lia | split_and!; [done | done | lia] |].
  intros j a Hj Ha. by apply sort_pass.
Qed.

(** * The median *)
Lemma filter_all (P : Z -> Prop) `{forall x, Decision (P x)} l : Forall P l -> filter P l = l.
Proof. induction 1; [done |]. rewrite filter_cons_True by done. by f_equal. Qed.

(** [m] is the lower median of [l]. *)
Definition lower_median (l : list Z) (m : Z) : Prop :=
  exists s, placed (alen l) l (alen l) s /\ m = aget s ((alen l - 1) / 2).

(** The readings out of [lo..hi]. *)
Definition outside (lo hi : Z) (l : list Z) : list Z := filter (fun x => x < lo \/ hi < x) l.

Lemma outside_none lo hi l : Forall (fun x => lo <= x <= hi) l -> outside lo hi l = [].
Proof. unfold outside. induction 1; [done |]. rewrite filter_cons_False by lia. done. Qed.

(** Fewer than half of the readings being out of bounds, the median is in
    them. *)
Lemma median_within l m lo hi : lower_median l m -> 2 * alen (outside lo hi l) < alen l -> lo <= m <= hi.
Proof.
  intros (s & (Hp & Hn & Hb) & ->) Hbad. set (k := (alen l - 1) / 2). pose proof (alen_nonneg (outside lo hi l)).
  assert (0 <= k /\ alen l - 2 <= 2 * k <= alen l - 1) as [Hk Hk2] by (subst k; zlia).
  assert (alen (outside lo hi l) = alen (outside lo hi (take (Z.to_nat k) s)) + alen (outside lo hi (drop (Z.to_nat k) s))) as Hlow.
  { unfold outside, alen. rewrite <- Nat2Z.inj_add, <- length_app, <- filter_app, take_drop. by rewrite Hp. }
  assert (alen (outside lo hi l) = alen (outside lo hi (take (Z.to_nat (k + 1)) s)) + alen (outside lo hi (drop (Z.to_nat (k + 1)) s))) as Hhigh.
  { unfold outside, alen. rewrite <- Nat2Z.inj_add, <- length_app, <- filter_app, take_drop. by rewrite Hp. }
  pose proof (alen_nonneg (outside lo hi (take (Z.to_nat k) s))). pose proof (alen_nonneg (outside lo hi (drop (Z.to_nat (k + 1)) s))).
  assert (forall i x, s !! i = Some x -> aget s (Z.of_nat i) = x) as Hget by (intros i x Hx; apply aget_lookup; by rewrite Nat2Z.id).
  split; apply Z.nlt_ge; intros Hm.
  - unfold outside at 2 in Hhigh. rewrite filter_all in Hhigh.
    + rewrite alen_take in Hhigh by lia. lia.
    + apply Forall_lookup. intros i x Hx. apply lookup_take_Some in Hx as [Hx Hi]. left. rewrite <- (Hget i x Hx).
      destruct (decide (Z.of_nat i = k)) as [-> | Hne]; [done |]. specialize (Hb (Z.of_nat i) k ltac:(lia) ltac:(lia)). lia.
  - unfold outside at 3 in Hlow. rewrite filter_all in Hlow.
    + unfold alen in Hlow at 3. rewrite length_drop in Hlow. unfold alen in *. lia.
    + apply Forall_lookup. intros i x Hx. rewrite lookup_drop in Hx. right. rewrite <- (Hget _ x Hx).
      apply lookup_lt_Some in Hx. destruct (decide (i = 0%nat)) as [-> | Hne]; [by rewrite Nat.add_0_r, Z2Nat.id by lia |].
      specialize (Hb k (Z.of_nat (Z.to_nat k + i)) ltac:(unfold alen in *; lia) ltac:(unfold alen in *; lia)). lia.
Qed.

(** * What the filter keeps *)

(** The state after the readings [h]: the last ones, up to one less than the
    window. *)
Definition holds (window : Z) (f : median_st) (h : list Z) : Prop :=
  alen (input_arr f) = window /\ index f = Z.min (alen h) (window - 1) /\
  forall i, 0 <= i < index f -> aget (input_arr f) i = aget h (alen h - index f + i).

(** The readings the next median is taken of. *)
Definition in_window (window : Z) (h : list Z) : list Z := last_n (Z.min (alen h) window) h.

Lemma shift_down n a : 0 <= n < alen a ->
  let b := for_ 0 n (fun i a => aset a i (aget a (i + 1))) a in
  alen b = alen a /\ forall p, 0 <= p < alen a -> aget b p = if p <? n then aget a (p + 1) else aget a p.
Proof.
  intros Hn. apply (for_ind (fun i b => alen b = alen a /\
    forall p, 0 <= p < alen a -> aget b p = if p <? i then aget a (p + 1) else aget a p)); [lia | |].
  - split; [done |]. intros p Hp. destruct (Z.ltb_spec p 0); [lia | done].
  - intros i b Hi [Hl Hg]. split; [by rewrite alen_aset |]. intros p Hp. destruct (decide (p = i)) as [-> | Hne].
    + rewrite aget_aset_eq by lia. rewrite Hg by lia. destruct (Z.ltb_spec (i + 1) i), (Z.ltb_spec i (i + 1)); lia || done.
    + rewrite aget_aset_ne by lia. rewrite Hg by lia. destruct (Z.ltb_spec p i), (Z.ltb_spec p (i + 1)); lia || done.
Qed.

Lemma filter_window window x f h : 0 < window -> holds window f h ->
  take (Z.to_nat (index f + 1)) (aset (input_arr f) (index f) x) = in_window window (h ++ [x]).
Proof.
  intros Hw (Hl & Hi & Hg). pose proof (alen_nonneg h). assert (alen (h ++ [x]) = alen h + 1) as Hn by (by rewrite alen_app).
  assert (index f + 1 = Z.min (alen (h ++ [x])) window) as Hm by lia.
  apply alist_eq; unfold in_window; rewrite <- Hm, ?alen_last_n, ?alen_take by (rewrite ?alen_aset; lia); [done |].
  intros i Hr. rewrite aget_last_n by lia. rewrite aget_app by lia. rewrite Hn.
  unfold aget at 1. rewrite nth_lookup, lookup_take_lt, <- nth_lookup by lia. fold (aget (aset (input_arr f) (index f) x) i).
  destruct (decide (i = index f)) as [-> | Hne].
  - rewrite aget_aset_eq by lia. destruct (Z.ltb_spec (alen h + 1 - (index f + 1) + index f) (alen h)); [lia |].
    by replace (alen h + 1 - (index f + 1) + index f - alen h) with 0 by lia.
  - rewrite aget_aset_ne by lia. rewrite Hg by lia. destruct (Z.ltb_spec (alen h + 1 - (index f + 1) + i) (alen h)); [| lia].
    f_equal. lia.
Qed.

(** A reading gives the lower median of the last readings in the window and
    is kept itself. *)
Lemma filter_step window x f h : 0 < window <= 256 -> holds window f h ->
  lower_median (in_window window (h ++ [x])) (fst (MedianFiltering window x f)) /\
  holds window (snd (MedianFiltering window x f)) (h ++ [x]).
Proof.
  intros Hw Hh. pose proof (filter_window window x f h ltac:(lia) Hh) as Ht. pose proof (alen_nonneg h).
  assert (alen (in_window window (h ++ [x])) = index f + 1) as Hn.
  { destruct Hh as (Hl & Hi & _). rewrite <- Ht, alen_take; [done |]. rewrite alen_aset. lia. }
  unfold MedianFiltering. rewrite Ht. destruct Hh as (Hl & Hi & Hg). split.
  - exists (exchange_sort (index f + 1) (in_window window (h ++ [x]))). rewrite Hn. split; [by apply exchange_sort_ok |].
    by destruct (_ =? _).
  - assert (forall i, 0 <= i < index f + 1 -> aget (aset (input_arr f) (index f) x) i = aget (h ++ [x]) (alen h - index f + i)) as Hget.
    { intros i Hr. rewrite aget_app by lia. destruct (decide (i = index f)) as [-> | Hne].
      - rewrite aget_aset_eq by lia. destruct (Z.ltb_spec (alen h - index f + index f) (alen h)); [lia |].
        by replace (alen h - index f + index f - alen h) with 0 by lia.
      - rewrite aget_aset_ne, Hg by lia. by destruct (Z.ltb_spec (alen h - index f + i) (alen h)); [| lia]. }
    destruct (Z.eqb_spec (index f) (window - 1)) as [He | He]; (split_and!; cbn [snd input_arr index field_set]).
    + destruct (shift_down (window - 1) (aset (input_arr f) (index f) x)) as [Hs _]; [rewrite alen_aset; lia |].
      by rewrite alen_aset, Hs, alen_aset.
    + rewrite alen_app. change (alen [x]) with 1. lia.
    + intros i Hr. rewrite aget_aset_ne by lia.
      destruct (shift_down (window - 1) (aset (input_arr f) (index f) x)) as [_ ->]; [rewrite alen_aset; lia | | rewrite alen_aset; lia].
      destruct (Z.ltb_spec i (window - 1)); [| lia]. rewrite Hget, alen_app by lia. change (alen [x]) with 1. f_equal. lia.
    + by rewrite alen_aset.
    + rewrite u8_small by rlia. rewrite alen_app. change (alen [x]) with 1. lia.
    + rewrite u8_small by rlia. intros i Hr. rewrite Hget, alen_app by lia. change (alen [x]) with 1. f_equal. lia.
Qed.

(** * The exponential average

    In hundredths; both files compute it at their widths. *)
Definition ema (weight reading last : Z) : Z := weight * reading + ((100 - weight) * last) ÷ 100.

Lemma ema_within weight reading last lo hi : 0 <= weight <= 100 -> lo <= reading <= hi -> 100 * lo <= last <= 100 * hi ->
  100 * lo <= ema weight reading last <= 100 * hi.
Proof.
  intros Hw Hr Hl. unfold ema.
  assert ((100 - weight) * (100 * lo) ÷ 100 = (100 - weight) * lo) as Hlo
    by (replace ((100 - weight) * (100 * lo)) with ((100 - weight) * lo * 100) by ring; by apply Z.quot_mul).
  assert ((100 - weight) * (100 * hi) ÷ 100 = (100 - weight) * hi) as Hhi
    by (replace ((100 - weight) * (100 * hi)) with ((100 - weight) * hi * 100) by ring; by apply Z.quot_mul).
  assert ((100 - weight) * lo <= (100 - weight) * last ÷ 100) by (rewrite <- Hlo; apply Z.quot_le_mono; nia).
  assert ((100 - weight) * last ÷ 100 <= (100 - weight) * hi) by (rewrite <- Hhi; apply Z.quot_le_mono; nia).
  nia.
Qed.

(** With the weight of one half a reading halves the distance. *)
Lemma ema_closer reading last b : 0 <= b -> Z.abs (last - 100 * reading) <= 2 * b ->
  Z.abs (ema 50 reading last - 100 * reading) <= b.
Proof. intros Hb Hd. unfold ema. change (100 - 50) with 50. zlia. Qed.

Lemma ema_close reading last : Z.abs (last - 100 * reading) <= 1 -> Z.abs (ema 50 reading last - 100 * reading) <= 1.
Proof. intros Hd. unfold ema. change (100 - 50) with 50. zlia. Qed.

(** The distance left after [k] equal readings, from [2 ^ b] at most. *)
Definition distance (b : nat) (k : Z) : Z := 2 ^ (Z.of_nat b - k) `max` 1.

Lemma ema_distance b k reading last : 0 <= k -> Z.abs (last - 100 * reading) <= distance b k ->
  Z.abs (ema 50 reading last - 100 * reading) <= distance b (k + 1).
Proof.
  unfold distance. intros Hk Hd. destruct (Z.lt_ge_cases k (Z.of_nat b)) as [Hlt | Hge].
  - apply (Z.le_trans _ (2 ^ (Z.of_nat b - (k + 1)))); [| lia]. apply ema_closer; [apply Z.pow_nonneg; lia |].
    rewrite <- Z.pow_succ_r by lia. replace (Z.succ (Z.of_nat b - (k + 1))) with (Z.of_nat b - k) by lia.
    assert (1 <= 2 ^ (Z.of_nat b - k)) by (apply (Z.pow_le_mono_r 2 0); lia). lia.
  - assert (2 ^ (Z.of_nat b - k) <= 1).
    { destruct (decide (k = Z.of_nat b)) as [-> | Hne]; [by rewrite Z.sub_diag | rewrite Z.pow_neg_r by lia; lia]. }
    pose proof (ema_close reading last ltac:(lia)). lia.
Qed.

(** * The filtered average of a history *)

(** The first median, and each later one averaged with the last result. *)
Inductive average_of (window weight : Z) : list Z -> Z -> Prop :=
| average_first x m : lower_median (in_window window [x]) m -> average_of window weight [x] (m * 100)
| average_next h e x m : average_of window weight h e -> lower_median (in_window window (h ++ [x])) m ->
    average_of window weight (h ++ [x]) (ema weight m e).

(** At every reading more than half of those in the window are in [lo..hi]. *)
Definition steady (window lo hi : Z) (h : list Z) : Prop :=
  forall k, k `prefix_of` h -> k <> [] -> 2 * alen (outside lo hi (in_window window k)) < alen (in_window window k).

Lemma steady_all window lo hi h : 0 < window -> Forall (fun x => lo <= x <= hi) h -> steady window lo hi h.
Proof.
  intros Hw Hh k [h' ->] Hk. apply Forall_app in Hh as [Hh _].
  assert (0 < alen k) by (destruct k; [done | unfold alen; cbn; lia]).
  unfold in_window. rewrite alen_last_n by lia.
  rewrite outside_none by (by apply last_n_Forall). change (alen []) with 0. lia.
Qed.

Lemma average_within window weight lo hi h e : 0 <= weight <= 100 -> average_of window weight h e -> steady window lo hi h ->
  100 * lo <= e <= 100 * hi.
Proof.
  intros Hw. induction 1 as [x m Hm | h e x m He IH Hm]; intros Hs.
  - pose proof (median_within _ _ lo hi Hm (Hs [x] ltac:(done) ltac:(done))). lia.
  - apply ema_within; [done | | apply IH; intros k Hk; apply Hs; by apply prefix_app_r].
    apply (median_within _ _ lo hi Hm). apply Hs; [done | by destruct h].
Qed.

(** After [window] equal readings the medians are that reading. *)
Lemma median_settled window h k r m : 0 < window <= Z.of_nat k -> lower_median (in_window window (h ++ replicate k r)) m -> m = r.
Proof.
  intros Hk Hm. enough (r <= m <= r) by lia. apply (median_within _ _ r r Hm).
  assert (window <= alen (h ++ replicate k r)) as Hl by (unfold alen; rewrite length_app, length_replicate; lia).
  assert (Forall (fun x => x = r) (in_window window (h ++ replicate k r))) as Hall.
  { unfold in_window. rewrite Z.min_r by done. unfold last_n, alen. rewrite length_app, length_replicate.
    rewrite drop_app_ge by lia. by apply Forall_drop, Forall_replicate. }
  rewrite outside_none by (eapply Forall_impl; [exact Hall |]; cbn; lia).
  unfold in_window. rewrite Z.min_r, alen_last_n by lia. change (alen []) with 0. lia.
Qed.

(** The average comes within one hundredth of a reading that stays. *)
Lemma average_settles window b h k r e : 0 < window -> (Nat.pred (Z.to_nat window) + b <= k)%nat ->
  average_of window 50 (h ++ replicate k r) e ->
  (forall h' e, average_of window 50 h' e -> h' `prefix_of` h ++ replicate k r -> Z.abs (e - 100 * r) <= 2 ^ Z.of_nat b) ->
  Z.abs (e - 100 * r) <= 1.
Proof.
  intros Hw Hk He Hb.
  enough (forall j e, average_of window 50 (h ++ replicate j r) e -> (forall h' e, average_of window 50 h' e ->
    h' `prefix_of` h ++ replicate j r -> Z.abs (e - 100 * r) <= 2 ^ Z.of_nat b) ->
    Z.abs (e - 100 * r) <= distance b (Z.of_nat (j - Nat.pred (Z.to_nat window)))) as H.
  { specialize (H k e He Hb). unfold distance in H.
    assert (2 ^ (Z.of_nat b - Z.of_nat (k - Nat.pred (Z.to_nat window))) <= 1); [| lia].
    destruct (decide (Z.of_nat b = Z.of_nat (k - Nat.pred (Z.to_nat window)))) as [-> | Hne]; [by rewrite Z.sub_diag | rewrite Z.pow_neg_r by lia; lia]. }
  clear e k Hk He Hb. induction j as [| j IH]; intros e He Hb.
  - unfold distance. specialize (Hb _ _ He (reflexivity _)). rewrite Z.sub_0_r. lia.
  - destruct (decide (S j <= Nat.pred (Z.to_nat window))%nat) as [Hs | Hs].
    { replace (S j - Nat.pred (Z.to_nat window))%nat with 0%nat by lia. specialize (Hb _ _ He (reflexivity _)).
      unfold distance. rewrite Z.sub_0_r. lia. }
    replace (Z.of_nat (S j - Nat.pred (Z.to_nat window))) with (Z.of_nat (j - Nat.pred (Z.to_nat window)) + 1) by lia.
    assert (h ++ replicate (S j) r = (h ++ replicate j r) ++ [r]) as E by (rewrite <- app_assoc; f_equal; apply replicate_S_end).
    remember (h ++ replicate (S j) r) as l eqn:El. destruct He as [x m Hm | h' e x m He Hm].
    + rewrite El in Hm. apply median_settled in Hm; [| lia]. subst m. rewrite Z.mul_comm, Z.sub_diag. unfold distance. cbn. lia.
    + rewrite El in Hm. apply median_settled in Hm; [| lia]. subst m. apply app_inj_2 in E as [-> _]; [| done].
      apply ema_distance; [lia |]. apply IH; [exact He |]. intros h2 e2 H2 Hp. apply (Hb h2 e2 H2).
      rewrite El, replicate_S_end, app_assoc. by apply prefix_app_r.
Qed.

(** The same for readings between [lo] and [hi]. *)
Lemma average_reaches window lo hi b h k r e : 0 < window -> (Nat.pred (Z.to_nat window) + b <= k)%nat ->
  100 * (hi - lo) <= 2 ^ Z.of_nat b -> Forall (fun x => lo <= x <= hi) (h ++ replicate k r) -> (0 < k)%nat ->
  average_of window 50 (h ++ replicate k r) e -> Z.abs (e - 100 * r) <= 1.
Proof.
  intros Hw Hk Hb Hh Hk0 He. assert (lo <= r <= hi) as Hr.
  { apply Forall_app in Hh as [_ Hr]. destruct k; [lia |]. by inversion Hr. }
  eapply (average_settles window b); [done | exact Hk | exact He |]. intros h' e' He' [h2 Hp].
  rewrite Hp in Hh. apply Forall_app in Hh as [Hh _].
  pose proof (average_within window 50 lo hi h' e' ltac:(lia) He' (steady_all _ _ _ _ Hw Hh)). lia.
Qed.

(** The check that a history is steady. *)
Definition steadyb (window lo hi : Z) (h : list Z) : bool :=
  forallb (fun n => 2 * alen (outside lo hi (in_window window (take n h))) <? alen (in_window window (take n h))) (seq 1 (length h)).

Lemma steadyb_steady window lo hi h : steadyb window lo hi h = true -> steady window lo hi h.
Proof.
  unfold steadyb. rewrite forallb_forall. intros Hb k [h' ->] Hk.
  specialize (Hb (length k)). rewrite take_app_length in Hb. apply Z.ltb_lt, Hb, in_seq.
  rewrite length_app. destruct k; [done |]. cbn. lia.
Qed.
