(* ===== verification/Battery.v ===== *)
(** The battery monitor: battery_monitor.c, which reads the voltage of the
    battery once a second, filters it and tells its clients, of which the
    state of charge (Charge) and the charging regions (Region) are two. *)
From S2P Require Import Prelude Ring Filter.

(** * Data *)
Definition appConfigBatteryReadingPeriodMs : Z := 1000.
Definition appConfigBatteryMedianFilterWindow : Z := 5.
Definition appConfigBatterySmoothingWeight : Z := 50.
Definition appConfigBatteryVoltageLow : Z := 3300.
Definition FAKE_BATTERY_LEVEL_DISABLED : Z := 0.

(** [batteryRegisteredClient] with its form; the only representation is the
    voltage. *)
Record battery_client := mkbclient { b_task : Z; hysteresis : Z; b_voltage : Z }.
#[export] Instance battery_client_eta : RecordEta battery_client := fun r => mkbclient (b_task r) (hysteresis r) (b_voltage r).

(** [batteryTaskData] with the statics of the file and of its functions. *)
Record batteryTaskData := mkbattery {
  period : Z;
  vref_raw : Z;
  cfm_sent : bool;
  median_filter_window : Z;
  instantaneous : Z;
  weight : Z;
  last_ema : Z;
  current_ema : Z;
  b_clients : list battery_client;
  median : median_st;
  t_ema : Z;
  fake_battery_level : Z;
  battery_level_test_on : bool }.
#[export] Instance battery_eta : RecordEta batteryTaskData := fun r =>
  mkbattery (period r) (vref_raw r) (cfm_sent r) (median_filter_window r) (instantaneous r) (weight r) (last_ema r) (current_ema r)
    (b_clients r) (median r) (t_ema r) (fake_battery_level r) (battery_level_test_on r).

(** The statics before appBatteryInit; what malloc gives the filter is
    [garbage]. *)
Definition battery_zero (garbage : list Z) : batteryTaskData :=
  mkbattery 0 0 false 0 0 0 0 0 [] (mkmedian garbage 0) 1 FAKE_BATTERY_LEVEL_DISABLED false.

Inductive adc_source := adcsel_pmu_vbat_sns | adcsel_vref_hq_buff | adcsel_other.
#[export] Instance adc_source_dec : EqDecision adc_source.
Proof. solve_decision. Defined.

(** A trigger comes with the answers of the two read requests. *)
Inductive batt_msg :=
| BATT_ADC_RESULT (source : adc_source) (reading : Z)
| BATT_TEST_PROCESS_READING (source : adc_source) (reading : Z)
| BATT_INTERNAL_MEASUREMENT_TRIGGER (vref_ok vbat_ok : bool)
| BATT_MSG_OTHER.

Inductive batt_out :=
| BATT_UPDATE_VOLTAGE (task mv : Z)
| BATT_INIT_CFM
| BATT_TRIGGER_LATER (delay : Z)
| BATT_TEST_READING (reading : Z)
| BATT_ADC_READ (source : adc_source)
| BATT_UNEXPECTED.

(** * The file *)

Definition ltThreshold (current threshold hysteresis : Z) : bool := current <? threshold - hysteresis.
Definition gtThreshold (current threshold hysteresis : Z) : bool := threshold + hysteresis <? current.
Definition thresholdExceeded (current threshold hysteresis : Z) : bool :=
  ltThreshold current threshold hysteresis || gtThreshold current threshold hysteresis.

Definition appBatteryClientAdd (alloc : bool) (task hyst : Z) (d : batteryTaskData) : bool * batteryTaskData :=
  if alloc then (true, d <| b_clients ::= cons (mkbclient task hyst 0) |>) else (false, d).

Fixpoint remove_bclient (task : Z) (l : list battery_client) : list battery_client :=
  match l with
  | [] => []
  | c :: l => if b_task c =? task then l else c :: remove_bclient task l
  end.
Definition appBatteryClientRemove (task : Z) (d : batteryTaskData) : batteryTaskData := d <| b_clients ::= remove_bclient task |>.

Definition appBatteryGetVoltageAverage (d : batteryTaskData) : Z :=
  if negb (fake_battery_level d =? FAKE_BATTERY_LEVEL_DISABLED) then fake_battery_level d else u16 (current_ema d / 100).

Definition appBatteryGetVoltageInstantaneous (d : batteryTaskData) : Z :=
  if negb (fake_battery_level d =? FAKE_BATTERY_LEVEL_DISABLED) then fake_battery_level d else instantaneous d.

Definition BatteryMonitor_IsGood (d : batteryTaskData) : bool := appConfigBatteryVoltageLow <? appBatteryGetVoltageAverage d.

Definition appBatteryServiceClients (d : batteryTaskData) : batteryTaskData * list batt_out :=
  let voltage := appBatteryGetVoltageAverage d in
  let due c := thresholdExceeded voltage (b_voltage c) (hysteresis c) in
  (d <| b_clients ::= fmap (fun c => if due c then c <| b_voltage := voltage |> else c) |>,
   (fun c => BATT_UPDATE_VOLTAGE (b_task c) voltage) <$> filter (fun c => due c = true) (b_clients d)).

(** The first reading is the average. *)
Definition batteryMonitor_ExponentialAverage (reading : Z) (d : batteryTaskData) : Z * batteryTaskData :=
  if t_ema d =? 1 then (u32 (reading * 100), d <| t_ema := u8 (t_ema d + 1) |>)
  else (u32 (u32 (weight d * reading) + u32 (u32 (u32 (100 - weight d) * last_ema d) / 100)), d).

Definition batteryMonitor_MedianFiltering (reading : Z) (d : batteryTaskData) : Z * batteryTaskData :=
  let r := MedianFiltering (median_filter_window d) reading (median d) in (fst r, d <| median := snd r |>).

Section battery.
(** VmReadVrefConstant() *)
Context (vref_const : Z).

Definition vbatt_mv (reading : Z) (d : batteryTaskData) : Z := u16 (u32 (vref_const * reading) / vref_raw d).

(** The branch of a reading of the battery with a reference. *)
Definition battery_take (reading : Z) (d : batteryTaskData) : Z * batteryTaskData :=
  let m := batteryMonitor_MedianFiltering (vbatt_mv reading d) d in
  let d := (snd m) <| instantaneous := fst m |> in
  let d := d <| last_ema := current_ema d |> in
  let e := batteryMonitor_ExponentialAverage (fst m) d in
  (fst m, (snd e) <| current_ema := fst e |>).

Definition appBatteryAdcResultHandler (source : adc_source) (reading : Z) (d : batteryTaskData) : bool * batteryTaskData * list batt_out :=
  match source with
  | adcsel_pmu_vbat_sns =>
    let cfm := if cfm_sent d then [] else [BATT_INIT_CFM] in
    let d := d <| cfm_sent := true |> in
    let r := if negb (vref_raw d =? 0) then battery_take reading d else (0, d) in
    let d := snd r in
    (negb (fst r =? 0), d, cfm ++ (if battery_level_test_on d then [] else [BATT_TRIGGER_LATER (period d)]))
  | adcsel_vref_hq_buff => (false, d <| vref_raw := reading |>, [])
  | adcsel_other => (false, d, [])
  end.

(** Handle a result and tell the clients when there is a new voltage. *)
Definition battery_result (source : adc_source) (reading : Z) (d : batteryTaskData) : batteryTaskData * list batt_out :=
  let '(new, d, out) := appBatteryAdcResultHandler source reading d in
  if new then let s := appBatteryServiceClients d in (fst s, out ++ snd s) else (d, out).

Definition appBatteryHandleMessage (m : batt_msg) (d : batteryTaskData) : batteryTaskData * list batt_out :=
  if negb (period d =? 0) then
    match m with
    | BATT_ADC_RESULT source reading =>
      if negb (battery_level_test_on d) && (fake_battery_level d =? FAKE_BATTERY_LEVEL_DISABLED)
      then battery_result source reading d else (d, [])
    | BATT_TEST_PROCESS_READING source reading => battery_result source reading d
    | BATT_INTERNAL_MEASUREMENT_TRIGGER vref_ok vbat_ok =>
      if negb vref_ok then (d, [BATT_ADC_READ adcsel_vref_hq_buff; BATT_TRIGGER_LATER (period d)])
      else if negb vbat_ok
      then (d <| vref_raw := 0 |>, [BATT_ADC_READ adcsel_vref_hq_buff; BATT_ADC_READ adcsel_pmu_vbat_sns; BATT_TRIGGER_LATER (period d)])
      else (d, [BATT_ADC_READ adcsel_vref_hq_buff; BATT_ADC_READ adcsel_pmu_vbat_sns])
    | BATT_MSG_OTHER => (d, [BATT_UNEXPECTED])
    end
  else (d, []).

Definition appBatteryInit (d : batteryTaskData) : batteryTaskData * list batt_out :=
  let d := mkbattery appConfigBatteryReadingPeriodMs 0 false appConfigBatteryMedianFilterWindow 0 appConfigBatterySmoothingWeight 0 0 []
             (median d) (t_ema d) (fake_battery_level d) (battery_level_test_on d) in
  if fake_battery_level d =? FAKE_BATTERY_LEVEL_DISABLED then (d, [BATT_TRIGGER_LATER 0])
  else (d <| cfm_sent := true |>, [BATT_INIT_CFM]).

Definition appBatteryRegister (alloc : bool) (task hyst : Z) (d : batteryTaskData) : bool * (batteryTaskData * list batt_out) :=
  let r := appBatteryClientAdd alloc task hyst d in
  if fst r then (true, appBatteryServiceClients (snd r)) else (false, (d, [])).

Definition appBatteryUnregister (task : Z) (d : batteryTaskData) : batteryTaskData := appBatteryClientRemove task d.

Definition appBatteryTestSetFakeVoltage (voltage : Z) (d : batteryTaskData) : batteryTaskData * list batt_out :=
  appBatteryServiceClients (d <| fake_battery_level := voltage |>).
Definition appBatteryTestUnsetFakeVoltage (d : batteryTaskData) : batteryTaskData * list batt_out :=
  (d <| fake_battery_level := FAKE_BATTERY_LEVEL_DISABLED |>, [BATT_TRIGGER_LATER 0]).
Definition appBatteryTestInjectFakeLevel (voltage : Z) (d : batteryTaskData) : batteryTaskData * list batt_out :=
  (d <| battery_level_test_on := true |>, [BATT_TEST_READING voltage]).
Definition appBatteryTestResumeAdcMeasurements (d : batteryTaskData) : batteryTaskData * list batt_out :=
  (d <| battery_level_test_on := false |>, [BATT_TRIGGER_LATER 0]).
End battery.

(** * Runs in the field

    Messages of the converter and of the trigger, and clients that come and
    go; the test entries are left to the tests. *)
Inductive batt_op := BattMessage (m : batt_msg) | BattRegister (alloc : bool) (task hyst : Z) | BattUnregister (task : Z).

Section runs.
Context (vref_const : Z).

Definition batt_step (o : batt_op) (d : batteryTaskData) : batteryTaskData * list batt_out :=
  match o with
  | BattMessage m => appBatteryHandleMessage vref_const m d
  | BattRegister alloc task hyst => snd (appBatteryRegister alloc task hyst d)
  | BattUnregister task => (appBatteryUnregister task d, [])
  end.

Definition batt_run (os : list batt_op) (d : batteryTaskData) : batteryTaskData := fold_left (fun d o => fst (batt_step o d)) os d.

(** The voltages that were measured: results of the battery with a reference. *)
Definition measured (o : batt_op) (d : batteryTaskData) : list Z :=
  match o with
  | BattMessage (BATT_ADC_RESULT adcsel_pmu_vbat_sns reading | BATT_TEST_PROCESS_READING adcsel_pmu_vbat_sns reading) =>
    if vref_raw d =? 0 then [] else [vbatt_mv vref_const reading d]
  | _ => []
  end.

Fixpoint measurements (os : list batt_op) (d : batteryTaskData) : list Z :=
  match os with
  | [] => []
  | o :: os => measured o d ++ measurements os (fst (batt_step o d))
  end.

(** ** The invariant *)
Definition field (d : batteryTaskData) : Prop :=
  period d = appConfigBatteryReadingPeriodMs /\ median_filter_window d = 5 /\ weight d = 50 /\
  fake_battery_level d = FAKE_BATTERY_LEVEL_DISABLED /\ battery_level_test_on d = false.

Definition battery_inv (h : list Z) (d : batteryTaskData) : Prop :=
  field d /\ holds 5 (median d) h /\ Forall is_u16 h /\
  match h with
  | [] => t_ema d = 1 /\ current_ema d = 0 /\ instantaneous d = 0
  | _ => t_ema d = 2 /\ average_of 5 50 h (current_ema d) /\ lower_median (in_window 5 h) (instantaneous d)
  end.

Lemma inv_average h d : battery_inv h d -> h <> [] -> t_ema d = 2 /\ average_of 5 50 h (current_ema d) /\ 0 <= current_ema d <= 6553500.
Proof.
  intros (_ & _ & Hu & Ha) Hne. destruct h as [| x h]; [done |]. destruct Ha as (Ht & Ha & _). split; [done |]. split; [done |].
  enough (100 * 0 <= current_ema d <= 100 * 65535) by lia. apply (average_within 5 50 0 65535 (x :: h)); [lia | done |].
  apply steady_all; [lia |]. eapply Forall_impl; [exact Hu |]. unfold is_u16. lia.
Qed.

Lemma battery_take_fields reading d :
  let r := MedianFiltering (median_filter_window d) (vbatt_mv vref_const reading d) (median d) in
  battery_take vref_const reading d =
    (fst r, mkbattery (period d) (vref_raw d) (cfm_sent d) (median_filter_window d) (fst r) (weight d) (current_ema d)
      (if t_ema d =? 1 then u32 (fst r * 100)
       else u32 (u32 (weight d * fst r) + u32 (u32 (u32 (100 - weight d) * current_ema d) / 100)))
      (b_clients d) (snd r) (if t_ema d =? 1 then u8 (t_ema d + 1) else t_ema d) (fake_battery_level d) (battery_level_test_on d)).
Proof.
  cbv zeta. unfold battery_take, batteryMonitor_MedianFiltering, batteryMonitor_ExponentialAverage. destruct d. cbn.
  by destruct (_ =? 1).
Qed.

Lemma battery_take_inv h d reading : battery_inv h d ->
  battery_inv (h ++ [vbatt_mv vref_const reading d]) (snd (battery_take vref_const reading d)) /\
  lower_median (in_window 5 (h ++ [vbatt_mv vref_const reading d])) (fst (battery_take vref_const reading d)) /\
  b_clients (snd (battery_take vref_const reading d)) = b_clients d.
Proof.
  intros Hi. pose proof (inv_average h d Hi) as Hav. destruct Hi as ((Hp & Hw & Hwt & Hf & Ht) & Hh & Hu & Ha).
  set (mv := vbatt_mv vref_const reading d). destruct (filter_step 5 mv (median d) h ltac:(lia) Hh) as [Hm Hh'].
  assert (is_u16 mv) as Hmv by apply u16_range. assert (Forall is_u16 (h ++ [mv])) as Hu' by (apply Forall_app; auto).
  rewrite battery_take_fields. cbv zeta. fold mv. rewrite Hw, Hwt.
  set (ms := snd (MedianFiltering 5 mv (median d))) in *.
  set (m := fst (MedianFiltering 5 mv (median d))) in *. cbn [fst snd b_clients].
  assert (0 <= m <= 65535) as Hmr.
  { apply (median_within _ _ 0 65535 Hm). rewrite outside_none.
    - change (alen []) with 0. unfold in_window. pose proof (alen_nonneg h). rewrite alen_last_n; rewrite alen_app; change (alen [mv]) with 1; lia.
    - apply last_n_Forall. eapply Forall_impl; [exact Hu' |]. unfold is_u16. lia. }
  split; [| done]. destruct h as [| x h].
  - rewrite (proj1 Ha). unfold battery_inv, field.
    cbn [period median_filter_window weight fake_battery_level battery_level_test_on median t_ema current_ema instantaneous app].
    change (1 =? 1) with true. cbv iota. split_and!; try done. rewrite u32_small by rlia. by apply average_first.
  - destruct (Hav ltac:(done)) as (Ht2 & He & Hr). rewrite Ht2. unfold battery_inv, field.
    cbn [period median_filter_window weight fake_battery_level battery_level_test_on median t_ema current_ema instantaneous app].
    change (2 =? 1) with false. cbv iota. split_and!; try done. change (u32 (100 - 50)) with 50.
    rewrite (u32_small (50 * m)), (u32_small (50 * current_ema d)) by rlia.
    rewrite (u32_small (_ / 100)), u32_small by (unfold_ranges; zlia).
    rewrite <- Z.quot_div_nonneg by lia. exact (average_next 5 50 _ _ _ _ He Hm).
Qed.

Lemma service_inv h d : battery_inv h d -> battery_inv h (fst (appBatteryServiceClients d)).
Proof. unfold battery_inv, field. by destruct d. Qed.

Lemma battery_result_inv h d source reading : battery_inv h d ->
  battery_inv (h ++ match source with adcsel_pmu_vbat_sns => if vref_raw d =? 0 then [] else [vbatt_mv vref_const reading d] | _ => [] end)
    (fst (battery_result vref_const source reading d)).
Proof.
  intros Hi. unfold battery_result, appBatteryAdcResultHandler. destruct source; [| rewrite app_nil_r; exact Hi..].
  change (vref_raw (d <| cfm_sent := true |>)) with (vref_raw d). destruct (vref_raw d =? 0); cbn [negb fst snd].
  - rewrite app_nil_r. exact Hi.
  - set (d1 := d <| cfm_sent := true |>). assert (battery_inv h d1) as Hi1 by exact Hi.
    destruct (battery_take_inv h d1 reading Hi1) as (Hi' & _).
    match goal with |- context [negb (?a =? 0)] => destruct (negb (a =? 0)) end; cbn [fst]; [apply service_inv |]; exact Hi'.
Qed.

Lemma batt_step_inv h o d : battery_inv h d -> battery_inv (h ++ measured o d) (fst (batt_step o d)).
Proof.
  intros Hi. destruct o as [m | [] task hyst | task]; cbn [batt_step measured]; [| rewrite app_nil_r; exact Hi..].
  unfold appBatteryHandleMessage. pose proof Hi as ((-> & _ & _ & Hf & Ht) & _). cbn [negb Z.eqb appConfigBatteryReadingPeriodMs].
  destruct m as [source reading | source reading | [] [] |]; cbn [negb fst]; try (rewrite app_nil_r; exact Hi).
  - rewrite Hf, Ht. cbn [negb andb Z.eqb FAKE_BATTERY_LEVEL_DISABLED]. by apply battery_result_inv.
  - by apply battery_result_inv.
Qed.

Lemma batt_run_inv os h d : battery_inv h d -> battery_inv (h ++ measurements os d) (batt_run os d).
Proof.
  unfold batt_run. revert h d. induction os as [| o os IH]; intros h d Hi; cbn [fold_left measurements]; [by rewrite app_nil_r |].
  rewrite app_assoc. apply IH. by apply batt_step_inv.
Qed.

(** The monitor after appBatteryInit. *)
Definition battery_start (garbage : list Z) : batteryTaskData := fst (appBatteryInit (battery_zero garbage)).

Lemma battery_start_inv garbage : alen garbage = 5 -> battery_inv [] (battery_start garbage).
Proof. intros Hg. split_and!; try done. split_and!; [exact Hg | done |]. intros i Hr. cbn in Hr. lia. Qed.

Lemma battery_average_value h d : battery_inv h d -> h <> [] -> appBatteryGetVoltageAverage d = current_ema d / 100.
Proof.
  intros Hi Hne. destruct (inv_average h d Hi Hne) as (_ & _ & Hr). unfold appBatteryGetVoltageAverage.
  pose proof Hi as ((_ & _ & _ & -> & _) & _). cbn [negb Z.eqb FAKE_BATTERY_LEVEL_DISABLED]. apply u16_small. unfold_ranges. zlia.
Qed.

(** The average voltage stays within the bounds that more than half of
    the last five measurements keep at every measurement, whatever the others
    are. *)
Theorem battery_average_within garbage os lo hi : alen garbage = 5 ->
  let h := measurements os (battery_start garbage) in
  h <> [] -> steady 5 lo hi h -> lo <= appBatteryGetVoltageAverage (batt_run os (battery_start garbage)) <= hi.
Proof.
  intros Hg h Hne Hs. pose proof (batt_run_inv os [] _ (battery_start_inv garbage Hg)) as Hi. cbn [app] in Hi. fold h in Hi.
  rewrite (battery_average_value h _ Hi Hne). destruct (inv_average h _ Hi Hne) as (_ & Ha & _).
  pose proof (average_within 5 50 lo hi h _ ltac:(lia) Ha Hs). zlia.
Qed.

(** Twenty-seven equal measurements bring it to that voltage, or to one
    millivolt less. *)
Lemma battery_average_settles os h d k r : battery_inv h d -> measurements os d = replicate k r -> (27 <= k)%nat ->
  r - 1 <= appBatteryGetVoltageAverage (batt_run os d) <= r.
Proof.
  intros Hi Hm Hk. pose proof (batt_run_inv os h d Hi) as Hi'. rewrite Hm in Hi'.
  assert (h ++ replicate k r <> []) as Hne by (destruct k; [lia |]; by destruct h).
  destruct (inv_average _ _ Hi' Hne) as (_ & Ha & _). rewrite (battery_average_value _ _ Hi' Hne).
  assert (Z.abs (current_ema (batt_run os d) - 100 * r) <= 1); [| zlia].
  apply (average_reaches 5 0 65535 23 h k r); [done | cbn; lia | cbn; lia | | lia | exact Ha].
  destruct Hi' as (_ & _ & Hu & _). eapply Forall_impl; [exact Hu |]. unfold is_u16. lia.
Qed.

(** ** The clients *)

(** After they are served no client is further from the average than its
    hysteresis. *)
Definition served (d : batteryTaskData) : Prop :=
  Forall (fun c => Z.abs (appBatteryGetVoltageAverage d - b_voltage c) <= hysteresis c) (b_clients d).

Lemma service_served d : Forall (fun c => 0 <= hysteresis c) (b_clients d) -> served (fst (appBatteryServiceClients d)).
Proof.
  intros Hh. unfold served.
  replace (appBatteryGetVoltageAverage (fst (appBatteryServiceClients d))) with (appBatteryGetVoltageAverage d) by (by destruct d).
  set (v := appBatteryGetVoltageAverage d). unfold appBatteryServiceClients. fold v. cbn [fst b_clients field_set].
  apply Forall_fmap. eapply Forall_impl; [exact Hh |]. intros c Hc. cbv beta in Hc. unfold compose.
  destruct (thresholdExceeded _ _ _) eqn:E; cbn [b_voltage hysteresis field_set]; [lia |].
  unfold thresholdExceeded, ltThreshold, gtThreshold in E. apply orb_false_iff in E as [E1 E2]. apply Z.ltb_ge in E1, E2. lia.
Qed.

(** ** The measurements go on *)

(** What keeps them going: a trigger on its way, or a result of the battery. *)
Definition goes_on (m : batt_msg) : nat :=
  match m with BATT_INTERNAL_MEASUREMENT_TRIGGER _ _ | BATT_ADC_RESULT adcsel_pmu_vbat_sns _ => 1 | _ => 0 end%nat.

(** A read request that was accepted is answered by a result. *)
Definition starts (vbat_ok : bool) (o : batt_out) : nat :=
  match o with BATT_TRIGGER_LATER _ => 1 | BATT_ADC_READ adcsel_pmu_vbat_sns => if vbat_ok then 1 else 0 | _ => 0 end%nat.
Definition vbat_answer (m : batt_msg) : bool := match m with BATT_INTERNAL_MEASUREMENT_TRIGGER _ ok => ok | _ => true end.

(** Each trigger and each result of the battery that is handled leaves
    exactly one trigger or accepted read behind, whatever was read and
    whichever request failed; nothing else starts one. *)
Theorem battery_goes_on h m d : battery_inv h d -> (forall source reading, m <> BATT_TEST_PROCESS_READING source reading) ->
  sum_list_with (starts (vbat_answer m)) (snd (appBatteryHandleMessage vref_const m d)) = goes_on m.
Proof.
  intros Hi Hm. pose proof Hi as ((Hp & _ & _ & Hf & Ht) & _). unfold appBatteryHandleMessage. rewrite Hp.
  cbn [negb Z.eqb appConfigBatteryReadingPeriodMs].
  destruct m as [source reading | source reading | [] [] |]; try done; [| by destruct (Hm source reading)].
  rewrite Hf, Ht. cbn [negb andb Z.eqb FAKE_BATTERY_LEVEL_DISABLED]. destruct source; [| done..].
  assert (forall x, sum_list_with (starts true) (snd (appBatteryServiceClients x)) = 0%nat) as Hs.
  { intros x. unfold appBatteryServiceClients. cbn [snd]. by induction (filter _ _) as [| c l IH]. }
  unfold battery_result, appBatteryAdcResultHandler. set (d1 := d <| cfm_sent := true |>).
  assert (battery_level_test_on (snd (if negb (vref_raw d1 =? 0) then battery_take vref_const reading d1 else (0, d1))) = false) as ->
    by (destruct (negb _); [rewrite battery_take_fields |]; exact Ht).
  destruct (negb _); cbn [snd]; rewrite !sum_list_with_app, ?Hs; by destruct (cfm_sent d).
Qed.
End runs.

(** * A run

    At 3.7 V, with a spike to 9 V and a drop-out. *)
Definition sample (mv : Z) : list batt_op :=
  [BattMessage (BATT_INTERNAL_MEASUREMENT_TRIGGER true true); BattMessage (BATT_ADC_RESULT adcsel_vref_hq_buff 1000);
   BattMessage (BATT_ADC_RESULT adcsel_pmu_vbat_sns mv)].

Definition shaken : list batt_op :=
  sample 3700 ++ BattRegister true 7 6 :: sample 3710 ++ sample 3705 ++ sample 9000 ++ sample 3700 ++ sample 0 ++ sample 3702.

Definition uninitialised : list Z := [17; 4; 0; 65535; 9].

Lemma battery_average_within_witness :
  3700 <= appBatteryGetVoltageAverage (batt_run 1000 shaken (battery_start uninitialised)) <= 3710.
Proof.
  apply (battery_average_within 1000 uninitialised shaken 3700 3710); [reflexivity | vm_compute; congruence |].
  apply steadyb_steady. vm_compute. reflexivity.
Defined.

Lemma battery_goes_on_witness :
  sum_list_with (starts (vbat_answer (BATT_ADC_RESULT adcsel_pmu_vbat_sns 0)))
    (snd (appBatteryHandleMessage 1000 (BATT_ADC_RESULT adcsel_pmu_vbat_sns 0) (battery_start uninitialised))) =
  goes_on (BATT_ADC_RESULT adcsel_pmu_vbat_sns 0).
Proof.
  apply (battery_goes_on 1000 []); [apply battery_start_inv; reflexivity | intros source reading; discriminate].
Defined.
