(* ===== verification/Charge.v ===== *)
(** The state of charge of the battery: state_of_charge.c and the voltage
    table of headset_soc_config.c, from which the headset state machine takes
    the charge it indicates and the display the percentage it shows. *)
From S2P Require Import Prelude.

(** * Data *)

(** [soc_lookup_t]: a voltage in mV and its percentage. *)
Definition soc_lookup_t : Type := Z * Z.
Definition voltage (e : soc_lookup_t) : Z := fst e.
Definition percentage (e : soc_lookup_t) : Z := snd e.

(** INCLUDE_SMART_HELMET, which selects the table of headset_soc_config.c. *)
Class SocBuild := { SOC_INCLUDE_SMART_HELMET : bool }.
Definition helmet_soc : SocBuild := {| SOC_INCLUDE_SMART_HELMET := true |}.

Section tables.
Context `{SocBuild}.

Definition headset_soc_config_table : list soc_lookup_t :=
  if SOC_INCLUDE_SMART_HELMET then [
   (3120, 0); (3138, 1); (3156, 2); (3174, 3); (3192, 4); (3210, 5); (3228, 6); (3246, 7);
   (3264, 8); (3282, 9); (3300, 10); (3308, 11); (3315, 12); (3323, 13); (3330, 14); (3338, 15);
   (3345, 16); (3353, 17); (3360, 18); (3368, 19); (3375, 20); (3383, 21); (3390, 22); (3398, 23);
   (3405, 24); (3413, 25); (3420, 26); (3428, 27); (3435, 28); (3443, 29); (3450, 30); (3458, 31);
   (3465, 32); (3473, 33); (3480, 34); (3488, 35); (3495, 36); (3503, 37); (3510, 38); (3518, 39);
   (3525, 40); (3533, 41); (3540, 42); (3548, 43); (3555, 44); (3563, 45); (3570, 46); (3578, 47);
   (3585, 48); (3593, 49); (3600, 50); (3608, 51); (3615, 52); (3623, 53); (3630, 54); (3638, 55);
   (3645, 56); (3653, 57); (3660, 58); (3668, 59); (3675, 60); (3683, 61); (3690, 62); (3698, 63);
   (3705, 64); (3713, 65); (3720, 66); (3728, 67); (3735, 68); (3743, 69); (3750, 70); (3758, 71);
   (3765, 72); (3773, 73); (3780, 74); (3788, 75); (3795, 76); (3803, 77); (3810, 78); (3818, 79);
   (3825, 80); (3833, 81); (3840, 82); (3848, 83); (3855, 84); (3863, 85); (3870, 86); (3878, 87);
   (3885, 88); (3893, 89); (3900, 90); (3930, 91); (3960, 92); (3990, 93); (4020, 94); (4050, 95);
   (4080, 96); (4110, 97); (4140, 98); (4170, 99); (4200, 100)]
  else [
   (3000, 0); (3012, 1); (3024, 2); (3036, 3); (3048, 4); (3060, 5); (3072, 6); (3084, 7);
   (3096, 8); (3108, 9); (3120, 10); (3132, 11); (3144, 12); (3156, 13); (3168, 14); (3180, 15);
   (3192, 16); (3204, 17); (3216, 18); (3228, 19); (3240, 20); (3252, 21); (3264, 22); (3276, 23);
   (3288, 24); (3300, 25); (3312, 26); (3324, 27); (3336, 28); (3348, 29); (3360, 30); (3372, 31);
   (3384, 32); (3396, 33); (3408, 34); (3420, 35); (3432, 36); (3444, 37); (3456, 38); (3468, 39);
   (3480, 40); (3492, 41); (3504, 42); (3516, 43); (3528, 44); (3540, 45); (3552, 46); (3564, 47);
   (3576, 48); (3588, 49); (3600, 50); (3612, 51); (3624, 52); (3636, 53); (3648, 54); (3660, 55);
   (3672, 56); (3684, 57); (3696, 58); (3708, 59); (3720, 60); (3732, 61); (3744, 62); (3756, 63);
   (3768, 64); (3780, 65); (3792, 66); (3804, 67); (3816, 68); (3823, 69); (3840, 70); (3852, 71);
   (3864, 72); (3876, 73); (3888, 74); (3900, 75); (3912, 76); (3924, 77); (3936, 78); (3948, 79);
   (3960, 80); (3972, 81); (3984, 82); (3996, 83); (4008, 84); (4020, 85); (4032, 86); (4044, 87);
   (4056, 88); (4068, 89); (4080, 90); (4092, 91); (4104, 92); (4116, 93); (4128, 94); (4140, 95);
   (4152, 96); (4164, 97); (4176, 98); (4188, 99); (4200, 100)].
End tables.

Definition appConfigBatteryFullyCharged : Z := 4200.
Definition appConfigBatteryVoltageCritical : Z := 3000.
Definition SOC_MIN_INDEX : Z := 0.
Definition Soc_LowBatteryPercent : Z := 30.
Definition Soc_FullBatteryPercent : Z := 90.

(** [battery_provider_context_t], by the values of its enumerators. *)
Definition context_battery_low : Z := 0.
Definition context_battery_ok : Z := 1.
Definition context_battery_full : Z := 2.
Definition context_charging_battery_low : Z := 3.
Definition context_charging_battery_ok : Z := 4.
Definition context_charging_battery_full : Z := 5.

Inductive battery_became := SOC_BATTERY_BECAME_LOW | SOC_BATTERY_BECAME_OK | SOC_BATTERY_BECAME_FULL.

(** [socRegisteredClient]: the task, and the last percentage sent to it. *)
Record soc_client := mkclient { form_task : Z; client_percent : Z }.
#[export] Instance soc_client_eta : RecordEta soc_client := fun r => mkclient (form_task r) (client_percent r).

(** [soc_data_t] *)
Record soc_data_t := mksoc {
  state_of_charge : Z;
  soc_charger_connected : bool;
  config_index : Z;
  low_battery_percent : Z;
  full_battery_percent : Z;
  client_list : list soc_client;
  soc_context : Z }.
#[export] Instance soc_data_eta : RecordEta soc_data_t := fun r =>
  mksoc (state_of_charge r) (soc_charger_connected r) (config_index r) (low_battery_percent r) (full_battery_percent r)
    (client_list r) (soc_context r).

(** What the component sends and stores. *)
Inductive soc_out :=
| SOC_UPDATE_TO (task percent : Z)
| SOC_BECAME_TO (task : Z) (b : battery_became)
| SOC_PS_STORE (state_of_charge : Z)
| SOC_UI_CONTEXT (context : Z)
| SOC_REGISTRATIONS.

(** What it receives. *)
Inductive soc_msg :=
| MESSAGE_BATTERY_LEVEL_UPDATE_VOLTAGE (mv : Z) | SOC_CHARGER_ATTACHED | SOC_CHARGER_DETACHED | SOC_MSG_OTHER.

(** * The file

    An operation gives the new state and what it sent, in order. *)
Section soc.
Context (table : list soc_lookup_t).

Definition soc_size : Z := Z.of_nat (length table).
Definition entry (i : Z) : soc_lookup_t := nth (Z.to_nat i) table (0, 0).

Definition soc_ServiceClients (d : soc_data_t) : soc_data_t * list soc_out :=
  let percent := u8 (state_of_charge d) in
  (d <| client_list ::= fmap (fun c => c <| client_percent := percent |>) |>,
   (fun c => SOC_UPDATE_TO (form_task c) percent) <$> filter (fun c => percent <> client_percent c) (client_list d)).

(** [calloc] succeeds or not. *)
Definition soc_ClientAdd (alloc : bool) (task : Z) (d : soc_data_t) : bool * soc_data_t :=
  if alloc then (true, d <| client_list ::= cons (mkclient task 0) |>) else (false, d).

Fixpoint remove_client (task : Z) (l : list soc_client) : list soc_client :=
  match l with
  | [] => []
  | c :: l => if form_task c =? task then l else c :: remove_client task l
  end.
Definition soc_ClientRemove (task : Z) (d : soc_data_t) : soc_data_t := d <| client_list ::= remove_client task |>.

Definition appSocCurrentContext (d : soc_data_t) : Z :=
  let context :=
    if state_of_charge d <? low_battery_percent d then context_battery_low
    else if full_battery_percent d <? state_of_charge d then context_battery_full
    else context_battery_ok in
  if soc_charger_connected d then context + context_charging_battery_low else context.

Definition Soc_NotifyBatteryChanged (new_context : Z) (d : soc_data_t) : list soc_out :=
  let id :=
    if (new_context =? context_battery_low) || (new_context =? context_charging_battery_low) then SOC_BATTERY_BECAME_LOW
    else if (new_context =? context_battery_ok) || (new_context =? context_charging_battery_ok) then SOC_BATTERY_BECAME_OK
    else if (new_context =? context_battery_full) || (new_context =? context_charging_battery_full) then SOC_BATTERY_BECAME_FULL
    else SOC_BATTERY_BECAME_LOW in
  (fun c => SOC_BECAME_TO (form_task c) id) <$> client_list d.

Definition clamp_mv (mv : Z) : Z :=
  if mv <? appConfigBatteryVoltageCritical then appConfigBatteryVoltageCritical
  else if appConfigBatteryFullyCharged <? mv then appConfigBatteryFullyCharged else mv.

(** The search forwards from [index], [n] entries to go, and backwards;
    [prev_mv] is the voltage of the entry before, of [index] itself. *)
Fixpoint search_forwards (n : nat) (mv index prev_mv : Z) : Z :=
  match n with
  | O => soc_size - 1
  | S n =>
    let this_mv := prev_mv in
    let prev_mv := voltage (entry index) in
    if (mv <? prev_mv) && (this_mv <=? mv) then index - 1 else search_forwards n mv (index + 1) prev_mv
  end.

Fixpoint search_backwards (n : nat) (mv index prev_mv : Z) : Z :=
  match n with
  | O => SOC_MIN_INDEX
  | S n =>
    let this_mv := prev_mv in
    let prev_mv := voltage (entry (index - 1)) in
    if (mv <? this_mv) && (prev_mv <=? mv) then index - 1 else search_backwards n mv (index - 1) prev_mv
  end.

Definition soc_StateOfChargeUpdate (battery_voltage : Z) (d : soc_data_t) : soc_data_t :=
  let mv := clamp_mv battery_voltage in
  let prev_index := config_index d in
  let prev_mv := voltage (entry prev_index) in
  let i := if prev_mv <=? mv
           then search_forwards (Z.to_nat (soc_size - (prev_index + 1))) mv (prev_index + 1) prev_mv
           else search_backwards (Z.to_nat prev_index) mv prev_index prev_mv in
  d <| config_index := u8 i |>.

(** The percentage of the current entry is taken over and stored. *)
Definition soc_take (d : soc_data_t) : soc_data_t * list soc_out :=
  let d := d <| state_of_charge := percentage (entry (config_index d)) |> in
  let r := soc_ServiceClients d in
  (fst r, SOC_PS_STORE (state_of_charge d) :: snd r).

(** [blocked]: the upgrade checks its hash, which keeps the charge as it is. *)
Definition soc_HandleMessage (blocked : bool) (m : soc_msg) (d : soc_data_t) : soc_data_t * list soc_out :=
  let d :=
    match m with
    | MESSAGE_BATTERY_LEVEL_UPDATE_VOLTAGE mv => soc_StateOfChargeUpdate mv d
    | SOC_CHARGER_ATTACHED => d <| soc_charger_connected := true |>
    | SOC_CHARGER_DETACHED => d <| soc_charger_connected := false |>
    | SOC_MSG_OTHER => d
    end in
  let p := percentage (entry (config_index d)) in
  let change := if soc_charger_connected d then negb (p =? u8 (state_of_charge d)) else p <? u8 (state_of_charge d) in
  let r := if change && negb blocked then soc_take d else (d, []) in
  let d := fst r in
  let c := appSocCurrentContext d in
  let changed := negb (soc_context d =? c) in
  (if changed then d <| soc_context := c |> else d,
   snd r ++ (if changed then Soc_NotifyBatteryChanged c d else []) ++ [SOC_UI_CONTEXT c]).

(** Called with a voltage that is clamped; [n] entries to go. *)
Fixpoint index_scan (n : nat) (mv i prev_mv : Z) : Z :=
  match n with
  | O => soc_size - 1
  | S n =>
    let this_mv := prev_mv in
    let prev_mv := voltage (entry i) in
    if (mv <? prev_mv) && (this_mv <=? mv) then i - 1 else index_scan n mv (i + 1) prev_mv
  end.

Definition soc_getIndex (battery_voltage : Z) : Z :=
  u8 (index_scan (Z.to_nat (soc_size - 1)) battery_voltage 1 (voltage (entry SOC_MIN_INDEX))).

Definition Soc_SetReportingLimits (low high : Z) (d : soc_data_t) : soc_data_t :=
  d <| low_battery_percent := low |> <| full_battery_percent := high |>.

(** [stored]: what the persistent store holds. *)
Definition Soc_Init (stored : option Z) (charger : bool) : soc_data_t * list soc_out :=
  (mksoc (match stored with Some soc => soc | None => 100 end) charger 0 Soc_LowBatteryPercent Soc_FullBatteryPercent [] 0,
   [SOC_REGISTRATIONS]).

Definition Soc_Register (alloc : bool) (task : Z) (d : soc_data_t) : bool * (soc_data_t * list soc_out) :=
  let r := soc_ClientAdd alloc task d in
  if fst r then (true, soc_ServiceClients (snd r)) else (false, (d, [])).

Definition Soc_Unregister (task : Z) (d : soc_data_t) : soc_data_t := soc_ClientRemove task d.
Definition Soc_GetBatterySoc (d : soc_data_t) : Z := u8 (state_of_charge d).

Definition Soc_ConvertLevelToPercentage (battery_level : Z) : Z := percentage (entry (soc_getIndex (clamp_mv battery_level))).

Definition Soc_ForceNotifyBatteryChanged (d : soc_data_t) : list soc_out := Soc_NotifyBatteryChanged (appSocCurrentContext d) d.

(** * Runs *)
Inductive soc_op := SocMessage (blocked : bool) (m : soc_msg) | SocRegister (alloc : bool) (task : Z) | SocUnregister (task : Z) | SocLimits (low high : Z).

Definition soc_step (o : soc_op) (d : soc_data_t) : soc_data_t :=
  match o with
  | SocMessage blocked m => fst (soc_HandleMessage blocked m d)
  | SocRegister alloc task => fst (snd (Soc_Register alloc task d))
  | SocUnregister task => Soc_Unregister task d
  | SocLimits low high => Soc_SetReportingLimits low high d
  end.

Definition soc_run (os : list soc_op) (d : soc_data_t) : soc_data_t := fold_left (fun d o => soc_step o d) os d.

(** * What a voltage means *)

(** Entry [k] is the last one not above [mv], or the first. *)
Definition belongs (mv k : Z) : Prop :=
  0 <= k < soc_size /\ (k = 0 \/ voltage (entry k) <= mv) /\ (k + 1 < soc_size -> mv < voltage (entry (k + 1))).

(** The voltages rise along the table, which a uint8 can index, and the
    percentages fit a uint8. *)
Definition rising : Prop :=
  0 < soc_size < 256 /\ (forall i j, 0 <= i -> i < j -> j < soc_size -> voltage (entry i) < voltage (entry j)) /\
  Forall (fun e => is_u8 (percentage e)) table.

(** The check that a table is such a table. *)
Definition risingb : bool :=
  (0 <? soc_size) && (soc_size <? 256) && forallb (fun i => voltage (entry i) <? voltage (entry (i + 1))) (seqZ 0 (soc_size - 1)) &&
  forallb (fun e => (0 <=? percentage e) && (percentage e <? 256)) table.

Lemma risingb_rising : risingb = true -> rising.
Proof.
  unfold risingb. rewrite !andb_true_iff, !Z.ltb_lt, !forallb_forall. intros (((Hs & Hs') & Hv) & Hp). split_and!; [done | done | |].
  - intros i j Hi Hij. replace j with (i + 1 + Z.of_nat (Z.to_nat (j - i - 1))) by lia. generalize (Z.to_nat (j - i - 1)).
    assert (forall i, 0 <= i -> i + 1 < soc_size -> voltage (entry i) < voltage (entry (i + 1))) as Hn.
    { intros k Hk Hk'. apply Z.ltb_lt, Hv, list_elem_of_In, elem_of_seqZ. lia. }
    induction n as [| n IH]; intros Hj; [rewrite Z.add_0_r in *; by apply Hn |].
    etransitivity; [apply IH; lia |]. replace (i + 1 + Z.of_nat (S n)) with (i + 1 + Z.of_nat n + 1) by lia. apply Hn; lia.
  - apply Forall_forall. intros e He. specialize (Hp e (proj1 (list_elem_of_In _ _) He)). rewrite andb_true_iff, Z.leb_le, Z.ltb_lt in Hp. rlia.
Qed.

Context (Hrise : rising).

Lemma belongs_unique mv j k : belongs mv j -> belongs mv k -> j = k.
Proof.
  destruct Hrise as (_ & Hr & _). intros (Hj & Hj1 & Hj2) (Hk & Hk1 & Hk2).
  assert (forall a b, 0 <= a -> a < b -> b < soc_size -> (b = 0 \/ voltage (entry b) <= mv) ->
    (a + 1 < soc_size -> mv < voltage (entry (a + 1))) -> False) as Hno.
  { intros a b Ha Hab Hb [-> | Hle] Hlt; [lia |]. specialize (Hlt ltac:(lia)).
    destruct (decide (a + 1 = b)) as [<- | Hne]; [lia |]. specialize (Hr (a + 1) b ltac:(lia) ltac:(lia) Hb). lia. }
  destruct (Z.lt_total j k) as [Hl | [Hl | Hl]]; [| done |]; exfalso;
    [apply (Hno j k) | apply (Hno k j)]; (done || lia).
Qed.

Lemma forwards_belongs n mv i : 1 <= i <= soc_size -> n = Z.to_nat (soc_size - i) -> voltage (entry (i - 1)) <= mv ->
  belongs mv (search_forwards n mv i (voltage (entry (i - 1)))).
Proof.
  revert i. induction n as [| n IH]; intros i Hi Hn Hv; cbn [search_forwards].
  - split; [lia |]. split; [right | lia]. by replace (soc_size - 1) with (i - 1) by lia.
  - destruct (Z.ltb_spec mv (voltage (entry i))) as [Hlt | Hge].
    + rewrite (proj2 (Z.leb_le _ _) Hv). cbn [andb]. split; [lia |]. split; [by right |].
      intros _. by replace (i - 1 + 1) with i by lia.
    + cbn [andb]. replace (voltage (entry i)) with (voltage (entry (i + 1 - 1))) by (do 2 f_equal; lia).
      apply IH; [lia | lia |]. by replace (i + 1 - 1) with i by lia.
Qed.

Lemma backwards_belongs n mv i : 0 <= i < soc_size -> n = Z.to_nat i -> mv < voltage (entry i) ->
  belongs mv (search_backwards n mv i (voltage (entry i))).
Proof.
  destruct Hrise as (Hs & Hr & _). revert i. induction n as [| n IH]; intros i Hi Hn Hv; cbn [search_backwards].
  - unfold SOC_MIN_INDEX. replace i with 0 in Hv by lia. split; [lia |]. split; [by left |].
    intros H1. specialize (Hr 0 1 ltac:(lia) ltac:(lia) ltac:(lia)). change (0 + 1) with 1. lia.
  - rewrite (proj2 (Z.ltb_lt _ _) Hv). cbn [andb]. destruct (Z.leb_spec (voltage (entry (i - 1))) mv).
    + split; [lia |]. split; [by right |]. intros _. by replace (i - 1 + 1) with i by lia.
    + apply IH; lia.
Qed.

Lemma update_belongs mv d : 0 <= config_index d < soc_size ->
  belongs (clamp_mv mv) (config_index (soc_StateOfChargeUpdate mv d)).
Proof.
  intros Hd. unfold soc_StateOfChargeUpdate. cbn [config_index field_set].
  assert (forall k, belongs (clamp_mv mv) k -> belongs (clamp_mv mv) (u8 k)) as Hu.
  { intros k Hk. rewrite u8_small; [done |]. destruct Hk as (Hk & _), Hrise as (Hs & _). rlia. }
  cbn. apply Hu. destruct (Z.leb_spec (voltage (entry (config_index d))) (clamp_mv mv)).
  - replace (voltage (entry (config_index d))) with (voltage (entry (config_index d + 1 - 1))) by (do 2 f_equal; lia).
    apply forwards_belongs; [lia | done |]. by replace (config_index d + 1 - 1) with (config_index d) by lia.
  - by apply backwards_belongs.
Qed.

(** ** Conversion of a level *)
Lemma scan_forwards n mv i p : index_scan n mv i p = search_forwards n mv i p.
Proof. revert i p. induction n as [| n IH]; intros i p; cbn [index_scan search_forwards]; [done | by rewrite IH]. Qed.

Lemma getIndex_belongs mv : voltage (entry 0) <= mv -> belongs mv (soc_getIndex mv).
Proof.
  intros Hv. destruct Hrise as (Hs & _). unfold soc_getIndex. rewrite scan_forwards.
  assert (belongs mv (search_forwards (Z.to_nat (soc_size - 1)) mv 1 (voltage (entry SOC_MIN_INDEX)))) as Hb
    by (apply (forwards_belongs _ mv 1); [lia | done | exact Hv]).
  rewrite u8_small; [exact Hb |]. destruct Hb as (Hb & _). rlia.
Qed.

(** A level below the first entry, which the clamp lets through when the
    table starts above the critical voltage, is taken for the last one. *)
Lemma getIndex_below mv : mv < voltage (entry 0) -> soc_getIndex mv = soc_size - 1.
Proof.
  intros Hv. destruct Hrise as (Hs & Hr & _). unfold soc_getIndex.
  assert (forall n i p, 1 <= i -> n = Z.to_nat (soc_size - i) -> mv < p -> index_scan n mv i p = soc_size - 1) as Hi.
  { induction n as [| n IH]; intros i p Hi Hn Hp; cbn [index_scan]; [done |].
    rewrite (proj2 (Z.leb_gt p mv)), andb_false_r by lia. apply IH; [lia | lia |]. specialize (Hr 0 i ltac:(lia) ltac:(lia) ltac:(lia)). lia. }
  rewrite Hi; [rewrite u8_small; [done | rlia] | lia | done | exact Hv].
Qed.

(** The search of the voltage table finds the entry a voltage belongs
    to, whichever entry it starts from; the conversion of a level finds the same
    one, unless the voltage is below the first entry. *)
Theorem soc_search_exact mv d : 0 <= config_index d < soc_size ->
  belongs (clamp_mv mv) (config_index (soc_StateOfChargeUpdate mv d)) /\
  (forall d', 0 <= config_index d' < soc_size ->
    config_index (soc_StateOfChargeUpdate mv d') = config_index (soc_StateOfChargeUpdate mv d)) /\
  (voltage (entry 0) <= clamp_mv mv -> soc_getIndex (clamp_mv mv) = config_index (soc_StateOfChargeUpdate mv d)).
Proof.
  intros Hd. pose proof (update_belongs mv d Hd) as Hb. split_and!; [done | |].
  - intros d' Hd'. eapply belongs_unique; [by apply update_belongs | done].
  - intros Hv. eapply belongs_unique; [by apply getIndex_belongs | done].
Qed.

(** ** The percentage *)
Lemma percentage_u8 i : is_u8 (percentage (entry i)).
Proof.
  destruct Hrise as (_ & _ & Hp). unfold entry. destruct (nth_in_or_default (Z.to_nat i) table (0, 0)) as [Hin | ->]; [| cbn; rlia].
  rewrite Forall_forall in Hp. apply Hp. by apply list_elem_of_In.
Qed.

Lemma take_charge d : state_of_charge (fst (soc_take d)) = percentage (entry (config_index d)).
Proof. done. Qed.

(** The charge after a message, in one equation. *)
Lemma message_charge blocked m d : is_u8 (state_of_charge d) ->
  let d1 := match m with
            | MESSAGE_BATTERY_LEVEL_UPDATE_VOLTAGE mv => soc_StateOfChargeUpdate mv d
            | SOC_CHARGER_ATTACHED => d <| soc_charger_connected := true |>
            | SOC_CHARGER_DETACHED => d <| soc_charger_connected := false |>
            | SOC_MSG_OTHER => d
            end in
  let p := percentage (entry (config_index d1)) in
  state_of_charge (fst (soc_HandleMessage blocked m d)) =
    (if blocked then state_of_charge d else if soc_charger_connected d1 then p else Z.min p (state_of_charge d)) /\
  soc_charger_connected (fst (soc_HandleMessage blocked m d)) = soc_charger_connected d1.
Proof.
  intros Hu d1 p. assert (state_of_charge d1 = state_of_charge d) as Hs by (subst d1; by destruct m).
  unfold soc_HandleMessage. fold d1. fold p. rewrite Hs, (u8_small _ Hu). cbv zeta.
  assert (forall x, soc_charger_connected (fst (soc_take x)) = soc_charger_connected x) as Ht by done.
  destruct (soc_charger_connected d1) eqn:Hc, blocked; rewrite ?andb_false_r, ?andb_true_r;
    [| destruct (Z.eqb_spec p (state_of_charge d)) | | destruct (Z.ltb_spec p (state_of_charge d))]; cbn [negb fst snd];
    destruct (_ =? _); cbn; rewrite ?Hs, ?Hc; fold p; split; done || lia.
Qed.

(** The entry after a message, and the flag. *)
Lemma message_index blocked m d :
  config_index (fst (soc_HandleMessage blocked m d)) =
  match m with MESSAGE_BATTERY_LEVEL_UPDATE_VOLTAGE mv => config_index (soc_StateOfChargeUpdate mv d) | _ => config_index d end.
Proof.
  unfold soc_HandleMessage. cbv zeta. set (d1 := match m with MESSAGE_BATTERY_LEVEL_UPDATE_VOLTAGE _ => _ | _ => _ end).
  transitivity (config_index d1); [| subst d1; by destruct m].
  match goal with |- context [if ?b then soc_take d1 else _] => destruct b end; cbn [fst snd]; by destruct (negb _).
Qed.

Lemma discharge_step o d : soc_charger_connected d = false -> is_u8 (state_of_charge d) ->
  (forall b, o <> SocMessage b SOC_CHARGER_ATTACHED) ->
  soc_charger_connected (soc_step o d) = false /\ is_u8 (state_of_charge (soc_step o d)) /\
  state_of_charge (soc_step o d) <= state_of_charge d.
Proof.
  intros Hc Hu Ho. destruct o as [blocked m | [] task | task | low high]; cbn [soc_step]; try (split_and!; [done | done | cbn; lia]).
  destruct (message_charge blocked m d Hu) as [Hs Hk]. rewrite Hs, Hk. destruct m as [mv | | |]; try (by destruct (Ho blocked));
    change (soc_charger_connected (soc_StateOfChargeUpdate _ d)) with (soc_charger_connected d); rewrite ?Hc;
    (split; [done |]); destruct blocked; try (split; [done | lia]); cbn [soc_charger_connected field_set];
    match goal with |- context [percentage ?e] => pose proof (percentage_u8 (config_index d)); set (p := percentage e) end;
    (assert (is_u8 p) by (subst p; apply percentage_u8)); cbn; rewrite ?Hc; split; rlia.
Qed.

(** [C29] While no charger is attached the reported charge never rises,
    whatever voltages are measured and whoever registers. *)
Theorem soc_discharge_monotone os d : soc_charger_connected d = false -> is_u8 (state_of_charge d) ->
  (forall o b, o ∈ os -> o <> SocMessage b SOC_CHARGER_ATTACHED) ->
  state_of_charge (soc_run os d) <= state_of_charge d.
Proof.
  unfold soc_run. revert d. induction os as [| o os IH]; intros d Hc Hu Ho; cbn [fold_left]; [lia |].
  destruct (discharge_step o d Hc Hu) as (Hc' & Hu' & Hle); [intros b; apply Ho; by constructor |].
  etransitivity; [apply IH; [done | done |] | exact Hle]. intros o' b Hin. apply Ho. by constructor.
Qed.

(** ** The clients *)

(** Every client was told the charge that is reported, or the same charge is
    still 0 for it. *)
Definition clients_told (d : soc_data_t) : Prop :=
  Forall (fun c => client_percent c = u8 (state_of_charge d)) (client_list d).

Lemma soc_service_told d : clients_told (fst (soc_ServiceClients d)).
Proof. unfold clients_told. cbn. apply Forall_forall. intros c Hc. apply list_elem_of_fmap in Hc as (c' & -> & _). done. Qed.

Lemma remove_client_sub task l c : c ∈ remove_client task l -> c ∈ l.
Proof.
  induction l as [| c' l IH]; cbn [remove_client]; [done |]. destruct (_ =? _); rewrite !elem_of_cons; naive_solver.
Qed.

Lemma soc_message_told blocked m d : clients_told d -> clients_told (fst (soc_HandleMessage blocked m d)).
Proof.
  intros Hd. unfold soc_HandleMessage. cbv zeta. set (d1 := match m with MESSAGE_BATTERY_LEVEL_UPDATE_VOLTAGE _ => _ | _ => _ end).
  assert (clients_told d1) as Hd1 by (subst d1; by destruct m).
  match goal with |- context [if ?b then soc_take d1 else _] => destruct b end; cbn [fst snd]; destruct (negb _); try exact Hd1;
    apply (soc_service_told (d1 <| state_of_charge := percentage (entry (config_index d1)) |>)).
Qed.

(** After any messages and registrations every registered client has
    been told the charge that is reported. *)
Theorem soc_clients_told os d : clients_told d -> clients_told (soc_run os d).
Proof.
  unfold soc_run. revert d. induction os as [| o os IH]; intros d Hd; cbn [fold_left]; [exact Hd |]. apply IH. clear IH.
  destruct o as [blocked m | [] task | task | low high]; cbn [soc_step].
  - by apply soc_message_told.
  - apply (soc_service_told (d <| client_list ::= cons (mkclient task 0) |>)).
  - exact Hd.
  - unfold clients_told, Soc_Unregister, soc_ClientRemove in *. cbn. rewrite Forall_forall in *. intros c Hc.
    exact (Hd c (remove_client_sub _ _ _ Hc)).
  - exact Hd.
Qed.
End soc.

(** * The shipped table *)
Definition helmet_table : list soc_lookup_t := headset_soc_config_table (H := helmet_soc).
Lemma helmet_table_rising : rising helmet_table.
Proof. apply risingb_rising. vm_compute. reflexivity. Qed.

Lemma build_rising (B : SocBuild) : rising headset_soc_config_table.
Proof. destruct B as [[]]; [exact helmet_table_rising | apply risingb_rising; vm_compute; reflexivity]. Qed.

(** A battery stored at 80 % is read at 4100 mV, at 3500 mV, and at 3400 mV
    while an upgrade checks its hash; the charger is taken off. *)
Definition worn_day : list soc_op :=
  [SocMessage false (MESSAGE_BATTERY_LEVEL_UPDATE_VOLTAGE 4100); SocRegister true 7; SocMessage false (MESSAGE_BATTERY_LEVEL_UPDATE_VOLTAGE 3500);
   SocMessage true (MESSAGE_BATTERY_LEVEL_UPDATE_VOLTAGE 3400); SocMessage false SOC_CHARGER_DETACHED].

Lemma soc_search_exact_witness :
  belongs helmet_table (clamp_mv 3700) (config_index (soc_StateOfChargeUpdate helmet_table 3700 (fst (Soc_Init (Some 80) false)))) /\
  (forall d', 0 <= config_index d' < soc_size helmet_table ->
    config_index (soc_StateOfChargeUpdate helmet_table 3700 d') =
    config_index (soc_StateOfChargeUpdate helmet_table 3700 (fst (Soc_Init (Some 80) false)))) /\
  (voltage (entry helmet_table 0) <= clamp_mv 3700 ->
    soc_getIndex helmet_table (clamp_mv 3700) =
    config_index (soc_StateOfChargeUpdate helmet_table 3700 (fst (Soc_Init (Some 80) false)))).
Proof. apply (soc_search_exact helmet_table helmet_table_rising 3700). vm_compute. by split. Defined.

Lemma soc_discharge_monotone_witness :
  state_of_charge (soc_run helmet_table worn_day (fst (Soc_Init (Some 80) false))) <= state_of_charge (fst (Soc_Init (Some 80) false)).
Proof.
  apply (soc_discharge_monotone helmet_table helmet_table_rising worn_day); [reflexivity | split; vm_compute; congruence |].
  intros o b Ho Heq. subst o. unfold worn_day in Ho. rewrite !elem_of_cons, elem_of_nil in Ho. naive_solver.
Defined.

Lemma soc_clients_told_witness : clients_told (soc_run helmet_table worn_day (fst (Soc_Init (Some 80) false))).
Proof. apply (soc_clients_told helmet_table worn_day). constructor. Defined.

(** The charge reported then is that of the last voltage. *)
Example worn_day_reports : Soc_GetBatterySoc (soc_run helmet_table worn_day (fst (Soc_Init (Some 80) false))) = 23.
Proof. reflexivity. Qed.

(** * A level below the table

    The table of the helmet starts at 3120 mV, above the critical voltage of
    3000 mV that levels are clamped to: a lower level is converted to 100 %. *)
Lemma helmet_level_below mv : mv < 3120 -> Soc_ConvertLevelToPercentage helmet_table mv = 100.
Proof.
  intros Hmv. unfold Soc_ConvertLevelToPercentage. rewrite (getIndex_below _ helmet_table_rising).
  - reflexivity.
  - change (voltage (entry helmet_table 0)) with 3120. unfold clamp_mv, appConfigBatteryVoltageCritical, appConfigBatteryFullyCharged.
    destruct (Z.ltb_spec mv 3000); [lia |]. destruct (Z.ltb_spec 4200 mv); lia.
Qed.

(** The table of the vendor starts at the critical voltage. *)
Lemma vendor_level_below mv : mv <= 3000 ->
  Soc_ConvertLevelToPercentage (headset_soc_config_table (H := {| SOC_INCLUDE_SMART_HELMET := false |})) mv = 0.
Proof.
  intros Hmv. unfold Soc_ConvertLevelToPercentage. replace (clamp_mv mv) with 3000; [reflexivity |].
  unfold clamp_mv, appConfigBatteryVoltageCritical, appConfigBatteryFullyCharged.
  destruct (Z.ltb_spec mv 3000); [done |]. destruct (Z.ltb_spec 4200 mv); lia.
Qed.
