(* ===== verification/Thermo.v ===== *)
(** The temperature of the battery: temperature.c, which measures the
    thermistor (thermistor.c) and filters its readings, with the tables of
    headset_temperature_config.c and thermistor_lp4549652p3m.h. *)
From S2P Require Import Prelude Ring Filter.

(** * Data *)
Definition i8 (x : Z) : Z := (x + 128) mod 256 - 128.
Definition is_i8 (x : Z) : Prop := -128 <= x < 128.

Lemma i8_small x : is_i8 x -> i8 x = x.
Proof. unfold i8, is_i8. intros. rewrite Z.mod_small; lia. Qed.

Definition TEMPERATURE_MIN : Z := -40.
Definition TEMPERATURE_MAX : Z := 85.
Definition THERMISTOR_TEMP_MIN : Z := -40.
Definition THERMISTOR_TEMP_MAX : Z := 85.
Definition INVALID_TEMPERATURE : Z := 100.
Definition appConfigTemperatureReadingPeriodMs : Z := 10000.
Definition appConfigTemperatureMedianFilterWindow : Z := 5.
Definition appConfigTemperatureSmoothingWeight : Z := 50.

(** [temperature_lookup_t]: a voltage in mV and its temperature. *)
Definition temperature_lookup_t : Type := Z * Z.

(** VDIVIDER_3200mV: the voltage over the thermistor's divider is 3.2 V, not
    1.8 V.  HJC_11Be is defined in the debug build only. *)
Class ThermoBuild := { VDIVIDER_3200mV : bool; HJC_11Be : bool }.
Definition helmet_release : ThermoBuild := {| VDIVIDER_3200mV := true; HJC_11Be := false |}.
Definition helmet_debug : ThermoBuild := {| VDIVIDER_3200mV := true; HJC_11Be := true |}.

Section thermo_tables.
Context `{ThermoBuild}.

Definition headset_temperature_config_table : list temperature_lookup_t :=
  if VDIVIDER_3200mV then [
   (3077, -40); (3069, -39); (3061, -38); (3052, -37); (3043, -36); (3034, -35); (3024, -34); (3014, -33);
   (3003, -32); (2992, -31); (2981, -30); (2968, -29); (2956, -28); (2943, -27); (2929, -26); (2915, -25);
   (2900, -24); (2885, -23); (2869, -22); (2852, -21); (2835, -20); (2817, -19); (2799, -18); (2780, -17);
   (2761, -16); (2741, -15); (2720, -14); (2699, -13); (2678, -12); (2655, -11); (2632, -10); (2609, -9);
   (2585, -8); (2560, -7); (2535, -6); (2509, -5); (2483, -4); (2457, -3); (2430, -2); (2402, -1);
   (2374, 0); (2345, 1); (2317, 2); (2287, 3); (2258, 4); (2228, 5); (2198, 6); (2167, 7);
   (2136, 8); (2105, 9); (2074, 10); (2043, 11); (2011, 12); (1980, 13); (1948, 14); (1916, 15);
   (1884, 16); (1852, 17); (1820, 18); (1789, 19); (1757, 20); (1725, 21); (1694, 22); (1662, 23);
   (1631, 24); (1600, 25); (1569, 26); (1539, 27); (1508, 28); (1478, 29); (1448, 30); (1419, 31);
   (1390, 32); (1361, 33); (1332, 34); (1304, 35); (1276, 36); (1249, 37); (1222, 38); (1195, 39);
   (1169, 40); (1143, 41); (1118, 42); (1093, 43); (1068, 44); (1044, 45); (1020, 46); (997, 47);
   (974, 48); (952, 49); (930, 50); (909, 51); (888, 52); (867, 53); (847, 54); (827, 55);
   (808, 56); (789, 57); (770, 58); (752, 59); (734, 60); (717, 61); (700, 62); (683, 63);
   (667, 64); (651, 65); (636, 66); (621, 67); (606, 68); (592, 69); (578, 70); (564, 71);
   (551, 72); (538, 73); (525, 74); (513, 75); (501, 76); (489, 77); (478, 78); (466, 79);
   (455, 80); (445, 81); (434, 82); (424, 83); (415, 84); (405, 85)]
  else [
   (1730, -40); (1725, -39); (1721, -38); (1716, -37); (1711, -36); (1706, -35); (1700, -34); (1695, -33);
   (1689, -32); (1682, -31); (1676, -30); (1669, -29); (1662, -28); (1654, -27); (1647, -26); (1639, -25);
   (1630, -24); (1622, -23); (1613, -22); (1603, -21); (1594, -20); (1584, -19); (1574, -18); (1563, -17);
   (1552, -16); (1541, -15); (1529, -14); (1517, -13); (1505, -12); (1493, -11); (1480, -10); (1467, -9);
   (1453, -8); (1439, -7); (1425, -6); (1411, -5); (1396, -4); (1381, -3); (1366, -2); (1350, -1);
   (1334, 0); (1318, 1); (1302, 2); (1286, 3); (1269, 4); (1252, 5); (1235, 6); (1218, 7);
   (1201, 8); (1183, 9); (1166, 10); (1148, 11); (1131, 12); (1113, 13); (1095, 14); (1077, 15);
   (1059, 16); (1041, 17); (1023, 18); (1005, 19); (988, 20); (970, 21); (952, 22); (934, 23);
   (917, 24); (900, 25); (882, 26); (865, 27); (848, 28); (831, 29); (814, 30); (798, 31);
   (781, 32); (765, 33); (749, 34); (733, 35); (718, 36); (702, 37); (687, 38); (672, 39);
   (657, 40); (643, 41); (629, 42); (614, 43); (601, 44); (587, 45); (574, 46); (561, 47);
   (548, 48); (535, 49); (523, 50); (511, 51); (499, 52); (487, 53); (476, 54); (465, 55);
   (454, 56); (443, 57); (433, 58); (423, 59); (413, 60); (403, 61); (394, 62); (384, 63);
   (375, 64); (366, 65); (358, 66); (349, 67); (341, 68); (333, 69); (325, 70); (317, 71);
   (310, 72); (302, 73); (295, 74); (288, 75); (282, 76); (275, 77); (269, 78); (262, 79);
   (256, 80); (250, 81); (244, 82); (239, 83); (233, 84); (228, 85)].

Definition thermistor_voltage_lookup_table : list Z :=
  if VDIVIDER_3200mV then [
   3077; 3069; 3061; 3052; 3043; 3034; 3024; 3014; 3003; 2992; 2981; 2968; 2956; 2943; 2929; 2915;
   2900; 2885; 2869; 2852; 2835; 2817; 2799; 2780; 2761; 2741; 2720; 2699; 2678; 2655; 2632; 2609;
   2585; 2560; 2535; 2509; 2483; 2457; 2430; 2402; 2374; 2345; 2317; 2287; 2258; 2228; 2198; 2167;
   2136; 2105; 2074; 2043; 2011; 1980; 1948; 1916; 1884; 1852; 1820; 1789; 1757; 1725; 1694; 1662;
   1631; 1600; 1569; 1539; 1508; 1478; 1448; 1419; 1390; 1361; 1332; 1304; 1276; 1249; 1222; 1195;
   1169; 1143; 1118; 1093; 1068; 1044; 1020; 997; 974; 952; 930; 909; 888; 867; 847; 827;
   808; 789; 770; 752; 734; 717; 700; 683; 667; 651; 636; 621; 606; 592; 578; 564;
   551; 538; 525; 513; 501; 489; 478; 466; 455; 445; 434; 424; 415; 405]
  else [
   1730; 1725; 1721; 1716; 1711; 1706; 1700; 1695; 1689; 1682; 1676; 1669; 1662; 1654; 1647; 1639;
   1630; 1622; 1613; 1603; 1594; 1584; 1574; 1563; 1552; 1541; 1529; 1517; 1505; 1493; 1480; 1467;
   1453; 1439; 1425; 1411; 1396; 1381; 1366; 1350; 1334; 1318; 1302; 1286; 1269; 1252; 1235; 1218;
   1201; 1183; 1166; 1148; 1131; 1113; 1095; 1077; 1059; 1041; 1023; 1005; 988; 970; 952; 934;
   917; 900; 882; 865; 848; 831; 814; 798; 781; 765; 749; 733; 718; 702; 687; 672;
   657; 643; 629; 614; 601; 587; 574; 561; 548; 535; 523; 511; 499; 487; 476; 465;
   454; 443; 433; 423; 413; 403; 394; 384; 375; 366; 358; 349; 341; 333; 325; 317;
   310; 302; 295; 288; 282; 275; 269; 262; 256; 250; 244; 239; 233; 228].
End thermo_tables.

(** * The search of a table

    [voltage_at i] and [value_at i] are entry [i] of a table of [size]
    entries; the voltages fall.  Both searches start from entry
    [prev_index]. *)
Section search.
Context (size : Z) (voltage_at value_at : Z -> Z) (value_min value_max : Z).

(** Forwards through lower voltages, [n] entries to go. *)
Fixpoint search_hotter (n : nat) (voltage index : Z) : Z :=
  match n with
  | O => value_max
  | S n => if voltage_at index <=? voltage then value_at index else search_hotter n voltage (index + 1)
  end.

(** Backwards through higher voltages; [prev_mv] is the voltage of entry
    [index]. *)
Fixpoint search_colder (n : nat) (voltage index prev_mv : Z) : Z :=
  match n with
  | O => value_min
  | S n =>
    let this_mv := prev_mv in
    let prev_mv := voltage_at (index - 1) in
    if (this_mv <=? voltage) && (voltage <? prev_mv) then value_at index else search_colder n voltage (index - 1) prev_mv
  end.

Definition search_from (voltage prev_index : Z) : Z :=
  let prev_mv := voltage_at prev_index in
  if voltage <? prev_mv then search_hotter (Z.to_nat (size - (prev_index + 1))) voltage (prev_index + 1)
  else search_colder (Z.to_nat prev_index) voltage prev_index prev_mv.

(** Entry [k] is the first one not above [voltage], or the last. *)
Definition falls_in (voltage k : Z) : Prop :=
  0 <= k < size /\ (k = 0 \/ voltage < voltage_at (k - 1)) /\ (k + 1 < size -> voltage_at k <= voltage).

Definition falling : Prop :=
  0 < size /\ (forall i j, 0 <= i -> i < j -> j < size -> voltage_at j < voltage_at i) /\
  value_at 0 = value_min /\ value_at (size - 1) = value_max.

Context (Hfall : falling).

Lemma falls_in_unique v j k : falls_in v j -> falls_in v k -> j = k.
Proof.
  destruct Hfall as (_ & Hf & _). intros (Hj & Hj1 & Hj2) (Hk & Hk1 & Hk2).
  assert (forall a b, 0 <= a -> a < b -> b < size -> (a + 1 < size -> voltage_at a <= v) -> (b = 0 \/ v < voltage_at (b - 1)) -> False) as Hno.
  { intros a b Ha Hab Hb Hle [-> | Hlt]; [lia |]. specialize (Hle ltac:(lia)).
    destruct (decide (a = b - 1)) as [-> | Hne]; [lia |]. specialize (Hf a (b - 1) Ha ltac:(lia) ltac:(lia)). lia. }
  destruct (Z.lt_total j k) as [Hl | [Hl | Hl]]; [| done |]; exfalso; [apply (Hno j k) | apply (Hno k j)]; (done || lia).
Qed.

Lemma hotter_falls n v i : 0 < i <= size -> n = Z.to_nat (size - i) -> v < voltage_at (i - 1) ->
  exists k, falls_in v k /\ search_hotter n v i = value_at k.
Proof.
  destruct Hfall as (Hs & _ & _ & Hmax). revert i. induction n as [| n IH]; intros i Hi Hn Hv; cbn [search_hotter].
  - exists (size - 1). split; [| done]. split; [lia |]. split; [| lia]. destruct (decide (size = 1)) as [-> | Hne]; [by left | right].
    destruct Hfall as (_ & Hf & _). specialize (Hf (size - 1 - 1) (size - 1) ltac:(lia) ltac:(lia) ltac:(lia)).
    replace i with size in Hv by lia. lia.
  - destruct (Z.leb_spec (voltage_at i) v) as [Hle | Hlt].
    + exists i. split; [| done]. split; [lia |]. split; [by right | done].
    + apply IH; [lia | lia |]. by replace (i + 1 - 1) with i by lia.
Qed.

Lemma colder_falls n v i : 0 <= i < size -> n = Z.to_nat i -> voltage_at i <= v ->
  exists k, falls_in v k /\ search_colder n v i (voltage_at i) = value_at k.
Proof.
  destruct Hfall as (_ & Hf & Hmin & _). revert i. induction n as [| n IH]; intros i Hi Hn Hv; cbn [search_colder].
  - exists 0. replace i with 0 in Hv by lia. split; [| done]. split; [lia |]. split; [by left | done].
  - rewrite (proj2 (Z.leb_le _ _) Hv). cbn [andb]. destruct (Z.ltb_spec v (voltage_at (i - 1))) as [Hlt | Hge].
    + exists i. split; [| done]. split; [lia |]. split; [by right | done].
    + apply IH; lia.
Qed.

(** Whatever entry it starts from, the search gives the value of the entry
    the voltage falls in. *)
Lemma search_from_falls v i : 0 <= i < size -> exists k, falls_in v k /\ search_from v i = value_at k.
Proof.
  intros Hi. unfold search_from. destruct (Z.ltb_spec v (voltage_at i)).
  - apply hotter_falls; [lia | done |]. by replace (i + 1 - 1) with i by lia.
  - by apply colder_falls.
Qed.
End search.

(** * Conversions *)
Definition temp_entry (table : list temperature_lookup_t) (i : Z) : temperature_lookup_t := nth (Z.to_nat i) table (0, 0).

Definition temperature_GetTemperature (table : list temperature_lookup_t) (voltage prev_temperature : Z) : Z :=
  search_from (Z.of_nat (length table)) (fun i => fst (temp_entry table i)) (fun i => snd (temp_entry table i)) TEMPERATURE_MIN TEMPERATURE_MAX
    voltage (u32 (prev_temperature - TEMPERATURE_MIN)).

Definition temperatureClamp (temperature : Z) : Z := Z.max (Z.min temperature THERMISTOR_TEMP_MAX) THERMISTOR_TEMP_MIN.

Definition appThermistorDegreesCelsiusToMillivolts (voltages : list Z) (temperature : Z) : Z :=
  aget voltages (temperatureClamp temperature - THERMISTOR_TEMP_MIN).

Definition appThermistorMillivoltsToDegreesCelsius (voltages : list Z) (thermistor_mv temperature_prev : Z) : Z :=
  search_from (alen voltages) (aget voltages) (fun i => i8 (THERMISTOR_TEMP_MIN + i)) THERMISTOR_TEMP_MIN THERMISTOR_TEMP_MAX
    thermistor_mv (u32 (temperatureClamp temperature_prev - THERMISTOR_TEMP_MIN)).

(** A table from -40 to 85 degrees. *)
Definition celsius_table (table : list temperature_lookup_t) : Prop :=
  length table = 126%nat /\ (forall i, 0 <= i < 126 -> snd (temp_entry table i) = i - 40) /\
  (forall i j, 0 <= i -> i < j -> j < 126 -> fst (temp_entry table j) < fst (temp_entry table i)).

Definition celsius_tableb (table : list temperature_lookup_t) : bool :=
  (length table =? 126)%nat && forallb (fun i => snd (temp_entry table i) =? i - 40) (seqZ 0 126) &&
  forallb (fun i => fst (temp_entry table (i + 1)) <? fst (temp_entry table i)) (seqZ 0 125).

Lemma celsius_tableb_ok table : celsius_tableb table = true -> celsius_table table.
Proof.
  unfold celsius_tableb. rewrite !andb_true_iff, Nat.eqb_eq, !forallb_forall. intros ((Hl & Hv) & Hf). split_and!; [done | |].
  - intros i Hi. apply Z.eqb_eq, Hv, list_elem_of_In, elem_of_seqZ. lia.
  - intros i j Hi Hij. replace j with (i + 1 + Z.of_nat (Z.to_nat (j - i - 1))) by lia. generalize (Z.to_nat (j - i - 1)).
    assert (forall i, 0 <= i -> i + 1 < 126 -> fst (temp_entry table (i + 1)) < fst (temp_entry table i)) as Hn.
    { intros k Hk Hk'. apply Z.ltb_lt, Hf, list_elem_of_In, elem_of_seqZ. lia. }
    induction n as [| n IH]; intros Hj; [rewrite Z.add_0_r in *; by apply Hn |].
    etransitivity; [| apply IH; lia]. replace (i + 1 + Z.of_nat (S n)) with (i + 1 + Z.of_nat n + 1) by lia. apply Hn; lia.
Qed.

(** The entry of a voltage. *)
Definition temp_falls (table : list temperature_lookup_t) (voltage k : Z) : Prop := falls_in 126 (fun i => fst (temp_entry table i)) voltage k.

Section conversions.
Context (table : list temperature_lookup_t) (Htable : celsius_table table).

Lemma table_falling : falling 126 (fun i => fst (temp_entry table i)) (fun i => snd (temp_entry table i)) TEMPERATURE_MIN TEMPERATURE_MAX.
Proof. destruct Htable as (_ & Hv & Hf). split_and!; [lia | done | by rewrite Hv by lia | by rewrite Hv by lia]. Qed.

Lemma get_temperature_falls v prev : TEMPERATURE_MIN <= prev <= TEMPERATURE_MAX ->
  exists k, temp_falls table v k /\ temperature_GetTemperature table v prev = k - 40.
Proof.
  unfold TEMPERATURE_MIN, TEMPERATURE_MAX. intros Hp. destruct Htable as (Hl & Hv & _). unfold temperature_GetTemperature.
  rewrite Hl, u32_small by (unfold TEMPERATURE_MIN; rlia).
  destruct (search_from_falls _ _ _ _ _ table_falling v (prev - TEMPERATURE_MIN)) as (k & Hk & He); [unfold TEMPERATURE_MIN; lia |].
  exists k. split; [exact Hk |]. change (Z.of_nat 126) with 126. rewrite He. apply Hv, Hk.
Qed.

Lemma get_temperature_range v prev : TEMPERATURE_MIN <= prev <= TEMPERATURE_MAX ->
  TEMPERATURE_MIN <= temperature_GetTemperature table v prev <= TEMPERATURE_MAX.
Proof.
  intros Hp. destruct (get_temperature_falls v prev Hp) as (k & (Hk & _) & ->). unfold TEMPERATURE_MIN, TEMPERATURE_MAX. lia.
Qed.
End conversions.

(** The two tables of a build hold the same voltages, which fall from -40 to
    85 degrees. *)
Lemma tables_agree (B : ThermoBuild) : thermistor_voltage_lookup_table = fst <$> headset_temperature_config_table.
Proof. unfold thermistor_voltage_lookup_table, headset_temperature_config_table. by destruct VDIVIDER_3200mV. Qed.

Lemma helmet_celsius : celsius_table (headset_temperature_config_table (H := helmet_release)).
Proof. apply celsius_tableb_ok. vm_compute. reflexivity. Qed.

Lemma vendor_celsius : celsius_table (headset_temperature_config_table (H := {| VDIVIDER_3200mV := false; HJC_11Be := false |})).
Proof. apply celsius_tableb_ok. vm_compute. reflexivity. Qed.

Lemma build_celsius (B : ThermoBuild) : celsius_table headset_temperature_config_table.
Proof.
  destruct B as [[] b]; [exact helmet_celsius | exact vendor_celsius].
Qed.

Lemma aget_voltages (table : list temperature_lookup_t) i : aget (fst <$> table) i = fst (temp_entry table i).
Proof. unfold aget, temp_entry. change 0 with (fst (0, 0)) at 1. apply map_nth. Qed.

Lemma clamp_range t : TEMPERATURE_MIN <= temperatureClamp t <= TEMPERATURE_MAX.
Proof. unfold temperatureClamp, THERMISTOR_TEMP_MIN, THERMISTOR_TEMP_MAX, TEMPERATURE_MIN, TEMPERATURE_MAX. lia. Qed.

Lemma clamp_in t : TEMPERATURE_MIN <= t <= TEMPERATURE_MAX -> temperatureClamp t = t.
Proof. unfold temperatureClamp, THERMISTOR_TEMP_MIN, THERMISTOR_TEMP_MAX, TEMPERATURE_MIN, TEMPERATURE_MAX. lia. Qed.

Lemma thermistor_falls (table : list temperature_lookup_t) v prev : celsius_table table ->
  exists k, temp_falls table v k /\ appThermistorMillivoltsToDegreesCelsius (fst <$> table) v prev = k - 40.
Proof.
  intros (Hl & Hv & Hf). pose proof (clamp_range prev) as Hc. unfold TEMPERATURE_MIN, TEMPERATURE_MAX in Hc.
  assert (alen (fst <$> table) = 126) as Hn 
    by (unfold alen; rewrite length_fmap; exact (f_equal Z.of_nat Hl)).
  assert (falling 126 (aget (fst <$> table)) (fun i => i8 (THERMISTOR_TEMP_MIN + i)) THERMISTOR_TEMP_MIN THERMISTOR_TEMP_MAX) as Hfall.
  { split_and!; [lia | | done | done]. intros i j Hi Hij Hj. rewrite !aget_voltages. by apply Hf. }
  unfold appThermistorMillivoltsToDegreesCelsius. rewrite Hn, u32_small by (unfold THERMISTOR_TEMP_MIN; rlia).
  destruct (search_from_falls _ _ _ _ _ Hfall v (temperatureClamp prev - THERMISTOR_TEMP_MIN)) as (k & Hk & ->); [unfold THERMISTOR_TEMP_MIN; lia |].
  exists k. unfold temp_falls, falls_in in *. setoid_rewrite aget_voltages in Hk. split; [exact Hk |].
  rewrite i8_small; unfold THERMISTOR_TEMP_MIN, is_i8; lia.
Qed.

Lemma falls_anti size voltage_at v v' k k' : falls_in size voltage_at v k -> falls_in size voltage_at v' k' ->
  (forall i j, 0 <= i -> i < j -> j < size -> voltage_at j < voltage_at i) -> v <= v' -> k' <= k.
Proof.
  intros (Hk & _ & H2) (Hk' & H1' & _) Hf Hv. apply Z.nlt_ge. intros Hlt. specialize (H2 ltac:(lia)).
  destruct H1' as [-> | H1']; [lia |]. destruct (decide (k = k' - 1)) as [-> | Hne]; [lia |].
  specialize (Hf k (k' - 1) ltac:(lia) ltac:(lia) ltac:(lia)). lia.
Qed.

(** [C37] A voltage is converted to the temperature of its entry, whatever
    the temperature before was, and to no higher one than a lower voltage;
    the functions of thermistor.c convert it to the same. *)
Theorem temperature_exact (B : ThermoBuild) v prev : TEMPERATURE_MIN <= prev <= TEMPERATURE_MAX ->
  let table := headset_temperature_config_table in
  let t := temperature_GetTemperature table v prev in
  temp_falls table v (t - TEMPERATURE_MIN) /\
  (forall v' prev', v <= v' -> TEMPERATURE_MIN <= prev' <= TEMPERATURE_MAX -> temperature_GetTemperature table v' prev' <= t) /\
  appThermistorMillivoltsToDegreesCelsius thermistor_voltage_lookup_table v prev = t.
Proof.
  intros Hp table t. pose proof (build_celsius B) as Ht. fold table in Ht.
  destruct (get_temperature_falls table Ht v prev Hp) as (k & Hk & Hkt). fold t in Hkt.
  split; [rewrite Hkt; unfold TEMPERATURE_MIN; by replace (k - 40 - -40) with k by lia |]. split.
  - intros v' prev' Hv Hp'. destruct (get_temperature_falls table Ht v' prev' Hp') as (k' & Hk' & ->). rewrite Hkt.
    pose proof (falls_anti _ _ v v' k k' Hk Hk' (proj2 (proj2 Ht)) Hv). lia.
  - rewrite tables_agree. destruct (thermistor_falls table v prev Ht) as (k' & Hk' & E). etransitivity; [exact E |]. rewrite Hkt.
    by rewrite (falls_in_unique _ _ _ _ _ (table_falling table Ht) v k' k Hk' Hk).
Qed.

(** A temperature converted to millivolts and back is itself, limited
    to the range of the table, whatever the temperature before was. *)
Theorem thermistor_round_trip (B : ThermoBuild) temperature prev :
  appThermistorMillivoltsToDegreesCelsius thermistor_voltage_lookup_table
    (appThermistorDegreesCelsiusToMillivolts thermistor_voltage_lookup_table temperature) prev = temperatureClamp temperature.
Proof.
  rewrite tables_agree. pose proof (build_celsius B) as Ht. set (table := headset_temperature_config_table) in *.
  unfold appThermistorDegreesCelsiusToMillivolts. rewrite aget_voltages. pose proof (clamp_range temperature) as Hc.
  unfold TEMPERATURE_MIN, TEMPERATURE_MAX, THERMISTOR_TEMP_MIN in *. set (i := temperatureClamp temperature - -40).
  destruct (thermistor_falls table (fst (temp_entry table i)) prev Ht) as (k & Hk & E). etransitivity; [exact E |].
  rewrite (falls_in_unique _ _ _ _ _ (table_falling table Ht) _ k i Hk); [lia |].
  split; [lia |]. split; [| done]. destruct (decide (i = 0)); [by left | right]. apply (proj2 (proj2 Ht)); lia.
Qed.

(** * The file temperature.c *)
Inductive temperatureState :=
| TEMPERATURE_STATE_WITHIN_LIMITS | TEMPERATURE_STATE_ABOVE_UPPER_LIMIT | TEMPERATURE_STATE_BELOW_LOWER_LIMIT | TEMPERATURE_STATE_UNKNOWN.
#[export] Instance temperatureState_dec : EqDecision temperatureState.
Proof. solve_decision. Defined.

(** A task of the list with its [arr_s8]. *)
Record temp_client := mktclient { tc_task : Z; lower_limit : Z; upper_limit : Z; current_state : temperatureState }.
#[export] Instance temp_client_eta : RecordEta temp_client := fun r => mktclient (tc_task r) (lower_limit r) (upper_limit r) (current_state r).

(** [temperatureTaskData] with the statics of the file and of its functions. *)
Record temperatureTaskData := mktemp {
  t_period : Z;
  t_window : Z;
  t_instantaneous : Z;
  t_weight : Z;
  t_last_ema : Z;
  t_current_ema : Z;
  t_clients : list temp_client;
  t_median : median_st;
  t_first : Z;
  t_vref_raw : Z;
  fake_battery_temperature : Z;
  battery_temp_test_on : bool }.
#[export] Instance temp_eta : RecordEta temperatureTaskData := fun r =>
  mktemp (t_period r) (t_window r) (t_instantaneous r) (t_weight r) (t_last_ema r) (t_current_ema r) (t_clients r) (t_median r) (t_first r)
    (t_vref_raw r) (fake_battery_temperature r) (battery_temp_test_on r).

(** The statics before appTemperatureInit; what malloc gives the filter is
    [garbage]. *)
Definition temp_zero (garbage : list Z) : temperatureTaskData :=
  mktemp 0 0 0 0 0 0 [] (mkmedian garbage 0) 1 0 INVALID_TEMPERATURE false.

Inductive temp_source := temp_vref | temp_thermistor | temp_other.

Inductive temp_msg :=
| TEMP_MEASUREMENT_TRIGGER
| TEMP_MEASUREMENT_RETRIGGER
| TEMP_ADC_RESULT (source : temp_source) (reading : Z)
| TEMP_MSG_OTHER.

Inductive temp_out :=
| TEMP_STATE_CHANGED (task : Z) (state : temperatureState)
| TEMP_TRIGGER_LATER (delay : Z)
| TEMP_RETRIGGER_LATER (delay : Z)
| TEMP_RETRIGGER_CANCEL
| TEMP_PIO (enable : bool)
| TEMP_ADC_READ (source : temp_source)
| TEMP_SENSOR_INIT
| TEMP_UNEXPECTED.

Definition appTemperatureGetAverage (d : temperatureTaskData) : Z :=
  if negb (fake_battery_temperature d =? INVALID_TEMPERATURE) then fake_battery_temperature d else i8 (t_current_ema d ÷ 100).

Definition appTemperatureGetInstantaneous (d : temperatureTaskData) : Z :=
  if negb (fake_battery_temperature d =? INVALID_TEMPERATURE) then fake_battery_temperature d else t_instantaneous d.

Definition temp_state (t : Z) (c : temp_client) : temperatureState :=
  if upper_limit c <=? t then TEMPERATURE_STATE_ABOVE_UPPER_LIMIT
  else if t <=? lower_limit c then TEMPERATURE_STATE_BELOW_LOWER_LIMIT
  else TEMPERATURE_STATE_WITHIN_LIMITS.

Definition appTemperatureServiceClient (d : temperatureTaskData) (c : temp_client) : temp_client * list temp_out :=
  let next_state := temp_state (appTemperatureGetAverage d) c in
  if decide (next_state = current_state c) then (c, [])
  else (c <| current_state := next_state |>, [TEMP_STATE_CHANGED (tc_task c) next_state]).

Definition appTemperatureServiceClients (d : temperatureTaskData) : temperatureTaskData * list temp_out :=
  let r := appTemperatureServiceClient d <$> t_clients d in
  (d <| t_clients := fst <$> r |>, concat (snd <$> r)).

Definition temperature_ExponentialAverage (reading : Z) (d : temperatureTaskData) : Z * temperatureTaskData :=
  if t_first d =? 1 then (i32 (reading * 100), d <| t_first := u8 (t_first d + 1) |>)
  else (i32 (i32 (t_weight d * reading) + i32 ((100 - t_weight d) * t_last_ema d ÷ 100)), d).

Definition temperature_MedianFiltering (reading : Z) (d : temperatureTaskData) : Z * temperatureTaskData :=
  let r := MedianFiltering (t_window d) reading (t_median d) in (fst r, d <| t_median := snd r |>).

Definition handleTemperatureReading (reading : Z) (d : temperatureTaskData) : temperatureTaskData * list temp_out :=
  let m := temperature_MedianFiltering reading d in
  let d := (snd m) <| t_instantaneous := fst m |> in
  let d := d <| t_last_ema := t_current_ema d |> in
  let e := temperature_ExponentialAverage (fst m) d in
  appTemperatureServiceClients ((snd e) <| t_current_ema := fst e |>).

Section thermo.
Context `{ThermoBuild}.
(** The table that is set, VmReadVrefConstant(), and whether the thermistor
    has a pin that switches it on. *)
Context (table : list temperature_lookup_t) (vref_const : Z) (pio_used : bool).

Definition Temperature_AdcResultHandler (source : temp_source) (reading : Z) (d : temperatureTaskData) : Z * temperatureTaskData :=
  match source with
  | temp_vref => (0, d <| t_vref_raw := reading |>)
  | temp_thermistor => (if negb (t_vref_raw d =? 0) then u16 (u32 (vref_const * reading) / t_vref_raw d) else 0, d)
  | temp_other => (0, d)
  end.

Definition appThermistorPIOEnable (enable : bool) : list temp_out := if pio_used then [TEMP_PIO enable] else [].

Definition retrigger_temperature_measurement (d : temperatureTaskData) : list temp_out := [TEMP_RETRIGGER_LATER (2 * t_period d)].

Definition appTemperatureSensorRequestMeasurement (d : temperatureTaskData) : list temp_out :=
  appThermistorPIOEnable true ++ [TEMP_ADC_READ temp_vref; TEMP_ADC_READ temp_thermistor] ++
  (if HJC_11Be then retrigger_temperature_measurement d else []).

Definition appTemperatureHandleMessage (m : temp_msg) (d : temperatureTaskData) : temperatureTaskData * list temp_out :=
  match m with
  | TEMP_MEASUREMENT_RETRIGGER => if HJC_11Be then (d, appTemperatureSensorRequestMeasurement d) else (d, [TEMP_UNEXPECTED])
  | TEMP_MEASUREMENT_TRIGGER => (d, appTemperatureSensorRequestMeasurement d)
  | TEMP_ADC_RESULT source reading =>
    if negb (battery_temp_test_on d) && (fake_battery_temperature d =? INVALID_TEMPERATURE) then
      let r := Temperature_AdcResultHandler source reading d in
      let d := snd r in
      if negb (fst r =? 0) then
        let t_new := temperature_GetTemperature table (fst r) (t_instantaneous d) in
        let h := handleTemperatureReading t_new d in
        (fst h, (if HJC_11Be then [TEMP_RETRIGGER_CANCEL] else []) ++ snd h ++ appThermistorPIOEnable false ++ [TEMP_TRIGGER_LATER (t_period (fst h))])
      else (d, [])
    else (d, [])
  | TEMP_MSG_OTHER => (d, [TEMP_UNEXPECTED])
  end.

Definition appTemperatureInit (d : temperatureTaskData) : temperatureTaskData * list temp_out :=
  let d := d <| t_clients := [] |> <| t_period := appConfigTemperatureReadingPeriodMs |>
             <| t_window := appConfigTemperatureMedianFilterWindow |> <| t_weight := appConfigTemperatureSmoothingWeight |> in
  (d, TEMP_SENSOR_INIT :: if fake_battery_temperature d =? INVALID_TEMPERATURE then appTemperatureSensorRequestMeasurement d else []).

Fixpoint remove_tclient (task : Z) (l : list temp_client) : list temp_client :=
  match l with
  | [] => []
  | c :: l => if tc_task c =? task then l else c :: remove_tclient task l
  end.

(** [None] is a panic: the task is on the list already, or is not. *)
Definition appTemperatureClientRegister (task lower upper : Z) (d : temperatureTaskData) : option (temperatureTaskData * list temp_out) :=
  let r := appTemperatureServiceClient d (mktclient task lower upper TEMPERATURE_STATE_UNKNOWN) in
  if existsb (fun c => tc_task c =? task) (t_clients d) then None else Some (d <| t_clients ::= fun l => l ++ [fst r] |>, snd r).

Definition appTemperatureClientUnregister (task : Z) (d : temperatureTaskData) : option temperatureTaskData :=
  if existsb (fun c => tc_task c =? task) (t_clients d) then Some (d <| t_clients ::= remove_tclient task |>) else None.

Definition appTemperatureClientGetState (task : Z) (d : temperatureTaskData) : option temperatureState :=
  current_state <$> find (fun c => tc_task c =? task) (t_clients d).

Definition appTemperatureSetFakeValue (temperature : Z) (d : temperatureTaskData) : temperatureTaskData * list temp_out :=
  appTemperatureServiceClients (d <| fake_battery_temperature := temperature |>).
Definition appTemperatureUnsetFakeValue (d : temperatureTaskData) : temperatureTaskData * list temp_out :=
  (d <| fake_battery_temperature := INVALID_TEMPERATURE |>, [TEMP_TRIGGER_LATER 0]).
Definition appTemperatureTestInjectFakeLevel (temperature : Z) (d : temperatureTaskData) : temperatureTaskData * list temp_out :=
  handleTemperatureReading temperature (d <| battery_temp_test_on := true |>).
Definition appTemperatureResumeAdcMeasurements (d : temperatureTaskData) : temperatureTaskData * list temp_out :=
  (d <| battery_temp_test_on := false |>, [TEMP_TRIGGER_LATER 0]).
End thermo.

(** * Runs in the field *)
Inductive temp_op := TempMessage (m : temp_msg) | TempRegister (task lower upper : Z) | TempUnregister (task : Z).

Section temp_runs.
Context `{B : ThermoBuild} (vref_const : Z) (pio_used : bool).

Definition temp_step (o : temp_op) (d : temperatureTaskData) : option (temperatureTaskData * list temp_out) :=
  match o with
  | TempMessage m => Some (appTemperatureHandleMessage headset_temperature_config_table vref_const pio_used m d)
  | TempRegister task lower upper => appTemperatureClientRegister task lower upper d
  | TempUnregister task => (fun d => (d, [])) <$> appTemperatureClientUnregister task d
  end.

(** A run stops at a panic. *)
Fixpoint temp_run (os : list temp_op) (d : temperatureTaskData) : option temperatureTaskData :=
  match os with
  | [] => Some d
  | o :: os => r ← temp_step o d; temp_run os (fst r)
  end.

(** What the run puts out. *)
Fixpoint temp_outs (os : list temp_op) (d : temperatureTaskData) : list temp_out :=
  match os with
  | [] => []
  | o :: os => match temp_step o d with Some r => snd r ++ temp_outs os (fst r) | None => [] end
  end.

(** The temperatures that were read. *)
Definition read_by (o : temp_op) (d : temperatureTaskData) : list Z :=
  match o with
  | TempMessage (TEMP_ADC_RESULT source reading) =>
    let v := fst (Temperature_AdcResultHandler vref_const source reading d) in
    if v =? 0 then [] else [temperature_GetTemperature headset_temperature_config_table v (t_instantaneous d)]
  | _ => []
  end.

Fixpoint readings (os : list temp_op) (d : temperatureTaskData) : list Z :=
  match os with
  | [] => []
  | o :: os => read_by o d ++ match temp_step o d with Some r => readings os (fst r) | None => [] end
  end.

Definition in_table (t : Z) : Prop := TEMPERATURE_MIN <= t <= TEMPERATURE_MAX.

Definition temp_inv (h : list Z) (d : temperatureTaskData) : Prop :=
  (t_period d = appConfigTemperatureReadingPeriodMs /\ t_window d = 5 /\ t_weight d = 50 /\
   fake_battery_temperature d = INVALID_TEMPERATURE /\ battery_temp_test_on d = false) /\
  holds 5 (t_median d) h /\ Forall in_table h /\ in_table (t_instantaneous d) /\
  match h with [] => t_first d = 1 /\ t_current_ema d = 0 | _ => t_first d = 2 /\ average_of 5 50 h (t_current_ema d) end /\
  Forall (fun c => current_state c = temp_state (appTemperatureGetAverage d) c) (t_clients d).

Lemma temp_inv_average h d : temp_inv h d -> -4000 <= t_current_ema d <= 8500.
Proof.
  intros (_ & _ & Hu & _ & Ha & _). destruct h as [| x h]; [destruct Ha as [_ ->]; lia |]. destruct Ha as [_ Ha].
  enough (100 * -40 <= t_current_ema d <= 100 * 85) by lia. apply (average_within 5 50 (-40) 85 (x :: h)); [lia | done |].
  apply steady_all; [lia |]. eapply Forall_impl; [exact Hu |]. by intros y [Hy1 Hy2].
Qed.

(** Serving the clients leaves each in the state its limits say. *)
Lemma service_states d :
  Forall (fun c => current_state c = temp_state (appTemperatureGetAverage d) c) (t_clients (fst (appTemperatureServiceClients d))).
Proof.
  cbn. apply Forall_forall. intros c (r & -> & Hr)%list_elem_of_fmap. apply list_elem_of_fmap in Hr as (c' & -> & _).
  unfold appTemperatureServiceClient. by destruct (decide _).
Qed.

Lemma handle_fields reading d :
  let r := MedianFiltering (t_window d) reading (t_median d) in
  handleTemperatureReading reading d = appTemperatureServiceClients
    (mktemp (t_period d) (t_window d) (fst r) (t_weight d) (t_current_ema d)
      (if t_first d =? 1 then i32 (fst r * 100)
       else i32 (i32 (t_weight d * fst r) + i32 ((100 - t_weight d) * t_current_ema d ÷ 100)))
      (t_clients d) (snd r) (if t_first d =? 1 then u8 (t_first d + 1) else t_first d) (t_vref_raw d)
      (fake_battery_temperature d) (battery_temp_test_on d)).
Proof.
  cbv zeta. unfold handleTemperatureReading, temperature_MedianFiltering, temperature_ExponentialAverage. destruct d. cbn.
  by destruct (_ =? 1).
Qed.

Lemma service_temp_inv h d :
  (t_period d = appConfigTemperatureReadingPeriodMs /\ t_window d = 5 /\ t_weight d = 50 /\
   fake_battery_temperature d = INVALID_TEMPERATURE /\ battery_temp_test_on d = false) ->
  holds 5 (t_median d) h -> Forall in_table h -> in_table (t_instantaneous d) -> h <> [] -> t_first d = 2 ->
  average_of 5 50 h (t_current_ema d) -> temp_inv h (fst (appTemperatureServiceClients d)).
Proof.
  intros Hf Hh Hu Hi Hne Ht Ha. pose proof (service_states d) as Hs.
  assert (appTemperatureGetAverage (fst (appTemperatureServiceClients d)) = appTemperatureGetAverage d) as Hav by (by destruct d).
  split; [by destruct d |]. split; [by destruct d |]. split; [exact Hu |]. split; [by destruct d |]. split.
  - destruct h; [done |]. by destruct d.
  - by rewrite Hav.
Qed.

Lemma temp_take_inv h d reading : temp_inv h d -> in_table reading -> temp_inv (h ++ [reading]) (fst (handleTemperatureReading reading d)).
Proof.
  intros Hi Hr. pose proof (temp_inv_average h d Hi) as Hav. destruct Hi as ((Hp & Hw & Hwt & Hf & Ht) & Hh & Hu & Hin & Ha & _).
  destruct (filter_step 5 reading (t_median d) h ltac:(lia) Hh) as [Hm Hh'].
  assert (Forall in_table (h ++ [reading])) as Hu' by (apply Forall_app; auto).
  rewrite handle_fields. cbv zeta. rewrite Hp, Hw, Hwt.
  set (ms := snd (MedianFiltering 5 reading (t_median d))) in *. set (m := fst (MedianFiltering 5 reading (t_median d))) in *.
  assert (in_table m) as Hmr.
  { apply (median_within _ _ TEMPERATURE_MIN TEMPERATURE_MAX Hm). rewrite outside_none by (by apply last_n_Forall).
    change (alen []) with 0. unfold in_window. pose proof (alen_nonneg h). rewrite alen_last_n; rewrite alen_app; change (alen [reading]) with 1; lia. }
  unfold in_table, TEMPERATURE_MIN, TEMPERATURE_MAX in Hmr.
  apply service_temp_inv; cbn [t_period t_window t_weight fake_battery_temperature battery_temp_test_on t_median t_instantaneous t_first t_current_ema];
    [done | done | done | done | by destruct h | |]; destruct h as [| x h].
  - by destruct Ha as [-> _].
  - by destruct Ha as [-> _].
  - destruct Ha as [-> _]. change (1 =? 1) with true. cbv iota. rewrite i32_small by rlia. by apply average_first.
  - destruct Ha as [-> Ha]. change (2 =? 1) with false. cbv iota. change (100 - 50) with 50.
    rewrite (i32_small (50 * m)), (i32_small (_ ÷ 100)), i32_small by (unfold_ranges; zlia).
    exact (average_next 5 50 _ _ _ _ Ha Hm).
Qed.

Lemma read_in_table d v : in_table (t_instantaneous d) ->
  in_table (temperature_GetTemperature headset_temperature_config_table v (t_instantaneous d)).
Proof. apply get_temperature_range, build_celsius. Qed.

Lemma adc_inv h source reading d : temp_inv h d ->
  temp_inv h (snd (Temperature_AdcResultHandler vref_const source reading d)) /\
  t_instantaneous (snd (Temperature_AdcResultHandler vref_const source reading d)) = t_instantaneous d.
Proof. destruct source; [| done..]. by destruct d. Qed.

Lemma temp_message_inv h m d : temp_inv h d ->
  temp_inv (h ++ read_by (TempMessage m) d) (fst (appTemperatureHandleMessage headset_temperature_config_table vref_const pio_used m d)).
Proof.
  intros Hi. pose proof Hi as ((_ & _ & _ & Hf & Ht) & _ & _ & Hin & _).
  destruct m as [| | source reading |]; cbn [read_by appTemperatureHandleMessage]; try (rewrite app_nil_r; by destruct HJC_11Be).
  rewrite Hf, Ht. cbn [negb andb]. rewrite Z.eqb_refl. destruct (adc_inv h source reading d Hi) as [Hr Hri]. revert Hr Hri.
  generalize (Temperature_AdcResultHandler vref_const source reading d). intros r Hr Hri. cbv zeta.
  destruct (fst r =? 0); cbn [negb fst]; [by rewrite app_nil_r |]. rewrite Hri. apply temp_take_inv; [exact Hr | by apply read_in_table].
Qed.

Lemma remove_tclient_sub task l c : c ∈ remove_tclient task l -> c ∈ l.
Proof.
  induction l as [| c' l IH]; cbn [remove_tclient]; [done |]. destruct (_ =? _); rewrite !elem_of_cons; naive_solver.
Qed.

Lemma temp_step_inv h o d r : temp_inv h d -> temp_step o d = Some r -> temp_inv (h ++ read_by o d) (fst r).
Proof.
  intros Hi Hr. destruct o as [m | task lower upper | task]; cbn [temp_step] in Hr.
  - injection Hr as <-. by apply temp_message_inv.
  - cbn [read_by]. rewrite app_nil_r. unfold appTemperatureClientRegister in Hr. destruct (existsb _ _); [done |]. injection Hr as <-.
    destruct Hi as (Hf & Hh & Hu & Hin & Ha & Hc). split; [exact Hf |]. split; [exact Hh |]. split; [exact Hu |]. split; [exact Hin |]. split; [exact Ha |].
    cbn. change (appTemperatureGetAverage _) with (appTemperatureGetAverage d).
    apply Forall_app. split; [exact Hc |]. apply Forall_singleton. unfold appTemperatureServiceClient. by destruct (decide _).
  - cbn [read_by]. rewrite app_nil_r. unfold appTemperatureClientUnregister in Hr. destruct (existsb _ _); [| done]. injection Hr as <-.
    destruct Hi as (Hf & Hh & Hu & Hin & Ha & Hc). split; [exact Hf |]. split; [exact Hh |]. split; [exact Hu |]. split; [exact Hin |]. split; [exact Ha |].
    cbn. change (appTemperatureGetAverage _) with (appTemperatureGetAverage d).
    rewrite Forall_forall in *. intros c Hm. exact (Hc c (remove_tclient_sub _ _ _ Hm)).
Qed.

Lemma temp_run_inv os h d d' : temp_inv h d -> temp_run os d = Some d' -> temp_inv (h ++ readings os d) d'.
Proof.
  revert h d. induction os as [| o os IH]; intros h d Hi Hr; cbn [temp_run readings] in *.
  - injection Hr as <-. by rewrite app_nil_r.
  - destruct (temp_step o d) as [r |] eqn:E; [| done]. rewrite app_assoc. exact (IH _ _ (temp_step_inv h o d r Hi E) Hr).
Qed.

(** ** What the clients are told

    The state in the last message to a task, [s] before the messages. *)
Definition told_by (task : Z) (s : option temperatureState) (o : temp_out) : option temperatureState :=
  match o with TEMP_STATE_CHANGED t st => if t =? task then Some st else s | _ => s end.
Definition told_last (task : Z) (s : option temperatureState) (outs : list temp_out) : option temperatureState := fold_left (told_by task) outs s.

(** The tasks differ and each was last told its state. *)
Definition spoken (outs : list temp_out) (l : list temp_client) : Prop :=
  NoDup (tc_task <$> l) /\ Forall (fun c => told_last (tc_task c) None outs = Some (current_state c)) l.

Lemma told_app task s xs ys : told_last task s (xs ++ ys) = told_last task (told_last task s xs) ys.
Proof. apply fold_left_app. Qed.

(** No message to [task]. *)
Definition not_to (task : Z) (o : temp_out) : Prop := match o with TEMP_STATE_CHANGED t _ => t <> task | _ => True end.

Lemma told_not_to task s outs : Forall (not_to task) outs -> told_last task s outs = s.
Proof.
  unfold told_last. intros Ho. revert s. induction Ho as [| o outs Ho _ IH]; intros s; cbn [fold_left]; [done |]. rewrite IH.
  destruct o; cbn in *; try done. by rewrite (proj2 (Z.eqb_neq _ _) Ho).
Qed.

Lemma spoken_quiet outs outs' l : (forall task, Forall (not_to task) outs') -> spoken outs l -> spoken (outs ++ outs') l.
Proof.
  intros Hq [Hn Hl]. split; [exact Hn |]. eapply Forall_impl; [exact Hl |]. intros c Hc. by rewrite told_app, told_not_to.
Qed.

Lemma service_to d c task : tc_task c <> task -> Forall (not_to task) (snd (appTemperatureServiceClient d c)).
Proof. intros Ht. unfold appTemperatureServiceClient. destruct (decide _); by repeat constructor. Qed.

Lemma services_to d l task : task ∉ tc_task <$> l -> Forall (not_to task) (concat (snd <$> (appTemperatureServiceClient d <$> l))).
Proof.
  induction l as [| c l IH]; [constructor |]. rewrite fmap_cons, not_elem_of_cons. intros [Ht Hl].
  cbn [fmap list_fmap concat]. apply Forall_app. split; [by apply service_to; congruence | by apply IH].
Qed.

Lemma service_task d c : tc_task (fst (appTemperatureServiceClient d c)) = tc_task c.
Proof. unfold appTemperatureServiceClient. by destruct (decide _). Qed.

(** A client whose state changes is told, and whose does not is not. *)
Lemma service_told d c s : (s = Some (current_state c) \/ current_state c = TEMPERATURE_STATE_UNKNOWN) ->
  told_last (tc_task c) s (snd (appTemperatureServiceClient d c)) = Some (current_state (fst (appTemperatureServiceClient d c))).
Proof.
  intros Hs. unfold appTemperatureServiceClient. destruct (decide _) as [E | E]; cbn.
  - destruct Hs as [-> | Hs]; [done |]. rewrite Hs in E. revert E. unfold temp_state. by repeat destruct (_ <=? _).
  - by rewrite Z.eqb_refl.
Qed.

Lemma services_told d l xs : NoDup (tc_task <$> l) -> Forall (fun c => told_last (tc_task c) None xs = Some (current_state c)) l ->
  Forall (fun c => told_last (tc_task c) None (xs ++ concat (snd <$> (appTemperatureServiceClient d <$> l))) = Some (current_state c))
    (fst <$> (appTemperatureServiceClient d <$> l)).
Proof.
  revert xs. induction l as [| c l IH]; intros xs Hn Hl; [constructor |]. rewrite fmap_cons in Hn. apply NoDup_cons in Hn as [Hc Hn].
  apply Forall_cons in Hl as [Hcl Hl]. cbn [fmap list_fmap concat]. rewrite app_assoc. constructor.
  - rewrite !told_app, service_task, Hcl. rewrite (told_not_to _ _ (concat _)) by (by apply services_to). apply service_told. by left.
  - apply IH; [exact Hn |]. rewrite Forall_forall in *. intros c' Hc'. rewrite told_app, Hl by done.
    apply told_not_to, service_to. intros E. apply Hc. rewrite E. by apply list_elem_of_fmap_2.
Qed.

Lemma spoken_service d outs : spoken outs (t_clients d) ->
  spoken (outs ++ snd (appTemperatureServiceClients d)) (t_clients (fst (appTemperatureServiceClients d))).
Proof.
  intros [Hn Hl]. split; [| by apply services_told]. cbn. rewrite <- !list_fmap_compose.
  rewrite (list_fmap_ext _ tc_task); [done |]. intros i c _. apply service_task.
Qed.

Lemma pio_quiet b task : Forall (not_to task) (appThermistorPIOEnable pio_used b).
Proof. unfold appThermistorPIOEnable. destruct pio_used; by repeat constructor. Qed.

Lemma request_quiet d task : Forall (not_to task) (appTemperatureSensorRequestMeasurement pio_used d).
Proof.
  unfold appTemperatureSensorRequestMeasurement. apply Forall_app. split; [apply pio_quiet |].
  destruct HJC_11Be; by repeat constructor.
Qed.

Lemma remove_tclient_tasks task l : NoDup (tc_task <$> l) -> NoDup (tc_task <$> remove_tclient task l).
Proof.
  induction l as [| c l IH]; intros Hn; cbn [remove_tclient]; [done |]. rewrite fmap_cons in Hn. apply NoDup_cons in Hn as [Hc Hn].
  destruct (_ =? _); [done |]. rewrite fmap_cons. apply NoDup_cons. split; [| by apply IH].
  intros (c' & E & Hin)%list_elem_of_fmap. apply Hc. rewrite E. apply list_elem_of_fmap_2. by apply remove_tclient_sub in Hin.
Qed.

Lemma temp_step_spoken outs o d r : spoken outs (t_clients d) -> temp_step o d = Some r -> spoken (outs ++ snd r) (t_clients (fst r)).
Proof.
  intros Hs Hr. destruct o as [m | task lower upper | task]; cbn [temp_step] in Hr.
  - injection Hr as <-. destruct m as [| | source reading |]; cbn [appTemperatureHandleMessage].
    + by apply spoken_quiet; [apply request_quiet |].
    + destruct HJC_11Be; (apply spoken_quiet; [| exact Hs]); [apply request_quiet | by repeat constructor].
    + destruct (_ && _); [| by rewrite app_nil_r]. set (r := Temperature_AdcResultHandler vref_const source reading d).
      assert (t_clients (snd r) = t_clients d) as Hc by (by destruct source). cbv zeta.
      destruct (negb _); cbn [fst snd]; [| by rewrite app_nil_r, Hc]. rewrite handle_fields. set (d' := mktemp _ _ _ _ _ _ _ _ _ _ _ _).
      rewrite (app_assoc outs), app_assoc. apply spoken_quiet.
      { intros task. apply Forall_app. split; [apply pio_quiet | by repeat constructor]. }
      apply spoken_service. unfold d'. cbn [t_clients]. rewrite Hc. apply spoken_quiet; [| exact Hs].
      intros task. destruct HJC_11Be; by repeat constructor.
    + by apply spoken_quiet; [repeat constructor |].
  - unfold appTemperatureClientRegister in Hr. destruct (existsb _ _) eqn:E; [done |]. injection Hr as <-. cbn [fst snd t_clients field_set].
    set (c := mktclient task lower upper TEMPERATURE_STATE_UNKNOWN). set (r := appTemperatureServiceClient d c). destruct Hs as [Hn Hl].
    assert (task ∉ tc_task <$> t_clients d) as Ht.
    { intros (c' & -> & Hc')%list_elem_of_fmap. apply not_true_iff_false in E. apply E, existsb_exists. exists c'.
      split; [by apply list_elem_of_In | apply Z.eqb_refl]. }
    split.
    + rewrite fmap_app. cbn. unfold r. rewrite service_task. apply NoDup_app. split; [exact Hn |].
      split; [intros x Hx ->%list_elem_of_singleton; by apply Ht | apply NoDup_singleton].
    + apply Forall_app. split; [| apply Forall_singleton; unfold r; rewrite told_app, service_task; apply service_told; by right].
      rewrite Forall_forall in *. intros c' Hc'. rewrite told_app, Hl by done. apply told_not_to, service_to.
      intros E'. apply Ht. change task with (tc_task c). rewrite E'. by apply list_elem_of_fmap_2.
  - unfold appTemperatureClientUnregister in Hr. destruct (existsb _ _); [| done]. injection Hr as <-. cbn [fst snd t_clients field_set].
    rewrite app_nil_r. destruct Hs as [Hn Hl]. split; [by apply remove_tclient_tasks |]. rewrite Forall_forall in *. intros c Hc.
    apply Hl. by apply remove_tclient_sub in Hc.
Qed.

Lemma temp_run_spoken os outs d d' : spoken outs (t_clients d) -> temp_run os d = Some d' -> spoken (outs ++ temp_outs os d) (t_clients d').
Proof.
  revert outs d. induction os as [| o os IH]; intros outs d Hs Hr; cbn [temp_run temp_outs] in *.
  - injection Hr as <-. by rewrite app_nil_r.
  - destruct (temp_step o d) as [r |] eqn:E; [| done]. rewrite app_assoc. apply (IH _ _ (temp_step_spoken outs o d r Hs E) Hr).
Qed.

(** The module after appTemperatureInit. *)
Definition temp_start (garbage : list Z) : temperatureTaskData := fst (appTemperatureInit pio_used (temp_zero garbage)).

Lemma temp_start_inv garbage : alen garbage = 5 -> temp_inv [] (temp_start garbage).
Proof.
  intros Hg. split; [done |]. split; [split_and!; [exact Hg | done |]; intros i Hr; cbn in Hr; lia |].
  split_and!; try done.
Qed.

Lemma temp_average_value h d : temp_inv h d -> appTemperatureGetAverage d = t_current_ema d ÷ 100.
Proof.
  intros Hi. pose proof (temp_inv_average h d Hi). unfold appTemperatureGetAverage. destruct Hi as ((_ & _ & _ & -> & _) & _).
  cbn [negb]. rewrite Z.eqb_refl. cbn [negb]. apply i8_small. unfold is_i8. zlia.
Qed.

(** [C31] The temperature that is reported is within the table and within any
    bounds that more than half of the last five readings keep at every
    reading; and the last message sent to every client told it its state for
    that temperature. *)
Theorem temperature_reported garbage os d lo hi : alen garbage = 5 -> temp_run os (temp_start garbage) = Some d ->
  let h := readings os (temp_start garbage) in
  h <> [] -> steady 5 lo hi h ->
  TEMPERATURE_MIN <= appTemperatureGetAverage d <= TEMPERATURE_MAX /\ lo <= appTemperatureGetAverage d <= hi /\
  forall c, c ∈ t_clients d -> told_last (tc_task c) None (temp_outs os (temp_start garbage)) = Some (temp_state (appTemperatureGetAverage d) c).
Proof.
  intros Hg Hr h Hne Hs. destruct (temp_run_spoken os [] (temp_start garbage) d) as [_ Htold]; [by split; constructor | exact Hr |]. pose proof (temp_run_inv os [] _ _ (temp_start_inv garbage Hg) Hr) as Hi. cbn [app] in Hi. fold h in Hi.
  pose proof (temp_inv_average h d Hi) as Hav. pose proof (temp_average_value h d Hi) as Hv.
  pose proof Hi as (_ & _ & _ & _ & Ha & Hc). destruct h as [| x h'] eqn:Eh; [done |]. destruct Ha as [_ Ha]. rewrite <- Eh in *.
  pose proof (average_within 5 50 lo hi h _ ltac:(lia) Ha Hs). rewrite Forall_forall in Hc, Htold.
  split_and!; [| | | | intros c Hin; rewrite <- (Hc c Hin); by apply Htold]; rewrite Hv; unfold TEMPERATURE_MIN, TEMPERATURE_MAX; zlia.
Qed.

(** Eighteen equal readings bring it to that temperature, or to one degree
    nearer to 0. *)
Lemma temperature_settles os h d d' k r : temp_inv h d -> temp_run os d = Some d' -> readings os d = replicate k r -> (18 <= k)%nat ->
  Z.abs (appTemperatureGetAverage d' - r) <= 1.
Proof.
  intros Hi Hr Hm Hk. pose proof (temp_run_inv os h d d' Hi Hr) as Hi'. rewrite Hm in Hi'.
  rewrite (temp_average_value _ _ Hi'). destruct Hi' as (_ & _ & Hu & _ & Ha & _).
  assert (average_of 5 50 (h ++ replicate k r) (t_current_ema d')) as He.
  { destruct (h ++ replicate k r) eqn:E; [| by destruct Ha]. apply app_eq_nil in E as [_ E]. by destruct k; [lia |]. }
  assert (Z.abs (t_current_ema d' - 100 * r) <= 1); [| zlia].
  apply (average_reaches 5 (-40) 85 14 h k r); [done | cbn; lia | cbn; lia | | lia | exact He].
  eapply Forall_impl; [exact Hu |]. by intros y [Hy1 Hy2].
Qed.

(** A temperature that is reached from below is reported one degree low for
    good: at 25 degrees the average stays at 24.99. *)
Lemma average_stays_below r : 0 < r -> ema 50 r (100 * r - 1) = 100 * r - 1 /\ (100 * r - 1) ÷ 100 = r - 1.
Proof. intros Hr. unfold ema. change (100 - 50) with 50. split; zlia. Qed.
End temp_runs.

(** * The end of the measurements

    A result of 0 mV, of a short circuit or without a reference, is dropped;
    in the release build nothing asks for the next measurement then, and the
    thermistor stays switched on. *)
Lemma zero_reading_stops (B : ThermoBuild) vref_const pio_used reading h d : temp_inv h d -> reading = 0 \/ t_vref_raw d = 0 ->
  appTemperatureHandleMessage headset_temperature_config_table vref_const pio_used (TEMP_ADC_RESULT temp_thermistor reading) d = (d, []).
Proof.
  intros ((_ & _ & _ & Hf & Ht) & _) Hz. cbn [appTemperatureHandleMessage]. rewrite Hf, Ht. cbn [negb andb]. rewrite Z.eqb_refl.
  cbn [Temperature_AdcResultHandler fst snd]. destruct (Z.eqb_spec (t_vref_raw d) 0); [done |]. destruct Hz as [-> | ?]; [| done].
  by rewrite Z.mul_0_r.
Qed.

(** The debug build asks again after twice the period. *)
Lemma debug_retriggers (B : ThermoBuild) pio_used d : HJC_11Be = true ->
  TEMP_RETRIGGER_LATER (2 * t_period d) ∈ appTemperatureSensorRequestMeasurement pio_used d.
Proof.
  intros Hd. unfold appTemperatureSensorRequestMeasurement. rewrite Hd. rewrite !elem_of_app. right. right. by apply list_elem_of_singleton.
Qed.

(** * A run

    At 25 degrees, with a reading of 85 between. *)
Definition temp_sample (mv : Z) : list temp_op :=
  [TempMessage TEMP_MEASUREMENT_TRIGGER; TempMessage (TEMP_ADC_RESULT temp_vref 1000); TempMessage (TEMP_ADC_RESULT temp_thermistor mv)].

Definition warm : list temp_op :=
  TempRegister 7 (-20) 60 :: temp_sample 1600 ++ temp_sample 1600 ++ temp_sample 1600 ++ temp_sample 405 ++ temp_sample 1600.

Definition warm_start : temperatureTaskData := temp_start (B := helmet_release) true [3; -9; 0; 127; 5].
Definition warm_end : temperatureTaskData := default warm_start (temp_run (B := helmet_release) 1000 true warm warm_start).

Lemma temperature_reported_witness :
  TEMPERATURE_MIN <= appTemperatureGetAverage warm_end <= TEMPERATURE_MAX /\ 25 <= appTemperatureGetAverage warm_end <= 25 /\
  forall c, c ∈ t_clients warm_end -> told_last (tc_task c) None (temp_outs (B := helmet_release) 1000 true warm warm_start) =
    Some (temp_state (appTemperatureGetAverage warm_end) c).
Proof.
  apply (@temperature_reported helmet_release 1000 true [3; -9; 0; 127; 5] warm warm_end 25 25);
    [reflexivity | vm_compute; reflexivity | vm_compute; congruence |].
  apply steadyb_steady. vm_compute. reflexivity.
Defined.

Lemma temperature_exact_witness :
  let table := headset_temperature_config_table (H := helmet_release) in
  let t := temperature_GetTemperature table 1598 (-40) in
  temp_falls table 1598 (t - TEMPERATURE_MIN) /\
  (forall v' prev', 1598 <= v' -> TEMPERATURE_MIN <= prev' <= TEMPERATURE_MAX -> temperature_GetTemperature table v' prev' <= t) /\
  appThermistorMillivoltsToDegreesCelsius (thermistor_voltage_lookup_table (H := helmet_release)) 1598 (-40) = t.
Proof. apply (temperature_exact helmet_release 1598 (-40)). unfold TEMPERATURE_MIN, TEMPERATURE_MAX. lia. Defined.

(** The same run ends one degree low when it starts at 24. *)
Example reached_from_below :
  appTemperatureGetAverage (default warm_start (temp_run (B := helmet_release) 1000 true
    (temp_sample 1631 ++ mjoin (repeat (temp_sample 1600) 40)) warm_start)) = 24.
Proof. vm_compute. reflexivity. Qed.
