(* ===== verification/Region.v ===== *)
(** The charging regions: battery_region.c with the tables of
    headset_region_config.c, which give the charging current allowed at the
    voltage and the temperature of the battery. *)
From S2P Require Import Prelude Thermo.

(** * Data *)
Inductive charger_region_type_t := NORMAL_REGION | CRITICAL_REGION | SAFETY_REGION.
#[export] Instance region_type_dec : EqDecision charger_region_type_t.
Proof. solve_decision. Defined.

Inductive battery_region_state_t := battery_region_unknown | battery_region_unsafe | battery_region_critical | battery_region_ok.
#[export] Instance region_state_dec : EqDecision battery_region_state_t.
Proof. solve_decision. Defined.

Record charge_region_t := mkregion {
  current : Z;
  voltage_min : Z; voltage_max : Z; voltage_hysteresis : Z;
  temp_min : Z; temp_max : Z; temp_hysteresis : Z;
  region_type : charger_region_type_t;
  charging_timer : Z }.

(** What a build defines. *)
Class RegionBuild := {
  REGION_INCLUDE_SMART_HELMET : bool;
  FAST_CHARGE_CURRENT : Z;
  PRE_CHARGE_CURRENT : Z;
  INCLUDE_CHARGER_DETECT : bool;
  CF133_BATT : bool;
  QCC3020_FF_ENTRY_LEVEL_AA : bool;
  RDP_HARDWARE : bool }.
Definition helmet_region : RegionBuild := {|
  REGION_INCLUDE_SMART_HELMET := true; FAST_CHARGE_CURRENT := 1470; PRE_CHARGE_CURRENT := 20; INCLUDE_CHARGER_DETECT := false;
  CF133_BATT := false; QCC3020_FF_ENTRY_LEVEL_AA := false; RDP_HARDWARE := false |}.

Section region_tables.
Context `{RegionBuild}.

Definition appConfigChargerTrickleCurrent : Z := if QCC3020_FF_ENTRY_LEVEL_AA then 8 else if RDP_HARDWARE then 30 else 10.
Definition appConfigChargerPreCurrent : Z := Z.min PRE_CHARGE_CURRENT FAST_CHARGE_CURRENT.
Definition appConfigChargerFastCurrent : Z := if INCLUDE_CHARGER_DETECT then FAST_CHARGE_CURRENT else Z.min FAST_CHARGE_CURRENT 500.
Definition TRICKLE : Z := appConfigChargerTrickleCurrent.
Definition PRE : Z := appConfigChargerPreCurrent.
Definition FAST : Z := appConfigChargerFastCurrent.
Definition Vpre : Z := 2100.
Definition Vfast : Z := 3000.
Definition Vcrit : Z := 3300.
Definition Vfloat : Z := 4200.
Definition Vfloat_adjusted : Z := Vfloat * 103 / 100.
Definition CHARGING_TIMER_TIMEOUT : Z := if CF133_BATT then 15 else 509.
Definition aCTIVE : Z := 50.
Definition MICRO_CURRENT_TIMEOUT : Z := 30.

Definition headset_charge_mode_config_table : list charge_region_t :=
  if REGION_INCLUDE_SMART_HELMET then [
    mkregion 0 Vfloat_adjusted 5000 100 (-40) 0 1 NORMAL_REGION 0;
    mkregion 0 Vfloat_adjusted 5000 100 0 45 1 NORMAL_REGION 0;
    mkregion 0 Vfloat_adjusted 5000 100 45 85 1 NORMAL_REGION 0;
    mkregion 1 3600 Vfloat_adjusted 50 (-40) 0 1 NORMAL_REGION MICRO_CURRENT_TIMEOUT;
    mkregion FAST 3600 Vfloat_adjusted 50 0 45 1 NORMAL_REGION CHARGING_TIMER_TIMEOUT;
    mkregion 1 3600 Vfloat_adjusted 50 45 85 1 NORMAL_REGION MICRO_CURRENT_TIMEOUT;
    mkregion 1 Vcrit 3600 50 (-40) 0 1 NORMAL_REGION MICRO_CURRENT_TIMEOUT;
    mkregion FAST Vcrit 3600 50 0 45 1 NORMAL_REGION CHARGING_TIMER_TIMEOUT;
    mkregion 1 Vcrit 3600 50 45 85 1 NORMAL_REGION MICRO_CURRENT_TIMEOUT;
    mkregion FAST Vfast Vcrit 50 (-40) 85 1 CRITICAL_REGION 0;
    mkregion aCTIVE 2800 Vfast 50 (-40) 85 1 CRITICAL_REGION 0;
    mkregion PRE Vpre 2800 50 (-40) 85 1 CRITICAL_REGION 0;
    mkregion TRICKLE 0 Vpre 50 (-40) 85 1 CRITICAL_REGION 0]
  else [
    mkregion 0 Vfloat_adjusted 5000 100 (-40) 0 1 NORMAL_REGION 0;
    mkregion 0 Vfloat_adjusted 5000 100 0 45 1 NORMAL_REGION 0;
    mkregion 0 Vfloat_adjusted 5000 100 45 85 1 NORMAL_REGION 0;
    mkregion 0 3600 Vfloat_adjusted 50 (-40) 0 1 NORMAL_REGION 0;
    mkregion FAST 3600 Vfloat_adjusted 50 0 45 1 NORMAL_REGION CHARGING_TIMER_TIMEOUT;
    mkregion 0 3600 Vfloat_adjusted 50 45 85 1 NORMAL_REGION 0;
    mkregion 0 Vcrit 3600 50 (-40) 0 1 NORMAL_REGION 0;
    mkregion FAST Vcrit 3600 50 0 45 1 NORMAL_REGION CHARGING_TIMER_TIMEOUT;
    mkregion 0 Vcrit 3600 50 45 85 1 NORMAL_REGION 0;
    mkregion 0 Vfast Vcrit 50 (-40) 0 1 CRITICAL_REGION 0;
    mkregion FAST Vfast Vcrit 50 0 45 1 CRITICAL_REGION 0;
    mkregion 0 Vfast Vcrit 50 45 85 1 CRITICAL_REGION 0;
    mkregion 0 Vpre Vfast 50 (-40) 0 1 CRITICAL_REGION 0;
    mkregion PRE Vpre Vfast 50 0 45 1 CRITICAL_REGION 0;
    mkregion 0 Vpre Vfast 50 45 85 1 CRITICAL_REGION 0;
    mkregion 0 0 Vpre 50 (-40) 0 1 CRITICAL_REGION 0;
    mkregion TRICKLE 0 Vpre 50 0 45 1 CRITICAL_REGION 0;
    mkregion 0 0 Vpre 50 45 85 1 CRITICAL_REGION 0].

Definition headset_discharge_mode_config_table : list charge_region_t := [
  mkregion 0 4200 4350 100 (-40) (-20) 1 NORMAL_REGION 0;
  mkregion 0 4200 4350 100 (-20) 60 1 NORMAL_REGION 0;
  mkregion 0 4200 4350 100 60 85 1 NORMAL_REGION 0;
  mkregion 0 3300 4200 50 (-40) (-20) 1 NORMAL_REGION 0;
  mkregion 0 3300 4200 50 (-20) 60 1 NORMAL_REGION 0;
  mkregion 0 3300 4200 50 60 85 1 NORMAL_REGION 0;
  mkregion 0 3000 3300 50 (-40) (-20) 1 CRITICAL_REGION 0;
  mkregion 0 3000 3300 50 (-20) 60 1 CRITICAL_REGION 0;
  mkregion 0 3000 3300 50 60 85 1 CRITICAL_REGION 0;
  mkregion 0 0 3000 50 (-40) (-20) 1 SAFETY_REGION 0;
  mkregion 0 0 3000 50 (-20) 60 1 SAFETY_REGION 0;
  mkregion 0 0 3000 50 60 85 1 SAFETY_REGION 0].
End region_tables.

Definition batteryRegion_GetReadingPeriodMs : Z := 1000.
Definition BATTERY_REGION_UNDEFINED : Z := 255.
Definition D_MIN (x : Z) : Z := x * 60 * 1000.

(** The table a pointer points to; none before the first update. *)
Inductive region_table_ref := TABLE_NULL | TABLE_CHARGE | TABLE_DISCHARGE.
#[export] Instance region_table_ref_dec : EqDecision region_table_ref.
Proof. solve_decision. Defined.

(** [battery_region_data_t], and the flag of the file. *)
Record battery_region_data_t := mkregions {
  client_tasks : list Z;
  region_period : Z;
  region_table : region_table_ref;
  region_table_len : Z;
  region : Z;
  region_state : battery_region_state_t;
  charging_timer_timeout : bool }.
#[export] Instance regions_eta : RecordEta battery_region_data_t := fun r =>
  mkregions (client_tasks r) (region_period r) (region_table r) (region_table_len r) (region r) (region_state r) (charging_timer_timeout r).

Inductive region_out :=
| REGION_TIMER_CANCEL
| REGION_TIMER_LATER (delay : Z)
| REGION_TRIGGER_LATER (delay : Z)
| REGION_UPDATE_TO (tasks : list Z) (state : battery_region_state_t)
| REGION_TRANSITION_HANDLER (old_region new_region : Z)
| REGION_SAFETY_HANDLER (old_region new_region : Z)
| REGION_TIMEOUT_HANDLER
| CHARGER_UPDATE_CURRENT
| CHARGER_DISABLE_TIMEOUT
| CHARGER_CLEAR_TIMEOUT
| CHARGER_REGISTER.

(** An update comes with the voltage, the temperature and the connection that
    it asks for. *)
Inductive region_msg :=
| REGION_CHARGING_TIMER
| REGION_UPDATE_TRIGGER (voltage temperature : Z) (is_connected : bool)
| REGION_CHARGER_DETACHED
| REGION_MSG_OTHER.

(** * The file *)
Section regions.
Context (charge_table discharge_table : list charge_region_t).
(** Which handlers are set, and whether the build has a charger. *)
Context (safety_handler charging_timeout_handler transition_handler include_charger : bool).

Definition region_limits (t : region_table_ref) (i : Z) : charge_region_t :=
  nth (Z.to_nat i) match t with TABLE_CHARGE => charge_table | TABLE_DISCHARGE => discharge_table | TABLE_NULL => [] end
    (mkregion 0 0 0 0 0 0 0 NORMAL_REGION 0).

Definition batteryRegion_VolTempInRegion (d : battery_region_data_t) (i voltage temperature : Z) (apply_hysteresis : bool) : bool :=
  if i =? BATTERY_REGION_UNDEFINED then false
  else
    let r := region_limits (region_table d) i in
    let vmin := i16 (if apply_hysteresis then voltage_min r - voltage_hysteresis r else voltage_min r) in
    let vmax := u16 (if apply_hysteresis then voltage_max r + voltage_hysteresis r else voltage_max r) in
    let tmin := i8 (if apply_hysteresis then temp_min r - temp_hysteresis r else temp_min r) in
    let tmax := i8 (if apply_hysteresis then temp_max r + temp_hysteresis r else temp_max r) in
    (vmin <=? voltage) && (voltage <=? vmax) && ((tmin <=? temperature) && (temperature <=? tmax)).

Definition batteryRegion_ServiceClients (d : battery_region_data_t) : list region_out :=
  match client_tasks d with [] => [] | ts => [REGION_UPDATE_TO ts (region_state d)] end.

(** The table for the connection; another one makes the region undefined. *)
Definition select_table (is_connected : bool) (d : battery_region_data_t) : battery_region_data_t :=
  let t := if is_connected then TABLE_CHARGE else TABLE_DISCHARGE in
  let len := u8 (Z.of_nat (length (if is_connected then charge_table else discharge_table))) in
  if decide (region_table d = t) then d
  else d <| region := BATTERY_REGION_UNDEFINED |> <| region_table := t |> <| region_table_len := len |>.

Definition enter_region (i : Z) (d : battery_region_data_t) : battery_region_data_t * list region_out :=
  let new_region := region_limits (region_table d) i in
  let prev_region := region d in
  let d := d <| region := i |> in
  let d := d <| region_state := match region_type new_region with
                                | CRITICAL_REGION => battery_region_critical
                                | SAFETY_REGION => battery_region_unsafe
                                | NORMAL_REGION => battery_region_ok
                                end |> in
  (d, [REGION_TIMER_CANCEL; CHARGER_UPDATE_CURRENT] ++
      (if negb (current new_region =? 0) && negb (charging_timer new_region =? 0)
       then [REGION_TIMER_LATER (D_MIN (charging_timer new_region))] else []) ++
      (if transition_handler then [REGION_TRANSITION_HANDLER prev_region i] else []) ++
      (if bool_decide (region_state d = battery_region_unsafe) && safety_handler then [REGION_SAFETY_HANDLER prev_region i] else []) ++
      batteryRegion_ServiceClients d).

(** [n] regions to go, from region [i]. *)
Fixpoint find_region (n : nat) (i voltage temperature : Z) (d : battery_region_data_t) : battery_region_data_t * list region_out :=
  match n with
  | O => (d, [])
  | S n => if batteryRegion_VolTempInRegion d i voltage temperature false then enter_region i d
           else find_region n (i + 1) voltage temperature d
  end.

Definition batteryRegion_UpdateRegion (voltage temperature : Z) (is_connected : bool) (d : battery_region_data_t) :
    battery_region_data_t * list region_out :=
  let d := select_table is_connected d in
  if batteryRegion_VolTempInRegion d (region d) voltage temperature true then (d, [])
  else find_region (Z.to_nat (region_table_len d)) 0 voltage temperature d.

Definition batteryRegion_HandleMessage (m : region_msg) (d : battery_region_data_t) : battery_region_data_t * list region_out :=
  match m with
  | REGION_CHARGING_TIMER =>
    (d <| charging_timer_timeout := true |>, (if charging_timeout_handler then [REGION_TIMEOUT_HANDLER] else []) ++ [CHARGER_DISABLE_TIMEOUT])
  | REGION_UPDATE_TRIGGER voltage temperature is_connected =>
    let r := batteryRegion_UpdateRegion voltage temperature is_connected d in
    (fst r, snd r ++ [REGION_TRIGGER_LATER (region_period (fst r))])
  | REGION_CHARGER_DETACHED => (d <| charging_timer_timeout := false |>, [REGION_TIMER_CANCEL; CHARGER_CLEAR_TIMEOUT])
  | REGION_MSG_OTHER => (d, [])
  end.

(** The flag is not of the record that is cleared. *)
Definition BatteryRegion_Init (d : battery_region_data_t) : battery_region_data_t * list region_out :=
  (mkregions [] batteryRegion_GetReadingPeriodMs TABLE_NULL 0 BATTERY_REGION_UNDEFINED battery_region_unknown (charging_timer_timeout d),
   (if include_charger then [CHARGER_REGISTER] else []) ++ [REGION_TRIGGER_LATER 0]).

(** A task that is on the list is not added again. *)
Definition BatteryRegion_Register (task : Z) (d : battery_region_data_t) : bool * battery_region_data_t :=
  if existsb (Z.eqb task) (client_tasks d) then (false, d) else (true, d <| client_tasks ::= fun l => l ++ [task] |>).

Fixpoint remove_task (task : Z) (l : list Z) : list Z :=
  match l with [] => [] | t :: l => if t =? task then l else t :: remove_task task l end.
Definition BatteryRegion_Unregister (task : Z) (d : battery_region_data_t) : battery_region_data_t := d <| client_tasks ::= remove_task task |>.

Definition BatteryRegion_GetState (d : battery_region_data_t) : battery_region_state_t := region_state d.
Definition forced_charging_needed (d : battery_region_data_t) : bool := negb (bool_decide (BatteryRegion_GetState d = battery_region_ok)).

Definition BatteryRegion_GetCurrent (d : battery_region_data_t) : Z :=
  if (region d =? BATTERY_REGION_UNDEFINED) || bool_decide (region_state d = battery_region_unknown) then 0
  else current (region_limits (region_table d) (region d)).
End regions.

(** The debug build's entries, and the handlers that the headset sets. *)
Definition forced_stop_charging_timer : list region_out := [REGION_TIMER_CANCEL].
Definition forced_restart_charging_timer `{RegionBuild} : list region_out :=
  [REGION_TIMER_CANCEL; CHARGER_CLEAR_TIMEOUT; REGION_TIMER_LATER (D_MIN CHARGING_TIMER_TIMEOUT)].

(** [headset_region_handlers] has no handler. *)
Definition headset_update `{RegionBuild} (voltage temperature : Z) (is_connected : bool) (d : battery_region_data_t) :
    battery_region_data_t * list region_out :=
  batteryRegion_UpdateRegion headset_charge_mode_config_table headset_discharge_mode_config_table false false voltage temperature is_connected d.

(** * What a region contains *)
Definition region_has (hyst : bool) (r : charge_region_t) (voltage temperature : Z) : Prop :=
  let h := if hyst then 1 else 0 in
  voltage_min r - h * voltage_hysteresis r <= voltage <= voltage_max r + h * voltage_hysteresis r /\
  temp_min r - h * temp_hysteresis r <= temperature <= temp_max r + h * temp_hysteresis r.

(** Limits that the code's types hold with and without the hysteresis. *)
Definition limits_fit (r : charge_region_t) : Prop :=
  0 <= voltage_hysteresis r <= 255 /\ 0 <= voltage_min r <= 32767 /\ 0 <= voltage_max r <= 65280 /\
  0 <= temp_hysteresis r <= 8 /\ -100 <= temp_min r <= 100 /\ -100 <= temp_max r <= 100.

Section shipped_regions.
Context `{B : RegionBuild}.

Definition table_of (t : region_table_ref) : list charge_region_t :=
  match t with
  | TABLE_CHARGE => headset_charge_mode_config_table | TABLE_DISCHARGE => headset_discharge_mode_config_table | TABLE_NULL => []
  end.

Notation in_region := (batteryRegion_VolTempInRegion headset_charge_mode_config_table headset_discharge_mode_config_table).

Lemma tables_fit t : Forall limits_fit (table_of t).
Proof.
  destruct t; cbn [table_of]; [constructor | unfold headset_charge_mode_config_table; destruct REGION_INCLUDE_SMART_HELMET | unfold headset_discharge_mode_config_table];
    repeat (constructor; [unfold limits_fit; vm_compute; intuition congruence |]); constructor.
Qed.

Lemma table_length t : Z.of_nat (length (table_of t)) < 256.
Proof. destruct t; cbn [table_of]; unfold headset_charge_mode_config_table; try destruct REGION_INCLUDE_SMART_HELMET; cbn; lia. Qed.

(** The limits of a valid index. *)
Lemma in_region_has d i v t hyst : 0 <= i < Z.of_nat (length (table_of (region_table d))) ->
  in_region d i v t hyst = true <->
  region_has hyst (region_limits headset_charge_mode_config_table headset_discharge_mode_config_table (region_table d) i) v t.
Proof.
  intros Hi. unfold batteryRegion_VolTempInRegion. pose proof (table_length (region_table d)).
  destruct (Z.eqb_spec i BATTERY_REGION_UNDEFINED) as [-> | _]; [unfold BATTERY_REGION_UNDEFINED in Hi; lia |].
  assert (limits_fit (region_limits headset_charge_mode_config_table headset_discharge_mode_config_table (region_table d) i)) as Hf.
  { pose proof (tables_fit (region_table d)) as Hall. rewrite Forall_forall in Hall. apply Hall, list_elem_of_In, nth_In.
    unfold table_of in *. lia. }
  set (r := region_limits _ _ _ i) in *. unfold limits_fit in Hf. rewrite !andb_true_iff, !Z.leb_le. unfold region_has.
  destruct hyst; (rewrite i16_small, u16_small, !i8_small by (unfold is_i8; rlia)); lia.
Qed.

(** Any reading in range is in a region. *)
Lemma tables_cover (c : bool) v t : 0 <= v <= (if c then 5000 else 4350) -> -40 <= t <= 85 ->
  Exists (fun r => region_has false r v t) (table_of (if c then TABLE_CHARGE else TABLE_DISCHARGE)).
Proof.
  intros Hv Ht.
  assert (v <= 2100 \/ 2100 <= v <= 2800 \/ 2800 <= v <= 3000 \/ 3000 <= v <= 3300 \/ 3300 <= v <= 3600 \/ 3600 <= v <= 4200 \/
    4200 <= v <= 4326 \/ 4326 <= v) as Hcv by lia.
  assert (t <= -20 \/ -20 <= t <= 0 \/ 0 <= t <= 45 \/ 45 <= t <= 60 \/ 60 <= t) as Hct by lia.
  destruct c; cbn [table_of]; unfold headset_charge_mode_config_table, headset_discharge_mode_config_table;
    try destruct REGION_INCLUDE_SMART_HELMET; intuition idtac;
    repeat (first [apply Exists_cons_hd; split; cbn; unfold Vpre, Vfast, Vcrit; change Vfloat_adjusted with 4326; lia | apply Exists_cons_tl]).
Qed.

(** ** An update *)

(** The region is one of the table, and the state is that of its type. *)
Definition region_wf (d : battery_region_data_t) : Prop :=
  region_table_len d = Z.of_nat (length (table_of (region_table d))) /\
  (region d <> BATTERY_REGION_UNDEFINED ->
   0 <= region d < region_table_len d /\
   region_state d = match region_type (region_limits headset_charge_mode_config_table headset_discharge_mode_config_table (region_table d) (region d)) with
                    | CRITICAL_REGION => battery_region_critical
                    | SAFETY_REGION => battery_region_unsafe
                    | NORMAL_REGION => battery_region_ok
                    end).

Notation limits d := (region_limits headset_charge_mode_config_table headset_discharge_mode_config_table (region_table d) (region d)).
Notation the_table c := (if c : bool then TABLE_CHARGE else TABLE_DISCHARGE).

Lemma select_wf c d : region_wf d ->
  region_wf (select_table headset_charge_mode_config_table headset_discharge_mode_config_table c d) /\
  region_table (select_table headset_charge_mode_config_table headset_discharge_mode_config_table c d) = the_table c.
Proof.
  intros Hd. unfold select_table. destruct (decide _) as [He | _]; [done |]. split; [| done].
  pose proof (table_length (the_table c)). split; cbn [region_table_len region_table region field_set].
  - rewrite u8_small; [by destruct c | destruct c; cbn [table_of] in *; rlia].
  - done.
Qed.

Lemma find_region_spec n i v t d :
  region_table_len d = Z.of_nat (length (table_of (region_table d))) -> 0 <= i -> i + Z.of_nat n = region_table_len d ->
  Exists (fun r => region_has false r v t) (drop (Z.to_nat i) (table_of (region_table d))) ->
  let d' := fst (find_region headset_charge_mode_config_table headset_discharge_mode_config_table false false n i v t d) in
  region_wf d' /\ region_table d' = region_table d /\ region d' <> BATTERY_REGION_UNDEFINED /\ region_has false (limits d') v t.
Proof.
  intros Hlen. revert i. induction n as [| n IH]; intros i Hi Hn Hex; cbn [find_region].
  - rewrite drop_ge in Hex by lia. by inversion Hex.
  - destruct (lookup_lt_is_Some_2 (table_of (region_table d)) (Z.to_nat i)) as [r Hr]; [lia |].
    assert (region_limits headset_charge_mode_config_table headset_discharge_mode_config_table (region_table d) i = r) as Hl
      by (by apply nth_lookup_Some).
    destruct (in_region d i v t false) eqn:E.
    + cbv zeta. apply in_region_has in E; [| lia]. pose proof (table_length (region_table d)).
      unfold enter_region. cbn [fst]. split; [| split_and!].
      * split; [exact Hlen |]. intros _. cbn [region region_table region_table_len region_state field_set]. split; [lia | done].
      * done.
      * cbn. unfold BATTERY_REGION_UNDEFINED. lia.
      * exact E.
    + apply IH; [lia | lia |]. rewrite (drop_S _ _ _ Hr) in Hex. replace (Z.to_nat (i + 1)) with (S (Z.to_nat i)) by lia.
      inversion Hex as [? ? Hhas | ]; subst; [| done]. rewrite <- not_true_iff_false, in_region_has in E by lia. by destruct (E Hhas).
Qed.

Lemma has_hysteresis r v t : limits_fit r -> region_has false r v t -> region_has true r v t.
Proof. unfold limits_fit, region_has. lia. Qed.

Lemma update_region d v t (c : bool) : region_wf d -> 0 <= v <= (if c then 5000 else 4350) -> -40 <= t <= 85 ->
  let d' := fst (headset_update v t c d) in
  region_wf d' /\ region_table d' = the_table c /\ region d' <> BATTERY_REGION_UNDEFINED /\ region_has true (limits d') v t.
Proof.
  intros Hd Hv Ht. unfold headset_update, batteryRegion_UpdateRegion. destruct (select_wf c d Hd) as [Hw Hc]. revert Hw Hc.
  generalize (select_table headset_charge_mode_config_table headset_discharge_mode_config_table c d). clear d Hd. intros d Hw Hc.
  destruct (in_region d (region d) v t true) eqn:E; cbv zeta; cbn [fst].
  - assert (region d <> BATTERY_REGION_UNDEFINED) as Hne.
    { intros He. unfold batteryRegion_VolTempInRegion in E. rewrite He in E. done. }
    split_and!; try done. apply in_region_has in E; [done |]. destruct Hw as [Hl Hw]. specialize (Hw Hne). lia.
  - destruct (find_region_spec (Z.to_nat (region_table_len d)) 0 v t d) as (Hw' & Hc' & Hne & Hhas); [apply Hw | lia | destruct Hw; lia | |].
    + rewrite Hc. by apply tables_cover.
    + split_and!; [exact Hw' | by rewrite Hc' | exact Hne |]. apply has_hysteresis; [| exact Hhas].
      pose proof (tables_fit (region_table (fst (find_region headset_charge_mode_config_table headset_discharge_mode_config_table
        false false (Z.to_nat (region_table_len d)) 0 v t d)))) as Hall.
      rewrite Forall_forall in Hall. apply Hall. destruct Hw' as [Hl' Hw']. specialize (Hw' Hne).
      unfold region_limits. unfold table_of in *. apply list_elem_of_In, nth_In. lia.
Qed.

(** What it asks for: nothing when the region stays, and the charger's current
    first when one is entered. *)
Lemma find_region_acts n i v t d :
  snd (find_region headset_charge_mode_config_table headset_discharge_mode_config_table false false n i v t d) = [] /\
  fst (find_region headset_charge_mode_config_table headset_discharge_mode_config_table false false n i v t d) = d \/
  exists outs, snd (find_region headset_charge_mode_config_table headset_discharge_mode_config_table false false n i v t d) =
    REGION_TIMER_CANCEL :: CHARGER_UPDATE_CURRENT :: outs.
Proof.
  revert i. induction n as [| n IH]; intros i; cbn [find_region]; [by left |].
  destruct (in_region d i v t false); [| apply IH]. right. by eexists.
Qed.

Lemma update_acts v t c d : region_wf d -> 0 <= v <= (if c : bool then 5000 else 4350) -> -40 <= t <= 85 ->
  fst (headset_update v t c d) = d /\ snd (headset_update v t c d) = [] \/
  exists outs, snd (headset_update v t c d) = REGION_TIMER_CANCEL :: CHARGER_UPDATE_CURRENT :: outs.
Proof.
  intros Hd Hv Ht. destruct (update_region d v t c Hd Hv Ht) as (_ & Hc & Hne & _).
  unfold headset_update, batteryRegion_UpdateRegion in *.
  destruct (in_region (select_table headset_charge_mode_config_table headset_discharge_mode_config_table c d)
    (region (select_table headset_charge_mode_config_table headset_discharge_mode_config_table c d)) v t true); cbn [fst snd] in *.
  - left. split; [| done]. unfold select_table in *. by destruct (decide _).
  - match goal with |- context [find_region ?a ?b ?x ?y ?n ?i ?v ?t ?d1] => destruct (find_region_acts n i v t d1) as [[E1 E2] | E] end; [| by right].
    left. split; [| done]. rewrite E2 in *. unfold select_table in *. by destruct (decide _).
Qed.

(** ** Runs *)
Inductive region_op := RegionMessage (m : region_msg) | RegionRegister (task : Z) | RegionUnregister (task : Z).

Definition region_handle (m : region_msg) (d : battery_region_data_t) : battery_region_data_t * list region_out :=
  batteryRegion_HandleMessage headset_charge_mode_config_table headset_discharge_mode_config_table false false false m d.

Definition region_step (o : region_op) (d : battery_region_data_t) : battery_region_data_t :=
  match o with
  | RegionMessage m => fst (region_handle m d)
  | RegionRegister task => snd (BatteryRegion_Register task d)
  | RegionUnregister task => BatteryRegion_Unregister task d
  end.

Definition region_run (os : list region_op) (d : battery_region_data_t) : battery_region_data_t := fold_left (fun d o => region_step o d) os d.

(** After BatteryRegion_Init. *)
Definition region_start : battery_region_data_t := fst (BatteryRegion_Init true (mkregions [] 0 TABLE_NULL 0 0 battery_region_unknown false)).

Lemma find_region_wf n i v t d : region_wf d -> 0 <= i -> i + Z.of_nat n <= region_table_len d ->
  region_wf (fst (find_region headset_charge_mode_config_table headset_discharge_mode_config_table false false n i v t d)).
Proof.
  intros Hd. revert i. induction n as [| n IH]; intros i Hi Hn; cbn [find_region]; [exact Hd |].
  destruct (in_region d i v t false); [| apply IH; lia].
  destruct Hd as [Hl _]. split; [exact Hl |]. intros _. cbn [enter_region fst region region_table region_table_len region_state field_set]. split; [lia | done].
Qed.

Lemma region_step_wf o d : region_wf d -> region_wf (region_step o d).
Proof.
  intros Hd. destruct o as [[| v t c | |] | task | task]; cbn [region_step region_handle batteryRegion_HandleMessage fst]; try exact Hd.
  - destruct (select_wf c d Hd) as [Hw _]. unfold batteryRegion_UpdateRegion.
    destruct (batteryRegion_VolTempInRegion _ _ _ _ _ _ true); [exact Hw |]. apply find_region_wf; [exact Hw | lia |]. destruct Hw as [-> _]. lia.
  - unfold BatteryRegion_Register. by destruct (existsb _ _).
Qed.

Lemma region_run_wf os : region_wf (region_run os region_start).
Proof.
  assert (region_wf region_start) as Hs by done. revert Hs. unfold region_run. generalize region_start.
  induction os as [| o os IH]; intros d Hd; cbn [fold_left]; [exact Hd |]. by apply IH, region_step_wf.
Qed.

(** The region after an update that follows the run [os]. *)
Definition updated (os : list region_op) (v t : Z) (c : bool) : battery_region_data_t :=
  region_run (os ++ [RegionMessage (REGION_UPDATE_TRIGGER v t c)]) region_start.

Lemma updated_update os v t c : updated os v t c = fst (headset_update v t c (region_run os region_start)).
Proof. unfold updated, region_run. by rewrite fold_left_app. Qed.

(** [C30] Whatever updates, registrations, timeouts and detachments came
    before, an update with a reading in the range of the tables ends in a
    region of the table for the connection that contains the reading within
    its hysteresis, with the state of that region's type ([region_wf]). *)
Theorem update_finds_region os v t c : 0 <= v <= (if c : bool then 5000 else 4350) -> -40 <= t <= 85 ->
  let d := updated os v t c in
  region_wf d /\ region_table d = the_table c /\ region d <> BATTERY_REGION_UNDEFINED /\ region_has true (limits d) v t.
Proof. intros Hv Ht d. unfold d. rewrite updated_update. apply update_region; [apply region_run_wf | done | done]. Qed.

(** ** The current *)

(** Outside -1 to 46 degrees, above 3350 mV, the helmet is charged with 1 mA
    at most. *)
Lemma helmet_currents r v t : REGION_INCLUDE_SMART_HELMET = true -> r ∈ headset_charge_mode_config_table -> region_has true r v t ->
  3350 < v -> t < -1 \/ 46 < t -> current r <= 1.
Proof.
  intros Hh Hr. unfold headset_charge_mode_config_table in Hr. rewrite Hh in Hr.
  rewrite !elem_of_cons, elem_of_nil in Hr. unfold region_has. intros [Hv Ht] Hlow Hout.
  destruct_or! Hr; try done; subst r; cbn in *; unfold Vpre, Vfast, Vcrit in *; change Vfloat_adjusted with 4326 in *; lia.
Qed.

(** An update with such a reading leaves it there. *)
Lemma update_current_low d v t : REGION_INCLUDE_SMART_HELMET = true -> region_wf d -> 3350 < v <= 5000 -> -40 <= t <= 85 -> t < -1 \/ 46 < t ->
  BatteryRegion_GetCurrent headset_charge_mode_config_table headset_discharge_mode_config_table (fst (headset_update v t true d)) <= 1.
Proof.
  intros Hh Hd Hv Ht Hout. destruct (update_region d v t true Hd ltac:(lia) Ht) as (Hw & Hc & Hne & Hhas).
  unfold BatteryRegion_GetCurrent. destruct (_ || _); [lia |].
  apply (helmet_currents _ v t Hh); [| exact Hhas | lia | done].
  destruct Hw as [Hl Hw]. specialize (Hw Hne). rewrite Hc in *. cbn [table_of region_limits] in *. apply list_elem_of_In, nth_In. lia.
Qed.

(** ** Where it does not *)

(** Between 3.0 and 3.3 V the fast current is allowed at every temperature. *)
Lemma critical_fast_at_80 : REGION_INCLUDE_SMART_HELMET = true ->
  BatteryRegion_GetCurrent headset_charge_mode_config_table headset_discharge_mode_config_table (updated [] 3100 80 true) = FAST.
Proof.
  intros Hh. unfold updated, region_run, region_step, region_handle, batteryRegion_HandleMessage, batteryRegion_UpdateRegion, headset_charge_mode_config_table.
  rewrite Hh. reflexivity.
Qed.

End shipped_regions.

(** A charger that is taken off and put back between two updates stops the
    charging timer, and the next update, in the same region, starts none. *)
Lemma replug_loses_timer :
  let d := updated (B := helmet_region) [] 3900 25 true in
  let d' := fst (region_handle (B := helmet_region) REGION_CHARGER_DETACHED d) in
  snd (headset_update (H := helmet_region) 3900 25 true region_start) =
    [REGION_TIMER_CANCEL; CHARGER_UPDATE_CURRENT; REGION_TIMER_LATER (D_MIN 509)] /\
  snd (region_handle (B := helmet_region) REGION_CHARGER_DETACHED d) = [REGION_TIMER_CANCEL; CHARGER_CLEAR_TIMEOUT] /\
  snd (headset_update (H := helmet_region) 3900 25 true d') = [] /\
  BatteryRegion_GetCurrent (headset_charge_mode_config_table (H := helmet_region)) headset_discharge_mode_config_table
    (fst (headset_update (H := helmet_region) 3900 25 true d')) = 500.
Proof. vm_compute. by split_and!. Qed.

(** * A run

    Charging at 20 degrees, in the sun, and off the charger. *)
Definition sunny : list region_op :=
  [RegionMessage (REGION_UPDATE_TRIGGER 3900 20 true); RegionRegister 7; RegionMessage (REGION_UPDATE_TRIGGER 3950 47 true);
   RegionMessage REGION_CHARGING_TIMER; RegionMessage REGION_CHARGER_DETACHED; RegionMessage (REGION_UPDATE_TRIGGER 3900 46 false)].

Lemma update_finds_region_witness :
  region_wf (B := helmet_region) (updated (B := helmet_region) sunny 4326 0 true) /\
  region_table (updated (B := helmet_region) sunny 4326 0 true) = TABLE_CHARGE /\
  region (updated (B := helmet_region) sunny 4326 0 true) <> BATTERY_REGION_UNDEFINED /\
  region_has true (region_limits (headset_charge_mode_config_table (H := helmet_region)) headset_discharge_mode_config_table
    (region_table (updated (B := helmet_region) sunny 4326 0 true)) (region (updated (B := helmet_region) sunny 4326 0 true))) 4326 0.
Proof. apply (update_finds_region (B := helmet_region) sunny 4326 0 true); lia. Defined.
