(* ===== verification/Charger.v ===== *)
(** The charger monitor: charger_monitor.c in the builds without charger
    detection, as both of the project are: when the charger is enabled and
    with what current. *)
From S2P Require Import Prelude Region.

(** * Data *)

(** [charger_status]: what the hardware reports. *)
Inductive charger_status :=
| TRICKLE_CHARGE | PRE_CHARGE | FAST_CHARGE | DISABLED_ERROR | STANDBY | NO_POWER | HEADROOM_ERROR | VBAT_OVERVOLT_ERROR
| CONFIG_FAIL_VALUES_OUT_OF_RANGE | ENABLE_FAIL_UNKNOWN | STATUS_OTHER.
#[export] Instance charger_status_dec : EqDecision charger_status.
Proof. solve_decision. Defined.

(** [ChargerDisableReason] *)
Definition CHARGER_DISABLE_REASON_TIMEOUT : Z := 1.
Definition CHARGER_DISABLE_REASON_REQUEST : Z := 2.
Definition CHARGER_DISABLE_REASON_ERROR : Z := 4.
Definition CHARGER_DISABLE_REASON_ZERO_CURRENT : Z := 8.
Definition CHARGER_DISABLE_REASON_NOT_CONNECTED : Z := 16.
Definition CHARGER_DISABLE_REASON_CHARGED : Z := 32.
Definition CHARGER_DISABLE_REASON_INTERNAL : Z := 64.

Definition CHARGER_CONNECTION_UNKNOWN : Z := 2.
Definition appConfigChargerInternalMaxCurrent : Z := 200.
Definition appConfigChargerReEnableTimeoutMs : Z := 1000.
Definition appConfigChargerDisableAfterStandbyTimeoutMs : Z := 1000.
Definition appConfigChargerTerminationCurrent : Z := 10.
Definition appConfigChargerStandbyFastVoltageHysteresis : Z := 250.
Definition appConfigChargerStateChangeDebounce : Z := 128.

Inductive charger_provider_context_t :=
| context_charger_disabled | context_charger_detached | context_charger_completed | context_charger_low | context_charger_fast
| context_charger_error | BAD_CONTEXT.

Inductive charger_messages :=
| CHARGER_MESSAGE_ATTACHED | CHARGER_MESSAGE_DETACHED | CHARGER_MESSAGE_COMPLETED | CHARGER_MESSAGE_CHARGING_OK
| CHARGER_MESSAGE_CHARGING_LOW | CHARGER_MESSAGE_DISABLED | CHARGER_MESSAGE_ERROR.

(** The keys of ChargerConfigure. *)
Inductive charger_key :=
| CHARGER_ENABLE | CHARGER_FAST_CURRENT | CHARGER_TRICKLE_CURRENT | CHARGER_PRE_CURRENT | CHARGER_ITERM_CTRL | CHARGER_EXTERNAL_RESISTOR
| CHARGER_USE_EXTERNAL_RESISTOR_FOR_FAST_CHARGE | CHARGER_PRE_FAST_THRESHOLD | CHARGER_TERM_VOLTAGE | CHARGER_STANDBY_FAST_HYSTERESIS
| CHARGER_STATE_CHANGE_DEBOUNCE.
#[export] Instance charger_key_dec : EqDecision charger_key.
Proof. solve_decision. Defined.

Inductive charger_timer := CHARGER_INTERNAL_CHARGE_TIMEOUT | CHARGER_INTERNAL_RE_ENABLE_TIMEOUT | CHARGER_INTERNAL_DISABLE_AFTER_CHARGED.

(** What the monitor asks for; ChargerConfigure takes every value, or the
    firmware panics. *)
Inductive charger_out :=
| CHARGER_CONFIGURE (key : charger_key) (value : Z)
| CHARGER_NOTIFY (tasks : list Z) (m : charger_messages)
| CHARGER_SEND (task : Z) (m : charger_messages)
| CHARGER_UI_CONTEXT (c : charger_provider_context_t)
| CHARGER_CANCEL (t : charger_timer)
| CHARGER_LATER (t : charger_timer) (delay : Z)
| CHARGER_PSU (vbat : Z)
| CHARGER_REGISTRATIONS.

Inductive charger_msg :=
| CHARGER_TIMEOUT (t : charger_timer)
| MESSAGE_CHARGER_DETECTED
| MESSAGE_CHARGER_CHANGED (charger_connected : bool)
| MESSAGE_CHARGER_STATUS (chg_status : charger_status)
| CHARGER_BATTERY_LEVEL (voltage_mv : Z)
| CHARGER_MSG_OTHER.

(** [chargerTaskData] with the client list. *)
Record chargerTaskData := mkcharger {
  is_connected : Z;
  is_enabled : bool;
  force_allow_power_off : bool;
  disallow_dormant : bool;
  test_mode : bool;
  ext_mode_enabled : bool;
  fast_current : Z;
  max_supported_current : Z;
  power_source_vbat : Z;
  status : charger_status;
  disable_reason : Z;
  charger_client_tasks : list Z }.
#[export] Instance charger_eta : RecordEta chargerTaskData := fun r =>
  mkcharger (is_connected r) (is_enabled r) (force_allow_power_off r) (disallow_dormant r) (test_mode r) (ext_mode_enabled r) (fast_current r)
    (max_supported_current r) (power_source_vbat r) (status r) (disable_reason r) (charger_client_tasks r).

(** The statics before Charger_Init. *)
Definition charger_zero : chargerTaskData := mkcharger 0 false false false false false 0 0 0 STATUS_OTHER 0 [].

(** What the build defines, and a constant of the SDK. *)
Class ChargerBuild := {
  FAST_CHARGE_EXTERNAL_RESISTOR : Z;
  CHARGER_HJC_11Be : bool;
  CHARGER_STANDBY_FAST_HYSTERESIS_MILLIVOLT_250 : Z }.
Definition charger_release : ChargerBuild := {|
  FAST_CHARGE_EXTERNAL_RESISTOR := 68; CHARGER_HJC_11Be := false;
  CHARGER_STANDBY_FAST_HYSTERESIS_MILLIVOLT_250 := 250 |}.
Definition charger_debug : ChargerBuild := {|
  FAST_CHARGE_EXTERNAL_RESISTOR := 0; CHARGER_HJC_11Be := true;
  CHARGER_STANDBY_FAST_HYSTERESIS_MILLIVOLT_250 := 250 |}.

(** * Steps

    A step gives the new state and what it asked for, in order. *)
Definition chg : Type := chargerTaskData -> chargerTaskData * list charger_out.
Definition chg_skip : chg := fun d => (d, []).
Definition chg_emit (o : charger_out) : chg := fun d => (d, [o]).
Definition chg_set (f : chargerTaskData -> chargerTaskData) : chg := fun d => (f d, []).
Definition chg_seq (a b : chg) : chg := fun d => let r := a d in let s := b (fst r) in (fst s, snd r ++ snd s).
Definition chg_if (c : chargerTaskData -> bool) (a b : chg) : chg := fun d => if c d then a d else b d.
Declare Scope chg_scope.
Notation "a ;; b" := (chg_seq a b) (at level 100, b at level 200, right associativity) : chg_scope.
Delimit Scope chg_scope with chg.
Open Scope chg_scope.

(** * The file *)
Section charger.
Context `{ChargerBuild} `{RegionBuild}.

(** Defined with HJC_11Be. *)
Definition ENABLE_CHARGER_HYSTERESIS_SW : bool := CHARGER_HJC_11Be.

Definition charger_HasCompleted (d : chargerTaskData) : bool := disable_reason d =? CHARGER_DISABLE_REASON_CHARGED.
Definition Charger_IsConnected (d : chargerTaskData) : bool := negb (is_connected d =? 0).
Definition Charger_IsEnabled (d : chargerTaskData) : bool := is_enabled d.

Definition appChargerCurrentContext (d : chargerTaskData) : charger_provider_context_t :=
  if Charger_IsConnected d then
    if Charger_IsEnabled d then
      match status d with
      | TRICKLE_CHARGE | PRE_CHARGE => context_charger_low
      | FAST_CHARGE => context_charger_fast
      | STANDBY => context_charger_completed
      | VBAT_OVERVOLT_ERROR | HEADROOM_ERROR | DISABLED_ERROR => context_charger_error
      | _ => BAD_CONTEXT
      end
    else if ENABLE_CHARGER_HYSTERESIS_SW && charger_HasCompleted d then context_charger_completed else context_charger_disabled
  else context_charger_detached.

Definition charger_StatusMessageId (s : charger_status) : charger_messages :=
  match s with
  | TRICKLE_CHARGE | PRE_CHARGE => CHARGER_MESSAGE_CHARGING_LOW
  | FAST_CHARGE => CHARGER_MESSAGE_CHARGING_OK
  | STANDBY => CHARGER_MESSAGE_COMPLETED
  | VBAT_OVERVOLT_ERROR | HEADROOM_ERROR => CHARGER_MESSAGE_ERROR
  | _ => CHARGER_MESSAGE_DISABLED
  end.

Definition Charger_Enable : chg := chg_set (fun d => d <| is_enabled := true |>);; chg_emit (CHARGER_CONFIGURE CHARGER_ENABLE 1).
Definition Charger_Disable : chg :=
  chg_set (fun d => d <| is_enabled := false |>);; chg_emit (CHARGER_CONFIGURE CHARGER_ENABLE 0);;
  chg_emit (CHARGER_CANCEL CHARGER_INTERNAL_CHARGE_TIMEOUT).

Definition Charger_DisableReasonClear (reason : Z) : chg :=
  chg_if (fun d => negb (reason =? 0) && negb (disable_reason d =? 0))
    (chg_set (fun d => d <| disable_reason := Z.ldiff (disable_reason d) reason |>);;
     chg_if (fun d => disable_reason d =? 0) Charger_Enable chg_skip)
    chg_skip.

(** Its first part. *)
Definition reason_set (reason : Z) : chg :=
  chg_if (fun d => disable_reason d =? 0) Charger_Disable chg_skip;;
  chg_set (fun d => d <| disable_reason := Z.lor (disable_reason d) reason |>).

Definition Charger_DisableReasonAdd (reason : Z) : chg :=
  chg_if (fun _ => negb (reason =? 0)) (reason_set reason) chg_skip;;
  chg_if (fun _ => ENABLE_CHARGER_HYSTERESIS_SW && negb (reason =? CHARGER_DISABLE_REASON_CHARGED))
    (Charger_DisableReasonClear CHARGER_DISABLE_REASON_CHARGED) chg_skip.

Definition Charger_Error : chg :=
  Charger_DisableReasonAdd CHARGER_DISABLE_REASON_ERROR;; chg_emit (CHARGER_CANCEL CHARGER_INTERNAL_RE_ENABLE_TIMEOUT);;
  chg_emit (CHARGER_LATER CHARGER_INTERNAL_RE_ENABLE_TIMEOUT appConfigChargerReEnableTimeoutMs).

Definition Charger_NotifyClients (m : charger_messages) : chg := fun d => (d, [CHARGER_NOTIFY (charger_client_tasks d) m]).

(** The current is a field of 12 bits. *)
Definition u12 (x : Z) : Z := x mod 4096.

(** External mode is switched on and off while the charger is disabled. *)
Definition external_mode (on : bool) : chg :=
  Charger_DisableReasonAdd CHARGER_DISABLE_REASON_INTERNAL;;
  chg_emit (CHARGER_CONFIGURE CHARGER_USE_EXTERNAL_RESISTOR_FOR_FAST_CHARGE (if on then 1 else 0));;
  chg_set (fun d => d <| ext_mode_enabled := on |>).

Definition has_resistor : bool := negb (FAST_CHARGE_EXTERNAL_RESISTOR =? 0).

Definition charger_SetFastCurrent (current : Z) : chg :=
  let high := appConfigChargerInternalMaxCurrent <? current in
  let current' := if high && negb has_resistor then appConfigChargerInternalMaxCurrent else current in
  chg_if (fun _ => current =? 0) (Charger_DisableReasonAdd CHARGER_DISABLE_REASON_ZERO_CURRENT) chg_skip;;
  chg_if (fun d => has_resistor && (if high then negb (ext_mode_enabled d) else ext_mode_enabled d)) (external_mode high) chg_skip;;
  chg_emit (CHARGER_CONFIGURE CHARGER_FAST_CURRENT current');;
  chg_set (fun d => d <| fast_current := u12 current' |>);;
  chg_if (fun _ => has_resistor) (Charger_DisableReasonClear CHARGER_DISABLE_REASON_INTERNAL) chg_skip;;
  chg_if (fun _ => negb (current' =? 0)) (Charger_DisableReasonClear CHARGER_DISABLE_REASON_ZERO_CURRENT) chg_skip.

(** [region_current] is BatteryRegion_GetCurrent(). *)
Definition Charger_UpdateCurrent (region_current : Z) : chg := fun d =>
  let current := Z.min region_current (max_supported_current d) in
  if negb (fast_current d =? current) then charger_SetFastCurrent (u16 current) d else (d, []).

Definition Charger_HandleChange : chg := fun d =>
  if negb (Charger_IsConnected d) then (d <| power_source_vbat := 1 |>, [])
  else if negb (power_source_vbat d =? 0) then (d <| power_source_vbat := 0 |>, [CHARGER_PSU 0]) else (d, []).

Definition Charger_UpdateConnected (region_current : Z) (charger_is_connected : bool) : chg := fun d =>
  let new_is_connected := if charger_is_connected then 1 else 0 in
  if is_connected d =? new_is_connected then (d, [])
  else
    (chg_set (fun d => d <| is_connected := new_is_connected |>);;
     (if charger_is_connected
      then Charger_UpdateCurrent region_current;; Charger_DisableReasonClear CHARGER_DISABLE_REASON_NOT_CONNECTED
      else
        Charger_DisableReasonAdd CHARGER_DISABLE_REASON_NOT_CONNECTED;;
        Charger_DisableReasonClear CHARGER_DISABLE_REASON_TIMEOUT;;
        (if ENABLE_CHARGER_HYSTERESIS_SW
         then chg_emit (CHARGER_CANCEL CHARGER_INTERNAL_DISABLE_AFTER_CHARGED);; Charger_DisableReasonClear CHARGER_DISABLE_REASON_CHARGED
         else chg_skip));;
     Charger_HandleChange;;
     Charger_NotifyClients (if charger_is_connected then CHARGER_MESSAGE_ATTACHED else CHARGER_MESSAGE_DETACHED)) d.

Definition appConfigChargerFastChargeTimeoutMs : Z := if CF133_BATT then D_MIN 15 else D_MIN 0.
Definition appConfigChargerPreChargeTimeoutMs : Z := if CF133_BATT then D_MIN 5 else D_MIN 0.

(** The hardware cannot supply the current: try with less, or treat it as an
    error. *)
Definition charger_out_of_range (region_current : Z) : chg :=
  chg_if (fun d => appConfigChargerInternalMaxCurrent <? fast_current d)
    (chg_set (fun d => d <| max_supported_current := u12 (fast_current d - 50) |>);;
     Charger_UpdateCurrent region_current;;
     Charger_DisableReasonAdd CHARGER_DISABLE_REASON_INTERNAL;;
     Charger_DisableReasonClear CHARGER_DISABLE_REASON_INTERNAL)
    Charger_Error.

Definition Charger_StatusChanged (region_current : Z) (chg_status : charger_status) : chg := fun d0 =>
  let old_status := status d0 in
  let timeout := match chg_status with
                 | FAST_CHARGE => appConfigChargerFastChargeTimeoutMs
                 | PRE_CHARGE => appConfigChargerPreChargeTimeoutMs
                 | _ => 0
                 end in
  (chg_set (fun d => d <| status := chg_status |>);;
   chg_emit (CHARGER_CANCEL CHARGER_INTERNAL_DISABLE_AFTER_CHARGED);;
   match chg_status with
   | DISABLED_ERROR =>
     chg_if (fun d => ENABLE_CHARGER_HYSTERESIS_SW && charger_HasCompleted d) (chg_set (fun d => d <| status := STANDBY |>)) chg_skip
   | STANDBY =>
     chg_if (fun _ => ENABLE_CHARGER_HYSTERESIS_SW)
       (chg_emit (CHARGER_LATER CHARGER_INTERNAL_DISABLE_AFTER_CHARGED appConfigChargerDisableAfterStandbyTimeoutMs)) chg_skip
   | HEADROOM_ERROR | VBAT_OVERVOLT_ERROR => Charger_Error
   | CONFIG_FAIL_VALUES_OUT_OF_RANGE => charger_out_of_range region_current
   | _ => chg_skip
   end;;
   chg_if (fun d => negb (bool_decide (old_status = status d)))
     (fun d => (Charger_NotifyClients (charger_StatusMessageId (status d));; chg_emit (CHARGER_UI_CONTEXT (appChargerCurrentContext d))) d) chg_skip;;
   chg_emit (CHARGER_CANCEL CHARGER_INTERNAL_CHARGE_TIMEOUT);;
   chg_if (fun _ => negb (timeout =? 0)) (chg_emit (CHARGER_LATER CHARGER_INTERNAL_CHARGE_TIMEOUT timeout)) chg_skip) d0.

Definition Charger_HandleBatteryLevelUpdate (battery_voltage : Z) : chg :=
  chg_if (fun _ => appConfigChargerStandbyFastVoltageHysteresis <=? Vfloat - battery_voltage)
    (Charger_DisableReasonClear CHARGER_DISABLE_REASON_CHARGED) chg_skip.

Definition charger_HandleMessage (region_current : Z) (m : charger_msg) : chg :=
  match m with
  | CHARGER_TIMEOUT CHARGER_INTERNAL_CHARGE_TIMEOUT => Charger_DisableReasonAdd CHARGER_DISABLE_REASON_TIMEOUT
  | CHARGER_TIMEOUT CHARGER_INTERNAL_RE_ENABLE_TIMEOUT => Charger_DisableReasonClear CHARGER_DISABLE_REASON_ERROR
  | CHARGER_TIMEOUT CHARGER_INTERNAL_DISABLE_AFTER_CHARGED =>
    if ENABLE_CHARGER_HYSTERESIS_SW then Charger_DisableReasonAdd CHARGER_DISABLE_REASON_CHARGED else chg_skip
  | MESSAGE_CHARGER_DETECTED => chg_skip
  | MESSAGE_CHARGER_CHANGED connected => chg_if test_mode chg_skip (Charger_UpdateConnected region_current connected)
  | MESSAGE_CHARGER_STATUS s => chg_if test_mode chg_skip (Charger_StatusChanged region_current s)
  | CHARGER_BATTERY_LEVEL mv => if ENABLE_CHARGER_HYSTERESIS_SW then Charger_HandleBatteryLevelUpdate mv else chg_skip
  | CHARGER_MSG_OTHER => chg_skip
  end.

Definition charger_ConfigureCharger : chg :=
  chg_emit (CHARGER_CONFIGURE CHARGER_TRICKLE_CURRENT appConfigChargerTrickleCurrent);;
  chg_emit (CHARGER_CONFIGURE CHARGER_PRE_CURRENT appConfigChargerPreCurrent);;
  chg_emit (CHARGER_CONFIGURE CHARGER_ITERM_CTRL appConfigChargerTerminationCurrent);;
  chg_if (fun _ => has_resistor) (chg_emit (CHARGER_CONFIGURE CHARGER_EXTERNAL_RESISTOR FAST_CHARGE_EXTERNAL_RESISTOR)) chg_skip;;
  charger_SetFastCurrent 0;;
  chg_emit (CHARGER_CONFIGURE CHARGER_PRE_FAST_THRESHOLD Vfast);;
  chg_emit (CHARGER_CONFIGURE CHARGER_TERM_VOLTAGE Vfloat);;
  chg_emit (CHARGER_CONFIGURE CHARGER_STANDBY_FAST_HYSTERESIS
    (if ENABLE_CHARGER_HYSTERESIS_SW then CHARGER_STANDBY_FAST_HYSTERESIS_MILLIVOLT_250 else appConfigChargerStandbyFastVoltageHysteresis));;
  chg_emit (CHARGER_CONFIGURE CHARGER_STATE_CHANGE_DEBOUNCE appConfigChargerStateChangeDebounce).

(** [connected] is whether the hardware has power: Charger_Status() != NO_POWER. *)
Definition Charger_Init (region_current : Z) (connected : bool) : chg :=
  chg_set (fun d => d <| status := ENABLE_FAIL_UNKNOWN |> <| is_connected := CHARGER_CONNECTION_UNKNOWN |>
                      <| max_supported_current := u12 appConfigChargerFastCurrent |> <| power_source_vbat := 1 |>);;
  Charger_DisableReasonAdd CHARGER_DISABLE_REASON_NOT_CONNECTED;;
  charger_ConfigureCharger;;
  Charger_UpdateConnected region_current connected;;
  chg_emit CHARGER_REGISTRATIONS.

(** The debug build stops and restarts the charging timer of the regions as
    well. *)
Definition Charger_ForceDisable : chg := Charger_DisableReasonAdd CHARGER_DISABLE_REASON_REQUEST.
Definition Charger_ForceDisable_regions : list region_out := if CHARGER_HJC_11Be then forced_stop_charging_timer else [].
Definition Charger_RestoreState : chg := Charger_DisableReasonClear CHARGER_DISABLE_REASON_REQUEST.
Definition Charger_RestoreState_regions : list region_out := if CHARGER_HJC_11Be then forced_restart_charging_timer else [].

Definition Charger_IsCharging (d : chargerTaskData) : bool :=
  Charger_IsConnected d && Charger_IsEnabled d && match status d with TRICKLE_CHARGE | FAST_CHARGE | PRE_CHARGE => true | _ => false end.

Definition Charger_ForceAllowPowerOff (b : bool) : chg := chg_set (fun d => d <| force_allow_power_off := b |>).
Definition Charger_DisallowDormant (b : bool) : chg := chg_set (fun d => d <| disallow_dormant := b |>).
Definition Charger_CanPowerOff (d : chargerTaskData) : bool := force_allow_power_off d || negb (Charger_IsConnected d).
Definition Charger_CanEnterDormant (d : chargerTaskData) : bool :=
  if disallow_dormant d then false else force_allow_power_off d || negb (Charger_IsCharging d).

(** A task that is on the list is not added again. *)
Definition Charger_ClientRegister (task : Z) (d : chargerTaskData) : bool * (chargerTaskData * list charger_out) :=
  if existsb (Z.eqb task) (charger_client_tasks d) then (false, (d, []))
  else (true, (d <| charger_client_tasks ::= fun l => l ++ [task] |>,
               [CHARGER_SEND task (if Charger_IsConnected d then CHARGER_MESSAGE_ATTACHED else CHARGER_MESSAGE_DETACHED);
                CHARGER_SEND task (charger_StatusMessageId (status d))])).
Definition Charger_ClientUnregister (task : Z) : chg := chg_set (fun d => d <| charger_client_tasks ::= remove_task task |>).

(** The hardware's status and connection are passed in. *)
Definition Charger_TestModeControl (region_current : Z) (enabled connected : bool) : chg :=
  if enabled then chg_set (fun d => d <| test_mode := true |>)
  else chg_if test_mode (chg_set (fun d => d <| test_mode := false |>);; Charger_UpdateConnected region_current connected) chg_skip.
Definition Charger_TestChargerConnected (region_current : Z) (connected : bool) : chg :=
  chg_if test_mode (Charger_UpdateConnected region_current connected) chg_skip.
Definition Charger_TestChargerStatus (region_current : Z) (s : charger_status) : chg :=
  chg_if test_mode (Charger_StatusChanged region_current s) chg_skip.

(** * The invariant *)

(** Bit [n] of the reasons. *)
Definition reason_on (n : Z) (d : chargerTaskData) : bool := Z.testbit (disable_reason d) n.
Definition bit_TIMEOUT : Z := 0.
Definition bit_ZERO_CURRENT : Z := 3.
Definition bit_NOT_CONNECTED : Z := 4.

(** Enabled means that there is no reason against it. *)
Definition enabled_ok (d : chargerTaskData) : Prop := 0 <= disable_reason d /\ is_enabled d = (disable_reason d =? 0).

(** A step that changes the reasons by [f] and enables the charger by it. *)
Definition reasons (f : Z -> Z) (a : chg) : Prop :=
  forall d, enabled_ok d -> fst (a d) = d <| disable_reason := f (disable_reason d) |> <| is_enabled := f (disable_reason d) =? 0 |>.

Definition added (r x : Z) : Z :=
  let y := Z.lor x r in
  if ENABLE_CHARGER_HYSTERESIS_SW && negb (r =? CHARGER_DISABLE_REASON_CHARGED) then Z.ldiff y CHARGER_DISABLE_REASON_CHARGED else y.

Lemma charger_same d : enabled_ok d -> d <| disable_reason := disable_reason d |> <| is_enabled := disable_reason d =? 0 |> = d.
Proof. intros [_ He]. destruct d. cbn in *. by rewrite He. Qed.

Lemma reasons_ok f a d : reasons f a -> 0 <= f (disable_reason d) -> enabled_ok d -> enabled_ok (fst (a d)).
Proof. intros Ha Hf Hd. rewrite (Ha d Hd). done. Qed.

Lemma clear_reasons r : r <> 0 -> reasons (fun x => Z.ldiff x r) (Charger_DisableReasonClear r).
Proof.
  intros Hr d [Hp He]. unfold Charger_DisableReasonClear, chg_if. destruct (Z.eqb_spec r 0); [done |].
  destruct (Z.eqb_spec (disable_reason d) 0) as [E | E]; cbn [negb andb].
  - cbn [chg_skip fst]. destruct d. cbn in *. subst. by rewrite Z.ldiff_0_l.
  - unfold chg_seq, chg_set, chg_if. cbn [fst disable_reason field_set]. destruct d. cbn in *. rewrite He.
    destruct (Z.eqb_spec disable_reason0 0); [done |]. by destruct (Z.ldiff disable_reason0 r =? 0).
Qed.

Lemma set_reasons r : 0 < r -> reasons (fun x => Z.lor x r) (reason_set r).
Proof.
  intros Hr d [Hp He]. assert (Z.lor (disable_reason d) r <> 0) as Hne by (intros E; apply Z.lor_eq_0_iff in E; lia).
  unfold reason_set, chg_seq, chg_if, chg_set, Charger_Disable.
  destruct (disable_reason d =? 0) eqn:E; destruct d; cbn in *; subst;
    (destruct (Z.eqb_spec (Z.lor disable_reason0 r) 0); [done |]); by rewrite ?E.
Qed.

Lemma add_reasons r : 0 < r -> reasons (added r) (Charger_DisableReasonAdd r).
Proof.
  intros Hr d Hd. unfold Charger_DisableReasonAdd, added. unfold chg_seq, chg_if. destruct (Z.eqb_spec r 0); [lia |]. cbn [negb fst].
  destruct (ENABLE_CHARGER_HYSTERESIS_SW && _).
  - rewrite clear_reasons; [rewrite !set_reasons by done; by destruct d | done | rewrite set_reasons by done; split; [| done]].
    cbn. apply Z.lor_nonneg. destruct Hd. lia.
  - cbn [chg_skip fst]. by apply set_reasons.
Qed.

Lemma added_bit r x n : 0 <= n -> n <> 5 -> Z.testbit (added r x) n = Z.testbit x n || Z.testbit r n.
Proof.
  intros Hn H5. unfold added. rewrite <- Z.lor_spec. destruct (ENABLE_CHARGER_HYSTERESIS_SW && _); [| done].
  rewrite Z.ldiff_spec. change CHARGER_DISABLE_REASON_CHARGED with (2 ^ 5). rewrite Z.pow2_bits_false by lia. by rewrite andb_true_r.
Qed.

Lemma added_nonneg r x : 0 <= r -> 0 <= x -> 0 <= added r x.
Proof. intros. unfold added. destruct (_ && _); [apply Z.ldiff_nonneg; left |]; apply Z.lor_nonneg; lia. Qed.

(** ** Currents and connection *)

(** The fields in range, with the reason of no connection [nc] and the
    connection [c]. *)
Definition charger_core (nc : bool) (c : Z) (d : chargerTaskData) : Prop :=
  enabled_ok d /\ reason_on bit_NOT_CONNECTED d = nc /\ is_connected d = c /\
  0 <= fast_current d < 4096 /\ 0 <= max_supported_current d < 4096.

(** The charger is off for a current of 0, and the current is one it can
    supply. *)
Definition charger_good (nc : bool) (c : Z) (d : chargerTaskData) : Prop :=
  charger_core nc c d /\ reason_on bit_ZERO_CURRENT d = (fast_current d =? 0) /\ fast_current d <= max_supported_current d /\
  (has_resistor = false -> fast_current d <= appConfigChargerInternalMaxCurrent).

Lemma reasons_core nc c f a d : reasons f a -> (forall x, 0 <= x -> 0 <= f x) -> Z.testbit (f (disable_reason d)) 4 = Z.testbit (disable_reason d) 4 ->
  charger_core nc c d -> charger_core nc c (fst (a d)).
Proof.
  intros Ha Hf Hb (He & Hn & Hc & Hm). pose proof He as [Hp _]. rewrite (Ha d He). split; [split; [by apply Hf | done] |].
  split; [| done]. transitivity (Z.testbit (f (disable_reason d)) 4); [done |]. rewrite Hb. exact Hn.
Qed.

Lemma add_core nc c r d : 0 < r -> Z.testbit r 4 = false -> charger_core nc c d -> charger_core nc c (fst (Charger_DisableReasonAdd r d)).
Proof.
  intros Hr Hb. apply (reasons_core _ _ (added r)); [by apply add_reasons | intros; apply added_nonneg; lia |].
  by rewrite added_bit, Hb, orb_false_r by lia.
Qed.

Lemma clear_core nc c r d : r <> 0 -> Z.testbit r 4 = false -> charger_core nc c d -> charger_core nc c (fst (Charger_DisableReasonClear r d)).
Proof.
  intros Hr Hb. apply (reasons_core _ _ (fun x => Z.ldiff x r)); [by apply clear_reasons | intros; apply Z.ldiff_nonneg; by left |].
  by rewrite Z.ldiff_spec, Hb, andb_true_r.
Qed.

(** The other fields and the other bits. *)
Lemma add_fields r d : 0 < r -> enabled_ok d -> let d' := fst (Charger_DisableReasonAdd r d) in
  fast_current d' = fast_current d /\ max_supported_current d' = max_supported_current d /\ is_connected d' = is_connected d /\
  forall n, 0 <= n -> n <> 5 -> reason_on n d' = reason_on n d || Z.testbit r n.
Proof. intros Hr Hd. rewrite (add_reasons r Hr d Hd). split_and!; try done. intros n Hn H5. by apply added_bit. Qed.

Lemma clear_fields r d : r <> 0 -> enabled_ok d -> let d' := fst (Charger_DisableReasonClear r d) in
  fast_current d' = fast_current d /\ max_supported_current d' = max_supported_current d /\ is_connected d' = is_connected d /\
  forall n, reason_on n d' = reason_on n d && negb (Z.testbit r n).
Proof. intros Hr Hd. rewrite (clear_reasons r Hr d Hd). split_and!; try done. intros n. apply Z.ldiff_spec. Qed.

(** ** Rules for steps *)

(** From [P] the step leads to [Q]. *)
Definition leads_to (P Q : chargerTaskData -> Prop) (a : chg) : Prop := forall d, P d -> Q (fst (a d)).

Lemma leads_seq P Q R a b : leads_to P Q a -> leads_to Q R b -> leads_to P R (a;; b).
Proof. intros Ha Hb d Hd. exact (Hb _ (Ha d Hd)). Qed.
Lemma leads_emit P o : leads_to P P (chg_emit o).
Proof. by intros d Hd. Qed.
Lemma leads_if P Q c a b : leads_to (fun d => P d /\ c d = true) Q a -> leads_to (fun d => P d /\ c d = false) Q b -> leads_to P Q (chg_if c a b).
Proof. intros Ha Hb d Hd. unfold chg_if. destruct (c d) eqn:E; [by apply Ha | by apply Hb]. Qed.
Lemma leads_skip P Q : (forall d, P d -> Q d) -> leads_to P Q chg_skip.
Proof. intros HP d Hd. by apply HP. Qed.

Lemma set_fast_good nc c current m : 0 <= current <= m ->
  leads_to (fun d => charger_core nc c d /\ max_supported_current d = m)
    (fun d => charger_good nc c d /\ max_supported_current d = m /\ fast_current d <= current) (charger_SetFastCurrent current).
Proof.
  intros Hcm. set (P := fun d => charger_core nc c d /\ max_supported_current d = m).
  set (Q := fun d => P d /\ (current = 0 -> reason_on bit_ZERO_CURRENT d = true)).
  unfold charger_SetFastCurrent. set (high := appConfigChargerInternalMaxCurrent <? current).
  set (c' := if high && negb has_resistor then appConfigChargerInternalMaxCurrent else current).
  assert (0 <= c' <= current /\ (c' = 0 <-> current = 0) /\ (has_resistor = false -> c' <= 200)) as (Hc' & Hz & Hr).
  { subst c' high. unfold appConfigChargerInternalMaxCurrent. destruct (Z.ltb_spec 200 current), has_resistor; cbn [andb negb]; lia || (split_and!; done || lia). }
  assert (forall r, 0 < r -> Z.testbit r 4 = false -> leads_to Q Q (Charger_DisableReasonAdd r)) as Hadd.
  { intros r Hr0 H4 d [[Hd Hm] Hq]. destruct (add_fields r d Hr0 (proj1 Hd)) as (_ & E & _ & Hbits). split; [split; [by apply add_core | by rewrite E] |].
    intros H0'. by rewrite Hbits, Hq by done. }
  apply leads_seq with Q.
  { apply leads_if; [| apply leads_skip; intros d [Hd Hne%Z.eqb_neq]; by split]. intros d [[Hd Hm] _].
    destruct (add_fields CHARGER_DISABLE_REASON_ZERO_CURRENT d ltac:(done) (proj1 Hd)) as (_ & E & _ & Hbits).
    split; [split; [by apply add_core | by rewrite E] |]. intros _. rewrite Hbits by done. apply orb_true_r. }
  apply leads_seq with Q.
  { apply leads_if; [| apply leads_skip; by intros d [Hd _]]. unfold external_mode. apply leads_seq with Q; [intros d [Hd _]; by apply Hadd |].
    apply leads_seq with Q; [apply leads_emit |]. by intros d Hd. }
  apply leads_seq with Q; [apply leads_emit |].
  apply leads_seq with (fun d => Q d /\ fast_current d = c').
  { intros d [[Hd Hm] Hq]. cbn [chg_set fst fast_current field_set]. destruct Hd as (He & Hn & Hcon & Hf & Hmax).
    assert (u12 c' = c') as -> by (apply Z.mod_small; lia). split; [| done]. split; [| exact Hq]. split; [| exact Hm].
    split_and!; try done; cbn; lia. }
  apply leads_seq with (fun d => Q d /\ fast_current d = c').
  { apply leads_if; [| apply leads_skip; by intros d [Hd _]]. intros d [[[[Hd Hm] Hq] Hf] _].
    destruct (clear_fields CHARGER_DISABLE_REASON_INTERNAL d ltac:(done) (proj1 Hd)) as (E1 & E2 & _ & Hbits).
    split; [split; [split; [by apply clear_core | by rewrite E2] |] | by rewrite E1]. intros H0'. by rewrite Hbits, Hq. }
  apply leads_if.
  - intros d [[[[Hd Hm] Hq] Hf] Hne]. apply negb_true_iff, Z.eqb_neq in Hne.
    destruct (clear_fields CHARGER_DISABLE_REASON_ZERO_CURRENT d ltac:(done) (proj1 Hd)) as (E1 & E2 & _ & Hbits).
    split; [| rewrite E1, E2; split; [done | lia]]. split; [by apply clear_core |]. rewrite Hbits, E1, E2.
    split; [| split; [lia | intros Hnr; specialize (Hr Hnr); unfold appConfigChargerInternalMaxCurrent; lia]]. rewrite andb_false_r. symmetry. apply Z.eqb_neq. lia.
  - apply leads_skip. intros d [[[[Hd Hm] Hq] Hf] He]. apply negb_false_iff, Z.eqb_eq in He. split; [| split; [done | lia]].
    split; [done |]. split; [| split; [lia | intros Hnr; specialize (Hr Hnr); unfold appConfigChargerInternalMaxCurrent; lia]]. rewrite Hq by tauto. symmetry. apply Z.eqb_eq. lia.
Qed.

(** An update of the current: what the regions allow, or less. *)
Lemma update_good nc c rc : 0 <= rc ->
  leads_to (fun d => charger_core nc c d /\ (fast_current d <= max_supported_current d -> charger_good nc c d))
    (fun d => charger_good nc c d /\ fast_current d <= rc) (Charger_UpdateCurrent rc).
Proof.
  intros Hrc d [Hd Hg]. unfold Charger_UpdateCurrent. pose proof Hd as (_ & _ & _ & Hf & Hm).
  destruct (Z.eqb_spec (fast_current d) (Z.min rc (max_supported_current d))) as [E | E]; cbn [negb fst].
  - split; [apply Hg |]; lia.
  - rewrite u16_small by rlia.
    destruct (set_fast_good nc c (Z.min rc (max_supported_current d)) (max_supported_current d) ltac:(lia) d (conj Hd eq_refl)) as (H1 & _ & H2).
    split; [exact H1 | lia].
Qed.

Lemma update_from_good nc c rc : 0 <= rc ->
  leads_to (charger_good nc c) (fun d => charger_good nc c d /\ fast_current d <= rc) (Charger_UpdateCurrent rc).
Proof. intros Hrc d Hd. apply (update_good nc c rc Hrc). split; [apply Hd | done]. Qed.

(** Reasons that are not of the current nor of the connection. *)
Definition plain (r : Z) : Prop := 0 < r /\ Z.testbit r bit_ZERO_CURRENT = false /\ Z.testbit r 4 = false.

Lemma add_good nc c r : plain r -> forall rc,
  leads_to (fun d => charger_good nc c d /\ fast_current d <= rc) (fun d => charger_good nc c d /\ fast_current d <= rc) (Charger_DisableReasonAdd r).
Proof.
  intros (Hr & H3 & H4) rc d [(Hd & Hz & Hf & Hn) Hrc]. destruct (add_fields r d Hr (proj1 Hd)) as (E1 & E2 & _ & Hb).
  rewrite E1. split; [| done]. split; [by apply add_core |]. rewrite E1, E2. split; [| done]. by rewrite Hb, H3, orb_false_r.
Qed.

Lemma clear_good nc c r : plain r -> forall rc,
  leads_to (fun d => charger_good nc c d /\ fast_current d <= rc) (fun d => charger_good nc c d /\ fast_current d <= rc) (Charger_DisableReasonClear r).
Proof.
  intros (Hr & H3 & H4) rc d [(Hd & Hz & Hf & Hn) Hrc]. assert (r <> 0) as Hr0 by lia.
  destruct (clear_fields r d Hr0 (proj1 Hd)) as (E1 & E2 & _ & Hb).
  rewrite E1. split; [| done]. split; [by apply clear_core |]. rewrite E1, E2. split; [| done]. by rewrite Hb, H3, andb_true_r.
Qed.

(** * The states between messages *)

(** Connected or not; off for no connection, off for no current, and on for
    no reason; and the current is one the regions allowed, [rc] or less. *)
Definition charger_inv (rc : Z) (d : chargerTaskData) : Prop :=
  (exists c, (c = 0 \/ c = 1) /\ charger_good (c =? 0) c d) /\ fast_current d <= rc.

Lemma inv_step rc a : (forall nc c, leads_to (fun d => charger_good nc c d /\ fast_current d <= rc) (fun d => charger_good nc c d /\ fast_current d <= rc) a) ->
  leads_to (charger_inv rc) (charger_inv rc) a.
Proof. intros Ha d [(c & Hc & Hd) Hrc]. destruct (Ha _ _ d (conj Hd Hrc)) as [H1 H2]. split; [by exists c | exact H2]. Qed.

Lemma update_inv rc rc' : 0 <= rc' -> leads_to (charger_inv rc) (charger_inv rc') (Charger_UpdateCurrent rc').
Proof. intros Hrc d [(c & Hc & Hd) _]. destruct (update_from_good _ _ rc' Hrc d Hd) as [H1 H2]. split; [by exists c | exact H2]. Qed.

Lemma inv_fields rc d d' : charger_inv rc d -> is_connected d' = is_connected d -> is_enabled d' = is_enabled d -> disable_reason d' = disable_reason d ->
  fast_current d' = fast_current d -> max_supported_current d' = max_supported_current d -> charger_inv rc d'.
Proof.
  intros H1 E1 E2 E3 E4 E5. unfold charger_inv, charger_good, charger_core, enabled_ok, reason_on in *. by rewrite E1, E2, E3, E4, E5.
Qed.

Lemma plain_timeout : plain CHARGER_DISABLE_REASON_TIMEOUT.
Proof. done. Qed.
Lemma plain_request : plain CHARGER_DISABLE_REASON_REQUEST.
Proof. done. Qed.
Lemma plain_error : plain CHARGER_DISABLE_REASON_ERROR.
Proof. done. Qed.
Lemma plain_charged : plain CHARGER_DISABLE_REASON_CHARGED.
Proof. done. Qed.
Lemma plain_internal : plain CHARGER_DISABLE_REASON_INTERNAL.
Proof. done. Qed.

(** ** Connection *)
Lemma connection_good b nc c rc :
  leads_to (fun d => charger_good nc c d /\ fast_current d <= rc) (fun d => charger_good b c d /\ fast_current d <= rc)
    (if b then Charger_DisableReasonAdd CHARGER_DISABLE_REASON_NOT_CONNECTED else Charger_DisableReasonClear CHARGER_DISABLE_REASON_NOT_CONNECTED).
Proof.
  intros d [(Hd & Hz & Hf & Hn) Hrc]. pose proof Hd as (He & Hb & Hc & Hr). destruct b.
  - destruct (add_fields CHARGER_DISABLE_REASON_NOT_CONNECTED d ltac:(done) He) as (E1 & E2 & E3 & Hbits).
    rewrite E1. split; [| done]. split; [| rewrite E1, E2; split; [by rewrite Hbits, orb_false_r | done]].
    split; [apply (reasons_ok (added 16)); [by apply add_reasons | apply added_nonneg; [done | apply He] | done] |].
    split; [rewrite Hbits by done; apply orb_true_r |]. by rewrite E1, E2, E3.
  - destruct (clear_fields CHARGER_DISABLE_REASON_NOT_CONNECTED d ltac:(done) He) as (E1 & E2 & E3 & Hbits).
    rewrite E1. split; [| done]. split; [| rewrite E1, E2; split; [by rewrite Hbits, andb_true_r | done]].
    split; [apply (reasons_ok (fun x => Z.ldiff x 16)); [by apply clear_reasons | apply Z.ldiff_nonneg; left; apply He | done] |].
    split; [rewrite Hbits; apply andb_false_r |]. by rewrite E1, E2, E3.
Qed.

Lemma connect_inv nc c rc R b : 0 <= rc <= R -> (c = 0 /\ nc = true \/ c = 1 /\ nc = false \/ c = 2 /\ nc = true) ->
  leads_to (fun d => charger_good nc c d /\ fast_current d <= R) (charger_inv R) (Charger_UpdateConnected rc b).
Proof.
  intros Hrc Hnc d [Hd Hf]. unfold Charger_UpdateConnected. pose proof Hd as ((_ & _ & Hc & _) & _). rewrite Hc.
  destruct (Z.eqb_spec c (if b then 1 else 0)) as [E | E].
  { cbn [fst]. split; [| done]. exists c. destruct b; (split; [lia |]); destruct Hnc as [[-> ->] | [[-> ->] | [-> ->]]]; done. }
  set (c' := if b then 1 else 0).
  refine (leads_seq (fun d => charger_good nc c d /\ fast_current d <= R) (fun d => charger_good nc c' d /\ fast_current d <= R) _ _ _ _ _ d (conj Hd Hf)).
  { intros d0 [((He & Hb & _ & Hr) & Hrest) Hf0]. split; [split; [exact (conj He (conj Hb (conj eq_refl Hr))) | exact Hrest] | exact Hf0]. }
  apply leads_seq with (fun d => charger_good (c' =? 0) c' d /\ fast_current d <= R).
  - unfold c'. destruct b.
    + apply leads_seq with (fun d => charger_good nc 1 d /\ fast_current d <= R); [| exact (connection_good false nc 1 R)].
      intros d0 [Hd0 _]. destruct (update_from_good nc 1 rc ltac:(lia) d0 Hd0) as [H1 H2]. split; [exact H1 | lia].
    + apply leads_seq with (fun d => charger_good true 0 d /\ fast_current d <= R); [exact (connection_good true nc 0 R) |].
      apply leads_seq with (fun d => charger_good true 0 d /\ fast_current d <= R); [apply clear_good, plain_timeout |].
      destruct ENABLE_CHARGER_HYSTERESIS_SW; [| by apply leads_skip].
      apply leads_seq with (fun d => charger_good true 0 d /\ fast_current d <= R); [apply leads_emit | apply clear_good, plain_charged].
  - assert (forall d, charger_good (c' =? 0) c' d /\ fast_current d <= R -> charger_inv R d) as Hinv
      by (intros d0 [H1 H2]; split; [exists c'; split; [subst c'; destruct b; auto | done] | done]).
    apply leads_seq with (charger_inv R); [| by intros d0 Hd0].
    intros d0 Hd0. apply Hinv in Hd0. unfold Charger_HandleChange.
    destruct (negb (Charger_IsConnected d0)); [| destruct (negb _)]; cbn [fst]; exact (inv_fields R d0 _ Hd0 eq_refl eq_refl eq_refl eq_refl eq_refl) || exact Hd0.
Qed.

Lemma connected_inv rc R b : 0 <= rc <= R -> leads_to (charger_inv R) (charger_inv R) (Charger_UpdateConnected rc b).
Proof.
  intros Hrc d [(c & Hc & Hd) Hf]. apply (connect_inv (c =? 0) c rc R b Hrc); [| done]. destruct Hc as [-> | ->]; auto.
Qed.

(** ** Status *)
Lemma add_inv rc r : plain r -> leads_to (charger_inv rc) (charger_inv rc) (Charger_DisableReasonAdd r).
Proof. intros Hr. apply inv_step. intros nc c. by apply add_good. Qed.
Lemma clear_inv rc r : plain r -> leads_to (charger_inv rc) (charger_inv rc) (Charger_DisableReasonClear r).
Proof. intros Hr. apply inv_step. intros nc c. by apply clear_good. Qed.

Lemma error_inv rc : leads_to (charger_inv rc) (charger_inv rc) Charger_Error.
Proof. apply leads_seq with (charger_inv rc); [apply add_inv, plain_error | by intros d Hd]. Qed.

Lemma out_of_range_inv rc R : 0 <= rc <= R -> leads_to (charger_inv R) (charger_inv R) (charger_out_of_range rc).
Proof.
  intros Hrc. apply leads_if; [| intros d [Hd _]; by apply (error_inv R)].
  apply leads_seq with (fun d => exists c, (c = 0 \/ c = 1) /\ charger_core (c =? 0) c d /\ max_supported_current d < fast_current d).
  { intros d [[(c & Hc & ((He & Hb & Hi & Hfr & Hmr) & _)) _] Hhigh%Z.ltb_lt]. exists c. split; [exact Hc |].
    unfold appConfigChargerInternalMaxCurrent in Hhigh. cbn [chg_set fst].
    assert (u12 (fast_current d - 50) = fast_current d - 50) as E by (apply Z.mod_small; lia).
    rewrite !E. unfold charger_core. cbn [max_supported_current fast_current field_set]. split; [| lia].
    split; [exact He |]. split; [exact Hb |]. split; [exact Hi | lia]. }
  apply leads_seq with (charger_inv R).
  { intros d (c & Hc & Hd & Hlt). assert (fast_current d <= max_supported_current d -> charger_good (c =? 0) c d) as Hx by (intros; exfalso; lia).
    destruct (update_good _ _ rc ltac:(lia) d (conj Hd Hx)) as [H1 H2]. split; [by exists c | lia]. }
  apply leads_seq with (charger_inv R); [apply add_inv, plain_internal | apply clear_inv, plain_internal].
Qed.

Lemma status_inv rc R s : 0 <= rc <= R -> leads_to (charger_inv R) (charger_inv R) (Charger_StatusChanged rc s).
Proof.
  intros Hrc d Hd. unfold Charger_StatusChanged.
  refine (leads_seq (charger_inv R) (charger_inv R) _ _ _ _ _ d Hd); [intros d0 Hd0; exact (inv_fields R d0 _ Hd0 eq_refl eq_refl eq_refl eq_refl eq_refl) |].
  apply leads_seq with (charger_inv R); [apply leads_emit |]. apply leads_seq with (charger_inv R).
  - destruct s; try (by intros d0 Hd0); try (exact (error_inv R)); [| | exact (out_of_range_inv rc R Hrc)].
    + apply leads_if; intros d0 [Hd0 _]; [exact (inv_fields R d0 _ Hd0 eq_refl eq_refl eq_refl eq_refl eq_refl) | exact Hd0].
    + apply leads_if; by intros d0 [Hd0 _].
  - apply leads_seq with (charger_inv R); [apply leads_if; by intros d0 [Hd0 _] |].
    apply leads_seq with (charger_inv R); [apply leads_emit |]. apply leads_if; by intros d0 [Hd0 _].
Qed.

Lemma charger_message_inv rc R m : 0 <= rc <= R -> leads_to (charger_inv R) (charger_inv R) (charger_HandleMessage rc m).
Proof.
  intros Hrc. destruct m as [[] | | b | s | mv |]; cbn [charger_HandleMessage]; try (by intros d Hd).
  - apply add_inv, plain_timeout.
  - apply clear_inv, plain_error.
  - destruct ENABLE_CHARGER_HYSTERESIS_SW; [apply add_inv, plain_charged | by intros d Hd].
  - apply leads_if; intros d [Hd _]; [done | by apply connected_inv].
  - apply leads_if; intros d [Hd _]; [done | by apply status_inv].
  - destruct ENABLE_CHARGER_HYSTERESIS_SW; [| by intros d Hd]. apply leads_if; intros d [Hd _]; [| done]. by apply (clear_inv R _ plain_charged).
Qed.

Lemma charger_init_inv rc b : 0 <= rc -> charger_inv rc (fst (Charger_Init rc b charger_zero)).
Proof.
  intros Hrc. set (m := u12 appConfigChargerFastCurrent). assert (0 <= m < 4096) as Hm by (apply Z.mod_pos_bound; lia).
  refine (leads_seq (fun d => d = charger_zero) (fun d => d = mkcharger 2 false false false false false 0 m 1 ENABLE_FAIL_UNKNOWN 0 []) _ _ _ _ _ charger_zero eq_refl);
    [by intros d -> |].
  apply leads_seq with (fun d => charger_core true 2 d /\ max_supported_current d = m).
  { intros d ->. assert (fst (Charger_DisableReasonAdd CHARGER_DISABLE_REASON_NOT_CONNECTED (mkcharger 2 false false false false false 0 m 1 ENABLE_FAIL_UNKNOWN 0 [])) =
      mkcharger 2 false false false false false 0 m 1 ENABLE_FAIL_UNKNOWN 16 []) as ->
      by (unfold Charger_DisableReasonAdd, chg_seq, chg_if; by destruct ENABLE_CHARGER_HYSTERESIS_SW).
    split; [| done]. unfold charger_core, enabled_ok, reason_on. cbn. split_and!; done || lia. }
  apply leads_seq with (fun d => charger_good true 2 d /\ fast_current d <= rc).
  - unfold charger_ConfigureCharger. do 3 (apply leads_seq with (fun d => charger_core true 2 d /\ max_supported_current d = m); [apply leads_emit |]).
    apply leads_seq with (fun d => charger_core true 2 d /\ max_supported_current d = m); [apply leads_if; by intros d [Hd _] |].
    apply leads_seq with (fun d => charger_good true 2 d /\ fast_current d <= rc).
    { intros d Hd. destruct (set_fast_good true 2 0 m ltac:(lia) d Hd) as (H1 & _ & H2). split; [exact H1 | lia]. }
    do 3 (apply leads_seq with (fun d => charger_good true 2 d /\ fast_current d <= rc); [apply leads_emit |]). apply leads_emit.
  - apply leads_seq with (charger_inv rc); [| apply leads_emit]. apply connect_inv; [lia | auto].
Qed.
(** ** Time-out *)

(** The charger is disabled by the time-out, whatever else disables it. *)
Definition timed_out (d : chargerTaskData) : Prop := enabled_ok d /\ reason_on bit_TIMEOUT d = true.

Lemma add_timed_out r : 0 < r -> leads_to timed_out timed_out (Charger_DisableReasonAdd r).
Proof.
  intros Hr d [He Hb]. destruct (add_fields r d Hr He) as (_ & _ & _ & Hbits).
  split; [apply (reasons_ok (added r)); [by apply add_reasons | apply added_nonneg; [lia | apply He] | done] |]. by rewrite Hbits, Hb by done.
Qed.

Lemma clear_timed_out r : r <> 0 -> Z.testbit r bit_TIMEOUT = false -> leads_to timed_out timed_out (Charger_DisableReasonClear r).
Proof.
  intros Hr H0' d [He Hb]. destruct (clear_fields r d Hr He) as (_ & _ & _ & Hbits).
  split; [apply (reasons_ok (fun x => Z.ldiff x r)); [by apply clear_reasons | apply Z.ldiff_nonneg; left; apply He | done] |].
  by rewrite Hbits, Hb, H0'.
Qed.

Lemma if_timed_out c a b : leads_to timed_out timed_out a -> leads_to timed_out timed_out b -> leads_to timed_out timed_out (chg_if c a b).
Proof. intros Ha Hb. apply leads_if; intros d [Hd _]; [by apply Ha | by apply Hb]. Qed.

Lemma set_fast_timed_out current : leads_to timed_out timed_out (charger_SetFastCurrent current).
Proof.
  unfold charger_SetFastCurrent. apply leads_seq with timed_out; [apply if_timed_out; [by apply add_timed_out | by apply leads_skip] |].
  apply leads_seq with timed_out.
  { apply if_timed_out; [| by apply leads_skip]. apply leads_seq with timed_out; [by apply add_timed_out |].
    apply leads_seq with timed_out; [apply leads_emit | by intros d Hd]. }
  apply leads_seq with timed_out; [apply leads_emit |]. apply leads_seq with timed_out; [by intros d Hd |].
  apply leads_seq with timed_out; (apply if_timed_out; [by apply clear_timed_out | by apply leads_skip]).
Qed.

Lemma update_timed_out rc : leads_to timed_out timed_out (Charger_UpdateCurrent rc).
Proof. intros d Hd. unfold Charger_UpdateCurrent. destruct (negb _); [by apply set_fast_timed_out | done]. Qed.

Lemma attach_timed_out rc : leads_to timed_out timed_out (Charger_UpdateConnected rc true).
Proof.
  intros d Hd. unfold Charger_UpdateConnected. destruct (is_connected d =? 1); [exact Hd |].
  refine (leads_seq timed_out timed_out timed_out _ _ _ _ d Hd); [by intros d0 Hd0 |].
  apply leads_seq with timed_out; [apply leads_seq with timed_out; [apply update_timed_out | by apply clear_timed_out] |].
  apply leads_seq with timed_out; [| by intros d0 Hd0].
  intros d0 Hd0. unfold Charger_HandleChange. destruct (negb (Charger_IsConnected d0)); [| destruct (negb _)]; exact Hd0.
Qed.

Lemma error_timed_out : leads_to timed_out timed_out Charger_Error.
Proof. apply leads_seq with timed_out; [by apply add_timed_out | by intros d Hd]. Qed.

Lemma status_timed_out rc s : leads_to timed_out timed_out (Charger_StatusChanged rc s).
Proof.
  intros d Hd. unfold Charger_StatusChanged. refine (leads_seq timed_out timed_out timed_out _ _ _ _ d Hd); [by intros d0 Hd0 |].
  apply leads_seq with timed_out; [apply leads_emit |]. apply leads_seq with timed_out.
  - destruct s; try (by intros d0 Hd0); try exact error_timed_out; [apply if_timed_out; by intros d0 Hd0 | apply if_timed_out; by intros d0 Hd0 |].
    apply if_timed_out; [| exact error_timed_out]. apply leads_seq with timed_out; [by intros d0 Hd0 |].
    apply leads_seq with timed_out; [apply update_timed_out |]. apply leads_seq with timed_out; [by apply add_timed_out | by apply clear_timed_out].
  - apply leads_seq with timed_out; [apply if_timed_out; by intros d0 Hd0 |]. apply leads_seq with timed_out; [apply leads_emit |].
    apply if_timed_out; by intros d0 Hd0.
Qed.

(** A message that does not say that the charger is detached leaves it
    disabled. *)
Lemma message_timed_out rc m : m <> MESSAGE_CHARGER_CHANGED false -> leads_to timed_out timed_out (charger_HandleMessage rc m).
Proof.
  intros Hm. destruct m as [[] | | [] | s | mv |]; cbn [charger_HandleMessage]; try done; try (by apply leads_skip).
  - by apply add_timed_out.
  - by apply clear_timed_out.
  - destruct ENABLE_CHARGER_HYSTERESIS_SW; [by apply add_timed_out | by apply leads_skip].
  - apply if_timed_out; [by apply leads_skip | apply attach_timed_out].
  - apply if_timed_out; [by apply leads_skip | apply status_timed_out].
  - destruct ENABLE_CHARGER_HYSTERESIS_SW; [| by apply leads_skip]. apply if_timed_out; [by apply clear_timed_out | by apply leads_skip].
Qed.

(** ** Connection messages

    A step that keeps the connection and the clients, and tells no client that
    the charger is attached or detached. *)
Definition calm_out (o : charger_out) : Prop :=
  match o with CHARGER_NOTIFY _ (CHARGER_MESSAGE_ATTACHED | CHARGER_MESSAGE_DETACHED) | CHARGER_SEND _ _ => False | _ => True end.
Definition calm (a : chg) : Prop :=
  forall d, is_connected (fst (a d)) = is_connected d /\ charger_client_tasks (fst (a d)) = charger_client_tasks d /\ Forall calm_out (snd (a d)).

Lemma calm_seq a b : calm a -> calm b -> calm (a;; b).
Proof.
  intros Ha Hb d. destruct (Ha d) as (H1 & H2 & H3), (Hb (fst (a d))) as (H4 & H5 & H6). cbn. rewrite H4, H5.
  split; [exact H1 |]. split; [exact H2 |]. by apply Forall_app.
Qed.
Lemma calm_if c a b : calm a -> calm b -> calm (chg_if c a b).
Proof. intros Ha Hb d. unfold chg_if. destruct (c d); [apply Ha | apply Hb]. Qed.
Lemma calm_emit o : calm_out o -> calm (chg_emit o).
Proof. intros Ho d. by split_and!; [| | constructor]. Qed.
Lemma calm_set f : (forall d, is_connected (f d) = is_connected d /\ charger_client_tasks (f d) = charger_client_tasks d) -> calm (chg_set f).
Proof. intros Hf d. destruct (Hf d). by split_and!; [| | constructor]. Qed.
Lemma calm_skip : calm chg_skip.
Proof. intros d. by split_and!; [| | constructor]. Qed.

Ltac calm_step :=
  repeat match goal with
    | |- calm (_;; _) => apply calm_seq
    | |- calm (chg_if _ _ _) => apply calm_if
    | |- calm (chg_set _) => apply calm_set; intros; split; reflexivity
    | |- calm chg_skip => apply calm_skip
    | |- calm (chg_emit _) => apply calm_emit; exact I
    end.

Lemma clear_calm r : calm (Charger_DisableReasonClear r).
Proof. unfold Charger_DisableReasonClear, Charger_Enable. calm_step. Qed.
Lemma add_calm r : calm (Charger_DisableReasonAdd r).
Proof. unfold Charger_DisableReasonAdd, reason_set, Charger_Disable. calm_step. apply clear_calm. Qed.
Lemma update_calm rc : calm (Charger_UpdateCurrent rc).
Proof.
  intros d. unfold Charger_UpdateCurrent. destruct (negb _); [| by split_and!; [| | constructor]].
  generalize (u16 (Z.min rc (max_supported_current d))). intros c. revert d. change (calm (charger_SetFastCurrent c)).
  unfold charger_SetFastCurrent, external_mode. calm_step; first [apply add_calm | apply clear_calm].
Qed.
Lemma error_calm : calm Charger_Error.
Proof. unfold Charger_Error. calm_step. apply add_calm. Qed.

Lemma status_calm rc s : calm (Charger_StatusChanged rc s).
Proof.
  intros d. unfold Charger_StatusChanged. match goal with |- context [snd (?a d)] => enough (calm a) as Hq by apply Hq end.
  apply calm_seq; [calm_step |]. apply calm_seq; [calm_step |]. apply calm_seq.
  - destruct s; try apply calm_skip; try apply error_calm; unfold charger_out_of_range; calm_step;
      first [apply error_calm | apply update_calm | apply add_calm | apply clear_calm].
  - apply calm_seq; [| calm_step]. apply calm_if; [| apply calm_skip]. intros d1. split_and!; [done | done |].
    repeat constructor. cbn. by destruct (status d1).
Qed.

(** The clients are told of a change of the connection at its end. *)
Definition connection_told (b : bool) (d : chargerTaskData) (r : chargerTaskData * list charger_out) : Prop :=
  is_connected (fst r) = (if b then 1 else 0) /\
  exists outs, Forall calm_out outs /\
    snd r = outs ++ [CHARGER_NOTIFY (charger_client_tasks d) (if b then CHARGER_MESSAGE_ATTACHED else CHARGER_MESSAGE_DETACHED)].

Lemma attach_told rc b d : is_connected d <> (if b : bool then 1 else 0) ->
  charger_client_tasks (fst (Charger_UpdateConnected rc b d)) = charger_client_tasks d /\ connection_told b d (Charger_UpdateConnected rc b d).
Proof.
  intros Hne. unfold Charger_UpdateConnected. destruct (Z.eqb_spec (is_connected d) (if b then 1 else 0)) as [E | _]; [done |].
  set (d1 := d <| is_connected := if b then 1 else 0 |>). set (m := if b then CHARGER_MESSAGE_ATTACHED else _).
  match goal with |- context [chg_seq (chg_set _) (chg_seq ?x _)] => set (a := x) end.
  assert (calm (a;; Charger_HandleChange)) as Ha.
  { apply calm_seq.
    - subst a. destruct b; [| destruct ENABLE_CHARGER_HYSTERESIS_SW]; calm_step; first [apply update_calm | apply add_calm | apply clear_calm].
    - intros d0. unfold Charger_HandleChange. destruct (negb (Charger_IsConnected d0)); [| destruct (negb _)]; by split_and!; repeat constructor. }
  assert (((chg_set (fun d => d <| is_connected := if b then 1 else 0 |>));; (a;; Charger_HandleChange;; Charger_NotifyClients m))%chg d =
    (fst ((a;; Charger_HandleChange)%chg d1), snd ((a;; Charger_HandleChange)%chg d1) ++
      [CHARGER_NOTIFY (charger_client_tasks (fst ((a;; Charger_HandleChange)%chg d1))) m])) as ->.
  { unfold chg_seq, chg_set, Charger_NotifyClients. cbn [fst snd app]. by rewrite <- app_assoc. }
  destruct (Ha d1) as (Hc & Hl & Ho). cbn [fst]. rewrite Hl. split; [done |]. split; [exact Hc |]. eexists. split; [exact Ho | reflexivity].
Qed.

Lemma message_told rc m d : let r := charger_HandleMessage rc m d in
  charger_client_tasks (fst r) = charger_client_tasks d /\
  (is_connected (fst r) = is_connected d /\ Forall calm_out (snd r) \/ exists b, m = MESSAGE_CHARGER_CHANGED b /\ connection_told b d r).
Proof.
  assert (forall a, calm a -> let r := a d in charger_client_tasks (fst r) = charger_client_tasks d /\
    (is_connected (fst r) = is_connected d /\ Forall calm_out (snd r) \/ exists b, m = MESSAGE_CHARGER_CHANGED b /\ connection_told b d r)) as Hcalm.
  { intros a Ha. destruct (Ha d) as (H1 & H2 & H3). split; [exact H2 |]. by left. }
  destruct m as [[] | | b | s | mv |]; cbn [charger_HandleMessage]; try (apply Hcalm, calm_skip).
  - apply Hcalm, add_calm.
  - apply Hcalm, clear_calm.
  - apply Hcalm. destruct ENABLE_CHARGER_HYSTERESIS_SW; [apply add_calm | apply calm_skip].
  - unfold chg_if. destruct (test_mode d); [apply (Hcalm chg_skip), calm_skip |].
    destruct (Z.eq_dec (is_connected d) (if b then 1 else 0)) as [E | E].
    + unfold Charger_UpdateConnected. destruct (Z.eqb_spec (is_connected d) (if b then 1 else 0)); [| done]. apply (Hcalm chg_skip), calm_skip.
    + destruct (attach_told rc b d E) as [H1 H2]. split; [exact H1 |]. right. by exists b.
  - apply Hcalm, calm_if; [apply calm_skip | apply status_calm].
  - apply Hcalm. destruct ENABLE_CHARGER_HYSTERESIS_SW; [| apply calm_skip]. apply calm_if; [apply clear_calm | apply calm_skip].
Qed.

(** The initialisation has no client to tell. *)
Lemma charger_init_clients rc connected : charger_client_tasks (fst (Charger_Init rc connected charger_zero)) = [].
Proof.
  set (P := fun d : chargerTaskData => charger_client_tasks d = []).
  assert (forall a, calm a -> leads_to P P a) as Hcalm by (intros a Ha d Hd; unfold P; destruct (Ha d) as (_ & -> & _); exact Hd).
  refine (leads_seq P P P _ _ _ _ charger_zero eq_refl); [by intros d Hd |].
  apply leads_seq with P; [apply Hcalm, add_calm |]. apply leads_seq with P.
  { apply Hcalm. unfold charger_ConfigureCharger, charger_SetFastCurrent, external_mode. calm_step; first [apply add_calm | apply clear_calm]. }
  apply leads_seq with P; [| apply leads_emit]. intros d Hd. unfold P.
  destruct (Z.eq_dec (is_connected d) (if connected then 1 else 0)) as [E | E]; [| destruct (attach_told rc connected d E) as [-> _]; exact Hd].
  unfold Charger_UpdateConnected. destruct (Z.eqb_spec (is_connected d) (if connected then 1 else 0)); done.
Qed.

(** * Runs *)

(** Messages, updates of the current by the regions, and the reasons that
    other components add and clear: the time-out, a request and the charge
    that is complete.  Each comes with the current of the regions then. *)
Inductive charger_op :=
| ChargerMessage (region_current : Z) (m : charger_msg)
| ChargerUpdate (region_current : Z)
| ChargerAdd (r : Z)
| ChargerClear (r : Z).

Definition charger_step (o : charger_op) : chg :=
  match o with
  | ChargerMessage rc m => charger_HandleMessage rc m
  | ChargerUpdate rc => Charger_UpdateCurrent rc
  | ChargerAdd r => Charger_DisableReasonAdd r
  | ChargerClear r => Charger_DisableReasonClear r
  end.

Definition charger_op_ok (o : charger_op) : Prop :=
  match o with
  | ChargerMessage rc _ | ChargerUpdate rc => 0 <= rc < 65536
  | ChargerAdd r | ChargerClear r =>
    r ∈ [CHARGER_DISABLE_REASON_TIMEOUT; CHARGER_DISABLE_REASON_REQUEST; CHARGER_DISABLE_REASON_CHARGED]
  end.

Definition charger_run (os : list charger_op) (d : chargerTaskData) : chargerTaskData := fold_left (fun d o => fst (charger_step o d)) os d.

Lemma charger_run_inv os d : Forall charger_op_ok os -> charger_inv 65535 d -> charger_inv 65535 (charger_run os d).
Proof.
  unfold charger_run. intros Hos. revert d. induction Hos as [| o os Ho Hos IH]; intros d Hd; cbn [fold_left]; [exact Hd |]. apply IH.
  assert (forall r, r ∈ [CHARGER_DISABLE_REASON_TIMEOUT; CHARGER_DISABLE_REASON_REQUEST; CHARGER_DISABLE_REASON_CHARGED] -> plain r) as Hp.
  { intros r Hr. rewrite !elem_of_cons, elem_of_nil in Hr. destruct_or! Hr; by subst. }
  destruct o as [rc m | rc | r | r]; cbn [charger_step charger_op_ok] in *.
  - apply (charger_message_inv rc); [lia | done].
  - destruct (update_inv 65535 rc ltac:(lia) d Hd) as [H1 H2]. split; [exact H1 | lia].
  - by apply add_inv; [apply Hp |].
  - by apply clear_inv; [apply Hp |].
Qed.

(** [C17] The charger is enabled exactly when it is connected, a current is
    allowed and no other reason disables it; and the current is one it can
    supply. *)
Theorem charger_enabled_iff os connected : Forall charger_op_ok os ->
  let d := charger_run os (fst (Charger_Init 0 connected charger_zero)) in
  (is_enabled d = true <->
   is_connected d = 1 /\ fast_current d <> 0 /\ forall n, n <> bit_ZERO_CURRENT -> n <> bit_NOT_CONNECTED -> reason_on n d = false) /\
  0 <= fast_current d <= max_supported_current d /\ (has_resistor = false -> fast_current d <= appConfigChargerInternalMaxCurrent).
Proof.
  intros Hos d. assert (charger_inv 65535 d) as [(c & Hc & ((He & Hb & Hcn & Hf & Hm) & Hz & Hle & Hr)) _].
  { apply charger_run_inv; [done |]. destruct (charger_init_inv 0 connected ltac:(done)) as [H1 H2]. split; [exact H1 | lia]. }
  split; [| split; [lia | done]]. destruct He as [_ ->]. rewrite Z.eqb_eq. unfold reason_on in *. split.
  - intros E. rewrite E, Z.bits_0 in *. split_and!; [| by apply Z.eqb_neq | intros; apply Z.bits_0]. destruct Hc as [-> | ->]; done.
  - intros (Hon & Hne & Hbits). apply Z.bits_inj_0. intros n. destruct (decide (n = bit_ZERO_CURRENT)) as [-> | H3].
    { rewrite Hz. by apply Z.eqb_neq. }
    destruct (decide (n = bit_NOT_CONNECTED)) as [-> | H4]; [| by apply Hbits]. rewrite Hb. apply Z.eqb_neq. lia.
Qed.
End charger.

(** * A run

    Attached, allowed 500 mA, complete, and detached. *)
Definition charge_cycle : list charger_op :=
  [ChargerMessage 0 (MESSAGE_CHARGER_CHANGED true); ChargerUpdate 500; ChargerMessage 500 (MESSAGE_CHARGER_STATUS FAST_CHARGE);
   ChargerMessage 500 (MESSAGE_CHARGER_STATUS CONFIG_FAIL_VALUES_OUT_OF_RANGE); ChargerMessage 500 (MESSAGE_CHARGER_STATUS HEADROOM_ERROR);
   ChargerMessage 500 (CHARGER_TIMEOUT CHARGER_INTERNAL_RE_ENABLE_TIMEOUT)].

Notation cycle_run := (charger_run (H := charger_release) (H0 := helmet_region)).
Notation cycle_init c := (fst (Charger_Init (H := charger_release) (H0 := helmet_region) 0 c charger_zero)).

Lemma charger_enabled_iff_witness :
  (is_enabled (cycle_run charge_cycle (cycle_init false)) = true <->
   is_connected (cycle_run charge_cycle (cycle_init false)) = 1 /\ fast_current (cycle_run charge_cycle (cycle_init false)) <> 0 /\
   forall n, n <> bit_ZERO_CURRENT -> n <> bit_NOT_CONNECTED -> reason_on n (cycle_run charge_cycle (cycle_init false)) = false) /\
  0 <= fast_current (cycle_run charge_cycle (cycle_init false)) <= max_supported_current (cycle_run charge_cycle (cycle_init false)) /\
  (has_resistor (H := charger_release) = false -> fast_current (cycle_run charge_cycle (cycle_init false)) <= appConfigChargerInternalMaxCurrent).
Proof.
  apply (@charger_enabled_iff charger_release helmet_region charge_cycle false).
  repeat (constructor; [cbn; lia |]). constructor.
Defined.

(** It is enabled again there, with the 450 mA that the hardware takes. *)
Example cycle_end : let d := cycle_run charge_cycle (cycle_init false) in (is_enabled d, fast_current d) = (true, 450).
Proof. vm_compute. reflexivity. Qed.
