(* ===== verification/Power.v ===== *)
(** The power components together: the battery monitor (Battery) posts its
    voltage to the state of charge (Charge), the charging regions (Region) ask
    it, the thermometer (Thermo) and the charger monitor (Charger) for theirs
    and set what the charger may draw, and the charger posts its connection to
    the regions and to the state of charge. *)
From S2P Require Import Prelude Ring Filter Charge Thermo Region Battery Charger.

(** * The parts together *)

(** SoC_GetTask(), batteryRegion_GetTask() and the charger's task, and the
    hysteresis that Soc_Init and Charger_Init register with. *)
Definition soc_task : Z := 1.
Definition region_task : Z := 2.
Definition charger_task : Z := 3.
Definition soc_hysteresis : Z := 6.
Definition charger_hysteresis : Z := 5.

(** The messages on their way between the components, first come first
    served. *)
Inductive power_mail := MailVoltage (task mv : Z) | MailCharger (task : Z) (m : charger_messages).

Record power := mkpower {
  p_battery : batteryTaskData;
  p_soc : soc_data_t;
  p_temp : temperatureTaskData;
  p_region : battery_region_data_t;
  p_charger : chargerTaskData;
  p_queue : list power_mail }.
#[export] Instance power_eta : RecordEta power := fun r =>
  mkpower (p_battery r) (p_soc r) (p_temp r) (p_region r) (p_charger r) (p_queue r).

(** Messages of the hardware and of timers, requests for the charger to be
    disabled or not, by the user or because the headset takes it for charged,
    and the delivery of a message of the queue, during which an upgrade may be
    checking its hash ([blocked]). *)
Inductive power_op :=
| PowerBattery (m : batt_msg)
| PowerTemperature (m : temp_msg)
| PowerCharger (m : charger_msg)
| PowerRequest (disable : bool)
| PowerCharged (disable : bool)
| PowerRegionUpdate
| PowerRegionTimer
| PowerDeliver (blocked : bool).

Section power.
Context `{BS : SocBuild} `{BT : ThermoBuild} `{BR : RegionBuild} `{BC : ChargerBuild} (vref_const : Z) (pio_used : bool).

Notation table := headset_soc_config_table.

(** What is posted. *)
Definition battery_mail (o : batt_out) : list power_mail := match o with BATT_UPDATE_VOLTAGE task mv => [MailVoltage task mv] | _ => [] end.
Definition charger_mail (o : charger_out) : list power_mail :=
  match o with CHARGER_NOTIFY tasks m => (fun task => MailCharger task m) <$> tasks | CHARGER_SEND task m => [MailCharger task m] | _ => [] end.

Definition charger_do (a : chg) (p : power) : power :=
  let r := a (p_charger p) in p <| p_charger := fst r |> <| p_queue ::= fun q => q ++ flat_map charger_mail (snd r) |>.

(** What the regions allow, and what they call the charger for. *)
Definition region_current (p : power) : Z :=
  BatteryRegion_GetCurrent headset_charge_mode_config_table headset_discharge_mode_config_table (p_region p).
Definition region_act (p : power) (o : region_out) : power :=
  match o with
  | CHARGER_UPDATE_CURRENT => charger_do (Charger_UpdateCurrent (region_current p)) p
  | CHARGER_DISABLE_TIMEOUT => charger_do (Charger_DisableReasonAdd CHARGER_DISABLE_REASON_TIMEOUT) p
  | CHARGER_CLEAR_TIMEOUT => charger_do (Charger_DisableReasonClear CHARGER_DISABLE_REASON_TIMEOUT) p
  | _ => p
  end.
Definition region_do (m : region_msg) (p : power) : power :=
  let r := region_handle m (p_region p) in fold_left region_act (snd r) (p <| p_region := fst r |>).

(** What a message is to the state of charge. *)
Definition soc_mail (x : power_mail) : option soc_msg :=
  match x with
  | MailVoltage task mv => if task =? soc_task then Some (MESSAGE_BATTERY_LEVEL_UPDATE_VOLTAGE mv) else None
  | MailCharger task m =>
    if task =? soc_task
    then Some match m with CHARGER_MESSAGE_ATTACHED => SOC_CHARGER_ATTACHED | CHARGER_MESSAGE_DETACHED => SOC_CHARGER_DETACHED | _ => SOC_MSG_OTHER end
    else None
  end.
Definition soc_read (blocked : bool) (s : soc_data_t) (x : power_mail) : soc_data_t :=
  match soc_mail x with Some m => fst (soc_HandleMessage table blocked m s) | None => s end.

Definition deliver (blocked : bool) (x : power_mail) (p : power) : power :=
  let p := p <| p_soc ::= fun s => soc_read blocked s x |> in
  match x with
  | MailVoltage task mv =>
    if task =? charger_task then charger_do (charger_HandleMessage (region_current p) (CHARGER_BATTERY_LEVEL mv)) p else p
  | MailCharger task CHARGER_MESSAGE_DETACHED => if task =? region_task then region_do REGION_CHARGER_DETACHED p else p
  | _ => p
  end.

Definition power_step (o : power_op) (p : power) : power :=
  match o with
  | PowerBattery m =>
    let r := appBatteryHandleMessage vref_const m (p_battery p) in
    p <| p_battery := fst r |> <| p_queue ::= fun q => q ++ flat_map battery_mail (snd r) |>
  | PowerTemperature m =>
    p <| p_temp := fst (appTemperatureHandleMessage headset_temperature_config_table vref_const pio_used m (p_temp p)) |>
  | PowerCharger m => charger_do (charger_HandleMessage (region_current p) m) p
  | PowerRequest disable =>
    if disable then fold_left region_act Charger_ForceDisable_regions (charger_do Charger_ForceDisable p)
    else fold_left region_act Charger_RestoreState_regions (charger_do Charger_RestoreState p)
  | PowerCharged disable =>
    charger_do ((if disable then Charger_DisableReasonAdd else Charger_DisableReasonClear) CHARGER_DISABLE_REASON_CHARGED) p
  | PowerRegionUpdate =>
    region_do (REGION_UPDATE_TRIGGER (appBatteryGetVoltageAverage (p_battery p)) (appTemperatureGetAverage (p_temp p))
      (Charger_IsConnected (p_charger p))) p
  | PowerRegionTimer => region_do REGION_CHARGING_TIMER p
  | PowerDeliver blocked => match p_queue p with [] => p | x :: q => deliver blocked x (p <| p_queue := q |>) end
  end.

Definition power_run (os : list power_op) (p : power) : power := fold_left (fun p o => power_step o p) os p.

(** The initialisations before Soc_Init, in the order of headset_init.c;
    the monitor has handled [ms] by the time the charger is initialised, and
    [connected] is whether the hardware has power then.  The debug build
    registers the charger with the monitor. *)
Definition power_boot (garbage_b garbage_t : list Z) (soc0 : soc_data_t) (connected : bool) (ms : list batt_msg) : power :=
  let b := batt_run vref_const (BattMessage <$> ms) (battery_start garbage_b) in
  let c := fst (Charger_Init 0 connected charger_zero) in
  let r := if ENABLE_CHARGER_HYSTERESIS_SW then snd (appBatteryRegister true charger_task charger_hysteresis b) else (b, []) in
  charger_do (fun d => snd (Charger_ClientRegister region_task d))
    (mkpower (fst r) soc0 (temp_start pio_used garbage_t) region_start c (flat_map battery_mail (snd r))).

(** Soc_Init registers with the monitor, which may post it a voltage, and with
    the charger, which posts it the connection. *)
Definition soc_init (stored : option Z) (p : power) : power :=
  let r := snd (appBatteryRegister true soc_task soc_hysteresis (p_battery p)) in
  charger_do (fun d => snd (Charger_ClientRegister soc_task d))
    (p <| p_soc := fst (Soc_Init stored (Charger_IsConnected (p_charger p))) |> <| p_battery := fst r |>
       <| p_queue ::= fun q => q ++ flat_map battery_mail (snd r) |>).

(** What the battery was measured at. *)
Definition power_measured (o : power_op) (p : power) : list Z :=
  match o with PowerBattery m => measured vref_const (BattMessage m) (p_battery p) | _ => [] end.
Fixpoint power_measurements (os : list power_op) (p : power) : list Z :=
  match os with
  | [] => []
  | o :: os => power_measured o p ++ power_measurements os (power_step o p)
  end.

(** * The parts *)
Context (fast_ok : 0 <= FAST_CHARGE_CURRENT) (pre_ok : 0 <= PRE_CHARGE_CURRENT).

Lemma currents_nonneg t : Forall (fun r => 0 <= current r) (table_of t).
Proof.
  assert (0 <= FAST /\ 0 <= PRE /\ 0 <= TRICKLE) as (Hf & Hp & Ht).
  { unfold FAST, appConfigChargerFastCurrent, PRE, appConfigChargerPreCurrent, TRICKLE, appConfigChargerTrickleCurrent.
    destruct INCLUDE_CHARGER_DETECT, QCC3020_FF_ENTRY_LEVEL_AA, RDP_HARDWARE; lia. }
  destruct t; cbn [table_of]; [constructor | unfold headset_charge_mode_config_table; destruct REGION_INCLUDE_SMART_HELMET | unfold headset_discharge_mode_config_table];
    repeat (constructor; [cbn [current]; unfold aCTIVE; lia |]); constructor.
Qed.

Lemma current_nonneg p : 0 <= region_current p.
Proof.
  unfold region_current, BatteryRegion_GetCurrent. destruct (_ || _); [done |].
  change (region_limits _ _ ?t ?i) with (nth (Z.to_nat i) (table_of t) (mkregion 0 0 0 0 0 0 0 NORMAL_REGION 0)).
  pose proof (currents_nonneg (region_table (p_region p))) as Hall. rewrite Forall_forall in Hall.
  destruct (nth_in_or_default (Z.to_nat (region (p_region p))) (table_of (region_table (p_region p))) (mkregion 0 0 0 0 0 0 0 NORMAL_REGION 0)) as [Hin | ->]; [| done].
  by apply Hall, list_elem_of_In.
Qed.

(** What the calls of the regions and of a request keep. *)
Lemma region_acts (P : power -> Prop) os p :
  (forall q, P q -> P (charger_do (Charger_UpdateCurrent (region_current q)) q)) ->
  (forall q, P q -> P (charger_do (Charger_DisableReasonAdd CHARGER_DISABLE_REASON_TIMEOUT) q)) ->
  (forall q, P q -> P (charger_do (Charger_DisableReasonClear CHARGER_DISABLE_REASON_TIMEOUT) q)) ->
  P p -> P (fold_left region_act os p).
Proof. intros Hu Ha Hc. revert p. induction os as [| o os IH]; intros p Hp; [exact Hp |]. apply IH. destruct o; cbn [region_act]; auto. Qed.

(** ** The invariant of each part *)
Definition parts_inv (h : list Z) (p : power) : Prop :=
  battery_inv h (p_battery p) /\ (exists ht, temp_inv ht (p_temp p)) /\ region_wf (p_region p) /\
  exists R, charger_inv R (p_charger p).

Lemma charger_inv_le R R' d : R <= R' -> charger_inv R d -> charger_inv R' d.
Proof. intros Hle [Hd Hf]. split; [exact Hd | lia]. Qed.

(** A call of the charger that keeps its invariant keeps the parts'. *)
Lemma do_parts h a p : parts_inv h p -> (forall R, charger_inv R (p_charger p) -> exists R', charger_inv R' (fst (a (p_charger p)))) ->
  parts_inv h (charger_do a p).
Proof. intros (Hb & Ht & Hr & R & Hc) Ha. split; [exact Hb |]. split; [exact Ht |]. split; [exact Hr |]. exact (Ha R Hc). Qed.

Lemma do_keeps h a p : (forall R, leads_to (charger_inv R) (charger_inv R) a) -> parts_inv h p -> parts_inv h (charger_do a p).
Proof. intros Ha Hp. apply do_parts; [exact Hp |]. intros R Hc. exists R. by apply Ha. Qed.

Lemma acts_parts h os p : parts_inv h p -> parts_inv h (fold_left region_act os p).
Proof.
  apply region_acts; intros q Hq.
  - apply do_parts; [exact Hq |]. intros R Hc. exists (region_current q). exact (update_inv R _ (current_nonneg q) _ Hc).
  - apply do_keeps; [intros R; apply add_inv, plain_timeout | exact Hq].
  - apply do_keeps; [intros R; apply clear_inv, plain_timeout | exact Hq].
Qed.

Lemma region_do_parts h m p : parts_inv h p -> parts_inv h (region_do m p).
Proof.
  intros (Hb & Ht & Hr & Hc). apply acts_parts. split; [exact Hb |]. split; [exact Ht |]. split; [| exact Hc].
  exact (region_step_wf (RegionMessage m) _ Hr).
Qed.

Lemma do_message_parts h m p : parts_inv h p -> parts_inv h (charger_do (charger_HandleMessage (region_current p) m) p).
Proof.
  intros Hp. apply do_parts; [exact Hp |]. intros R0 Hc0. exists (Z.max R0 (region_current p)). pose proof (current_nonneg p).
  apply charger_message_inv; [lia |]. apply (charger_inv_le R0); [lia | exact Hc0].
Qed.

Lemma deliver_parts h blocked x p : parts_inv h p -> parts_inv h (deliver blocked x p).
Proof.
  intros Hp. unfold deliver. assert (parts_inv h (p <| p_soc ::= fun s => soc_read blocked s x |>)) as H1 by exact Hp.
  destruct x as [task mv | task []]; try exact H1.
  - destruct (task =? charger_task); [| exact H1]. exact (do_message_parts h (CHARGER_BATTERY_LEVEL mv) _ H1).
  - destruct (task =? region_task); [by apply region_do_parts | exact H1].
Qed.

Lemma power_step_parts h o p : parts_inv h p -> parts_inv (h ++ power_measured o p) (power_step o p).
Proof.
  intros Hp. pose proof Hp as (Hb & (ht & Ht) & Hr & R & Hc). destruct o as [m | m | m | on | on | | | blocked]; cbn [power_step power_measured]; rewrite ?app_nil_r.
  - split; [exact (batt_step_inv vref_const h (BattMessage m) (p_battery p) Hb) |]. split; [by exists ht |]. split; [exact Hr |]. by exists R.
  - split; [exact Hb |]. split; [| split; [exact Hr |]; by exists R]. eexists. exact (temp_message_inv vref_const pio_used ht m (p_temp p) Ht).
  - by apply do_message_parts.
  - destruct on; apply acts_parts, do_keeps; try exact Hp; intros R0; [apply add_inv | apply clear_inv]; exact plain_request.
  - destruct on; apply do_keeps; try exact Hp; intros R0; [apply add_inv | apply clear_inv]; exact plain_charged.
  - by apply region_do_parts.
  - by apply region_do_parts.
  - destruct (p_queue p) as [| x q]; [exact Hp |]. by apply deliver_parts.
Qed.

Lemma power_run_parts os h p : parts_inv h p -> parts_inv (h ++ power_measurements os p) (power_run os p).
Proof.
  unfold power_run. revert h p. induction os as [| o os IH]; intros h p Hp; cbn [fold_left power_measurements]; [by rewrite app_nil_r |].
  rewrite app_assoc. by apply IH, power_step_parts.
Qed.

Lemma register_keeps R task d : charger_inv R d -> charger_inv R (fst (snd (Charger_ClientRegister task d))).
Proof. intros Hd. unfold Charger_ClientRegister. destruct (existsb _ _); [exact Hd |]. exact (inv_fields R d _ Hd eq_refl eq_refl eq_refl eq_refl eq_refl). Qed.

Lemma power_boot_parts garbage_b garbage_t soc0 connected ms : alen garbage_b = 5 -> alen garbage_t = 5 ->
  parts_inv (measurements vref_const (BattMessage <$> ms) (battery_start garbage_b)) (power_boot garbage_b garbage_t soc0 connected ms).
Proof.
  intros Hgb Hgt. set (h := measurements _ _ _). set (b := batt_run vref_const (BattMessage <$> ms) (battery_start garbage_b)).
  assert (battery_inv h b) as Hb by (apply (batt_run_inv vref_const _ []), battery_start_inv; exact Hgb).
  assert (forall b' q, battery_inv h b' -> parts_inv h (charger_do (fun d => snd (Charger_ClientRegister region_task d))
    (mkpower b' soc0 (temp_start pio_used garbage_t) region_start (fst (Charger_Init 0 connected charger_zero)) q))) as Hp.
  { intros b' q Hb'. split; [exact Hb' |]. split; [exists []; by apply temp_start_inv |]. split; [done |].
    exists 0. by apply register_keeps, charger_init_inv. }
  unfold power_boot. fold b. destruct ENABLE_CHARGER_HYSTERESIS_SW; [| by apply Hp]. apply Hp.
  pose proof (batt_step_inv vref_const h (BattRegister true charger_task charger_hysteresis) b Hb) as Hs. cbn [measured] in Hs.
  by rewrite app_nil_r in Hs.
Qed.

Lemma soc_init_parts h stored p : parts_inv h p -> parts_inv h (soc_init stored p).
Proof.
  intros (Hb & Ht & Hr & R & Hc). split; [| split; [exact Ht | split; [exact Hr |]; exists R; by apply register_keeps]].
  pose proof (batt_step_inv vref_const h (BattRegister true soc_task soc_hysteresis) (p_battery p) Hb) as Hs. cbn [measured] in Hs.
  rewrite app_nil_r in Hs. exact Hs.
Qed.

(** ** The current

    The charger never draws more than the regions allow. *)
Definition current_inv (p : power) : Prop := charger_inv (region_current p) (p_charger p).

Lemma acts_current os p : current_inv p -> current_inv (fold_left region_act os p).
Proof.
  apply region_acts; intros q Hq.
  - exact (update_inv _ _ (current_nonneg q) _ Hq).
  - by apply (add_inv (region_current q) _ plain_timeout).
  - by apply (clear_inv (region_current q) _ plain_timeout).
Qed.

(** An update with a reading in range changes nothing, or enters a region and
    sets the current first. *)
Lemma update_current v t p : region_wf (p_region p) -> 0 <= v <= 4350 -> -40 <= t <= 85 -> current_inv p ->
  current_inv (region_do (REGION_UPDATE_TRIGGER v t (Charger_IsConnected (p_charger p))) p).
Proof.
  intros Hw Hv Ht Hc. unfold region_do, region_handle, batteryRegion_HandleMessage. cbn [fst snd].
  set (c := Charger_IsConnected (p_charger p)).
  destruct (update_acts v t c (p_region p) Hw) as [[E1 E2] | [outs E]]; [destruct c; lia | exact Ht | |].
  - fold (headset_update v t c (p_region p)). rewrite E1, E2. apply acts_current. exact Hc.
  - fold (headset_update v t c (p_region p)). rewrite E. cbn [app fold_left region_act]. apply acts_current.
    destruct Hc as [Hc Hf]. set (q := p <| p_region := _ |>).
    exact (update_inv (region_current p) (region_current q) (current_nonneg q) (p_charger q) (conj Hc Hf)).
Qed.

Lemma power_step_current h o p : parts_inv h p -> (o = PowerRegionUpdate -> 0 <= appBatteryGetVoltageAverage (p_battery p) <= 4350) ->
  current_inv p -> current_inv (power_step o p).
Proof.
  intros (_ & (ht & Ht) & Hr & _) Hv Hp. destruct o as [m | m | m | on | on | | | blocked]; cbn [power_step].
  - exact Hp.
  - exact Hp.
  - apply (charger_message_inv (region_current p) (region_current p)); [| exact Hp]. split; [apply current_nonneg | done].
  - destruct on; apply acts_current; [apply (add_inv _ _ plain_request) | apply (clear_inv _ _ plain_request)]; exact Hp.
  - destruct on; [apply (add_inv _ _ plain_charged) | apply (clear_inv _ _ plain_charged)]; exact Hp.
  - apply update_current; [exact Hr | by apply Hv | | exact Hp]. rewrite (temp_average_value ht _ Ht). pose proof (temp_inv_average ht _ Ht). zlia.
  - by apply acts_current.
  - destruct (p_queue p) as [| x q]; [exact Hp |]. unfold deliver.
    assert (current_inv (p <| p_queue := q |> <| p_soc ::= fun s => soc_read blocked s x |>)) as H1 by exact Hp.
    destruct x as [task mv | task []]; try exact H1.
    + destruct (task =? charger_task); [| exact H1]. apply (charger_message_inv (region_current p) (region_current p)); [| exact Hp].
      split; [apply current_nonneg | done].
    + destruct (task =? region_task); [by apply acts_current | exact H1].
Qed.

Lemma battery_average_in h lo hi d : battery_inv h d -> lo <= 0 <= hi -> steady 5 lo hi h -> lo <= appBatteryGetVoltageAverage d <= hi.
Proof.
  intros Hb Hz Hs. destruct (decide (h = [])) as [-> | Hne].
  - destruct Hb as ((_ & _ & _ & Hf & _) & _ & _ & _ & He & _). unfold appBatteryGetVoltageAverage. rewrite Hf, He. exact Hz.
  - rewrite (battery_average_value h _ Hb Hne). destruct (inv_average h _ Hb Hne) as (_ & Ha & _).
    pose proof (average_within 5 50 lo hi h _ ltac:(lia) Ha Hs). zlia.
Qed.

Lemma steady_prefix window lo hi h h' : steady window lo hi (h ++ h') -> steady window lo hi h.
Proof. intros Hs k Hk. apply Hs. by apply prefix_app_r. Qed.

Lemma power_run_current os h p : parts_inv h p -> steady 5 0 4350 (h ++ power_measurements os p) -> current_inv p -> current_inv (power_run os p).
Proof.
  unfold power_run. revert h p. induction os as [| o os IH]; intros h p Hp Hs Hc; cbn [fold_left power_measurements] in *; [exact Hc |].
  rewrite app_assoc in Hs. apply (IH (h ++ power_measured o p)); [by apply power_step_parts | exact Hs |].
  apply (power_step_current h); [exact Hp | | exact Hc]. intros ->. cbn [power_measured] in Hs. rewrite app_nil_r in Hs.
  apply (battery_average_in h); [apply Hp | lia | exact (steady_prefix _ _ _ _ _ Hs)].
Qed.

(** ** The state of charge *)

(** It is at the entry of the table for [v]. *)
Definition soc_at (s : soc_data_t) (v : Z) : Prop := belongs table (clamp_mv v) (config_index s) /\ is_u8 (state_of_charge s).

(** With the charger attached the entry is shown. *)
Definition soc_shows (s : soc_data_t) : Prop :=
  soc_charger_connected s = true -> state_of_charge s = percentage (entry table (config_index s)).

(** Clients of the monitor other than it. *)
Definition others (l : list battery_client) : Prop := Forall (fun c => b_task c <> soc_task) l.

(** It is a client of the monitor and was told [v], which is within the
    hysteresis of the average. *)
Definition told (b : batteryTaskData) (v : Z) : Prop :=
  (exists rest, b_clients b = mkbclient soc_task soc_hysteresis v :: rest /\ others rest) /\
  (instantaneous b <> 0 -> Z.abs (appBatteryGetVoltageAverage b - v) <= soc_hysteresis).

(** The state of charge once it has read what is on its way, with no upgrade
    checking its hash. *)
Definition soc_reads (xs : list power_mail) (s : soc_data_t) : soc_data_t := fold_left (soc_read false) xs s.
Definition soc_view (p : power) : soc_data_t := soc_reads (p_queue p) (p_soc p).

Definition soc_inv (p : power) : Prop :=
  (exists v, told (p_battery p) v /\ soc_at (soc_view p) v) /\ soc_shows (soc_view p) /\
  soc_charger_connected (soc_view p) = Charger_IsConnected (p_charger p) /\ charger_client_tasks (p_charger p) = [region_task; soc_task].

Lemma soc_reads_app xs ys s : soc_reads (xs ++ ys) s = soc_reads ys (soc_reads xs s).
Proof. apply fold_left_app. Qed.

(** A message. *)
Lemma at_message s v m : soc_at s v -> let s' := fst (soc_HandleMessage table false m s) in
  soc_at s' (match m with MESSAGE_BATTERY_LEVEL_UPDATE_VOLTAGE mv => mv | _ => v end) /\ soc_shows s' /\
  soc_charger_connected s' = match m with SOC_CHARGER_ATTACHED => true | SOC_CHARGER_DETACHED => false | _ => soc_charger_connected s end.
Proof.
  intros [Hi Hu]. pose proof (build_rising BS) as Hrise. destruct (message_charge table false m s Hu) as [Hs Hc]. cbv zeta iota in Hs, Hc.
  pose proof (message_index table false m s) as Hx.
  assert (config_index (fst (soc_HandleMessage table false m s)) = config_index
    match m with
    | MESSAGE_BATTERY_LEVEL_UPDATE_VOLTAGE mv => soc_StateOfChargeUpdate table mv s
    | SOC_CHARGER_ATTACHED => s <| soc_charger_connected := true |>
    | SOC_CHARGER_DETACHED => s <| soc_charger_connected := false |>
    | SOC_MSG_OTHER => s
    end) as Hx' by (rewrite Hx; by destruct m).
  split; [split | split].
  - rewrite Hx. destruct m as [mv | | |]; try exact Hi. apply update_belongs; [exact Hrise | apply Hi].
  - rewrite Hs. pose proof (percentage_u8 table Hrise) as Hp.
    match goal with |- is_u8 (if ?c then percentage (entry _ ?i) else _) => destruct c; [apply Hp | pose proof (Hp i); rlia] end.
  - intros Hon. rewrite Hc in Hon. rewrite Hs, Hon, Hx'. done.
  - rewrite Hc. by destruct m.
Qed.

(** Mail without a voltage for it leaves the entry; mail that is calm leaves
    the connection too. *)
Definition no_voltage (x : power_mail) : Prop := match x with MailVoltage task _ => task <> soc_task | _ => True end.
Definition calm_mail (x : power_mail) : Prop :=
  match x with MailCharger _ (CHARGER_MESSAGE_ATTACHED | CHARGER_MESSAGE_DETACHED) => False | _ => no_voltage x end.

Lemma read_other task mv s : task <> soc_task -> soc_read false s (MailVoltage task mv) = s.
Proof. intros Ht. unfold soc_read. cbn [soc_mail]. by rewrite (proj2 (Z.eqb_neq _ _) Ht). Qed.

Lemma at_reads xs s v : Forall no_voltage xs -> soc_at s v -> soc_at (soc_reads xs s) v.
Proof.
  unfold soc_reads. intros Hx. revert s. induction Hx as [| x xs Hx _ IH]; intros s Hs; cbn [fold_left]; [exact Hs |]. apply IH.
  destruct x as [task mv | task m]; [by rewrite read_other |]. unfold soc_read. cbn [soc_mail]. destruct (task =? soc_task); [| exact Hs].
  destruct m; exact (proj1 (at_message s v _ Hs)).
Qed.

Lemma calm_keeps xs s v : Forall calm_mail xs -> soc_at s v ->
  soc_at (soc_reads xs s) v /\ (soc_shows s -> soc_shows (soc_reads xs s)) /\ soc_charger_connected (soc_reads xs s) = soc_charger_connected s.
Proof.
  unfold soc_reads. intros Hx. revert s. induction Hx as [| x xs Hx _ IH]; intros s Hs; cbn [fold_left]; [done |].
  assert (soc_at (soc_read false s x) v /\ (soc_shows s -> soc_shows (soc_read false s x)) /\
    soc_charger_connected (soc_read false s x) = soc_charger_connected s) as (H1 & H2 & <-).
  { destruct x as [task mv | task m]; [by rewrite read_other |]. unfold soc_read. cbn [soc_mail]. destruct (task =? soc_task); [| done].
    destruct (at_message s v SOC_MSG_OTHER Hs) as (H3 & H4 & H5). by destruct m. }
  destruct (IH _ H1) as (H3 & H4 & H5). auto.
Qed.

Lemma calm_reads xs s v : Forall calm_mail xs -> soc_at s v -> soc_shows s ->
  soc_at (soc_reads xs s) v /\ soc_shows (soc_reads xs s) /\ soc_charger_connected (soc_reads xs s) = soc_charger_connected s.
Proof. intros Hx Hs Hw. destruct (calm_keeps xs s v Hx Hs) as (H1 & H2 & H3). auto. Qed.

Lemma calm_mails outs : Forall calm_out outs -> Forall calm_mail (flat_map charger_mail outs).
Proof.
  induction 1 as [| o outs Ho _ IH]; cbn [flat_map]; [constructor |]. apply Forall_app. split; [| exact IH].
  destruct o; cbn [charger_mail]; try apply Forall_nil_2; try done. apply Forall_fmap, Forall_forall. intros t _. by destruct m.
Qed.

(** ** Every step keeps it *)

Lemma do_calm a p : calm a -> soc_inv p -> soc_inv (charger_do a p).
Proof.
  intros Ha ((v & Ht & Hs) & Hw & Hc & Hl). destruct (Ha (p_charger p)) as (E1 & E2 & Ho).
  unfold soc_inv, soc_view, charger_do, Charger_IsConnected. cbn [p_battery p_soc p_charger p_queue field_set]. rewrite soc_reads_app, E1, E2.
  destruct (calm_reads _ (soc_view p) v (calm_mails _ Ho) Hs Hw) as (H1 & H2 & H3).
  split; [by exists v |]. split; [exact H2 |]. split; [| exact Hl]. unfold soc_view in *. by rewrite H3.
Qed.

Lemma acts_soc os p : soc_inv p -> soc_inv (fold_left region_act os p).
Proof. apply region_acts; intros q; apply do_calm; [apply update_calm | apply add_calm | apply clear_calm]. Qed.

(** The charger tells its clients of a change of its connection. *)
Lemma do_message rc m p : soc_inv p -> soc_inv (charger_do (charger_HandleMessage rc m) p).
Proof.
  intros ((v & Ht & Hs) & Hw & Hc & Hl). destruct (message_told rc m (p_charger p)) as [E2 [[E1 Ho] | (b & -> & E1 & outs & Ho & Eo)]];
    unfold soc_inv, soc_view, charger_do, Charger_IsConnected; cbn [p_battery p_soc p_charger p_queue field_set]; rewrite soc_reads_app, E1, E2.
  - destruct (calm_reads _ (soc_view p) v (calm_mails _ Ho) Hs Hw) as (H1 & H2 & H3).
    split; [by exists v |]. split; [exact H2 |]. split; [| exact Hl]. unfold soc_view in *. by rewrite H3.
  - rewrite Eo, flat_map_app, soc_reads_app. fold (soc_view p). rewrite Hl.
    destruct (calm_reads _ (soc_view p) v (calm_mails _ Ho) Hs Hw) as (H1 & H2 & H3).
    destruct b; [destruct (at_message _ v SOC_CHARGER_ATTACHED H1) as (H4 & H5 & H6) | destruct (at_message _ v SOC_CHARGER_DETACHED H1) as (H4 & H5 & H6)];
      (split; [exists v; split; [exact Ht | exact H4] |]; split; [exact H5 |]; split; [exact H6 | reflexivity]).
Qed.

(** Serving other clients. *)
Lemma service_others b : others (b_clients b) ->
  others (b_clients (fst (appBatteryServiceClients b))) /\ Forall calm_mail (flat_map battery_mail (snd (appBatteryServiceClients b))).
Proof.
  intros Hb. unfold appBatteryServiceClients. cbn [fst snd b_clients field_set]. split.
  - apply Forall_fmap. eapply Forall_impl; [exact Hb |]. intros c Hc. cbn. by destruct (thresholdExceeded _ _ _).
  - revert Hb. generalize (appBatteryGetVoltageAverage b). intros mv. induction 1 as [| c l Hc _ IH]; [constructor |].
    destruct (decide (thresholdExceeded mv (b_voltage c) (hysteresis c) = true)) as [E | E]; [| by rewrite filter_cons_False].
    rewrite filter_cons_True by exact E. by constructor.
Qed.

(** The monitor serves its clients. *)
Lemma battery_service_told b s v rest : b_clients b = mkbclient soc_task soc_hysteresis v :: rest -> others rest -> soc_at s v ->
  let s' := soc_reads (flat_map battery_mail (snd (appBatteryServiceClients b))) s in
  exists v', told (fst (appBatteryServiceClients b)) v' /\ soc_at s' v' /\ (soc_shows s -> soc_shows s') /\
    soc_charger_connected s' = soc_charger_connected s.
Proof.
  intros Hb Hrest Hs. set (mv := appBatteryGetVoltageAverage b). set (c := mkbclient soc_task soc_hysteresis v) in *.
  assert (appBatteryGetVoltageAverage (fst (appBatteryServiceClients b)) = mv) as Hav by (by destruct b).
  set (br := b <| b_clients := rest |>). assert (appBatteryGetVoltageAverage br = mv) as Havr by done.
  destruct (service_others br Hrest) as [Ho Hq]. set (due := thresholdExceeded mv v soc_hysteresis).
  assert (b_clients (fst (appBatteryServiceClients b)) = (if due then c <| b_voltage := mv |> else c) :: b_clients (fst (appBatteryServiceClients br))) as E1.
  { unfold appBatteryServiceClients. cbn [fst b_clients field_set]. rewrite Hb, Havr. reflexivity. }
  assert (flat_map battery_mail (snd (appBatteryServiceClients b)) =
    (if due then [MailVoltage soc_task mv] else []) ++ flat_map battery_mail (snd (appBatteryServiceClients br))) as E2.
  { unfold appBatteryServiceClients. cbn [snd]. rewrite Hb, Havr. fold mv. destruct due eqn:E.
    - by rewrite filter_cons_True.
    - rewrite filter_cons_False; [done |]. cbn [b_voltage hysteresis c]. unfold due in E. by rewrite E. }
  cbv zeta. rewrite E2, soc_reads_app. destruct due eqn:E.
  - destruct (at_message s v (MESSAGE_BATTERY_LEVEL_UPDATE_VOLTAGE mv) Hs) as (H1 & H2 & H3).
    set (s1 := soc_reads [_] s). assert (s1 = fst (soc_HandleMessage table false (MESSAGE_BATTERY_LEVEL_UPDATE_VOLTAGE mv) s)) as E3 by done.
    clearbody s1. subst s1. destruct (calm_reads _ _ _ Hq H1 H2) as (H4 & H5 & H6).
    exists mv. split; [split |].
    + rewrite E1. by eexists.
    + rewrite Hav. intros _. unfold soc_hysteresis. lia.
    + split; [exact H4 |]. split; [by intros _ |]. by rewrite H6.
  - exists v. split; [split |].
    + rewrite E1. by eexists.
    + intros _. rewrite Hav. unfold due, thresholdExceeded, ltThreshold, gtThreshold in E. apply orb_false_iff in E as [E3 E4].
      apply Z.ltb_ge in E3, E4. unfold soc_hysteresis in *. lia.
    + by apply calm_keeps.
Qed.

(** A result of the ADC serves the client, or asks for another. *)
Lemma result_cases source reading b : let r := battery_result vref_const source reading b in
  (b_clients (fst r) = b_clients b /\ appBatteryGetVoltageAverage (fst r) = appBatteryGetVoltageAverage b /\ instantaneous (fst r) = instantaneous b \/
   instantaneous (fst r) = 0 /\ b_clients (fst r) = b_clients b) /\ flat_map battery_mail (snd r) = [] \/
  exists b1, b_clients b1 = b_clients b /\ fst r = fst (appBatteryServiceClients b1) /\
    flat_map battery_mail (snd r) = flat_map battery_mail (snd (appBatteryServiceClients b1)).
Proof.
  unfold battery_result, appBatteryAdcResultHandler. destruct source; [| by left; split; [left |]..].
  set (b1 := b <| cfm_sent := true |>). set (r := if negb (vref_raw b1 =? 0) then battery_take vref_const reading b1 else (0, b1)).
  assert (b_clients (snd r) = b_clients b /\ (fst r = 0 -> instantaneous (snd r) <> 0 ->
    appBatteryGetVoltageAverage (snd r) = appBatteryGetVoltageAverage b /\ instantaneous (snd r) = instantaneous b)) as [Hc Hz].
  { subst r. destruct (negb _); [rewrite battery_take_fields; cbn [fst snd b_clients instantaneous]; split; [done | by intros -> ?] | by destruct b]. }
  set (out := (if cfm_sent b then [] else [BATT_INIT_CFM]) ++ (if battery_level_test_on (snd r) then [] else [BATT_TRIGGER_LATER (period (snd r))])).
  assert (flat_map battery_mail out = []) as Ho by (unfold out; by destruct (cfm_sent b), (battery_level_test_on (snd r))).
  destruct (Z.eqb_spec (fst r) 0) as [He | He]; cbn [negb fst snd].
  - left. split; [| exact Ho]. destruct (Z.eq_dec (instantaneous (snd r)) 0) as [E | E]; [by right |]. left. destruct (Hz He E). done.
  - right. exists (snd r). rewrite flat_map_app, Ho. done.
Qed.

Lemma battery_soc h m p : battery_inv h (p_battery p) -> soc_inv p -> soc_inv (power_step (PowerBattery m) p).
Proof.
  intros Hi ((v & Ht & Hs) & Hw & Hc & Hl). cbn [power_step].
  assert (forall source reading, soc_inv (let r := battery_result vref_const source reading (p_battery p) in
    p <| p_battery := fst r |> <| p_queue ::= fun q => q ++ flat_map battery_mail (snd r) |>)) as Hr.
  { intros source reading. unfold soc_inv, soc_view. cbn [p_battery p_soc p_charger p_queue field_set]. rewrite soc_reads_app. fold (soc_view p).
    destruct (result_cases source reading (p_battery p)) as [[Hsame ->] | (b1 & E1 & -> & ->)].
    - split; [| done]. exists v. split; [| exact Hs]. destruct Ht as [Hb Hav].
      destruct Hsame as [(E1 & E2 & E3) | [E2 E1]]; (split; [by rewrite E1 |]); [by rewrite E2, E3 | by rewrite E2].
    - destruct Ht as [(rest & Eb & Ho) _].
      destruct (battery_service_told b1 (soc_view p) v rest) as (v' & H1 & H2 & H3 & H4); [by rewrite E1 | exact Ho | exact Hs |].
      split; [by exists v' |]. split; [by apply H3 |]. by rewrite H4. }
  assert (forall outs, flat_map battery_mail outs = [] -> forall b, b_clients b = b_clients (p_battery p) -> instantaneous b = instantaneous (p_battery p) ->
    appBatteryGetVoltageAverage b = appBatteryGetVoltageAverage (p_battery p) ->
    soc_inv (p <| p_battery := b |> <| p_queue ::= fun q => q ++ flat_map battery_mail outs |>)) as Hn.
  { intros outs -> b E1 E2 E3. unfold soc_inv, soc_view. cbn [p_battery p_soc p_charger p_queue field_set]. rewrite app_nil_r.
    split; [| done]. exists v. split; [| exact Hs]. unfold told. by rewrite E1, E2, E3. }
  unfold appBatteryHandleMessage. pose proof Hi as ((-> & _) & _). cbn [negb Z.eqb appConfigBatteryReadingPeriodMs].
  destruct m as [source reading | source reading | [] [] |]; cbn [negb]; try (by apply Hn); [| apply Hr].
  destruct (_ && _); [apply Hr | by apply Hn].
Qed.

Lemma power_step_soc h o p : parts_inv h p -> o <> PowerDeliver true -> soc_inv p -> soc_inv (power_step o p).
Proof.
  intros (Hb & _) Hfree Hp. destruct o as [m | m | m | on | on | | | blocked].
  - exact (battery_soc h m p Hb Hp).
  - exact Hp.
  - by apply do_message.
  - cbn [power_step]. destruct on; apply acts_soc, do_calm; try exact Hp; [apply add_calm | apply clear_calm].
  - cbn [power_step]. destruct on; apply do_calm; try exact Hp; [apply add_calm | apply clear_calm].
  - by apply acts_soc.
  - by apply acts_soc.
  - destruct blocked; [done |]. cbn [power_step]. destruct (p_queue p) as [| x q] eqn:E; [exact Hp |]. unfold deliver.
    assert (soc_inv (p <| p_queue := q |> <| p_soc ::= fun s => soc_read false s x |>)) as H1.
    { unfold soc_inv, soc_view in *. rewrite E in Hp. exact Hp. }
    destruct x as [task mv | task []]; try exact H1; [destruct (task =? charger_task) | destruct (task =? region_task)]; try exact H1;
      [by apply do_message | by apply acts_soc].
Qed.

Lemma power_run_soc os h p : parts_inv h p -> PowerDeliver true ∉ os -> soc_inv p -> soc_inv (power_run os p).
Proof.
  unfold power_run. revert h p. induction os as [| o os IH]; intros h p Hp Hos Hs; cbn [fold_left]; [exact Hs |].
  apply not_elem_of_cons in Hos as [Ho Hos].
  apply (IH (h ++ power_measured o p)); [by apply power_step_parts | exact Hos |]. apply (power_step_soc h); [exact Hp | congruence | exact Hs].
Qed.

(** ** Before Soc_Init *)
Definition soc_down (p : power) : Prop :=
  others (b_clients (p_battery p)) /\ charger_client_tasks (p_charger p) = [region_task] /\ Forall no_voltage (p_queue p).

Lemma charger_no_voltage outs : Forall no_voltage (flat_map charger_mail outs).
Proof.
  induction outs as [| o outs IH]; cbn [flat_map]; [constructor |]. apply Forall_app. split; [| exact IH].
  destruct o; cbn [charger_mail]; try apply Forall_nil_2; [apply Forall_fmap, Forall_forall; by intros t _ | by repeat constructor].
Qed.

Lemma do_down a p : charger_client_tasks (fst (a (p_charger p))) = charger_client_tasks (p_charger p) -> soc_down p -> soc_down (charger_do a p).
Proof.
  intros Ha (Hb & Hc & Hq). split; [exact Hb |]. split; [by rewrite <- Hc |]. apply Forall_app. split; [exact Hq | apply charger_no_voltage].
Qed.

Lemma acts_down os p : soc_down p -> soc_down (fold_left region_act os p).
Proof. apply region_acts; intros q; apply do_down; [apply update_calm | apply add_calm | apply clear_calm]. Qed.

Lemma calm_no_voltage xs : Forall calm_mail xs -> Forall no_voltage xs.
Proof. intros Hx. eapply Forall_impl; [exact Hx |]. by intros [] ?. Qed.

Lemma battery_down m b : others (b_clients b) ->
  others (b_clients (fst (appBatteryHandleMessage vref_const m b))) /\ Forall no_voltage (flat_map battery_mail (snd (appBatteryHandleMessage vref_const m b))).
Proof.
  intros Hb. assert (forall source reading, let r := battery_result vref_const source reading b in
    others (b_clients (fst r)) /\ Forall no_voltage (flat_map battery_mail (snd r))) as Hr.
  { intros source reading. cbv zeta. destruct (result_cases source reading b) as [[Hsame ->] | (b1 & E1 & -> & ->)].
    - split; [| constructor]. destruct Hsame as [(-> & _) | [_ ->]]; exact Hb.
    - destruct (service_others b1) as [H1 H2]; [by rewrite E1 | by split; [| apply calm_no_voltage]]. }
  assert (forall b', b_clients b' = b_clients b -> others (b_clients b') /\ Forall no_voltage []) as Hn by (intros b' ->; by split).
  unfold appBatteryHandleMessage. destruct (negb (period b =? 0)); [| by apply Hn].
  destruct m as [source reading | source reading | [] [] |]; cbn [negb]; try (by apply Hn); [| apply Hr].
  destruct (_ && _); [apply Hr | by apply Hn].
Qed.

Lemma power_step_down o p : soc_down p -> soc_down (power_step o p).
Proof.
  intros Hp. pose proof Hp as (Hb & Hc & Hq). destruct o as [m | m | m | on | on | | | blocked]; cbn [power_step].
  - destruct (battery_down m (p_battery p) Hb) as [H1 H2]. split; [exact H1 |]. split; [exact Hc |]. by apply Forall_app.
  - exact Hp.
  - apply do_down; [apply message_told | exact Hp].
  - destruct on; apply acts_down, do_down; try exact Hp; [apply add_calm | apply clear_calm].
  - destruct on; apply do_down; try exact Hp; [apply add_calm | apply clear_calm].
  - by apply acts_down.
  - by apply acts_down.
  - destruct (p_queue p) as [| x q] eqn:E; [exact Hp |]. unfold deliver. apply Forall_cons in Hq as [_ Hq].
    assert (soc_down (p <| p_queue := q |> <| p_soc ::= fun s => soc_read blocked s x |>)) as H1 by done.
    destruct x as [task mv | task []]; try exact H1; [destruct (task =? charger_task) | destruct (task =? region_task)]; try exact H1;
      [apply do_down; [apply message_told | exact H1] | by apply acts_down].
Qed.

Lemma power_run_down os p : soc_down p -> soc_down (power_run os p).
Proof. unfold power_run. revert p. induction os as [| o os IH]; intros p Hp; cbn [fold_left]; [exact Hp |]. by apply IH, power_step_down. Qed.

Lemma batt_run_down ms b : others (b_clients b) -> others (b_clients (batt_run vref_const (BattMessage <$> ms) b)).
Proof. revert b. induction ms as [| m ms IH]; intros b Hb; [exact Hb |]. apply IH, battery_down, Hb. Qed.

Lemma power_boot_down garbage_b garbage_t soc0 connected ms : soc_down (power_boot garbage_b garbage_t soc0 connected ms).
Proof.
  unfold power_boot. set (b := batt_run _ _ _). assert (others (b_clients b)) as Hb by (by apply batt_run_down; constructor).
  set (r := if ENABLE_CHARGER_HYSTERESIS_SW then _ else _).
  assert (others (b_clients (fst r)) /\ Forall no_voltage (flat_map battery_mail (snd r))) as [H1 H2].
  { subst r. destruct ENABLE_CHARGER_HYSTERESIS_SW; [| by split]. set (b1 := b <| b_clients ::= cons (mkbclient charger_task charger_hysteresis 0) |>).
    destruct (service_others b1) as [H1 H2]; [by constructor |]. by split; [| apply calm_no_voltage]. }
  split; [exact H1 |]. unfold charger_do. cbn [p_charger p_queue field_set]. unfold Charger_ClientRegister.
  pose proof (charger_init_clients 0 connected) as E. set (d := fst (Charger_Init 0 connected charger_zero)) in *. clearbody d.
  rewrite E. cbn. rewrite E. split; [done |]. apply Forall_app. split; [exact H2 |]. by repeat constructor.
Qed.

(** The charger tells a new client its connection and its status. *)
Lemma register_told d : charger_client_tasks d = [region_task] ->
  snd (Charger_ClientRegister soc_task d) = (d <| charger_client_tasks := [region_task; soc_task] |>,
    [CHARGER_SEND soc_task (if Charger_IsConnected d then CHARGER_MESSAGE_ATTACHED else CHARGER_MESSAGE_DETACHED);
     CHARGER_SEND soc_task (charger_StatusMessageId (status d))]).
Proof. intros Hc. unfold Charger_ClientRegister. rewrite Hc. cbn. by rewrite Hc. Qed.

Lemma read_connection c s : soc_read false s (MailCharger soc_task (if c : bool then CHARGER_MESSAGE_ATTACHED else CHARGER_MESSAGE_DETACHED)) =
  fst (soc_HandleMessage table false (if c then SOC_CHARGER_ATTACHED else SOC_CHARGER_DETACHED) s).
Proof. by destruct c. Qed.

Lemma register_soc p v : charger_client_tasks (p_charger p) = [region_task] -> told (p_battery p) v -> soc_at (soc_view p) v ->
  soc_inv (charger_do (fun d => snd (Charger_ClientRegister soc_task d)) p).
Proof.
  intros Hc Ht Hs. unfold soc_inv, soc_view, charger_do. rewrite (register_told _ Hc). cbn [p_battery p_soc p_charger p_queue field_set fst snd flat_map charger_mail app].
  rewrite soc_reads_app. fold (soc_view p). set (c := Charger_IsConnected (p_charger p)).
  change (soc_reads [?x; ?y] ?s) with (soc_reads [y] (soc_read false s x)). rewrite read_connection.
  destruct (at_message (soc_view p) v (if c then SOC_CHARGER_ATTACHED else SOC_CHARGER_DETACHED) Hs) as (H1 & H2 & H3).
  set (s1 := fst (soc_HandleMessage _ _ _ _)) in *. clearbody s1.
  assert (soc_at s1 v) as H1' by (destruct c; exact H1).
  destruct (calm_reads [MailCharger soc_task (charger_StatusMessageId (status (p_charger p)))] s1 v) as (H4 & H5 & H6);
    [repeat constructor; by destruct (status (p_charger p)) | exact H1' | exact H2 |].
  split; [by exists v |]. split; [exact H5 |]. split; [| done]. rewrite H6, H3. transitivity c; [by destruct c | done].
Qed.

Lemma soc_init_soc stored p : soc_down p -> match stored with Some soc => is_u8 soc | None => True end -> soc_inv (soc_init stored p).
Proof.
  intros (Hb & Hc & Hq) Hst. set (s0 := fst (Soc_Init stored (Charger_IsConnected (p_charger p)))).
  assert (soc_at s0 0) as H0.
  { pose proof (build_rising BS) as (Hs & _). split.
    - change (config_index s0) with 0. split; [lia |]. split; [by left |]. intros _. unfold headset_soc_config_table. by destruct SOC_INCLUDE_SMART_HELMET.
    - cbn. destruct stored; [exact Hst | rlia]. }
  set (b1 := (p_battery p) <| b_clients ::= cons (mkbclient soc_task soc_hysteresis 0) |>).
  destruct (battery_service_told b1 (soc_reads (p_queue p) s0) 0 (b_clients (p_battery p))) as (v & Ht & H1 & _);
    [done | exact Hb | by apply at_reads |].
  apply register_soc with v; [exact Hc | exact Ht |].
  unfold soc_view. cbn [p_soc p_queue field_set]. rewrite soc_reads_app. exact H1.
Qed.

(** ** Time-out *)

(** The calls of the regions leave the regions. *)
Lemma region_do_region m p : p_region (region_do m p) = fst (region_handle m (p_region p)).
Proof.
  unfold region_do. set (r := fst _). assert (p_region (p <| p_region := r |>) = r) as Hp by done. revert Hp. generalize (p <| p_region := r |>).
  intros q Hq. by apply (region_acts (fun q => p_region q = r)).
Qed.

(** Off by the time-out, and no message to the regions that would end it. *)
Definition timeout_inv (p : power) : Prop :=
  timed_out (p_charger p) /\ MailCharger region_task CHARGER_MESSAGE_DETACHED ∉ p_queue p.

Lemma timed_out_off d : timed_out d -> is_enabled d = false.
Proof. intros [[_ ->] Hb]. apply Z.eqb_neq. intros E. unfold reason_on in Hb. rewrite E in Hb. by rewrite Z.bits_0 in Hb. Qed.

Lemma enabled_connected R d : charger_inv R d -> is_enabled d = true -> is_connected d = 1 /\ 0 < fast_current d.
Proof.
  intros [(c & Hc & ((_ & He) & Hb & Hcn & Hf & _) & Hz & _) _] Hon. rewrite He in Hon. apply Z.eqb_eq in Hon. unfold reason_on in *.
  rewrite Hon, Z.bits_0 in *. symmetry in Hb, Hz. apply Z.eqb_neq in Hb, Hz. lia.
Qed.

(** Mail without the message. *)
Lemma calm_no_detached xs : Forall calm_mail xs -> MailCharger region_task CHARGER_MESSAGE_DETACHED ∉ xs.
Proof. rewrite Forall_forall. intros Hx Hin. exact (Hx _ Hin). Qed.

Lemma do_queue a p : calm a -> MailCharger region_task CHARGER_MESSAGE_DETACHED ∉ p_queue p ->
  MailCharger region_task CHARGER_MESSAGE_DETACHED ∉ p_queue (charger_do a p).
Proof.
  intros Hc Hq. unfold charger_do. cbn [p_queue field_set]. rewrite not_elem_of_app. split; [exact Hq |].
  apply calm_no_detached, calm_mails, Hc.
Qed.

Lemma do_timed_out a p : leads_to timed_out timed_out a -> calm a -> timeout_inv p -> timeout_inv (charger_do a p).
Proof.
  intros Ha Hc [Hp Hq]. split; [by apply Ha | by apply do_queue].
Qed.

(** No output of a step clears it but that to the message. *)
Lemma acts_timed_out os p : CHARGER_CLEAR_TIMEOUT ∉ os -> timeout_inv p -> timeout_inv (fold_left region_act os p).
Proof.
  revert p. induction os as [| o os IH]; intros p Hos Hp; [exact Hp |]. apply not_elem_of_cons in Hos as [Ho Hos]. cbn [fold_left]. apply IH; [exact Hos |].
  destruct o; cbn [region_act]; try exact Hp; [| | done].
  - apply do_timed_out; [apply update_timed_out | apply update_calm | exact Hp].
  - apply do_timed_out; [by apply add_timed_out | apply add_calm | exact Hp].
Qed.

Lemma timer_times_out R p : charger_inv R (p_charger p) -> MailCharger region_task CHARGER_MESSAGE_DETACHED ∉ p_queue p ->
  timeout_inv (power_step PowerRegionTimer p).
Proof.
  intros [(c & _ & (He & _) & _) _] Hq. cbn [power_step]. unfold region_do. cbn [region_handle batteryRegion_HandleMessage snd app fold_left region_act].
  split; [| apply do_queue; [apply add_calm | exact Hq]].
  set (d := p_charger p) in *. change (timed_out (fst (Charger_DisableReasonAdd CHARGER_DISABLE_REASON_TIMEOUT d))). destruct (add_fields CHARGER_DISABLE_REASON_TIMEOUT d ltac:(done) He) as (_ & _ & _ & Hb).
  split; [apply (reasons_ok (added 1)); [by apply add_reasons | apply added_nonneg; [done | apply He] | exact He] |].
  rewrite Hb by done. apply orb_true_r.
Qed.

Lemma update_no_clear v t c d : CHARGER_CLEAR_TIMEOUT ∉ snd (region_handle (REGION_UPDATE_TRIGGER v t c) d).
Proof.
  cbn [region_handle batteryRegion_HandleMessage snd]. rewrite not_elem_of_app. split; [| by rewrite list_elem_of_singleton].
  unfold batteryRegion_UpdateRegion. destruct (batteryRegion_VolTempInRegion _ _ _ _ _ _ true); [apply not_elem_of_nil |].
  generalize (select_table headset_charge_mode_config_table headset_discharge_mode_config_table c d). intros d1.
  generalize (Z.to_nat (region_table_len d1)) 0. intros n. induction n as [| n IH]; intros i; cbn [find_region]; [apply not_elem_of_nil |].
  destruct (batteryRegion_VolTempInRegion _ _ _ _ _ _ false); [| apply IH].
  unfold enter_region, batteryRegion_ServiceClients. cbn [snd andb client_tasks field_set]. rewrite andb_false_r.
  destruct (negb _ && negb _), (client_tasks _); cbn; rewrite !not_elem_of_cons; split_and!; done || apply not_elem_of_nil.
Qed.

Lemma stop_no_clear (b : bool) : CHARGER_CLEAR_TIMEOUT ∉ (if b then forced_stop_charging_timer else []).
Proof. destruct b; [unfold forced_stop_charging_timer |]; rewrite ?not_elem_of_cons; split_and?; try done; apply not_elem_of_nil. Qed.

(** A message of the charger other than that it is detached. *)
Lemma message_timed_out_inv m p : m <> MESSAGE_CHARGER_CHANGED false -> timeout_inv p ->
  timeout_inv (charger_do (charger_HandleMessage (region_current p) m) p).
Proof.
  intros Hm [Ht Hq]. split; [by apply message_timed_out |].
  unfold charger_do. cbn [p_queue field_set]. rewrite not_elem_of_app. split; [exact Hq |].
  destruct (message_told (region_current p) m (p_charger p)) as [_ [[_ Hc] | (b & -> & _ & outs & Hc & ->)]]; [by apply calm_no_detached, calm_mails |].
  destruct b; [| done]. rewrite flat_map_app, not_elem_of_app. split; [by apply calm_no_detached, calm_mails |].
  cbn. rewrite app_nil_r. intros Hin. by apply list_elem_of_fmap in Hin as (t & ? & _).
Qed.

(** What ends it: the hardware reports that the charger is detached, or, where
    the source sets the forced timer, the user asks for the charger. *)
Definition ends_timeout (o : power_op) : bool :=
  match o with PowerCharger (MESSAGE_CHARGER_CHANGED false) => true | PowerRequest false => CHARGER_HJC_11Be | _ => false end.

Lemma step_timed_out o p : ends_timeout o = false -> timeout_inv p -> timeout_inv (power_step o p).
Proof.
  intros Ho Hp. pose proof Hp as [Ht Hq]. destruct o as [m | m | m | on | on | | | blocked]; cbn [power_step].
  - split; [exact Ht |]. cbn [p_queue field_set]. rewrite not_elem_of_app. split; [exact Hq |]. generalize (snd (appBatteryHandleMessage vref_const m (p_battery p))). intros outs Hin.
    apply list_elem_of_In, in_flat_map in Hin as (x & _ & Hx). destruct x; cbn in Hx; intuition congruence.
  - exact Hp.
  - apply message_timed_out_inv; [by intros -> | exact Hp].
  - destruct on; [apply acts_timed_out; [exact (stop_no_clear CHARGER_HJC_11Be) |] |
      unfold Charger_RestoreState_regions; cbn [ends_timeout] in Ho; rewrite Ho; cbn [fold_left]];
      (apply do_timed_out; [| | exact Hp]); [by apply add_timed_out | apply add_calm | by apply clear_timed_out | apply clear_calm].
  - destruct on; (apply do_timed_out; [| | exact Hp]); [by apply add_timed_out | apply add_calm | by apply clear_timed_out | apply clear_calm].
  - apply acts_timed_out; [apply update_no_clear | exact Hp].
  - apply acts_timed_out; [| exact Hp]. cbn. by rewrite list_elem_of_singleton.
  - destruct (p_queue p) as [| x q] eqn:E; [exact Hp |]. apply not_elem_of_cons in Hq as [Hx Hq]. unfold deliver.
    assert (timeout_inv (p <| p_queue := q |> <| p_soc ::= fun s => soc_read blocked s x |>)) as H1 by done.
    destruct x as [task mv | task []]; try exact H1.
    + destruct (task =? charger_task); [by apply message_timed_out_inv | exact H1].
    + destruct (Z.eqb_spec task region_task) as [-> | _]; [done | exact H1].
Qed.

Lemma run_timed_out os p : Forall (fun o => ends_timeout o = false) os -> timeout_inv p -> timed_out (p_charger (power_run os p)).
Proof.
  unfold power_run. intros Hos. revert p. induction Hos as [| o os Ho _ IH]; intros p Hp; cbn [fold_left]; [apply Hp |].
  apply IH. by apply step_timed_out.
Qed.

(** ** What the parts show together *)

(** The state after the initialisations, with what the monitor handled before
    Charger_Init ([ms]) and the steps before Soc_Init ([os0]). *)
Definition power_start (garbage_b garbage_t : list Z) (soc0 : soc_data_t) (connected : bool) (ms : list batt_msg) (os0 : list power_op)
    (stored : option Z) : power :=
  soc_init stored (power_run os0 (power_boot garbage_b garbage_t soc0 connected ms)).

(** The voltages measured from the start on. *)
Definition power_history (garbage_b garbage_t : list Z) (soc0 : soc_data_t) (connected : bool) (ms : list batt_msg) (os0 : list power_op)
    (stored : option Z) (os : list power_op) : list Z :=
  (measurements vref_const (BattMessage <$> ms) (battery_start garbage_b) ++
   power_measurements os0 (power_boot garbage_b garbage_t soc0 connected ms)) ++
  power_measurements os (power_start garbage_b garbage_t soc0 connected ms os0 stored).

Section started.
Context (garbage_b garbage_t : list Z) (soc0 : soc_data_t) (connected : bool) (ms : list batt_msg) (os0 : list power_op) (stored : option Z).
Context (garbage_b_len : alen garbage_b = 5) (garbage_t_len : alen garbage_t = 5)
  (stored_ok : match stored with Some soc => is_u8 soc | None => True end).

Notation start := (power_start garbage_b garbage_t soc0 connected ms os0 stored).
Notation history := (power_history garbage_b garbage_t soc0 connected ms os0 stored).

Lemma started_parts os : parts_inv (history os) (power_run os start).
Proof. apply power_run_parts, soc_init_parts, power_run_parts. by apply power_boot_parts. Qed.

Lemma started_soc os : PowerDeliver true ∉ os -> soc_inv (power_run os start).
Proof.
  intros Hos. eapply power_run_soc; [apply (started_parts []) | exact Hos |].
  apply soc_init_soc; [apply power_run_down, power_boot_down | exact stored_ok].
Qed.

Lemma started_current os : steady 5 0 4350 (history os) -> current_inv (power_run os start).
Proof.
  intros Hs. unfold power_history in Hs. pose proof (steady_prefix _ _ _ _ _ Hs) as Hs0.
  apply (power_run_current os (history [])); [apply (started_parts []) | unfold power_history; by rewrite <- app_assoc, app_nil_l |].
  assert (current_inv (power_run os0 (power_boot garbage_b garbage_t soc0 connected ms))) as H0.
  { eapply power_run_current; [by apply power_boot_parts | exact Hs0 |]. by apply register_keeps, charger_init_inv. }
  unfold current_inv, soc_init, charger_do. cbn [p_charger p_region field_set]. by apply register_keeps.
Qed.

(** [C18] After 27 equal measurements, with the charger attached and the
    messages delivered, the charge reported is the one the table gives for a
    voltage within 7 mV of them, whatever was measured, attached or taken off
    before, provided that no message was delivered to the state of charge
    while an upgrade checked its hash (it drops voltages then, and the monitor
    does not repeat them). *)
Theorem charge_follows_voltage os1 os2 k r :
  let p1 := power_run os1 start in
  let p2 := power_run os2 p1 in
  PowerDeliver true ∉ os1 ++ os2 -> power_measurements os2 p1 = replicate k r -> (27 <= k)%nat -> 0 < r ->
  Charger_IsConnected (p_charger p2) = true -> p_queue p2 = [] ->
  exists v i, r - 7 <= v <= r + 6 /\ belongs table (clamp_mv v) i /\ Soc_GetBatterySoc (p_soc p2) = percentage (entry table i).
Proof.
  intros p1 p2 Hfree Hm Hk Hr Hon Hq. apply not_elem_of_app in Hfree as [Hfree1 Hfree2].
  pose proof (started_parts os1) as H1. fold p1 in H1. pose proof (power_run_soc os2 _ p1 H1 Hfree2 (started_soc os1 Hfree1)) as Hsoc. fold p2 in Hsoc.
  pose proof (power_run_parts os2 _ p1 H1) as H2. fold p2 in H2. rewrite Hm in H2. set (h := history os1) in H2. clearbody h.
  destruct H2 as (Hb & _). destruct Hsoc as ((v & (_ & Hav) & Hx & Hu) & Hs & Hc & _).
  unfold soc_view in *. rewrite Hq in *. cbn [soc_reads fold_left] in *.
  assert (h ++ replicate k r <> []) as Hne by (destruct k; [lia |]; by destruct h).
  destruct (inv_average _ _ Hb Hne) as (_ & Ha & _).
  assert (instantaneous (p_battery p2) = r) as Hinst.
  { apply (median_settled 5 h k); [lia |]. destruct Hb as (_ & _ & _ & Hb). destruct (h ++ replicate k r); [done | apply Hb]. }
  assert (Z.abs (current_ema (p_battery p2) - 100 * r) <= 1) as Hd.
  { apply (average_reaches 5 0 65535 23 h k r); [done | cbn; lia | cbn; lia | | lia | exact Ha].
    destruct Hb as (_ & _ & Hall & _). eapply Forall_impl; [exact Hall |]. unfold is_u16. lia. }
  specialize (Hav ltac:(lia)). rewrite (battery_average_value _ _ Hb Hne) in Hav. unfold soc_hysteresis in Hav.
  exists v, (config_index (p_soc p2)). split; [zlia |]. split; [exact Hx |].
  unfold Soc_GetBatterySoc. rewrite u8_small by done. apply Hs. by rewrite Hc.
Qed.

(** [C4] While the measured voltages stay in the range of the tables, the
    charger never draws more than the regions allow, and is on only for a
    current they allow; an update of the regions finds one for the voltage and
    the temperature reported; and after it the helmet's charger draws 1 mA at
    most outside -1 to 46 degrees and above 3350 mV. *)
Theorem charging_current_safe os :
  let p := power_run os start in
  let p' := power_step PowerRegionUpdate p in
  let voltage := appBatteryGetVoltageAverage (p_battery p) in
  let temperature := appTemperatureGetAverage (p_temp p) in
  steady 5 0 4350 (history os) ->
  fast_current (p_charger p) <= region_current p /\
  (is_enabled (p_charger p) = true -> is_connected (p_charger p) = 1 /\ 0 < fast_current (p_charger p)) /\
  region (p_region p') <> BATTERY_REGION_UNDEFINED /\
  region_has true (region_limits headset_charge_mode_config_table headset_discharge_mode_config_table
    (region_table (p_region p')) (region (p_region p'))) voltage temperature /\
  (REGION_INCLUDE_SMART_HELMET = true -> Charger_IsConnected (p_charger p) = true -> 3350 < voltage -> temperature < -1 \/ 46 < temperature ->
   fast_current (p_charger p') <= 1).
Proof.
  intros p p' voltage temperature Hs. pose proof (started_parts os) as Hp. fold p in Hp.
  pose proof (started_current os Hs) as Hc. fold p in Hc.
  pose proof Hp as (Hb & (ht & Ht) & Hw & _). assert (0 <= voltage <= 4350) as Hv by (apply (battery_average_in (history os)); [exact Hb | lia | exact Hs]).
  assert (-40 <= temperature <= 85) as Htr.
  { unfold temperature. rewrite (temp_average_value ht _ Ht). pose proof (temp_inv_average ht _ Ht). zlia. }
  assert (current_inv p') as Hc' by (exact (power_step_current _ PowerRegionUpdate p Hp (fun _ => Hv) Hc)).
  assert (p_region p' = fst (headset_update voltage temperature (Charger_IsConnected (p_charger p)) (p_region p))) as Hd by apply region_do_region.
  destruct (update_region (p_region p) voltage temperature (Charger_IsConnected (p_charger p)) Hw) as (_ & _ & Hr & Hhas);
    [destruct (Charger_IsConnected _); lia | exact Htr |]. rewrite <- Hd in Hr, Hhas.
  split; [apply Hc |]. split; [by apply (enabled_connected (region_current p)) |]. split; [exact Hr |]. split; [exact Hhas |].
  intros Hh Hon Hlow Hout. destruct Hc' as [_ Hc']. transitivity (region_current p'); [exact Hc' |].
  unfold region_current. rewrite Hd, Hon. apply update_current_low; done || lia.
Qed.

(** [C10] Once the charging timer has fired, with no message on its way to the
    regions that the charger was detached, the charger stays off, whatever is
    measured, updated or delivered, until the hardware reports that it is
    detached or, in the debug build, the user's disabling of the charger is
    taken back (Charger_RestoreState restarts the timer there). *)
Theorem charging_timeout_holds os1 os2 :
  MailCharger region_task CHARGER_MESSAGE_DETACHED ∉ p_queue (power_run os1 start) ->
  PowerCharger (MESSAGE_CHARGER_CHANGED false) ∉ os2 -> (CHARGER_HJC_11Be = true -> PowerRequest false ∉ os2) ->
  is_enabled (p_charger (power_run os2 (power_step PowerRegionTimer (power_run os1 start)))) = false.
Proof.
  intros Hq Hos Hreq. set (p := power_run os1 start) in *. assert (timeout_inv (power_step PowerRegionTimer p)) as Hi.
  { destruct (started_parts os1) as (_ & _ & _ & R & Hc). fold p in Hc. by apply timer_times_out with R. }
  apply timed_out_off, run_timed_out; [| exact Hi]. apply Forall_forall. intros o Ho.
  destruct o as [| | m | [] | | | |]; try done; cbn [ends_timeout].
  - by destruct m as [| | [] | | |].
  - destruct CHARGER_HJC_11Be; [by destruct (Hreq eq_refl) | done].
Qed.
End started.
End power.

(** * A day

    The helmet at 3.7 V and 25 degrees is put on the charger. *)
Definition measure (mv : Z) : list power_op :=
  [PowerBattery (BATT_ADC_RESULT adcsel_vref_hq_buff 1000); PowerBattery (BATT_ADC_RESULT adcsel_pmu_vbat_sns mv)].
Definition measure_temp (mv : Z) : list power_op :=
  [PowerTemperature (TEMP_ADC_RESULT temp_vref 1000); PowerTemperature (TEMP_ADC_RESULT temp_thermistor mv)].
Definition delivered : list power_op := repeat (PowerDeliver false) 8.

Notation day_run := (power_run (BS := helmet_soc) (BT := helmet_release) (BR := helmet_region) (BC := charger_release) 1000 true).
Notation day_soc := (mksoc 0 false 0 0 0 [] 0).
Notation day_garbage := [3; -9; 0; 127; 5].
Definition morning : power :=
  power_start (BS := helmet_soc) (BT := helmet_release) (BR := helmet_region) (BC := charger_release) 1000 true uninitialised day_garbage
    day_soc false [] (measure 3700) (Some 80).
Definition day_history (os : list power_op) : list Z :=
  power_history (BS := helmet_soc) (BT := helmet_release) (BR := helmet_region) (BC := charger_release) 1000 true uninitialised day_garbage
    day_soc false [] (measure 3700) (Some 80) os.

Definition plugged_in : list power_op :=
  measure_temp 1600 ++ delivered ++ [PowerRegionUpdate; PowerCharger (MESSAGE_CHARGER_CHANGED true)] ++ delivered ++
  [PowerRegionUpdate; PowerCharger (MESSAGE_CHARGER_STATUS FAST_CHARGE)].
Definition charging : list power_op := mjoin (repeat (measure 3900) 27) ++ delivered.

Ltac not_in := repeat (apply not_elem_of_cons; split; [discriminate |]); apply not_elem_of_nil.

Lemma charge_follows_voltage_witness :
  exists v i, 3900 - 7 <= v <= 3900 + 6 /\ belongs helmet_table (clamp_mv v) i /\
    Soc_GetBatterySoc (p_soc (day_run charging (day_run plugged_in morning))) = percentage (entry helmet_table i).
Proof.
  apply (@charge_follows_voltage helmet_soc helmet_release helmet_region charger_release 1000 true ltac:(done) ltac:(done) uninitialised day_garbage
    day_soc false [] (measure 3700) (Some 80) ltac:(done) ltac:(done) ltac:(done) plugged_in charging 27 3900);
    vm_compute; [not_in | done || reflexivity ..].
Defined.

(** At 3.9 V and 70 degrees. *)
Definition hot : list power_op := plugged_in ++ charging ++ mjoin (repeat (measure_temp 578) 30).

Notation hot_end := (day_run hot morning).
Notation hot_update := (power_step (BS := helmet_soc) (BT := helmet_release) (BR := helmet_region) (BC := charger_release) 1000 true PowerRegionUpdate hot_end).

Lemma charging_current_safe_witness :
  fast_current (p_charger hot_end) <= region_current (BR := helmet_region) hot_end /\
  (is_enabled (p_charger hot_end) = true -> is_connected (p_charger hot_end) = 1 /\ 0 < fast_current (p_charger hot_end)) /\
  region (p_region hot_update) <> BATTERY_REGION_UNDEFINED /\
  region_has true (region_limits (headset_charge_mode_config_table (H := helmet_region)) headset_discharge_mode_config_table
    (region_table (p_region hot_update)) (region (p_region hot_update)))
    (appBatteryGetVoltageAverage (p_battery hot_end)) (appTemperatureGetAverage (p_temp hot_end)) /\
  (REGION_INCLUDE_SMART_HELMET (RegionBuild := helmet_region) = true -> Charger_IsConnected (p_charger hot_end) = true ->
   3350 < appBatteryGetVoltageAverage (p_battery hot_end) ->
   appTemperatureGetAverage (p_temp hot_end) < -1 \/ 46 < appTemperatureGetAverage (p_temp hot_end) -> fast_current (p_charger hot_update) <= 1).
Proof.
  apply (@charging_current_safe helmet_soc helmet_release helmet_region charger_release 1000 true ltac:(done) ltac:(done) uninitialised day_garbage
    day_soc false [] (measure 3700) (Some 80) ltac:(done) ltac:(done) hot).
  apply steadyb_steady. vm_compute. reflexivity.
Defined.

(** The hypotheses of its last part hold there, and the current falls from
    500 to 1 mA. *)
Example hot_day : (Charger_IsConnected (p_charger hot_end), appBatteryGetVoltageAverage (p_battery hot_end), appTemperatureGetAverage (p_temp hot_end),
  (is_enabled (p_charger hot_end), fast_current (p_charger hot_end)), (is_enabled (p_charger hot_update), fast_current (p_charger hot_update))) =
  (true, 3899, 69, (true, 500), (true, 1)).
Proof. vm_compute. reflexivity. Qed.

(** The timer fires while it charges; the battery then falls and the charger
    would charge it again. *)
Definition flat : list power_op := mjoin (repeat (measure 3200) 27) ++ [PowerRegionUpdate; PowerCharger (MESSAGE_CHARGER_STATUS STANDBY)] ++ delivered.
Lemma charging_timeout_holds_witness :
  is_enabled (p_charger (day_run flat (power_step (BS := helmet_soc) (BT := helmet_release) (BR := helmet_region) (BC := charger_release) 1000 true
    PowerRegionTimer (day_run (plugged_in ++ charging) morning)))) = false.
Proof.
  apply (@charging_timeout_holds helmet_soc helmet_release helmet_region charger_release 1000 true ltac:(done) ltac:(done) uninitialised day_garbage
    day_soc false [] (measure 3700) (Some 80) ltac:(done) ltac:(done) (plugged_in ++ charging) flat);
    vm_compute; [not_in | not_in | done].
Defined.
