(* ===== verification/SystemState.v ===== *)
(** The system state: system_state.c, which runs the tables of steps that the
    headset registers for its transitions between power states. *)
From S2P Require Import Prelude.

(** * Data *)

(** [system_state_state_t] *)
Definition system_state_powered_off : Z := Z.shiftl 1 1.
Definition system_state_initialisation : Z := Z.shiftl 1 2.
Definition system_state_initialised : Z := Z.shiftl 1 3.
Definition system_state_starting_up : Z := Z.shiftl 1 4.
Definition system_state_limbo : Z := Z.shiftl 1 5.
Definition system_state_powering_on : Z := Z.shiftl 1 6.
Definition system_state_active : Z := Z.shiftl 1 7.
Definition system_state_powering_off : Z := Z.shiftl 1 8.
Definition system_state_going_to_sleep : Z := Z.shiftl 1 9.
Definition system_state_sleeping : Z := Z.shiftl 1 10.
Definition system_state_shutting_down : Z := Z.shiftl 1 11.
Definition system_state_shutting_down_promptly : Z := Z.shiftl 1 12.

(** [system_state_step_t]: its function is named by the table and the index;
    an identifier of 0 means that it does not wait. *)
Record system_state_step_t := mkstep { async_message_id : Z; async_handler : bool }.

Inductive transition_table_ref := T_INIT | T_STARTUP | T_POWER_ON | T_POWER_OFF | T_SLEEP | T_SHUTDOWN | T_EMERGENCY.
#[export] Instance transition_table_ref_dec : EqDecision transition_table_ref.
Proof. solve_decision. Defined.

(** [system_state_ctx_t] with the current transition; a table that is not
    registered is empty. *)
Record system_state_ctx_t := mksys {
  sys_state : Z;
  state_change_listeners : list Z;
  is_limbo_removed : bool;
  current_table : option transition_table_ref;
  step_index : Z;
  state_on_completition : Z;
  tables : transition_table_ref -> list system_state_step_t }.
#[export] Instance sys_eta : RecordEta system_state_ctx_t := fun r =>
  mksys (sys_state r) (state_change_listeners r) (is_limbo_removed r) (current_table r) (step_index r) (state_on_completition r) (tables r).

Inductive sys_out :=
| SYSTEM_STEP (t : transition_table_ref) (i : Z)
| SYSTEM_STEP_HANDLER (t : transition_table_ref) (i : Z)
| SYSTEM_STATE_CHANGE (listeners : list Z) (old_state new_state : Z)
| SYSTEM_LOG.

(** * The file *)
Definition SystemState_Init : system_state_ctx_t := mksys system_state_powered_off [] false None 0 0 (fun _ => []).

Definition SystemState_RemoveLimboState (s : system_state_ctx_t) : system_state_ctx_t := s <| is_limbo_removed := true |>.

(** The seven SystemState_RegisterTableFor... functions. *)
Definition systemState_RegisterTable (t : transition_table_ref) (l : list system_state_step_t) (s : system_state_ctx_t) : system_state_ctx_t :=
  s <| tables := fun t' => if decide (t' = t) then l else tables s t' |>.

Definition systemState_SetState (new_state : Z) (s : system_state_ctx_t) : system_state_ctx_t * list sys_out :=
  (s <| sys_state := new_state |>, [SYSTEM_STATE_CHANGE (state_change_listeners s) (sys_state s) new_state]).

Definition systemState_CompleteTransition (s : system_state_ctx_t) : system_state_ctx_t * list sys_out :=
  systemState_SetState (state_on_completition s) s.

(** From step [i] of the table [t], with the steps [rest] to go: where it
    stops, and whether it waits there. *)
Fixpoint run_steps (t : transition_table_ref) (i : Z) (rest : list system_state_step_t) : Z * bool * list sys_out :=
  match rest with
  | [] => (i, false, [])
  | st :: rest =>
    if negb (async_message_id st =? 0) then (i, true, [SYSTEM_STEP t i])
    else let r := run_steps t (i + 1) rest in (fst r, SYSTEM_STEP t i :: snd r)
  end.

Definition systemState_DoTransition (t : transition_table_ref) (s : system_state_ctx_t) : system_state_ctx_t * list sys_out :=
  let i := u32 (step_index s + 1) in
  let r := run_steps t i (drop (Z.to_nat i) (tables s t)) in
  let s := s <| step_index := fst (fst r) |> in
  if snd (fst r) then (s, snd r)
  else let c := systemState_CompleteTransition s in (fst c, snd r ++ snd c).

(** None where it reads through no transition, or beyond the table. *)
Definition systemState_MessageHandler (id : Z) (s : system_state_ctx_t) : option (system_state_ctx_t * list sys_out) :=
  match current_table s with
  | None => None
  | Some t =>
    match tables s t with
    | [] => Some (s, [SYSTEM_LOG])
    | l =>
      match l !! Z.to_nat (step_index s) with
      | None => None
      | Some st =>
        if negb (id =? async_message_id st) then Some (s, [SYSTEM_LOG])
        else
          let r := systemState_DoTransition t s in
          Some (fst r, (if async_handler st then [SYSTEM_STEP_HANDLER t (step_index s)] else []) ++ snd r)
      end
    end
  end.

Definition SystemState_RegisterForStateChanges (listener : Z) (s : system_state_ctx_t) : system_state_ctx_t :=
  if existsb (Z.eqb listener) (state_change_listeners s) then s else s <| state_change_listeners ::= fun l => l ++ [listener] |>.

Definition SystemState_GetState (s : system_state_ctx_t) : Z := sys_state s.

(** The index starts at -1, unsigned. *)
Definition systemState_SetupCurrentTransition (t : transition_table_ref) (end_state : Z) (s : system_state_ctx_t) : system_state_ctx_t :=
  s <| current_table := Some t |> <| step_index := u32 (-1) |> <| state_on_completition := end_state |>.

(** Both after the check of the state. *)
Definition begin_transition (transitional_state end_state : Z) (t : transition_table_ref) (s : system_state_ctx_t) : system_state_ctx_t * list sys_out :=
  let a := systemState_SetState transitional_state s in
  let r := systemState_DoTransition t (systemState_SetupCurrentTransition t end_state (fst a)) in
  (fst r, snd a ++ snd r).

Definition systemState_InitiateTransiton (start_state transitional_state end_state : Z) (t : transition_table_ref) (s : system_state_ctx_t) :
    bool * (system_state_ctx_t * list sys_out) :=
  if Z.land (SystemState_GetState s) start_state =? 0 then (false, (s, [SYSTEM_LOG]))
  else (true, begin_transition transitional_state end_state t s).

Definition SystemState_Initialise (s : system_state_ctx_t) : bool * (system_state_ctx_t * list sys_out) :=
  systemState_InitiateTransiton system_state_powered_off system_state_initialisation system_state_initialised T_INIT s.
Definition SystemState_StartUp (s : system_state_ctx_t) : bool * (system_state_ctx_t * list sys_out) :=
  let dest_state := if is_limbo_removed s then system_state_active else system_state_limbo in
  systemState_InitiateTransiton system_state_initialised system_state_starting_up dest_state T_STARTUP s.
Definition SystemState_PowerOn (s : system_state_ctx_t) : bool * (system_state_ctx_t * list sys_out) :=
  if is_limbo_removed s then (false, (s, []))
  else systemState_InitiateTransiton (Z.lor system_state_powering_off system_state_limbo) system_state_powering_on system_state_active T_POWER_ON s.
Definition SystemState_PowerOff (s : system_state_ctx_t) : bool * (system_state_ctx_t * list sys_out) :=
  if is_limbo_removed s then (false, (s, []))
  else systemState_InitiateTransiton (Z.lor system_state_powering_on system_state_active) system_state_powering_off system_state_limbo T_POWER_OFF s.
Definition SystemState_Sleep (s : system_state_ctx_t) : bool * (system_state_ctx_t * list sys_out) :=
  let start_state := if is_limbo_removed s then system_state_active else system_state_limbo in
  systemState_InitiateTransiton start_state system_state_going_to_sleep system_state_sleeping T_SLEEP s.
Definition SystemState_Shutdown (s : system_state_ctx_t) : bool * (system_state_ctx_t * list sys_out) :=
  let start_state := if is_limbo_removed s then system_state_active else system_state_limbo in
  systemState_InitiateTransiton start_state system_state_shutting_down system_state_powered_off T_SHUTDOWN s.
Definition SystemState_EmergencyShutdown (s : system_state_ctx_t) : bool * (system_state_ctx_t * list sys_out) :=
  (true, begin_transition system_state_shutting_down_promptly system_state_powered_off T_EMERGENCY s).

(** * What a transition runs *)

(** The steps and the handlers. *)
Definition runs (o : sys_out) : bool := match o with SYSTEM_STEP _ _ | SYSTEM_STEP_HANDLER _ _ => true | _ => false end.

(** The rest of the messages behind the first [id]. *)
Fixpoint after (id : Z) (ids : list Z) : option (list Z) :=
  match ids with [] => None | x :: ids => if x =? id then Some ids else after id ids end.

(** The steps [l], from number [i], with the messages [ids]: each step in
    turn; one that waits takes the messages up to its own, the others count
    for nothing, and its handler runs before the next step.  And whether the
    end is reached. *)
Fixpoint transition_spec (t : transition_table_ref) (l : list system_state_step_t) (i : Z) (ids : list Z) : list sys_out * bool :=
  match l with
  | [] => ([], true)
  | st :: l =>
    let r :=
      if async_message_id st =? 0 then transition_spec t l (i + 1) ids
      else match after (async_message_id st) ids with
           | Some ids =>
             let r := transition_spec t l (i + 1) ids in
             ((if async_handler st then [SYSTEM_STEP_HANDLER t i] else []) ++ fst r, snd r)
           | None => ([], false)
           end in
    (SYSTEM_STEP t i :: fst r, snd r)
  end.

(** A transition waits for a message. *)
Definition waiting (s : system_state_ctx_t) : bool :=
  match current_table s with Some t => step_index s <? Z.of_nat (length (tables s t)) | None => false end.

(** The messages that are handled while it does. *)
Fixpoint sys_messages (ids : list Z) (s : system_state_ctx_t) : option (system_state_ctx_t * list sys_out) :=
  match ids with
  | [] => Some (s, [])
  | id :: ids =>
    if waiting s
    then match systemState_MessageHandler id s with
         | Some r => match sys_messages ids (fst r) with Some q => Some (fst q, snd r ++ snd q) | None => None end
         | None => None
         end
    else Some (s, [])
  end.

Section transition.
Context (t : transition_table_ref) (table : list system_state_step_t) (during ending : Z).
Context (table_fits : Z.of_nat (length table) < 2 ^ 32).

(** Under way, at step [i]. *)
Definition at_step (i : Z) (s : system_state_ctx_t) : Prop :=
  current_table s = Some t /\ tables s t = table /\ u32 (step_index s + 1) = i /\ sys_state s = during /\ state_on_completition s = ending.

Lemma do_end s : at_step (Z.of_nat (length table)) s ->
  let r := systemState_DoTransition t s in
  waiting (fst r) = false /\ sys_state (fst r) = ending /\ filter runs (snd r) = [].
Proof.
  intros (Hc & Ht & Hi & Hs & He). unfold systemState_DoTransition. rewrite Hi, Ht, drop_ge by lia. cbn [run_steps fst snd].
  unfold waiting. cbn. rewrite Hc, Ht. split; [apply Z.ltb_ge; lia | done].
Qed.

Lemma do_sync i s st : at_step i s -> 0 <= i -> table !! Z.to_nat i = Some st -> async_message_id st = 0 ->
  let s1 := s <| step_index := i |> in
  at_step (i + 1) s1 /\
  systemState_DoTransition t s = (fst (systemState_DoTransition t s1), SYSTEM_STEP t i :: snd (systemState_DoTransition t s1)).
Proof.
  intros (Hc & Ht & Hi & Hs & He) H0 Hst Ha s1. pose proof (lookup_lt_Some _ _ _ Hst).
  assert (u32 (i + 1) = i + 1) as Hu by (apply u32_small; unfold is_u32; lia).
  split; [exact (conj Hc (conj Ht (conj Hu (conj Hs He)))) |]. unfold systemState_DoTransition. subst s1. cbn [step_index field_set tables].
  rewrite Hi, Hu, Ht, (drop_S _ _ _ Hst). cbn [run_steps]. rewrite Ha. cbn [Z.eqb negb]. replace (Z.to_nat (i + 1)) with (S (Z.to_nat i)) by lia.
  set (r := run_steps t (i + 1) _). cbn [fst snd]. destruct (snd (fst r)); [done |]. cbn [fst snd]. done.
Qed.

Lemma do_async i s st : at_step i s -> table !! Z.to_nat i = Some st -> async_message_id st <> 0 ->
  systemState_DoTransition t s = (s <| step_index := i |>, [SYSTEM_STEP t i]).
Proof.
  intros (Hc & Ht & Hi & Hs & He) Hst Ha. unfold systemState_DoTransition. rewrite Hi, Ht, (drop_S _ _ _ Hst). cbn [run_steps].
  destruct (Z.eqb_spec (async_message_id st) 0); done.
Qed.

(** A message while it waits at step [i]. *)
Lemma handler_waits i s st id : current_table s = Some t -> tables s t = table -> step_index s = i -> table !! Z.to_nat i = Some st ->
  systemState_MessageHandler id s =
    if id =? async_message_id st
    then let r := systemState_DoTransition t s in Some (fst r, (if async_handler st then [SYSTEM_STEP_HANDLER t i] else []) ++ snd r)
    else Some (s, [SYSTEM_LOG]).
Proof.
  intros Hc Ht Hi Hst. unfold systemState_MessageHandler. rewrite Hc, Ht, Hi. destruct table as [| st0 l] eqn:E; [done |]. rewrite Hst.
  by destruct (id =? async_message_id st).
Qed.

(** From step [i] on. *)
Definition as_spec (l : list system_state_step_t) (i : Z) (ids : list Z) (r : system_state_ctx_t * list sys_out) : Prop :=
  exists s' o, sys_messages ids (fst r) = Some (s', o) /\ filter runs (snd r ++ o) = fst (transition_spec t l i ids) /\
    sys_state s' = if snd (transition_spec t l i ids) then ending else during.

Lemma do_as_spec l : forall i s ids, at_step i s -> 0 <= i -> drop (Z.to_nat i) table = l -> i + Z.of_nat (length l) = Z.of_nat (length table) ->
  as_spec l i ids (systemState_DoTransition t s).
Proof.
  induction l as [| st l IH]; intros i s ids Hs Hi Hl Hlen.
  { replace i with (Z.of_nat (length table)) in * by (cbn in Hlen; lia). destruct (do_end s Hs) as (Hw & He & Hf).
    exists (fst (systemState_DoTransition t s)), []. rewrite app_nil_r. split; [| by split]. destruct ids as [| id ids]; cbn [sys_messages]; [done |]. by rewrite Hw. }
  assert (table !! Z.to_nat i = Some st) as Hst by (rewrite <- (Nat.add_0_r (Z.to_nat i)), <- lookup_drop, Hl; done).
  assert (drop (Z.to_nat (i + 1)) table = l) as Hl'.
  { replace (Z.to_nat (i + 1)) with (Z.to_nat i + 1)%nat by lia. by rewrite <- drop_drop, Hl. }
  assert (i + 1 + Z.of_nat (length l) = Z.of_nat (length table)) as Hlen' by (cbn in Hlen; lia).
  assert (0 <= i + 1) as Hi' by lia.
  unfold as_spec. cbn [transition_spec]. destruct (Z.eqb_spec (async_message_id st) 0) as [Ha | Ha].
  - destruct (do_sync i s st Hs Hi Hst Ha) as [Hs1 ->]. destruct (IH (i + 1) _ ids Hs1 Hi' Hl' Hlen') as (s' & o & H1 & H2 & H3).
    exists s', o. cbn [fst snd app]. split; [exact H1 |]. split; [| exact H3]. rewrite filter_cons_True by done. by rewrite H2.
  - rewrite (do_async i s st Hs Hst Ha). set (s1 := s <| step_index := i |>). cbn [fst snd app].
    pose proof Hs as (Hc & Ht & Hx & Hd & He).
    assert (at_step (i + 1) s1) as Hs1.
    { split_and!; try done. cbn. pose proof (lookup_lt_Some _ _ _ Hst). apply u32_small. unfold is_u32. lia. }
    assert (waiting s1 = true) as Hw by (unfold waiting; cbn; rewrite Hc, Ht; pose proof (lookup_lt_Some _ _ _ Hst); apply Z.ltb_lt; lia).
    induction ids as [| id ids IHids]; cbn [after sys_messages].
    { exists s1, []. done. }
    rewrite Hw, (handler_waits i s1 st id Hc Ht eq_refl Hst). destruct (id =? async_message_id st) eqn:E; cbv zeta; cbn [fst snd].
    + destruct (IH (i + 1) s1 ids Hs1 Hi' Hl' Hlen') as (s' & o & H1 & H2 & H3). rewrite H1. eexists _, _. split; [reflexivity |].
      cbn [fst snd app]. split; [| exact H3]. rewrite filter_cons_True, <- app_assoc, filter_app, H2 by done. by destruct (async_handler st).
    + destruct IHids as (s' & o & H1 & H2 & H3). rewrite H1. eexists _, _. split; [reflexivity |]. cbn [fst snd app].
      cbn [app] in H2. split; [| exact H3]. rewrite filter_cons_True in * by done. by rewrite filter_cons_False by (by intros []).
Qed.
End transition.

(** [C12] A transition that begins runs the steps of its table once each, in
    order: it stops at a step that waits until the message of that step comes,
    whatever others come before, calls the step's handler and goes on; and it
    reaches its end state after the last step, whatever the messages. *)
Theorem transition_runs_once t during ending s ids : Z.of_nat (length (tables s t)) < 2 ^ 32 ->
  let r := begin_transition during ending t s in
  exists s' o, sys_messages ids (fst r) = Some (s', o) /\
    filter runs (snd r ++ o) = fst (transition_spec t (tables s t) 0 ids) /\
    SystemState_GetState s' = if snd (transition_spec t (tables s t) 0 ids) then ending else during.
Proof.
  intros Hlen. unfold begin_transition. cbn [fst snd]. set (s0 := systemState_SetupCurrentTransition t ending (fst (systemState_SetState during s))).
  destruct (do_as_spec t (tables s t) during ending Hlen (tables s t) 0 s0 ids) as (s' & o & H1 & H2 & H3); [done | done | done | done |].
  exists s', o. split; [exact H1 |]. split; [| exact H3]. cbn [systemState_SetState snd app].
  by rewrite filter_cons_False by (by intros []).
Qed.

(** * The states that are reached *)
Inductive sys_op :=
| SysInitialise | SysStartUp | SysPowerOn | SysPowerOff | SysSleep | SysShutdown | SysEmergencyShutdown
| SysRemoveLimbo | SysListen (listener : Z) | SysMessage (id : Z).

Definition sys_step (o : sys_op) (s : system_state_ctx_t) : option system_state_ctx_t :=
  match o with
  | SysInitialise => Some (fst (snd (SystemState_Initialise s)))
  | SysStartUp => Some (fst (snd (SystemState_StartUp s)))
  | SysPowerOn => Some (fst (snd (SystemState_PowerOn s)))
  | SysPowerOff => Some (fst (snd (SystemState_PowerOff s)))
  | SysSleep => Some (fst (snd (SystemState_Sleep s)))
  | SysShutdown => Some (fst (snd (SystemState_Shutdown s)))
  | SysEmergencyShutdown => Some (fst (snd (SystemState_EmergencyShutdown s)))
  | SysRemoveLimbo => Some (SystemState_RemoveLimboState s)
  | SysListen listener => Some (SystemState_RegisterForStateChanges listener s)
  | SysMessage id => fst <$> systemState_MessageHandler id s
  end.

Fixpoint sys_run (os : list sys_op) (s : system_state_ctx_t) : option system_state_ctx_t :=
  match os with [] => Some s | o :: os => match sys_step o s with Some s => sys_run os s | None => None end end.

(** The state while a table is run, and those it may end in. *)
Definition during_of (t : transition_table_ref) : Z :=
  match t with
  | T_INIT => system_state_initialisation | T_STARTUP => system_state_starting_up | T_POWER_ON => system_state_powering_on
  | T_POWER_OFF => system_state_powering_off | T_SLEEP => system_state_going_to_sleep | T_SHUTDOWN => system_state_shutting_down
  | T_EMERGENCY => system_state_shutting_down_promptly
  end.
Definition ends_of (t : transition_table_ref) : list Z :=
  match t with
  | T_INIT => [system_state_initialised] | T_STARTUP => [system_state_limbo; system_state_active] | T_POWER_ON => [system_state_active]
  | T_POWER_OFF => [system_state_limbo] | T_SLEEP => [system_state_sleeping] | T_SHUTDOWN | T_EMERGENCY => [system_state_powered_off]
  end.

(** Between steps: nothing has begun; or a transition waits for a message in
    its own state; or it has ended. *)
Definition sys_inv (s : system_state_ctx_t) : Prop :=
  match current_table s with
  | None => sys_state s = system_state_powered_off
  | Some t =>
    state_on_completition s ∈ ends_of t /\
    (sys_state s = during_of t /\
     (exists st, tables s t !! Z.to_nat (step_index s) = Some st /\ async_message_id st <> 0 /\ 0 <= step_index s) \/
     sys_state s = state_on_completition s /\ step_index s = Z.of_nat (length (tables s t)))
  end.

Section states.
Context (T : transition_table_ref -> list system_state_step_t) (T_fits : forall t, Z.of_nat (length (T t)) < 2 ^ 32).

(** Where a run of steps stops. *)
Lemma run_steps_stops t i l : let r := run_steps t i l in
  if snd (fst r) then exists st, l !! Z.to_nat (fst (fst r) - i) = Some st /\ async_message_id st <> 0 /\ i <= fst (fst r)
  else fst (fst r) = i + Z.of_nat (length l).
Proof.
  revert i. induction l as [| st l IH]; intros i; cbn [run_steps]; cbv zeta; [cbn; lia |].
  destruct (Z.eqb_spec (async_message_id st) 0) as [E | E]; cbn [negb fst snd].
  - specialize (IH (i + 1)). cbv zeta in IH. destruct (snd (fst (run_steps t (i + 1) l))).
    + destruct IH as (st' & H1 & H2 & H3). exists st'. split; [| split; [exact H2 | lia]].
      by replace (Z.to_nat (fst (fst (run_steps t (i + 1) l)) - i)) with (S (Z.to_nat (fst (fst (run_steps t (i + 1) l)) - (i + 1)))) by lia.
    + rewrite IH. cbn. lia.
  - exists st. rewrite Z.sub_diag. by split_and!.
Qed.

Lemma do_inv t i s : tables s = T -> current_table s = Some t -> u32 (step_index s + 1) = i -> 0 <= i <= Z.of_nat (length (T t)) ->
  sys_state s = during_of t -> state_on_completition s ∈ ends_of t ->
  sys_inv (fst (systemState_DoTransition t s)) /\ tables (fst (systemState_DoTransition t s)) = T.
Proof.
  intros HT Hc Hi Hr Hs He. unfold systemState_DoTransition. rewrite Hi, HT. set (l := drop (Z.to_nat i) (T t)).
  pose proof (run_steps_stops t i l) as Hstop. cbv zeta in Hstop. destruct (snd (fst (run_steps t i l))); cbn [fst systemState_CompleteTransition systemState_SetState].
  - split; [| exact HT]. unfold sys_inv. cbn. rewrite Hc. split; [exact He |]. left. split; [exact Hs |].
    destruct Hstop as (st & H1 & H2 & H3). exists st. split; [| split; [exact H2 | lia]]. subst l. rewrite lookup_drop in H1. rewrite HT, <- H1. f_equal. lia.
  - split; [| exact HT]. unfold sys_inv. cbn. rewrite Hc. split; [exact He |]. right. split; [done |].
    rewrite Hstop, HT. subst l. rewrite length_drop. lia.
Qed.

Lemma begin_inv t ending s : tables s = T -> ending ∈ ends_of t ->
  sys_inv (fst (begin_transition (during_of t) ending t s)) /\ tables (fst (begin_transition (during_of t) ending t s)) = T.
Proof. intros HT He. unfold begin_transition. cbn [fst]. apply (do_inv t 0); try done. lia. Qed.

Lemma initiate_inv start t ending s : tables s = T -> ending ∈ ends_of t -> sys_inv s ->
  let s' := fst (snd (systemState_InitiateTransiton start (during_of t) ending t s)) in sys_inv s' /\ tables s' = T.
Proof. intros HT He Hs. unfold systemState_InitiateTransiton. destruct (_ =? 0); [done |]. by apply begin_inv. Qed.

(** A message is handled unless no transition waits for one. *)
Lemma handler_inv id s : tables s = T -> sys_inv s ->
  match systemState_MessageHandler id s with
  | Some r => sys_inv (fst r) /\ tables (fst r) = T
  | None => waiting s = false
  end.
Proof.
  intros HT Hs. unfold systemState_MessageHandler, waiting. destruct (current_table s) as [t |] eqn:Hc; [| done].
  pose proof Hs as Hi. unfold sys_inv in Hi. rewrite Hc, HT in Hi. rewrite HT. destruct (T t) as [| st0 l0] eqn:E; [done |].
  destruct Hi as [He [[Hd (st & Hst & Ha & H0)] | [_ Hend]]].
  - rewrite Hst. pose proof (lookup_lt_Some _ _ _ Hst) as Hlt. destruct (id =? async_message_id st); cbn [negb fst]; [| done].
    pose proof (T_fits t) as Hfit. rewrite E in Hfit.
    apply (do_inv t (step_index s + 1)); try done; [apply u32_small; unfold is_u32; lia | rewrite E; lia].
  - rewrite lookup_ge_None_2 by lia. apply Z.ltb_ge. lia.
Qed.

Lemma sys_step_inv o s s' : tables s = T -> sys_inv s -> sys_step o s = Some s' -> sys_inv s' /\ tables s' = T.
Proof.
  intros HT Hs. destruct o as [| | | | | | | | listener | id]; cbn [sys_step]; intros E; try (injection E as <-).
  - apply (initiate_inv _ T_INIT); [done | by constructor | done].
  - apply (initiate_inv _ T_STARTUP); [done | destruct (is_limbo_removed s); repeat constructor | done].
  - unfold SystemState_PowerOn. destruct (is_limbo_removed s); [done |]. apply (initiate_inv _ T_POWER_ON); [done | by constructor | done].
  - unfold SystemState_PowerOff. destruct (is_limbo_removed s); [done |]. apply (initiate_inv _ T_POWER_OFF); [done | by constructor | done].
  - apply (initiate_inv _ T_SLEEP); [done | by constructor | done].
  - apply (initiate_inv _ T_SHUTDOWN); [done | by constructor | done].
  - apply (begin_inv T_EMERGENCY); [done | by constructor].
  - done.
  - unfold SystemState_RegisterForStateChanges. by destruct (existsb _ _).
  - pose proof (handler_inv id s HT Hs) as Hh. destruct (systemState_MessageHandler id s) as [r |]; [| done]. by injection E as <-.
Qed.

Lemma sys_run_inv os s s' : tables s = T -> sys_inv s -> sys_run os s = Some s' -> sys_inv s' /\ tables s' = T.
Proof.
  revert s. induction os as [| o os IH]; intros s HT Hs; cbn [sys_run]; [by intros [= <-] |].
  destruct (sys_step o s) as [s1 |] eqn:E; [| done]. destruct (sys_step_inv o s s1 HT Hs E). by apply IH.
Qed.

(** [C27] Whatever is called and whatever messages come, the system is either
    off before its first transition; or waiting, in the state of the table that
    runs, at a step of it that waits; or in an end state of the table that ran
    last; and a message is read through a valid step in the second case. *)
Theorem system_states_reachable s0 os s : tables s0 = T -> sys_inv s0 -> sys_run os s0 = Some s ->
  sys_inv s /\ (forall id, waiting s = true -> systemState_MessageHandler id s <> None).
Proof.
  intros HT H0 Hr. destruct (sys_run_inv os s0 s HT H0 Hr) as [Hs HT']. split; [exact Hs |].
  intros id Hw E. pose proof (handler_inv id s HT' Hs) as Hh. rewrite E in Hh. congruence.
Qed.
End states.

(** * The headset's tables

    Those of headset_init.c that the power manager and the state machine run,
    in the builds of the project, without prompts. *)
Definition STEREO_TOPOLOGY_STOP_CFM : Z := 1.
Definition power_on_table : list system_state_step_t := [mkstep 0 false; mkstep 0 false; mkstep 0 false; mkstep 0 false].
Definition power_off_table : list system_state_step_t := [mkstep STEREO_TOPOLOGY_STOP_CFM true; mkstep 0 false; mkstep 0 false].
Definition shutdown_table : list system_state_step_t := [mkstep 0 false].
Definition emergency_shutdown_table : list system_state_step_t := [mkstep 0 false].
Definition headset_system (init_table : list system_state_step_t) : system_state_ctx_t :=
  systemState_RegisterTable T_EMERGENCY emergency_shutdown_table (systemState_RegisterTable T_SHUTDOWN shutdown_table
    (systemState_RegisterTable T_POWER_OFF power_off_table (systemState_RegisterTable T_POWER_ON power_on_table
      (systemState_RegisterTable T_INIT init_table SystemState_Init)))).

(** Initialisation with two steps that wait, as for MESSAGE_BATTERY_INIT_CFM
    and APP_POWER_INIT_CFM. *)
Definition some_init : list system_state_step_t := [mkstep 0 false; mkstep 7 false; mkstep 0 false; mkstep 8 true; mkstep 0 false].

Lemma transition_runs_once_witness :
  exists s' o, sys_messages [8; 7; 7; 9; 8] (fst (begin_transition system_state_initialisation system_state_initialised T_INIT (headset_system some_init))) = Some (s', o) /\
    filter runs (snd (begin_transition system_state_initialisation system_state_initialised T_INIT (headset_system some_init)) ++ o) =
      fst (transition_spec T_INIT (tables (headset_system some_init) T_INIT) 0 [8; 7; 7; 9; 8]) /\
    SystemState_GetState s' = if snd (transition_spec T_INIT (tables (headset_system some_init) T_INIT) 0 [8; 7; 7; 9; 8]) then system_state_initialised else system_state_initialisation.
Proof.
  pose proof (transition_runs_once T_INIT system_state_initialisation system_state_initialised (headset_system some_init) [8; 7; 7; 9; 8]) as Hruns.
  cbv zeta in Hruns. apply Hruns. vm_compute. reflexivity.
Defined.

Example init_order : transition_spec T_INIT some_init 0 [8; 7; 7; 9; 8] =
  ([SYSTEM_STEP T_INIT 0; SYSTEM_STEP T_INIT 1; SYSTEM_STEP T_INIT 2; SYSTEM_STEP T_INIT 3; SYSTEM_STEP_HANDLER T_INIT 3; SYSTEM_STEP T_INIT 4], true).
Proof. reflexivity. Qed.

(** On, off, and shut down. *)
Definition sys_day : list sys_op :=
  [SysInitialise; SysMessage 7; SysMessage 8; SysStartUp; SysPowerOn; SysPowerOff; SysMessage 9].

Lemma system_states_reachable_witness :
  sys_run sys_day (headset_system some_init) = Some (default SystemState_Init (sys_run sys_day (headset_system some_init))) /\
  sys_inv (default SystemState_Init (sys_run sys_day (headset_system some_init))) /\
  (forall id, waiting (default SystemState_Init (sys_run sys_day (headset_system some_init))) = true ->
    systemState_MessageHandler id (default SystemState_Init (sys_run sys_day (headset_system some_init))) <> None).
Proof.
  assert (sys_run sys_day (headset_system some_init) = Some (default SystemState_Init (sys_run sys_day (headset_system some_init)))) as E by (vm_compute; reflexivity).
  split; [exact E |].
  assert (forall t, Z.of_nat (length (tables (headset_system some_init) t)) < 2 ^ 32) as Hfits by (intros []; vm_compute; reflexivity).
  exact (system_states_reachable (tables (headset_system some_init)) Hfits (headset_system some_init) sys_day _ eq_refl eq_refl E).
Defined.

(** Power-on during power-off ends at once, without prompts; the confirmation
    that the power-off waited for is then read beyond the table. *)
Lemma late_confirmation_beyond_table :
  sys_run (sys_day ++ [SysPowerOn]) (headset_system some_init) <> None /\
  sys_run (sys_day ++ [SysPowerOn; SysMessage STEREO_TOPOLOGY_STOP_CFM]) (headset_system some_init) = None.
Proof. vm_compute. by split. Qed.

(** The headset registers no table for sleep: it is asleep at once, and none
    of its steps has run. *)
Lemma sleep_runs_nothing s : tables s T_SLEEP = [] -> is_limbo_removed s = false -> sys_state s = system_state_limbo ->
  sys_state (fst (snd (SystemState_Sleep s))) = system_state_sleeping /\ filter runs (snd (snd (SystemState_Sleep s))) = [].
Proof.
  intros Ht Hl Hs. unfold SystemState_Sleep, systemState_InitiateTransiton, SystemState_GetState. rewrite Hl, Hs. cbn [snd].
  unfold begin_transition, systemState_DoTransition. cbn [systemState_SetupCurrentTransition systemState_SetState fst snd tables field_set step_index].
  rewrite Ht. done.
Qed.
