(* ===== verification/PowerManager.v ===== *)
(** The power manager: power_manager.c with its state machine, conditions and
    flags.  It shuts the device down, or puts it to sleep, once every client
    has answered; the system state (SystemState) then runs the table. *)
From S2P Require Import Prelude Thermo Region Charger SystemState.

(** * Data *)
Inductive powerState :=
| POWER_STATE_INIT | POWER_STATE_OK | POWER_STATE_TERMINATING_CLIENTS_NOTIFIED | POWER_STATE_TERMINATING_CLIENTS_RESPONDED
| POWER_STATE_SOPORIFIC_CLIENTS_NOTIFIED | POWER_STATE_SOPORIFIC_CLIENTS_RESPONDED.
#[export] Instance powerState_dec : EqDecision powerState.
Proof. solve_decision. Defined.

Definition APP_POWER_ALLOW_SLEEP : Z := 1.
Definition APP_POWER_SHUTDOWN_PREPARE_RESPONSE_PENDING : Z := 2.
Definition APP_POWER_SLEEP_PREPARE_RESPONSE_PENDING : Z := 4.

(** [powerClientMessages] *)
Inductive powerClientMessages :=
| APP_POWER_SLEEP_PREPARE_IND | APP_POWER_SLEEP_CANCELLED_IND | APP_POWER_SHUTDOWN_PREPARE_IND | APP_POWER_SHUTDOWN_CANCELLED_IND
| POWER_ON | POWER_OFF.
#[export] Instance powerClientMessages_dec : EqDecision powerClientMessages.
Proof. solve_decision. Defined.

Inductive power_provider_context_t := context_power_bad | context_power_on | context_powering_off | context_entering_sleep.

(** [powerTaskData] without the flags for tests; a client is its task and its
    flags.  [pm_halted] is that the device is off or has panicked. *)
Record powerTaskData := mkpm {
  pm_clients : list (Z * Z);
  performance_req_count : Z;
  pm_state : powerState;
  allow_dormant : bool;
  user_initiated_shutdown : bool;
  init_complete : bool;
  pm_halted : bool }.
#[export] Instance pm_eta : RecordEta powerTaskData := fun r =>
  mkpm (pm_clients r) (performance_req_count r) (pm_state r) (allow_dormant r) (user_initiated_shutdown r) (init_complete r) (pm_halted r).

Inductive pm_out :=
| PM_TO_ALL (tasks : list Z) (m : powerClientMessages)
| PM_TO (task : Z) (m : powerClientMessages)
| PM_CANCEL_ALL (task : Z) (m : powerClientMessages)
| PM_INIT_CFM
| PM_SHUTDOWN
| PM_EMERGENCY_SHUTDOWN
| PM_SLEEP
| PM_PROFILE (performance : bool)
| PM_RELINQUISH_LATER (delay : Z)
| PM_REGISTRATIONS
| PM_PANIC.
#[export] Instance pm_out_dec : EqDecision pm_out.
Proof. solve_decision. Defined.

(** What the manager asks of the charger, the regions and the thermometer, and
    whether the calls of the system state return. *)
Record pm_env := mkpmenv {
  charger_can_power_off : bool;
  charger_can_dormant : bool;
  region_unsafe : bool;
  temperature_extreme : bool;
  shutdown_returns : bool;
  emergency_returns : bool;
  sleep_returns : bool }.

(** * Steps *)
Definition pm : Type := powerTaskData -> powerTaskData * list pm_out.
Definition pm_skip : pm := fun d => (d, []).
Definition pm_emit (o : pm_out) : pm := fun d => (d, [o]).
Definition pm_set (f : powerTaskData -> powerTaskData) : pm := fun d => (f d, []).
(** Nothing runs after a call that does not return. *)
Definition pm_seq (a b : pm) : pm := fun d =>
  let r := a d in if pm_halted (fst r) then r else let s := b (fst r) in (fst s, snd r ++ snd s).
Definition pm_if (c : powerTaskData -> bool) (a b : pm) : pm := fun d => if c d then a d else b d.
Definition pm_call (o : pm_out) (returns : bool) : pm := fun d => (d <| pm_halted := negb returns |>, [o]).
Definition pm_panic : pm := fun d => (d <| pm_halted := true |>, [PM_PANIC]).
Declare Scope pm_scope.
Delimit Scope pm_scope with pm.
Notation "a ;; b" := (pm_seq a b) (at level 100, b at level 200, right associativity) : pm_scope.

(** * The file *)
Section manager.
Context (e : pm_env).
Local Open Scope pm_scope.

Definition pm_tasks (d : powerTaskData) : list Z := fst <$> pm_clients d.
Definition to_clients (m : powerClientMessages) : pm := fun d => (d, [PM_TO_ALL (pm_tasks d) m]).

Definition appPowerAllClientsHaveFlagCleared (flag : Z) (d : powerTaskData) : bool :=
  match pm_clients d with [] => false | l => forallb (fun c => Z.land (snd c) flag =? 0) l end.
Definition appPowerAllClientsHaveFlagSet (flag : Z) (d : powerTaskData) : bool :=
  forallb (fun c => negb (Z.land (snd c) flag =? 0)) (pm_clients d).

(** The flags of one client. *)
Definition is_client (task : Z) (d : powerTaskData) : bool := existsb (Z.eqb task) (pm_tasks d).
Definition change_client (task : Z) (f : Z -> Z) (d : powerTaskData) : powerTaskData :=
  d <| pm_clients ::= map (fun c => if fst c =? task then (fst c, f (snd c)) else c) |>.
Definition appPowerSetFlagInClient (task flag : Z) (d : powerTaskData) : bool * powerTaskData :=
  (is_client task d, change_client task (fun x => Z.lor x flag) d).
Definition appPowerClearFlagInClient (task flag : Z) (d : powerTaskData) : bool * powerTaskData :=
  (is_client task d, change_client task (fun x => Z.ldiff x flag) d).
Definition appPowerSetFlagInAllClients (flag : Z) (d : powerTaskData) : powerTaskData :=
  d <| pm_clients ::= map (fun c => (fst c, Z.lor (snd c) flag)) |>.

Definition appPowerCanPowerOff : bool := charger_can_power_off e.
Definition appPowerCanSleep (d : powerTaskData) : bool := charger_can_dormant e && allow_dormant d && init_complete d.
Definition appPowerNeedsToPowerOff (d : powerTaskData) : bool :=
  appPowerCanPowerOff && (temperature_extreme e || user_initiated_shutdown d || region_unsafe e).

(** ** The state machine *)

(** What is left, and entered: the states that a state leads to on entry come
    before it. *)
Definition leave_state : pm := fun d =>
  match pm_state d with
  | POWER_STATE_INIT => (d, [PM_INIT_CFM])
  | POWER_STATE_TERMINATING_CLIENTS_RESPONDED => to_clients APP_POWER_SHUTDOWN_CANCELLED_IND d
  | POWER_STATE_SOPORIFIC_CLIENTS_RESPONDED => to_clients APP_POWER_SLEEP_CANCELLED_IND d
  | _ => (d, [])
  end.
Definition change_state (new_state : powerState) : pm := leave_state;; pm_set (fun d => d <| pm_state := new_state |>).

Definition set_ok : pm := change_state POWER_STATE_OK;; pm_set (fun d => d <| user_initiated_shutdown := false |>).

Definition appPowerEnterPowerStateTerminatingClientsResponded : pm :=
  pm_if appPowerNeedsToPowerOff
    (pm_if user_initiated_shutdown (pm_call PM_SHUTDOWN (shutdown_returns e)) (pm_call PM_EMERGENCY_SHUTDOWN (emergency_returns e))) pm_skip;;
  set_ok.
Definition set_terminating_responded : pm :=
  change_state POWER_STATE_TERMINATING_CLIENTS_RESPONDED;; appPowerEnterPowerStateTerminatingClientsResponded.

Definition appPowerEnterPowerStateTerminatingClientsNotified : pm :=
  pm_if (fun d => negb (Nat.eqb (length (pm_clients d)) 0))
    (to_clients APP_POWER_SHUTDOWN_PREPARE_IND;;
     pm_set (appPowerSetFlagInAllClients APP_POWER_SHUTDOWN_PREPARE_RESPONSE_PENDING);;
     to_clients POWER_OFF)
    set_terminating_responded.
Definition set_terminating_notified : pm :=
  change_state POWER_STATE_TERMINATING_CLIENTS_NOTIFIED;; appPowerEnterPowerStateTerminatingClientsNotified.

Definition appPowerEnterPowerStateSoporificClientsResponded : pm :=
  pm_if appPowerCanSleep (pm_call PM_SLEEP (sleep_returns e)) set_ok.
Definition set_soporific_responded : pm :=
  change_state POWER_STATE_SOPORIFIC_CLIENTS_RESPONDED;; appPowerEnterPowerStateSoporificClientsResponded.

Definition appPowerEnterPowerStateSoporificClientsNotified : pm :=
  pm_if (fun d => negb (Nat.eqb (length (pm_clients d)) 0))
    (to_clients APP_POWER_SLEEP_PREPARE_IND;; pm_set (appPowerSetFlagInAllClients APP_POWER_SLEEP_PREPARE_RESPONSE_PENDING))
    set_soporific_responded.
Definition set_soporific_notified : pm :=
  change_state POWER_STATE_SOPORIFIC_CLIENTS_NOTIFIED;; appPowerEnterPowerStateSoporificClientsNotified.

Definition appPowerSetState (new_state : powerState) : pm :=
  match new_state with
  | POWER_STATE_OK => set_ok
  | POWER_STATE_TERMINATING_CLIENTS_NOTIFIED => set_terminating_notified
  | POWER_STATE_TERMINATING_CLIENTS_RESPONDED => set_terminating_responded
  | POWER_STATE_SOPORIFIC_CLIENTS_NOTIFIED => set_soporific_notified
  | POWER_STATE_SOPORIFIC_CLIENTS_RESPONDED => set_soporific_responded
  | POWER_STATE_INIT => change_state POWER_STATE_INIT;; pm_panic
  end.

Definition appPowerHandlePowerEvent : pm := fun d =>
  match pm_state d with
  | POWER_STATE_INIT =>
    (pm_if appPowerNeedsToPowerOff (pm_call PM_SHUTDOWN (shutdown_returns e)) pm_skip;; appPowerSetState POWER_STATE_OK) d
  | POWER_STATE_OK =>
    if appPowerNeedsToPowerOff d then appPowerSetState POWER_STATE_TERMINATING_CLIENTS_NOTIFIED d
    else if appPowerAllClientsHaveFlagSet APP_POWER_ALLOW_SLEEP d
    then if appPowerCanSleep d then appPowerSetState POWER_STATE_SOPORIFIC_CLIENTS_NOTIFIED d else (d, [])
    else (d, [])
  | _ => (d, [])
  end.
(** ** Entries *)
Definition appPowerInitComplete : pm := pm_set (fun d => d <| init_complete := true |>);; appPowerHandlePowerEvent.

Definition appPowerOn : pm := to_clients POWER_ON.

(** The answer to the request, and what it does. *)
Definition appPowerOffRequest (d : powerTaskData) : bool * (powerTaskData * list pm_out) :=
  if appPowerCanPowerOff then
    match pm_state d with
    | POWER_STATE_INIT => (false, (d, []))
    | POWER_STATE_OK =>
      (true, (pm_set (fun d => d <| user_initiated_shutdown := true |>);; appPowerSetState POWER_STATE_TERMINATING_CLIENTS_NOTIFIED) d)
    | POWER_STATE_TERMINATING_CLIENTS_NOTIFIED | POWER_STATE_TERMINATING_CLIENTS_RESPONDED => (true, (d, []))
    | POWER_STATE_SOPORIFIC_CLIENTS_NOTIFIED | POWER_STATE_SOPORIFIC_CLIENTS_RESPONDED => (false, (d, []))
    end
  else (false, (d, [])).

Definition appPowerClientRegister (task : Z) : pm := fun d =>
  if is_client task d then (d, [])
  else
    let d := d <| pm_clients ::= fun l => l ++ [(task, 0)] |> in
    match pm_state d with
    | POWER_STATE_INIT => pm_panic d
    | POWER_STATE_TERMINATING_CLIENTS_NOTIFIED =>
      (snd (appPowerSetFlagInClient task APP_POWER_SHUTDOWN_PREPARE_RESPONSE_PENDING d), [PM_TO task APP_POWER_SHUTDOWN_PREPARE_IND])
    | POWER_STATE_SOPORIFIC_CLIENTS_NOTIFIED =>
      (snd (appPowerSetFlagInClient task APP_POWER_SLEEP_PREPARE_RESPONSE_PENDING d), [PM_TO task APP_POWER_SLEEP_PREPARE_IND])
    | _ => (d, [])
    end.

Definition appPowerClientAllowSleep (task : Z) : pm := fun d =>
  let d := snd (appPowerSetFlagInClient task APP_POWER_ALLOW_SLEEP d) in
  if bool_decide (pm_state d = POWER_STATE_OK) && appPowerAllClientsHaveFlagSet APP_POWER_ALLOW_SLEEP d && appPowerCanSleep d
  then appPowerSetState POWER_STATE_SOPORIFIC_CLIENTS_NOTIFIED d else (d, []).
Definition appPowerClientProhibitSleep (task : Z) : pm := pm_set (fun d => snd (appPowerClearFlagInClient task APP_POWER_ALLOW_SLEEP d)).

(** The answer of a client in the state [waiting_in], to the flag. *)
Definition prepare_response (waiting_in next : powerState) (flag task : Z) : pm := fun d =>
  if bool_decide (pm_state d = waiting_in) then
    let r := appPowerClearFlagInClient task flag d in
    if fst r && appPowerAllClientsHaveFlagCleared flag (snd r) then appPowerSetState next (snd r) else (snd r, [])
  else (d, []).
Definition appPowerShutdownPrepareResponse (task : Z) : pm :=
  prepare_response POWER_STATE_TERMINATING_CLIENTS_NOTIFIED POWER_STATE_TERMINATING_CLIENTS_RESPONDED APP_POWER_SHUTDOWN_PREPARE_RESPONSE_PENDING task.
Definition appPowerSleepPrepareResponse (task : Z) : pm :=
  prepare_response POWER_STATE_SOPORIFIC_CLIENTS_NOTIFIED POWER_STATE_SOPORIFIC_CLIENTS_RESPONDED APP_POWER_SLEEP_PREPARE_RESPONSE_PENDING task.

Definition appPowerClientUnregister (task : Z) : pm :=
  appPowerClientAllowSleep task;;
  appPowerShutdownPrepareResponse task;;
  appPowerSleepPrepareResponse task;;
  pm_emit (PM_CANCEL_ALL task APP_POWER_SLEEP_PREPARE_IND);; pm_emit (PM_CANCEL_ALL task APP_POWER_SLEEP_CANCELLED_IND);;
  pm_emit (PM_CANCEL_ALL task APP_POWER_SHUTDOWN_PREPARE_IND);; pm_emit (PM_CANCEL_ALL task APP_POWER_SHUTDOWN_CANCELLED_IND);;
  pm_set (fun d => d <| pm_clients ::= filter (fun c => fst c <> task) |>).

(** A client by the message broker. *)
Definition powerManager_RegisterMessageGroup (task : Z) : pm := appPowerClientRegister task;; appPowerClientAllowSleep task.

Definition appPowerIsShuttingDown (d : powerTaskData) : bool :=
  match pm_state d with POWER_STATE_TERMINATING_CLIENTS_NOTIFIED | POWER_STATE_TERMINATING_CLIENTS_RESPONDED => true | _ => false end.

Definition appPowerCurrentContext (d : powerTaskData) : power_provider_context_t :=
  match pm_state d with
  | POWER_STATE_INIT => context_power_bad
  | POWER_STATE_OK => context_power_on
  | POWER_STATE_TERMINATING_CLIENTS_NOTIFIED | POWER_STATE_TERMINATING_CLIENTS_RESPONDED => context_powering_off
  | POWER_STATE_SOPORIFIC_CLIENTS_NOTIFIED | POWER_STATE_SOPORIFIC_CLIENTS_RESPONDED => context_entering_sleep
  end.

(** ** The performance profile *)
Definition appPowerPerformanceProfileRequest : pm :=
  pm_if (fun d => performance_req_count d =? 0) (pm_emit (PM_PROFILE true)) pm_skip;;
  pm_set (fun d => d <| performance_req_count ::= fun n => u32 (n + 1) |>);;
  pm_if (fun d => performance_req_count d =? 0) pm_panic pm_skip.

(** [due] is when the message that is pending arrives. *)
Definition appPowerPerformanceProfileRequestDuration (due : option Z) (duration : Z) : pm :=
  let duration' := match due with Some due => if 0 <? due then Z.max due duration else duration | None => duration end in
  match due with Some _ => pm_skip | None => appPowerPerformanceProfileRequest end;; pm_emit (PM_RELINQUISH_LATER duration').

Definition appPowerPerformanceProfileRelinquish : pm :=
  pm_if (fun d => 0 <? performance_req_count d)
    (pm_set (fun d => d <| performance_req_count ::= fun n => n - 1 |>);;
     pm_if (fun d => performance_req_count d =? 0) (pm_emit (PM_PROFILE false)) pm_skip)
    pm_skip.
End manager.

(** Its own messages: of the charger, the regions and the thermometer, and of
    the profile's timer. *)
Inductive pm_msg := PM_MSG_EVENT | PM_MSG_RELINQUISH | PM_MSG_OTHER.
Definition appPowerHandleMessage (e : pm_env) (m : pm_msg) : pm :=
  match m with PM_MSG_EVENT => appPowerHandlePowerEvent e | PM_MSG_RELINQUISH => appPowerPerformanceProfileRelinquish | PM_MSG_OTHER => pm_skip end.

(** appPowerInit. *)
Definition appPowerInit : powerTaskData * list pm_out := (mkpm [] 0 POWER_STATE_INIT true false false false, [PM_PROFILE false; PM_REGISTRATIONS]).

(** What the charger, the regions and the thermometer answer; the manager is
    their client [task]. *)
Definition power_env (c : chargerTaskData) (r : battery_region_data_t) (t : temperatureTaskData) (task : Z) (sh em sl : bool) : pm_env :=
  mkpmenv (Charger_CanPowerOff c) (Charger_CanEnterDormant c) (bool_decide (BatteryRegion_GetState r = battery_region_unsafe))
    (negb (bool_decide (appTemperatureClientGetState task t = Some TEMPERATURE_STATE_WITHIN_LIMITS))) sh em sl.

(** * Runs *)
Inductive pm_op :=
| PmEvent
| PmInitComplete
| PmOn
| PmOffRequest
| PmRegister (task : Z)
| PmUnregister (task : Z)
| PmRegisterGroup (task : Z)
| PmAllowSleep (task : Z)
| PmProhibitSleep (task : Z)
| PmShutdownResponse (task : Z)
| PmSleepResponse (task : Z)
| PmPerformance
| PmPerformanceFor (due : option Z) (duration : Z)
| PmRelinquish.

(** Nothing happens once the device is off. *)
Definition pm_step (e : pm_env) (o : pm_op) : pm := fun d =>
  if pm_halted d then (d, [])
  else
    match o with
    | PmEvent => appPowerHandleMessage e PM_MSG_EVENT d
    | PmInitComplete => appPowerInitComplete e d
    | PmOn => appPowerOn d
    | PmOffRequest => snd (appPowerOffRequest e d)
    | PmRegister task => appPowerClientRegister task d
    | PmUnregister task => appPowerClientUnregister e task d
    | PmRegisterGroup task => powerManager_RegisterMessageGroup e task d
    | PmAllowSleep task => appPowerClientAllowSleep e task d
    | PmProhibitSleep task => appPowerClientProhibitSleep task d
    | PmShutdownResponse task => appPowerShutdownPrepareResponse e task d
    | PmSleepResponse task => appPowerSleepPrepareResponse e task d
    | PmPerformance => appPowerPerformanceProfileRequest d
    | PmPerformanceFor due duration => appPowerPerformanceProfileRequestDuration due duration d
    | PmRelinquish => appPowerHandleMessage e PM_MSG_RELINQUISH d
    end.

(** A run: the state, and the outputs in order. *)
Fixpoint pm_run (os : list (pm_env * pm_op)) (d : powerTaskData) : powerTaskData * list pm_out :=
  match os with
  | [] => (d, [])
  | (e, o) :: os => let r := pm_step e o d in let s := pm_run os (fst r) in (fst s, snd r ++ snd s)
  end.

(** * Flags *)

(** The clients with flag 2 ^ n set. *)
Definition flagged (n : Z) (d : powerTaskData) : list Z := fst <$> filter (fun c => Z.testbit (snd c) n = true) (pm_clients d).

Lemma elem_of_flagged t n d : t ∈ flagged n d <-> exists f, (t, f) ∈ pm_clients d /\ Z.testbit f n = true.
Proof.
  unfold flagged. rewrite list_elem_of_fmap. split.
  - intros ([t' f] & -> & Hc). apply list_elem_of_filter in Hc as [Hb Hc]. by exists f.
  - intros (f & Hc & Hb). exists (t, f). split; [done |]. by apply list_elem_of_filter.
Qed.

Lemma flagged_nil n d : flagged n d = [] <-> forall t, t ∉ flagged n d.
Proof. split; [intros ->; intros t; apply not_elem_of_nil |]. intros Hn. destruct (flagged n d) as [| t l]; [done |]. destruct (Hn t). by left. Qed.

Lemma land_flag n x : 0 <= n -> (Z.land x (2 ^ n) =? 0) = negb (Z.testbit x n).
Proof.
  intros Hn. destruct (Z.testbit x n) eqn:E; cbn [negb].
  - apply Z.eqb_neq. intros H0. assert (Z.testbit (Z.land x (2 ^ n)) n = true) as Hb by (rewrite Z.land_spec, E, Z.pow2_bits_true; done).
    by rewrite H0, Z.bits_0 in Hb.
  - apply Z.eqb_eq, Z.bits_inj_0. intros k. rewrite Z.land_spec, Z.pow2_bits_eqb by done. destruct (Z.eqb_spec n k) as [<- | _]; [by rewrite E |].
    by rewrite andb_false_r.
Qed.

Lemma all_cleared n d : 0 <= n -> appPowerAllClientsHaveFlagCleared (2 ^ n) d = true <-> pm_clients d <> [] /\ flagged n d = [].
Proof.
  intros Hn. rewrite flagged_nil. unfold appPowerAllClientsHaveFlagCleared. destruct (pm_clients d) as [| c0 l0] eqn:E; [split; [done | by intros [? _]] |].
  rewrite <- E. rewrite forallb_forall. split.
  - intros Hall. split; [by rewrite E |]. intros t Ht. apply elem_of_flagged in Ht as (f & Hc & Hb). apply list_elem_of_In in Hc.
    specialize (Hall _ Hc). cbn in Hall. by rewrite land_flag, Hb in Hall.
  - intros [_ Hno] [t f] Hc. cbn. rewrite land_flag by done. apply negb_true_iff, not_true_iff_false. intros Hb. apply (Hno t).
    apply elem_of_flagged. exists f. split; [by apply list_elem_of_In | done].
Qed.

(** What the changes of flags do to them. *)
Lemma flagged_change t n task f d : t ∈ flagged n (change_client task f d) <->
  exists x, (t, x) ∈ pm_clients d /\ Z.testbit (if t =? task then f x else x) n = true.
Proof.
  rewrite elem_of_flagged. unfold change_client. cbn [pm_clients field_set]. split.
  - intros (y & Hy & Hb). apply list_elem_of_In, in_map_iff in Hy as ([t' x] & Heq & Hin). apply list_elem_of_In in Hin. cbn [fst snd] in Heq.
    destruct (t' =? task) eqn:E; injection Heq as -> <-; exists x; by rewrite E.
  - intros (x & Hx & Hb). exists (if t =? task then f x else x). split; [| exact Hb]. apply list_elem_of_In, in_map_iff. exists (t, x).
    split; [cbn; by destruct (t =? task) | by apply list_elem_of_In].
Qed.

Lemma flagged_set t n k task d : 0 <= k -> t ∈ flagged n (change_client task (fun x => Z.lor x (2 ^ k)) d) <->
  t ∈ flagged n d \/ t = task /\ n = k /\ t ∈ pm_tasks d.
Proof.
  intros Hk. rewrite flagged_change, elem_of_flagged. unfold pm_tasks. rewrite list_elem_of_fmap. split.
  - intros (x & Hx & Hb). destruct (Z.eqb_spec t task) as [-> | _]; [| left; by exists x].
    rewrite Z.lor_spec, Z.pow2_bits_eqb in Hb by done. destruct (Z.eqb_spec k n) as [-> | _].
    + right. split_and!; try done. by exists (task, x).
    + left. exists x. by rewrite orb_false_r in Hb.
  - intros [(x & Hx & Hb) | (-> & -> & [t' x] & -> & Hx)]; exists x; (split; [exact Hx |]).
    + destruct (t =? task); [by rewrite Z.lor_spec, Hb | exact Hb].
    + cbn [fst]. by rewrite Z.eqb_refl, Z.lor_spec, Z.pow2_bits_true, orb_true_r.
Qed.

Lemma flagged_clear t n k task d : 0 <= k -> t ∈ flagged n (change_client task (fun x => Z.ldiff x (2 ^ k)) d) <->
  t ∈ flagged n d /\ (t = task -> n <> k).
Proof.
  intros Hk. rewrite flagged_change, elem_of_flagged. split.
  - intros (x & Hx & Hb). destruct (Z.eqb_spec t task) as [-> | Hne]; [| split; [by exists x | done]].
    rewrite Z.ldiff_spec, Z.pow2_bits_eqb in Hb by done. apply andb_true_iff in Hb as [Hb Hk']. split; [by exists x |].
    intros _ ->. by rewrite Z.eqb_refl in Hk'.
  - intros [(x & Hx & Hb) Hne]. exists x. split; [exact Hx |]. destruct (Z.eqb_spec t task) as [-> | _]; [| exact Hb].
    rewrite Z.ldiff_spec, Hb, Z.pow2_bits_eqb by done. destruct (Z.eqb_spec k n) as [-> | _]; [by destruct Hne | done].
Qed.

Lemma flagged_set_all t n k d : 0 <= k -> t ∈ flagged n (appPowerSetFlagInAllClients (2 ^ k) d) <->
  t ∈ flagged n d \/ n = k /\ t ∈ pm_tasks d.
Proof.
  intros Hk. rewrite !elem_of_flagged. unfold appPowerSetFlagInAllClients, pm_tasks. cbn [pm_clients field_set]. rewrite list_elem_of_fmap. split.
  - intros (y & Hy & Hb). apply list_elem_of_In, in_map_iff in Hy as ([t' x] & Heq & Hin). apply list_elem_of_In in Hin. injection Heq as -> <-.
    cbn [snd] in Hb. rewrite Z.lor_spec, Z.pow2_bits_eqb in Hb by done. destruct (Z.eqb_spec k n) as [-> | _].
    + right. split; [done |]. by exists (t, x).
    + left. exists x. by rewrite orb_false_r in Hb.
  - intros [(x & Hx & Hb) | (-> & [t' x] & -> & Hx)]; exists (Z.lor x (2 ^ k));
      (split; [apply list_elem_of_In, in_map_iff; eexists; split; [| by apply list_elem_of_In]; done |]).
    + by rewrite Z.lor_spec, Hb.
    + by rewrite Z.lor_spec, Z.pow2_bits_true, orb_true_r.
Qed.

Lemma tasks_change task f d : pm_tasks (change_client task f d) = pm_tasks d.
Proof.
  unfold pm_tasks, change_client. cbn [pm_clients field_set]. induction (pm_clients d) as [| [t x] l IH]; cbn; [done |]. rewrite IH. by destruct (t =? task).
Qed.
Lemma tasks_set_all k d : pm_tasks (appPowerSetFlagInAllClients k d) = pm_tasks d.
Proof. unfold pm_tasks, appPowerSetFlagInAllClients. cbn [pm_clients field_set]. induction (pm_clients d) as [| [t x] l IH]; cbn; [done |]. by rewrite IH. Qed.

(** * The state machine *)
Definition asks_shutdown (outs : list pm_out) : Prop := PM_SHUTDOWN ∈ outs \/ PM_EMERGENCY_SHUTDOWN ∈ outs.

(** The tasks that are told to prepare for shutdown. *)
Definition told_of (o : pm_out) : list Z :=
  match o with PM_TO_ALL tasks APP_POWER_SHUTDOWN_PREPARE_IND => tasks | PM_TO task APP_POWER_SHUTDOWN_PREPARE_IND => [task] | _ => [] end.
Definition told (outs : list pm_out) : list Z := flat_map told_of outs.

(** Between steps somebody still has to answer when the manager waits, and
    nobody when it does not. *)
Definition pm_good (d : powerTaskData) : Prop :=
  pm_halted d = false ->
  match pm_state d with
  | POWER_STATE_TERMINATING_CLIENTS_NOTIFIED => flagged 1 d <> [] /\ flagged 2 d = []
  | POWER_STATE_SOPORIFIC_CLIENTS_NOTIFIED => flagged 1 d = [] /\ flagged 2 d <> []
  | POWER_STATE_TERMINATING_CLIENTS_RESPONDED => False
  | _ => flagged 1 d = [] /\ flagged 2 d = []
  end.

Section steps.
Context (e : pm_env).

(** The clients that owe an answer to the shutdown: those that did or are told
    now, and for which [keep] holds. *)
Definition contract (keep : Z -> Prop) (d : powerTaskData) (r : powerTaskData * list pm_out) : Prop :=
  pm_good (fst r) /\
  (forall t, t ∈ flagged 1 (fst r) <-> (t ∈ flagged 1 d \/ t ∈ told (snd r)) /\ keep t) /\
  (asks_shutdown (snd r) -> flagged 1 (fst r) = [] /\ charger_can_power_off e = true).

Lemma contract_same (keep : Z -> Prop) d outs d' : pm_good d' -> (forall t, t ∈ flagged 1 d' <-> t ∈ flagged 1 d /\ keep t) -> told outs = [] ->
  ~ asks_shutdown outs -> contract keep d (d', outs).
Proof.
  intros Hg Hf Ht Ha. split; [exact Hg |]. split; [| done]. intros t. cbn [fst snd]. rewrite Ht, Hf. split; [intros [? ?]; auto |].
  intros [[? | Hin] ?]; [done | by apply not_elem_of_nil in Hin].
Qed.

Lemma asks_none outs : Forall (fun o => o <> PM_SHUTDOWN /\ o <> PM_EMERGENCY_SHUTDOWN) outs -> ~ asks_shutdown outs.
Proof. rewrite Forall_forall. intros Hall [Hin | Hin]; by destruct (Hall _ Hin). Qed.

Lemma asks_app outs outs' : asks_shutdown (outs ++ outs') -> asks_shutdown outs \/ asks_shutdown outs'.
Proof. unfold asks_shutdown. rewrite !elem_of_app. tauto. Qed.

Lemma contract_skip d : pm_good d -> contract (fun _ => True) d (d, []).
Proof. intros Hd. apply contract_same; [exact Hd | intros t; tauto | done | by apply asks_none]. Qed.

(** ** Transitions *)
Definition ok_of (d : powerTaskData) : powerTaskData := d <| pm_state := POWER_STATE_OK |> <| user_initiated_shutdown := false |>.

Lemma set_ok_spec d : pm_halted d = false -> set_ok d = (ok_of d, snd (leave_state d)).
Proof. intros Hh. destruct d as [cs n st dm us ic h]. cbn in Hh. subst. unfold set_ok, change_state, pm_seq. destruct st; done. Qed.

Lemma responded_spec d : pm_halted d = false -> pm_state d = POWER_STATE_TERMINATING_CLIENTS_NOTIFIED ->
  set_terminating_responded e d =
    if appPowerNeedsToPowerOff e d then
      let o := if user_initiated_shutdown d then PM_SHUTDOWN else PM_EMERGENCY_SHUTDOWN in
      if (if user_initiated_shutdown d then shutdown_returns e else emergency_returns e)
      then (ok_of d, [o; PM_TO_ALL (pm_tasks d) APP_POWER_SHUTDOWN_CANCELLED_IND])
      else (d <| pm_state := POWER_STATE_TERMINATING_CLIENTS_RESPONDED |> <| pm_halted := true |>, [o])
    else (ok_of d, [PM_TO_ALL (pm_tasks d) APP_POWER_SHUTDOWN_CANCELLED_IND]).
Proof.
  intros Hh Hs. destruct d as [cs n st dm us ic h]. cbn in Hh, Hs. subst. unfold set_terminating_responded, change_state, pm_seq, pm_if.
  cbn -[appPowerNeedsToPowerOff]. unfold appPowerEnterPowerStateTerminatingClientsResponded, pm_seq, pm_if.
  change (appPowerNeedsToPowerOff e (mkpm cs n POWER_STATE_TERMINATING_CLIENTS_RESPONDED dm us ic false)) with
    (appPowerNeedsToPowerOff e (mkpm cs n POWER_STATE_TERMINATING_CLIENTS_NOTIFIED dm us ic false)).
  destruct (appPowerNeedsToPowerOff e _); [| done]. cbn. destruct us; cbn; [destruct (shutdown_returns e) | destruct (emergency_returns e)]; done.
Qed.

Lemma responded_contract d : pm_halted d = false -> pm_state d = POWER_STATE_TERMINATING_CLIENTS_NOTIFIED -> flagged 1 d = [] -> flagged 2 d = [] ->
  contract (fun _ => True) d (set_terminating_responded e d).
Proof.
  intros Hh Hs H1 H2. rewrite (responded_spec d Hh Hs). cbv zeta.
  assert (forall outs d', flagged 1 d' = [] -> flagged 2 d' = [] -> (pm_halted d' = false -> pm_state d' = POWER_STATE_OK) -> told outs = [] ->
    (asks_shutdown outs -> charger_can_power_off e = true) -> contract (fun _ => True) d (d', outs)) as Hc.
  { intros outs d' E1 E2 Hd' Ht Ha. split; [intros Hh'; cbn [fst]; rewrite (Hd' Hh'); done |]. split; [| auto].
    intros t. cbn [fst snd]. rewrite E1, H1, Ht. split; [intros Hin; by apply not_elem_of_nil in Hin | intros [[Hin | Hin] _]; exact Hin]. }
  unfold appPowerNeedsToPowerOff, appPowerCanPowerOff. destruct (charger_can_power_off e) eqn:Ep; cbn [andb].
  - destruct (temperature_extreme e || user_initiated_shutdown d || region_unsafe e); [destruct (user_initiated_shutdown d); [destruct (shutdown_returns e) | destruct (emergency_returns e)] |];
      apply Hc; done.
  - apply Hc; try done. intros Ha. by apply asks_none in Ha; [| repeat constructor].
Qed.

Lemma notified_contract d : pm_halted d = false -> pm_state d = POWER_STATE_OK -> flagged 1 d = [] -> flagged 2 d = [] ->
  contract (fun _ => True) d (set_terminating_notified e d).
Proof.
  intros Hh Hs H1 H2. set (d1 := d <| pm_state := POWER_STATE_TERMINATING_CLIENTS_NOTIFIED |>).
  assert (set_terminating_notified e d = appPowerEnterPowerStateTerminatingClientsNotified e d1) as ->.
  { unfold set_terminating_notified, change_state, pm_seq, leave_state. rewrite Hs. cbn [fst snd pm_set]. rewrite Hh. cbn [fst snd app]. 
    change (pm_halted (d <| pm_state := _ |>)) with (pm_halted d). rewrite Hh. fold d1. by destruct (appPowerEnterPowerStateTerminatingClientsNotified e d1). }
  unfold appPowerEnterPowerStateTerminatingClientsNotified, pm_if. destruct (Nat.eqb (length (pm_clients d1)) 0) eqn:E; cbn [negb].
  - exact (responded_contract d1 Hh eq_refl H1 H2).
  - unfold pm_seq, to_clients, pm_set. cbn [fst snd]. change (pm_halted d1) with (pm_halted d). rewrite Hh.
    set (d2 := appPowerSetFlagInAllClients APP_POWER_SHUTDOWN_PREPARE_RESPONSE_PENDING d1). change (pm_halted d2) with (pm_halted d). rewrite Hh.
    cbn [fst snd app]. assert (forall t, t ∈ flagged 1 d2 <-> t ∈ pm_tasks d) as Hf.
    { intros t. unfold d2. change APP_POWER_SHUTDOWN_PREPARE_RESPONSE_PENDING with (2 ^ 1). rewrite flagged_set_all by done.
      change (flagged 1 d1) with (flagged 1 d). rewrite H1. split; [intros [Hin | [_ Hin]]; [by apply not_elem_of_nil in Hin | exact Hin] | intros Hin; by right]. }
    split; [intros _; cbn [fst]; split |].
    + destruct (pm_clients d) as [| [t x] l] eqn:Ec; [unfold d1 in E; cbn in E; by rewrite Ec in E |].
      intros E1. assert (t ∈ flagged 1 d2) as Hin by (apply Hf; unfold pm_tasks; rewrite Ec; by left). rewrite E1 in Hin. by apply not_elem_of_nil in Hin.
    + apply flagged_nil. intros t Ht. unfold d2 in Ht. change APP_POWER_SHUTDOWN_PREPARE_RESPONSE_PENDING with (2 ^ 1) in Ht. apply flagged_set_all in Ht; [| done].
      destruct Ht as [Ht | [? _]]; [| done]. change (flagged 2 d1) with (flagged 2 d) in Ht. rewrite H2 in Ht. by apply not_elem_of_nil in Ht.
    + split; [| intros Ha; by apply asks_none in Ha; [| repeat constructor]].
      intros t. cbn [fst snd]. rewrite Hf. unfold told. cbn [flat_map told_of]. rewrite app_nil_r, H1. change (pm_tasks d1) with (pm_tasks d).
      split; [intros Hin; split; [by right | done] | intros [[Hin | Hin] _]; [by apply not_elem_of_nil in Hin | exact Hin]].
Qed.

Lemma soporific_responded_contract d : pm_halted d = false -> pm_state d = POWER_STATE_SOPORIFIC_CLIENTS_NOTIFIED -> flagged 1 d = [] -> flagged 2 d = [] ->
  contract (fun _ => True) d (set_soporific_responded e d).
Proof.
  intros Hh Hs H1 H2. destruct d as [cs n st dm us ic h]. cbn in Hh, Hs. subst. unfold set_soporific_responded, change_state, pm_seq, appPowerEnterPowerStateSoporificClientsResponded, pm_if.
  cbn -[appPowerCanSleep set_ok]. destruct (appPowerCanSleep e _); [| rewrite set_ok_spec by done];
    (apply contract_same; [intros Hh; done | intros t; cbn [fst snd]; tauto | done | by apply asks_none; repeat constructor]).
Qed.

Lemma soporific_notified_contract d : pm_halted d = false -> pm_state d = POWER_STATE_OK -> flagged 1 d = [] -> flagged 2 d = [] ->
  contract (fun _ => True) d (set_soporific_notified e d).
Proof.
  intros Hh Hs H1 H2. set (d1 := d <| pm_state := POWER_STATE_SOPORIFIC_CLIENTS_NOTIFIED |>).
  assert (set_soporific_notified e d = appPowerEnterPowerStateSoporificClientsNotified e d1) as ->.
  { unfold set_soporific_notified, change_state, pm_seq, leave_state. rewrite Hs. cbn [fst snd pm_set]. rewrite Hh. cbn [fst snd app].
    change (pm_halted (d <| pm_state := _ |>)) with (pm_halted d). rewrite Hh. fold d1. by destruct (appPowerEnterPowerStateSoporificClientsNotified e d1). }
  unfold appPowerEnterPowerStateSoporificClientsNotified, pm_if. destruct (Nat.eqb (length (pm_clients d1)) 0) eqn:E; cbn [negb].
  - exact (soporific_responded_contract d1 Hh eq_refl H1 H2).
  - unfold pm_seq, to_clients, pm_set. cbn [fst snd]. change (pm_halted d1) with (pm_halted d). rewrite Hh. cbn [fst snd app].
    set (d2 := appPowerSetFlagInAllClients APP_POWER_SLEEP_PREPARE_RESPONSE_PENDING d1).
    assert (flagged 1 d2 = []) as Hf.
    { apply flagged_nil. intros t Ht. unfold d2 in Ht. change APP_POWER_SLEEP_PREPARE_RESPONSE_PENDING with (2 ^ 2) in Ht. apply flagged_set_all in Ht; [| done].
      destruct Ht as [Ht | [? _]]; [| done]. change (flagged 1 d1) with (flagged 1 d) in Ht. rewrite H1 in Ht. by apply not_elem_of_nil in Ht. }
    apply contract_same; [| intros t; cbn [fst snd]; rewrite Hf, H1; tauto | done | by apply asks_none; repeat constructor].
    intros _. split; [exact Hf |]. destruct (pm_clients d) as [| [t x] l] eqn:Ec; [unfold d1 in E; cbn in E; by rewrite Ec in E |].
    intros E1. assert (t ∈ flagged 2 d2) as Hin.
    { unfold d2. change APP_POWER_SLEEP_PREPARE_RESPONSE_PENDING with (2 ^ 2). apply flagged_set_all; [done |]. right. split; [done |]. unfold pm_tasks, d1. cbn. rewrite Ec. by left. }
    rewrite E1 in Hin. by apply not_elem_of_nil in Hin.
Qed.
End steps.

Section ops.
Context (e : pm_env).

Lemma contract_weaken (keep : Z -> Prop) d r : contract e (fun _ => True) d r -> (forall t, t ∈ flagged 1 (fst r) -> keep t) ->
  (forall t, t ∈ flagged 1 d \/ t ∈ told (snd r) -> keep t) -> contract e keep d r.
Proof. intros (Hg & Hf & Ha) Hk1 Hk2. split; [exact Hg |]. split; [| exact Ha]. intros t. rewrite Hf. split; [intros [Hor _]; split; [exact Hor | by apply Hk2] | intros [Hor _]; done]. Qed.

(** An event. *)
Lemma init_event_spec d : pm_halted d = false -> pm_state d = POWER_STATE_INIT ->
  appPowerHandlePowerEvent e d =
    if appPowerNeedsToPowerOff e d then
      if shutdown_returns e then (ok_of d, [PM_SHUTDOWN; PM_INIT_CFM]) else (d <| pm_halted := true |>, [PM_SHUTDOWN])
    else (ok_of d, [PM_INIT_CFM]).
Proof.
  intros Hh Hs. unfold appPowerHandlePowerEvent. rewrite Hs. destruct d as [cs n st dm us ic h]. cbn in Hh, Hs. subst. unfold pm_seq, pm_if.
  destruct (appPowerNeedsToPowerOff e _); [| done]. cbn. by destruct (shutdown_returns e).
Qed.

Lemma needs_can_power_off d : appPowerNeedsToPowerOff e d = true -> charger_can_power_off e = true.
Proof. unfold appPowerNeedsToPowerOff, appPowerCanPowerOff. by destruct (charger_can_power_off e). Qed.

Lemma event_contract d : pm_halted d = false -> pm_good d -> contract e (fun _ => True) d (appPowerHandlePowerEvent e d).
Proof.
  intros Hh Hg. pose proof (Hg Hh) as Hs.
  assert (forall outs d', flagged 1 d' = [] -> pm_good d' -> flagged 1 d = [] -> told outs = [] ->
    (asks_shutdown outs -> charger_can_power_off e = true) -> contract e (fun _ => True) d (d', outs)) as Hc.
  { intros outs d' E1 Hg' H1 Ht Ha. split; [exact Hg' |]. split; [| auto].
    intros t. cbn [fst snd]. rewrite E1, H1, Ht. split; [intros Hin; by apply not_elem_of_nil in Hin | intros [[Hin | Hin] _]; exact Hin]. }
  destruct (pm_state d) eqn:Est; try (unfold appPowerHandlePowerEvent; rewrite Est; by apply contract_skip).
  - rewrite (init_event_spec d Hh Est). destruct Hs as [H1 H2].
    destruct (appPowerNeedsToPowerOff e d) eqn:En; [destruct (shutdown_returns e) |]; apply Hc; try done;
      try (intros _; exact (needs_can_power_off d En)). intros Ha. by apply asks_none in Ha; [| repeat constructor].
  - unfold appPowerHandlePowerEvent. rewrite Est.
    destruct Hs as [H1 H2]. destruct (appPowerNeedsToPowerOff e d); [by apply notified_contract |].
    destruct (appPowerAllClientsHaveFlagSet _ d); [| by apply contract_skip]. destruct (appPowerCanSleep e d); [| by apply contract_skip].
    by apply soporific_notified_contract.
Qed.

(** A change of ALLOW_SLEEP. *)
Lemma allow_flag_good task f d : (forall x n, n = 1 \/ n = 2 -> Z.testbit (f x) n = Z.testbit x n) ->
  forall n, n = 1 \/ n = 2 -> forall t, t ∈ flagged n (change_client task f d) <-> t ∈ flagged n d.
Proof.
  intros Hf n Hn t. rewrite flagged_change, elem_of_flagged. split; intros (x & Hx & Hb); exists x; (split; [exact Hx |]);
    destruct (t =? task); rewrite ?Hf in * by done; done.
Qed.

(** A change that keeps the flags of both answers. *)
Lemma good_same d d' : pm_good d -> (forall n, n = 1 \/ n = 2 -> forall t, t ∈ flagged n d' <-> t ∈ flagged n d) ->
  pm_state d' = pm_state d -> pm_halted d' = pm_halted d -> pm_good d'.
Proof.
  intros Hg Hf Hs Hh Hh'. rewrite Hh in Hh'. specialize (Hg Hh'). rewrite Hs.
  assert (forall n, n = 1 \/ n = 2 -> flagged n d' = [] <-> flagged n d = []) as Hn.
  { intros n Hn. rewrite !flagged_nil. split; intros Hall t Ht; apply (Hall t); by apply (Hf n Hn). }
  pose proof (Hn 1 ltac:(auto)). pose proof (Hn 2 ltac:(auto)). destruct (pm_state d); tauto.
Qed.

Lemma allow_contract task d : pm_halted d = false -> pm_good d -> contract e (fun _ => True) d (appPowerClientAllowSleep e task d).
Proof.
  intros Hh Hg. unfold appPowerClientAllowSleep. cbn [snd appPowerSetFlagInClient].
  set (d1 := change_client task (fun x => Z.lor x APP_POWER_ALLOW_SLEEP) d).
  assert (forall n, n = 1 \/ n = 2 -> forall t, t ∈ flagged n d1 <-> t ∈ flagged n d) as Hf.
  { apply allow_flag_good. intros x n Hn. rewrite Z.lor_spec. destruct Hn as [-> | ->]; apply orb_false_r. }
  assert (pm_good d1) as Hg1 by (by apply (good_same d)).
  destruct (bool_decide _ && _ && _) eqn:E.
  - apply andb_true_iff in E as [E _]. apply andb_true_iff in E as [E%bool_decide_eq_true _]. pose proof (Hg1 Hh) as Hs. rewrite E in Hs.
    destruct (soporific_notified_contract e d1 Hh E) as (H1 & H2 & H3); [apply Hs | apply Hs |].
    split; [exact H1 |]. split; [| exact H3]. intros t. by rewrite H2, Hf by auto.
  - apply contract_same; [exact Hg1 | intros t; rewrite Hf by auto; tauto | done | by apply asks_none].
Qed.

Lemma prohibit_contract task d : pm_halted d = false -> pm_good d -> contract e (fun _ => True) d (appPowerClientProhibitSleep task d).
Proof.
  intros Hh Hg. unfold appPowerClientProhibitSleep, pm_set. cbn [snd appPowerClearFlagInClient].
  assert (forall n, n = 1 \/ n = 2 -> forall t, t ∈ flagged n (change_client task (fun x => Z.ldiff x APP_POWER_ALLOW_SLEEP) d) <-> t ∈ flagged n d) as Hf.
  { apply allow_flag_good. intros x n Hn. rewrite Z.ldiff_spec. destruct Hn as [-> | ->]; apply andb_true_r. }
  apply contract_same; [by apply (good_same d) | intros t; rewrite Hf by auto; tauto | done | by apply asks_none].
Qed.

(** The answers. *)
Lemma no_clients_no_flags n task f d : pm_clients (change_client task f d) = [] -> flagged n d = [].
Proof.
  intros Hnil. unfold change_client in Hnil. cbn in Hnil. apply map_eq_nil in Hnil. unfold flagged. by rewrite Hnil.
Qed.

Lemma not_client_not_flagged n task d d' : is_client task d = false -> (forall t, t ∈ flagged n d' <-> t ∈ flagged n d /\ t <> task) ->
  flagged n d' = [] -> flagged n d = [].
Proof.
  intros Ei Hf Hnil. apply flagged_nil. intros t Ht. assert (t <> task) as Hne.
  { intros ->. apply elem_of_flagged in Ht as (x & Hx & _). unfold is_client in Ei. apply not_true_iff_false in Ei. apply Ei, existsb_exists. exists task.
    split; [| apply Z.eqb_refl]. apply list_elem_of_In, list_elem_of_fmap. by exists (task, x). }
  assert (t ∈ flagged n d') as Hin by (by apply Hf). rewrite Hnil in Hin. by apply not_elem_of_nil in Hin.
Qed.

Lemma soporific_clients n d : pm_halted d = false -> pm_state d = POWER_STATE_SOPORIFIC_CLIENTS_NOTIFIED ->
  flagged n (fst (set_soporific_responded e d)) = flagged n d.
Proof.
  intros Hh Hs. destruct d as [cs k st dm us ic h]. cbn in Hh, Hs. subst. unfold set_soporific_responded, change_state, pm_seq, appPowerEnterPowerStateSoporificClientsResponded, pm_if.
  cbn -[appPowerCanSleep set_ok]. destruct (appPowerCanSleep e _); [| rewrite set_ok_spec by done]; done.
Qed.

Lemma shutdown_response_contract task d : pm_halted d = false -> pm_good d ->
  contract e (fun t => t <> task) d (appPowerShutdownPrepareResponse e task d).
Proof.
  intros Hh Hg. pose proof (Hg Hh) as Hs. unfold appPowerShutdownPrepareResponse, prepare_response. cbn [fst snd appPowerClearFlagInClient].
  change APP_POWER_SHUTDOWN_PREPARE_RESPONSE_PENDING with (2 ^ 1). set (d1 := change_client task (fun x => Z.ldiff x (2 ^ 1)) d).
  assert (forall t, t ∈ flagged 1 d1 <-> t ∈ flagged 1 d /\ t <> task) as Hf.
  { intros t. unfold d1. rewrite flagged_clear by done. split; intros [? Hk]; (split; [done |]); [intros ->; by apply Hk | done]. }
  assert (forall t, t ∈ flagged 2 d1 <-> t ∈ flagged 2 d) as Hf2.
  { intros t. unfold d1. rewrite flagged_clear by done. split; [tauto | intros ?; split; [done | intros _; lia]]. }
  destruct (bool_decide_reflect (pm_state d = POWER_STATE_TERMINATING_CLIENTS_NOTIFIED)) as [Est | Est].
  - rewrite Est in Hs. destruct Hs as [H1 H2]. assert (flagged 2 d1 = []) as H2' by (apply flagged_nil; intros t; rewrite Hf2, H2; apply not_elem_of_nil).
    destruct (is_client task d && appPowerAllClientsHaveFlagCleared (2 ^ 1) d1) eqn:E.
    + apply andb_true_iff in E as [_ [_ H1']%all_cleared]; [| done].
      destruct (responded_contract e d1 Hh Est H1' H2') as (H3 & H4 & H5). split; [exact H3 |]. split; [| exact H5].
      intros t. rewrite H4. assert (told (snd (set_terminating_responded e d1)) = []) as Ht.
      { rewrite (responded_spec e d1 Hh Est). cbv zeta. destruct (appPowerNeedsToPowerOff e d1); [| done].
        destruct (user_initiated_shutdown d1); [destruct (shutdown_returns e) | destruct (emergency_returns e)]; done. }
      cbn [appPowerSetState]. rewrite Ht, Hf. split; [intros [[[? ?] | Hin] _]; [auto | by apply not_elem_of_nil in Hin] | intros [[? | Hin] ?]; [auto | by apply not_elem_of_nil in Hin]].
    + apply contract_same; [| exact Hf | done | by apply asks_none]. intros _. change (pm_state d1) with (pm_state d). rewrite Est. split; [| exact H2'].
      intros H1'. destruct (is_client task d) eqn:Ei; cbn [andb] in E.
      * apply not_true_iff_false in E. apply E. apply all_cleared; [done |]. split; [| exact H1'].
        intros Hnil. apply H1. exact (no_clients_no_flags 1 task _ d Hnil).
      * apply H1. exact (not_client_not_flagged 1 task d _ Ei Hf H1').
  - apply contract_same; [exact Hg | | done | by apply asks_none]. assert (flagged 1 d = []) as H1 by (destruct (pm_state d); try done; apply Hs).
    rewrite H1. intros t. split; [intros Hin; by apply not_elem_of_nil in Hin | by intros [Hin _]].
Qed.
Lemma sleep_response_contract task d : pm_halted d = false -> pm_good d ->
  contract e (fun _ => True) d (appPowerSleepPrepareResponse e task d) /\ task ∉ flagged 2 (fst (appPowerSleepPrepareResponse e task d)).
Proof.
  intros Hh Hg. pose proof (Hg Hh) as Hs. unfold appPowerSleepPrepareResponse, prepare_response. cbn [fst snd appPowerClearFlagInClient].
  change APP_POWER_SLEEP_PREPARE_RESPONSE_PENDING with (2 ^ 2). set (d1 := change_client task (fun x => Z.ldiff x (2 ^ 2)) d).
  assert (forall t, t ∈ flagged 2 d1 <-> t ∈ flagged 2 d /\ t <> task) as Hf.
  { intros t. unfold d1. rewrite flagged_clear by done. split; intros [? Hk]; (split; [done |]); [intros ->; by apply Hk | done]. }
  assert (forall t, t ∈ flagged 1 d1 <-> t ∈ flagged 1 d) as Hf1.
  { intros t. unfold d1. rewrite flagged_clear by done. split; [tauto | intros ?; split; [done | intros _; lia]]. }
  destruct (bool_decide_reflect (pm_state d = POWER_STATE_SOPORIFIC_CLIENTS_NOTIFIED)) as [Est | Est].
  - rewrite Est in Hs. destruct Hs as [H1 H2]. assert (flagged 1 d1 = []) as H1' by (apply flagged_nil; intros t; rewrite Hf1, H1; apply not_elem_of_nil).
    destruct (is_client task d && appPowerAllClientsHaveFlagCleared (2 ^ 2) d1) eqn:E.
    + apply andb_true_iff in E as [_ [_ H2']%all_cleared]; [| done]. cbn [appPowerSetState].
      destruct (soporific_responded_contract e d1 Hh Est H1' H2') as (H3 & H4 & H5). split.
      * split; [exact H3 |]. split; [| exact H5]. intros t. by rewrite H4, Hf1.
      * rewrite soporific_clients by done. rewrite H2'. apply not_elem_of_nil.
    + split; [| intros Hin; by apply Hf in Hin as [_ []]].
      apply contract_same; [| intros t; rewrite Hf1; tauto | done | by apply asks_none]. intros _. change (pm_state d1) with (pm_state d). rewrite Est. split; [exact H1' |].
      intros H2'. destruct (is_client task d) eqn:Ei; cbn [andb] in E.
      * apply not_true_iff_false in E. apply E. apply all_cleared; [done |]. split; [| exact H2'].
        intros Hnil. apply H2. exact (no_clients_no_flags 2 task _ d Hnil).
      * apply H2. exact (not_client_not_flagged 2 task d _ Ei Hf H2').
  - split; [by apply contract_skip |]. cbn [fst]. assert (flagged 2 d = []) as -> by (destruct (pm_state d); try done; apply Hs). apply not_elem_of_nil.
Qed.

(** A request. *)
Lemma request_contract d : pm_halted d = false -> pm_good d -> contract e (fun _ => True) d (snd (appPowerOffRequest e d)).
Proof.
  intros Hh Hg. unfold appPowerOffRequest. destruct (appPowerCanPowerOff e); [| by apply contract_skip].
  pose proof (Hg Hh) as Hs. destruct (pm_state d) eqn:Est; try (by apply contract_skip).
  unfold pm_seq, pm_set. cbn [fst snd]. set (d1 := d <| user_initiated_shutdown := true |>). change (pm_halted d1) with (pm_halted d). rewrite Hh.
  cbn [app]. change (flagged 1 d) with (flagged 1 d1). destruct (appPowerSetState e POWER_STATE_TERMINATING_CLIENTS_NOTIFIED d1) as [d2 outs] eqn:E.
  destruct (notified_contract e d1 Hh Est) as (H1 & H2 & H3); [apply Hs | apply Hs |]. cbn [appPowerSetState] in E. rewrite E in *. by split_and!.
Qed.

(** A new client has the flag that the state asks for. *)
Lemma flagged_new n task d : flagged n (d <| pm_clients ::= fun l => l ++ [(task, 0)] |>) = flagged n d.
Proof. unfold flagged. cbn [pm_clients field_set]. rewrite filter_app. cbn. rewrite Z.bits_0. by rewrite app_nil_r. Qed.

Lemma register_contract task d : pm_halted d = false -> pm_good d -> contract e (fun _ => True) d (appPowerClientRegister task d).
Proof.
  intros Hh Hg. unfold appPowerClientRegister. destruct (is_client task d); [by apply contract_skip |].
  set (d1 := d <| pm_clients ::= fun l => l ++ [(task, 0)] |>). pose proof (Hg Hh) as Hs.
  assert (forall n, flagged n d1 = flagged n d) as Hf by (intros n; apply flagged_new).
  assert (task ∈ pm_tasks d1) as Hin by (unfold pm_tasks, d1; cbn; rewrite fmap_app; apply elem_of_app; right; by left).
  assert (pm_good d1) as Hg1 by (apply (good_same d); [exact Hg | intros n _ t; by rewrite Hf | done | done]).
  cbv zeta. change (pm_state d1) with (pm_state d). destruct (pm_state d) eqn:Est;
    try (apply contract_same; [exact Hg1 | intros t; rewrite Hf; tauto | done | by apply asks_none]).
  - apply contract_same; [by intros ? | intros t; cbn [fst snd pm_panic]; change (flagged 1 (d1 <| pm_halted := true |>)) with (flagged 1 d1); rewrite Hf; tauto | done | by apply asks_none; repeat constructor].
  - cbn [fst snd appPowerSetFlagInClient]. change APP_POWER_SHUTDOWN_PREPARE_RESPONSE_PENDING with (2 ^ 1). set (d2 := change_client _ _ d1).
    assert (forall t, t ∈ flagged 1 d2 <-> t ∈ flagged 1 d \/ t = task) as H1.
    { intros t. unfold d2. rewrite flagged_set, Hf by done. split; [tauto | intros [? | ->]; auto]. }
    split; [| split; [| intros Ha; by apply asks_none in Ha; [| repeat constructor]]].
    + intros _. cbn [fst]. change (pm_state d2) with (pm_state d). rewrite Est. split.
      * intros E. assert (task ∈ flagged 1 d2) as Hx by (apply H1; by right). rewrite E in Hx. by apply not_elem_of_nil in Hx.
      * apply flagged_nil. intros t Ht. unfold d2 in Ht. apply flagged_set in Ht; [| done]. rewrite Hf, (proj2 Hs) in Ht.
        destruct Ht as [Ht | (_ & ? & _)]; [by apply not_elem_of_nil in Ht | done].
    + intros t. cbn [fst snd]. rewrite H1. unfold told. cbn [flat_map told_of app]. rewrite list_elem_of_singleton. tauto.
  - cbn [fst snd appPowerSetFlagInClient]. change APP_POWER_SLEEP_PREPARE_RESPONSE_PENDING with (2 ^ 2). set (d2 := change_client _ _ d1).
    assert (forall t, t ∈ flagged 1 d2 <-> t ∈ flagged 1 d) as H1.
    { intros t. unfold d2. rewrite flagged_set, Hf by done. split; [intros [? | (_ & ? & _)]; done | auto]. }
    apply contract_same; [| intros t; cbn [fst snd]; rewrite H1; tauto | done | by apply asks_none; repeat constructor].
    intros _. change (pm_state d2) with (pm_state d). rewrite Est. split.
    + apply flagged_nil. intros t. rewrite H1, (proj1 Hs). apply not_elem_of_nil.
    + intros E. assert (task ∈ flagged 2 d2) as Hx by (unfold d2; apply flagged_set; [done | by right]). rewrite E in Hx. by apply not_elem_of_nil in Hx.
Qed.
(** ** Sequences *)
Lemma contract_seq keep a b d : contract e (fun _ => True) d (a d) -> (pm_halted (fst (a d)) = true -> flagged 1 (fst (a d)) = []) ->
  (pm_halted (fst (a d)) = false -> contract e keep (fst (a d)) (b (fst (a d))) /\ told (snd (b (fst (a d)))) = []) ->
  contract e keep d (pm_seq a b d).
Proof.
  intros (Hg & Hf & Ha) Hhalt Hb. unfold pm_seq. destruct (pm_halted (fst (a d))) eqn:Eh.
  - specialize (Hhalt eq_refl). split; [exact Hg |]. split; [| exact Ha]. intros t. split; [rewrite Hhalt; intros Hin; by apply not_elem_of_nil in Hin |].
    intros [Hor _]. by apply Hf.
  - destruct (Hb eq_refl) as [(Hg' & Hf' & Ha') Ht]. split; [exact Hg' |]. unfold told in *. cbn [fst snd]. split.
    + intros t. rewrite flat_map_app, Hf', Ht, app_nil_r, Hf. unfold told. split; [intros [[[Hor _] | Hin] Hk]; [done | by apply not_elem_of_nil in Hin] | intros [Hor Hk]; auto].
    + intros [H1 | H2]%asks_app; [| exact (Ha' H2)].
      destruct (Ha H1) as [H3 H4]. split; [| exact H4]. apply flagged_nil. intros t. rewrite Hf', H3, Ht. intros [[Hin | Hin] _]; by apply not_elem_of_nil in Hin.
Qed.

Lemma halted_no_clients (r : powerTaskData * list pm_out) : pm_clients (fst r) = [] -> flagged 1 (fst r) = [].
Proof. intros Hc. unfold flagged. by rewrite Hc. Qed.

Lemma soporific_responded_clients d : pm_halted d = false -> pm_state d = POWER_STATE_SOPORIFIC_CLIENTS_NOTIFIED ->
  pm_clients (fst (set_soporific_responded e d)) = pm_clients d /\ told (snd (set_soporific_responded e d)) = [].
Proof.
  intros Hh Hs. destruct d as [cs k st dm us ic h]. cbn in Hh, Hs. subst. unfold set_soporific_responded, change_state, pm_seq, appPowerEnterPowerStateSoporificClientsResponded, pm_if.
  cbn -[appPowerCanSleep set_ok]. destruct (appPowerCanSleep e _); [| rewrite set_ok_spec by done]; done.
Qed.

Lemma allow_halts task d : pm_halted d = false ->
  (pm_halted (fst (appPowerClientAllowSleep e task d)) = true -> pm_clients (fst (appPowerClientAllowSleep e task d)) = []) /\
  told (snd (appPowerClientAllowSleep e task d)) = [].
Proof.
  intros Hh. unfold appPowerClientAllowSleep. cbn [snd appPowerSetFlagInClient]. set (d1 := change_client task _ d).
  assert (pm_halted d1 = false) as Hh1 by exact Hh. clearbody d1. destruct (bool_decide _ && _ && _) eqn:E; [| by cbn [fst snd]; rewrite Hh1].
  apply andb_true_iff in E as [E _]. apply andb_true_iff in E as [E%bool_decide_eq_true _]. cbn [appPowerSetState].
  destruct d1 as [cs k st dm us ic h]. cbn in E, Hh1. subst. unfold set_soporific_notified, change_state, pm_seq, leave_state, pm_set. cbn [fst snd pm_state pm_halted field_set app].
  unfold appPowerEnterPowerStateSoporificClientsNotified, pm_if. cbn [pm_clients]. destruct cs as [| c cs]; cbn [length Nat.eqb negb].
  - destruct (soporific_responded_clients (mkpm [] k POWER_STATE_SOPORIFIC_CLIENTS_NOTIFIED dm us ic false)) as [H1 H2]; [done | done |].
    cbn -[set_soporific_responded told]. rewrite H1, H2. done.
  - done.
Qed.

Lemma shutdown_response_told task d : pm_halted d = false -> told (snd (appPowerShutdownPrepareResponse e task d)) = [].
Proof.
  intros Hh. unfold appPowerShutdownPrepareResponse, prepare_response. destruct (bool_decide_reflect (pm_state d = POWER_STATE_TERMINATING_CLIENTS_NOTIFIED)) as [Est |]; [| done].
  cbn [fst snd appPowerClearFlagInClient]. destruct (is_client task d && _); [| done]. cbn [appPowerSetState].
  rewrite responded_spec by done. cbv zeta. destruct (appPowerNeedsToPowerOff e _); [| done].
  destruct (user_initiated_shutdown _); [destruct (shutdown_returns e) | destruct (emergency_returns e)]; done.
Qed.

Lemma sleep_response_told task d : pm_halted d = false -> told (snd (appPowerSleepPrepareResponse e task d)) = [].
Proof.
  intros Hh. unfold appPowerSleepPrepareResponse, prepare_response. destruct (bool_decide_reflect (pm_state d = POWER_STATE_SOPORIFIC_CLIENTS_NOTIFIED)) as [Est |]; [| done].
  cbn [fst snd appPowerClearFlagInClient]. destruct (is_client task d && _); [| done]. cbn [appPowerSetState]. by apply soporific_responded_clients.
Qed.

(** The end of the removal of a client that owes nothing. *)
Definition drop_client (task : Z) (d : powerTaskData) : powerTaskData := d <| pm_clients ::= filter (fun c => fst c <> task) |>.

Definition drop_end (task : Z) : pm := fun d =>
  (drop_client task d, [PM_CANCEL_ALL task APP_POWER_SLEEP_PREPARE_IND; PM_CANCEL_ALL task APP_POWER_SLEEP_CANCELLED_IND;
                          PM_CANCEL_ALL task APP_POWER_SHUTDOWN_PREPARE_IND; PM_CANCEL_ALL task APP_POWER_SHUTDOWN_CANCELLED_IND]).

Lemma drop_flagged task n d t : t ∈ flagged n (drop_client task d) <-> t ∈ flagged n d /\ t <> task.
Proof.
  rewrite !elem_of_flagged. unfold drop_client. cbn [pm_clients field_set]. split.
  - intros (x & Hx & Hb). apply list_elem_of_filter in Hx as [Hne Hx]. split; [by exists x | exact Hne].
  - intros [(x & Hx & Hb) Hne]. exists x. split; [by apply list_elem_of_filter | exact Hb].
Qed.

Lemma drop_contract task d : pm_halted d = false -> pm_good d -> task ∉ flagged 1 d ->
  contract e (fun _ => True) d
    (pm_seq (appPowerSleepPrepareResponse e task) (drop_end task) d) /\
  told (snd (pm_seq (appPowerSleepPrepareResponse e task) (drop_end task) d)) = [].
Proof.
  intros Hh Hg H1. destruct (sleep_response_contract task d Hh Hg) as [(Hg' & Hf & Ha) H2]. pose proof (sleep_response_told task d Hh) as Ht.
  unfold pm_seq, drop_end. set (r := appPowerSleepPrepareResponse e task d) in *. clearbody r. destruct (pm_halted (fst r)) eqn:Eh; [by split |].
  assert (task ∉ flagged 1 (fst r)) as H1' by (rewrite Hf, Ht; intros [[Hin | Hin] _]; [done | by apply not_elem_of_nil in Hin]).
  assert (forall n, n = 1 \/ n = 2 -> forall t, t ∈ flagged n (drop_client task (fst r)) <-> t ∈ flagged n (fst r)) as Hn.
  { intros n Hn t. rewrite drop_flagged. split; [tauto |]. intros Hin. split; [exact Hin |]. intros ->. by destruct Hn as [-> | ->]. }
  cbn [fst snd]. unfold told in *. rewrite flat_map_app, Ht. split; [| done]. split; [| split].
  - apply (good_same (fst r)); done.
  - intros t. cbn [fst snd]. unfold told. rewrite flat_map_app, (Hn 1), Hf by auto. unfold told. rewrite Ht. done.
  - intros [Hr | Hr]%asks_app; [| by apply asks_none in Hr; [| repeat constructor]].
    destruct (Ha Hr) as [H3 H4]. split; [| exact H4]. apply flagged_nil. intros t. cbn [fst]. rewrite (Hn 1), H3 by auto. apply not_elem_of_nil.
Qed.

Lemma unregister_contract task d : pm_halted d = false -> pm_good d -> contract e (fun t => t <> task) d (appPowerClientUnregister e task d).
Proof.
  intros Hh Hg. unfold appPowerClientUnregister. apply contract_seq.
  - by apply allow_contract.
  - intros Hx. apply halted_no_clients. by apply (allow_halts task d Hh).
  - intros Hh1. pose proof (allow_contract task d Hh Hg) as (Hg1 & _). set (d1 := fst (appPowerClientAllowSleep e task d)) in *. clearbody d1. clear d Hh Hg.
    destruct (shutdown_response_contract task d1 Hh1 Hg1) as (H1 & H2 & H3). pose proof (shutdown_response_told task d1 Hh1) as Ht.
    set (r := appPowerShutdownPrepareResponse e task d1) in *. set (q := pm_seq (appPowerSleepPrepareResponse e task) (drop_end task) (fst r)).
    match goal with |- contract _ _ _ ?x /\ _ => assert (x = if pm_halted (fst r) then r else (fst q, snd r ++ snd q)) as -> end.
    { unfold q, pm_seq, drop_end. fold r. destruct (pm_halted (fst r)); [done |].
      destruct (pm_halted (fst (appPowerSleepPrepareResponse e task (fst r)))) eqn:E1; [done |]. unfold pm_emit, pm_set. cbn [fst snd app]. rewrite E1. done. }
    destruct (pm_halted (fst r)) eqn:Eh; [by split |].
    assert (task ∉ flagged 1 (fst r)) as Hno by (rewrite H2; by intros [_ []]).
    destruct (drop_contract task (fst r) Eh H1 Hno) as [(H4 & H5 & H6) H7]. fold q in H4, H5, H6, H7.
    clearbody q. unfold told in *. cbn [fst snd]. rewrite flat_map_app, Ht, H7. split; [| done].
    split; [exact H4 |]. unfold told in *. cbn [fst snd]. split.
    + intros t. rewrite flat_map_app, H5, H2, Ht, H7. cbn [app]. rewrite !elem_of_nil. tauto.
    + intros [Hx | Hx]%asks_app; [| exact (H6 Hx)].
      destruct (H3 Hx) as [H8 H9]. split; [| exact H9]. apply flagged_nil. intros t. rewrite H5, H8, H7, !elem_of_nil. tauto.
Qed.
(** ** Every step *)
Lemma contract_flags keep d d' r : contract e keep d' r -> (forall t, t ∈ flagged 1 d' <-> t ∈ flagged 1 d) -> contract e keep d r.
Proof. intros (H1 & H2 & H3) Hf. split; [exact H1 |]. split; [| exact H3]. intros t. by rewrite H2, Hf. Qed.

Lemma init_complete_contract d : pm_halted d = false -> pm_good d -> contract e (fun _ => True) d (appPowerInitComplete e d).
Proof.
  intros Hh Hg. unfold appPowerInitComplete, pm_seq, pm_set. cbn [fst snd]. set (d1 := d <| init_complete := true |>). change (pm_halted d1) with (pm_halted d). rewrite Hh.
  cbn [app]. assert (pm_good d1) as Hg1 by exact Hg. pose proof (event_contract d1 Hh Hg1) as Hc. destruct (appPowerHandlePowerEvent e d1) as [d2 outs]. cbn [fst snd].
  by apply (contract_flags _ d d1).
Qed.

Lemma group_contract task d : pm_halted d = false -> pm_good d -> contract e (fun _ => True) d (powerManager_RegisterMessageGroup e task d).
Proof.
  intros Hh Hg. unfold powerManager_RegisterMessageGroup. pose proof (register_contract task d Hh Hg) as Hr. apply contract_seq; [exact Hr | |].
  - intros Hx. unfold appPowerClientRegister in *. destruct (is_client task d); [by cbn in Hx; rewrite Hh in Hx |].
    pose proof (Hg Hh) as Hs. destruct (pm_state d) eqn:E; cbn [pm_state field_set] in *; rewrite E in *; cbn in Hx; rewrite ?Hh in Hx; try done.
    cbn [fst pm_panic]. transitivity (flagged 1 d); [apply flagged_new | apply Hs].
  - intros Hh1. split; [apply allow_contract; [exact Hh1 | apply Hr] | by apply allow_halts].
Qed.

(** The profile is apart. *)
Definition apart (d : powerTaskData) (r : powerTaskData * list pm_out) : Prop :=
  pm_clients (fst r) = pm_clients d /\ pm_state (fst r) = pm_state d /\ told (snd r) = [] /\ ~ asks_shutdown (snd r).

Lemma apart_contract d r : pm_halted d = false -> pm_good d -> apart d r -> contract e (fun _ => True) d r.
Proof.
  intros Hh Hg (Hc & Hs & Ht & Ha). destruct r as [d' outs]. cbn [fst snd] in *. assert (forall n, flagged n d' = flagged n d) as Hf by (intros n; unfold flagged; by rewrite Hc).
  apply contract_same; [| intros t; rewrite Hf; tauto | exact Ht | exact Ha]. intros _. rewrite Hs, !Hf. exact (Hg Hh).
Qed.

Lemma performance_apart d : pm_halted d = false -> apart d (appPowerPerformanceProfileRequest d).
Proof.
  intros Hh. destruct d as [cs n st dm us ic h]. cbn in Hh. subst. unfold appPowerPerformanceProfileRequest, pm_seq, pm_if, pm_emit, pm_set, pm_panic, pm_skip.
  cbn [performance_req_count pm_halted field_set fst snd]. destruct (n =? 0); cbn -[u32 asks_shutdown]; destruct (u32 (n + 1) =? 0); cbn -[u32 asks_shutdown];
    (split_and!; [done | done | done | apply asks_none; repeat constructor; done]).
Qed.

Lemma performance_for_apart due duration d : pm_halted d = false -> apart d (appPowerPerformanceProfileRequestDuration due duration d).
Proof.
  intros Hh. unfold appPowerPerformanceProfileRequestDuration, pm_seq. destruct due as [due |].
  - cbn [pm_skip fst snd]. rewrite Hh. cbn. split_and!; [done | done | done | apply asks_none; by repeat constructor].
  - destruct (performance_apart d Hh) as (H1 & H2 & H3 & H4). set (r := appPowerPerformanceProfileRequest d) in *. clearbody r.
    destruct (pm_halted (fst r)); [done |]. cbn [pm_emit fst snd]. split_and!; [done | done | unfold told in *; cbn [snd]; by rewrite flat_map_app, H3 |].
    intros [Ha | Ha]%asks_app; [done | by apply asks_none in Ha; [| repeat constructor]].
Qed.

Lemma relinquish_apart d : pm_halted d = false -> apart d (appPowerPerformanceProfileRelinquish d).
Proof.
  intros Hh. destruct d as [cs n st dm us ic h]. cbn in Hh. subst. unfold appPowerPerformanceProfileRelinquish, pm_seq, pm_if, pm_emit, pm_set, pm_skip.
  cbn [performance_req_count pm_halted field_set fst snd]. destruct (0 <? n); cbn -[asks_shutdown]; [destruct (n - 1 =? 0) |]; cbn -[asks_shutdown];
    (split_and!; [done | done | done | apply asks_none; repeat constructor; done]).
Qed.

(** Who still owes an answer after a step: those that did, or are told now,
    but the one that answers or leaves. *)
Definition owes (o : pm_op) (t : Z) : bool := match o with PmShutdownResponse task | PmUnregister task => negb (t =? task) | _ => true end.
Definition owed_step (o : pm_op) (outs : list pm_out) (w : list Z) : list Z := filter (fun t => owes o t = true) (w ++ told outs).

Lemma step_contract o d : pm_halted d = false -> pm_good d -> contract e (fun t => owes o t = true) d (pm_step e o d).
Proof.
  intros Hh Hg. unfold pm_step. rewrite Hh.
  assert (forall r, contract e (fun _ => True) d r -> contract e (fun t => true = true) d r) as Htrue.
  { intros r (H1 & H2 & H3). split; [exact H1 |]. split; [| exact H3]. intros t. rewrite H2. tauto. }
  assert (forall task r, contract e (fun t => t <> task) d r -> contract e (fun t => negb (t =? task) = true) d r) as Hne.
  { intros task r (H1 & H2 & H3). split; [exact H1 |]. split; [| exact H3]. intros t. by rewrite H2, negb_true_iff, Z.eqb_neq. }
  destruct o as [| | | | task | task | task | task | task | task | task | | due duration |]; cbn [owes]; first [apply Hne | apply Htrue].
  - by apply event_contract.
  - by apply init_complete_contract.
  - apply apart_contract; [done | done |]. split_and!; [done | done | done | apply asks_none; by repeat constructor].
  - by apply request_contract.
  - by apply register_contract.
  - by apply unregister_contract.
  - by apply group_contract.
  - by apply allow_contract.
  - by apply prohibit_contract.
  - by apply shutdown_response_contract.
  - by apply sleep_response_contract.
  - by apply apart_contract, performance_apart.
  - by apply apart_contract, performance_for_apart.
  - by apply apart_contract, relinquish_apart.
Qed.
End ops.

(** * Runs from the start *)
Definition pm_start : powerTaskData := fst appPowerInit.

Fixpoint pm_owed (os : list (pm_env * pm_op)) (d : powerTaskData) (w : list Z) : list Z :=
  match os with
  | [] => w
  | (e, o) :: os => let r := pm_step e o d in pm_owed os (fst r) (owed_step o (snd r) w)
  end.

Lemma step_good e o d : pm_good d -> pm_good (fst (pm_step e o d)).
Proof. intros Hg. destruct (pm_halted d) eqn:Eh; [unfold pm_step; by rewrite Eh |]. apply (step_contract e o d Eh Hg). Qed.

Lemma run_good os d : pm_good d -> pm_good (fst (pm_run os d)).
Proof. revert d. induction os as [| [e o] os IH]; intros d Hd; cbn [pm_run fst]; [exact Hd |]. by apply IH, step_good. Qed.

Lemma run_app os os' d : fst (pm_run (os ++ os') d) = fst (pm_run os' (fst (pm_run os d))).
Proof. revert d. induction os as [| [e o] os IH]; intros d; cbn [app pm_run fst]; [done | apply IH]. Qed.
Lemma owed_app os os' d w : pm_owed (os ++ os') d w = pm_owed os' (fst (pm_run os d)) (pm_owed os d w).
Proof. revert d w. induction os as [| [e o] os IH]; intros d w; cbn [app pm_run pm_owed fst]; [done | apply IH]. Qed.

Lemma owed_flagged e o d w : pm_halted d = false -> pm_good d -> (forall t, t ∈ w <-> t ∈ flagged 1 d) ->
  forall t, t ∈ owed_step o (snd (pm_step e o d)) w <-> t ∈ flagged 1 (fst (pm_step e o d)).
Proof.
  intros Hh Hg Hw t. destruct (step_contract e o d Hh Hg) as (_ & Hf & _). rewrite Hf. unfold owed_step. rewrite list_elem_of_filter, elem_of_app, Hw. tauto.
Qed.

Lemma halted_stays os d : pm_halted d = true -> pm_run os d = (d, []).
Proof. intros Hh. induction os as [| [e o] os IH]; cbn [pm_run]; [done |]. unfold pm_step. rewrite Hh. cbn [fst snd]. by rewrite IH. Qed.

Lemma run_owed os d w : pm_good d -> (forall t, t ∈ w <-> t ∈ flagged 1 d) -> pm_halted (fst (pm_run os d)) = false ->
  forall t, t ∈ pm_owed os d w <-> t ∈ flagged 1 (fst (pm_run os d)).
Proof.
  revert d w. induction os as [| [e o] os IH]; intros d w Hg Hw Hh; cbn [pm_run pm_owed fst] in *; [exact Hw |].
  destruct (pm_halted d) eqn:Eh.
  { exfalso. assert (pm_step e o d = (d, [])) as E by (unfold pm_step; by rewrite Eh). rewrite E in Hh. cbn [fst] in Hh. rewrite (halted_stays os d Eh) in Hh. cbn in Hh. by rewrite Eh in Hh. }
  apply IH; [by apply step_good | by apply owed_flagged | exact Hh].
Qed.

(** [C5] Whatever the clients and the hardware do, the manager shuts the
    device down only when every client that was told to prepare for it has
    answered or left, and only while the charger allows it. *)
Theorem shutdown_only_ready os e o : asks_shutdown (snd (pm_step e o (fst (pm_run os pm_start)))) ->
  pm_owed (os ++ [(e, o)]) pm_start [] = [] /\ charger_can_power_off e = true.
Proof.
  set (d := fst (pm_run os pm_start)). intros Ha. assert (pm_good pm_start) as H0 by done. pose proof (run_good os pm_start H0) as Hg. fold d in Hg.
  destruct (pm_halted d) eqn:Eh; [unfold pm_step in Ha; rewrite Eh in Ha; by apply asks_none in Ha |].
  destruct (step_contract e o d Eh Hg) as (_ & _ & Hc). destruct (Hc Ha) as [H1 H2]. split; [| exact H2].
  rewrite owed_app. fold d. cbn [pm_owed]. set (w := pm_owed os pm_start []).
  assert (forall t, t ∈ w <-> t ∈ flagged 1 d) as Hw by (apply (run_owed os pm_start []); done).
  pose proof (owed_flagged e o d w Eh Hg Hw) as Hx. rewrite H1 in Hx. destruct (owed_step _ _ _) as [| t l]; [done |].
  assert (t ∈ (@nil Z)) as Hin by (apply Hx; by left). by apply not_elem_of_nil in Hin.
Qed.

(** * The answers come *)
Section answers.
Context (e : pm_env).

Definition answers (tasks : list Z) : list (pm_env * pm_op) := (fun t => (e, PmShutdownResponse t)) <$> tasks.

(** Answers outside the state change nothing. *)
Lemma late_answers tasks d : pm_state d <> POWER_STATE_TERMINATING_CLIENTS_NOTIFIED \/ pm_halted d = true -> pm_run (answers tasks) d = (d, []).
Proof.
  intros Hs. destruct (pm_halted d) eqn:Eh; [by apply halted_stays |]. destruct Hs as [Hs | ?]; [| done].
  unfold answers. induction tasks as [| t tasks IH]; cbn [fmap list_fmap pm_run]; [done |]. unfold pm_step. rewrite Eh.
  unfold appPowerShutdownPrepareResponse, prepare_response. rewrite bool_decide_eq_false_2 by done. cbn [fst snd]. by rewrite IH.
Qed.

(** Once all who owe one have answered, the manager goes on, in a state that
    differs from [d] in the flags only. *)
Definition differs_in_flags (d d' : powerTaskData) : Prop := exists cs, fst <$> cs = pm_tasks d /\ d' = d <| pm_clients := cs |>.

Lemma differs_refl d : differs_in_flags d d.
Proof. exists (pm_clients d). split; [done |]. by destruct d. Qed.

Lemma answers_go_on tasks : forall d, pm_good d -> pm_halted d = false -> pm_state d = POWER_STATE_TERMINATING_CLIENTS_NOTIFIED ->
  (forall t, t ∈ flagged 1 d -> t ∈ tasks) ->
  exists d', differs_in_flags d d' /\ pm_run (answers tasks) d = set_terminating_responded e d'.
Proof.
  induction tasks as [| task tasks IH]; intros d Hg Hh Hs Hall.
  { pose proof (Hg Hh) as H0. rewrite Hs in H0. destruct H0 as [H1 _]. destruct H1. apply flagged_nil. intros t Ht. specialize (Hall t Ht). by apply not_elem_of_nil in Hall. }
  destruct (shutdown_response_contract e task d Hh Hg) as (Hg' & Hf & _). pose proof (shutdown_response_told e task d Hh) as Ht.
  assert (pm_step e (PmShutdownResponse task) d = appPowerShutdownPrepareResponse e task d) as Hstep by (unfold pm_step; by rewrite Hh).
  unfold answers. cbn [fmap list_fmap pm_run]. rewrite Hstep. clear Hstep.
  unfold appPowerShutdownPrepareResponse, prepare_response in *. rewrite bool_decide_eq_true_2 in * by done. cbn [fst snd appPowerClearFlagInClient] in *.
  set (d1 := change_client task _ d) in *. assert (pm_state d1 = POWER_STATE_TERMINATING_CLIENTS_NOTIFIED) as Hs1 by exact Hs.
  assert (differs_in_flags d d1) as Hd1 by (exists (pm_clients d1); split; [exact (tasks_change task _ d) | by destruct d]).
  destruct (is_client task d && _) eqn:E.
  - exists d1. split; [exact Hd1 |]. cbn [appPowerSetState]. set (r := set_terminating_responded e d1).
    assert (pm_run (answers tasks) (fst r) = (fst r, [])) as Hr.
    { apply late_answers. unfold r. rewrite (responded_spec e d1 Hh Hs1). cbv zeta. destruct (appPowerNeedsToPowerOff e d1); [| by left].
      destruct (user_initiated_shutdown d1); [destruct (shutdown_returns e) | destruct (emergency_returns e)]; first [by left | by right]. }
    fold (answers tasks). rewrite Hr. cbn [fst snd]. rewrite app_nil_r. symmetry. apply surjective_pairing.
  - cbn [fst snd] in *. destruct (IH d1 Hg' Hh Hs1) as (d' & (cs & Hcs & ->) & Hrun).
    + intros t Hin. apply Hf in Hin as [[Hin | Hin] Hne]; [| rewrite Ht in Hin; by apply not_elem_of_nil in Hin]. specialize (Hall t Hin). apply elem_of_cons in Hall as [-> | Hall]; done.
    + fold (answers tasks). rewrite Hrun. eexists. split; [exists cs; split; [exact (eq_trans Hcs (tasks_change task _ d)) | reflexivity] |]. cbn [app].
      assert (d1 <| pm_clients := cs |> = d <| pm_clients := cs |>) as -> by (by destruct d). symmetry. apply surjective_pairing.
Qed.

End answers.

(** [C11] While the manager waits for the clients, the answers of all of them,
    in any order and with any repetition, end the wait: the device is shut
    down, as the user or the battery demanded, if it still needs to be; or else
    the manager is on again and every client is told that the shutdown is
    cancelled. *)
Theorem answers_end_wait os e tasks : let d := fst (pm_run os pm_start) in
  pm_halted d = false -> pm_state d = POWER_STATE_TERMINATING_CLIENTS_NOTIFIED -> (forall t, t ∈ pm_tasks d -> t ∈ tasks) ->
  let r := pm_run (answers e tasks) d in
  if appPowerNeedsToPowerOff e d then (if user_initiated_shutdown d then PM_SHUTDOWN else PM_EMERGENCY_SHUTDOWN) ∈ snd r
  else pm_state (fst r) = POWER_STATE_OK /\ PM_TO_ALL (pm_tasks d) APP_POWER_SHUTDOWN_CANCELLED_IND ∈ snd r.
Proof.
  intros d Hh Hs Hall r. assert (pm_good d) as Hg by (by apply run_good).
  destruct (answers_go_on e tasks d Hg Hh Hs) as (d' & (cs & Hcs & ->) & Hr).
  { intros t Ht. apply Hall. unfold flagged in Ht. apply list_elem_of_fmap in Ht as (c & -> & Hc). apply list_elem_of_filter in Hc as [_ Hc]. apply list_elem_of_fmap. by exists c. }
  subst r. rewrite Hr, (responded_spec e (d <| pm_clients := cs |>)) by done. cbv zeta.
  change (appPowerNeedsToPowerOff e (d <| pm_clients := cs |>)) with (appPowerNeedsToPowerOff e d).
  change (user_initiated_shutdown (d <| pm_clients := cs |>)) with (user_initiated_shutdown d).
  change (pm_tasks (d <| pm_clients := cs |>)) with (fst <$> cs). rewrite Hcs.
  destruct (appPowerNeedsToPowerOff e d); [| split; [done | by left]].
  destruct (user_initiated_shutdown d); [destruct (shutdown_returns e) | destruct (emergency_returns e)]; by left.
Qed.

(** * With the system state *)

(** A call of the shutdown returns when the system state rejects it: the last
    step of the headset's table, accepted, does not. *)
Definition with_system (s : system_state_ctx_t) (e : pm_env) : pm_env :=
  mkpmenv (charger_can_power_off e) (charger_can_dormant e) (region_unsafe e) (temperature_extreme e)
    (negb (fst (SystemState_Shutdown s))) (emergency_returns e) (sleep_returns e).

Definition system_act (s : system_state_ctx_t) (o : pm_out) : system_state_ctx_t :=
  match o with
  | PM_SHUTDOWN => fst (snd (SystemState_Shutdown s))
  | PM_EMERGENCY_SHUTDOWN => fst (snd (SystemState_EmergencyShutdown s))
  | PM_SLEEP => fst (snd (SystemState_Sleep s))
  | _ => s
  end.

(** The manager and the system state. *)
Fixpoint system_run (os : list (pm_env * pm_op)) (d : powerTaskData) (s : system_state_ctx_t) : powerTaskData * system_state_ctx_t :=
  match os with
  | [] => (d, s)
  | (e, o) :: os => let r := pm_step (with_system s e) o d in system_run os (fst r) (fold_left system_act (snd r) s)
  end.

(** While the system state stays, this is the run of the manager alone. *)
Lemma system_run_answers e tasks : forall d s, pm_good d -> pm_halted d = false -> pm_state d = POWER_STATE_TERMINATING_CLIENTS_NOTIFIED ->
  (forall t, t ∈ flagged 1 d -> t ∈ tasks) ->
  let r := pm_run (answers (with_system s e) tasks) d in
  system_run ((fun t => (e, PmShutdownResponse t)) <$> tasks) d s = (fst r, fold_left system_act (snd r) s).
Proof.
  assert (forall tasks d s, pm_state d <> POWER_STATE_TERMINATING_CLIENTS_NOTIFIED \/ pm_halted d = true ->
    system_run ((fun t => (e, PmShutdownResponse t)) <$> tasks) d s = (d, s)) as Hlate.
  { clear tasks. intros tasks d s Hs. revert s. induction tasks as [| t tasks IH]; intros s; cbn [fmap list_fmap system_run]; [done |].
    pose proof (late_answers (with_system s e) [t] d Hs) as Hl. cbn [answers fmap list_fmap pm_run] in Hl.
    destruct (pm_step (with_system s e) (PmShutdownResponse t) d) as [d1 outs]. cbn [fst snd] in Hl. rewrite app_nil_r in Hl. injection Hl as -> ->. apply IH. }
  induction tasks as [| task tasks IH]; intros d s Hg Hh Hs Hall; [done |].
  destruct (shutdown_response_contract (with_system s e) task d Hh Hg) as (Hg' & Hf & _). pose proof (shutdown_response_told (with_system s e) task d Hh) as Ht.
  assert (pm_step (with_system s e) (PmShutdownResponse task) d = appPowerShutdownPrepareResponse (with_system s e) task d) as Hstep by (unfold pm_step; by rewrite Hh).
  unfold answers. cbn [fmap list_fmap pm_run system_run]. rewrite Hstep. clear Hstep. cbv zeta.
  unfold appPowerShutdownPrepareResponse, prepare_response in *. rewrite bool_decide_eq_true_2 in * by done. cbn [fst snd appPowerClearFlagInClient] in *.
  set (d1 := change_client task _ d) in *. assert (pm_state d1 = POWER_STATE_TERMINATING_CLIENTS_NOTIFIED) as Hs1 by exact Hs.
  destruct (is_client task d && _) eqn:E.
  - cbn [appPowerSetState] in *. set (r := set_terminating_responded (with_system s e) d1) in *.
    assert (pm_state (fst r) <> POWER_STATE_TERMINATING_CLIENTS_NOTIFIED \/ pm_halted (fst r) = true) as Hr.
    { unfold r. rewrite (responded_spec (with_system s e) d1 Hh Hs1). cbv zeta. destruct (appPowerNeedsToPowerOff _ d1); [| by left].
      destruct (user_initiated_shutdown d1); [destruct (shutdown_returns _) | destruct (emergency_returns _)]; first [by left | by right]. }
    fold (answers (with_system s e) tasks). rewrite (late_answers _ _ _ Hr), Hlate by exact Hr. cbn [fst snd]. by rewrite app_nil_r.
  - cbn [fst snd app fold_left] in *. apply (IH d1 s Hg' Hh Hs1).
    intros t Hin. apply Hf in Hin as [[Hin | Hin] Hne]; [| rewrite Ht in Hin; by apply not_elem_of_nil in Hin]. specialize (Hall t Hin). apply elem_of_cons in Hall as [-> | Hall]; done.
Qed.

(** [C21] A request to power off that the charger allows, answered by all the
    clients, runs the shutdown of the system state in limbo, and the device is
    off; in any other state of the system nothing is run, and the manager is on
    again. *)
Theorem power_off_request os e tasks s : let d := fst (pm_run os pm_start) in
  pm_halted d = false -> pm_state d = POWER_STATE_OK -> pm_clients d <> [] -> charger_can_power_off e = true ->
  (forall t, t ∈ pm_tasks d -> t ∈ tasks) -> is_limbo_removed s = false ->
  let r := system_run ((e, PmOffRequest) :: ((fun t => (e, PmShutdownResponse t)) <$> tasks)) d s in
  if Z.land (SystemState_GetState s) system_state_limbo =? 0
  then pm_halted (fst r) = false /\ pm_state (fst r) = POWER_STATE_OK /\ snd r = s
  else pm_halted (fst r) = true /\ snd r = fst (begin_transition system_state_shutting_down system_state_powered_off T_SHUTDOWN s).
Proof.
  intros d Hh Hs Hne He Hall Hl r. assert (pm_good d) as Hg by (by apply run_good). set (e' := with_system s e).
  set (d1 := d <| user_initiated_shutdown := true |> <| pm_state := POWER_STATE_TERMINATING_CLIENTS_NOTIFIED |>).
  set (d2 := appPowerSetFlagInAllClients APP_POWER_SHUTDOWN_PREPARE_RESPONSE_PENDING d1).
  assert (pm_step e' PmOffRequest d = (d2, [PM_TO_ALL (pm_tasks d) APP_POWER_SHUTDOWN_PREPARE_IND; PM_TO_ALL (pm_tasks d2) POWER_OFF])) as Hreq.
  { unfold d2, d1. destruct d as [cs n st dm us ic h] eqn:Ed. cbn in Hh, Hs, Hne. subst. unfold pm_step, appPowerOffRequest, appPowerCanPowerOff. cbn [pm_halted].
    change (charger_can_power_off e') with (charger_can_power_off e). rewrite He. destruct cs as [| c cs]; done. }
  assert (pm_good d2) as Hg2 by (pose proof (step_good e' PmOffRequest d Hg) as H0; by rewrite Hreq in H0).
  subst r. cbn [system_run]. fold e'. rewrite Hreq. cbn [fst snd fold_left system_act].
  assert (forall t, t ∈ flagged 1 d2 -> t ∈ tasks) as Hall2.
  { intros t Ht. apply Hall. unfold flagged in Ht. apply list_elem_of_fmap in Ht as (c & -> & Hc). apply list_elem_of_filter in Hc as [_ Hc].
    rewrite <- (tasks_set_all APP_POWER_SHUTDOWN_PREPARE_RESPONSE_PENDING d). apply list_elem_of_fmap. by exists c. }
  rewrite (system_run_answers e tasks d2 s Hg2 Hh eq_refl Hall2). cbn [fst snd]. fold e'.
  destruct (answers_go_on e' tasks d2 Hg2 Hh eq_refl Hall2) as (d' & (cs & Hcs & ->) & ->).
  rewrite (responded_spec e' (d2 <| pm_clients := cs |>)) by done. cbv zeta.
  assert (appPowerNeedsToPowerOff e' (d2 <| pm_clients := cs |>) = true) as -> by (unfold appPowerNeedsToPowerOff, appPowerCanPowerOff; cbn; rewrite He; by destruct (temperature_extreme e)).
  change (user_initiated_shutdown (d2 <| pm_clients := cs |>)) with true. cbv iota. unfold e', with_system. cbn [shutdown_returns].
  unfold SystemState_Shutdown, systemState_InitiateTransiton. rewrite Hl. destruct (Z.land (SystemState_GetState s) system_state_limbo =? 0) eqn:El; cbn [fst snd negb fold_left system_act].
  - split; [exact Hh |]. split; [done |]. unfold SystemState_Shutdown, systemState_InitiateTransiton. by rewrite Hl, El.
  - split; [done |]. unfold SystemState_Shutdown, systemState_InitiateTransiton. by rewrite Hl, El.
Qed.

(** ** Where it does not *)

(** Asleep as the headset's system state is, at once and with no step, the
    manager stays as it is whatever comes, and refuses to power off. *)
Lemma asleep_for_good os : forall d, pm_state d = POWER_STATE_SOPORIFIC_CLIENTS_RESPONDED -> pm_halted d = false ->
  pm_state (fst (pm_run os d)) = POWER_STATE_SOPORIFIC_CLIENTS_RESPONDED /\
  forall e, fst (appPowerOffRequest e (fst (pm_run os d))) = false.
Proof.
  assert (forall d, pm_state d = POWER_STATE_SOPORIFIC_CLIENTS_RESPONDED -> forall e, fst (appPowerOffRequest e d) = false) as Hreq.
  { intros d Hs e. unfold appPowerOffRequest. rewrite Hs. by destruct (appPowerCanPowerOff e). }
  induction os as [| [e o] os IH]; intros d Hs Hh; cbn [pm_run fst]; [split; [exact Hs | by apply Hreq] |].
  assert (forall d', pm_halted d' = true -> pm_state d' = POWER_STATE_SOPORIFIC_CLIENTS_RESPONDED ->
    pm_state (fst (pm_run os d')) = POWER_STATE_SOPORIFIC_CLIENTS_RESPONDED /\ forall e, fst (appPowerOffRequest e (fst (pm_run os d'))) = false) as Hhalt.
  { intros d' Hh' Hs'. rewrite halted_stays by done. split; [exact Hs' | by apply Hreq]. }
  assert (pm_state (fst (pm_step e o d)) = POWER_STATE_SOPORIFIC_CLIENTS_RESPONDED) as Hs'.
  { unfold pm_step. rewrite Hh. destruct d as [cs n st dm us ic h]. cbn in Hs, Hh. subst.
    destruct o as [| | | | task | task | task | task | task | task | task | | due duration |]; try done.
    - unfold appPowerOffRequest. by destruct (appPowerCanPowerOff e).
    - unfold appPowerClientRegister. by destruct (is_client task _).
    - cbn. unfold powerManager_RegisterMessageGroup, pm_seq, appPowerClientRegister. by destruct (is_client task _).
    - unfold appPowerPerformanceProfileRequest, pm_seq, pm_if. cbn -[u32]. destruct (n =? 0); cbn -[u32]; by destruct (u32 (n + 1) =? 0).
    - unfold appPowerPerformanceProfileRequestDuration, appPowerPerformanceProfileRequest, pm_seq, pm_if. destruct due; [done |].
      cbn -[u32]. destruct (n =? 0); cbn -[u32]; by destruct (u32 (n + 1) =? 0).
    - unfold appPowerHandleMessage, appPowerPerformanceProfileRelinquish, pm_seq, pm_if. cbn. destruct (0 <? n); [| done]. cbn. by destruct (n - 1 =? 0). }
  destruct (pm_halted (fst (pm_step e o d))) eqn:E; [by apply Hhalt | by apply IH].
Qed.

(** The shutdown that the manager asks for during the initialisation, of
    which the code says that it does not return, is rejected: the system state
    is not limbo then, and the start goes on. *)
Lemma init_shutdown_rejected e d s : pm_halted d = false -> pm_state d = POWER_STATE_INIT -> appPowerNeedsToPowerOff e d = true ->
  sys_state s = system_state_initialisation ->
  pm_step (with_system s e) PmEvent d = (ok_of d, [PM_SHUTDOWN; PM_INIT_CFM]) /\ fold_left system_act [PM_SHUTDOWN; PM_INIT_CFM] s = s.
Proof.
  intros Hh Hs Hn Hi. assert (SystemState_Shutdown s = (false, (s, [SYSTEM_LOG]))) as Hr.
  { unfold SystemState_Shutdown, systemState_InitiateTransiton, SystemState_GetState. rewrite Hi. by destruct (is_limbo_removed s). }
  split; [| cbn; by rewrite Hr]. unfold pm_step. rewrite Hh. cbn [appPowerHandleMessage]. rewrite (init_event_spec _ _ Hh Hs).
  change (appPowerNeedsToPowerOff (with_system s e) d) with (appPowerNeedsToPowerOff e d). rewrite Hn. cbn. by rewrite Hr.
Qed.

(** * Runs

    Two clients register, and the user asks for power-off. *)
Definition calm_env : pm_env := mkpmenv true false false false false true true.
Definition flat_env : pm_env := mkpmenv true false true false false true true.
Definition plugged_env : pm_env := mkpmenv false false true false false true true.
Definition two_clients : list (pm_env * pm_op) :=
  [(calm_env, PmEvent); (calm_env, PmRegister 1); (calm_env, PmRegisterGroup 2); (calm_env, PmInitComplete)].
Definition asked_off : list (pm_env * pm_op) := two_clients ++ [(calm_env, PmOffRequest); (calm_env, PmRegister 3); (calm_env, PmShutdownResponse 2)].

Lemma shutdown_only_ready_witness :
  asks_shutdown (snd (pm_step calm_env (PmUnregister 1) (fst (pm_run (asked_off ++ [(calm_env, PmShutdownResponse 3)]) pm_start)))) /\
  pm_owed ((asked_off ++ [(calm_env, PmShutdownResponse 3)]) ++ [(calm_env, PmUnregister 1)]) pm_start [] = [] /\ charger_can_power_off calm_env = true.
Proof.
  assert (asks_shutdown (snd (pm_step calm_env (PmUnregister 1) (fst (pm_run (asked_off ++ [(calm_env, PmShutdownResponse 3)]) pm_start))))) as Ha
    by (left; vm_compute; left).
  split; [exact Ha |]. exact (shutdown_only_ready _ _ _ Ha).
Defined.

(** The battery is flat; the charger comes before the answers. *)
Definition flat_battery : list (pm_env * pm_op) := two_clients ++ [(flat_env, PmEvent)].
Lemma answers_end_wait_witness :
  let d := fst (pm_run flat_battery pm_start) in
  let r := pm_run (answers plugged_env [2; 2; 1]) d in
  if appPowerNeedsToPowerOff plugged_env d then (if user_initiated_shutdown d then PM_SHUTDOWN else PM_EMERGENCY_SHUTDOWN) ∈ snd r
  else pm_state (fst r) = POWER_STATE_OK /\ PM_TO_ALL (pm_tasks d) APP_POWER_SHUTDOWN_CANCELLED_IND ∈ snd r.
Proof.
  apply (answers_end_wait flat_battery plugged_env [2; 2; 1]); [reflexivity | reflexivity |].
  vm_compute. intros t Ht. apply elem_of_cons in Ht as [-> | Ht]; [do 2 right; left |]. apply elem_of_cons in Ht as [-> | Ht]; [left | by inversion Ht].
Defined.

Lemma power_off_request_witness :
  let s := default SystemState_Init (sys_run [SysInitialise; SysMessage 7; SysMessage 8; SysStartUp] (headset_system some_init)) in
  let r := system_run ((calm_env, PmOffRequest) :: ((fun t => (calm_env, PmShutdownResponse t)) <$> [1; 2])) (fst (pm_run two_clients pm_start)) s in
  if Z.land (SystemState_GetState s) system_state_limbo =? 0
  then pm_halted (fst r) = false /\ pm_state (fst r) = POWER_STATE_OK /\ snd r = s
  else pm_halted (fst r) = true /\ snd r = fst (begin_transition system_state_shutting_down system_state_powered_off T_SHUTDOWN s).
Proof.
  apply (power_off_request two_clients calm_env [1; 2]); [reflexivity | reflexivity | discriminate | reflexivity | | vm_compute; reflexivity].
  vm_compute. intros t Ht. apply elem_of_cons in Ht as [-> | Ht]; [left |]. apply elem_of_cons in Ht as [-> | Ht]; [right; left | by inversion Ht].
Defined.

(** The system is in limbo there, and the device is off at the end. *)
Example off_in_limbo :
  let s := default SystemState_Init (sys_run [SysInitialise; SysMessage 7; SysMessage 8; SysStartUp] (headset_system some_init)) in
  SystemState_GetState s = system_state_limbo /\
  pm_halted (fst (system_run ((calm_env, PmOffRequest) :: ((fun t => (calm_env, PmShutdownResponse t)) <$> [1; 2])) (fst (pm_run two_clients pm_start)) s)) = true.
Proof. vm_compute. by split. Qed.
